(* ===== verification/_CoqProject ===== *)
-Q . S2P
Prelude.v
CTypes.v
Sync.v
Format.v
Errors.v
Log.v
Protocol.v
Net.v
NetQuery.v
NetAddr.v
ProtocolIO.v
Auth.v
UsbHost.v
UsbDefs.v
ProtocolTests.v
DeviceList.v
UrbQueue.v
UrbHandler.v
QueueThreads.v
LinkedHandler.v
ClientManager.v
Typing.v
AttachRace.v
Handover.v
Server.v
ServerMain.v
UsbDescriptors.v
Vhci.v
Discovery.v
GuiLayout.v
GuiCommon.v
GuiServer.v
RemoteDevice.v
EndToEnd.v
ClientMain.v
GuiClient.v
GuiWindows.v
GuiMain.v
ListView.v
GuiDisplay.v
Console.v
