(* ===== verification/Prelude.v ===== *)
(** * USB Over Network: a verification development

    This library models the C program in [src/] (a USB/IP server and client for
    Windows) and proves what makes it correct.  Read this header first; every file
    opens with a shorter one.

    ** The program and its parts

    The server shares the USB devices of its machine.  [server/usb_host_win32.c]
    enumerates the devices through the Windows device installation API and executes
    transfers through WinUSB.  [server/device_list.c] keeps what is shared and what is in
    use.  [server/client_manager.c] keeps the connected clients; a client asks for the
    list of devices or imports one, which opens the device and gives the client a URB
    handler ([server/urb_handler.c]): a pending queue, a completed queue and a worker
    thread between them.  [server/main.c] accepts a client, authenticates it
    ([common/auth.c]), runs its session until it ends, and removes it.

    The client ([client/main.c]) finds servers ([client/discovery.c], answered by the
    listener in [gui/server_gui.c]), lists and imports their devices
    ([client/remote_device.c]), and hands the connection to a kernel driver as one of
    its ports ([client/vhci_win32.c]).

    Both speak the packed structures of [common/protocol.h] over
    [common/network_win32.c], and log through [common/log.c].

    Each has a graphical program too: [gui/server_gui.c], which serves each client in a
    thread of its own, and [gui/client_gui.c], which attaches devices by the check
    boxes of a list; they share [gui/gui_common.c].

    ** Files, and the code they model

    Shared layers.
    - [Prelude]: the notations, the state monad [M], list lemmas, the tactics
      ([cases], [mret_eq], [mrun], ...) and the hint database [usbip].
    - [CTypes]: integers at their width ([wrap], [sint]), byte order and [str_copy]
      ([common/types.h], [common/string_utils.h]).  [Sync]: the threads, recursive mutexes
      and auto-reset events of [common/types.h].  [Format]: the conversions of
      [printf] and [sscanf] that the program uses, [atoi], [strcmp] on options.
    - [Errors]: [common/error.h], [common/error.c].  [Log]: [common/log.c].
    - [Protocol]: the structures, their bytes ([CStruct], with laws), the
      constructors, the in-place byte-order conversions and validators of
      [common/protocol.c].  [ProtocolTests]: the checks of
      [tests/test_protocol.c] on them.  [ProtocolIO]: its sending and receiving functions.
    - [Net]: [common/network_win32.c] over the class [Winsock]; [NetAddr]: its part
      on adapters and addresses; [NetQuery]: the questions about a socket.  [Auth]: [common/auth.c].

    Server.
    - [UsbHost]: [server/usb_host.h], [server/usb_host_win32.c] over the class [WinUsb].
      [UsbDefs]: the descriptors and address macros of [common/usb_defs.h].
    - [DeviceList]: [server/device_list.c].
    - [UrbQueue]: the linked queues of [server/urb_handler.c] on a heap of cells.
      [UrbHandler]: the handler over lists, and the worker thread as an interleaving
      step relation.  [QueueThreads]: the statements of the queue functions as steps of
      threads that share the heap, the queue's lock and its event.  [LinkedHandler]: the
      whole handler on allocated, linked and freed entries, a refinement of [UrbHandler].
    - [ClientManager]: [server/client_manager.c].  [AttachRace]: its attachment cut into
      the steps between which another thread runs.  [Handover]: its detachment too, and
      clients that come and go.
    - [Typing]: a typing judgement for the messages the server and the client make.
    - [Server], [ServerMain]: [server/main.c].
    - [UsbDescriptors]: the descriptor reads and the hotplug registration of
      [server/usb_host_win32.c].
    - [GuiServer]: the threads, the rows and the life of [gui/server_gui.c], as an
      interleaving step relation on the server's components.

    Client.
    - [Vhci]: [client/vhci_win32.c] over the class [VhciDriver].
    - [Discovery]: [client/discovery.c] and the listener of [gui/server_gui.c].
    - [RemoteDevice]: [client/remote_device.c].
    - [ClientMain]: [client/main.c].
    - [GuiClient]: [gui/client_gui.c], its window's messages as steps on the client's
      components.

    Both: [EndToEnd] runs the server's and the client's definitions against each
    other on one connection.  [GuiCommon]: the text conversions and the rows of
    [gui/gui_common.c], over the class [WideText].  [GuiLayout]: where the two windows put
    their controls, over the class [Screen].  [GuiWindows]: the window procedures and
    message loops, as steps that refine those of [GuiServer] and [GuiClient].
    [GuiMain]: columns, tray icon and the entry points of the graphical programs.
    [ListView]: the rows of both as the calls of [gui_common.c] fill them.  [GuiDisplay]: the
    texts of the client's window, as a state beside its handlers.
    [Console]: what the programs print.

    Definitions carry the names of the C functions, types and constants; a record's
    fields have a short prefix ([de_state] is [entry->state]).  PROJECT.json maps each
    of them to its lines.

    ** How C is represented

    - Integers are [Z], with [wrap w] or [sint w] where C converts or may overflow.
      A string is the list of its bytes, read up to the first NUL by [cstr]; a buffer of
      [n] bytes filled by [str_copy] or [snprintf] keeps [n - 1] of them.
    - A pointer that may be NULL is an [option].  Objects that are shared by pointer
      have a location: a client's [cl_device] is the location of its entry in the device
      list ([entry_at]), so that the client and the list see one device; functions
      that assign through a pointer return the new structure.
    - Code that calls the system is in the monad [M S].  [N] is the state of the network,
      [U] of the USB stack, [D] of the driver; a function that uses two of them is in
      [M (N * U)] or [M (N * D)].
    - The system itself is not defined but described: [Winsock], [WinUsb] and
      [VhciDriver] are classes of the calls, and [WinsockLaws], [WinUsbLaws] and
      [VhciDriverLaws] state what the program relies on (a receive returns a prefix of
      the stream; a send takes a prefix of the buffer; which calls create and destroy
      descriptors and handles); [WideText], [WinUsbDescriptors] and [Screen] do the same
      for the conversions of text, the descriptor reads and the
      screen's resolution.  [Net.Sim], [UsbHost.SimUsb],
      [Vhci.SimVhci], [GuiCommon.SimText], [GuiLayout.SimScreen] and [UsbDescriptors.SimDescriptors] are
      executable instances that satisfy the laws; the witnesses run on them.
    - What the rest of the world decides (allocation, time, thread scheduling, what
      Windows reports) is an input: [attach_env], [iter_env], [accept_env],
      [init_env], [client_env], [log_env].
    - A lock that is taken and released within one function makes that function one
      step.  For the queues this is proved from their statements ([queue_linearizable]), not
      assumed.  [DeviceList] counts the recursive lock's depth.  Attaching takes no lock over
      its body; [AttachRace] says what that means, and [Handover] what such a lock would give.

    ** What is proved

    - Conservation and order of URBs, under every interleaving of the session and
      the worker: nothing is lost, duplicated or reordered ([urbs_conserved],
      [urbs_in_order]), stopping drains what is pending ([stop_drains]), an answer
      carries its command's identity ([return_answers_command]).
    - The handler's pointers: whatever threads use a queue, statement by statement, each
      call takes effect at once between its start and its end ([queue_linearizable]), every
      run of turns ends every call ([queue_threads_progress]) and a waiter sleeps only when
      the queue is empty or its event is set ([no_lost_wakeup]).  Every sequence of
      operations on the linked entries does what the list functions do
      ([linked_handler_refines]), and each entry that is allocated is in one queue, with
      its caller, or freed once ([linked_handler_owns_memory]).
    - The device list's invariant, and its refinement of an abstract map from bus ids
      to states ([device_list_invariant], [device_list_refines]).
    - The manager's invariant over every sequence of operations
      ([client_manager_consistent]); attachment with every error path undone, and
      detachment as its inverse ([attach_all_or_nothing], [attach_detach_roundtrip]).
    - Sessions end ([session_terminates]); the main loop and both programs leave no
      client, device, port or descriptor behind ([main_loop_at_rest],
      [server_leaves_nothing], [client_leaves_nothing]).
    - The client's device list, its sockets, the table of ports and the driver agree
      ([remote_devices_consistent], [vhci_lifecycle]); connecting fails completely or
      succeeds completely ([connect_all_or_nothing]), disconnecting is its inverse.
    - Attaching in steps is attaching at once when nothing comes between
      ([attach_steps_equivalent]); clients that attach different devices at the same time
      do not disturb each other ([attachments_independent]), clients that attach the same
      one can both succeed ([double_import]).  If only that cannot happen, devices are handed
      from client to client safely, however many come and go ([handovers_safe]).
    - The graphical programs: the server under every interleaving of its threads, the
      client under every sequence of events, keep these invariants and leave nothing
      open ([gui_server_consistent], [client_gui_consistent]); a check box shows whether
      its device is attached ([client_box_shows_attachment]).  The window procedures
      only do what these steps allow ([server_window_refines], [client_window_refines]), so
      that the programs leave nothing behind when they end
      ([gui_server_main_leaves_nothing], [gui_client_main_leaves_nothing]).  From which size
      on the layouts fit: [client_layout_fits], [server_layout_fits].  What the client's
      status bar, button and label say is true of its state ([client_display_truthful]).
    - Types: every structure that is built, received, stored or answered with has its
      fields in range and its size on the wire ([messages_well_typed]).
    - What is printed: the listings of each program agree with its state and with each
      other, and the names in them are the ones the command line takes
      ([server_listings_agree], [listed_device_attachable]).
    - The wire: encodings are inverse to decodings, partial transfers are completed
      ([net_recv_all_correct], [net_send_all_correct]), and what one side sends the
      other understands ([urb_message_end_to_end], [list_end_to_end],
      [import_end_to_end]).
    - Access control: the server goes on exactly when the token presented matches, as
      the code compares it ([auth_server_accepts_iff], [unauthenticated_rejected]).
    - Bounds: no transfer outside its buffer ([submit_urb_bounds]), no log message past
      its buffer ([log_buffers_suffice]), strings of descriptors in theirs, with one
      exception ([string_descriptor_bounds]); how many servers the client's box has room
      for ([discovery_message_bounds]).
    - Where the code does not do what it means to, a theorem says what it does
      ([control_in_not_control],
      [auth_overlong_token_prefix], [detach_command_no_request],
      [gui_second_import_leaks], [gui_urb_ends_session], [client_gui_token_lost],
      [gui_server_never_authenticates], [status_command_text], and the findings of
      PROJECT.json).

    ** Fuel and bounds

    - The retry loops of [Net] run on fuel computed from the state ([loop_fuel]: the
      bytes that are missing plus [ws_patience], the number of times the connection may
      still say that it would block); more fuel changes nothing, and this much is
      always enough, so that the functions are total.
    - The session, the main loop and the listener have one iteration per element of
      their input; [session_terminates] bounds the iterations by the bytes the client
      sends.  [Discovery.collect] has fuel for its clock: [discovery_terminates] says
      that there is always enough when the clock runs.
    - Loops over a list recurse on it, loops that empty one ([disconnect_loop],
      [detach_all_loop]) on its length, and parsing on the text.

    ** What is not modelled, and why

    - What Windows draws: window classes, styles, fonts.  In [GuiServer] a handler
      thread's iteration is one step, which leaves out interleavings inside a request
      ([AttachRace] and [Handover] have those of attaching and detaching); in [GuiClient]
      the discovery thread's run is one step.
    - Progress messages on the console.
    - The text of Windows error messages, an input of [Errors].
    - Declarations that no code uses: unused constants of the headers. *)

From Stdlib Require Export ZArith Lia.
From stdpp Require Export base tactics numbers list gmap.


(** ** Notations *)

Declare Scope usbip_scope.
Delimit Scope usbip_scope with usbip.

(** A possibly-NULL C pointer, as the value it points to. *)
Abbreviation ptr A := (option A) (only parsing).
Abbreviation NULL := None (only parsing).

(** [if (c) return r;] followed by the rest of the C function. *)
Notation "'return_if' c 'with' r ';;' k" := (if (c : bool) then r else k)
  (at level 10, c at level 99, r at level 99, k at level 200, only parsing) : usbip_scope.

Open Scope usbip_scope.
Open Scope Z_scope.

(** Raw memory: one integer per byte. *)
Abbreviation bytes := (list Z).

(** ** Definitions shared by the components *)

(** The first element of [l] that satisfies [f], and its position: what every
    [while (entry != NULL) { if (...) return entry; entry = entry->next; }]
    loop of the program computes. *)
Fixpoint find_first {A} (f : A -> bool) (l : list A) : option A :=
  match l with
  | [] => None
  | x :: l' => if f x then Some x else find_first f l'
  end.

(** Apply [g] to the first element that satisfies [f] (an assignment through
    the pointer such a loop returned). *)
Fixpoint update_first {A} (f : A -> bool) (g : A -> A) (l : list A) : list A :=
  match l with
  | [] => []
  | x :: l' => if f x then g x :: l' else x :: update_first f g l'
  end.

(** Unlink the first element that satisfies [f]. *)
Fixpoint remove_first {A} (f : A -> bool) (l : list A) : list A :=
  match l with
  | [] => []
  | x :: l' => if f x then l' else x :: remove_first f l'
  end.

(** ** A state monad

    Code that calls the operating system threads its state: [M S A] is a
    computation over the state [S] that returns an [A].  The notations are
    stdpp's ([x ← m; k], [m ;; k], [mret]). *)
Definition M (S A : Type) : Type := S -> A * S.

#[export] Instance M_ret S : MRet (M S) := fun A a s => (a, s).
#[export] Instance M_bind S : MBind (M S) := fun A B k m s => let '(a, s') := m s in k a s'.

(** A computation over one half of a state. *)
Definition lift_l {S T A} (m : M S A) : M (S * T) A := fun st =>
  let '(a, s') := m st.1 in (a, (s', st.2)).
Definition lift_r {S T A} (m : M T A) : M (S * T) A := fun st =>
  let '(a, t') := m st.2 in (a, (st.1, t')).

(** ** Automation *)

Create HintDb usbip.

(** Case analysis on every [match]/[if] of the goal, closing trivial branches. *)
Ltac cases :=
  repeat (case_match; simplify_eq/=; try done).

(** Turn boolean comparisons in the context into propositions. *)
Ltac bool_to_prop :=
  repeat match goal with
  | H : (_ && _)%bool = true |- _ => apply andb_prop in H; destruct H
  | H : (_ || _)%bool = false |- _ => apply orb_false_elim in H; destruct H
  | H : negb _ = true |- _ => apply negb_true_iff in H
  | H : negb _ = false |- _ => apply negb_false_iff in H
  | H : (_ =? _)%Z = true |- _ => apply Z.eqb_eq in H
  | H : (_ =? _)%Z = false |- _ => apply Z.eqb_neq in H
  | H : (_ <? _)%Z = true |- _ => apply Z.ltb_lt in H
  | H : (_ <? _)%Z = false |- _ => apply Z.ltb_ge in H
  | H : (_ <=? _)%Z = true |- _ => apply Z.leb_le in H
  | H : (_ <=? _)%Z = false |- _ => apply Z.leb_gt in H
  | H : bool_decide _ = true |- _ => apply bool_decide_eq_true in H
  | H : bool_decide _ = false |- _ => apply bool_decide_eq_false in H
  end.

(** Run a computation by one step: split the first bind of the goal. *)
Lemma M_bind_run {S A B} (m : M S A) (k : A -> M S B) s a s' :
  m s = (a, s') -> (m ≫= k) s = k a s'.
Proof. intros E. unfold mbind, M_bind. by rewrite E. Qed.

Lemma M_bind_inv {S A B} (m : M S A) (k : A -> M S B) s b s'' :
  (m ≫= k) s = (b, s'') -> exists a s', m s = (a, s') /\ k a s' = (b, s'').
Proof. unfold mbind, M_bind. destruct (m s) as [a s']. eauto. Qed.

Lemma lift_l_run {S T A} (m : M S A) (s : S) (t : T) a s' :
  m s = (a, s') -> lift_l m (s, t) = (a, (s', t)).
Proof. intros E. unfold lift_l. simpl. by rewrite E. Qed.

Lemma lift_l_inv {S T A} (m : M S A) (s : S) (t : T) a st :
  lift_l m (s, t) = (a, st) -> exists s', m s = (a, s') /\ st = (s', t).
Proof. unfold lift_l. simpl. destruct (m s) as [b s']. intros. simplify_eq. eauto. Qed.

Lemma lift_r_inv {S T A} (m : M T A) (s : S) (t : T) a st :
  lift_r m (s, t) = (a, st) -> exists t', m t = (a, t') /\ st = (s, t').
Proof. unfold lift_r. simpl. destruct (m t) as [b t']. intros. simplify_eq. eauto. Qed.

Ltac mret_eq := unfold mret, M_ret in *; simplify_eq/=.

Ltac mrun a s' E :=
  match goal with
  | |- context [@mbind _ _ _ _ ?k ?m ?s] =>
      destruct (m s) as [a s'] eqn:E; rewrite (M_bind_run m k s a s' E)
  end.

(** ** Generic lemmas *)

Section search.
  Context {A : Type} (f : A -> bool).
  Implicit Types l : list A.

Lemma find_first_Some l x :
  find_first f l = Some x -> x ∈ l /\ f x = true.
Proof.
  induction l as [|y l IH]; simpl; [done|].
  destruct (f y) eqn:E; intros; simplify_eq; [by split; [left|]|].
  destruct IH as [? ?]; [done|]. split; [by right|done].
Qed.

Lemma find_first_ext (g : A -> bool) l : (forall x, f x = g x) -> find_first f l = find_first g l.
Proof. intros E. induction l as [|y l IH]; simpl; [done|]. by rewrite E, IH. Qed.

Lemma find_first_None l :
  find_first f l = None <-> Forall (fun x => f x = false) l.
Proof.
  induction l as [|y l IH]; simpl; [by split|].
  rewrite Forall_cons. destruct (f y); [split; [done|by intros []]|].
  rewrite IH. split; [by split|by intros []].
Qed.

Lemma find_first_app l1 l2 :
  find_first f (l1 ++ l2) =
  match find_first f l1 with Some x => Some x | None => find_first f l2 end.
Proof. induction l1 as [|y l IH]; simpl; [done|]. by destruct (f y). Qed.

(** The split of the list at the element the loop stops on. *)
Lemma find_first_split l x :
  find_first f l = Some x ->
  exists l1 l2, l = l1 ++ x :: l2 /\ Forall (fun y => f y = false) l1 /\ f x = true.
Proof.
  induction l as [|y l IH]; simpl; [done|].
  destruct (f y) eqn:E; intros; simplify_eq.
  - exists [], l. done.
  - destruct IH as (l1 & l2 & -> & ? & ?); [done|].
    exists (y :: l1), l2. split_and!; [done|by constructor|done].
Qed.

Lemma update_first_split l1 x l2 g :
  Forall (fun y => f y = false) l1 -> f x = true ->
  update_first f g (l1 ++ x :: l2) = l1 ++ g x :: l2.
Proof.
  induction 1 as [|y l1 E _ IH]; simpl; intros Hx; [by rewrite Hx|].
  rewrite E. f_equal. auto.
Qed.

Lemma remove_first_split l1 x l2 :
  Forall (fun y => f y = false) l1 -> f x = true ->
  remove_first f (l1 ++ x :: l2) = l1 ++ l2.
Proof.
  induction 1 as [|y l1 E _ IH]; simpl; intros Hx; [by rewrite Hx|].
  rewrite E. f_equal. auto.
Qed.

Lemma update_first_None l g : find_first f l = None -> update_first f g l = l.
Proof.
  rewrite find_first_None. induction 1 as [|y l E _ IH]; simpl; [done|].
  rewrite E. by f_equal.
Qed.

Lemma remove_first_None l : find_first f l = None -> remove_first f l = l.
Proof.
  rewrite find_first_None. induction 1 as [|y l E _ IH]; simpl; [done|].
  rewrite E. by f_equal.
Qed.

Lemma length_update_first l g : length (update_first f g l) = length l.
Proof. induction l as [|y l IH]; simpl; [done|]. destruct (f y); simpl; lia. Qed.

Lemma length_remove_first l x :
  find_first f l = Some x -> length l = S (length (remove_first f l)).
Proof.
  intros (l1 & l2 & -> & H1 & Hx)%find_first_split.
  rewrite remove_first_split by done. rewrite !length_app. simpl. lia.
Qed.

Lemma find_update_first l g x :
  (forall y, f (g y) = f y) ->
  find_first f l = Some x -> find_first f (update_first f g l) = Some (g x).
Proof.
  intros Hg. induction l as [|y l IH]; simpl; [done|].
  destruct (f y) eqn:E; intros; simplify_eq/=.
  - by rewrite Hg, E.
  - rewrite E. auto.
Qed.

Lemma map_update_first {B} (h : A -> B) l g :
  (forall x, h (g x) = h x) -> map h (update_first f g l) = map h l.
Proof.
  intros Hh. induction l as [|y l IH]; simpl; [done|].
  destruct (f y); simpl; [by rewrite Hh|by rewrite IH].
Qed.

Lemma elem_of_remove_first l x : x ∈ remove_first f l -> x ∈ l.
Proof.
  induction l as [|y l IH]; simpl; [done|].
  destruct (f y); [by right|]. rewrite !elem_of_cons.
  intros [?|?]; [by left|by right; apply IH].
Qed.

Lemma elem_of_update_first l g x :
  x ∈ update_first f g l -> x ∈ l \/ exists y, y ∈ l /\ f y = true /\ x = g y.
Proof.
  induction l as [|y l IH]; simpl; [by left|].
  destruct (f y) eqn:E; rewrite !elem_of_cons; intros [->|Hx].
  - right. exists y. by rewrite elem_of_cons; auto.
  - left. by right.
  - left. by left.
  - destruct (IH Hx) as [?|(z & ? & ? & ?)]; [by left; right|].
    right. exists z. by rewrite elem_of_cons; auto.
Qed.
End search.

Lemma Forall_impl_in {A} (P Q : A -> Prop) l :
  Forall P l -> (forall x, x ∈ l -> P x -> Q x) -> Forall Q l.
Proof. rewrite !Forall_forall. auto. Qed.

Lemma elem_of_mid {A} (l1 l2 : list A) x : x ∈ l1 ++ x :: l2.
Proof. apply elem_of_app. right. by left. Qed.

Lemma elem_of_mid_ne {A} (l1 l2 : list A) x y : y ∈ l1 ++ x :: l2 <-> y = x \/ y ∈ l1 ++ l2.
Proof. rewrite !elem_of_app, elem_of_cons. tauto. Qed.

#[export] Hint Resolve elem_of_mid : usbip.

(** A stronger filter that misses an element keeps fewer. *)
Lemma filter_length_lt {A} (P Q : A -> Prop) `{!forall x, Decision (P x), !forall x, Decision (Q x)}
    (l : list A) x :
  (forall y, Q y -> P y) -> x ∈ l -> P x -> ~ Q x ->
  (length (filter Q l) < length (filter P l))%nat.
Proof.
  intros HQ Hx HP HnQ.
  assert (forall l, (length (filter Q l) <= length (filter P l))%nat) as Hle.
  { intros k. induction k as [|y k IH]; [done|]. rewrite !filter_cons.
    destruct (decide (Q y)); [rewrite decide_True by auto; simpl; lia|].
    destruct (decide (P y)); simpl; lia. }
  apply list_elem_of_split in Hx as (l1 & l2 & ->). rewrite !filter_app, !filter_cons, !length_app.
  rewrite decide_False by done. rewrite decide_True by done. simpl.
  pose proof (Hle l1). pose proof (Hle l2). lia.
Qed.

Lemma NoDup_drop {A} (l1 l2 : list A) x : NoDup (l1 ++ x :: l2) -> NoDup (l1 ++ l2).
Proof.
  rewrite !NoDup_app, NoDup_cons. intros (H1 & H2 & _ & H3). split_and!; [done| |done].
  intros y Hy Hin. apply (H2 y Hy). by right.
Qed.

#[export] Hint Rewrite @length_update_first : usbip.
#[export] Hint Resolve elem_of_remove_first : usbip.
