(* ===== verification/CTypes.v ===== *)
(** * Machine integers, byte order and C strings

    Models the platform layer of [common/types.h] (fixed-width integers and the
    byte-order macros over [htons]/[htonl]) and [common/string_utils.h].

    - A [uintN_t] is a [Z]; [wrap N] is its truncation, [sint N] the signed
      reading of the same bits.
    - The host is little-endian: [to_le n v] is the [n]-byte object
      representation of [v], [of_le] reads it back, and [to_be] is network
      order.
    - A [char] array is the list of its bytes, and a [char *] the list it points
      to; the C string it holds ends at the first zero byte ([cstr]). *)

From S2P Require Import Prelude.

(** ** Fixed-width integers *)

(** Conversion to an unsigned type of [w] bits. *)
Definition wrap (w x : Z) : Z := x mod 2 ^ w.

(** Two's-complement reading of the low [w] bits. *)
Definition sint (w x : Z) : Z :=
  let y := wrap w x in if y <? 2 ^ (w - 1) then y else y - 2 ^ w.

Definition is_u (w x : Z) : Prop := 0 <= x < 2 ^ w.

(** ** Object representation and byte order *)

Fixpoint to_le (n : nat) (v : Z) : bytes :=
  match n with
  | O => []
  | S n' => v mod 256 :: to_le n' (v / 256)
  end.

Fixpoint of_le (bs : bytes) : Z :=
  match bs with
  | [] => 0
  | b :: bs' => b + 256 * of_le bs'
  end.

Definition to_be (n : nat) (v : Z) : bytes := reverse (to_le n v).
Definition of_be (bs : bytes) : Z := of_le (reverse bs).

Definition is_byte (b : Z) : Prop := is_u 8 b.

(** Winsock's [htons]/[ntohs] and [htonl]/[ntohl] on a little-endian host: the
    value whose object representation is the argument in network order. *)
Definition htons (x : Z) : Z := of_le (to_be 2 x).
Definition htonl (x : Z) : Z := of_le (to_be 4 x).
Definition ntohs (x : Z) : Z := of_be (to_le 2 x).
Definition ntohl (x : Z) : Z := of_be (to_le 4 x).

(** The macros of types.h. *)
Definition htobe16 (x : Z) : Z := htons x.
Definition htobe32 (x : Z) : Z := htonl x.
Definition be16toh (x : Z) : Z := ntohs x.
Definition be32toh (x : Z) : Z := ntohl x.

Definition htobe64 (x : Z) : Z :=
  Z.lor (wrap 64 (Z.shiftl (htonl (wrap 32 (Z.land x 0xFFFFFFFF))) 32))
        (htonl (wrap 32 (Z.shiftr x 32))).

Definition be64toh (x : Z) : Z :=
  Z.lor (wrap 64 (Z.shiftl (ntohl (wrap 32 (Z.land x 0xFFFFFFFF))) 32))
        (ntohl (wrap 32 (Z.shiftr x 32))).

(** ** C strings *)

(** The characters up to the first NUL. *)
Fixpoint cstr (a : bytes) : bytes :=
  match a with
  | [] => []
  | c :: a' => if c =? 0 then [] else c :: cstr a'
  end.

(** [s[i]], reading the terminator past the last character. *)
Definition char_at (s : bytes) (i : nat) : Z := default 0 (s !! i).

Definition strlen (s : bytes) : Z := Z.of_nat (length (cstr s)).

(** [strcmp(a, b) == 0]. *)
Definition streq (a b : bytes) : bool := bool_decide (cstr a = cstr b).

(** [strncmp(a, b, n) == 0]. *)
Definition strneq (a b : bytes) (n : nat) : bool :=
  bool_decide (take n (cstr a) = take n (cstr b)).

(** The standard [strncpy(dst, src, n)]: pads with zeros up to [n], and does not
    terminate [dst] when [src] has [n] characters or more. *)
Definition strncpy (dst src : bytes) (n : nat) : bytes :=
  take n (cstr src ++ replicate n 0) ++ drop n dst.

(** [str_copy]: the [for] loop from index [i] with [n] iterations left. *)
Fixpoint str_copy_loop (n : nat) (i : nat) (dst src : bytes) : nat * bytes :=
  match n with
  | O => (i, dst)
  | S n' =>
      if char_at src i =? 0 then (i, dst)
      else str_copy_loop n' (S i) (<[i := char_at src i]> dst) src
  end.

Definition str_copy (dst src : bytes) (dst_size : nat) : bytes :=
  return_if Nat.eqb dst_size 0 with dst ;;
  let '(i, dst) := str_copy_loop (dst_size - 1) 0 dst src in
  <[i := 0]> dst.

(** [str_copy] into an array of [n] bytes, as the string it leaves
    ([cstr_str_copy]). *)
Definition copy_str (src : bytes) (n : nat) : bytes := take (n - 1) (cstr src).

(** ** Lemmas: fixed-width integers *)

Lemma wrap_small w x : is_u w x -> wrap w x = x.
Proof. intros [? ?]. by apply Z.mod_small. Qed.

Lemma is_u_wrap w x : 0 <= w -> is_u w (wrap w x).
Proof. intros Hw. apply Z.mod_pos_bound. by apply Z.pow_pos_nonneg. Qed.

Lemma sint_range w x : 0 < w -> - 2 ^ (w - 1) <= sint w x < 2 ^ (w - 1).
Proof.
  intros Hw. unfold sint.
  assert (2 ^ w = 2 * 2 ^ (w - 1)) as E by (rewrite <-Z.pow_succ_r by lia; f_equal; lia).
  destruct (is_u_wrap w x) as [H1 H2]; [lia|].
  destruct (wrap w x <? 2 ^ (w - 1)) eqn:E'; bool_to_prop; lia.
Qed.

Lemma wrap_sint w x : 0 < w -> wrap w (sint w x) = wrap w x.
Proof.
  intros Hw. unfold sint. destruct (_ <? _); unfold wrap.
  - by rewrite Z.mod_mod by (apply Z.pow_nonzero; lia).
  - replace (x mod 2 ^ w - 2 ^ w) with (x mod 2 ^ w + (-1) * 2 ^ w) by lia.
    rewrite Z.mod_add by (apply Z.pow_nonzero; lia).
    by rewrite Z.mod_mod by (apply Z.pow_nonzero; lia).
Qed.

Lemma sint_small w x : 0 < w -> - 2 ^ (w - 1) <= x < 2 ^ (w - 1) -> sint w (wrap w x) = x.
Proof.
  intros Hw Hx. unfold sint, wrap.
  assert (2 ^ w = 2 * 2 ^ (w - 1)) as E by (rewrite <-Z.pow_succ_r by lia; f_equal; lia).
  rewrite Z.mod_mod by (apply Z.pow_nonzero; lia).
  destruct (decide (0 <= x)).
  - rewrite Z.mod_small by lia. destruct (_ <? _) eqn:F; bool_to_prop; lia.
  - assert (x mod 2 ^ w = x + 2 ^ w) as ->.
    { symmetry. apply Z.mod_unique_pos with (-1); lia. }
    destruct (_ <? _) eqn:F; bool_to_prop; lia.
Qed.

#[export] Hint Rewrite wrap_small using done : usbip.
#[export] Hint Resolve is_u_wrap : usbip.

(** ** Lemmas: byte order *)

Lemma length_to_le n v : length (to_le n v) = n.
Proof. revert v. induction n; intros; simpl; auto. Qed.

Lemma length_to_be n v : length (to_be n v) = n.
Proof. unfold to_be. by rewrite length_reverse, length_to_le. Qed.

Lemma to_le_bytes n v : Forall is_byte (to_le n v).
Proof.
  revert v. induction n as [|n IH]; intros; simpl; constructor; [|done].
  apply Z.mod_pos_bound. lia.
Qed.

Lemma to_be_bytes n v : Forall is_byte (to_be n v).
Proof. unfold to_be. rewrite Forall_reverse. apply to_le_bytes. Qed.

Lemma pow256 (n : nat) : 2 ^ (8 * Z.of_nat (S n)) = 256 * 2 ^ (8 * Z.of_nat n).
Proof.
  replace (8 * Z.of_nat (S n)) with (8 + 8 * Z.of_nat n) by lia.
  by rewrite Z.pow_add_r by lia.
Qed.

Lemma of_to_le n v : of_le (to_le n v) = wrap (8 * Z.of_nat n) v.
Proof.
  revert v. induction n as [|n IH]; intros v.
  - unfold wrap. simpl. by rewrite Z.mod_1_r.
  - cbn [to_le of_le]. rewrite IH. unfold wrap. rewrite pow256.
    assert (0 < 2 ^ (8 * Z.of_nat n)) by (apply Z.pow_pos_nonneg; lia).
    rewrite (Z.rem_mul_r v 256) by lia. lia.
Qed.

Lemma of_le_range bs :
  Forall is_byte bs -> is_u (8 * Z.of_nat (length bs)) (of_le bs).
Proof.
  unfold is_u. induction 1 as [|b bs [Hb1 Hb2] _ IH]; [done|].
  cbn [of_le length]. rewrite pow256. lia.
Qed.

Lemma to_of_le bs : Forall is_byte bs -> to_le (length bs) (of_le bs) = bs.
Proof.
  induction 1 as [|b bs [Hb1 Hb2] _ IH]; [done|].
  cbn [of_le length to_le]. f_equal.
  - rewrite (Z.mul_comm 256), Z.mod_add by lia. by apply Z.mod_small.
  - rewrite (Z.mul_comm 256), Z.div_add by lia.
    by rewrite Z.div_small, Z.add_0_l.
Qed.

Lemma to_of_le_n n bs : Forall is_byte bs -> length bs = n -> to_le n (of_le bs) = bs.
Proof. intros ? <-. by apply to_of_le. Qed.

Lemma testbit_byte_cons b r i :
  is_byte b -> 0 <= i -> Z.testbit (b + 256 * r) i = if i <? 8 then Z.testbit b i else Z.testbit r (i - 8).
Proof.
  intros Hb Hi. unfold is_byte, is_u in Hb. change (2 ^ 8) with 256 in Hb. destruct (Z.ltb_spec i 8).
  - rewrite <- (Z.mod_pow2_bits_low (b + 256 * r) 8 i) by lia. f_equal. change (2 ^ 8) with 256.
    rewrite Z.mul_comm, Z_mod_plus_full. by apply Z.mod_small.
  - replace i with ((i - 8) + 8) at 1 by lia. rewrite <- Z.div_pow2_bits by lia. f_equal.
    change (2 ^ 8) with 256. rewrite Z.mul_comm, Z.div_add by lia. rewrite Z.div_small; lia.
Qed.

(** Bit [k] of byte [j] of an object representation. *)
Lemma testbit_of_le bs (j : nat) k :
  Forall is_byte bs -> 0 <= k < 8 ->
  Z.testbit (of_le bs) (8 * Z.of_nat j + k) = Z.testbit (default 0 (bs !! j)) k.
Proof.
  intros Hb Hk. revert j. induction Hb as [|b bs Hb _ IH]; intros j; cbn [of_le].
  { by rewrite !Z.bits_0. }
  rewrite testbit_byte_cons by (done || lia). destruct j as [|j].
  - rewrite (proj2 (Z.ltb_lt _ 8)) by lia. simpl. by f_equal.
  - rewrite (proj2 (Z.ltb_ge _ 8)) by lia. change ((b :: bs) !! S j) with (bs !! j). rewrite <- IH. f_equal. lia.
Qed.

Lemma lookup_to_le n v j :
  (j < n)%nat -> to_le n v !! j = Some ((v / 2 ^ (8 * Z.of_nat j)) mod 256).
Proof.
  revert v j. induction n as [|n IH]; intros v j Hj; [lia|]. destruct j as [|j]; cbn [to_le lookup list_lookup].
  - change (2 ^ (8 * Z.of_nat 0)) with 1. by rewrite Z.div_1_r.
  - rewrite IH by lia. do 2 f_equal. rewrite pow256, Z.div_div; [done|lia|].
    apply Z.pow_pos_nonneg; lia.
Qed.

(** A byte swap moves bit [k] of byte [j] to byte [3 - j]. *)
Lemma testbit_swap v (j : nat) k :
  (j < 4)%nat -> 0 <= k < 8 ->
  Z.testbit (of_be (to_le 4 v)) (8 * Z.of_nat j + k) = Z.testbit v (8 * (3 - Z.of_nat j) + k).
Proof.
  intros Hj Hk. unfold of_be. rewrite testbit_of_le; [|rewrite Forall_reverse; apply to_le_bytes|done].
  rewrite reverse_lookup, length_to_le by (by rewrite length_to_le).
  rewrite lookup_to_le by lia. unfold default, id, from_option.
  change 256 with (2 ^ 8). rewrite Z.mod_pow2_bits_low by lia.
  rewrite Z.div_pow2_bits by lia. f_equal. lia.
Qed.

Lemma testbit_htonl v (j : nat) k :
  (j < 4)%nat -> 0 <= k < 8 ->
  Z.testbit (htonl v) (8 * Z.of_nat j + k) = Z.testbit v (8 * (3 - Z.of_nat j) + k).
Proof. exact (testbit_swap v j k). Qed.

Lemma testbit_ntohl v (j : nat) k :
  (j < 4)%nat -> 0 <= k < 8 ->
  Z.testbit (ntohl v) (8 * Z.of_nat j + k) = Z.testbit v (8 * (3 - Z.of_nat j) + k).
Proof. exact (testbit_swap v j k). Qed.

Lemma of_to_be n v : of_be (to_be n v) = wrap (8 * Z.of_nat n) v.
Proof. unfold of_be, to_be. by rewrite reverse_involutive, of_to_le. Qed.

Lemma to_of_be_n n bs : Forall is_byte bs -> length bs = n -> to_be n (of_be bs) = bs.
Proof.
  intros Hb Hn. unfold of_be, to_be.
  rewrite to_of_le_n by (by rewrite ?Forall_reverse, ?length_reverse).
  by rewrite reverse_involutive.
Qed.

Lemma of_be_range bs :
  Forall is_byte bs -> is_u (8 * Z.of_nat (length bs)) (of_be bs).
Proof.
  intros Hb. unfold of_be. rewrite <-length_reverse. apply of_le_range.
  by rewrite Forall_reverse.
Qed.

(** A value and its swap have mirrored object representations, so a swapped
    field sits on the wire in network order. *)
Lemma to_le_htonl x : to_le 4 (htonl x) = to_be 4 x.
Proof. apply to_of_le_n; [apply to_be_bytes|apply length_to_be]. Qed.

Lemma to_le_htons x : to_le 2 (htons x) = to_be 2 x.
Proof. apply to_of_le_n; [apply to_be_bytes|apply length_to_be]. Qed.

Lemma is_u_htonl x : is_u 32 (htonl x).
Proof.
  unfold htonl. pose proof (of_le_range _ (to_be_bytes 4 x)) as H.
  by rewrite length_to_be in H.
Qed.

Lemma is_u_htons x : is_u 16 (htons x).
Proof.
  unfold htons. pose proof (of_le_range _ (to_be_bytes 2 x)) as H.
  by rewrite length_to_be in H.
Qed.

Lemma is_u_ntohl x : is_u 32 (ntohl x).
Proof.
  unfold ntohl. pose proof (of_be_range _ (to_le_bytes 4 x)) as H.
  by rewrite length_to_le in H.
Qed.

Lemma is_u_ntohs x : is_u 16 (ntohs x).
Proof.
  unfold ntohs. pose proof (of_be_range _ (to_le_bytes 2 x)) as H.
  by rewrite length_to_le in H.
Qed.

Lemma ntohl_htonl x : is_u 32 x -> ntohl (htonl x) = x.
Proof.
  intros Hx. unfold ntohl. rewrite to_le_htonl, of_to_be. by apply wrap_small.
Qed.

Lemma ntohs_htons x : is_u 16 x -> ntohs (htons x) = x.
Proof.
  intros Hx. unfold ntohs. rewrite to_le_htons, of_to_be. by apply wrap_small.
Qed.

Lemma htonl_ntohl x : is_u 32 x -> htonl (ntohl x) = x.
Proof.
  intros Hx. unfold htonl, ntohl. rewrite to_of_be_n by auto using to_le_bytes, length_to_le.
  rewrite of_to_le. by apply wrap_small.
Qed.

Lemma htons_ntohs x : is_u 16 x -> htons (ntohs x) = x.
Proof.
  intros Hx. unfold htons, ntohs. rewrite to_of_be_n by auto using to_le_bytes, length_to_le.
  rewrite of_to_le. by apply wrap_small.
Qed.

Lemma to_le_app n m v : to_le (n + m) v = to_le n v ++ to_le m (v / 2 ^ (8 * Z.of_nat n)).
Proof.
  revert v. induction n as [|n IH]; intros v.
  - simpl. by rewrite Z.div_1_r.
  - cbn [to_le Nat.add app]. rewrite IH, pow256.
    do 3 f_equal. rewrite Z.div_div; [done|lia|]. apply Z.pow_pos_nonneg; lia.
Qed.

Lemma to_le_wrap n v : to_le n (wrap (8 * Z.of_nat n) v) = to_le n v.
Proof.
  rewrite <-(of_to_le n v). apply to_of_le_n; [apply to_le_bytes|apply length_to_le].
Qed.

Lemma of_le_app bs1 bs2 :
  of_le (bs1 ++ bs2) = of_le bs1 + 2 ^ (8 * Z.of_nat (length bs1)) * of_le bs2.
Proof.
  induction bs1 as [|b bs1 IH]; [simpl; lia|].
  cbn [app of_le length]. rewrite IH, pow256. lia.
Qed.

Lemma lor_disjoint_add a b n :
  0 <= n -> is_u n b -> Z.lor (Z.shiftl a n) b = a * 2 ^ n + b.
Proof.
  intros Hn [Hb1 Hb2]. rewrite <-Z.shiftl_mul_pow2 by done.
  rewrite <-(Z.add_lor_land (Z.shiftl a n) b).
  enough (Z.land (Z.shiftl a n) b = 0) as -> by lia.
  apply Z.bits_inj'. intros i Hi. rewrite Z.land_spec, Z.bits_0, Z.shiftl_spec by done.
  destruct (decide (i < n)).
  - by rewrite Z.testbit_neg_r by lia.
  - rewrite <-(Z.mod_small b (2 ^ n)) by done.
    by rewrite Z.mod_pow2_bits_high, andb_false_r by lia.
Qed.

(** The 64-bit conversions built from two 32-bit ones are full byte swaps. *)
Lemma to_le_htobe64 x : is_u 64 x -> to_le 8 (htobe64 x) = to_be 8 x.
Proof.
  intros Hx. unfold htobe64.
  change 0xFFFFFFFF with (Z.ones 32). rewrite Z.land_ones by lia.
  pose proof (is_u_htonl (wrap 32 (x mod 2 ^ 32))) as Ha.
  pose proof (is_u_htonl (wrap 32 (Z.shiftr x 32))) as Hb.
  set (a := htonl (wrap 32 (x mod 2 ^ 32))) in *.
  set (b := htonl (wrap 32 (Z.shiftr x 32))) in *.
  rewrite wrap_small by (unfold is_u in *; rewrite Z.shiftl_mul_pow2 by lia; lia).
  rewrite lor_disjoint_add by (done || lia).
  rewrite (to_le_app 4 4). change (8 * Z.of_nat 4) with 32.
  rewrite Z.div_add_l by lia. rewrite (Z.div_small b) by done. rewrite Z.add_0_r.
  rewrite <-(to_le_wrap 4 (a * 2 ^ 32 + b)). change (8 * Z.of_nat 4) with 32.
  unfold wrap at 1. rewrite Z.add_comm, Z.mod_add by lia.
  rewrite (Z.mod_small b) by done. subst a b. rewrite !to_le_htonl.
  unfold to_be. rewrite (to_le_app 4 4). change (8 * Z.of_nat 4) with 32.
  rewrite reverse_app, Z.shiftr_div_pow2 by lia.
  rewrite <-(to_le_wrap 4 x). rewrite <-(to_le_wrap 4 (x / 2 ^ 32)).
  change (8 * Z.of_nat 4) with 32. f_equal; f_equal. unfold wrap.
  by rewrite Z.mod_mod by lia.
Qed.

(** ** Lemmas: C strings *)

Definition no_nul (s : bytes) : Prop := Forall (fun c => c <> 0) s.

Lemma cstr_head s : char_at (cstr s) 0 = char_at s 0.
Proof. destruct s as [|x s]; simpl; [done|]. by destruct (Z.eqb_spec x 0) as [->|]. Qed.

Lemma cstr_no_nul a : no_nul (cstr a).
Proof.
  induction a as [|c a IH]; simpl; [constructor|].
  destruct (c =? 0) eqn:E; bool_to_prop; by constructor.
Qed.

Lemma cstr_id s : no_nul s -> cstr s = s.
Proof.
  induction 1 as [|c s Hc _ IH]; simpl; [done|].
  apply Z.eqb_neq in Hc. rewrite Hc. by f_equal.
Qed.

Lemma cstr_cstr a : cstr (cstr a) = cstr a.
Proof. apply cstr_id, cstr_no_nul. Qed.

Lemma cstr_app_nul s r : no_nul s -> cstr (s ++ 0 :: r) = s.
Proof.
  induction 1 as [|c s Hc _ IH]; simpl; [done|].
  apply Z.eqb_neq in Hc. rewrite Hc. by f_equal.
Qed.

Lemma cstr_length a : (length (cstr a) <= length a)%nat.
Proof. induction a as [|c a IH]; simpl; [done|]. destruct (_ =? _); simpl; lia. Qed.

Lemma no_nul_take n s : no_nul s -> no_nul (take n s).
Proof. apply Forall_take. Qed.

Lemma cstr_zeros n : cstr (replicate n 0) = [].
Proof. by destruct n. Qed.

#[export] Hint Resolve cstr_no_nul no_nul_take : usbip.
#[export] Hint Rewrite cstr_cstr cstr_zeros : usbip.

Lemma streq_true a b : streq a b = true <-> cstr a = cstr b.
Proof. apply bool_decide_eq_true. Qed.

Lemma streq_cstr a b : streq a (cstr b) = streq a b.
Proof. unfold streq. by rewrite cstr_cstr. Qed.

Lemma streq_refl a : streq a a = true.
Proof. by apply streq_true. Qed.

Lemma streq_sym a b : streq a b = streq b a.
Proof. apply bool_decide_ext. by split. Qed.

(** [src[i]] is the [i]-th character of the string, or its terminator. *)
Lemma char_at_lt src i :
  (i < length (cstr src))%nat -> cstr src !! i = Some (char_at src i) /\ char_at src i <> 0.
Proof.
  unfold char_at. revert i. induction src as [|c src IH]; intros i; simpl; [lia|].
  destruct (c =? 0) eqn:E; simpl; [lia|]. bool_to_prop.
  destruct i as [|i]; simpl; [done|]. intros. apply IH. lia.
Qed.

Lemma char_at_end src : char_at src (length (cstr src)) = 0.
Proof.
  unfold char_at. induction src as [|c src IH]; simpl; [done|].
  by destruct (c =? 0) eqn:E; bool_to_prop.
Qed.

Lemma str_copy_loop_spec n i dst src :
  (i <= length (cstr src))%nat -> (i + n <= length dst)%nat ->
  let s := take n (drop i (cstr src)) in
  str_copy_loop n i dst src =
    ((i + length s)%nat, take i dst ++ s ++ drop (i + length s) dst).
Proof.
  revert i dst. induction n as [|n IH]; intros i dst Hi Hd s; simpl.
  { subst s. simpl. by rewrite Nat.add_0_r, take_drop. }
  destruct (decide (i = length (cstr src))) as [->|Hne].
  { subst s. rewrite char_at_end, drop_all. simpl. by rewrite Nat.add_0_r, take_drop. }
  destruct (char_at_lt src i) as [Hc H0]; [lia|].
  rewrite (proj2 (Z.eqb_neq _ _) H0).
  rewrite IH by (rewrite ?length_insert; lia).
  subst s. rewrite (drop_S _ _ _ Hc). simpl. f_equal; [lia|].
  rewrite (take_S_r _ i (char_at src i)) by (apply list_lookup_insert_eq; lia).
  rewrite take_insert_ge by lia. rewrite <-app_assoc. simpl. do 3 f_equal.
  rewrite drop_insert_lt by lia. f_equal. lia.
Qed.

(** [str_copy] writes the truncated string and its terminator, and nothing
    else. *)
Lemma str_copy_spec dst src size :
  (0 < size <= length dst)%nat ->
  let s := take (size - 1) (cstr src) in
  str_copy dst src size = s ++ 0 :: drop (S (length s)) dst.
Proof.
  intros Hs s. unfold str_copy.
  destruct (Nat.eqb_spec size 0) as [?|_]; [lia|].
  rewrite str_copy_loop_spec by lia. rewrite drop_0. fold s. simpl.
  assert (length s <= size - 1)%nat by (subst s; rewrite length_take; lia).
  rewrite insert_app_r_alt by lia. rewrite Nat.sub_diag.
  destruct (drop (length s) dst) as [|c r] eqn:E.
  - apply (f_equal length) in E. rewrite length_drop in E. simpl in E. lia.
  - simpl. do 2 f_equal. apply (f_equal (drop 1)) in E.
    rewrite drop_drop, Nat.add_1_r in E. by rewrite E.
Qed.

Lemma length_str_copy dst src size :
  (size <= length dst)%nat -> length (str_copy dst src size) = length dst.
Proof.
  intros Hs. destruct size as [|n]; [done|].
  rewrite str_copy_spec by lia. rewrite length_app, length_cons, length_drop, length_take. lia.
Qed.

Lemma cstr_str_copy dst src size :
  (0 < size <= length dst)%nat -> cstr (str_copy dst src size) = take (size - 1) (cstr src).
Proof. intros. rewrite str_copy_spec by done. apply cstr_app_nul. auto with usbip. Qed.

Lemma copy_str_id s n : no_nul s -> (length s < n)%nat -> copy_str s n = s.
Proof. intros Hn Hl. unfold copy_str. rewrite cstr_id by done. apply take_ge. lia. Qed.

Lemma copy_str_short s n : (0 < n)%nat -> (length (copy_str s n) < n)%nat.
Proof. intros. unfold copy_str. rewrite length_take. lia. Qed.

Lemma length_strncpy dst src n :
  (n <= length dst)%nat -> length (strncpy dst src n) = length dst.
Proof.
  intros. unfold strncpy.
  rewrite length_app, length_take, length_app, length_replicate, length_drop. lia.
Qed.

(** [strncpy(dst, src, sizeof(dst) - 1)] into an array whose last byte is zero
    leaves a terminated string. *)
Lemma cstr_strncpy dst src n :
  (n < length dst)%nat -> char_at dst n = 0 -> cstr (strncpy dst src n) = take n (cstr src).
Proof.
  intros Hn H0. unfold strncpy.
  assert (exists r, drop n dst = 0 :: r) as [r ->].
  { unfold char_at in H0. destruct (dst !! n) eqn:E; [|apply lookup_ge_None in E; lia].
    simpl in H0. subst. exists (drop (S n) dst). by apply drop_S. }
  destruct (decide (n <= length (cstr src))%nat).
  - rewrite take_app_le by done. apply cstr_app_nul. auto with usbip.
  - rewrite take_app_ge by lia. rewrite take_replicate, <-app_assoc.
    rewrite (take_ge (cstr src)) by lia.
    destruct (n - length (cstr src))%nat as [|k] eqn:E; [lia|].
    rewrite Nat.min_l by lia. simpl. apply cstr_app_nul. auto with usbip.
Qed.

(** Object representations are only rewritten with the lemmas above. *)
#[global] Arguments to_le : simpl never.
#[global] Arguments of_le : simpl never.
#[global] Arguments wrap : simpl never.
#[global] Arguments sint : simpl never.
#[global] Arguments Z.pow : simpl never.
