(* ===== verification/Sync.v ===== *)
(** * Threads, mutexes and events ([common/types.h])

    The macros on the objects of Windows that the threads of the program share.  A
    mutex of Windows is recursive: its owner may lock it again and must unlock it as
    often.  An event of [event_init] is an auto-reset event: it stays set until one wait
    has been satisfied, which resets it.  A call that would block has no result ([None]). *)

From S2P Require Import Prelude.

(** ** Handles *)

(** [created]: [CreateThread], [CreateMutex] or [CreateEvent] returned a handle. *)
Definition thread_create (created : bool) : Z := if created then 0 else -1.

(** ** Mutexes *)

Record mutex := {
  mx_owner : option Z;
  mx_depth : Z;
}.

(** [CreateMutex(NULL, FALSE, NULL)]: nobody owns it. *)
Definition mutex_init (created : bool) : Z * option mutex :=
  if created then (0, Some {| mx_owner := None; mx_depth := 0 |}) else (-1, None).

(** [WaitForSingleObject] by thread [t], without a timeout. *)
Definition mutex_lock (t : Z) (m : mutex) : option mutex :=
  match mx_owner m with
  | None => Some {| mx_owner := Some t; mx_depth := 1 |}
  | Some o => if o =? t then Some {| mx_owner := Some t; mx_depth := mx_depth m + 1 |} else None
  end.

(** [ReleaseMutex] by thread [t], which does nothing when [t] is not the owner. *)
Definition mutex_unlock (t : Z) (m : mutex) : mutex :=
  match mx_owner m with
  | None => m
  | Some o =>
      if negb (o =? t) then m else
      if mx_depth m =? 1 then {| mx_owner := None; mx_depth := 0 |}
      else {| mx_owner := Some t; mx_depth := mx_depth m - 1 |}
  end.

(** ** Events, as whether they are set *)

(** [CreateEvent(NULL, FALSE, FALSE, NULL)]: auto-reset, not set. *)
Definition event_init (created : bool) : Z * option bool :=
  if created then (0, Some false) else (-1, None).

Definition event_signal (e : bool) : bool := true.

(** [WaitForSingleObject] on an auto-reset event. *)
Definition event_wait (e : bool) : option bool := if e then Some false else None.

(** What a wait with a timeout reports. *)
Inductive wait_result := WAIT_OBJECT_0 | WAIT_TIMEOUT | WAIT_FAILED.

(** [in_time]: the event is set before the time is over; [usable]: the handle is one that
    can be waited for. *)
Definition event_wait_timeout (usable in_time : bool) (e : bool) : wait_result * bool :=
  if negb usable then (WAIT_FAILED, e) else
  if e then (WAIT_OBJECT_0, false) else
  if in_time then (WAIT_OBJECT_0, false) else (WAIT_TIMEOUT, e).

(** ** Lemmas *)

Lemma mutex_lock_free t m :
  mx_owner m = None -> mutex_lock t m = Some {| mx_owner := Some t; mx_depth := 1 |}.
Proof. unfold mutex_lock. by intros ->. Qed.

(** Mutual exclusion: only the owner gets past a lock that is taken. *)
Lemma mutex_lock_owned t o m m' : mx_owner m = Some o -> mutex_lock t m = Some m' -> t = o.
Proof. unfold mutex_lock. intros ->. destruct (Z.eqb_spec o t); [done|]. discriminate. Qed.

Lemma mutex_unlock_last t : mutex_unlock t {| mx_owner := Some t; mx_depth := 1 |} =
  {| mx_owner := None; mx_depth := 0 |}.
Proof. unfold mutex_unlock. simpl. by rewrite Z.eqb_refl. Qed.

(** Unlocking undoes locking, at any depth. *)
Lemma mutex_lock_unlock t m m' :
  (mx_owner m = None -> mx_depth m = 0) -> 0 <= mx_depth m ->
  (mx_owner m <> None -> 0 < mx_depth m) ->
  mutex_lock t m = Some m' -> mutex_unlock t m' = m.
Proof.
  destruct m as [[o|] d]; unfold mutex_lock, mutex_unlock; simpl; intros H0 Hd Hp E.
  - destruct (Z.eqb_spec o t) as [->|]; [|done]. simplify_eq/=. rewrite Z.eqb_refl. simpl.
    assert (0 < d) by (by apply Hp). destruct (Z.eqb_spec (d + 1) 1); [lia|]. f_equal. lia.
  - simplify_eq/=. rewrite Z.eqb_refl, H0 by done. done.
Qed.

(** A signal is not lost when nobody waits: the next wait returns at once. *)
Lemma event_signal_kept e : event_wait (event_signal e) = Some false.
Proof. done. Qed.
