(* ===== verification/Format.v ===== *)
(** * Formatted text: the parts of [printf] and [sscanf] the program uses

    String literals, the conversions [%u], [%d], [%X], the bounded output of
    [snprintf], and the [%Ns] and [%d] conversions of [sscanf].  These are the C
    standard library's; no definition here stands for code of the program. *)

From Stdlib Require Import String Ascii.
From S2P Require Import Prelude CTypes.

(** A C string literal. *)
Definition str (s : string) : bytes :=
  map (fun a => Z.of_N (N_of_ascii a)) (list_ascii_of_string s).
Arguments str s%_string_scope.

(** ** Output *)

(** Characters ['0'..'9'], ['A'..'F']. *)
Definition digit (d : Z) : Z := if d <? 10 then 48 + d else 55 + d.

(** Least significant digit first, at most [fuel] digits. *)
Fixpoint digits_rev (fuel : nat) (base n : Z) : bytes :=
  match fuel with
  | O => []
  | S f => digit (n mod base) :: (if n / base =? 0 then [] else digits_rev f base (n / base))
  end.

Definition fmt_base (base n : Z) : bytes :=
  reverse (digits_rev (S (Z.to_nat (Z.log2 n))) base n).

(** [%u], [%d], [%X] and the zero-padded [%0kX], [%0kd]. *)
Definition fmt_u (n : Z) : bytes := fmt_base 10 n.
Definition fmt_d (n : Z) : bytes := if n <? 0 then 45 :: fmt_u (- n) else fmt_u n.
Definition fmt_X (n : Z) : bytes := fmt_base 16 n.
Definition pad_left (c : Z) (k : nat) (s : bytes) : bytes := replicate (k - length s) c ++ s.
Definition fmt_0X (k : nat) (n : Z) : bytes := pad_left 48 k (fmt_X n).
Definition fmt_0d (k : nat) (n : Z) : bytes := pad_left 48 k (fmt_d n).

(** [%-ks]: left-justified in a field of [k] characters. *)
Definition fmt_ljust (k : nat) (s : bytes) : bytes := s ++ replicate (k - length s) 32.

(** [snprintf(dst, size, ...)] for the formatted text [text]: the string stored
    in [dst] (its bytes past the terminator are not observed). *)
Definition snprintf (size : nat) (text : bytes) : bytes := take (size - 1) text.

(** ** Input *)

Definition is_space (c : Z) : bool := (c =? 32) || ((9 <=? c) && (c <=? 13)).
Definition is_digit (c : Z) : bool := (48 <=? c) && (c <=? 57).

Fixpoint drop_while (p : Z -> bool) (s : bytes) : bytes :=
  match s with
  | [] => []
  | c :: s' => if p c then drop_while p s' else s
  end.

Fixpoint take_while (p : Z -> bool) (s : bytes) : bytes :=
  match s with
  | [] => []
  | c :: s' => if p c then c :: take_while p s' else []
  end.

Definition digits_value (s : bytes) : Z :=
  fold_left (fun acc c => 10 * acc + (c - 48)) s 0.

(** [%Ns]: skips white space, then up to [N] other characters; [None] when there
    is none. *)
Definition scan_s (n : nat) (s : bytes) : option (bytes * bytes) :=
  let s := drop_while is_space s in
  let w := take n (take_while (fun c => negb (is_space c)) s) in
  match w with [] => None | _ => Some (w, drop (length w) s) end.

(** [%d]: skips white space, an optional sign, then at least one digit. *)
Definition scan_d (s : bytes) : option (Z * bytes) :=
  let s := drop_while is_space s in
  let '(sign, s) :=
    match s with
    | c :: s' => if c =? 45 then (-1, s') else if c =? 43 then (1, s') else (1, s)
    | [] => (1, s)
    end in
  let ds := take_while is_digit s in
  match ds with
  | [] => None
  | _ => Some (sint 32 (sign * digits_value ds), drop (length ds) s)
  end.

(** ** Command lines *)

(** [atoi] on a number in the range of [int]. *)
Definition atoi (s : bytes) : Z :=
  let s := drop_while is_space (cstr s) in
  match s with
  | 45 :: s => - digits_value (take_while is_digit s)
  | 43 :: s => digits_value (take_while is_digit s)
  | s => digits_value (take_while is_digit s)
  end.

Definition arg_is (a : bytes) (short long : string) : bool :=
  streq a (str short) || streq a (str long).

(** ** Lemmas *)

Lemma length_fmt_ljust k s : (k >= length s)%nat -> length (fmt_ljust k s) = k.
Proof. intros. unfold fmt_ljust. rewrite length_app, length_replicate. lia. Qed.

Lemma digit_is_digit d : 0 <= d < 10 -> is_digit (digit d) = true /\ digit d - 48 = d.
Proof.
  intros Hd. unfold digit, is_digit. destruct (Z.ltb_spec d 10); [|lia].
  split; [|lia]. apply andb_true_intro; split; apply Z.leb_le; lia.
Qed.

Lemma digits_rev_digits fuel n :
  0 <= n -> Forall (fun c => is_digit c = true) (digits_rev fuel 10 n).
Proof.
  revert n. induction fuel as [|f IH]; intros n Hn; cbn [digits_rev]; constructor.
  - apply digit_is_digit. apply Z.mod_pos_bound. lia.
  - destruct (_ =? 0); [constructor|]. apply IH. apply Z.div_pos; lia.
Qed.

Lemma digits_value_snoc s c : digits_value (s ++ [c]) = 10 * digits_value s + (c - 48).
Proof. unfold digits_value. by rewrite fold_left_app. Qed.

Lemma digits_rev_value fuel n :
  0 <= n < 10 ^ Z.of_nat fuel -> digits_value (reverse (digits_rev fuel 10 n)) = n.
Proof.
  revert n. induction fuel as [|f IH]; intros n Hn.
  { change (10 ^ Z.of_nat 0) with 1 in Hn. simpl. unfold digits_value. simpl. lia. }
  cbn [digits_rev]. rewrite reverse_cons, digits_value_snoc.
  rewrite (proj2 (digit_is_digit (n mod 10) ltac:(apply Z.mod_pos_bound; lia))).
  pose proof (Z.div_mod n 10). destruct (Z.eqb_spec (n / 10) 0) as [E|E].
  - unfold digits_value. simpl. lia.
  - rewrite IH; [lia|]. rewrite Nat2Z.inj_succ, Z.pow_succ_r in Hn by lia.
    split; [apply Z.div_pos; lia|]. apply Z.div_lt_upper_bound; lia.
Qed.

Lemma log2_fuel n : 0 <= n -> n < 10 ^ Z.of_nat (S (Z.to_nat (Z.log2 n))).
Proof.
  intros Hn. rewrite Nat2Z.inj_succ, Z2Nat.id by apply Z.log2_nonneg.
  destruct (decide (n = 0)) as [->|]; [done|].
  apply Z.lt_le_trans with (2 ^ Z.succ (Z.log2 n)); [apply Z.log2_spec; lia|].
  apply Z.pow_le_mono_l. lia.
Qed.

Lemma fmt_u_value n : 0 <= n -> digits_value (fmt_u n) = n.
Proof. intros. apply digits_rev_value. split; [done|]. by apply log2_fuel. Qed.

Lemma fmt_u_digits n : 0 <= n -> Forall (fun c => is_digit c = true) (fmt_u n).
Proof. intros. unfold fmt_u, fmt_base. rewrite Forall_reverse. by apply digits_rev_digits. Qed.

Lemma fmt_u_cons n : exists c s, fmt_u n = c :: s.
Proof.
  unfold fmt_u, fmt_base. cbn [digits_rev]. rewrite reverse_cons.
  destruct (reverse _) as [|c s]; eauto.
Qed.

Lemma drop_while_false p c s : p c = false -> drop_while p (c :: s) = c :: s.
Proof. simpl. by intros ->. Qed.

Lemma take_while_app p s c r :
  Forall (fun x => p x = true) s -> p c = false -> take_while p (s ++ c :: r) = s.
Proof. induction 1 as [|x s Hx _ IH]; simpl; intros Hc; rewrite ?Hc, ?Hx; [done|]. by rewrite IH. Qed.

Lemma take_while_all p s : Forall (fun x => p x = true) s -> take_while p s = s.
Proof. induction 1 as [|x s Hx _ IH]; simpl; rewrite ?Hx; [done|]. by rewrite IH. Qed.

Lemma is_digit_not_space c : is_digit c = true -> is_space c = false /\ c <> 45 /\ c <> 43 /\ c <> 0.
Proof.
  unfold is_digit, is_space. intros H. bool_to_prop.
  split_and!; [|lia..].
  apply orb_false_intro; [apply Z.eqb_neq; lia|].
  apply andb_false_intro2. apply Z.leb_gt. lia.
Qed.

(** Scanning a printed non-negative [int] returns it. *)
Lemma scan_d_fmt n : 0 <= n < 2 ^ 31 -> scan_d (32 :: fmt_d n) = Some (n, []).
Proof.
  intros Hn. unfold fmt_d. destruct (Z.ltb_spec n 0); [lia|].
  pose proof (fmt_u_digits n) as Hd. pose proof (fmt_u_value n) as Hv.
  destruct (fmt_u_cons n) as (c & s & E). rewrite E in *.
  specialize (Hd ltac:(lia)). specialize (Hv ltac:(lia)).
  apply Forall_cons in Hd as [Hc Hs].
  destruct (is_digit_not_space c Hc) as (Hsp & H1 & H2 & _).
  unfold scan_d. simpl drop_while. rewrite Hsp.
  apply Z.eqb_neq in H1, H2. rewrite H1, H2.
  rewrite (take_while_all is_digit (c :: s)) by (by constructor).
  rewrite drop_all, Hv. rewrite Z.mul_1_l.
  rewrite <-(wrap_small 32 n) at 1 by (unfold is_u; lia).
  rewrite sint_small by lia. done.
Qed.

(** Scanning a word that ends at white space returns it. *)
Lemma scan_s_word n w c r :
  w <> [] -> (length w <= n)%nat -> is_space c = true ->
  Forall (fun x => is_space x = false) w ->
  scan_s n (w ++ c :: r) = Some (w, c :: r).
Proof.
  intros Hne Hn Hc Hw. unfold scan_s.
  destruct w as [|x w]; [done|]. inversion Hw as [|? ? Hx Hw']; subst.
  rewrite <-app_comm_cons, drop_while_false by done. rewrite app_comm_cons.
  rewrite take_while_app.
  - rewrite take_ge by done. by rewrite drop_app_length.
  - eapply Forall_impl; [exact Hw|]. simpl. by intros ? ->.
  - by rewrite Hc.
Qed.
