(* ===== verification/Errors.v ===== *)
(** * Error codes and the error context ([common/error.h], [common/error.c])

    [error_code] is the C enumeration with the values [error_num] the compiler
    assigns to it, [error_messages]/[error_string] the message table and its
    lookup loop, and [error_context] the thread-local record behind
    [error_set]/[error_clear]/[error_detail].  The texts Windows produces
    ([FormatMessageA]) and the values of [GetLastError]/[WSAGetLastError] are
    arguments. *)

From Stdlib Require Import String.
From S2P Require Import Prelude CTypes Format.

(** ** Error codes *)

Inductive error_code :=
  | ERR_SUCCESS | ERR_GENERAL | ERR_OUT_OF_MEMORY | ERR_INVALID_PARAM | ERR_NOT_FOUND
  | ERR_ALREADY_EXISTS | ERR_NOT_SUPPORTED | ERR_TIMEOUT | ERR_BUSY
  | ERR_PERMISSION_DENIED | ERR_IO_ERROR | ERR_BUFFER_TOO_SMALL | ERR_INVALID_STATE
  | ERR_CANCELLED | ERR_NOT_INITIALIZED | ERR_ALREADY_INITIALIZED | ERR_NETWORK_INIT
  | ERR_SOCKET_CREATE | ERR_SOCKET_BIND | ERR_SOCKET_LISTEN | ERR_SOCKET_ACCEPT
  | ERR_SOCKET_CONNECT | ERR_SOCKET_SEND | ERR_SOCKET_RECV | ERR_SOCKET_CLOSE
  | ERR_SOCKET_OPTION | ERR_HOST_NOT_FOUND | ERR_CONNECTION_REFUSED
  | ERR_CONNECTION_RESET | ERR_CONNECTION_TIMEOUT | ERR_NETWORK_UNREACHABLE
  | ERR_ADDRESS_IN_USE | ERR_USB_INIT | ERR_USB_NOT_FOUND | ERR_USB_ACCESS_DENIED
  | ERR_USB_BUSY | ERR_USB_NO_DEVICE | ERR_USB_CLAIM_FAILED | ERR_USB_RELEASE_FAILED
  | ERR_USB_IO_FAILED | ERR_USB_STALL | ERR_USB_OVERFLOW | ERR_USB_PIPE_ERROR
  | ERR_USB_INTERRUPTED | ERR_USB_NO_MEMORY | ERR_USB_INVALID_ENDPOINT
  | ERR_USB_INVALID_INTERFACE | ERR_USB_DETACHED | ERR_USB_DESCRIPTOR_ERROR
  | ERR_DEVICE_BUSY | ERR_PROTOCOL_VERSION | ERR_PROTOCOL_INVALID
  | ERR_PROTOCOL_UNSUPPORTED | ERR_PROTOCOL_SEQUENCE | ERR_PROTOCOL_HEADER
  | ERR_PROTOCOL_DATA | ERR_PROTOCOL_CHECKSUM | ERR_PROTOCOL_STATE | ERR_VHCI_INIT
  | ERR_VHCI_NOT_FOUND | ERR_VHCI_ATTACH_FAILED | ERR_VHCI_DETACH_FAILED
  | ERR_VHCI_NO_FREE_PORT | ERR_VHCI_INVALID_PORT | ERR_VHCI_DRIVER_ERROR
  | ERR_SYSTEM_INIT | ERR_THREAD_CREATE | ERR_THREAD_JOIN | ERR_MUTEX_INIT
  | ERR_MUTEX_LOCK | ERR_FILE_OPEN | ERR_FILE_READ | ERR_FILE_WRITE
  | ERR_REGISTRY_ACCESS | ERR_MAX.

(** The value of the enumerator. *)
Definition error_num (e : error_code) : Z :=
  match e with
  | ERR_SUCCESS => 0x0000
  | ERR_GENERAL => 0x0001
  | ERR_OUT_OF_MEMORY => 0x0002
  | ERR_INVALID_PARAM => 0x0003
  | ERR_NOT_FOUND => 0x0004
  | ERR_ALREADY_EXISTS => 0x0005
  | ERR_NOT_SUPPORTED => 0x0006
  | ERR_TIMEOUT => 0x0007
  | ERR_BUSY => 0x0008
  | ERR_PERMISSION_DENIED => 0x0009
  | ERR_IO_ERROR => 0x000A
  | ERR_BUFFER_TOO_SMALL => 0x000B
  | ERR_INVALID_STATE => 0x000C
  | ERR_CANCELLED => 0x000D
  | ERR_NOT_INITIALIZED => 0x000E
  | ERR_ALREADY_INITIALIZED => 0x000F
  | ERR_NETWORK_INIT => 0x0100
  | ERR_SOCKET_CREATE => 0x0101
  | ERR_SOCKET_BIND => 0x0102
  | ERR_SOCKET_LISTEN => 0x0103
  | ERR_SOCKET_ACCEPT => 0x0104
  | ERR_SOCKET_CONNECT => 0x0105
  | ERR_SOCKET_SEND => 0x0106
  | ERR_SOCKET_RECV => 0x0107
  | ERR_SOCKET_CLOSE => 0x0108
  | ERR_SOCKET_OPTION => 0x0109
  | ERR_HOST_NOT_FOUND => 0x010A
  | ERR_CONNECTION_REFUSED => 0x010B
  | ERR_CONNECTION_RESET => 0x010C
  | ERR_CONNECTION_TIMEOUT => 0x010D
  | ERR_NETWORK_UNREACHABLE => 0x010E
  | ERR_ADDRESS_IN_USE => 0x010F
  | ERR_USB_INIT => 0x0200
  | ERR_USB_NOT_FOUND => 0x0201
  | ERR_USB_ACCESS_DENIED => 0x0202
  | ERR_USB_BUSY => 0x0203
  | ERR_USB_NO_DEVICE => 0x0204
  | ERR_USB_CLAIM_FAILED => 0x0205
  | ERR_USB_RELEASE_FAILED => 0x0206
  | ERR_USB_IO_FAILED => 0x0207
  | ERR_USB_STALL => 0x0208
  | ERR_USB_OVERFLOW => 0x0209
  | ERR_USB_PIPE_ERROR => 0x020A
  | ERR_USB_INTERRUPTED => 0x020B
  | ERR_USB_NO_MEMORY => 0x020C
  | ERR_USB_INVALID_ENDPOINT => 0x020D
  | ERR_USB_INVALID_INTERFACE => 0x020E
  | ERR_USB_DETACHED => 0x020F
  | ERR_USB_DESCRIPTOR_ERROR => 0x0210
  | ERR_DEVICE_BUSY => 0x0211
  | ERR_PROTOCOL_VERSION => 0x0300
  | ERR_PROTOCOL_INVALID => 0x0301
  | ERR_PROTOCOL_UNSUPPORTED => 0x0302
  | ERR_PROTOCOL_SEQUENCE => 0x0303
  | ERR_PROTOCOL_HEADER => 0x0304
  | ERR_PROTOCOL_DATA => 0x0305
  | ERR_PROTOCOL_CHECKSUM => 0x0306
  | ERR_PROTOCOL_STATE => 0x0307
  | ERR_VHCI_INIT => 0x0400
  | ERR_VHCI_NOT_FOUND => 0x0401
  | ERR_VHCI_ATTACH_FAILED => 0x0402
  | ERR_VHCI_DETACH_FAILED => 0x0403
  | ERR_VHCI_NO_FREE_PORT => 0x0404
  | ERR_VHCI_INVALID_PORT => 0x0405
  | ERR_VHCI_DRIVER_ERROR => 0x0406
  | ERR_SYSTEM_INIT => 0x0500
  | ERR_THREAD_CREATE => 0x0501
  | ERR_THREAD_JOIN => 0x0502
  | ERR_MUTEX_INIT => 0x0503
  | ERR_MUTEX_LOCK => 0x0504
  | ERR_FILE_OPEN => 0x0505
  | ERR_FILE_READ => 0x0506
  | ERR_FILE_WRITE => 0x0507
  | ERR_REGISTRY_ACCESS => 0x0508
  | ERR_MAX => 0x0509
  end.

(** [ERROR_IS_NETWORK] .. [ERROR_IS_SYSTEM]. *)
Definition ERROR_IS_NETWORK (e : Z) : bool := (0x0100 <=? e) && (e <? 0x0200).
Definition ERROR_IS_USB (e : Z) : bool := (0x0200 <=? e) && (e <? 0x0300).
Definition ERROR_IS_PROTOCOL (e : Z) : bool := (0x0300 <=? e) && (e <? 0x0400).
Definition ERROR_IS_VHCI (e : Z) : bool := (0x0400 <=? e) && (e <? 0x0500).
Definition ERROR_IS_SYSTEM (e : Z) : bool := (0x0500 <=? e) && (e <? 0x0600).

Definition error_code_eqb (a b : error_code) : bool := error_num a =? error_num b.

(** ** Messages *)

Definition error_messages : list (error_code * ptr string) := [
  (ERR_SUCCESS, Some "Success"%string);
  (ERR_GENERAL, Some "General error"%string);
  (ERR_OUT_OF_MEMORY, Some "Out of memory"%string);
  (ERR_INVALID_PARAM, Some "Invalid parameter"%string);
  (ERR_NOT_FOUND, Some "Not found"%string);
  (ERR_ALREADY_EXISTS, Some "Already exists"%string);
  (ERR_NOT_SUPPORTED, Some "Not supported"%string);
  (ERR_TIMEOUT, Some "Operation timed out"%string);
  (ERR_BUSY, Some "Resource is busy"%string);
  (ERR_PERMISSION_DENIED, Some "Permission denied"%string);
  (ERR_IO_ERROR, Some "I/O error"%string);
  (ERR_BUFFER_TOO_SMALL, Some "Buffer too small"%string);
  (ERR_INVALID_STATE, Some "Invalid state"%string);
  (ERR_CANCELLED, Some "Operation cancelled"%string);
  (ERR_NOT_INITIALIZED, Some "Not initialized"%string);
  (ERR_ALREADY_INITIALIZED, Some "Already initialized"%string);
  (ERR_NETWORK_INIT, Some "Network initialization failed"%string);
  (ERR_SOCKET_CREATE, Some "Failed to create socket"%string);
  (ERR_SOCKET_BIND, Some "Failed to bind socket"%string);
  (ERR_SOCKET_LISTEN, Some "Failed to listen on socket"%string);
  (ERR_SOCKET_ACCEPT, Some "Failed to accept connection"%string);
  (ERR_SOCKET_CONNECT, Some "Failed to connect"%string);
  (ERR_SOCKET_SEND, Some "Failed to send data"%string);
  (ERR_SOCKET_RECV, Some "Failed to receive data"%string);
  (ERR_SOCKET_CLOSE, Some "Failed to close socket"%string);
  (ERR_SOCKET_OPTION, Some "Failed to set socket option"%string);
  (ERR_HOST_NOT_FOUND, Some "Host not found"%string);
  (ERR_CONNECTION_REFUSED, Some "Connection refused"%string);
  (ERR_CONNECTION_RESET, Some "Connection reset by peer"%string);
  (ERR_CONNECTION_TIMEOUT, Some "Connection timed out"%string);
  (ERR_NETWORK_UNREACHABLE, Some "Network is unreachable"%string);
  (ERR_ADDRESS_IN_USE, Some "Address already in use"%string);
  (ERR_USB_INIT, Some "USB initialization failed"%string);
  (ERR_USB_NOT_FOUND, Some "USB device not found"%string);
  (ERR_USB_ACCESS_DENIED, Some "USB device access denied"%string);
  (ERR_USB_BUSY, Some "USB device is busy"%string);
  (ERR_USB_NO_DEVICE, Some "No USB device"%string);
  (ERR_USB_CLAIM_FAILED, Some "Failed to claim USB interface"%string);
  (ERR_USB_RELEASE_FAILED, Some "Failed to release USB interface"%string);
  (ERR_USB_IO_FAILED, Some "USB I/O operation failed"%string);
  (ERR_USB_STALL, Some "USB endpoint stall"%string);
  (ERR_USB_OVERFLOW, Some "USB data overflow"%string);
  (ERR_USB_PIPE_ERROR, Some "USB pipe error"%string);
  (ERR_USB_INTERRUPTED, Some "USB operation interrupted"%string);
  (ERR_USB_NO_MEMORY, Some "USB no memory"%string);
  (ERR_USB_INVALID_ENDPOINT, Some "Invalid USB endpoint"%string);
  (ERR_USB_INVALID_INTERFACE, Some "Invalid USB interface"%string);
  (ERR_USB_DETACHED, Some "USB device detached"%string);
  (ERR_USB_DESCRIPTOR_ERROR, Some "USB descriptor error"%string);
  (ERR_PROTOCOL_VERSION, Some "Protocol version mismatch"%string);
  (ERR_PROTOCOL_INVALID, Some "Invalid protocol data"%string);
  (ERR_PROTOCOL_UNSUPPORTED, Some "Unsupported protocol operation"%string);
  (ERR_PROTOCOL_SEQUENCE, Some "Protocol sequence error"%string);
  (ERR_PROTOCOL_HEADER, Some "Invalid protocol header"%string);
  (ERR_PROTOCOL_DATA, Some "Invalid protocol data"%string);
  (ERR_PROTOCOL_CHECKSUM, Some "Protocol checksum error"%string);
  (ERR_PROTOCOL_STATE, Some "Invalid protocol state"%string);
  (ERR_VHCI_INIT, Some "VHCI initialization failed"%string);
  (ERR_VHCI_NOT_FOUND, Some "VHCI driver not found"%string);
  (ERR_VHCI_ATTACH_FAILED, Some "Failed to attach device to VHCI"%string);
  (ERR_VHCI_DETACH_FAILED, Some "Failed to detach device from VHCI"%string);
  (ERR_VHCI_NO_FREE_PORT, Some "No free VHCI port available"%string);
  (ERR_VHCI_INVALID_PORT, Some "Invalid VHCI port"%string);
  (ERR_VHCI_DRIVER_ERROR, Some "VHCI driver error"%string);
  (ERR_SYSTEM_INIT, Some "System initialization failed"%string);
  (ERR_THREAD_CREATE, Some "Failed to create thread"%string);
  (ERR_THREAD_JOIN, Some "Failed to join thread"%string);
  (ERR_MUTEX_INIT, Some "Failed to initialize mutex"%string);
  (ERR_MUTEX_LOCK, Some "Failed to lock mutex"%string);
  (ERR_FILE_OPEN, Some "Failed to open file"%string);
  (ERR_FILE_READ, Some "Failed to read file"%string);
  (ERR_FILE_WRITE, Some "Failed to write file"%string);
  (ERR_REGISTRY_ACCESS, Some "Failed to access registry"%string);
  (ERR_MAX, NULL)].

(** The [for] loop of [error_string] from an entry of the table on. *)
Fixpoint error_string_loop (tab : list (error_code * ptr string)) (code : error_code) : string :=
  match tab with
  | (c, Some m) :: tab' => if error_code_eqb c code then m else error_string_loop tab' code
  | _ => "Unknown error"
  end.

Definition error_string (code : error_code) : string := error_string_loop error_messages code.

(** ** The error context *)

Record error_context := {
  ec_code : error_code;
  ec_system_error : Z;
  ec_socket_error : Z;
  ec_message : bytes;
  ec_file : ptr string;
  ec_line : Z;
  ec_function : ptr string;
}.

(** [g_last_error = {0}]. *)
Definition error_context_zero : error_context := {|
  ec_code := ERR_SUCCESS; ec_system_error := 0; ec_socket_error := 0;
  ec_message := []; ec_file := NULL; ec_line := 0; ec_function := NULL |}.

(** [error_set]: [text] is the formatted [fmt, ...], or [NULL] for a null [fmt];
    [last] and [wsa] are what [GetLastError] and [WSAGetLastError] return. *)
Definition error_set (last wsa : Z) (code : error_code) (file : ptr string) (line : Z)
    (func : ptr string) (text : ptr bytes) : error_context := {|
  ec_code := code; ec_system_error := last; ec_socket_error := wsa;
  ec_message := match text with Some t => snprintf 256 t | NULL => [] end;
  ec_file := file; ec_line := line; ec_function := func |}.

Definition error_clear : error_context := error_context_zero.
Definition error_get_code (g : error_context) : error_code := ec_code g.
Definition error_get_system (g : error_context) : Z := ec_system_error g.

(** The loop that removes trailing newlines, on the reversed message. *)
Fixpoint strip_newlines (rev_msg : bytes) : bytes :=
  match rev_msg with
  | c :: r => if (c =? 10) || (c =? 13) then strip_newlines r else rev_msg
  | [] => []
  end.

(** [error_detail]: [format_message] is the text [FormatMessageA] stores for the
    system error in the 256-byte buffer. *)
Definition error_detail (g : error_context) (format_message : Z -> bytes) : bytes :=
  let sys_error_msg :=
    if ec_system_error g =? 0 then []
    else reverse (strip_newlines (reverse (cstr (format_message (ec_system_error g))))) in
  let sys := str " (System: " ++ sys_error_msg ++ str " [" ++ fmt_u (ec_system_error g) ++ str "])" in
  let name := str (error_string (ec_code g)) in
  snprintf 1024
    match ec_message g, sys_error_msg with
    | [], [] => name
    | [], _ => name ++ sys
    | m, [] => name ++ str ": " ++ m
    | m, _ => name ++ str ": " ++ m ++ sys
    end.

(** ** Lemmas *)

Definition all_error_codes : list error_code := [
  ERR_SUCCESS; ERR_GENERAL; ERR_OUT_OF_MEMORY; ERR_INVALID_PARAM; ERR_NOT_FOUND;
  ERR_ALREADY_EXISTS; ERR_NOT_SUPPORTED; ERR_TIMEOUT; ERR_BUSY; ERR_PERMISSION_DENIED;
  ERR_IO_ERROR; ERR_BUFFER_TOO_SMALL; ERR_INVALID_STATE; ERR_CANCELLED;
  ERR_NOT_INITIALIZED; ERR_ALREADY_INITIALIZED; ERR_NETWORK_INIT; ERR_SOCKET_CREATE;
  ERR_SOCKET_BIND; ERR_SOCKET_LISTEN; ERR_SOCKET_ACCEPT; ERR_SOCKET_CONNECT;
  ERR_SOCKET_SEND; ERR_SOCKET_RECV; ERR_SOCKET_CLOSE; ERR_SOCKET_OPTION;
  ERR_HOST_NOT_FOUND; ERR_CONNECTION_REFUSED; ERR_CONNECTION_RESET;
  ERR_CONNECTION_TIMEOUT; ERR_NETWORK_UNREACHABLE; ERR_ADDRESS_IN_USE; ERR_USB_INIT;
  ERR_USB_NOT_FOUND; ERR_USB_ACCESS_DENIED; ERR_USB_BUSY; ERR_USB_NO_DEVICE;
  ERR_USB_CLAIM_FAILED; ERR_USB_RELEASE_FAILED; ERR_USB_IO_FAILED; ERR_USB_STALL;
  ERR_USB_OVERFLOW; ERR_USB_PIPE_ERROR; ERR_USB_INTERRUPTED; ERR_USB_NO_MEMORY;
  ERR_USB_INVALID_ENDPOINT; ERR_USB_INVALID_INTERFACE; ERR_USB_DETACHED;
  ERR_USB_DESCRIPTOR_ERROR; ERR_DEVICE_BUSY; ERR_PROTOCOL_VERSION;
  ERR_PROTOCOL_INVALID; ERR_PROTOCOL_UNSUPPORTED; ERR_PROTOCOL_SEQUENCE;
  ERR_PROTOCOL_HEADER; ERR_PROTOCOL_DATA; ERR_PROTOCOL_CHECKSUM; ERR_PROTOCOL_STATE;
  ERR_VHCI_INIT; ERR_VHCI_NOT_FOUND; ERR_VHCI_ATTACH_FAILED; ERR_VHCI_DETACH_FAILED;
  ERR_VHCI_NO_FREE_PORT; ERR_VHCI_INVALID_PORT; ERR_VHCI_DRIVER_ERROR; ERR_SYSTEM_INIT;
  ERR_THREAD_CREATE; ERR_THREAD_JOIN; ERR_MUTEX_INIT; ERR_MUTEX_LOCK; ERR_FILE_OPEN;
  ERR_FILE_READ; ERR_FILE_WRITE; ERR_REGISTRY_ACCESS; ERR_MAX].

Definition error_of_num (z : Z) : option error_code :=
  find_first (fun e => error_num e =? z) all_error_codes.

Lemma error_of_num_num e : error_of_num (error_num e) = Some e.
Proof. by destruct e. Qed.

Lemma all_error_codes_complete e : e ∈ all_error_codes.
Proof. eapply find_first_Some, (error_of_num_num e). Qed.

#[export] Instance error_num_inj : Inj (=) (=) error_num.
Proof.
  intros a b H. apply (f_equal error_of_num) in H.
  rewrite !error_of_num_num in H. by simplify_eq.
Qed.

#[export] Instance error_code_eq_dec : EqDecision error_code.
Proof.
  refine (fun a b => cast_if (decide (error_num a = error_num b))); [by apply (inj error_num)|congruence].
Defined.

Lemma error_code_eqb_true a b : error_code_eqb a b = true <-> a = b.
Proof.
  unfold error_code_eqb. rewrite Z.eqb_eq. split; [apply (inj error_num)|by intros ->].
Qed.

Lemma error_code_eqb_false a b : a <> b -> error_code_eqb a b = false.
Proof. intros Hne. apply not_true_is_false. by rewrite error_code_eqb_true. Qed.


Lemma strip_newlines_suffix m : exists r, m = r ++ strip_newlines m.
Proof.
  induction m as [|c m [r IH]]; simpl; [by exists []|].
  destruct (_ || _); [|by exists []]. exists (c :: r). simpl. by f_equal.
Qed.

Lemma length_strip_newlines m : (length (strip_newlines m) <= length m)%nat.
Proof. destruct (strip_newlines_suffix m) as [r E]. apply (f_equal length) in E. rewrite length_app in E. lia. Qed.

(** ** Properties *)

(** Every error code lies in the numeric category its enumeration block
    documents, and the category macros select exactly one category for each
    network, USB, protocol, VHCI and system code. *)
Theorem error_categories_partition e :
  let n := error_num e in
  (n < 0x0100 /\ (n = 0 <-> e = ERR_SUCCESS)) \/
  length (filter (fun b => b = true)
    [ERROR_IS_NETWORK n; ERROR_IS_USB n; ERROR_IS_PROTOCOL n; ERROR_IS_VHCI n;
     ERROR_IS_SYSTEM n]) = 1%nat.
Proof. destruct e; vm_compute; (by right) || (left; split; [done|by split]). Qed.

(** [error_string] finds a message of its own in the table for every code
    except [ERR_DEVICE_BUSY] and the end marker [ERR_MAX], which both read
    "Unknown error". *)
Theorem error_string_unknown e :
  error_string e = "Unknown error"%string <-> e = ERR_DEVICE_BUSY \/ e = ERR_MAX.
Proof. split; [destruct e; vm_compute; auto; discriminate|by intros [-> | ->]]. Qed.

(** the text of [error_detail] always fits its 1024-byte thread-local buffer
    with its terminator, and when nothing was recorded beyond the code it is the
    plain message of that code. *)
Theorem error_detail_bounds g fm :
  (length (error_detail g fm) < 1024)%nat /\
  (ec_message g = [] -> ec_system_error g = 0 ->
   error_detail g fm = str (error_string (ec_code g))).
Proof.
  split.
  - unfold error_detail, snprintf. rewrite length_take. lia.
  - intros Hm Hs. unfold error_detail. rewrite Hm, Hs. simpl.
    destruct (ec_code g); vm_compute; done.
Qed.
