(* ===== verification/Log.v ===== *)
(** * Logging ([common/log.h], [common/log.c])

    [g_log] is a [log_state]; what is written is appended to [log_out]: the lines and
    colour changes of the console, the lines of the file, and the strings given to
    the debugger.  The text of a message, formatted by [vsnprintf] from the caller's
    arguments, and the time of day are arguments.  [snprintf] through a moving
    pointer is [put]: it gives [None] when the call would write outside
    [full_message]. *)

From Stdlib Require Import String.
From S2P Require Import Prelude CTypes Format Errors.

Definition LOG_LEVEL_DEBUG : Z := 1.
Definition LOG_LEVEL_INFO : Z := 2.
Definition LOG_LEVEL_NONE : Z := 6.
Definition LOG_TARGET_NONE : Z := 0.
Definition LOG_TARGET_CONSOLE : Z := 1.
Definition LOG_TARGET_FILE : Z := 2.
Definition LOG_TARGET_DEBUGGER : Z := 4.
Definition LOG_BUFFER_SIZE : nat := 1024.
Definition MAX_PATH : nat := 260.
Definition COLOR_RESET : Z := 7.

Definition level_names : list bytes :=
  [str "TRACE"; str "DEBUG"; str "INFO "; str "WARN "; str "ERROR"; str "FATAL"].
Definition level_colors : list Z := [8; 11; 10; 14; 12; 13].

Record log_config := {
  lc_level : Z;
  lc_targets : Z;
  lc_show_timestamp : bool;
  lc_show_level : bool;
  lc_show_location : bool;
  lc_use_colors : bool;
  lc_log_file : bytes;
}.

Inductive console_event :=
  | C_color (color : Z)
  | C_line (text : bytes).

Record log_out := {
  lo_console : list console_event;
  lo_file : list bytes;
  lo_debugger : list bytes;
}.

Record log_state := {
  lg_config : log_config;
  lg_console : bool;      (* [console_handle] is a handle *)
  lg_file : bool;         (* [log_file] is open *)
  lg_initialized : bool;
}.

Definition log_state_zero : log_state := {|
  lg_config := {| lc_level := LOG_LEVEL_INFO; lc_targets := LOG_TARGET_CONSOLE;
                  lc_show_timestamp := true; lc_show_level := true; lc_show_location := false;
                  lc_use_colors := true; lc_log_file := [] |};
  lg_console := false; lg_file := false; lg_initialized := false |}.

Definition has_target (g : log_state) (t : Z) : bool := negb (Z.land (lc_targets (lg_config g)) t =? 0).

Definition set_config (g : log_state) (c : log_config) (file : bool) : log_state := {|
  lg_config := c; lg_console := lg_console g; lg_file := file; lg_initialized := lg_initialized g |}.

Definition config_targets (c : log_config) (targets : Z) (file : bytes) : log_config := {|
  lc_level := lc_level c; lc_targets := targets; lc_show_timestamp := lc_show_timestamp c;
  lc_show_level := lc_show_level c; lc_show_location := lc_show_location c;
  lc_use_colors := lc_use_colors c; lc_log_file := file |}.

Definition log_set_level (g : log_state) (level : Z) : log_state :=
  let c := lg_config g in
  set_config g {| lc_level := level; lc_targets := lc_targets c; lc_show_timestamp := lc_show_timestamp c;
                  lc_show_level := lc_show_level c; lc_show_location := lc_show_location c;
                  lc_use_colors := lc_use_colors c; lc_log_file := lc_log_file c |} (lg_file g).

Definition log_get_level (g : log_state) : Z := lc_level (lg_config g).

Definition log_set_targets (g : log_state) (targets : Z) : log_state :=
  set_config g (config_targets (lg_config g) targets (lc_log_file (lg_config g))) (lg_file g).

(** [opened]: whether [fopen] succeeds. *)
Definition log_set_file (opened : bool) (filepath : ptr bytes) (g : log_state) : error_code * log_state :=
  match filepath with
  | NULL => (ERR_INVALID_PARAM, g)
  | Some path =>
      let c := lg_config g in
      let stored := strncpy (lc_log_file c ++ replicate (MAX_PATH - length (lc_log_file c)) 0) path
                      (MAX_PATH - 1) in
      return_if negb opened
        with (ERR_FILE_OPEN, set_config g (config_targets c (lc_targets c) stored) false) ;;
      (ERR_SUCCESS, set_config g (config_targets c (Z.lor (lc_targets c) LOG_TARGET_FILE) stored) true)
  end.

Definition log_close_file (g : log_state) : log_state :=
  let c := lg_config g in
  set_config g (config_targets c (Z.land (lc_targets c) (Z.lnot LOG_TARGET_FILE)) (lc_log_file c)) false.

(** ** Writing *)

(** [strrchr] twice, as [get_filename] does. *)
Definition after_last (c : Z) (path : bytes) : option bytes :=
  if bool_decide (c ∈ path)
  then Some (reverse (take_while (fun x => negb (x =? c)) (reverse path)))
  else None.

Definition get_filename (path : bytes) : bytes :=
  match after_last 92 path with
  | Some name => name
  | None => match after_last 47 path with Some name => name | None => path end
  end.

Record system_time := {
  st_Year : Z; st_Month : Z; st_Day : Z; st_Hour : Z; st_Minute : Z; st_Second : Z;
  st_Milliseconds : Z;
}.

Definition get_timestamp (st : system_time) (size : nat) : bytes :=
  snprintf size (fmt_0d 4 (st_Year st) ++ str "-" ++ fmt_0d 2 (st_Month st) ++ str "-" ++
    fmt_0d 2 (st_Day st) ++ str " " ++ fmt_0d 2 (st_Hour st) ++ str ":" ++ fmt_0d 2 (st_Minute st) ++
    str ":" ++ fmt_0d 2 (st_Second st) ++ str "." ++ fmt_0d 3 (st_Milliseconds st)).

Definition FULL_MESSAGE_SIZE : Z := Z.of_nat LOG_BUFFER_SIZE + 256.

(** The array's string, the position of [p] in it, and [remaining], a [size_t]. *)
Record cursor := { cu_text : bytes; cu_pos : Z; cu_remaining : Z }.

Definition cursor_start : cursor :=
  {| cu_text := []; cu_pos := 0; cu_remaining := FULL_MESSAGE_SIZE |}.

(** [written = snprintf(p, remaining, ...); p += written; remaining -= written;] *)
Definition put (text : bytes) (c : cursor) : option cursor :=
  let stored := take (Z.to_nat (cu_remaining c) - 1) text in
  return_if negb (cu_remaining c =? 0) &&
            (cu_pos c + Z.of_nat (length stored) + 1 >? FULL_MESSAGE_SIZE) with None ;;
  Some {| cu_text := take (Z.to_nat (cu_pos c)) (cu_text c) ++ stored;
          cu_pos := cu_pos c + Z.of_nat (length text);
          cu_remaining := wrap 64 (cu_remaining c - Z.of_nat (length text)) |}.

Definition put_if (b : bool) (text : bytes) (c : cursor) : option cursor :=
  if b then put text c else Some c.

Record log_call := {
  ca_file : bytes;
  ca_line : Z;
  ca_func : bytes;
  ca_text : bytes;      (* what [vsnprintf] makes of the format and its arguments *)
  ca_time : system_time;
}.

Definition timestamp_part (call : log_call) : bytes := str "[" ++ get_timestamp (ca_time call) 48 ++ str "] ".
Definition level_part (level : Z) : bytes := str "[" ++ default [] (level_names !! Z.to_nat level) ++ str "] ".
Definition location_part (call : log_call) : bytes :=
  str "[" ++ get_filename (ca_file call) ++ str ":" ++ fmt_d (ca_line call) ++ str " " ++ ca_func call ++
  str "] ".

Definition full_message (c : log_config) (level : Z) (call : log_call) : option bytes :=
  let message := snprintf LOG_BUFFER_SIZE (ca_text call) in
  p ← put_if (lc_show_timestamp c) (timestamp_part call) cursor_start;
  p ← put_if (lc_show_level c) (level_part level) p;
  p ← put_if (lc_show_location c) (location_part call) p;
  cu_text <$> put message p.

(** One line to the targets that are on; [colour]: the colour of the console. *)
Definition emit (g : log_state) (colour : option Z) (line : bytes) (debug_size : nat) (o : log_out) : log_out := {|
  lo_console := lo_console o ++
    (if has_target g LOG_TARGET_CONSOLE then
       match colour with
       | Some k => (if lg_console g then [C_color k] else []) ++ [C_line line] ++
                   (if lg_console g then [C_color COLOR_RESET] else [])
       | None => [C_line line]
       end
     else []);
  lo_file := lo_file o ++ (if has_target g LOG_TARGET_FILE && lg_file g then [line] else []);
  lo_debugger := lo_debugger o ++
    (if has_target g LOG_TARGET_DEBUGGER then [snprintf debug_size (line ++ [10])] else []) |}.

Definition log_write (g : log_state) (level : Z) (call : log_call) (o : log_out) : option log_out :=
  let c := lg_config g in
  return_if (level <? lc_level c) || (lc_targets c =? LOG_TARGET_NONE) with Some o ;;
  line ← full_message c level call;
  let colour := if lc_use_colors c then level_colors !! Z.to_nat level else None in
  Some (emit g colour line (LOG_BUFFER_SIZE + 258) o).

(** ** Initialization *)

(** [mutex_result]: the result of [mutex_init]; [console]: whether [GetStdHandle]
    returns a handle; [opened]: whether [fopen] succeeds; [call]: the message the
    function logs. *)
Definition log_init (mutex_result : Z) (console opened : bool) (config : ptr log_config) (call : log_call)
    (g : log_state) (o : log_out) : option (error_code * log_state * log_out) :=
  return_if lg_initialized g with Some (ERR_ALREADY_INITIALIZED, g, o) ;;
  return_if negb (mutex_result =? 0) with Some (ERR_MUTEX_INIT, g, o) ;;
  let g := set_config g (default (lg_config g) config) (lg_file g) in
  let console := if has_target g LOG_TARGET_CONSOLE then console else lg_console g in
  let opens := has_target g LOG_TARGET_FILE && negb (char_at (lc_log_file (lg_config g)) 0 =? 0) in
  let state file init := {| lg_config := lg_config g; lg_console := console; lg_file := file;
                            lg_initialized := init |} in
  return_if opens && negb opened with Some (ERR_FILE_OPEN, state false false, o) ;;
  let g := state (opens || lg_file g) true in
  o ← log_write g LOG_LEVEL_INFO call o;
  Some (ERR_SUCCESS, g, o).

Definition log_out_empty : log_out := {| lo_console := []; lo_file := []; lo_debugger := [] |}.

(** What a program's start meets when it initializes the log. *)
Record log_env := { le_mutex : Z; le_console : bool; le_call : log_call }.

(** The result of [log_init] when it is the first call on the log; the undefined
    case does not arise ([start_log_defined]). *)
Definition start_log (env : log_env) (config : log_config) : error_code :=
  match log_init (le_mutex env) (le_console env) false (Some config) (le_call env) log_state_zero
          log_out_empty with
  | Some (err, _, _) => err
  | None => ERR_GENERAL
  end.

Definition log_cleanup (call : log_call) (g : log_state) (o : log_out) : option (log_state * log_out) :=
  return_if negb (lg_initialized g) with Some (g, o) ;;
  o ← log_write g LOG_LEVEL_INFO call o;
  Some ({| lg_config := lg_config g; lg_console := lg_console g; lg_file := false;
           lg_initialized := false |}, o).

(** ** The hex dump *)

(** One iteration of the loop that builds a line. *)
Definition hex_byte (bs : bytes) (i : nat) : bytes :=
  match bs !! i with
  | Some b => fmt_0X 2 b ++ [32]
  | None => [32; 32; 32]
  end ++ (if (i =? 7)%nat then [32] else []).

Definition ascii_byte (bs : bytes) (i : nat) : Z :=
  match bs !! i with
  | Some b => if (32 <=? b) && (b <? 127) then b else 46
  | None => 32
  end.

Definition hex_part (bs : bytes) : bytes := concat (map (hex_byte bs) (seq 0 16)).
Definition ascii_part (bs : bytes) : bytes := map (ascii_byte bs) (seq 0 16).

Definition hexdump_line (offset : Z) (bs : bytes) : bytes :=
  snprintf 128 (str "  " ++ fmt_0X 4 offset ++ str ": " ++ fmt_ljust 49 (hex_part bs) ++ str " |" ++
    ascii_part bs ++ str "|").

(** The [while] loop, from [offset] with [data] left; [n] bounds its iterations. *)
Fixpoint hexdump_lines (n : nat) (offset : Z) (data : bytes) : list bytes :=
  match n with
  | O => []
  | S n =>
      match data with
      | [] => []
      | _ => hexdump_line offset (take 16 data) ::
             hexdump_lines n (offset + Z.of_nat (length (take 16 data))) (drop 16 data)
      end
  end.

(** [header]: the message that announces the dump. *)
Definition log_hexdump (g : log_state) (level : Z) (header : log_call) (data : ptr bytes) (o : log_out) :
    option log_out :=
  match data with
  | NULL => Some o
  | Some bs =>
      return_if (level <? lc_level (lg_config g)) || (length bs =? 0)%nat with Some o ;;
      o ← log_write g level header o;
      Some (fold_left (fun o line => emit g None line 150 o) (hexdump_lines (length bs) 0 bs) o)
  end.

(** ** Lemmas *)

Lemma put_fits (text : bytes) c :
  0 <= cu_pos c -> cu_pos c = Z.of_nat (length (cu_text c)) -> cu_remaining c = FULL_MESSAGE_SIZE - cu_pos c ->
  cu_pos c + Z.of_nat (length text) < FULL_MESSAGE_SIZE ->
  put text c = Some {| cu_text := cu_text c ++ text; cu_pos := cu_pos c + Z.of_nat (length text);
                       cu_remaining := FULL_MESSAGE_SIZE - (cu_pos c + Z.of_nat (length text)) |}.
Proof.
  intros H0 Hp Hr Hl. unfold put.
  assert (take (Z.to_nat (cu_remaining c) - 1) text = text) as -> by (apply take_ge; lia).
  rewrite (proj2 (Z.eqb_neq (cu_remaining c) 0)) by lia. rewrite Z.gtb_ltb.
  rewrite (proj2 (Z.ltb_ge _ _)) by lia. cbn [negb andb]. do 2 f_equal.
  - f_equal. apply take_ge. lia.
  - rewrite wrap_small; [lia|]. change FULL_MESSAGE_SIZE with 1280 in *. unfold is_u. lia.
Qed.

Definition cursor_ok (c : cursor) : Prop :=
  cu_pos c = Z.of_nat (length (cu_text c)) /\ cu_remaining c = FULL_MESSAGE_SIZE - cu_pos c.

Lemma put_if_fits (b : bool) (text : bytes) c :
  cursor_ok c -> cu_pos c + Z.of_nat (length (if b then text else [])) < FULL_MESSAGE_SIZE ->
  exists c', put_if b text c = Some c' /\ cursor_ok c' /\ cu_text c' = cu_text c ++ (if b then text else []).
Proof.
  intros [Hp Hr] Hl. destruct b; simpl in *.
  - rewrite put_fits by (done || lia). eexists. split; [done|]. split; [|done]. split; simpl; [|done].
    rewrite length_app. lia.
  - exists c. split; [done|]. split; [done|]. by rewrite app_nil_r.
Qed.

Lemma level_part_length level : (length (level_part level) <= 8)%nat.
Proof.
  unfold level_part. destruct (level_names !! Z.to_nat level) as [n|] eqn:E; [|vm_compute; lia].
  assert (Forall (fun n => length n = 5%nat) level_names) as Hn by (repeat constructor).
  rewrite Forall_lookup in Hn. apply Hn in E. unfold default, id, from_option.
  rewrite !length_app, E. vm_compute. lia.
Qed.

Lemma timestamp_part_length call : (length (timestamp_part call) <= 50)%nat.
Proof. 
  unfold timestamp_part, get_timestamp, snprintf. rewrite !length_app, length_take.
  change (length (str "[")) with 1%nat. change (length (str "] ")) with 2%nat. lia.
Qed.

(** ** The hex dump *)

Lemma fmt_X2_length b : is_byte b -> length (fmt_0X 2 b) = 2%nat.
Proof.
  intros Hb. assert (forallb (fun b => (length (fmt_0X 2 b) =? 2)%nat) (seqZ 0 256) = true) as Hall
    by (vm_compute; reflexivity).
  rewrite forallb_forall in Hall. apply Nat.eqb_eq, Hall. apply list_elem_of_In, elem_of_seqZ.
  unfold is_byte, is_u in Hb. change (2 ^ 8) with 256 in Hb. lia.
Qed.

Lemma hex_byte_length bs i :
  Forall is_byte bs -> length (hex_byte bs i) = if (i =? 7)%nat then 4%nat else 3%nat.
Proof.
  intros Hb. unfold hex_byte. rewrite length_app. destruct (bs !! i) as [b|] eqn:E.
  - rewrite Forall_lookup in Hb. apply Hb in E. rewrite length_app, fmt_X2_length by done.
    by destruct (i =? 7)%nat.
  - by destruct (i =? 7)%nat.
Qed.

(** The hex part fills [hex_part[50]] with its terminator, and no more. *)
Lemma hex_part_length bs : Forall is_byte bs -> length (hex_part bs) = 49%nat.
Proof.
  intros Hb. unfold hex_part. cbn [seq map concat]. rewrite !length_app, !hex_byte_length by done. done.
Qed.

Lemma fmt_0X_length k n : (length (fmt_0X k n) <= Nat.max k (S (Z.to_nat (Z.log2 n))))%nat.
Proof.
  unfold fmt_0X, pad_left, fmt_X, fmt_base. rewrite length_app, length_replicate, length_reverse.
  assert (forall f n, (length (digits_rev f 16 n) <= f)%nat) as Hl.
  { intros f. induction f as [|f IH]; intros m; cbn [digits_rev]; [done|]. simpl.
    destruct (_ =? 0); simpl; [lia|]. specialize (IH (m / 16)). lia. }
  specialize (Hl (S (Z.to_nat (Z.log2 n))) n). lia.
Qed.

Lemma hexdump_lines_spec n offset data :
  (length data <= n)%nat ->
  forall i, (16 * i < length data)%nat ->
  hexdump_lines n offset data !! i =
  Some (hexdump_line (offset + 16 * Z.of_nat i) (take 16 (drop (16 * i) data))).
Proof.
  revert offset data. induction n as [|n IH]; intros offset data Hn i Hi; [lia|].
  cbn [hexdump_lines]. destruct data as [|b data]; [simpl in Hi; lia|].
  destruct i as [|i].
  - cbn [lookup list_lookup]. do 2 f_equal. lia.
  - change ((?x :: ?l) !! S i) with (l !! i).
    rewrite IH; [|rewrite length_drop; simpl in *; lia|rewrite length_drop; lia].
    rewrite length_take, drop_drop. do 2 f_equal; [lia|]. f_equal. f_equal. lia.
Qed.

Lemma full_message_text c level call :
  (lc_show_location c = true -> (length (location_part call) <= 198)%nat) ->
  full_message c level call =
    Some ((if lc_show_timestamp c then timestamp_part call else []) ++
          (if lc_show_level c then level_part level else []) ++
          (if lc_show_location c then location_part call else []) ++ take 1023 (ca_text call)).
Proof.
  intros Hloc0. assert (length (if lc_show_location c then location_part call else []) <= 198)%nat as Hloc.
  { destruct (lc_show_location c); [by apply Hloc0|simpl; lia]. }
  pose proof (level_part_length level) as Hlv. pose proof (timestamp_part_length call) as Hts.
  assert (length (take 1023 (ca_text call)) <= 1023)%nat as Hm by (rewrite length_take; lia).
  unfold full_message. assert (cursor_ok cursor_start) as K0 by done.
  assert (FULL_MESSAGE_SIZE = 1280) as HS by done.
  destruct (put_if_fits (lc_show_timestamp c) (timestamp_part call) _ K0) as (c1 & E1 & K1 & T1).
  { rewrite HS. change (cu_pos cursor_start) with 0. destruct (lc_show_timestamp c); cbn [length]; lia. }
  pose proof (proj1 K1) as P1. rewrite T1 in P1. cbn [cu_text cursor_start app] in P1.
  assert (cu_pos c1 <= 50) as B1 by (rewrite P1; destruct (lc_show_timestamp c); cbn [length] in *; lia).
  rewrite E1. cbn [mbind option_bind].
  destruct (put_if_fits (lc_show_level c) (level_part level) _ K1) as (c2 & E2 & K2 & T2).
  { rewrite HS. destruct (lc_show_level c); cbn [length] in *; lia. }
  pose proof (proj1 K2) as P2. rewrite T2, length_app in P2. pose proof (proj1 K1) as Q1.
  assert (cu_pos c2 <= 58) as B2 by (rewrite P2; destruct (lc_show_level c); cbn [length] in *; lia).
  rewrite E2. cbn [mbind option_bind].
  destruct (put_if_fits (lc_show_location c) (location_part call) _ K2) as (c3 & E3 & K3 & T3).
  { rewrite HS. destruct (lc_show_location c); cbn [length] in *; lia. }
  pose proof (proj1 K3) as P3. rewrite T3, length_app in P3. pose proof (proj1 K2) as Q2.
  assert (cu_pos c3 <= 256) as B3 by (rewrite P3; destruct (lc_show_location c); cbn [length] in *; lia).
  rewrite E3. cbn [mbind option_bind]. destruct K3 as [K3 R3].
  rewrite put_fits; [|lia|done|done|].
  + cbn [fmap option_fmap option_map cu_text]. rewrite T3, T2, T1. by rewrite <- !app_assoc.
  + unfold snprintf. change (LOG_BUFFER_SIZE - 1)%nat with 1023%nat. lia.
Qed.

Lemma log_write_defined g level call o :
  (lc_show_location (lg_config g) = true -> (length (location_part call) <= 198)%nat) ->
  is_Some (log_write g level call o).
Proof.
  intros Hl. unfold log_write. destruct (_ || _); [by eexists|]. rewrite full_message_text by done. by eexists.
Qed.

Lemma start_log_defined env config :
  (lc_show_location config = true -> (length (location_part (le_call env)) <= 198)%nat) ->
  is_Some (log_init (le_mutex env) (le_console env) false (Some config) (le_call env) log_state_zero
             log_out_empty).
Proof.
  intros Hl. unfold log_init. cbn [lg_initialized log_state_zero]. destruct (negb _); [by eexists|]. cbv zeta.
  match goal with |- context [if ?b then _ else _] => destruct b; [by eexists|] end.
  match goal with |- context [log_write ?g ?l ?c ?o] =>
    destruct (log_write_defined g l c o) as [o' ->]; [exact Hl|] end.
  by eexists.
Qed.

(** ** Properties *)

(** the buffers of the log suffice.  A message whose location takes at most 198
    characters is logged whole, up to 1023 characters of the caller's text, through
    a pointer that never leaves [full_message]; and in a hex dump of up to 4 GB
    every line is the whole rendering of its 16 bytes, whose hex digits take 49 of
    the 50 characters they have. *)
Theorem log_buffers_suffice c level call data i :
  (length (location_part call) <= 198)%nat -> Forall is_byte data ->
  Z.of_nat (length data) < 2 ^ 32 -> (16 * i < length data)%nat ->
  let bs := take 16 (drop (16 * i) data) in
  let offset := 16 * Z.of_nat i in
  full_message c level call =
    Some ((if lc_show_timestamp c then timestamp_part call else []) ++
          (if lc_show_level c then level_part level else []) ++
          (if lc_show_location c then location_part call else []) ++ take 1023 (ca_text call)) /\
  length (hex_part bs) = 49%nat /\
  hexdump_lines (length data) 0 data !! i = Some (str "  " ++ fmt_0X 4 offset ++ str ": " ++
    hex_part bs ++ str " |" ++ ascii_part bs ++ str "|").
Proof.
  intros Hloc Hb Hlen Hi bs offset.
  assert (length (hex_part bs) = 49%nat) as Hh by (apply hex_part_length; by apply Forall_take, Forall_drop).
  split; [|split; [done|]].
  - by apply full_message_text.
  - rewrite (hexdump_lines_spec (length data) 0 data) by lia. rewrite Z.add_0_l. f_equal.
    unfold hexdump_line, snprintf, fmt_ljust. fold bs. rewrite Hh. rewrite app_nil_r. apply take_ge.
    pose proof (fmt_0X_length 4 offset) as Ho. assert (Z.log2 offset < 32).
    { destruct (decide (offset = 0)) as [->|]; [done|]. apply Z.log2_lt_pow2; lia. }
    pose proof (Z.log2_nonneg offset). rewrite !length_app, Hh.
    assert (length (ascii_part bs) = 16%nat) as -> by done. simpl. lia.
Qed.

(** [log_init] and [log_cleanup]: the log is initialized exactly when the
    result says so, a second initialization changes nothing, no file is left open
    after a failure or a cleanup, and messages below the level, or with no target,
    are not written. *)
Theorem log_lifecycle mutex console opened config call g o e g1 o1 :
  lg_initialized g = false -> lg_file g = false ->
  log_init mutex console opened config call g o = Some (e, g1, o1) ->
  (lg_initialized g1 = true <-> e = ERR_SUCCESS) /\
  (e <> ERR_SUCCESS -> lg_file g1 = false /\ o1 = o) /\
  (forall g2 o2, log_cleanup call g1 o1 = Some (g2, o2) -> lg_initialized g2 = false /\ lg_file g2 = false) /\
  (lg_initialized g1 = true -> forall m c op cfg k o', 
     log_init m c op cfg k g1 o' = Some (ERR_ALREADY_INITIALIZED, g1, o')) /\
  (forall level k o', level < log_get_level g1 \/ lc_targets (lg_config g1) = LOG_TARGET_NONE ->
     log_write g1 level k o' = Some o').
Proof.
  intros Hi Hf E. unfold log_init in E. rewrite Hi in E.
  assert ((lg_initialized g1 = true <-> e = ERR_SUCCESS) /\ (e <> ERR_SUCCESS -> lg_file g1 = false /\ o1 = o)) as [Hs He].
  { destruct (negb (mutex =? 0)); [simplify_eq; rewrite Hi; split; [done|done]|]. cbv zeta in E.
    destruct (_ && negb opened); [simplify_eq; by split|].
    destruct (log_write _ _ _ _) eqn:Ew; simplify_eq/=. by split. }
  clear E. split; [done|]. split; [done|]. split; [|split].
  - intros g2 o2 Ec. unfold log_cleanup in Ec. destruct (lg_initialized g1) eqn:Ei; cbn [negb] in Ec.
    + apply bind_Some in Ec as (o3 & _ & Ec). by simplify_eq.
    + simplify_eq. split; [done|]. apply He. intros ->. destruct Hs as [_ Hs]. by specialize (Hs eq_refl).
  - intros Hi1 m c op cfg k o'. unfold log_init. by rewrite Hi1.
  - intros level k o' Hl. unfold log_write, log_get_level in *.
    assert ((level <? lc_level (lg_config g1)) || (lc_targets (lg_config g1) =? LOG_TARGET_NONE) = true) as ->; [|done].
    apply orb_true_iff. destruct Hl as [?|?]; [left; by apply Z.ltb_lt|right; by apply Z.eqb_eq].
Qed.

(** ** Witnesses *)

Definition example_call (text : bytes) : log_call := {|
  ca_file := str "src/server/main.c"; ca_line := 304; ca_func := str "server_init"; ca_text := text;
  ca_time := {| st_Year := 2024; st_Month := 5; st_Day := 17; st_Hour := 9; st_Minute := 3;
                st_Second := 7; st_Milliseconds := 42 |} |}.

Definition verbose_config : log_config := {|
  lc_level := LOG_LEVEL_DEBUG; lc_targets := LOG_TARGET_CONSOLE; lc_show_timestamp := true;
  lc_show_level := true; lc_show_location := true; lc_use_colors := true; lc_log_file := [] |}.

Lemma log_buffers_suffice_witness :
  full_message verbose_config LOG_LEVEL_INFO (example_call (str "ready")) =
    Some (str "[2024-05-17 09:03:07.042] [INFO ] [main.c:304 server_init] ready") /\
  hexdump_lines 3 0 [71; 0; 255] !! 0%nat =
    Some (str "  0000: 47 00 FF                                          |G..             |").
Proof.
  destruct (log_buffers_suffice verbose_config LOG_LEVEL_INFO (example_call (str "ready")) [71; 0; 255] 0)
    as (E1 & _ & E2).
  - vm_compute. lia.
  - repeat constructor; vm_compute; discriminate.
  - vm_compute. reflexivity.
  - vm_compute. lia.
  - split; [rewrite E1; vm_compute; reflexivity|]. cbn [length] in E2. rewrite E2. vm_compute. reflexivity.
Defined.

Lemma log_lifecycle_witness :
  exists g o, log_init 0 true false (Some verbose_config) (example_call (str "hello")) log_state_zero log_out_empty =
    Some (ERR_SUCCESS, g, o) /\ lg_initialized g = true /\ log_write g 0 (example_call []) o = Some o.
Proof.
  destruct (log_init 0 true false (Some verbose_config) (example_call (str "hello")) log_state_zero log_out_empty)
    as [[[e g] o]|] eqn:E; [|vm_compute in E; discriminate].
  destruct (log_lifecycle 0 true false (Some verbose_config) (example_call (str "hello")) log_state_zero
    log_out_empty e g o eq_refl eq_refl E) as (Hi & _ & _ & _ & Hw).
  vm_compute in E. injection E as <- <- <-. eexists _, _. split; [reflexivity|]. split; [by apply Hi|].
  apply Hw. left. vm_compute. reflexivity.
Defined.
