(* ===== verification/Protocol.v ===== *)
(** * USB/IP messages ([common/protocol.h], [common/protocol.c])

    The packed structures of the protocol, their object representation, the
    in-place byte-order conversions [usbip_pack_*]/[usbip_unpack_*], the message
    constructors [usbip_create_*], the validators and the device-id helpers.

    A structure is a record of its fields; [CStruct] gives its [sizeof], the
    bytes it occupies and the reading of those bytes back.  The union of
    [usbip_header_t] is kept as what its four views share: five 32-bit words and
    the eight last bytes ([u_w0] .. [u_w4], [u_tail]). *)

From Stdlib Require Import String.
From S2P Require Import Prelude CTypes Errors.

(** ** Constants *)

Definition USBIP_PROTO_VERSION : Z := 0x0111.

Definition OP_REQ_DEVLIST : Z := 0x8005.
Definition OP_REQ_IMPORT : Z := 0x8003.
Definition OP_REP_DEVLIST : Z := 0x0005.
Definition OP_REP_IMPORT : Z := 0x0003.

Definition USBIP_CMD_SUBMIT : Z := 1.
Definition USBIP_CMD_UNLINK : Z := 2.
Definition USBIP_RET_SUBMIT : Z := 3.
Definition USBIP_RET_UNLINK : Z := 4.

Definition USBIP_ST_OK : Z := 0.
Definition USBIP_ST_NA : Z := 1.
Definition USBIP_ST_DEV_BUSY : Z := 2.
Definition USBIP_ST_DEV_ERR : Z := 3.
Definition USBIP_ST_NODEV : Z := 4.
Definition USBIP_ST_ERROR : Z := 5.

Definition USBIP_DIR_OUT : Z := 0.
Definition USBIP_DIR_IN : Z := 1.

Definition USBIP_PATH_MAX : nat := 256.
Definition USBIP_BUSID_MAX : nat := 32.

(** ** Structures *)

Record usbip_header_basic := {
  hb_version : Z;
  hb_command : Z;
  hb_status : Z;
}.

Record usbip_usb_device := {
  ud_path : bytes;
  ud_busid : bytes;
  ud_busnum : Z;
  ud_devnum : Z;
  ud_speed : Z;
  ud_idVendor : Z;
  ud_idProduct : Z;
  ud_bcdDevice : Z;
  ud_bDeviceClass : Z;
  ud_bDeviceSubClass : Z;
  ud_bDeviceProtocol : Z;
  ud_bConfigurationValue : Z;
  ud_bNumConfigurations : Z;
  ud_bNumInterfaces : Z;
}.

Record usbip_usb_interface := {
  ui_bInterfaceClass : Z;
  ui_bInterfaceSubClass : Z;
  ui_bInterfaceProtocol : Z;
  ui_padding : Z;
}.

Record usbip_op_devlist_reply := {
  dr_header : usbip_header_basic;
  dr_ndev : Z;
}.

Record usbip_op_import_request := {
  ir_header : usbip_header_basic;
  ir_busid : bytes;
}.

Record usbip_op_import_reply := {
  ip_header : usbip_header_basic;
  ip_device : usbip_usb_device;
}.

Record usbip_header_common := {
  hc_command : Z;
  hc_seqnum : Z;
  hc_devid : Z;
  hc_direction : Z;
  hc_ep : Z;
}.

(** The union [u]; its views are the accessors below. *)
Record usbip_header_u := {
  u_w0 : Z;
  u_w1 : Z;
  u_w2 : Z;
  u_w3 : Z;
  u_w4 : Z;
  u_tail : bytes;
}.

Record usbip_header := {
  h_common : usbip_header_common;
  h_u : usbip_header_u;
}.

Record usbip_iso_packet_descriptor := {
  iso_offset : Z;
  iso_length : Z;
  iso_actual_length : Z;
  iso_status : Z;
}.

(** [u.cmd_submit] *)
Definition cs_transfer_flags := u_w0.
Definition cs_transfer_buffer_length := u_w1.
Definition cs_start_frame := u_w2.
Definition cs_number_of_packets := u_w3.
Definition cs_interval := u_w4.
Definition cs_setup := u_tail.

(** [u.ret_submit] *)
Definition rs_status := u_w0.
Definition rs_actual_length := u_w1.
Definition rs_start_frame := u_w2.
Definition rs_number_of_packets := u_w3.
Definition rs_error_count := u_w4.
Definition rs_setup := u_tail.

(** [u.cmd_unlink], [u.ret_unlink] *)
Definition cu_seqnum_to_unlink := u_w0.
Definition ru_status := u_w0.

(** ** Object representation *)

Class CStruct (A : Type) := {
  sizeof : nat;
  to_mem : A -> bytes;
  of_mem : bytes -> A;
  fields_ok : A -> Prop;
  length_to_mem a : fields_ok a -> length (to_mem a) = sizeof;
  to_mem_bytes a : fields_ok a -> Forall is_byte (to_mem a);
  of_to_mem a : fields_ok a -> of_mem (to_mem a) = a;
  of_mem_ok bs : Forall is_byte bs -> length bs = sizeof -> fields_ok (of_mem bs);
  to_of_mem bs : Forall is_byte bs -> length bs = sizeof -> to_mem (of_mem bs) = bs;
}.
Arguments sizeof A {_}.

Definition header_basic_mem (h : usbip_header_basic) : bytes :=
  to_le 2 (hb_version h) ++ to_le 2 (hb_command h) ++ to_le 4 (hb_status h).

Definition header_basic_of (bs : bytes) : usbip_header_basic := {|
  hb_version := of_le (take 2 bs);
  hb_command := of_le (take 2 (drop 2 bs));
  hb_status := of_le (take 4 (drop 2 (drop 2 bs))) |}.

Definition header_basic_ok (h : usbip_header_basic) : Prop :=
  is_u 16 (hb_version h) /\ is_u 16 (hb_command h) /\ is_u 32 (hb_status h).

Definition usb_device_mem (d : usbip_usb_device) : bytes :=
  ud_path d ++ ud_busid d ++
  to_le 4 (ud_busnum d) ++ to_le 4 (ud_devnum d) ++ to_le 4 (ud_speed d) ++
  to_le 2 (ud_idVendor d) ++ to_le 2 (ud_idProduct d) ++ to_le 2 (ud_bcdDevice d) ++
  to_le 1 (ud_bDeviceClass d) ++ to_le 1 (ud_bDeviceSubClass d) ++
  to_le 1 (ud_bDeviceProtocol d) ++ to_le 1 (ud_bConfigurationValue d) ++
  to_le 1 (ud_bNumConfigurations d) ++ to_le 1 (ud_bNumInterfaces d).

Definition usb_device_of (bs : bytes) : usbip_usb_device :=
  let b1 := drop USBIP_PATH_MAX bs in let b2 := drop USBIP_BUSID_MAX b1 in
  let b3 := drop 4 b2 in let b4 := drop 4 b3 in let b5 := drop 4 b4 in
  let b6 := drop 2 b5 in let b7 := drop 2 b6 in let b8 := drop 2 b7 in
  let b9 := drop 1 b8 in let b10 := drop 1 b9 in let b11 := drop 1 b10 in
  let b12 := drop 1 b11 in let b13 := drop 1 b12 in {|
  ud_path := take USBIP_PATH_MAX bs; ud_busid := take USBIP_BUSID_MAX b1;
  ud_busnum := of_le (take 4 b2); ud_devnum := of_le (take 4 b3); ud_speed := of_le (take 4 b4);
  ud_idVendor := of_le (take 2 b5); ud_idProduct := of_le (take 2 b6);
  ud_bcdDevice := of_le (take 2 b7);
  ud_bDeviceClass := of_le (take 1 b8); ud_bDeviceSubClass := of_le (take 1 b9);
  ud_bDeviceProtocol := of_le (take 1 b10); ud_bConfigurationValue := of_le (take 1 b11);
  ud_bNumConfigurations := of_le (take 1 b12); ud_bNumInterfaces := of_le (take 1 b13) |}.

Definition usb_device_ok (d : usbip_usb_device) : Prop :=
  (Forall is_byte (ud_path d) /\ length (ud_path d) = USBIP_PATH_MAX) /\
  (Forall is_byte (ud_busid d) /\ length (ud_busid d) = USBIP_BUSID_MAX) /\
  is_u 32 (ud_busnum d) /\ is_u 32 (ud_devnum d) /\ is_u 32 (ud_speed d) /\
  is_u 16 (ud_idVendor d) /\ is_u 16 (ud_idProduct d) /\ is_u 16 (ud_bcdDevice d) /\
  is_u 8 (ud_bDeviceClass d) /\ is_u 8 (ud_bDeviceSubClass d) /\
  is_u 8 (ud_bDeviceProtocol d) /\ is_u 8 (ud_bConfigurationValue d) /\
  is_u 8 (ud_bNumConfigurations d) /\ is_u 8 (ud_bNumInterfaces d).

Definition usb_interface_mem (i : usbip_usb_interface) : bytes :=
  to_le 1 (ui_bInterfaceClass i) ++ to_le 1 (ui_bInterfaceSubClass i) ++
  to_le 1 (ui_bInterfaceProtocol i) ++ to_le 1 (ui_padding i).

Definition usb_interface_of (bs : bytes) : usbip_usb_interface := {|
  ui_bInterfaceClass := of_le (take 1 bs);
  ui_bInterfaceSubClass := of_le (take 1 (drop 1 bs));
  ui_bInterfaceProtocol := of_le (take 1 (drop 1 (drop 1 bs)));
  ui_padding := of_le (take 1 (drop 1 (drop 1 (drop 1 bs)))) |}.

Definition usb_interface_ok (i : usbip_usb_interface) : Prop :=
  is_u 8 (ui_bInterfaceClass i) /\ is_u 8 (ui_bInterfaceSubClass i) /\
  is_u 8 (ui_bInterfaceProtocol i) /\ is_u 8 (ui_padding i).

Definition header_mem (h : usbip_header) : bytes :=
  let c := h_common h in let u := h_u h in
  to_le 4 (hc_command c) ++ to_le 4 (hc_seqnum c) ++ to_le 4 (hc_devid c) ++
  to_le 4 (hc_direction c) ++ to_le 4 (hc_ep c) ++
  to_le 4 (u_w0 u) ++ to_le 4 (u_w1 u) ++ to_le 4 (u_w2 u) ++ to_le 4 (u_w3 u) ++
  to_le 4 (u_w4 u) ++ u_tail u.

Definition header_of (bs : bytes) : usbip_header :=
  let b1 := drop 4 bs in let b2 := drop 4 b1 in let b3 := drop 4 b2 in
  let b4 := drop 4 b3 in let b5 := drop 4 b4 in let b6 := drop 4 b5 in
  let b7 := drop 4 b6 in let b8 := drop 4 b7 in let b9 := drop 4 b8 in
  let b10 := drop 4 b9 in {|
  h_common := {| hc_command := of_le (take 4 bs); hc_seqnum := of_le (take 4 b1);
                 hc_devid := of_le (take 4 b2); hc_direction := of_le (take 4 b3);
                 hc_ep := of_le (take 4 b4) |};
  h_u := {| u_w0 := of_le (take 4 b5); u_w1 := of_le (take 4 b6); u_w2 := of_le (take 4 b7);
            u_w3 := of_le (take 4 b8); u_w4 := of_le (take 4 b9); u_tail := take 8 b10 |} |}.

Definition header_ok (h : usbip_header) : Prop :=
  let c := h_common h in let u := h_u h in
  is_u 32 (hc_command c) /\ is_u 32 (hc_seqnum c) /\ is_u 32 (hc_devid c) /\
  is_u 32 (hc_direction c) /\ is_u 32 (hc_ep c) /\
  is_u 32 (u_w0 u) /\ is_u 32 (u_w1 u) /\ is_u 32 (u_w2 u) /\ is_u 32 (u_w3 u) /\
  is_u 32 (u_w4 u) /\ Forall is_byte (u_tail u) /\ length (u_tail u) = 8%nat.

(** ** Byte-order conversion *)

Definition usbip_pack_header_basic (h : usbip_header_basic) : usbip_header_basic := {|
  hb_version := htobe16 (hb_version h);
  hb_command := htobe16 (hb_command h);
  hb_status := htobe32 (hb_status h) |}.

Definition usbip_unpack_header_basic (h : usbip_header_basic) : usbip_header_basic := {|
  hb_version := be16toh (hb_version h);
  hb_command := be16toh (hb_command h);
  hb_status := be32toh (hb_status h) |}.

Definition usbip_pack_device (d : usbip_usb_device) : usbip_usb_device := {|
  ud_path := ud_path d; ud_busid := ud_busid d;
  ud_busnum := htobe32 (ud_busnum d);
  ud_devnum := htobe32 (ud_devnum d);
  ud_speed := htobe32 (ud_speed d);
  ud_idVendor := htobe16 (ud_idVendor d);
  ud_idProduct := htobe16 (ud_idProduct d);
  ud_bcdDevice := htobe16 (ud_bcdDevice d);
  ud_bDeviceClass := ud_bDeviceClass d; ud_bDeviceSubClass := ud_bDeviceSubClass d;
  ud_bDeviceProtocol := ud_bDeviceProtocol d;
  ud_bConfigurationValue := ud_bConfigurationValue d;
  ud_bNumConfigurations := ud_bNumConfigurations d;
  ud_bNumInterfaces := ud_bNumInterfaces d |}.

Definition usbip_unpack_device (d : usbip_usb_device) : usbip_usb_device := {|
  ud_path := ud_path d; ud_busid := ud_busid d;
  ud_busnum := be32toh (ud_busnum d);
  ud_devnum := be32toh (ud_devnum d);
  ud_speed := be32toh (ud_speed d);
  ud_idVendor := be16toh (ud_idVendor d);
  ud_idProduct := be16toh (ud_idProduct d);
  ud_bcdDevice := be16toh (ud_bcdDevice d);
  ud_bDeviceClass := ud_bDeviceClass d; ud_bDeviceSubClass := ud_bDeviceSubClass d;
  ud_bDeviceProtocol := ud_bDeviceProtocol d;
  ud_bConfigurationValue := ud_bConfigurationValue d;
  ud_bNumConfigurations := ud_bNumConfigurations d;
  ud_bNumInterfaces := ud_bNumInterfaces d |}.

Definition conv_common (f : Z -> Z) (c : usbip_header_common) : usbip_header_common := {|
  hc_command := f (hc_command c);
  hc_seqnum := f (hc_seqnum c);
  hc_devid := f (hc_devid c);
  hc_direction := f (hc_direction c);
  hc_ep := f (hc_ep c) |}.

(** The five words of [cmd_submit]/[ret_submit]; the one of the unlink views. *)
Definition conv_submit (f : Z -> Z) (u : usbip_header_u) : usbip_header_u := {|
  u_w0 := f (u_w0 u); u_w1 := f (u_w1 u); u_w2 := f (u_w2 u);
  u_w3 := f (u_w3 u); u_w4 := f (u_w4 u); u_tail := u_tail u |}.

Definition conv_unlink (f : Z -> Z) (u : usbip_header_u) : usbip_header_u := {|
  u_w0 := f (u_w0 u); u_w1 := u_w1 u; u_w2 := u_w2 u;
  u_w3 := u_w3 u; u_w4 := u_w4 u; u_tail := u_tail u |}.

(** The [switch] on the command: which view is converted. *)
Definition conv_u (f : Z -> Z) (command : Z) (u : usbip_header_u) : usbip_header_u :=
  if command =? USBIP_CMD_SUBMIT then conv_submit f u
  else if command =? USBIP_RET_SUBMIT then conv_submit f u
  else if command =? USBIP_CMD_UNLINK then conv_unlink f u
  else if command =? USBIP_RET_UNLINK then conv_unlink f u
  else u.

Definition usbip_pack_header (h : usbip_header) (command : Z) : usbip_header := {|
  h_common := conv_common htobe32 (h_common h);
  h_u := conv_u htobe32 command (h_u h) |}.

Definition usbip_unpack_header (h : usbip_header) : usbip_header :=
  let c := conv_common be32toh (h_common h) in {|
  h_common := c;
  h_u := conv_u be32toh (hc_command c) (h_u h) |}.

Definition usbip_pack_iso_packet (i : usbip_iso_packet_descriptor) : usbip_iso_packet_descriptor := {|
  iso_offset := htobe32 (iso_offset i); iso_length := htobe32 (iso_length i);
  iso_actual_length := htobe32 (iso_actual_length i); iso_status := htobe32 (iso_status i) |}.

Definition usbip_unpack_iso_packet (i : usbip_iso_packet_descriptor) : usbip_iso_packet_descriptor := {|
  iso_offset := be32toh (iso_offset i); iso_length := be32toh (iso_length i);
  iso_actual_length := be32toh (iso_actual_length i); iso_status := be32toh (iso_status i) |}.

(** ** Message constructors *)

(** [memset(x, 0, sizeof(x))]. *)
Definition usb_device_zero : usbip_usb_device := {|
  ud_path := replicate USBIP_PATH_MAX 0; ud_busid := replicate USBIP_BUSID_MAX 0;
  ud_busnum := 0; ud_devnum := 0; ud_speed := 0; ud_idVendor := 0; ud_idProduct := 0;
  ud_bcdDevice := 0; ud_bDeviceClass := 0; ud_bDeviceSubClass := 0; ud_bDeviceProtocol := 0;
  ud_bConfigurationValue := 0; ud_bNumConfigurations := 0; ud_bNumInterfaces := 0 |}.

Definition header_u_zero : usbip_header_u := {|
  u_w0 := 0; u_w1 := 0; u_w2 := 0; u_w3 := 0; u_w4 := 0; u_tail := replicate 8 0 |}.

Definition usbip_create_devlist_request : usbip_header_basic := {|
  hb_version := USBIP_PROTO_VERSION; hb_command := OP_REQ_DEVLIST; hb_status := 0 |}.

Definition usbip_create_devlist_reply (ndev : Z) : usbip_op_devlist_reply := {|
  dr_header := {| hb_version := USBIP_PROTO_VERSION; hb_command := OP_REP_DEVLIST;
                  hb_status := USBIP_ST_OK |};
  dr_ndev := ndev |}.

Definition usbip_create_import_request (busid : ptr bytes) : usbip_op_import_request := {|
  ir_header := {| hb_version := USBIP_PROTO_VERSION; hb_command := OP_REQ_IMPORT; hb_status := 0 |};
  ir_busid :=
    match busid with
    | Some b => strncpy (replicate USBIP_BUSID_MAX 0) b (USBIP_BUSID_MAX - 1)
    | NULL => replicate USBIP_BUSID_MAX 0
    end |}.

Definition usbip_create_import_reply (status : Z) (device : ptr usbip_usb_device) :
    usbip_op_import_reply := {|
  ip_header := {| hb_version := USBIP_PROTO_VERSION; hb_command := OP_REP_IMPORT;
                  hb_status := status |};
  ip_device :=
    match device with
    | Some d => if status =? USBIP_ST_OK then d else usb_device_zero
    | NULL => usb_device_zero
    end |}.

Definition usbip_create_urb_submit (seqnum devid direction ep transfer_flags
    transfer_buffer_length : Z) (setup : ptr bytes) : usbip_header := {|
  h_common := {| hc_command := USBIP_CMD_SUBMIT; hc_seqnum := seqnum; hc_devid := devid;
                 hc_direction := direction; hc_ep := ep |};
  h_u := {| u_w0 := transfer_flags; u_w1 := transfer_buffer_length;
            u_w2 := 0; u_w3 := 0; u_w4 := 0;
            u_tail := match setup with Some s => take 8 s | NULL => replicate 8 0 end |} |}.

Definition usbip_create_urb_return (seqnum devid direction ep status actual_length : Z) :
    usbip_header := {|
  h_common := {| hc_command := USBIP_RET_SUBMIT; hc_seqnum := seqnum; hc_devid := devid;
                 hc_direction := direction; hc_ep := ep |};
  h_u := {| u_w0 := status; u_w1 := actual_length; u_w2 := 0; u_w3 := 0; u_w4 := 0;
            u_tail := replicate 8 0 |} |}.

Definition usbip_create_urb_unlink (seqnum devid seqnum_to_unlink : Z) : usbip_header := {|
  h_common := {| hc_command := USBIP_CMD_UNLINK; hc_seqnum := seqnum; hc_devid := devid;
                 hc_direction := 0; hc_ep := 0 |};
  h_u := {| u_w0 := seqnum_to_unlink; u_w1 := 0; u_w2 := 0; u_w3 := 0; u_w4 := 0;
            u_tail := replicate 8 0 |} |}.

Definition usbip_create_urb_unlink_ret (seqnum devid status : Z) : usbip_header := {|
  h_common := {| hc_command := USBIP_RET_UNLINK; hc_seqnum := seqnum; hc_devid := devid;
                 hc_direction := 0; hc_ep := 0 |};
  h_u := {| u_w0 := status; u_w1 := 0; u_w2 := 0; u_w3 := 0; u_w4 := 0;
            u_tail := replicate 8 0 |} |}.

(** ** Validation and utilities *)

Definition usbip_validate_version (version : Z) : bool := version =? USBIP_PROTO_VERSION.

Definition usbip_validate_command (command : Z) : bool :=
  (command =? OP_REQ_DEVLIST) || (command =? OP_REP_DEVLIST) ||
  (command =? OP_REQ_IMPORT) || (command =? OP_REP_IMPORT).

Definition usbip_validate_urb_command (command : Z) : bool :=
  (command =? USBIP_CMD_SUBMIT) || (command =? USBIP_CMD_UNLINK) ||
  (command =? USBIP_RET_SUBMIT) || (command =? USBIP_RET_UNLINK).

Definition usbip_command_string (command : Z) : string :=
  if command =? OP_REQ_DEVLIST then "OP_REQ_DEVLIST"%string
  else if command =? OP_REP_DEVLIST then "OP_REP_DEVLIST"%string
  else if command =? OP_REQ_IMPORT then "OP_REQ_IMPORT"%string
  else if command =? OP_REP_IMPORT then "OP_REP_IMPORT"%string
  else "UNKNOWN"%string.

Definition usbip_urb_command_string (command : Z) : string :=
  if command =? USBIP_CMD_SUBMIT then "CMD_SUBMIT"%string
  else if command =? USBIP_CMD_UNLINK then "CMD_UNLINK"%string
  else if command =? USBIP_RET_SUBMIT then "RET_SUBMIT"%string
  else if command =? USBIP_RET_UNLINK then "RET_UNLINK"%string
  else "UNKNOWN"%string.

Definition usbip_status_string (status : Z) : string :=
  if status =? USBIP_ST_OK then "OK"%string
  else if status =? USBIP_ST_NA then "Not Available"%string
  else if status =? USBIP_ST_DEV_BUSY then "Device Busy"%string
  else if status =? USBIP_ST_DEV_ERR then "Device Error"%string
  else if status =? USBIP_ST_NODEV then "No Device"%string
  else if status =? USBIP_ST_ERROR then "Error"%string
  else "Unknown"%string.

Definition usbip_make_devid (busnum devnum : Z) : Z :=
  Z.lor (wrap 32 (Z.shiftl busnum 16)) (Z.land devnum 0xFFFF).

Definition usbip_devid_busnum (devid : Z) : Z := Z.land (Z.shiftr devid 16) 0xFFFF.
Definition usbip_devid_devnum (devid : Z) : Z := Z.land devid 0xFFFF.
Definition usbip_is_dir_in (direction : Z) : bool := direction =? USBIP_DIR_IN.
Definition usbip_is_control_ep (ep : Z) : bool := ep =? 0.

(** ** Lemmas *)

Lemma take_exact {A} (l r : list A) n : length l = n -> take n (l ++ r) = l.
Proof. intros <-. by rewrite take_app_length. Qed.

Lemma drop_exact {A} (l r : list A) n : length l = n -> drop n (l ++ r) = r.
Proof. intros <-. by rewrite drop_app_length. Qed.

Lemma take_exact_nil {A} (l : list A) n : length l = n -> take n l = l.
Proof. intros <-. apply firstn_all. Qed.

(** Solve the field-length side conditions of the layouts. *)
Ltac field_len := by rewrite ?length_to_le.

(** Read every field of a concatenated layout back. *)
Ltac read_fields :=
  rewrite ?drop_exact by field_len;
  rewrite ?take_exact by field_len;
  rewrite ?take_exact_nil by field_len;
  rewrite ?of_to_le;
  change (8 * Z.of_nat 1) with 8; change (8 * Z.of_nat 2) with 16;
  change (8 * Z.of_nat 4) with 32;
  rewrite ?wrap_small by done.

(** Expose the fields of a record literal, keeping the layout folded. *)
Ltac struct_fields := cbv beta zeta; cbn -[take drop app to_le of_le is_u replicate length] in *.

(** Every piece of a buffer is a list of bytes. *)
Ltac bytes_pieces :=
  repeat first [assumption | apply Forall_take | apply Forall_drop | apply Forall_app_2
               | apply to_le_bytes].

Lemma piece_length (n m : nat) (bs : bytes) :
  (n <= length bs)%nat -> m = n -> length (take n bs) = m.
Proof. intros ? ->. rewrite length_take. lia. Qed.

Lemma of_le_piece n bs :
  Forall is_byte bs -> (n <= length bs)%nat -> is_u (8 * Z.of_nat n) (of_le (take n bs)).
Proof.
  intros Hb Hn. rewrite <-(piece_length n n bs Hn eq_refl) at 1.
  apply of_le_range. by apply Forall_take.
Qed.

Lemma to_le_piece n bs :
  Forall is_byte bs -> (n <= length bs)%nat -> to_le n (of_le (take n bs)) = take n bs.
Proof. intros. apply to_of_le_n; [by apply Forall_take|]. by apply piece_length. Qed.

Ltac piece_len :=
  rewrite ?length_take, ?length_drop; unfold USBIP_PATH_MAX, USBIP_BUSID_MAX; lia.

(** A field of a structure read from [bs] is in range. *)
Ltac field_range :=
  match goal with
  | |- is_u 8 (of_le (take 1 _)) => apply (of_le_piece 1); [bytes_pieces|piece_len]
  | |- is_u 16 (of_le (take 2 _)) => apply (of_le_piece 2); [bytes_pieces|piece_len]
  | |- is_u 32 (of_le (take 4 _)) => apply (of_le_piece 4); [bytes_pieces|piece_len]
  end.

(** Writing the fields read from [bs] gives [bs], field by field. *)
Lemma rebuild_field n bs r :
  Forall is_byte bs -> (n <= length bs)%nat -> r = drop n bs ->
  to_le n (of_le (take n bs)) ++ r = bs.
Proof. intros ? ? ->. rewrite to_le_piece by done. apply take_drop. Qed.

Lemma rebuild_raw n (bs r : bytes) : r = drop n bs -> take n bs ++ r = bs.
Proof. intros ->. apply take_drop. Qed.

Lemma rebuild_last n bs :
  Forall is_byte bs -> length bs = n -> to_le n (of_le (take n bs)) = bs.
Proof. intros ? <-. rewrite to_le_piece by done. apply firstn_all. Qed.

Ltac rebuild :=
  repeat first [ apply rebuild_raw | apply rebuild_field; [bytes_pieces|piece_len|] ];
  first [ apply take_exact_nil; piece_len | apply rebuild_last; [bytes_pieces|piece_len] ].

Lemma header_basic_length h : length (header_basic_mem h) = 8%nat.
Proof. unfold header_basic_mem. by rewrite !length_app, !length_to_le. Qed.

Lemma header_basic_bytes h : Forall is_byte (header_basic_mem h).
Proof. unfold header_basic_mem. bytes_pieces. Qed.

Lemma header_basic_of_mem h : header_basic_ok h -> header_basic_of (header_basic_mem h) = h.
Proof.
  destruct h as [v c s]. intros (? & ? & ?). unfold header_basic_of, header_basic_mem.
  struct_fields. by read_fields.
Qed.

Lemma header_basic_of_ok bs :
  Forall is_byte bs -> length bs = 8%nat -> header_basic_ok (header_basic_of bs).
Proof. intros Hb Hl. unfold header_basic_ok. split_and!; simpl; field_range. Qed.

Lemma header_basic_mem_of bs :
  Forall is_byte bs -> length bs = 8%nat -> header_basic_mem (header_basic_of bs) = bs.
Proof.
  intros Hb Hl. unfold header_basic_mem, header_basic_of. struct_fields. rebuild.
Qed.

Lemma usb_device_length d : usb_device_ok d -> length (usb_device_mem d) = 312%nat.
Proof.
  intros ([_ H1] & [_ H2] & _). unfold usb_device_mem.
  by rewrite !length_app, !length_to_le, H1, H2.
Qed.

Lemma usb_device_bytes d : usb_device_ok d -> Forall is_byte (usb_device_mem d).
Proof. intros ([H1 _] & [H2 _] & _). unfold usb_device_mem. bytes_pieces. Qed.

Lemma usb_device_of_mem d : usb_device_ok d -> usb_device_of (usb_device_mem d) = d.
Proof.
  destruct d. intros ([? H1] & [? H2] & ?); destruct_and!.
  unfold usb_device_of, usb_device_mem. struct_fields. by read_fields.
Qed.

Lemma usb_device_of_ok bs :
  Forall is_byte bs -> length bs = 312%nat -> usb_device_ok (usb_device_of bs).
Proof.
  intros Hb Hl. unfold usb_device_ok, usb_device_of. struct_fields.
  split_and!; first [field_range|solve [bytes_pieces]|piece_len].
Qed.

Lemma usb_device_mem_of bs :
  Forall is_byte bs -> length bs = 312%nat -> usb_device_mem (usb_device_of bs) = bs.
Proof. intros Hb Hl. unfold usb_device_mem, usb_device_of. struct_fields. rebuild. Qed.

#[export] Instance header_basic_struct : CStruct usbip_header_basic := {|
  sizeof := 8; to_mem := header_basic_mem; of_mem := header_basic_of;
  fields_ok := header_basic_ok;
  length_to_mem h _ := header_basic_length h;
  to_mem_bytes h _ := header_basic_bytes h;
  of_to_mem := header_basic_of_mem;
  of_mem_ok := header_basic_of_ok;
  to_of_mem := header_basic_mem_of |}.

#[export] Instance usb_device_struct : CStruct usbip_usb_device := {|
  sizeof := 312; to_mem := usb_device_mem; of_mem := usb_device_of;
  fields_ok := usb_device_ok;
  length_to_mem := usb_device_length;
  to_mem_bytes := usb_device_bytes;
  of_to_mem := usb_device_of_mem;
  of_mem_ok := usb_device_of_ok;
  to_of_mem := usb_device_mem_of |}.

Lemma usb_interface_length i : length (usb_interface_mem i) = 4%nat.
Proof. unfold usb_interface_mem. by rewrite !length_app, !length_to_le. Qed.

Lemma usb_interface_bytes i : Forall is_byte (usb_interface_mem i).
Proof. unfold usb_interface_mem. bytes_pieces. Qed.

Lemma usb_interface_of_mem i : usb_interface_ok i -> usb_interface_of (usb_interface_mem i) = i.
Proof.
  destruct i. intros Hi. unfold usb_interface_ok in Hi. destruct_and!.
  unfold usb_interface_of, usb_interface_mem. struct_fields. by read_fields.
Qed.

Lemma usb_interface_of_ok bs :
  Forall is_byte bs -> length bs = 4%nat -> usb_interface_ok (usb_interface_of bs).
Proof. intros Hb Hl. unfold usb_interface_ok. split_and!; simpl; field_range. Qed.

Lemma usb_interface_mem_of bs :
  Forall is_byte bs -> length bs = 4%nat -> usb_interface_mem (usb_interface_of bs) = bs.
Proof. intros Hb Hl. unfold usb_interface_mem, usb_interface_of. struct_fields. rebuild. Qed.

#[export] Instance usb_interface_struct : CStruct usbip_usb_interface := {|
  sizeof := 4; to_mem := usb_interface_mem; of_mem := usb_interface_of;
  fields_ok := usb_interface_ok;
  length_to_mem i _ := usb_interface_length i;
  to_mem_bytes i _ := usb_interface_bytes i;
  of_to_mem := usb_interface_of_mem;
  of_mem_ok := usb_interface_of_ok;
  to_of_mem := usb_interface_mem_of |}.

Lemma header_length h : header_ok h -> length (header_mem h) = 48%nat.
Proof.
  unfold header_ok. intros Hh. destruct_and!. unfold header_mem. cbv zeta.
  rewrite !length_app, !length_to_le. lia.
Qed.

Lemma header_bytes h : header_ok h -> Forall is_byte (header_mem h).
Proof. unfold header_ok. intros Hh. destruct_and!. unfold header_mem. cbv zeta. bytes_pieces. Qed.

Lemma header_of_mem h : header_ok h -> header_of (header_mem h) = h.
Proof.
  destruct h as [[] []]. unfold header_ok. struct_fields. intros Hh. destruct_and!.
  unfold header_of, header_mem. struct_fields. by read_fields.
Qed.

Lemma header_of_ok bs : Forall is_byte bs -> length bs = 48%nat -> header_ok (header_of bs).
Proof.
  intros Hb Hl. unfold header_ok, header_of. struct_fields.
  split_and!; first [field_range|solve [bytes_pieces]|piece_len].
Qed.

Lemma header_mem_of bs :
  Forall is_byte bs -> length bs = 48%nat -> header_mem (header_of bs) = bs.
Proof. intros Hb Hl. unfold header_mem, header_of. struct_fields. rebuild. Qed.

#[export] Instance header_struct : CStruct usbip_header := {|
  sizeof := 48; to_mem := header_mem; of_mem := header_of; fields_ok := header_ok;
  length_to_mem := header_length;
  to_mem_bytes := header_bytes;
  of_to_mem := header_of_mem;
  of_mem_ok := header_of_ok;
  to_of_mem := header_mem_of |}.

(** ** Lemmas: conversions *)

#[export] Hint Resolve is_u_htonl is_u_htons is_u_ntohl is_u_ntohs : usbip.

Lemma conv_common_id f g c :
  (forall x, is_u 32 x -> g (f x) = x) ->
  is_u 32 (hc_command c) -> is_u 32 (hc_seqnum c) -> is_u 32 (hc_devid c) ->
  is_u 32 (hc_direction c) -> is_u 32 (hc_ep c) ->
  conv_common g (conv_common f c) = c.
Proof. destruct c; simpl; intros Hgf ?????. unfold conv_common. simpl. by rewrite !Hgf. Qed.

Lemma conv_u_id f g cmd u :
  (forall x, is_u 32 x -> g (f x) = x) ->
  is_u 32 (u_w0 u) -> is_u 32 (u_w1 u) -> is_u 32 (u_w2 u) -> is_u 32 (u_w3 u) ->
  is_u 32 (u_w4 u) ->
  conv_u g cmd (conv_u f cmd u) = u.
Proof.
  destruct u; simpl; intros Hgf ?????. unfold conv_u.
  repeat case_match; unfold conv_submit, conv_unlink; simpl; by rewrite ?Hgf.
Qed.

Lemma conv_ok f h cmd :
  (forall x, is_u 32 (f x)) -> header_ok h ->
  header_ok {| h_common := conv_common f (h_common h); h_u := conv_u f cmd (h_u h) |}.
Proof.
  intros Hf Hh. unfold header_ok in *. destruct h as [[] []]. simpl in *. destruct_and!.
  unfold conv_u. repeat case_match; simpl; split_and!; auto.
Qed.

(** A structure that travels over the network: its in-place conversions to and
    from network order, inverse of each other on every well-formed value. *)
Class Wire (A : Type) `{CStruct A} := {
  wire_pack : A -> A;
  wire_unpack : A -> A;
  wire_pack_ok a : fields_ok a -> fields_ok (wire_pack a);
  wire_unpack_ok a : fields_ok a -> fields_ok (wire_unpack a);
  wire_unpack_pack a : fields_ok a -> wire_unpack (wire_pack a) = a;
  wire_pack_unpack a : fields_ok a -> wire_pack (wire_unpack a) = a;
}.

(** The bytes a sender puts on the wire, and what a receiver reads from them. *)
Definition wire_encode {A} `{Wire A} (a : A) : bytes := to_mem (wire_pack a).
Definition wire_decode {A} `{Wire A} (bs : bytes) : A := wire_unpack (of_mem bs).

Section wire.
  Context {A : Type} `{Wire A}.

Lemma wire_decode_encode (a : A) : fields_ok a -> wire_decode (wire_encode a) = a.
Proof.
  intros Ha. unfold wire_decode, wire_encode.
  rewrite of_to_mem by (by apply wire_pack_ok). by apply wire_unpack_pack.
Qed.

Lemma wire_encode_decode bs :
  Forall is_byte bs -> length bs = sizeof A -> wire_encode (wire_decode bs : A) = bs.
Proof.
  intros Hb Hl. unfold wire_decode, wire_encode.
  rewrite wire_pack_unpack by (by apply of_mem_ok). by apply to_of_mem.
Qed.

Lemma wire_decode_ok bs :
  Forall is_byte bs -> length bs = sizeof A -> fields_ok (wire_decode bs : A).
Proof. intros. by apply wire_unpack_ok, of_mem_ok. Qed.

Lemma length_wire_encode (a : A) : fields_ok a -> length (wire_encode a) = sizeof A.
Proof. intros. by apply length_to_mem, wire_pack_ok. Qed.

Lemma wire_encode_bytes (a : A) : fields_ok a -> Forall is_byte (wire_encode a).
Proof. intros. by apply to_mem_bytes, wire_pack_ok. Qed.
End wire.

#[export] Program Instance header_basic_wire : Wire usbip_header_basic := {|
  wire_pack := usbip_pack_header_basic; wire_unpack := usbip_unpack_header_basic |}.
Next Obligation. intros [] _. split_and!; [apply is_u_htons..|apply is_u_htonl]. Qed.
Next Obligation. intros [] _. split_and!; [apply is_u_ntohs..|apply is_u_ntohl]. Qed.
Next Obligation.
  intros [] (? & ? & ?). unfold usbip_unpack_header_basic, be16toh, be32toh. simpl in *.
  unfold htobe16, htobe32. by rewrite !ntohs_htons, ntohl_htonl.
Qed.
Next Obligation.
  intros [] (? & ? & ?). unfold usbip_pack_header_basic, htobe16, htobe32. simpl in *.
  unfold be16toh, be32toh. by rewrite !htons_ntohs, htonl_ntohl.
Qed.

#[export] Program Instance usb_device_wire : Wire usbip_usb_device := {|
  wire_pack := usbip_pack_device; wire_unpack := usbip_unpack_device |}.
Next Obligation.
  intros [] Hd. unfold fields_ok, usb_device_struct, usb_device_ok in *. simpl in *. destruct_and!.
  split_and!; first [done|apply is_u_htons|apply is_u_htonl].
Qed.
Next Obligation.
  intros [] Hd. unfold fields_ok, usb_device_struct, usb_device_ok in *. simpl in *. destruct_and!.
  split_and!; first [done|apply is_u_ntohs|apply is_u_ntohl].
Qed.
Next Obligation.
  intros [] Hd. unfold fields_ok, usb_device_struct, usb_device_ok in *. simpl in *. destruct_and!.
  unfold usbip_unpack_device, usbip_pack_device, be16toh, be32toh, htobe16, htobe32. simpl.
  by rewrite !ntohs_htons, !ntohl_htonl.
Qed.
Next Obligation.
  intros [] Hd. unfold fields_ok, usb_device_struct, usb_device_ok in *. simpl in *. destruct_and!.
  unfold usbip_unpack_device, usbip_pack_device, be16toh, be32toh, htobe16, htobe32. simpl.
  by rewrite !htons_ntohs, !htonl_ntohl.
Qed.

(** An interface record has only byte fields and is sent as it is. *)
#[export] Program Instance usb_interface_wire : Wire usbip_usb_interface := {|
  wire_pack i := i; wire_unpack i := i |}.
Solve All Obligations with done.

#[export] Program Instance header_wire : Wire usbip_header := {|
  wire_pack h := usbip_pack_header h (hc_command (h_common h));
  wire_unpack := usbip_unpack_header |}.
Next Obligation. intros h Hh. apply conv_ok; [apply is_u_htonl|done]. Qed.
Next Obligation. intros h Hh. apply conv_ok; [apply is_u_ntohl|done]. Qed.
Next Obligation.
  intros h Hh. unfold fields_ok in Hh. simpl in Hh. unfold header_ok in Hh. destruct_and!.
  unfold usbip_unpack_header, usbip_pack_header. cbn [h_common h_u].
  assert (forall x, is_u 32 x -> be32toh (htobe32 x) = x) as E by apply ntohl_htonl.
  rewrite conv_common_id by done. rewrite conv_u_id by done. by destruct h.
Qed.
Next Obligation.
  intros h Hh. unfold fields_ok in Hh. simpl in Hh. unfold header_ok in Hh. destruct_and!.
  unfold usbip_unpack_header, usbip_pack_header. cbn [h_common h_u].
  assert (forall x, is_u 32 x -> htobe32 (be32toh x) = x) as E by apply htonl_ntohl.
  rewrite conv_common_id by done. rewrite conv_u_id by done. by destruct h.
Qed.

(** Big-endian layout of the first 40 bytes of a converted URB header. *)
Definition urb_header_layout (h : usbip_header) : bytes :=
  let c := h_common h in let u := h_u h in
  let word := to_be 4 in
  word (hc_command c) ++ word (hc_seqnum c) ++ word (hc_devid c) ++ word (hc_direction c) ++
  word (hc_ep c) ++ word (u_w0 u) ++ word (u_w1 u) ++ word (u_w2 u) ++ word (u_w3 u) ++
  word (u_w4 u) ++ u_tail u.

Lemma urb_submit_layout h :
  hc_command (h_common h) = USBIP_CMD_SUBMIT \/ hc_command (h_common h) = USBIP_RET_SUBMIT ->
  wire_encode h = urb_header_layout h.
Proof.
  intros Hc. unfold wire_encode, urb_header_layout. simpl. unfold header_mem, usbip_pack_header.
  assert (conv_u htobe32 (hc_command (h_common h)) (h_u h) = conv_submit htobe32 (h_u h)) as ->.
  { unfold conv_u. by destruct Hc as [-> | ->]. }
  unfold conv_submit, conv_common, htobe32. struct_fields. by rewrite !to_le_htonl.
Qed.

(** The unlink views have one word; the rest of a constructed header is zero,
    which no conversion changes. *)
Lemma urb_unlink_layout h :
  hc_command (h_common h) = USBIP_CMD_UNLINK \/ hc_command (h_common h) = USBIP_RET_UNLINK ->
  u_w1 (h_u h) = 0 -> u_w2 (h_u h) = 0 -> u_w3 (h_u h) = 0 -> u_w4 (h_u h) = 0 ->
  wire_encode h = urb_header_layout h.
Proof.
  intros Hc H1 H2 H3 H4. unfold wire_encode, urb_header_layout. simpl.
  unfold header_mem, usbip_pack_header.
  assert (conv_u htobe32 (hc_command (h_common h)) (h_u h) = conv_unlink htobe32 (h_u h)) as ->.
  { unfold conv_u. by destruct Hc as [-> | ->]. }
  unfold conv_unlink, conv_common, htobe32. struct_fields.
  by rewrite H1, H2, H3, H4, !to_le_htonl.
Qed.

Lemma is_u_small w x : 0 <= x < 2 ^ w -> is_u w x.
Proof. done. Qed.

Lemma header_u_zero_ok : Forall is_byte (replicate 8 0) /\ length (replicate 8 0) = 8%nat.
Proof. split; [|done]. apply Forall_replicate. by vm_compute. Qed.

(** Range of the literal fields of a constructed message. *)
Ltac literal_fields :=
  match goal with
  | |- is_u _ _ => first [assumption | by vm_compute]
  | |- _ => first [assumption | apply header_u_zero_ok | idtac]
  end.

Lemma urb_return_ok seqnum devid dir ep status len :
  is_u 32 seqnum -> is_u 32 devid -> is_u 32 dir -> is_u 32 ep -> is_u 32 status -> is_u 32 len ->
  fields_ok (usbip_create_urb_return seqnum devid dir ep status len).
Proof. intros. unfold fields_ok; simpl; unfold header_ok; simpl. split_and!; literal_fields. Qed.

Lemma urb_unlink_ret_ok seqnum devid status :
  is_u 32 seqnum -> is_u 32 devid -> is_u 32 status ->
  fields_ok (usbip_create_urb_unlink_ret seqnum devid status).
Proof. intros. unfold fields_ok; simpl; unfold header_ok; simpl. split_and!; literal_fields. Qed.

Lemma urb_submit_ok seqnum devid dir ep flags len setup :
  is_u 32 seqnum -> is_u 32 devid -> is_u 32 dir -> is_u 32 ep -> is_u 32 flags -> is_u 32 len ->
  (forall s, setup = Some s -> Forall is_byte s /\ (8 <= length s)%nat) ->
  fields_ok (usbip_create_urb_submit seqnum devid dir ep flags len setup).
Proof.
  intros ?????? Hs. unfold fields_ok; simpl; unfold header_ok; simpl. split_and!; literal_fields.
  all: destruct setup as [s|]; [destruct (Hs s eq_refl)|apply header_u_zero_ok].
  - by apply Forall_take.
  - rewrite length_take. lia.
Qed.

Lemma urb_unlink_ok seqnum devid n :
  is_u 32 seqnum -> is_u 32 devid -> is_u 32 n ->
  fields_ok (usbip_create_urb_unlink seqnum devid n).
Proof. intros. unfold fields_ok; simpl; unfold header_ok; simpl. split_and!; literal_fields. Qed.

#[export] Hint Resolve urb_return_ok urb_unlink_ret_ok urb_submit_ok urb_unlink_ok : usbip.

(** The device id packs the bus number above the device number. *)
Lemma make_devid_value busnum devnum :
  0 <= busnum -> 0 <= devnum ->
  usbip_make_devid busnum devnum = (busnum mod 2 ^ 16) * 2 ^ 16 + devnum mod 2 ^ 16.
Proof.
  intros Hb Hd. unfold usbip_make_devid. change 0xFFFF with (Z.ones 16).
  rewrite Z.land_ones by lia.
  assert (wrap 32 (Z.shiftl busnum 16) = Z.shiftl (busnum mod 2 ^ 16) 16) as ->.
  { unfold wrap. rewrite !Z.shiftl_mul_pow2 by lia. change (2 ^ 32) with (2 ^ 16 * 2 ^ 16).
    by rewrite Z.mul_mod_distr_r. }
  apply lor_disjoint_add; [lia|]. apply Z.mod_pos_bound. lia.
Qed.

(** ** Properties *)

(** a URB header survives the wire: decoding the 48 bytes [usbip_pack_header]
    produces gives the header back for every command, known or not; and every
    48-byte message is the encoding of what [usbip_unpack_header] reads from
    it. *)
Theorem urb_header_roundtrip h bs :
  header_ok h -> Forall is_byte bs -> length bs = 48%nat ->
  usbip_unpack_header (of_mem (to_mem (usbip_pack_header h (hc_command (h_common h))))) = h /\
  let h' := usbip_unpack_header (of_mem bs) in
  header_ok h' /\ to_mem (usbip_pack_header h' (hc_command (h_common h'))) = bs.
Proof.
  intros Hh Hb Hl. split; [exact (wire_decode_encode h Hh)|].
  exact (conj (wire_decode_ok (A := usbip_header) bs Hb Hl)
              (wire_encode_decode (A := usbip_header) bs Hb Hl)).
Qed.

(** the device record (312 bytes) and the basic header (8 bytes) survive the
    wire in both directions, and the strings of a device record are sent
    verbatim at its start. *)
Theorem op_messages_roundtrip (h : usbip_header_basic) (d : usbip_usb_device) :
  fields_ok h -> fields_ok d ->
  usbip_unpack_header_basic (of_mem (to_mem (usbip_pack_header_basic h))) = h /\
  usbip_unpack_device (of_mem (to_mem (usbip_pack_device d))) = d /\
  length (to_mem (usbip_pack_header_basic h)) = 8%nat /\
  length (to_mem (usbip_pack_device d)) = 312%nat /\
  take 288 (to_mem (usbip_pack_device d)) = ud_path d ++ ud_busid d.
Proof.
  intros Hh Hd. split_and!.
  - exact (wire_decode_encode h Hh).
  - exact (wire_decode_encode d Hd).
  - exact (length_wire_encode h Hh).
  - exact (length_wire_encode d Hd).
  - destruct Hd as ([_ H1] & [_ H2] & _). simpl. unfold usb_device_mem. simpl.
    rewrite app_assoc. apply take_exact. rewrite length_app, H1, H2. done.
Qed.

(** the four URB messages the program builds are laid out on the wire as the
    USB/IP protocol demands: ten big-endian words followed by the eight setup
    bytes, whatever view of the union the command selects. *)
Theorem urb_messages_layout seqnum devid dir ep a b setup :
  let submit := usbip_create_urb_submit seqnum devid dir ep a b setup in
  let ret := usbip_create_urb_return seqnum devid dir ep a b in
  let unlink := usbip_create_urb_unlink seqnum devid a in
  let unlinked := usbip_create_urb_unlink_ret seqnum devid a in
  wire_encode submit = urb_header_layout submit /\
  wire_encode ret = urb_header_layout ret /\
  wire_encode unlink = urb_header_layout unlink /\
  wire_encode unlinked = urb_header_layout unlinked.
Proof.
  split_and!; [apply urb_submit_layout; by (left + right)..| |];
    apply urb_unlink_layout; try done; by (left + right).
Qed.

(** the device id built from a bus and a device number gives both back,
    modulo the 16 bits each of them is kept in. *)
Theorem devid_roundtrip busnum devnum :
  is_u 32 busnum -> is_u 32 devnum ->
  usbip_devid_busnum (usbip_make_devid busnum devnum) = wrap 16 busnum /\
  usbip_devid_devnum (usbip_make_devid busnum devnum) = wrap 16 devnum /\
  is_u 32 (usbip_make_devid busnum devnum).
Proof.
  intros [Hb _] [Hd _]. rewrite make_devid_value by done.
  unfold usbip_devid_busnum, usbip_devid_devnum. change 0xFFFF with (Z.ones 16).
  rewrite !Z.land_ones, Z.shiftr_div_pow2 by lia.
  pose proof (Z.mod_pos_bound busnum (2 ^ 16)). pose proof (Z.mod_pos_bound devnum (2 ^ 16)).
  unfold wrap, is_u. split_and!.
  - rewrite Z.div_add_l by lia. rewrite (Z.div_small (devnum mod _)) by lia.
    rewrite Z.add_0_r. apply Z.mod_mod. lia.
  - rewrite Z.add_comm, Z.mod_add by lia. apply Z.mod_mod. lia.
  - lia.
  - change (2 ^ 32) with (2 ^ 16 * 2 ^ 16). nia.
Qed.

(** the validators accept exactly the commands that have a name of their
    own. *)
Theorem command_strings_validate c :
  (usbip_validate_command c = negb (String.eqb (usbip_command_string c) "UNKNOWN")) /\
  (usbip_validate_urb_command c = negb (String.eqb (usbip_urb_command_string c) "UNKNOWN")).
Proof.
  unfold usbip_validate_command, usbip_command_string, usbip_validate_urb_command,
    usbip_urb_command_string.
  split; repeat case_match; done.
Qed.

(** ** Witnesses *)

Definition example_submit : usbip_header :=
  usbip_create_urb_submit 7 0x10002 USBIP_DIR_IN 2 0 64 (Some [0x80; 6; 0; 1; 0; 0; 18; 0]).

Definition example_usb_device : usbip_usb_device :=
  {| ud_path := replicate USBIP_PATH_MAX 47; ud_busid := replicate USBIP_BUSID_MAX 49;
     ud_busnum := 1; ud_devnum := 2; ud_speed := 3; ud_idVendor := 0x046D; ud_idProduct := 0xC52B;
     ud_bcdDevice := 0x1201; ud_bDeviceClass := 0; ud_bDeviceSubClass := 0;
     ud_bDeviceProtocol := 0; ud_bConfigurationValue := 1; ud_bNumConfigurations := 1;
     ud_bNumInterfaces := 2 |}.

Lemma example_submit_ok : header_ok example_submit.
Proof. unfold header_ok. split_and!; try by vm_compute. repeat constructor; by vm_compute. Qed.

Lemma example_usb_device_ok : usb_device_ok example_usb_device.
Proof.
  unfold usb_device_ok. split_and!; try by vm_compute.
  - apply (Forall_replicate is_byte USBIP_PATH_MAX 47). by vm_compute.
  - apply (Forall_replicate is_byte USBIP_BUSID_MAX 49). by vm_compute.
Qed.

Lemma urb_header_roundtrip_witness :
  usbip_unpack_header (of_mem (to_mem
    (usbip_pack_header example_submit (hc_command (h_common example_submit))))) = example_submit.
Proof.
  apply (urb_header_roundtrip example_submit (replicate 48 1)); [apply example_submit_ok| |done].
  apply Forall_replicate. by vm_compute.
Defined.

Lemma op_messages_roundtrip_witness :
  length (to_mem (usbip_pack_device example_usb_device)) = 312%nat.
Proof.
  apply (op_messages_roundtrip usbip_create_devlist_request example_usb_device);
    [split_and!; by vm_compute|apply example_usb_device_ok].
Defined.

Lemma devid_roundtrip_witness :
  usbip_devid_busnum (usbip_make_devid 0x10003 5) = 3.
Proof. apply (devid_roundtrip 0x10003 5); by vm_compute. Defined.
