(* ===== verification/Net.v ===== *)
(** * The network layer ([common/network.h], [common/network_win32.c])

    Winsock itself is not part of the program: [Winsock S] is the record of its
    calls over an arbitrary state [S], and [WinsockLaws] what its documentation
    promises of them.  The functions of the program ([net_send_all],
    [tcp_client_connect_timeout], ...) are written over these calls.

    - [ws_rx s fd] is the stream the peer of [fd] has sent and will send before
      it closes; [ws_tx s fd] everything handed to [send] on [fd] so far.
    - [ws_patience s fd] bounds how often the calls on [fd] will still make no
      progress ([WSAEWOULDBLOCK]); the retry loops take it, with the number of
      bytes left, as fuel. *)

From S2P Require Import Prelude CTypes Errors.

(** ** Data *)

Definition USBIP_PORT : Z := 3240.
Definition INVALID_SOCKET_VAL : Z := 2 ^ 64 - 1.
Definition WSAEWOULDBLOCK : Z := 10035.
Definition INADDR_ANY : Z := 0.
Definition INADDR_NONE : Z := 0xFFFFFFFF.
Definition FD_SETSIZE : nat := 64.

(** The result of a Winsock call: a value, or [SOCKET_ERROR] with the code
    [WSAGetLastError] returns after it. *)
Inductive sock_res (A : Type) :=
  | SockOk (a : A)
  | SockErr (wsa : Z).
Arguments SockOk {A} a.
Arguments SockErr {A} wsa.

Inductive sock_type := SOCK_STREAM | SOCK_DGRAM.

(** The options the program sets. *)
Inductive sock_opt :=
  | FIONBIO (mode : Z)
  | TCP_NODELAY (opt : bool)
  | SO_REUSEADDR (opt : bool)
  | SO_BROADCAST (opt : bool)
  | SO_KEEPALIVE (opt : bool)
  | SIO_KEEPALIVE_VALS (onoff time interval : Z)
  | SO_RCVTIMEO (ms : Z)
  | SO_SNDTIMEO (ms : Z)
  | SO_RCVBUF (size : Z)
  | SO_SNDBUF (size : Z).

Record socket_set := {
  read_fds : list Z;
  write_fds : list Z;
  error_fds : list Z;
  max_fd : Z;
}.

(** ** Winsock *)

Class Winsock (S : Type) := {
  ws_socket : sock_type -> M S Z;
  ws_bind : Z -> Z -> Z -> M S bool;
  ws_listen : Z -> M S bool;
  ws_accept : Z -> M S (sock_res (Z * (Z * Z)));
  ws_connect : Z -> Z -> Z -> M S (sock_res unit);
  ws_send : Z -> bytes -> Z -> M S (sock_res Z);
  ws_recv : Z -> Z -> M S (sock_res bytes);
  ws_sendto : Z -> bytes -> Z -> Z -> Z -> M S (sock_res Z);
  ws_recvfrom : Z -> Z -> M S (sock_res (bytes * (Z * Z)));
  ws_select : socket_set -> option (Z * Z) -> M S (Z * socket_set);
  ws_setsockopt : Z -> sock_opt -> M S bool;
  ws_so_error : Z -> M S Z;
  ws_shutdown : Z -> M S unit;
  ws_closesocket : Z -> M S unit;
  ws_GetTickCount : M S Z;
  ws_gethostbyname : bytes -> M S (option Z);
  ws_inet_addr : bytes -> Z;
  ws_inet_ntoa : Z -> bytes;
  ws_patience : S -> Z -> nat;
}.

(** ** The program's functions *)

Section net.
  Context {S : Type} `{Winsock S}.

Definition socket_set_zero : socket_set := {|
  read_fds := []; write_fds := []; error_fds := []; max_fd := 0 |}.

(** Winsock's [FD_SET]: no duplicates, and nothing past [FD_SETSIZE]. *)
Definition FD_SET (fd : Z) (l : list Z) : list Z :=
  if bool_decide (fd ∈ l) then l
  else if (length l <? FD_SETSIZE)%nat then l ++ [fd] else l.

Definition socket_set_init : socket_set := socket_set_zero.

Definition bump_max_fd (fd max_fd : Z) : Z :=
  if sint 32 fd >? max_fd then sint 32 fd else max_fd.

Definition socket_set_add_read (set : socket_set) (fd : Z) : socket_set := {|
  read_fds := FD_SET fd (read_fds set); write_fds := write_fds set;
  error_fds := error_fds set; max_fd := bump_max_fd fd (max_fd set) |}.

Definition socket_set_add_write (set : socket_set) (fd : Z) : socket_set := {|
  read_fds := read_fds set; write_fds := FD_SET fd (write_fds set);
  error_fds := error_fds set; max_fd := bump_max_fd fd (max_fd set) |}.

Definition socket_set_add_error (set : socket_set) (fd : Z) : socket_set := {|
  read_fds := read_fds set; write_fds := write_fds set;
  error_fds := FD_SET fd (error_fds set); max_fd := bump_max_fd fd (max_fd set) |}.

Definition socket_is_readable (set : socket_set) (fd : Z) : bool := bool_decide (fd ∈ read_fds set).
Definition socket_is_writable (set : socket_set) (fd : Z) : bool := bool_decide (fd ∈ write_fds set).
Definition socket_has_error (set : socket_set) (fd : Z) : bool := bool_decide (fd ∈ error_fds set).

(** [select] leaves the ready sockets in the set; [(uint32_t)-1] waits for ever. *)
Definition socket_select (set : socket_set) (timeout_ms : Z) : M S (Z * socket_set) :=
  let ptv :=
    if negb (timeout_ms =? 0xFFFFFFFF)
    then Some (timeout_ms / 1000, (timeout_ms mod 1000) * 1000)
    else NULL in
  ws_select set ptv.

(** *** Options *)

Definition opt_result (ok : bool) : error_code := if ok then ERR_SUCCESS else ERR_SOCKET_OPTION.

Definition socket_set_nonblocking (fd : Z) (nonblocking : bool) : M S error_code :=
  ok ← ws_setsockopt fd (FIONBIO (if nonblocking then 1 else 0)); mret (opt_result ok).

Definition socket_set_nodelay (fd : Z) (nodelay : bool) : M S error_code :=
  ok ← ws_setsockopt fd (TCP_NODELAY nodelay); mret (opt_result ok).

Definition socket_set_reuseaddr (fd : Z) (reuse : bool) : M S error_code :=
  ok ← ws_setsockopt fd (SO_REUSEADDR reuse); mret (opt_result ok).

Definition socket_set_timeout (fd recv_timeout_ms send_timeout_ms : Z) : M S error_code :=
  ok ← ws_setsockopt fd (SO_RCVTIMEO recv_timeout_ms);
  if negb ok then mret ERR_SOCKET_OPTION else
  ok ← ws_setsockopt fd (SO_SNDTIMEO send_timeout_ms);
  if negb ok then mret ERR_SOCKET_OPTION else mret ERR_SUCCESS.

Definition socket_set_keepalive (fd : Z) (enable : bool) (idle_sec interval_sec count : Z) :
    M S error_code :=
  ok ← ws_setsockopt fd (SO_KEEPALIVE enable);
  if negb ok then mret ERR_SOCKET_OPTION else
  if enable then
    ok ← ws_setsockopt fd
           (SIO_KEEPALIVE_VALS 1 (wrap 32 (idle_sec * 1000)) (wrap 32 (interval_sec * 1000)));
    if negb ok then mret ERR_SOCKET_OPTION else mret ERR_SUCCESS
  else mret ERR_SUCCESS.

Definition socket_set_buffer_size (fd recv_size send_size : Z) : M S error_code :=
  ok ← (if recv_size >? 0 then ws_setsockopt fd (SO_RCVBUF recv_size) else mret true);
  if negb ok then mret ERR_SOCKET_OPTION else
  ok ← (if send_size >? 0 then ws_setsockopt fd (SO_SNDBUF send_size) else mret true);
  if negb ok then mret ERR_SOCKET_OPTION else mret ERR_SUCCESS.

Definition socket_get_error (fd : Z) : M S Z := ws_so_error fd.

Definition socket_close (fd : Z) : M S unit :=
  if negb (fd =? INVALID_SOCKET_VAL) then
    ws_shutdown fd ;; ws_closesocket fd
  else mret tt.

Definition socket_is_valid (fd : Z) : bool := negb (fd =? INVALID_SOCKET_VAL).

(** *** Servers and clients *)

Definition bind_address (bind_addr : ptr bytes) (any : bytes) : Z :=
  match bind_addr with
  | NULL => INADDR_ANY
  | Some a => if streq a any then INADDR_ANY else ws_inet_addr a
  end.

(** ["0.0.0.0"] *)
Definition any_addr : bytes := [48; 46; 48; 46; 48; 46; 48].

Definition tcp_server_create (bind_addr : ptr bytes) (port : Z) : M S Z :=
  sock ← ws_socket SOCK_STREAM;
  if sock =? INVALID_SOCKET_VAL then mret INVALID_SOCKET_VAL else
  socket_set_reuseaddr sock true ;;
  socket_set_nodelay sock true ;;
  ok ← ws_bind sock (bind_address bind_addr any_addr) (htons port);
  if negb ok then ws_closesocket sock ;; mret INVALID_SOCKET_VAL else
  ok ← ws_listen sock;
  if negb ok then ws_closesocket sock ;; mret INVALID_SOCKET_VAL else
  mret sock.

(** [strncpy(dst, src, n - 1); dst[n - 1] = '\0';] as the string it leaves. *)
Definition copy_ip (src : bytes) (n : nat) : bytes := take (n - 1) (cstr src).

(** Returns the socket and, when it is valid, the caller's [client_ip] (of size
    [ip_len]) and [client_port]. *)
Definition tcp_server_accept (server_fd : Z) (ip_len : nat) : M S (Z * option (bytes * Z)) :=
  r ← ws_accept server_fd;
  match r with
  | SockErr _ => mret (INVALID_SOCKET_VAL, NULL)
  | SockOk (client_sock, (addr, port)) =>
      if client_sock =? INVALID_SOCKET_VAL then mret (INVALID_SOCKET_VAL, NULL) else
      socket_set_nodelay client_sock true ;;
      mret (client_sock, Some (copy_ip (ws_inet_ntoa addr) ip_len, ntohs port))
  end.

Definition tcp_server_accept_timeout (server_fd : Z) (ip_len : nat) (timeout_ms : Z) :
    M S (Z * option (bytes * Z)) :=
  let set := socket_set_add_read socket_set_init server_fd in
  '(result, set) ← socket_select set timeout_ms;
  if result <=? 0 then mret (INVALID_SOCKET_VAL, NULL) else
  if socket_is_readable set server_fd then tcp_server_accept server_fd ip_len
  else mret (INVALID_SOCKET_VAL, NULL).

(** [inet_addr], then [gethostbyname] when it is not a dotted quad. *)
Definition resolve (host : bytes) : M S (option Z) :=
  if ws_inet_addr host =? INADDR_NONE then ws_gethostbyname host
  else mret (Some (ws_inet_addr host)).

Definition tcp_client_connect (host : bytes) (port : Z) : M S Z :=
  sock ← ws_socket SOCK_STREAM;
  if sock =? INVALID_SOCKET_VAL then mret INVALID_SOCKET_VAL else
  addr ← resolve host;
  match addr with
  | NULL => ws_closesocket sock ;; mret INVALID_SOCKET_VAL
  | Some addr =>
      r ← ws_connect sock addr (htons port);
      match r with
      | SockErr _ => ws_closesocket sock ;; mret INVALID_SOCKET_VAL
      | SockOk _ => socket_set_nodelay sock true ;; mret sock
      end
  end.

(** The wait for a connection in progress. *)
Definition connect_wait (sock timeout_ms : Z) : M S bool :=
  let set := socket_set_add_write socket_set_init sock in
  '(result, set) ← socket_select set timeout_ms;
  if (result <=? 0) || negb (socket_is_writable set sock) then mret false else
  error ← socket_get_error sock;
  mret (error =? 0).

Definition tcp_client_connect_timeout (host : bytes) (port timeout_ms : Z) : M S Z :=
  sock ← ws_socket SOCK_STREAM;
  if sock =? INVALID_SOCKET_VAL then mret INVALID_SOCKET_VAL else
  socket_set_nonblocking sock true ;;
  addr ← resolve host;
  match addr with
  | NULL => ws_closesocket sock ;; mret INVALID_SOCKET_VAL
  | Some addr =>
      r ← ws_connect sock addr (htons port);
      connected ← match r with
                  | SockOk _ => mret true
                  | SockErr err =>
                      if negb (err =? WSAEWOULDBLOCK) then mret false
                      else connect_wait sock timeout_ms
                  end;
      if (connected : bool) then
        socket_set_nonblocking sock false ;;
        socket_set_nodelay sock true ;;
        mret sock
      else ws_closesocket sock ;; mret INVALID_SOCKET_VAL
  end.

(** *** Data transfer

    A function that fills a caller's buffer returns its [ssize_t] result with the
    bytes it stored. *)

Definition net_send (fd : Z) (buf : bytes) (len : Z) : M S Z :=
  r ← ws_send fd buf (sint 32 len);
  match r with
  | SockErr err => mret (if err =? WSAEWOULDBLOCK then 0 else -1)
  | SockOk result => mret result
  end.

Definition net_recv (fd len : Z) : M S (Z * bytes) :=
  r ← ws_recv fd (sint 32 len);
  match r with
  | SockErr err => mret (if err =? WSAEWOULDBLOCK then 0 else -1, [])
  | SockOk bs => mret (Z.of_nat (length bs), bs)
  end.

(** The retry loops.  [None] is the loop still running when the fuel is gone. *)
Fixpoint net_send_all_loop (fuel : nat) (fd : Z) (ptr : bytes) (remaining len : Z) :
    M S (option Z) :=
  match fuel with
  | O => mret None
  | Datatypes.S fuel =>
      if remaining =? 0 then mret (Some len) else
      r ← ws_send fd ptr (sint 32 remaining);
      match r with
      | SockErr err =>
          if err =? WSAEWOULDBLOCK then net_send_all_loop fuel fd ptr remaining len
          else mret (Some (-1))
      | SockOk sent =>
          if sent =? 0 then mret (Some (len - remaining))
          else net_send_all_loop fuel fd (drop (Z.to_nat sent) ptr) (remaining - sent) len
      end
  end.

(** [got] is what the buffer holds so far. *)
Fixpoint net_recv_all_loop (fuel : nat) (fd : Z) (got : bytes) (remaining len : Z) :
    M S (option (Z * bytes)) :=
  match fuel with
  | O => mret None
  | Datatypes.S fuel =>
      if remaining =? 0 then mret (Some (len, got)) else
      r ← ws_recv fd (sint 32 remaining);
      match r with
      | SockErr err =>
          if err =? WSAEWOULDBLOCK then net_recv_all_loop fuel fd got remaining len
          else mret (Some (-1, got))
      | SockOk bs =>
          let received := Z.of_nat (length bs) in
          if received =? 0 then mret (Some (len - remaining, got))
          else net_recv_all_loop fuel fd (got ++ bs) (remaining - received) len
      end
  end.

(** Enough iterations: one per byte, one per call without progress, one to see
    that nothing is left. *)
Definition loop_fuel (fd : Z) (remaining : Z) (s : S) : nat :=
  Datatypes.S (Z.to_nat remaining + ws_patience s fd).

Definition run_loop {A} (d : A) (fd remaining : Z) (loop : nat -> M S (option A)) : M S A :=
  fun s => let '(r, s') := loop (loop_fuel fd remaining s) s in (default d r, s').

Definition net_send_all (fd : Z) (buf : bytes) (len : Z) : M S Z :=
  run_loop (-1) fd len (fun fuel => net_send_all_loop fuel fd buf len len).

Definition net_recv_all (fd len : Z) : M S (Z * bytes) :=
  run_loop (-1, []) fd len (fun fuel => net_recv_all_loop fuel fd [] len len).

Fixpoint net_send_all_timeout_loop (fuel : nat) (fd : Z) (ptr : bytes)
    (remaining len timeout_ms start : Z) : M S (option Z) :=
  match fuel with
  | O => mret None
  | Datatypes.S fuel =>
      if remaining =? 0 then mret (Some len) else
      now ← ws_GetTickCount;
      let elapsed := wrap 32 (now - start) in
      if timeout_ms <=? elapsed then mret (Some (-1)) else
      '(result, _) ← socket_select (socket_set_add_write socket_set_init fd)
                                   (timeout_ms - elapsed);
      if result <=? 0 then mret (Some (-1)) else
      r ← ws_send fd ptr (sint 32 remaining);
      match r with
      | SockErr err =>
          if err =? WSAEWOULDBLOCK
          then net_send_all_timeout_loop fuel fd ptr remaining len timeout_ms start
          else mret (Some (-1))
      | SockOk sent =>
          net_send_all_timeout_loop fuel fd (drop (Z.to_nat sent) ptr) (remaining - sent)
            len timeout_ms start
      end
  end.

Fixpoint net_recv_all_timeout_loop (fuel : nat) (fd : Z) (got : bytes)
    (remaining len timeout_ms start : Z) : M S (option (Z * bytes)) :=
  match fuel with
  | O => mret None
  | Datatypes.S fuel =>
      if remaining =? 0 then mret (Some (len, got)) else
      now ← ws_GetTickCount;
      let elapsed := wrap 32 (now - start) in
      if timeout_ms <=? elapsed then mret (Some (-1, got)) else
      '(result, _) ← socket_select (socket_set_add_read socket_set_init fd)
                                   (timeout_ms - elapsed);
      if result <=? 0 then mret (Some (-1, got)) else
      r ← ws_recv fd (sint 32 remaining);
      match r with
      | SockErr err =>
          if err =? WSAEWOULDBLOCK
          then net_recv_all_timeout_loop fuel fd got remaining len timeout_ms start
          else mret (Some (-1, got))
      | SockOk bs =>
          let received := Z.of_nat (length bs) in
          if received =? 0 then mret (Some (len - remaining, got))
          else net_recv_all_timeout_loop fuel fd (got ++ bs) (remaining - received)
                 len timeout_ms start
      end
  end.

Definition net_send_all_timeout (fd : Z) (buf : bytes) (len timeout_ms : Z) : M S Z :=
  start ← ws_GetTickCount;
  run_loop (-1) fd len (fun fuel =>
    net_send_all_timeout_loop fuel fd buf len len timeout_ms start).

Definition net_recv_all_timeout (fd len timeout_ms : Z) : M S (Z * bytes) :=
  start ← ws_GetTickCount;
  run_loop (-1, []) fd len (fun fuel =>
    net_recv_all_timeout_loop fuel fd [] len len timeout_ms start).

(** *** The library

    [g_network.initialized].  [wsa]: the result of [WSAStartup]. *)

Definition network_init (initialized : bool) (wsa : Z) : error_code * bool :=
  if initialized then (ERR_SUCCESS, true)
  else if negb (wsa =? 0) then (ERR_NETWORK_INIT, false) else (ERR_SUCCESS, true).

Definition network_cleanup (initialized : bool) : bool := false.

Definition network_is_initialized (initialized : bool) : bool := initialized.

(** *** Datagrams *)

Definition udp_socket_create : M S Z := ws_socket SOCK_DGRAM.

Definition udp_socket_bind (fd : Z) (bind_addr : ptr bytes) (port : Z) : M S error_code :=
  ok ← ws_bind fd (bind_address bind_addr any_addr) (htons port);
  mret (if (ok : bool) then ERR_SUCCESS else ERR_SOCKET_BIND).

Definition udp_enable_broadcast (fd : Z) : M S error_code :=
  ok ← ws_setsockopt fd (SO_BROADCAST true); mret (opt_result ok).

Definition udp_sendto (fd : Z) (buf : bytes) (len : Z) (dest_addr : bytes) (dest_port : Z) :
    M S Z :=
  r ← ws_sendto fd buf (sint 32 len) (ws_inet_addr dest_addr) (htons dest_port);
  match r with
  | SockErr _ => mret (-1)
  | SockOk result => mret result
  end.

(** The result, the datagram, and the sender's address (in a buffer of
    [addr_len] bytes) and port when the call succeeded. *)
Definition udp_recvfrom (fd len : Z) (addr_len : nat) : M S (Z * bytes * option (bytes * Z)) :=
  r ← ws_recvfrom fd (sint 32 len);
  match r with
  | SockErr _ => mret (-1, [], NULL)
  | SockOk (bs, (addr, port)) =>
      mret (Z.of_nat (length bs), bs, Some (copy_ip (ws_inet_ntoa addr) addr_len, ntohs port))
  end.

Definition udp_recvfrom_timeout (fd len : Z) (addr_len : nat) (timeout_ms : Z) :
    M S (Z * bytes * option (bytes * Z)) :=
  '(result, _) ← socket_select (socket_set_add_read socket_set_init fd) timeout_ms;
  if result <=? 0 then mret (result, [], NULL) else udp_recvfrom fd len addr_len.
End net.

(** ** What Winsock promises *)

Class WinsockLaws (S : Type) `{Winsock S} := {
  ws_rx : S -> Z -> bytes;
  ws_tx : S -> Z -> bytes;
  ws_open : S -> gset Z;

  (** [recv] returns the next bytes of the stream, at most as many as asked for;
      zero only when the peer has closed. *)
  ws_recv_ok fd n s bs s' : 0 < n ->
    ws_recv fd n s = (SockOk bs, s') ->
    Z.of_nat (length bs) <= n /\ ws_rx s fd = bs ++ ws_rx s' fd /\
    (bs = [] -> ws_rx s fd = []);
  ws_recv_err fd n s e s' :
    ws_recv fd n s = (SockErr e, s') ->
    ws_rx s' fd = ws_rx s fd /\
    (e = WSAEWOULDBLOCK -> (ws_patience s' fd < ws_patience s fd)%nat);
  ws_recv_frame fd n s r s' :
    ws_recv fd n s = (r, s') ->
    (forall fd', fd' <> fd -> ws_rx s' fd' = ws_rx s fd') /\
    (forall fd', ws_tx s' fd' = ws_tx s fd') /\
    (ws_patience s' fd <= ws_patience s fd)%nat /\ ws_open s' = ws_open s;
  (** Whatever length was asked for, what is returned was on the stream. *)
  ws_recv_stream fd n s bs s' :
    ws_recv fd n s = (SockOk bs, s') -> ws_rx s fd = bs ++ ws_rx s' fd;

  (** [send] takes a prefix of the buffer. *)
  ws_send_ok fd buf n s k s' : 0 < n <= Z.of_nat (length buf) ->
    ws_send fd buf n s = (SockOk k, s') ->
    0 <= k <= n /\ ws_tx s' fd = ws_tx s fd ++ take (Z.to_nat k) buf /\
    (k = 0 -> (ws_patience s' fd < ws_patience s fd)%nat);
  ws_send_err fd buf n s e s' :
    ws_send fd buf n s = (SockErr e, s') ->
    ws_tx s' fd = ws_tx s fd /\
    (e = WSAEWOULDBLOCK -> (ws_patience s' fd < ws_patience s fd)%nat);
  ws_send_frame fd buf n s r s' :
    ws_send fd buf n s = (r, s') ->
    (forall fd', fd' <> fd -> ws_tx s' fd' = ws_tx s fd') /\
    (forall fd', ws_rx s' fd' = ws_rx s fd') /\
    (ws_patience s' fd <= ws_patience s fd)%nat /\ ws_open s' = ws_open s;

  (** Waiting and reading the clock move no data. *)
  ws_select_frame set tv s r s' :
    ws_select set tv s = (r, s') ->
    (forall fd, ws_rx s' fd = ws_rx s fd /\ ws_tx s' fd = ws_tx s fd /\
      (ws_patience s' fd <= ws_patience s fd)%nat) /\ ws_open s' = ws_open s;
  ws_tick_frame s r s' :
    ws_GetTickCount s = (r, s') ->
    (forall fd, ws_rx s' fd = ws_rx s fd /\ ws_tx s' fd = ws_tx s fd /\
      (ws_patience s' fd <= ws_patience s fd)%nat) /\ ws_open s' = ws_open s;

  (** Descriptors: [socket] and [accept] return a new one, [closesocket] ends
      one, nothing else changes the set. *)
  ws_socket_open t s fd s' :
    ws_socket t s = (fd, s') ->
    if fd =? INVALID_SOCKET_VAL then ws_open s' = ws_open s
    else ws_open s' = {[fd]} ∪ ws_open s /\ fd ∉ ws_open s;
  ws_accept_open fd s r s' :
    ws_accept fd s = (r, s') ->
    match r with
    | SockOk (fd', _) =>
        fd' <> INVALID_SOCKET_VAL /\ ws_open s' = {[fd']} ∪ ws_open s /\ fd' ∉ ws_open s
    | SockErr _ => ws_open s' = ws_open s
    end;
  ws_closesocket_open fd s s' :
    ws_closesocket fd s = (tt, s') -> ws_open s' = ws_open s ∖ {[fd]};
  ws_shutdown_open fd s s' : ws_shutdown fd s = (tt, s') -> ws_open s' = ws_open s;
  ws_bind_open fd a p s r s' : ws_bind fd a p s = (r, s') -> ws_open s' = ws_open s;
  ws_listen_open fd s r s' : ws_listen fd s = (r, s') -> ws_open s' = ws_open s;
  ws_connect_open fd a p s r s' : ws_connect fd a p s = (r, s') -> ws_open s' = ws_open s;
  ws_setsockopt_open fd o s r s' : ws_setsockopt fd o s = (r, s') -> ws_open s' = ws_open s;
  ws_so_error_open fd s r s' : ws_so_error fd s = (r, s') -> ws_open s' = ws_open s;
  ws_gethostbyname_open h s r s' : ws_gethostbyname h s = (r, s') -> ws_open s' = ws_open s;
  ws_sendto_open fd buf n a p s r s' :
    ws_sendto fd buf n a p s = (r, s') -> ws_open s' = ws_open s;
  ws_recvfrom_open fd n s r s' : ws_recvfrom fd n s = (r, s') -> ws_open s' = ws_open s;
}.

(** ** Lemmas *)

Section laws.
  Context {S : Type} `{WinsockLaws S}.
  Implicit Types s : S.

(** The calls of one transfer on [fd] may only touch [fd]'s outgoing stream. *)
Definition tx_only (fd : Z) (s s' : S) : Prop :=
  (forall fd', fd' <> fd -> ws_tx s' fd' = ws_tx s fd') /\
  (forall fd', ws_rx s' fd' = ws_rx s fd') /\ ws_open s' = ws_open s.

Definition rx_only (fd : Z) (s s' : S) : Prop :=
  (forall fd', fd' <> fd -> ws_rx s' fd' = ws_rx s fd') /\
  (forall fd', ws_tx s' fd' = ws_tx s fd') /\ ws_open s' = ws_open s.

#[export] Instance tx_only_preorder fd : PreOrder (tx_only fd).
Proof.
  split; [by intros s; split|]. intros s1 s2 s3 (A1 & A2 & A3) (B1 & B2 & B3).
  unfold tx_only.
  split_and!; intros; [rewrite B1, A1|rewrite B2, A2|rewrite B3, A3]; done.
Qed.

#[export] Instance rx_only_preorder fd : PreOrder (rx_only fd).
Proof.
  split; [by intros s; split|]. intros s1 s2 s3 (A1 & A2 & A3) (B1 & B2 & B3).
  unfold rx_only.
  split_and!; intros; [rewrite B1, A1|rewrite B2, A2|rewrite B3, A3]; done.
Qed.

(** What a completed or failed send leaves: [buf] entirely on the stream when
    the result is its length, a proper prefix of it otherwise. *)
Definition send_post (fd : Z) (buf : bytes) (len r : Z) (s s' : S) : Prop :=
  tx_only fd s s' /\
  (r = len /\ ws_tx s' fd = ws_tx s fd ++ buf \/
   r <> len /\ -1 <= r /\
   exists k, (k < length buf)%nat /\ ws_tx s' fd = ws_tx s fd ++ take k buf).

(** What a receive of the last [rem] of [len] bytes leaves: [bs] was taken from
    the stream; [r] is [len] when that is all of them, and a short count only
    when the peer has closed. *)
Definition recv_post (fd rem len r : Z) (bs : bytes) (s s' : S) : Prop :=
  rx_only fd s s' /\ ws_rx s fd = bs ++ ws_rx s' fd /\
  (r = len /\ Z.of_nat (length bs) = rem \/
   r <> len /\ Z.of_nat (length bs) < rem /\
   (r = -1 \/ r = len - rem + Z.of_nat (length bs) /\ ws_rx s' fd = [])).

Lemma send_post_step fd buf len r k s1 s2 s3 :
  tx_only fd s1 s2 -> ws_tx s2 fd = ws_tx s1 fd ++ take k buf ->
  (k <= length buf)%nat ->
  send_post fd (drop k buf) len r s2 s3 -> send_post fd buf len r s1 s3.
Proof.
  intros F12 E Hk [F23 Hr]. split; [by etrans|].
  destruct Hr as [[-> E3]|(? & ? & k' & Hk' & E3)]; [left|right].
  - split; [done|]. by rewrite E3, E, <-app_assoc, take_drop.
  - split_and!; [done..|]. exists (k + k')%nat. rewrite length_drop in Hk'. split; [lia|].
    by rewrite E3, E, <-app_assoc, take_take_drop.
Qed.

Lemma send_post_fail fd buf len r s s' :
  tx_only fd s s' -> ws_tx s' fd = ws_tx s fd -> (0 < length buf)%nat -> -1 <= r < len ->
  send_post fd buf len r s s'.
Proof.
  intros F E Hb Hr. split; [done|]. right. split_and!; [lia..|].
  exists 0%nat. by rewrite E, app_nil_r.
Qed.

Lemma recv_post_step fd rem len r bs1 bs2 s1 s2 s3 :
  rx_only fd s1 s2 -> ws_rx s1 fd = bs1 ++ ws_rx s2 fd ->
  recv_post fd (rem - Z.of_nat (length bs1)) len r bs2 s2 s3 ->
  recv_post fd rem len r (bs1 ++ bs2) s1 s3.
Proof.
  intros F12 E (F23 & E23 & Hr). split; [by etrans|].
  split; [by rewrite E, E23, app_assoc|]. rewrite length_app. 
  destruct Hr as [[-> ?]|(? & ? & Hr)]; [left; lia|right].
  split_and!; [done|lia|]. destruct Hr as [->|[-> ?]]; [by left|right]. split; [lia|done].
Qed.

Lemma recv_post_fail fd rem len r s s' :
  rx_only fd s s' -> ws_rx s' fd = ws_rx s fd -> 0 < rem <= len ->
  r = -1 \/ r = len - rem /\ ws_rx s' fd = [] -> recv_post fd rem len r [] s s'.
Proof.
  intros F E Hl Hr. split; [done|]. split; [by rewrite E|]. right. simpl.
  split_and!; [lia..|]. destruct Hr as [?|[? ?]]; [by left|right]. split; [lia|done].
Qed.

Lemma int_len_ok n : 0 < n < 2 ^ 31 -> sint 32 n = n.
Proof.
  intros Hn. rewrite <-(wrap_small 32 n) at 1 by (unfold is_u; lia). apply sint_small; lia.
Qed.

Lemma tx_frame fd buf n s r s' :
  ws_send fd buf n s = (r, s') -> tx_only fd s s' /\ (ws_patience s' fd <= ws_patience s fd)%nat.
Proof. intros (? & ? & ? & ?)%ws_send_frame. done. Qed.

Lemma rx_frame fd n s r s' :
  ws_recv fd n s = (r, s') -> rx_only fd s s' /\ (ws_patience s' fd <= ws_patience s fd)%nat.
Proof. intros (? & ? & ? & ?)%ws_recv_frame. done. Qed.

(** The send loop, given fuel for the bytes left and for the calls that will
    not make progress, always ends. *)
Lemma net_send_all_loop_spec fuel fd buf rem len s :
  rem = Z.of_nat (length buf) -> rem < 2 ^ 31 -> rem <= len ->
  (length buf + ws_patience s fd < fuel)%nat ->
  exists r s', net_send_all_loop fuel fd buf rem len s = (Some r, s') /\
    send_post fd buf len r s s'.
Proof.
  revert buf rem s. induction fuel as [|fuel IH]; intros buf rem s -> Hsz Hlen Hf; [lia|].
  simpl. destruct (Z.eqb_spec (Z.of_nat (length buf)) 0) as [E0|E0].
  { destruct buf; [|done]. exists len, s. split; [done|]. split; [done|].
    left. by rewrite app_nil_r. }
  rewrite int_len_ok by lia.
  mrun res s1 E. destruct (tx_frame _ _ _ _ _ _ E) as [F P]. destruct res as [k|e].
  - edestruct ws_send_ok as (Hk & Htx & Hz); [|exact E|]; [lia|].
    destruct (Z.eqb_spec k 0) as [->|Hk0].
    { eexists _, s1. split; [done|].
      apply send_post_fail; [done|by rewrite Htx, app_nil_r|lia..]. }
    destruct (IH (drop (Z.to_nat k) buf) (Z.of_nat (length buf) - k) s1)
      as (r & s' & E' & Hp); [rewrite ?length_drop; lia..|].
    exists r, s'. split; [done|]. eapply send_post_step; [done..|lia|done].
  - destruct (ws_send_err _ _ _ _ _ _ E) as (Htx & Hb).
    destruct (Z.eqb_spec e WSAEWOULDBLOCK) as [->|He].
    + specialize (Hb eq_refl).
      destruct (IH buf (Z.of_nat (length buf)) s1) as (r & s' & E' & Hp); [lia..|].
      exists r, s'. split; [done|].
      apply send_post_step with 0%nat s1; [done|by rewrite Htx, app_nil_r|lia|done].
    + eexists _, s1. split; [done|]. apply send_post_fail; [done..|lia|lia].
Qed.

(** The receive loop: [got] is kept in front of what it reads. *)
Lemma net_recv_all_loop_spec fuel fd got rem len s :
  0 <= rem < 2 ^ 31 -> rem <= len ->
  (Z.to_nat rem + ws_patience s fd < fuel)%nat ->
  exists r bs s', net_recv_all_loop fuel fd got rem len s = (Some (r, got ++ bs), s') /\
    recv_post fd rem len r bs s s'.
Proof.
  revert got rem s. induction fuel as [|fuel IH]; intros got rem s Hsz Hlen Hf; [lia|].
  simpl. destruct (Z.eqb_spec rem 0) as [->|E0].
  { exists len, [], s. rewrite app_nil_r. split; [done|]. split_and!; [done..|]. by left. }
  rewrite int_len_ok by lia.
  mrun res s1 E. destruct (rx_frame _ _ _ _ _ E) as [F P]. destruct res as [bs|e].
  - edestruct ws_recv_ok as (Hk & Hrx & Hz); [|exact E|]; [lia|].
    destruct (Z.eqb_spec (Z.of_nat (length bs)) 0) as [Hk0|Hk0].
    { destruct bs; [|done]. specialize (Hz eq_refl).
      exists (len - rem), [], s1. rewrite app_nil_r. split; [done|].
      apply recv_post_fail; [done|by rewrite Hrx|lia|right]. by rewrite <-Hz, Hrx. }
    destruct (IH (got ++ bs) (rem - Z.of_nat (length bs)) s1)
      as (r & bs2 & s' & E' & Hp); [lia..|].
    exists r, (bs ++ bs2), s'. rewrite app_assoc. split; [done|].
    eapply recv_post_step; done.
  - destruct (ws_recv_err _ _ _ _ _ E) as (Hrx & Hb).
    destruct (Z.eqb_spec e WSAEWOULDBLOCK) as [->|He].
    + specialize (Hb eq_refl).
      destruct (IH got rem s1) as (r & bs2 & s' & E' & Hp); [lia..|].
      exists r, bs2, s'. split; [done|].
      apply (recv_post_step fd rem len r [] bs2 s s1 s');
        [done|by rewrite Hrx|by rewrite Z.sub_0_r].
    + exists (-1), [], s1. rewrite app_nil_r. split; [done|].
      apply recv_post_fail; [done|done|lia|by left].
Qed.

(** Waiting changes no stream, so it is a step of a send and of a receive. *)
Lemma tick_frame fd s r s' :
  ws_GetTickCount s = (r, s') ->
  tx_only fd s s' /\ rx_only fd s s' /\ ws_tx s' fd = ws_tx s fd /\ ws_rx s' fd = ws_rx s fd /\
  (ws_patience s' fd <= ws_patience s fd)%nat.
Proof.
  intros [Hf Ho]%ws_tick_frame.
  split_and!; try (split_and!; [intros; apply Hf..|done]); apply Hf.
Qed.

Lemma select_frame fd set ms s r s' :
  socket_select set ms s = (r, s') ->
  tx_only fd s s' /\ rx_only fd s s' /\ ws_tx s' fd = ws_tx s fd /\ ws_rx s' fd = ws_rx s fd /\
  (ws_patience s' fd <= ws_patience s fd)%nat.
Proof.
  intros [Hf Ho]%ws_select_frame.
  split_and!; try (split_and!; [intros; apply Hf..|done]); apply Hf.
Qed.

Lemma send_post_wait fd buf len r s1 s2 s3 :
  tx_only fd s1 s2 -> ws_tx s2 fd = ws_tx s1 fd ->
  send_post fd buf len r s2 s3 -> send_post fd buf len r s1 s3.
Proof.
  intros F E Hp. apply send_post_step with 0%nat s2; [done|by rewrite E, app_nil_r|lia|done].
Qed.

Lemma recv_post_wait fd rem len r bs s1 s2 s3 :
  rx_only fd s1 s2 -> ws_rx s2 fd = ws_rx s1 fd ->
  recv_post fd rem len r bs s2 s3 -> recv_post fd rem len r bs s1 s3.
Proof.
  intros F E Hp. apply (recv_post_step fd rem len r [] bs s1 s2 s3);
    [done|by rewrite E|by rewrite Z.sub_0_r].
Qed.

Lemma net_send_all_timeout_loop_spec fuel fd buf rem len ms start s :
  rem = Z.of_nat (length buf) -> rem < 2 ^ 31 -> rem <= len ->
  (length buf + ws_patience s fd < fuel)%nat ->
  exists r s', net_send_all_timeout_loop fuel fd buf rem len ms start s = (Some r, s') /\
    send_post fd buf len r s s'.
Proof.
  revert buf rem s. induction fuel as [|fuel IH]; intros buf rem s -> Hsz Hlen Hf; [lia|].
  simpl. destruct (Z.eqb_spec (Z.of_nat (length buf)) 0) as [E0|E0].
  { destruct buf; [|done]. exists len, s. split; [done|]. split; [done|].
    left. by rewrite app_nil_r. }
  mrun now s1 E1.
  destruct (tick_frame fd _ _ _ E1) as (F1 & _ & T1 & _ & P1).
  destruct (ms <=? _).
  { eexists _, s1. split; [done|]. apply send_post_fail; [done..|lia|lia]. }
  mrun sel s2 E2. destruct sel as [res set].
  destruct (select_frame fd _ _ _ _ _ E2) as (F2 & _ & T2 & _ & P2).
  assert (tx_only fd s s2) as F by (by etrans).
  assert (ws_tx s2 fd = ws_tx s fd) as T by congruence.
  destruct (res <=? 0).
  { eexists _, s2. split; [done|]. apply send_post_fail; [done..|lia|lia]. }
  rewrite int_len_ok by lia.
  mrun out s3 E. destruct (tx_frame _ _ _ _ _ _ E) as [F3 P]. destruct out as [k|e].
  - edestruct ws_send_ok as (Hk & Htx & Hz); [|exact E|]; [lia|].
    destruct (IH (drop (Z.to_nat k) buf) (Z.of_nat (length buf) - k) s3)
      as (r & s' & E' & Hp); [rewrite ?length_drop; lia..| |].
    { rewrite length_drop. destruct (decide (k = 0)) as [->|]; [specialize (Hz eq_refl)|]; lia. }
    exists r, s'. split; [done|]. apply (send_post_wait fd buf len r s s2 s'); [done..|].
    eapply send_post_step; [done..|lia|done].
  - destruct (ws_send_err _ _ _ _ _ _ E) as (Htx & Hb).
    destruct (Z.eqb_spec e WSAEWOULDBLOCK) as [->|He].
    + specialize (Hb eq_refl).
      destruct (IH buf (Z.of_nat (length buf)) s3) as (r & s' & E' & Hp); [lia..|].
      exists r, s'. split; [done|]. apply (send_post_wait fd buf len r s s2 s'); [done..|].
      by apply (send_post_wait fd buf len r s2 s3 s').
    + eexists _, s3. split; [done|].
      apply send_post_fail; [by etrans|by rewrite Htx|lia|lia].
Qed.

Lemma net_recv_all_timeout_loop_spec fuel fd got rem len ms start s :
  0 <= rem < 2 ^ 31 -> rem <= len ->
  (Z.to_nat rem + ws_patience s fd < fuel)%nat ->
  exists r bs s',
    net_recv_all_timeout_loop fuel fd got rem len ms start s = (Some (r, got ++ bs), s') /\
    recv_post fd rem len r bs s s'.
Proof.
  revert got rem s. induction fuel as [|fuel IH]; intros got rem s Hsz Hlen Hf; [lia|].
  simpl. destruct (Z.eqb_spec rem 0) as [->|E0].
  { exists len, [], s. rewrite app_nil_r. split; [done|]. split_and!; [done..|]. by left. }
  mrun now s1 E1.
  destruct (tick_frame fd _ _ _ E1) as (_ & F1 & _ & T1 & P1).
  destruct (ms <=? _).
  { exists (-1), [], s1. rewrite app_nil_r. split; [done|].
    apply recv_post_fail; [done|done|lia|by left]. }
  mrun sel s2 E2. destruct sel as [res set].
  destruct (select_frame fd _ _ _ _ _ E2) as (_ & F2 & _ & T2 & P2).
  assert (rx_only fd s s2) as F by (by etrans).
  assert (ws_rx s2 fd = ws_rx s fd) as T by congruence.
  destruct (res <=? 0).
  { exists (-1), [], s2. rewrite app_nil_r. split; [done|].
    apply recv_post_fail; [done|done|lia|by left]. }
  rewrite int_len_ok by lia.
  mrun inp s3 E. destruct (rx_frame _ _ _ _ _ E) as [F3 P]. destruct inp as [bs|e].
  - edestruct ws_recv_ok as (Hk & Hrx & Hz); [|exact E|]; [lia|].
    destruct (Z.eqb_spec (Z.of_nat (length bs)) 0) as [Hk0|Hk0].
    { destruct bs; [|done]. specialize (Hz eq_refl).
      exists (len - rem), [], s3. rewrite app_nil_r. split; [done|].
      apply (recv_post_wait _ _ _ _ _ s s2 s3); [done..|].
      apply recv_post_fail; [done|by rewrite Hrx|lia|right]. by rewrite <-Hz, Hrx. }
    destruct (IH (got ++ bs) (rem - Z.of_nat (length bs)) s3)
      as (r & bs2 & s' & E' & Hp); [lia..|].
    exists r, (bs ++ bs2), s'. rewrite app_assoc. split; [done|].
    apply (recv_post_wait _ _ _ _ _ s s2 s'); [done..|]. eapply recv_post_step; done.
  - destruct (ws_recv_err _ _ _ _ _ E) as (Hrx & Hb).
    destruct (Z.eqb_spec e WSAEWOULDBLOCK) as [->|He].
    + specialize (Hb eq_refl).
      destruct (IH got rem s3) as (r & bs2 & s' & E' & Hp); [lia..|].
      exists r, bs2, s'. split; [done|]. apply (recv_post_wait _ _ _ _ _ s s2 s'); [done..|].
      by apply (recv_post_wait _ _ _ _ _ s2 s3 s').
    + exists (-1), [], s3. rewrite app_nil_r. split; [done|].
      apply recv_post_fail; [by etrans|by rewrite Hrx|lia|by left].
Qed.

Lemma run_loop_some {A} (d : A) fd rem loop s (r : A) s' :
  loop (loop_fuel fd rem s) s = (Some r, s') -> run_loop d fd rem loop s = (r, s').
Proof. intros E. unfold run_loop. by rewrite E. Qed.

(** The contracts the other components use. *)
Lemma net_send_all_post fd buf len s r s' :
  len = Z.of_nat (length buf) -> len < 2 ^ 31 ->
  net_send_all fd buf len s = (r, s') -> send_post fd buf len r s s'.
Proof.
  intros -> Hl Hr. unfold net_send_all in Hr.
  destruct (net_send_all_loop_spec (loop_fuel fd (Z.of_nat (length buf)) s) fd buf
              (Z.of_nat (length buf)) (Z.of_nat (length buf)) s)
    as (r' & s1 & E & Hp); [done|exact Hl|done|unfold loop_fuel; lia|].
  erewrite run_loop_some in Hr by exact E. by simplify_eq.
Qed.

Lemma net_recv_all_post fd len s r bs s' :
  0 <= len < 2 ^ 31 ->
  net_recv_all fd len s = ((r, bs), s') -> recv_post fd len len r bs s s'.
Proof.
  intros Hl Hr. unfold net_recv_all in Hr.
  edestruct (net_recv_all_loop_spec (loop_fuel fd len s) fd [] len len s)
    as (r' & bs' & s1 & E & Hp); [done|done|unfold loop_fuel; lia|].
  erewrite run_loop_some in Hr by exact E. by simplify_eq.
Qed.

Lemma net_recv_all_timeout_post fd len ms s r bs s' :
  0 <= len < 2 ^ 31 ->
  net_recv_all_timeout fd len ms s = ((r, bs), s') -> recv_post fd len len r bs s s'.
Proof.
  intros Hl (start & s1 & E1 & Hr)%M_bind_inv.
  destruct (tick_frame fd _ _ _ E1) as (_ & F & _ & T & _).
  edestruct (net_recv_all_timeout_loop_spec (loop_fuel fd len s1) fd [] len len ms start s1)
    as (r' & bs' & s2 & E & Hp); [done|done|unfold loop_fuel; lia|].
  erewrite run_loop_some in Hr by exact E. simplify_eq/=. by eapply recv_post_wait.
Qed.

(** ** A connection that stays up

    [P] holds of the network as long as the connection is good: receiving on it can
    only ask to be tried again. *)
Definition steady (fd : Z) (P : S -> Prop) : Prop :=
  forall n s r s', 0 < n -> P s -> ws_recv fd n s = (r, s') ->
  P s' /\ forall e, r = SockErr e -> e = WSAEWOULDBLOCK.

(** The same for sending. *)
Definition steady_tx (fd : Z) (P : S -> Prop) : Prop :=
  forall buf n s r s', 0 < n <= Z.of_nat (length buf) -> P s -> ws_send fd buf n s = (r, s') ->
  P s' /\ match r with SockOk k => k <> 0 | SockErr e => e = WSAEWOULDBLOCK end.

Lemma send_loop_steady P fuel fd buf rem len s r s' :
  steady_tx fd P -> P s -> rem = Z.of_nat (length buf) -> rem < 2 ^ 31 ->
  net_send_all_loop fuel fd buf rem len s = (Some r, s') -> r = len /\ P s'.
Proof.
  intros Hst. revert buf rem s.
  induction fuel as [|fuel IH]; intros buf rem s Hp Hr Hb E; cbn [net_send_all_loop] in E; [by mret_eq|].
  destruct (Z.eqb_spec rem 0) as [->|E0]; [by mret_eq|]. rewrite int_len_ok in E by lia.
  apply M_bind_inv in E as (res & s1 & E1 & E). pose proof E1 as [Hp1 He]%Hst; [|lia|done].
  destruct res as [k|e].
  - apply ws_send_ok in E1 as (Hk & _ & _); [|lia]. rewrite (proj2 (Z.eqb_neq k 0) He) in E.
    apply IH in E; [done|done|rewrite length_drop; lia|lia].
  - subst e. by apply IH in E.
Qed.

(** A buffer handed to such a connection is sent in full. *)
Lemma net_send_all_steady P fd buf len s :
  steady_tx fd P -> P s -> len = Z.of_nat (length buf) -> len < 2 ^ 31 ->
  exists s', net_send_all fd buf len s = (len, s') /\ P s' /\ tx_only fd s s' /\
    ws_tx s' fd = ws_tx s fd ++ buf.
Proof.
  intros Hst Hp -> Hb. destruct (net_send_all fd buf _ s) as [r s'] eqn:E. exists s'.
  pose proof E as [F Hr]%net_send_all_post; [|done|done]. unfold net_send_all in E.
  edestruct (net_send_all_loop_spec (loop_fuel fd (Z.of_nat (length buf)) s) fd buf
    (Z.of_nat (length buf)) (Z.of_nat (length buf)) s) as (r' & s1 & E1 & _);
    [done|done|lia|unfold loop_fuel; lia|].
  erewrite run_loop_some in E by exact E1. simplify_eq.
  apply (send_loop_steady P) in E1 as [-> Hp1]; [|done..]. destruct Hr as [[_ Ht]|[? _]]; done.
Qed.

Lemma recv_loop_steady P fuel fd got rem len s r s' :
  steady fd P -> P s -> 0 <= rem < 2 ^ 31 -> rem <= Z.of_nat (length (ws_rx s fd)) ->
  net_recv_all_loop fuel fd got rem len s = (Some r, s') -> r.1 = len /\ P s'.
Proof.
  intros Hst. revert got rem s.
  induction fuel as [|fuel IH]; intros got rem s Hp Hr Hl E; cbn [net_recv_all_loop] in E; [by mret_eq|].
  destruct (Z.eqb_spec rem 0) as [->|E0]; [by mret_eq|]. rewrite int_len_ok in E by lia.
  apply M_bind_inv in E as (res & s1 & E1 & E). pose proof E1 as [Hp1 He]%Hst; [|lia|done].
  destruct res as [bs|e].
  - apply ws_recv_ok in E1 as (Hk & Hrx & Hz); [|lia].
    destruct (Z.eqb_spec (Z.of_nat (length bs)) 0) as [Hk0|Hk0].
    + destruct bs; [|done]. rewrite (Hz eq_refl) in Hl. simpl in Hl. lia.
    + rewrite Hrx, length_app in Hl. apply IH in E; [done|done|lia|lia].
  - rewrite (He e eq_refl) in E. apply ws_recv_err in E1 as [Hrx _]. rewrite <- Hrx in Hl. by apply IH in E.
Qed.

(** What is on the stream of such a connection is received in full. *)
Lemma net_recv_all_steady P fd len s bs rest :
  steady fd P -> P s -> ws_rx s fd = bs ++ rest -> len = Z.of_nat (length bs) -> len < 2 ^ 31 ->
  exists s', net_recv_all fd len s = ((len, bs), s') /\ P s' /\ rx_only fd s s' /\ ws_rx s' fd = rest.
Proof.
  intros Hst Hp Hrx -> Hb. destruct (net_recv_all fd _ s) as [[r got] s'] eqn:E. exists s'.
  pose proof E as (F & Hrx' & Hr)%net_recv_all_post; [|lia].
  unfold net_recv_all in E.
  edestruct (net_recv_all_loop_spec (loop_fuel fd (Z.of_nat (length bs)) s) fd [] (Z.of_nat (length bs))
    (Z.of_nat (length bs)) s) as (r' & bs' & s1 & E1 & _); [lia|lia|unfold loop_fuel; lia|].
  erewrite run_loop_some in E by exact E1. simplify_eq.
  apply (recv_loop_steady P) in E1 as [Hlen Hp1]; [|done|done|lia|rewrite Hrx, length_app; lia].
  simpl in Hlen. subst r. destruct Hr as [[_ Hl]|[? _]]; [|done].
  rewrite Hrx in Hrx'. apply app_inj_1 in Hrx' as [<- <-]; [done|lia].
Qed.

(** ** Lemmas: descriptors *)

(** [m] leaves the set of open descriptors as it is. *)
Definition keeps_open {A} (m : M S A) : Prop := forall s r s', m s = (r, s') -> ws_open s' = ws_open s.

Lemma keeps_open_ret {A} (a : A) : keeps_open (mret a).
Proof. intros s r s' E. by mret_eq. Qed.

Lemma keeps_open_bind {A B} (m : M S A) (k : A -> M S B) :
  keeps_open m -> (forall a, keeps_open (k a)) -> keeps_open (m ≫= k).
Proof. intros Hm Hk s r s'' (a & s' & E1 & E2)%M_bind_inv. by rewrite (Hk _ _ _ _ E2), (Hm _ _ _ E1). Qed.

Lemma keeps_open_setsockopt fd o : keeps_open (ws_setsockopt fd o).
Proof. intros s r s'. apply ws_setsockopt_open. Qed.

Lemma keeps_open_bind_call fd a p : keeps_open (ws_bind fd a p).
Proof. intros s r s'. apply ws_bind_open. Qed.

Lemma keeps_open_listen fd : keeps_open (ws_listen fd).
Proof. intros s r s'. apply ws_listen_open. Qed.

Lemma keeps_open_connect fd a p : keeps_open (ws_connect fd a p).
Proof. intros s r s'. apply ws_connect_open. Qed.

Lemma keeps_open_so_error fd : keeps_open (socket_get_error fd).
Proof. intros s r s'. apply ws_so_error_open. Qed.

Lemma keeps_open_host h : keeps_open (ws_gethostbyname h).
Proof. intros s r s'. apply ws_gethostbyname_open. Qed.

Lemma keeps_open_select set ms : keeps_open (socket_select set ms).
Proof. intros s r s' [_ Ho]%ws_select_frame. done. Qed.

Ltac keeps :=
  repeat first
    [ apply keeps_open_ret | apply keeps_open_setsockopt | apply keeps_open_bind_call
    | apply keeps_open_listen | apply keeps_open_connect | apply keeps_open_so_error
    | apply keeps_open_host | apply keeps_open_select
    | apply keeps_open_bind; [|intros ?] | case_match ].

Lemma keeps_open_nodelay fd b : keeps_open (socket_set_nodelay fd b).
Proof. unfold socket_set_nodelay. keeps. Qed.

Lemma keeps_open_reuseaddr fd b : keeps_open (socket_set_reuseaddr fd b).
Proof. unfold socket_set_reuseaddr. keeps. Qed.

Lemma keeps_open_nonblocking fd b : keeps_open (socket_set_nonblocking fd b).
Proof. unfold socket_set_nonblocking. keeps. Qed.

Lemma keeps_open_resolve h : keeps_open (resolve h).
Proof. unfold resolve. keeps. Qed.

Lemma keeps_open_connect_wait fd ms : keeps_open (connect_wait fd ms).
Proof. unfold connect_wait. keeps. Qed.

(** [m] ends with the new descriptor [sock] returned, or with it closed. *)
Definition returns_or_closes (sock : Z) (o : gset Z) (m : M S Z) : Prop :=
  forall s fd s', ws_open s = {[sock]} ∪ o -> m s = (fd, s') ->
  fd = sock /\ ws_open s' = {[sock]} ∪ o \/ fd = INVALID_SOCKET_VAL /\ ws_open s' = o.

Lemma returns_sock sock o : returns_or_closes sock o (mret sock).
Proof. intros s fd s' Ho E. mret_eq. by left. Qed.

Lemma closes_sock sock o :
  sock ∉ o -> returns_or_closes sock o (ws_closesocket sock ;; mret INVALID_SOCKET_VAL).
Proof.
  intros Hn s fd s'' Ho ([] & s' & E1 & E2)%M_bind_inv. mret_eq. right.
  split; [done|]. rewrite (ws_closesocket_open _ _ _ E1), Ho. set_solver.
Qed.

Lemma returns_or_closes_bind {A} sock o (m : M S A) k :
  keeps_open m -> (forall a, returns_or_closes sock o (k a)) -> returns_or_closes sock o (m ≫= k).
Proof.
  intros Hm Hk s fd s'' Ho (a & s' & E1 & E2)%M_bind_inv.
  eapply Hk; [|exact E2]. by rewrite (Hm _ _ _ E1).
Qed.

Lemma socket_then t k s fd s' :
  (ws_socket t ≫= fun sock =>
     if sock =? INVALID_SOCKET_VAL then mret INVALID_SOCKET_VAL else k sock) s = (fd, s') ->
  (forall sock, sock ∉ ws_open s -> returns_or_closes sock (ws_open s) (k sock)) ->
  (fd = INVALID_SOCKET_VAL /\ ws_open s' = ws_open s) \/
  (fd <> INVALID_SOCKET_VAL /\ fd ∉ ws_open s /\ ws_open s' = {[fd]} ∪ ws_open s).
Proof.
  intros (sock & s1 & E1 & E2)%M_bind_inv Hk.
  pose proof (ws_socket_open _ _ _ _ E1) as Ho.
  destruct (sock =? INVALID_SOCKET_VAL) eqn:Es; [mret_eq; by left|]. apply Z.eqb_neq in Es.
  destruct Ho as [Ho Hn]. destruct (Hk sock Hn _ _ _ Ho E2) as [[-> ?]|[-> ?]]; [by right|by left].
Qed.

Ltac closes_or_returns :=
  repeat first
    [ apply returns_sock | apply closes_sock; assumption
    | apply returns_or_closes_bind;
        [first [apply keeps_open_nodelay | apply keeps_open_reuseaddr
               | apply keeps_open_nonblocking | apply keeps_open_resolve
               | solve [keeps; try apply keeps_open_connect_wait] ]|intros ?]
    | case_match ].

Lemma timeout_connect_open host port timeout_ms s fd s' :
  tcp_client_connect_timeout host port timeout_ms s = (fd, s') ->
  (fd = INVALID_SOCKET_VAL /\ ws_open s' = ws_open s) \/
  (fd <> INVALID_SOCKET_VAL /\ fd ∉ ws_open s /\ ws_open s' = {[fd]} ∪ ws_open s).
Proof. intros E. apply socket_then in E; [exact E|]. intros sock Hn. closes_or_returns. Qed.

Lemma keeps_open_send_loop fuel fd buf rem len : keeps_open (net_send_all_loop fuel fd buf rem len).
Proof.
  revert buf rem. induction fuel as [|fuel IH]; intros buf rem; cbn [net_send_all_loop];
    [apply keeps_open_ret|].
  destruct (rem =? 0); [apply keeps_open_ret|]. apply keeps_open_bind.
  { by intros s r s' (_ & _ & _ & Ho)%ws_send_frame. }
  intros [k|e]; [destruct (k =? 0)|destruct (e =? WSAEWOULDBLOCK)]; apply keeps_open_ret || apply IH.
Qed.

Lemma keeps_open_recv_loop fuel fd got rem len : keeps_open (net_recv_all_loop fuel fd got rem len).
Proof.
  revert got rem. induction fuel as [|fuel IH]; intros got rem; cbn [net_recv_all_loop];
    [apply keeps_open_ret|].
  destruct (rem =? 0); [apply keeps_open_ret|]. apply keeps_open_bind.
  { by intros s r s' (_ & _ & _ & Ho)%ws_recv_frame. }
  intros [bs|e]; [destruct (_ =? 0)|destruct (e =? WSAEWOULDBLOCK)]; apply keeps_open_ret || apply IH.
Qed.

Lemma keeps_open_run {A} (d : A) fd rem loop :
  (forall fuel, keeps_open (loop fuel)) -> keeps_open (run_loop d fd rem loop).
Proof.
  intros Hl s r s' E. unfold run_loop in E. destruct (loop _ s) as [x s1] eqn:E1. simplify_eq.
  by eapply Hl.
Qed.

Lemma keeps_open_send_all fd buf len : keeps_open (net_send_all fd buf len).
Proof. apply keeps_open_run. intros. apply keeps_open_send_loop. Qed.

Lemma keeps_open_recv_all fd len : keeps_open (net_recv_all fd len).
Proof. apply keeps_open_run. intros. apply keeps_open_recv_loop. Qed.

Lemma keeps_open_tick : keeps_open ws_GetTickCount.
Proof. by intros s r s' [_ Ho]%ws_tick_frame. Qed.

Lemma keeps_open_recv_timeout_loop fuel fd got rem len ms start :
  keeps_open (net_recv_all_timeout_loop fuel fd got rem len ms start).
Proof.
  revert got rem. induction fuel as [|fuel IH]; intros got rem; cbn [net_recv_all_timeout_loop];
    [apply keeps_open_ret|].
  destruct (rem =? 0); [apply keeps_open_ret|].
  apply keeps_open_bind; [apply keeps_open_tick|]. intros now. cbv zeta.
  destruct (ms <=? _); [apply keeps_open_ret|].
  apply keeps_open_bind; [apply keeps_open_select|]. intros [result set].
  destruct (result <=? 0); [apply keeps_open_ret|]. apply keeps_open_bind.
  { by intros s r s' (_ & _ & _ & Ho)%ws_recv_frame. }
  intros [bs|e]; [destruct (_ =? 0)|destruct (e =? WSAEWOULDBLOCK)]; apply keeps_open_ret || apply IH.
Qed.

Lemma keeps_open_recv_all_timeout fd len ms : keeps_open (net_recv_all_timeout fd len ms).
Proof.
  apply keeps_open_bind; [apply keeps_open_tick|]. intros start. apply keeps_open_run. intros.
  apply keeps_open_recv_timeout_loop.
Qed.

Lemma close_open fd s s' :
  socket_is_valid fd = true -> socket_close fd s = (tt, s') -> ws_open s' = ws_open s ∖ {[fd]}.
Proof.
  unfold socket_is_valid, socket_close. intros Hv E. rewrite Hv in E.
  apply M_bind_inv in E as ([] & n1 & E1 & E). apply ws_shutdown_open in E1.
  apply ws_closesocket_open in E. by rewrite E, E1.
Qed.

Lemma connect_open host port ms s fd s' :
  tcp_client_connect_timeout host port ms s = (fd, s') ->
  (fd = INVALID_SOCKET_VAL /\ ws_open s' = ws_open s) \/
  (socket_is_valid fd = true /\ fd ∉ ws_open s /\ ws_open s' = {[fd]} ∪ ws_open s).
Proof.
  unfold socket_is_valid. intros [?|(? & ? & ?)]%timeout_connect_open; [by left|right].
  split; [by apply negb_true_iff, Z.eqb_neq|done].
Qed.

Lemma create_open bind_addr port s fd s' :
  tcp_server_create bind_addr port s = (fd, s') ->
  (fd = INVALID_SOCKET_VAL /\ ws_open s' = ws_open s) \/
  (socket_is_valid fd = true /\ fd ∉ ws_open s /\ ws_open s' = {[fd]} ∪ ws_open s).
Proof.
  intros E. apply socket_then in E as [?|(Hv & ? & ?)]; [by left| |intros sock Hn; closes_or_returns].
  right. unfold socket_is_valid. split; [by apply negb_true_iff, Z.eqb_neq|done].
Qed.

(** What is accepted is a new descriptor. *)
Lemma accept_open fd ip_len ms s sock peer s' :
  tcp_server_accept_timeout fd ip_len ms s = ((sock, peer), s') ->
  (socket_is_valid sock = false /\ ws_open s' = ws_open s) \/
  (socket_is_valid sock = true /\ sock ∉ ws_open s /\ ws_open s' = {[sock]} ∪ ws_open s).
Proof.
  intros ([k set] & s1 & E1%keeps_open_select & E)%M_bind_inv.
  destruct (k <=? 0); [mret_eq; by left|]. destruct (socket_is_readable _ _); [|mret_eq; by left].
  apply M_bind_inv in E as (r & s2 & E2%ws_accept_open & E). rewrite E1 in E2.
  destruct r as [[client [a p]]|e]; [|mret_eq; by left]. destruct E2 as (Hv & Ho & Hn).
  pose proof Hv as Hv'. apply Z.eqb_neq in Hv'. rewrite Hv' in E.
  apply M_bind_inv in E as (x & s3 & E3%keeps_open_nodelay & E). mret_eq. right.
  unfold socket_is_valid. rewrite Hv', E3. done.
Qed.

(** ** Lemmas: fuel *)

Lemma net_send_all_loop_mono fuel fuel' fd buf rem len s r s' :
  (fuel <= fuel')%nat ->
  net_send_all_loop fuel fd buf rem len s = (Some r, s') ->
  net_send_all_loop fuel' fd buf rem len s = (Some r, s').
Proof.
  revert fuel' buf rem s. induction fuel as [|fuel IH]; intros fuel' buf rem s Hf; [done|].
  destruct fuel' as [|fuel']; [lia|]. simpl. destruct (rem =? 0); [done|].
  mrun res s1 E. rewrite (M_bind_run _ _ _ _ _ E).
  destruct res as [k|e]; case_match; try done; apply IH; lia.
Qed.

Lemma net_recv_all_loop_mono fuel fuel' fd got rem len s r s' :
  (fuel <= fuel')%nat ->
  net_recv_all_loop fuel fd got rem len s = (Some r, s') ->
  net_recv_all_loop fuel' fd got rem len s = (Some r, s').
Proof.
  revert fuel' got rem s. induction fuel as [|fuel IH]; intros fuel' got rem s Hf; [done|].
  destruct fuel' as [|fuel']; [lia|]. simpl. destruct (rem =? 0); [done|].
  mrun res s1 E. rewrite (M_bind_run _ _ _ _ _ E).
  destruct res as [k|e]; case_match; try done; apply IH; lia.
Qed.

(** ** Properties *)



(** the functions that create a socket leak no descriptor: each returns
    either a new open descriptor, or [INVALID_SOCKET_VAL] with every descriptor
    it created closed, whichever call in between failed. *)
Theorem sockets_not_leaked s fd s' bind_addr host port timeout_ms :
  tcp_server_create bind_addr port s = (fd, s') \/
  tcp_client_connect host port s = (fd, s') \/
  tcp_client_connect_timeout host port timeout_ms s = (fd, s') ->
  (fd = INVALID_SOCKET_VAL /\ ws_open s' = ws_open s) \/
  (fd <> INVALID_SOCKET_VAL /\ fd ∉ ws_open s /\ ws_open s' = {[fd]} ∪ ws_open s).
Proof.
  intros [E|[E|E]]; apply socket_then in E; try exact E; intros sock Hn; closes_or_returns.
Qed.
End laws.

(** ** A concrete network

    An executable instance of [Winsock]: each descriptor has the stream its peer
    sends, and a list that paces the calls on it (0: would block; [k]: at most
    [k] bytes at a time).  It shows that the laws can hold, and the witnesses of
    the components run on it. *)
Module Sim.

Record conn := {
  c_in : bytes;
  c_pace : list nat;
}.

Record net := {
  n_conns : gmap Z conn;
  n_sent : gmap Z bytes;
  n_backlog : list (conn * (Z * Z));
  n_peers : list conn;
  n_datagrams : list (bytes * (Z * Z));
  n_next : Z;
  n_clock : Z;
}.

Definition set_conn (fd : Z) (c : conn) (s : net) : net := {|
  n_conns := <[fd := c]> (n_conns s); n_sent := n_sent s; n_backlog := n_backlog s;
  n_peers := n_peers s; n_datagrams := n_datagrams s; n_next := n_next s; n_clock := n_clock s |}.

Definition close (fd : Z) (s : net) : net := {|
  n_conns := delete fd (n_conns s); n_sent := n_sent s; n_backlog := n_backlog s;
  n_peers := n_peers s; n_datagrams := n_datagrams s; n_next := n_next s; n_clock := n_clock s |}.

Definition rx (s : net) (fd : Z) : bytes := default [] (c_in <$> n_conns s !! fd).
Definition tx (s : net) (fd : Z) : bytes := default [] (n_sent s !! fd).
Definition patience (s : net) (fd : Z) : nat := default 0%nat (length ∘ c_pace <$> n_conns s !! fd).

Definition log_sent (fd : Z) (bs : bytes) (s : net) : net := {|
  n_conns := n_conns s; n_sent := <[fd := tx s fd ++ bs]> (n_sent s); n_backlog := n_backlog s;
  n_peers := n_peers s; n_datagrams := n_datagrams s; n_next := n_next s; n_clock := n_clock s |}.

Definition WSAENOTSOCK : Z := 10038.
Definition WSAEFAULT : Z := 10014.

Definition recv (fd n : Z) : M net (sock_res bytes) := fun s =>
  match n_conns s !! fd with
  | None => (SockErr WSAENOTSOCK, s)
  | Some c =>
      if n <=? 0 then (SockErr WSAEFAULT, s) else
      match c_pace c with
      | O :: p => (SockErr WSAEWOULDBLOCK, set_conn fd {| c_in := c_in c; c_pace := p |} s)
      | p =>
          let k := Nat.min (default (length (c_in c)) (head p)) (Z.to_nat n) in
          (SockOk (take k (c_in c)),
           set_conn fd {| c_in := drop k (c_in c); c_pace := tail p |} s)
      end
  end.

Definition send (fd : Z) (buf : bytes) (n : Z) : M net (sock_res Z) := fun s =>
  match n_conns s !! fd with
  | None => (SockErr WSAENOTSOCK, s)
  | Some c =>
      if n <=? 0 then (SockErr WSAEFAULT, s) else
      match c_pace c with
      | O :: p => (SockErr WSAEWOULDBLOCK, set_conn fd {| c_in := c_in c; c_pace := p |} s)
      | p =>
          let k := Nat.min (default (Z.to_nat n) (head p)) (Z.to_nat n) in
          (SockOk (Z.of_nat k),
           log_sent fd (take k buf) (set_conn fd {| c_in := c_in c; c_pace := tail p |} s))
      end
  end.

Definition open_conn (c : conn) : M net Z := fun s =>
  let fd := n_next s in
  if bool_decide (fd ∈ dom (n_conns s)) || (fd =? INVALID_SOCKET_VAL)
  then (INVALID_SOCKET_VAL, s)
  else (fd, {| n_conns := <[fd := c]> (n_conns s); n_sent := n_sent s;
               n_backlog := n_backlog s; n_peers := n_peers s; n_datagrams := n_datagrams s;
               n_next := fd + 1; n_clock := n_clock s |}).

Definition accept (fd : Z) : M net (sock_res (Z * (Z * Z))) := fun s =>
  match n_backlog s with
  | [] => (SockErr WSAEWOULDBLOCK, s)
  | (c, a) :: b =>
      let '(fd', s') := open_conn c s in
      if fd' =? INVALID_SOCKET_VAL then (SockErr WSAENOTSOCK, s) else
      (SockOk (fd', a), {| n_conns := n_conns s'; n_sent := n_sent s'; n_backlog := b;
                           n_peers := n_peers s'; n_datagrams := n_datagrams s';
                           n_next := n_next s'; n_clock := n_clock s' |})
  end.

Definition connect (fd addr port : Z) : M net (sock_res unit) := fun s =>
  match n_peers s, n_conns s !! fd with
  | c :: ps, Some _ =>
      (SockOk tt, {| n_conns := <[fd := c]> (n_conns s); n_sent := n_sent s;
                     n_backlog := n_backlog s; n_peers := ps; n_datagrams := n_datagrams s;
                     n_next := n_next s; n_clock := n_clock s |})
  | _, _ => (SockErr WSAENOTSOCK, s)
  end.

Definition recvfrom (fd n : Z) : M net (sock_res (bytes * (Z * Z))) := fun s =>
  match n_datagrams s with
  | [] => (SockErr WSAEWOULDBLOCK, s)
  | (bs, a) :: ds =>
      (SockOk (take (Z.to_nat n) bs, a),
       {| n_conns := n_conns s; n_sent := n_sent s; n_backlog := n_backlog s;
          n_peers := n_peers s; n_datagrams := ds; n_next := n_next s; n_clock := n_clock s |})
  end.

Definition tick : M net Z := fun s =>
  (n_clock s, {| n_conns := n_conns s; n_sent := n_sent s; n_backlog := n_backlog s;
                 n_peers := n_peers s; n_datagrams := n_datagrams s; n_next := n_next s;
                 n_clock := n_clock s + 1 |}).

(** ["10.0.0.1"] *)
Definition addr_text : bytes := [49; 48; 46; 48; 46; 48; 46; 49].

#[global] Instance winsock : Winsock net := {|
  ws_socket _ := open_conn {| c_in := []; c_pace := [] |};
  ws_bind _ _ _ := mret true;
  ws_listen _ := mret true;
  ws_accept := accept;
  ws_connect := connect;
  ws_send := send;
  ws_recv := recv;
  ws_sendto fd buf n _ _ s := (SockOk n, log_sent fd (take (Z.to_nat n) buf) s);
  ws_recvfrom := recvfrom;
  ws_select set _ := mret (Z.of_nat (length (read_fds set) + length (write_fds set)), set);
  ws_setsockopt _ _ := mret true;
  ws_so_error _ := mret 0;
  ws_shutdown _ := mret tt;
  ws_closesocket fd s := (tt, close fd s);
  ws_GetTickCount := tick;
  ws_gethostbyname h := mret (match h with [] => None | _ => Some 0x0100000A end);
  ws_inet_addr _ := INADDR_NONE;
  ws_inet_ntoa _ := addr_text;
  ws_patience := patience |}.

Lemma rx_set_conn s fd c fd' :
  rx (set_conn fd c s) fd' = if decide (fd = fd') then c_in c else rx s fd'.
Proof. unfold rx. simpl. destruct (decide _) as [->|]; by simplify_map_eq. Qed.

Lemma tx_log_sent s fd bs fd' :
  tx (log_sent fd bs s) fd' = if decide (fd = fd') then tx s fd ++ bs else tx s fd'.
Proof. unfold tx. simpl. destruct (decide _) as [->|]; by simplify_map_eq. Qed.

Lemma patience_set_conn s fd c : patience (set_conn fd c s) fd = length (c_pace c).
Proof. unfold patience. simpl. by simplify_map_eq. Qed.

Lemma open_set_conn s fd c c' :
  n_conns s !! fd = Some c' -> dom (n_conns (set_conn fd c s)) = dom (n_conns s).
Proof. intros E. simpl. rewrite dom_insert_L. apply elem_of_dom_2 in E. set_solver. Qed.

Lemma open_conn_open c s fd s' :
  open_conn c s = (fd, s') ->
  if fd =? INVALID_SOCKET_VAL then dom (n_conns s') = dom (n_conns s)
  else dom (n_conns s') = {[fd]} ∪ dom (n_conns s) /\ fd ∉ dom (n_conns s).
Proof.
  unfold open_conn. intros E. destruct (bool_decide _) eqn:Hd; simplify_eq/=; [done|].
  destruct (n_next s =? INVALID_SOCKET_VAL) eqn:Hi; simplify_eq/=; [done|].
  rewrite Hi. bool_to_prop. split; [apply dom_insert_L|done].
Qed.

(** The cases of a call on a descriptor: bad descriptor, bad length, would
    block, or progress. *)
Lemma recv_cases fd n s r s' :
  recv fd n s = (r, s') ->
  (s' = s /\ (r = SockErr WSAENOTSOCK \/ r = SockErr WSAEFAULT /\ n <= 0)) \/
  exists c, n_conns s !! fd = Some c /\ 0 < n /\
   ((exists p, c_pace c = O :: p /\ r = SockErr WSAEWOULDBLOCK /\
       s' = set_conn fd {| c_in := c_in c; c_pace := p |} s) \/
    (exists k p, r = SockOk (take k (c_in c)) /\ (k <= Z.to_nat n)%nat /\
       (k = O -> c_in c = []) /\ (length p <= length (c_pace c))%nat /\
       s' = set_conn fd {| c_in := drop k (c_in c); c_pace := p |} s)).
Proof.
  unfold recv. destruct (n_conns s !! fd) as [c|]; [|intros; simplify_eq; by left; auto].
  destruct (Z.leb_spec n 0); [intros; simplify_eq; left; by auto|]. intros E.
  right. exists c. split; [done|]. split; [done|].
  destruct (c_pace c) as [|[|k] p] eqn:Ep; simplify_eq.
  - right. eexists _, []. split_and!; [done|cbn -[Nat.min]; lia| |done|done].
    cbn -[Nat.min]. intros Hk. destruct (c_in c); [done|]. cbn -[Nat.min] in Hk. lia.
  - left. by exists p.
  - right. eexists _, p. split_and!; [done|cbn -[Nat.min]; lia..|done].
Qed.

Lemma send_cases fd buf n s r s' :
  send fd buf n s = (r, s') ->
  (s' = s /\ (r = SockErr WSAENOTSOCK \/ r = SockErr WSAEFAULT /\ n <= 0)) \/
  exists c, n_conns s !! fd = Some c /\ 0 < n /\
   ((exists p, c_pace c = O :: p /\ r = SockErr WSAEWOULDBLOCK /\
       s' = set_conn fd {| c_in := c_in c; c_pace := p |} s) \/
    (exists k p, r = SockOk (Z.of_nat k) /\ (0 < k <= Z.to_nat n)%nat /\
       (length p <= length (c_pace c))%nat /\
       s' = log_sent fd (take k buf) (set_conn fd {| c_in := c_in c; c_pace := p |} s))).
Proof.
  unfold send. destruct (n_conns s !! fd) as [c|]; [|intros; simplify_eq; by left; auto].
  destruct (Z.leb_spec n 0); [intros; simplify_eq; left; by auto|]. intros E.
  right. exists c. split; [done|]. split; [done|].
  destruct (c_pace c) as [|[|k] p] eqn:Ep; simplify_eq.
  - right. eexists _, []. split_and!; [done|cbn -[Nat.min]; lia..|done].
  - left. by exists p.
  - right. eexists _, p. split_and!; [done|cbn -[Nat.min]; lia..|done].
Qed.

Lemma rx_conn s fd c : n_conns s !! fd = Some c -> rx s fd = c_in c.
Proof. unfold rx. by intros ->. Qed.

Lemma patience_conn s fd c : n_conns s !! fd = Some c -> patience s fd = length (c_pace c).
Proof. unfold patience. by intros ->. Qed.

Ltac conn_facts :=
  repeat match goal with
  | E : n_conns ?s !! ?fd = Some ?c |- context [rx ?s ?fd] => rewrite (rx_conn s fd c E)
  | E : n_conns ?s !! ?fd = Some ?c |- context [patience ?s ?fd] => rewrite (patience_conn s fd c E)
  end.

Ltac sim_simpl :=
  rewrite ?tx_log_sent, ?rx_set_conn, ?patience_set_conn, ?decide_True by done; simpl.

Lemma rx_log_sent s fd bs fd' : rx (log_sent fd bs s) fd' = rx s fd'.
Proof. done. Qed.

Lemma patience_log_sent s fd bs fd' : patience (log_sent fd bs s) fd' = patience s fd'.
Proof. done. Qed.

#[global] Program Instance winsock_laws : WinsockLaws net := {|
  ws_rx := rx; ws_tx := tx; ws_open s := dom (n_conns s) |}.
Next Obligation.
  intros fd n s bs s' Hn E. simpl in E.
  destruct (recv_cases _ _ _ _ _ E) as [(-> & [?|[? ?]])|(c & Ec & _ & [(p & Hp & ? & ->)|
    (k & p & ? & Hk & Hz & Hp & ->)])]; simplify_eq.
  sim_simpl. conn_facts. split_and!; [rewrite length_take; lia|by rewrite take_drop|].
  intros Ht. destruct k as [|k]; [auto|]. by destruct (c_in c).
Qed.
Next Obligation.
  intros fd n s e s' E. simpl in E.
  destruct (recv_cases _ _ _ _ _ E) as [(-> & [?|[? ?]])|(c & Ec & _ & [(p & Hp & ? & ->)|
    (k & p & ? & Hk & Hz & Hp & ->)])]; simplify_eq; [done..|].
  simpl. sim_simpl. conn_facts. rewrite Hp. simpl. split; [done|]. lia.
Qed.
Next Obligation.
  intros fd n s r s' E. simpl in E.
  destruct (recv_cases _ _ _ _ _ E) as [(-> & _)|(c & Ec & _ & [(p & Hp & ? & ->)|
    (k & p & ? & Hk & Hz & Hp & ->)])]; [done|..].
  all: split_and!; [intros; rewrite rx_set_conn, decide_False; done|done| |by eapply open_set_conn].
  all: simpl; sim_simpl; conn_facts; rewrite ?Hp; simpl; lia.
Qed.
Next Obligation.
  intros fd n s bs s' E. simpl in E.
  destruct (recv_cases _ _ _ _ _ E) as [(-> & [?|[? ?]])|(c & Ec & _ & [(p & Hp & ? & ->)|
    (k & p & ? & Hk & Hz & Hp & ->)])]; simplify_eq.
  sim_simpl. conn_facts. by rewrite take_drop.
Qed.
Next Obligation.
  intros fd buf n s k s' Hn E. simpl in E.
  destruct (send_cases _ _ _ _ _ _ E) as [(-> & [?|[? ?]])|(c & Ec & _ & [(p & Hp & ? & ->)|
    (k' & p & ? & Hk & Hp & ->)])]; simplify_eq.
  sim_simpl. rewrite Nat2Z.id. split_and!; [lia..|done|lia].
Qed.
Next Obligation.
  intros fd buf n s e s' E. simpl in E.
  destruct (send_cases _ _ _ _ _ _ E) as [(-> & [?|[? ?]])|(c & Ec & _ & [(p & Hp & ? & ->)|
    (k & p & ? & Hk & Hp & ->)])]; simplify_eq; [done..|].
  simpl. sim_simpl. conn_facts. rewrite Hp. simpl. split; [done|]. lia.
Qed.
Next Obligation.
  intros fd buf n s r s' E. simpl in E.
  destruct (send_cases _ _ _ _ _ _ E) as [(-> & _)|(c & Ec & _ & [(p & Hp & ? & ->)|
    (k & p & ? & Hk & Hp & ->)])]; [done|..].
  - split_and!; [done| | |by eapply open_set_conn].
    + intros fd'. rewrite rx_set_conn. destruct (decide _) as [<-|]; [|done]. by conn_facts.
    + simpl. sim_simpl. conn_facts. rewrite Hp. simpl. lia.
  - split_and!; [intros; by rewrite tx_log_sent, decide_False| | |by eapply open_set_conn].
    + intros fd'. rewrite rx_log_sent, rx_set_conn.
      destruct (decide _) as [<-|]; [|done]. by conn_facts.
    + simpl. rewrite patience_log_sent. sim_simpl. by conn_facts.
Qed.
Next Obligation. intros set tv s r s' E. simpl in *. by mret_eq. Qed.
Next Obligation. intros s r s' E. simpl in *. unfold tick in E. by simplify_eq. Qed.
Next Obligation. intros t s fd s' E. by apply open_conn_open in E. Qed.
Next Obligation.
  intros fd s r s' E. simpl in E. unfold accept in E.
  destruct (n_backlog s) as [|[c a] b]; simplify_eq; [done|].
  destruct (open_conn c s) as [fd' s1] eqn:Eo. apply open_conn_open in Eo.
  destruct (Z.eqb_spec fd' INVALID_SOCKET_VAL); simplify_eq; [done|]. simpl. naive_solver.
Qed.
Next Obligation. intros fd s s' E. simpl in *. simplify_eq/=. apply dom_delete_L. Qed.
Next Obligation. intros fd s s' E. simpl in *. by mret_eq. Qed.
Next Obligation. intros fd a p s r s' E. simpl in *. by mret_eq. Qed.
Next Obligation. intros fd s r s' E. simpl in *. by mret_eq. Qed.
Next Obligation.
  intros fd a p s r s' E. simpl in *. unfold connect in E.
  destruct (n_peers s), (n_conns s !! fd) eqn:Ec; simplify_eq/=; try done.
  rewrite dom_insert_L. apply elem_of_dom_2 in Ec. set_solver.
Qed.
Next Obligation. intros fd o s r s' E. simpl in *. by mret_eq. Qed.
Next Obligation. intros fd s r s' E. simpl in *. by mret_eq. Qed.
Next Obligation. intros h s r s' E. simpl in *. by mret_eq. Qed.
Next Obligation. intros fd buf n a p s r s' E. simpl in *. by simplify_eq/=. Qed.
Next Obligation.
  intros fd n s r s' E. simpl in *. unfold recvfrom in E. destruct (n_datagrams s) as [|[]]; by simplify_eq/=.
Qed.

(** A connection that exists stays up. *)
Definition up (fd : Z) (s : net) : Prop := is_Some (n_conns s !! fd).

Lemma up_steady fd : steady fd (up fd).
Proof.
  intros n s r s' Hn [c Hc] E. simpl in E. unfold recv in E. rewrite Hc in E.
  rewrite (proj2 (Z.leb_gt n 0) Hn) in E.
  destruct (c_pace c) as [|[|k] p]; simplify_eq/=; (split; [|by intros ? [=]]);
    unfold up, set_conn; cbn [n_conns]; by rewrite lookup_insert_eq.
Qed.

Lemma up_steady_tx fd : steady_tx fd (up fd).
Proof.
  intros buf n s r s' Hn [c Hc] E. simpl in E. unfold send in E. rewrite Hc in E.
  rewrite (proj2 (Z.leb_gt n 0)) in E by lia. destruct (Z.to_nat n) as [|j] eqn:Ej; [lia|].
  destruct (c_pace c) as [|[|k] p]; simplify_eq/=;
    (split; [unfold up, set_conn, log_sent; cbn [n_conns]; by rewrite lookup_insert_eq|]); done || lia.
Qed.

(** A network with one connection [fd] whose peer sends [inp]. *)
Definition one (fd : Z) (inp : bytes) (pace : list nat) : net := {|
  n_conns := {[ fd := {| c_in := inp; c_pace := pace |} ]}; n_sent := ∅; n_backlog := [];
  n_peers := []; n_datagrams := []; n_next := fd + 1; n_clock := 0 |}.
End Sim.

(** ** Witnesses *)

Definition paced_net : Sim.net := Sim.one 5 [1; 2; 3; 4; 5] [0; 3; 0]%nat.



(** On this network both transfers complete although three calls make no
    progress or little. *)
Example paced_transfers :
  (net_recv_all 5 4 paced_net).1 = (4, [1; 2; 3; 4]) /\
  (net_send_all 5 [6; 7; 8; 9] 4 paced_net).1 = 4.
Proof. by vm_compute. Qed.

Lemma sockets_not_leaked_witness :
  let '(fd, s') := tcp_client_connect_timeout [] 3240 1000 (Sim.one 5 [] []) in
  (fd = INVALID_SOCKET_VAL /\ ws_open s' = ws_open (Sim.one 5 [] [])) \/
  (fd <> INVALID_SOCKET_VAL /\ fd ∉ ws_open (Sim.one 5 [] []) /\ ws_open s' = {[fd]} ∪ ws_open (Sim.one 5 [] [])).
Proof.
  apply (sockets_not_leaked (Sim.one 5 [] []) _ _ NULL [] 3240 1000).
  right. right. reflexivity.
Defined.
