(* ===== verification/NetQuery.v ===== *)
(** * Questions about a socket ([common/network_win32.c])

    Whether a socket is connected, and its two addresses: functions of the network layer
    that nothing calls.  They use three more Winsock calls, a class of their own. *)

From S2P Require Import Prelude CTypes Format Errors Net.

(** [recv] with [MSG_PEEK]; the address and the port, in network order, of each end. *)
Class WinsockQueries (S : Type) := {
  ws_peek : Z -> Z -> M S (sock_res bytes);
  ws_getsockname : Z -> M S (option (Z * Z));
  ws_getpeername : Z -> M S (option (Z * Z));
}.

(** Peeking is receiving without taking: the bytes stay on the stream, and there are none
    only when the peer has closed.  The questions move no data. *)
Class WinsockQueriesLaws (S : Type) `{WinsockLaws S, WinsockQueries S} := {
  ws_peek_ok fd n s bs s' : 0 < n ->
    ws_peek fd n s = (SockOk bs, s') ->
    Z.of_nat (length bs) <= n /\ (exists rest, ws_rx s fd = bs ++ rest) /\ (bs = [] -> ws_rx s fd = []);
  ws_peek_frame fd n s r s' :
    ws_peek fd n s = (r, s') ->
    (forall fd', ws_rx s' fd' = ws_rx s fd' /\ ws_tx s' fd' = ws_tx s fd') /\ ws_open s' = ws_open s;
}.

Section queries.
  Context {S : Type} `{Winsock S, WinsockQueries S}.

Definition socket_is_connected (fd : Z) : M S bool :=
  result ← ws_peek fd 1;
  mret (match result with
        | SockErr err => err =? WSAEWOULDBLOCK
        | SockOk bs => Z.of_nat (length bs) >=? 0
        end).

(** The result, the text stored in [addr] when there is one, and [*port]. *)
Definition name_of (sa : option (Z * Z)) (addr_len : option nat) : error_code * option bytes * option Z :=
  match sa with
  | None => (ERR_SOCKET_OPTION, None, None)
  | Some (a, p) =>
      (ERR_SUCCESS,
       match addr_len with
       | Some n => if (0 <? n)%nat then Some (copy_ip (ws_inet_ntoa a) n) else None
       | None => None
       end, Some (ntohs p))
  end.

(** [addr_len] is [None] when [addr] is NULL. *)
Definition socket_get_local_addr (fd : Z) (addr_len : option nat) :
    M S (error_code * option bytes * option Z) :=
  sa ← ws_getsockname fd; mret (name_of sa addr_len).

Definition socket_get_peer_addr (fd : Z) (addr_len : option nat) :
    M S (error_code * option bytes * option Z) :=
  sa ← ws_getpeername fd; mret (name_of sa addr_len).

Definition ip_to_string (ip : Z) : bytes := ws_inet_ntoa ip.
Definition string_to_ip (ip_str : bytes) : Z := ws_inet_addr ip_str.
End queries.

(** ** What they answer *)

Section laws.
  Context {S : Type} `{WinsockQueriesLaws S}.

(** A socket counts as connected unless peeking at it fails with an error other than
    [WSAEWOULDBLOCK]: when the peer has closed and everything is read, peeking succeeds
    with nothing, and the answer is still yes.  The question takes nothing from the
    stream. *)
Theorem is_connected_after_close fd s r s' :
  socket_is_connected fd s = (r, s') ->
  (forall fd', ws_rx s' fd' = ws_rx s fd') /\ ws_open s' = ws_open s /\
  (r = false <-> exists e, (ws_peek fd 1 s).1 = SockErr e /\ e <> WSAEWOULDBLOCK) /\
  ((ws_peek fd 1 s).1 = SockOk [] -> ws_rx s fd = [] /\ r = true).
Proof.
  intros E. unfold socket_is_connected in E. apply M_bind_inv in E as (x & s1 & E1 & E). mret_eq. rewrite E1.
  destruct (ws_peek_frame _ _ _ _ _ E1) as [Hf Ho]. split; [intros fd'; apply Hf|]. split; [done|].
  destruct x as [bs|e]; simpl.
  - assert ((Z.of_nat (length bs) >=? 0) = true) as -> by (apply Z.geb_le; lia). split; [split; [done|by intros (e & [=] & _)]|].
    intros [= ->]. split; [|done]. by apply (ws_peek_ok fd 1 s [] s' ltac:(lia) E1).
  - split; [|done]. rewrite Z.eqb_neq. split; [by exists e|]. by intros (e' & [= <-] & ?).
Qed.

(** An address that is reported fits its buffer, and nothing is stored on failure. *)
Theorem socket_addr_bounds fd n s e addr port s' :
  socket_get_peer_addr fd (Some n) s = ((e, addr, port), s') ->
  (e = ERR_SUCCESS \/ e = ERR_SOCKET_OPTION /\ addr = None /\ port = None) /\
  forall a, addr = Some a -> (length a < n)%nat /\ no_nul a.
Proof.
  intros E. unfold socket_get_peer_addr in E. apply M_bind_inv in E as (sa & s1 & E1 & E).
  unfold mret, M_ret in E. injection E as E <-. unfold name_of in E. destruct sa as [[a p]|]; simplify_eq; [|split; [by right|done]].
  split; [by left|]. intros b Eb. destruct (Nat.ltb_spec 0 n); simplify_eq.
  split; [by apply copy_str_short|]. unfold copy_ip. apply Forall_take, cstr_no_nul.
Qed.
End laws.

(** ** An instance *)

Module SimQueries.
Import Sim.

(** What [recv] would return, without its effect on the stream. *)
#[export] Instance queries : WinsockQueries net := {|
  ws_peek fd n s := ((recv fd n s).1, s);
  ws_getsockname fd := mret (Some (0, 3240));
  ws_getpeername fd := mret (Some (0, 50000)) |}.

#[export] Instance queries_laws : WinsockQueriesLaws net.
Proof.
  split.
  - intros fd n s bs s' Hn E. simpl in E. change recv with (ws_recv (S := net)) in E. destruct (ws_recv fd n s) as [r s1] eqn:Er. simpl in E. simplify_eq.
    destruct (ws_recv_ok fd n s' bs s1 Hn Er) as (? & ? & ?). split; [done|]. split; [by eexists|done].
  - intros fd n s r s' E. simpl in E. by simplify_eq.
Qed.
End SimQueries.
Import SimQueries.

(** The peer has sent a byte and closed: the socket counts as connected before and after
    the byte is read. *)
Example connected_at_end :
  (socket_is_connected 5 (Sim.one 5 [65] [])).1 = true /\ (socket_is_connected 5 (Sim.one 5 [] [])).1 = true /\
  (socket_is_connected 6 (Sim.one 5 [] [])).1 = false.
Proof. by vm_compute. Qed.
