(* ===== verification/NetAddr.v ===== *)
(** * Network addresses ([common/network_win32.c])

    The functions that ask the system for the machine's own addresses and turn
    addresses into text.  An IPv4 address is the value of [s_addr], a [uint32_t]
    whose object representation is the address in network order.  What the system
    answers is an argument: the outcome of each call ([adapters_answer]), the
    adapters it lists, and the conversions [inet_ntop], [inet_pton]. *)

From Stdlib Require Import String.
From S2P Require Import Prelude CTypes Format Errors Net.

Definition NO_ERROR : Z := 0.
Definition ERROR_BUFFER_OVERFLOW : Z := 111.

Record unicast_address := {
  ua_addr : Z;
  ua_prefix : Z;   (* OnLinkPrefixLength, a UINT8 *)
}.

Record adapter_addresses := {
  aa_up : bool;         (* OperStatus == IfOperStatusUp *)
  aa_loopback : bool;   (* IfType == IF_TYPE_SOFTWARE_LOOPBACK *)
  aa_unicast : list unicast_address;
}.

(** The two [malloc]s, the two calls of [GetAdaptersAddresses], and the list the
    last of them stores. *)
Record adapters_answer := {
  an_malloc1 : bool;
  an_rc1 : Z;
  an_malloc2 : bool;
  an_rc2 : Z;
  an_adapters : list adapter_addresses;
}.

Inductive adapters_result :=
  | AR_no_memory
  | AR_failed
  | AR_list (l : list adapter_addresses).

(** Both functions begin with these lines. *)
Definition get_adapters (an : adapters_answer) : adapters_result :=
  return_if negb (an_malloc1 an) with AR_no_memory ;;
  return_if (an_rc1 an =? ERROR_BUFFER_OVERFLOW) && negb (an_malloc2 an) with AR_no_memory ;;
  let rc := if an_rc1 an =? ERROR_BUFFER_OVERFLOW then an_rc2 an else an_rc1 an in
  return_if negb (rc =? NO_ERROR) with AR_failed ;;
  AR_list (an_adapters an).

Definition adapter_skipped (a : adapter_addresses) : bool := negb (aa_up a) || aa_loopback a.

Definition limited_broadcast : bytes := str "255.255.255.255".

Section addresses.
  (** [inet_ntop(AF_INET, &addr, buf, size)]: the text, or [NULL] when it does not
      fit; [inet_pton]: whether the text is an address; [undef]: the value of the
      shift by 32, which C leaves undefined. *)
  Context (inet_ntop : Z -> nat -> option bytes) (inet_pton : bytes -> bool) (undef : Z).

(** The first conversion that succeeds, in the order of the two loops. *)
Fixpoint first_unicast (f : unicast_address -> Z) (len : nat) (us : list unicast_address) :
    option bytes :=
  match us with
  | [] => None
  | u :: us =>
      match inet_ntop (f u) len with
      | Some s => Some s
      | None => first_unicast f len us
      end
  end.

Fixpoint first_adapter (f : unicast_address -> Z) (len : nat) (l : list adapter_addresses) :
    option bytes :=
  match l with
  | [] => None
  | a :: l =>
      return_if adapter_skipped a with first_adapter f len l ;;
      match first_unicast f len (aa_unicast a) with
      | Some s => Some s
      | None => first_adapter f len l
      end
  end.

(** [1UL << n] on a 32-bit [ULONG]. *)
Definition shift_one (n : Z) : Z := if n <? 32 then Z.shiftl 1 n else undef.

Definition prefix_mask (prefix : Z) : Z :=
  if prefix <? 32
  then htonl (wrap 32 (Z.lnot (wrap 32 (shift_one (32 - prefix) - 1))))
  else 0xFFFFFFFF.

Definition directed_broadcast (u : unicast_address) : Z :=
  let mask := prefix_mask (ua_prefix u) in
  Z.lor (Z.land (ua_addr u) mask) (wrap 32 (Z.lnot mask)).

Definition get_broadcast_address (an : adapters_answer) (addr_len : nat) : error_code * bytes :=
  let fallback := take (addr_len - 1) limited_broadcast in
  match get_adapters an with
  | AR_list l => (ERR_SUCCESS, default fallback (first_adapter directed_broadcast addr_len l))
  | _ => (ERR_SUCCESS, fallback)
  end.

Definition get_local_ip (an : adapters_answer) (ip_len : nat) : error_code * option bytes :=
  match get_adapters an with
  | AR_no_memory => (ERR_OUT_OF_MEMORY, None)
  | AR_failed => (ERR_HOST_NOT_FOUND, None)
  | AR_list l =>
      match first_adapter ua_addr ip_len l with
      | Some s => (ERR_SUCCESS, Some s)
      | None => (ERR_HOST_NOT_FOUND, None)
      end
  end.

(** [found]: the first address of [getaddrinfo], [None] when it fails. *)
Definition resolve_hostname (found : option Z) (ip_len : nat) : error_code * option bytes :=
  match found with
  | None => (ERR_HOST_NOT_FOUND, None)
  | Some a =>
      match inet_ntop a ip_len with
      | None => (ERR_GENERAL, None)
      | Some s => (ERR_SUCCESS, Some s)
      end
  end.

Definition is_valid_ip (ip_str : ptr bytes) : bool :=
  match ip_str with Some s => inet_pton s | NULL => false end.

(** ** Lemmas *)

Definition usable (l : list adapter_addresses) : list unicast_address :=
  concat (map aa_unicast (filter (fun a => adapter_skipped a = false) l)).

Lemma first_unicast_app f len us vs :
  first_unicast f len (us ++ vs) =
  match first_unicast f len us with Some s => Some s | None => first_unicast f len vs end.
Proof. induction us as [|u us IH]; simpl; [done|]. by destruct (inet_ntop (f u) len). Qed.

Lemma first_adapter_usable f len l : first_adapter f len l = first_unicast f len (usable l).
Proof.
  unfold usable. induction l as [|a l IH]; [done|]. cbn [first_adapter]. rewrite filter_cons, IH.
  destruct (adapter_skipped a); [by rewrite decide_False by done|].
  rewrite decide_True by done. cbn [map concat]. by rewrite first_unicast_app.
Qed.

(** Bit [i] of the mask, in host order, is set outside the host part. *)
Lemma prefix_mask_bits p (j : nat) k :
  0 < p <= 32 -> (j < 4)%nat -> 0 <= k < 8 ->
  Z.testbit (prefix_mask p) (8 * (3 - Z.of_nat j) + k) = negb (8 * Z.of_nat j + k <? 32 - p).
Proof.
  intros Hp Hj Hk. unfold prefix_mask. destruct (Z.ltb_spec p 32).
  - replace (8 * (3 - Z.of_nat j) + k) with (8 * Z.of_nat (3 - j) + k) by lia.
    rewrite testbit_htonl by lia. replace (8 * (3 - Z.of_nat (3 - j)) + k) with (8 * Z.of_nat j + k) by lia.
    unfold shift_one. rewrite (proj2 (Z.ltb_lt _ 32)) by lia. rewrite Z.shiftl_1_l.
    assert (wrap 32 (2 ^ (32 - p) - 1) = Z.ones (32 - p)) as ->.
    { rewrite Z.ones_equiv. apply wrap_small. split.
      - assert (0 < 2 ^ (32 - p)) by (apply Z.pow_pos_nonneg; lia). lia.
      - assert (2 ^ (32 - p) < 2 ^ 32) by (apply Z.pow_lt_mono_r; lia). lia. }
    unfold wrap. rewrite Z.mod_pow2_bits_low, Z.lnot_spec, Z.testbit_ones_nonneg by lia. done.
  - assert (p = 32) as -> by lia. change 0xFFFFFFFF with (Z.ones 32).
    rewrite Z.testbit_ones_nonneg by lia. rewrite (proj2 (Z.ltb_lt _ 32)) by lia.
    symmetry. apply negb_true_iff, Z.ltb_ge. lia.
Qed.

Lemma directed_broadcast_range u : is_u 32 (ua_addr u) -> 0 <= directed_broadcast u < 2 ^ 32.
Proof.
  intros Ha. assert (Z.land (directed_broadcast u) (Z.ones 32) = directed_broadcast u) as E.
  { unfold directed_broadcast. rewrite Z.land_lor_distr_l. f_equal.
    - rewrite <- Z.land_assoc, (Z.land_comm (prefix_mask _)), Z.land_assoc. f_equal.
      rewrite Z.land_ones by lia. by apply wrap_small.
    - unfold wrap. rewrite Z.land_ones, Z.mod_mod by (lia || done). done. }
  rewrite <- E, Z.land_ones by lia. by apply Z.mod_pos_bound.
Qed.

(** The address of the network's broadcast: every bit of the host part set. *)
Lemma directed_broadcast_bits u (j : nat) k :
  0 < ua_prefix u <= 32 -> (j < 4)%nat -> 0 <= k < 8 ->
  let i := 8 * Z.of_nat j + k in
  Z.testbit (ntohl (directed_broadcast u)) i =
  (i <? 32 - ua_prefix u) || Z.testbit (ntohl (ua_addr u)) i.
Proof.
  intros Hp Hj Hk i. unfold i. rewrite !testbit_ntohl by done. unfold directed_broadcast.
  rewrite Z.lor_spec, Z.land_spec, prefix_mask_bits by done.
  unfold wrap. rewrite Z.mod_pow2_bits_low, Z.lnot_spec, prefix_mask_bits by lia.
  rewrite negb_involutive. by destruct (_ <? _), (Z.testbit (ua_addr u) _).
Qed.

(** ** Properties *)

(** the address of the discovery broadcast.  [get_broadcast_address] always
    succeeds; when the system lists a usable adapter it is the text of that
    adapter's first address with every bit of the host part set, and of no other
    bit changed; otherwise, and when the system cannot be asked, it is the limited
    broadcast. *)
Theorem broadcast_address_correct (Hntop : forall a, 0 <= a < 2 ^ 32 -> is_Some (inet_ntop a 64)) an :
  Forall (fun u => is_u 32 (ua_addr u)) (usable (an_adapters an)) ->
  (get_broadcast_address an 64).1 = ERR_SUCCESS /\
  match get_adapters an with
  | AR_list l =>
      match usable l with
      | [] => (get_broadcast_address an 64).2 = limited_broadcast
      | u :: _ => inet_ntop (directed_broadcast u) 64 = Some (get_broadcast_address an 64).2 /\
          (0 < ua_prefix u <= 32 -> forall i, 0 <= i < 32 ->
             Z.testbit (ntohl (directed_broadcast u)) i =
             (i <? 32 - ua_prefix u) || Z.testbit (ntohl (ua_addr u)) i)
      end
  | _ => (get_broadcast_address an 64).2 = limited_broadcast
  end.
Proof.
  intros Hr. unfold get_broadcast_address. destruct (get_adapters an) as [| |l] eqn:El; [done|done|].
  split; [done|]. assert (l = an_adapters an) as ->.
  { unfold get_adapters in El. repeat case_match; by simplify_eq. }
  rewrite first_adapter_usable. destruct (usable (an_adapters an)) as [|u us]; [done|].
  apply Forall_cons in Hr as [Hu _]. destruct (Hntop _ (directed_broadcast_range u Hu)) as [s Es]. simpl. rewrite Es. split; [done|].
  intros Hp i Hi. replace i with (8 * Z.of_nat (Z.to_nat (i / 8)) + i mod 8).
  - apply directed_broadcast_bits; [done| |apply Z.mod_pos_bound; lia].
    assert (i / 8 < 4) by (apply Z.div_lt_upper_bound; lia). assert (0 <= i / 8) by (apply Z.div_pos; lia). lia.
  - rewrite Z2Nat.id by (apply Z.div_pos; lia). pose proof (Z.div_mod i 8). lia.
Qed.
End addresses.

(** ** Witness *)

(** [inet_ntop] with the text of every address in decimal, which fits. *)
Definition decimal_ntop (a : Z) (size : nat) : option bytes :=
  if bool_decide (length (fmt_u a) < size)%nat then Some (fmt_u a) else None.

(** 192.168.1.7/24 on the second adapter; the first is down. *)
Definition example_adapters : adapters_answer := {|
  an_malloc1 := true; an_rc1 := NO_ERROR; an_malloc2 := true; an_rc2 := NO_ERROR;
  an_adapters :=
    [ {| aa_up := false; aa_loopback := false; aa_unicast := [{| ua_addr := 1; ua_prefix := 8 |}] |};
      {| aa_up := true; aa_loopback := false;
         aa_unicast := [{| ua_addr := htonl 0xC0A80107; ua_prefix := 24 |}] |} ] |}.

Lemma decimal_fits a : 0 <= a < 2 ^ 32 -> is_Some (decimal_ntop a 64).
Proof.
  intros Ha. unfold decimal_ntop. rewrite bool_decide_true; [done|].
  unfold fmt_u, fmt_base. rewrite length_reverse.
  assert (forall f b n, (length (digits_rev f b n) <= f)%nat) as Hl.
  { induction f as [|f IH]; intros b n; cbn [digits_rev]; [done|]. simpl.
    destruct (_ =? 0); simpl; [lia|]. specialize (IH b (n / b)). lia. }
  specialize (Hl (S (Z.to_nat (Z.log2 a))) 10 a). assert (Z.log2 a < 32).
  { destruct (decide (a = 0)) as [->|]; [done|]. apply Z.log2_lt_pow2; lia. }
  pose proof (Z.log2_nonneg a). lia.
Qed.

Lemma broadcast_address_correct_witness :
  get_broadcast_address decimal_ntop 0 example_adapters 64 = (ERR_SUCCESS, fmt_u (htonl 0xC0A801FF)).
Proof.
  assert (usable (an_adapters example_adapters) = [{| ua_addr := htonl 0xC0A80107; ua_prefix := 24 |}]) as Eu
    by (vm_compute; reflexivity).
  pose proof (broadcast_address_correct decimal_ntop 0 decimal_fits example_adapters) as Hc.
  destruct (get_broadcast_address decimal_ntop 0 example_adapters 64) as [e s].
  destruct Hc as [E1 E2].
  - rewrite Eu. constructor; [apply is_u_htonl|constructor].
  - change (get_adapters example_adapters) with (AR_list (an_adapters example_adapters)) in E2.
    cbv iota in E2. rewrite Eu in E2. destruct E2 as [E2 _].
    assert (decimal_ntop (directed_broadcast 0 {| ua_addr := htonl 0xC0A80107; ua_prefix := 24 |}) 64 =
      Some (fmt_u (htonl 0xC0A801FF))) as E3 by (vm_compute; reflexivity).
    cbn [fst snd] in E1, E2. rewrite E3 in E2. apply (inj Some) in E2. by rewrite E1, E2.
Defined.
