(* ===== verification/ProtocolIO.v ===== *)
(** * Protocol input and output ([common/protocol.c], [usbip_send_*]/[usbip_recv_*])

    A message is converted to network order and handed to [net_send_all], or
    filled by [net_recv_all] and converted back.  A receiver returns [inl] with
    the error code, or [inr] with the message it stored in the caller's
    structure. *)

From S2P Require Import Prelude CTypes Errors Protocol Net.

Section io.
  Context {S : Type} `{Winsock S}.

(** The common body: an object is sent whole, or the call fails. *)
Definition send_object {A} `{CStruct A} (fd : Z) (packed : A) : M S error_code :=
  sent ← net_send_all fd (to_mem packed) (Z.of_nat (sizeof A));
  if negb (sent =? Z.of_nat (sizeof A)) then mret ERR_SOCKET_SEND else mret ERR_SUCCESS.

Definition recv_object {A} `{CStruct A} (fd : Z) : M S (error_code + A) :=
  '(received, bs) ← net_recv_all fd (Z.of_nat (sizeof A));
  if negb (received =? Z.of_nat (sizeof A)) then mret (inl ERR_SOCKET_RECV)
  else mret (inr (of_mem bs)).

(** [net_send_all(fd, &x, sizeof(x)) != sizeof(x)] *)
Definition send_bytes (fd : Z) (bs : bytes) : M S bool :=
  sent ← net_send_all fd bs (Z.of_nat (length bs)); mret (sent =? Z.of_nat (length bs)).

(** The rest of a receiver, on the object it has received. *)
Definition unpack_with {A} (unpack : A -> A) (r : error_code + A) : error_code + A :=
  match r with
  | inl e => inl e
  | inr a => inr (unpack a)
  end.

Definition usbip_send_header_basic (fd : Z) (header : usbip_header_basic) : M S error_code :=
  send_object fd (usbip_pack_header_basic header).

Definition usbip_recv_header_basic (fd : Z) : M S (error_code + usbip_header_basic) :=
  r ← recv_object fd; mret (unpack_with usbip_unpack_header_basic r).

Definition usbip_send_device (fd : Z) (device : usbip_usb_device) : M S error_code :=
  send_object fd (usbip_pack_device device).

Definition usbip_recv_device (fd : Z) : M S (error_code + usbip_usb_device) :=
  r ← recv_object fd; mret (unpack_with usbip_unpack_device r).

Definition usbip_send_interface (fd : Z) (iface : usbip_usb_interface) : M S error_code :=
  send_object fd iface.

Definition usbip_recv_interface (fd : Z) : M S (error_code + usbip_usb_interface) :=
  recv_object fd.

Definition usbip_send_urb_header (fd : Z) (header : usbip_header) : M S error_code :=
  send_object fd (usbip_pack_header header (hc_command (h_common header))).

Definition usbip_recv_urb_header (fd : Z) : M S (error_code + usbip_header) :=
  r ← recv_object fd; mret (unpack_with usbip_unpack_header r).

Definition usbip_send_urb_data (fd : Z) (data : bytes) (len : Z) : M S error_code :=
  if len =? 0 then mret ERR_SUCCESS else
  sent ← net_send_all fd data len;
  if negb (sent =? len) then mret ERR_SOCKET_SEND else mret ERR_SUCCESS.

Definition usbip_recv_urb_data (fd len : Z) : M S (error_code + bytes) :=
  if len =? 0 then mret (inr []) else
  '(received, bs) ← net_recv_all fd len;
  if negb (received =? len) then mret (inl ERR_SOCKET_RECV) else mret (inr bs).
End io.

(** ** Lemmas *)

Section contracts.
  Context {S : Type} `{WinsockLaws S}.
  Implicit Types s : S.

(** [bs] is on the stream exactly when the sender reports success; a proper
    prefix of it otherwise. *)
Definition sent_post (fd : Z) (bs : bytes) (e : error_code) (s s' : S) : Prop :=
  tx_only fd s s' /\
  (e = ERR_SUCCESS /\ ws_tx s' fd = ws_tx s fd ++ bs \/
   e = ERR_SOCKET_SEND /\
   exists k, (k < length bs)%nat /\ ws_tx s' fd = ws_tx s fd ++ take k bs).

(** The receiver took [n] bytes off the stream and returned what they encode,
    or failed having taken fewer. *)
Definition received_post {A} (fd : Z) (n : nat) (decode : bytes -> A) (r : error_code + A)
    (s s' : S) : Prop :=
  rx_only fd s s' /\
  exists bs, ws_rx s fd = bs ++ ws_rx s' fd /\
    match r with
    | inr a => length bs = n /\ a = decode bs
    | inl e => e = ERR_SOCKET_RECV /\ (length bs < n)%nat
    end.

Lemma send_all_sent fd bs len s e s' :
  len = Z.of_nat (length bs) -> len < 2 ^ 31 ->
  (sent ← net_send_all fd bs len;
   if negb (sent =? len) then mret ERR_SOCKET_SEND else mret ERR_SUCCESS) s = (e, s') ->
  sent_post fd bs e s s'.
Proof.
  intros Hl Hb (r & s1 & E1 & E2)%M_bind_inv.
  apply net_send_all_post in E1 as [F Hr]; [|done..].
  destruct (Z.eqb_spec r len) as [->|Hne]; simpl in E2; mret_eq; split; try done.
  - left. destruct Hr as [[_ ?]|[? _]]; done.
  - right. destruct Hr as [[? _]|(_ & _ & k & ? & ?)]; [done|]. eauto.
Qed.

Lemma send_bytes_sent fd bs s ok s' :
  Z.of_nat (length bs) < 2 ^ 31 -> send_bytes fd bs s = (ok, s') ->
  sent_post fd bs (if ok then ERR_SUCCESS else ERR_SOCKET_SEND) s s'.
Proof.
  intros Hl E. unfold send_bytes in E. apply M_bind_inv in E as (sent & n1 & E1 & E). mret_eq.
  eapply (send_all_sent fd bs (Z.of_nat (length bs))); [done|done|].
  unfold mbind, M_bind. rewrite E1. by destruct (sent =? _).
Qed.


Lemma recv_all_received {A} fd len (dec : bytes -> A) s r s' :
  0 <= len < 2 ^ 31 ->
  ('(received, bs) ← net_recv_all fd len;
   if negb (received =? len) then mret (inl ERR_SOCKET_RECV) else mret (inr (dec bs))) s = (r, s') ->
  received_post fd (Z.to_nat len) dec r s s'.
Proof.
  intros Hb ([n bs] & s1 & E1 & E2)%M_bind_inv.
  apply net_recv_all_post in E1 as (F & Hrx & Hr); [|done].
  destruct (Z.eqb_spec n len) as [->|Hne]; simpl in E2; mret_eq; split; try done;
    exists bs; (split; [done|]).
  - destruct Hr as [[_ ?]|[? _]]; [|done]. split; [lia|done].
  - destruct Hr as [[? _]|(_ & ? & _)]; [done|]. split; [done|lia].
Qed.

Lemma send_object_sent {A} `{CStruct A} fd (a : A) s e s' :
  fields_ok a -> Z.of_nat (sizeof A) < 2 ^ 31 ->
  send_object fd a s = (e, s') -> sent_post fd (to_mem a) e s s'.
Proof.
  intros Ha Hsz E. eapply send_all_sent; [|exact Hsz|exact E]. by rewrite length_to_mem.
Qed.

Lemma recv_object_received {A} `{CStruct A} fd s (r : error_code + A) s' :
  Z.of_nat (sizeof A) < 2 ^ 31 ->
  recv_object fd s = (r, s') -> received_post fd (sizeof A) of_mem r s s'.
Proof.
  intros Hsz E. apply recv_all_received in E; [|lia]. by rewrite Nat2Z.id in E.
Qed.

Lemma recv_unpack_received {A} `{CStruct A} fd (unpack : A -> A) s (r : error_code + A) s' :
  Z.of_nat (sizeof A) < 2 ^ 31 ->
  (r ← recv_object fd; mret (unpack_with unpack r)) s = (r, s') ->
  received_post fd (sizeof A) (fun bs => unpack (of_mem bs)) r s s'.
Proof.
  intros Hsz (r1 & s1 & E1 & E2)%M_bind_inv.
  apply recv_object_received in E1 as (F & bs & Hrx & Hr); [|done]. mret_eq.
  split; [done|]. exists bs. split; [done|].
  destruct r1; simpl; [done|]. destruct Hr as [? ->]. done.
Qed.

Lemma send_urb_header_sent fd (h : usbip_header) s e s' :
  fields_ok h -> usbip_send_urb_header fd h s = (e, s') -> sent_post fd (wire_encode h) e s s'.
Proof. intros Hh E. apply (send_object_sent fd _ s e s'); [by apply wire_pack_ok|done|done]. Qed.

Lemma send_header_basic_sent fd (h : usbip_header_basic) s e s' :
  fields_ok h -> usbip_send_header_basic fd h s = (e, s') -> sent_post fd (wire_encode h) e s s'.
Proof. intros Hh E. apply (send_object_sent fd _ s e s'); [by apply wire_pack_ok|done|done]. Qed.

Lemma send_device_sent fd (d : usbip_usb_device) s e s' :
  fields_ok d -> usbip_send_device fd d s = (e, s') -> sent_post fd (wire_encode d) e s s'.
Proof. intros Hh E. apply (send_object_sent fd _ s e s'); [by apply wire_pack_ok|done|done]. Qed.

Lemma send_interface_sent fd (i : usbip_usb_interface) s e s' :
  fields_ok i -> usbip_send_interface fd i s = (e, s') -> sent_post fd (wire_encode i) e s s'.
Proof. intros Hh E. by apply (send_object_sent fd _ s e s'). Qed.

Lemma recv_urb_header_received fd s r s' :
  usbip_recv_urb_header fd s = (r, s') -> received_post fd 48 (wire_decode (A := usbip_header)) r s s'.
Proof. exact (recv_unpack_received (A := usbip_header) fd usbip_unpack_header s r s' eq_refl). Qed.

Lemma recv_header_basic_received fd s r s' :
  usbip_recv_header_basic fd s = (r, s') ->
  received_post fd 8 (wire_decode (A := usbip_header_basic)) r s s'.
Proof. exact (recv_unpack_received (A := usbip_header_basic) fd usbip_unpack_header_basic s r s' eq_refl). Qed.

Lemma recv_device_received fd s r s' :
  usbip_recv_device fd s = (r, s') ->
  received_post fd 312 (wire_decode (A := usbip_usb_device)) r s s'.
Proof. exact (recv_unpack_received (A := usbip_usb_device) fd usbip_unpack_device s r s' eq_refl). Qed.

Lemma recv_interface_received fd s r s' :
  usbip_recv_interface fd s = (r, s') ->
  received_post fd 4 (wire_decode (A := usbip_usb_interface)) r s s'.
Proof. exact (recv_object_received (A := usbip_usb_interface) fd s r s' eq_refl). Qed.

Lemma send_urb_data_sent fd data len s e s' :
  len = Z.of_nat (length data) -> len < 2 ^ 31 ->
  usbip_send_urb_data fd data len s = (e, s') -> sent_post fd data e s s'.
Proof.
  intros Hl Hb E. unfold usbip_send_urb_data in E. destruct (Z.eqb_spec len 0) as [->|].
  - destruct data; [|done]. mret_eq. split; [done|]. left. by rewrite app_nil_r.
  - by eapply send_all_sent.
Qed.

Lemma recv_urb_data_received fd len s r s' :
  0 <= len < 2 ^ 31 ->
  usbip_recv_urb_data fd len s = (r, s') -> received_post fd (Z.to_nat len) id r s s'.
Proof.
  intros Hb E. unfold usbip_recv_urb_data in E. destruct (Z.eqb_spec len 0) as [->|].
  - mret_eq. split; [done|]. exists []. done.
  - by eapply (recv_all_received fd len id).
Qed.

(** A receiver facing an encoded message returns that message. *)
Lemma received_prefix {A} fd n (dec : bytes -> A) r s s' bs rest :
  received_post fd n dec r s s' -> ws_rx s fd = bs ++ rest -> length bs = n ->
  r = inl ERR_SOCKET_RECV \/ r = inr (dec bs) /\ ws_rx s' fd = rest.
Proof.
  intros (F & bs' & Hrx & Hr) Hs Hn. destruct r as [e|a].
  - left. by destruct Hr as [-> _].
  - right. destruct Hr as [Hl ->].
    destruct (app_inj_1 bs' bs (ws_rx s' fd) rest) as [-> ->]; [lia|congruence|done].
Qed.

Lemma received_message {A} `{Wire A} fd n r s s' (a : A) rest :
  received_post fd n (wire_decode (A := A)) r s s' -> fields_ok a -> n = sizeof A ->
  ws_rx s fd = wire_encode a ++ rest ->
  r = inl ERR_SOCKET_RECV \/ r = inr a /\ ws_rx s' fd = rest.
Proof.
  intros Hr Ha -> Hs. rewrite <-(wire_decode_encode a Ha).
  eapply received_prefix; [done..|by apply length_wire_encode].
Qed.

(** On a connection that stays up the message arrives. *)
Lemma recv_object_steady P {A} `{CStruct A} fd s (bs rest : bytes) :
  steady fd P -> P s -> Z.of_nat (sizeof A) < 2 ^ 31 -> length bs = sizeof A -> ws_rx s fd = bs ++ rest ->
  exists s', recv_object (A := A) fd s = (inr (of_mem bs), s') /\ P s' /\ rx_only fd s s' /\ ws_rx s' fd = rest.
Proof.
  intros Hst Hp Hsz Hl Hrx.
  destruct (net_recv_all_steady P fd (Z.of_nat (sizeof A)) s bs rest) as (s' & E & ? & ? & ?); [done|done|done|lia|done|].
  exists s'. split; [|done]. unfold recv_object, mbind, M_bind. rewrite E. by rewrite Z.eqb_refl.
Qed.

Lemma recv_unpack_steady P {A} `{Wire A} fd s (a : A) rest :
  steady fd P -> P s -> Z.of_nat (sizeof A) < 2 ^ 31 -> fields_ok a -> ws_rx s fd = wire_encode a ++ rest ->
  exists s', (r ← recv_object fd; mret (unpack_with wire_unpack r)) s = (inr a, s') /\ P s' /\
    rx_only fd s s' /\ ws_rx s' fd = rest.
Proof.
  intros Hst Hp Hsz Ha Hrx.
  destruct (recv_object_steady P fd s (wire_encode a) rest) as (s' & E & ? & ? & ?);
    [done..|by apply length_wire_encode|done|].
  exists s'. split; [|done]. unfold mbind, M_bind at 1. rewrite E. unfold mret, M_ret. simpl.
  do 2 f_equal. exact (wire_decode_encode a Ha).
Qed.

Lemma recv_header_basic_steady P fd s h rest :
  steady fd P -> P s -> header_basic_ok h -> ws_rx s fd = wire_encode h ++ rest ->
  exists s', usbip_recv_header_basic fd s = (inr h, s') /\ P s' /\ rx_only fd s s' /\ ws_rx s' fd = rest.
Proof. intros G1 G2 G3 G4. exact (recv_unpack_steady P fd s h rest G1 G2 eq_refl G3 G4). Qed.

Lemma recv_device_steady P fd s d rest :
  steady fd P -> P s -> usb_device_ok d -> ws_rx s fd = wire_encode d ++ rest ->
  exists s', usbip_recv_device fd s = (inr d, s') /\ P s' /\ rx_only fd s s' /\ ws_rx s' fd = rest.
Proof. intros G1 G2 G3 G4. exact (recv_unpack_steady P fd s d rest G1 G2 eq_refl G3 G4). Qed.

Lemma recv_interface_steady P fd s (i : usbip_usb_interface) rest :
  steady fd P -> P s -> fields_ok i -> ws_rx s fd = wire_encode i ++ rest ->
  exists s', usbip_recv_interface fd s = (inr i, s') /\ P s' /\ rx_only fd s s' /\ ws_rx s' fd = rest.
Proof.
  intros Hst Hp Hi Hrx.
  destruct (recv_object_steady P (A := usbip_usb_interface) fd s (wire_encode i) rest) as (s' & E & ?);
    [done|done|done|by apply length_wire_encode|done|].
  exists s'. split; [|done]. unfold usbip_recv_interface. rewrite E. do 2 f_equal.
  exact (wire_decode_encode i Hi).
Qed.

Lemma send_bytes_steady P fd s bs :
  steady_tx fd P -> P s -> Z.of_nat (length bs) < 2 ^ 31 ->
  exists s', send_bytes fd bs s = (true, s') /\ P s' /\ tx_only fd s s' /\ ws_tx s' fd = ws_tx s fd ++ bs.
Proof.
  intros Hst Hp Hb. destruct (net_send_all_steady P fd bs _ s Hst Hp eq_refl Hb) as (s' & E & ? & ? & ?).
  exists s'. split; [|done]. unfold send_bytes, mbind, M_bind. rewrite E. by rewrite Z.eqb_refl.
Qed.

Lemma sent_success fd bs s s' :
  sent_post fd bs ERR_SUCCESS s s' -> ws_tx s' fd = ws_tx s fd ++ bs.
Proof. intros [_ [[_ ?]|[? _]]]; done. Qed.

(** ** Lemmas: descriptors *)

Lemma keeps_open_send_bytes fd bs : keeps_open (send_bytes fd bs).
Proof. apply keeps_open_bind; [apply keeps_open_send_all|]. intros. apply keeps_open_ret. Qed.

Lemma keeps_open_recv_object {A} `{CStruct A} fd : keeps_open (recv_object (A := A) fd).
Proof.
  apply keeps_open_bind; [apply keeps_open_recv_all|]. intros [r bs].
  destruct (negb _); apply keeps_open_ret.
Qed.

Lemma keeps_open_unpack {A} (f : A -> A) (m : M S (error_code + A)) :
  keeps_open m -> keeps_open (r ← m; mret (unpack_with f r)).
Proof. intros Hm. apply keeps_open_bind; [done|]. intros. apply keeps_open_ret. Qed.

(** ** Properties *)

(** C16: a URB header and its payload, sent with both calls reporting success, are
    read back unchanged by a peer whose incoming stream starts with the bytes
    that were put on the wire: unless its connection fails, it gets the same
    header, the same payload, and is left exactly at the end of the message. *)
Theorem urb_message_end_to_end fd h data len s s1 s2 :
  header_ok h -> len = Z.of_nat (length data) -> len < 2 ^ 31 ->
  usbip_send_urb_header fd h s = (ERR_SUCCESS, s1) ->
  usbip_send_urb_data fd data len s1 = (ERR_SUCCESS, s2) ->
  exists wire, ws_tx s2 fd = ws_tx s fd ++ wire /\ length wire = (48 + length data)%nat /\
  forall fd' t rest r1 t1 r2 t2,
    ws_rx t fd' = wire ++ rest ->
    usbip_recv_urb_header fd' t = (r1, t1) ->
    usbip_recv_urb_data fd' len t1 = (r2, t2) ->
    r1 = inl ERR_SOCKET_RECV \/
    r1 = inr h /\
    (r2 = inl ERR_SOCKET_RECV \/ r2 = inr data /\ ws_rx t2 fd' = rest).
Proof.
  intros Hh Hl Hb E1 E2. exists (wire_encode h ++ data).
  apply send_urb_header_sent, sent_success in E1; [|done].
  apply send_urb_data_sent, sent_success in E2; [|done..].
  split; [by rewrite E2, E1, app_assoc|].
  split; [rewrite length_app; f_equal; exact (length_wire_encode h Hh)|].
  intros fd' t rest r1 t1 r2 t2 Hrx R1 R2. rewrite <-app_assoc in Hrx.
  apply recv_urb_header_received in R1. apply recv_urb_data_received in R2; [|lia].
  eapply received_message in R1 as [->|[-> Hrx1]]; [by left| |exact Hh|done|exact Hrx].
  right.   split; [done|]. eapply (received_prefix _ _ id); [done..|lia].
Qed.
End contracts.

(** ** Witnesses *)

Definition loop_sent : bytes :=
  Sim.tx (usbip_send_urb_data 5 [1; 2; 3] 3
    (usbip_send_urb_header 5 example_submit (Sim.one 5 [] [])).2).2 5.

Lemma urb_message_end_to_end_witness :
  exists wire, ws_tx (usbip_send_urb_data 5 [1; 2; 3] 3
      (usbip_send_urb_header 5 example_submit (Sim.one 5 [] [])).2).2 5 = [] ++ wire /\
    length wire = 51%nat.
Proof.
  destruct (urb_message_end_to_end 5 example_submit [1; 2; 3] 3 (Sim.one 5 [] [])
    (usbip_send_urb_header 5 example_submit (Sim.one 5 [] [])).2
    (usbip_send_urb_data 5 [1; 2; 3] 3
      (usbip_send_urb_header 5 example_submit (Sim.one 5 [] [])).2).2)
    as (wire & E & L & _); [apply example_submit_ok|done|done|by vm_compute|by vm_compute|].
  by exists wire.
Defined.

(** The receiver of these bytes gets the message, on a connection that delivers
    them in pieces. *)
Example loop_received :
  let t := Sim.one 9 loop_sent [7; 0; 20; 0; 0]%nat in
  (usbip_recv_urb_header 9 t).1 = inr example_submit /\
  (usbip_recv_urb_data 9 3 (usbip_recv_urb_header 9 t).2).1 = inr [1; 2; 3].
Proof. by vm_compute. Qed.
