(* ===== verification/Auth.v ===== *)
(** * Token authentication ([common/auth.c])

    The optional handshake that precedes the USB/IP messages: five bytes of
    header (magic, token length) and the token.  Tokens are C strings, given as
    their characters; the environment is an argument. *)

From S2P Require Import Prelude CTypes Errors Net.

Definition AUTH_TOKEN_MAX_LEN : Z := 64.
Definition AUTH_TIMEOUT_MS : Z := 5000.
Definition AUTH_WIRE_MAGIC : Z := 0x55424F4E.
Definition AUTH_WIRE_HEADER_LEN : Z := 5.
Definition DEFAULT_AUTH_TOKEN : bytes := [].

Definition auth_is_enabled (token : ptr bytes) : bool :=
  match token with
  | Some t => negb (char_at t 0 =? 0)
  | NULL => false
  end.

(** [env] is what [getenv("USBIP_AUTH_TOKEN")] returns. *)
Definition auth_get_token (env cli_arg : ptr bytes) : bytes :=
  match cli_arg with
  | Some a => if negb (char_at a 0 =? 0) then a else
      match env with
      | Some e => if negb (char_at e 0 =? 0) then e else DEFAULT_AUTH_TOKEN
      | NULL => DEFAULT_AUTH_TOKEN
      end
  | NULL =>
      match env with
      | Some e => if negb (char_at e 0 =? 0) then e else DEFAULT_AUTH_TOKEN
      | NULL => DEFAULT_AUTH_TOKEN
      end
  end.

Definition magic_bytes : bytes :=
  [wrap 8 (Z.shiftr AUTH_WIRE_MAGIC 24); wrap 8 (Z.shiftr AUTH_WIRE_MAGIC 16);
   wrap 8 (Z.shiftr AUTH_WIRE_MAGIC 8); wrap 8 AUTH_WIRE_MAGIC].

(** The framed handshake: the bytes written to [buf]; [None] stands for the
    returned length 0. *)
Definition build_handshake (buf_len : Z) (token : bytes) : option bytes :=
  if negb (auth_is_enabled (Some token)) then None else
  let tlen := strlen token in
  if (tlen >? AUTH_TOKEN_MAX_LEN) || (AUTH_WIRE_HEADER_LEN + tlen >? buf_len) then None else
  Some (magic_bytes ++ [wrap 8 tlen] ++ cstr token).

(** The comparison loop from index [i], with [n] iterations left. *)
Fixpoint auth_diff (n i : nat) (exp got : bytes) (diff : Z) : Z :=
  match n with
  | O => diff
  | S n => auth_diff n (S i) exp got
             (Z.lor diff (wrap 8 (Z.lxor (char_at exp i) (char_at got i))))
  end.

(** [diff] after the loop. *)
Definition auth_compare (exp got_token : bytes) (tlen : Z) : Z :=
  let exp_len := strlen exp in
  auth_diff (Z.to_nat (Z.min exp_len tlen)) 0 exp got_token (wrap 8 (Z.lxor exp_len tlen)).

Definition header_magic (header : bytes) : Z :=
  Z.lor (Z.lor (Z.lor (Z.shiftl (char_at header 0) 24) (Z.shiftl (char_at header 1) 16))
               (Z.shiftl (char_at header 2) 8)) (char_at header 3).

Section handshake.
  Context {S : Type} `{Winsock S}.

Definition auth_server_handshake (fd : Z) (expected_token : ptr bytes) : M S error_code :=
  match expected_token with
  | NULL => mret ERR_SUCCESS
  | Some exp =>
      if negb (auth_is_enabled expected_token) then mret ERR_SUCCESS else
      '(got, header) ← net_recv_all_timeout fd AUTH_WIRE_HEADER_LEN AUTH_TIMEOUT_MS;
      if negb (got =? AUTH_WIRE_HEADER_LEN) then mret ERR_PERMISSION_DENIED else
      if negb (header_magic header =? AUTH_WIRE_MAGIC) then mret ERR_PERMISSION_DENIED else
      let tlen := char_at header 4 in
      if (tlen =? 0) || (tlen >? AUTH_TOKEN_MAX_LEN) then mret ERR_PERMISSION_DENIED else
      '(got, got_token) ← net_recv_all_timeout fd tlen AUTH_TIMEOUT_MS;
      if negb (got =? tlen) then mret ERR_PERMISSION_DENIED else
      if negb (auth_compare exp got_token tlen =? 0) then mret ERR_PERMISSION_DENIED else
      mret ERR_SUCCESS
  end.

Definition auth_client_handshake (fd : Z) (token : ptr bytes) : M S error_code :=
  match token with
  | NULL => mret ERR_SUCCESS
  | Some t =>
      if negb (auth_is_enabled token) then mret ERR_SUCCESS else
      match build_handshake (AUTH_WIRE_HEADER_LEN + AUTH_TOKEN_MAX_LEN) t with
      | None => mret ERR_INVALID_PARAM
      | Some buf =>
          let len := Z.of_nat (length buf) in
          sent ← net_send_all fd buf len;
          if negb (sent =? len) then mret ERR_SOCKET_SEND else mret ERR_SUCCESS
      end
  end.
End handshake.

(** ** Lemmas *)

(** The bytes of the handshake for the token [t]. *)
Definition handshake_frame (t : bytes) : bytes := magic_bytes ++ [Z.of_nat (length t)] ++ t.

Lemma auth_enabled_cstr t : auth_is_enabled (Some t) = true <-> cstr t <> [].
Proof.
  unfold auth_is_enabled, char_at. destruct t as [|c t]; simpl; [done|].
  destruct (Z.eqb_spec c 0); simpl; [by split|done].
Qed.

Lemma wrap8_lxor_zero a b : is_byte a -> is_byte b -> wrap 8 (Z.lxor a b) = 0 -> a = b.
Proof.
  intros Ha Hb Hx. apply Z.lxor_eq. apply Z.bits_inj'. intros i Hi. rewrite Z.bits_0.
  destruct (decide (i < 8)).
  - apply (f_equal (fun z => Z.testbit z i)) in Hx. unfold wrap in Hx.
    rewrite Z.mod_pow2_bits_low, Z.bits_0 in Hx by lia. done.
  - rewrite Z.lxor_spec. rewrite <-(Z.mod_small a (2 ^ 8)), <-(Z.mod_small b (2 ^ 8)) by done.
    by rewrite !Z.mod_pow2_bits_high by lia.
Qed.

Lemma auth_diff_zero n i exp got d :
  (forall j, (j < i + n)%nat -> is_byte (char_at exp j) /\ is_byte (char_at got j)) ->
  auth_diff n i exp got d = 0 <->
  d = 0 /\ forall j, (i <= j < i + n)%nat -> char_at exp j = char_at got j.
Proof.
  revert i d. induction n as [|n IH]; intros i d Hb; simpl.
  - split; [intros ->; split; [done|intros; lia]|by intros [-> _]].
  - rewrite IH by (intros; apply Hb; lia). rewrite Z.lor_eq_0_iff.
    destruct (Hb i) as [He Hg]; [lia|]. split.
    + intros [[-> Hx] Hj]. split; [done|]. intros j Hj'.
      destruct (decide (j = i)) as [->|]; [|apply Hj; lia]. by apply wrap8_lxor_zero.
    + intros [-> Hj]. split; [split; [done|]|].
      * rewrite (Hj i) by lia. by rewrite Z.lxor_nilpotent.
      * intros; apply Hj; lia.
Qed.

Lemma char_at_take k l j : (j < k)%nat -> char_at (take k l) j = char_at l j.
Proof. intros. unfold char_at. by rewrite lookup_take_lt. Qed.

Lemma char_at_ext (a b : bytes) :
  length a = length b -> (forall j, (j < length a)%nat -> char_at a j = char_at b j) -> a = b.
Proof.
  intros Hl Hj. apply list_eq_same_length with (length a); [done..|].
  intros i x y Hi Ha Hb. specialize (Hj i Hi). unfold char_at in Hj. by rewrite Ha, Hb in Hj.
Qed.

Lemma is_byte_char_at (l : bytes) j : Forall is_byte l -> is_byte (char_at l j).
Proof.
  intros Hl. unfold char_at. destruct (l !! j) eqn:E; [|by vm_compute].
  by eapply Forall_lookup_1 in Hl.
Qed.

Lemma wrap8_lxor_len a b :
  0 <= a -> is_byte b -> wrap 8 (Z.lxor a b) = 0 <-> a mod 256 = b.
Proof.
  intros Ha Hb.
  assert (wrap 8 (Z.lxor a b) = wrap 8 (Z.lxor (wrap 8 a) b)) as ->.
  { apply Z.bits_inj'. intros i Hi. unfold wrap. destruct (decide (i < 8)).
    - by rewrite !Z.mod_pow2_bits_low, !Z.lxor_spec, Z.mod_pow2_bits_low by lia.
    - by rewrite !Z.mod_pow2_bits_high by lia. }
  change (a mod 256) with (wrap 8 a). split.
  - intros Hx. apply wrap8_lxor_zero; [by apply is_u_wrap|done|done].
  - intros ->. by rewrite Z.lxor_nilpotent.
Qed.

(** When the loop finds no difference: the received token is the prefix of the
    expected one whose length is the expected length modulo 256. *)
Lemma auth_compare_zero exp tok :
  no_nul exp -> Forall is_byte exp -> Forall is_byte tok -> (length tok <= 255)%nat ->
  auth_compare exp tok (Z.of_nat (length tok)) = 0 <->
  Z.of_nat (length exp) mod 256 = Z.of_nat (length tok) /\ tok = take (length tok) exp.
Proof.
  intros Hn He Ht Hl. unfold auth_compare, strlen. rewrite cstr_id by done.
  set (m := Z.to_nat _). rewrite auth_diff_zero by (intros; by split; apply is_byte_char_at).
  rewrite wrap8_lxor_len by (unfold is_byte, is_u; lia).
  split; intros [Hm Hj]; (split; [done|]).
  - assert (length tok <= length exp)%nat.
    { pose proof (Z.mod_le (Z.of_nat (length exp)) 256). lia. }
    apply char_at_ext; [rewrite length_take; lia|]. intros j Hj'. rewrite char_at_take by done.
    symmetry. apply Hj. subst m. lia.
  - intros j Hj'. rewrite Hj. rewrite char_at_take; [done|]. subst m. lia.
Qed.

Lemma magic_value a b c d :
  is_byte a -> is_byte b -> is_byte c -> is_byte d ->
  header_magic [a; b; c; d] = ((a * 256 + b) * 256 + c) * 256 + d.
Proof.
  intros Ha Hb Hc Hd. unfold header_magic, char_at. simpl.
  replace (Z.shiftl a 24) with (Z.shiftl (Z.shiftl (Z.shiftl a 8) 8) 8)
    by (rewrite !Z.shiftl_shiftl by lia; f_equal; lia).
  replace (Z.shiftl b 16) with (Z.shiftl (Z.shiftl b 8) 8) by (rewrite Z.shiftl_shiftl by lia; f_equal; lia).
  rewrite <-!Z.shiftl_lor. rewrite (lor_disjoint_add _ d) by (lia || exact Hd).
  rewrite (lor_disjoint_add _ c) by (lia || exact Hc).
  rewrite (lor_disjoint_add _ b) by (lia || exact Hb). change (2 ^ 8) with 256. lia.
Qed.

Lemma header_magic_take4 h : header_magic h = header_magic (take 4 h).
Proof. unfold header_magic. by rewrite !(char_at_take 4) by lia. Qed.

Lemma header_magic_eq h :
  Forall is_byte h -> (4 <= length h)%nat ->
  header_magic h = AUTH_WIRE_MAGIC <-> take 4 h = magic_bytes.
Proof.
  intros Hb Hl. rewrite header_magic_take4.
  destruct h as [|a [|b [|c [|d h]]]]; simpl in Hl; try lia. simpl.
  rewrite !Forall_cons in Hb. destruct Hb as (Ha & Hb & Hc & Hd & _).
  rewrite magic_value by done. unfold is_byte, is_u, AUTH_WIRE_MAGIC in *.
  split; [|intros E; by injection E as -> -> -> ->].
  intros E. change magic_bytes with [0x55; 0x42; 0x4F; 0x4E].
  assert (d = 0x4E) as -> by lia. assert (c = 0x4F) as -> by lia.
  assert (b = 0x42) as -> by lia. assert (a = 0x55) as -> by lia. done.
Qed.

(** A five-byte header with the right magic is the start of a frame. *)
Lemma frame_split h t :
  length h = 5%nat -> take 4 h = magic_bytes -> char_at h 4 = Z.of_nat (length t) ->
  h ++ t = handshake_frame t.
Proof.
  intros Hl Hm Hc. unfold handshake_frame. rewrite <-Hm, <-Hc.
  destruct h as [|a [|b [|c [|d [|e [|]]]]]]; done.
Qed.

Lemma frame_header t :
  (length t <= 255)%nat ->
  exists h, handshake_frame t = h ++ t /\ length h = 5%nat /\ take 4 h = magic_bytes /\
    char_at h 4 = Z.of_nat (length t).
Proof. intros _. exists (magic_bytes ++ [Z.of_nat (length t)]). done. Qed.

Lemma build_handshake_frame t :
  no_nul t -> (1 <= length t <= 64)%nat ->
  build_handshake (AUTH_WIRE_HEADER_LEN + AUTH_TOKEN_MAX_LEN) t = Some (handshake_frame t).
Proof.
  intros Hn Hl. unfold build_handshake.
  rewrite (proj2 (auth_enabled_cstr t)) by
    (rewrite cstr_id by done; destruct t; [simpl in Hl; lia|done]).
  unfold strlen. rewrite cstr_id by done. simpl.
  unfold AUTH_TOKEN_MAX_LEN, AUTH_WIRE_HEADER_LEN.
  assert ((Z.of_nat (length t) >? 64) = false) as -> by lia.
  assert ((5 + Z.of_nat (length t) >? 5 + 64) = false) as -> by lia. simpl.
  by rewrite (wrap_small 8 (Z.of_nat (length t))) by (unfold is_u; lia).
Qed.

(** A header that fails the checks is not the start of any frame. *)
Lemma bad_header_no_frame h r tok rest :
  Forall is_byte h -> length h = 5%nat -> (1 <= length tok <= 64)%nat ->
  (header_magic h =? AUTH_WIRE_MAGIC) = false \/ char_at h 4 = 0 \/ char_at h 4 > 64 ->
  h ++ r = handshake_frame tok ++ rest -> False.
Proof.
  intros Hh Hl Ht Hbad Hs. destruct (frame_header tok) as (h' & Ef & L' & M' & C'); [lia|].
  rewrite Ef, <-app_assoc in Hs. apply app_inj_1 in Hs as [-> _]; [|lia].
  destruct Hbad as [Hbad|Hbad]; [|lia]. apply Z.eqb_neq in Hbad. apply Hbad.
  by apply header_magic_eq; [|lia|].
Qed.

Lemma header_of_frame h r tok rest :
  length h = 5%nat -> (1 <= length tok <= 64)%nat ->
  h ++ r = handshake_frame tok ++ rest ->
  handshake_frame tok = h ++ tok /\ char_at h 4 = Z.of_nat (length tok).
Proof.
  intros Hl Ht Hs. destruct (frame_header tok) as (h' & Ef & L' & M' & C'); [lia|].
  rewrite Ef, <-app_assoc in Hs. apply app_inj_1 in Hs as [-> _]; [|lia]. done.
Qed.

Section properties.
  Context {S : Type} `{WinsockLaws S}.
  Implicit Types s : S.

Lemma keeps_open_auth_client fd tok : keeps_open (auth_client_handshake fd tok).
Proof.
  unfold auth_client_handshake. destruct tok as [t|]; [|apply keeps_open_ret].
  destruct (negb _); [apply keeps_open_ret|]. destruct (build_handshake _ _) as [buf|]; [|apply keeps_open_ret].
  apply keeps_open_bind; [apply keeps_open_send_all|]. intros. destruct (negb _); apply keeps_open_ret.
Qed.

Lemma keeps_open_auth_server fd tok : keeps_open (auth_server_handshake fd tok).
Proof.
  unfold auth_server_handshake. destruct tok as [t|]; [|apply keeps_open_ret].
  destruct (negb _); [apply keeps_open_ret|].
  apply keeps_open_bind; [apply keeps_open_recv_all_timeout|]. intros [got header].
  destruct (negb _); [apply keeps_open_ret|]. destruct (negb _); [apply keeps_open_ret|]. cbv zeta.
  destruct (_ || _); [apply keeps_open_ret|].
  apply keeps_open_bind; [apply keeps_open_recv_all_timeout|]. intros [k bs].
  destruct (negb _); [apply keeps_open_ret|]. destruct (negb _); apply keeps_open_ret.
Qed.

(** The two outcomes of the server's handshake: it read a whole frame and
    compared its token, or it gave up before the end of any valid frame. *)
Definition compared (exp taken : bytes) (e : error_code) : Prop :=
  exists tok, taken = handshake_frame tok /\ (1 <= length tok <= 64)%nat /\ Forall is_byte tok /\
    e = if auth_compare exp tok (Z.of_nat (length tok)) =? 0
        then ERR_SUCCESS else ERR_PERMISSION_DENIED.

Definition gave_up (stream taken : bytes) (e : error_code) : Prop :=
  e = ERR_PERMISSION_DENIED /\
  forall tok rest, (1 <= length tok <= 64)%nat -> stream = handshake_frame tok ++ rest ->
    (length taken < length (handshake_frame tok))%nat.

Lemma auth_server_token fd exp h stream s1 e s' :
  (if negb (header_magic h =? AUTH_WIRE_MAGIC) then mret ERR_PERMISSION_DENIED else
   let tlen := char_at h 4 in
   if (tlen =? 0) || (tlen >? AUTH_TOKEN_MAX_LEN) then mret ERR_PERMISSION_DENIED else
   '(got, got_token) ← net_recv_all_timeout fd tlen AUTH_TIMEOUT_MS;
   if negb (got =? tlen) then mret ERR_PERMISSION_DENIED else
   if negb (auth_compare exp got_token tlen =? 0) then mret ERR_PERMISSION_DENIED else
   mret ERR_SUCCESS) s1 = (e, s') ->
  Forall is_byte stream -> stream = h ++ ws_rx s1 fd -> length h = 5%nat ->
  rx_only fd s1 s' /\
  exists taken, stream = taken ++ ws_rx s' fd /\ (compared exp taken e \/ gave_up stream taken e).
Proof.
  intros E Hby R1 P1. assert (Forall is_byte h) as Hh by (rewrite R1, Forall_app in Hby; by destruct Hby).
  destruct (header_magic h =? AUTH_WIRE_MAGIC) eqn:Em; simpl in E; cycle 1.
  { mret_eq. split; [done|]. exists h. split; [done|]. right. split; [done|].
    intros tok rest Ht Hs. destruct (bad_header_no_frame h (ws_rx s' fd) tok rest); auto. }
  destruct ((char_at h 4 =? 0) || (char_at h 4 >? AUTH_TOKEN_MAX_LEN)) eqn:El;
    unfold AUTH_TOKEN_MAX_LEN in El.
  { mret_eq. split; [done|]. exists h. split; [done|]. right. split; [done|].
    intros tok rest Ht Hs. destruct (bad_header_no_frame h (ws_rx s' fd) tok rest); auto; lia. }
  assert (1 <= char_at h 4 <= 64) as Hc by (pose proof (is_byte_char_at h 4 Hh) as [? ?]; lia).
  apply M_bind_inv in E as ([got2 tok] & s2 & E2 & E).
  apply net_recv_all_timeout_post in E2 as (F2 & R2 & P2); [|lia].
  assert (Forall is_byte tok) as Htb.
  { rewrite R1, R2, !Forall_app in Hby. by destruct Hby as (_ & ? & _). }
  assert (stream = (h ++ tok) ++ ws_rx s2 fd) as R by (by rewrite R1, R2, app_assoc).
  apply Z.eqb_eq, (header_magic_eq h) in Em as Hm; [|done|lia].
  destruct (Z.eqb_spec got2 (char_at h 4)) as [->|Hne]; simpl in E.
  - destruct P2 as [[_ P2]|[? _]]; [|done].
    assert ((if auth_compare exp tok (Z.of_nat (length tok)) =? 0
             then ERR_SUCCESS else ERR_PERMISSION_DENIED) = e /\ s2 = s') as [<- ->].
    { rewrite P2. destruct (auth_compare exp tok (char_at h 4) =? 0); simpl in E; by mret_eq. }
    split; [done|]. exists (h ++ tok). split; [done|]. left. exists tok.
    split; [by apply frame_split|]. by split; [lia|].
  - mret_eq. split; [done|]. exists (h ++ tok). split; [done|]. right. split; [done|].
    destruct P2 as [[? _]|(_ & P2 & _)]; [done|]. intros tok' rest Ht Hs.
    destruct (header_of_frame _ _ _ _ P1 Ht Hs) as [-> ?]. rewrite !length_app. lia.
Qed.

Lemma auth_server_cases fd exp s e s' :
  auth_is_enabled (Some exp) = true -> Forall is_byte (ws_rx s fd) ->
  auth_server_handshake fd (Some exp) s = (e, s') ->
  rx_only fd s s' /\
  exists taken, ws_rx s fd = taken ++ ws_rx s' fd /\
    (compared exp taken e \/ gave_up (ws_rx s fd) taken e).
Proof.
  intros Hen Hby E. unfold auth_server_handshake in E. rewrite Hen in E. simpl in E.
  apply M_bind_inv in E as ([got h] & s1 & E1 & E).
  apply net_recv_all_timeout_post in E1 as (F1 & R1 & P1); [|unfold AUTH_WIRE_HEADER_LEN; lia].
  unfold AUTH_WIRE_HEADER_LEN in *.
  destruct (Z.eqb_spec got 5) as [->|Hne]; simpl in E.
  - destruct P1 as [[_ P1]|[? _]]; [|done].
    destruct (auth_server_token fd exp h (ws_rx s fd) s1 e s') as [F2 Hr]; [done..|lia|].
    by split; [etrans|].
  - mret_eq. split; [done|]. exists h. split; [done|]. right. split; [done|].
    destruct P1 as [[? _]|(_ & P1 & _)]; [done|].
    intros tok rest Ht _. unfold handshake_frame. rewrite !length_app. simpl. lia.
Qed.

(** Facing a whole frame, the server compares its token unless the connection
    fails before it was read. *)
Lemma auth_server_frame fd exp tok rest s e s' :
  auth_is_enabled (Some exp) = true -> Forall is_byte (ws_rx s fd) ->
  (1 <= length tok <= 64)%nat -> ws_rx s fd = handshake_frame tok ++ rest ->
  auth_server_handshake fd (Some exp) s = (e, s') ->
  (ws_rx s' fd = rest /\
   e = if auth_compare exp tok (Z.of_nat (length tok)) =? 0
       then ERR_SUCCESS else ERR_PERMISSION_DENIED) \/
  (e = ERR_PERMISSION_DENIED /\ (length rest < length (ws_rx s' fd))%nat).
Proof.
  intros Hen Hby Hl Hs E. apply auth_server_cases in E as (_ & taken & R & Hr); [|done..].
  rewrite Hs in R. destruct Hr as [(tok' & -> & Hl' & Ht & ->)|[-> Hu]].
  - left. assert (handshake_frame tok' = handshake_frame tok /\ ws_rx s' fd = rest) as [Ef <-].
    { destruct (header_of_frame (magic_bytes ++ [Z.of_nat (length tok)]) (tok ++ rest) tok' (ws_rx s' fd))
        as [_ Hc]; [done|done|by rewrite <-R|].
      simpl in Hc. unfold char_at in Hc. simpl in Hc.
      apply app_inj_1 in R as [-> ->]; [done|]. unfold handshake_frame. rewrite !length_app. simpl. lia. }
    split; [done|]. by injection Ef as _ ->.
  - right. split; [done|]. specialize (Hu tok rest Hl Hs).
    apply (f_equal length) in R. rewrite !length_app in R. lia.
Qed.

(** ** Properties *)

(** C17: the server accepts a client exactly when the client's stream starts with a
    well-formed handshake whose token is the prefix of the expected token of
    length [strlen(expected) mod 256]; it consumes that handshake and nothing
    more.  In particular a server token of at most 64 characters is matched
    exactly. *)
Theorem auth_server_accepts_iff fd exp s e s' :
  no_nul exp -> Forall is_byte exp -> exp <> [] -> Forall is_byte (ws_rx s fd) ->
  auth_server_handshake fd (Some exp) s = (e, s') ->
  (e = ERR_SUCCESS \/ e = ERR_PERMISSION_DENIED) /\
  (e = ERR_SUCCESS <->
   exists tok, ws_rx s fd = handshake_frame tok ++ ws_rx s' fd /\
     (1 <= length tok <= 64)%nat /\
     Z.of_nat (length exp) mod 256 = Z.of_nat (length tok) /\ tok = take (length tok) exp).
Proof.
  intros Hn Hb Hne Hby E. apply auth_server_cases in E as (_ & taken & R & Hr); [|..|done].
  2: { apply auth_enabled_cstr. by rewrite cstr_id. }
  destruct Hr as [(tok & -> & Hl & Ht & ->)|[-> Hu]].
  - pose proof (auth_compare_zero exp tok Hn Hb Ht ltac:(lia)) as Hz.
    destruct (Z.eqb_spec (auth_compare exp tok (Z.of_nat (length tok))) 0) as [E0|E0].
    + split; [by left|]. split; [|done]. intros _. apply Hz in E0 as [? ?]. by exists tok.
    + split; [by right|]. split; [done|]. intros (tok' & R' & Hl' & Hm & Hp).
      destruct E0. apply Hz. rewrite R' in R.
      assert (tok' = tok) as ->; [|done].
      apply app_inj_2 in R as [R _]; [|done]. by injection R.
  - split; [by right|]. split; [done|]. intros (tok & R' & Hl & _).
    specialize (Hu tok _ Hl R'). rewrite R' in R.
    apply (f_equal length) in R. rewrite !length_app in R. lia.
Qed.

(** a client and a server with the same token of 1 to 64 characters agree: the
    client's successful handshake puts exactly its frame on the wire, and a server
    that reads this frame accepts the client and leaves the rest of the stream
    untouched, unless the connection breaks within the frame. *)
Theorem auth_same_token_accepted fd tok s s1 :
  no_nul tok -> Forall is_byte tok -> (1 <= length tok <= 64)%nat ->
  auth_client_handshake fd (Some tok) s = (ERR_SUCCESS, s1) ->
  ws_tx s1 fd = ws_tx s fd ++ handshake_frame tok /\
  forall fd' t rest e t',
    Forall is_byte (ws_rx t fd') -> ws_rx t fd' = handshake_frame tok ++ rest ->
    auth_server_handshake fd' (Some tok) t = (e, t') ->
    e = ERR_SUCCESS /\ ws_rx t' fd' = rest \/
    e = ERR_PERMISSION_DENIED /\ (length rest < length (ws_rx t' fd'))%nat.
Proof.
  intros Hn Hb Hl E.
  assert (auth_is_enabled (Some tok) = true) as Hen.
  { apply auth_enabled_cstr. rewrite cstr_id by done. by destruct tok; [simpl in Hl; lia|]. }
  split.
  - unfold auth_client_handshake in E. rewrite Hen, build_handshake_frame in E by done. cbn [negb] in E.
    apply M_bind_inv in E as (r & s2 & E1 & E2).
    apply net_send_all_post in E1 as [_ Hr]; [|done|].
    2: { unfold handshake_frame. rewrite !length_app. simpl. lia. }
    destruct (Z.eqb_spec r (Z.of_nat (length (handshake_frame tok)))); simpl in E2; mret_eq.
    by destruct Hr as [[_ ?]|[? _]].
  - intros fd' t rest e t' Hby Hs E'. eapply auth_server_frame in E' as [[-> ->]|?]; eauto.
    left. split; [|done]. rewrite (proj2 (auth_compare_zero tok tok Hn Hb Hb ltac:(lia))); [done|].
    split; [apply Z.mod_small; lia|]. by rewrite take_ge.
Qed.

(** the length comparison keeps only eight bits: a server whose token has
    [256 + k] characters ([1 <= k <= 64]) accepts a client that presents just the
    first [k] of them. *)
Theorem auth_overlong_token_prefix fd exp k rest s e s' :
  no_nul exp -> Forall is_byte exp -> (1 <= k <= 64)%nat -> length exp = (256 + k)%nat ->
  Forall is_byte (ws_rx s fd) -> ws_rx s fd = handshake_frame (take k exp) ++ rest ->
  auth_server_handshake fd (Some exp) s = (e, s') -> ws_rx s' fd = rest ->
  e = ERR_SUCCESS.
Proof.
  intros Hn Hb Hk Hl Hby Hs E Hr.
  assert (length (take k exp) = k) as Ht by (rewrite length_take; lia).
  eapply auth_server_frame in E as [[_ ->]|[_ ?]]; [| | |done|by rewrite Ht|done].
  - rewrite (proj2 (auth_compare_zero exp (take k exp) Hn Hb ltac:(by apply Forall_take) ltac:(lia)));
      [done|]. rewrite Ht. split; [|done].
    rewrite Hl. replace (Z.of_nat (256 + k)) with (Z.of_nat k + 1 * 256) by lia.
    rewrite Z.mod_add by lia. apply Z.mod_small. lia.
  - subst rest. lia.
  - apply auth_enabled_cstr. rewrite cstr_id by done. by destruct exp.
Qed.
End properties.

(** ** Witnesses *)

(** ["secret"] *)
Definition example_token : bytes := [115; 101; 99; 114; 101; 116].

Ltac byte_list := repeat first [apply Forall_cons; split; [by vm_compute|] | apply Forall_nil; done].

Definition example_client : Sim.net := Sim.one 5 (handshake_frame example_token ++ [1; 2]) [3; 0; 4]%nat.

Lemma auth_server_accepts_iff_witness :
  (auth_server_handshake 5 (Some example_token) example_client).1 = ERR_SUCCESS <->
  exists tok, ws_rx example_client 5 = handshake_frame tok ++ [1; 2] /\
     (1 <= length tok <= 64)%nat /\ 6 mod 256 = Z.of_nat (length tok) /\
     tok = take (length tok) example_token.
Proof.
  refine (proj2 (auth_server_accepts_iff 5 example_token example_client
      (auth_server_handshake 5 (Some example_token) example_client).1
      (auth_server_handshake 5 (Some example_token) example_client).2 _ _ _ _ _));
    [byte_list|byte_list|done|vm_compute; byte_list|by destruct (auth_server_handshake _ _ _)].
Defined.

Lemma auth_same_token_accepted_witness :
  ws_tx (auth_client_handshake 7 (Some example_token) (Sim.one 7 [] [])).2 7 =
  handshake_frame example_token.
Proof.
  refine (proj1 (auth_same_token_accepted 7 example_token (Sim.one 7 [] [])
      (auth_client_handshake 7 (Some example_token) (Sim.one 7 [] [])).2 _ _ _ _));
    [byte_list|byte_list|vm_compute; lia|by vm_compute].
Defined.

(** A server token of 257 characters is passed with its first character. *)
Definition overlong_client : Sim.net := Sim.one 5 (handshake_frame [97]) [].

Lemma auth_overlong_token_prefix_witness :
  (auth_server_handshake 5 (Some (replicate 257 97)) overlong_client).1 = ERR_SUCCESS.
Proof.
  apply (auth_overlong_token_prefix 5 (replicate 257 97) 1 [] overlong_client _
           (auth_server_handshake 5 (Some (replicate 257 97)) overlong_client).2);
    [by apply Forall_replicate|apply Forall_replicate; by vm_compute|lia|done
    |vm_compute; byte_list|done|by destruct (auth_server_handshake _ _ _)|by vm_compute].
Defined.
