(* ===== verification/UsbHost.v ===== *)
(** * USB host access ([server/usb_host.h], [server/usb_host_win32.c])

    The device and URB structures, the enumeration filters and identifiers, and
    the operations on a device.  A [usb_device_t *] the code updates is passed
    and returned as its value; a [char] array is the C string it holds.  The
    calls to the device installation API are the list of entries it enumerates
    ([di_entry]); WinUSB is the class [WinUsb]. *)

From Stdlib Require Import String.
From S2P Require Import Prelude CTypes Format Errors Protocol.

(** ** Data *)

Definition USB_MAX_INTERFACES : nat := 32.
Definition USB_MAX_STRING_LEN : nat := 256.
Definition URB_TIMEOUT_MS : Z := 5000.

Definition USB_SPEED_UNKNOWN : Z := 0.
Definition USB_SPEED_LOW : Z := 1.
Definition USB_SPEED_FULL : Z := 2.
Definition USB_SPEED_HIGH : Z := 3.
Definition USB_SPEED_SUPER : Z := 5.

Definition USB_DIR_IN : Z := 0x80.
Definition USB_ENDPOINT_XFER_CONTROL : Z := 0.
Definition USB_ENDPOINT_XFER_BULK : Z := 2.

(** [-ECANCELED] of the C runtime. *)
Definition ECANCELED : Z := 105.
Definition ERROR_SEM_TIMEOUT : Z := 121.

Record usb_endpoint_info := {
  ue_address : Z;
  ue_attributes : Z;
  ue_max_packet_size : Z;
  ue_interval : Z;
}.

Record usb_interface_info := {
  uif_number : Z;
  uif_alt_setting : Z;
  uif_class_code : Z;
  uif_subclass_code : Z;
  uif_protocol : Z;
  uif_num_endpoints : Z;
  uif_endpoints : list usb_endpoint_info;
}.

Record usb_device := {
  dev_path : bytes;
  dev_busid : bytes;
  dev_busnum : Z;
  dev_devnum : Z;
  dev_speed : Z;
  dev_vendor_id : Z;
  dev_product_id : Z;
  dev_bcd_device : Z;
  dev_class : Z;
  dev_subclass : Z;
  dev_protocol : Z;
  dev_num_configurations : Z;
  dev_configuration_value : Z;
  dev_num_interfaces : Z;
  dev_manufacturer : bytes;
  dev_product : bytes;
  dev_serial : bytes;
  dev_interfaces : list usb_interface_info;
  dev_handle : ptr Z;
  dev_interface_handles : list (ptr Z);
  dev_is_open : bool;
  dev_is_claimed : bool;
  dev_is_virtual : bool;
  dev_claimed_interface : Z;
}.

Record usb_urb := {
  urb_seqnum : Z;
  urb_devid : Z;
  urb_endpoint : Z;
  urb_direction : Z;
  urb_type : Z;
  urb_transfer_flags : Z;
  urb_setup : bytes;
  urb_buffer : ptr bytes;
  urb_buffer_length : Z;
  urb_actual_length : Z;
  urb_status : Z;
  urb_start_frame : Z;
  urb_number_of_packets : Z;
  urb_interval : Z;
  urb_completed : bool;
  urb_cancelled : bool;
}.

Definition usb_interface_zero : usb_interface_info := {|
  uif_number := 0; uif_alt_setting := 0; uif_class_code := 0; uif_subclass_code := 0;
  uif_protocol := 0; uif_num_endpoints := 0; uif_endpoints := [] |}.

(** [usb_device_t device = {0}]. *)
Definition usb_device_t_zero : usb_device := {|
  dev_path := []; dev_busid := []; dev_busnum := 0; dev_devnum := 0; dev_speed := 0;
  dev_vendor_id := 0; dev_product_id := 0; dev_bcd_device := 0; dev_class := 0;
  dev_subclass := 0; dev_protocol := 0; dev_num_configurations := 0;
  dev_configuration_value := 0; dev_num_interfaces := 0; dev_manufacturer := [];
  dev_product := []; dev_serial := [];
  dev_interfaces := replicate USB_MAX_INTERFACES usb_interface_zero;
  dev_handle := NULL; dev_interface_handles := replicate USB_MAX_INTERFACES NULL;
  dev_is_open := false; dev_is_claimed := false; dev_is_virtual := false;
  dev_claimed_interface := 0 |}.

(** The fields the operations below assign. *)
Definition dev_set_state (d : usb_device) (handle : ptr Z) (ifh : list (ptr Z))
    (is_open is_claimed is_virtual : bool) (claimed : Z) : usb_device := {|
  dev_path := dev_path d; dev_busid := dev_busid d; dev_busnum := dev_busnum d;
  dev_devnum := dev_devnum d; dev_speed := dev_speed d; dev_vendor_id := dev_vendor_id d;
  dev_product_id := dev_product_id d; dev_bcd_device := dev_bcd_device d;
  dev_class := dev_class d; dev_subclass := dev_subclass d; dev_protocol := dev_protocol d;
  dev_num_configurations := dev_num_configurations d;
  dev_configuration_value := dev_configuration_value d;
  dev_num_interfaces := dev_num_interfaces d; dev_manufacturer := dev_manufacturer d;
  dev_product := dev_product d; dev_serial := dev_serial d;
  dev_interfaces := dev_interfaces d; dev_handle := handle; dev_interface_handles := ifh;
  dev_is_open := is_open; dev_is_claimed := is_claimed; dev_is_virtual := is_virtual;
  dev_claimed_interface := claimed |}.

(** ** Identification and filters *)

(** Windows' [USB_DEVICE_SPEED]: low 0, full 1, high 2, super 3. *)
Definition get_usb_speed (speed : Z) : Z :=
  if speed =? 0 then USB_SPEED_LOW
  else if speed =? 1 then USB_SPEED_FULL
  else if speed =? 2 then USB_SPEED_HIGH
  else if speed =? 3 then USB_SPEED_SUPER
  else USB_SPEED_UNKNOWN.

(** One step of FNV-1a on a character, with 32-bit arithmetic. *)
Definition fnv1a_step (hash c : Z) : Z :=
  wrap 32 (Z.lxor hash (wrap 8 c) * 0x01000193).

Definition fnv1a (path : bytes) : Z := fold_left fnv1a_step (cstr path) 0x811c9dc5.

Definition parse_busid_from_path (path : bytes) (busid_len : nat) : bytes :=
  let hash := fnv1a path in
  snprintf busid_len
    (fmt_u (Z.shiftr hash 8 mod 8 + 1) ++ str "-" ++ fmt_u (hash mod 16 + 1)).

(** The standard [strstr]: the suffix of [hay] that starts with [needle]. *)
Fixpoint strstr (hay needle : bytes) : option bytes :=
  if bool_decide (take (length needle) hay = needle) then Some hay
  else match hay with
       | [] => None
       | _ :: hay' => strstr hay' needle
       end.

Definition contains (hay : bytes) (needle : string) : bool :=
  match strstr hay (str needle) with Some _ => true | None => false end.

Definition tolower (c : Z) : Z := if (65 <=? c) && (c <=? 90) then c + 32 else c.

(** [_stricmp(a, b) == 0], [_strnicmp(a, b, n) == 0]. *)
Definition stricmp_eq (a b : bytes) : bool := bool_decide (map tolower a = map tolower b).
Definition strnicmp_eq (a b : bytes) (n : nat) : bool :=
  bool_decide (map tolower (take n a) = map tolower (take n b)).

(** The [for] loop of [stristr] over the suffixes of [haystack]. *)
Fixpoint stristr_loop (haystack needle : bytes) : option bytes :=
  match haystack with
  | [] => None
  | _ :: h' => if strnicmp_eq haystack needle (length needle) then Some haystack
               else stristr_loop h' needle
  end.

Definition stristr (haystack needle : ptr bytes) : option bytes :=
  match haystack, needle with
  | Some h, Some n => if (length n =? 0)%nat then Some h else stristr_loop h n
  | _, _ => None
  end.

Definition is_usb_hub (hardware_id : bytes) : bool :=
  contains hardware_id "ROOT_HUB" || contains hardware_id "USB\HUB" ||
  contains hardware_id "Class_09".

Definition service_is (service_name : ptr bytes) (name : string) : bool :=
  match service_name with
  | Some s => stricmp_eq s (str name)
  | NULL => false
  end.

Definition is_real_usb_device (hardware_id : bytes) (device_desc service_name : ptr bytes) : bool :=
  service_is service_name "USBSTOR" || service_is service_name "usbprint" ||
  service_is service_name "usbser" || service_is service_name "WinUSB" ||
  service_is service_name "usbaudio" || service_is service_name "usbvideo" ||
  contains hardware_id "VID_096E" || contains hardware_id "VID_0529" ||
  contains hardware_id "VID_064F" || contains hardware_id "VID_0403" ||
  contains hardware_id "VID_10C4" || contains hardware_id "VID_067B".

Definition desc_has (device_desc : ptr bytes) (text : string) : bool :=
  match stristr device_desc (Some (str text)) with Some _ => true | None => false end.

Definition should_skip_device (hardware_id : bytes) (device_desc service_name : ptr bytes) : bool :=
  if contains hardware_id "BTHUSB" then true
  else if contains hardware_id "BTH\" then true
  else if desc_has device_desc "bluetooth" then true
  else if contains hardware_id "VID_8087" then true
  else if desc_has device_desc "Host Controller" then true
  else if desc_has device_desc "Root Hub" then true
  else if service_is service_name "HidUsb" then
    if contains hardware_id "VID_096E" then false
    else if contains hardware_id "VID_0529" then false
    else if contains hardware_id "VID_064F" then false
    else true
  else false.

(** ** Enumeration *)

Definition is_xdigit (c : Z) : bool :=
  is_digit c || ((65 <=? c) && (c <=? 70)) || ((97 <=? c) && (c <=? 102)).

Definition xdigit_value (c : Z) : Z :=
  if is_digit c then c - 48 else if c <=? 70 then c - 55 else c - 87.

Definition xdigits_value (s : bytes) : Z := fold_left (fun acc c => 16 * acc + xdigit_value c) s 0.

(** [%04hX]: white space, then at most four characters: a sign, an optional
    [0x], and hexadecimal digits. *)
Definition scan_4hX (s : bytes) : option Z :=
  let w := take 4 (drop_while is_space s) in
  let '(neg, w) :=
    match w with
    | c :: w' => if c =? 45 then (true, w') else if c =? 43 then (false, w') else (false, w)
    | [] => (false, w)
    end in
  let w :=
    match w with
    | z :: x :: w' => if (z =? 48) && ((x =? 120) || (x =? 88)) then w' else w
    | _ => w
    end in
  match take_while is_xdigit w with
  | [] => None
  | ds => Some (wrap 16 (if neg then - xdigits_value ds else xdigits_value ds))
  end.

(** [sscanf(pos, "<prefix>%04hX", &field)] for [pos] found by [strstr]: the field
    keeps its value [old] when nothing is converted. *)
Definition scan_id (pos : bytes) (old : Z) : Z := default old (scan_4hX (drop 4 pos)).

(** What the device installation API reports of one device: the properties read
    into the buffers of the loop ([NULL] for a call that failed), as strings. *)
Record di_entry := {
  di_hardware_id : bytes;
  di_service : bytes;
  di_desc : bytes;
  di_desc_w : ptr (list Z);
  di_friendly_w : list Z;
  di_instance_id : bytes;
}.

(** [hash = hash * 31 + *p], [char] being signed. *)
Definition hash31_step (hash c : Z) : Z := wrap 32 (hash * 31 + sint 8 c).
Definition hash31 (s : bytes) : Z := fold_left hash31_step (cstr s) 0.

Section enumerate.
  (** [WideCharToMultiByte] to UTF-8 into a buffer of the given size. *)
  Variable wide_char_to_utf8 : list Z -> nat -> option bytes.

(** [NULL] arguments do not occur; the result is the string in [utf8]. *)
Definition wide_to_utf8 (wide : list Z) (utf8_size : nat) : bytes :=
  default [] (wide_char_to_utf8 wide utf8_size).

(** The product name: the friendly name, else the description; the description
    is the friendly name when its own property cannot be read. *)
Definition entry_product (e : di_entry) : bytes :=
  let desc_w := default (di_friendly_w e) (di_desc_w e) in
  match di_friendly_w e, desc_w with
  | _ :: _, _ => wide_to_utf8 (di_friendly_w e) USB_MAX_STRING_LEN
  | [], _ :: _ => wide_to_utf8 desc_w USB_MAX_STRING_LEN
  | [], [] => []
  end.

Definition entry_skipped (e : di_entry) : bool :=
  negb (contains (di_hardware_id e) "VID_") || negb (contains (di_hardware_id e) "PID_") ||
  is_usb_hub (di_hardware_id e) ||
  (negb (char_at (di_service e) 0 =? 0) && stricmp_eq (di_service e) (str "usbccgp")) ||
  should_skip_device (di_hardware_id e) (Some (di_desc e)) (Some (di_service e)) ||
  negb (is_real_usb_device (di_hardware_id e) (Some (di_desc e)) (Some (di_service e))).

(** The device built for an entry that passes the filters. *)
Definition entry_device (e : di_entry) : usb_device :=
  let '(vid, pid) :=
    match strstr (di_hardware_id e) (str "VID_"), strstr (di_hardware_id e) (str "PID_") with
    | Some vid_pos, Some pid_pos => (scan_id vid_pos 0, scan_id pid_pos 0)
    | _, _ => (0, 0)
    end in
  let hash := hash31 (di_instance_id e) in {|
  dev_path := take (USBIP_PATH_MAX - 1) (cstr (di_instance_id e));
  dev_busid := parse_busid_from_path (di_instance_id e) USBIP_BUSID_MAX;
  dev_busnum := hash mod 8 + 1;
  dev_devnum := Z.shiftr hash 8 mod 127 + 1;
  dev_speed := USB_SPEED_HIGH;
  dev_vendor_id := vid; dev_product_id := pid; dev_bcd_device := 0;
  dev_class := 0; dev_subclass := 0; dev_protocol := 0;
  dev_num_configurations := 1; dev_configuration_value := 1; dev_num_interfaces := 1;
  dev_manufacturer := []; dev_product := entry_product e; dev_serial := [];
  dev_interfaces := replicate USB_MAX_INTERFACES usb_interface_zero;
  dev_handle := NULL; dev_interface_handles := replicate USB_MAX_INTERFACES NULL;
  dev_is_open := false; dev_is_claimed := false; dev_is_virtual := false;
  dev_claimed_interface := 0 |}.

(** The [while] loop: [callback] is called on each device, in order, with the
    caller's data of type [A]. *)
Fixpoint enumerate_loop {A} (entries : list di_entry) (callback : usb_device -> A -> A)
    (user_data : A) : A :=
  match entries with
  | [] => user_data
  | e :: es =>
      enumerate_loop es callback
        (if entry_skipped e then user_data else callback (entry_device e) user_data)
  end.

(** [dev_info] is [NULL] when [SetupDiGetClassDevsW] fails. *)
Definition usb_enumerate_devices {A} (initialized : bool) (dev_info : ptr (list di_entry))
    (callback : usb_device -> A -> A) (user_data : A) : error_code * A :=
  return_if negb initialized with (ERR_NOT_INITIALIZED, user_data) ;;
  match dev_info with
  | NULL => (ERR_USB_INIT, user_data)
  | Some entries => (ERR_SUCCESS, enumerate_loop entries callback user_data)
  end.

Definition count_device_callback (device : usb_device) (count : Z) : Z := count + 1.

Definition usb_get_device_count (initialized : bool) (dev_info : ptr (list di_entry)) : Z :=
  (usb_enumerate_devices initialized dev_info count_device_callback 0).2.

(** [data->found] and the copied device. *)
Definition find_device_callback (busid : bytes) (device : usb_device) (data : ptr usb_device) :
    ptr usb_device :=
  match data with
  | NULL => if streq (dev_busid device) busid then Some device else NULL
  | Some d => Some d
  end.

Definition usb_find_device (initialized : bool) (dev_info : ptr (list di_entry)) (busid : bytes) :
    error_code * ptr usb_device :=
  let '(err, data) := usb_enumerate_devices initialized dev_info (find_device_callback busid) NULL in
  return_if negb (error_code_eqb err ERR_SUCCESS) with (err, data) ;;
  (match data with Some _ => ERR_SUCCESS | NULL => ERR_USB_NOT_FOUND end, data).

Definition find_vidpid_callback (vendor_id product_id : Z) (device : usb_device)
    (data : ptr usb_device) : ptr usb_device :=
  match data with
  | NULL =>
      if (dev_vendor_id device =? vendor_id) && (dev_product_id device =? product_id)
      then Some device else NULL
  | Some d => Some d
  end.

Definition usb_find_device_by_vid_pid (initialized : bool) (dev_info : ptr (list di_entry))
    (vendor_id product_id : Z) : error_code * ptr usb_device :=
  let '(err, data) := usb_enumerate_devices initialized dev_info
                        (find_vidpid_callback vendor_id product_id) NULL in
  return_if negb (error_code_eqb err ERR_SUCCESS) with (err, data) ;;
  (match data with Some _ => ERR_SUCCESS | NULL => ERR_USB_NOT_FOUND end, data).
End enumerate.

(** ** WinUSB *)

Record setup_packet := {
  sp_bmRequestType : Z;
  sp_bRequest : Z;
  sp_wValue : Z;
  sp_wIndex : Z;
  sp_wLength : Z;
}.

(** A transfer: the bytes moved, with success or the error [GetLastError]
    returns. *)
Inductive io_res :=
  | IoOk (transferred : bytes)
  | IoErr (err : Z) (transferred : bytes).

Class WinUsb (U : Type) := {
  CreateFileA : bytes -> M U (ptr Z);
  CloseHandle : Z -> M U unit;
  WinUsb_Initialize : Z -> M U (ptr Z);
  WinUsb_Free : Z -> M U unit;
  WinUsb_SetPipePolicy : ptr Z -> Z -> Z -> M U unit;
  WinUsb_ControlTransfer : ptr Z -> setup_packet -> ptr bytes -> Z -> M U io_res;
  WinUsb_ReadPipe : ptr Z -> Z -> Z -> M U io_res;
  WinUsb_WritePipe : ptr Z -> Z -> ptr bytes -> Z -> M U io_res;
  WinUsb_AbortPipe : ptr Z -> Z -> M U unit;
  WinUsb_SetCurrentAlternateSetting : ptr Z -> Z -> M U bool;
}.

Section operations.
  Context {U : Type} `{WinUsb U}.

Definition interface_handle (d : usb_device) (i : nat) : ptr Z :=
  default NULL (dev_interface_handles d !! i).

Definition open_virtual (d : usb_device) : usb_device :=
  dev_set_state d NULL (dev_interface_handles d) true (dev_is_claimed d) true
    (dev_claimed_interface d).

Definition usb_open_device (device : ptr usb_device) : M U (error_code * ptr usb_device) :=
  match device with
  | NULL => mret (ERR_INVALID_PARAM, NULL)
  | Some d =>
      if char_at (dev_path d) 0 =? 0 then mret (ERR_INVALID_PARAM, device) else
      if dev_is_open d then mret (ERR_SUCCESS, device) else
      file_handle ← CreateFileA (dev_path d);
      match file_handle with
      | NULL => mret (ERR_SUCCESS, Some (open_virtual d))
      | Some file_handle =>
          winusb_handle ← WinUsb_Initialize file_handle;
          match winusb_handle with
          | NULL =>
              CloseHandle file_handle ;;
              mret (ERR_SUCCESS, Some (open_virtual d))
          | Some winusb_handle =>
              mret (ERR_SUCCESS,
                Some (dev_set_state d (Some file_handle)
                       (<[0%nat := Some winusb_handle]> (dev_interface_handles d))
                       true (dev_is_claimed d) false (dev_claimed_interface d)))
          end
      end
  end.

Definition usb_claim_interface (device : ptr usb_device) (interface_num : Z) :
    error_code * ptr usb_device :=
  match device with
  | NULL => (ERR_INVALID_PARAM, NULL)
  | Some d =>
      return_if negb (dev_is_open d) with (ERR_INVALID_PARAM, device) ;;
      if dev_is_claimed d then
        if dev_claimed_interface d =? interface_num then (ERR_SUCCESS, device)
        else (ERR_USB_BUSY, device)
      else
        (ERR_SUCCESS,
          Some (dev_set_state d (dev_handle d) (dev_interface_handles d) (dev_is_open d)
                  true (dev_is_virtual d) interface_num))
  end.

Definition usb_release_interface (device : ptr usb_device) (interface_num : Z) :
    error_code * ptr usb_device :=
  match device with
  | NULL => (ERR_INVALID_PARAM, NULL)
  | Some d =>
      return_if negb (dev_is_open d) with (ERR_INVALID_PARAM, device) ;;
      return_if negb (dev_is_claimed d) || negb (dev_claimed_interface d =? interface_num)
        with (ERR_SUCCESS, device) ;;
      (ERR_SUCCESS,
        Some (dev_set_state d (dev_handle d) (dev_interface_handles d) (dev_is_open d)
                false (dev_is_virtual d) (-1)))
  end.

(** The loop that frees the interface handles. *)
Fixpoint free_interface_handles (ifh : list (ptr Z)) : M U (list (ptr Z)) :=
  match ifh with
  | [] => mret []
  | h :: ifh' =>
      match h with
      | Some h => WinUsb_Free h
      | NULL => mret tt
      end ;;
      rest ← free_interface_handles ifh';
      mret (NULL :: rest)
  end.

Definition usb_close_device (device : ptr usb_device) : M U (ptr usb_device) :=
  match device with
  | NULL => mret NULL
  | Some d =>
      if negb (dev_is_open d) then mret device else
      let d := if dev_is_claimed d
               then default d (usb_release_interface (Some d) (wrap 8 (dev_claimed_interface d))).2
               else d in
      '(handle, ifh) ←
        (if negb (dev_is_virtual d) then
           ifh ← free_interface_handles (dev_interface_handles d);
           match dev_handle d with
           | Some h => CloseHandle h ;; mret (NULL, ifh)
           | NULL => mret (NULL, ifh)
           end
         else mret (dev_handle d, dev_interface_handles d));
      mret (Some (dev_set_state d handle ifh false (dev_is_claimed d) false
                    (dev_claimed_interface d)))
  end.

Definition usb_reset_device (device : ptr usb_device) : M U (error_code * ptr usb_device) :=
  match device with
  | NULL => mret (ERR_INVALID_PARAM, NULL)
  | Some d =>
      if negb (dev_is_open d) then mret (ERR_INVALID_PARAM, device) else
      d ← usb_close_device device;
      usb_open_device d
  end.

(** [interface_num] is below [USB_MAX_INTERFACES] at every caller. *)
Definition usb_set_interface (device : ptr usb_device) (interface_num alt_setting : Z) :
    M U error_code :=
  match device with
  | NULL => mret ERR_INVALID_PARAM
  | Some d =>
      if negb (dev_is_open d) then mret ERR_INVALID_PARAM else
      let winusb := match interface_handle d (Z.to_nat interface_num) with
                    | NULL => interface_handle d 0
                    | h => h
                    end in
      ok ← WinUsb_SetCurrentAlternateSetting winusb alt_setting;
      mret (if (ok : bool) then ERR_SUCCESS else ERR_USB_IO_FAILED)
  end.

(** ** Transfers *)

(** A transfer returns its result with the bytes moved, whose number is what the
    call stores through [actual_length]. *)
Definition usb_control_transfer (device : ptr usb_device) (request_type request value index : Z)
    (data : ptr bytes) (len timeout_ms : Z) : M U (error_code * bytes) :=
  match device with
  | NULL => mret (ERR_INVALID_PARAM, [])
  | Some d =>
      if negb (dev_is_open d) then mret (ERR_INVALID_PARAM, []) else
      let winusb := interface_handle d 0 in
      let setup := {| sp_bmRequestType := request_type; sp_bRequest := request;
                      sp_wValue := value; sp_wIndex := index; sp_wLength := len |} in
      WinUsb_SetPipePolicy winusb 0 timeout_ms ;;
      r ← WinUsb_ControlTransfer winusb setup data len;
      match r with
      | IoErr err _ =>
          if err =? ERROR_SEM_TIMEOUT then mret (ERR_TIMEOUT, []) else mret (ERR_USB_IO_FAILED, [])
      | IoOk transferred => mret (ERR_SUCCESS, transferred)
      end
  end.

Definition usb_bulk_transfer (device : ptr usb_device) (endpoint : Z) (data : ptr bytes)
    (len timeout_ms : Z) : M U (error_code * bytes) :=
  match device with
  | NULL => mret (ERR_INVALID_PARAM, [])
  | Some d =>
      if negb (dev_is_open d) then mret (ERR_INVALID_PARAM, []) else
      let winusb := interface_handle d 0 in
      WinUsb_SetPipePolicy winusb endpoint timeout_ms ;;
      r ← (if negb (Z.land endpoint USB_DIR_IN =? 0)
           then WinUsb_ReadPipe winusb endpoint len
           else WinUsb_WritePipe winusb endpoint data len);
      match r with
      | IoErr err transferred =>
          if err =? ERROR_SEM_TIMEOUT then mret (ERR_TIMEOUT, transferred)
          else mret (ERR_USB_IO_FAILED, [])
      | IoOk transferred => mret (ERR_SUCCESS, transferred)
      end
  end.

Definition usb_interrupt_transfer := usb_bulk_transfer.

(** ** URBs *)

(** [(usb_setup_packet_t * )urb->setup] on a little-endian host. *)
Definition setup_of (setup : bytes) : setup_packet := {|
  sp_bmRequestType := of_le (take 1 setup);
  sp_bRequest := of_le (take 1 (drop 1 setup));
  sp_wValue := of_le (take 2 (drop 2 setup));
  sp_wIndex := of_le (take 2 (drop 4 setup));
  sp_wLength := of_le (take 2 (drop 6 setup)) |}.

(** The buffer after a transfer that read [moved] into it. *)
Definition store_read (is_read : bool) (buffer : ptr bytes) (moved : bytes) : ptr bytes :=
  if is_read then (fun b => moved ++ drop (length moved) b) <$> buffer else buffer.

Definition urb_complete (u : usb_urb) (buffer : ptr bytes) (actual_length status : Z) : usb_urb := {|
  urb_seqnum := urb_seqnum u; urb_devid := urb_devid u; urb_endpoint := urb_endpoint u;
  urb_direction := urb_direction u; urb_type := urb_type u;
  urb_transfer_flags := urb_transfer_flags u; urb_setup := urb_setup u;
  urb_buffer := buffer; urb_buffer_length := urb_buffer_length u;
  urb_actual_length := actual_length; urb_status := status;
  urb_start_frame := urb_start_frame u; urb_number_of_packets := urb_number_of_packets u;
  urb_interval := urb_interval u; urb_completed := true; urb_cancelled := urb_cancelled u |}.

Definition usb_submit_urb (device : ptr usb_device) (urb : ptr usb_urb) :
    M U (error_code * ptr usb_urb) :=
  match device, urb with
  | Some d, Some u =>
      if negb (dev_is_open d) then mret (ERR_INVALID_PARAM, urb) else
      '(result, moved, is_read) ←
        (if urb_endpoint u =? 0 then
           let setup := setup_of (urb_setup u) in
           '(result, moved) ← usb_control_transfer device
              (sp_bmRequestType setup) (sp_bRequest setup) (sp_wValue setup) (sp_wIndex setup)
              (urb_buffer u) (wrap 16 (urb_buffer_length u)) URB_TIMEOUT_MS;
           mret (result, moved, negb (Z.land (sp_bmRequestType setup) USB_DIR_IN =? 0))
         else
           '(result, moved) ←
             (if urb_type u =? USB_ENDPOINT_XFER_BULK
              then usb_bulk_transfer device (urb_endpoint u) (urb_buffer u)
                     (urb_buffer_length u) URB_TIMEOUT_MS
              else usb_interrupt_transfer device (urb_endpoint u) (urb_buffer u)
                     (urb_buffer_length u) URB_TIMEOUT_MS);
           mret (result, moved, negb (Z.land (urb_endpoint u) USB_DIR_IN =? 0)));
      mret (result,
        Some (urb_complete u (store_read is_read (urb_buffer u) moved)
                (Z.of_nat (length moved))
                (if error_code_eqb result ERR_SUCCESS then 0 else -1)))
  | _, _ => mret (ERR_INVALID_PARAM, urb)
  end.

Definition urb_cancel (u : usb_urb) : usb_urb := {|
  urb_seqnum := urb_seqnum u; urb_devid := urb_devid u; urb_endpoint := urb_endpoint u;
  urb_direction := urb_direction u; urb_type := urb_type u;
  urb_transfer_flags := urb_transfer_flags u; urb_setup := urb_setup u;
  urb_buffer := urb_buffer u; urb_buffer_length := urb_buffer_length u;
  urb_actual_length := urb_actual_length u; urb_status := - ECANCELED;
  urb_start_frame := urb_start_frame u; urb_number_of_packets := urb_number_of_packets u;
  urb_interval := urb_interval u; urb_completed := true; urb_cancelled := true |}.

Definition usb_cancel_urb (device : ptr usb_device) (urb : ptr usb_urb) :
    M U (error_code * ptr usb_urb) :=
  match device, urb with
  | Some d, Some u =>
      WinUsb_AbortPipe (interface_handle d 0) (urb_endpoint u) ;;
      mret (ERR_SUCCESS, Some (urb_cancel u))
  | _, _ => mret (ERR_INVALID_PARAM, urb)
  end.
End operations.

(** ** Conversion to the protocol's records *)

Definition usb_device_to_usbip (device : usb_device) : usbip_usb_device := {|
  ud_path := str_copy (replicate USBIP_PATH_MAX 0) (dev_path device) USBIP_PATH_MAX;
  ud_busid := str_copy (replicate USBIP_BUSID_MAX 0) (dev_busid device) USBIP_BUSID_MAX;
  ud_busnum := dev_busnum device; ud_devnum := dev_devnum device; ud_speed := dev_speed device;
  ud_idVendor := dev_vendor_id device; ud_idProduct := dev_product_id device;
  ud_bcdDevice := dev_bcd_device device; ud_bDeviceClass := dev_class device;
  ud_bDeviceSubClass := dev_subclass device; ud_bDeviceProtocol := dev_protocol device;
  ud_bConfigurationValue := dev_configuration_value device;
  ud_bNumConfigurations := dev_num_configurations device;
  ud_bNumInterfaces := dev_num_interfaces device |}.

Definition usb_interface_to_usbip (iface : usb_interface_info) : usbip_usb_interface := {|
  ui_bInterfaceClass := uif_class_code iface;
  ui_bInterfaceSubClass := uif_subclass_code iface;
  ui_bInterfaceProtocol := uif_protocol iface;
  ui_padding := 0 |}.

(** ** What WinUSB promises *)

(** A transfer moves at most the requested number of bytes; a handle is open from
    the call that returns it to the call that closes it, and transfers neither
    open nor close one. *)
Class WinUsbLaws (U : Type) `{WinUsb U} := {
  open_files : U -> gset Z;
  open_usb : U -> gset Z;
  read_pipe_len h ep n u r u' :
    WinUsb_ReadPipe h ep n u = (r, u') -> 0 <= n ->
    match r with IoOk bs | IoErr _ bs => Z.of_nat (length bs) <= n /\ Forall is_byte bs end;
  write_pipe_len h ep data n u r u' :
    WinUsb_WritePipe h ep data n u = (r, u') -> 0 <= n ->
    match r with IoOk bs | IoErr _ bs => Z.of_nat (length bs) <= n /\ Forall is_byte bs end;
  control_len h sp data n u r u' :
    WinUsb_ControlTransfer h sp data n u = (r, u') -> 0 <= n ->
    match r with IoOk bs | IoErr _ bs => Z.of_nat (length bs) <= n /\ Forall is_byte bs end;
  create_file_open p u r u' :
    CreateFileA p u = (r, u') ->
    open_usb u' = open_usb u /\
    match r with
    | Some h => h ∉ open_files u /\ open_files u' = {[h]} ∪ open_files u
    | NULL => open_files u' = open_files u
    end;
  close_handle_open h u u' :
    CloseHandle h u = (tt, u') ->
    open_usb u' = open_usb u /\ open_files u' = open_files u ∖ {[h]};
  initialize_open f u r u' :
    WinUsb_Initialize f u = (r, u') ->
    open_files u' = open_files u /\
    match r with
    | Some h => h ∉ open_usb u /\ open_usb u' = {[h]} ∪ open_usb u
    | NULL => open_usb u' = open_usb u
    end;
  free_open h u u' :
    WinUsb_Free h u = (tt, u') ->
    open_files u' = open_files u /\ open_usb u' = open_usb u ∖ {[h]};
  policy_open h ep v u r u' :
    WinUsb_SetPipePolicy h ep v u = (r, u') -> open_files u' = open_files u /\ open_usb u' = open_usb u;
  read_open h ep n u r u' :
    WinUsb_ReadPipe h ep n u = (r, u') -> open_files u' = open_files u /\ open_usb u' = open_usb u;
  write_open h ep data n u r u' :
    WinUsb_WritePipe h ep data n u = (r, u') -> open_files u' = open_files u /\ open_usb u' = open_usb u;
  control_open h sp data n u r u' :
    WinUsb_ControlTransfer h sp data n u = (r, u') ->
    open_files u' = open_files u /\ open_usb u' = open_usb u;
}.

(** ** Lemmas: identifiers *)

Definition busid_text (bp : Z * Z) : bytes :=
  snprintf USBIP_BUSID_MAX (fmt_u bp.1 ++ str "-" ++ fmt_u bp.2).

(** Every bus id the program can produce. *)
Definition all_busids : list bytes := busid_text <$> cprod (seqZ 1 8) (seqZ 1 16).

Lemma parse_busid_elem path : parse_busid_from_path path USBIP_BUSID_MAX ∈ all_busids.
Proof.
  apply list_elem_of_fmap.
  exists (Z.shiftr (fnv1a path) 8 mod 8 + 1, fnv1a path mod 16 + 1). split; [done|].
  apply list_elem_of_cprod. rewrite !elem_of_seqZ. simpl.
  pose proof (Z.mod_pos_bound (Z.shiftr (fnv1a path) 8) 8).
  pose proof (Z.mod_pos_bound (fnv1a path) 16). lia.
Qed.

Lemma parse_busid_nonempty path : parse_busid_from_path path USBIP_BUSID_MAX <> [].
Proof.
  assert (Forall (fun b => b <> []) all_busids) as Hf.
  { apply (bool_decide_unpack _). by vm_compute. }
  rewrite Forall_forall in Hf. apply Hf, parse_busid_elem.
Qed.

Lemma busids_collide paths :
  (128 < length paths)%nat -> ~ NoDup (map (fun p => parse_busid_from_path p USBIP_BUSID_MAX) paths).
Proof.
  intros Hl Hd. apply NoDup_ListNoDup, (List.NoDup_incl_length (l' := all_busids)) in Hd.
  - rewrite length_map in Hd. change (length all_busids) with 128%nat in Hd. lia.
  - intros b Hb%list_elem_of_In. apply list_elem_of_In.
    apply list_elem_of_fmap in Hb as (p & -> & _). apply parse_busid_elem.
Qed.

(** ** Lemmas: enumeration *)

Section enumeration.
  Context (utf8 : list Z -> nat -> option bytes).

(** The devices reported, in order. *)
Definition enumerated (entries : list di_entry) : list usb_device :=
  entry_device utf8 <$> filter (fun e => entry_skipped e = false) entries.

Lemma enumerate_loop_fold {A} entries (f : usb_device -> A -> A) a :
  enumerate_loop utf8 entries f a = fold_left (fun a d => f d a) (enumerated entries) a.
Proof.
  revert a. induction entries as [|e es IH]; intros a; simpl; [done|]. rewrite IH.
  unfold enumerated. rewrite filter_cons. destruct (entry_skipped e); by rewrite ?decide_True, ?decide_False by done.
Qed.

Lemma fold_find_first (p : usb_device -> bool) (f : usb_device -> ptr usb_device -> ptr usb_device) l :
  (forall d a, f d a = match a with NULL => if p d then Some d else NULL | Some x => Some x end) ->
  fold_left (fun a d => f d a) l NULL = find_first p l.
Proof.
  intros Hf. assert (forall l x, fold_left (fun a d => f d a) l (Some x) = Some x) as Hs.
  { clear l. induction l as [|d l IH]; intros x; simpl; [done|]. by rewrite Hf, IH. }
  induction l as [|d l IH]; simpl; [done|]. rewrite Hf. by destruct (p d).
Qed.
End enumeration.

(** ** Lemmas: devices *)

(** Field ranges and string sizes of a device: what the C types enforce. *)
Definition dev_wf (d : usb_device) : Prop :=
  (no_nul (dev_path d) /\ Forall is_byte (dev_path d) /\ (length (dev_path d) < 256)%nat) /\
  (no_nul (dev_busid d) /\ Forall is_byte (dev_busid d) /\ (length (dev_busid d) < 32)%nat) /\
  is_u 32 (dev_busnum d) /\ is_u 32 (dev_devnum d) /\ is_u 32 (dev_speed d) /\
  is_u 16 (dev_vendor_id d) /\ is_u 16 (dev_product_id d) /\ is_u 16 (dev_bcd_device d) /\
  is_u 8 (dev_class d) /\ is_u 8 (dev_subclass d) /\ is_u 8 (dev_protocol d) /\
  is_u 8 (dev_configuration_value d) /\ is_u 8 (dev_num_configurations d) /\
  is_u 8 (dev_num_interfaces d).

(** The handles of a device agree with its flags. *)
Definition dev_inv (d : usb_device) : Prop :=
  length (dev_interface_handles d) = USB_MAX_INTERFACES /\
  (dev_is_open d = false ->
     dev_handle d = NULL /\ Forall (fun h => h = NULL) (dev_interface_handles d) /\
     dev_is_claimed d = false /\ dev_is_virtual d = false) /\
  (dev_is_virtual d = true ->
     dev_handle d = NULL /\ Forall (fun h => h = NULL) (dev_interface_handles d)) /\
  (dev_is_claimed d = true -> is_u 8 (dev_claimed_interface d)).

Definition owned_files (d : usb_device) : gset Z :=
  match dev_handle d with Some h => {[h]} | NULL => ∅ end.
Definition owned_usb (d : usb_device) : gset Z := list_to_set (omap id (dev_interface_handles d)).

(** The identity of a device: everything but its handles and flags. *)
Definition same_device (d d' : usb_device) : Prop :=
  d' = dev_set_state d (dev_handle d') (dev_interface_handles d') (dev_is_open d')
         (dev_is_claimed d') (dev_is_virtual d') (dev_claimed_interface d').

Lemma same_device_refl d : same_device d d.
Proof. by destruct d. Qed.

Lemma same_device_set d h ifh o c v n : same_device d (dev_set_state d h ifh o c v n).
Proof. by destruct d. Qed.

Lemma same_device_trans d1 d2 d3 : same_device d1 d2 -> same_device d2 d3 -> same_device d1 d3.
Proof. unfold same_device. intros H1 H2. rewrite H2, H1. by destruct d1. Qed.

Lemma same_device_virtual d : same_device d (open_virtual d).
Proof. apply same_device_set. Qed.

#[export] Hint Resolve same_device_refl same_device_set same_device_virtual : usbip.

Lemma omap_null (l : list (ptr Z)) : Forall (fun h => h = NULL) l -> omap id l = [].
Proof. induction 1 as [|h l -> _ IH]; simpl; auto. Qed.

Lemma dev_inv_closed_owns d :
  dev_inv d -> dev_is_open d = false -> owned_files d = ∅ /\ owned_usb d = ∅.
Proof.
  intros (_ & Hc & _) Ho. destruct (Hc Ho) as (Hh & Hi & _).
  unfold owned_files, owned_usb. rewrite Hh, omap_null by done. done.
Qed.

Lemma fmt_u_chars n : 0 <= n -> Forall (fun c => is_byte c /\ c <> 0) (fmt_u n).
Proof.
  intros Hn. eapply Forall_impl; [by apply fmt_u_digits|]. intros c Hc.
  unfold is_digit in Hc. bool_to_prop. split; [split|]; simpl; lia.
Qed.

Lemma busid_chars path :
  Forall (fun c => is_byte c /\ c <> 0) (parse_busid_from_path path USBIP_BUSID_MAX).
Proof.
  unfold parse_busid_from_path, snprintf. apply Forall_take.
  pose proof (Z.mod_pos_bound (Z.shiftr (fnv1a path) 8) 8).
  pose proof (Z.mod_pos_bound (fnv1a path) 16).
  apply Forall_app; split; [apply fmt_u_chars; lia|].
  apply Forall_app; split; [|apply fmt_u_chars; lia].
  repeat constructor; by vm_compute.
Qed.

Lemma scan_id_range pos : is_u 16 (scan_id pos 0).
Proof.
  unfold scan_id, scan_4hX. repeat case_match; simpl; try by apply is_u_wrap.
  all: by vm_compute.
Qed.

Lemma cstr_bytes s : Forall is_byte s -> Forall is_byte (cstr s).
Proof.
  induction 1 as [|c s Hc _ IH]; simpl; [constructor|]. destruct (c =? 0); by constructor.
Qed.

(** Every enumerated device has fields in range and strings that fit. *)
Lemma entry_device_wf utf8 e :
  Forall is_byte (di_instance_id e) -> dev_wf (entry_device utf8 e).
Proof.
  intros Hb. unfold entry_device.
  pose proof (busid_chars (di_instance_id e)) as Hc. apply Forall_and in Hc as [Hc1 Hc2].
  pose proof (Z.mod_pos_bound (hash31 (di_instance_id e)) 8).
  pose proof (Z.mod_pos_bound (Z.shiftr (hash31 (di_instance_id e)) 8) 127).
  destruct (match strstr _ _ with Some _ => _ | None => _ end) as [vid pid] eqn:Ev.
  assert (is_u 16 vid /\ is_u 16 pid) as [? ?].
  { repeat case_match; simplify_eq; (split; apply scan_id_range) || (by vm_compute). }
  unfold dev_wf. cbn -[USBIP_PATH_MAX is_u parse_busid_from_path Z.modulo].
  split_and!; try assumption; try (unfold is_u, USB_SPEED_HIGH; clear -H H0; lia).
  - auto with usbip.
  - by apply Forall_take, cstr_bytes.
  - rewrite length_take. unfold USBIP_PATH_MAX. lia.
  - unfold parse_busid_from_path, snprintf, USBIP_BUSID_MAX. rewrite length_take. lia.
Qed.

Lemma str_copy_bytes dst src n :
  (0 < n <= length dst)%nat -> Forall is_byte dst -> Forall is_byte src ->
  Forall is_byte (str_copy dst src n).
Proof.
  intros Hn Hd Hs. rewrite str_copy_spec by done.
  apply Forall_app; split; [by apply Forall_take, cstr_bytes|].
  constructor; [by vm_compute|by apply Forall_drop].
Qed.

Lemma zeros_bytes n : Forall is_byte (replicate n 0).
Proof. apply Forall_replicate. by vm_compute. Qed.

Lemma str_copy_field src n :
  (0 < n)%nat -> Forall is_byte src ->
  Forall is_byte (str_copy (replicate n 0) src n) /\ length (str_copy (replicate n 0) src n) = n.
Proof.
  intros Hn Hs. split.
  - apply str_copy_bytes; [rewrite length_replicate; lia|apply zeros_bytes|done].
  - rewrite length_str_copy by (rewrite length_replicate; lia). apply length_replicate.
Qed.

Lemma device_to_usbip_ok d : dev_wf d -> fields_ok (usb_device_to_usbip d).
Proof.
  intros ((? & ? & ?) & (? & ? & ?) & Hr).
  split; [apply str_copy_field; [unfold USBIP_PATH_MAX; lia|done]|].
  split; [apply str_copy_field; [unfold USBIP_BUSID_MAX; lia|done]|exact Hr].
Qed.

Lemma device_to_usbip_strings d :
  dev_wf d -> cstr (ud_path (usb_device_to_usbip d)) = dev_path d /\
    cstr (ud_busid (usb_device_to_usbip d)) = dev_busid d.
Proof.
  intros ((? & ? & ?) & (? & ? & ?) & _). cbn [usb_device_to_usbip ud_path ud_busid].
  rewrite !cstr_str_copy by (rewrite ?length_replicate; unfold USBIP_PATH_MAX, USBIP_BUSID_MAX; lia).
  rewrite !cstr_id by done. split; apply take_ge; unfold USBIP_PATH_MAX, USBIP_BUSID_MAX; lia.
Qed.

Section device_ops.
  Context {U : Type} `{WinUsbLaws U}.
  Implicit Types u : U.

(** [u'] has the handles of [u] and those [d'] owns. *)
Definition handles_taken (d' : usb_device) u u' : Prop :=
  open_files u' = owned_files d' ∪ open_files u /\ open_usb u' = owned_usb d' ∪ open_usb u /\
  owned_files d' ## open_files u /\ owned_usb d' ## open_usb u.

Lemma handles_taken_none d' u u' :
  owned_files d' = ∅ -> owned_usb d' = ∅ ->
  open_files u' = open_files u -> open_usb u' = open_usb u -> handles_taken d' u u'.
Proof. unfold handles_taken. intros -> -> -> ->. split_and!; set_solver. Qed.

Lemma handles_taken_two d' f h u u' :
  owned_files d' = {[f]} -> owned_usb d' = {[h]} -> f ∉ open_files u -> h ∉ open_usb u ->
  open_files u' = {[f]} ∪ open_files u -> open_usb u' = {[h]} ∪ open_usb u ->
  handles_taken d' u u'.
Proof. unfold handles_taken. intros -> -> ? ? -> ->. split_and!; set_solver. Qed.

Lemma open_virtual_owns d :
  Forall (fun h => h = NULL) (dev_interface_handles d) ->
  owned_files (open_virtual d) = ∅ /\ owned_usb (open_virtual d) = ∅.
Proof. intros. unfold owned_files, owned_usb. simpl. by rewrite omap_null. Qed.

Lemma open_winusb_owns d f h c v n :
  Forall (fun h => h = NULL) (dev_interface_handles d) ->
  length (dev_interface_handles d) = USB_MAX_INTERFACES ->
  let d' := dev_set_state d (Some f) (<[0%nat := Some h]> (dev_interface_handles d)) true c v n in
  owned_files d' = {[f]} /\ owned_usb d' = {[h]}.
Proof.
  intros Hf Hl. unfold owned_files, owned_usb. simpl. split; [done|].
  destruct (dev_interface_handles d) as [|x l]; [done|]. inversion Hf; subst. simpl.
  rewrite omap_null by done. set_solver.
Qed.

(** The calls that open a closed device, and the handles they leave open. *)
Lemma open_closed_spec d u e r u' :
  dev_inv d -> dev_is_open d = false -> char_at (dev_path d) 0 <> 0 ->
  usb_open_device (Some d) u = ((e, r), u') ->
  e = ERR_SUCCESS /\ exists d', r = Some d' /\ dev_inv d' /\ same_device d d' /\
    dev_is_open d' = true /\ handles_taken d' u u'.
Proof.
  intros (Hlen & Hc & Hv & Hk) Ho Hz E. destruct (Hc Ho) as (Hh & Hf & Hcl & Hvi).
  unfold usb_open_device in E. apply Z.eqb_neq in Hz. rewrite Hz, Ho in E.
  assert (dev_inv (open_virtual d)) as Hiv by (by split_and!).
  destruct (open_virtual_owns d Hf) as [Of Ou].
  apply M_bind_inv in E as (r1 & u1 & E1 & E).
  apply create_file_open in E1 as [Eu Ef]. destruct r1 as [fh|]; cycle 1.
  { mret_eq. split; [done|]. eexists. split_and!; auto with usbip. by apply handles_taken_none. }
  destruct Ef as [Hn Ef]. apply M_bind_inv in E as (r2 & u2 & E2 & E).
  apply initialize_open in E2 as [Ef2 Eu2]. destruct r2 as [wh|]; cycle 1.
  { apply M_bind_inv in E as ([] & u3 & E3 & E). apply close_handle_open in E3 as [Eu3 Ef3].
    mret_eq. split; [done|]. eexists. split_and!; auto with usbip.
    apply handles_taken_none; [done|done| |congruence]. rewrite Ef3, Ef2, Ef. set_solver. }
  destruct Eu2 as [Hnu Eu2]. mret_eq. split; [done|]. eexists. split_and!; auto with usbip.
  - split_and!; simpl; try done. by rewrite length_insert.
  - destruct (open_winusb_owns d fh wh (dev_is_claimed d) false (dev_claimed_interface d) Hf Hlen).
    eapply handles_taken_two; [done|done|done|..]; congruence.
Qed.

Lemma free_interface_handles_spec ifh u r u' :
  free_interface_handles ifh u = (r, u') ->
  r = replicate (length ifh) NULL /\ open_files u' = open_files u /\
  open_usb u' = open_usb u ∖ list_to_set (omap id ifh).
Proof.
  revert u r u'. induction ifh as [|h ifh IH]; intros u r u' E; simpl in E.
  { mret_eq. split_and!; [done..|set_solver]. }
  apply M_bind_inv in E as ([] & u1 & E1 & E). apply M_bind_inv in E as (rest & u2 & E2 & E).
  apply IH in E2 as (-> & Ef & Eu). mret_eq. destruct h as [h|]; simpl.
  - apply free_open in E1 as [Ef1 Eu1]. split_and!; [done|congruence|set_solver].
  - mret_eq. done.
Qed.

(** Closing a device releases exactly the handles it owns. *)
Lemma close_device_spec d u r u' :
  dev_inv d -> usb_close_device (Some d) u = (r, u') ->
  exists d', r = Some d' /\ dev_inv d' /\ same_device d d' /\ dev_is_open d' = false /\
    open_files u' = open_files u ∖ owned_files d /\ open_usb u' = open_usb u ∖ owned_usb d.
Proof.
  intros Hi E. pose proof Hi as (Hlen & Hc & Hv & Hk). unfold usb_close_device in E.
  destruct (dev_is_open d) eqn:Ho; simpl in E; cycle 1.
  { mret_eq. exists d. destruct (dev_inv_closed_owns d Hi Ho) as [-> ->].
    split_and!; auto with usbip; set_solver. }
  set (d1 := if dev_is_claimed d then _ else _) in E.
  assert (dev_handle d1 = dev_handle d /\ dev_interface_handles d1 = dev_interface_handles d /\
    dev_is_claimed d1 = false /\ dev_is_virtual d1 = dev_is_virtual d /\ same_device d d1)
    as (E1 & E2 & E3 & E4 & E5).
  { subst d1. destruct (dev_is_claimed d) eqn:Ecl; [|by split_and!; auto with usbip].
    unfold usb_release_interface. rewrite Ho.
    rewrite (wrap_small 8) by auto. rewrite Z.eqb_refl. simpl. by split_and!; auto with usbip. }
  clearbody d1. apply M_bind_inv in E as ([h ifh] & u1 & Eb & E). mret_eq.
  rewrite E4, E2, E1 in Eb. eexists. split; [done|].
  destruct (dev_is_virtual d) eqn:Evi; simpl in Eb.
  - mret_eq. destruct (Hv eq_refl) as [Hh Hf].
    assert (owned_files d = ∅ /\ owned_usb d = ∅) as [-> ->].
    { unfold owned_files, owned_usb. by rewrite Hh, omap_null. }
    split_and!; [..|set_solver|set_solver]; simpl; [|by apply (same_device_trans d d1); auto with usbip|done].
    split_and!; simpl; [done|done|done|by rewrite E3].
  - apply M_bind_inv in Eb as (ifh' & u2 & Ef & Eb).
    apply free_interface_handles_spec in Ef as (-> & Ef & Eu).
    assert (h = NULL /\ ifh = replicate (length (dev_interface_handles d)) NULL /\
      open_files u' = open_files u ∖ owned_files d /\ open_usb u' = open_usb u ∖ owned_usb d)
      as (-> & -> & ? & ?).
    { unfold owned_files, owned_usb. destruct (dev_handle d) as [h0|].
      - apply M_bind_inv in Eb as ([] & u3 & Ecl & Eb). apply close_handle_open in Ecl as [? ?].
        mret_eq. split_and!; [done..|congruence|congruence].
      - mret_eq. split_and!; [done..|set_solver|done]. }
    split_and!; [|by apply (same_device_trans d d1); auto with usbip|done..].
    split_and!; simpl; [by rewrite length_replicate| |done|by rewrite E3].
    intros _. split_and!; [done| |done|done]. by apply Forall_replicate.
Qed.

(** ** Lemmas: transfers *)

Lemma nothing_moved len : 0 <= len -> Z.of_nat (length (@nil Z)) <= len /\ Forall is_byte [].
Proof. done. Qed.

Lemma bulk_transfer_len d ep data len ms u res moved u' :
  0 <= len -> usb_bulk_transfer (Some d) ep data len ms u = ((res, moved), u') ->
  Z.of_nat (length moved) <= len /\ Forall is_byte moved.
Proof.
  intros Hl E. unfold usb_bulk_transfer in E. destruct (negb (dev_is_open d)); [mret_eq; by apply nothing_moved|].
  apply M_bind_inv in E as ([] & u1 & _ & E). apply M_bind_inv in E as (r & u2 & E1 & E).
  assert (match r with IoOk bs | IoErr _ bs => Z.of_nat (length bs) <= len /\ Forall is_byte bs end).
  { destruct (negb _); [by eapply read_pipe_len|by eapply write_pipe_len]. }
  destruct r as [bs|err bs]; [by mret_eq|].
  destruct (err =? ERROR_SEM_TIMEOUT); mret_eq; first [done|by apply nothing_moved].
Qed.

Lemma control_transfer_len d a b c e data len ms u res moved u' :
  0 <= len -> usb_control_transfer (Some d) a b c e data len ms u = ((res, moved), u') ->
  Z.of_nat (length moved) <= len /\ Forall is_byte moved.
Proof.
  intros Hl E. unfold usb_control_transfer in E. destruct (negb (dev_is_open d)); [mret_eq; by apply nothing_moved|].
  apply M_bind_inv in E as ([] & u1 & _ & E). apply M_bind_inv in E as (r & u2 & E1 & E).
  eapply control_len in E1; [|done].
  destruct r as [bs|err bs]; [by mret_eq|].
  destruct (err =? ERROR_SEM_TIMEOUT); mret_eq; first [done|by apply nothing_moved].
Qed.

(** The limit a transfer of [n] bytes is given: 16 bits for a control transfer. *)
Definition transfer_limit (ub : usb_urb) : Z :=
  if urb_endpoint ub =? 0 then wrap 16 (urb_buffer_length ub) else urb_buffer_length ub.

Definition urb_buffer_ok (ub : usb_urb) : Prop :=
  is_u 32 (urb_buffer_length ub) /\
  match urb_buffer ub with
  | Some b => Z.of_nat (length b) = urb_buffer_length ub /\ Forall is_byte b
  | NULL => urb_buffer_length ub = 0
  end.

Lemma store_read_ok is_read buffer moved len :
  Z.of_nat (length moved) <= len -> Forall is_byte moved ->
  match buffer with
  | Some b => Z.of_nat (length b) = len /\ Forall is_byte b | NULL => len = 0 end ->
  match store_read is_read buffer moved with
  | Some b => Z.of_nat (length b) = len /\ Forall is_byte b | NULL => len = 0 end.
Proof.
  intros Hm Hb. unfold store_read. destruct is_read; [|done]. destruct buffer as [b|]; simpl; [|done].
  intros [<- Hbb]. split; [rewrite length_app, length_drop; lia|].
  apply Forall_app; split; [done|by apply Forall_drop].
Qed.

Lemma submit_urb_spec d ub u e r u' :
  dev_is_open d = true -> urb_buffer_ok ub ->
  usb_submit_urb (Some d) (Some ub) u = ((e, r), u') ->
  exists buf n, r = Some (urb_complete ub buf n (if error_code_eqb e ERR_SUCCESS then 0 else -1)) /\
    0 <= n <= transfer_limit ub /\
    match buf with
    | Some b => Z.of_nat (length b) = urb_buffer_length ub /\ Forall is_byte b
    | NULL => urb_buffer_length ub = 0 end.
Proof.
  intros Ho [Hlen Hbuf] E. unfold usb_submit_urb in E. rewrite Ho in E. simpl in E.
  apply M_bind_inv in E as ([[res moved] rd] & u1 & E1 & E). mret_eq.
  eexists _, _. split; [done|].
  assert (Z.of_nat (length moved) <= transfer_limit ub /\ Forall is_byte moved) as [Hm Hb].
  { unfold transfer_limit. destruct (urb_endpoint ub =? 0).
    - apply M_bind_inv in E1 as ([] & u2 & E1 & E2). mret_eq.
      eapply control_transfer_len; [|done]. by apply is_u_wrap.
    - apply M_bind_inv in E1 as ([] & u2 & E1 & E2). mret_eq.
      destruct (_ =? _); (eapply bulk_transfer_len; [|exact E1]); apply Hlen. }
  split; [lia|]. apply store_read_ok; [|done..].
  pose proof (Z.mod_le (urb_buffer_length ub) (2 ^ 16)) as Hle. destruct Hlen as [Hn _].
  unfold transfer_limit, wrap in Hm. destruct (_ =? _); lia.
Qed.

(** *** Transfers keep the handles *)

Definition same_handles u u' : Prop := open_files u' = open_files u /\ open_usb u' = open_usb u.

#[export] Instance same_handles_preorder : PreOrder same_handles.
Proof.
  unfold same_handles. split; [done|]. intros u1 u2 u3 [E1 E2] [E3 E4]. split; congruence.
Qed.

Lemma bulk_transfer_handles dev ep data len ms u r u' :
  usb_bulk_transfer dev ep data len ms u = (r, u') -> same_handles u u'.
Proof.
  intros E. unfold usb_bulk_transfer in E. destruct dev as [d|]; [|by mret_eq].
  destruct (negb (dev_is_open d)); [by mret_eq|].
  apply M_bind_inv in E as ([] & u1 & E1 & E). apply M_bind_inv in E as (x & u2 & E2 & E).
  apply policy_open in E1. assert (same_handles u1 u2).
  { destruct (negb _); [by eapply read_open|by eapply write_open]. }
  assert (u' = u2) as -> by (repeat case_match; by mret_eq). by etrans.
Qed.

Lemma control_transfer_handles dev a b c e data len ms u r u' :
  usb_control_transfer dev a b c e data len ms u = (r, u') -> same_handles u u'.
Proof.
  intros E. unfold usb_control_transfer in E. destruct dev as [d|]; [|by mret_eq].
  destruct (negb (dev_is_open d)); [by mret_eq|].
  apply M_bind_inv in E as ([] & u1 & E1 & E). apply M_bind_inv in E as (x & u2 & E2 & E).
  apply policy_open in E1. apply control_open in E2.
  assert (u' = u2) as -> by (repeat case_match; by mret_eq). by etrans.
Qed.

Lemma submit_urb_handles dev ub u r u' : usb_submit_urb dev ub u = (r, u') -> same_handles u u'.
Proof.
  intros E. unfold usb_submit_urb in E. destruct dev as [d|], ub as [ub|]; try by mret_eq.
  destruct (negb (dev_is_open d)); [by mret_eq|].
  apply M_bind_inv in E as ([[res moved] rd] & u1 & E1 & E).
  assert (same_handles u u1); [|by mret_eq].
  destruct (urb_endpoint ub =? 0); apply M_bind_inv in E1 as ([] & u2 & E1 & E2).
  - apply control_transfer_handles in E1. by mret_eq.
  - assert (same_handles u u2); [|by mret_eq].
    destruct (_ =? _); eapply bulk_transfer_handles; exact E1.
Qed.

(** ** Properties *)

(** a device that was closed is closed again by [usb_close_device] after
    [usb_open_device], whichever of the WinUSB calls failed in between, and every
    handle opened on the way has been closed: no file or WinUSB handle leaks and
    no handle of another device is touched.  Apart from its handles and flags the
    device is unchanged. *)
Theorem open_close_no_leak d u e r u1 r' u2 :
  dev_inv d -> dev_is_open d = false ->
  usb_open_device (Some d) u = ((e, r), u1) ->
  usb_close_device r u1 = (r', u2) ->
  open_files u2 = open_files u /\ open_usb u2 = open_usb u /\
  exists d', r' = Some d' /\ dev_inv d' /\ same_device d d' /\ dev_is_open d' = false.
Proof.
  intros Hi Ho E1 E2. destruct (decide (char_at (dev_path d) 0 = 0)) as [Hz|Hz].
  - unfold usb_open_device in E1. rewrite Hz in E1. simpl in E1. mret_eq.
    unfold usb_close_device in E2. rewrite Ho in E2. simpl in E2. mret_eq.
    split_and!; [done..|]. eauto with usbip.
  - destruct (open_closed_spec d u e r u1) as (-> & d1 & -> & Hi1 & Hs1 & _ & T1 & T2 & T3 & T4);
      [done..|].
    destruct (close_device_spec d1 u1 r' u2) as (d2 & -> & Hi2 & Hs2 & Ho2 & F1 & F2); [done..|].
    split_and!; [rewrite F1, T1|rewrite F2, T2|].
    1-2: clear -T3 T4; set_solver.
    exists d2. split_and!; [done..| |done]. by eapply same_device_trans.
Qed.

(** C26: an accepted URB always completes, with status 0 exactly on success and -1
    otherwise; the reported length never exceeds the length of the transfer it
    asked for, and the buffer keeps its size. *)
Theorem submit_urb_bounds d ub u e r u' :
  dev_is_open d = true -> urb_buffer_ok ub ->
  usb_submit_urb (Some d) (Some ub) u = ((e, r), u') ->
  exists ub', r = Some ub' /\ urb_completed ub' = true /\
    urb_seqnum ub' = urb_seqnum ub /\ urb_endpoint ub' = urb_endpoint ub /\
    urb_direction ub' = urb_direction ub /\
    (urb_status ub' = 0 /\ e = ERR_SUCCESS \/ urb_status ub' = -1 /\ e <> ERR_SUCCESS) /\
    0 <= urb_actual_length ub' <= transfer_limit ub /\ urb_buffer_ok ub'.
Proof.
  intros Ho Hb E. destruct (submit_urb_spec d ub u e r u' Ho Hb E) as (buf & n & -> & Hn & Hbuf).
  eexists. split; [done|]. split_and!; simpl; try lia; try done.
  - destruct (error_code_eqb e ERR_SUCCESS) eqn:Ee; [left|right].
    + by apply error_code_eqb_true in Ee.
    + split; [done|]. intros He. apply error_code_eqb_true in He. congruence.
  - split; [apply Hb|done].
Qed.
End device_ops.

(** the program has only 128 bus ids: among more than 128 attached devices,
    two have the same one, although each is addressed by it alone.  Every bus id
    fits the 32-byte field of the protocol. *)
Theorem busid_collisions paths :
  (128 < length paths)%nat ->
  ~ NoDup (map (fun p => parse_busid_from_path p USBIP_BUSID_MAX) paths) /\
  Forall (fun p => (length (parse_busid_from_path p USBIP_BUSID_MAX) < USBIP_BUSID_MAX)%nat) paths.
Proof.
  intros Hl. split; [by apply busids_collide|]. apply Forall_forall. intros p _.
  unfold parse_busid_from_path, snprintf, USBIP_BUSID_MAX. rewrite length_take. lia.
Qed.

(** the record a device is announced with carries its path, bus id and
    descriptor fields unchanged across the wire, and every device the enumeration
    produces can be announced so. *)
Theorem device_record_faithful d :
  dev_wf d ->
  let r := usb_device_to_usbip d in
  cstr (ud_path r) = dev_path d /\ cstr (ud_busid r) = dev_busid d /\
  ud_idVendor r = dev_vendor_id d /\ ud_idProduct r = dev_product_id d /\
  wire_decode (wire_encode r) = r.
Proof.
  intros Hd r. destruct (device_to_usbip_strings d Hd) as [? ?].
  split_and!; try done. apply wire_decode_encode. by apply device_to_usbip_ok.
Qed.

(** looking a device up by bus id or by vendor and product returns the first
    enumerated device that matches; the filters are applied before, so a hub or
    an excluded device is never returned. *)
Theorem find_device_first utf8 entries busid vid pid :
  usb_find_device utf8 true (Some entries) busid =
    (let r := find_first (fun d => streq (dev_busid d) busid) (enumerated utf8 entries) in
     (match r with Some _ => ERR_SUCCESS | NULL => ERR_USB_NOT_FOUND end, r)) /\
  usb_find_device_by_vid_pid utf8 true (Some entries) vid pid =
    (let r := find_first (fun d => (dev_vendor_id d =? vid) && (dev_product_id d =? pid))
                (enumerated utf8 entries) in
     (match r with Some _ => ERR_SUCCESS | NULL => ERR_USB_NOT_FOUND end, r)) /\
  usb_get_device_count utf8 true (Some entries) = Z.of_nat (length (enumerated utf8 entries)).
Proof.
  unfold usb_find_device, usb_find_device_by_vid_pid, usb_get_device_count, usb_enumerate_devices.
  simpl. rewrite !enumerate_loop_fold.
  rewrite (fold_find_first (fun d => streq (dev_busid d) busid)) by (by intros ? []).
  rewrite (fold_find_first (fun d => (dev_vendor_id d =? vid) && (dev_product_id d =? pid)))
    by (by intros ? []).
  split_and!; [done|done|]. unfold count_device_callback. rewrite <-(Z.add_0_l (Z.of_nat _)).
  generalize 0. induction (enumerated utf8 entries) as [|d l IH]; intros z; simpl; [lia|].
  rewrite IH. lia.
Qed.

(** ** A concrete WinUSB

    Handles are numbers; the bytes that reads return come from a script. *)
Module SimUsb.

Record usb := {
  s_files : gset Z;
  s_usb : gset Z;
  s_next : Z;
  s_reads : list io_res;
}.

Definition create_file (path : bytes) : M usb (ptr Z) := fun s =>
  if bool_decide (s_next s ∈ s_files s) then (NULL, s)
  else (Some (s_next s), {| s_files := {[s_next s]} ∪ s_files s; s_usb := s_usb s;
                            s_next := s_next s + 1; s_reads := s_reads s |}).

Definition initialize (f : Z) : M usb (ptr Z) := fun s =>
  if bool_decide (s_next s ∈ s_usb s) then (NULL, s)
  else (Some (s_next s), {| s_files := s_files s; s_usb := {[s_next s]} ∪ s_usb s;
                            s_next := s_next s + 1; s_reads := s_reads s |}).

(** At most [n] of the given values, as bytes. *)
Definition clip (n : Z) (bs : bytes) : bytes := wrap 8 <$> take (Z.to_nat n) bs.

Definition transfer (n : Z) : M usb io_res := fun s =>
  match s_reads s with
  | [] => (IoErr ERROR_SEM_TIMEOUT [], s)
  | r :: rs =>
      (match r with IoOk bs => IoOk (clip n bs) | IoErr e bs => IoErr e (clip n bs) end,
       {| s_files := s_files s; s_usb := s_usb s; s_next := s_next s; s_reads := rs |})
  end.

#[global] Instance winusb : WinUsb usb := {|
  CreateFileA := create_file;
  CloseHandle h s := (tt, {| s_files := s_files s ∖ {[h]}; s_usb := s_usb s;
                             s_next := s_next s; s_reads := s_reads s |});
  WinUsb_Initialize := initialize;
  WinUsb_Free h s := (tt, {| s_files := s_files s; s_usb := s_usb s ∖ {[h]};
                             s_next := s_next s; s_reads := s_reads s |});
  WinUsb_SetPipePolicy _ _ _ := mret tt;
  WinUsb_ControlTransfer _ _ _ n := transfer n;
  WinUsb_ReadPipe _ _ n := transfer n;
  WinUsb_WritePipe _ _ data n := mret (IoOk (clip n (default [] data)));
  WinUsb_AbortPipe _ _ := mret tt;
  WinUsb_SetCurrentAlternateSetting _ _ := mret true |}.

Lemma clip_ok n bs : 0 <= n -> Z.of_nat (length (clip n bs)) <= n /\ Forall is_byte (clip n bs).
Proof.
  intros Hn. unfold clip. rewrite length_fmap, length_take. split; [lia|].
  apply Forall_fmap, Forall_forall. intros x _. by apply is_u_wrap.
Qed.

Lemma transfer_ok n s r s' :
  transfer n s = (r, s') -> 0 <= n ->
  match r with IoOk bs | IoErr _ bs => Z.of_nat (length bs) <= n /\ Forall is_byte bs end.
Proof.
  unfold transfer. intros E Hn. destruct (s_reads s) as [|x rs]; simplify_eq; [done|].
  destruct x; by apply clip_ok.
Qed.

Lemma transfer_open n s r s' :
  transfer n s = (r, s') -> s_files s' = s_files s /\ s_usb s' = s_usb s.
Proof. unfold transfer. intros E. destruct (s_reads s); by simplify_eq. Qed.

#[global] Program Instance winusb_laws : WinUsbLaws usb := {| open_files := s_files; open_usb := s_usb |}.
Next Obligation. intros. by eapply transfer_ok. Qed.
Next Obligation. intros h ep data n u r u' E Hn. simpl in E. mret_eq. by apply clip_ok. Qed.
Next Obligation. intros. by eapply transfer_ok. Qed.
Next Obligation.
  intros p u r u' E. simpl in E. unfold create_file in E.
  destruct (bool_decide _) eqn:Eb; simplify_eq; bool_to_prop; done.
Qed.
Next Obligation. intros h u u' E. simpl in E. by simplify_eq. Qed.
Next Obligation.
  intros p u r u' E. simpl in E. unfold initialize in E.
  destruct (bool_decide _) eqn:Eb; simplify_eq; bool_to_prop; done.
Qed.
Next Obligation. intros h u u' E. simpl in E. by simplify_eq. Qed.
Next Obligation. intros h ep v u r u' E. simpl in E. by mret_eq. Qed.
Next Obligation. intros h ep n u r u' E. by eapply transfer_open. Qed.
Next Obligation. intros h ep data n u r u' E. simpl in E. by mret_eq. Qed.
Next Obligation. intros h sp data n u r u' E. by eapply transfer_open. Qed.

Definition start (reads : list io_res) : usb :=
  {| s_files := ∅; s_usb := ∅; s_next := 100; s_reads := reads |}.
End SimUsb.

(** ** Witnesses *)

(** A flash drive as the device installation API reports it. *)
Definition example_entry : di_entry := {|
  di_hardware_id := str "USB\VID_0781&PID_5567&REV_0100";
  di_service := str "USBSTOR"; di_desc := str "USB Mass Storage Device";
  di_desc_w := NULL; di_friendly_w := []; di_instance_id := str "USB\VID_0781&PID_5567\200435" |}.

Definition example_device : usb_device := entry_device (fun _ _ => None) example_entry.

Lemma example_device_inv : dev_inv example_device.
Proof. split_and!; try done. intros _. split_and!; try done. by apply Forall_replicate. Qed.

Lemma open_close_no_leak_witness :
  let '((e, r), u1) := usb_open_device (Some example_device) (SimUsb.start []) in
  let '(r', u2) := usb_close_device r u1 in
  open_files u2 = open_files (SimUsb.start []) /\ open_usb u2 = open_usb (SimUsb.start []).
Proof.
  destruct (usb_open_device (Some example_device) (SimUsb.start [])) as [[e r] u1] eqn:E1.
  destruct (usb_close_device r u1) as [r' u2] eqn:E2.
  destruct (open_close_no_leak example_device (SimUsb.start []) e r u1 r' u2)
    as (A & B & _); [apply example_device_inv|done|done|done|by split].
Defined.

Definition example_urb (ep len : Z) : usb_urb := {|
  urb_seqnum := 7; urb_devid := 0x10002; urb_endpoint := ep; urb_direction := 1;
  urb_type := USB_ENDPOINT_XFER_BULK; urb_transfer_flags := 0; urb_setup := replicate 8 0;
  urb_buffer := Some (replicate (Z.to_nat len) 0); urb_buffer_length := len;
  urb_actual_length := 0; urb_status := 0; urb_start_frame := 0; urb_number_of_packets := 0;
  urb_interval := 0; urb_completed := false; urb_cancelled := false |}.

Definition example_open : usb_device := open_virtual example_device.

Lemma submit_urb_bounds_witness :
  let '((e, r), u') := usb_submit_urb (Some example_open) (Some (example_urb 0x81 4))
                         (SimUsb.start [IoOk [1; 2; 3; 4; 5; 6]]) in
  exists ub', r = Some ub' /\ 0 <= urb_actual_length ub' <= 4.
Proof.
  destruct (usb_submit_urb _ _ _) as [[e r] u'] eqn:E.
  destruct (submit_urb_bounds example_open (example_urb 0x81 4)
    (SimUsb.start [IoOk [1; 2; 3; 4; 5; 6]]) e r u')
    as (ub' & Hr & _ & _ & _ & _ & _ & Hn & _); [done| |exact E|by exists ub'].
  split; [by vm_compute|]. split; [done|]. simpl. repeat constructor; by vm_compute.
Defined.

(** A control transfer keeps only 16 bits of its length: one of 65536 bytes asks
    the device for none. *)
Example control_length_truncated :
  transfer_limit (example_urb 0 65536) = 0 /\ transfer_limit (example_urb 0x81 65536) = 65536.
Proof. by vm_compute. Qed.

Definition example_paths : list bytes := (fun n => str "USB\VID_046D&PID_C52B\" ++ fmt_u n) <$> seqZ 0 129.

Lemma busid_collisions_witness :
  ~ NoDup (map (fun p => parse_busid_from_path p USBIP_BUSID_MAX) example_paths).
Proof. apply (busid_collisions example_paths). vm_compute. lia. Defined.

(** Two devices of the same model with the same bus id. *)
Example busid_collision :
  let a := str "USB\VID_046D&PID_C52B\26" in let b := str "USB\VID_046D&PID_C52B\40" in
  a <> b /\ parse_busid_from_path a USBIP_BUSID_MAX = str "2-14" /\
  parse_busid_from_path b USBIP_BUSID_MAX = str "2-14".
Proof. by vm_compute. Qed.

Lemma device_record_faithful_witness :
  cstr (ud_busid (usb_device_to_usbip example_device)) = dev_busid example_device.
Proof. apply (device_record_faithful example_device). apply entry_device_wf; repeat constructor; by vm_compute. Defined.
