(* ===== verification/UsbDefs.v ===== *)
(** * USB's structures and addresses ([common/usb_defs.h])

    The packed descriptors with their bytes, the setup packet of a control transfer, and
    the macros that take endpoint addresses and the value of a descriptor request apart
    and put them together.  The device descriptor is in [UsbDescriptors]; the names of
    classes and speeds are in [ServerMain]. *)

From Stdlib Require Import String.
From S2P Require Import Prelude CTypes Format Errors Protocol Net ProtocolIO Auth UsbHost.

(** ** Constants *)

Definition USB_DIR_OUT : Z := 0x00.
Definition USB_DIR_MASK : Z := 0x80.
Definition USB_DT_CONFIG_SIZE : nat := 9.
Definition USB_DT_INTERFACE_SIZE : nat := 9.
Definition USB_DT_ENDPOINT_SIZE : nat := 7.
Definition USB_ENDPOINT_XFER_MASK : Z := 0x03.
Definition USB_ENDPOINT_NUMBER_MASK : Z := 0x0F.

(** ** Structures *)

Record usb_config_descriptor := {
  cd_bLength : Z;
  cd_bDescriptorType : Z;
  cd_wTotalLength : Z;
  cd_bNumInterfaces : Z;
  cd_bConfigurationValue : Z;
  cd_iConfiguration : Z;
  cd_bmAttributes : Z;
  cd_bMaxPower : Z;
}.

Record usb_interface_descriptor := {
  id_bLength : Z;
  id_bDescriptorType : Z;
  id_bInterfaceNumber : Z;
  id_bAlternateSetting : Z;
  id_bNumEndpoints : Z;
  id_bInterfaceClass : Z;
  id_bInterfaceSubClass : Z;
  id_bInterfaceProtocol : Z;
  id_iInterface : Z;
}.

Record usb_endpoint_descriptor := {
  ed_bLength : Z;
  ed_bDescriptorType : Z;
  ed_bEndpointAddress : Z;
  ed_bmAttributes : Z;
  ed_wMaxPacketSize : Z;
  ed_bInterval : Z;
}.

(** *** Their bytes *)

Definition setup_mem (s : setup_packet) : bytes :=
  to_le 1 (sp_bmRequestType s) ++ to_le 1 (sp_bRequest s) ++ to_le 2 (sp_wValue s) ++
  to_le 2 (sp_wIndex s) ++ to_le 2 (sp_wLength s).

Definition setup_ok (s : setup_packet) : Prop :=
  is_u 8 (sp_bmRequestType s) /\ is_u 8 (sp_bRequest s) /\ is_u 16 (sp_wValue s) /\
  is_u 16 (sp_wIndex s) /\ is_u 16 (sp_wLength s).

Definition config_mem (d : usb_config_descriptor) : bytes :=
  to_le 1 (cd_bLength d) ++ to_le 1 (cd_bDescriptorType d) ++ to_le 2 (cd_wTotalLength d) ++
  to_le 1 (cd_bNumInterfaces d) ++ to_le 1 (cd_bConfigurationValue d) ++ to_le 1 (cd_iConfiguration d) ++
  to_le 1 (cd_bmAttributes d) ++ to_le 1 (cd_bMaxPower d).

Definition config_of (bs : bytes) : usb_config_descriptor :=
  let b1 := drop 1 bs in let b2 := drop 1 b1 in let b3 := drop 2 b2 in let b4 := drop 1 b3 in
  let b5 := drop 1 b4 in let b6 := drop 1 b5 in let b7 := drop 1 b6 in {|
  cd_bLength := of_le (take 1 bs); cd_bDescriptorType := of_le (take 1 b1);
  cd_wTotalLength := of_le (take 2 b2); cd_bNumInterfaces := of_le (take 1 b3);
  cd_bConfigurationValue := of_le (take 1 b4); cd_iConfiguration := of_le (take 1 b5);
  cd_bmAttributes := of_le (take 1 b6); cd_bMaxPower := of_le (take 1 b7) |}.

Definition config_ok (d : usb_config_descriptor) : Prop :=
  is_u 8 (cd_bLength d) /\ is_u 8 (cd_bDescriptorType d) /\ is_u 16 (cd_wTotalLength d) /\
  is_u 8 (cd_bNumInterfaces d) /\ is_u 8 (cd_bConfigurationValue d) /\ is_u 8 (cd_iConfiguration d) /\
  is_u 8 (cd_bmAttributes d) /\ is_u 8 (cd_bMaxPower d).

Definition interface_mem (d : usb_interface_descriptor) : bytes :=
  to_le 1 (id_bLength d) ++ to_le 1 (id_bDescriptorType d) ++ to_le 1 (id_bInterfaceNumber d) ++
  to_le 1 (id_bAlternateSetting d) ++ to_le 1 (id_bNumEndpoints d) ++ to_le 1 (id_bInterfaceClass d) ++
  to_le 1 (id_bInterfaceSubClass d) ++ to_le 1 (id_bInterfaceProtocol d) ++ to_le 1 (id_iInterface d).

Definition interface_of (bs : bytes) : usb_interface_descriptor :=
  let b1 := drop 1 bs in let b2 := drop 1 b1 in let b3 := drop 1 b2 in let b4 := drop 1 b3 in
  let b5 := drop 1 b4 in let b6 := drop 1 b5 in let b7 := drop 1 b6 in let b8 := drop 1 b7 in {|
  id_bLength := of_le (take 1 bs); id_bDescriptorType := of_le (take 1 b1);
  id_bInterfaceNumber := of_le (take 1 b2); id_bAlternateSetting := of_le (take 1 b3);
  id_bNumEndpoints := of_le (take 1 b4); id_bInterfaceClass := of_le (take 1 b5);
  id_bInterfaceSubClass := of_le (take 1 b6); id_bInterfaceProtocol := of_le (take 1 b7);
  id_iInterface := of_le (take 1 b8) |}.

Definition interface_ok (d : usb_interface_descriptor) : Prop :=
  is_u 8 (id_bLength d) /\ is_u 8 (id_bDescriptorType d) /\ is_u 8 (id_bInterfaceNumber d) /\
  is_u 8 (id_bAlternateSetting d) /\ is_u 8 (id_bNumEndpoints d) /\ is_u 8 (id_bInterfaceClass d) /\
  is_u 8 (id_bInterfaceSubClass d) /\ is_u 8 (id_bInterfaceProtocol d) /\ is_u 8 (id_iInterface d).

Definition endpoint_mem (d : usb_endpoint_descriptor) : bytes :=
  to_le 1 (ed_bLength d) ++ to_le 1 (ed_bDescriptorType d) ++ to_le 1 (ed_bEndpointAddress d) ++
  to_le 1 (ed_bmAttributes d) ++ to_le 2 (ed_wMaxPacketSize d) ++ to_le 1 (ed_bInterval d).

Definition endpoint_of (bs : bytes) : usb_endpoint_descriptor :=
  let b1 := drop 1 bs in let b2 := drop 1 b1 in let b3 := drop 1 b2 in let b4 := drop 1 b3 in
  let b5 := drop 2 b4 in {|
  ed_bLength := of_le (take 1 bs); ed_bDescriptorType := of_le (take 1 b1);
  ed_bEndpointAddress := of_le (take 1 b2); ed_bmAttributes := of_le (take 1 b3);
  ed_wMaxPacketSize := of_le (take 2 b4); ed_bInterval := of_le (take 1 b5) |}.

Definition endpoint_ok (d : usb_endpoint_descriptor) : Prop :=
  is_u 8 (ed_bLength d) /\ is_u 8 (ed_bDescriptorType d) /\ is_u 8 (ed_bEndpointAddress d) /\
  is_u 8 (ed_bmAttributes d) /\ is_u 16 (ed_wMaxPacketSize d) /\ is_u 8 (ed_bInterval d).

(** ** Addresses and requests *)

Definition USB_EP_NUM (addr : Z) : Z := Z.land addr USB_ENDPOINT_NUMBER_MASK.
Definition USB_EP_DIR (addr : Z) : Z := Z.land addr USB_DIR_MASK.
Definition USB_EP_IS_IN (addr : Z) : bool := Z.land addr USB_DIR_MASK =? USB_DIR_IN.
Definition USB_EP_IS_OUT (addr : Z) : bool := Z.land addr USB_DIR_MASK =? USB_DIR_OUT.
Definition USB_EP_TYPE (attr : Z) : Z := Z.land attr USB_ENDPOINT_XFER_MASK.
Definition USB_EP_ADDR (num dir : Z) : Z := Z.lor (Z.land num 0x0F) (Z.land dir USB_DIR_MASK).
Definition USB_DESC_INDEX (wValue : Z) : Z := Z.land wValue 0xFF.
Definition USB_DESC_TYPE (wValue : Z) : Z := Z.land (Z.shiftr wValue 8) 0xFF.
Definition USB_DESC_WVALUE (type index : Z) : Z := Z.lor (Z.shiftl type 8) index.

(** ** The structures as memory *)

(** The five laws of a structure whose members are integers. *)
Ltac struct_laws :=
  match goal with
  | |- length _ = _ => by rewrite !length_app, !length_to_le
  | |- Forall is_byte _ => bytes_pieces
  | H : Forall is_byte ?bs |- _ = ?bs => struct_fields; rebuild
  | H : Forall is_byte _ |- _ => split_and!; struct_fields; field_range
  | |- _ = _ => destruct_and!; struct_fields; by read_fields
  end.

(** [setup_of], reading from left to right. *)
Lemma setup_of_next bs :
  setup_of bs =
  let b1 := drop 1 bs in let b2 := drop 1 b1 in let b3 := drop 2 b2 in let b4 := drop 2 b3 in {|
  sp_bmRequestType := of_le (take 1 bs); sp_bRequest := of_le (take 1 b1); sp_wValue := of_le (take 2 b2);
  sp_wIndex := of_le (take 2 b3); sp_wLength := of_le (take 2 b4) |}.
Proof. unfold setup_of. cbv zeta. by rewrite !drop_drop. Qed.

#[export] Program Instance setup_struct : CStruct setup_packet := {|
  sizeof := 8; to_mem := setup_mem; of_mem := setup_of; fields_ok := setup_ok |}.
Next Obligation. intros s _. unfold setup_mem. struct_laws. Qed.
Next Obligation. intros s _. unfold setup_mem. struct_laws. Qed.
Next Obligation. intros [] Hs. rewrite setup_of_next. unfold setup_mem, setup_ok in *. struct_laws. Qed.
Next Obligation. intros bs Hb Hl. rewrite setup_of_next. unfold setup_ok. struct_laws. Qed.
Next Obligation. intros bs Hb Hl. rewrite setup_of_next. unfold setup_mem. struct_laws. Qed.

#[export] Program Instance config_struct : CStruct usb_config_descriptor := {|
  sizeof := USB_DT_CONFIG_SIZE; to_mem := config_mem; of_mem := config_of; fields_ok := config_ok |}.
Next Obligation. intros d _. unfold config_mem. struct_laws. Qed.
Next Obligation. intros d _. unfold config_mem. struct_laws. Qed.
Next Obligation. intros [] Hs. unfold config_of, config_mem, config_ok in *. struct_laws. Qed.
Next Obligation. unfold USB_DT_CONFIG_SIZE. intros bs Hb Hl. unfold config_ok, config_of. struct_laws. Qed.
Next Obligation. unfold USB_DT_CONFIG_SIZE. intros bs Hb Hl. unfold config_mem, config_of. struct_laws. Qed.

#[export] Program Instance interface_struct : CStruct usb_interface_descriptor := {|
  sizeof := USB_DT_INTERFACE_SIZE; to_mem := interface_mem; of_mem := interface_of; fields_ok := interface_ok |}.
Next Obligation. intros d _. unfold interface_mem. struct_laws. Qed.
Next Obligation. intros d _. unfold interface_mem. struct_laws. Qed.
Next Obligation. intros [] Hs. unfold interface_of, interface_mem, interface_ok in *. struct_laws. Qed.
Next Obligation. unfold USB_DT_INTERFACE_SIZE. intros bs Hb Hl. unfold interface_ok, interface_of. struct_laws. Qed.
Next Obligation. unfold USB_DT_INTERFACE_SIZE. intros bs Hb Hl. unfold interface_mem, interface_of. struct_laws. Qed.

#[export] Program Instance endpoint_struct : CStruct usb_endpoint_descriptor := {|
  sizeof := USB_DT_ENDPOINT_SIZE; to_mem := endpoint_mem; of_mem := endpoint_of; fields_ok := endpoint_ok |}.
Next Obligation. intros d _. unfold endpoint_mem. struct_laws. Qed.
Next Obligation. intros d _. unfold endpoint_mem. struct_laws. Qed.
Next Obligation. intros [] Hs. unfold endpoint_of, endpoint_mem, endpoint_ok in *. struct_laws. Qed.
Next Obligation. unfold USB_DT_ENDPOINT_SIZE. intros bs Hb Hl. unfold endpoint_ok, endpoint_of. struct_laws. Qed.
Next Obligation. unfold USB_DT_ENDPOINT_SIZE. intros bs Hb Hl. unfold endpoint_mem, endpoint_of. struct_laws. Qed.

(** ** Properties *)

(** An endpoint address is its number and its direction: the macros take apart what
    [USB_EP_ADDR] puts together, every address with no other bits is put together again,
    and each is an IN or an OUT address, but not both. *)
Theorem endpoint_address num dir addr :
  USB_EP_NUM (USB_EP_ADDR num dir) = Z.land num 0x0F /\
  USB_EP_DIR (USB_EP_ADDR num dir) = USB_EP_DIR dir /\
  USB_EP_ADDR (USB_EP_NUM addr) (USB_EP_DIR addr) = Z.land addr 0x8F /\
  (is_u 8 addr -> USB_EP_IS_IN addr = negb (USB_EP_IS_OUT addr)).
Proof.
  unfold USB_EP_NUM, USB_EP_DIR, USB_EP_ADDR, USB_EP_IS_IN, USB_EP_IS_OUT, USB_ENDPOINT_NUMBER_MASK, USB_DIR_MASK.
  split_and!.
  - rewrite Z.land_lor_distr_l, <- !Z.land_assoc. change (Z.land 128 15) with 0. rewrite Z.land_0_r. apply Z.lor_0_r.
  - rewrite Z.land_lor_distr_l, <- !Z.land_assoc. change (Z.land 15 128) with 0. rewrite Z.land_0_r. apply Z.lor_0_l.
  - rewrite <- !Z.land_assoc, <- Z.land_lor_distr_r. done.
  - intros Ha. assert (Forall (fun a => (Z.land a 128 =? USB_DIR_IN) = negb (Z.land a 128 =? USB_DIR_OUT)) (seqZ 0 256))
      as Hf by (apply (bool_decide_unpack _); by vm_compute).
    rewrite Forall_forall in Hf. apply Hf, elem_of_seqZ. destruct Ha. lia.
Qed.

(** The value of a descriptor request holds the type above the index. *)
Theorem descriptor_value type index :
  is_u 8 type -> is_u 8 index ->
  is_u 16 (USB_DESC_WVALUE type index) /\
  USB_DESC_TYPE (USB_DESC_WVALUE type index) = type /\ USB_DESC_INDEX (USB_DESC_WVALUE type index) = index.
Proof.
  intros [Ht1 Ht2] [Hi1 Hi2].
  assert (USB_DESC_WVALUE type index = type * 2 ^ 8 + index) as E.
  { apply lor_disjoint_add; [lia|by split]. }
  rewrite E. unfold USB_DESC_TYPE, USB_DESC_INDEX. change 0xFF with (Z.ones 8).
  rewrite !Z.land_ones, Z.shiftr_div_pow2 by lia. split_and!.
  - split; lia.
  - rewrite Z.div_add_l, (Z.div_small index), Z.add_0_r by lia. by apply Z.mod_small.
  - rewrite Z.add_comm, Z.mod_add by lia. by apply Z.mod_small.
Qed.
