(* ===== verification/ProtocolTests.v ===== *)
(** * The tests of the protocol ([tests/test_protocol.c])

    The program's own unit tests, run on the definitions of [Protocol]: each test is
    the list of its checks, and [main] counts those that fail.  That they all pass
    here is a check of the definitions against what the authors expect; the theorems of
    [Protocol] say it for every value. *)

From Stdlib Require Import String.
From S2P Require Import Prelude CTypes Format Errors Protocol UsbHost.

(** A check fails when its condition is false; [g_failures]. *)
Definition failures (checks : list bool) : Z := Z.of_nat (length (filter (fun c => c = false) checks)).

Definition test_header_basic_roundtrip : list bool :=
  let expected := {| hb_version := USBIP_PROTO_VERSION; hb_command := OP_REP_DEVLIST; hb_status := USBIP_ST_OK |} in
  let h := usbip_pack_header_basic expected in
  let h' := usbip_unpack_header_basic h in
  [negb (hb_version h =? hb_version expected) || negb (hb_command h =? hb_command expected);
   hb_version h' =? hb_version expected; hb_command h' =? hb_command expected;
   hb_status h' =? hb_status expected].

Definition test_device_roundtrip : list bool :=
  let expected := {|
    ud_path := strncpy (replicate USBIP_PATH_MAX 0) (str "1-7") (USBIP_PATH_MAX - 1);
    ud_busid := strncpy (replicate USBIP_BUSID_MAX 0) (str "1-7") (USBIP_BUSID_MAX - 1);
    ud_busnum := 1; ud_devnum := 7; ud_speed := USB_SPEED_HIGH; ud_idVendor := 0x046D;
    ud_idProduct := 0xC534; ud_bcdDevice := 0x0110; ud_bDeviceClass := 0; ud_bDeviceSubClass := 0;
    ud_bDeviceProtocol := 0; ud_bConfigurationValue := 0; ud_bNumConfigurations := 0;
    ud_bNumInterfaces := 0 |} in
  let dev := usbip_pack_device expected in
  let dev' := usbip_unpack_device dev in
  [negb (ud_busnum dev =? ud_busnum expected); streq (ud_path dev) (ud_path expected);
   ud_busnum dev' =? ud_busnum expected; ud_idVendor dev' =? ud_idVendor expected;
   ud_idProduct dev' =? ud_idProduct expected; ud_bcdDevice dev' =? ud_bcdDevice expected].

Definition test_urb_submit_roundtrip : list bool :=
  let expected := {|
    h_common := {| hc_command := USBIP_CMD_SUBMIT; hc_seqnum := 42; hc_devid := usbip_make_devid 1 2;
                   hc_direction := USBIP_DIR_IN; hc_ep := 0x81 |};
    h_u := {| u_w0 := 0; u_w1 := 64; u_w2 := 0; u_w3 := 0; u_w4 := 0; u_tail := 0x80 :: replicate 7 0 |} |} in
  let h := usbip_pack_header expected USBIP_CMD_SUBMIT in
  let h' := usbip_unpack_header h in
  [negb (hc_seqnum (h_common h) =? hc_seqnum (h_common expected));
   hc_seqnum (h_common h') =? hc_seqnum (h_common expected);
   hc_devid (h_common h') =? hc_devid (h_common expected);
   cs_transfer_buffer_length (h_u h') =? cs_transfer_buffer_length (h_u expected);
   char_at (cs_setup (h_u h')) 0 =? 0x80].

Definition test_validation : list bool :=
  [usbip_validate_version USBIP_PROTO_VERSION; negb (usbip_validate_version 0x0001);
   usbip_validate_command OP_REQ_DEVLIST; negb (usbip_validate_command 0xFFFF);
   usbip_validate_urb_command USBIP_CMD_SUBMIT; negb (usbip_validate_urb_command 0)].

Definition test_devid_helpers : list bool :=
  let id := usbip_make_devid 3 11 in
  [usbip_devid_busnum id =? 3; usbip_devid_devnum id =? 11; usbip_is_dir_in USBIP_DIR_IN;
   negb (usbip_is_dir_in USBIP_DIR_OUT); usbip_is_control_ep 0; negb (usbip_is_control_ep 1)].

Definition test_status_strings : list bool :=
  [streq (str (usbip_status_string USBIP_ST_OK)) (str "OK");
   streq (str (usbip_status_string USBIP_ST_NODEV)) (str "No Device");
   streq (str (usbip_urb_command_string USBIP_RET_SUBMIT)) (str "RET_SUBMIT")].

(** The exit code. *)
Definition test_main : Z :=
  let g_failures := failures (test_header_basic_roundtrip ++ test_device_roundtrip ++ test_urb_submit_roundtrip ++
    test_validation ++ test_devid_helpers ++ test_status_strings) in
  if g_failures =? 0 then 0 else 1.

(** The tests pass. *)
Example protocol_tests_pass : test_main = 0.
Proof. by vm_compute. Qed.
