(* ===== verification/DeviceList.v ===== *)
(** * The server's device list ([server/device_list.h], [server/device_list.c])

    The linked list is the list of its entries, head first; [de_loc] is the
    address of an entry, which clients keep as a pointer to its device.
    Results of [calloc] and [time] are arguments.  [dl_lock] is the recursion
    depth at which the running thread holds the list's (recursive) mutex. *)

From Stdlib Require Import String.
From S2P Require Import Prelude CTypes Format Errors Protocol UsbHost.

(** ** Data *)

Definition MAX_DEVICES : nat := 32.

Inductive device_state :=
  | DEVICE_STATE_AVAILABLE
  | DEVICE_STATE_EXPORTED
  | DEVICE_STATE_BUSY
  | DEVICE_STATE_ERROR.

#[export] Instance device_state_eq_dec : EqDecision device_state.
Proof. solve_decision. Defined.

Record device_entry := {
  de_loc : Z;
  de_device : usb_device;
  de_state : device_state;
  de_client_id : Z;
  de_client_ip : bytes;
  de_export_time : Z;
  de_is_shared : bool;
}.

Record device_list := {
  dl_entries : list device_entry;
  dl_count : Z;
  dl_lock : Z;
  dl_initialized : bool;
}.

Definition set_entries (l : device_list) (entries : list device_entry) (count : Z) : device_list :=
  {| dl_entries := entries; dl_count := count; dl_lock := dl_lock l;
     dl_initialized := dl_initialized l |}.

Definition set_lock (l : device_list) (depth : Z) : device_list :=
  {| dl_entries := dl_entries l; dl_count := dl_count l; dl_lock := depth;
     dl_initialized := dl_initialized l |}.

(** The assignments the operations make to one entry. *)
Definition entry_set_state (e : device_entry) (st : device_state) (client_id : Z) (ip : bytes)
    (time : Z) : device_entry :=
  {| de_loc := de_loc e; de_device := de_device e; de_state := st; de_client_id := client_id;
     de_client_ip := ip; de_export_time := time; de_is_shared := de_is_shared e |}.

Definition entry_set_device (e : device_entry) (d : usb_device) : device_entry :=
  {| de_loc := de_loc e; de_device := d; de_state := de_state e; de_client_id := de_client_id e;
     de_client_ip := de_client_ip e; de_export_time := de_export_time e;
     de_is_shared := de_is_shared e |}.

Definition entry_set_shared (e : device_entry) (shared : bool) : device_entry :=
  {| de_loc := de_loc e; de_device := de_device e; de_state := de_state e;
     de_client_id := de_client_id e; de_client_ip := de_client_ip e;
     de_export_time := de_export_time e; de_is_shared := shared |}.

(** ** Locking *)

Definition device_list_lock (l : device_list) : device_list :=
  if dl_initialized l then set_lock l (dl_lock l + 1) else l.

Definition device_list_unlock (l : device_list) : device_list :=
  if dl_initialized l then set_lock l (dl_lock l - 1) else l.

(** ** Lookup *)

(** [strcmp(entry->device.busid, busid) == 0]. *)
Definition entry_is (busid : bytes) (e : device_entry) : bool := streq (dev_busid (de_device e)) busid.

Definition device_list_find (list : ptr device_list) (busid : ptr bytes) : ptr device_entry :=
  match list, busid with
  | Some l, Some b => find_first (entry_is b) (dl_entries l)
  | _, _ => NULL
  end.

Definition device_list_find_by_vidpid (list : ptr device_list) (vid pid : Z) : ptr device_entry :=
  match list with
  | Some l =>
      find_first (fun e => (dev_vendor_id (de_device e) =? vid) &&
                           (dev_product_id (de_device e) =? pid)) (dl_entries l)
  | NULL => NULL
  end.

Definition device_list_find_by_path (list : ptr device_list) (path : ptr bytes) : ptr device_entry :=
  match list, path with
  | Some l, Some p => find_first (fun e => streq (dev_path (de_device e)) p) (dl_entries l)
  | _, _ => NULL
  end.

Definition device_list_count (list : ptr device_list) : Z :=
  match list with Some l => dl_count l | NULL => 0 end.

(** The counting loop over the entries. *)
Fixpoint available_count_loop (entries : list device_entry) (count : Z) : Z :=
  match entries with
  | [] => count
  | e :: es =>
      available_count_loop es
        (if bool_decide (de_state e = DEVICE_STATE_AVAILABLE) && de_is_shared e
         then count + 1 else count)
  end.

Definition device_list_available_count (list : ptr device_list) : Z :=
  match list with Some l => available_count_loop (dl_entries l) 0 | NULL => 0 end.

(** ** Device management *)

(** [alloc] is what [calloc] returns. *)
Definition create_entry (alloc : ptr Z) (device : usb_device) : ptr device_entry :=
  match alloc with
  | NULL => NULL
  | Some loc =>
      Some {| de_loc := loc; de_device := device; de_state := DEVICE_STATE_AVAILABLE;
              de_client_id := 0; de_client_ip := []; de_export_time := 0; de_is_shared := true |}
  end.

Definition device_list_add (alloc : ptr Z) (list : ptr device_list) (device : ptr usb_device) :
    error_code * ptr device_list :=
  match list, device with
  | Some l, Some d =>
      match device_list_find list (Some (dev_busid d)) with
      | Some _ =>
          (ERR_SUCCESS,
           Some (set_entries l
                  (update_first (entry_is (dev_busid d)) (fun e => entry_set_device e d)
                     (dl_entries l)) (dl_count l)))
      | NULL =>
          match create_entry alloc d with
          | NULL => (ERR_OUT_OF_MEMORY, list)
          | Some entry =>
              (ERR_SUCCESS, Some (set_entries l (entry :: dl_entries l) (dl_count l + 1)))
          end
      end
  | _, _ => (ERR_INVALID_PARAM, list)
  end.

(** [mutex_result] is what [mutex_init] returns: zero on success. *)
Definition device_list_init (mutex_result : Z) (list : ptr device_list) :
    error_code * ptr device_list :=
  match list with
  | NULL => (ERR_INVALID_PARAM, NULL)
  | Some _ =>
      let l := {| dl_entries := []; dl_count := 0; dl_lock := 0; dl_initialized := false |} in
      if negb (mutex_result =? 0) then (ERR_MUTEX_INIT, Some l)
      else (ERR_SUCCESS, Some {| dl_entries := []; dl_count := 0; dl_lock := 0;
                                 dl_initialized := true |})
  end.

Section freeing.
  Context {U : Type} `{WinUsb U}.

Definition free_entry (entry : ptr device_entry) : M U unit :=
  match entry with
  | NULL => mret tt
  | Some e =>
      if dev_is_open (de_device e) then usb_close_device (Some (de_device e)) ;; mret tt
      else mret tt
  end.

(** The loop of [device_list_clear]. *)
Fixpoint free_entries (entries : list device_entry) : M U unit :=
  match entries with
  | [] => mret tt
  | e :: es => free_entry (Some e) ;; free_entries es
  end.

Definition device_list_clear (list : ptr device_list) : M U (ptr device_list) :=
  match list with
  | NULL => mret NULL
  | Some l => free_entries (dl_entries l) ;; mret (Some (set_entries l [] 0))
  end.

Definition device_list_cleanup (list : ptr device_list) : M U (ptr device_list) :=
  match list with
  | NULL => mret NULL
  | Some l =>
      if negb (dl_initialized l) then mret list else
      r ← device_list_clear (Some (device_list_lock l));
      mret ((fun l =>
        device_list_unlock {| dl_entries := dl_entries l; dl_count := dl_count l;
                              dl_lock := dl_lock l; dl_initialized := false |}) <$> r)
  end.

Definition device_list_remove (list : ptr device_list) (busid : ptr bytes) :
    M U (error_code * ptr device_list) :=
  match list, busid with
  | Some l, Some b =>
      let l := device_list_lock l in
      match find_first (entry_is b) (dl_entries l) with
      | Some entry =>
          let l := set_entries l (remove_first (entry_is b) (dl_entries l)) (dl_count l - 1) in
          free_entry (Some entry) ;;
          mret (ERR_SUCCESS, Some (device_list_unlock l))
      | NULL => mret (ERR_NOT_FOUND, Some (device_list_unlock l))
      end
  | _, _ => mret (ERR_INVALID_PARAM, list)
  end.

Definition device_list_remove_entry (list : ptr device_list) (target : ptr device_entry) :
    M U (error_code * ptr device_list) :=
  match list, target with
  | Some _, Some t => device_list_remove list (Some (dev_busid (de_device t)))
  | _, _ => mret (ERR_INVALID_PARAM, list)
  end.

(** *** Refresh *)

Record export_info := {
  ex_busid : bytes;
  ex_client_id : Z;
  ex_client_ip : bytes;
}.

(** The loop that remembers the exported devices, while fewer than
    [MAX_DEVICES] were found. *)
Fixpoint save_exports (entries : list device_entry) (room : nat) : list export_info :=
  match entries, room with
  | e :: es, S room' =>
      if bool_decide (de_state e = DEVICE_STATE_EXPORTED) then
        {| ex_busid := copy_str (dev_busid (de_device e)) USBIP_BUSID_MAX;
           ex_client_id := de_client_id e; ex_client_ip := copy_str (de_client_ip e) 64 |}
        :: save_exports es room'
      else save_exports es room
  | _, _ => []
  end.

(** The loop that restores them, at time [now]. *)
Fixpoint restore_exports (now : Z) (exports : list export_info) (l : device_list) : device_list :=
  match exports with
  | [] => l
  | x :: xs =>
      restore_exports now xs
        (set_entries l
           (update_first (entry_is (ex_busid x))
              (fun e => entry_set_state e DEVICE_STATE_EXPORTED (ex_client_id x)
                          (copy_str (ex_client_ip x) 64) now) (dl_entries l)) (dl_count l))
  end.

(** The callback of the enumeration, with the results of [calloc] still to come. *)
Definition enum_callback (device : usb_device) (data : ptr device_list * list (ptr Z)) :
    ptr device_list * list (ptr Z) :=
  let '(list, allocs) := data in
  ((device_list_add (default NULL (head allocs)) list (Some device)).2, tail allocs).

Definition device_list_refresh (utf8 : list Z -> nat -> option bytes) (host_initialized : bool)
    (dev_info : ptr (list di_entry)) (allocs : list (ptr Z)) (now : Z) (list : ptr device_list) :
    M U (error_code * ptr device_list) :=
  match list with
  | NULL => mret (ERR_INVALID_PARAM, NULL)
  | Some l =>
      if negb (dl_initialized l) then mret (ERR_INVALID_PARAM, list) else
      let l := device_list_lock l in
      let exports := save_exports (dl_entries l) MAX_DEVICES in
      r ← device_list_clear (Some l);
      let '(_, (r, _)) :=
        usb_enumerate_devices utf8 host_initialized dev_info enum_callback (r, allocs) in
      mret (ERR_SUCCESS, (fun l => device_list_unlock (restore_exports now exports l)) <$> r)
  end.
End freeing.

(** ** Device state *)

Definition device_list_export (now : Z) (list : ptr device_list) (busid : ptr bytes)
    (client_id : Z) (client_ip : ptr bytes) : error_code * ptr device_list :=
  match list, busid with
  | Some l, Some b =>
      let l := device_list_lock l in
      match device_list_find (Some l) busid with
      | NULL => (ERR_NOT_FOUND, Some (device_list_unlock l))
      | Some entry =>
          if bool_decide (de_state entry <> DEVICE_STATE_AVAILABLE)
          then (ERR_DEVICE_BUSY, Some (device_list_unlock l))
          else
            let assign e := entry_set_state e DEVICE_STATE_EXPORTED client_id
              (match client_ip with Some ip => copy_str ip 64 | NULL => de_client_ip e end) now in
            (ERR_SUCCESS,
             Some (device_list_unlock
               (set_entries l (update_first (entry_is b) assign (dl_entries l)) (dl_count l))))
      end
  | _, _ => (ERR_INVALID_PARAM, list)
  end.

Definition device_list_unexport (list : ptr device_list) (busid : ptr bytes) :
    error_code * ptr device_list :=
  match list, busid with
  | Some l, Some b =>
      let l := device_list_lock l in
      match device_list_find (Some l) busid with
      | NULL => (ERR_NOT_FOUND, Some (device_list_unlock l))
      | Some entry =>
          let assign e := entry_set_state e DEVICE_STATE_AVAILABLE 0 [] 0 in
          (ERR_SUCCESS,
           Some (device_list_unlock
             (set_entries l (update_first (entry_is b) assign (dl_entries l)) (dl_count l))))
      end
  | _, _ => (ERR_INVALID_PARAM, list)
  end.

Definition busy_assign (busy : bool) (e : device_entry) : device_entry :=
  let set st := entry_set_state e st (de_client_id e) (de_client_ip e) (de_export_time e) in
  if busy && bool_decide (de_state e = DEVICE_STATE_AVAILABLE) then set DEVICE_STATE_BUSY
  else if negb busy && bool_decide (de_state e = DEVICE_STATE_BUSY) then set DEVICE_STATE_AVAILABLE
  else e.

Definition device_list_set_busy (list : ptr device_list) (busid : ptr bytes) (busy : bool) :
    error_code * ptr device_list :=
  match list, busid with
  | Some l, Some b =>
      let l := device_list_lock l in
      match device_list_find (Some l) busid with
      | NULL => (ERR_NOT_FOUND, Some (device_list_unlock l))
      | Some entry =>
          (ERR_SUCCESS,
           Some (device_list_unlock
             (set_entries l (update_first (entry_is b) (busy_assign busy) (dl_entries l))
                (dl_count l))))
      end
  | _, _ => (ERR_INVALID_PARAM, list)
  end.

(** The queries lock and unlock the list they read. *)
Definition device_list_is_available (list : ptr device_list) (busid : ptr bytes) :
    bool * ptr device_list :=
  match list, busid with
  | Some l, Some b =>
      let l := device_list_lock l in
      let available :=
        match device_list_find (Some l) busid with
        | Some e => bool_decide (de_state e = DEVICE_STATE_AVAILABLE) && de_is_shared e
        | NULL => false
        end in
      (available, Some (device_list_unlock l))
  | _, _ => (false, list)
  end.

Definition device_list_is_exported (list : ptr device_list) (busid : ptr bytes) :
    bool * ptr device_list :=
  match list, busid with
  | Some l, Some b =>
      let l := device_list_lock l in
      let exported :=
        match device_list_find (Some l) busid with
        | Some e => bool_decide (de_state e = DEVICE_STATE_EXPORTED)
        | NULL => false
        end in
      (exported, Some (device_list_unlock l))
  | _, _ => (false, list)
  end.

Definition device_list_get_state (list : ptr device_list) (busid : ptr bytes) :
    device_state * ptr device_list :=
  match list, busid with
  | Some l, Some b =>
      let l := device_list_lock l in
      let state :=
        match device_list_find (Some l) busid with
        | Some e => de_state e
        | NULL => DEVICE_STATE_ERROR
        end in
      (state, Some (device_list_unlock l))
  | _, _ => (DEVICE_STATE_ERROR, list)
  end.

(** ** Filtering *)

Definition device_list_set_shared (list : ptr device_list) (busid : ptr bytes) (shared : bool) :
    error_code * ptr device_list :=
  match list, busid with
  | Some l, Some b =>
      let l := device_list_lock l in
      match device_list_find (Some l) busid with
      | NULL => (ERR_NOT_FOUND, Some (device_list_unlock l))
      | Some entry =>
          let assign e := entry_set_shared e shared in
          (ERR_SUCCESS,
           Some (device_list_unlock
             (set_entries l (update_first (entry_is b) assign (dl_entries l)) (dl_count l))))
      end
  | _, _ => (ERR_INVALID_PARAM, list)
  end.

Definition device_list_share_all (list : ptr device_list) : ptr device_list :=
  match list with
  | NULL => NULL
  | Some l =>
      let l := device_list_lock l in
      Some (device_list_unlock
        (set_entries l (map (fun e => entry_set_shared e true) (dl_entries l)) (dl_count l)))
  end.

Definition device_list_unshare_all (list : ptr device_list) : ptr device_list :=
  match list with
  | NULL => NULL
  | Some l =>
      let l := device_list_lock l in
      Some (device_list_unlock
        (set_entries l (map (fun e => entry_set_shared e false) (dl_entries l)) (dl_count l)))
  end.

(** ** Iteration

    [callback] returns whether to go on and acts on the caller's data [A]; the
    callbacks of the program do not change the entries. *)

Fixpoint foreach_loop {A} (visit : device_entry -> bool) (entries : list device_entry)
    (callback : device_entry -> A -> bool * A) (user_data : A) : A :=
  match entries with
  | [] => user_data
  | e :: es =>
      if visit e then
        let '(continue, user_data) := callback e user_data in
        if (continue : bool) then foreach_loop visit es callback user_data else user_data
      else foreach_loop visit es callback user_data
  end.

Definition device_list_foreach {A} (list : ptr device_list)
    (callback : ptr (device_entry -> A -> bool * A)) (user_data : A) : ptr device_list * A :=
  match list, callback with
  | Some l, Some f =>
      let l := device_list_lock l in
      let user_data := foreach_loop (fun _ => true) (dl_entries l) f user_data in
      (Some (device_list_unlock l), user_data)
  | _, _ => (list, user_data)
  end.

Definition device_list_foreach_available {A} (list : ptr device_list)
    (callback : ptr (device_entry -> A -> bool * A)) (user_data : A) : ptr device_list * A :=
  match list, callback with
  | Some l, Some f =>
      let l := device_list_lock l in
      let user_data :=
        foreach_loop (fun e => bool_decide (de_state e = DEVICE_STATE_AVAILABLE))
          (dl_entries l) f user_data in
      (Some (device_list_unlock l), user_data)
  | _, _ => (list, user_data)
  end.

Definition device_list_foreach_shared {A} (list : ptr device_list)
    (callback : ptr (device_entry -> A -> bool * A)) (user_data : A) : ptr device_list * A :=
  match list, callback with
  | Some l, Some f =>
      let l := device_list_lock l in
      let user_data := foreach_loop de_is_shared (dl_entries l) f user_data in
      (Some (device_list_unlock l), user_data)
  | _, _ => (list, user_data)
  end.

Definition device_state_string (state : device_state) : string :=
  match state with
  | DEVICE_STATE_AVAILABLE => "Available"
  | DEVICE_STATE_EXPORTED => "Exported"
  | DEVICE_STATE_BUSY => "Busy"
  | DEVICE_STATE_ERROR => "Error"
  end.

(** ** Invariant *)

(** What holds of one entry: its device is consistent, and only an exported
    entry names a client. *)
Definition ip_ok (ip : bytes) : Prop := no_nul ip /\ (length ip < 64)%nat.

Definition entry_ok (e : device_entry) : Prop :=
  dev_wf (de_device e) /\ dev_inv (de_device e) /\ ip_ok (de_client_ip e) /\
  (de_state e <> DEVICE_STATE_EXPORTED ->
   de_client_id e = 0 /\ de_client_ip e = [] /\ de_export_time e = 0).

Definition busid_of (e : device_entry) : bytes := dev_busid (de_device e).

(** The list is well formed: entries, count, distinct addresses and bus ids. *)
Record dl_inv (l : device_list) : Prop := {
  inv_count : dl_count l = Z.of_nat (length (dl_entries l));
  inv_entries : Forall entry_ok (dl_entries l);
  inv_locs : NoDup (map de_loc (dl_entries l));
  inv_busids : NoDup (map busid_of (dl_entries l));
}.

(** ** Lemmas *)

Lemma unlock_lock l es n :
  device_list_unlock (set_entries (device_list_lock l) es n) = set_entries l es n.
Proof.
  unfold device_list_lock, device_list_unlock. destruct l as [es' c k []]; simpl; [|done].
  unfold set_entries, set_lock. simpl. f_equal. lia.
Qed.

Lemma unlock_lock_id l : device_list_unlock (device_list_lock l) = l.
Proof.
  unfold device_list_lock, device_list_unlock. destruct l as [es' c k []]; simpl; [|done].
  unfold set_lock. simpl. f_equal. lia.
Qed.

Lemma entries_lock l : dl_entries (device_list_lock l) = dl_entries l.
Proof. unfold device_list_lock. by destruct (dl_initialized l). Qed.

Lemma count_lock l : dl_count (device_list_lock l) = dl_count l.
Proof. unfold device_list_lock. by destruct (dl_initialized l). Qed.

#[export] Hint Rewrite unlock_lock unlock_lock_id entries_lock count_lock : usbip.

Lemma entry_is_true b e : entry_ok e -> entry_is b e = true <-> busid_of e = cstr b.
Proof.
  intros [((_ & _ & _) & (Hn & _) & _) _]. unfold entry_is, busid_of. rewrite streq_true.
  by rewrite (cstr_id (dev_busid _)).
Qed.

(** Looking a bus id up finds the only entry that has it. *)
Lemma find_busid b es :
  Forall entry_ok es -> find_first (entry_is b) es = None <-> cstr b ∉ map busid_of es.
Proof.
  intros Hok. rewrite find_first_None. induction Hok as [|e es He Hes IH]; simpl; [set_solver|].
  rewrite Forall_cons, IH, not_elem_of_cons. apply and_iff_compat_r.
  rewrite <-not_true_iff_false, entry_is_true by done. split; intros Hx Hy; by apply Hx.
Qed.

(** The step from one list to another that only changes one entry's fields. *)
Lemma inv_update l p g :
  dl_inv l -> (forall e, entry_ok e -> entry_ok (g e)) ->
  (forall e, de_loc (g e) = de_loc e) -> (forall e, busid_of (g e) = busid_of e) ->
  dl_inv (set_entries l (update_first p g (dl_entries l)) (dl_count l)).
Proof.
  intros [Hc He Hl Hb] Hg Hloc Hbus. split; simpl.
  - by rewrite length_update_first.
  - apply Forall_forall. intros e [Hin|(e' & Hin & _ & ->)]%elem_of_update_first;
      rewrite Forall_forall in He; auto.
  - by rewrite map_update_first.
  - by rewrite map_update_first.
Qed.

Lemma inv_map l g :
  dl_inv l -> (forall e, entry_ok e -> entry_ok (g e)) ->
  (forall e, de_loc (g e) = de_loc e) -> (forall e, busid_of (g e) = busid_of e) ->
  dl_inv (set_entries l (map g (dl_entries l)) (dl_count l)).
Proof.
  intros [Hc He Hl Hb] Hg Hloc Hbus. split; simpl.
  - by rewrite length_map.
  - apply Forall_fmap. eapply Forall_impl; [exact He|auto].
  - rewrite map_map. by rewrite (map_ext _ _ Hloc).
  - rewrite map_map. by rewrite (map_ext _ _ Hbus).
Qed.

Lemma ip_ok_nil : ip_ok [].
Proof. split; [constructor|simpl; lia]. Qed.

Lemma ip_ok_copy ip : ip_ok (copy_str ip 64).
Proof. split; [unfold copy_str; auto with usbip|]. unfold copy_str. rewrite length_take. lia. Qed.

#[export] Hint Resolve ip_ok_nil ip_ok_copy : usbip.

Lemma entry_ok_exported e id ip now :
  ip_ok ip -> entry_ok e -> entry_ok (entry_set_state e DEVICE_STATE_EXPORTED id ip now).
Proof. intros ? (? & ? & _). by split_and!. Qed.

Lemma entry_ok_available e : entry_ok e -> entry_ok (entry_set_state e DEVICE_STATE_AVAILABLE 0 [] 0).
Proof. intros (? & ? & _). split_and!; auto with usbip. Qed.

Lemma entry_ok_busy e busy : entry_ok e -> entry_ok (busy_assign busy e).
Proof.
  intros (Hw & Hi & Hip & Hc). unfold busy_assign.
  destruct busy, (decide (de_state e = DEVICE_STATE_AVAILABLE)) as [Ea|],
    (decide (de_state e = DEVICE_STATE_BUSY)) as [Eb|];
    simplify_option_eq; rewrite ?bool_decide_true, ?bool_decide_false by done; simpl;
    (split_and!; [done|done|done|]); simpl; intros Hne; apply Hc; first [exact Hne|congruence].
Qed.

Lemma entry_ok_shared e b : entry_ok e -> entry_ok (entry_set_shared e b).
Proof. intros (? & ? & ? & ?). by split_and!. Qed.

Lemma busy_assign_loc busy e : de_loc (busy_assign busy e) = de_loc e.
Proof. unfold busy_assign. repeat case_match; done. Qed.

Lemma busy_assign_busid busy e : busid_of (busy_assign busy e) = busid_of e.
Proof. unfold busy_assign. repeat case_match; done. Qed.

#[export] Hint Resolve entry_ok_exported entry_ok_available entry_ok_busy entry_ok_shared
  busy_assign_loc busy_assign_busid : usbip.

Lemma inv_remove l p :
  dl_inv l -> forall e, find_first p (dl_entries l) = Some e ->
  dl_inv (set_entries l (remove_first p (dl_entries l)) (dl_count l - 1)).
Proof.
  intros [Hc He Hl Hb] e Hf. pose proof (length_remove_first _ _ _ Hf).
  destruct (find_first_split _ _ _ Hf) as (l1 & l2 & E & H1 & Hp).
  split; simpl; [lia|..]; rewrite E in He, Hl, Hb; rewrite E, remove_first_split by done.
  - rewrite Forall_app, Forall_cons in He. apply Forall_app. tauto.
  - rewrite map_app in *. by eapply NoDup_drop.
  - rewrite map_app in *. by eapply NoDup_drop.
Qed.

(** An allocation is fresh when its address is not in use. *)
Definition fresh_alloc (l : device_list) (alloc : ptr Z) : Prop :=
  forall loc, alloc = Some loc -> loc ∉ map de_loc (dl_entries l).

Lemma inv_add l alloc d e r :
  dl_inv l -> dev_wf d -> dev_inv d -> fresh_alloc l alloc ->
  device_list_add alloc (Some l) (Some d) = (e, r) ->
  exists l', r = Some l' /\ dl_inv l' /\ dl_lock l' = dl_lock l /\
    dl_initialized l' = dl_initialized l /\
    (e = ERR_SUCCESS /\ busid_of <$> dl_entries l' =
       (if decide (dev_busid d ∈ map busid_of (dl_entries l)) then [] else [dev_busid d]) ++
       (busid_of <$> dl_entries l) \/
     e = ERR_OUT_OF_MEMORY /\ l' = l /\ alloc = NULL).
Proof.
  intros Hi Hw Hd Hf E. unfold device_list_add in E. simpl in E.
  assert (cstr (dev_busid d) = dev_busid d) as Hcs by (by apply cstr_id; apply Hw).
  destruct (find_first (entry_is (dev_busid d)) (dl_entries l)) as [x|] eqn:Ef.
  - simplify_eq. eexists. split; [done|].
    destruct (find_first_Some _ _ _ Ef) as [Hin Hx].
    assert (busid_of x = dev_busid d) as Hbx.
    { rewrite <-Hcs. apply entry_is_true; [|done]. by eapply Forall_forall; [apply Hi|]. }
    assert (map busid_of (update_first (entry_is (dev_busid d)) (fun e => entry_set_device e d)
      (dl_entries l)) = map busid_of (dl_entries l)) as Eb.
    { destruct (find_first_split _ _ _ Ef) as (l1 & l2 & -> & H1 & H2).
      rewrite update_first_split, !map_app by done. simpl. rewrite Hbx. done. }
    split_and!; [|done|done|].
    + destruct Hi as [Hc He Hl Hb]. split; simpl.
      * by rewrite length_update_first.
      * apply Forall_forall. intros e' [?|(y & Hy & _ & ->)]%elem_of_update_first;
          rewrite Forall_forall in He; [auto|]. destruct (He y Hy) as (_ & _ & ? & ?). by split_and!.
      * by rewrite map_update_first.
      * by rewrite Eb.
    + left. split; [done|]. rewrite decide_True by (rewrite <-Hbx; apply list_elem_of_fmap; eauto).
      simpl. exact Eb.
  - apply find_busid in Ef; [|apply Hi]. rewrite Hcs in Ef.
    unfold create_entry in E. destruct alloc as [loc|]; simplify_eq; eexists; (split; [done|]).
    + split_and!; [|done|done|].
      * destruct Hi as [Hc He Hl Hb]. split; simpl; [lia| | |].
        -- constructor; [|done]. split_and!; auto with usbip.
        -- constructor; [by apply Hf|done].
        -- constructor; done.
      * left. split; [done|]. by rewrite decide_False.
    + split_and!; auto.
Qed.

Lemma inv_add_default l alloc d :
  dl_inv l -> dev_wf d -> dev_inv d -> fresh_alloc l alloc ->
  dl_inv (default l (device_list_add alloc (Some l) (Some d)).2).
Proof.
  intros Hl Hw Hd Hf. destruct (device_list_add alloc (Some l) (Some d)) as [e r] eqn:E.
  by destruct (inv_add l alloc d e r Hl Hw Hd Hf E) as (l' & -> & ? & _).
Qed.

(** *** Refresh *)

Lemma update_first_unique b g es :
  Forall entry_ok es -> NoDup (map busid_of es) -> no_nul b ->
  update_first (entry_is b) g es = map (fun e => if decide (busid_of e = b) then g e else e) es.
Proof.
  intros Hok Hnd Hb. induction Hok as [|e es He Hes IH]; simpl; [done|].
  apply NoDup_cons in Hnd as [Hn Hnd].
  pose proof (entry_is_true b e He) as Hi. rewrite (cstr_id b) in Hi by done.
  destruct (entry_is b e), (decide (busid_of e = b)) as [Hb'|Hb'].
  - f_equal. symmetry. rewrite <-(map_id es) at 2. apply map_ext_in. intros x Hx%list_elem_of_In.
    rewrite decide_False; [done|]. intros <-. apply Hn. rewrite Hb'. apply list_elem_of_fmap. eauto.
  - destruct Hb'. by apply Hi.
  - by apply Hi in Hb'.
  - f_equal. by apply IH.
Qed.

Definition export_of (e : device_entry) : export_info :=
  {| ex_busid := busid_of e; ex_client_id := de_client_id e; ex_client_ip := de_client_ip e |}.

Definition exported (e : device_entry) : Prop := de_state e = DEVICE_STATE_EXPORTED.

#[export] Instance exported_dec e : Decision (exported e).
Proof. unfold exported. apply _. Defined.

(** What is remembered: the first [room] exported entries. *)
Lemma save_exports_spec es room :
  Forall entry_ok es -> save_exports es room = export_of <$> take room (filter exported es).
Proof.
  intros Hok. revert room. induction Hok as [|e es He Hes IH]; intros room; simpl.
  - by destruct room.
  - destruct room as [|room]; [done|]. destruct He as (Hw & _ & Hip & _).
    rewrite filter_cons. unfold exported at 1. case_decide as Hx.
    + rewrite bool_decide_true by done. simpl. rewrite IH. f_equal.
      unfold export_of. destruct Hw as (_ & (Hn & _ & Hl) & _), Hip as [? ?].
      rewrite !copy_str_id by done. done.
    + rewrite bool_decide_false by done. by rewrite IH.
Qed.

(** What one entry becomes when the remembered exports are restored. *)
Definition restore_one (now : Z) (xs : list export_info) (e : device_entry) : device_entry :=
  match find_first (fun x => bool_decide (ex_busid x = busid_of e)) xs with
  | Some x => entry_set_state e DEVICE_STATE_EXPORTED (ex_client_id x) (ex_client_ip x) now
  | None => e
  end.

Lemma restore_exports_spec now xs l :
  dl_inv l -> NoDup (map ex_busid xs) ->
  Forall (fun x => no_nul (ex_busid x) /\ ip_ok (ex_client_ip x)) xs ->
  restore_exports now xs l = set_entries l (map (restore_one now xs) (dl_entries l)) (dl_count l) /\
  dl_inv (restore_exports now xs l).
Proof.
  intros Hi Hnd Hx. revert l Hi. induction Hx as [|x xs [Hn Hip] Hx IH]; intros l Hi; simpl.
  { split; [|done]. unfold restore_one. simpl. rewrite map_id. by destruct l. }
  apply NoDup_cons in Hnd as [Hnx Hnd].
  rewrite (copy_str_id (ex_client_ip x)) by apply Hip.
  set (l1 := set_entries l _ _).
  assert (dl_inv l1) as Hi1 by (apply inv_update; auto with usbip).
  destruct (IH Hnd l1 Hi1) as [-> Hi2]. split; [|done].
  unfold l1, set_entries. cbn [dl_entries dl_count dl_lock dl_initialized]. f_equal.
  rewrite update_first_unique, map_map by (done || apply Hi). apply map_ext. intros e.
  unfold restore_one at 2. simpl. rewrite (bool_decide_ext _ (busid_of e = ex_busid x)) by done.
  unfold restore_one. case_decide as Hb; [rewrite bool_decide_true by done|by rewrite bool_decide_false].
  change (busid_of (entry_set_state e DEVICE_STATE_EXPORTED (ex_client_id x) (ex_client_ip x) now))
    with (busid_of e).
  destruct (find_first _ xs) as [y|] eqn:Ef; [|done].
  apply find_first_Some in Ef as [Hy Hb']. bool_to_prop. destruct Hnx.
  rewrite <-Hb, <-Hb'. apply list_elem_of_fmap. eauto.
Qed.

(** The entries an enumeration adds are available, shared and closed, and have a
    bus id. *)
Definition entry_new (e : device_entry) : Prop :=
  de_state e = DEVICE_STATE_AVAILABLE /\ de_is_shared e = true /\
  dev_is_open (de_device e) = false /\ busid_of e <> [].

Lemma enum_fold_spec devs l allocs :
  dl_inv l -> Forall entry_new (dl_entries l) ->
  Forall (fun d => dev_wf d /\ dev_inv d /\ dev_is_open d = false /\ dev_busid d <> []) devs ->
  NoDup (omap id allocs) -> (forall loc, loc ∈ omap id allocs -> loc ∉ map de_loc (dl_entries l)) ->
  exists l' allocs', fold_left (fun a d => enum_callback d a) devs (Some l, allocs) = (Some l', allocs') /\
    dl_inv l' /\ Forall entry_new (dl_entries l') /\ dl_lock l' = dl_lock l /\
    dl_initialized l' = dl_initialized l.
Proof.
  intros Hi Hnew Hd. revert l allocs Hi Hnew.
  induction Hd as [|d devs (Hw & Hv & Ho & Hb) Hd IH]; intros l allocs Hi Hnew Hnd Hf; cbn [fold_left]; [eauto 10|].
  change (enum_callback d (Some l, allocs)) with
    ((device_list_add (default NULL (head allocs)) (Some l) (Some d)).2, tail allocs).
  destruct (device_list_add (default NULL (head allocs)) (Some l) (Some d)) as [e r] eqn:E.
  destruct (inv_add l (default NULL (head allocs)) d e r Hi Hw Hv) as (l1 & -> & Hi1 & Hl1 & Hn1 & _).
  { intros loc Ha. apply Hf. destruct allocs as [|[a|] allocs]; simplify_eq/=. by left. }
  { done. }
  rewrite <-Hl1, <-Hn1. cbn [snd]. apply IH; [done| | |].
  - unfold device_list_add in E. simpl in E. destruct (find_first _ _).
    + simplify_eq. simpl. apply Forall_forall. rewrite Forall_forall in Hnew.
      intros x [?|(y & Hy & _ & ->)]%elem_of_update_first; [auto|].
      destruct (Hnew y Hy) as (? & ? & _). by split_and!.
    + destruct (default NULL (head allocs)); simplify_eq/=; [by constructor|done].
  - destruct allocs as [|[a|] allocs]; simpl in *; [done| |done]. by apply NoDup_cons in Hnd as [_ ?].
  - intros loc Hin. unfold device_list_add in E. simpl in E.
    assert (loc ∉ map de_loc (dl_entries l)) as Hloc.
    { apply Hf. destruct allocs as [|[a|] allocs]; simpl in *; [done|by right|done]. }
    destruct (find_first _ _); [simplify_eq; simpl; by rewrite map_update_first|].
    destruct allocs as [|[a|] allocs]; simplify_eq/=; [done| |done].
    apply NoDup_cons in Hnd as [Hna _]. rewrite not_elem_of_cons. split; [by intros ->|done].
Qed.

(** *** Abstraction: a map from bus ids to what clients can observe *)

Record dev_status := {
  st_state : device_state;
  st_client_id : Z;
  st_client_ip : bytes;
  st_shared : bool;
}.

Definition status_of (e : device_entry) : dev_status :=
  {| st_state := de_state e; st_client_id := de_client_id e; st_client_ip := de_client_ip e;
     st_shared := de_is_shared e |}.

Definition abs (l : device_list) : gmap bytes dev_status :=
  list_to_map ((fun e => (busid_of e, status_of e)) <$> dl_entries l).

Definition spec_set (st : device_state) (id : Z) (ip : bytes) (s : dev_status) : dev_status :=
  {| st_state := st; st_client_id := id; st_client_ip := ip; st_shared := st_shared s |}.

(** What each operation promises, on the map. *)
Definition spec_export (m : gmap bytes dev_status) (b : bytes) (id : Z) (ip : bytes) :
    error_code * gmap bytes dev_status :=
  match m !! b with
  | None => (ERR_NOT_FOUND, m)
  | Some s =>
      if decide (st_state s = DEVICE_STATE_AVAILABLE)
      then (ERR_SUCCESS, <[b := spec_set DEVICE_STATE_EXPORTED id ip s]> m)
      else (ERR_DEVICE_BUSY, m)
  end.

Definition spec_unexport (m : gmap bytes dev_status) (b : bytes) : error_code * gmap bytes dev_status :=
  match m !! b with
  | None => (ERR_NOT_FOUND, m)
  | Some s => (ERR_SUCCESS, <[b := spec_set DEVICE_STATE_AVAILABLE 0 [] s]> m)
  end.

Definition spec_set_shared (m : gmap bytes dev_status) (b : bytes) (sh : bool) :
    error_code * gmap bytes dev_status :=
  match m !! b with
  | None => (ERR_NOT_FOUND, m)
  | Some s => (ERR_SUCCESS, <[b := {| st_state := st_state s; st_client_id := st_client_id s;
                                      st_client_ip := st_client_ip s; st_shared := sh |}]> m)
  end.

Definition spec_available (m : gmap bytes dev_status) (b : bytes) : bool :=
  match m !! b with
  | Some s => bool_decide (st_state s = DEVICE_STATE_AVAILABLE) && st_shared s
  | None => false
  end.

Lemma abs_lookup_entries es b :
  Forall entry_ok es -> no_nul b ->
  (list_to_map ((fun e => (busid_of e, status_of e)) <$> es) : gmap bytes dev_status) !! b =
  status_of <$> find_first (entry_is b) es.
Proof.
  intros Hok Hb. induction Hok as [|e es He Hes IH]; [done|].
  rewrite fmap_cons, list_to_map_cons. cbn [find_first fst snd].
  pose proof (entry_is_true b e He) as Hi. rewrite (cstr_id b) in Hi by done.
  destruct (entry_is b e).
  - rewrite (proj1 Hi eq_refl). by rewrite lookup_insert_eq.
  - rewrite lookup_insert_ne, IH; [done|]. intros Hx. by apply Hi in Hx.
Qed.

Lemma abs_lookup l b :
  dl_inv l -> no_nul b -> abs l !! b = status_of <$> find_first (entry_is b) (dl_entries l).
Proof. intros [_ He _ _] Hb. by apply abs_lookup_entries. Qed.

Lemma abs_update_entries es b g e :
  Forall entry_ok es -> no_nul b -> (forall x, busid_of (g x) = busid_of x) ->
  find_first (entry_is b) es = Some e ->
  (list_to_map ((fun e => (busid_of e, status_of e)) <$> update_first (entry_is b) g es)
    : gmap bytes dev_status) =
  <[b := status_of (g e)]> (list_to_map ((fun e => (busid_of e, status_of e)) <$> es)).
Proof.
  intros Hok Hb Hg. induction Hok as [|x es Hx Hes IH]; [done|].
  rewrite fmap_cons, list_to_map_cons. cbn [find_first update_first fst snd].
  pose proof (entry_is_true b x Hx) as Hi. rewrite (cstr_id b) in Hi by done.
  destruct (entry_is b x); intros Hf; simplify_eq; rewrite fmap_cons, list_to_map_cons; cbn [fst snd].
  - rewrite Hg, (proj1 Hi eq_refl). by rewrite insert_insert_eq.
  - rewrite IH by done. rewrite insert_insert_ne; [done|]. intros Heq. by apply Hi in Heq.
Qed.

Lemma abs_update l b g e n :
  dl_inv l -> no_nul b -> (forall x, busid_of (g x) = busid_of x) ->
  find_first (entry_is b) (dl_entries l) = Some e ->
  abs (set_entries l (update_first (entry_is b) g (dl_entries l)) n) =
  <[b := status_of (g e)]> (abs l).
Proof. intros [_ He _ _] Hb Hg Hf. by apply abs_update_entries. Qed.

(** The operations that lock the list and look one entry up: the list they
    return is the one with the entry assigned, and the lock as before. *)
Lemma export_eq now l b id ip :
  device_list_export now (Some l) (Some b) id ip =
  match find_first (entry_is b) (dl_entries l) with
  | NULL => (ERR_NOT_FOUND, Some l)
  | Some e =>
      if bool_decide (de_state e <> DEVICE_STATE_AVAILABLE) then (ERR_DEVICE_BUSY, Some l) else
      (ERR_SUCCESS, Some (set_entries l (update_first (entry_is b)
        (fun e => entry_set_state e DEVICE_STATE_EXPORTED id
           (match ip with Some ip => copy_str ip 64 | NULL => de_client_ip e end) now)
        (dl_entries l)) (dl_count l)))
  end.
Proof.
  unfold device_list_export. simpl. autorewrite with usbip.
  destruct (find_first _ _); [|done]. by destruct (bool_decide _).
Qed.

Lemma unexport_eq l b :
  device_list_unexport (Some l) (Some b) =
  match find_first (entry_is b) (dl_entries l) with
  | NULL => (ERR_NOT_FOUND, Some l)
  | Some e => (ERR_SUCCESS, Some (set_entries l (update_first (entry_is b)
        (fun e => entry_set_state e DEVICE_STATE_AVAILABLE 0 [] 0) (dl_entries l)) (dl_count l)))
  end.
Proof.
  unfold device_list_unexport. simpl. autorewrite with usbip. by destruct (find_first _ _).
Qed.

Lemma set_shared_eq l b sh :
  device_list_set_shared (Some l) (Some b) sh =
  match find_first (entry_is b) (dl_entries l) with
  | NULL => (ERR_NOT_FOUND, Some l)
  | Some e => (ERR_SUCCESS, Some (set_entries l (update_first (entry_is b)
        (fun e => entry_set_shared e sh) (dl_entries l)) (dl_count l)))
  end.
Proof.
  unfold device_list_set_shared. simpl. autorewrite with usbip. by destruct (find_first _ _).
Qed.

Lemma set_busy_eq l b busy :
  device_list_set_busy (Some l) (Some b) busy =
  match find_first (entry_is b) (dl_entries l) with
  | NULL => (ERR_NOT_FOUND, Some l)
  | Some e => (ERR_SUCCESS, Some (set_entries l (update_first (entry_is b)
        (busy_assign busy) (dl_entries l)) (dl_count l)))
  end.
Proof.
  unfold device_list_set_busy. simpl. autorewrite with usbip. by destruct (find_first _ _).
Qed.

Lemma is_available_eq l b :
  device_list_is_available (Some l) (Some b) =
  (match find_first (entry_is b) (dl_entries l) with
   | Some e => bool_decide (de_state e = DEVICE_STATE_AVAILABLE) && de_is_shared e
   | NULL => false
   end, Some l).
Proof. unfold device_list_is_available. simpl. autorewrite with usbip. done. Qed.

Lemma available_count_filter es n :
  available_count_loop es n =
  n + Z.of_nat (length (filter (fun e => de_state e = DEVICE_STATE_AVAILABLE /\ de_is_shared e = true) es)).
Proof.
  revert n. induction es as [|e es IH]; intros n; simpl; [lia|].
  rewrite IH, filter_cons. destruct (decide (de_state e = DEVICE_STATE_AVAILABLE)) as [Ha|Ha].
  - rewrite bool_decide_true by done. destruct (de_is_shared e) eqn:Es; simpl.
    + rewrite decide_True by done. simpl. lia.
    + rewrite decide_False by (intros []; done). done.
  - rewrite bool_decide_false by done. rewrite decide_False by (intros []; done). done.
Qed.

(** ** The device list as a state machine *)

Section machine.
  Context {U : Type} `{WinUsbLaws U}.
  Implicit Types u : U.

(** One call of an operation, with any arguments the program can pass. *)
Inductive dl_step : device_list * U -> device_list * U -> Prop :=
  | step_add alloc d l e l' u :
      dev_wf d -> dev_inv d -> fresh_alloc l alloc ->
      device_list_add alloc (Some l) (Some d) = (e, Some l') -> dl_step (l, u) (l', u)
  | step_remove b l e l' u u' :
      device_list_remove (Some l) (Some b) u = ((e, Some l'), u') -> dl_step (l, u) (l', u')
  | step_refresh utf8 init info allocs now l e l' u u' :
      (forall es, info = Some es -> Forall (fun x => Forall is_byte (di_instance_id x)) es) ->
      NoDup (omap id allocs) ->
      device_list_refresh utf8 init info allocs now (Some l) u = ((e, Some l'), u') ->
      dl_step (l, u) (l', u')
  | step_export now b id ip l e l' u :
      device_list_export now (Some l) (Some b) id ip = (e, Some l') -> dl_step (l, u) (l', u)
  | step_unexport b l e l' u :
      device_list_unexport (Some l) (Some b) = (e, Some l') -> dl_step (l, u) (l', u)
  | step_set_busy b busy l e l' u :
      device_list_set_busy (Some l) (Some b) busy = (e, Some l') -> dl_step (l, u) (l', u)
  | step_set_shared b sh l e l' u :
      device_list_set_shared (Some l) (Some b) sh = (e, Some l') -> dl_step (l, u) (l', u)
  | step_share_all l l' u :
      device_list_share_all (Some l) = Some l' -> dl_step (l, u) (l', u)
  | step_unshare_all l l' u :
      device_list_unshare_all (Some l) = Some l' -> dl_step (l, u) (l', u).

Lemma clear_run l u :
  exists u', device_list_clear (Some l) u = (Some (set_entries l [] 0), u').
Proof.
  unfold device_list_clear. destruct (free_entries (dl_entries l) u) as [[] u'] eqn:E.
  exists u'. by rewrite (M_bind_run _ _ _ _ _ E).
Qed.

Lemma remove_run l b u e r u' :
  device_list_remove (Some l) (Some b) u = ((e, r), u') ->
  match find_first (entry_is b) (dl_entries l) with
  | Some x => e = ERR_SUCCESS /\ (free_entry (Some x) u).2 = u' /\
      r = Some (set_entries l (remove_first (entry_is b) (dl_entries l)) (dl_count l - 1))
  | NULL => e = ERR_NOT_FOUND /\ r = Some l /\ u' = u
  end.
Proof.
  unfold device_list_remove. autorewrite with usbip. destruct (find_first _ _) as [x|].
  - destruct (free_entry (Some x) u) as [[] u1] eqn:E. rewrite (M_bind_run _ _ _ _ _ E).
    autorewrite with usbip. intros. by mret_eq.
  - intros. by mret_eq.
Qed.

Lemma enumerated_ok utf8 es :
  Forall (fun x => Forall is_byte (di_instance_id x)) es ->
  Forall (fun d => dev_wf d /\ dev_inv d /\ dev_is_open d = false /\ dev_busid d <> [])
    (enumerated utf8 es).
Proof.
  intros Hb. unfold enumerated. apply Forall_forall.
  intros d (x & -> & [_ Hx]%list_elem_of_filter)%list_elem_of_fmap.
  rewrite Forall_forall in Hb. specialize (Hb x Hx).
  split; [by apply entry_device_wf|]. unfold entry_device.
  destruct (match strstr _ _ with Some _ => _ | None => _ end) as [vid pid].
  split; [|split; [done|apply parse_busid_nonempty]].
  split_and!; simpl; try done. intros _. split_and!; try done.
  by apply (Forall_replicate _ USB_MAX_INTERFACES).
Qed.

(** What a refresh computes: the enumerated devices, with the remembered exports
    restored. *)
Lemma refresh_run utf8 init info allocs now l u e r u' :
  dl_inv l -> dl_initialized l = true ->
  (forall es, info = Some es -> Forall (fun x => Forall is_byte (di_instance_id x)) es) ->
  NoDup (omap id allocs) ->
  device_list_refresh utf8 init info allocs now (Some l) u = ((e, r), u') ->
  exists l1, e = ERR_SUCCESS /\
    r = Some (set_entries l
      (map (restore_one now (export_of <$> take MAX_DEVICES (filter exported (dl_entries l))))
         (dl_entries l1)) (dl_count l1)) /\
    dl_inv l1 /\ Forall entry_new (dl_entries l1) /\
    dl_inv (set_entries l (map (restore_one now
      (export_of <$> take MAX_DEVICES (filter exported (dl_entries l)))) (dl_entries l1)) (dl_count l1)).
Proof.
  intros Hi Hini Hb Hnd E. unfold device_list_refresh in E. rewrite Hini in E. cbn [negb] in E.
  destruct (clear_run (device_list_lock l) u) as (u1 & Ec). rewrite (M_bind_run _ _ _ _ _ Ec) in E.
  set (l0 := set_entries (device_list_lock l) [] 0) in *.
  assert (dl_inv l0) as Hi0 by (split; simpl; done || constructor).
  assert (exists l1 al, usb_enumerate_devices utf8 init info enum_callback (Some l0, allocs)
     = (match init, info with false, _ => ERR_NOT_INITIALIZED | _, None => ERR_USB_INIT | _, _ => ERR_SUCCESS end, (Some l1, al)) /\
     dl_inv l1 /\ Forall entry_new (dl_entries l1) /\ dl_lock l1 = dl_lock l0 /\
     dl_initialized l1 = dl_initialized l0) as (l1 & al & Ee & Hi1 & Hn1 & Hk1 & Hz1).
  { unfold usb_enumerate_devices. destruct init, info as [es|]; simpl; try by (eexists _, _; split_and!).
    rewrite enumerate_loop_fold.
    destruct (enum_fold_spec (enumerated utf8 es) l0 allocs) as (l1 & al & -> & ?);
      [done|constructor|by apply enumerated_ok, Hb|done|by intros ? _ ?%not_elem_of_nil|]. eauto. }
  rewrite Ee in E. mret_eq. exists l1. split; [done|].
  rewrite save_exports_spec by (rewrite entries_lock; apply Hi). rewrite entries_lock.
  set (xs := export_of <$> take MAX_DEVICES (filter exported (dl_entries l))).
  assert (sublist (take MAX_DEVICES (filter exported (dl_entries l))) (dl_entries l)) as Hsub.
  { etrans; [apply sublist_take|apply sublist_filter]. }
  destruct (restore_exports_spec now xs l1) as [Er Hir]; [done| | |].
  { subst xs. rewrite <-list_fmap_compose. change (ex_busid ∘ export_of) with busid_of.
    eapply sublist_NoDup; [apply (inv_busids l Hi)|]. by apply fmap_sublist. }
  { subst xs. apply Forall_fmap, Forall_take, Forall_forall. intros x [_ Hx]%list_elem_of_filter.
    pose proof (inv_entries l Hi) as He. rewrite Forall_forall in He.
    destruct (He x Hx) as ((_ & (Hnn & _) & _) & _ & Hip & _). done. }
  rewrite Er in *. split.
  - f_equal. unfold device_list_unlock, set_entries in *. simpl in *. rewrite Hz1. simpl.
    unfold device_list_lock. rewrite Hini. simpl. rewrite Hini. unfold set_lock. simpl.
    rewrite Hk1. simpl. unfold device_list_lock. rewrite Hini. simpl. f_equal. lia.
  - split_and!; [done..|]. destruct Hir. by split.
Qed.

(** A first enumeration, with nothing exported yet. *)
Lemma refresh_fresh utf8 init info allocs now l u e r u' :
  dl_inv l -> dl_initialized l = true -> filter exported (dl_entries l) = [] ->
  (forall es, info = Some es -> Forall (fun x => Forall is_byte (di_instance_id x)) es) ->
  NoDup (omap id allocs) ->
  device_list_refresh utf8 init info allocs now (Some l) u = ((e, r), u') ->
  exists l', e = ERR_SUCCESS /\ r = Some l' /\ dl_inv l' /\ Forall entry_new (dl_entries l') /\
    dl_initialized l' = dl_initialized l.
Proof.
  intros Hi Hini Hx Hb Hnd E.
  destruct (refresh_run utf8 init info allocs now l u e r u' Hi Hini Hb Hnd E)
    as (l1 & -> & -> & Hi1 & Hn1 & Hi2).
  eexists. split_and!; [done|done|exact Hi2| |done]. simpl. rewrite Hx.
  rewrite (map_ext _ id) by done. by rewrite map_id.
Qed.

Lemma dl_step_inv l u l' u' :
  dl_inv l -> dl_initialized l = true -> dl_step (l, u) (l', u') ->
  dl_inv l' /\ dl_initialized l' = true /\ dl_lock l' = dl_lock l.
Proof.
  intros Hi Hini Hs. inversion Hs as
    [alloc d ? e ? ? Hw Hv Hf E|b ? e ? ? ? E|utf8 init info al now ? e ? ? ? Hb Hnd E
    |now b id ip ? e ? ? E|b ? e ? ? E|b busy ? e ? ? E|b sh ? e ? ? E|? ? ? E|? ? ? E]; subst.
  - destruct (inv_add l alloc d e (Some l') Hi Hw Hv Hf E) as (l1 & [= <-] & ? & ? & ? & _).
    split_and!; congruence.
  - apply remove_run in E. destruct (find_first _ _) as [x|] eqn:Ef; destruct_and!; simplify_eq; [|done].
    split_and!; [by eapply inv_remove|done|done].
  - destruct (refresh_run utf8 init info al now l u e (Some l') u' Hi Hini Hb Hnd E)
      as (l1 & _ & [= ->] & _ & _ & ?). done.
  - rewrite export_eq in E. destruct (find_first _ _); simplify_eq; [|done].
    destruct (bool_decide _); simplify_eq; [done|]. split_and!; [|done|done].
    apply inv_update; try done. intros x Hx. apply entry_ok_exported; [|done].
    destruct ip; [apply ip_ok_copy|apply Hx].
  - rewrite unexport_eq in E. destruct (find_first _ _); simplify_eq; [|done].
    split_and!; [|done|done]. apply inv_update; auto with usbip.
  - rewrite set_busy_eq in E. destruct (find_first _ _); simplify_eq; [|done].
    split_and!; [|done|done]. apply inv_update; auto with usbip.
  - rewrite set_shared_eq in E. destruct (find_first _ _); simplify_eq; [|done].
    split_and!; [|done|done]. apply inv_update; auto with usbip.
  - unfold device_list_share_all in E. autorewrite with usbip in E. simplify_eq.
    split_and!; [|done|done]. apply inv_map; auto with usbip.
  - unfold device_list_unshare_all in E. autorewrite with usbip in E. simplify_eq.
    split_and!; [|done|done]. apply inv_map; auto with usbip.
Qed.

(** ** Properties *)



(** exporting a device is exclusive and reversible: after one client's export
    succeeds every other export of that device is refused as busy and the device
    is not available, and [device_list_unexport] gives back exactly the list
    before the export. *)
Theorem export_exclusive l l' b now id ip now' id' ip' :
  dl_inv l -> no_nul b ->
  device_list_export now (Some l) (Some b) id (Some ip) = (ERR_SUCCESS, Some l') ->
  device_list_export now' (Some l') (Some b) id' ip' = (ERR_DEVICE_BUSY, Some l') /\
  device_list_is_available (Some l') (Some b) = (false, Some l') /\
  device_list_is_exported (Some l') (Some b) = (true, Some l') /\
  device_list_unexport (Some l') (Some b) = (ERR_SUCCESS, Some l).
Proof.
  intros Hi Hb E. rewrite export_eq in E.
  destruct (find_first (entry_is b) (dl_entries l)) as [x|] eqn:Ef; [|done].
  destruct (decide (de_state x = DEVICE_STATE_AVAILABLE)) as [Ha|Ha];
    [rewrite bool_decide_false in E by auto|by rewrite bool_decide_true in E].
  simplify_eq. set (g := fun e => entry_set_state e _ _ _ _).
  assert (find_first (entry_is b) (update_first (entry_is b) g (dl_entries l)) = Some (g x)) as Ef'.
  { by apply find_update_first. }
  rewrite export_eq, is_available_eq, unexport_eq. unfold device_list_is_exported. simpl.
  rewrite entries_lock, unlock_lock_id. simpl. rewrite Ef'. simpl.
  split_and!; [done..|]. do 2 f_equal.
  destruct (find_first_split _ _ _ Ef) as (l1 & l2 & El & H1 & Hx).
  rewrite El, !update_first_split by done.
  assert (entry_set_state (g x) DEVICE_STATE_AVAILABLE 0 [] 0 = x) as ->.
  { pose proof (inv_entries l Hi) as He. rewrite El, Forall_app, Forall_cons in He.
    destruct He as (_ & (_ & _ & _ & Hc) & _). destruct Hc as (E1 & E2 & E3); [by rewrite Ha|].
    destruct x; simpl in *. subst. done. }
  destruct l; simpl in *. by rewrite El.
Qed.

(** a refresh rebuilds the list from the enumeration: every entry is shared,
    closed, and available or exported; an entry is exported exactly when an entry
    with the same bus id was among the first 32 exported ones before, and then to
    the same client.  The well-formedness invariant and the lock are preserved. *)
Theorem refresh_keeps_exports utf8 init info allocs now l u e r u' :
  dl_inv l -> dl_initialized l = true ->
  (forall es, info = Some es -> Forall (fun x => Forall is_byte (di_instance_id x)) es) ->
  NoDup (omap id allocs) ->
  device_list_refresh utf8 init info allocs now (Some l) u = ((e, r), u') ->
  exists l', e = ERR_SUCCESS /\ r = Some l' /\ dl_inv l' /\ dl_lock l' = dl_lock l /\
  Forall (fun x => de_is_shared x = true /\ dev_is_open (de_device x) = false /\
    (de_state x = DEVICE_STATE_AVAILABLE \/ de_state x = DEVICE_STATE_EXPORTED) /\
    (de_state x = DEVICE_STATE_EXPORTED <->
     exists y, y ∈ take MAX_DEVICES (filter exported (dl_entries l)) /\ busid_of y = busid_of x /\
       de_client_id x = de_client_id y /\ de_client_ip x = de_client_ip y)) (dl_entries l').
Proof.
  intros Hi Hini Hb Hnd E.
  destruct (refresh_run utf8 init info allocs now l u e r u' Hi Hini Hb Hnd E)
    as (l1 & -> & -> & Hi1 & Hn1 & Hi2).
  eexists. split; [done|]. split; [done|]. split; [done|]. split; [done|]. simpl.
  apply Forall_fmap. eapply Forall_impl; [exact Hn1|]. intros x (Ha & Hs & Ho & _). simpl.
  unfold restore_one.
  destruct (find_first _ (export_of <$> _)) as [y|] eqn:Ef; simpl.
  - apply find_first_Some in Ef as [Hy Hby]. bool_to_prop.
    apply list_elem_of_fmap in Hy as (z & -> & Hz). simpl in *.
    split_and!; auto. split; [|done]. intros _. eauto.
  - split_and!; auto. rewrite Ha. split; [done|]. intros (y & Hy & Hby & _).
    apply find_first_None in Ef. rewrite Forall_forall in Ef.
    specialize (Ef (export_of y) (list_elem_of_fmap_2 _ _ _ Hy)). bool_to_prop. done.
Qed.

(** [device_list_cleanup] empties the list but never releases its mutex: it
    clears [initialized] first, after which [device_list_unlock] does nothing. *)
Theorem cleanup_leaves_mutex_held l u r u' :
  dl_initialized l = true -> device_list_cleanup (Some l) u = (r, u') ->
  exists l', r = Some l' /\ dl_entries l' = [] /\ dl_count l' = 0 /\
    dl_initialized l' = false /\ dl_lock l' = dl_lock l + 1.
Proof.
  intros Hini E. unfold device_list_cleanup in E. rewrite Hini in E. cbn [negb] in E.
  destruct (clear_run (device_list_lock l) u) as (u1 & Ec). rewrite (M_bind_run _ _ _ _ _ Ec) in E.
  mret_eq. eexists. split; [done|]. split_and!; try done. simpl.
  unfold device_list_lock. by rewrite Hini.
Qed.

(** The handles owned by the devices of some entries. *)
Definition entries_files (es : list device_entry) : gset Z := ⋃ (owned_files ∘ de_device <$> es).
Definition entries_usb (es : list device_entry) : gset Z := ⋃ (owned_usb ∘ de_device <$> es).

Lemma free_entry_handles x u r u' :
  entry_ok x -> free_entry (Some x) u = (r, u') ->
  open_files u' = open_files u ∖ owned_files (de_device x) /\
  open_usb u' = open_usb u ∖ owned_usb (de_device x).
Proof.
  intros (_ & Hi & _) E. unfold free_entry in E. destruct (dev_is_open (de_device x)) eqn:Ho.
  - apply M_bind_inv in E as (d & u1 & E1 & E). mret_eq.
    by apply close_device_spec in E1 as (d' & _ & _ & _ & _ & ? & ?).
  - mret_eq. destruct (dev_inv_closed_owns _ Hi Ho) as [-> ->]. split; set_solver.
Qed.

(** clearing the list closes every open device of it: exactly the handles its
    entries own are released, none of them leaks. *)
Theorem clear_releases_handles l u r u' :
  dl_inv l -> device_list_clear (Some l) u = (r, u') ->
  open_files u' = open_files u ∖ entries_files (dl_entries l) /\
  open_usb u' = open_usb u ∖ entries_usb (dl_entries l) /\
  exists l', r = Some l' /\ dl_entries l' = [] /\ dl_count l' = 0.
Proof.
  intros [_ Hok _ _] E. unfold device_list_clear in E.
  apply M_bind_inv in E as ([] & u1 & E1 & E). mret_eq.
  enough (open_files u' = open_files u ∖ entries_files (dl_entries l) /\
    open_usb u' = open_usb u ∖ entries_usb (dl_entries l)) as [? ?] by (split_and!; eauto).
  revert u E1. induction Hok as [|x es Hx Hes IH]; intros u E1; simpl in E1.
  - mret_eq. unfold entries_files, entries_usb. simpl. split; set_solver.
  - apply M_bind_inv in E1 as ([] & u2 & E1 & E2). apply free_entry_handles in E1 as [F1 F2]; [|done].
    apply IH in E2 as [-> ->]. rewrite F1, F2. unfold entries_files, entries_usb. simpl.
    split; set_solver.
Qed.
End machine.

(** ** Witnesses *)

Definition empty_list : device_list :=
  {| dl_entries := []; dl_count := 0; dl_lock := 0; dl_initialized := true |}.

(** The list after the example device was added at address 4096. *)
Definition example_list : device_list :=
  default empty_list (device_list_add (Some 4096) (Some empty_list) (Some example_device)).2.

Lemma example_device_wf : dev_wf example_device.
Proof. apply entry_device_wf. repeat constructor; by vm_compute. Qed.

Lemma empty_list_inv : dl_inv empty_list.
Proof. split; simpl; done || constructor. Qed.

Lemma example_list_inv : dl_inv example_list.
Proof.
  destruct (inv_add empty_list (Some 4096) example_device ERR_SUCCESS (Some example_list))
    as (l' & [= <-] & ? & _);
    [apply empty_list_inv|apply example_device_wf|apply example_device_inv|by intros ? _ ?%not_elem_of_nil
    |done|done].
Qed.

(** A second device on the list. *)
Definition second_entry : di_entry := {|
  di_hardware_id := str "USB\VID_046D&PID_C077&REV_7200";
  di_service := str "WinUSB"; di_desc := str "USB Input Device";
  di_desc_w := NULL; di_friendly_w := []; di_instance_id := str "USB\VID_046D&PID_C077\5" |}.

Definition second_device : usb_device := entry_device (fun _ _ => None) second_entry.
Definition second_busid : bytes := dev_busid second_device.

Definition two_devices : device_list :=
  default example_list (device_list_add (Some 4500) (Some example_list) (Some second_device)).2.

Lemma two_devices_inv : dl_inv two_devices.
Proof.
  apply inv_add_default; [apply example_list_inv| | |].
  - apply entry_device_wf. repeat constructor; by vm_compute.
  - split_and!; try done. intros _. split_and!; try done. by apply Forall_replicate.
  - intros loc [= <-]. apply (bool_decide_unpack _). by vm_compute.
Qed.

Definition example_busid : bytes := dev_busid example_device.

Lemma example_busid_no_nul : no_nul example_busid.
Proof. apply example_device_wf. Qed.



Definition example_exported : device_list :=
  default empty_list
    (device_list_export 1000 (Some example_list) (Some example_busid) 7 (Some (str "10.0.0.2"))).2.

Lemma export_exclusive_witness :
  device_list_unexport (Some example_exported) (Some example_busid) = (ERR_SUCCESS, Some example_list).
Proof.
  apply (export_exclusive example_list example_exported example_busid 1000 7 (str "10.0.0.2") 0 0 NULL);
    [apply example_list_inv|apply example_busid_no_nul|done].
Defined.

Lemma refresh_keeps_exports_witness :
  exists l', (device_list_refresh (fun _ _ => None) true (Some [example_entry]) [Some 8192] 2000
                (Some example_exported) (SimUsb.start [])).1 = (ERR_SUCCESS, Some l') /\ dl_inv l'.
Proof.
  destruct (device_list_refresh (fun _ _ => None) true (Some [example_entry]) [Some 8192] 2000
             (Some example_exported) (SimUsb.start [])) as [[e r] u'] eqn:E.
  destruct (refresh_keeps_exports (fun _ _ => None) true (Some [example_entry]) [Some 8192] 2000
    example_exported (SimUsb.start []) e r u') as (l' & -> & -> & Hi & _);
    [|vm_compute; reflexivity| | |exact E|exists l'; split; [reflexivity|exact Hi]].
  - destruct (dl_step_inv example_list (SimUsb.start []) example_exported (SimUsb.start []))
      as (? & _); [apply example_list_inv|vm_compute; reflexivity| |assumption].
    apply (step_export 1000 example_busid 7 (Some (str "10.0.0.2")) _ ERR_SUCCESS).
    vm_compute. reflexivity.
  - intros es [= <-]. repeat constructor; by vm_compute.
  - simpl. apply NoDup_singleton.
Defined.

Lemma cleanup_leaves_mutex_held_witness :
  exists l', (device_list_cleanup (Some example_list) (SimUsb.start [])).1 = Some l' /\ dl_lock l' = 1.
Proof.
  destruct (device_list_cleanup (Some example_list) (SimUsb.start [])) as [r u'] eqn:E.
  destruct (cleanup_leaves_mutex_held example_list (SimUsb.start []) r u')
    as (l' & -> & _ & _ & _ & Hl); [done|exact E|by exists l'].
Defined.

Lemma clear_releases_handles_witness :
  open_files (device_list_clear (Some example_list) (SimUsb.start [])).2 =
  open_files (SimUsb.start []) ∖ entries_files (dl_entries example_list).
Proof.
  apply (clear_releases_handles example_list (SimUsb.start [])
    (device_list_clear (Some example_list) (SimUsb.start [])).1); [apply example_list_inv|].
  by destruct (device_list_clear _ _).
Defined.
