(* ===== verification/UrbQueue.v ===== *)
(** * The URB queues ([server/urb_handler.c], [queue_*])

    The linked queue as the code has it: nodes in a heap, a head and a tail
    pointer, a count, and the auto-reset event that wakes the worker.  Reading or
    writing through a dangling pointer is a fault ([None]).  [queue_rep] says that
    a queue holds a given sequence of nodes, and the lemmas show that the code
    implements a first-in first-out list on it without a fault. *)

From S2P Require Import Prelude CTypes Errors Protocol UsbHost.

(** ** Data *)

Record urb_entry := {
  ent_urb : usb_urb;
  ent_seqnum : Z;
  ent_devid : Z;
  ent_submit_time : Z;
  ent_in_progress : bool;
  ent_completed : bool;
}.

(** An allocated [urb_entry_t]: its contents and its [next] pointer. *)
Record urb_node := {
  nd_entry : urb_entry;
  nd_next : ptr Z;
}.

Abbreviation heap := (gmap Z urb_node).

Record urb_queue := {
  q_head : ptr Z;
  q_tail : ptr Z;
  q_count : Z;
  q_notify : bool;
}.

Definition set_next (h : heap) (loc : Z) (next : ptr Z) : option heap :=
  nd ← h !! loc; Some (<[loc := {| nd_entry := nd_entry nd; nd_next := next |}]> h).

(** ** Operations *)

Definition queue_zero : urb_queue :=
  {| q_head := NULL; q_tail := NULL; q_count := 0; q_notify := false |}.

(** [mutex_result], [event_result]: what [mutex_init] and [event_init] return. *)
Definition queue_init (mutex_result event_result : Z) : error_code * urb_queue :=
  return_if negb (mutex_result =? 0) with (ERR_MUTEX_INIT, queue_zero) ;;
  return_if negb (event_result =? 0) with (ERR_THREAD_CREATE, queue_zero) ;;
  (ERR_SUCCESS, queue_zero).

Definition queue_push (h : heap) (q : urb_queue) (entry : Z) : option (heap * urb_queue) :=
  h ← set_next h entry NULL;
  '(h, head) ← match q_tail q with
               | Some tail => h ← set_next h tail (Some entry); Some (h, q_head q)
               | NULL => Some (h, Some entry)
               end;
  Some (h, {| q_head := head; q_tail := Some entry; q_count := q_count q + 1; q_notify := true |}).

Definition queue_pop (h : heap) (q : urb_queue) : option (ptr Z * heap * urb_queue) :=
  match q_head q with
  | NULL => Some (NULL, h, q)
  | Some entry =>
      nd ← h !! entry;
      let head := nd_next nd in
      let tail := match head with NULL => NULL | Some _ => q_tail q end in
      h ← set_next h entry NULL;
      Some (Some entry, h,
        {| q_head := head; q_tail := tail; q_count := q_count q - 1; q_notify := q_notify q |})
  end.

(** The [while] loop of [queue_find_remove]. *)
Fixpoint find_remove_loop (fuel : nat) (h : heap) (q : urb_queue) (seqnum : Z) (prev entry : ptr Z) :
    option (ptr Z * heap * urb_queue) :=
  match fuel with
  | O => None
  | S fuel =>
      match entry with
      | NULL => Some (NULL, h, q)
      | Some e =>
          nd ← h !! e;
          if ent_seqnum (nd_entry nd) =? seqnum then
            '(h, head) ← match prev with
                         | NULL => Some (h, nd_next nd)
                         | Some p => h ← set_next h p (nd_next nd); Some (h, q_head q)
                         end;
            let tail := if bool_decide (entry = q_tail q) then prev else q_tail q in
            h ← set_next h e NULL;
            Some (entry, h,
              {| q_head := head; q_tail := tail; q_count := q_count q - 1; q_notify := q_notify q |})
          else find_remove_loop fuel h q seqnum entry (nd_next nd)
      end
  end.

(** A queue visits every node of the heap at most once. *)
Definition queue_find_remove (h : heap) (q : urb_queue) (seqnum : Z) :
    option (ptr Z * heap * urb_queue) :=
  find_remove_loop (S (size h)) h q seqnum NULL (q_head q).

(** The loop of [queue_cleanup] frees every node and its buffer. *)
Fixpoint cleanup_loop (fuel : nat) (h : heap) (entry : ptr Z) : option heap :=
  match fuel with
  | O => None
  | S fuel =>
      match entry with
      | NULL => Some h
      | Some e => nd ← h !! e; cleanup_loop fuel (delete e h) (nd_next nd)
      end
  end.

Definition queue_cleanup (h : heap) (q : urb_queue) : option (heap * urb_queue) :=
  h' ← cleanup_loop (S (size h)) h (q_head q);
  Some (h', {| q_head := NULL; q_tail := NULL; q_count := 0; q_notify := q_notify q |}).

(** ** Representation *)

(** The nodes from pointer [p] to the end are exactly [ls]. *)
Fixpoint chain (h : heap) (p : ptr Z) (ls : list Z) : Prop :=
  match ls with
  | [] => p = NULL
  | x :: ls' => p = Some x /\ exists nd, h !! x = Some nd /\ chain h (nd_next nd) ls'
  end.

Record queue_rep (h : heap) (q : urb_queue) (ls : list Z) : Prop := {
  rep_chain : chain h (q_head q) ls;
  rep_nodup : NoDup ls;
  rep_tail : q_tail q = last ls;
  rep_count : q_count q = Z.of_nat (length ls);
}.

(** The contents of the queue, in order. *)
Definition contents (h : heap) (ls : list Z) : list urb_entry := omap (fun x => nd_entry <$> h !! x) ls.

(** ** Lemmas *)

Lemma set_next_some h x nd p :
  h !! x = Some nd -> set_next h x p = Some (<[x := {| nd_entry := nd_entry nd; nd_next := p |}]> h).
Proof. unfold set_next. by intros ->. Qed.

Lemma chain_nodes h p ls x : chain h p ls -> x ∈ ls -> exists nd, h !! x = Some nd.
Proof.
  revert p. induction ls as [|y ls IH]; intros p Hc Hx; [by apply not_elem_of_nil in Hx|].
  destruct Hc as (-> & nd & Hy & Hc). apply elem_of_cons in Hx as [->|Hx]; eauto.
Qed.

(** Changing a node outside a chain leaves the chain alone. *)
Lemma chain_insert h p ls x nd : x ∉ ls -> chain h p ls -> chain (<[x := nd]> h) p ls.
Proof.
  revert p. induction ls as [|y ls IH]; intros p Hx Hc; [done|].
  rewrite not_elem_of_cons in Hx. destruct Hx as [Hy Hx], Hc as (-> & nd' & Hn & Hc).
  split; [done|]. exists nd'. rewrite lookup_insert_ne by done. auto.
Qed.

Lemma chain_delete h p ls x : x ∉ ls -> chain h p ls -> chain (delete x h) p ls.
Proof.
  revert p. induction ls as [|y ls IH]; intros p Hx Hc; [done|].
  rewrite not_elem_of_cons in Hx. destruct Hx as [Hy Hx], Hc as (-> & nd' & Hn & Hc).
  split; [done|]. exists nd'. rewrite lookup_delete_ne by done. auto.
Qed.

(** A chain is in the nodes of its list. *)
Lemma chain_ext g h p ls :
  (forall x, x ∈ ls -> g !! x = h !! x) -> chain h p ls -> chain g p ls.
Proof.
  revert p. induction ls as [|x ls IH]; intros p He Hc; [done|].
  destruct Hc as (-> & nd & Hx & Hc). split; [done|]. exists nd.
  rewrite He by (by left). split; [done|]. apply IH; [|done]. intros y Hy. apply He. by right.
Qed.

(** Linking a new last node. *)
Lemma chain_snoc h p ls t x nd nx :
  chain h p (ls ++ [t]) -> NoDup (ls ++ [t]) -> x ∉ ls ++ [t] ->
  h !! t = Some nd -> h !! x = Some nx -> nd_next nx = NULL ->
  chain (<[t := {| nd_entry := nd_entry nd; nd_next := Some x |}]> h) p (ls ++ [t; x]).
Proof.
  revert p. induction ls as [|y ls IH]; intros p Hc Hnd Hx Ht Hxn Hnx; simpl in *.
  - destruct Hc as (-> & nd' & Hn & Hc). split; [done|].
    eexists. rewrite lookup_insert_eq. split; [done|]. simpl. split; [done|].
    exists nx. rewrite lookup_insert_ne by set_solver. done.
  - destruct Hc as (-> & nd' & Hn & Hc). apply NoDup_cons in Hnd as [Hy Hnd]. split; [done|].
    exists nd'. rewrite lookup_insert_ne by set_solver. split; [done|]. apply IH; set_solver.
Qed.

(** Splitting a chain at a node. *)
Lemma chain_app_inv h p l1 x l2 :
  chain h p (l1 ++ x :: l2) -> exists nd, h !! x = Some nd /\ chain h (nd_next nd) l2.
Proof.
  revert p. induction l1 as [|y l1 IH]; intros p Hc; simpl in Hc.
  - destruct Hc as (-> & nd & ? & ?). eauto.
  - destruct Hc as (-> & nd & ? & ?). eauto.
Qed.

(** Unlinking the node after [pr]. *)
Lemma chain_unlink h p l1 pr x l2 ndp ndx :
  chain h p (l1 ++ pr :: x :: l2) -> NoDup (l1 ++ pr :: x :: l2) ->
  h !! pr = Some ndp -> h !! x = Some ndx ->
  chain (<[pr := {| nd_entry := nd_entry ndp; nd_next := nd_next ndx |}]> h) p (l1 ++ pr :: l2).
Proof.
  revert p. induction l1 as [|y l1 IH]; intros p Hc Hnd Hp Hx; simpl in *.
  - destruct Hc as (-> & nd & Hn & _ & nd2 & Hn2 & Hc). simplify_eq.
    rewrite !NoDup_cons in Hnd. destruct Hnd as (Hp1 & Hp2 & _). split; [done|].
    eexists. rewrite lookup_insert_eq. split; [done|]. simpl.
    apply chain_insert; [set_solver|done].
  - destruct Hc as (-> & nd & Hn & Hc). apply NoDup_cons in Hnd as [Hy Hnd]. split; [done|].
    exists nd. rewrite lookup_insert_ne by set_solver. eauto.
Qed.

Lemma contents_set_next h h' x p ls :
  set_next h x p = Some h' -> contents h' ls = contents h ls.
Proof.
  unfold set_next. intros E. destruct (h !! x) as [nd|] eqn:Ex; simplify_eq/=.
  unfold contents. apply list_omap_ext, Forall_Forall2_diag, Forall_forall. intros y _.
  destruct (decide (x = y)) as [->|]; [|by rewrite lookup_insert_ne].
  by rewrite lookup_insert_eq, Ex.
Qed.

Lemma last_cons_some {A} (x : A) l : exists y, last (x :: l) = Some y.
Proof. revert x. induction l as [|z l IH]; intros x; [by exists x|]. simpl. apply IH. Qed.

(** ** The queue operations implement a FIFO list *)

(** [h'] has the same entries as [h], and the same links outside [ls]. *)
Definition frame (ls : list Z) (h h' : heap) : Prop :=
  dom h' = dom h /\ (forall x, nd_entry <$> h' !! x = nd_entry <$> h !! x) /\
  (forall x, x ∉ ls -> h' !! x = h !! x).

Lemma frame_refl ls h : frame ls h h.
Proof. done. Qed.

Lemma frame_trans ls h1 h2 h3 : frame ls h1 h2 -> frame ls h2 h3 -> frame ls h1 h3.
Proof.
  intros (D1 & E1 & F1) (D2 & E2 & F2). split_and!; [congruence| |].
  - intros x. by rewrite E2, E1.
  - intros x Hx. by rewrite F2, F1.
Qed.

Lemma frame_set_next ls h h' x p : x ∈ ls -> set_next h x p = Some h' -> frame ls h h'.
Proof.
  unfold set_next. intros Hx E. destruct (h !! x) as [nd|] eqn:Ex; simplify_eq/=. split_and!.
  - rewrite dom_insert_L. apply elem_of_dom_2 in Ex. set_solver.
  - intros y. destruct (decide (x = y)) as [->|]; [|by rewrite lookup_insert_ne].
    by rewrite lookup_insert_eq, Ex.
  - intros y Hy. rewrite lookup_insert_ne; [done|]. by intros ->.
Qed.

Lemma contents_frame ls ls' h h' : frame ls h h' -> contents h' ls' = contents h ls'.
Proof.
  intros (_ & E & _). unfold contents. apply list_omap_ext, Forall_Forall2_diag, Forall_forall.
  intros y _. by rewrite E.
Qed.

(** Another queue, whose nodes are disjoint, is not affected. *)
Lemma queue_rep_frame ls h h' q ls' :
  frame ls h h' -> (forall x, x ∈ ls' -> x ∉ ls) -> queue_rep h q ls' -> queue_rep h' q ls'.
Proof.
  intros (_ & _ & F) Hd [Hc Hn Ht Hk]. split; [|done..].
  clear Hn Ht Hk. revert Hc. generalize (q_head q). induction ls' as [|y ls' IH]; intros p Hc; [done|].
  destruct Hc as (-> & nd & Hy & Hc). split; [done|]. exists nd.
  rewrite F by (apply Hd; by left). split; [done|]. apply IH; [|done]. intros x Hx. apply Hd. by right.
Qed.

Lemma queue_push_spec h q ls x nx :
  queue_rep h q ls -> x ∉ ls -> h !! x = Some nx ->
  exists h' q', queue_push h q x = Some (h', q') /\ queue_rep h' q' (ls ++ [x]) /\
    frame (ls ++ [x]) h h' /\ q_notify q' = true.
Proof.
  intros [Hc Hn Ht Hk] Hx Hnx. unfold queue_push. rewrite (set_next_some h x nx) by done. simpl.
  set (h1 := <[x := _]> h).
  assert (frame (ls ++ [x]) h h1) as F1.
  { eapply frame_set_next; [|by apply set_next_some]. set_solver. }
  assert (h1 !! x = Some {| nd_entry := nd_entry nx; nd_next := NULL |}) as Hx1 by apply lookup_insert_eq.
  assert (chain h1 (q_head q) ls) as Hc1 by (by apply chain_insert).
  assert (NoDup (ls ++ [x])) as Hnd.
  { apply NoDup_app. split_and!; [done|set_solver|apply NoDup_singleton]. }
  rewrite Ht. destruct (last ls) as [t|] eqn:El.
  - apply last_Some in El as [ls' ->].
    destruct (chain_app_inv h1 (q_head q) ls' t []) as (ndt & Hndt & _); [done|].
    rewrite (set_next_some h1 t ndt) by done. simpl. eexists _, _. split; [done|]. split_and!; [| |done].
    + split; simpl; [|done|by rewrite last_snoc|rewrite length_app; simpl; lia].
      rewrite <-app_assoc. eapply chain_snoc; done.
    + eapply frame_trans; [exact F1|]. eapply frame_set_next; [|by apply set_next_some]. set_solver.
  - apply last_None in El as ->. simpl. eexists _, _. split; [done|]. split_and!; [|done|done].
    split; simpl; [|done|done|simpl in Hk; lia]. split; [done|]. by eexists.
Qed.

Lemma queue_pop_empty h q : queue_rep h q [] -> queue_pop h q = Some (NULL, h, q).
Proof. intros [Hc _ _ _]. unfold queue_pop. simpl in Hc. by rewrite Hc. Qed.

Lemma queue_pop_spec h q x ls :
  queue_rep h q (x :: ls) ->
  exists h' q', queue_pop h q = Some (Some x, h', q') /\ queue_rep h' q' ls /\
    frame [x] h h' /\ q_notify q' = q_notify q /\
    nd_next <$> h' !! x = Some NULL.
Proof.
  intros [(Hh & nd & Hx & Hc) Hn Ht Hk]. unfold queue_pop. rewrite Hh, Hx. simpl.
  rewrite (set_next_some h x nd) by done. simpl. eexists _, _. split; [done|].
  apply NoDup_cons in Hn as [Hxl Hn]. split_and!; [| |done|by rewrite lookup_insert_eq].
  - split; simpl; [by apply chain_insert|done| |simpl in Hk; lia].
    destruct ls as [|y ls]; simpl in Hc; [by rewrite Hc|]. destruct Hc as [-> _]. rewrite Ht. done.
  - eapply frame_set_next; [|by apply set_next_some]. set_solver.
Qed.

Definition has_seqnum (h : heap) (seqnum : Z) (x : Z) : bool :=
  match h !! x with
  | Some nd => ent_seqnum (nd_entry nd) =? seqnum
  | None => false
  end.

(** Removing the node [x] found after the prefix [l1]. *)
Lemma unlink_spec h q l1 x l2 nd :
  queue_rep h q (l1 ++ x :: l2) -> h !! x = Some nd ->
  exists h1 head, match last l1 with
    | NULL => Some (h, nd_next nd)
    | Some p => h ← set_next h p (nd_next nd); Some (h, q_head q)
    end = Some (h1, head) /\
  exists h', set_next h1 x NULL = Some h' /\ frame (l1 ++ x :: l2) h h' /\
    queue_rep h' {| q_head := head;
      q_tail := if bool_decide (Some x = q_tail q) then last l1 else q_tail q;
      q_count := q_count q - 1; q_notify := q_notify q |} (l1 ++ l2).
Proof.
  intros [Hc Hn Ht Hk] Hx. pose proof (NoDup_drop _ _ _ Hn) as Hnd.
  pose proof Hn as Hn'. apply NoDup_app in Hn' as (N1 & N2 & N3).
  apply NoDup_cons in N3 as [N3 N4].
  assert ((if bool_decide (Some x = q_tail q) then last l1 else q_tail q) = last (l1 ++ l2)) as Htail.
  { rewrite Ht. destruct l2 as [|y l2].
    - rewrite last_snoc, bool_decide_true, app_nil_r by done. done.
    - rewrite bool_decide_false.
      + rewrite !last_app. destruct (last_cons_some y l2) as [z Hz]. simpl in *. by rewrite Hz.
      + rewrite last_app. intros Hl. symmetry in Hl.
        assert (x ∈ y :: l2) as Hin; [|by apply N3].
        apply last_Some_elem_of. simpl in *. destruct (last_cons_some y l2) as [z Hz].
        simpl in Hz. rewrite Hz in Hl. simplify_eq. done. }
  assert (length (l1 ++ l2) = pred (length (l1 ++ x :: l2))) as Hlen.
  { rewrite !length_app. simpl. lia. }
  assert (0 < length (l1 ++ x :: l2))%nat as Hpos by (rewrite length_app; simpl; lia).
  destruct (last l1) as [p|] eqn:El.
  - apply last_Some in El as [l1' ->]. rewrite <-app_assoc in Hc, Hn. simpl in Hc, Hn.
    destruct (chain_app_inv h (q_head q) l1' p (x :: l2)) as (ndp & Hp & _); [done|].
    rewrite (set_next_some h p ndp) by done. simpl. eexists _, _. split; [done|].
    assert (p <> x) as Hpx. { intros ->. apply (N2 x); [set_solver|by left]. }
    rewrite (set_next_some _ x nd) by (by rewrite lookup_insert_ne).
    eexists. split; [done|]. split.
    + eapply frame_trans; (eapply frame_set_next; [|apply set_next_some]); [|done| |by rewrite lookup_insert_ne]; set_solver.
    + split; simpl; [|done|by rewrite Htail|lia].
      apply chain_insert; [set_solver|]. rewrite <-app_assoc. simpl. eapply chain_unlink; done.
  - apply last_None in El as ->. simpl in *. destruct Hc as (Hh & nd' & Hx' & Hc).
    assert (nd' = nd) as -> by congruence. eexists _, _. split; [done|]. rewrite (set_next_some h x nd) by done. eexists. split; [done|]. split.
    + eapply frame_set_next; [|by apply set_next_some]. set_solver.
    + split; simpl; [by apply chain_insert|done|by rewrite Htail|lia].
Qed.

Lemma find_remove_loop_spec fuel h q sn l1 l2 :
  queue_rep h q (l1 ++ l2) -> Forall (fun x => has_seqnum h sn x = false) l1 ->
  (length l2 < fuel)%nat ->
  exists r h' q', find_remove_loop fuel h q sn (last l1) (head l2) = Some (r, h', q') /\
    r = find_first (has_seqnum h sn) (l1 ++ l2) /\
    queue_rep h' q' (remove_first (has_seqnum h sn) (l1 ++ l2)) /\ frame (l1 ++ l2) h h' /\
    q_notify q' = q_notify q.
Proof.
  revert l1 l2. induction fuel as [|fuel IH]; intros l1 l2 Hq Hl1 Hf; [lia|]. simpl.
  destruct l2 as [|x l2]; simpl.
  { rewrite app_nil_r in *. eexists _, _, _. split; [done|].
    assert (find_first (has_seqnum h sn) l1 = None) as E by (by apply find_first_None).
    rewrite E, remove_first_None by done. split_and!; try done. }
  destruct (chain_app_inv h (q_head q) l1 x l2) as (nd & Hx & Hc); [apply Hq|].
  rewrite Hx. simpl. destruct (ent_seqnum (nd_entry nd) =? sn) eqn:Es.
  - destruct (unlink_spec h q l1 x l2 nd Hq Hx) as (h1 & hd & -> & h' & Eh & Fh & Rh).
    assert (has_seqnum h sn x = true) as Hm by (unfold has_seqnum; by rewrite Hx).
    simpl. rewrite Eh. simpl. eexists _, _, _. split; [done|].
    rewrite find_first_app, (proj2 (find_first_None _ _) Hl1). simpl. rewrite Hm.
    rewrite remove_first_split by done. done.
  - assert (has_seqnum h sn x = false) as Hm by (unfold has_seqnum; by rewrite Hx).
    assert (nd_next nd = head l2) as ->.
    { destruct l2; [done|]. by destruct Hc. }
    rewrite <-(last_snoc x l1).
    assert (l1 ++ x :: l2 = (l1 ++ [x]) ++ l2) as El by (by rewrite <-app_assoc). rewrite El in *.
    apply IH; [done| |simpl in Hf; lia]. apply Forall_app. by split; [|constructor].
Qed.

Lemma queue_length_size h q ls : queue_rep h q ls -> (length ls <= size h)%nat.
Proof.
  intros [Hc Hn _ _]. rewrite <-(size_list_to_set (C := gset Z) ls) by done.
  rewrite <-(size_dom (D := gset Z) h). apply subseteq_size. intros x Hx.
  rewrite elem_of_list_to_set in Hx. destruct (chain_nodes _ _ _ _ Hc Hx) as [nd Hnd].
  by eapply elem_of_dom_2.
Qed.

Lemma queue_find_remove_spec h q sn ls :
  queue_rep h q ls ->
  exists r h' q', queue_find_remove h q sn = Some (r, h', q') /\
    r = find_first (has_seqnum h sn) ls /\
    queue_rep h' q' (remove_first (has_seqnum h sn) ls) /\ frame ls h h' /\
    q_notify q' = q_notify q.
Proof.
  intros Hq. pose proof (queue_length_size h q ls Hq).
  destruct (find_remove_loop_spec (S (size h)) h q sn [] ls) as (r & h' & q' & E & ?);
    [done|constructor|lia|]. exists r, h', q'. split; [|done].
  unfold queue_find_remove. replace (q_head q) with (head ls); [exact E|].
  destruct Hq as [Hc _ _ _]. by destruct ls; [|destruct Hc].
Qed.

Lemma cleanup_loop_spec fuel h p ls :
  chain h p ls -> NoDup ls -> (length ls < fuel)%nat ->
  exists h', cleanup_loop fuel h p = Some h' /\ (forall x, x ∈ ls -> h' !! x = None) /\
    (forall x, x ∉ ls -> h' !! x = h !! x).
Proof.
  revert h p ls. induction fuel as [|fuel IH]; intros h p ls Hc Hn Hf; [lia|]. simpl.
  destruct ls as [|x ls]; simpl in Hc.
  { subst. exists h. split_and!; [done|by intros ? ?%not_elem_of_nil|done]. }
  destruct Hc as (-> & nd & Hx & Hc). rewrite Hx. simpl. apply NoDup_cons in Hn as [Hxl Hn].
  destruct (IH (delete x h) (nd_next nd) ls) as (h' & -> & H1 & H2);
    [by apply chain_delete|done|simpl in Hf; lia|].
  exists h'. split_and!; [done| |].
  - intros y [->|Hy]%elem_of_cons; [|auto]. rewrite H2 by done. apply lookup_delete_eq.
  - intros y [Hyx Hy]%not_elem_of_cons. rewrite H2 by done. by apply lookup_delete_ne.
Qed.

(** Searching the nodes is searching the entries. *)
Lemma contents_remove h p ls sn :
  chain h p ls ->
  contents h (remove_first (has_seqnum h sn) ls) =
  remove_first (fun e => ent_seqnum e =? sn) (contents h ls).
Proof.
  revert p. induction ls as [|x ls IH]; intros p Hc; [done|]. destruct Hc as (-> & nd & Hx & Hc).
  unfold contents in *. simpl. rewrite Hx. simpl. unfold has_seqnum at 1. rewrite Hx.
  destruct (_ =? sn); [done|]. simpl. rewrite Hx. simpl. f_equal. by eapply IH.
Qed.

Lemma contents_find h p ls sn :
  chain h p ls ->
  (x ← find_first (has_seqnum h sn) ls; nd_entry <$> h !! x) =
  find_first (fun e => ent_seqnum e =? sn) (contents h ls).
Proof.
  revert p. induction ls as [|x ls IH]; intros p Hc; [done|]. destruct Hc as (-> & nd & Hx & Hc).
  unfold contents in *. simpl. rewrite Hx. simpl. unfold has_seqnum at 1. rewrite Hx.
  destruct (_ =? sn); simpl; [by rewrite Hx|]. by eapply IH.
Qed.

Lemma contents_length h p ls : chain h p ls -> length (contents h ls) = length ls.
Proof.
  revert p. induction ls as [|x ls IH]; intros p Hc; [done|]. destruct Hc as (-> & nd & Hx & Hc).
  unfold contents in *. simpl. rewrite Hx. simpl. f_equal. by eapply IH.
Qed.

Lemma cleanup_empties h q ls :
  queue_rep h q ls ->
  exists h' q', queue_cleanup h q = Some (h', q') /\ queue_rep h' q' [] /\
    (forall x, x ∈ ls -> h' !! x = None) /\ (forall x, x ∉ ls -> h' !! x = h !! x).
Proof.
  intros Hq. pose proof (queue_length_size h q ls Hq). pose proof Hq as [Hc Hn _ _].
  destruct (cleanup_loop_spec (S (size h)) h (q_head q) ls) as (h' & E & ? & ?); [done|done|lia|].
  unfold queue_cleanup. rewrite E. simpl. eexists _, _. split; [done|]. split_and!; [|done..].
  by split; [..|constructor| |].
Qed.

(** ** Properties *)

(** [queue_cleanup] frees every node of the queue, once, and nothing else, and
    leaves the queue empty. *)
Theorem queue_cleanup_frees h q ls :
  queue_rep h q ls ->
  exists h' q', queue_cleanup h q = Some (h', q') /\ queue_rep h' q' [] /\
    (forall x, x ∈ ls -> h' !! x = None) /\ (forall x, x ∉ ls -> h' !! x = h !! x).
Proof. apply cleanup_empties. Qed.

(** ** Witnesses *)

Definition entry_for (seqnum : Z) : urb_entry := {|
  ent_urb := example_urb 0x81 4; ent_seqnum := seqnum; ent_devid := 0x10002;
  ent_submit_time := 0; ent_in_progress := false; ent_completed := false |}.

(** Two queued entries, at addresses 16 and 32, and a third node at 48. *)
Definition example_heap : heap :=
  <[16 := {| nd_entry := entry_for 1; nd_next := Some 32 |}]>
  (<[32 := {| nd_entry := entry_for 2; nd_next := NULL |}]>
  (<[48 := {| nd_entry := entry_for 3; nd_next := NULL |}]> ∅)).

Definition example_queue : urb_queue :=
  {| q_head := Some 16; q_tail := Some 32; q_count := 2; q_notify := true |}.

Lemma example_queue_rep : queue_rep example_heap example_queue [16; 32].
Proof.
  split; [|repeat constructor; set_solver|done|done].
  split; [done|]. eexists. split; [by vm_compute|]. split; [done|]. eexists. by split; [vm_compute|].
Qed.

Lemma queue_cleanup_frees_witness :
  exists h' q', queue_cleanup example_heap example_queue = Some (h', q') /\ h' !! 16 = None.
Proof.
  destruct (queue_cleanup_frees example_heap example_queue [16; 32] example_queue_rep)
    as (h' & q' & E & _ & Hn & _). exists h', q'. split; [exact E|]. apply Hn. by left.
Defined.
