(* ===== verification/UrbHandler.v ===== *)
(** * The URB handler ([server/urb_handler.h], [server/urb_handler.c])

    Each attached client has a handler: a queue of pending URBs, a worker thread
    that executes them on the device one after the other, and a queue of
    completed ones.  The queues are used here as the first-in first-out lists that
    [UrbQueue] shows the pointer code to implement ([fifo]); [LinkedHandler] has the same
    functions on the entries themselves, allocated, linked and freed, and shows that they
    do what these do.

    The worker is a thread of its own: [worker_step] is one iteration of its loop
    up to the next point where another thread can interleave, and [hstep] the
    interleaving of the worker with the session that feeds it. *)

From S2P Require Import Prelude CTypes Errors Protocol UsbHost UrbQueue.

(** ** Queues as lists *)

Record fifo := {
  f_entries : list urb_entry;
  f_count : Z;
  f_notify : bool;
}.

Definition fifo_empty : fifo := {| f_entries := []; f_count := 0; f_notify := false |}.

Definition fifo_push (q : fifo) (e : urb_entry) : fifo :=
  {| f_entries := f_entries q ++ [e]; f_count := f_count q + 1; f_notify := true |}.

Definition fifo_pop (q : fifo) : ptr urb_entry * fifo :=
  match f_entries q with
  | [] => (NULL, q)
  | e :: es => (Some e, {| f_entries := es; f_count := f_count q - 1; f_notify := f_notify q |})
  end.

Definition fifo_find_remove (q : fifo) (seqnum : Z) : ptr urb_entry * fifo :=
  match find_first (fun e => ent_seqnum e =? seqnum) (f_entries q) with
  | NULL => (NULL, q)
  | Some e =>
      (Some e, {| f_entries := remove_first (fun e => ent_seqnum e =? seqnum) (f_entries q);
                  f_count := f_count q - 1; f_notify := f_notify q |})
  end.

(** The list [f] is what the linked queue [q] with the nodes [ls] holds. *)
Definition fifo_rep (h : heap) (q : urb_queue) (ls : list Z) (f : fifo) : Prop :=
  queue_rep h q ls /\ contents h ls = f_entries f /\ q_count q = f_count f /\
  q_notify q = f_notify f.

(** ** The handler *)

Definition EIO : Z := 5.

Record urb_handler := {
  uh_device : ptr usb_device;
  uh_pending : fifo;
  uh_completed : fifo;
  uh_next_seqnum : Z;
  uh_running : bool;
  uh_initialized : bool;
}.

Definition uh_set_queues (h : urb_handler) (pending completed : fifo) : urb_handler := {|
  uh_device := uh_device h; uh_pending := pending; uh_completed := completed;
  uh_next_seqnum := uh_next_seqnum h; uh_running := uh_running h;
  uh_initialized := uh_initialized h |}.

Definition uh_set_running (h : urb_handler) (pending : fifo) (running : bool) : urb_handler := {|
  uh_device := uh_device h; uh_pending := pending; uh_completed := uh_completed h;
  uh_next_seqnum := uh_next_seqnum h; uh_running := running;
  uh_initialized := uh_initialized h |}.

Definition uh_set_device (h : urb_handler) (d : ptr usb_device) : urb_handler := {|
  uh_device := d; uh_pending := uh_pending h; uh_completed := uh_completed h;
  uh_next_seqnum := uh_next_seqnum h; uh_running := uh_running h;
  uh_initialized := uh_initialized h |}.

Definition ent_set_urb (e : urb_entry) (u : usb_urb) (in_progress completed : bool) : urb_entry := {|
  ent_urb := u; ent_seqnum := ent_seqnum e; ent_devid := ent_devid e;
  ent_submit_time := ent_submit_time e; ent_in_progress := in_progress;
  ent_completed := completed |}.

Definition urb_set_status (u : usb_urb) (status : Z) (cancelled : bool) : usb_urb := {|
  urb_seqnum := urb_seqnum u; urb_devid := urb_devid u; urb_endpoint := urb_endpoint u;
  urb_direction := urb_direction u; urb_type := urb_type u;
  urb_transfer_flags := urb_transfer_flags u; urb_setup := urb_setup u;
  urb_buffer := urb_buffer u; urb_buffer_length := urb_buffer_length u;
  urb_actual_length := urb_actual_length u; urb_status := status;
  urb_start_frame := urb_start_frame u; urb_number_of_packets := urb_number_of_packets u;
  urb_interval := urb_interval u; urb_completed := urb_completed u; urb_cancelled := cancelled |}.

(** ** Initialization *)

(** [mutexes] and [events] are the results of the two calls of [mutex_init] and
    of [event_init]. *)
Definition urb_handler_init (mutexes events : Z * Z) (handler : ptr urb_handler)
    (device : ptr usb_device) : error_code * ptr urb_handler :=
  match handler, device with
  | Some _, Some _ =>
      let h := {| uh_device := device; uh_pending := fifo_empty; uh_completed := fifo_empty;
                  uh_next_seqnum := 1; uh_running := false; uh_initialized := false |} in
      let '(err, _) := queue_init mutexes.1 events.1 in
      return_if negb (error_code_eqb err ERR_SUCCESS) with (err, Some h) ;;
      let '(err, _) := queue_init mutexes.2 events.2 in
      return_if negb (error_code_eqb err ERR_SUCCESS) with (err, Some h) ;;
      (ERR_SUCCESS,
        Some {| uh_device := device; uh_pending := fifo_empty; uh_completed := fifo_empty;
                uh_next_seqnum := 1; uh_running := false; uh_initialized := true |})
  | _, _ => (ERR_INVALID_PARAM, handler)
  end.

(** ** URB processing *)

(** The URB of a submit command; [buffer] is its data buffer. *)
Definition submit_urb_of (header : usbip_header) (buffer : ptr bytes) : usb_urb :=
  let c := h_common header in let u := h_u header in
  let ep := wrap 8 (hc_ep c) in
  let dir := wrap 8 (hc_direction c) in {|
  urb_seqnum := hc_seqnum c; urb_devid := hc_devid c;
  urb_endpoint := if dir =? USBIP_DIR_IN then Z.lor ep USB_DIR_IN else ep;
  urb_direction := dir;
  urb_type := if ep =? 0 then USB_ENDPOINT_XFER_CONTROL else USB_ENDPOINT_XFER_BULK;
  urb_transfer_flags := cs_transfer_flags u; urb_setup := cs_setup u;
  urb_buffer := buffer; urb_buffer_length := cs_transfer_buffer_length u;
  urb_actual_length := 0; urb_status := 0;
  urb_start_frame := cs_start_frame u; urb_number_of_packets := cs_number_of_packets u;
  urb_interval := cs_interval u; urb_completed := false; urb_cancelled := false |}.

(** [calloc_ok]: the entry could be allocated; [memory]: what [malloc] returns
    for the buffer, with the bytes it happens to hold. *)
Definition urb_handler_submit (calloc_ok : bool) (memory : ptr bytes) (now : Z)
    (handler : ptr urb_handler) (header : ptr usbip_header) (data : ptr bytes) (data_len : Z) :
    error_code * ptr urb_handler :=
  match handler, header with
  | Some h, Some hd =>
      return_if negb (uh_initialized h) with (ERR_INVALID_PARAM, handler) ;;
      return_if negb calloc_ok with (ERR_OUT_OF_MEMORY, handler) ;;
      let buffer_length := cs_transfer_buffer_length (h_u hd) in
      let push buffer :=
        (ERR_SUCCESS,
         Some (uh_set_queues h
           (fifo_push (uh_pending h)
              {| ent_urb := submit_urb_of hd buffer; ent_seqnum := hc_seqnum (h_common hd);
                 ent_devid := hc_devid (h_common hd); ent_submit_time := now;
                 ent_in_progress := false; ent_completed := false |})
           (uh_completed h))) in
      if buffer_length >? 0 then
        match memory with
        | NULL => (ERR_OUT_OF_MEMORY, handler)
        | Some m =>
            match data with
            | Some d =>
                if (wrap 8 (hc_direction (h_common hd)) =? USBIP_DIR_OUT) && (data_len >? 0) then
                  let n := Z.to_nat (if data_len <? buffer_length then data_len else buffer_length) in
                  push (Some (take n d ++ drop n m))
                else push (Some m)
            | NULL => push (Some m)
            end
        end
      else push NULL
  | _, _ => (ERR_INVALID_PARAM, handler)
  end.

(** The assignments made to a cancelled entry. *)
Definition cancel_entry (e : urb_entry) : urb_entry :=
  ent_set_urb e (urb_set_status (ent_urb e) (- ECANCELED) true) (ent_in_progress e) true.

Definition urb_handler_unlink (handler : ptr urb_handler) (seqnum_to_unlink : Z) :
    error_code * ptr urb_handler :=
  match handler with
  | NULL => (ERR_INVALID_PARAM, NULL)
  | Some h =>
      return_if negb (uh_initialized h) with (ERR_INVALID_PARAM, handler) ;;
      let '(entry, pending) := fifo_find_remove (uh_pending h) seqnum_to_unlink in
      match entry with
      | Some e =>
          (ERR_SUCCESS,
            Some (uh_set_queues h pending (fifo_push (uh_completed h) (cancel_entry e))))
      | NULL => (ERR_NOT_FOUND, handler)
      end
  end.

Definition urb_handler_get_completed (handler : ptr urb_handler) : ptr urb_entry * ptr urb_handler :=
  match handler with
  | NULL => (NULL, NULL)
  | Some h =>
      return_if negb (uh_initialized h) with (NULL, handler) ;;
      let '(entry, completed) := fifo_pop (uh_completed h) in
      (entry, Some (uh_set_queues h (uh_pending h) completed))
  end.

(** The loop of [urb_handler_cancel_all], one iteration per pending entry. *)
Fixpoint cancel_loop (fuel : nat) (h : urb_handler) : urb_handler :=
  match fuel with
  | O => h
  | S fuel =>
      match fifo_pop (uh_pending h) with
      | (NULL, _) => h
      | (Some e, pending) =>
          cancel_loop fuel (uh_set_queues h pending (fifo_push (uh_completed h) (cancel_entry e)))
      end
  end.

Arguments cancel_loop : simpl never.

Definition urb_handler_cancel_all (handler : ptr urb_handler) : ptr urb_handler :=
  match handler with
  | NULL => NULL
  | Some h => Some (cancel_loop (S (length (f_entries (uh_pending h)))) h)
  end.

(** ** The worker thread *)

Inductive worker :=
  | W_none                          (* no thread *)
  | W_loop                          (* at the head of the loop *)
  | W_holding (e : urb_entry)       (* executing an entry it has popped *)
  | W_exited.

Section worker.
  Context {U : Type} `{WinUsb U}.

(** The second half of an iteration: execute the URB and move it on. *)
Definition worker_execute (h : urb_handler) (e : urb_entry) : M U urb_handler :=
  '(result, r) ← usb_submit_urb (uh_device h) (Some (ent_urb e));
  let urb := default (ent_urb e) r in
  let urb := if negb (error_code_eqb result ERR_SUCCESS)
             then urb_set_status urb (- EIO) (urb_cancelled urb) else urb in
  mret (uh_set_queues h (uh_pending h)
          (fifo_push (uh_completed h) (ent_set_urb e urb false true))).

(** [wait_failed]: whether waiting on the event reports [WAIT_FAILED]. *)
Definition worker_step (wait_failed : bool) (h : urb_handler) (w : worker) :
    M U (urb_handler * worker) :=
  match w with
  | W_none => mret (h, W_none)
  | W_exited => mret (h, W_exited)
  | W_holding e => h ← worker_execute h e; mret (h, W_loop)
  | W_loop =>
      if negb (uh_running h) then mret (h, W_exited) else
      match fifo_pop (uh_pending h) with
      | (Some e, pending) =>
          mret (uh_set_queues h pending (uh_completed h),
                W_holding (ent_set_urb e (ent_urb e) true (ent_completed e)))
      | (NULL, pending) =>
          if wait_failed then mret (h, W_exited) else
          mret (uh_set_queues h {| f_entries := f_entries pending; f_count := f_count pending;
                                   f_notify := false |} (uh_completed h), W_loop)
      end
  end.

(** [thread_join]: the worker runs on until it exits. *)
Fixpoint worker_join (fuel : nat) (h : urb_handler) (w : worker) : M U (urb_handler * worker) :=
  match fuel with
  | O => mret (h, w)
  | S fuel => '(h, w) ← worker_step false h w; worker_join fuel h w
  end.

(** [created]: the result of [thread_create] is zero. *)
Definition urb_handler_start (created : bool) (handler : ptr urb_handler) (w : worker) :
    error_code * ptr urb_handler * worker :=
  match handler with
  | NULL => (ERR_INVALID_PARAM, NULL, w)
  | Some h =>
      if negb (uh_initialized h) then (ERR_INVALID_PARAM, handler, w) else
      if uh_running h then (ERR_SUCCESS, handler, w) else
      if negb created then (ERR_THREAD_CREATE, Some (uh_set_running h (uh_pending h) false), w) else
      (ERR_SUCCESS, Some (uh_set_running h (uh_pending h) true), W_loop)
  end.

(** The part of [urb_handler_stop] before the join. *)
Definition stop_request (h : urb_handler) : urb_handler :=
  uh_set_running h {| f_entries := f_entries (uh_pending h); f_count := f_count (uh_pending h);
                      f_notify := true |} false.

(** Once [running] is false the worker finishes at most the entry it holds and
    leaves the loop. *)
Definition join_fuel : nat := 2.

Definition urb_handler_stop (handler : ptr urb_handler) (w : worker) :
    M U (ptr urb_handler * worker) :=
  match handler with
  | NULL => mret (NULL, w)
  | Some h =>
      if negb (uh_running h) then mret (handler, w) else
      '(h, w) ← worker_join join_fuel (stop_request h) w;
      mret (urb_handler_cancel_all (Some h), w)
  end.

Definition urb_handler_cleanup (handler : ptr urb_handler) (w : worker) :
    M U (ptr urb_handler * worker) :=
  match handler with
  | NULL => mret (NULL, w)
  | Some h =>
      if negb (uh_initialized h) then mret (handler, w) else
      '(r, w) ← urb_handler_stop handler w;
      mret ((fun h => {| uh_device := uh_device h; uh_pending := fifo_empty;
                         uh_completed := fifo_empty; uh_next_seqnum := uh_next_seqnum h;
                         uh_running := uh_running h; uh_initialized := false |}) <$> r, w)
  end.
End worker.

(** ** Status and utilities *)

Definition urb_handler_pending_count (handler : ptr urb_handler) : Z :=
  match handler with Some h => f_count (uh_pending h) | NULL => 0 end.

Definition urb_handler_completed_count (handler : ptr urb_handler) : Z :=
  match handler with Some h => f_count (uh_completed h) | NULL => 0 end.

Definition urb_handler_is_running (handler : ptr urb_handler) : bool :=
  match handler with Some h => uh_running h | NULL => false end.

(** [InterlockedIncrement] returns the incremented value, modulo [2^32]. *)
Definition urb_handler_next_seqnum (handler : ptr urb_handler) : Z * ptr urb_handler :=
  match handler with
  | NULL => (0, NULL)
  | Some h =>
      let n := wrap 32 (uh_next_seqnum h + 1) in
      (n, Some {| uh_device := uh_device h; uh_pending := uh_pending h;
                  uh_completed := uh_completed h; uh_next_seqnum := n;
                  uh_running := uh_running h; uh_initialized := uh_initialized h |})
  end.

Definition urb_handler_find_pending (handler : ptr urb_handler) (seqnum : Z) : ptr urb_entry :=
  match handler with
  | NULL => NULL
  | Some h => find_first (fun e => ent_seqnum e =? seqnum) (f_entries (uh_pending h))
  end.

Definition urb_handler_create_return (e : urb_entry) : usbip_header := {|
  h_common := {| hc_command := USBIP_RET_SUBMIT; hc_seqnum := ent_seqnum e;
                 hc_devid := ent_devid e; hc_direction := urb_direction (ent_urb e);
                 hc_ep := Z.land (urb_endpoint (ent_urb e)) 0x0F |};
  h_u := {| u_w0 := wrap 32 (urb_status (ent_urb e)); u_w1 := urb_actual_length (ent_urb e);
            u_w2 := urb_start_frame (ent_urb e); u_w3 := urb_number_of_packets (ent_urb e);
            u_w4 := 0; u_tail := urb_setup (ent_urb e) |} |}.

(** ** The lists and the linked queues *)

Lemma fifo_push_rep h q ls f x nx :
  fifo_rep h q ls f -> x ∉ ls -> h !! x = Some nx ->
  exists h' q', queue_push h q x = Some (h', q') /\ fifo_rep h' q' (ls ++ [x]) (fifo_push f (nd_entry nx)) /\
    frame (ls ++ [x]) h h'.
Proof.
  intros (Hq & Hc & Hn & Hy) Hx Hnx.
  destruct (queue_push_spec h q ls x nx Hq Hx Hnx) as (h' & q' & E & Hq' & F & Hy').
  exists h', q'. split; [done|]. split; [|done]. split_and!; [done| | |done].
  - rewrite (contents_frame _ _ _ _ F). unfold contents in *. rewrite omap_app, Hc. simpl. by rewrite Hnx.
  - rewrite (rep_count _ _ _ Hq'), length_app. rewrite (rep_count _ _ _ Hq) in Hn. simpl. lia.
Qed.

(** Only the nodes of the list matter. *)
Lemma fifo_rep_ext g h q ls f :
  (forall x, x ∈ ls -> g !! x = h !! x) -> fifo_rep h q ls f -> fifo_rep g q ls f.
Proof.
  intros He ([Hc ? ? ?] & Hl & ? & ?). split_and!; [split; [by eapply chain_ext|done..]| |done..].
  rewrite <- Hl. unfold contents. apply list_omap_ext, Forall_Forall2_diag, Forall_forall.
  intros x Hx. by rewrite He.
Qed.

Lemma find_first_removed (p : Z -> bool) ls x :
  NoDup ls -> find_first p ls = Some x -> x ∈ ls /\ x ∉ remove_first p ls.
Proof.
  intros Hn E. destruct (find_first_Some _ _ _ E) as [Hx Hp]. split; [done|].
  clear Hx. induction ls as [|y ls IH]; [done|]. apply NoDup_cons in Hn as [Hy Hn]. simpl in *.
  destruct (p y) eqn:Ey; [by simplify_eq|]. rewrite not_elem_of_cons. split; [congruence|auto].
Qed.

Lemma fifo_pop_rep h q ls f :
  fifo_rep h q ls f ->
  exists h' q', queue_pop h q = Some (head ls, h', q') /\ fifo_rep h' q' (tail ls) (fifo_pop f).2 /\
    (x ← head ls; nd_entry <$> h !! x) = (fifo_pop f).1 /\ frame ls h h'.
Proof.
  intros (Hq & Hc & Hn & Hy). unfold fifo_pop. destruct ls as [|x ls].
  - exists h, q. rewrite queue_pop_empty by done. unfold contents in Hc. simpl in Hc. rewrite <- Hc. done.
  - destruct (queue_pop_spec h q x ls Hq) as (h' & q' & E & Hq' & F & Hy' & _).
    destruct (rep_chain _ _ _ Hq) as (_ & nd & Hx & _). unfold contents in Hc. simpl in Hc.
    rewrite Hx in Hc. simpl in Hc. rewrite <- Hc. simpl. exists h', q'.
    split_and!; [done| |by rewrite Hx|].
    2: { destruct F as (? & ? & F). split_and!; [done..|]. intros y Hyn. apply F.
         apply not_elem_of_cons in Hyn as [? _]. apply not_elem_of_cons. split; [done|apply not_elem_of_nil]. }
    split_and!; [done|by rewrite (contents_frame _ _ _ _ F)| |by rewrite Hy'].
    simpl. rewrite (rep_count _ _ _ Hq'). rewrite (rep_count _ _ _ Hq) in Hn. simpl in Hn. lia.
Qed.

Lemma fifo_find_remove_rep h q ls f sn :
  fifo_rep h q ls f ->
  exists x h' q', queue_find_remove h q sn = Some (x, h', q') /\
    fifo_rep h' q' (remove_first (has_seqnum h sn) ls) (fifo_find_remove f sn).2 /\
    (x ← x; nd_entry <$> h !! x) = (fifo_find_remove f sn).1 /\ frame ls h h'.
Proof.
  intros (Hq & Hc & Hn & Hy). pose proof (rep_chain _ _ _ Hq) as Hch.
  destruct (queue_find_remove_spec h q sn ls Hq) as (x & h' & q' & E & -> & Hq' & F & Hy').
  exists (find_first (has_seqnum h sn) ls), h', q'. split; [done|].
  pose proof (contents_find h _ ls sn Hch) as Hf. pose proof (contents_remove h _ ls sn Hch) as Hr.
  rewrite Hc in Hf, Hr. unfold fifo_find_remove.
  assert (contents h' (remove_first (has_seqnum h sn) ls) =
    remove_first (fun e => ent_seqnum e =? sn) (f_entries f)) as Hr'.
  { by rewrite (contents_frame _ _ _ _ F). }
  pose proof (rep_count _ _ _ Hq') as Hcnt. rewrite (rep_count _ _ _ Hq) in Hn.
  rewrite <- (contents_length h' _ _ (rep_chain _ _ _ Hq')), Hr' in Hcnt.
  rewrite <- (contents_length h _ _ Hch), Hc in Hn.
  destruct (find_first _ (f_entries f)) as [e|] eqn:Ef; (split; [|by split]);
    (split_and!; [done| | |by rewrite Hy']); simpl; rewrite ?Hr', ?Hcnt; try done.
  - pose proof (length_remove_first _ _ _ Ef). lia.
  - by rewrite remove_first_None.
  - by rewrite remove_first_None.
Qed.

(** ** The session and the worker, interleaved *)

Section system.
  Context {U : Type} `{WinUsbLaws U}.

(** The state of a handler in use, with what was accepted and what was handed
    back so far. *)
Record sys := {
  sy_handler : urb_handler;
  sy_worker : worker;
  sy_usb : U;
  sy_submitted : list Z;
  sy_delivered : list urb_entry;
}.

Inductive action := A_submit | A_unlink | A_deliver | A_worker | A_start | A_stop | A_device.

Definition memory_ok (hd : usbip_header) (memory : ptr bytes) : Prop :=
  forall m, memory = Some m ->
  Z.of_nat (length m) = cs_transfer_buffer_length (h_u hd) /\ Forall is_byte m.

(** The data passed with a submit: [data_len] bytes. *)
Definition data_ok (data : ptr bytes) (data_len : Z) : Prop :=
  match data with
  | Some d => data_len <= Z.of_nat (length d) /\ Forall is_byte d
  | NULL => True
  end.

Inductive hstep : action -> sys -> sys -> Prop :=
  | hs_submit calloc_ok memory now hd data n s e h' :
      header_ok hd -> memory_ok hd memory -> data_ok data n ->
      urb_handler_submit calloc_ok memory now (Some (sy_handler s)) (Some hd) data n = (e, Some h') ->
      hstep A_submit s
        {| sy_handler := h'; sy_worker := sy_worker s; sy_usb := sy_usb s;
           sy_submitted := if decide (e = ERR_SUCCESS)
                           then sy_submitted s ++ [hc_seqnum (h_common hd)] else sy_submitted s;
           sy_delivered := sy_delivered s |}
  | hs_unlink n s e h' :
      urb_handler_unlink (Some (sy_handler s)) n = (e, Some h') ->
      hstep A_unlink s
        {| sy_handler := h'; sy_worker := sy_worker s; sy_usb := sy_usb s;
           sy_submitted := sy_submitted s; sy_delivered := sy_delivered s |}
  | hs_deliver s e h' :
      urb_handler_get_completed (Some (sy_handler s)) = (Some e, Some h') ->
      hstep A_deliver s
        {| sy_handler := h'; sy_worker := sy_worker s; sy_usb := sy_usb s;
           sy_submitted := sy_submitted s; sy_delivered := sy_delivered s ++ [e] |}
  | hs_worker wf s h' w' u' :
      worker_step wf (sy_handler s) (sy_worker s) (sy_usb s) = ((h', w'), u') ->
      hstep A_worker s
        {| sy_handler := h'; sy_worker := w'; sy_usb := u';
           sy_submitted := sy_submitted s; sy_delivered := sy_delivered s |}
  | hs_stop s r w' u' h' :
      urb_handler_stop (Some (sy_handler s)) (sy_worker s) (sy_usb s) = ((r, w'), u') ->
      r = Some h' ->
      hstep A_stop s
        {| sy_handler := h'; sy_worker := w'; sy_usb := u';
           sy_submitted := sy_submitted s; sy_delivered := sy_delivered s |}
  | hs_start created s e h' w' :
      urb_handler_start created (Some (sy_handler s)) (sy_worker s) = (e, Some h', w') ->
      hstep A_start s
        {| sy_handler := h'; sy_worker := w'; sy_usb := sy_usb s;
           sy_submitted := sy_submitted s; sy_delivered := sy_delivered s |}
  (* the device belongs to the device list: other threads open and close it *)
  | hs_device s d u' :
      hstep A_device s
        {| sy_handler := uh_set_device (sy_handler s) d; sy_worker := sy_worker s; sy_usb := u';
           sy_submitted := sy_submitted s; sy_delivered := sy_delivered s |}.

Definition held (w : worker) : list urb_entry :=
  match w with W_holding e => [e] | _ => [] end.

(** All URBs in the system, oldest first. *)
Definition in_system (s : sys) : list urb_entry :=
  sy_delivered s ++ f_entries (uh_completed (sy_handler s)) ++ held (sy_worker s) ++
  f_entries (uh_pending (sy_handler s)).

(** What holds of every entry: its URB is the one submitted under its number, its
    buffer has the announced size, and no more than it was transferred. *)
Definition ent_ok (e : urb_entry) : Prop :=
  urb_buffer_ok (ent_urb e) /\ 0 <= urb_actual_length (ent_urb e) <= urb_buffer_length (ent_urb e) /\
  urb_seqnum (ent_urb e) = ent_seqnum e /\ urb_devid (ent_urb e) = ent_devid e /\
  is_u 32 (ent_seqnum e) /\ is_u 32 (ent_devid e) /\ is_u 8 (urb_direction (ent_urb e)) /\
  is_u 8 (urb_endpoint (ent_urb e)) /\ is_u 32 (urb_start_frame (ent_urb e)) /\
  is_u 32 (urb_number_of_packets (ent_urb e)) /\
  Forall is_byte (urb_setup (ent_urb e)) /\ length (urb_setup (ent_urb e)) = 8%nat.

Record sys_inv (s : sys) : Prop := {
  si_init : uh_initialized (sy_handler s) = true;
  si_pending : f_count (uh_pending (sy_handler s)) = Z.of_nat (length (f_entries (uh_pending (sy_handler s))));
  si_completed : f_count (uh_completed (sy_handler s)) = Z.of_nat (length (f_entries (uh_completed (sy_handler s))));
  si_entries : Forall ent_ok (in_system s);
  si_done : Forall (fun e => ent_completed e = true)
              (sy_delivered s ++ f_entries (uh_completed (sy_handler s)));
  si_conserved : map ent_seqnum (in_system s) ≡ₚ sy_submitted s;
  si_worker : uh_running (sy_handler s) = false -> sy_worker s = W_none \/ sy_worker s = W_exited;
}.

(** The order in which the URBs were accepted is kept. *)
Definition sys_ordered (s : sys) : Prop := map ent_seqnum (in_system s) = sy_submitted s.

(** *** Entries *)

Lemma ent_ok_cancel e : ent_ok e -> ent_ok (cancel_entry e).
Proof. done. Qed.

Lemma ent_ok_set e b c : ent_ok e -> ent_ok (ent_set_urb e (ent_urb e) b c).
Proof. done. Qed.

Lemma wrap8_u x : is_u 8 (wrap 8 x).
Proof. by apply is_u_wrap. Qed.

Lemma lor_dir_in ep : is_u 8 ep -> is_u 8 (Z.lor ep USB_DIR_IN).
Proof.
  intros [H1 H2]. unfold USB_DIR_IN. split; [by apply Z.lor_nonneg|].
  apply Z.log2_lt_cancel. rewrite Z.log2_lor by lia. change (Z.log2 (2 ^ 8)) with 8.
  apply Z.max_lub_lt; [|by vm_compute].
  destruct (decide (ep = 0)) as [->|]; [by vm_compute|]. apply Z.log2_lt_pow2; lia.
Qed.

Lemma ent_ok_submit hd buffer now :
  header_ok hd ->
  match buffer with
  | Some b => Z.of_nat (length b) = cs_transfer_buffer_length (h_u hd) /\ Forall is_byte b
  | NULL => cs_transfer_buffer_length (h_u hd) = 0 end ->
  ent_ok {| ent_urb := submit_urb_of hd buffer; ent_seqnum := hc_seqnum (h_common hd);
            ent_devid := hc_devid (h_common hd); ent_submit_time := now;
            ent_in_progress := false; ent_completed := false |}.
Proof.
  unfold header_ok. cbv zeta. intros Hh Hb. destruct_and! Hh.
  assert (is_u 8 (wrap 8 (hc_ep (h_common hd)))) as Hep by apply wrap8_u.
  unfold ent_ok, urb_buffer_ok. cbn [ent_urb ent_seqnum ent_devid submit_urb_of].
  split_and!; simpl; try done; try apply wrap8_u.
  - assert (is_u 32 (cs_transfer_buffer_length (h_u hd))) as [? _] by done. done.
  - by destruct (wrap 8 (hc_direction (h_common hd)) =? USBIP_DIR_IN); [apply lor_dir_in|].
Qed.

(** The answer to a well-formed entry has fields in range. *)
Lemma create_return_ok e : ent_ok e -> header_ok (urb_handler_create_return e).
Proof.
  intros ([[? ?] _] & ? & _ & _ & ? & ? & ? & ? & ? & ? & ? & ?). unfold header_ok. simpl.
  assert (is_u 32 (Z.land (urb_endpoint (ent_urb e)) 15)).
  { change 15 with (Z.ones 4). rewrite Z.land_ones by done.
    pose proof (Z.mod_pos_bound (urb_endpoint (ent_urb e)) (2 ^ 4)). unfold is_u. lia. }
  split_and!; try done; try (by apply is_u_wrap); unfold is_u in *; lia.
Qed.

(** The bytes a buffer is filled with on submission. *)
Lemma submit_buffer_ok (m d : bytes) (len n : Z) :
  Z.of_nat (length m) = len -> Forall is_byte m -> n <= Z.of_nat (length d) -> Forall is_byte d -> 0 < n ->
  let k := Z.to_nat (if n <? len then n else len) in
  Z.of_nat (length (take k d ++ drop k m)) = len /\ Forall is_byte (take k d ++ drop k m).
Proof.
  intros Hm Bm Hd Bd Hn k. split.
  - rewrite length_app, length_take, length_drop. subst k.
    destruct (n <? len) eqn:E; bool_to_prop; lia.
  - apply Forall_app; split; [by apply Forall_take|by apply Forall_drop].
Qed.

Definition submitted_entry (hd : usbip_header) (buffer : ptr bytes) (now : Z) : urb_entry :=
  {| ent_urb := submit_urb_of hd buffer; ent_seqnum := hc_seqnum (h_common hd);
     ent_devid := hc_devid (h_common hd); ent_submit_time := now;
     ent_in_progress := false; ent_completed := false |}.

(** An accepted submission adds one well-formed entry at the end of the pending
    queue; a refused one changes nothing. *)
Lemma submit_spec calloc_ok memory now h hd data n e r :
  uh_initialized h = true -> header_ok hd -> memory_ok hd memory -> data_ok data n ->
  urb_handler_submit calloc_ok memory now (Some h) (Some hd) data n = (e, r) ->
  (e = ERR_SUCCESS /\ exists buffer, ent_ok (submitted_entry hd buffer now) /\
    r = Some (uh_set_queues h (fifo_push (uh_pending h) (submitted_entry hd buffer now))
                (uh_completed h))) \/
  (e = ERR_OUT_OF_MEMORY /\ r = Some h).
Proof.
  intros Hi Hh Hm Hd E. unfold urb_handler_submit in E. rewrite Hi in E. simpl in E.
  destruct calloc_ok; simpl in E; [|by simplify_eq; right].
  assert (is_u 32 (cs_transfer_buffer_length (h_u hd))) as Hl.
  { unfold header_ok in Hh. cbv zeta in Hh. by destruct_and! Hh. }
  assert (forall buffer, ent_ok (submitted_entry hd buffer now) ->
    (ERR_SUCCESS, Some (uh_set_queues h (fifo_push (uh_pending h) (submitted_entry hd buffer now))
       (uh_completed h))) = (e, r) ->
    (e = ERR_SUCCESS /\ exists buffer, ent_ok (submitted_entry hd buffer now) /\
      r = Some (uh_set_queues h (fifo_push (uh_pending h) (submitted_entry hd buffer now))
                (uh_completed h))) \/
    (e = ERR_OUT_OF_MEMORY /\ r = Some h)) as Hpush.
  { intros buffer Hok Heq. left. simplify_eq. eauto. }
  destruct (_ >? 0) eqn:Egt in E.
  2: { apply (Hpush NULL); [|exact E]. apply ent_ok_submit; [done|].
       rewrite Z.gtb_ltb in Egt. bool_to_prop. destruct Hl. lia. }
  destruct memory as [m|]; [|by simplify_eq; right].
  destruct (Hm m eq_refl) as [Hml Hmb].
  assert (ent_ok (submitted_entry hd (Some m) now)) by (by apply ent_ok_submit).
  destruct data as [d|]; [|by eapply Hpush].
  destruct (_ && _) eqn:Ed in E; [|by eapply Hpush].
  bool_to_prop. rewrite Z.gtb_ltb in *. bool_to_prop. destruct Hd as [Hdl Hdb].
  eapply Hpush; [|exact E]. apply ent_ok_submit; [done|]. by apply submit_buffer_ok.
Qed.

(** What [usb_submit_urb] does to a URB, whatever the device. *)
Lemma submit_urb_any dev ub u result r u' :
  urb_buffer_ok ub -> usb_submit_urb dev (Some ub) u = ((result, r), u') ->
  (result <> ERR_SUCCESS /\ r = Some ub) \/
  exists buf n, r = Some (urb_complete ub buf n (if error_code_eqb result ERR_SUCCESS then 0 else -1)) /\
    0 <= n <= urb_buffer_length ub /\
    match buf with
    | Some b => Z.of_nat (length b) = urb_buffer_length ub /\ Forall is_byte b
    | NULL => urb_buffer_length ub = 0 end.
Proof.
  intros Hb E. destruct dev as [d|]; [|by left; unfold usb_submit_urb in E; mret_eq].
  destruct (dev_is_open d) eqn:Ho.
  - right. destruct (submit_urb_spec d _ _ _ _ _ Ho Hb E) as (buf & n & -> & Hn' & Hbuf).
    eexists _, _. split_and!; [done|lia| |done].
    pose proof (Z.mod_le (urb_buffer_length ub) (2 ^ 16)). destruct Hb as [[? _] _].
    unfold transfer_limit, wrap in Hn'. destruct (_ =? _) in Hn'; lia.
  - left. unfold usb_submit_urb in E. rewrite Ho in E. simpl in E. by mret_eq.
Qed.

(** Executing an entry keeps it well formed and completes it. *)
Lemma execute_spec h e u h' u' :
  ent_ok e -> worker_execute h e u = (h', u') ->
  exists e', h' = uh_set_queues h (uh_pending h) (fifo_push (uh_completed h) e') /\
    ent_ok e' /\ ent_seqnum e' = ent_seqnum e /\ ent_completed e' = true /\
    ent_devid e' = ent_devid e /\ urb_endpoint (ent_urb e') = urb_endpoint (ent_urb e) /\
    urb_direction (ent_urb e') = urb_direction (ent_urb e) /\
    (urb_status (ent_urb e') = 0 \/ urb_status (ent_urb e') = - EIO).
Proof.
  intros Hok E. unfold worker_execute in E.
  apply M_bind_inv in E as ([result r] & u1 & E1 & E). mret_eq. eexists. split; [done|].
  pose proof Hok as (Hb & Hn & Hrest).
  destruct (submit_urb_any _ _ _ _ _ _ Hb E1) as [[Hne ->]|(buf & n & -> & Hn' & Hbuf)]; simpl.
  - assert (error_code_eqb result ERR_SUCCESS = false) as ->.
    { apply not_true_is_false. by rewrite error_code_eqb_true. }
    split_and!; auto; done.
  - unfold ent_ok, urb_buffer_ok in *. destruct (error_code_eqb result ERR_SUCCESS); simpl;
      destruct_and!; split_and!; auto.
Qed.

Lemma cancel_loop_S fuel h :
  cancel_loop (S fuel) h =
  match fifo_pop (uh_pending h) with
  | (NULL, _) => h
  | (Some e, pending) =>
      cancel_loop fuel (uh_set_queues h pending (fifo_push (uh_completed h) (cancel_entry e)))
  end.
Proof. done. Qed.

Lemma cancel_loop_spec fuel h :
  (length (f_entries (uh_pending h)) < fuel)%nat ->
  f_count (uh_pending h) = Z.of_nat (length (f_entries (uh_pending h))) ->
  f_count (uh_completed h) = Z.of_nat (length (f_entries (uh_completed h))) ->
  let h' := cancel_loop fuel h in
  f_entries (uh_pending h') = [] /\ f_count (uh_pending h') = 0 /\
  f_entries (uh_completed h') = f_entries (uh_completed h) ++ (cancel_entry <$> f_entries (uh_pending h)) /\
  f_count (uh_completed h') = Z.of_nat (length (f_entries (uh_completed h'))) /\
  uh_running h' = uh_running h /\ uh_initialized h' = uh_initialized h.
Proof.
  revert h. induction fuel as [|fuel IH]; intros h Hf Hp Hc; [lia|]. cbv zeta.
  rewrite cancel_loop_S. unfold fifo_pop. destruct (f_entries (uh_pending h)) as [|e es] eqn:Ep.
  - by rewrite Ep, app_nil_r.
  - simpl in *. destruct (IH (uh_set_queues h {| f_entries := es; f_count := f_count (uh_pending h) - 1;
      f_notify := f_notify (uh_pending h) |} (fifo_push (uh_completed h) (cancel_entry e))))
      as (-> & -> & -> & Hl & -> & ->); simpl in *;
      [lia|lia|rewrite length_app; simpl; lia|].
    rewrite Hl, <- (assoc_L (++)). simpl. by split_and!.
Qed.

(** The relation between two states of the system when entries moved without
    being reordered, lost or made up. *)
Definition moved (es es' : list urb_entry) : Prop :=
  Forall ent_ok es' /\ map ent_seqnum es' = map ent_seqnum es.

Lemma moved_refl es : Forall ent_ok es -> moved es es.
Proof. done. Qed.

Lemma moved_app es1 es1' es2 es2' : moved es1 es1' -> moved es2 es2' -> moved (es1 ++ es2) (es1' ++ es2').
Proof. intros [Hk1 E1] [Hk2 E2]. split; [by apply Forall_app|]. by rewrite !map_app, E1, E2. Qed.

Lemma moved_trans es1 es2 es3 : moved es1 es2 -> moved es2 es3 -> moved es1 es3.
Proof. intros [_ E1] [Hk E2]. split; [done|congruence]. Qed.

(** One iteration of the worker's loop moves entries from the pending queue, through
    its hand, to the completed queue. *)
Lemma worker_step_spec wf h w u h' w' u' :
  worker_step wf h w u = ((h', w'), u') ->
  Forall ent_ok (held w ++ f_entries (uh_pending h)) ->
  f_count (uh_pending h) = Z.of_nat (length (f_entries (uh_pending h))) ->
  exists done, f_entries (uh_completed h') = f_entries (uh_completed h) ++ done /\
    f_count (uh_completed h') = f_count (uh_completed h) + Z.of_nat (length done) /\
    f_count (uh_pending h') = Z.of_nat (length (f_entries (uh_pending h'))) /\
    Forall (fun e => ent_completed e = true) done /\
    moved (held w ++ f_entries (uh_pending h)) (done ++ held w' ++ f_entries (uh_pending h')) /\
    uh_initialized h' = uh_initialized h /\ uh_running h' = uh_running h /\
    (uh_running h = false -> w' = match w with W_none => W_none | W_holding _ => W_loop | _ => W_exited end).
Proof.
  intros E Hok Hc. destruct w as [| |e|]; simpl in E.
  - mret_eq. exists []. rewrite app_nil_r. simpl. rewrite Z.add_0_r. by split_and!.
  - destruct (uh_running h) eqn:Hr; simpl in E.
    2: { mret_eq. exists []. rewrite app_nil_r. simpl. rewrite Z.add_0_r. by split_and!. }
    unfold fifo_pop in E. destruct (f_entries (uh_pending h)) as [|e es] eqn:Ep.
    + exists []. rewrite app_nil_r, Z.add_0_r. destruct wf; mret_eq; rewrite ?Ep; by split_and!.
    + mret_eq. exists []. rewrite app_nil_r, Z.add_0_r. simpl in *.
      split_and!; try done; [lia|]. split; [|done]. apply Forall_cons in Hok as [? ?]. by constructor.
  - apply M_bind_inv in E as (h1 & u1 & E1 & E). mret_eq. apply Forall_cons in Hok as [He Hok].
    destruct (execute_spec _ _ _ _ _ He E1) as (e' & -> & He' & Hs & Hd & _). simpl.
    exists [e']. split_and!; try done; [repeat constructor; done|].
    split; [by constructor|]. simpl. by rewrite Hs.
  - mret_eq. exists []. rewrite app_nil_r. simpl. rewrite Z.add_0_r. by split_and!.
Qed.

(** A worker that is told to stop finishes the entry it holds and exits; it takes
    no further one. *)
Lemma worker_join_spec h w u h' w' u' :
  worker_join join_fuel h w u = ((h', w'), u') -> uh_running h = false ->
  Forall ent_ok (held w ++ f_entries (uh_pending h)) ->
  f_count (uh_pending h) = Z.of_nat (length (f_entries (uh_pending h))) ->
  exists done, f_entries (uh_completed h') = f_entries (uh_completed h) ++ done /\
    f_count (uh_completed h') = f_count (uh_completed h) + Z.of_nat (length done) /\
    f_count (uh_pending h') = Z.of_nat (length (f_entries (uh_pending h'))) /\
    Forall (fun e => ent_completed e = true) done /\
    moved (held w ++ f_entries (uh_pending h)) (done ++ f_entries (uh_pending h')) /\
    uh_initialized h' = uh_initialized h /\ uh_running h' = false /\
    (w' = W_none \/ w' = W_exited).
Proof.
  unfold join_fuel. cbn [worker_join]. intros E Hr Hok Hc.
  apply M_bind_inv in E as ([h1 w1] & u1 & E1 & E). simpl in E.
  apply M_bind_inv in E as ([h2 w2] & u2 & E2 & E). mret_eq.
  destruct (worker_step_spec _ _ _ _ _ _ _ E1 Hok Hc) as (d1 & C1 & N1 & P1 & D1 & M1 & I1 & R1 & W1).
  pose proof (proj1 M1) as Hok1. apply Forall_app in Hok1 as [_ Hok1].
  destruct (worker_step_spec _ _ _ _ _ _ _ E2 Hok1 P1) as (d2 & C2 & N2 & P2 & D2 & M2 & I2 & R2 & W2).
  specialize (W1 Hr). rewrite R1, Hr in W2. specialize (W2 eq_refl).
  exists (d1 ++ d2). rewrite C2, C1, N2, N1, length_app.
  assert (held w' = [] /\ (w' = W_none \/ w' = W_exited)) as [Hh Hw].
  { destruct w; subst; auto. }
  split_and!; [by rewrite (assoc_L (++))|lia|done|by apply Forall_app| |congruence|congruence|done].
  eapply moved_trans; [exact M1|]. rewrite Hh in M2. simpl in M2. rewrite <- (assoc_L (++)).
  apply moved_app; [|done]. apply moved_refl. destruct M1 as [Hd _]. by apply Forall_app in Hd as [? _].
Qed.

Lemma moved_cancel es : Forall ent_ok es -> moved es (cancel_entry <$> es).
Proof.
  intros Hok. split; [by apply Forall_fmap|]. induction Hok as [|e es _ _ IH]; [done|].
  rewrite fmap_cons. cbn [map]. by rewrite IH.
Qed.

Lemma stop_spec h w u r w' u' :
  urb_handler_stop (Some h) w u = ((r, w'), u') -> uh_running h = true ->
  Forall ent_ok (held w ++ f_entries (uh_pending h)) ->
  f_count (uh_pending h) = Z.of_nat (length (f_entries (uh_pending h))) ->
  f_count (uh_completed h) = Z.of_nat (length (f_entries (uh_completed h))) ->
  exists h' done, r = Some h' /\ f_entries (uh_pending h') = [] /\ f_count (uh_pending h') = 0 /\
    f_entries (uh_completed h') = f_entries (uh_completed h) ++ done /\
    f_count (uh_completed h') = Z.of_nat (length (f_entries (uh_completed h'))) /\
    Forall (fun e => ent_completed e = true) done /\
    moved (held w ++ f_entries (uh_pending h)) done /\
    uh_initialized h' = uh_initialized h /\ uh_running h' = false /\
    (w' = W_none \/ w' = W_exited).
Proof.
  intros E Hr Hok Hp Hc. unfold urb_handler_stop in E. rewrite Hr in E. simpl negb in E. cbv iota in E.
  apply M_bind_inv in E as ([h1 w1] & u1 & E1 & E). mret_eq.
  destruct (worker_join_spec _ _ _ _ _ _ E1) as (d & C1 & N1 & P1 & D1 & M1 & I1 & R1 & W1); [done..|].
  destruct (cancel_loop_spec (S (length (f_entries (uh_pending h1)))) h1)
    as (Q1 & Q2 & Q3 & Q4 & Q5 & Q6); [lia|done|by rewrite C1, N1, length_app; simpl; lia|].
  eexists _, (d ++ (cancel_entry <$> f_entries (uh_pending h1))). split; [done|].
  split_and!; [done|done|by rewrite Q3, C1, (assoc_L (++))|done| | |by rewrite Q6, I1|congruence|done].
  - apply Forall_app; split; [done|]. apply Forall_fmap, Forall_forall. done.
  - eapply moved_trans; [exact M1|]. destruct M1 as [Hd _]. apply Forall_app in Hd as [? ?].
    by apply moved_app; [apply moved_refl|apply moved_cancel].
Qed.

Lemma start_spec created h w e r w' :
  urb_handler_start created (Some h) w = (e, r, w') ->
  exists h', r = Some h' /\ uh_pending h' = uh_pending h /\ uh_completed h' = uh_completed h /\
    uh_initialized h' = uh_initialized h /\
    ((w' = w /\ uh_running h' = uh_running h) \/
     (uh_running h = false /\ w' = W_loop /\ uh_running h' = true)).
Proof.
  unfold urb_handler_start. destruct (uh_initialized h) eqn:Hi, (uh_running h) eqn:Hr, created;
    simpl; intros; simplify_eq; eexists; (split; [done|]); simpl; rewrite ?Hi; split_and!; auto.
Qed.

(** *** The worker opens and closes nothing *)

Lemma worker_step_handles wf h w u r u' : worker_step wf h w u = (r, u') -> same_handles u u'.
Proof.
  intros E. destruct w as [| |e|]; simpl in E; [by mret_eq| | |by mret_eq].
  - destruct (negb _); [by mret_eq|]. destruct (fifo_pop _) as [[e|] q]; [by mret_eq|].
    destruct wf; by mret_eq.
  - apply M_bind_inv in E as (h1 & u1 & E1 & E). mret_eq. unfold worker_execute in E1.
    apply M_bind_inv in E1 as ([result r] & u2 & E1 & E2). mret_eq. by eapply submit_urb_handles.
Qed.

Lemma worker_join_handles fuel h w u r u' : worker_join fuel h w u = (r, u') -> same_handles u u'.
Proof.
  revert h w u. induction fuel as [|fuel IH]; intros h w u E; simpl in E; [by mret_eq|].
  apply M_bind_inv in E as ([h1 w1] & u1 & E1 & E). apply worker_step_handles in E1.
  apply IH in E. by etrans.
Qed.

Lemma stop_handles h w u r u' : urb_handler_stop h w u = (r, u') -> same_handles u u'.
Proof.
  intros E. unfold urb_handler_stop in E. destruct h as [h|]; [|by mret_eq].
  destruct (negb _); [by mret_eq|]. apply M_bind_inv in E as ([h1 w1] & u1 & E1 & E).
  apply worker_join_handles in E1. by mret_eq.
Qed.

Lemma cleanup_handles h w u r u' : urb_handler_cleanup h w u = (r, u') -> same_handles u u'.
Proof.
  intros E. unfold urb_handler_cleanup in E. destruct h as [h|]; [|by mret_eq].
  destruct (negb _); [by mret_eq|]. apply M_bind_inv in E as ([h1 w1] & u1 & E1 & E).
  apply stop_handles in E1. by mret_eq.
Qed.

(** *** The invariant *)

Lemma in_system_split s :
  Forall ent_ok (in_system s) ->
  Forall ent_ok (sy_delivered s) /\ Forall ent_ok (f_entries (uh_completed (sy_handler s))) /\
  Forall ent_ok (held (sy_worker s) ++ f_entries (uh_pending (sy_handler s))).
Proof. unfold in_system. by rewrite !Forall_app. Qed.

(** A step in which only the worker's side of the system moves. *)
Lemma sys_moved s h' w' u' done :
  sys_inv s -> uh_initialized h' = uh_initialized (sy_handler s) ->
  f_entries (uh_completed h') = f_entries (uh_completed (sy_handler s)) ++ done ->
  f_count (uh_completed h') = Z.of_nat (length (f_entries (uh_completed h'))) ->
  f_count (uh_pending h') = Z.of_nat (length (f_entries (uh_pending h'))) ->
  Forall (fun e => ent_completed e = true) done ->
  moved (held (sy_worker s) ++ f_entries (uh_pending (sy_handler s)))
        (done ++ held w' ++ f_entries (uh_pending h')) ->
  (uh_running h' = false -> w' = W_none \/ w' = W_exited) ->
  let s' := {| sy_handler := h'; sy_worker := w'; sy_usb := u';
               sy_submitted := sy_submitted s; sy_delivered := sy_delivered s |} in
  sys_inv s' /\ (sys_ordered s -> sys_ordered s').
Proof.
  intros [Hi Hp Hc He Hd Hs Hw] Hi' Hq Hqc Hpc Hdone Hm Hw' s'.
  destruct (in_system_split _ He) as (? & ? & ?).
  assert (moved (in_system s) (in_system s')) as [Hok Heq].
  { unfold in_system, s'. simpl. rewrite Hq, <- (assoc_L (++)).
    by repeat (apply moved_app; [by apply moved_refl|]). }
  split; [split; simpl; try done|].
  - by rewrite Hi'.
  - rewrite Hq, (assoc_L (++)). by apply Forall_app.
  - by rewrite Heq.
  - unfold sys_ordered. by rewrite Heq.
Qed.

(** A submission appends to the system, in order. *)
Lemma sys_submit s hd buffer now u' :
  sys_inv s -> ent_ok (submitted_entry hd buffer now) ->
  let s' := {| sy_handler := uh_set_queues (sy_handler s)
                 (fifo_push (uh_pending (sy_handler s)) (submitted_entry hd buffer now))
                 (uh_completed (sy_handler s));
               sy_worker := sy_worker s; sy_usb := u';
               sy_submitted := sy_submitted s ++ [hc_seqnum (h_common hd)];
               sy_delivered := sy_delivered s |} in
  sys_inv s' /\ (sys_ordered s -> sys_ordered s').
Proof.
  intros [Hi Hp Hc He Hd Hs Hw] Hok s'.
  assert (in_system s' = in_system s ++ [submitted_entry hd buffer now]) as Esys.
  { unfold in_system, s'. simpl. by rewrite !(assoc_L (++)). }
  split; [split; simpl; try done|].
  - rewrite length_app. simpl. lia.
  - rewrite Esys. apply Forall_app. auto.
  - rewrite Esys, map_app. simpl. by rewrite Hs.
  - unfold sys_ordered. intros Ho. rewrite Esys, map_app. simpl. by rewrite Ho.
Qed.

(** An unlinked entry overtakes the pending ones, but is not lost. *)
Lemma sys_unlink s l1 x l2 n f :
  sys_inv s -> f_entries (uh_pending (sy_handler s)) = l1 ++ x :: l2 ->
  n = f_count (uh_pending (sy_handler s)) - 1 ->
  sys_inv {| sy_handler := uh_set_queues (sy_handler s)
               {| f_entries := l1 ++ l2; f_count := n; f_notify := f |}
               (fifo_push (uh_completed (sy_handler s)) (cancel_entry x));
             sy_worker := sy_worker s; sy_usb := sy_usb s;
             sy_submitted := sy_submitted s; sy_delivered := sy_delivered s |}.
Proof.
  intros [Hi Hp Hc He Hd Hs Hw] El ->. destruct (in_system_split _ He) as (Hok1 & Hok2 & Hok3).
  rewrite El, !Forall_app, Forall_cons in Hok3. destruct Hok3 as (? & ? & ? & ?).
  split; simpl; try done.
  - rewrite Hp, El, !length_app. simpl. lia.
  - rewrite length_app. simpl. lia.
  - unfold in_system. simpl. rewrite !Forall_app. repeat split; auto.
  - rewrite Forall_app in Hd. destruct Hd. rewrite !Forall_app. repeat split; auto.
  - etrans; [|exact Hs]. unfold in_system. simpl. rewrite El, !map_app. simpl.
    apply Permutation_app_head. rewrite <- !(assoc_L (++)). apply Permutation_app_head. simpl.
    rewrite !(assoc_L (++)). by rewrite Permutation_middle.
Qed.

Lemma sys_deliver s x xs n f :
  sys_inv s -> f_entries (uh_completed (sy_handler s)) = x :: xs ->
  n = f_count (uh_completed (sy_handler s)) - 1 ->
  let s' := {| sy_handler := uh_set_queues (sy_handler s) (uh_pending (sy_handler s))
                 {| f_entries := xs; f_count := n; f_notify := f |};
               sy_worker := sy_worker s; sy_usb := sy_usb s;
               sy_submitted := sy_submitted s; sy_delivered := sy_delivered s ++ [x] |} in
  sys_inv s' /\ (sys_ordered s -> sys_ordered s').
Proof.
  intros [Hi Hp Hc He Hd Hs Hw] Ex -> s'. rewrite Ex in *.
  assert (in_system s' = in_system s) as Esys.
  { unfold in_system, s'. simpl. rewrite Ex. by rewrite <- (assoc_L (++)). }
  split; [split; simpl; try done|].
  - simpl in Hc. lia.
  - by rewrite Esys.
  - by rewrite <- (assoc_L (++)).
  - by rewrite Esys.
  - unfold sys_ordered. by rewrite Esys.
Qed.

Lemma sys_stop s r w' u' :
  sys_inv s -> urb_handler_stop (Some (sy_handler s)) (sy_worker s) (sy_usb s) = ((r, w'), u') ->
  exists h', r = Some h' /\
  let s' := {| sy_handler := h'; sy_worker := w'; sy_usb := u';
               sy_submitted := sy_submitted s; sy_delivered := sy_delivered s |} in
  sys_inv s' /\ (sys_ordered s -> sys_ordered s') /\
  (uh_running (sy_handler s) = true ->
     f_entries (uh_pending h') = [] /\ uh_running h' = false /\ held w' = []).
Proof.
  intros Hinv E. pose proof Hinv as [Hi Hp Hc He Hd Hs Hw].
  destruct (in_system_split _ He) as (_ & _ & Hok). destruct (uh_running (sy_handler s)) eqn:Hr.
  - destruct (stop_spec _ _ _ _ _ _ E Hr Hok Hp Hc)
      as (h' & dn & -> & Q1 & Q2 & C & N & D & Mv & I & R & W).
    assert (held w' = []) as Hh by (by destruct W as [->| ->]).
    exists h'. split; [done|]. destruct (sys_moved s h' w' u' dn) as [? ?]; auto.
    + by rewrite Q1, Q2.
    + rewrite Q1, Hh. by rewrite !app_nil_r.
  - unfold urb_handler_stop in E. rewrite Hr in E. simpl in E. mret_eq. eexists. split; [done|].
    by destruct s.
Qed.

Lemma sys_started s created e r w' :
  sys_inv s -> urb_handler_start created (Some (sy_handler s)) (sy_worker s) = (e, r, w') ->
  exists h', r = Some h' /\
  let s' := {| sy_handler := h'; sy_worker := w'; sy_usb := sy_usb s;
               sy_submitted := sy_submitted s; sy_delivered := sy_delivered s |} in
  sys_inv s' /\ (sys_ordered s -> sys_ordered s').
Proof.
  intros Hinv E. pose proof Hinv as [Hi Hp Hc He Hd Hs Hw].
  destruct (in_system_split _ He) as (_ & _ & Hok).
  destruct (start_spec _ _ _ _ _ _ E) as (h' & -> & Q1 & Q2 & I & W).
  assert (held w' = held (sy_worker s)) as Eh.
  { destruct W as [(-> & _)|(Hr & -> & _)]; [done|]. by destruct (Hw Hr) as [->| ->]. }
  exists h'. split; [done|]. apply (sys_moved s h' w' (sy_usb s) []); auto.
  - by rewrite Q2, app_nil_r.
  - by rewrite Q2.
  - by rewrite Q1.
  - simpl. by rewrite Q1, Eh.
  - by destruct W as [(-> & ->)|(_ & _ & ->)].
Qed.

Lemma hstep_inv a s s' :
  hstep a s s' -> sys_inv s ->
  sys_inv s' /\ (a <> A_unlink -> sys_ordered s -> sys_ordered s').
Proof.
  intros Hstep Hinv. pose proof Hinv as [Hi Hp Hc He Hd Hs Hw].
  destruct (in_system_split _ He) as (_ & _ & Hok). destruct Hstep as
    [calloc_ok memory now hd data n s e h' Hh Hm Hdt E|n s e h' E|s e h' E|wf s h' w' u' E
    |s r w' u' h' E ->|created s e h' w' E|s d u'].
  - destruct (submit_spec _ _ _ _ _ _ _ _ _ Hi Hh Hm Hdt E) as [(-> & b & Hb & [= ->])|(-> & [= ->])];
      simpl; [|by destruct s].
    destruct (sys_submit s hd b now (sy_usb s) Hinv Hb). auto.
  - split; [|done]. unfold urb_handler_unlink in E. rewrite Hi in E. simpl in E.
    unfold fifo_find_remove in E.
    destruct (find_first _ _) as [x|] eqn:Ef; simplify_eq/=; [|by destruct s].
    apply find_first_split in Ef as (l1 & l2 & El & Hl1 & Hx). rewrite El, remove_first_split by done.
    by apply sys_unlink.
  - unfold urb_handler_get_completed, fifo_pop in E. rewrite Hi in E. simpl in E.
    destruct (f_entries (uh_completed (sy_handler s))) as [|x xs] eqn:Ex; simplify_eq/=.
    edestruct (sys_deliver s) as [Hd1 Hd2]; [done..|]. split; [exact Hd1|]. intros _. exact Hd2.
  - destruct (worker_step_spec _ _ _ _ _ _ _ E Hok Hp) as (dn & C & N & P & D & Mv & I & R & W).
    destruct (sys_moved s h' w' u' dn) as [? ?]; auto.
    + rewrite N, C, Hc, length_app. lia.
    + intros Hr. rewrite R in Hr. rewrite (W Hr). destruct (Hw Hr) as [->| ->]; auto.
  - destruct (sys_stop _ _ _ _ Hinv E) as (h2 & [= <-] & ? & ? & _). auto.
  - destruct (sys_started _ _ _ _ _ Hinv E) as (h2 & [= <-] & ? & ?). auto.
  - destruct (sys_moved s (uh_set_device (sy_handler s) d) (sy_worker s) u' []) as [? ?];
      rewrite ?app_nil_r; auto. by apply moved_refl.
Qed.

Inductive hsteps : list action -> sys -> sys -> Prop :=
  | hsteps_nil s : hsteps [] s s
  | hsteps_cons a acts s s1 s' : hstep a s s1 -> hsteps acts s1 s' -> hsteps (a :: acts) s s'.

Lemma hsteps_inv acts s s' :
  hsteps acts s s' -> sys_inv s ->
  sys_inv s' /\ (A_unlink ∉ acts -> sys_ordered s -> sys_ordered s').
Proof.
  induction 1 as [s|a acts s s1 s' Ha _ IH]; intros Hi; [by split|].
  destruct (hstep_inv _ _ _ Ha Hi) as [Hi1 Ho1]. destruct (IH Hi1) as [Hi' Ho'].
  split; [done|]. rewrite not_elem_of_cons. intros [? ?]. auto.
Qed.

(** The system right after [urb_handler_init]. *)
Definition sys_initial (h : urb_handler) (u : U) : sys := {|
  sy_handler := h; sy_worker := W_none; sy_usb := u; sy_submitted := []; sy_delivered := [] |}.

Lemma sys_initial_inv mutexes events h0 d h u :
  urb_handler_init mutexes events h0 (Some d) = (ERR_SUCCESS, Some h) ->
  sys_inv (sys_initial h u) /\ sys_ordered (sys_initial h u).
Proof.
  unfold urb_handler_init. destruct h0 as [h0|]; [|done].
  destruct (queue_init mutexes.1 events.1) as [e1 ?], (queue_init mutexes.2 events.2) as [e2 ?].
  destruct e1; try done. simpl. destruct e2; try done. simpl. intros. simplify_eq.
  by repeat (split; try done); auto.
Qed.

(** ** Properties *)

(** the lists the handler is modelled with are what the linked queues hold:
    from a queue whose nodes spell [f], [queue_push], [queue_pop] and
    [queue_find_remove] run without a fault, return the entry the list operation
    returns, and leave a queue that spells the list the list operation leaves,
    count and wake-up event included.  Only nodes of the queue (and the pushed
    one) are written, so another queue with other nodes is not affected. *)
Theorem queues_implement_fifo h q ls f x nx sn :
  fifo_rep h q ls f -> x ∉ ls -> h !! x = Some nx ->
  (exists h' q', queue_push h q x = Some (h', q') /\
     fifo_rep h' q' (ls ++ [x]) (fifo_push f (nd_entry nx)) /\ frame (ls ++ [x]) h h') /\
  (exists r h' q', queue_pop h q = Some (r, h', q') /\ fifo_rep h' q' (tail ls) (fifo_pop f).2 /\
     (y ← r; nd_entry <$> h !! y) = (fifo_pop f).1 /\ frame ls h h') /\
  (exists r h' q', queue_find_remove h q sn = Some (r, h', q') /\
     fifo_rep h' q' (remove_first (has_seqnum h sn) ls) (fifo_find_remove f sn).2 /\
     (y ← r; nd_entry <$> h !! y) = (fifo_find_remove f sn).1 /\ frame ls h h').
Proof.
  intros Hf Hx Hnx. split_and!; [by apply fifo_push_rep| |by apply fifo_find_remove_rep].
  destruct (fifo_pop_rep _ _ _ _ Hf) as (h' & q' & ?). eauto.
Qed.

(** C2: no URB is lost, invented or answered twice.  However the session and the
    worker thread are interleaved, and however often the handler is stopped and
    started and the device closed under it, the URBs handed back, waiting to be
    handed back, in the worker's hands and pending are exactly the ones accepted
    by [urb_handler_submit], each once; every URB handed back is completed, with
    at most the announced number of bytes; and the counts the queues keep are
    right. *)
Theorem urbs_conserved mutexes events h0 d h u acts s :
  urb_handler_init mutexes events h0 (Some d) = (ERR_SUCCESS, Some h) ->
  hsteps acts (sys_initial h u) s ->
  map ent_seqnum (sy_delivered s ++ f_entries (uh_completed (sy_handler s)) ++
    held (sy_worker s) ++ f_entries (uh_pending (sy_handler s))) ≡ₚ sy_submitted s /\
  Forall (fun e => ent_completed e = true /\
    urb_actual_length (ent_urb e) <= urb_buffer_length (ent_urb e)) (sy_delivered s) /\
  urb_handler_pending_count (Some (sy_handler s)) = Z.of_nat (length (f_entries (uh_pending (sy_handler s)))) /\
  urb_handler_completed_count (Some (sy_handler s)) =
    Z.of_nat (length (f_entries (uh_completed (sy_handler s)))).
Proof.
  intros Hinit Hsteps. destruct (sys_initial_inv _ _ _ _ _ u Hinit) as [Hi _].
  destruct (hsteps_inv _ _ _ Hsteps Hi) as [[Hi' Hp Hc He Hd Hs Hw] _].
  split_and!; [done| |done..]. apply Forall_and.
  apply Forall_app in Hd as [? _]. destruct (in_system_split _ He) as (Hok & _ & _).
  split; [done|]. eapply Forall_impl; [exact Hok|]. intros e (_ & ? & _). lia.
Qed.

(** C39: as long as no URB is unlinked, URBs are handed back in the order in which
    they were submitted: the sequence numbers delivered so far are a prefix of
    those accepted so far. *)
Theorem urbs_in_order mutexes events h0 d h u acts s :
  urb_handler_init mutexes events h0 (Some d) = (ERR_SUCCESS, Some h) ->
  hsteps acts (sys_initial h u) s -> A_unlink ∉ acts ->
  map ent_seqnum (sy_delivered s) `prefix_of` sy_submitted s.
Proof.
  intros Hinit Hsteps Hno. destruct (sys_initial_inv _ _ _ _ _ u Hinit) as [Hi Ho].
  destruct (hsteps_inv _ _ _ Hsteps Hi) as [_ Ho']. unfold sys_ordered, in_system in Ho'.
  specialize (Ho' Hno Ho). rewrite map_app in Ho'. eexists. symmetry. exact Ho'.
Qed.

(** C40: [urb_handler_stop] returns, and leaves nothing behind: the worker has
    exited holding nothing, the pending queue is empty, and every URB that was
    not handed back before now waits in the completed queue, so that each URB
    accepted gets an answer.  The model of [thread_join] runs the worker for
    [join_fuel] iterations, which is enough for it to exit. *)
Theorem stop_drains mutexes events h0 d h u acts s r w' u' :
  urb_handler_init mutexes events h0 (Some d) = (ERR_SUCCESS, Some h) ->
  hsteps acts (sys_initial h u) s -> uh_running (sy_handler s) = true ->
  urb_handler_stop (Some (sy_handler s)) (sy_worker s) (sy_usb s) = ((r, w'), u') ->
  exists h', r = Some h' /\ (w' = W_none \/ w' = W_exited) /\ uh_running h' = false /\
    urb_handler_pending_count r = 0 /\
    map ent_seqnum (sy_delivered s ++ f_entries (uh_completed h')) ≡ₚ sy_submitted s.
Proof.
  intros Hinit Hsteps Hr E. destruct (sys_initial_inv _ _ _ _ _ u Hinit) as [Hi _].
  destruct (hsteps_inv _ _ _ Hsteps Hi) as [Hinv _].
  destruct (sys_stop _ _ _ _ Hinv E) as (h' & -> & [_ Hp _ _ _ Hs Hw] & _ & Hrest).
  destruct (Hrest Hr) as (Hpn & Hrn & Hh). simpl in *. unfold in_system in Hs. simpl in Hs.
  rewrite Hpn in Hp. rewrite Hpn, Hh, app_nil_r in Hs. exists h'. split_and!; auto.
Qed.


(** an IN request on endpoint 0 is not executed as a control transfer.
    [urb_handler_submit] marks the URB as a control transfer but also sets the
    direction bit in its endpoint, which is then 0x80; [usb_submit_urb] recognises
    control transfers by an endpoint of 0, so a device-to-host control request
    becomes a read from the pipe 0x80, and the setup packet is never sent. *)
Theorem control_in_not_control hd buffer d u :
  hc_ep (h_common hd) = 0 -> hc_direction (h_common hd) = USBIP_DIR_IN -> dev_is_open d = true ->
  let ub := submit_urb_of hd buffer in
  urb_type ub = USB_ENDPOINT_XFER_CONTROL /\
  exists result moved u', usb_bulk_transfer (Some d) 0x80 buffer (urb_buffer_length ub) URB_TIMEOUT_MS u
      = ((result, moved), u') /\
    usb_submit_urb (Some d) (Some ub) u =
      ((result, Some (urb_complete ub (store_read true buffer moved) (Z.of_nat (length moved))
         (if error_code_eqb result ERR_SUCCESS then 0 else -1))), u').
Proof.
  intros Hep Hdir Ho ub. assert (urb_endpoint ub = 0x80) as He.
  { unfold ub. simpl. by rewrite Hep, Hdir. }
  assert (urb_type ub = USB_ENDPOINT_XFER_CONTROL) as Ht by (unfold ub; simpl; by rewrite Hep).
  split; [done|].
  destruct (usb_bulk_transfer (Some d) 0x80 buffer (urb_buffer_length ub) URB_TIMEOUT_MS u)
    as [[result moved] u'] eqn:E. exists result, moved, u'. split; [done|].
  unfold usb_submit_urb. rewrite Ho, He, Ht. simpl negb. cbv iota. unfold usb_interrupt_transfer.
  change (urb_buffer ub) with buffer. unfold mbind, M_bind. cbn -[usb_bulk_transfer ub].
  by rewrite E.
Qed.
End system.

(** ** Witnesses *)

Definition example_handler : urb_handler := {|
  uh_device := Some example_open; uh_pending := fifo_empty; uh_completed := fifo_empty;
  uh_next_seqnum := 1; uh_running := false; uh_initialized := true |}.

(** An IN transfer of four bytes on endpoint 1. *)
Definition example_command (seqnum ep : Z) : usbip_header :=
  usbip_create_urb_submit seqnum 0x10002 USBIP_DIR_IN ep 0 4 (Some [0x80; 6; 0; 1; 0; 0; 4; 0]).

Definition example_memory : ptr bytes := Some [0; 0; 0; 0].

Lemma example_command_ok n ep : is_u 32 n -> is_u 32 ep -> header_ok (example_command n ep).
Proof. intros ? ?. unfold header_ok. split_and!; try done. repeat constructor; by vm_compute. Qed.

Lemma example_memory_ok n ep : memory_ok (example_command n ep) example_memory.
Proof. intros m Hm. unfold example_memory in Hm. simplify_eq. split; [done|]. repeat constructor; by vm_compute. Qed.

(** Start, two submissions, the worker takes and executes the first, which is
    handed back. *)
Definition example_actions : list action :=
  [A_start; A_submit; A_submit; A_worker; A_worker; A_deliver].

Lemma example_run :
  exists s, hsteps (U := SimUsb.usb) example_actions
      (sys_initial example_handler (SimUsb.start [IoOk [1; 2; 3; 4]])) s /\
    uh_running (sy_handler s) = true /\ sy_submitted s = [7; 8] /\
    map ent_seqnum (sy_delivered s) = [7] /\ length (f_entries (uh_pending (sy_handler s))) = 1%nat.
Proof.
  eexists. split.
  - eapply hsteps_cons; [eapply (hs_start true); vm_compute; reflexivity|].
    eapply hsteps_cons; [eapply (hs_submit true example_memory 0 (example_command 7 1) NULL 0);
      [by apply example_command_ok|apply example_memory_ok|done|vm_compute; reflexivity]|].
    eapply hsteps_cons; [eapply (hs_submit true example_memory 0 (example_command 8 1) NULL 0);
      [by apply example_command_ok|apply example_memory_ok|done|vm_compute; reflexivity]|].
    eapply hsteps_cons; [eapply (hs_worker false); vm_compute; reflexivity|].
    eapply hsteps_cons; [eapply (hs_worker false); vm_compute; reflexivity|].
    eapply hsteps_cons; [eapply hs_deliver; vm_compute; reflexivity|]. apply hsteps_nil.
  - by vm_compute.
Qed.

Lemma queues_implement_fifo_witness :
  exists h' q', queue_push example_heap example_queue 48 = Some (h', q') /\
    fifo_rep h' q' [16; 32; 48]
      (fifo_push {| f_entries := [entry_for 1; entry_for 2]; f_count := 2; f_notify := true |}
         (entry_for 3)).
Proof.
  destruct (queues_implement_fifo example_heap example_queue [16; 32]
    {| f_entries := [entry_for 1; entry_for 2]; f_count := 2; f_notify := true |} 48
    {| nd_entry := entry_for 3; nd_next := NULL |} 2) as ((h' & q' & E & R & _) & _).
  - split; [apply example_queue_rep|]. split; [|done]. reflexivity.
  - apply (bool_decide_unpack _). by vm_compute.
  - reflexivity.
  - by exists h', q'.
Defined.

Lemma urbs_conserved_witness :
  exists s, hsteps (U := SimUsb.usb) example_actions
      (sys_initial example_handler (SimUsb.start [IoOk [1; 2; 3; 4]])) s /\
    map ent_seqnum (sy_delivered s ++ f_entries (uh_completed (sy_handler s)) ++
      held (sy_worker s) ++ f_entries (uh_pending (sy_handler s))) ≡ₚ [7; 8].
Proof.
  destruct example_run as (s & Hs & _ & Hsub & _). exists s. split; [exact Hs|].
  rewrite <- Hsub. exact (proj1 (urbs_conserved (0, 0) (0, 0) (Some example_handler) example_open
    example_handler _ _ s eq_refl Hs)).
Defined.

Lemma urbs_in_order_witness :
  exists s, hsteps (U := SimUsb.usb) example_actions
      (sys_initial example_handler (SimUsb.start [IoOk [1; 2; 3; 4]])) s /\
    map ent_seqnum (sy_delivered s) = [7] /\ map ent_seqnum (sy_delivered s) `prefix_of` [7; 8].
Proof.
  destruct example_run as (s & Hs & _ & Hsub & Hdel & _). exists s. split; [exact Hs|].
  split; [exact Hdel|]. rewrite <- Hsub.
  apply (urbs_in_order (0, 0) (0, 0) (Some example_handler) example_open example_handler
    (SimUsb.start [IoOk [1; 2; 3; 4]]) example_actions s eq_refl Hs).
  apply not_elem_of_cons. repeat (split; [done|]; apply not_elem_of_cons || apply not_elem_of_nil).
Defined.

Lemma stop_drains_witness :
  exists s, hsteps (U := SimUsb.usb) example_actions
      (sys_initial example_handler (SimUsb.start [IoOk [1; 2; 3; 4]])) s /\
    let '((r, w'), u') := urb_handler_stop (Some (sy_handler s)) (sy_worker s) (sy_usb s) in
    urb_handler_pending_count r = 0.
Proof.
  destruct example_run as (s & Hs & Hr & _). exists s. split; [exact Hs|].
  destruct (urb_handler_stop _ _ _) as [[r w'] u'] eqn:E.
  destruct (stop_drains (0, 0) (0, 0) (Some example_handler) example_open example_handler
    _ _ s r w' u' eq_refl Hs Hr E) as (h' & _ & _ & _ & Hp & _). exact Hp.
Defined.


Lemma control_in_not_control_witness :
  urb_type (submit_urb_of (example_command 7 0) example_memory) = USB_ENDPOINT_XFER_CONTROL /\
  urb_endpoint (submit_urb_of (example_command 7 0) example_memory) = 0x80.
Proof.
  split; [|reflexivity].
  apply (control_in_not_control (example_command 7 0) example_memory example_open
    (SimUsb.start [IoOk [1; 2; 3; 4]])); reflexivity.
Defined.
