(* ===== verification/QueueThreads.v ===== *)
(** * The URB queues under several threads ([server/urb_handler.c], [queue_*])

    [UrbQueue] runs the code of a queue without interruption.  Here its statements are
    the steps of threads that share the queue's memory, with the mutex and the auto-reset
    event of [Sync] as the code uses them; between two of these steps any other thread
    may run, and the nodes that are not in the queue are written, allocated and freed by
    their owners at any time.  The theorems say that the threads see a first-in first-out
    list on which every call is one step ([queue_linearizable]), which is how
    [UrbHandler] uses the queues, that no call faults or blocks for ever
    ([queue_threads_progress]), and that the worker does not sleep on a pending entry
    ([no_lost_wakeup]). *)

From S2P Require Import Prelude CTypes Sync Errors Protocol UsbHost UrbQueue UrbHandler.

(** ** The statements of the three functions *)

(** The call that a thread is in. *)
Inductive call :=
  | Push (entry : Z)
  | Pop
  | Find_remove (seqnum : Z).

(** The next statement, with the local variables that are still used. *)
Inductive pc :=
  (* [queue_push] *)
  | Push_lock (entry : Z)            (* mutex_lock(&queue->mutex); *)
  | Push_next (entry : Z)            (* entry->next = NULL; *)
  | Push_link (entry : Z)            (* if (queue->tail != NULL) ... else queue->head = entry; *)
  | Push_tail (entry : Z)            (* queue->tail = entry; *)
  | Push_count (entry : Z)           (* queue->count++; *)
  | Push_unlock (entry : Z)          (* mutex_unlock(&queue->mutex); *)
  | Push_signal                      (* event_signal(&queue->notify); *)
  (* [queue_pop] *)
  | Pop_lock
  | Pop_head                         (* entry = queue->head; if (entry != NULL) *)
  | Pop_advance (entry : Z)          (* queue->head = entry->next; *)
  | Pop_tail (entry : Z)             (* if (queue->head == NULL) queue->tail = NULL; *)
  (* [queue_find_remove] *)
  | Find_lock (seqnum : Z)
  | Find_head (seqnum : Z)           (* prev = NULL; entry = queue->head; *)
  | Find_loop (seqnum : Z) (prev entry : ptr Z)
  | Find_unlink (prev : ptr Z) (entry : Z)  (* queue->head or prev->next = entry->next; *)
  | Find_tail (prev : ptr Z) (entry : Z)    (* if (entry == queue->tail) queue->tail = prev; *)
  (* the end of [queue_pop] and [queue_find_remove] *)
  | Take_count (entry : Z)           (* queue->count--; *)
  | Take_next (entry : Z)            (* entry->next = NULL; *)
  | Take_unlock (result : ptr Z)     (* mutex_unlock(&queue->mutex); *)
  | Take_return (result : ptr Z).

Definition first_pc (c : call) : pc :=
  match c with Push e => Push_lock e | Pop => Pop_lock | Find_remove n => Find_lock n end.

Definition set_links (q : urb_queue) (head tail : ptr Z) (count : Z) : urb_queue :=
  {| q_head := head; q_tail := tail; q_count := count; q_notify := q_notify q |}.

(** One statement between lock and unlock.  A dangling pointer is a fault ([None]). *)
Definition stmt (p : pc) (h : heap) (q : urb_queue) : option (pc * heap * urb_queue) :=
  match p with
  | Push_next e => h ← set_next h e NULL; Some (Push_link e, h, q)
  | Push_link e =>
      match q_tail q with
      | Some tail => h ← set_next h tail (Some e); Some (Push_tail e, h, q)
      | NULL => Some (Push_tail e, h, set_links q (Some e) (q_tail q) (q_count q))
      end
  | Push_tail e => Some (Push_count e, h, set_links q (q_head q) (Some e) (q_count q))
  | Push_count e => Some (Push_unlock e, h, set_links q (q_head q) (q_tail q) (q_count q + 1))
  | Pop_head =>
      match q_head q with
      | NULL => Some (Take_unlock NULL, h, q)
      | Some e => Some (Pop_advance e, h, q)
      end
  | Pop_advance e =>
      nd ← h !! e; Some (Pop_tail e, h, set_links q (nd_next nd) (q_tail q) (q_count q))
  | Pop_tail e =>
      let tail := match q_head q with NULL => NULL | Some _ => q_tail q end in
      Some (Take_count e, h, set_links q (q_head q) tail (q_count q))
  | Find_head n => Some (Find_loop n NULL (q_head q), h, q)
  | Find_loop n prev entry =>
      match entry with
      | NULL => Some (Take_unlock NULL, h, q)
      | Some e =>
          nd ← h !! e;
          if ent_seqnum (nd_entry nd) =? n then Some (Find_unlink prev e, h, q)
          else Some (Find_loop n entry (nd_next nd), h, q)
      end
  | Find_unlink prev e =>
      nd ← h !! e;
      match prev with
      | NULL => Some (Find_tail prev e, h, set_links q (nd_next nd) (q_tail q) (q_count q))
      | Some p => h ← set_next h p (nd_next nd); Some (Find_tail prev e, h, q)
      end
  | Find_tail prev e =>
      let tail := if bool_decide (Some e = q_tail q) then prev else q_tail q in
      Some (Take_count e, h, set_links q (q_head q) tail (q_count q))
  | Take_count e => Some (Take_next e, h, set_links q (q_head q) (q_tail q) (q_count q - 1))
  | Take_next e => h ← set_next h e NULL; Some (Take_unlock (Some e), h, q)
  | _ => None
  end.

(** The statement after [mutex_lock]. *)
Definition after_lock (p : pc) : option pc :=
  match p with
  | Push_lock e => Some (Push_next e)
  | Pop_lock => Some Pop_head
  | Find_lock n => Some (Find_head n)
  | _ => None
  end.

(** The statement after [mutex_unlock]. *)
Definition after_unlock (p : pc) : option pc :=
  match p with
  | Push_unlock _ => Some Push_signal
  | Take_unlock r => Some (Take_return r)
  | _ => None
  end.

(** Whether the thread that is at [p] has the mutex. *)
Definition in_section (p : pc) : bool :=
  match p with
  | Push_lock _ | Pop_lock | Find_lock _ | Push_signal | Take_return _ => false
  | _ => true
  end.

(** ** Threads *)

Inductive thread_state :=
  | Idle                     (* outside these functions *)
  | Running (c : call) (p : pc)
  | Parked.                  (* in [event_wait_timeout(&pending.notify, 100)] *)

(** A call as it took effect: what was pushed or asked for, and the entry returned. *)
Inductive effect :=
  | E_push (e : urb_entry)
  | E_pop (r : ptr urb_entry)
  | E_find_remove (seqnum : Z) (r : ptr urb_entry).

(** [q_owned]: for the nodes that are not in the queue, the thread that has the pointer.
    [q_log]: the calls so far, each entered when it unlocks the mutex. *)
Record qstate := {
  q_heap : heap;
  q_queue : urb_queue;
  q_mutex : mutex;
  q_event : bool;
  q_threads : gmap Z thread_state;
  q_owned : gmap Z Z;
  q_log : list (Z * effect);
}.

Definition with_thread (s : qstate) (t : Z) (st : thread_state) : qstate := {|
  q_heap := q_heap s; q_queue := q_queue s; q_mutex := q_mutex s; q_event := q_event s;
  q_threads := <[t := st]> (q_threads s); q_owned := q_owned s; q_log := q_log s |}.

Definition with_memory (s : qstate) (h : heap) (q : urb_queue) : qstate := {|
  q_heap := h; q_queue := q; q_mutex := q_mutex s; q_event := q_event s;
  q_threads := q_threads s; q_owned := q_owned s; q_log := q_log s |}.

Definition with_mutex (s : qstate) (m : mutex) : qstate := {|
  q_heap := q_heap s; q_queue := q_queue s; q_mutex := m; q_event := q_event s;
  q_threads := q_threads s; q_owned := q_owned s; q_log := q_log s |}.

Definition with_event (s : qstate) (e : bool) : qstate := {|
  q_heap := q_heap s; q_queue := q_queue s; q_mutex := q_mutex s; q_event := e;
  q_threads := q_threads s; q_owned := q_owned s; q_log := q_log s |}.

Definition with_owned (s : qstate) (o : gmap Z Z) : qstate := {|
  q_heap := q_heap s; q_queue := q_queue s; q_mutex := q_mutex s; q_event := q_event s;
  q_threads := q_threads s; q_owned := o; q_log := q_log s |}.

Definition with_log (s : qstate) (l : list (Z * effect)) : qstate := {|
  q_heap := q_heap s; q_queue := q_queue s; q_mutex := q_mutex s; q_event := q_event s;
  q_threads := q_threads s; q_owned := q_owned s; q_log := l |}.

(** What the call [c] did, when it is about to unlock at [p]. *)
Definition effect_of (h : heap) (c : call) (p : pc) : option effect :=
  match c, p with
  | Push _, Push_unlock e => nd ← h !! e; Some (E_push (nd_entry nd))
  | Pop, Take_unlock r => Some (E_pop (e ← r; nd_entry <$> h !! e))
  | Find_remove n, Take_unlock r => Some (E_find_remove n (e ← r; nd_entry <$> h !! e))
  | _, _ => None
  end.

(** The pointer to a pushed node passes to the queue, that of a removed one to the thread. *)
Definition pass_pointer (t : Z) (p : pc) (owned : gmap Z Z) : gmap Z Z :=
  match p with
  | Push_unlock e => delete e owned
  | Take_unlock (Some e) => <[e := t]> owned
  | _ => owned
  end.

Section threads.
(** The worker is the only thread that waits on the event of its queue. *)
Context (worker : Z).

Inductive qstep : qstate -> qstate -> Prop :=
  (* calls of the functions; a pushed entry is the caller's *)
  | qs_call s t c :
      q_threads s !! t = Some Idle ->
      (forall e, c = Push e -> q_owned s !! e = Some t) ->
      qstep s (with_thread s t (Running c (first_pc c)))
  | qs_lock s t c p p' m :
      q_threads s !! t = Some (Running c p) -> after_lock p = Some p' ->
      mutex_lock t (q_mutex s) = Some m ->
      qstep s (with_thread (with_mutex s m) t (Running c p'))
  | qs_stmt s t c p p' h q :
      q_threads s !! t = Some (Running c p) -> in_section p = true ->
      stmt p (q_heap s) (q_queue s) = Some (p', h, q) ->
      qstep s (with_thread (with_memory s h q) t (Running c p'))
  | qs_unlock s t c p p' f :
      q_threads s !! t = Some (Running c p) -> after_unlock p = Some p' ->
      effect_of (q_heap s) c p = Some f ->
      qstep s (with_thread (with_log (with_owned (with_mutex s
        (mutex_unlock t (q_mutex s))) (pass_pointer t p (q_owned s)))
        (q_log s ++ [(t, f)])) t (Running c p'))
  | qs_signal s t c :
      q_threads s !! t = Some (Running c Push_signal) ->
      qstep s (with_thread (with_event s (event_signal (q_event s))) t Idle)
  | qs_return s t c r :
      q_threads s !! t = Some (Running c (Take_return r)) ->
      ~ (t = worker /\ c = Pop /\ r = NULL) ->
      qstep s (with_thread s t Idle)
  (* the worker that has found nothing waits, and pops again afterwards *)
  | qs_park s :
      q_threads s !! worker = Some (Running Pop (Take_return NULL)) ->
      qstep s (with_thread s worker Parked)
  | qs_wake s e :
      q_threads s !! worker = Some Parked -> event_wait (q_event s) = Some e ->
      qstep s (with_thread (with_event s e) worker Idle)
  | qs_timeout s :
      q_threads s !! worker = Some Parked -> q_event s = false ->
      qstep s (with_thread s worker Idle)
  (* what the threads do with the nodes they own *)
  | qs_alloc s t n nd :
      q_threads s !! t = Some Idle -> q_heap s !! n = None ->
      qstep s (with_owned (with_memory s (<[n := nd]> (q_heap s)) (q_queue s))
                 (<[n := t]> (q_owned s)))
  | qs_write s t n nd :
      q_threads s !! t = Some Idle -> q_owned s !! n = Some t ->
      qstep s (with_memory s (<[n := nd]> (q_heap s)) (q_queue s))
  | qs_free s t n :
      q_threads s !! t = Some Idle -> q_owned s !! n = Some t ->
      qstep s (with_owned (with_memory s (delete n (q_heap s)) (q_queue s))
                 (delete n (q_owned s))).

(** After [queue_init], with the threads [ts]. *)
Definition qstate_initial (ts : gset Z) : qstate := {|
  q_heap := ∅; q_queue := queue_zero; q_mutex := {| mx_owner := None; mx_depth := 0 |};
  q_event := false; q_threads := gset_to_gmap Idle ts; q_owned := ∅; q_log := [] |}.

Definition qreachable (ts : gset Z) (s : qstate) : Prop := rtc qstep (qstate_initial ts) s.
End threads.

(** ** The specification: the calls of the log, one after the other, on a list *)

Definition effect_result (f : effect) : ptr urb_entry :=
  match f with E_push _ => NULL | E_pop r => r | E_find_remove _ r => r end.

Definition run_effect (q : fifo) (f : effect) : ptr urb_entry * fifo :=
  match f with
  | E_push e => (NULL, fifo_push q e)
  | E_pop _ => fifo_pop q
  | E_find_remove n _ => fifo_find_remove q n
  end.

(** The results of the calls [fs], and the list they leave. *)
Fixpoint replay (q : fifo) (fs : list effect) : list (ptr urb_entry) * fifo :=
  match fs with
  | [] => ([], q)
  | f :: fs =>
      let '(r, q) := run_effect q f in
      let '(rs, q) := replay q fs in (r :: rs, q)
  end.

(** The linked queue holds the entries of [f]; the event is not the queue's business here. *)
Definition holds (h : heap) (q : urb_queue) (ls : list Z) (f : fifo) : Prop :=
  fifo_rep h {| q_head := q_head q; q_tail := q_tail q; q_count := q_count q;
                q_notify := f_notify f |} ls f.

(** ** A statement uses only the nodes it is given *)

(** [h'] is [h] with the part [g] turned into [g']. *)
Definition covers (g g' h h' : heap) : Prop :=
  g' ⊆ h' /\ dom g' = dom g /\ (forall n, is_Some (h' !! n) <-> is_Some (h !! n)) /\
  (forall n, n ∉ dom g -> h' !! n = h !! n).

Lemma set_next_local g h x p g' :
  g ⊆ h -> set_next g x p = Some g' -> exists h', set_next h x p = Some h' /\ covers g g' h h'.
Proof.
  intros Hs. unfold set_next. destruct (g !! x) as [nd|] eqn:Ex; [|done]. simpl. intros [= <-].
  rewrite (lookup_weaken _ _ _ _ Ex Hs). simpl. eexists. split; [done|]. split_and!.
  - by apply insert_mono.
  - rewrite dom_insert_lookup_L; eauto.
  - intros n. destruct (decide (n = x)) as [->|].
    + rewrite lookup_insert_eq, (lookup_weaken _ _ _ _ Ex Hs). split; eauto.
    + by rewrite lookup_insert_ne.
  - intros n Hn. rewrite lookup_insert_ne; [done|]. intros ->. apply Hn. by eapply elem_of_dom_2.
Qed.

Lemma covers_refl g h : g ⊆ h -> covers g g h h.
Proof. done. Qed.
#[local] Hint Resolve covers_refl : core.

Lemma stmt_local p g q p' g' q' h :
  stmt p g q = Some (p', g', q') -> g ⊆ h ->
  exists h', stmt p h q = Some (p', h', q') /\ covers g g' h h'.
Proof.
  intros E Hs.
  assert (forall x nd, g !! x = Some nd -> h !! x = Some nd) as Hl.
  { intros x nd Hx. by eapply lookup_weaken. }
  assert (forall x r k, (g ← set_next g x r; Some (k g)) = Some (p', g', q') ->
    (forall g, (k g).1.2 = g) -> (forall g h, (k g).1.1 = (k h).1.1 /\ (k g).2 = (k h).2) ->
    exists h', (h ← set_next h x r; Some (k h)) = Some (p', h', q') /\ covers g g' h h') as Hset.
  { intros x r k E1 Hk Hk'. destruct (set_next g x r) as [g1|] eqn:E2; simplify_eq/=.
    destruct (set_next_local _ _ _ _ _ Hs E2) as (h1 & -> & Hc). exists h1. simpl.
    specialize (Hk' g1 h1). pose proof (Hk g1). pose proof (Hk h1).
    destruct (k g1) as [[??]?], (k h1) as [[??]?]. simplify_eq/=. by destruct Hk' as [<- <-]. }
  destruct p; simpl in E |- *; try discriminate;
    try (simplify_eq; by eexists; split; [done|]).
  - by apply (Hset _ _ (fun h => (Push_link entry, h, q))).
  - destruct (q_tail q); [|simplify_eq; eauto].
    by apply (Hset _ _ (fun h => (Push_tail entry, h, q))).
  - destruct (q_head q); simplify_eq; eauto.
  - destruct (g !! entry) as [nd|] eqn:Ex; simplify_eq/=. rewrite (Hl _ _ Ex). eauto.
  - destruct entry as [e|]; [|simplify_eq; eauto].
    destruct (g !! e) as [nd|] eqn:Ex; simplify_eq/=. rewrite (Hl _ _ Ex). simpl.
    destruct (_ =? _); simplify_eq; eauto.
  - destruct (g !! entry) as [nd|] eqn:Ex; simplify_eq/=. rewrite (Hl _ _ Ex). simpl.
    destruct prev; [|simplify_eq; eauto].
    by apply (Hset _ _ (fun h => (Find_tail (Some z) entry, h, q))).
  - by apply (Hset _ _ (fun h => (Take_unlock (Some entry), h, q))).
Qed.

(** The rest of a critical section without interruption, up to its unlock. *)
Fixpoint finish (fuel : nat) (p : pc) (h : heap) (q : urb_queue) : option (pc * heap * urb_queue) :=
  match after_unlock p with
  | Some _ => Some (p, h, q)
  | None =>
      match fuel with
      | O => None
      | S fuel => '(p, h, q) ← stmt p h q; finish fuel p h q
      end
  end.

(** [finish] of the queue with the links of [q1]. *)
Definition links_of (q q1 : urb_queue) : urb_queue :=
  set_links q (q_head q1) (q_tail q1) (q_count q1).

(** Two queues with the same links. *)
Definition same_links (q q0 : urb_queue) : Prop :=
  q_head q = q_head q0 /\ q_tail q = q_tail q0 /\ q_count q = q_count q0.

Ltac same_links q q0 :=
  let n := fresh "n" in let n0 := fresh "n" in
  destruct q as [? ? ? n], q0 as [hd tl cnt n0]; unfold same_links, links_of, set_links in *;
  simpl in *; intros (-> & -> & ->).

Lemma finish_push q h q0 e h1 q1 :
  same_links q q0 -> queue_push h q0 e = Some (h1, q1) ->
  finish 4 (Push_next e) h q = Some (Push_unlock e, h1, links_of q q1).
Proof.
  unfold queue_push. same_links q q0.
  destruct (set_next h e NULL) as [g|]; [|done]. simpl. destruct tl; simpl.
  - destruct (set_next g _ _); [|done]. simpl. intros. by simplify_eq/=.
  - intros. by simplify_eq/=.
Qed.

Lemma finish_pop q h q0 r h1 q1 :
  same_links q q0 -> queue_pop h q0 = Some (r, h1, q1) ->
  finish 5 Pop_head h q = Some (Take_unlock r, h1, links_of q q1).
Proof.
  unfold queue_pop. same_links q q0. destruct hd as [e|]; simpl.
  - destruct (h !! e); [|done]. simpl.
    destruct (set_next h e NULL); [|done]. simpl. intros. by simplify_eq/=.
  - intros. by simplify_eq/=.
Qed.

Lemma finish_find fuel q h q0 n prev entry r h1 q1 :
  same_links q q0 -> find_remove_loop fuel h q0 n prev entry = Some (r, h1, q1) ->
  finish (fuel + 4) (Find_loop n prev entry) h q = Some (Take_unlock r, h1, links_of q q1).
Proof.
  same_links q q0. revert prev entry.
  induction fuel as [|fuel IH]; intros prev entry; [done|]. simpl.
  destruct entry as [e|]; simpl.
  - destruct (h !! e) as [nd|] eqn:Ee; [|done]. simpl.
    destruct (_ =? n); [|by apply IH].
    replace (fuel + 4)%nat with (4 + fuel)%nat by lia. simpl. rewrite Ee. simpl.
    destruct prev as [p|]; simpl.
    + destruct (set_next h p _) as [g|]; [|done]. simpl.
      destruct (set_next g e NULL); [|done]. simpl. destruct fuel; intros; by simplify_eq/=.
    + destruct (set_next h e NULL); [|done]. simpl.
      destruct fuel; intros; by simplify_eq/=.
  - intros. simplify_eq/=. destruct (fuel + 4)%nat; done.
Qed.

(** ** Lists held by a part of the memory *)

Lemma holds_ext g h q ls f :
  (forall x, x ∈ ls -> g !! x = h !! x) -> holds h q ls f -> holds g q ls f.
Proof. apply fifo_rep_ext. Qed.

Lemma holds_nodes h q ls f x : holds h q ls f -> x ∈ ls -> is_Some (h !! x).
Proof. intros ([Hc _ _ _] & _) Hx. destruct (chain_nodes _ _ _ _ Hc Hx). eauto. Qed.

Lemma holds_empty h q ls f : holds h q ls f -> f_entries f = [] -> ls = [].
Proof.
  intros ([Hc _ _ _] & Hl & _) E. rewrite E in Hl. apply (f_equal length) in Hl.
  rewrite (contents_length _ _ _ Hc) in Hl. by destruct ls.
Qed.

Lemma holds_links h q q1 ls f : fifo_rep h q1 ls f -> holds h (links_of q q1) ls f.
Proof.
  intros ([] & ? & ? & Hn). unfold holds, links_of. simpl. split_and!; [|done..]. by split.
Qed.

(** The part of the memory with the nodes [ls]. *)
Definition part (ls : list Z) (h : heap) : heap := filter (fun kv => kv.1 ∈ ls) h.

Lemma part_subseteq ls h : part ls h ⊆ h.
Proof. apply map_filter_subseteq. Qed.

Lemma part_lookup ls h x : x ∈ ls -> part ls h !! x = h !! x.
Proof.
  intros Hx. unfold part. destruct (h !! x) as [nd|] eqn:E.
  - by apply map_lookup_filter_Some.
  - apply map_lookup_filter_None. by left.
Qed.

Lemma part_dom ls h x : x ∈ dom (part ls h) -> x ∈ ls.
Proof.
  intros [nd Hx]%elem_of_dom. unfold part in Hx. by apply map_lookup_filter_Some in Hx as [_ ?].
Qed.

Lemma frame_entry ls g g1 x : frame ls g g1 -> nd_entry <$> g1 !! x = nd_entry <$> g !! x.
Proof. intros (_ & E & _). apply E. Qed.

(** ** The invariant *)

(** The list [f] is in the queue, whose nodes nobody owns. *)
Definition queue_ok (h : heap) (q : urb_queue) (owned : gmap Z Z) (f : fifo) : Prop :=
  exists ls, holds h q ls f /\ forall x, x ∈ ls -> owned !! x = None.

(** The thread [t] is at [p] in a section that was entered with the list [f] in the
    queue: on nodes [g] that no other thread may touch, the rest of the section ends with
    what the list operation does. *)
Definition section_ok (h : heap) (q : urb_queue) (owned : gmap Z Z) (f : fifo)
    (t : Z) (c : call) (p : pc) : Prop :=
  exists g fuel p1 g1 q1 eff f1,
    g ⊆ h /\ (forall x, x ∈ dom g -> owned !! x = None \/ owned !! x = Some t) /\
    finish fuel p g q = Some (p1, g1, q1) /\ dom g1 = dom g /\
    effect_of g1 c p1 = Some eff /\ run_effect f eff = (effect_result eff, f1) /\
    queue_ok g1 q1 (pass_pointer t p1 owned) f1 /\
    (forall x, p1 = Take_unlock (Some x) -> x ∈ dom g).

Lemma queue_ok_same_links h q ls f :
  holds h q ls f ->
  exists q0, fifo_rep h q0 ls f /\ same_links q q0.
Proof. intros H. eexists. split; [exact H|]. by unfold same_links. Qed.

(** Entering a section with the list [f] in the queue. *)
Lemma section_start h q owned f t c p :
  queue_ok h q owned f -> after_lock (first_pc c) = Some p ->
  (forall e, c = Push e -> owned !! e = Some t /\ is_Some (h !! e)) ->
  section_ok h q owned f t c p.
Proof.
  intros (ls & Hh & Ho) Hp He.
  set (ns := match c with Push e => ls ++ [e] | _ => ls end).
  assert (forall x, x ∈ ls -> x ∈ ns) as Hns. { intros x Hx. subst ns. destruct c; set_solver. }
  assert (holds (part ns h) q ls f) as Hg.
  { eapply holds_ext; [|done]. intros x Hx. apply part_lookup. by apply Hns. }
  destruct (queue_ok_same_links _ _ _ _ Hg) as (q0 & Hr & Hq).
  assert (forall x, x ∈ dom (part ns h) -> owned !! x = None \/ owned !! x = Some t) as Hown.
  { intros x Hx%part_dom. subst ns. destruct c; [|auto..].
    apply elem_of_app in Hx as [Hx|Hx%list_elem_of_singleton]; [auto|subst].
    right. by apply He. }
  destruct c as [e| |n]; simpl in Hp; simplify_eq.
  - destruct (He e eq_refl) as [Hoe [nx Hx]].
    assert (e ∉ ls) as Hne. { intros Hin. apply Ho in Hin. congruence. }
    assert (part ns h !! e = Some nx) as Hx' by (rewrite part_lookup; [done|subst ns; set_solver]).
    destruct (fifo_push_rep _ _ _ _ _ _ Hr Hne Hx') as (g1 & q1 & E & Hr1 & F).
    assert (nd_entry <$> g1 !! e = Some (nd_entry nx)) as Hx1.
    { by rewrite (frame_entry _ _ _ _ F), Hx'. }
    destruct (g1 !! e) as [n1|] eqn:E1; simplify_eq/=.
    exists (part ns h), 4%nat, (Push_unlock e), g1, (links_of q q1), (E_push (nd_entry nx)), (fifo_push f (nd_entry nx)).
    split_and!; [apply part_subseteq|done|by eapply finish_push|by destruct F| |done| |done].
    + simpl. rewrite E1. simpl. congruence.
    + exists (ls ++ [e]). split; [by apply holds_links|]. intros x Hx1'. simpl.
      apply elem_of_app in Hx1' as [Hx1'|Hx1'%list_elem_of_singleton].
      * rewrite lookup_delete_ne by congruence. auto.
      * subst. apply lookup_delete_eq.
  - destruct (fifo_pop_rep _ _ _ _ Hr) as (g1 & q1 & E & Hr1 & Hres & F).
    destruct (fifo_pop f) as [r f1] eqn:Ef. simpl in *.
    exists (part ns h), 5%nat, (Take_unlock (head ls)), g1, (links_of q q1), (E_pop r), f1.
    split_and!; [apply part_subseteq|done|by eapply finish_pop|by destruct F| |by (simpl; rewrite Ef)| |].
    + simpl. do 2 f_equal. rewrite <- Hres. destruct (head ls); [|done]. simpl.
      by rewrite (frame_entry _ _ _ _ F).
    + exists (tail ls). split; [by apply holds_links|]. intros x Hx. simpl.
      destruct Hr as ([_ Hn _ _] & _). destruct ls as [|y ls]; [by apply not_elem_of_nil in Hx|]. simpl in *.
      apply NoDup_cons in Hn as [Hy _]. rewrite lookup_insert_ne by congruence. apply Ho. by right.
    + intros x [= Hx]. apply elem_of_dom. eapply holds_nodes; [exact Hg|].
      destruct ls; simplify_eq/=. by left.
  - destruct (fifo_find_remove_rep _ _ _ _ n Hr) as (x & g1 & q1 & E & Hr1 & Hres & F).
    destruct Hr as (Hr & _). pose proof Hr as [_ Hn _ _].
    destruct (queue_find_remove_spec _ _ n _ Hr) as (x' & ? & ? & E' & -> & _).
    rewrite E in E'. injection E' as -> _ _.
    destruct (fifo_find_remove f n) as [r f1] eqn:Ef. simpl in *.
    exists (part ns h), (S (S (size (part ns h)) + 4))%nat,
      (Take_unlock (find_first (has_seqnum (part ns h) n) ls)), g1, (links_of q q1),
      (E_find_remove n r), f1.
    split_and!; [apply part_subseteq|done| |by destruct F| |by (simpl; rewrite Ef)| |].
    + simpl. eapply (finish_find (S (size (part ns h)))); [done|].
      unfold queue_find_remove in E. by replace (q_head q) with (q_head q0) by (by destruct Hq).
    + simpl. do 2 f_equal. rewrite <- Hres. destruct (find_first _ _); [|done]. simpl.
      by rewrite (frame_entry _ _ _ _ F).
    + eexists. split; [by apply holds_links|]. intros x Hx. simpl.
      pose proof (elem_of_remove_first _ _ _ Hx) as Hx'.
      destruct (find_first _ ls) as [y|] eqn:Ey; [|auto].
      destruct (find_first_removed _ _ _ Hn Ey) as [_ Hy].
      rewrite lookup_insert_ne by congruence. auto.
    + intros x [= Hx]. apply elem_of_dom. eapply holds_nodes; [exact Hg|].
      by destruct (find_first_removed _ _ _ Hn Hx).
Qed.

(** The list after the calls of the log. *)
Definition q_list (s : qstate) : fifo := (replay fifo_empty (q_log s).*2).2.

Record qinv (s : qstate) : Prop := {
  qi_log : (replay fifo_empty (q_log s).*2).1 = effect_result <$> (q_log s).*2;
  qi_owned : forall n t, q_owned s !! n = Some t -> is_Some (q_heap s !! n);
  qi_waiting : forall t c p, q_threads s !! t = Some (Running c p) -> is_Some (after_lock p) ->
    p = first_pc c /\ forall e, c = Push e -> q_owned s !! e = Some t;
  qi_mutex : q_mutex s = match mx_owner (q_mutex s) with
    | None => {| mx_owner := None; mx_depth := 0 |}
    | Some t => {| mx_owner := Some t; mx_depth := 1 |}
    end;
  qi_only : forall t c p, q_threads s !! t = Some (Running c p) -> in_section p = true ->
    mx_owner (q_mutex s) = Some t;
  qi_memory : match mx_owner (q_mutex s) with
    | None => queue_ok (q_heap s) (q_queue s) (q_owned s) (q_list s)
    | Some t => exists c p, q_threads s !! t = Some (Running c p) /\ in_section p = true /\
        section_ok (q_heap s) (q_queue s) (q_owned s) (q_list s) t c p
    end;
}.

Lemma replay_snoc q fs f :
  replay q (fs ++ [f]) =
  (let '(rs, q1) := replay q fs in let '(r, q2) := run_effect q1 f in (rs ++ [r], q2)).
Proof.
  revert q. induction fs as [|g fs IH]; intros q; simpl; [by destruct (run_effect q f)|].
  destruct (run_effect q g) as [r q1]. rewrite IH. destruct (replay q1 fs) as [rs q2].
  by destruct (run_effect q2 f).
Qed.

(** The memory of the queue and of the threads inside a call is left alone. *)
Definition untouched (s : qstate) (h : heap) (owned : gmap Z Z) : Prop :=
  forall n, is_Some (q_heap s !! n) ->
  (forall t, q_owned s !! n = Some t -> q_threads s !! t <> Some Idle) ->
  h !! n = q_heap s !! n /\ owned !! n = q_owned s !! n.

Lemma queue_ok_ext h owned h' owned' q f :
  (forall n, is_Some (h !! n) -> owned !! n = None -> h' !! n = h !! n /\ owned' !! n = owned !! n) ->
  queue_ok h q owned f -> queue_ok h' q owned' f.
Proof.
  intros He (ls & Hh & Ho). exists ls. split.
  - eapply holds_ext; [|done]. intros x Hx. apply He; [by eapply holds_nodes|auto].
  - intros x Hx. rewrite <- (Ho x Hx). apply He; [by eapply holds_nodes|auto].
Qed.

Lemma pass_pointer_ext t p owned owned' x :
  owned' !! x = owned !! x -> pass_pointer t p owned' !! x = pass_pointer t p owned !! x.
Proof.
  intros E. destruct p as [| | | | |e| | | | | | | | | | | | |[e|]|]; simpl; try done;
    destruct (decide (x = e)) as [->|];
    by rewrite ?lookup_insert_eq, ?lookup_delete_eq, ?lookup_insert_ne, ?lookup_delete_ne by done.
Qed.

Lemma section_ok_ext h owned h' owned' q f t c p :
  (forall n, is_Some (h !! n) -> owned !! n = None \/ owned !! n = Some t ->
     h' !! n = h !! n /\ owned' !! n = owned !! n) ->
  section_ok h q owned f t c p -> section_ok h' q owned' f t c p.
Proof.
  intros He (g & fuel & p1 & g1 & q1 & eff & f1 & Hs & Ho & Hf & Hd & Heff & Hr & Hq & Hres).
  assert (forall x, x ∈ dom g -> h' !! x = h !! x /\ owned' !! x = owned !! x) as Hg.
  { intros x Hx. apply He; [|auto]. apply elem_of_dom in Hx as [nd Hx].
    exists nd. by eapply lookup_weaken. }
  exists g, fuel, p1, g1, q1, eff, f1. split_and!; try done.
  - apply map_subseteq_spec. intros x nd Hx. destruct (Hg x) as [-> _]; [by eapply elem_of_dom_2|].
    by eapply lookup_weaken.
  - intros x Hx. destruct (Hg x Hx) as [_ ->]. auto.
  - eapply queue_ok_ext; [|exact Hq]. intros x Hx1 _. split; [done|].
    apply pass_pointer_ext, Hg. rewrite <- Hd. by apply elem_of_dom.
Qed.

Lemma qinv_env s h owned :
  qinv s -> untouched s h owned ->
  (forall n t, owned !! n = Some t -> is_Some (h !! n)) ->
  qinv (with_owned (with_memory s h (q_queue s)) owned).
Proof.
  intros [Hl Ho Hw Hm Hon Hmem] Hu Ho'. split; simpl; try done.
  - intros t c p Ht Hp. destruct (Hw _ _ _ Ht Hp) as [-> He]. split; [done|].
    intros e ->. pose proof (He e eq_refl) as Hoe. rewrite <- Hoe. apply Hu; [eauto|].
    intros t' Ht' Hi. congruence.
  - destruct (mx_owner (q_mutex s)) as [t|].
    + destruct Hmem as (c & p & Ht & Hp & Hs). exists c, p. split_and!; [done..|].
      eapply section_ok_ext; [|exact Hs]. intros n Hn Hno. apply Hu; [done|].
      intros t' Ht' Hi. destruct Hno; congruence.
    + eapply queue_ok_ext; [|exact Hmem]. intros n Hn Hno. apply Hu; [done|]. congruence.
Qed.

(** A thread goes from one state outside the sections to another. *)
Lemma qinv_thread s t st e :
  qinv s ->
  (forall c p, q_threads s !! t = Some (Running c p) -> in_section p = false) ->
  (forall c p, st = Running c p -> in_section p = false /\ (is_Some (after_lock p) ->
     p = first_pc c /\ forall e, c = Push e -> q_owned s !! e = Some t)) ->
  qinv (with_thread (with_event s e) t st).
Proof.
  intros [Hl Ho Hw Hm Hon Hmem] Hold Hnew. split; simpl; try done.
  - intros t' c p. destruct (decide (t' = t)) as [->|].
    + rewrite lookup_insert_eq. intros [= ->]. by apply Hnew.
    + rewrite lookup_insert_ne by done. auto.
  - intros t' c p. destruct (decide (t' = t)) as [->|].
    + rewrite lookup_insert_eq. intros [= ->] Hp. destruct (Hnew _ _ eq_refl). congruence.
    + rewrite lookup_insert_ne by done. apply Hon.
  - destruct (mx_owner (q_mutex s)) as [o|]; [|done].
    destruct Hmem as (c & p & Ht & Hp & Hs). exists c, p. split; [|done].
    rewrite lookup_insert_ne; [done|]. intros <-. by rewrite (Hold _ _ Ht) in Hp.
Qed.

Lemma with_event_same s : with_event s (q_event s) = s.
Proof. by destruct s. Qed.

Lemma qinv_thread_only s t st :
  qinv s ->
  (forall c p, q_threads s !! t = Some (Running c p) -> in_section p = false) ->
  (forall c p, st = Running c p -> in_section p = false /\ (is_Some (after_lock p) ->
     p = first_pc c /\ forall e, c = Push e -> q_owned s !! e = Some t)) ->
  qinv (with_thread s t st).
Proof.
  intros Hi Ho Hn. pose proof (qinv_thread s t st (q_event s) Hi Ho Hn) as H.
  by rewrite with_event_same in H.
Qed.

Lemma finish_stmt fuel p h q r :
  after_unlock p = None -> finish fuel p h q = Some r ->
  exists fuel' p' h' q', stmt p h q = Some (p', h', q') /\ finish fuel' p' h' q' = Some r.
Proof.
  intros Hp. destruct fuel as [|fuel]; cbn [finish]; rewrite Hp; [discriminate|].
  destruct (stmt p h q) as [[[p' h'] q']|] eqn:E; [|done]. simpl. eauto 10.
Qed.

Lemma stmt_in_section p h q p' h' q' : stmt p h q = Some (p', h', q') -> in_section p' = true.
Proof.
  destruct p; simpl; try discriminate; intros E;
    repeat (simplify_option_eq; try case_match); done.
Qed.

Lemma in_section_waiting p : in_section p = true -> after_lock p = None.
Proof. by destruct p. Qed.

(** Inside a section, before its end, the next statement can be executed. *)
Lemma section_step h q owned f t c p :
  section_ok h q owned f t c p -> after_unlock p = None ->
  exists p' h' q', stmt p h q = Some (p', h', q') /\ section_ok h' q' owned f t c p' /\
    (forall n, is_Some (h' !! n) <-> is_Some (h !! n)).
Proof.
  intros (g & fuel & p1 & g1 & q1 & eff & f1 & Hs & Ho & Hf & Hd & Hrest) Hp.
  destruct (finish_stmt _ _ _ _ _ Hp Hf) as (fuel' & p' & g' & q' & E & Hf').
  destruct (stmt_local _ _ _ _ _ _ _ E Hs) as (h' & E' & Hsub & Hdom & Hdom' & Hout).
  exists p', h', q'. split_and!; [done| |done].
  exists g', fuel', p1, g1, q1, eff, f1. rewrite Hdom. destruct Hrest as (? & ? & ? & ?). by split_and!.
Qed.

(** At its end the list operation has been done. *)
Lemma section_end h q owned f t c p p' :
  section_ok h q owned f t c p -> after_unlock p = Some p' ->
  exists eff f1, effect_of h c p = Some eff /\ run_effect f eff = (effect_result eff, f1) /\
    queue_ok h q (pass_pointer t p owned) f1 /\
    (forall x, p = Take_unlock (Some x) -> is_Some (h !! x)) /\
    (forall x o, owned !! x = Some o -> o <> t -> pass_pointer t p owned !! x = Some o).
Proof.
  intros (g & fuel & p1 & g1 & q1 & eff & f1 & Hs & Ho & Hf & Hd & Heff & Hr & Hq & Hres) Hp.
  assert (finish fuel p g q = Some (p, g, q)) as E by (destruct fuel; cbn [finish]; by rewrite Hp).
  rewrite E in Hf. injection Hf as <- <- <-.
  assert (forall x, is_Some (g !! x) -> h !! x = g !! x) as Hg.
  { intros x [nd Hx]. rewrite Hx. by eapply lookup_weaken. }
  assert (forall x, p = Take_unlock (Some x) -> h !! x = g !! x) as Hx.
  { intros x Hx. apply Hg, elem_of_dom. by apply Hres. }
  exists eff, f1. split_and!; [|done| | |].
  - rewrite <- Heff. destruct c, p; simpl in *; try done.
    + destruct (g !! entry0) as [nd|] eqn:En; [|done]. by rewrite Hg, En by (rewrite En; eauto).
    + destruct result; simpl; [by rewrite Hx|done].
    + destruct result; simpl; [by rewrite Hx|done].
  - eapply queue_ok_ext; [|exact Hq]. intros n Hn _. by rewrite Hg.
  - intros x Hpx. rewrite Hx by done. apply elem_of_dom. by apply Hres.
  - intros x o Hox Hot.
    assert (forall e, e ∈ dom g -> x <> e) as Hne. { intros e He ->. destruct (Ho _ He); congruence. }
    destruct p as [| | | | |e| | | | | | | | | | | | |[e|]|]; simpl; try done.
    + rewrite lookup_delete_ne; [done|]. apply not_eq_sym, Hne.
      destruct c; simpl in Heff; try done.
      destruct (g !! e) eqn:En; [by eapply elem_of_dom_2|done].
    + rewrite lookup_insert_ne; [done|]. apply not_eq_sym, Hne. by apply Hres.
Qed.

Lemma after_unlock_state p p' :
  after_unlock p = Some p' -> in_section p = true /\ in_section p' = false /\ after_lock p' = None.
Proof. destruct p; simpl; intros; by simplify_eq. Qed.

Lemma after_lock_state p p' : after_lock p = Some p' -> in_section p = false /\ in_section p' = true.
Proof. destruct p; simpl; intros; by simplify_eq. Qed.

Lemma q_list_snoc s l t f f1 :
  q_log s = l ++ [(t, f)] -> run_effect (replay fifo_empty l.*2).2 f = (effect_result f, f1) ->
  (replay fifo_empty l.*2).1 = effect_result <$> l.*2 ->
  (replay fifo_empty (q_log s).*2).1 = effect_result <$> (q_log s).*2 /\ q_list s = f1.
Proof.
  intros El Hr Hl. unfold q_list. rewrite El, fmap_app. simpl. rewrite replay_snoc, fmap_app. simpl.
  destruct (replay fifo_empty l.*2) as [rs q1]. simpl in *. rewrite Hr. simpl. by subst.
Qed.

Section proofs.
Context (worker : Z).

Lemma qinv_lock s t c p p' m :
  qinv s -> q_threads s !! t = Some (Running c p) -> after_lock p = Some p' ->
  mutex_lock t (q_mutex s) = Some m ->
  qinv (with_thread (with_mutex s m) t (Running c p')).
Proof.
  intros [Hl Ho Hw Hm Hon Hmem] Ht Hp E. destruct (after_lock_state _ _ Hp) as [Hin Hin'].
  assert (mx_owner (q_mutex s) = None) as Hfree.
  { destruct (mx_owner (q_mutex s)) as [o|] eqn:Eo; [|done].
    pose proof (mutex_lock_owned _ _ _ _ Eo E) as <-.
    destruct Hmem as (c' & q & Ht' & Hq & _). congruence. }
  rewrite mutex_lock_free in E by done. injection E as <-. rewrite Hfree in *.
  destruct (Hw _ _ _ Ht) as [-> He]; [eauto|]. split; simpl; try done.
  - intros t' c' q. destruct (decide (t' = t)) as [->|].
    + rewrite lookup_insert_eq. intros [= <- <-] [? Hq]. by rewrite in_section_waiting in Hq.
    + rewrite lookup_insert_ne by done. auto.
  - intros t' c' q. destruct (decide (t' = t)) as [->|]; [done|].
    rewrite lookup_insert_ne by done. intros Ht' Hq. by specialize (Hon _ _ _ Ht' Hq).
  - exists c, p'. rewrite lookup_insert_eq. split_and!; [done..|].
    apply section_start; [done..|]. intros e ->. eauto.
Qed.

Lemma qinv_stmt s t c p p' h q :
  qinv s -> q_threads s !! t = Some (Running c p) -> in_section p = true ->
  stmt p (q_heap s) (q_queue s) = Some (p', h, q) ->
  qinv (with_thread (with_memory s h q) t (Running c p')).
Proof.
  intros [Hl Ho Hw Hm Hon Hmem] Ht Hp E. pose proof (stmt_in_section _ _ _ _ _ _ E) as Hp'.
  pose proof (Hon _ _ _ Ht Hp) as Eo. rewrite Eo in Hmem, Hm.
  destruct Hmem as (c' & p2 & Ht2 & _ & Hs). rewrite Ht in Ht2. injection Ht2 as <- <-.
  assert (after_unlock p = None) as Hu by (by destruct p).
  destruct (section_step _ _ _ _ _ _ _ Hs Hu) as (p2 & h2 & q2 & E2 & Hs2 & Hdom).
  rewrite E in E2. injection E2 as <- <- <-. split; simpl; rewrite ?Eo; try done.
  - intros n t' Hn. apply Hdom. eauto.
  - intros t' c' p2. destruct (decide (t' = t)) as [->|].
    + rewrite lookup_insert_eq. intros [= <- <-] [? Hq]. by rewrite in_section_waiting in Hq.
    + rewrite lookup_insert_ne by done. auto.
  - intros t' c' p2. destruct (decide (t' = t)) as [->|]; [done|].
    rewrite lookup_insert_ne by done. rewrite <- Eo. apply Hon.
  - exists c, p'. by rewrite lookup_insert_eq.
Qed.

(** The step at which a call takes effect. *)
Lemma unlock_effect s t c p p' f :
  qinv s -> q_threads s !! t = Some (Running c p) -> after_unlock p = Some p' ->
  effect_of (q_heap s) c p = Some f ->
  mx_owner (q_mutex s) = Some t /\ exists f1,
    run_effect (q_list s) f = (effect_result f, f1) /\
    queue_ok (q_heap s) (q_queue s) (pass_pointer t p (q_owned s)) f1 /\
    (forall x, p = Take_unlock (Some x) -> is_Some (q_heap s !! x)) /\
    (forall x o, q_owned s !! x = Some o -> o <> t ->
       pass_pointer t p (q_owned s) !! x = Some o).
Proof.
  intros [Hl Ho Hw Hm Hon Hmem] Ht Hp E. destruct (after_unlock_state _ _ Hp) as (Hin & _ & _).
  pose proof (Hon _ _ _ Ht Hin) as Eo. split; [done|]. rewrite Eo in Hmem.
  destruct Hmem as (c' & p2 & Ht2 & _ & Hs). rewrite Ht in Ht2. injection Ht2 as <- <-.
  destruct (section_end _ _ _ _ _ _ _ _ Hs Hp) as (eff & f1 & E' & ? & ? & ? & ?).
  rewrite E in E'. injection E' as <-. eauto 10.
Qed.

Lemma qinv_unlock s t c p p' f :
  qinv s -> q_threads s !! t = Some (Running c p) -> after_unlock p = Some p' ->
  effect_of (q_heap s) c p = Some f ->
  qinv (with_thread (with_log (with_owned (with_mutex s
    (mutex_unlock t (q_mutex s))) (pass_pointer t p (q_owned s)))
    (q_log s ++ [(t, f)])) t (Running c p')).
Proof.
  intros Hi Ht Hp E. destruct (unlock_effect _ _ _ _ _ _ Hi Ht Hp E) as (Eo & f1 & Hr & Hq & Hx & Hne).
  destruct Hi as [Hl Ho Hw Hm Hon Hmem]. rewrite Eo in Hm, Hmem.
  destruct (after_unlock_state _ _ Hp) as (Hin & Hin' & Hal).
  rewrite Hm, mutex_unlock_last.
  set (s' := with_thread _ _ _).
  destruct (q_list_snoc s' (q_log s) t f f1 eq_refl Hr Hl) as [Hl' Hf1].
  split; [done|..]; try rewrite Hf1; simpl; try done.
  - intros n t' Hn. destruct p as [| | | | |e| | | | | | | | | | | | |[e|]|]; simpl in *; eauto.
    + rewrite lookup_delete_Some in Hn. destruct Hn. eauto.
    + destruct (decide (n = e)) as [->|]; [by apply Hx|].
      rewrite lookup_insert_ne in Hn by done. eauto.
  - intros t' c' p2. destruct (decide (t' = t)) as [->|].
    + rewrite lookup_insert_eq. intros [= <- <-] [? Hq']. congruence.
    + rewrite lookup_insert_ne by done. intros Ht' Hp2.
      destruct (Hw _ _ _ Ht' Hp2) as [-> He]. split; [done|]. intros e ->.
      apply Hne; auto.
  - intros t' c' p2. destruct (decide (t' = t)) as [->|].
    + rewrite lookup_insert_eq. intros [= <- <-]. congruence.
    + rewrite lookup_insert_ne by done. intros Ht' Hp2. specialize (Hon _ _ _ Ht' Hp2). congruence.
Qed.

Lemma qinv_step s s' : qinv s -> qstep worker s s' -> qinv s'.
Proof.
  intros Hi Hstep. destruct Hstep as [s t c Ht He|s t c p p' m Ht Hp E|s t c p p' h q Ht Hp E
    |s t c p p' f Ht Hp E|s t c Ht|s t c r Ht _|s Ht|s e Ht _|s Ht _|s t n nd Ht En
    |s t n nd Ht En|s t n Ht En].
  - apply qinv_thread_only; [done|congruence|]. intros c' p [= <- <-]. split; [by destruct c|].
    intros _. by split; [|apply He].
  - by eapply qinv_lock.
  - by eapply qinv_stmt.
  - by eapply qinv_unlock.
  - apply qinv_thread; [done| |done]. intros c' p. rewrite Ht. by intros [= <- <-].
  - apply qinv_thread_only; [done| |done]. intros c' p. rewrite Ht. by intros [= <- <-].
  - apply qinv_thread_only; [done| |done]. intros c' p. rewrite Ht. by intros [= <- <-].
  - apply qinv_thread; [done|congruence|done].
  - apply qinv_thread_only; [done|congruence|done].
  - apply qinv_env; [done| |].
    + intros x Hx Hox. assert (x <> n) by (intros ->; rewrite En in Hx; by destruct Hx).
      by rewrite !lookup_insert_ne.
    + intros x o. destruct (decide (x = n)) as [->|]; [rewrite !lookup_insert_eq; eauto|].
      rewrite !lookup_insert_ne by done. by apply qi_owned.
  - pose proof (qinv_env s (<[n := nd]> (q_heap s)) (q_owned s) Hi) as H. destruct s. apply H.
    + intros x Hx Hox. assert (x <> n) by (intros ->; by eapply Hox).
      by rewrite !lookup_insert_ne.
    + intros x o Hx. apply (qi_owned _ Hi) in Hx. simpl in *.
      destruct (decide (x = n)) as [->|]; [rewrite lookup_insert_eq; eauto|].
      by rewrite lookup_insert_ne.
  - apply qinv_env; [done| |].
    + intros x Hx Hox. assert (x <> n) by (intros ->; by eapply Hox).
      by rewrite !lookup_delete_ne.
    + intros x o. rewrite lookup_delete_Some. intros [Hx Ho].
      rewrite lookup_delete_ne by done. by apply (qi_owned _ Hi) in Ho.
Qed.

Lemma qinv_initial ts : qinv (qstate_initial ts).
Proof.
  split; simpl; try done.
  - intros t c p. rewrite lookup_gset_to_gmap_Some. by intros [_ ?].
  - intros t c p. rewrite lookup_gset_to_gmap_Some. by intros [_ ?].
  - exists []. split; [|by intros ? ?%not_elem_of_nil]. split; [split; [done|constructor|done..]|done].
Qed.

Lemma qreachable_inv ts s : qreachable worker ts s -> qinv s.
Proof.
  intros Hr. unfold qreachable in Hr. pose proof (qinv_initial ts) as Hi. revert Hi.
  induction Hr; [done|]. eauto using qinv_step.
Qed.

(** ** What a call returns *)

Lemma stmt_entries p h q p' h' q' n :
  stmt p h q = Some (p', h', q') -> nd_entry <$> h' !! n = nd_entry <$> h !! n.
Proof.
  assert (forall x r g, set_next h x r = Some g -> nd_entry <$> g !! n = nd_entry <$> h !! n) as Hs.
  { intros x r g E. by destruct (frame_set_next [x] _ _ _ _ (list_elem_of_here _ _) E) as (_ & ? & _). }
  destruct p; simpl; try discriminate; intros E; repeat (simplify_option_eq; try case_match); eauto.
Qed.

Definition call_effect (c : call) (f : effect) : bool :=
  match c, f with
  | Push _, E_push _ | Pop, E_pop _ => true
  | Find_remove n, E_find_remove m _ => n =? m
  | _, _ => false
  end.

(** The effects of the thread [t], in the order of its calls. *)
Definition effects_of (t : Z) (l : list (Z * effect)) : list effect :=
  (filter (fun tf => tf.1 = t) l).*2.

(** A call that returns has entered its effect last, and hands out what it says there:
    a node that is the caller's now, and still holds the entry that was taken. *)
Definition returned_ok (s : qstate) : Prop :=
  forall t c r, q_threads s !! t = Some (Running c (Take_return r)) ->
  exists f, last (effects_of t (q_log s)) = Some f /\ call_effect c f = true /\
    effect_result f = (e ← r; nd_entry <$> q_heap s !! e) /\
    (forall e, r = Some e -> q_owned s !! e = Some t).

Lemma effects_of_snoc t t' f l :
  effects_of t (l ++ [(t', f)]) = if decide (t' = t) then effects_of t l ++ [f] else effects_of t l.
Proof.
  unfold effects_of. rewrite filter_app, fmap_app, filter_cons, filter_nil. simpl.
  destruct (decide (t' = t)); simpl; [done|]. apply app_nil_r.
Qed.

(** Steps that leave alone what belongs to a thread inside a call. *)
Lemma returned_frame s s' :
  returned_ok s ->
  (forall t c r, q_threads s' !! t = Some (Running c (Take_return r)) ->
     q_threads s !! t = Some (Running c (Take_return r)) /\
     effects_of t (q_log s') = effects_of t (q_log s) /\
     forall e, q_owned s !! e = Some t ->
       nd_entry <$> q_heap s' !! e = nd_entry <$> q_heap s !! e /\ q_owned s' !! e = Some t) ->
  returned_ok s'.
Proof.
  intros Hr Hf t c r Ht. destruct (Hf _ _ _ Ht) as (Ht0 & El & He).
  destruct (Hr _ _ _ Ht0) as (f & Hl & Hc & Hres & Ho). exists f. rewrite El. split_and!; [done..| |].
  - rewrite Hres. destruct r as [e|]; [|done]. simpl. symmetry. by apply He, Ho.
  - intros e ->. by apply He, Ho.
Qed.

(** Another thread's state, or one that is not [Take_return]. *)
Lemma other_thread (ts : gmap Z thread_state) t st t' c r :
  (forall c r, st <> Running c (Take_return r)) ->
  <[t := st]> ts !! t' = Some (Running c (Take_return r)) ->
  t' <> t /\ ts !! t' = Some (Running c (Take_return r)).
Proof.
  intros Hst. destruct (decide (t' = t)) as [->|].
  - rewrite lookup_insert_eq. intros [= ->]. by destruct (Hst c r).
  - by rewrite lookup_insert_ne.
Qed.

Lemma returned_thread s t st e :
  returned_ok s -> (forall c r, st <> Running c (Take_return r)) ->
  returned_ok (with_thread (with_event s e) t st).
Proof.
  intros Hr Hst. eapply returned_frame; [done|]. simpl. intros t' c r Ht'.
  by destruct (other_thread _ _ _ _ _ _ Hst Ht') as [_ ?].
Qed.

Lemma returned_thread_only s t st :
  returned_ok s -> (forall c r, st <> Running c (Take_return r)) -> returned_ok (with_thread s t st).
Proof.
  intros Hr Hst. pose proof (returned_thread s t st (q_event s) Hr Hst) as H.
  by rewrite with_event_same in H.
Qed.

Lemma effect_of_call h c p f : effect_of h c p = Some f -> call_effect c f = true.
Proof.
  destruct c, p; simpl; intros; simplify_option_eq; try done. apply Z.eqb_refl.
Qed.

Lemma returned_unlock s t c p p' f :
  qinv s -> returned_ok s ->
  q_threads s !! t = Some (Running c p) -> after_unlock p = Some p' ->
  effect_of (q_heap s) c p = Some f ->
  returned_ok (with_thread (with_log (with_owned (with_mutex s
    (mutex_unlock t (q_mutex s))) (pass_pointer t p (q_owned s)))
    (q_log s ++ [(t, f)])) t (Running c p')).
Proof.
  intros Hi Hr Ht Hp E. destruct (unlock_effect _ _ _ _ _ _ Hi Ht Hp E) as (_ & _ & _ & _ & _ & Hne).
  intros t' c' r. simpl. destruct (decide (t' = t)) as [->|Htt].
  - rewrite lookup_insert_eq. intros [= <- ->]. exists f.
    rewrite effects_of_snoc, decide_True, last_snoc by done.
    split_and!; [done|by eapply effect_of_call| |].
    + destruct c, p; simplify_eq/=; try done; by destruct r.
    + intros e ->. destruct p; simplify_eq/=. apply lookup_insert_eq.
  - rewrite lookup_insert_ne by done. intros Ht'.
    destruct (Hr _ _ _ Ht') as (f' & Hl & Hc & Hres & Ho). exists f'.
    rewrite effects_of_snoc, decide_False by done. split_and!; auto.
Qed.

Lemma returned_step s s' : qinv s -> returned_ok s -> qstep worker s s' -> returned_ok s'.
Proof.
  intros Hi Hr Hstep. destruct Hstep as [s t c Ht He|s t c p p' m Ht Hp E|s t c p p' h q Ht Hp E
    |s t c p p' f Ht Hp E|s t c Ht|s t c r Ht _|s Ht|s e Ht _|s Ht _|s t n nd Ht En
    |s t n nd Ht En|s t n Ht En].
  - apply returned_thread_only; [done|]. intros c' r. by destruct c.
  - destruct (after_lock_state _ _ Hp) as [_ Hin].
    apply (returned_thread_only (with_mutex s m)); [exact Hr|]. by intros c' r [= _ ->].
  - pose proof (stmt_in_section _ _ _ _ _ _ E) as Hin.
    apply (returned_thread_only (with_memory s h q)); [|by intros c' r [= _ ->]].
    eapply returned_frame; [done|]. intros t' c' r Ht'. split_and!; [done..|].
    intros e He. split; [|done]. by eapply stmt_entries.
  - by eapply returned_unlock.
  - by apply returned_thread.
  - by apply returned_thread_only.
  - by apply returned_thread_only.
  - by apply returned_thread.
  - by apply returned_thread_only.
  - eapply returned_frame; [done|]. intros t' c' r Ht'. split_and!; [done..|]. intros e He.
    assert (e <> n) by (intros ->; apply (qi_owned _ Hi) in He as [? ?]; congruence).
    simpl. by rewrite !lookup_insert_ne.
  - eapply returned_frame; [done|]. intros t' c' r Ht'. split_and!; [done..|]. intros e He.
    assert (e <> n) by (intros ->; simpl in *; congruence).
    simpl. by rewrite !lookup_insert_ne.
  - eapply returned_frame; [done|]. intros t' c' r Ht'. split_and!; [done..|]. intros e He.
    assert (e <> n) by (intros ->; simpl in *; congruence).
    simpl. by rewrite !lookup_delete_ne.
Qed.

(** ** The worker's event *)

Definition pushed (s : qstate) : Prop :=
  q_event s = true \/ exists t c, q_threads s !! t = Some (Running c Push_signal).

Definition worker_waits (s : qstate) : Prop :=
  q_threads s !! worker = Some (Running Pop (Take_return NULL)) \/
  q_threads s !! worker = Some Parked.

Definition wake_ok (s : qstate) : Prop :=
  worker_waits s -> f_entries (q_list s) <> [] -> pushed s.

(** A step of the thread [t] that is not at [Push_signal], and does not begin a wait. *)
Lemma wake_thread s s' t st :
  wake_ok s -> q_threads s' = <[t := st]> (q_threads s) -> q_event s' = q_event s ->
  (forall c, q_threads s !! t <> Some (Running c Push_signal)) ->
  (t = worker -> worker_waits s' -> worker_waits s) ->
  (f_entries (q_list s') <> [] -> f_entries (q_list s) <> []) -> wake_ok s'.
Proof.
  intros Hw Ets Ee Hns Hnw Hl Hww Hne.
  assert (worker_waits s) as Hws.
  { destruct (decide (t = worker)); [auto|]. unfold worker_waits in *.
    rewrite Ets, !lookup_insert_ne in Hww by done. done. }
  destruct (Hw Hws (Hl Hne)) as [He|(t' & c & Ht')]; [left; congruence|].
  right. exists t', c. rewrite Ets, lookup_insert_ne; [done|]. intros ->. by eapply Hns.
Qed.

(** Taking entries does not make a list nonempty. *)
Lemma take_shrinks q f q1 :
  run_effect q f = (effect_result f, q1) ->
  match f with
  | E_push _ => True
  | E_pop r => (r = NULL -> f_entries q1 = []) /\ (f_entries q1 <> [] -> f_entries q <> [])
  | E_find_remove _ _ => f_entries q1 <> [] -> f_entries q <> []
  end.
Proof.
  destruct f as [e|r|n r]; simpl; [done|..].
  - unfold fifo_pop. destruct (f_entries q) eqn:E; intros [= <- <-]; by rewrite ?E.
  - unfold fifo_find_remove. destruct (find_first _ _) eqn:E; intros [= <- <-]; [|done].
    simpl. intros Hn Hq. by rewrite Hq in Hn.
Qed.

Lemma wake_unlock s t c p p' f :
  qinv s -> wake_ok s ->
  q_threads s !! t = Some (Running c p) -> after_unlock p = Some p' ->
  effect_of (q_heap s) c p = Some f ->
  wake_ok (with_thread (with_log (with_owned (with_mutex s
    (mutex_unlock t (q_mutex s))) (pass_pointer t p (q_owned s)))
    (q_log s ++ [(t, f)])) t (Running c p')).
Proof.
  intros Hi Hw Ht Hp E.
  destruct (unlock_effect _ _ _ _ _ _ Hi Ht Hp E) as (_ & f1 & Hr & _).
  set (s' := with_thread _ _ _).
  destruct (q_list_snoc s' (q_log s) t f f1 eq_refl Hr (qi_log _ Hi)) as [_ Hf1].
  pose proof (take_shrinks _ _ _ Hr) as Hs.
  assert (forall c', q_threads s !! t <> Some (Running c' Push_signal)) as Hns.
  { intros c' Ht'. rewrite Ht in Ht'. by simplify_eq/=. }
  destruct c as [e| |n], p; simplify_eq/=.
  - intros _ _. right. exists t, (Push e). subst s'. apply lookup_insert_eq.
  - destruct result as [e|].
    + eapply wake_thread; [done..| |].
      * intros ->. unfold worker_waits. subst s'. simpl. rewrite lookup_insert_eq. by intros [|].
      * apply Hs.
    + intros _ Hne. destruct Hs as [Hs _]. by rewrite Hs in Hne.
  - eapply wake_thread; [done..| |done].
    intros ->. unfold worker_waits. subst s'. simpl. rewrite lookup_insert_eq. by intros [|].
Qed.

Lemma wake_step s s' : qinv s -> wake_ok s -> qstep worker s s' -> wake_ok s'.
Proof.
  intros Hi Hw Hstep. destruct Hstep as [s t c Ht He|s t c p p' m Ht Hp E|s t c p p' h q Ht Hp E
    |s t c p p' f Ht Hp E|s t c Ht|s t c r Ht Hcr|s Ht|s e Ht _|s Ht _|s t n nd Ht En
    |s t n nd Ht En|s t n Ht En]; try exact Hw.
  - eapply (wake_thread s); [done..|congruence| |done]. intros ->.
    unfold worker_waits. simpl. rewrite lookup_insert_eq. by destruct c; intros [|].
  - destruct (after_lock_state _ _ Hp) as [_ Hin].
    eapply (wake_thread s); [done..| | |done].
    + intros c' Ht'. rewrite Ht in Ht'. by simplify_eq.
    + intros ->. unfold worker_waits. simpl. rewrite lookup_insert_eq. by intros [|]; simplify_eq.
  - pose proof (stmt_in_section _ _ _ _ _ _ E) as Hin.
    eapply (wake_thread s); [done..| | |done].
    + intros c' Ht'. rewrite Ht in Ht'. by simplify_eq.
    + intros ->. unfold worker_waits. simpl. rewrite lookup_insert_eq. by intros [|]; simplify_eq.
  - by eapply wake_unlock.
  - intros _ _. left. done.
  - eapply (wake_thread s); [done..| | |done].
    + intros c' Ht'. rewrite Ht in Ht'. by simplify_eq.
    + intros ->. unfold worker_waits. simpl. rewrite lookup_insert_eq. by intros [|].
  - eapply (wake_thread s); [done..| | |done].
    + intros c' Ht'. rewrite Ht in Ht'. by simplify_eq.
    + intros _ _. by left.
  - intros [H|H]; simpl in H; by rewrite lookup_insert_eq in H.
  - intros [H|H]; simpl in H; by rewrite lookup_insert_eq in H.
Qed.

Lemma qreachable_all ts s : qreachable worker ts s -> qinv s /\ returned_ok s /\ wake_ok s.
Proof.
  intros Hr. unfold qreachable in Hr.
  assert (qinv (qstate_initial ts) /\ returned_ok (qstate_initial ts) /\
    wake_ok (qstate_initial ts)) as Hi.
  { split_and!; [apply qinv_initial| |intros _ Hne; by destruct Hne].
    intros t c r. simpl. rewrite lookup_gset_to_gmap_Some. by intros [_ ?]. }
  revert Hi. induction Hr as [|s1 s2 s3 Hs _ IH]; [done|]. intros (? & ? & ?).
  apply IH. split_and!; [by eapply qinv_step|by eapply returned_step|by eapply wake_step].
Qed.
End proofs.

Lemma effect_of_unlock h c p f : effect_of h c p = Some f -> is_Some (after_unlock p).
Proof. destruct c, p; simpl; try discriminate; eauto. Qed.

Lemma effect_sub g h c p f :
  effect_of g c p = Some f -> g ⊆ h -> is_Some (effect_of h c p).
Proof.
  intros E Hs. destruct c, p; simpl in *; try discriminate; eauto.
  destruct (g !! entry0) eqn:En; [|done]. rewrite (lookup_weaken _ _ _ _ En Hs). simpl. eauto.
Qed.

Lemma finish_local fuel p g q p1 g1 q1 h :
  finish fuel p g q = Some (p1, g1, q1) -> g ⊆ h ->
  exists h1, finish fuel p h q = Some (p1, h1, q1) /\ g1 ⊆ h1.
Proof.
  revert p g q h. induction fuel as [|fuel IH]; intros p g q h; cbn [finish];
    (destruct (after_unlock p); [intros; simplify_eq; eauto|]); [discriminate|].
  destruct (stmt p g q) as [[[p' g'] q']|] eqn:E; [|done]. simpl. intros Hf Hs.
  destruct (stmt_local _ _ _ _ _ _ _ E Hs) as (h' & -> & Hc & _). simpl. eauto.
Qed.

(** ** Properties *)

(** C9: The queue's calls are atomic for the threads that share it.  However the
    statements of [queue_push], [queue_pop] and [queue_find_remove] are interleaved, and
    whatever the threads do meanwhile with the nodes they own: the calls, in the order in
    which they unlock the mutex, give the results of the list operations one after the
    other; a call that returns hands out the entry its effect says, in a node that is its
    caller's from then on; only the owner of the mutex is between lock and unlock; and
    whenever the mutex is free the linked queue holds exactly the list these calls
    leave. *)
Theorem queue_linearizable worker ts s :
  qreachable worker ts s ->
  (replay fifo_empty (q_log s).*2).1 = effect_result <$> (q_log s).*2 /\
  (forall t c r, q_threads s !! t = Some (Running c (Take_return r)) ->
     exists f, last (effects_of t (q_log s)) = Some f /\ call_effect c f = true /\
       effect_result f = (e ← r; nd_entry <$> q_heap s !! e) /\
       (forall e, r = Some e -> q_owned s !! e = Some t)) /\
  (forall t c p, q_threads s !! t = Some (Running c p) -> in_section p = true ->
     mx_owner (q_mutex s) = Some t) /\
  (mx_owner (q_mutex s) = None ->
     exists ls, holds (q_heap s) (q_queue s) ls (q_list s) /\
       forall x, x ∈ ls -> q_owned s !! x = None).
Proof.
  intros Hr. destruct (qreachable_all _ _ _ Hr) as ([Hl Ho Hw Hm Hon Hmem] & Hret & _).
  split_and!; [done..|]. intros Hf. by rewrite Hf in Hmem.
Qed.

(** C29: No call on a queue faults or waits for ever.  A thread between lock and unlock
    reaches its unlock in finitely many statements of its own without following a
    dangling pointer; a thread that comes to the lock gets it, or another thread is in
    such a section. *)
Theorem queue_threads_progress worker ts s t c p :
  qreachable worker ts s -> q_threads s !! t = Some (Running c p) ->
  (in_section p = true -> exists fuel p1 h1 q1 f,
     finish fuel p (q_heap s) (q_queue s) = Some (p1, h1, q1) /\ is_Some (after_unlock p1) /\
     effect_of h1 c p1 = Some f) /\
  (forall p', after_lock p = Some p' ->
     is_Some (mutex_lock t (q_mutex s)) \/
     exists t' c' p1, t' <> t /\ q_threads s !! t' = Some (Running c' p1) /\ in_section p1 = true).
Proof.
  intros Hr Ht. destruct (qreachable_all _ _ _ Hr) as ([Hl Ho Hw Hm Hon Hmem] & _ & _). split.
  - intros Hp. rewrite (Hon _ _ _ Ht Hp) in Hmem. destruct Hmem as (c' & p' & Ht' & _ & Hs).
    rewrite Ht in Ht'. injection Ht' as <- <-.
    destruct Hs as (g & fuel & p1 & g1 & q1 & f & f1 & Hs & _ & Hf & _ & Heff & _).
    destruct (finish_local _ _ _ _ _ _ _ _ Hf Hs) as (h1 & Hf1 & Hsub).
    destruct (effect_sub _ _ _ _ _ Heff Hsub) as [f' Hf'].
    exists fuel, p1, h1, q1, f'. split_and!; [done| |done].
    by eapply effect_of_unlock.
  - intros p' Hp. destruct (mx_owner (q_mutex s)) as [t'|] eqn:Eo.
    + right. destruct Hmem as (c' & p1 & Ht' & Hp1 & _). exists t', c', p1.
      split_and!; [|done..]. intros ->. destruct (after_lock_state _ _ Hp). congruence.
    + left. rewrite mutex_lock_free by done. eauto.
Qed.

(** C28: No wake-up is lost.  When the worker waits on its event and there is an entry in
    its queue, the event is set, or a thread that has pushed is just about to set it: so
    an entry never waits for the time of the wait to run out, and when no other thread
    is in a call and the event is not set the queue is empty. *)
Theorem no_lost_wakeup worker ts s :
  qreachable worker ts s -> q_threads s !! worker = Some Parked ->
  f_entries (q_list s) <> [] ->
  event_wait (q_event s) = Some false \/
  exists t c, q_threads s !! t = Some (Running c Push_signal).
Proof.
  intros Hr Ht Hne. destruct (qreachable_all _ _ _ Hr) as (_ & _ & Hw).
  destruct (Hw (or_intror Ht) Hne) as [He|?]; [|by right]. left. by rewrite He.
Qed.

(** ** Witnesses *)

(** A schedule, step by step: a thread allocates a node or calls a function, or makes
    its next step. *)
Inductive turn :=
  | T_alloc (t n : Z) (nd : urb_node)
  | T_call (t : Z) (c : call)
  | T_run (t : Z).

Definition run_turn (worker : Z) (a : turn) (s : qstate) : option qstate :=
  match a with
  | T_alloc t n nd =>
      match q_threads s !! t, q_heap s !! n with
      | Some Idle, None => Some (with_owned (with_memory s (<[n := nd]> (q_heap s)) (q_queue s))
                                   (<[n := t]> (q_owned s)))
      | _, _ => None
      end
  | T_call t c =>
      match q_threads s !! t with
      | Some Idle =>
          match c with
          | Push e => guard (q_owned s !! e = Some t);; Some (with_thread s t (Running c (first_pc c)))
          | _ => Some (with_thread s t (Running c (first_pc c)))
          end
      | _ => None
      end
  | T_run t =>
      match q_threads s !! t with
      | Some (Running c p) =>
          match after_lock p, after_unlock p, p with
          | Some p', _, _ =>
              m ← mutex_lock t (q_mutex s); Some (with_thread (with_mutex s m) t (Running c p'))
          | _, Some p', _ =>
              f ← effect_of (q_heap s) c p;
              Some (with_thread (with_log (with_owned (with_mutex s
                (mutex_unlock t (q_mutex s))) (pass_pointer t p (q_owned s)))
                (q_log s ++ [(t, f)])) t (Running c p'))
          | _, _, Push_signal => Some (with_thread (with_event s (event_signal (q_event s))) t Idle)
          | _, _, Take_return r =>
              match c, r with
              | Pop, NULL => Some (with_thread s t (if t =? worker then Parked else Idle))
              | _, _ => Some (with_thread s t Idle)
              end
          | _, _, _ =>
              '(p', h, q) ← stmt p (q_heap s) (q_queue s);
              Some (with_thread (with_memory s h q) t (Running c p'))
          end
      | Some Parked =>
          guard (t = worker);; e ← event_wait (q_event s); Some (with_thread (with_event s e) t Idle)
      | _ => None
      end
  end.

Fixpoint run_turns (worker : Z) (l : list turn) (s : qstate) : option qstate :=
  match l with
  | [] => Some s
  | a :: l => s ← run_turn worker a s; run_turns worker l s
  end.

Lemma stmt_sections p h q r : stmt p h q = Some r -> in_section p = true.
Proof. by destruct p. Qed.

Lemma run_turn_sound worker a s s' : run_turn worker a s = Some s' -> qstep worker s s'.
Proof.
  destruct a as [t n nd|t c|t]; simpl.
  - destruct (q_threads s !! t) as [[]|] eqn:Et; try done.
    destruct (q_heap s !! n) eqn:En; intros; simplify_eq. by apply qs_alloc.
  - destruct (q_threads s !! t) as [[]|] eqn:Et; try done.
    destruct c; intros; simplify_option_eq; (apply qs_call; [done|]); by intros ? [= <-].
  - destruct (q_threads s !! t) as [[|c p|]|] eqn:Et; try done.
    + destruct (after_lock p) as [p'|] eqn:Hl.
      { intros E. destruct (mutex_lock _ _) eqn:Em; simplify_eq/=. by eapply qs_lock. }
      destruct (after_unlock p) as [p'|] eqn:Hu.
      { intros E. destruct (effect_of _ _ _) eqn:Ee; simplify_eq/=. by eapply qs_unlock. }
      assert (forall r, stmt p (q_heap s) (q_queue s) = Some r ->
        qstep worker s (with_thread (with_memory s r.1.2 r.2) t (Running c r.1.1))) as Hs.
      { intros [[p' h] q] E. eapply qs_stmt; [done|by eapply stmt_sections|done]. }
      assert (stmt p (q_heap s) (q_queue s) ≫= (fun '(p', h, q) =>
        Some (with_thread (with_memory s h q) t (Running c p'))) = Some s' -> qstep worker s s') as Hs'.
      { destruct (stmt _ _ _) as [[[p' h] q]|] eqn:E; intros; simplify_eq/=. by apply (Hs (p', h, q)). }
      destruct p; try done; try exact Hs'.
      * intros [= <-]. by eapply qs_signal.
      * destruct c as [e| |n], result as [r|]; intros; simplify_eq;
          try (eapply qs_return; [done|]; by intros (? & ? & ?)).
        destruct (Z.eqb_spec t worker) as [->|]; [by apply qs_park|].
        eapply qs_return; [done|]. by intros (? & ? & ?).
    + intros E. simplify_option_eq. by eapply qs_wake.
Qed.

Lemma run_turns_reachable worker l ts s :
  run_turns worker l (qstate_initial ts) = Some s -> qreachable worker ts s.
Proof.
  unfold qreachable. generalize (qstate_initial ts). induction l as [|a l IH]; intros s0; simpl.
  - intros [= ->]. apply rtc_refl.
  - destruct (run_turn worker a s0) as [s1|] eqn:E; [|done]. simpl. intros Hs.
    eapply rtc_l; [by eapply run_turn_sound|]. by apply IH.
Qed.

(** The worker, thread 2, pops while thread 1 begins to push the entry 7; it finds
    nothing and waits, and thread 1 is interrupted before it sets the event. *)
Definition example_turns : list turn :=
  [T_alloc 1 16 {| nd_entry := entry_for 7; nd_next := NULL |}; T_call 2 Pop; T_run 2; T_run 2;
   T_call 1 (Push 16); T_run 2; T_run 1; T_run 2] ++ replicate 5 (T_run 1).

Definition example_parked : qstate :=
  default (qstate_initial ∅) (run_turns 2 example_turns (qstate_initial {[1; 2]})).

(** Then thread 1 sets the event; the worker wakes and pops, up to its return. *)
Definition example_popped : qstate :=
  default (qstate_initial ∅)
    (run_turns 2 ([T_run 1; T_run 2; T_call 2 Pop] ++ replicate 7 (T_run 2)) example_parked).

Lemma example_parked_reachable : qreachable 2 {[1; 2]} example_parked.
Proof. apply (run_turns_reachable _ example_turns). vm_compute. reflexivity. Qed.

Lemma example_popped_reachable : qreachable 2 {[1; 2]} example_popped.
Proof.
  apply (run_turns_reachable _ (example_turns ++ [T_run 1; T_run 2; T_call 2 Pop] ++ replicate 7 (T_run 2))).
  vm_compute. reflexivity.
Qed.

Lemma queue_linearizable_witness :
  q_threads example_popped !! 2 = Some (Running Pop (Take_return (Some 16))) /\
  q_log example_popped = [(2, E_pop NULL); (1, E_push (entry_for 7)); (2, E_pop (Some (entry_for 7)))] /\
  q_owned example_popped !! 16 = Some 2 /\
  exists ls, holds (q_heap example_popped) (q_queue example_popped) ls (q_list example_popped).
Proof.
  destruct (queue_linearizable 2 {[1; 2]} example_popped example_popped_reachable)
    as (_ & Hret & _ & Hfree).
  assert (q_threads example_popped !! 2 = Some (Running Pop (Take_return (Some 16)))) as Ht.
  { vm_compute. reflexivity. }
  destruct (Hret 2 Pop (Some 16) Ht) as (f & _ & _ & _ & Ho).
  split_and!; [exact Ht|vm_compute; reflexivity|exact (Ho 16 eq_refl)|].
  destruct (Hfree ltac:(vm_compute; reflexivity)) as (ls & Hls & _). by exists ls.
Defined.

(** In the middle of [example_turns]: the worker has the mutex, thread 1 waits for it. *)
Definition example_blocked : qstate :=
  default (qstate_initial ∅) (run_turns 2 (take 5 example_turns) (qstate_initial {[1; 2]})).

Lemma queue_threads_progress_witness :
  mutex_lock 1 (q_mutex example_blocked) = None /\
  exists t' c' p1, t' <> 1 /\ q_threads example_blocked !! t' = Some (Running c' p1) /\
    in_section p1 = true.
Proof.
  assert (mutex_lock 1 (q_mutex example_blocked) = None) as E by (vm_compute; reflexivity).
  destruct (queue_threads_progress 2 {[1; 2]} example_blocked 1 (Push 16) (Push_lock 16))
    as [_ H].
  - apply (run_turns_reachable _ (take 5 example_turns)). vm_compute. reflexivity.
  - vm_compute. reflexivity.
  - destruct (H (Push_next 16) eq_refl) as [[m Hm]|Hw]; [congruence|]. by split.
Defined.

Lemma no_lost_wakeup_witness :
  q_threads example_parked !! 2 = Some Parked /\ f_entries (q_list example_parked) = [entry_for 7] /\
  exists t c, q_threads example_parked !! t = Some (Running c Push_signal).
Proof.
  assert (q_threads example_parked !! 2 = Some Parked) as Ht by (vm_compute; reflexivity).
  assert (f_entries (q_list example_parked) = [entry_for 7]) as Hl by (vm_compute; reflexivity).
  assert (event_wait (q_event example_parked) = None) as He by (vm_compute; reflexivity).
  split_and!; [exact Ht|exact Hl|].
  destruct (no_lost_wakeup 2 {[1; 2]} example_parked example_parked_reachable Ht) as [E|H].
  - rewrite Hl. discriminate.
  - congruence.
  - exact H.
Defined.
