(* ===== verification/LinkedHandler.v ===== *)
(** * The URB handler in memory ([server/urb_handler.c])

    [UrbHandler] keeps the handler's queues as lists of entries.  Here the same functions
    run as the code has them, on entries that are allocated, linked, written through
    pointers and freed.  [linked_handler_refines] says that they do what the functions on
    lists do, for every sequence of calls and turns of the worker, and never follow a
    dangling pointer; [linked_handler_owns_memory] that every entry is in exactly one
    place, so that nothing is leaked or freed twice. *)

From S2P Require Import Prelude CTypes Errors Protocol UsbHost UrbQueue UrbHandler.

(** ** Entries *)

Definition urb_zero : usb_urb := {|
  urb_seqnum := 0; urb_devid := 0; urb_endpoint := 0; urb_direction := 0; urb_type := 0;
  urb_transfer_flags := 0; urb_setup := replicate 8 0; urb_buffer := NULL; urb_buffer_length := 0;
  urb_actual_length := 0; urb_status := 0; urb_start_frame := 0; urb_number_of_packets := 0;
  urb_interval := 0; urb_completed := false; urb_cancelled := false |}.

Definition entry_zero : urb_entry := {|
  ent_urb := urb_zero; ent_seqnum := 0; ent_devid := 0; ent_submit_time := 0;
  ent_in_progress := false; ent_completed := false |}.

(** [alloc]: what [calloc] returns. *)
Definition create_urb_entry (alloc : ptr Z) (h : heap) : ptr Z * heap :=
  match alloc with
  | NULL => (NULL, h)
  | Some e => (Some e, <[e := {| nd_entry := entry_zero; nd_next := NULL |}]> h)
  end.

(** The entry with its buffer; a pointer that is not allocated is a fault. *)
Definition free_urb_entry (entry : ptr Z) (h : heap) : option heap :=
  match entry with
  | NULL => Some h
  | Some e => _ ← h !! e; Some (delete e h)
  end.

Definition urb_handler_free_entry (entry : ptr Z) (h : heap) : option heap := free_urb_entry entry h.

(** Assignments to the fields of an entry. *)
Definition set_entry (h : heap) (loc : Z) (e : urb_entry) : option heap :=
  nd ← h !! loc; Some (<[loc := {| nd_entry := e; nd_next := nd_next nd |}]> h).

Definition get_entry (h : heap) (loc : Z) : option urb_entry := nd_entry <$> h !! loc.

(** ** The handler *)

Record linked_handler := {
  lh_device : ptr usb_device;
  lh_pending : urb_queue;
  lh_completed : urb_queue;
  lh_next_seqnum : Z;
  lh_running : bool;
  lh_initialized : bool;
}.

Definition lh_set_queues (h : linked_handler) (pending completed : urb_queue) : linked_handler := {|
  lh_device := lh_device h; lh_pending := pending; lh_completed := completed;
  lh_next_seqnum := lh_next_seqnum h; lh_running := lh_running h;
  lh_initialized := lh_initialized h |}.

Definition lh_set_running (h : linked_handler) (pending : urb_queue) (running : bool) : linked_handler := {|
  lh_device := lh_device h; lh_pending := pending; lh_completed := lh_completed h;
  lh_next_seqnum := lh_next_seqnum h; lh_running := running;
  lh_initialized := lh_initialized h |}.

Definition lh_set_device (h : linked_handler) (d : ptr usb_device) : linked_handler := {|
  lh_device := d; lh_pending := lh_pending h; lh_completed := lh_completed h;
  lh_next_seqnum := lh_next_seqnum h; lh_running := lh_running h;
  lh_initialized := lh_initialized h |}.

Definition notify (q : urb_queue) (e : bool) : urb_queue :=
  {| q_head := q_head q; q_tail := q_tail q; q_count := q_count q; q_notify := e |}.

Definition linked_init (device : ptr usb_device) : linked_handler := {|
  lh_device := device; lh_pending := (queue_init 0 0).2; lh_completed := (queue_init 0 0).2;
  lh_next_seqnum := 1; lh_running := false; lh_initialized := true |}.

(** The functions on the memory [h] and the handler; [None] is a fault. *)
Section linked.
  Context {U : Type} `{WinUsb U}.

(** [alloc] and [memory]: what [calloc] and [malloc] return. *)
Definition linked_submit (alloc : ptr Z) (memory : ptr bytes) (now : Z)
    (header : usbip_header) (data : ptr bytes) (data_len : Z) (h : heap) (lh : linked_handler) :
    option (error_code * heap * linked_handler) :=
  if negb (lh_initialized lh) then Some (ERR_INVALID_PARAM, h, lh) else
  let '(entry, h) := create_urb_entry alloc h in
  match entry with
  | NULL => Some (ERR_OUT_OF_MEMORY, h, lh)
  | Some e =>
      let filled buffer := {|
        ent_urb := submit_urb_of header buffer; ent_seqnum := hc_seqnum (h_common header);
        ent_devid := hc_devid (h_common header); ent_submit_time := now;
        ent_in_progress := false; ent_completed := false |} in
      h ← set_entry h e (filled NULL);
      let push h :=
        '(h, pending) ← queue_push h (lh_pending lh) e;
        Some (ERR_SUCCESS, h, lh_set_queues lh pending (lh_completed lh)) in
      let buffer_length := cs_transfer_buffer_length (h_u header) in
      if buffer_length >? 0 then
        match memory with
        | NULL => h ← free_urb_entry (Some e) h; Some (ERR_OUT_OF_MEMORY, h, lh)
        | Some m =>
            h ← set_entry h e (filled (Some m));
            match data with
            | Some d =>
                if (wrap 8 (hc_direction (h_common header)) =? USBIP_DIR_OUT) && (data_len >? 0) then
                  let n := Z.to_nat (if data_len <? buffer_length then data_len else buffer_length) in
                  h ← set_entry h e (filled (Some (take n d ++ drop n m))); push h
                else push h
            | NULL => push h
            end
        end
      else push h
  end.

(** Marking an entry as cancelled and moving it to the completed queue. *)
Definition linked_cancel (e : Z) (h : heap) (lh : linked_handler) : option (heap * linked_handler) :=
  ent ← get_entry h e;
  h ← set_entry h e (cancel_entry ent);
  '(h, completed) ← queue_push h (lh_completed lh) e;
  Some (h, lh_set_queues lh (lh_pending lh) completed).

Definition linked_unlink (seqnum_to_unlink : Z) (h : heap) (lh : linked_handler) :
    option (error_code * heap * linked_handler) :=
  if negb (lh_initialized lh) then Some (ERR_INVALID_PARAM, h, lh) else
  '(entry, h, pending) ← queue_find_remove h (lh_pending lh) seqnum_to_unlink;
  let lh := lh_set_queues lh pending (lh_completed lh) in
  match entry with
  | Some e => '(h, lh) ← linked_cancel e h lh; Some (ERR_SUCCESS, h, lh)
  | NULL => Some (ERR_NOT_FOUND, h, lh)
  end.

Definition linked_get_completed (h : heap) (lh : linked_handler) :
    option (ptr Z * heap * linked_handler) :=
  if negb (lh_initialized lh) then Some (NULL, h, lh) else
  '(entry, h, completed) ← queue_pop h (lh_completed lh);
  Some (entry, h, lh_set_queues lh (lh_pending lh) completed).

(** The loop of [urb_handler_cancel_all]; without fuel it would not have ended. *)
Fixpoint linked_cancel_loop (fuel : nat) (h : heap) (lh : linked_handler) :
    option (heap * linked_handler) :=
  match fuel with
  | O => None
  | S fuel =>
      '(entry, h, pending) ← queue_pop h (lh_pending lh);
      let lh := lh_set_queues lh pending (lh_completed lh) in
      match entry with
      | NULL => Some (h, lh)
      | Some e => '(h, lh) ← linked_cancel e h lh; linked_cancel_loop fuel h lh
      end
  end.

Definition linked_cancel_all (h : heap) (lh : linked_handler) : option (heap * linked_handler) :=
  linked_cancel_loop (S (size h)) h lh.

(** ** The worker *)

Inductive linked_worker :=
  | LW_none
  | LW_loop
  | LW_holding (entry : Z)
  | LW_exited.

Definition holding (w : linked_worker) : list Z :=
  match w with LW_holding e => [e] | _ => [] end.

(** Execute the entry that was popped, and move it on. *)
Definition linked_execute (e : Z) (h : heap) (lh : linked_handler) :
    M U (option (heap * linked_handler * linked_worker)) :=
  match get_entry h e with
  | None => mret None
  | Some ent =>
      '(result, r) ← usb_submit_urb (lh_device lh) (Some (ent_urb ent));
      let urb := default (ent_urb ent) r in
      let urb := if negb (error_code_eqb result ERR_SUCCESS)
                 then urb_set_status urb (- EIO) (urb_cancelled urb) else urb in
      mret (h ← set_entry h e (ent_set_urb ent urb false true);
            '(h, completed) ← queue_push h (lh_completed lh) e;
            Some (h, lh_set_queues lh (lh_pending lh) completed, LW_loop))
  end.

Definition linked_worker_step (wait_failed : bool) (h : heap) (lh : linked_handler) (w : linked_worker) :
    M U (option (heap * linked_handler * linked_worker)) :=
  match w with
  | LW_none | LW_exited => mret (Some (h, lh, w))
  | LW_holding e => linked_execute e h lh
  | LW_loop =>
      if negb (lh_running lh) then mret (Some (h, lh, LW_exited)) else
      mret (
        '(entry, h, pending) ← queue_pop h (lh_pending lh);
        match entry with
        | NULL =>
            if wait_failed then Some (h, lh, LW_exited) else
            Some (h, lh_set_queues lh (notify pending false) (lh_completed lh), LW_loop)
        | Some e =>
            ent ← get_entry h e;
            h ← set_entry h e (ent_set_urb ent (ent_urb ent) true (ent_completed ent));
            Some (h, lh_set_queues lh pending (lh_completed lh), LW_holding e)
        end)
  end.

Fixpoint linked_join (fuel : nat) (h : heap) (lh : linked_handler) (w : linked_worker) :
    M U (option (heap * linked_handler * linked_worker)) :=
  match fuel with
  | O => mret (Some (h, lh, w))
  | S fuel =>
      r ← linked_worker_step false h lh w;
      match r with
      | None => mret None
      | Some (h, lh, w) => linked_join fuel h lh w
      end
  end.

Definition linked_start (created : bool) (lh : linked_handler) (w : linked_worker) :
    error_code * linked_handler * linked_worker :=
  if negb (lh_initialized lh) then (ERR_INVALID_PARAM, lh, w) else
  if lh_running lh then (ERR_SUCCESS, lh, w) else
  if negb created then (ERR_THREAD_CREATE, lh_set_running lh (lh_pending lh) false, w) else
  (ERR_SUCCESS, lh_set_running lh (lh_pending lh) true, LW_loop).

Definition linked_stop (h : heap) (lh : linked_handler) (w : linked_worker) :
    M U (option (heap * linked_handler * linked_worker)) :=
  if negb (lh_running lh) then mret (Some (h, lh, w)) else
  r ← linked_join join_fuel h (lh_set_running lh (notify (lh_pending lh) true) false) w;
  mret ('(h, lh, w) ← r; '(h, lh) ← linked_cancel_all h lh; Some (h, lh, w)).

(** The events are destroyed with their queues. *)
Definition linked_cleanup (h : heap) (lh : linked_handler) (w : linked_worker) :
    M U (option (heap * linked_handler * linked_worker)) :=
  if negb (lh_initialized lh) then mret (Some (h, lh, w)) else
  r ← linked_stop h lh w;
  mret ('(h, lh, w) ← r;
        '(h, pending) ← queue_cleanup h (lh_pending lh);
        '(h, completed) ← queue_cleanup h (lh_completed lh);
        Some (h, {| lh_device := lh_device lh; lh_pending := notify pending false;
                    lh_completed := notify completed false; lh_next_seqnum := lh_next_seqnum lh;
                    lh_running := lh_running lh; lh_initialized := false |}, w)).
End linked.

(** ** The calls of a session and the turns of the worker *)

(** What the session calls, one operation after the other; [O_free] frees the first of
    the entries that were handed out. *)
Inductive operation (U : Type) :=
  | O_submit (alloc : bool) (memory : ptr bytes) (now : Z) (header : usbip_header)
      (data : ptr bytes) (data_len : Z)
  | O_unlink (seqnum : Z)
  | O_get_completed
  | O_free
  | O_start (created : bool)
  | O_stop
  | O_cancel_all
  | O_cleanup
  | O_worker (wait_failed : bool)
  (* the device belongs to the device list: other threads open and close it *)
  | O_device (d : ptr usb_device) (u : U).
Arguments O_submit {_} _ _ _ _ _ _.
Arguments O_unlink {_} _.
Arguments O_get_completed {_}.
Arguments O_free {_}.
Arguments O_start {_} _.
Arguments O_stop {_}.
Arguments O_cancel_all {_}.
Arguments O_cleanup {_}.
Arguments O_worker {_} _.
Arguments O_device {_} _ _.

(** What a call reports: its code, and the entry it hands out. *)
Abbreviation answer := (error_code * ptr urb_entry)%type.

Section systems.
Context {U : Type} `{WinUsb U}.
(** An address that is free, whatever is allocated. *)
Context (new : heap -> Z).

(** In memory: [l_out] are the entries that were handed out and not yet freed. *)
Record linked_sys := {
  l_heap : heap;
  l_handler : linked_handler;
  l_worker : linked_worker;
  l_usb : U;
  l_out : list Z;
}.

Definition linked_result (s : linked_sys) (u : U) (r : option (heap * linked_handler * linked_worker)) :
    option (answer * linked_sys) :=
  '(h, lh, w) ← r;
  Some ((ERR_SUCCESS, NULL),
    {| l_heap := h; l_handler := lh; l_worker := w; l_usb := u; l_out := l_out s |}).

Definition linked_op (o : operation U) (s : linked_sys) : option (answer * linked_sys) :=
  let h := l_heap s in let lh := l_handler s in
  let keep h lh out := {| l_heap := h; l_handler := lh; l_worker := l_worker s; l_usb := l_usb s;
                          l_out := out |} in
  match o with
  | O_submit alloc memory now header data data_len =>
      '(err, h, lh) ← linked_submit (if alloc then Some (new h) else NULL) memory now header
                        data data_len h lh;
      Some ((err, NULL), keep h lh (l_out s))
  | O_unlink n => '(err, h, lh) ← linked_unlink n h lh; Some ((err, NULL), keep h lh (l_out s))
  | O_get_completed =>
      '(entry, h, lh) ← linked_get_completed h lh;
      match entry with
      | NULL => Some ((ERR_SUCCESS, NULL), keep h lh (l_out s))
      | Some e => ent ← get_entry h e;
                  Some ((ERR_SUCCESS, Some ent), keep h lh (l_out s ++ [e]))
      end
  | O_free =>
      match l_out s with
      | [] => Some ((ERR_SUCCESS, NULL), s)
      | e :: out => h ← urb_handler_free_entry (Some e) h; Some ((ERR_SUCCESS, NULL), keep h lh out)
      end
  | O_start created =>
      let '(err, lh, w) := linked_start created lh (l_worker s) in
      Some ((err, NULL), {| l_heap := h; l_handler := lh; l_worker := w; l_usb := l_usb s;
                            l_out := l_out s |})
  | O_stop => let '(r, u) := linked_stop h lh (l_worker s) (l_usb s) in linked_result s u r
  | O_cancel_all => '(h, lh) ← linked_cancel_all h lh; Some ((ERR_SUCCESS, NULL), keep h lh (l_out s))
  | O_cleanup => let '(r, u) := linked_cleanup h lh (l_worker s) (l_usb s) in linked_result s u r
  | O_worker wf =>
      let '(r, u) := linked_worker_step wf h lh (l_worker s) (l_usb s) in linked_result s u r
  | O_device d u =>
      Some ((ERR_SUCCESS, NULL), {| l_heap := h; l_handler := lh_set_device lh d;
        l_worker := l_worker s; l_usb := u; l_out := l_out s |})
  end.

Fixpoint linked_run (os : list (operation U)) (s : linked_sys) : option (list answer * linked_sys) :=
  match os with
  | [] => Some ([], s)
  | o :: os =>
      '(a, s) ← linked_op o s; '(answers, s) ← linked_run os s; Some (a :: answers, s)
  end.

(** On lists: the functions of [UrbHandler]. *)
Record list_sys := {
  a_handler : urb_handler;
  a_worker : worker;
  a_usb : U;
  a_out : list urb_entry;
}.

Definition list_result (s : list_sys) (u : U) (r : ptr urb_handler * worker) : answer * list_sys :=
  ((ERR_SUCCESS, NULL), {| a_handler := default (a_handler s) r.1; a_worker := r.2; a_usb := u;
                           a_out := a_out s |}).

Definition list_op (o : operation U) (s : list_sys) : answer * list_sys :=
  let h := a_handler s in
  let keep r out := {| a_handler := default h r; a_worker := a_worker s; a_usb := a_usb s;
                       a_out := out |} in
  match o with
  | O_submit alloc memory now header data data_len =>
      let '(err, r) := urb_handler_submit alloc memory now (Some h) (Some header) data data_len in
      ((err, NULL), keep r (a_out s))
  | O_unlink n => let '(err, r) := urb_handler_unlink (Some h) n in ((err, NULL), keep r (a_out s))
  | O_get_completed =>
      let '(e, r) := urb_handler_get_completed (Some h) in
      ((ERR_SUCCESS, e), keep r (a_out s ++ option_list e))
  | O_free => ((ERR_SUCCESS, NULL), keep (Some h) (tail (a_out s)))
  | O_start created =>
      let '(err, r, w) := urb_handler_start created (Some h) (a_worker s) in
      ((err, NULL), {| a_handler := default h r; a_worker := w; a_usb := a_usb s; a_out := a_out s |})
  | O_stop => let '(r, u) := urb_handler_stop (Some h) (a_worker s) (a_usb s) in list_result s u r
  | O_cancel_all => ((ERR_SUCCESS, NULL), keep (urb_handler_cancel_all (Some h)) (a_out s))
  | O_cleanup => let '(r, u) := urb_handler_cleanup (Some h) (a_worker s) (a_usb s) in list_result s u r
  | O_worker wf =>
      let '((h, w), u) := worker_step wf h (a_worker s) (a_usb s) in list_result s u (Some h, w)
  | O_device d u =>
      ((ERR_SUCCESS, NULL), {| a_handler := uh_set_device h d; a_worker := a_worker s; a_usb := u;
                               a_out := a_out s |})
  end.

Fixpoint list_run (os : list (operation U)) (s : list_sys) : list answer * list_sys :=
  match os with
  | [] => ([], s)
  | o :: os =>
      let '(a, s) := list_op o s in let '(answers, s) := list_run os s in (a :: answers, s)
  end.
End systems.
Arguments linked_sys : clear implicits.
Arguments list_sys : clear implicits.

(** ** Who has which entry *)

(** Exactly the entries [ns] are allocated, each in one place. *)
Definition owns (h : heap) (ns : list Z) : Prop :=
  NoDup ns /\ forall x, is_Some (h !! x) <-> x ∈ ns.

Lemma entries_owned_perm h ns ns' : ns ≡ₚ ns' -> owns h ns -> owns h ns'.
Proof. intros Hp [Hn Hd]. split; [by rewrite <- Hp|]. intros x. by rewrite Hd, Hp. Qed.

Lemma entries_owned_dom h h' ns : dom h' = dom h -> owns h ns -> owns h' ns.
Proof.
  intros Ed [Hn Hd]. split; [done|]. intros x. by rewrite <- Hd, <- !elem_of_dom, Ed.
Qed.

Lemma find_first_perm (p : Z -> bool) ls x :
  find_first p ls = Some x -> x :: remove_first p ls ≡ₚ ls.
Proof.
  induction ls as [|y ls IH]; simpl; [done|]. destruct (p y); intros E; simplify_eq; [done|].
  rewrite <- (IH E) at 2. apply Permutation_swap.
Qed.

(** Two queues in the memory [h] hold the lists [f] and [f2]; besides their nodes there
    are those in hand, with their entries. *)
Record memory_rep (h : heap) (q : urb_queue) (f : fifo) (ls : list Z)
    (q2 : urb_queue) (f2 : fifo) (ls2 : list Z) (hand : list (Z * urb_entry)) : Prop := {
  mr_first : fifo_rep h q ls f;
  mr_second : fifo_rep h q2 ls2 f2;
  mr_hand : Forall (fun xe => get_entry h xe.1 = Some xe.2) hand;
  mr_owns : owns h (ls ++ ls2 ++ hand.*1);
}.

(** The handler [lh] in the memory [h] is the handler [uh] on lists. *)
Record handler_rep (h : heap) (lh : linked_handler) (uh : urb_handler) (lp lc : list Z)
    (hand : list (Z * urb_entry)) : Prop := {
  hr_memory : memory_rep h (lh_pending lh) (uh_pending uh) lp (lh_completed lh) (uh_completed uh) lc hand;
  hr_device : lh_device lh = uh_device uh;
  hr_next_seqnum : lh_next_seqnum lh = uh_next_seqnum uh;
  hr_running : lh_running lh = uh_running uh;
  hr_initialized : lh_initialized lh = uh_initialized uh;
}.

Definition worker_rep (lw : linked_worker) (w : worker) (hand : list (Z * urb_entry)) : Prop :=
  match lw, w with
  | LW_none, W_none | LW_loop, W_loop | LW_exited, W_exited => hand = []
  | LW_holding x, W_holding e => hand = [(x, e)]
  | _, _ => False
  end.

Definition sys_rep {U} (s : linked_sys U) (a : list_sys U) : Prop :=
  exists lp lc hw ho,
    handler_rep (l_heap s) (l_handler s) (a_handler a) lp lc (hw ++ ho) /\
    worker_rep (l_worker s) (a_worker a) hw /\
    l_out s = ho.*1 /\ a_out a = ho.*2 /\ l_usb s = a_usb a.

(** ** What one access to the memory does *)

Section memory.
Context (q2 : urb_queue) (f2 : fifo) (ls2 : list Z).
Implicit Types (h : heap) (q : urb_queue) (f : fifo) (ls : list Z) (hand : list (Z * urb_entry)).

Lemma memory_swap h q f ls hand :
  memory_rep h q f ls q2 f2 ls2 hand <-> memory_rep h q2 f2 ls2 q f ls hand.
Proof.
  split; intros [H1 H2 Hh Ho]; (split; [done..|]); (eapply entries_owned_perm; [|exact Ho]);
    rewrite !(assoc_L (++)); apply Permutation_app_tail, Permutation_app_comm.
Qed.

Lemma memory_perm h q f ls hand hand' :
  hand ≡ₚ hand' -> memory_rep h q f ls q2 f2 ls2 hand -> memory_rep h q f ls q2 f2 ls2 hand'.
Proof.
  intros Hp [H1 H2 Hh Ho]. split; [done..|by rewrite <- Hp|].
  eapply entries_owned_perm; [|exact Ho]. by do 2 apply Permutation_app_head; rewrite Hp.
Qed.

(** What is in hand is in no queue, and only once. *)
Lemma memory_hand h q f ls x e hand :
  memory_rep h q f ls q2 f2 ls2 ((x, e) :: hand) ->
  get_entry h x = Some e /\ x ∉ ls /\ x ∉ ls2 /\ x ∉ hand.*1.
Proof.
  intros [_ _ Hh [Hn _]]. apply Forall_cons in Hh as [Hx _]. simpl in Hx. split; [done|].
  rewrite (assoc_L (++)) in Hn. simpl in Hn. apply NoDup_app in Hn as (_ & Hd & Hn).
  apply NoDup_cons in Hn as [? _]. split_and!; [| |done]; intros Hin; (apply (Hd x); [set_solver|by left]).
Qed.

Lemma entries_owned_lists h ls hand x : owns h (ls ++ ls2 ++ hand.*1) -> x ∈ ls -> x ∉ ls2 /\ x ∉ hand.*1.
Proof.
  intros [Hn _] Hx. apply NoDup_app in Hn as (_ & Hd & _). specialize (Hd x Hx). set_solver.
Qed.

(** The memory after a queue operation that moved nodes between its list and the hand. *)
Lemma memory_frame h q f ls hand h' q' f' ls' hand' F :
  memory_rep h q f ls q2 f2 ls2 hand ->
  frame F h h' -> (forall x, x ∈ F -> x ∉ ls2) ->
  fifo_rep h' q' ls' f' -> ls' ++ hand'.*1 ≡ₚ ls ++ hand.*1 ->
  Forall (fun xe => get_entry h xe.1 = Some xe.2) hand' ->
  memory_rep h' q' f' ls' q2 f2 ls2 hand'.
Proof.
  intros [H1 H2 Hh Ho] Hf Hd Hr Hp Hh'. split; [done| | |].
  - eapply fifo_rep_ext; [|exact H2]. intros x Hx. destruct Hf as (_ & _ & Hf). apply Hf.
    intros Hx'. by apply (Hd x).
  - eapply Forall_impl; [exact Hh'|]. intros [x e] Hx. unfold get_entry in *. simpl in *.
    destruct Hf as (_ & He & _). by rewrite He.
  - destruct Hf as (Ed & _). eapply entries_owned_dom; [done|]. eapply entries_owned_perm; [|exact Ho].
    rewrite !(assoc_L (++)), (Permutation_app_comm ls), (Permutation_app_comm ls'), <- !(assoc_L (++)).
    by rewrite Hp.
Qed.

Lemma memory_push h q f ls x e hand :
  memory_rep h q f ls q2 f2 ls2 ((x, e) :: hand) ->
  exists h' q', queue_push h q x = Some (h', q') /\
    memory_rep h' q' (fifo_push f e) (ls ++ [x]) q2 f2 ls2 hand.
Proof.
  intros Hm. destruct (memory_hand _ _ _ _ _ _ _ Hm) as (Hx & H1 & H2 & _).
  unfold get_entry in Hx. destruct (h !! x) as [nx|] eqn:En; [|done]. simplify_eq/=.
  destruct (fifo_push_rep h q ls f x nx) as (h' & q' & E & Hr & Hf); [apply Hm|done..|].
  exists h', q'. split; [done|]. eapply memory_frame; [done..| |exact Hr| |].
  - intros y [Hy|Hy%list_elem_of_singleton]%elem_of_app; [|by subst].
    by eapply entries_owned_lists; [apply Hm|].
  - simpl. by rewrite <- (assoc_L (++)).
  - destruct Hm as [_ _ Hh _]. by apply Forall_cons in Hh as [_ ?].
Qed.

Lemma memory_pop h q f ls hand :
  memory_rep h q f ls q2 f2 ls2 hand ->
  (fifo_pop f = (NULL, f) /\ queue_pop h q = Some (NULL, h, q)) \/
  exists x e f' h' q' ls', fifo_pop f = (Some e, f') /\ queue_pop h q = Some (Some x, h', q') /\
    memory_rep h' q' f' ls' q2 f2 ls2 ((x, e) :: hand).
Proof.
  intros Hm. pose proof (mr_first _ _ _ _ _ _ _ _ Hm) as Hr.
  destruct (fifo_pop_rep _ _ _ _ Hr) as (h' & q' & E & Hr' & He & Hf).
  destruct ls as [|x ls].
  - left. destruct Hr as (Hq & Hc & _). rewrite queue_pop_empty in E |- * by done.
    unfold fifo_pop. unfold contents in Hc. simpl in Hc. by rewrite <- Hc.
  - right. simpl in *. destruct (fifo_pop f) as [r f'] eqn:Ef. simpl in *.
    destruct (h !! x) as [nd|] eqn:Ex.
    2: { destruct Hr as ([(_ & ? & ? & _) _ _ _] & _). congruence. }
    simpl in He. subst r. exists x, (nd_entry nd), f', h', q', ls. split_and!; [done..|].
    eapply memory_frame; [done..| |exact Hr'| |].
    + intros y Hy. by eapply entries_owned_lists; [apply Hm|].
    + simpl. by rewrite <- Permutation_middle.
    + constructor; [|apply Hm]. unfold get_entry. simpl. by rewrite Ex.
Qed.

Lemma memory_find_remove h q f ls n hand :
  memory_rep h q f ls q2 f2 ls2 hand ->
  (exists q' h', fifo_find_remove f n = (NULL, f) /\ queue_find_remove h q n = Some (NULL, h', q') /\
     memory_rep h' q' f ls q2 f2 ls2 hand) \/
  exists x e f' h' q' ls', fifo_find_remove f n = (Some e, f') /\
    queue_find_remove h q n = Some (Some x, h', q') /\
    memory_rep h' q' f' ls' q2 f2 ls2 ((x, e) :: hand).
Proof.
  intros Hm. pose proof (mr_first _ _ _ _ _ _ _ _ Hm) as Hr.
  destruct (fifo_find_remove_rep _ _ _ _ n Hr) as (r & h' & q' & E & Hr' & He & Hf).
  pose proof Hr as (Hq & _). pose proof Hq as [Hch Hn _ _].
  destruct (queue_find_remove_spec _ _ n _ Hq) as (r' & h1 & q1 & E' & -> & _).
  rewrite E in E'. injection E' as -> _ _.
  assert (forall y, y ∈ ls -> y ∉ ls2) as Hd by (intros y Hy; by eapply entries_owned_lists; [apply Hm|]).
  destruct (find_first (has_seqnum h n) ls) as [x|] eqn:Ex.
  - right. destruct (find_first_removed _ _ _ Hn Ex) as [Hin Hout].
    destruct (chain_nodes _ _ _ _ Hch Hin) as [nd Hnd].
    destruct (fifo_find_remove f n) as [r f'] eqn:Ef. simpl in *. rewrite Hnd in He. simpl in He. subst r.
    exists x, (nd_entry nd), f', h', q', (remove_first (has_seqnum h n) ls). split_and!; [done..|].
    eapply memory_frame; [done|exact Hf|done|exact Hr'| |].
    + simpl. rewrite <- Permutation_middle, <- (Permutation_app_tail _ (find_first_perm _ _ _ Ex)). done.
    + constructor; [|apply Hm]. unfold get_entry. simpl. by rewrite Hnd.
  - left. destruct (fifo_find_remove f n) as [r f'] eqn:Ef. simpl in *. subst r.
    rewrite (remove_first_None _ _ Ex) in Hr'. exists q', h'.
    assert (f' = f) as ->.
    { unfold fifo_find_remove in Ef. by destruct (find_first _ (f_entries f)); simplify_eq. }
    split_and!; [done..|]. eapply memory_frame; [done|exact Hf|done|exact Hr'|done|apply Hm].
Qed.

Lemma memory_write h q f ls x e e' hand :
  memory_rep h q f ls q2 f2 ls2 ((x, e) :: hand) ->
  exists h', set_entry h x e' = Some h' /\ memory_rep h' q f ls q2 f2 ls2 ((x, e') :: hand).
Proof.
  intros Hm. destruct (memory_hand _ _ _ _ _ _ _ Hm) as (Hx & Hx1 & Hx2 & Hx3).
  unfold get_entry in Hx. unfold set_entry. destruct (h !! x) as [nx|] eqn:En; [|done]. simpl.
  eexists. split; [done|]. destruct Hm as [H1 H2 Hh Ho]. split.
  - eapply fifo_rep_ext; [|exact H1]. intros y Hy. rewrite lookup_insert_ne; [done|congruence].
  - eapply fifo_rep_ext; [|exact H2]. intros y Hy. rewrite lookup_insert_ne; [done|congruence].
  - apply Forall_cons in Hh as [_ Hh]. constructor.
    + unfold get_entry. simpl. by rewrite lookup_insert_eq.
    + rewrite Forall_forall in Hh |- *. intros [y ey] Hy. unfold get_entry in *. simpl.
      rewrite lookup_insert_ne; [by apply (Hh (y, ey))|]. intros <-. apply Hx3.
      by apply (list_elem_of_fmap_2 fst _ (x, ey)).
  - eapply entries_owned_dom; [|exact Ho]. by rewrite dom_insert_lookup_L by eauto.
Qed.

Lemma memory_alloc h q f ls x e hand :
  memory_rep h q f ls q2 f2 ls2 hand -> h !! x = None ->
  memory_rep (<[x := {| nd_entry := e; nd_next := NULL |}]> h) q f ls q2 f2 ls2 ((x, e) :: hand).
Proof.
  intros [H1 H2 Hh [Hn Hd]] Hx.
  assert (x ∉ ls ++ ls2 ++ hand.*1) as Hni.
  { intros Hin. apply Hd in Hin. rewrite Hx in Hin. by destruct Hin. }
  rewrite !not_elem_of_app in Hni. destruct Hni as (N1 & N2 & N3). split.
  - eapply fifo_rep_ext; [|exact H1]. intros y Hy. rewrite lookup_insert_ne; [done|congruence].
  - eapply fifo_rep_ext; [|exact H2]. intros y Hy. rewrite lookup_insert_ne; [done|congruence].
  - constructor; [unfold get_entry; simpl; by rewrite lookup_insert_eq|].
    rewrite Forall_forall in Hh |- *. intros [y ey] Hy. unfold get_entry in *. simpl.
    rewrite lookup_insert_ne; [by apply (Hh (y, ey))|]. intros <-. apply N3.
    by apply (list_elem_of_fmap_2 fst _ (x, ey)).
  - apply (entries_owned_perm _ (x :: ls ++ ls2 ++ hand.*1)).
    { simpl. by rewrite !(assoc_L (++)), Permutation_middle. }
    split; [constructor; [set_solver|done]|]. intros y. destruct (decide (y = x)) as [->|].
    + rewrite lookup_insert_eq. split; [intros _; by left|eauto].
    + rewrite lookup_insert_ne by done. rewrite Hd. set_solver.
Qed.

Lemma memory_free h q f ls x e hand :
  memory_rep h q f ls q2 f2 ls2 ((x, e) :: hand) ->
  exists h', free_urb_entry (Some x) h = Some h' /\ memory_rep h' q f ls q2 f2 ls2 hand.
Proof.
  intros Hm. destruct (memory_hand _ _ _ _ _ _ _ Hm) as (Hx & Hx1 & Hx2 & Hx3).
  unfold get_entry in Hx. unfold free_urb_entry. destruct (h !! x) as [nx|] eqn:En; [|done]. simpl.
  eexists. split; [done|]. destruct Hm as [H1 H2 Hh Ho]. split.
  - eapply fifo_rep_ext; [|exact H1]. intros y Hy. rewrite lookup_delete_ne; [done|congruence].
  - eapply fifo_rep_ext; [|exact H2]. intros y Hy. rewrite lookup_delete_ne; [done|congruence].
  - apply Forall_cons in Hh as [_ Hh].
    rewrite Forall_forall in Hh |- *. intros [y ey] Hy. unfold get_entry in *. simpl.
    rewrite lookup_delete_ne; [by apply (Hh (y, ey))|]. intros <-. apply Hx3.
    by apply (list_elem_of_fmap_2 fst _ (x, ey)).
  - apply (entries_owned_perm _ _ (x :: ls ++ ls2 ++ hand.*1)) in Ho.
    2: { simpl. by rewrite !(assoc_L (++)), <- Permutation_middle. }
    destruct Ho as [Hn Hd]. apply NoDup_cons in Hn as [Hxn Hn]. split; [done|]. intros y.
    destruct (decide (y = x)) as [->|].
    + rewrite lookup_delete_eq. split; [by intros [? ?]|done].
    + rewrite lookup_delete_ne by done. rewrite Hd. set_solver.
Qed.
End memory.

(** ** The functions of the handler *)

Section handler.
Context {U : Type} `{WinUsb U}.
Implicit Types (h : heap) (lh : linked_handler) (uh : urb_handler) (lp lc : list Z)
  (hand : list (Z * urb_entry)) (u : U).

Lemma handler_perm h lh uh lp lc hand hand' :
  hand ≡ₚ hand' -> handler_rep h lh uh lp lc hand -> handler_rep h lh uh lp lc hand'.
Proof. intros Hp [Hm ? ? ? ?]. split; try done. by eapply memory_perm. Qed.

Lemma handler_write h lh uh lp lc x e e' hand :
  handler_rep h lh uh lp lc ((x, e) :: hand) ->
  get_entry h x = Some e /\
  exists h', set_entry h x e' = Some h' /\ handler_rep h' lh uh lp lc ((x, e') :: hand).
Proof.
  intros [Hm ? ? ? ?]. split; [by eapply memory_hand|].
  destruct (memory_write _ _ _ _ _ _ _ _ _ e' _ Hm) as (h' & E & Hm'). exists h'. by split; [|split].
Qed.

(** The queues of a handler, in memory and on lists. *)
Lemma handler_queues h h' lh uh lp lc hand lp' lc' hand' qp fp qc fc :
  handler_rep h lh uh lp lc hand -> memory_rep h' qp fp lp' qc fc lc' hand' ->
  handler_rep h' (lh_set_queues lh qp qc) (uh_set_queues uh fp fc) lp' lc' hand'.
Proof. by intros [] ?. Qed.

Lemma handler_push_pending h lh uh lp lc x e hand :
  handler_rep h lh uh lp lc ((x, e) :: hand) ->
  exists h' q', queue_push h (lh_pending lh) x = Some (h', q') /\
    handler_rep h' (lh_set_queues lh q' (lh_completed lh))
      (uh_set_queues uh (fifo_push (uh_pending uh) e) (uh_completed uh)) (lp ++ [x]) lc hand.
Proof.
  intros Hr. destruct (memory_push _ _ _ _ _ _ _ _ _ _ (hr_memory _ _ _ _ _ _ Hr)) as (h' & q' & E & Hm).
  exists h', q'. split; [done|]. by eapply handler_queues.
Qed.

Lemma handler_push_completed h lh uh lp lc x e hand :
  handler_rep h lh uh lp lc ((x, e) :: hand) ->
  exists h' q', queue_push h (lh_completed lh) x = Some (h', q') /\
    handler_rep h' (lh_set_queues lh (lh_pending lh) q')
      (uh_set_queues uh (uh_pending uh) (fifo_push (uh_completed uh) e)) lp (lc ++ [x]) hand.
Proof.
  intros Hr. pose proof (hr_memory _ _ _ _ _ _ Hr) as Hm. apply memory_swap in Hm.
  destruct (memory_push _ _ _ _ _ _ _ _ _ _ Hm) as (h' & q' & E & Hm').
  exists h', q'. split; [done|]. apply memory_swap in Hm'. by eapply handler_queues.
Qed.

Lemma handler_same h lh uh lp lc hand :
  handler_rep h lh uh lp lc hand ->
  handler_rep h (lh_set_queues lh (lh_pending lh) (lh_completed lh)) uh lp lc hand.
Proof. by intros []. Qed.

Lemma linked_cancel_spec h lh uh lp lc x e hand :
  handler_rep h lh uh lp lc ((x, e) :: hand) ->
  exists h' lh' lc', linked_cancel x h lh = Some (h', lh') /\
    handler_rep h' lh' (uh_set_queues uh (uh_pending uh) (fifo_push (uh_completed uh) (cancel_entry e)))
      lp lc' hand.
Proof.
  intros Hr. destruct (handler_write _ _ _ _ _ _ _ (cancel_entry e) _ Hr) as (Eg & h1 & E1 & Hr1).
  destruct (handler_push_completed _ _ _ _ _ _ _ _ Hr1) as (h2 & q2 & E2 & Hr2).
  unfold linked_cancel. rewrite Eg. simpl. rewrite E1. simpl. rewrite E2. simpl. eauto.
Qed.

Lemma linked_unlink_spec h lh uh lp lc hand n :
  handler_rep h lh uh lp lc hand ->
  exists h' lh' lp' lc', 
    linked_unlink n h lh = Some ((urb_handler_unlink (Some uh) n).1, h', lh') /\
    handler_rep h' lh' (default uh (urb_handler_unlink (Some uh) n).2) lp' lc' hand.
Proof.
  intros Hr. unfold linked_unlink, urb_handler_unlink. rewrite (hr_initialized _ _ _ _ _ _ Hr).
  destruct (uh_initialized uh); simpl; [|eauto 10].
  destruct (memory_find_remove _ _ _ _ _ _ _ n _ (hr_memory _ _ _ _ _ _ Hr))
    as [(q' & h' & -> & -> & Hm)|(x & e & f' & h' & q' & ls' & -> & -> & Hm)]; simpl.
  - do 4 eexists. split; [done|]. by destruct Hr.
  - assert (handler_rep h' (lh_set_queues lh q' (lh_completed lh))
      (uh_set_queues uh f' (uh_completed uh)) ls' lc ((x, e) :: hand)) as Hr1 by (by eapply handler_queues).
    destruct (linked_cancel_spec _ _ _ _ _ _ _ _ Hr1) as (h2 & lh2 & lc2 & -> & Hr2). simpl. eauto 10.
Qed.

Lemma linked_get_completed_spec h lh uh lp lc hand :
  handler_rep h lh uh lp lc hand ->
  exists h' lh' lc' taken,
    linked_get_completed h lh = Some (head taken.*1, h', lh') /\
    taken.*2 = option_list (urb_handler_get_completed (Some uh)).1 /\
    handler_rep h' lh' (default uh (urb_handler_get_completed (Some uh)).2) lp lc' (taken ++ hand).
Proof.
  intros Hr. unfold linked_get_completed, urb_handler_get_completed.
  rewrite (hr_initialized _ _ _ _ _ _ Hr).
  destruct (uh_initialized uh); simpl; [|by exists h, lh, lc, []].
  pose proof (hr_memory _ _ _ _ _ _ Hr) as Hm. apply memory_swap in Hm.
  destruct (memory_pop _ _ _ _ _ _ _ _ Hm)
    as [(-> & ->)|(x & e & f' & h' & q' & ls' & -> & -> & Hm')]; simpl.
  - exists h, (lh_set_queues lh (lh_pending lh) (lh_completed lh)), lc, []. by destruct Hr.
  - exists h', (lh_set_queues lh (lh_pending lh) q'), ls', [(x, e)]. split_and!; [done..|].
    apply memory_swap in Hm'. by eapply handler_queues.
Qed.

Lemma linked_submit_spec h lh uh lp lc hand alloc x memory now hd data n :
  handler_rep h lh uh lp lc hand -> h !! x = None ->
  exists h' lh' lp',
    linked_submit (if alloc : bool then Some x else NULL) memory now hd data n h lh =
      Some ((urb_handler_submit alloc memory now (Some uh) (Some hd) data n).1, h', lh') /\
    handler_rep h' lh' (default uh (urb_handler_submit alloc memory now (Some uh) (Some hd) data n).2)
      lp' lc hand.
Proof.
  intros Hr Hx. unfold linked_submit, urb_handler_submit. rewrite (hr_initialized _ _ _ _ _ _ Hr).
  destruct (uh_initialized uh); simpl; [|eauto 10].
  destruct alloc; simpl; [|eauto 10].
  set (filled b := {| ent_urb := submit_urb_of hd b; ent_seqnum := hc_seqnum (h_common hd);
                      ent_devid := hc_devid (h_common hd); ent_submit_time := now;
                      ent_in_progress := false; ent_completed := false |}).
  set (h1 := <[x := _]> h).
  assert (handler_rep h1 lh uh lp lc ((x, entry_zero) :: hand)) as Hr1.
  { destruct Hr as [Hm ? ? ? ?]. split; try done. by apply memory_alloc. }
  destruct (handler_write _ _ _ _ _ _ _ (filled NULL) _ Hr1) as (_ & h2 & E2 & Hr2).
  fold (filled NULL). rewrite E2. simpl.
  assert (forall h b, handler_rep h lh uh lp lc ((x, filled b) :: hand) ->
    exists h' lh' lp',
      ('(h, pending) ← queue_push h (lh_pending lh) x;
       Some (ERR_SUCCESS, h, lh_set_queues lh pending (lh_completed lh))) = Some (ERR_SUCCESS, h', lh') /\
      handler_rep h' lh' (uh_set_queues uh (fifo_push (uh_pending uh) (filled b)) (uh_completed uh))
        lp' lc hand) as Hpush.
  { intros h0 b Hr0. destruct (handler_push_pending _ _ _ _ _ _ _ _ Hr0) as (h' & q' & -> & Hr').
    simpl. eauto 10. }
  destruct (_ >? 0); [|by apply Hpush].
  destruct memory as [m|]; simpl.
  2: { destruct Hr2 as [Hm ? ? ? ?]. destruct (memory_free _ _ _ _ _ _ _ _ _ _ Hm) as (h3 & E3 & Hm3).
       simpl in E3. rewrite E3. simpl. exists h3, lh, lp. by split; [|split]. }
  destruct (handler_write _ _ _ _ _ _ _ (filled (Some m)) _ Hr2) as (_ & h3 & E3 & Hr3).
  fold (filled (Some m)). rewrite E3. simpl. destruct data as [d|]; [|by apply Hpush].
  destruct (_ && _); [|by apply Hpush].
  set (b := take _ d ++ _).
  destruct (handler_write _ _ _ _ _ _ _ (filled (Some b)) _ Hr3) as (_ & h4 & E4 & Hr4).
  fold (filled (Some b)). rewrite E4. simpl. by apply Hpush.
Qed.

Lemma linked_cancel_loop_spec fuel fuel' h lh uh lp lc hand :
  handler_rep h lh uh lp lc hand ->
  (length (f_entries (uh_pending uh)) < fuel)%nat -> (length (f_entries (uh_pending uh)) < fuel')%nat ->
  exists h' lh' lp' lc', linked_cancel_loop fuel h lh = Some (h', lh') /\
    handler_rep h' lh' (cancel_loop fuel' uh) lp' lc' hand.
Proof.
  revert fuel' h lh uh lp lc.
  induction fuel as [|fuel IH]; intros fuel' h lh uh lp lc Hr Hf Hf'; [lia|].
  destruct fuel' as [|fuel']; [lia|]. rewrite cancel_loop_S. simpl.
  destruct (memory_pop _ _ _ _ _ _ _ _ (hr_memory _ _ _ _ _ _ Hr))
    as [(-> & ->)|(x & e & f' & h' & q' & ls' & Ef & -> & Hm')]; simpl.
  - do 4 eexists. split; [done|]. by apply handler_same.
  - rewrite Ef.
    assert (handler_rep h' (lh_set_queues lh q' (lh_completed lh))
      (uh_set_queues uh f' (uh_completed uh)) ls' lc ((x, e) :: hand)) as Hr1 by (by eapply handler_queues).
    destruct (linked_cancel_spec _ _ _ _ _ _ _ _ Hr1) as (h2 & lh2 & lc2 & -> & Hr2). simpl.
    eapply IH; [exact Hr2|simpl..]; unfold fifo_pop in Ef;
      destruct (f_entries (uh_pending uh)) as [|e0 es]; simplify_eq/=; lia.
Qed.

Lemma fifo_length h q ls f : fifo_rep h q ls f -> (length (f_entries f) <= size h)%nat.
Proof.
  intros (Hq & Hc & _). rewrite <- Hc, (contents_length _ _ _ (rep_chain _ _ _ Hq)).
  by eapply queue_length_size.
Qed.

Lemma linked_cancel_all_spec h lh uh lp lc hand :
  handler_rep h lh uh lp lc hand ->
  exists h' lh' lp' lc', linked_cancel_all h lh = Some (h', lh') /\
    handler_rep h' lh' (cancel_loop (S (length (f_entries (uh_pending uh)))) uh) lp' lc' hand.
Proof.
  intros Hr. unfold linked_cancel_all. pose proof (fifo_length _ _ _ _ (mr_first _ _ _ _ _ _ _ _ (hr_memory _ _ _ _ _ _ Hr))).
  apply linked_cancel_loop_spec with lp lc; [done|lia..].
Qed.

Lemma memory_notify h q f ls q2 f2 ls2 hand b :
  memory_rep h q f ls q2 f2 ls2 hand ->
  memory_rep h (notify q b) {| f_entries := f_entries f; f_count := f_count f; f_notify := b |} ls q2 f2 ls2 hand.
Proof.
  intros [([] & ? & ? & ?) ? ? ?]. split; [|done..]. split_and!; [by split|done..].
Qed.

Lemma linked_worker_spec wf h lh uh lp lc lw w hw rest u :
  handler_rep h lh uh lp lc (hw ++ rest) -> worker_rep lw w hw ->
  exists h' lh' lw' lp' lc' hw',
    linked_worker_step wf h lh lw u = (Some (h', lh', lw'), (worker_step wf uh w u).2) /\
    handler_rep h' lh' (worker_step wf uh w u).1.1 lp' lc' (hw' ++ rest) /\
    worker_rep lw' (worker_step wf uh w u).1.2 hw'.
Proof.
  intros Hr Hw. destruct lw as [| |x|], w as [| |e|]; try done; simpl in *; subst; simpl.
  - by exists h, lh, LW_none, lp, lc, [].
  - rewrite (hr_running _ _ _ _ _ _ Hr). destruct (uh_running uh); simpl.
    2: { by exists h, lh, LW_exited, lp, lc, []. }
    destruct (memory_pop _ _ _ _ _ _ _ _ (hr_memory _ _ _ _ _ _ Hr))
      as [(-> & ->)|(x & e & f' & h' & q' & ls' & -> & -> & Hm')]; simpl.
    + destruct wf; simpl; [by exists h, lh, LW_exited, lp, lc, []|].
      eexists _, _, LW_loop, lp, lc, []. split_and!; [done| |done]. simpl.
      eapply handler_queues; [done|]. apply memory_notify. by apply Hr.
    + assert (handler_rep h' (lh_set_queues lh q' (lh_completed lh))
        (uh_set_queues uh f' (uh_completed uh)) ls' lc ((x, e) :: rest)) as Hr1 by (by eapply handler_queues).
      destruct (handler_write _ _ _ _ _ _ _ (ent_set_urb e (ent_urb e) true (ent_completed e)) _ Hr1)
        as (-> & h2 & E2 & Hr2). simpl. rewrite E2.
      eexists _, _, (LW_holding x), ls', lc, [(x, _)]. split_and!; [reflexivity|exact Hr2|done].
  - unfold linked_execute, worker_execute. unfold mbind, M_bind.
    destruct (handler_write _ _ _ _ _ _ _ e _ Hr) as (-> & _).
    rewrite (hr_device _ _ _ _ _ _ Hr).
    destruct (usb_submit_urb (uh_device uh) (Some (ent_urb e)) u) as [[result r] u'].
    unfold mret, M_ret. simpl. set (urb := if negb _ then _ else _).
    destruct (handler_write _ _ _ _ _ _ _ (ent_set_urb e urb false true) _ Hr) as (_ & h2 & -> & Hr2).
    simpl. destruct (handler_push_completed _ _ _ _ _ _ _ _ Hr2) as (h3 & q3 & -> & Hr3). simpl.
    eexists _, _, LW_loop, _, _, []. by split_and!.
  - by exists h, lh, LW_exited, lp, lc, [].
Qed.

Lemma linked_join_spec fuel h lh uh lp lc lw w hw rest u :
  handler_rep h lh uh lp lc (hw ++ rest) -> worker_rep lw w hw ->
  exists h' lh' lw' lp' lc' hw',
    linked_join fuel h lh lw u = (Some (h', lh', lw'), (worker_join fuel uh w u).2) /\
    handler_rep h' lh' (worker_join fuel uh w u).1.1 lp' lc' (hw' ++ rest) /\
    worker_rep lw' (worker_join fuel uh w u).1.2 hw'.
Proof.
  revert h lh uh lp lc lw w hw u. induction fuel as [|fuel IH]; intros h lh uh lp lc lw w hw u Hr Hw.
  - by exists h, lh, lw, lp, lc, hw.
  - cbn [linked_join worker_join]. unfold mbind, M_bind.
    destruct (linked_worker_spec false _ _ _ _ _ _ _ _ _ u Hr Hw)
      as (h1 & lh1 & lw1 & lp1 & lc1 & hw1 & E1 & Hr1 & Hw1).
    rewrite E1. destruct (worker_step false uh w u) as [[uh1 w1] u1]. simpl in *. by eapply IH.
Qed.

Lemma linked_stop_spec h lh uh lp lc lw w hw rest u :
  handler_rep h lh uh lp lc (hw ++ rest) -> worker_rep lw w hw ->
  let '((r, w'), u') := urb_handler_stop (Some uh) w u in
  exists h' lh' lw' lp' lc' hw',
    linked_stop h lh lw u = (Some (h', lh', lw'), u') /\ is_Some r /\
    handler_rep h' lh' (default uh r) lp' lc' (hw' ++ rest) /\ worker_rep lw' w' hw'.
Proof.
  intros Hr Hw. unfold urb_handler_stop, linked_stop. rewrite (hr_running _ _ _ _ _ _ Hr).
  destruct (uh_running uh); [|exists h, lh, lw, lp, lc, hw; eauto]. cbn [negb].
  unfold mbind, M_bind.
  assert (handler_rep h (lh_set_running lh (notify (lh_pending lh) true) false) (stop_request uh)
    lp lc (hw ++ rest)) as Hr0.
  { destruct Hr as [Hm ? ? ? ?]. split; try done. by apply memory_notify. }
  destruct (linked_join_spec join_fuel _ _ _ _ _ _ _ _ _ u Hr0 Hw)
    as (h1 & lh1 & lw1 & lp1 & lc1 & hw1 & E1 & Hr1 & Hw1).
  rewrite E1. destruct (worker_join join_fuel (stop_request uh) w u) as [[uh1 w1] u1].
  unfold mret, M_ret. simpl in *.
  destruct (linked_cancel_all_spec _ _ _ _ _ _ Hr1) as (h2 & lh2 & lp2 & lc2 & -> & Hr2). simpl. eauto 10.
Qed.

Lemma memory_cleanup h q f ls q2 f2 ls2 hand :
  memory_rep h q f ls q2 f2 ls2 hand ->
  exists h' q', queue_cleanup h q = Some (h', q') /\
    memory_rep h' (notify q' false) fifo_empty [] q2 f2 ls2 hand.
Proof.
  intros [H1 H2 Hh Ho]. destruct (cleanup_empties h q ls) as (h' & q' & E & Hq & Hin & Hout); [apply H1|].
  exists h', q'. split; [done|].
  assert (forall x, x ∈ ls2 ++ hand.*1 -> x ∉ ls) as Hd.
  { intros x Hx Hx'. destruct Ho as [Hn _]. apply NoDup_app in Hn as (_ & Hd & _). by apply (Hd x). }
  split.
  - destruct Hq. by split_and!.
  - eapply fifo_rep_ext; [|exact H2]. intros x Hx. apply Hout, Hd. set_solver.
  - rewrite Forall_forall in Hh |- *. intros [x e] Hx. unfold get_entry in *. simpl.
    rewrite Hout; [by apply (Hh (x, e))|]. apply Hd, elem_of_app. right.
    by apply (list_elem_of_fmap_2 fst _ (x, e)).
  - destruct Ho as [Hn Hdom]. apply NoDup_app in Hn as (_ & _ & Hn). split; [done|]. simpl. intros x.
    destruct (decide (x ∈ ls)) as [Hx|Hx].
    + rewrite Hin by done. split; [by intros [? ?]|]. intros Hx'. by destruct (Hd x Hx').
    + rewrite Hout by done. rewrite Hdom. set_solver.
Qed.

Lemma linked_cleanup_spec h lh uh lp lc lw w hw rest u :
  handler_rep h lh uh lp lc (hw ++ rest) -> worker_rep lw w hw ->
  let '((r, w'), u') := urb_handler_cleanup (Some uh) w u in
  exists h' lh' lw' lp' lc' hw',
    linked_cleanup h lh lw u = (Some (h', lh', lw'), u') /\
    handler_rep h' lh' (default uh r) lp' lc' (hw' ++ rest) /\ worker_rep lw' w' hw'.
Proof.
  intros Hr Hw. unfold urb_handler_cleanup, linked_cleanup. rewrite (hr_initialized _ _ _ _ _ _ Hr).
  destruct (uh_initialized uh); [|by exists h, lh, lw, lp, lc, hw]. cbn [negb].
  unfold mbind, M_bind. pose proof (linked_stop_spec _ _ _ _ _ _ _ _ _ u Hr Hw) as Hs.
  destruct (urb_handler_stop (Some uh) w u) as [[r w1] u1] eqn:Es.
  destruct Hs as (h1 & lh1 & lw1 & lp1 & lc1 & hw1 & -> & [uh1 ->] & Hr1 & Hw1). unfold mret, M_ret. simpl.
  destruct (memory_cleanup _ _ _ _ _ _ _ _ (hr_memory _ _ _ _ _ _ Hr1)) as (h2 & q2 & -> & Hm2). simpl.
  apply memory_swap in Hm2.
  destruct (memory_cleanup _ _ _ _ _ _ _ _ Hm2) as (h3 & q3 & -> & Hm3). simpl.
  apply memory_swap in Hm3.
  do 6 eexists. split_and!; [done| |done]. by destruct Hr1.
Qed.
End handler.

(** ** The system *)

Section system.
Context {U : Type} `{WinUsb U}.
Context (new : heap -> Z) (new_free : forall h, h !! new h = None).
Implicit Types (s : linked_sys U) (a : list_sys U).

#[local] Arguments urb_handler_submit : simpl never.
#[local] Arguments urb_handler_unlink : simpl never.
#[local] Arguments urb_handler_get_completed : simpl never.
#[local] Arguments urb_handler_stop {_ _} _ _ _ : simpl never.
#[local] Arguments urb_handler_cleanup {_ _} _ _ _ : simpl never.

(** A handler that is not running has no worker with an entry in its hands. *)
Definition quiet (uh : urb_handler) (w : worker) : Prop := uh_running uh = false -> held w = [].

Lemma worker_step_running wf uh w (u : U) :
  uh_running (worker_step wf uh w u).1.1 = uh_running uh /\
  (uh_running uh = false -> (worker_step wf uh w u).1.2 =
     match w with W_none => W_none | W_holding _ => W_loop | _ => W_exited end).
Proof.
  destruct w as [| |e|]; simpl; try done.
  - destruct (uh_running uh) eqn:E; simpl; [|by rewrite E].
    destruct (fifo_pop _) as [[e|] f]; simpl; [by rewrite E|]. by destruct wf; simpl; rewrite E.
  - unfold worker_execute, mbind, M_bind.
    destruct (usb_submit_urb _ _ _) as [[result r] u']. done.
Qed.

Lemma join_quiet uh w (u : U) :
  uh_running uh = false ->
  uh_running (worker_join join_fuel uh w u).1.1 = false /\
  held (worker_join join_fuel uh w u).1.2 = [].
Proof.
  intros Hr. unfold join_fuel. cbn [worker_join]. unfold mbind, M_bind, mret, M_ret.
  destruct (worker_step_running false uh w u) as [R1 W1].
  destruct (worker_step false uh w u) as [[uh1 w1] u1]. simpl in *. specialize (W1 Hr).
  rewrite Hr in R1. destruct (worker_step_running false uh1 w1 u1) as [R2 W2].
  destruct (worker_step false uh1 w1 u1) as [[uh2 w2] u2]. simpl in *. specialize (W2 R1).
  split; [congruence|]. rewrite W2, W1. by destruct w.
Qed.

Lemma cancel_loop_running fuel uh : uh_running (cancel_loop fuel uh) = uh_running uh.
Proof.
  revert uh. induction fuel as [|fuel IH]; intros uh; [done|]. rewrite cancel_loop_S.
  destruct (fifo_pop _) as [[e|] f]; [|done]. by rewrite IH.
Qed.

Lemma stop_quiet uh w (u : U) :
  quiet uh w ->
  let r := (urb_handler_stop (Some uh) w u).1 in quiet (default uh r.1) r.2.
Proof.
  intros Hq. unfold urb_handler_stop. destruct (uh_running uh) eqn:Er; [|exact Hq]. cbn [negb].
  unfold mbind, M_bind, mret, M_ret.
  destruct (join_quiet (stop_request uh) w u) as [R1 W1]; [done|].
  destruct (worker_join join_fuel (stop_request uh) w u) as [[uh1 w1] u1]. by intros _.
Qed.

Lemma submit_running ok memory now uh hd data n :
  uh_running (default uh (urb_handler_submit ok memory now (Some uh) hd data n).2) = uh_running uh.
Proof.
  unfold urb_handler_submit. destruct hd as [hd|]; [|done].
  destruct (uh_initialized uh), ok; simpl; try done. destruct (_ >? 0); [|done].
  destruct memory; [|done]. destruct data; [|done]. by destruct (_ && _).
Qed.

Lemma list_op_quiet (o : operation U) a :
  quiet (a_handler a) (a_worker a) -> quiet (a_handler (list_op o a).2) (a_worker (list_op o a).2).
Proof.
  intros Hq. destruct o as [ok memory now hd data n|n| | |created| | | |wf|d u]; cbn [list_op].
  - pose proof (submit_running ok memory now (a_handler a) (Some hd) data n) as Hs.
    destruct (urb_handler_submit _ _ _ _ _ _ _) as [e r]. unfold quiet in *. simpl in *. by rewrite Hs.
  - unfold urb_handler_unlink. destruct (uh_initialized _); simpl; [|done].
    by destruct (fifo_find_remove _ _) as [[e|] f].
  - unfold urb_handler_get_completed. destruct (uh_initialized _); simpl; [|done].
    by destruct (fifo_pop _) as [[e|] f].
  - done.
  - unfold urb_handler_start. destruct (uh_initialized _); simpl; [|done].
    destruct (uh_running _) eqn:Er; simpl; [done|]. destruct created; simpl; [done|].
    intros _. by apply Hq.
  - pose proof (stop_quiet _ _ (a_usb a) Hq) as Hs. by destruct (urb_handler_stop _ _ _) as [[r w] u].
  - unfold quiet. simpl. by rewrite cancel_loop_running.
  - unfold urb_handler_cleanup. destruct (uh_initialized _); cbn [negb]; [|exact Hq].
    unfold mbind, M_bind. pose proof (stop_quiet _ _ (a_usb a) Hq) as Hs.
    destruct (urb_handler_stop _ _ _) as [[r w] u]. simpl in *. destruct r; exact Hs.
  - destruct (worker_step_running wf (a_handler a) (a_worker a) (a_usb a)) as [R W].
    destruct (worker_step _ _ _ _) as [[uh w] u]. simpl in *. intros Hr. simpl in Hr. rewrite Hr in R.
    simpl. rewrite W by done. specialize (Hq (eq_sym R)). by destruct (a_worker a).
  - done.
Qed.

Lemma worker_rep_held lw w hw : worker_rep lw w hw -> held w = hw.*2.
Proof. destruct lw, w; simpl; try done; by intros ->. Qed.

Lemma worker_rep_holding lw w hw : worker_rep lw w hw -> holding lw = hw.*1.
Proof. destruct lw, w; simpl; try done; by intros ->. Qed.

Lemma sys_rep_intro h lh lw (u : U) out uh w lp lc hw ho :
  handler_rep h lh uh lp lc (hw ++ ho) -> worker_rep lw w hw -> out = ho.*1 ->
  sys_rep {| l_heap := h; l_handler := lh; l_worker := lw; l_usb := u; l_out := out |}
          {| a_handler := uh; a_worker := w; a_usb := u; a_out := ho.*2 |}.
Proof. intros ? ? ->. by exists lp, lc, hw, ho. Qed.

Lemma linked_op_spec (o : operation U) s a :
  sys_rep s a -> quiet (a_handler a) (a_worker a) ->
  exists s', linked_op new o s = Some ((list_op o a).1, s') /\ sys_rep s' (list_op o a).2.
Proof.
  destruct s as [h lh lw u out], a as [uh w u' out'].
  intros (lp & lc & hw & ho & Hr & Hw & Eo & Eo' & Eu) Hq. simpl in *. subst.
  destruct o as [ok memory now hd data n|n| | |created| | | |wf|d u]; simpl.
  - destruct (linked_submit_spec _ _ _ _ _ _ ok (new h) memory now hd data n Hr (new_free h))
      as (h' & lh' & lp' & -> & Hr').
    destruct (urb_handler_submit _ _ _ _ _ _ _) as [e r]. simpl in *.
    eexists. split; [done|]. by eapply sys_rep_intro.
  - destruct (linked_unlink_spec _ _ _ _ _ _ n Hr) as (h' & lh' & lp' & lc' & -> & Hr').
    destruct (urb_handler_unlink _ _) as [e r]. simpl in *.
    eexists. split; [done|]. by eapply sys_rep_intro.
  - destruct (linked_get_completed_spec _ _ _ _ _ _ Hr) as (h' & lh' & lc' & taken & -> & Et & Hr').
    destruct (urb_handler_get_completed _) as [e r]. simpl in *.
    destruct taken as [|[x ex] taken], e as [e|]; simplify_eq/=.
    + eexists. split; [done|]. rewrite app_nil_r. by eapply sys_rep_intro.
    + apply fmap_nil_inv in H1 as ->. simpl in *.
      pose proof (mr_hand _ _ _ _ _ _ _ _ (hr_memory _ _ _ _ _ _ Hr')) as Hh.
      apply Forall_cons in Hh as [Hx _]. simpl in Hx. rewrite Hx. simpl. eexists. split; [done|].
      replace (ho.*2 ++ [e]) with ((ho ++ [(x, e)]).*2) by (by rewrite fmap_app). eapply sys_rep_intro; [|done|by rewrite fmap_app].
      eapply handler_perm; [|exact Hr'].
      by rewrite (assoc_L (++)), <- Permutation_cons_append.
  - destruct ho as [|[x e] ho]; simpl.
    + eexists. split; [done|]. simpl. by apply (sys_rep_intro _ _ _ _ _ _ _ lp lc hw []).
    + assert (handler_rep h lh uh lp lc ((x, e) :: hw ++ ho)) as [Hm ? ? ? ?].
      { eapply handler_perm; [|exact Hr]. by rewrite <- Permutation_middle. }
      destruct (memory_free _ _ _ _ _ _ _ _ _ _ Hm) as (h' & E & Hm'). simpl in E. rewrite E. simpl.
      eexists. split; [done|]. by eapply sys_rep_intro.
  - unfold urb_handler_start, linked_start.
    rewrite (hr_initialized _ _ _ _ _ _ Hr), (hr_running _ _ _ _ _ _ Hr).
    destruct (uh_initialized uh); simpl; [|eexists; split; [done|]; by eapply sys_rep_intro].
    destruct (uh_running uh) eqn:Er; simpl; [eexists; split; [done|]; by eapply sys_rep_intro|].
    destruct created; simpl; (eexists; split; [done|]).
    + specialize (Hq Er). rewrite (worker_rep_held _ _ _ Hw) in Hq. apply fmap_nil_inv in Hq as ->.
      apply (sys_rep_intro _ _ _ _ _ _ _ lp lc []); [|done..]. by destruct Hr.
    + eapply sys_rep_intro; [|done..]. by destruct Hr.
  - pose proof (linked_stop_spec _ _ _ _ _ _ _ _ _ u' Hr Hw) as Hs.
    destruct (urb_handler_stop _ _ _) as [[r w'] u2].
    destruct Hs as (h' & lh' & lw' & lp' & lc' & hw' & -> & _ & Hr' & Hw'). simpl.
    eexists. split; [done|]. by eapply sys_rep_intro.
  - destruct (linked_cancel_all_spec _ _ _ _ _ _ Hr) as (h' & lh' & lp' & lc' & -> & Hr'). simpl.
    eexists. split; [done|]. by eapply sys_rep_intro.
  - pose proof (linked_cleanup_spec _ _ _ _ _ _ _ _ _ u' Hr Hw) as Hs.
    destruct (urb_handler_cleanup _ _ _) as [[r w'] u2].
    destruct Hs as (h' & lh' & lw' & lp' & lc' & hw' & -> & Hr' & Hw'). simpl.
    eexists. split; [done|]. by eapply sys_rep_intro.
  - destruct (linked_worker_spec wf _ _ _ _ _ _ _ _ _ u' Hr Hw)
      as (h' & lh' & lw' & lp' & lc' & hw' & E & Hr' & Hw'). rewrite E.
    destruct (worker_step wf uh w u') as [[uh' w'] u2]. simpl in *.
    eexists. split; [done|]. by eapply sys_rep_intro.
  - eexists. split; [done|]. eapply sys_rep_intro; [|done..]. by destruct Hr.
Qed.

Lemma linked_run_spec (os : list (operation U)) s a :
  sys_rep s a -> quiet (a_handler a) (a_worker a) ->
  exists s', linked_run new os s = Some ((list_run os a).1, s') /\ sys_rep s' (list_run os a).2 /\
    quiet (a_handler (list_run os a).2) (a_worker (list_run os a).2).
Proof.
  revert s a. induction os as [|o os IH]; intros s a Hs Hq; simpl; [eauto|].
  destruct (linked_op_spec o s a Hs Hq) as (s1 & -> & Hs1). pose proof (list_op_quiet o a Hq) as Hq1.
  destruct (list_op o a) as [ans a1]. simpl in *.
  destruct (IH s1 a1 Hs1 Hq1) as (s2 & -> & Hs2 & Hq2).
  destruct (list_run os a1) as [answers a2]. simpl in *. eauto.
Qed.

(** A list in memory that has no entries has no nodes. *)
Lemma fifo_rep_empty h q ls f : fifo_rep h q ls f -> f_entries f = [] -> ls = [].
Proof.
  intros (Hq & Hc & _) E. rewrite E in Hc. apply (f_equal length) in Hc.
  rewrite (contents_length _ _ _ (rep_chain _ _ _ Hq)) in Hc. by destruct ls.
Qed.

Lemma stop_not_running uh w (u : U) :
  exists uh', (urb_handler_stop (Some uh) w u).1.1 = Some uh' /\ uh_running uh' = false.
Proof.
  unfold urb_handler_stop. destruct (uh_running uh) eqn:Er; [|by exists uh]. cbn [negb].
  unfold mbind, M_bind, mret, M_ret.
  destruct (join_quiet (stop_request uh) w u) as [R1 _]; [done|].
  destruct (worker_join join_fuel (stop_request uh) w u) as [[uh1 w1] u1]. simpl in *.
  eexists. split; [done|]. by rewrite cancel_loop_running.
Qed.

(** What is left when the handler has been cleaned up. *)
Lemma cleanup_frees_all s a ans s' :
  sys_rep s a -> quiet (a_handler a) (a_worker a) -> lh_initialized (l_handler s) = true ->
  linked_op new O_cleanup s = Some (ans, s') -> owns (l_heap s') (l_out s').
Proof.
  intros Hs Hq Hin E. destruct (linked_op_spec O_cleanup _ _ Hs Hq) as (s1 & E1 & Hs1).
  rewrite E in E1. injection E1 as _ <-. pose proof (list_op_quiet O_cleanup _ Hq) as Hq1.
  destruct Hs as (lp & lc & hw & ho & Hr & _). rewrite (hr_initialized _ _ _ _ _ _ Hr) in Hin. clear Hr.
  destruct Hs1 as (lp1 & lc1 & hw1 & ho1 & [[H1 H2 _ Ho] _ _ _ _] & Hw1 & -> & _).
  simpl in *. unfold urb_handler_cleanup in *. rewrite Hin in *. cbn [negb] in *.
  unfold mbind, M_bind in *. pose proof (stop_not_running (a_handler a) (a_worker a) (a_usb a)) as (uh1 & E1 & Hn).
  destruct (urb_handler_stop _ _ _) as [[r w] u]. unfold mret, M_ret in *. simpl in *.
  subst r.
  simpl in *. apply fifo_rep_empty in H1 as ->; [|done]. apply fifo_rep_empty in H2 as ->; [|done].
  specialize (Hq1 Hn). rewrite (worker_rep_held _ _ _ Hw1) in Hq1. apply fmap_nil_inv in Hq1 as ->.
  exact Ho.
Qed.

(** The two systems after [urb_handler_init]. *)
Definition linked_initial (d : ptr usb_device) (u : U) : linked_sys U :=
  {| l_heap := ∅; l_handler := linked_init d; l_worker := LW_none; l_usb := u; l_out := [] |}.

Definition list_initial (uh : urb_handler) (u : U) : list_sys U :=
  {| a_handler := uh; a_worker := W_none; a_usb := u; a_out := [] |}.

Lemma initial_rep h0 d uh (u : U) :
  urb_handler_init (0, 0) (0, 0) h0 (Some d) = (ERR_SUCCESS, Some uh) ->
  sys_rep (linked_initial (Some d) u) (list_initial uh u) /\ quiet uh W_none.
Proof.
  unfold urb_handler_init. destruct h0; [|done]. simpl. intros [= <-]. split; [|done].
  exists [], [], [], []. split_and!; [|done..]. split; [|done..]. split.
  - split_and!; [split; [done|constructor|done..]|done..].
  - split_and!; [split; [done|constructor|done..]|done..].
  - constructor.
  - split; [constructor|]. simpl. intros x. rewrite lookup_empty, elem_of_nil. split; [by intros []|done].
Qed.
End system.

(** ** Properties *)

Section properties.
  Context {U : Type} `{WinUsb U}.

(** C10: The handler in memory refines the handler on lists.  Whatever the session calls and
    however the worker's turns come in between, the functions on linked, allocated
    entries never use a pointer to memory that is not allocated, and report the same
    codes and hand out the same entries as the functions of [UrbHandler] on lists; the
    queues, the worker's hands and what was handed out then hold the same entries. *)
Theorem linked_handler_refines new h0 d uh (u : U) os :
  (forall h, h !! new h = None) ->
  urb_handler_init (0, 0) (0, 0) h0 (Some d) = (ERR_SUCCESS, Some uh) ->
  exists s, linked_run new os (linked_initial (Some d) u) = Some ((list_run os (list_initial uh u)).1, s) /\
    sys_rep s (list_run os (list_initial uh u)).2.
Proof.
  intros Hn Hi. destruct (initial_rep _ _ _ u Hi) as [Hr Hq].
  destruct (linked_run_spec new Hn os _ _ Hr Hq) as (s & E & Hs & _). eauto.
Qed.

(** C27: Every entry has one owner.  At every moment the allocated entries are, each once,
    those linked in the pending queue, those linked in the completed queue, the one the
    worker is executing and those handed out and not yet freed; and once the handler has
    been cleaned up, only those handed out are left. *)
Theorem linked_handler_owns_memory new h0 d uh (u : U) os answers s :
  (forall h, h !! new h = None) ->
  urb_handler_init (0, 0) (0, 0) h0 (Some d) = (ERR_SUCCESS, Some uh) ->
  linked_run new os (linked_initial (Some d) u) = Some (answers, s) ->
  (exists lp lc, queue_rep (l_heap s) (lh_pending (l_handler s)) lp /\
     queue_rep (l_heap s) (lh_completed (l_handler s)) lc /\
     owns (l_heap s) (lp ++ lc ++ holding (l_worker s) ++ l_out s)) /\
  forall a s', linked_op new O_cleanup s = Some (a, s') -> lh_initialized (l_handler s) = true ->
    owns (l_heap s') (l_out s').
Proof.
  intros Hn Hi E. destruct (initial_rep _ _ _ u Hi) as [Hr Hq].
  destruct (linked_run_spec new Hn os _ _ Hr Hq) as (s1 & E1 & Hs & Hq1).
  rewrite E in E1. injection E1 as _ <-. split.
  - destruct Hs as (lp & lc & hw & ho & [[H1 H2 _ Ho] _ _ _ _] & Hw & -> & _). exists lp, lc.
    split_and!; [apply H1|apply H2|]. rewrite fmap_app in Ho.
    by rewrite (worker_rep_holding _ _ _ Hw).
  - intros ans s' Ec Hin. by eapply cleanup_frees_all.
Qed.
End properties.

(** ** Witnesses *)

(** An allocator: the first address that is free. *)
Definition first_free (h : heap) : Z := fresh (dom h : gset Z).

Lemma first_free_free h : h !! first_free h = None.
Proof. apply (not_elem_of_dom (D := gset Z)). unfold first_free. exact (is_fresh (dom h : gset Z)). Qed.

(** Two commands; the first is executed and handed out, the second is cancelled when the
    handler stops; one entry is freed. *)
Definition example_operations : list (operation SimUsb.usb) :=
  [O_start true;
   O_submit true example_memory 0 (example_command 7 1) NULL 0;
   O_submit true example_memory 0 (example_command 8 1) NULL 0;
   O_worker false; O_worker false; O_get_completed; O_free; O_stop; O_get_completed].

Definition example_linked : linked_sys SimUsb.usb :=
  linked_initial (Some example_open) (SimUsb.start [IoOk [1; 2; 3; 4]]).

Lemma linked_handler_refines_witness :
  exists s,
    map (fun a => ent_seqnum <$> a.2) (list_run example_operations
      (list_initial example_handler (SimUsb.start [IoOk [1; 2; 3; 4]]))).1 =
      [None; None; None; None; None; Some 7; None; None; Some 8] /\
    linked_run first_free example_operations example_linked =
      Some ((list_run example_operations
        (list_initial example_handler (SimUsb.start [IoOk [1; 2; 3; 4]]))).1, s).
Proof.
  destruct (linked_handler_refines first_free (Some example_handler) example_open example_handler
    (SimUsb.start [IoOk [1; 2; 3; 4]]) example_operations first_free_free eq_refl) as (s & E & _).
  exists s. split; [vm_compute; reflexivity|exact E].
Defined.

Lemma linked_handler_owns_memory_witness :
  exists answers s, linked_run first_free example_operations example_linked = Some (answers, s) /\
    length (l_out s) = 1%nat /\
    exists lp lc, owns (l_heap s) (lp ++ lc ++ holding (l_worker s) ++ l_out s).
Proof.
  destruct (linked_run first_free example_operations example_linked) as [[answers s]|] eqn:E.
  2: { vm_compute in E. discriminate. }
  exists answers, s. split; [reflexivity|]. split.
  - vm_compute in E. by simplify_eq.
  - destruct (linked_handler_owns_memory first_free (Some example_handler) example_open example_handler
      (SimUsb.start [IoOk [1; 2; 3; 4]]) example_operations answers s first_free_free eq_refl E)
      as ((lp & lc & _ & _ & Ho) & _).
    by exists lp, lc.
Defined.
