(* ===== verification/ClientManager.v ===== *)
(** * The client manager ([server/client_manager.h], [server/client_manager.c])

    A connected client is a [client_connection]; its address [cl_loc] is what the
    C pointers to it are, and its [cl_device] is the address of the device list
    entry whose device it uses ([de_loc]), so that the device is always read from
    and written to the list.  Operations that call WinUSB run in [M U], those that
    use the client's socket in [M N], and those that do both in [M (N * U)].

    A client owns a URB handler with its worker thread; the handler's [device]
    pointer is the client's, and [load_device] reads it when the worker runs. *)

From Stdlib Require Import String.
From S2P Require Import Prelude CTypes Format Errors Protocol Net ProtocolIO UsbHost DeviceList.
From S2P Require Import UrbQueue UrbHandler.

(** ** Data *)

Definition MAX_CLIENTS : Z := 16.

Inductive client_state :=
  | CLIENT_STATE_CONNECTED
  | CLIENT_STATE_ATTACHED
  | CLIENT_STATE_DISCONNECTING
  | CLIENT_STATE_DISCONNECTED.

#[export] Instance client_state_eq_dec : EqDecision client_state.
Proof. solve_decision. Defined.

Record client_connection := {
  cl_loc : Z;
  cl_id : Z;
  cl_socket : Z;
  cl_ip_address : bytes;
  cl_port : Z;
  cl_state : client_state;
  cl_attached_busid : bytes;
  cl_device : ptr Z;
  cl_urb_handler : ptr urb_handler;
  cl_worker : worker;
  cl_running : bool;
  cl_connect_time : Z;
  cl_bytes_sent : Z;
  cl_bytes_received : Z;
  cl_urbs_processed : Z;
}.

Record client_manager := {
  cm_clients : list client_connection;
  cm_client_count : Z;
  cm_next_client_id : Z;
  cm_device_list : device_list;
  cm_initialized : bool;
}.

Definition cm_set_list (m : client_manager) (l : device_list) : client_manager := {|
  cm_clients := cm_clients m; cm_client_count := cm_client_count m;
  cm_next_client_id := cm_next_client_id m; cm_device_list := l;
  cm_initialized := cm_initialized m |}.

Definition cm_set_clients (m : client_manager) (cs : list client_connection) (count next_id : Z) :
    client_manager := {|
  cm_clients := cs; cm_client_count := count; cm_next_client_id := next_id;
  cm_device_list := cm_device_list m; cm_initialized := cm_initialized m |}.

(** The assignments made to a client on attaching and detaching. *)
Definition cl_set_attachment (c : client_connection) (busid : bytes) (device : ptr Z)
    (h : ptr urb_handler) (w : worker) (st : client_state) : client_connection := {|
  cl_loc := cl_loc c; cl_id := cl_id c; cl_socket := cl_socket c;
  cl_ip_address := cl_ip_address c; cl_port := cl_port c; cl_state := st;
  cl_attached_busid := busid; cl_device := device; cl_urb_handler := h; cl_worker := w;
  cl_running := cl_running c; cl_connect_time := cl_connect_time c;
  cl_bytes_sent := cl_bytes_sent c; cl_bytes_received := cl_bytes_received c;
  cl_urbs_processed := cl_urbs_processed c |}.

Definition cl_set_handler (c : client_connection) (h : ptr urb_handler) (w : worker) :
    client_connection :=
  cl_set_attachment c (cl_attached_busid c) (cl_device c) h w (cl_state c).

Definition cl_set_stats (c : client_connection) (sent received urbs : Z) : client_connection := {|
  cl_loc := cl_loc c; cl_id := cl_id c; cl_socket := cl_socket c;
  cl_ip_address := cl_ip_address c; cl_port := cl_port c; cl_state := cl_state c;
  cl_attached_busid := cl_attached_busid c; cl_device := cl_device c;
  cl_urb_handler := cl_urb_handler c; cl_worker := cl_worker c;
  cl_running := cl_running c; cl_connect_time := cl_connect_time c;
  cl_bytes_sent := sent; cl_bytes_received := received; cl_urbs_processed := urbs |}.

(** ** Creating and finding clients *)

(** [alloc] is what [calloc] returns. *)
Definition create_client (alloc : ptr Z) (now id socket : Z) (ip_address : ptr bytes) (port : Z) :
    ptr client_connection :=
  match alloc with
  | NULL => NULL
  | Some loc => Some {|
      cl_loc := loc; cl_id := id; cl_socket := socket;
      cl_ip_address := match ip_address with Some ip => copy_str ip 64 | NULL => [] end;
      cl_port := port; cl_state := CLIENT_STATE_CONNECTED; cl_attached_busid := [];
      cl_device := NULL; cl_urb_handler := NULL; cl_worker := W_none; cl_running := false;
      cl_connect_time := now; cl_bytes_sent := 0; cl_bytes_received := 0;
      cl_urbs_processed := 0 |}
  end.

Definition client_manager_init (mutex_result : Z) (manager : ptr client_manager)
    (device_list : device_list) : error_code * ptr client_manager :=
  match manager with
  | NULL => (ERR_INVALID_PARAM, NULL)
  | Some _ =>
      let m ok := Some {| cm_clients := []; cm_client_count := 0; cm_next_client_id := 1;
                          cm_device_list := device_list; cm_initialized := ok |} in
      if negb (mutex_result =? 0) then (ERR_MUTEX_INIT, m false) else (ERR_SUCCESS, m true)
  end.

Definition client_manager_add (alloc : ptr Z) (now : Z) (manager : ptr client_manager)
    (socket : Z) (ip_address : ptr bytes) (port : Z) :
    error_code * ptr client_manager * ptr client_connection :=
  match manager with
  | NULL => (ERR_INVALID_PARAM, NULL, NULL)
  | Some m =>
      return_if negb (cm_initialized m) with (ERR_INVALID_PARAM, manager, NULL) ;;
      return_if cm_client_count m >=? MAX_CLIENTS with (ERR_BUSY, manager, NULL) ;;
      let id := cm_next_client_id m in
      let next_id := wrap 32 (id + 1) in
      match create_client alloc now id socket ip_address port with
      | NULL =>
          (ERR_OUT_OF_MEMORY,
            Some (cm_set_clients m (cm_clients m) (cm_client_count m) next_id), NULL)
      | Some c =>
          (ERR_SUCCESS,
            Some (cm_set_clients m (c :: cm_clients m) (cm_client_count m + 1) next_id), Some c)
      end
  end.

(** [curr == client] *)
Definition client_at (loc : Z) (c : client_connection) : bool := cl_loc c =? loc.

Definition client_manager_find_when (f : client_connection -> bool) (manager : ptr client_manager) :
    ptr client_connection :=
  match manager with
  | NULL => NULL
  | Some m => if cm_initialized m then find_first f (cm_clients m) else NULL
  end.

Definition client_manager_find (manager : ptr client_manager) (client_id : Z) :
    ptr client_connection :=
  client_manager_find_when (fun c => cl_id c =? client_id) manager.

Definition client_manager_find_by_socket (manager : ptr client_manager) (socket : Z) :
    ptr client_connection :=
  client_manager_find_when (fun c => cl_socket c =? socket) manager.

Definition client_manager_find_by_device (manager : ptr client_manager) (busid : ptr bytes) :
    ptr client_connection :=
  match busid with
  | NULL => NULL
  | Some b => client_manager_find_when (fun c => streq (cl_attached_busid c) b) manager
  end.

Definition client_manager_count (manager : ptr client_manager) : Z :=
  match manager with Some m => cm_client_count m | NULL => 0 end.

Definition client_set_state (client : ptr client_connection) (st : client_state) :
    ptr client_connection :=
  (fun c => cl_set_attachment c (cl_attached_busid c) (cl_device c) (cl_urb_handler c)
              (cl_worker c) st) <$> client.

Definition client_state_string (state : client_state) : string :=
  match state with
  | CLIENT_STATE_CONNECTED => "Connected"
  | CLIENT_STATE_ATTACHED => "Attached"
  | CLIENT_STATE_DISCONNECTING => "Disconnecting"
  | CLIENT_STATE_DISCONNECTED => "Disconnected"
  end.

(** Write a client back to the list it is linked in. *)
Definition store_client (m : client_manager) (c : client_connection) : client_manager :=
  cm_set_clients m (update_first (client_at (cl_loc c)) (fun _ => c) (cm_clients m))
    (cm_client_count m) (cm_next_client_id m).

(** The loop of [client_manager_foreach]; [callback] acts on the caller's data. *)
Fixpoint clients_loop {A} (cs : list client_connection)
    (callback : client_connection -> A -> bool * A) (user_data : A) : A :=
  match cs with
  | [] => user_data
  | c :: cs =>
      let '(continue, user_data) := callback c user_data in
      if (continue : bool) then clients_loop cs callback user_data else user_data
  end.

Definition client_manager_foreach {A} (manager : ptr client_manager)
    (callback : ptr (client_connection -> A -> bool * A)) (user_data : A) : A :=
  match manager, callback with
  | Some m, Some f => if cm_initialized m then clients_loop (cm_clients m) f user_data else user_data
  | _, _ => user_data
  end.

(** ** Devices through pointers *)

Definition entry_at (loc : Z) (e : device_entry) : bool := de_loc e =? loc.

Definition load_device (l : device_list) (p : Z) : ptr usb_device :=
  de_device <$> find_first (entry_at p) (dl_entries l).

Definition store_device (l : device_list) (p : Z) (d : ptr usb_device) : device_list :=
  match d with
  | Some d => set_entries l (update_first (entry_at p) (fun e => entry_set_device e d) (dl_entries l))
                (dl_count l)
  | NULL => l
  end.

Arguments load_device : simpl never.
Arguments store_device : simpl never.

Section usb.
  Context {U : Type} `{WinUsb U}.

(** A call [op(&entry->device)]. *)
Definition on_device {A} (op : ptr usb_device -> M U (A * ptr usb_device)) (l : device_list) (p : Z) :
    M U (A * device_list) :=
  '(a, d) ← op (load_device l p); mret (a, store_device l p d).

Definition claim_at (l : device_list) (p : Z) : error_code * device_list :=
  let '(err, d) := usb_claim_interface (load_device l p) 0 in (err, store_device l p d).

Definition release_at (l : device_list) (p : Z) : device_list :=
  store_device l p (usb_release_interface (load_device l p) 0).2.

Definition close_at (l : device_list) (p : Z) : M U device_list :=
  d ← usb_close_device (load_device l p); mret (store_device l p d).

(** ** Device attachment *)

(** What the operating system answers during an attachment. *)
Record attach_env := {
  ae_calloc : bool;
  ae_mutexes : Z * Z;
  ae_events : Z * Z;
  ae_thread : bool;
  ae_time : Z;
}.

(** [calloc(1, sizeof(urb_handler_t))] *)
Definition handler_zero : urb_handler := {|
  uh_device := NULL; uh_pending := fifo_empty; uh_completed := fifo_empty;
  uh_next_seqnum := 0; uh_running := false; uh_initialized := false |}.

(** [usb_release_interface; usb_close_device], with the handler gone. *)
Definition attach_undo (err : error_code) (l : device_list) (p : Z) (c : client_connection) :
    M U (error_code * device_list * client_connection) :=
  l ← close_at (release_at l p) p;
  mret (err, l, cl_set_handler c NULL W_none).

Definition attach_entry (env : attach_env) (l : device_list) (c : client_connection)
    (busid : bytes) (p : Z) : M U (error_code * device_list * client_connection) :=
  '(err, l) ← on_device usb_open_device l p;
  if negb (error_code_eqb err ERR_SUCCESS) then mret (err, l, c) else
  let '(err, l) := claim_at l p in
  if negb (error_code_eqb err ERR_SUCCESS) then l ← close_at l p; mret (err, l, c) else
  if negb (ae_calloc env) then attach_undo ERR_OUT_OF_MEMORY l p c else
  let '(err, h) := urb_handler_init (ae_mutexes env) (ae_events env) (Some handler_zero)
                     (load_device l p) in
  if negb (error_code_eqb err ERR_SUCCESS) then attach_undo err l p c else
  let '(err, h, w) := urb_handler_start (ae_thread env) h W_none in
  if negb (error_code_eqb err ERR_SUCCESS) then
    urb_handler_cleanup h w ;; attach_undo err l p c
  else
    let c := cl_set_attachment c (copy_str busid USBIP_BUSID_MAX) (Some p) h w
               CLIENT_STATE_ATTACHED in
    let '(_, l') := device_list_export (ae_time env) (Some l) (Some busid) (cl_id c)
                      (Some (cl_ip_address c)) in
    mret (ERR_SUCCESS, default l l', c).

Definition client_attach_device (env : attach_env) (manager : ptr client_manager)
    (client : ptr client_connection) (busid : ptr bytes) :
    M U (error_code * ptr client_manager * ptr client_connection) :=
  match manager, client, busid with
  | Some m, Some c, Some b =>
      match device_list_find (Some (cm_device_list m)) busid with
      | NULL => mret (ERR_USB_NOT_FOUND, manager, client)
      | Some entry =>
          if negb (de_is_shared entry) then mret (ERR_USB_NOT_FOUND, manager, client) else
          if bool_decide (de_state entry <> DEVICE_STATE_AVAILABLE)
          then mret (ERR_DEVICE_BUSY, manager, client) else
          '(err, l, c) ← attach_entry env (cm_device_list m) c b (de_loc entry);
          mret (err, Some (cm_set_list m l), Some c)
      end
  | _, _, _ => mret (ERR_INVALID_PARAM, manager, client)
  end.

(** The handler as its worker sees it: its device is the client's. *)
Definition synced (l : device_list) (c : client_connection) : ptr urb_handler :=
  (fun h => match cl_device c with
            | Some p => uh_set_device h (load_device l p)
            | NULL => h
            end) <$> cl_urb_handler c.

Definition client_detach_device (manager : ptr client_manager) (client : ptr client_connection) :
    M U (error_code * ptr client_manager * ptr client_connection) :=
  match manager, client with
  | Some m, Some c =>
      if char_at (cl_attached_busid c) 0 =? 0 then mret (ERR_SUCCESS, manager, client) else
      let l := cm_device_list m in
      '(h, w) ← match cl_urb_handler c with
                | Some _ =>
                    '(h, w) ← urb_handler_stop (synced l c) (cl_worker c);
                    '(_, _) ← urb_handler_cleanup h w;
                    mret (NULL, W_none)
                | NULL => mret (NULL, cl_worker c)
                end;
      l ← match cl_device c with
          | Some p => close_at (release_at l p) p
          | NULL => mret l
          end;
      let '(_, l') := device_list_unexport (Some l) (Some (cl_attached_busid c)) in
      mret (ERR_SUCCESS, Some (cm_set_list m (default l l')),
            Some (cl_set_attachment c [] NULL h w CLIENT_STATE_CONNECTED))
  | _, _ => mret (ERR_INVALID_PARAM, manager, client)
  end.
End usb.

(** ** Client communication *)

Section comm.
  Context {N : Type} `{Winsock N}.

Record send_devlist_data := {
  sd_socket : Z;
  sd_count : Z;
  sd_error : error_code;
}.

(** The loop over the interfaces of one device. *)
Fixpoint send_interfaces (fd : Z) (ifaces : list usb_interface_info) : M N bool :=
  match ifaces with
  | [] => mret true
  | i :: rest =>
      err ← usbip_send_interface fd (usb_interface_to_usbip i);
      if negb (error_code_eqb err ERR_SUCCESS) then mret false else send_interfaces fd rest
  end.

(** [i < num_interfaces && i < USB_MAX_INTERFACES] *)
Definition sent_interfaces (d : usb_device) : list usb_interface_info :=
  take (Z.to_nat (Z.min (dev_num_interfaces d) (Z.of_nat USB_MAX_INTERFACES))) (dev_interfaces d).

Definition send_device_callback (entry : device_entry) (data : send_devlist_data * N) :
    bool * (send_devlist_data * N) :=
  let '(d, n) := data in
  let fail := {| sd_socket := sd_socket d; sd_count := sd_count d; sd_error := ERR_SOCKET_SEND |} in
  let '(err, n) := usbip_send_device (sd_socket d) (usb_device_to_usbip (de_device entry)) n in
  if negb (error_code_eqb err ERR_SUCCESS) then (false, (fail, n)) else
  let '(ok, n) := send_interfaces (sd_socket d) (sent_interfaces (de_device entry)) n in
  if negb ok then (false, (fail, n)) else
  (true, ({| sd_socket := sd_socket d; sd_count := sd_count d + 1; sd_error := sd_error d |}, n)).

(** The loop that counts the devices to announce. *)
Fixpoint announced_loop (entries : list device_entry) (device_count : Z) : Z :=
  match entries with
  | [] => device_count
  | e :: es =>
      announced_loop es
        (if de_is_shared e && bool_decide (de_state e = DEVICE_STATE_AVAILABLE)
         then device_count + 1 else device_count)
  end.

Definition client_send_device_list (manager : ptr client_manager) (client : ptr client_connection) :
    M N error_code :=
  match manager, client with
  | Some m, Some c =>
      let l := cm_device_list m in
      let device_count := announced_loop (dl_entries l) 0 in
      let reply := usbip_create_devlist_reply device_count in
      ok ← send_bytes (cl_socket c) (to_mem (usbip_pack_header_basic (dr_header reply)));
      if negb ok then mret ERR_SOCKET_SEND else
      ok ← send_bytes (cl_socket c) (to_le 4 (htobe32 (dr_ndev reply)));
      if negb ok then mret ERR_SOCKET_SEND else
      fun n =>
        let data := {| sd_socket := cl_socket c; sd_count := 0; sd_error := ERR_SUCCESS |} in
        let '(_, (data, n)) :=
          device_list_foreach_shared (Some l) (Some send_device_callback) (data, n) in
        (sd_error data, n)
  | _, _ => mret ERR_INVALID_PARAM
  end.

(** ** URB forwarding *)

Definition client_forward_urb (calloc_ok : bool) (memory : ptr bytes) (now : Z)
    (client : ptr client_connection) (header : ptr usbip_header) (data : ptr bytes)
    (data_len : Z) : error_code * ptr client_connection :=
  match client, header with
  | Some c, Some _ =>
      match cl_urb_handler c with
      | NULL => (ERR_INVALID_PARAM, client)
      | Some _ =>
          let c := cl_set_stats c (cl_bytes_sent c) (cl_bytes_received c)
                     (wrap 64 (cl_urbs_processed c + 1)) in
          let '(err, h) := urb_handler_submit calloc_ok memory now (cl_urb_handler c) header
                             data data_len in
          (err, Some (cl_set_handler c h (cl_worker c)))
      end
  | _, _ => (ERR_INVALID_PARAM, client)
  end.

Definition client_send_urb_completion (client : ptr client_connection) (entry : ptr urb_entry) :
    M N (error_code * ptr client_connection) :=
  match client, entry with
  | Some c, Some e =>
      err ← usbip_send_urb_header (cl_socket c) (urb_handler_create_return e);
      if negb (error_code_eqb err ERR_SUCCESS) then mret (err, client) else
      let u := ent_urb e in
      if (urb_direction u =? USBIP_DIR_IN) && (urb_actual_length u >? 0) then
        err ← usbip_send_urb_data (cl_socket c)
                (take (Z.to_nat (urb_actual_length u)) (default [] (urb_buffer u)))
                (urb_actual_length u);
        if negb (error_code_eqb err ERR_SUCCESS) then mret (err, client) else
        mret (ERR_SUCCESS, Some (cl_set_stats c (wrap 64 (cl_bytes_sent c + urb_actual_length u))
                                   (cl_bytes_received c) (cl_urbs_processed c)))
      else mret (ERR_SUCCESS, client)
  | _, _ => mret (ERR_INVALID_PARAM, client)
  end.
End comm.

(** ** Requests *)

Section requests.
  Context {N U : Type} `{Winsock N} `{WinUsb U}.

Definition import_status (err : error_code) : Z :=
  if error_code_eqb err ERR_SUCCESS then USBIP_ST_OK
  else if error_code_eqb err ERR_DEVICE_BUSY then USBIP_ST_DEV_BUSY else USBIP_ST_NA.

(** [usb_device_to_usbip(client->device, &reply.device)] *)
Definition attached_device (m : ptr client_manager) (c : ptr client_connection) : usbip_usb_device :=
  match (m ← m; c ← c; p ← cl_device c; load_device (cm_device_list m) p) with
  | Some d => usb_device_to_usbip d
  | NULL => usb_device_zero
  end.

Definition client_handle_import (env : attach_env) (manager : ptr client_manager)
    (client : ptr client_connection) (busid : ptr bytes) :
    M (N * U) (error_code * ptr client_manager * ptr client_connection) :=
  match manager, client, busid with
  | Some _, Some c0, Some _ =>
      '(err, manager, client) ← lift_r (client_attach_device env manager client busid);
      let header := {| hb_version := USBIP_PROTO_VERSION; hb_command := OP_REP_IMPORT;
                       hb_status := import_status err |} in
      ok ← lift_l (send_bytes (cl_socket c0) (to_mem (usbip_pack_header_basic header)));
      if negb ok then mret (ERR_SOCKET_SEND, manager, client) else
      if error_code_eqb err ERR_SUCCESS then
        ok ← lift_l (send_bytes (cl_socket c0)
                        (to_mem (usbip_pack_device (attached_device manager client))));
        if negb ok then
          '(_, manager, client) ← lift_r (client_detach_device manager client);
          mret (ERR_SOCKET_SEND, manager, client)
        else mret (err, manager, client)
      else mret (err, manager, client)
  | _, _, _ => mret (ERR_INVALID_PARAM, manager, client)
  end.

Definition client_handle_request (env : attach_env) (manager : ptr client_manager)
    (client : ptr client_connection) :
    M (N * U) (error_code * ptr client_manager * ptr client_connection) :=
  match manager, client with
  | Some _, Some c =>
      r ← lift_l (usbip_recv_header_basic (cl_socket c));
      match r with
      | inl err => mret (err, manager, client)
      | inr header =>
          if hb_command header =? OP_REQ_DEVLIST then
            err ← lift_l (client_send_device_list manager client);
            mret (err, manager, client)
          else if hb_command header =? OP_REQ_IMPORT then
            '(received, busid) ← lift_l (net_recv_all (cl_socket c) (Z.of_nat USBIP_BUSID_MAX));
            if negb (received =? Z.of_nat USBIP_BUSID_MAX)
            then mret (ERR_SOCKET_RECV, manager, client)
            else client_handle_import env manager client
                   (Some (<[(USBIP_BUSID_MAX - 1)%nat := 0]> busid))
          else mret (ERR_PROTOCOL_UNSUPPORTED, manager, client)
      end
  | _, _ => mret (ERR_INVALID_PARAM, manager, client)
  end.

(** ** Removing clients *)

(** [client_stop_threads] only clears a flag of the client about to be freed. *)
Definition free_client (l : device_list) (client : ptr client_connection) :
    M (N * U) device_list :=
  match client with
  | NULL => mret l
  | Some c =>
      (if socket_is_valid (cl_socket c) then lift_l (socket_close (cl_socket c)) else mret tt) ;;
      match cl_urb_handler c with
      | Some _ => lift_r ('(_, _) ← urb_handler_cleanup (synced l c) (cl_worker c); mret tt)
      | NULL => mret tt
      end ;;
      match cl_device c with
      | Some p => lift_r (close_at l p)
      | NULL => mret l
      end
  end.

Definition client_manager_remove (manager : ptr client_manager) (client : ptr Z) :
    M (N * U) (error_code * ptr client_manager) :=
  match manager, client with
  | Some m, Some loc =>
      if negb (cm_initialized m) then mret (ERR_INVALID_PARAM, manager) else
      match find_first (client_at loc) (cm_clients m) with
      | NULL => mret (ERR_NOT_FOUND, manager)
      | Some c =>
          let m := cm_set_clients m (remove_first (client_at loc) (cm_clients m))
                     (cm_client_count m - 1) (cm_next_client_id m) in
          let l := cm_device_list m in
          let l := if negb (char_at (cl_attached_busid c) 0 =? 0)
                   then default l (device_list_unexport (Some l) (Some (cl_attached_busid c))).2
                   else l in
          l ← free_client l (Some c);
          mret (ERR_SUCCESS, Some (cm_set_list m l))
      end
  | _, _ => mret (ERR_INVALID_PARAM, manager)
  end.

Definition client_manager_remove_by_id (manager : ptr client_manager) (client_id : Z) :
    M (N * U) (error_code * ptr client_manager) :=
  match client_manager_find manager client_id with
  | NULL => mret (ERR_NOT_FOUND, manager)
  | Some c => client_manager_remove manager (Some (cl_loc c))
  end.

(** The loop of [client_manager_disconnect_all], one iteration per client. *)
Fixpoint disconnect_loop (fuel : nat) (m : client_manager) : M (N * U) client_manager :=
  match fuel with
  | O => mret m
  | S fuel =>
      match cm_clients m with
      | [] => mret m
      | c :: _ =>
          '(_, r) ← client_manager_remove (Some m) (Some (cl_loc c));
          disconnect_loop fuel (default m r)
      end
  end.

Definition client_manager_disconnect_all (manager : ptr client_manager) :
    M (N * U) (ptr client_manager) :=
  match manager with
  | NULL => mret NULL
  | Some m =>
      if negb (cm_initialized m) then mret manager else
      m ← disconnect_loop (length (cm_clients m)) m; mret (Some m)
  end.

Definition client_manager_cleanup (manager : ptr client_manager) : M (N * U) (ptr client_manager) :=
  match manager with
  | NULL => mret NULL
  | Some m =>
      if negb (cm_initialized m) then mret manager else
      r ← client_manager_disconnect_all manager;
      mret ((fun m => {| cm_clients := cm_clients m; cm_client_count := cm_client_count m;
                         cm_next_client_id := cm_next_client_id m;
                         cm_device_list := cm_device_list m; cm_initialized := false |}) <$> r)
  end.

Definition client_manager_disconnect_device_users (manager : ptr client_manager)
    (busid : ptr bytes) : M (N * U) (ptr client_manager) :=
  match client_manager_find_by_device manager busid with
  | NULL => mret manager
  | Some c => '(_, r) ← client_manager_remove manager (Some (cl_loc c)); mret r
  end.
End requests.

(** ** Threads *)

Definition cl_set_running (c : client_connection) (running : bool) : client_connection := {|
  cl_loc := cl_loc c; cl_id := cl_id c; cl_socket := cl_socket c;
  cl_ip_address := cl_ip_address c; cl_port := cl_port c; cl_state := cl_state c;
  cl_attached_busid := cl_attached_busid c; cl_device := cl_device c;
  cl_urb_handler := cl_urb_handler c; cl_worker := cl_worker c;
  cl_running := running; cl_connect_time := cl_connect_time c;
  cl_bytes_sent := cl_bytes_sent c; cl_bytes_received := cl_bytes_received c;
  cl_urbs_processed := cl_urbs_processed c |}.

(** The client's threads are the caller's. *)
Definition client_start_threads (client : ptr client_connection) : error_code := ERR_SUCCESS.

Definition client_stop_threads (client : ptr client_connection) : ptr client_connection :=
  (fun c => cl_set_running c false) <$> client.

(** ** Lemmas *)

#[local] Arguments attach_undo : simpl never.
#[local] Arguments release_at : simpl never.
#[local] Arguments close_at : simpl never.
#[local] Arguments urb_handler_init : simpl never.
#[local] Arguments urb_handler_start : simpl never.
#[local] Arguments urb_handler_stop : simpl never.
#[local] Arguments urb_handler_cleanup : simpl never.
#[local] Arguments device_list_export : simpl never.
#[local] Arguments device_list_unexport : simpl never.

(** The list [l] with the entries [l1 ++ e :: l2]. *)
Definition with_entry (l : device_list) (l1 : list device_entry) (e : device_entry)
    (l2 : list device_entry) : device_list :=
  set_entries l (l1 ++ e :: l2) (dl_count l).

Arguments with_entry : simpl never.

Section focus.
  Context (l : device_list) (l1 l2 : list device_entry) (p : Z).
  Context (Hl1 : Forall (fun x => entry_at p x = false) l1).
  Implicit Types e : device_entry.

Lemma entry_at_loc e : de_loc e = p -> entry_at p e = true.
Proof. intros <-. apply Z.eqb_refl. Qed.

Lemma load_focus e : de_loc e = p -> load_device (with_entry l l1 e l2) p = Some (de_device e).
Proof.
  intros He. unfold load_device, with_entry. simpl. rewrite find_first_app.
  rewrite (proj2 (find_first_None _ _) Hl1). simpl. by rewrite (entry_at_loc e He).
Qed.

Lemma store_focus e d :
  de_loc e = p ->
  store_device (with_entry l l1 e l2) p (Some d) = with_entry l l1 (entry_set_device e d) l2.
Proof.
  intros He. unfold store_device, with_entry. simpl.
  rewrite update_first_split by (try done; by apply entry_at_loc). done.
Qed.
End focus.

(** Focusing on the entry a search has found. *)
Lemma focus_entry l b e :
  dl_inv l -> find_first (entry_is b) (dl_entries l) = Some e ->
  exists l1 l2, l = with_entry l l1 e l2 /\ Forall (fun x => entry_at (de_loc e) x = false) l1 /\
    Forall (fun x => entry_is b x = false) l1 /\ entry_is b e = true.
Proof.
  intros [_ _ Hloc _] (l1 & l2 & E & Hb & He)%find_first_split. exists l1, l2.
  split_and!; [|  |done..].
  - unfold with_entry. rewrite <- E. by destruct l.
  - rewrite E, map_app in Hloc. apply NoDup_app in Hloc as (_ & Hn & _).
    apply Forall_forall. intros x Hx. apply Z.eqb_neq. intros Heq.
    apply (Hn (de_loc x)); [apply list_elem_of_fmap; eauto|]. rewrite Heq. by left.
Qed.

Lemma entry_is_device b e d : same_device (de_device e) d -> entry_is b (entry_set_device e d) = entry_is b e.
Proof. unfold entry_is, same_device. simpl. by intros ->. Qed.

Lemma busid_of_device e d : same_device (de_device e) d -> busid_of (entry_set_device e d) = busid_of e.
Proof. unfold busid_of, same_device. simpl. by intros ->. Qed.

Lemma dev_wf_same d d' : same_device d d' -> dev_wf d -> dev_wf d'.
Proof. intros ->. by destruct d. Qed.

Lemma entry_ok_device e d :
  same_device (de_device e) d -> dev_inv d -> entry_ok e -> entry_ok (entry_set_device e d).
Proof. intros Hs Hd (Hw & _ & ? & ?). split_and!; try done. by eapply dev_wf_same. Qed.

(** Claiming and releasing an interface of an open device. *)
Lemma claim_spec d :
  dev_inv d -> dev_is_open d = true ->
  exists err d', usb_claim_interface (Some d) 0 = (err, Some d') /\ dev_inv d' /\
    same_device d d' /\ dev_is_open d' = true /\ owned_files d' = owned_files d /\
    owned_usb d' = owned_usb d.
Proof.
  intros Hd Ho. pose proof Hd as (Hl & Hc & Hv & Hk). unfold usb_claim_interface. rewrite Ho. simpl.
  destruct (dev_is_claimed d); [destruct (_ =? 0)|]; (eexists _, _; split; [done|]);
    split_and!; simpl; auto with usbip.
  by split_and!.
Qed.

Lemma release_spec d :
  dev_inv d -> dev_is_open d = true ->
  exists err d', usb_release_interface (Some d) 0 = (err, Some d') /\ dev_inv d' /\
    same_device d d' /\ dev_is_open d' = true /\ owned_files d' = owned_files d /\
    owned_usb d' = owned_usb d.
Proof.
  intros Hd Ho. pose proof Hd as (Hl & Hc & Hv & Hk). unfold usb_release_interface. rewrite Ho. simpl.
  destruct (negb _ || negb _); (eexists _, _; split; [done|]); split_and!; simpl; auto with usbip.
  by split_and!.
Qed.

Section attach.
  Context {U : Type} `{WinUsbLaws U}.
  Implicit Types u : U.

(** Undoing an attachment closes the device and keeps no handle. *)
Lemma close_focus l l1 e l2 u r u' :
  Forall (fun x => entry_at (de_loc e) x = false) l1 -> dev_inv (de_device e) ->
  close_at (with_entry l l1 e l2) (de_loc e) u = (r, u') ->
  exists d', r = with_entry l l1 (entry_set_device e d') l2 /\ dev_inv d' /\
    same_device (de_device e) d' /\ dev_is_open d' = false /\
    open_files u' = open_files u ∖ owned_files (de_device e) /\
    open_usb u' = open_usb u ∖ owned_usb (de_device e).
Proof.
  intros Hl1 Hd E. unfold close_at in E. apply M_bind_inv in E as (d & u1 & E1 & E). mret_eq.
  rewrite load_focus in E1 by done. apply close_device_spec in E1 as (d' & -> & ? & ? & ? & ? & ?); [|done].
  exists d'. split_and!; try done. by apply store_focus.
Qed.

Lemma release_focus l l1 e l2 :
  Forall (fun x => entry_at (de_loc e) x = false) l1 -> dev_inv (de_device e) ->
  dev_is_open (de_device e) = true ->
  exists d', release_at (with_entry l l1 e l2) (de_loc e) = with_entry l l1 (entry_set_device e d') l2 /\
    dev_inv d' /\ same_device (de_device e) d' /\ dev_is_open d' = true /\
    owned_files d' = owned_files (de_device e) /\ owned_usb d' = owned_usb (de_device e).
Proof.
  intros Hl1 Hd Ho. unfold release_at. rewrite load_focus by done.
  destruct (release_spec _ Hd Ho) as (err & d' & -> & ? & ? & ? & ? & ?). exists d'.
  split_and!; try done. cbn [snd]. by rewrite store_focus.
Qed.

Lemma close_release_focus l l1 e l2 u r u' :
  Forall (fun x => entry_at (de_loc e) x = false) l1 -> dev_inv (de_device e) ->
  dev_is_open (de_device e) = true ->
  close_at (release_at (with_entry l l1 e l2) (de_loc e)) (de_loc e) u = (r, u') ->
  exists d', r = with_entry l l1 (entry_set_device e d') l2 /\ dev_inv d' /\
    same_device (de_device e) d' /\ dev_is_open d' = false /\
    open_files u' = open_files u ∖ owned_files (de_device e) /\
    open_usb u' = open_usb u ∖ owned_usb (de_device e).
Proof.
  intros Hl1 Hd Ho E. destruct (release_focus l l1 e l2 Hl1 Hd Ho) as (d1 & Er & Hd1 & Hs1 & _ & Of & Ou).
  rewrite Er in E. change (de_loc e) with (de_loc (entry_set_device e d1)) in Hl1, E.
  destruct (close_focus _ _ _ _ _ _ _ Hl1 Hd1 E) as (d' & -> & ? & ? & ? & Ef & Eu). simpl in *.
  exists d'. split_and!; try done; [|congruence|congruence]. by eapply same_device_trans.
Qed.

(** [d'] is [d] closed, with no handle kept since [u]. *)
Definition rolled_back (d d' : usb_device) u u' : Prop :=
  dev_inv d' /\ same_device d d' /\ dev_is_open d' = false /\
  open_files u' = open_files u /\ open_usb u' = open_usb u.

Lemma handles_returned d u u1 u2 :
  handles_taken d u u1 -> open_files u2 = open_files u1 ∖ owned_files d ->
  open_usb u2 = open_usb u1 ∖ owned_usb d -> open_files u2 = open_files u /\ open_usb u2 = open_usb u.
Proof. intros (-> & -> & ? & ?) -> ->. split; set_solver. Qed.

Lemma open_focus l l1 e l2 u err l' u' :
  Forall (fun x => entry_at (de_loc e) x = false) l1 -> dev_inv (de_device e) ->
  dev_is_open (de_device e) = false ->
  on_device usb_open_device (with_entry l l1 e l2) (de_loc e) u = ((err, l'), u') ->
  (err <> ERR_SUCCESS /\ l' = with_entry l l1 e l2 /\ u' = u) \/
  (err = ERR_SUCCESS /\ exists d', l' = with_entry l l1 (entry_set_device e d') l2 /\ dev_inv d' /\
    same_device (de_device e) d' /\ dev_is_open d' = true /\ handles_taken d' u u').
Proof.
  intros Hl1 Hd Ho E. unfold on_device in E. apply M_bind_inv in E as ([err' d] & u1 & E1 & E). mret_eq.
  rewrite load_focus in E1 by done.
  destruct (decide (char_at (dev_path (de_device e)) 0 = 0)) as [Hz|Hz].
  - left. unfold usb_open_device in E1. rewrite Hz in E1. simpl in E1. mret_eq.
    split_and!; [done| |done]. rewrite store_focus by done. f_equal. by destruct e.
  - right. apply open_closed_spec in E1 as (-> & d' & -> & ? & ? & ? & ?); [|done..].
    split; [done|]. exists d'. by rewrite store_focus.
Qed.

Lemma claim_focus l l1 e l2 :
  Forall (fun x => entry_at (de_loc e) x = false) l1 -> dev_inv (de_device e) ->
  dev_is_open (de_device e) = true ->
  exists err d', claim_at (with_entry l l1 e l2) (de_loc e) =
      (err, with_entry l l1 (entry_set_device e d') l2) /\
    dev_inv d' /\ same_device (de_device e) d' /\ dev_is_open d' = true /\
    owned_files d' = owned_files (de_device e) /\ owned_usb d' = owned_usb (de_device e).
Proof.
  intros Hl1 Hd Ho. unfold claim_at. rewrite load_focus by done.
  destruct (claim_spec _ Hd Ho) as (err & d' & -> & ? & ? & ? & ? & ?). exists err, d'.
  split_and!; try done. by rewrite store_focus.
Qed.

Lemma export_focus now l l1 e l2 b id ip :
  Forall (fun x => entry_is b x = false) l1 -> entry_is b e = true ->
  de_state e = DEVICE_STATE_AVAILABLE ->
  device_list_export now (Some (with_entry l l1 e l2)) (Some b) id (Some ip) =
  (ERR_SUCCESS, Some (with_entry l l1
     (entry_set_state e DEVICE_STATE_EXPORTED id (copy_str ip 64) now) l2)).
Proof.
  intros Hb He Hs. rewrite export_eq. unfold with_entry. simpl. rewrite find_first_app.
  rewrite (proj2 (find_first_None _ _) Hb). simpl. rewrite He, Hs. simpl.
  by rewrite update_first_split.
Qed.

Lemma unexport_focus l l1 e l2 b :
  Forall (fun x => entry_is b x = false) l1 -> entry_is b e = true ->
  device_list_unexport (Some (with_entry l l1 e l2)) (Some b) =
  (ERR_SUCCESS, Some (with_entry l l1 (entry_set_state e DEVICE_STATE_AVAILABLE 0 [] 0) l2)).
Proof.
  intros Hb He. rewrite unexport_eq. unfold with_entry. simpl. rewrite find_first_app.
  rewrite (proj2 (find_first_None _ _) Hb). simpl. rewrite He. by rewrite update_first_split.
Qed.

Lemma init_not_running mutexes events d err h :
  urb_handler_init mutexes events (Some handler_zero) d = (err, h) -> urb_handler_is_running h = false.
Proof.
  unfold urb_handler_init. destruct d as [d|]; [|intros; by simplify_eq].
  destruct (queue_init mutexes.1 events.1) as [e1 ?], (queue_init mutexes.2 events.2) as [e2 ?].
  destruct (negb _); [intros; by simplify_eq|]. destruct (negb _); intros; by simplify_eq.
Qed.

(** Every failure of an attachment closes the device again; a success leaves it
    open, exported to the client. *)
Definition attach_post (env : attach_env) (l : device_list) (l1 : list device_entry)
    (e : device_entry) (l2 : list device_entry) (c : client_connection) (b : bytes)
    (err : error_code) (l' : device_list) (c' : client_connection) u u' : Prop :=
  (err <> ERR_SUCCESS /\ exists d', rolled_back (de_device e) d' u u' /\
     l' = with_entry l l1 (entry_set_device e d') l2 /\ (c' = c \/ c' = cl_set_handler c NULL W_none)) \/
  (err = ERR_SUCCESS /\ exists d' h w, dev_inv d' /\ same_device (de_device e) d' /\
     dev_is_open d' = true /\ handles_taken d' u u' /\
     l' = with_entry l l1 (entry_set_state (entry_set_device e d') DEVICE_STATE_EXPORTED (cl_id c)
            (copy_str (cl_ip_address c) 64) (ae_time env)) l2 /\
     c' = cl_set_attachment c (copy_str b USBIP_BUSID_MAX) (Some (de_loc e)) (Some h) w
            CLIENT_STATE_ATTACHED).

Lemma undo_post env l l1 e l2 c b d err u u1 r u' :
  Forall (fun x => entry_at (de_loc e) x = false) l1 -> dev_inv d -> dev_is_open d = true ->
  same_device (de_device e) d -> handles_taken d u u1 -> err <> ERR_SUCCESS ->
  attach_undo err (with_entry l l1 (entry_set_device e d) l2) (de_loc e) c u1 = (r, u') ->
  attach_post env l l1 e l2 c b r.1.1 r.1.2 r.2 u u'.
Proof.
  intros Hl1 Hd Ho Hs Hh Hne E. unfold attach_undo in E.
  apply M_bind_inv in E as (l' & u2 & E & E2). mret_eq.
  change (de_loc e) with (de_loc (entry_set_device e d)) in E, Hl1.
  destruct (close_release_focus _ _ _ _ _ _ _ Hl1 Hd Ho E) as (d' & -> & ? & Hs' & ? & Ef & Eu).
  left. split; [done|]. exists d'. simpl in *.
  destruct (handles_returned _ _ _ _ Hh Ef Eu). split; [|split; [done|by right]].
  split_and!; try done. by eapply same_device_trans.
Qed.

Lemma cleanup_idle h w u : urb_handler_is_running h = false -> exists r, urb_handler_cleanup h w u = (r, u).
Proof.
  intros Hr. unfold urb_handler_cleanup. destruct h as [h|]; [|by eexists].
  simpl in Hr. destruct (uh_initialized h); simpl; [|by eexists].
  unfold mbind, M_bind, urb_handler_stop. rewrite Hr. by eexists.
Qed.

Lemma start_fails created h e r w' :
  urb_handler_is_running h = false ->
  urb_handler_start created h W_none = (e, r, w') ->
  (e <> ERR_SUCCESS /\ urb_handler_is_running r = false) \/ (e = ERR_SUCCESS /\ exists h', r = Some h').
Proof.
  unfold urb_handler_start. destruct h as [h|]; [|intros; simplify_eq; by left].
  simpl. intros Hr. rewrite Hr. destruct (uh_initialized h), created; simpl; intros; simplify_eq; eauto.
Qed.

Lemma attach_entry_spec env l l1 e l2 c b u r u' :
  Forall (fun x => entry_at (de_loc e) x = false) l1 -> Forall (fun x => entry_is b x = false) l1 ->
  entry_is b e = true -> de_state e = DEVICE_STATE_AVAILABLE ->
  dev_inv (de_device e) -> dev_is_open (de_device e) = false ->
  attach_entry env (with_entry l l1 e l2) c b (de_loc e) u = (r, u') ->
  attach_post env l l1 e l2 c b r.1.1 r.1.2 r.2 u u'.
Proof.
  intros Hl1 Hb He Hst Hd Ho E. unfold attach_entry in E.
  apply M_bind_inv in E as ([err1 lo] & u1 & E1 & E).
  apply open_focus in E1 as [(Hne & -> & ->)|(-> & d1 & -> & Hd1 & Hs1 & Ho1 & Hh1)]; [| |done..].
  { destruct (error_code_eqb err1 ERR_SUCCESS) eqn:Ee; [by apply error_code_eqb_true in Ee|].
    simpl in E. mret_eq. left. split; [done|]. exists (de_device e). split; [by split_and!; auto with usbip|].
    split; [|by left]. f_equal. by destruct e. }
  simpl in E. destruct (claim_focus l l1 (entry_set_device e d1) l2 Hl1 Hd1 Ho1)
    as (err2 & d2 & Ec & Hd2 & Hs2 & Ho2 & Of & Ou). simpl in Ec. rewrite Ec in E.
  assert (same_device (de_device e) d2) as Hs by (by eapply same_device_trans).
  assert (handles_taken d2 u u1) as Hh.
  { unfold handles_taken in *. by rewrite Of, Ou. }
  change (entry_set_device (entry_set_device e d1) d2) with (entry_set_device e d2) in E.
  destruct (error_code_eqb err2 ERR_SUCCESS) eqn:Ee2; simpl in E; cycle 1.
  { apply M_bind_inv in E as (l' & u2 & E & E2). mret_eq.
    change (de_loc e) with (de_loc (entry_set_device e d2)) in E, Hl1.
    destruct (close_focus _ _ _ _ _ _ _ Hl1 Hd2 E) as (d' & -> & ? & Hs' & ? & Ef & Eu).
    destruct (handles_returned _ _ _ _ Hh Ef Eu). left. split.
    - intros ->. by rewrite (proj2 (error_code_eqb_true _ _) eq_refl) in Ee2.
    - exists d'. split; [|by split; [|left]]. split_and!; try done. by eapply same_device_trans. }
  destruct (ae_calloc env); simpl in E;
    [|eapply undo_post; [..|exact E]; done].
  destruct (urb_handler_init _ _ _ _) as [err3 h3] eqn:Ei.
  pose proof (init_not_running _ _ _ _ _ Ei) as Hnr.
  destruct (error_code_eqb err3 ERR_SUCCESS) eqn:Ee3; simpl in E; cycle 1.
  { eapply undo_post; [..|exact E]; try done. intros ->.
    by rewrite (proj2 (error_code_eqb_true _ _) eq_refl) in Ee3. }
  destruct (urb_handler_start (ae_thread env) h3 W_none) as [[err4 h4] w4] eqn:Est.
  destruct (start_fails _ _ _ _ _ Hnr Est) as [[Hne Hnr4]|[-> [h' ->]]].
  - destruct (error_code_eqb err4 ERR_SUCCESS) eqn:Ee4; [by apply error_code_eqb_true in Ee4|].
    simpl in E. apply M_bind_inv in E as (x & u2 & Ecl & E).
    destruct (cleanup_idle h4 w4 u1 Hnr4) as [y Hy]. rewrite Hy in Ecl. simplify_eq.
    eapply undo_post; [..|exact E]; done.
  - rewrite (proj2 (error_code_eqb_true ERR_SUCCESS _) eq_refl) in E. simpl in E.
    rewrite export_focus in E; [|done|by rewrite entry_is_device|done]. mret_eq.
    right. split; [done|]. by exists d2, h', w4.
Qed.
End attach.

(** ** The invariant *)

Definition detached (c : client_connection) : Prop :=
  cl_state c = CLIENT_STATE_CONNECTED /\ cl_attached_busid c = [] /\ cl_device c = NULL /\
  cl_urb_handler c = NULL.

Definition attached_to (c : client_connection) (e : device_entry) : Prop :=
  cl_state c = CLIENT_STATE_ATTACHED /\ cl_attached_busid c = busid_of e /\
  cl_device c = Some (de_loc e) /\ is_Some (cl_urb_handler c) /\
  de_state e = DEVICE_STATE_EXPORTED /\ de_client_id e = cl_id c /\
  dev_is_open (de_device e) = true.

(** A device nobody is attached to is closed. *)
Definition idle (e : device_entry) : Prop :=
  de_state e <> DEVICE_STATE_EXPORTED /\ dev_is_open (de_device e) = false.

Record cm_inv (m : client_manager) : Prop := {
  cmi_list : dl_inv (cm_device_list m);
  cmi_busids : Forall (fun e => busid_of e <> []) (dl_entries (cm_device_list m));
  cmi_init : cm_initialized m = true;
  cmi_count : cm_client_count m = Z.of_nat (length (cm_clients m));
  cmi_max : cm_client_count m <= MAX_CLIENTS;
  cmi_locs : NoDup (map cl_loc (cm_clients m));
  cmi_exclusive : NoDup (omap cl_device (cm_clients m));
  cmi_clients : Forall (fun c => detached c \/
    exists e, e ∈ dl_entries (cm_device_list m) /\ attached_to c e) (cm_clients m);
  cmi_entries : Forall (fun e => idle e \/
    exists c, c ∈ cm_clients m /\ attached_to c e) (dl_entries (cm_device_list m));
}.

Lemma entries_with_entry l l1 e l2 : dl_entries (with_entry l l1 e l2) = l1 ++ e :: l2.
Proof. done. Qed.

Lemma dl_inv_with l l1 e l2 e' :
  dl_inv (with_entry l l1 e l2) -> entry_ok e' -> de_loc e' = de_loc e -> busid_of e' = busid_of e ->
  dl_inv (with_entry l l1 e' l2).
Proof.
  intros [Hc He Hl Hb] Hok El Eb. unfold with_entry in *. simpl in *.
  split; simpl; [by rewrite length_app in *| | |].
  - rewrite Forall_app, Forall_cons in *. tauto.
  - rewrite map_app in *. simpl in *. by rewrite El.
  - rewrite map_app in *. simpl in *. by rewrite Eb.
Qed.

Lemma attached_loc c e e' : attached_to c e -> attached_to c e' -> de_loc e = de_loc e'.
Proof. intros (_ & _ & H1 & _) (_ & _ & H2 & _). congruence. Qed.

Lemma detached_not_attached c e : detached c -> attached_to c e -> False.
Proof. intros (_ & _ & H1 & _) (_ & _ & H2 & _). congruence. Qed.

Lemma not_in_locs {A B} (loc : A -> B) l1 e l2 x :
  NoDup (map loc (l1 ++ e :: l2)) -> x ∈ l1 ++ l2 -> loc x <> loc e.
Proof.
  rewrite map_app. simpl. intros (_ & Hn & Hc)%NoDup_app [Hx|Hx]%elem_of_app Heq.
  - apply (Hn (loc x)); [apply list_elem_of_fmap; eauto|]. rewrite Heq. by left.
  - apply NoDup_cons in Hc as [Hc _]. apply Hc. rewrite <- Heq. apply list_elem_of_fmap. eauto.
Qed.

Lemma map_inj_elem {A B} (loc : A -> B) l x y :
  NoDup (map loc l) -> x ∈ l -> y ∈ l -> loc x = loc y -> x = y.
Proof.
  intros Hn Hx Hy E. apply list_elem_of_split in Hx as (l1 & l2 & ->).
  apply elem_of_mid_ne in Hy as [|Hy]; [done|]. by destruct (not_in_locs loc l1 x l2 y Hn Hy).
Qed.

Section swap.
  Context (m : client_manager) (cs1 cs2 : list client_connection) (c c' : client_connection).
  Context (l : device_list) (l1 l2 : list device_entry) (e e' : device_entry).
  Context (Hm : cm_inv m) (Ecs : cm_clients m = cs1 ++ c :: cs2).
  Context (El : cm_device_list m = with_entry l l1 e l2).
  (* before: only [c] may use the device of [e], and [c] uses no other *)
  Context (Hother : forall x, x ∈ cs1 ++ cs2 -> cl_device x <> Some (de_loc e)).
  Context (Hc : detached c \/ attached_to c e).
  (* after: they use each other, or neither uses anything *)
  Context (Hloc : cl_loc c' = cl_loc c) (Heloc : de_loc e' = de_loc e).
  Context (Hbus : busid_of e' = busid_of e) (Hok : entry_ok e').
  Context (Hc' : detached c' /\ idle e' \/ attached_to c' e').

Lemma swap_others x y :
  x ∈ cs1 ++ cs2 -> attached_to x y -> y ∈ l1 ++ e :: l2 -> y ∈ l1 ++ e' :: l2.
Proof using Hother.
  intros Hx Ha Hy. destruct Ha as (_ & _ & Hd & _). apply (Hother x) in Hx.
  rewrite !elem_of_app, !elem_of_cons in *. destruct Hy as [?|[->|?]]; [by left|congruence|by right; right].
Qed.

Lemma swap_entries x y :
  y ∈ l1 ++ l2 -> x ∈ cs1 ++ c :: cs2 -> attached_to x y -> x ∈ cs1 ++ c' :: cs2.
Proof using Hm El Hc.
  intros Hy Hx Ha. rewrite !elem_of_app, !elem_of_cons in *.
  destruct Hx as [?|[->|?]]; [by left| |by right; right].
  destruct Hc as [Hd|Hat]; [by destruct (detached_not_attached _ _ Hd Ha)|].
  destruct (not_in_locs de_loc l1 e l2 y); [|by apply elem_of_app|by apply (attached_loc c)].
  pose proof (inv_locs _ (cmi_list m Hm)) as Hn. by rewrite El in Hn.
Qed.

Lemma cm_inv_swap :
  cm_inv (cm_set_list (cm_set_clients m (cs1 ++ c' :: cs2) (cm_client_count m) (cm_next_client_id m))
            (with_entry l l1 e' l2)).
Proof using All.
  pose proof Hm as [Hl Hb Hi Hn Hx Hlc Hex Hcl Hen].
  rewrite Ecs in Hn, Hlc, Hex, Hcl. rewrite Ecs, El in Hen. rewrite El in Hl, Hb, Hcl.
  rewrite entries_with_entry in Hb, Hcl, Hen.
  rewrite Forall_app, Forall_cons in Hb. rewrite Forall_app, Forall_cons in Hcl.
  rewrite Forall_app, Forall_cons in Hen.
  destruct Hb as (Hb1 & Hb2 & Hb3), Hcl as (Hc1 & Hc2 & Hc3), Hen as (He1 & He2 & He3).
  split; simpl; try done.
  - by eapply dl_inv_with.
  - rewrite Forall_app, Forall_cons. rewrite Hbus. done.
  - rewrite Hn, !length_app. done.
  - rewrite map_app in *. simpl in *. by rewrite Hloc.
  - rewrite omap_app in *. simpl in *.
    assert (cl_device c' = NULL \/ cl_device c' = Some (de_loc e)) as Hd.
    { destruct Hc' as [[(_ & _ & ? & _) _]|(_ & _ & ? & _)]; [by left|right; congruence]. }
    assert (NoDup (omap cl_device cs1 ++ omap cl_device cs2)) as Hnd.
    { destruct (cl_device c); [by eapply NoDup_drop|done]. }
    destruct Hd as [-> | ->]; [done|]. rewrite <- Permutation_middle. apply NoDup_cons. split; [|done].
    rewrite <- omap_app. intros (x & Hx' & Hdx)%list_elem_of_omap. by apply (Hother x).
  - assert (forall cs, Forall (fun x => detached x \/ exists y, y ∈ l1 ++ e :: l2 /\ attached_to x y) cs ->
      (forall x, x ∈ cs -> x ∈ cs1 ++ cs2) ->
      Forall (fun x => detached x \/ exists y, y ∈ l1 ++ e' :: l2 /\ attached_to x y) cs) as Hgo.
    { intros cs Hcs Hin. eapply Forall_impl_in; [exact Hcs|]. simpl.
      intros x Hxin [?|(y & Hy & Ha)]; [by left|right].
      exists y. split; [|done]. eapply swap_others; [by apply Hin|done..]. }
    apply Forall_app; split; [apply Hgo; [done|intros; apply elem_of_app; by left]|].
    apply Forall_cons; split; [|apply Hgo; [done|intros; apply elem_of_app; by right]].
    destruct Hc' as [[? _]|?]; [by left|right]. eauto with usbip.
  - assert (forall es, Forall (fun y => idle y \/ exists x, x ∈ cs1 ++ c :: cs2 /\ attached_to x y) es ->
      (forall y, y ∈ es -> y ∈ l1 ++ l2) ->
      Forall (fun y => idle y \/ exists x, x ∈ cs1 ++ c' :: cs2 /\ attached_to x y) es) as Hgo.
    { intros es Hes Hin. eapply Forall_impl_in; [exact Hes|]. simpl.
      intros y Hyin [?|(x & Hx' & Ha)]; [by left|right].
      exists x. split; [|done]. eapply swap_entries; [by apply Hin|done..]. }
    apply Forall_app; split; [apply Hgo; [done|intros; apply elem_of_app; by left]|].
    apply Forall_cons; split; [|apply Hgo; [done|intros; apply elem_of_app; by right]].
    destruct Hc' as [[_ ?]|?]; [by left|right]. eauto with usbip.
Qed.
End swap.

Lemma cm_inv_drop m cs1 c cs2 :
  cm_inv m -> cm_clients m = cs1 ++ c :: cs2 -> detached c ->
  cm_inv (cm_set_clients m (cs1 ++ cs2) (cm_client_count m - 1) (cm_next_client_id m)).
Proof.
  intros [Hl Hb Hi Hn Hx Hlc Hex Hcl Hen] E Hd. rewrite E in Hn, Hlc, Hex, Hcl, Hen.
  split; simpl; try done.
  - rewrite Hn, !length_app. simpl. lia.
  - lia.
  - rewrite map_app in *. by eapply NoDup_drop.
  - rewrite omap_app in *. simpl in Hex. destruct (cl_device c); [by eapply NoDup_drop|done].
  - rewrite Forall_app, Forall_cons in Hcl. apply Forall_app. tauto.
  - eapply Forall_impl_in; [exact Hen|]. simpl. intros e _ [?|(x & Hxin & Ha)]; [by left|right].
    exists x. split; [|done]. rewrite !elem_of_app, elem_of_cons in *.
    destruct Hxin as [?|[->|?]]; [by left| |by right]. by destruct (detached_not_attached c e).
Qed.

Lemma cm_inv_add m alloc now sock ip port e r1 r2 :
  cm_inv m -> (forall loc, alloc = Some loc -> loc ∉ map cl_loc (cm_clients m)) ->
  client_manager_add alloc now (Some m) sock ip port = (e, r1, r2) ->
  exists m', r1 = Some m' /\ cm_inv m' /\ cm_device_list m' = cm_device_list m /\
    (e = ERR_SUCCESS -> exists c, r2 = Some c /\ detached c /\ cm_clients m' = c :: cm_clients m) /\
    (e <> ERR_SUCCESS -> cm_clients m' = cm_clients m).
Proof.
  intros Hm Hf E. pose proof Hm as [Hl Hb Hi Hn Hx Hlc Hex Hcl Hen].
  unfold client_manager_add in E. rewrite Hi in E. simpl in E.
  destruct (cm_client_count m >=? MAX_CLIENTS) eqn:Emax; [simplify_eq; by exists m|].
  rewrite Z.geb_leb in Emax. bool_to_prop. destruct alloc as [loc|]; simpl in E; simplify_eq.
  - eexists. split; [done|]. split; [|split_and!; [done| |done]; intros _; eexists; by split_and!].
    split; simpl; try done; [lia|lia| | |].
    + apply NoDup_cons. split; [by apply Hf|done].
    + constructor; [by left; split_and!|done].
    + eapply Forall_impl; [exact Hen|]. simpl. intros e [?|(x & ? & ?)]; [by left|right].
      exists x. split; [by right|done].
  - eexists. split; [done|]. by split; [split|split].
Qed.

(** ** The operations on the invariant *)

Lemma store_split m cs1 c cs2 c' :
  NoDup (map cl_loc (cm_clients m)) -> cm_clients m = cs1 ++ c :: cs2 -> cl_loc c' = cl_loc c ->
  update_first (client_at (cl_loc c')) (fun _ => c') (cm_clients m) = cs1 ++ c' :: cs2.
Proof.
  intros Hn E Hl. rewrite Hl, E in *. rewrite map_app in Hn. apply NoDup_app in Hn as (_ & Hn & _).
  rewrite update_first_split; [done| |apply Z.eqb_refl]. apply Forall_forall. intros x Hx.
  apply Z.eqb_neq. intros Heq. apply (Hn (cl_loc x)); [apply list_elem_of_fmap; eauto|].
  rewrite Heq. by left.
Qed.

(** What a device list shows of each device, apart from the device itself. *)
Definition dl_view (l : device_list) : list (Z * bytes * device_state * Z * bool) :=
  map (fun e => (de_loc e, busid_of e, de_state e, de_client_id e, de_is_shared e)) (dl_entries l).

(** Nobody is attached to an available device. *)
Lemma available_idle m e :
  cm_inv m -> e ∈ dl_entries (cm_device_list m) -> de_state e = DEVICE_STATE_AVAILABLE ->
  idle e /\ forall c, c ∈ cm_clients m -> cl_device c <> Some (de_loc e).
Proof.
  intros [Hl _ _ _ _ _ _ Hcl Hen] He Hst. rewrite Forall_forall in Hcl. rewrite Forall_forall in Hen.
  split.
  - destruct (Hen e He) as [?|(c & _ & (_ & _ & _ & _ & ? & _))]; [done|congruence].
  - intros c Hc Hd. destruct (Hcl c Hc) as [(_ & _ & ? & _)|(e' & He' & (_ & _ & Hd' & _ & Hs & _))];
      [congruence|].
    assert (e' = e) as ->; [|congruence].
    pose proof (inv_locs _ Hl) as Hn. rewrite Hd in Hd'. injection Hd' as Hd'.
    apply list_elem_of_split in He as (l1 & l2 & E). rewrite E in Hn, He'.
    apply elem_of_mid_ne in He' as [|Hin]; [done|]. by destruct (not_in_locs de_loc l1 e l2 e' Hn Hin).
Qed.

Section operations_inv.
  Context {N U : Type} `{WinsockLaws N} `{WinUsbLaws U}.
  Implicit Types u : U.

(** An attachment either fails before touching anything, or works on the entry it
    has found. *)
Lemma attach_cases env m c b u err r1 r2 u' :
  cm_inv m -> client_attach_device env (Some m) (Some c) (Some b) u = ((err, r1, r2), u') ->
  (err <> ERR_SUCCESS /\ r1 = Some m /\ r2 = Some c /\ u' = u) \/
  exists l1 e l2 l' c', cm_device_list m = with_entry (cm_device_list m) l1 e l2 /\
    Forall (fun x => entry_at (de_loc e) x = false) l1 /\
    Forall (fun x => entry_is b x = false) l1 /\
    entry_is b e = true /\ de_is_shared e = true /\ de_state e = DEVICE_STATE_AVAILABLE /\
    r1 = Some (cm_set_list m l') /\ r2 = Some c' /\
    attach_post env (cm_device_list m) l1 e l2 c b err l' c' u u'.
Proof.
  intros Hm E. unfold client_attach_device in E. simpl in E.
  destruct (find_first _ _) as [e|] eqn:Ef; [|mret_eq; by left].
  destruct (de_is_shared e) eqn:Esh; simpl in E; [|mret_eq; by left].
  case_bool_decide as Hst; [mret_eq; by left|].
  apply M_bind_inv in E as ([[err' l'] c'] & u1 & E & E2). mret_eq.
  destruct (focus_entry _ _ _ (cmi_list m Hm) Ef) as (l1 & l2 & El & Hl1 & Hb & He).
  assert (e ∈ dl_entries (cm_device_list m)) as Hin by (rewrite El; apply elem_of_mid).
  destruct (available_idle m e Hm Hin Hst) as [[_ Hcl] _].
  assert (entry_ok e) as (_ & Hd & _).
  { pose proof (inv_entries _ (cmi_list m Hm)) as Hf. rewrite Forall_forall in Hf. auto. }
  rewrite El in E. right. exists l1, e, l2, l', c'. split_and!; try done.
  exact (attach_entry_spec env _ l1 e l2 c b u _ _ Hl1 Hb He Hst Hd Hcl E).
Qed.

Lemma copy_busid e b : entry_ok e -> entry_is b e = true -> copy_str b USBIP_BUSID_MAX = busid_of e.
Proof.
  intros Hok Hi. pose proof (proj1 (entry_is_true _ _ Hok) Hi) as Hb. unfold copy_str.
  rewrite <- Hb. apply take_ge. destruct Hok as ((_ & (_ & _ & Hlen) & _) & _).
  unfold busid_of, USBIP_BUSID_MAX. lia.
Qed.

(** The bus id that is kept finds the same entries. *)
Lemma copied_finds e b x :
  entry_ok e -> entry_is b e = true -> entry_is (copy_str b USBIP_BUSID_MAX) x = entry_is b x.
Proof.
  intros Hok Hi. rewrite (copy_busid e) by done. rewrite (proj1 (entry_is_true _ _ Hok) Hi).
  unfold entry_is, streq. by rewrite cstr_cstr.
Qed.

(** After an attachment the client is stored back and the manager is consistent
    again, whatever happened. *)
Lemma attach_inv env m c b u err r1 r2 u' :
  cm_inv m -> c ∈ cm_clients m -> detached c ->
  client_attach_device env (Some m) (Some c) (Some b) u = ((err, r1, r2), u') ->
  exists m' c', r1 = Some m' /\ r2 = Some c' /\ cm_inv (store_client m' c') /\
    (err <> ERR_SUCCESS -> detached c' /\ same_handles u u' /\
       dl_view (cm_device_list m') = dl_view (cm_device_list m)) /\
    (err = ERR_SUCCESS -> exists e, e ∈ dl_entries (cm_device_list m') /\ attached_to c' e /\
       busid_of e = cstr b /\ handles_taken (de_device e) u u').
Proof.
  intros Hm Hc Hd E. apply attach_cases in E; [|done].
  pose proof Hm as [Hl Hbs _ _ _ Hlc _ _ _]. apply list_elem_of_split in Hc as (cs1 & cs2 & Ecs).
  destruct E as [(Hne & -> & -> & ->)|(l1 & e & l2 & l' & c' & El & _ & _ & He & _ & Hst & -> & -> & Hpost)].
  { exists m, c. split_and!; try done. unfold store_client.
    rewrite (store_split m cs1 c cs2 c) by done. rewrite <- Ecs. by destruct m. }
  set (l := cm_device_list m) in *.
  assert (e ∈ dl_entries l) as Hin by (rewrite El; apply elem_of_mid).
  destruct (available_idle m e Hm Hin Hst) as [[_ Hcl] Hfree].
  assert (forall x, x ∈ cs1 ++ cs2 -> cl_device x <> Some (de_loc e)) as Hother.
  { intros x Hx. apply Hfree. rewrite Ecs. apply elem_of_mid_ne. by right. }
  pose proof (inv_entries _ Hl) as Hok. rewrite Forall_forall in Hok. specialize (Hok e Hin).
  exists (cm_set_list m l'), c'. split; [done|]. split; [done|].
  destruct Hpost as [(Hne & d' & (Hdi & Hs & Hcd & Hf & Hu) & -> & Hc')
    |(-> & d' & h & w & Hdi & Hs & Ho & Hh & -> & ->)].
  - assert (cl_loc c' = cl_loc c /\ detached c') as [Ecl Hdc'].
    { destruct Hd as (? & ? & ? & ?). by destruct Hc' as [-> | ->]. }
    assert (busid_of (entry_set_device e d') = busid_of e) as Hbus by (by apply busid_of_device).
    split_and!; [|intros _; split_and!; [done|by split|]|done].
    + unfold store_client. cbn [cm_clients cm_set_list]. rewrite (store_split m cs1 c cs2) by done.
      apply (cm_inv_swap m cs1 cs2 c c' l l1 l2 e (entry_set_device e d')); auto;
        [by apply entry_ok_device|]. left. split; [done|]. split; [|done]. simpl. by rewrite Hst.
    + unfold dl_view. cbn [cm_device_list cm_set_list]. fold l.
      assert (dl_entries l = l1 ++ e :: l2) as -> by (by rewrite El).
      rewrite entries_with_entry, !map_app. cbn [map]. by rewrite Hbus.
  - set (e' := entry_set_state _ _ _ _ _).
    assert (busid_of e' = busid_of e) as Hbus by (by apply (busid_of_device e d')).
    assert (entry_ok e') as Hok'.
    { apply entry_ok_exported; [auto with usbip|]. by apply entry_ok_device. }
    assert (busid_of e = cstr b) as Hb by (by apply entry_is_true).
    match goal with |- cm_inv (store_client _ ?x) /\ _ => set (c' := x) end.
    assert (attached_to c' e') as Hat.
    { split_and!; try done. simpl. rewrite Hbus. by apply copy_busid. }
    split; [|split; [done|intros _; exists e'; split_and!; try done]].
    + unfold store_client. cbn [cm_clients cm_set_list]. rewrite (store_split m cs1 c cs2) by done.
      apply (cm_inv_swap m cs1 cs2 c c' l l1 l2 e e'); auto.
    + simpl. apply elem_of_mid.
    + by rewrite Hbus.
Qed.

(** The entry an attached client uses, in the list. *)
Lemma attached_focus m c :
  cm_inv m -> c ∈ cm_clients m -> cl_attached_busid c <> [] ->
  exists l1 e l2, cm_device_list m = with_entry (cm_device_list m) l1 e l2 /\ attached_to c e /\
    Forall (fun x => entry_at (de_loc e) x = false) l1 /\
    Forall (fun x => entry_is (cl_attached_busid c) x = false) l1 /\
    entry_is (cl_attached_busid c) e = true /\ entry_ok e /\ char_at (cl_attached_busid c) 0 <> 0.
Proof.
  intros Hm Hc Hb. pose proof Hm as [Hl Hbs _ _ _ _ _ Hcl _]. rewrite Forall_forall in Hcl.
  destruct (Hcl c Hc) as [(_ & ? & _)|(e & He & Ha)]; [done|]. pose proof Ha as (_ & Eb & _).
  pose proof (inv_entries _ Hl) as Hok. rewrite Forall_forall in Hok.
  pose proof (Hok e He) as Hoke. pose proof Hoke as ((_ & (Hn & _ & _) & _) & _).
  assert (entry_is (cl_attached_busid c) e = true) as Hi.
  { apply entry_is_true; [done|]. rewrite Eb. unfold busid_of. by rewrite cstr_id. }
  destruct (find_first (entry_is (cl_attached_busid c)) (dl_entries (cm_device_list m))) as [e2|] eqn:Ef.
  2: { apply find_first_None in Ef. rewrite Forall_forall in Ef. rewrite Ef in Hi; done. }
  destruct (focus_entry _ _ _ Hl Ef) as (l1 & l2 & El & Hl1 & Hb1 & He2).
  assert (e2 = e) as ->.
  { pose proof (inv_busids _ Hl) as Hnd. rewrite El in He, Hnd. rewrite entries_with_entry in He, Hnd.
    apply elem_of_mid_ne in He as [|Hin]; [done|].
    destruct (not_in_locs busid_of l1 e2 l2 e Hnd Hin).
    assert (e2 ∈ dl_entries (cm_device_list m)) as Hin2 by (rewrite El; apply elem_of_mid).
    rewrite (proj1 (entry_is_true _ _ Hoke) Hi). symmetry. by apply entry_is_true; [apply Hok|]. }
  exists l1, e, l2. split_and!; try done. rewrite Eb.
  unfold busid_of, no_nul in *. rewrite Eb in Hb. unfold busid_of in Hb.
  destruct (dev_busid (de_device e)) as [|x xs]; [done|]. by apply Forall_cons in Hn as [? _].
Qed.

(** Detaching a client that points to the open device of [e], whoever exported it. *)
Lemma detach_focus m c l1 e l2 u r u' :
  cm_device_list m = with_entry (cm_device_list m) l1 e l2 -> cl_device c = Some (de_loc e) ->
  dev_is_open (de_device e) = true ->
  Forall (fun x => entry_at (de_loc e) x = false) l1 ->
  Forall (fun x => entry_is (cl_attached_busid c) x = false) l1 ->
  entry_is (cl_attached_busid c) e = true -> entry_ok e -> char_at (cl_attached_busid c) 0 <> 0 ->
  client_detach_device (Some m) (Some c) u = (r, u') ->
  exists d' h w, dev_inv d' /\ same_device (de_device e) d' /\ dev_is_open d' = false /\
    (is_Some (cl_urb_handler c) -> h = NULL) /\
    r = (ERR_SUCCESS,
         Some (cm_set_list m (with_entry (cm_device_list m) l1
           (entry_set_state (entry_set_device e d') DEVICE_STATE_AVAILABLE 0 [] 0) l2)),
         Some (cl_set_attachment c [] NULL h w CLIENT_STATE_CONNECTED)) /\
    open_files u' = open_files u ∖ owned_files (de_device e) /\
    open_usb u' = open_usb u ∖ owned_usb (de_device e).
Proof.
  intros El Hdev Ho Hl1 Hb1 Hi (_ & Hdi & _) Hz E.
  unfold client_detach_device in E. apply Z.eqb_neq in Hz. rewrite Hz in E.
  apply M_bind_inv in E as ([h w] & u1 & E1 & E).
  assert ((is_Some (cl_urb_handler c) -> h = NULL) /\ same_handles u u1) as [Hh [Hf Hu]].
  { destruct (cl_urb_handler c) as [h0|]; [|mret_eq; split; [by intros []|done]].
    apply M_bind_inv in E1 as ([h1 w1] & u2 & E2 & E1). apply stop_handles in E2.
    apply M_bind_inv in E1 as ([h3 w3] & u3 & E3 & E1). apply cleanup_handles in E3. mret_eq.
    split; [done|]. by etrans. }
  apply M_bind_inv in E as (l' & u2 & E2 & E). rewrite Hdev, El in E2.
  apply close_release_focus in E2 as (d' & -> & Hd' & Hs' & Hc' & Ef & Eu); [|done..].
  rewrite unexport_focus in E; [|done|by rewrite entry_is_device].
  exists d', h, w. split_and!; try done; mret_eq; congruence.
Qed.

Lemma detach_run m c l1 e l2 u r u' :
  cm_device_list m = with_entry (cm_device_list m) l1 e l2 -> attached_to c e ->
  Forall (fun x => entry_at (de_loc e) x = false) l1 ->
  Forall (fun x => entry_is (cl_attached_busid c) x = false) l1 ->
  entry_is (cl_attached_busid c) e = true -> entry_ok e -> char_at (cl_attached_busid c) 0 <> 0 ->
  client_detach_device (Some m) (Some c) u = (r, u') ->
  exists d' w, dev_inv d' /\ same_device (de_device e) d' /\ dev_is_open d' = false /\
    r = (ERR_SUCCESS,
         Some (cm_set_list m (with_entry (cm_device_list m) l1
           (entry_set_state (entry_set_device e d') DEVICE_STATE_AVAILABLE 0 [] 0) l2)),
         Some (cl_set_attachment c [] NULL NULL w CLIENT_STATE_CONNECTED)) /\
    open_files u' = open_files u ∖ owned_files (de_device e) /\
    open_usb u' = open_usb u ∖ owned_usb (de_device e).
Proof.
  intros El (_ & _ & Hdev & Hh & _ & _ & Ho) Hl1 Hb1 Hi Hok Hz E.
  destruct (detach_focus m c l1 e l2 u r u' El Hdev Ho Hl1 Hb1 Hi Hok Hz E)
    as (d' & h & w & ? & ? & ? & Eh & -> & ? & ?).
  exists d', w. rewrite (Eh Hh). by split_and!.
Qed.

Lemma same_available e d' :
  same_device (de_device e) d' -> dev_inv d' -> dev_is_open d' = false -> entry_ok e ->
  let e' := entry_set_state (entry_set_device e d') DEVICE_STATE_AVAILABLE 0 [] 0 in
  entry_ok e' /\ busid_of e' = busid_of e /\ idle e'.
Proof.
  intros Hs Hd Hc Hok e'. split_and!.
  - apply entry_ok_available. by apply entry_ok_device.
  - by apply (busid_of_device e d').
  - by split.
Qed.

Lemma others_free m cs1 c cs2 e :
  cm_inv m -> cm_clients m = cs1 ++ c :: cs2 -> attached_to c e ->
  forall x, x ∈ cs1 ++ cs2 -> cl_device x <> Some (de_loc e).
Proof.
  intros Hm Ecs (_ & _ & Hd & _) x Hx Hdx. pose proof (cmi_exclusive m Hm) as Hn.
  rewrite Ecs, omap_app in Hn. simpl in Hn. rewrite Hd in Hn.
  rewrite <- Permutation_middle in Hn. apply NoDup_cons in Hn as [Hn _]. apply Hn.
  rewrite <- omap_app. apply list_elem_of_omap. eauto.
Qed.

Lemma detach_inv m c u err r1 r2 u' :
  cm_inv m -> c ∈ cm_clients m ->
  client_detach_device (Some m) (Some c) u = ((err, r1, r2), u') ->
  err = ERR_SUCCESS /\ exists m' c', r1 = Some m' /\ r2 = Some c' /\
    cm_inv (store_client m' c') /\ detached c' /\ cl_loc c' = cl_loc c /\
    (forall e, e ∈ dl_entries (cm_device_list m) -> attached_to c e ->
       open_files u' = open_files u ∖ owned_files (de_device e) /\
       open_usb u' = open_usb u ∖ owned_usb (de_device e) /\
       exists e', e' ∈ dl_entries (cm_device_list m') /\ busid_of e' = busid_of e /\ idle e' /\
         de_state e' = DEVICE_STATE_AVAILABLE).
Proof.
  intros Hm Hc E. destruct (decide (cl_attached_busid c = [])) as [Hb|Hb].
  - pose proof (cmi_clients m Hm) as Hcl. rewrite Forall_forall in Hcl.
    pose proof (cmi_busids m Hm) as Hbs. rewrite Forall_forall in Hbs.
    assert (forall e, e ∈ dl_entries (cm_device_list m) -> attached_to c e -> False) as Hno.
    { intros e He (_ & Eb & _). apply (Hbs e He). congruence. }
    unfold client_detach_device in E. rewrite Hb in E. simpl in E. mret_eq. split; [done|].
    exists m, c. split_and!; try done; [| |by intros e He Ha; destruct (Hno e He Ha)].
    + apply list_elem_of_split in Hc as (cs1 & cs2 & Ecs). unfold store_client.
      rewrite (store_split m cs1 c cs2 c) by (done || apply Hm). rewrite <- Ecs. by destruct m.
    + destruct (Hcl c Hc) as [?|(e & He & Ha)]; [done|]. by destruct (Hno e He Ha).
  - destruct (attached_focus m c Hm Hc Hb) as (l1 & e & l2 & El & Ha & Hl1 & Hb1 & Hi & Hok & Hz).
    destruct (detach_run m c l1 e l2 u _ _ El Ha Hl1 Hb1 Hi Hok Hz E)
      as (d' & w & Hd' & Hs & Hcl & [= -> -> ->] & Hf & Hu). split; [done|].
    destruct (same_available e d' Hs Hd' Hcl Hok) as (Hok' & Hbus & Hidle).
    eexists _, _. split; [done|]. split; [done|]. split_and!; [| by split_and!|done|].
    + apply list_elem_of_split in Hc as (cs1 & cs2 & Ecs). unfold store_client.
      cbn [cm_clients cm_set_list]. erewrite (store_split m cs1 c cs2) by (done || apply Hm).
      eapply (cm_inv_swap m cs1 cs2 c _ (cm_device_list m) l1 l2 e); auto; [by eapply others_free|].
      left. split; [by split_and!|done].
    + intros e2 He2 Ha2. assert (e2 = e) as ->.
      { pose proof (inv_locs _ (cmi_list m Hm)) as Hn. rewrite El in He2, Hn.
        rewrite entries_with_entry in He2, Hn. apply elem_of_mid_ne in He2 as [|Hin]; [done|].
        destruct (not_in_locs de_loc l1 e l2 e2 Hn Hin). by eapply attached_loc. }
      split_and!; [done|done|]. eexists. split; [simpl; apply elem_of_mid|done].
Qed.

(** Freeing a client that uses the device of [e]. *)
Lemma free_client_attached l l1 e l2 c n u r st :
  Forall (fun x => entry_at (de_loc e) x = false) l1 -> dev_inv (de_device e) ->
  cl_device c = Some (de_loc e) ->
  free_client (with_entry l l1 e l2) (Some c) (n, u) = (r, st) ->
  exists d', r = with_entry l l1 (entry_set_device e d') l2 /\ dev_inv d' /\
    same_device (de_device e) d' /\ dev_is_open d' = false /\
    open_files st.2 = open_files u ∖ owned_files (de_device e) /\
    open_usb st.2 = open_usb u ∖ owned_usb (de_device e).
Proof.
  intros Hl1 Hd Hdev E. unfold free_client in E.
  apply M_bind_inv in E as ([] & st1 & E1 & E).
  assert (exists n1, st1 = (n1, u)) as [n1 ->].
  { destruct (socket_is_valid _); [|mret_eq; eauto].
    apply lift_l_inv in E1 as (n1 & _ & ->). eauto. }
  apply M_bind_inv in E as ([] & st2 & E2 & E).
  assert (exists u2, st2 = (n1, u2) /\ same_handles u u2) as (u2 & -> & Hf & Hu).
  { destruct (cl_urb_handler c); [|mret_eq; by eexists].
    apply lift_r_inv in E2 as (u2 & E2 & ->). exists u2. split; [done|].
    apply M_bind_inv in E2 as ([h w] & u3 & E3 & E2). apply cleanup_handles in E3. by mret_eq. }
  rewrite Hdev in E. apply lift_r_inv in E as (u3 & E & ->).
  apply close_focus in E as (d' & -> & ? & ? & ? & Ef & Eu); [|done..].
  exists d'. split_and!; try done; simpl; congruence.
Qed.

Lemma free_client_detached l c n u r st :
  detached c -> free_client l (Some c) (n, u) = (r, st) -> r = l /\ st.2 = u.
Proof.
  intros (_ & _ & Hd & Hh) E. unfold free_client in E. rewrite Hd, Hh in E.
  apply M_bind_inv in E as ([] & st1 & E1 & E). apply M_bind_inv in E as ([] & st2 & E2 & E). mret_eq.
  destruct (socket_is_valid _); [|by mret_eq]. by apply lift_l_inv in E1 as (n1 & _ & ->).
Qed.

Lemma remove_inv m loc n u err r st :
  cm_inv m -> client_manager_remove (Some m) (Some loc) (n, u) = ((err, r), st) ->
  match find_first (client_at loc) (cm_clients m) with
  | NULL => err = ERR_NOT_FOUND /\ r = Some m /\ st = (n, u)
  | Some c =>
      err = ERR_SUCCESS /\ exists m', r = Some m' /\ cm_inv m' /\
      cm_clients m' = remove_first (client_at loc) (cm_clients m) /\
      (detached c -> same_handles u st.2 /\ cm_device_list m' = cm_device_list m) /\
      (forall e, e ∈ dl_entries (cm_device_list m) -> attached_to c e ->
         open_files st.2 = open_files u ∖ owned_files (de_device e) /\
         open_usb st.2 = open_usb u ∖ owned_usb (de_device e))
  end.
Proof.
  intros Hm E. unfold client_manager_remove in E. rewrite (cmi_init m Hm) in E. cbn [negb] in E.
  destruct (find_first _ _) as [c|] eqn:Ef; [|by mret_eq].
  pose proof (find_first_Some _ _ _ Ef) as [Hc _].
  apply find_first_split in Ef as (cs1 & cs2 & Ecs & Hcs & Hat).
  rewrite Ecs in E |- *. rewrite remove_first_split in E |- * by done. cbv zeta in E.
  apply M_bind_inv in E as (l' & st1 & E1 & E).
  injection E as <- <- <-. split; [done|]. eexists. split; [done|].
  destruct (decide (cl_attached_busid c = [])) as [Hb|Hb].
  - assert (detached c) as Hd.
    { pose proof (cmi_clients m Hm) as Hcl. rewrite Forall_forall in Hcl.
      destruct (Hcl c Hc) as [?|(e & He & (_ & Eb & _))]; [done|].
      pose proof (cmi_busids m Hm) as Hbs. rewrite Forall_forall in Hbs. destruct (Hbs e He). congruence. }
    rewrite Hb in E1. simpl in E1. apply free_client_detached in E1 as [-> Hu]; [|done].
    split; [by apply (cm_inv_drop m cs1 c cs2)|]. split; [done|]. split; [by rewrite Hu|].
    intros e _ Ha. by destruct (detached_not_attached _ _ Hd Ha).
  - destruct (attached_focus m c Hm Hc Hb) as (l1 & e & l2 & El & Ha & Hl1 & Hb1 & Hi & Hok & Hz).
    apply Z.eqb_neq in Hz. rewrite Hz in E1. cbn [negb cm_device_list cm_set_clients] in E1.
    rewrite El in E1. rewrite unexport_focus in E1 by done. cbn [snd default] in E1.
    pose proof Ha as (_ & _ & Hdev & _). pose proof Hok as (_ & Hdi & _).
    apply (free_client_attached _ l1 (entry_set_state e DEVICE_STATE_AVAILABLE 0 [] 0) l2) in E1
      as (d' & -> & Hd' & Hs & Hcl & Hf & Hu); [|done..]. cbn [de_device entry_set_state] in *.
    destruct (same_available e d' Hs Hd' Hcl Hok) as (Hok' & Hbus & Hidle).
    set (e' := entry_set_device _ d').
    set (c' := cl_set_attachment c [] NULL NULL W_none CLIENT_STATE_CONNECTED).
    assert (cm_inv (cm_set_list (cm_set_clients m (cs1 ++ c' :: cs2) (cm_client_count m)
      (cm_next_client_id m)) (with_entry (cm_device_list m) l1 e' l2))) as Hm'.
    { eapply (cm_inv_swap m cs1 cs2 c c' (cm_device_list m) l1 l2 e); auto;
        [by eapply others_free|]. left. split; [by split_and!|done]. }
    split; [by apply (cm_inv_drop _ cs1 c' cs2 Hm')|]. split; [done|].
    split; [intros Hd; by destruct (detached_not_attached _ _ Hd Ha)|].
    intros e2 He2 Ha2. assert (e2 = e) as ->; [|by split].
    pose proof (inv_locs _ (cmi_list m Hm)) as Hn. rewrite El in He2, Hn.
    rewrite entries_with_entry in He2, Hn. apply elem_of_mid_ne in He2 as [|Hin]; [done|].
    destruct (not_in_locs de_loc l1 e l2 e2 Hn Hin). by eapply attached_loc.
Qed.

(** ** The manager in use *)

(** What the server's threads do with the manager: every operation on a client
    takes a client of the list and stores it back.  A device is attached to a
    client that browses, as [handle_client_session] does. *)
Inductive cm_step : client_manager * (N * U) -> client_manager * (N * U) -> Prop :=
  | cms_add m st alloc now sock ip port e m' r :
      (forall loc, alloc = Some loc -> loc ∉ map cl_loc (cm_clients m)) ->
      client_manager_add alloc now (Some m) sock ip port = (e, Some m', r) ->
      cm_step (m, st) (m', st)
  | cms_attach m n u env c b e m' c' u' :
      c ∈ cm_clients m -> cl_state c = CLIENT_STATE_CONNECTED ->
      client_attach_device env (Some m) (Some c) (Some b) u = ((e, Some m', Some c'), u') ->
      cm_step (m, (n, u)) (store_client m' c', (n, u'))
  | cms_detach m n u c e m' c' u' :
      c ∈ cm_clients m ->
      client_detach_device (Some m) (Some c) u = ((e, Some m', Some c'), u') ->
      cm_step (m, (n, u)) (store_client m' c', (n, u'))
  | cms_remove m st loc e m' st' :
      client_manager_remove (Some m) (Some loc) st = ((e, Some m'), st') ->
      cm_step (m, st) (m', st')
  | cms_urb m n u c h w sent received urbs u' :
      (* a URB is submitted, executed or answered *)
      c ∈ cm_clients m -> is_Some (cl_urb_handler c) -> same_handles u u' ->
      cm_step (m, (n, u))
        (store_client m (cl_set_stats (cl_set_handler c (Some h) w) sent received urbs), (n, u'))
  | cms_io m n u n' :
      (* the sockets *)
      cm_step (m, (n, u)) (m, (n', u)).

Lemma connected_detached m c :
  cm_inv m -> c ∈ cm_clients m -> cl_state c = CLIENT_STATE_CONNECTED -> detached c.
Proof.
  intros Hm Hc Hs. pose proof (cmi_clients m Hm) as Hcl. rewrite Forall_forall in Hcl.
  destruct (Hcl c Hc) as [?|(e & _ & (Hst & _))]; [done|congruence].
Qed.

Lemma cm_step_inv x y : cm_step x y -> cm_inv x.1 -> cm_inv y.1.
Proof.
  intros Hs Hm. destruct Hs as [m st alloc now sock ip port e m' r Hf E|m n u env c b e m' c' u' Hc Hst E
    |m n u c e m' c' u' Hc E|m [n u] loc e m' st' E
    |m n u c h w sent rec urbs u' Hc Hh _|]; simpl in *.
  - by destruct (cm_inv_add _ _ _ _ _ _ _ _ _ Hm Hf E) as (? & [= <-] & ? & _).
  - pose proof (connected_detached m c Hm Hc Hst) as Hd.
    by destruct (attach_inv _ _ _ _ _ _ _ _ _ Hm Hc Hd E) as (? & ? & [= <-] & [= <-] & ? & _).
  - by destruct (detach_inv _ _ _ _ _ _ _ Hm Hc E) as (_ & ? & ? & [= <-] & [= <-] & ? & _).
  - apply remove_inv in E; [|done]. destruct (find_first _ _); [|by destruct E as (_ & [= ->] & _)].
    by destruct E as (_ & ? & [= <-] & ? & _).
  - pose proof (cmi_clients m Hm) as Hcl. rewrite Forall_forall in Hcl.
    destruct (Hcl c Hc) as [(_ & _ & _ & Hn)|(e & He & Ha)]; [rewrite Hn in Hh; by destruct Hh|].
    set (c' := cl_set_stats _ _ _ _). apply list_elem_of_split in Hc as (cs1 & cs2 & Ecs).
    apply list_elem_of_split in He as (l1 & l2 & El).
    assert (cm_device_list m = with_entry (cm_device_list m) l1 e l2) as El'.
    { unfold with_entry. rewrite <- El. by destruct (cm_device_list m). }
    assert (entry_ok e) as Hok.
    { pose proof (inv_entries _ (cmi_list m Hm)) as Hf. rewrite Forall_forall in Hf. apply Hf.
      rewrite El. apply elem_of_mid. }
    unfold store_client. rewrite (store_split m cs1 c cs2 c') by (done || apply Hm).
    pose proof (cm_inv_swap m cs1 cs2 c c' (cm_device_list m) l1 l2 e e Hm Ecs El'
      (others_free _ _ _ _ _ Hm Ecs Ha) (or_intror Ha) eq_refl eq_refl eq_refl Hok) as Hsw.
    rewrite <- El' in Hsw. apply Hsw. right.
    destruct Ha as (? & ? & ? & ? & ? & ? & ?). split_and!; try done.
  - done.
Qed.

(** ** Properties *)



(** C20: detaching undoes attaching: after a successful [client_attach_device],
    [client_detach_device] leaves the client browsing, every entry of the device
    list in the state it had, and exactly the handles open that were open
    before. *)
Theorem attach_detach_roundtrip env m c b u m1 c1 u1 err r1 r2 u2 :
  cm_inv m -> c ∈ cm_clients m -> cl_state c = CLIENT_STATE_CONNECTED ->
  client_attach_device env (Some m) (Some c) (Some b) u = ((ERR_SUCCESS, Some m1, Some c1), u1) ->
  client_detach_device (Some m1) (Some c1) u1 = ((err, r1, r2), u2) ->
  err = ERR_SUCCESS /\ same_handles u u2 /\
  exists m2 c2, r1 = Some m2 /\ r2 = Some c2 /\ detached c2 /\
    dl_view (cm_device_list m2) = dl_view (cm_device_list m).
Proof.
  intros Hm Hc Hs E1 E2. apply attach_cases in E1; [|done].
  destruct E1 as [(? & _)|(l1 & e & l2 & l' & c' & El & Hl1 & Hb & He & _ & Hst & [= ->] & [= ->] & Hpost)];
    [done|].
  destruct Hpost as [(? & _)|(_ & d' & h & w & Hdi & Hsd & Ho & Hh & -> & ->)]; [done|].
  set (l := cm_device_list m) in *. set (e1 := entry_set_state _ _ _ _ _) in *.
  set (c1 := cl_set_attachment _ _ _ _ _ _) in *.
  assert (e ∈ dl_entries l) as Hin by (rewrite El; apply elem_of_mid).
  pose proof (inv_entries _ (cmi_list m Hm)) as Hok. rewrite Forall_forall in Hok. specialize (Hok e Hin).
  assert (entry_ok e1) as Hok1.
  { apply entry_ok_exported; [auto with usbip|]. by apply entry_ok_device. }
  assert (busid_of e1 = busid_of e) as Hbus1 by (by apply (busid_of_device e d')).
  assert (busid_of e = cstr b) as Hcb by (by apply entry_is_true).
  assert (cl_attached_busid c1 = busid_of e) as Hc1.
  { simpl. rewrite Hcb. unfold copy_str. apply take_ge. rewrite <- Hcb.
    destruct Hok as (((_ & _ & _) & (_ & _ & Hlen) & _) & _). unfold busid_of, USBIP_BUSID_MAX. lia. }
  assert (attached_to c1 e1) as Ha by (split_and!; try done; by rewrite Hc1, Hbus1).
  destruct (detach_run (cm_set_list m (with_entry l l1 e1 l2)) c1 l1 e1 l2 u1 (err, r1, r2) u2)
    as (d2 & w2 & Hd2 & Hs2 & Hcl2 & [= -> -> ->] & Hf & Hu); try done.
  - rewrite Hc1. eapply Forall_impl; [exact Hb|]. intros x Hx. unfold entry_is in *.
    rewrite Hcb. by rewrite streq_cstr.
  - apply entry_is_true; [done|]. rewrite Hc1, Hbus1, Hcb. by rewrite cstr_cstr.
  - rewrite Hc1. pose proof (cmi_busids m Hm) as Hbs. rewrite Forall_forall in Hbs. specialize (Hbs e Hin).
    destruct Hok as ((_ & (Hn & _) & _) & _). unfold busid_of in *.
    destruct (dev_busid (de_device e)) as [|x xs]; [done|]. by apply Forall_cons in Hn as [? _].
  - split; [done|]. split; [by eapply handles_returned|]. eexists _, _. split; [done|]. split; [done|].
    split; [by split_and!|]. unfold dl_view. cbn [cm_device_list cm_set_list]. fold l.
    assert (dl_entries l = l1 ++ e :: l2) as -> by (by rewrite El).
    rewrite entries_with_entry, !map_app. cbn [map].
    change (busid_of (entry_set_state (entry_set_device e1 d2) DEVICE_STATE_AVAILABLE 0 [] 0))
      with (busid_of (entry_set_device e1 d2)). rewrite (busid_of_device e1 d2 Hs2), Hbus1.
    destruct Hok as (_ & _ & _ & Hav). rewrite Hst in Hav |- *. destruct Hav as (-> & _); [done|]. done.
Qed.

Lemma find_entry l b e :
  dl_inv l -> e ∈ dl_entries l -> busid_of e = cstr b ->
  find_first (entry_is b) (dl_entries l) = Some e.
Proof.
  intros Hl He Hb. pose proof (inv_entries _ Hl) as Hok. rewrite Forall_forall in Hok.
  destruct (find_first (entry_is b) (dl_entries l)) as [e2|] eqn:Ef.
  - destruct (focus_entry _ _ _ Hl Ef) as (l1 & l2 & El & _ & _ & He2). f_equal.
    pose proof (inv_busids _ Hl) as Hnd. rewrite El in He, Hnd. rewrite entries_with_entry in He, Hnd.
    apply elem_of_mid_ne in He as [|Hin]; [done|].
    destruct (not_in_locs busid_of l1 e2 l2 e Hnd Hin). rewrite Hb. symmetry.
    apply entry_is_true; [|done]. apply Hok. rewrite El. apply elem_of_mid.
  - apply find_first_None in Ef. rewrite Forall_forall in Ef. specialize (Ef e He).
    rewrite (proj2 (entry_is_true b e (Hok e He)) Hb) in Ef. done.
Qed.

(** a device in use is refused to everybody else: while a client is attached to
    a shared device, [client_attach_device] answers busy for its bus id and
    changes neither the manager, nor the client, nor any handle. *)
Theorem device_in_use_refused env m c1 c2 e b u :
  cm_inv m -> c1 ∈ cm_clients m -> e ∈ dl_entries (cm_device_list m) -> attached_to c1 e ->
  de_is_shared e = true -> busid_of e = cstr b ->
  client_attach_device env (Some m) (Some c2) (Some b) u =
    ((ERR_DEVICE_BUSY, Some m, Some c2), u).
Proof.
  intros Hm _ He (_ & _ & _ & _ & Hst & _) Hsh Hb. unfold client_attach_device.
  change (device_list_find (Some (cm_device_list m)) (Some b)) with
    (find_first (entry_is b) (dl_entries (cm_device_list m))).
  rewrite (find_entry _ _ _ (cmi_list m Hm) He Hb), Hsh, Hst. done.
Qed.

(** removing a client releases what it holds: [client_manager_remove] takes
    exactly that client out of the list, leaves the manager consistent, and closes
    exactly the handles of the device the client was attached to.  An address that
    is not in the list is reported as not found. *)
Theorem client_removed m loc n u err r st :
  cm_inv m -> client_manager_remove (Some m) (Some loc) (n, u) = ((err, r), st) ->
  match find_first (client_at loc) (cm_clients m) with
  | NULL => err = ERR_NOT_FOUND /\ r = Some m /\ st = (n, u)
  | Some c =>
      err = ERR_SUCCESS /\ exists m', r = Some m' /\ cm_inv m' /\
      cm_clients m' = remove_first (client_at loc) (cm_clients m) /\
      (detached c -> same_handles u st.2 /\ cm_device_list m' = cm_device_list m) /\
      (forall e, e ∈ dl_entries (cm_device_list m) -> attached_to c e ->
         open_files st.2 = open_files u ∖ owned_files (de_device e) /\
         open_usb st.2 = open_usb u ∖ owned_usb (de_device e))
  end.
Proof. apply remove_inv. Qed.
End operations_inv.


(** ** What goes over the wire *)

Section wire.
  Context {N U : Type} `{WinsockLaws N} `{WinUsbLaws U}.
  Implicit Types n : N.

(** Sending one thing after another. *)
Lemma sent_then fd bs1 bs2 e n n1 n2 :
  sent_post fd bs1 ERR_SUCCESS n n1 -> sent_post fd bs2 e n1 n2 -> sent_post fd (bs1 ++ bs2) e n n2.
Proof.
  intros [F1 [[_ E1]|[? _]]] [F2 Hr]; [|done]. split; [by etrans|]. rewrite E1 in Hr.
  destruct Hr as [[-> ->]|(-> & k & Hk & ->)]; [left|right].
  - by rewrite (assoc_L (++)).
  - split; [done|]. exists (length bs1 + k)%nat. rewrite length_app. split; [lia|].
    rewrite take_app_add. by rewrite (assoc_L (++)).
Qed.

Lemma sent_stop fd bs1 bs2 e n n1 :
  sent_post fd bs1 e n n1 -> e <> ERR_SUCCESS -> sent_post fd (bs1 ++ bs2) e n n1.
Proof.
  intros [F [[? _]|(-> & k & Hk & E)]] Hne; [done|]. split; [done|]. right. split; [done|].
  exists k. rewrite length_app, take_app_le by lia. split; [lia|done].
Qed.

Lemma sent_nothing fd n : sent_post fd [] ERR_SUCCESS n n.
Proof. split; [done|]. left. by rewrite app_nil_r. Qed.

(** A sender reports success, or that sending failed. *)
Lemma sent_error fd bs e n n' : sent_post fd bs e n n' -> e = ERR_SUCCESS \/ e = ERR_SOCKET_SEND.
Proof. intros [_ [[? _]|[? _]]]; auto. Qed.

(** *** The device list *)

Definition ifaces_wire (ifs : list usb_interface_info) : bytes :=
  concat (map (fun i => wire_encode (usb_interface_to_usbip i)) ifs).

(** The record of one device and its interfaces. *)
Definition device_wire (e : device_entry) : bytes :=
  wire_encode (usb_device_to_usbip (de_device e)) ++ ifaces_wire (sent_interfaces (de_device e)).

Definition sendable (e : device_entry) : Prop :=
  dev_wf (de_device e) /\
  Forall (fun i => fields_ok (usb_interface_to_usbip i)) (sent_interfaces (de_device e)).

Lemma send_interfaces_sent fd ifs n ok n' :
  Forall (fun i => fields_ok (usb_interface_to_usbip i)) ifs ->
  send_interfaces fd ifs n = (ok, n') ->
  sent_post fd (ifaces_wire ifs) (if ok then ERR_SUCCESS else ERR_SOCKET_SEND) n n'.
Proof.
  intros Hok. revert n. induction Hok as [|i ifs Hi _ IH]; intros n E.
  - unfold send_interfaces in E. mret_eq. apply sent_nothing.
  - cbn [send_interfaces] in E. apply M_bind_inv in E as (e & n1 & E1 & E).
    apply send_interface_sent in E1; [|done]. unfold ifaces_wire. cbn [map concat].
    destruct (sent_error _ _ _ _ _ E1) as [-> | ->].
    + cbn in E. eapply sent_then; [done|]. by apply IH.
    + cbn [negb error_code_eqb] in E. unfold mret, M_ret in E. cbn in E. simplify_eq. by apply sent_stop.
Qed.

Lemma send_device_callback_sent e d n b d' n' :
  sendable e -> send_device_callback e (d, n) = (b, (d', n')) ->
  sent_post (sd_socket d) (device_wire e) (if b then ERR_SUCCESS else ERR_SOCKET_SEND) n n' /\
  sd_socket d' = sd_socket d /\ sd_error d' = (if b then sd_error d else ERR_SOCKET_SEND).
Proof.
  intros [Hd Hi] E. unfold send_device_callback in E.
  destruct (usbip_send_device _ _ _) as [err n1] eqn:E1.
  apply send_device_sent in E1; [|by apply device_to_usbip_ok].
  destruct (sent_error _ _ _ _ _ E1) as [-> | ->]; cbn in E.
  - destruct (send_interfaces _ _ _) as [ok n2] eqn:E2. apply send_interfaces_sent in E2; [|done].
    destruct ok; cbn in E; simplify_eq; (split; [|done]); by eapply sent_then.
  - simplify_eq. split; [|done]. by apply sent_stop.
Qed.

Lemma send_loop_sent es d n d' n' :
  Forall (fun e => de_is_shared e = true -> sendable e) es -> sd_error d = ERR_SUCCESS ->
  foreach_loop de_is_shared es send_device_callback (d, n) = (d', n') ->
  sent_post (sd_socket d) (concat (map device_wire (filter (fun e => de_is_shared e = true) es)))
    (sd_error d') n n'.
Proof.
  intros Hok. revert d n. induction Hok as [|e es He _ IH]; intros d n Hd E.
  { simpl in E. simplify_eq. rewrite Hd. apply sent_nothing. }
  cbn [foreach_loop] in E. rewrite filter_cons.
  destruct (de_is_shared e) eqn:Es; cycle 1.
  { rewrite decide_False by done. by apply IH. }
  rewrite decide_True by done. cbn [map concat].
  destruct (send_device_callback e (d, n)) as [b [d1 n1]] eqn:E1.
  apply send_device_callback_sent in E1 as (Hs & Hsk & Her); [|by apply He].
  destruct b; [|simplify_eq; rewrite Her; by apply sent_stop].
  eapply sent_then; [done|]. rewrite <- Hsk. apply IH; [congruence|done].
Qed.

Lemma announced_loop_filter es k :
  announced_loop es k = k + Z.of_nat (length (filter
    (fun e => de_is_shared e = true /\ de_state e = DEVICE_STATE_AVAILABLE) es)).
Proof.
  revert k. induction es as [|e es IH]; intros k; cbn [announced_loop]; [simpl; lia|].
  rewrite filter_cons, IH. destruct (de_is_shared e) eqn:Es; cbn [andb].
  - case_bool_decide; [rewrite decide_True by done|rewrite decide_False by tauto]; cbn [length]; lia.
  - rewrite decide_False by (by intros []). lia.
Qed.

Definition devlist_header : usbip_header_basic :=
  {| hb_version := USBIP_PROTO_VERSION; hb_command := OP_REP_DEVLIST; hb_status := USBIP_ST_OK |}.

Definition shared_entries (l : device_list) : list device_entry :=
  filter (fun e => de_is_shared e = true) (dl_entries l).

Definition available_entries (l : device_list) : list device_entry :=
  filter (fun e => de_is_shared e = true /\ de_state e = DEVICE_STATE_AVAILABLE) (dl_entries l).

Lemma send_header_sent fd (h : usbip_header_basic) n ok n' :
  header_basic_ok h -> send_bytes fd (to_mem (usbip_pack_header_basic h)) n = (ok, n') ->
  sent_post fd (wire_encode h) (if ok then ERR_SUCCESS else ERR_SOCKET_SEND) n n'.
Proof.
  intros Hh E. apply send_bytes_sent in E; [done|].
  change (Z.of_nat (length (header_basic_mem (usbip_pack_header_basic h))) < 2 ^ 31).
  by rewrite header_basic_length.
Qed.

Lemma device_list_sent m c n e n' :
  Forall (fun e => de_is_shared e = true -> sendable e) (dl_entries (cm_device_list m)) ->
  client_send_device_list (Some m) (Some c) n = (e, n') ->
  sent_post (cl_socket c)
    (wire_encode devlist_header ++
     to_be 4 (Z.of_nat (length (available_entries (cm_device_list m)))) ++
     concat (map device_wire (shared_entries (cm_device_list m)))) e n n'.
Proof.
  intros Hok E. unfold client_send_device_list in E. cbv zeta in E. rewrite announced_loop_filter in E.
  apply M_bind_inv in E as (ok1 & n1 & E1 & E).
  apply send_header_sent in E1; [|by vm_compute].
  destruct ok1; cbn [negb] in E; [|unfold mret, M_ret in E; simplify_eq; by apply sent_stop].
  eapply sent_then; [exact E1|].
  apply M_bind_inv in E as (ok2 & n2 & E2 & E).
  unfold usbip_create_devlist_reply, htobe32 in E2. cbn [dr_ndev] in E2. rewrite to_le_htonl in E2.
  apply send_bytes_sent in E2; [|by rewrite length_to_be].
  destruct ok2; cbn [negb] in E; [|unfold mret, M_ret in E; simplify_eq; by apply sent_stop].
  eapply sent_then; [exact E2|]. unfold device_list_foreach_shared in E. rewrite entries_lock in E.
  destruct (foreach_loop _ _ _ _) as [d n3] eqn:E3. simplify_eq.
  by eapply (send_loop_sent _ {| sd_socket := cl_socket c; sd_count := 0; sd_error := ERR_SUCCESS |}).
Qed.

(** the reply to a device list request.  [client_send_device_list] sends the
    reply header, the number of shared and available devices, and then one record,
    with its interfaces, for every shared device; it reports success exactly when
    all of it was sent, and otherwise a prefix was. *)
Theorem device_list_reply m c n e n' :
  Forall (fun e => de_is_shared e = true -> sendable e) (dl_entries (cm_device_list m)) ->
  client_send_device_list (Some m) (Some c) n = (e, n') ->
  sent_post (cl_socket c)
    (wire_encode devlist_header ++
     to_be 4 (Z.of_nat (length (available_entries (cm_device_list m)))) ++
     concat (map device_wire (shared_entries (cm_device_list m)))) e n n'.
Proof. apply device_list_sent. Qed.

(** when a shared device is in use, the device list reply announces fewer
    devices than it carries: the announced number counts the available ones, the
    records are those of all the shared ones.  A client that reads the announced
    number of records leaves at least one unread. *)
Theorem device_list_overrun m c n n' e0 :
  Forall (fun e => de_is_shared e = true -> sendable e) (dl_entries (cm_device_list m)) ->
  e0 ∈ dl_entries (cm_device_list m) -> de_is_shared e0 = true ->
  de_state e0 <> DEVICE_STATE_AVAILABLE ->
  client_send_device_list (Some m) (Some c) n = (ERR_SUCCESS, n') ->
  exists announced records,
    ws_tx n' (cl_socket c) = ws_tx n (cl_socket c) ++
      wire_encode devlist_header ++ to_be 4 (Z.of_nat announced) ++ concat (map device_wire records) /\
    (announced < length records)%nat.
Proof.
  intros Hok He Hsh Hst E.
  assert (sent_post (cl_socket c) (wire_encode devlist_header ++
     to_be 4 (Z.of_nat (length (available_entries (cm_device_list m)))) ++
     concat (map device_wire (shared_entries (cm_device_list m)))) ERR_SUCCESS n n') as Hs.
  { by apply device_list_sent. }
  apply sent_success in Hs. eexists _, _. split; [exact Hs|].
  apply (filter_length_lt _ _ _ e0); try done; naive_solver.
Qed.

Definition import_header (err : error_code) : usbip_header_basic :=
  {| hb_version := USBIP_PROTO_VERSION; hb_command := OP_REP_IMPORT; hb_status := import_status err |}.

Lemma import_header_ok err : header_basic_ok (import_header err).
Proof.
  unfold import_header, import_status. repeat case_match; split_and!; by vm_compute.
Qed.

(** The device an attached client announces: the one it asked for. *)
Lemma attached_device_spec m c e :
  dl_inv (cm_device_list m) -> e ∈ dl_entries (cm_device_list m) -> attached_to c e ->
  attached_device (Some m) (Some c) = usb_device_to_usbip (de_device e) /\ dev_wf (de_device e).
Proof.
  intros Hl He (_ & _ & Hd & _). pose proof (inv_entries _ Hl) as Hok. rewrite Forall_forall in Hok.
  destruct (Hok e He) as [Hwf _]. split; [|done].
  unfold attached_device. simpl. rewrite Hd. simpl.
  pose proof (inv_locs _ Hl) as Hn. apply list_elem_of_split in He as (l1 & l2 & El). rewrite El in Hn.
  assert (cm_device_list m = with_entry (cm_device_list m) l1 e l2) as ->.
  { unfold with_entry. rewrite <- El. by destruct (cm_device_list m). }
  rewrite load_focus; [done| |done]. apply Forall_forall. intros x Hx. apply Z.eqb_neq.
  apply (not_in_locs de_loc l1 e l2 x Hn). apply elem_of_app. by left.
Qed.

Lemma send_device_bytes_sent fd (d : usbip_usb_device) n ok n' :
  usb_device_ok d -> send_bytes fd (to_mem (usbip_pack_device d)) n = (ok, n') ->
  sent_post fd (wire_encode d) (if ok then ERR_SUCCESS else ERR_SOCKET_SEND) n n'.
Proof.
  intros Hd E. apply send_bytes_sent in E; [exact E|].
  assert (length (to_mem (usbip_pack_device d)) = 312%nat) as ->; [|done].
  apply usb_device_length. exact (wire_pack_ok d Hd).
Qed.

Lemma import_answer_cases env m c b n u err r1 r2 n' u' :
  cm_inv m -> c ∈ cm_clients m -> cl_state c = CLIENT_STATE_CONNECTED ->
  client_handle_import env (Some m) (Some c) (Some b) (n, u) = ((err, r1, r2), (n', u')) ->
  exists aerr m1 c1 u1, client_attach_device env (Some m) (Some c) (Some b) u =
      ((aerr, Some m1, Some c1), u1) /\
    ((aerr <> ERR_SUCCESS /\ u' = u1 /\ r1 = Some m1 /\ r2 = Some c1 /\ detached c1 /\
      exists sent, sent_post (cl_socket c) (wire_encode (import_header aerr)) sent n n' /\
        err = if error_code_eqb sent ERR_SUCCESS then aerr else sent) \/
     (aerr = ERR_SUCCESS /\ exists e, e ∈ dl_entries (cm_device_list m1) /\ attached_to c1 e /\
      busid_of e = cstr b /\ dev_wf (de_device e) /\
      sent_post (cl_socket c)
        (wire_encode (import_header ERR_SUCCESS) ++ wire_encode (usb_device_to_usbip (de_device e)))
        err n n' /\
      (err = ERR_SUCCESS -> r1 = Some m1 /\ r2 = Some c1 /\ u' = u1))).
Proof.
  intros Hm Hc Hs E. unfold client_handle_import in E.
  apply M_bind_inv in E as ([[aerr x1] x2] & st1 & E1 & E). apply lift_r_inv in E1 as (u1 & E1 & ->).
  pose proof (connected_detached m c Hm Hc Hs) as Hd.
  destruct (attach_inv _ _ _ _ _ _ _ _ _ Hm Hc Hd E1) as (m1 & c1 & -> & -> & Hm1 & Hfail & Hsucc).
  exists aerr, m1, c1, u1. split; [done|]. cbv zeta in E.
  apply M_bind_inv in E as (ok & st2 & E2 & E). apply lift_l_inv in E2 as (n1 & E2 & ->).
  apply (send_header_sent _ (import_header aerr)) in E2; [|apply import_header_ok].
  destruct (decide (aerr = ERR_SUCCESS)) as [->|Hne]; [right|left].
  - split; [done|]. destruct (Hsucc eq_refl) as (e & He & Ha & Hb & _). exists e.
    destruct (attached_device_spec m1 c1 e (cmi_list _ Hm1) He Ha) as [Hdev Hwf].
    split; [done|]. split; [done|]. split; [done|]. split; [done|].
    destruct ok; cbn [negb] in E.
    + change (error_code_eqb ERR_SUCCESS ERR_SUCCESS) with true in E. cbv iota in E.
      apply M_bind_inv in E as (ok & st3 & E3 & E). apply lift_l_inv in E3 as (n2 & E3 & ->).
      rewrite Hdev in E3. apply send_device_bytes_sent in E3; [|exact (device_to_usbip_ok _ Hwf)].
      destruct ok; cbn [negb] in E.
      * unfold mret, M_ret in E. simplify_eq. split; [by eapply sent_then|done].
      * apply M_bind_inv in E as ([[e4 x4] y4] & st4 & E4 & E). apply lift_r_inv in E4 as (u4 & _ & ->).
        unfold mret, M_ret in E. simplify_eq. split; [by eapply sent_then|done].
    + unfold mret, M_ret in E. simplify_eq. split; [by apply sent_stop|done].
  - split; [done|]. destruct (Hfail Hne) as (Hdet & _ & _).
    assert (error_code_eqb aerr ERR_SUCCESS = false) as Heb.
    { apply not_true_is_false. by rewrite error_code_eqb_true. }
    destruct ok; cbn [negb] in E; [rewrite Heb in E|]; unfold mret, M_ret in E; simplify_eq.
    + do 4 (split; [done|]). by eexists.
    + do 4 (split; [done|]). by eexists.
Qed.

(** an import request is answered by what the attachment did.  The reply says
    OK and carries the record of the device with the requested bus id exactly when
    the client is now attached to it; it says busy when the device is in use and
    not available otherwise, with no record.  If the record cannot be sent the
    device is detached again. *)
Theorem import_answered env m c b n u err r1 r2 n' u' :
  cm_inv m -> c ∈ cm_clients m -> cl_state c = CLIENT_STATE_CONNECTED ->
  client_handle_import env (Some m) (Some c) (Some b) (n, u) = ((err, r1, r2), (n', u')) ->
  exists aerr m1 c1 u1, client_attach_device env (Some m) (Some c) (Some b) u =
      ((aerr, Some m1, Some c1), u1) /\
    ((aerr <> ERR_SUCCESS /\ u' = u1 /\ r1 = Some m1 /\ r2 = Some c1 /\ detached c1 /\
      exists sent, sent_post (cl_socket c) (wire_encode (import_header aerr)) sent n n' /\
        err = if error_code_eqb sent ERR_SUCCESS then aerr else sent) \/
     (aerr = ERR_SUCCESS /\ exists e, e ∈ dl_entries (cm_device_list m1) /\ attached_to c1 e /\
      busid_of e = cstr b /\ dev_wf (de_device e) /\
      sent_post (cl_socket c)
        (wire_encode (import_header ERR_SUCCESS) ++ wire_encode (usb_device_to_usbip (de_device e)))
        err n n' /\
      (err = ERR_SUCCESS -> r1 = Some m1 /\ r2 = Some c1 /\ u' = u1))).
Proof. apply import_answer_cases. Qed.

(** the answer to a URB on the wire: its header, followed by the transferred
    bytes exactly for an IN transfer that moved any; the byte statistics grow by
    as much. *)
Theorem completion_on_wire c e n err r n' :
  ent_ok e -> urb_buffer_length (ent_urb e) < 2 ^ 31 ->
  client_send_urb_completion (Some c) (Some e) n = ((err, r), n') ->
  let u := ent_urb e in
  let data := if (urb_direction u =? USBIP_DIR_IN)
              then take (Z.to_nat (urb_actual_length u)) (default [] (urb_buffer u)) else [] in
  sent_post (cl_socket c) (wire_encode (urb_handler_create_return e) ++ data) err n n' /\
  (err = ERR_SUCCESS -> exists c', r = Some c' /\
     (data = [] /\ c' = c \/
      cl_bytes_sent c' = wrap 64 (cl_bytes_sent c + Z.of_nat (length data)))).
Proof.
  intros Hok Hlen E u data. pose proof (create_return_ok e Hok) as Hh.
  pose proof Hok as ((Hbl & Hbuf) & Ha & _). fold u in Hbl, Hbuf, Ha, Hlen.
  assert (Z.of_nat (length data) = if urb_direction u =? USBIP_DIR_IN then urb_actual_length u else 0) as Hdl.
  { unfold data. destruct (_ =? USBIP_DIR_IN); [|done]. rewrite length_take.
    destruct (urb_buffer u); simpl in *; destruct_and?; lia. }
  unfold client_send_urb_completion in E. apply M_bind_inv in E as (e1 & n1 & E1 & E). fold u in E.
  apply send_urb_header_sent in E1; [|exact Hh].
  destruct (sent_error _ _ _ _ _ E1) as [-> | ->]; cycle 1.
  { cbn in E. unfold mret, M_ret in E. simplify_eq. split; [by apply sent_stop|done]. }
  change (error_code_eqb ERR_SUCCESS ERR_SUCCESS) with true in E. cbn [negb] in E.
  destruct (urb_direction u =? USBIP_DIR_IN) eqn:Edir, (urb_actual_length u >? 0) eqn:Elen; cbn [andb] in E;
    rewrite Z.gtb_ltb in Elen; bool_to_prop.
  2: { unfold mret, M_ret in E. simplify_eq.
       assert (data = []) as -> by (apply nil_length_inv; lia). rewrite app_nil_r. split; [done|].
       intros _. exists c. split; [done|]. by left. }
  2,3: unfold mret, M_ret in E; simplify_eq; assert (data = []) as -> by reflexivity;
       rewrite app_nil_r; split; [done|];
       intros _; exists c; (split; [done|]); by left.
  fold data in E. apply M_bind_inv in E as (e2 & n2 & E2 & E).
  apply send_urb_data_sent in E2; [|by rewrite Hdl|lia].
  destruct (sent_error _ _ _ _ _ E2) as [-> | ->]; cbn in E; unfold mret, M_ret in E; simplify_eq.
  - split; [by eapply sent_then|]. intros _. eexists. split; [done|]. rewrite Hdl. by right.
  - split; [by eapply sent_then|done].
Qed.
End wire.

(** ** Witnesses *)

Definition example_env : attach_env := {|
  ae_calloc := true; ae_mutexes := (0, 0); ae_events := (0, 0); ae_thread := true; ae_time := 1000 |}.

Definition example_client (loc id : Z) : client_connection := {|
  cl_loc := loc; cl_id := id; cl_socket := 5; cl_ip_address := str "10.0.0.2"; cl_port := 40000;
  cl_state := CLIENT_STATE_CONNECTED; cl_attached_busid := []; cl_device := NULL;
  cl_urb_handler := NULL; cl_worker := W_none; cl_running := false; cl_connect_time := 0;
  cl_bytes_sent := 0; cl_bytes_received := 0; cl_urbs_processed := 0 |}.

(** The manager of a server with one device, and with one client. *)
Definition empty_manager : client_manager := {|
  cm_clients := []; cm_client_count := 0; cm_next_client_id := 1; cm_device_list := example_list;
  cm_initialized := true |}.

Definition example_manager : client_manager :=
  cm_set_clients empty_manager [example_client 8192 1] 1 2.

Lemma example_list_idle : Forall (fun e => idle e /\ busid_of e <> []) (dl_entries example_list).
Proof. repeat constructor; by vm_compute. Qed.

Lemma example_manager_inv : cm_inv example_manager.
Proof.
  split; try done; try apply example_list_inv; try (by vm_compute).
  - apply (Forall_impl _ _ _ example_list_idle). by intros ? [].
  - apply NoDup_singleton.
  - apply NoDup_nil_2.
  - repeat constructor.
  - apply (Forall_impl _ _ _ example_list_idle). intros ? []. by left.
Qed.

Definition example_attached : M SimUsb.usb (error_code * ptr client_manager * ptr client_connection) :=
  client_attach_device example_env (Some example_manager) (Some (example_client 8192 1))
    (Some example_busid).


Definition example_m1 : client_manager := default empty_manager (example_attached (SimUsb.start [])).1.1.2.
Definition example_c1 : client_connection :=
  default (example_client 0 0) (example_attached (SimUsb.start [])).1.2.
Definition example_u1 : SimUsb.usb := (example_attached (SimUsb.start [])).2.

Lemma example_attached_eq :
  client_attach_device example_env (Some example_manager) (Some (example_client 8192 1))
    (Some example_busid) (SimUsb.start []) =
  ((ERR_SUCCESS, Some example_m1, Some example_c1), example_u1).
Proof. vm_compute. reflexivity. Qed.

(** The manager with its client attached. *)
Definition example_busy : client_manager := store_client example_m1 example_c1.

Lemma example_client_in : example_client 8192 1 ∈ cm_clients example_manager.
Proof. by left. Qed.


Lemma store_client_list m c : cm_device_list (store_client m c) = cm_device_list m.
Proof. done. Qed.

Lemma example_busy_inv :
  cm_inv example_busy /\ exists e, e ∈ dl_entries (cm_device_list example_busy) /\
    attached_to example_c1 e /\ busid_of e = cstr example_busid /\ de_is_shared e = true.
Proof.
  destruct (attach_inv example_env example_manager (example_client 8192 1) example_busid
    (SimUsb.start []) _ _ _ _ example_manager_inv example_client_in
    ltac:(by split_and!) example_attached_eq) as (m' & c' & Em & Ec & Hinv & _ & Hs).
  assert (m' = example_m1) as -> by (by apply (inj Some)).
  assert (c' = example_c1) as -> by (by apply (inj Some)).
  split; [exact Hinv|]. destruct (Hs eq_refl) as (e & He & Ha & Hb & _). exists e.
  unfold example_busy. rewrite store_client_list.
  split; [exact He|]. split; [exact Ha|]. split; [exact Hb|].
  assert (Forall (fun e => de_is_shared e = true) (dl_entries (cm_device_list example_m1))) as Hf.
  { vm_compute. repeat constructor. }
  rewrite Forall_forall in Hf. exact (Hf e He).
Qed.

Lemma attach_detach_roundtrip_witness :
  exists m2 c2 u2, client_detach_device (Some example_m1) (Some example_c1) example_u1 =
      ((ERR_SUCCESS, Some m2, Some c2), u2) /\ same_handles (SimUsb.start []) u2.
Proof.
  destruct (client_detach_device (Some example_m1) (Some example_c1) example_u1)
    as [[[e2 s1] s2] u2] eqn:E2.
  destruct (attach_detach_roundtrip example_env example_manager (example_client 8192 1) example_busid
    (SimUsb.start []) example_m1 example_c1 example_u1 e2 s1 s2 u2 example_manager_inv
    example_client_in eq_refl example_attached_eq E2)
    as (-> & Hh & m2 & c2 & -> & -> & _).
  exists m2, c2, u2. split; [reflexivity|exact Hh].
Defined.

Lemma example_c1_in : example_c1 ∈ cm_clients example_busy.
Proof.
  assert (cm_clients example_busy = [example_c1]) as -> by (vm_compute; reflexivity). by left.
Qed.

Lemma device_in_use_refused_witness :
  client_attach_device example_env (Some example_busy) (Some (example_client 12288 2))
    (Some example_busid) (SimUsb.start []) =
  ((ERR_DEVICE_BUSY, Some example_busy, Some (example_client 12288 2)), SimUsb.start []).
Proof.
  destruct example_busy_inv as (Hinv & e & He & Ha & Hb & Hsh).
  exact (device_in_use_refused example_env example_busy example_c1 (example_client 12288 2) e
    example_busid (SimUsb.start []) Hinv example_c1_in He Ha Hsh Hb).
Defined.

Lemma client_removed_witness :
  exists m', (client_manager_remove (Some example_manager) (Some 8192)
      (Sim.one 5 [] [], SimUsb.start [])).1 = (ERR_SUCCESS, Some m') /\ cm_inv m'.
Proof.
  destruct (client_manager_remove (Some example_manager) (Some 8192) (Sim.one 5 [] [], SimUsb.start []))
    as [[e r] st] eqn:E.
  destruct (client_removed example_manager 8192 _ _ e r st example_manager_inv E)
    as (-> & m' & -> & Hinv & _). exists m'. split; [reflexivity|exact Hinv].
Defined.

Definition plain (e : device_entry) : Prop :=
  dev_interfaces (de_device e) = replicate USB_MAX_INTERFACES usb_interface_zero.

Lemma plain_sendable l :
  dl_inv l -> Forall plain (dl_entries l) ->
  Forall (fun e => de_is_shared e = true -> sendable e) (dl_entries l).
Proof.
  intros Hl Hz. pose proof (inv_entries _ Hl) as Hok. rewrite Forall_forall in Hok.
  eapply Forall_impl_in; [exact Hz|]. intros e He Hi _. split; [apply (Hok e He)|].
  unfold sent_interfaces. rewrite Hi. apply Forall_take, Forall_replicate. by vm_compute.
Qed.

Lemma example_busy_plain : Forall plain (dl_entries (cm_device_list example_busy)).
Proof. vm_compute. repeat constructor. Qed.

Lemma example_list_plain : Forall plain (dl_entries (cm_device_list example_manager)).
Proof. vm_compute. repeat constructor. Qed.

Lemma example_completed_ok : ent_ok (entry_for 7).
Proof.
  unfold ent_ok, urb_buffer_ok, entry_for, example_urb. cbn.
  repeat first [apply conj | apply Forall_nil_2 | apply Forall_cons_2]; by vm_compute.
Qed.

Lemma device_list_reply_witness :
  let '(e, n') := client_send_device_list (Some example_manager) (Some (example_client 8192 1))
                    (Sim.one 5 [] []) in
  sent_post 5 (wire_encode devlist_header ++
     to_be 4 (Z.of_nat (length (available_entries example_list))) ++
     concat (map device_wire (shared_entries example_list))) e (Sim.one 5 [] []) n'.
Proof.
  destruct (client_send_device_list _ _ _) as [e n'] eqn:E.
  exact (device_list_reply example_manager (example_client 8192 1) (Sim.one 5 [] []) e n'
    (plain_sendable _ (cmi_list _ example_manager_inv) example_list_plain) E).
Defined.

(** With the only device in use, its record follows an announced count of 0. *)
Lemma device_list_overrun_witness :
  exists n' announced records,
    client_send_device_list (Some example_busy) (Some example_c1) (Sim.one 5 [] []) =
      (ERR_SUCCESS, n') /\
    ws_tx n' 5 = [] ++ wire_encode devlist_header ++ to_be 4 (Z.of_nat announced) ++
      concat (map device_wire records) /\ (announced < length records)%nat.
Proof.
  destruct example_busy_inv as (Hinv & e & He & (_ & _ & _ & _ & Hst & _) & _ & Hsh).
  destruct (client_send_device_list (Some example_busy) (Some example_c1) (Sim.one 5 [] []))
    as [err n'] eqn:E.
  assert (err = ERR_SUCCESS) as ->.
  { assert (err = (client_send_device_list (Some example_busy) (Some example_c1) (Sim.one 5 [] [])).1)
      as -> by (by rewrite E). vm_compute. reflexivity. }
  destruct (device_list_overrun example_busy example_c1 (Sim.one 5 [] []) n' e
    (plain_sendable _ (cmi_list _ Hinv) example_busy_plain) He Hsh ltac:(by rewrite Hst) E)
    as (k & recs & Htx & Hlt).
  exists n', k, recs. split; [reflexivity|]. split; [exact Htx|exact Hlt].
Defined.

Lemma import_answered_witness :
  let '(((err, r1, r2), (n', u'))) :=
    client_handle_import example_env (Some example_manager) (Some (example_client 8192 1))
      (Some example_busid) (Sim.one 5 [] [], SimUsb.start []) in
  exists aerr m1 c1 u1, client_attach_device example_env (Some example_manager)
    (Some (example_client 8192 1)) (Some example_busid) (SimUsb.start []) =
    ((aerr, Some m1, Some c1), u1).
Proof.
  destruct (client_handle_import _ _ _ _ _) as [[[err r1] r2] [n' u']] eqn:E.
  destruct (import_answered example_env example_manager (example_client 8192 1) example_busid
    (Sim.one 5 [] []) (SimUsb.start []) err r1 r2 n' u' example_manager_inv example_client_in
    eq_refl E) as (aerr & m1 & c1 & u1 & Ea & _).
  by exists aerr, m1, c1, u1.
Defined.

Lemma completion_on_wire_witness :
  let '((err, r), n') := client_send_urb_completion (Some example_c1) (Some (entry_for 7))
                           (Sim.one 5 [] []) in
  sent_post 5 (wire_encode (urb_handler_create_return (entry_for 7)) ++ []) err (Sim.one 5 [] []) n'.
Proof.
  destruct (client_send_urb_completion _ _ _) as [[err r] n'] eqn:E.
  apply (completion_on_wire example_c1 (entry_for 7) (Sim.one 5 [] []) err r n').
  - exact example_completed_ok.
  - by vm_compute.
  - exact E.
Defined.
