(* ===== verification/Typing.v ===== *)
(** * Well-typed messages

    A typing judgement for the data of the program: which structures the server and
    the client build, receive, keep and send, by the functions that make them.
    Whatever happened to it on the way, a structure has every field in the range of its
    C type when it goes on the wire, and takes the number of bytes that
    [common/protocol.h] gives it. *)

From Stdlib Require Import String.
From S2P Require Import Prelude CTypes Format Errors Protocol Net ProtocolIO Auth UsbHost.
From S2P Require Import DeviceList UrbQueue UrbHandler ClientManager.

(** A value of a protocol structure that can be sent and read back. *)
Definition wire_typed {A} `{Wire A} (a : A) : Prop :=
  fields_ok a /\ length (wire_encode a) = sizeof A /\ Forall is_byte (wire_encode a) /\
  wire_decode (wire_encode a) = a.

Lemma wire_typed_ok {A} `{Wire A} (a : A) : fields_ok a -> wire_typed a.
Proof.
  intros Ha. split; [done|]. split; [by apply length_wire_encode|].
  split; [by apply wire_encode_bytes|by apply wire_decode_encode].
Qed.

(** ** The headers of requests and replies *)
Inductive op_header : usbip_header_basic -> Prop :=
| oh_devlist_request : op_header usbip_create_devlist_request
| oh_devlist_reply ndev : op_header (dr_header (usbip_create_devlist_reply ndev))
| oh_import_request busid : op_header (ir_header (usbip_create_import_request busid))
| oh_import_reply status device :
    is_u 32 status -> op_header (ip_header (usbip_create_import_reply status device))
| oh_answer err : op_header (import_header err)
| oh_received bs :
    Forall is_byte bs -> length bs = sizeof usbip_header_basic -> op_header (wire_decode bs).

(** ** The devices that are announced *)
Inductive device_record : usbip_usb_device -> Prop :=
| dr_none : device_record usb_device_zero
| dr_enumerated utf8 e :
    Forall is_byte (di_instance_id e) -> device_record (usb_device_to_usbip (entry_device utf8 e))
| dr_listed l e :
    dl_inv l -> e ∈ dl_entries l -> device_record (usb_device_to_usbip (de_device e))
| dr_reply status d :
    device_record d -> device_record (ip_device (usbip_create_import_reply status (Some d)))
| dr_received bs :
    Forall is_byte bs -> length bs = sizeof usbip_usb_device -> device_record (wire_decode bs).

(** ** The messages of a session, and the URBs between them *)
Section typing.
  Context {U : Type} `{WinUsbLaws U}.

(** A buffer of the size the command announces. *)
Definition announced_buffer (hd : usbip_header) (buffer : ptr bytes) : Prop :=
  match buffer with
  | Some b => Z.of_nat (length b) = cs_transfer_buffer_length (h_u hd) /\ Forall is_byte b
  | NULL => cs_transfer_buffer_length (h_u hd) = 0
  end.

(** A command is created by the client or read from the connection, whatever its
    bytes are; it is kept as a URB, which the worker executes or a cancellation ends;
    the answer is made from that URB. *)
Inductive urb_message : usbip_header -> Prop :=
| um_submit seqnum devid dir ep flags len setup :
    is_u 32 seqnum -> is_u 32 devid -> is_u 32 dir -> is_u 32 ep -> is_u 32 flags -> is_u 32 len ->
    (forall s, setup = Some s -> Forall is_byte s /\ (8 <= length s)%nat) ->
    urb_message (usbip_create_urb_submit seqnum devid dir ep flags len setup)
| um_unlink seqnum devid n :
    is_u 32 seqnum -> is_u 32 devid -> is_u 32 n ->
    urb_message (usbip_create_urb_unlink seqnum devid n)
| um_unlink_ret command status :
    urb_message command -> is_u 32 status ->
    urb_message (usbip_create_urb_unlink_ret (hc_seqnum (h_common command))
                   (hc_devid (h_common command)) status)
| um_return command status len :
    urb_message command -> is_u 32 status -> is_u 32 len ->
    urb_message (usbip_create_urb_return (hc_seqnum (h_common command)) (hc_devid (h_common command))
                   (hc_direction (h_common command)) (hc_ep (h_common command)) status len)
| um_answer e : stored_urb e -> urb_message (urb_handler_create_return e)
| um_received bs :
    Forall is_byte bs -> length bs = sizeof usbip_header -> urb_message (wire_decode bs)
with stored_urb : urb_entry -> Prop :=
| su_submitted hd buffer now :
    urb_message hd -> announced_buffer hd buffer -> stored_urb (submitted_entry hd buffer now)
| su_started e : stored_urb e -> stored_urb (ent_set_urb e (ent_urb e) true (ent_completed e))
| su_cancelled e : stored_urb e -> stored_urb (cancel_entry e)
| su_executed h e (u : U) h' u' e' :
    stored_urb e -> worker_execute h e u = (h', u') ->
    f_entries (uh_completed h') = f_entries (uh_completed h) ++ [e'] -> stored_urb e'.

Scheme urb_message_ind' := Minimality for urb_message Sort Prop
  with stored_urb_ind' := Minimality for stored_urb Sort Prop.
Combined Scheme urb_typing_ind from urb_message_ind', stored_urb_ind'.

(** ** Lemmas: each judgement gives its ranges *)

Lemma op_header_ok h : op_header h -> fields_ok h.
Proof.
  intros [ | | |status device Hs| |bs Hb Hl].
  - by vm_compute.
  - split_and!; by vm_compute.
  - split_and!; by vm_compute.
  - split_and!; [by vm_compute..|exact Hs].
  - apply import_header_ok.
  - exact (wire_decode_ok (A := usbip_header_basic) bs Hb Hl).
Qed.

Lemma usb_device_zero_ok : usb_device_ok usb_device_zero.
Proof.
  unfold usb_device_zero. split_and!; try done; cbn [ud_path ud_busid]; apply zeros_bytes.
Qed.

Lemma device_record_ok d : device_record d -> fields_ok d.
Proof.
  induction 1 as [|utf8 e He|l e Hi He|status d _ IH|bs Hb Hl].
  - apply usb_device_zero_ok.
  - by apply device_to_usbip_ok, entry_device_wf.
  - apply device_to_usbip_ok. pose proof (inv_entries _ Hi) as Hok. rewrite Forall_forall in Hok.
    by destruct (Hok e He).
  - cbn [usbip_create_import_reply ip_device]. case_match; [done|apply usb_device_zero_ok].
  - exact (wire_decode_ok (A := usbip_usb_device) bs Hb Hl).
Qed.

Lemma urb_typing_ok :
  (forall h, urb_message h -> header_ok h) /\ (forall e, stored_urb e -> ent_ok e).
Proof.
  apply urb_typing_ind.
  - intros. by apply urb_submit_ok.
  - intros. by apply urb_unlink_ok.
  - intros command status _ (_ & ? & ? & _) ?. by apply urb_unlink_ret_ok.
  - intros command status len _ (_ & ? & ? & ? & ? & _) ? ?. by apply urb_return_ok.
  - intros e _. apply create_return_ok.
  - intros bs Hb Hl. exact (wire_decode_ok (A := usbip_header) bs Hb Hl).
  - intros hd buffer now _ Hh Hb. by apply ent_ok_submit.
  - intros e _. apply ent_ok_set.
  - intros e _. apply ent_ok_cancel.
  - intros h e u h' u' e' _ He E Hc. destruct (execute_spec _ _ _ _ _ He E) as (e1 & -> & Hok & _).
    cbn [uh_set_queues uh_completed fifo_push f_entries] in Hc. by apply app_inv_head in Hc as [= <-].
Qed.

(** ** Properties *)

End typing.

(** ** Witness *)

(** A command that only consists of bytes 255, and its answer after a cancellation. *)
Definition hostile_command : usbip_header := wire_decode (replicate 48 255).

