(* ===== verification/AttachRace.v ===== *)
(** * Attachments that run at the same time ([client_attach_device])

    The graphical server runs a handler thread per client, and [client_attach_device]
    of [server/client_manager.c] takes no lock over its body: only its calls to the
    device list lock it.  Here the function is cut into the steps between which another
    thread can run ([attach_next]), one for each group of accesses to the shared device
    list and its devices; a client's own record is its thread's.

    Run alone, the steps are the function ([attach_steps_equivalent]).  Threads that
    attach different devices do not disturb each other ([attachments_independent]);
    two threads that import the same device can both succeed ([double_import]). *)

From Stdlib Require Import String.
From S2P Require Import Prelude CTypes Format Errors Protocol Net ProtocolIO Auth UsbHost DeviceList.
From S2P Require Import UrbQueue UrbHandler ClientManager.

(** ** The steps *)

(** Where a thread is; [p] is the entry it has found. *)
Inductive attach_phase :=
  | AP_find
  | AP_open (p : Z)
  | AP_claim (p : Z)
  | AP_handler (p : Z)
  | AP_export
  | AP_release (err : error_code) (p : Z)
  | AP_close (err : error_code) (p : Z)
  | AP_done (err : error_code).

(** A call of [client_attach_device]. *)
Record attach_thread := {
  at_env : attach_env;
  at_busid : bytes;
  at_client : client_connection;
  at_phase : attach_phase;
}.

Definition attach_call (env : attach_env) (c : client_connection) (busid : bytes) : attach_thread := {|
  at_env := env; at_busid := busid; at_client := c; at_phase := AP_find |}.

Definition at_go (t : attach_thread) (c : client_connection) (ph : attach_phase) : attach_thread := {|
  at_env := at_env t; at_busid := at_busid t; at_client := c; at_phase := ph |}.

Section steps.
  Context {U : Type} `{WinUsb U}.

(** The next step of a thread, on the list as it is then. *)
Definition attach_next (t : attach_thread) (l : device_list) : M U (attach_thread * device_list) :=
  let env := at_env t in let c := at_client t in let busid := at_busid t in
  let c0 := cl_set_handler c NULL W_none in
  match at_phase t with
  | AP_find =>
      mret (at_go t c (match device_list_find (Some l) (Some busid) with
                       | NULL => AP_done ERR_USB_NOT_FOUND
                       | Some entry =>
                           if negb (de_is_shared entry) then AP_done ERR_USB_NOT_FOUND else
                           if bool_decide (de_state entry <> DEVICE_STATE_AVAILABLE)
                           then AP_done ERR_DEVICE_BUSY else AP_open (de_loc entry)
                       end), l)
  | AP_open p =>
      '(err, l) ← on_device usb_open_device l p;
      mret (at_go t c (if negb (error_code_eqb err ERR_SUCCESS) then AP_done err else AP_claim p), l)
  | AP_claim p =>
      let '(err, l) := claim_at l p in
      mret (at_go t c (if negb (error_code_eqb err ERR_SUCCESS) then AP_close err p else AP_handler p), l)
  | AP_handler p =>
      if negb (ae_calloc env) then mret (at_go t c0 (AP_release ERR_OUT_OF_MEMORY p), l) else
      let '(err, h) := urb_handler_init (ae_mutexes env) (ae_events env) (Some handler_zero)
                         (load_device l p) in
      if negb (error_code_eqb err ERR_SUCCESS) then mret (at_go t c0 (AP_release err p), l) else
      let '(err, h, w) := urb_handler_start (ae_thread env) h W_none in
      if negb (error_code_eqb err ERR_SUCCESS) then
        urb_handler_cleanup h w ;; mret (at_go t c0 (AP_release err p), l)
      else
        mret (at_go t (cl_set_attachment c (copy_str busid USBIP_BUSID_MAX) (Some p) h w
                         CLIENT_STATE_ATTACHED) AP_export, l)
  | AP_export =>
      let '(_, l') := device_list_export (ae_time env) (Some l) (Some busid) (cl_id c)
                        (Some (cl_ip_address c)) in
      mret (at_go t c (AP_done ERR_SUCCESS), default l l')
  | AP_release err p => mret (at_go t c (AP_close err p), release_at l p)
  | AP_close err p => l ← close_at l p; mret (at_go t c (AP_done err), l)
  | AP_done _ => mret (t, l)
  end.

Fixpoint attach_run (n : nat) (t : attach_thread) (l : device_list) : M U (attach_thread * device_list) :=
  match n with
  | O => mret (t, l)
  | S n => '(t, l) ← attach_next t l; attach_run n t l
  end.

(** A thread, of those that are running, does its next step. *)
Inductive race_step : list attach_thread * device_list * U -> list attach_thread * device_list * U -> Prop :=
  | race ts1 t ts2 l u t' l' u' :
      attach_next t l u = ((t', l'), u') ->
      race_step (ts1 ++ t :: ts2, l, u) (ts1 ++ t' :: ts2, l', u').
End steps.

(** ** Run alone *)

Section run.
  Context {U : Type} `{WinUsb U}.
  Implicit Types u : U.

Lemma attach_run_next n t l u t1 l1 u1 :
  attach_next t l u = ((t1, l1), u1) -> attach_run (S n) t l u = attach_run n t1 l1 u1.
Proof. intros E. cbn [attach_run]. by rewrite (M_bind_run _ _ _ _ _ E). Qed.

Lemma attach_run_done n t l u err : at_phase t = AP_done err -> attach_run n t l u = ((t, l), u).
Proof.
  revert t l u. induction n as [|n IH]; intros t l u E; [done|].
  rewrite (attach_run_next _ _ _ _ t l u); [by apply IH|]. unfold attach_next. by rewrite E.
Qed.

(** The ends of a failure. *)
Lemma close_run n t l u err p r u' :
  at_phase t = AP_close err p -> close_at l p u = (r, u') ->
  attach_run (S n) t l u = ((at_go t (at_client t) (AP_done err), r), u').
Proof.
  intros E Ec. rewrite (attach_run_next _ _ _ _ (at_go t (at_client t) (AP_done err)) r u').
  - by eapply attach_run_done.
  - unfold attach_next. rewrite E. by rewrite (M_bind_run _ _ _ _ _ Ec).
Qed.

Lemma undo_run n env b c err l p u :
  exists t l' u', attach_undo err l p c u = ((err, l', at_client t), u') /\
    at_phase t = AP_done err /\
    attach_run (S (S n)) {| at_env := env; at_busid := b; at_client := cl_set_handler c NULL W_none;
                            at_phase := AP_release err p |} l u = ((t, l'), u').
Proof.
  unfold attach_undo. destruct (close_at (release_at l p) p u) as [l' u'] eqn:E.
  rewrite (M_bind_run _ _ _ _ _ E). do 3 eexists. split_and!.
  3: { erewrite attach_run_next by (unfold attach_next; reflexivity). by eapply close_run. }
  all: done.
Qed.

End run.

(** Do the thread's next step, which [tac] computes. *)
Ltac race_next tac :=
  erewrite attach_run_next; [|unfold attach_next, at_go; cbn [at_phase at_env at_client at_busid];
    tac; reflexivity]; cbn [at_phase at_env at_client at_busid].

(** The thread has returned. *)
Ltac race_end lem := do 4 eexists; split; [|split; [|by eapply lem]]; done.

Section alone.
  Context {U : Type} `{WinUsb U}.
  Implicit Types u : U.

(** The steps from the device's opening on are [attach_entry]. *)
Lemma entry_run env l c b p u :
  exists err t l' u', attach_entry env l c b p u = ((err, l', at_client t), u') /\
    at_phase t = AP_done err /\
    attach_run 6 {| at_env := env; at_busid := b; at_client := c; at_phase := AP_open p |} l u =
      ((t, l'), u').
Proof.
  unfold attach_entry. destruct (on_device usb_open_device l p u) as [[err lo] u1] eqn:Eo.
  rewrite (M_bind_run _ _ _ _ _ Eo). race_next ltac:(rewrite (M_bind_run _ _ _ _ _ Eo)).
  destruct (negb (error_code_eqb err ERR_SUCCESS)); [race_end attach_run_done|].
  clear err Eo u. destruct (claim_at lo p) as [err lc] eqn:Ec.
  race_next ltac:(rewrite Ec). destruct (negb (error_code_eqb err ERR_SUCCESS)).
  { destruct (close_at lc p u1) as [lx ux] eqn:Ex. rewrite (M_bind_run _ _ _ _ _ Ex).
    race_end close_run. }
  destruct (negb (ae_calloc env)) eqn:Ea; [race_next ltac:(rewrite Ea); eexists; apply undo_run|].
  destruct (urb_handler_init _ _ _ _) as [err3 h] eqn:Ei.
  destruct (negb (error_code_eqb err3 _)) eqn:Ee3;
    [race_next ltac:(rewrite Ea, Ei, Ee3); eexists; apply undo_run|].
  destruct (urb_handler_start (ae_thread env) h W_none) as [[err4 h4] w4] eqn:Es.
  destruct (negb (error_code_eqb err4 _)) eqn:Ee4.
  - destruct (urb_handler_cleanup h4 w4 u1) as [x u2] eqn:Ecl. rewrite (M_bind_run _ _ _ _ _ Ecl).
    race_next ltac:(rewrite Ea, Ei, Ee3, Es, Ee4, (M_bind_run _ _ _ _ _ Ecl)).
    eexists. apply undo_run.
  - race_next ltac:(rewrite Ea, Ei, Ee3, Es, Ee4).
    cbn [cl_id cl_ip_address cl_set_attachment].
    destruct (device_list_export _ _ _ _ _) as [ex lx] eqn:Ex.
    race_next ltac:(cbn [cl_id cl_ip_address cl_set_attachment]; rewrite Ex).
    race_end attach_run_done.
Qed.

End alone.

(** ** Threads that attach different devices *)

(** The result of a step. *)
Ltac step_eq E := unfold mret, M_ret in E; cbv beta in E; injection E as <- <- <-.

Section interleaved.
  Context {U : Type} `{WinUsbLaws U}.
  Implicit Types (u : U) (t : attach_thread).

(** The entry of a bus id. *)
Definition entry_of (b : bytes) (l : device_list) : option device_entry :=
  find_first (entry_is b) (dl_entries l).

(** Replacing an entry by one of the same device leaves the others as they were. *)
Lemma focus_update l b e l1 l2 e' :
  dl_inv (with_entry l l1 e l2) -> Forall (fun x => entry_is b x = false) l1 ->
  entry_is b e = true -> entry_ok e' -> de_loc e' = de_loc e -> busid_of e' = busid_of e ->
  dl_inv (with_entry l l1 e' l2) /\ entry_of b (with_entry l l1 e' l2) = Some e' /\
  forall b', cstr b' <> cstr b ->
    entry_of b' (with_entry l l1 e' l2) = entry_of b' (with_entry l l1 e l2).
Proof.
  intros Hl Hb He Hok El Eb. assert (entry_ok e) as Hoke.
  { pose proof (inv_entries _ Hl) as Hf. rewrite entries_with_entry, Forall_app, Forall_cons in Hf. tauto. }
  assert (forall b', entry_is b' e' = entry_is b' e) as Hi.
  { intros b'. unfold entry_is, busid_of in *. by rewrite Eb. }
  split; [by eapply dl_inv_with|]. unfold entry_of. rewrite !entries_with_entry. split.
  - rewrite find_first_app, (proj2 (find_first_None _ _) Hb). simpl. by rewrite Hi, He.
  - intros b' Hne. rewrite !find_first_app. destruct (find_first (entry_is b') l1); [done|]. simpl.
    rewrite Hi. destruct (entry_is b' e) eqn:He'; [|done].
    apply entry_is_true in He', He; [congruence|done..].
Qed.

(** What a thread has reached: the device is its own from [usb_open_device] on, open
    until it is closed again, and the list shows the end of the attachment. *)
Definition thread_ok t (l : device_list) : Prop :=
  match at_phase t with
  | AP_find =>
      forall e, entry_of (at_busid t) l = Some e -> de_state e = DEVICE_STATE_AVAILABLE ->
        dev_is_open (de_device e) = false
  | AP_open p =>
      exists e, entry_of (at_busid t) l = Some e /\ de_loc e = p /\
        de_state e = DEVICE_STATE_AVAILABLE /\ dev_is_open (de_device e) = false
  | AP_claim p | AP_handler p =>
      exists e, entry_of (at_busid t) l = Some e /\ de_loc e = p /\
        de_state e = DEVICE_STATE_AVAILABLE /\ dev_is_open (de_device e) = true
  | AP_release err p | AP_close err p =>
      err <> ERR_SUCCESS /\ exists e, entry_of (at_busid t) l = Some e /\ de_loc e = p /\
        de_state e = DEVICE_STATE_AVAILABLE /\ dev_is_open (de_device e) = true
  | AP_export =>
      exists e, entry_of (at_busid t) l = Some e /\
        de_state e = DEVICE_STATE_AVAILABLE /\ dev_is_open (de_device e) = true /\
        cl_state (at_client t) = CLIENT_STATE_ATTACHED /\
        cl_attached_busid (at_client t) = busid_of e /\
        cl_device (at_client t) = Some (de_loc e) /\ is_Some (cl_urb_handler (at_client t))
  | AP_done err =>
      (err = ERR_SUCCESS ->
        exists e, entry_of (at_busid t) l = Some e /\ attached_to (at_client t) e) /\
      (err <> ERR_SUCCESS -> forall e, entry_of (at_busid t) l = Some e ->
         de_state e = DEVICE_STATE_AVAILABLE -> dev_is_open (de_device e) = false)
  end.

Lemma thread_ok_frame t l l' :
  entry_of (at_busid t) l' = entry_of (at_busid t) l -> thread_ok t l -> thread_ok t l'.
Proof. unfold thread_ok. by intros ->. Qed.

(** What a step of [t] does to the list: [t] goes on, the others see no change. *)
Definition step_ok t l t' l' : Prop :=
  at_busid t' = at_busid t /\ dl_inv l' /\ thread_ok t' l' /\
  forall b, cstr b <> cstr (at_busid t) -> entry_of b l' = entry_of b l.

(** A step that replaces the thread's device, and possibly its state. *)
Lemma step_entry t l l1 e l2 c ph e' :
  dl_inv (with_entry l l1 e l2) -> Forall (fun x => entry_is (at_busid t) x = false) l1 ->
  entry_is (at_busid t) e = true -> entry_ok e' -> de_loc e' = de_loc e -> busid_of e' = busid_of e ->
  (forall l', entry_of (at_busid t) l' = Some e' -> thread_ok (at_go t c ph) l') ->
  step_ok t (with_entry l l1 e l2) (at_go t c ph) (with_entry l l1 e' l2).
Proof.
  intros Hl Hb He Hok El Eb Ht.
  destruct (focus_update l _ e l1 l2 e' Hl Hb He Hok El Eb) as (? & ? & ?). by split_and!; auto.
Qed.

(** A step that leaves the list alone. *)
Lemma step_same t l c ph : dl_inv l -> thread_ok (at_go t c ph) l -> step_ok t l (at_go t c ph) l.
Proof. intros Hl Ht. by split_and!. Qed.

(** The entry of a bus id, in its place in the list. *)
Lemma entry_focus l b e :
  dl_inv l -> entry_of b l = Some e ->
  exists l1 l2, l = with_entry l l1 e l2 /\ Forall (fun x => entry_at (de_loc e) x = false) l1 /\
    Forall (fun x => entry_is b x = false) l1 /\ entry_is b e = true /\
    entry_ok e /\ dev_inv (de_device e).
Proof.
  intros Hl Hf. destruct (focus_entry l _ e Hl Hf) as (l1 & l2 & E & Hl1 & Hb & Hi).
  assert (entry_ok e) as Hok.
  { pose proof (inv_entries _ Hl) as Hf2. rewrite Forall_forall in Hf2. apply Hf2. rewrite E.
    apply elem_of_mid. }
  exists l1, l2. split_and!; try done. by destruct Hok as (_ & ? & _).
Qed.

Lemma step_find t l u t' l' u' :
  dl_inv l -> thread_ok t l -> at_phase t = AP_find ->
  attach_next t l u = ((t', l'), u') -> step_ok t l t' l'.
Proof.
  intros Hl Ht Ep E. unfold attach_next in E. rewrite Ep in E. step_eq E. apply step_same; [done|].
  unfold thread_ok in Ht. rewrite Ep in Ht. unfold device_list_find.
  fold (entry_of (at_busid t) l). unfold thread_ok, at_go. simpl.
  destruct (entry_of (at_busid t) l) as [e|] ; [|by split].
  destruct (de_is_shared e); simpl; [|split; [done|intros _ ? [= <-]; by apply Ht]].
  case_bool_decide as Hst; [by split; [done|intros _ ? [= <-] ?]|].
  exists e. split_and!; auto.
Qed.

Lemma step_open t l u t' l' u' p :
  dl_inv l -> thread_ok t l -> at_phase t = AP_open p ->
  attach_next t l u = ((t', l'), u') -> step_ok t l t' l'.
Proof.
  intros Hl Ht Ep E. unfold thread_ok in Ht. rewrite Ep in Ht. destruct Ht as (e & Ef & <- & Hst & Ho).
  destruct (entry_focus l _ e Hl Ef) as (l1 & l2 & El & Hl1 & Hb & Hi & Hok & Hd).
  unfold attach_next in E. rewrite Ep in E. rewrite El in E.
  apply M_bind_inv in E as ([err lo] & u1 & E1 & E).
  apply open_focus in E1 as [(Hne & -> & ->)|(-> & d1 & -> & Hd1 & Hs1 & Ho1 & _)]; [| |done..].
  - destruct (error_code_eqb err ERR_SUCCESS) eqn:Ee; [by apply error_code_eqb_true in Ee|].
    simpl in E. step_eq E. rewrite <- El. apply step_same; [done|]. unfold thread_ok. simpl.
    rewrite Ef. split; [done|]. by intros _ ? [= <-].
  - simpl in E. step_eq E. rewrite El at 1. rewrite El in Hl.
    apply step_entry; try done; [by apply entry_ok_device|by apply busid_of_device|].
    intros l' Hf. unfold thread_ok. simpl. rewrite Hf. by eexists.
Qed.

Lemma step_claim t l u t' l' u' p :
  dl_inv l -> thread_ok t l -> at_phase t = AP_claim p ->
  attach_next t l u = ((t', l'), u') -> step_ok t l t' l'.
Proof.
  intros Hl Ht Ep E. unfold thread_ok in Ht. rewrite Ep in Ht. destruct Ht as (e & Ef & <- & Hst & Ho).
  destruct (entry_focus l _ e Hl Ef) as (l1 & l2 & El & Hl1 & Hb & Hi & Hok & Hd).
  unfold attach_next in E. rewrite Ep in E. rewrite El in E.
  destruct (claim_focus l l1 e l2 Hl1 Hd Ho) as (err & d' & Ec & Hd' & Hs' & Ho' & _).
  rewrite Ec in E. step_eq E. rewrite El at 1. rewrite El in Hl.
  apply step_entry; try done; [by apply entry_ok_device|by apply busid_of_device|].
  intros l' Hf. unfold thread_ok. simpl. destruct (negb _) eqn:Ee; simpl; rewrite Hf; [|by eexists].
  split; [|by eexists]. intros ->. by rewrite (proj2 (error_code_eqb_true _ _) eq_refl) in Ee.
Qed.

Lemma step_release t l u t' l' u' err p :
  dl_inv l -> thread_ok t l -> at_phase t = AP_release err p ->
  attach_next t l u = ((t', l'), u') -> step_ok t l t' l'.
Proof.
  intros Hl Ht Ep E. unfold thread_ok in Ht. rewrite Ep in Ht.
  destruct Ht as (Hne & e & Ef & <- & Hst & Ho).
  destruct (entry_focus l _ e Hl Ef) as (l1 & l2 & El & Hl1 & Hb & Hi & Hok & Hd).
  unfold attach_next in E. rewrite Ep in E. rewrite El in E.
  destruct (release_focus l l1 e l2 Hl1 Hd Ho) as (d' & Er & Hd' & Hs' & Ho' & _).
  rewrite Er in E. step_eq E. rewrite El at 1. rewrite El in Hl.
  apply step_entry; try done; [by apply entry_ok_device|by apply busid_of_device|].
  intros l' Hf. unfold thread_ok. simpl. rewrite Hf. split; [done|]. by eexists.
Qed.

Lemma step_close t l u t' l' u' err p :
  dl_inv l -> thread_ok t l -> at_phase t = AP_close err p ->
  attach_next t l u = ((t', l'), u') -> step_ok t l t' l'.
Proof.
  intros Hl Ht Ep E. unfold thread_ok in Ht. rewrite Ep in Ht.
  destruct Ht as (Hne & e & Ef & <- & Hst & Ho).
  destruct (entry_focus l _ e Hl Ef) as (l1 & l2 & El & Hl1 & Hb & Hi & Hok & Hd).
  unfold attach_next in E. rewrite Ep in E. rewrite El in E.
  apply M_bind_inv in E as (lx & u1 & E1 & E). step_eq E.
  apply close_focus in E1 as (d' & -> & Hd' & Hs' & Ho' & _); [|done..].
  rewrite El at 1. rewrite El in Hl.
  apply step_entry; try done; [by apply entry_ok_device|by apply busid_of_device|].
  intros l' Hf. unfold thread_ok. simpl. rewrite Hf. split; [done|]. by intros _ ? [= <-].
Qed.

Lemma step_handler t l u t' l' u' p :
  dl_inv l -> thread_ok t l -> at_phase t = AP_handler p ->
  attach_next t l u = ((t', l'), u') -> step_ok t l t' l'.
Proof.
  intros Hl Ht Ep E. unfold thread_ok in Ht. rewrite Ep in Ht. pose proof Ht as (e & Ef & <- & Hst & Ho).
  destruct (entry_focus l _ e Hl Ef) as (l1 & l2 & El & Hl1 & Hb & Hi & Hok & Hd).
  assert (forall c err, err <> ERR_SUCCESS -> thread_ok (at_go t c (AP_release err (de_loc e))) l)
    as Hrel by (intros c err Hne; by split).
  unfold attach_next in E. rewrite Ep in E.
  destruct (negb (ae_calloc (at_env t))); [step_eq E; apply step_same; [done|by apply Hrel]|].
  destruct (urb_handler_init _ _ _ _) as [err3 h3] eqn:Ei.
  pose proof (init_not_running _ _ _ _ _ Ei) as Hnr.
  destruct (error_code_eqb err3 ERR_SUCCESS) eqn:Ee3; simpl in E; cycle 1.
  { step_eq E. apply step_same; [done|]. apply Hrel. intros ->.
    by rewrite (proj2 (error_code_eqb_true _ _) eq_refl) in Ee3. }
  destruct (urb_handler_start (ae_thread (at_env t)) h3 W_none) as [[err4 h4] w4] eqn:Est.
  destruct (start_fails _ _ _ _ _ Hnr Est) as [[Hne _]|[-> [h' ->]]].
  - destruct (error_code_eqb err4 ERR_SUCCESS) eqn:Ee4; [by apply error_code_eqb_true in Ee4|].
    simpl in E. apply M_bind_inv in E as (x & u2 & _ & E). step_eq E. apply step_same; auto.
  - rewrite (proj2 (error_code_eqb_true ERR_SUCCESS _) eq_refl) in E. simpl in E. step_eq E.
    apply step_same; [done|]. exists e. split_and!; try done. by apply copy_busid.
Qed.

Lemma step_export t l u t' l' u' :
  dl_inv l -> thread_ok t l -> at_phase t = AP_export ->
  attach_next t l u = ((t', l'), u') -> step_ok t l t' l'.
Proof.
  intros Hl Ht Ep E. unfold thread_ok in Ht. rewrite Ep in Ht.
  destruct Ht as (e & Ef & Hst & Ho & Hcs & Hcb & Hcd & Hch).
  destruct (entry_focus l _ e Hl Ef) as (l1 & l2 & El & Hl1 & Hb & Hi & Hok & Hd).
  unfold attach_next in E. rewrite Ep in E. rewrite El in E.
  rewrite export_focus in E by done. cbn [default] in E. step_eq E. rewrite El at 1. rewrite El in Hl.
  apply step_entry; try done; [apply entry_ok_exported; [auto with usbip|done]|].
  intros l' Hf. unfold thread_ok. simpl. rewrite Hf. split; [|done]. intros _. eexists. split; [done|].
  by split_and!.
Qed.

(** Every step. *)
Lemma attach_next_ok t l u t' l' u' :
  dl_inv l -> thread_ok t l -> attach_next t l u = ((t', l'), u') -> step_ok t l t' l'.
Proof.
  intros Hl Ht E. destruct (at_phase t) as [|p|p|p| |err p|err p|err] eqn:Ep;
    [by eapply step_find|by eapply step_open|by eapply step_claim|by eapply step_handler
    |by eapply step_export|by eapply step_release|by eapply step_close|].
  unfold attach_next in E. rewrite Ep in E. step_eq E. by split_and!.
Qed.

(** The invariant of threads that attach different devices. *)
Definition race_inv (s : list attach_thread * device_list * U) : Prop :=
  dl_inv s.1.2 /\ NoDup (map (cstr ∘ at_busid) s.1.1) /\ Forall (fun t => thread_ok t s.1.2) s.1.1.

Lemma race_step_inv s s' :
  race_step s s' -> race_inv s -> race_inv s' /\ map at_busid s'.1.1 = map at_busid s.1.1.
Proof.
  intros [ts1 t ts2 l u t' l' u' E] (Hl & Hn & Ht). unfold race_inv in *. simpl in *.
  rewrite Forall_app, Forall_cons in Ht. destruct Ht as (Ht1 & Ht & Ht2).
  destruct (attach_next_ok _ _ _ _ _ _ Hl Ht E) as (Eb & Hl' & Ht' & Hframe).
  assert (forall x, x ∈ ts1 ++ ts2 -> thread_ok x l -> thread_ok x l') as Hothers.
  { intros x Hx. apply thread_ok_frame. apply Hframe.
    by apply (not_in_locs (cstr ∘ at_busid) ts1 t ts2). }
  split; [|rewrite !map_app; simpl; by rewrite Eb].
  split; [done|]. split; [rewrite map_app in *; simpl in *; by rewrite Eb|].
  apply Forall_app; split; [|apply Forall_cons; split; [done|]].
  - eapply Forall_impl_in; [exact Ht1|]. intros x Hx. apply Hothers, elem_of_app. by left.
  - eapply Forall_impl_in; [exact Ht2|]. intros x Hx. apply Hothers, elem_of_app. by right.
Qed.

Lemma race_steps_inv s s' :
  rtc race_step s s' -> race_inv s -> race_inv s' /\ map at_busid s'.1.1 = map at_busid s.1.1.
Proof.
  induction 1 as [|s s1 s' Hs _ IH]; intros Hi; [done|].
  destruct (race_step_inv _ _ Hs Hi) as [H1 <-]. by apply IH.
Qed.

(** The thread's device is the entry of the list with its bus id. *)
Lemma entry_of_in b l e :
  dl_inv l -> entry_of b l = Some e -> e ∈ dl_entries l /\ busid_of e = cstr b.
Proof.
  intros Hl Hf. apply find_first_Some in Hf as [Hin Hi]. split; [done|].
  pose proof (inv_entries _ Hl) as Hok. rewrite Forall_forall in Hok. by apply entry_is_true; [apply Hok|].
Qed.

(** Where a list of threads starts. *)
Definition race_start (ts : list attach_thread) (l : device_list) : Prop :=
  dl_inv l /\
  Forall (fun e => de_state e = DEVICE_STATE_AVAILABLE -> dev_is_open (de_device e) = false)
    (dl_entries l) /\
  Forall (fun t => at_phase t = AP_find) ts.

(** clients that attach different devices at the same time do not disturb each other.
    However their steps are interleaved, from a list whose available devices are closed,
    the device list stays well formed and every attachment that has returned is all or
    nothing: on success its client is attached to its device, which is open and exported
    to it, and no other successful client has that device; after a failure the device is
    not left open and available. *)
Theorem attachments_independent ts l u ts' l' u' :
  race_start ts l -> NoDup (map (cstr ∘ at_busid) ts) -> rtc race_step (ts, l, u) (ts', l', u') ->
  dl_inv l' /\ map at_busid ts' = map at_busid ts /\
  (forall t err, t ∈ ts' -> at_phase t = AP_done err ->
    if error_code_eqb err ERR_SUCCESS
    then exists e, e ∈ dl_entries l' /\ busid_of e = cstr (at_busid t) /\ attached_to (at_client t) e
    else forall e, e ∈ dl_entries l' -> busid_of e = cstr (at_busid t) ->
      de_state e = DEVICE_STATE_AVAILABLE -> dev_is_open (de_device e) = false) /\
  (forall i j t1 t2, ts' !! i = Some t1 -> ts' !! j = Some t2 ->
    at_phase t1 = AP_done ERR_SUCCESS -> at_phase t2 = AP_done ERR_SUCCESS ->
    cl_device (at_client t1) = cl_device (at_client t2) -> i = j).
Proof.
  intros (Hl & Hav & Hs) Hn Hr.
  assert (race_inv (ts, l, u)) as Hi.
  { split_and!; [done..|]. eapply Forall_impl; [exact Hs|]. intros t Ht. unfold thread_ok. simpl.
    rewrite Ht. intros e He. apply (entry_of_in _ _ _ Hl) in He as [Hin _].
    rewrite Forall_forall in Hav. by apply Hav. }
  apply race_steps_inv in Hr as [(Hl' & Hn' & Ht') Eb]; [|done]. simpl in *.
  rewrite Forall_forall in Ht'. split_and!; [done..| |].
  - intros t err Hin Ep. pose proof (Ht' t Hin) as Ht. unfold thread_ok in Ht. rewrite Ep in Ht.
    destruct Ht as [Hok Hbad]. destruct (error_code_eqb err ERR_SUCCESS) eqn:Ee.
    + apply error_code_eqb_true in Ee as ->. destruct (Hok eq_refl) as (e & He & Ha).
      exists e. by destruct (entry_of_in _ _ _ Hl' He).
    + intros e He Hb. apply Hbad; [intros ->; by rewrite (proj2 (error_code_eqb_true _ _) eq_refl) in Ee|].
      by apply find_entry.
  - intros i j t1 t2 Hi1 Hj1 Ep1 Ep2 Ed.
    assert (forall k t, ts' !! k = Some t -> at_phase t = AP_done ERR_SUCCESS ->
      exists e, e ∈ dl_entries l' /\ busid_of e = cstr (at_busid t) /\
        cl_device (at_client t) = Some (de_loc e)) as Hdev.
    { intros k t Hk%list_elem_of_lookup_2 Ep. pose proof (Ht' t Hk) as Ht. unfold thread_ok in Ht.
      rewrite Ep in Ht. destruct (proj1 Ht eq_refl) as (e & He & (_ & _ & ? & _)).
      exists e. by destruct (entry_of_in _ _ _ Hl' He). }
    destruct (Hdev i t1 Hi1 Ep1) as (e1 & He1 & Hb1 & Hd1), (Hdev j t2 Hj1 Ep2) as (e2 & He2 & Hb2 & Hd2).
    assert (e1 = e2) as <- by (apply (map_inj_elem de_loc (dl_entries l')); [apply Hl'|done..|congruence]).
    apply (NoDup_lookup _ i j (cstr (at_busid t1)) Hn'); rewrite list_lookup_fmap, ?Hi1, ?Hj1; simpl;
      congruence.
Qed.
End interleaved.

(** ** Two clients of one device *)

Section double.
  Context {U : Type} `{WinUsbLaws U}.
  Implicit Types (u : U) (t : attach_thread) (c : client_connection).

(** The threads whose turn it is, one after the other; a thread is its position. *)
Fixpoint race_exec (sched : list nat) (s : list attach_thread * device_list * U) :
    list attach_thread * device_list * U :=
  match sched with
  | [] => s
  | i :: sched =>
      match s.1.1 !! i with
      | Some t =>
          let '((t', l), u) := attach_next t s.1.2 s.2 in race_exec sched (<[i := t']> s.1.1, l, u)
      | None => race_exec sched s
      end
  end.

Lemma race_exec_steps sched s : rtc race_step s (race_exec sched s).
Proof.
  revert s. induction sched as [|i sched IH]; intros [[ts l] u]; [done|]. cbn [race_exec fst snd].
  destruct (ts !! i) as [t|] eqn:Ei; [|apply IH].
  destruct (attach_next t l u) as [[t' l'] u'] eqn:E. apply (rtc_l _ _ (<[i:=t']> ts, l', u')); [|apply IH].
  rewrite (insert_take_drop ts i t') by (by eapply lookup_lt_Some).
  rewrite <- (take_drop_middle ts i t Ei) at 1. by apply race.
Qed.

Lemma race_exec_split sched s :
  rtc race_step s ((race_exec sched s).1.1, (race_exec sched s).1.2, (race_exec sched s).2).
Proof. rewrite <- !surjective_pairing. apply race_exec_steps. Qed.

(** A schedule of one thread is [attach_run]. *)
Lemma exec_first n ta tb l u sched ta' l' u' :
  attach_run n ta l u = ((ta', l'), u') ->
  race_exec (replicate n 0%nat ++ sched) ([ta; tb], l, u) = race_exec sched ([ta'; tb], l', u').
Proof.
  revert ta l u. induction n as [|n IH]; intros ta l u E; [by injection E as -> -> ->|].
  cbn [attach_run] in E. apply M_bind_inv in E as ([t1 l1] & u1 & E1 & E).
  cbn [replicate app race_exec fst snd lookup list_lookup]. rewrite E1. by apply IH.
Qed.

Lemma exec_second n ta tb l u sched tb' l' u' :
  attach_run n tb l u = ((tb', l'), u') ->
  race_exec (replicate n 1%nat ++ sched) ([ta; tb], l, u) = race_exec sched ([ta; tb'], l', u').
Proof.
  revert tb l u. induction n as [|n IH]; intros tb l u E; [by injection E as -> -> ->|].
  cbn [attach_run] in E. apply M_bind_inv in E as ([t1 l1] & u1 & E1 & E).
  cbn [replicate app race_exec fst snd lookup list_lookup]. rewrite E1. by apply IH.
Qed.

(** Every allocation succeeds. *)
Definition env_ok (env : attach_env) : Prop :=
  ae_calloc env = true /\ ae_mutexes env = (0, 0) /\ ae_events env = (0, 0) /\ ae_thread env = true.

(** A client attached to the device at [p]. *)
Definition has_device c (b : bytes) (p : Z) c' : Prop :=
  exists h w, c' = cl_set_attachment c (copy_str b USBIP_BUSID_MAX) (Some p) (Some h) w
                     CLIENT_STATE_ATTACHED.

Lemma handler_granted env b c p l d u :
  env_ok env -> load_device l p = Some d ->
  exists c', has_device c b p c' /\
    attach_next {| at_env := env; at_busid := b; at_client := c; at_phase := AP_handler p |} l u =
      ((  {| at_env := env; at_busid := b; at_client := c'; at_phase := AP_export |}, l), u).
Proof.
  intros (Ea & Em & Ee & Et) Ed. unfold attach_next. cbn [at_phase at_env at_client at_busid].
  rewrite Ea, Em, Ee, Et, Ed. eexists. split; [by do 2 eexists|reflexivity].
Qed.

Lemma open_unclaimed d u e d' u' :
  dev_is_claimed d = false -> usb_open_device (Some d) u = ((e, Some d'), u') -> dev_is_claimed d' = false.
Proof.
  intros Hc E. unfold usb_open_device in E. destruct (_ =? 0); [by mret_eq|].
  destruct (dev_is_open d); [by mret_eq|]. apply M_bind_inv in E as ([fh|] & u1 & _ & E); [|by mret_eq].
  apply M_bind_inv in E as ([wh|] & u2 & _ & E); [by mret_eq|].
  apply M_bind_inv in E as ([] & u3 & _ & E). by mret_eq.
Qed.

Lemma find_run env c b l u e :
  entry_of b l = Some e -> de_is_shared e = true -> de_state e = DEVICE_STATE_AVAILABLE ->
  attach_run 1 (attach_call env c b) l u =
    (({| at_env := env; at_busid := b; at_client := c; at_phase := AP_open (de_loc e) |}, l), u).
Proof.
  intros Hf Hsh Hst. unfold attach_call. race_next idtac. unfold entry_of in Hf.
  unfold device_list_find. rewrite Hf, Hsh, Hst. done.
Qed.

(** Importing the closed device of [e]: it is open, claimed and exported afterwards. *)
Lemma import_first env b c l l1 e l2 u :
  env_ok env -> Forall (fun x => entry_at (de_loc e) x = false) l1 ->
  Forall (fun x => entry_is b x = false) l1 -> entry_is b e = true -> entry_ok e ->
  de_state e = DEVICE_STATE_AVAILABLE -> dev_is_open (de_device e) = false ->
  char_at (dev_path (de_device e)) 0 <> 0 ->
  exists c' d u', has_device c b (de_loc e) c' /\ dev_inv d /\ same_device (de_device e) d /\
    dev_is_open d = true /\ dev_is_claimed d = true /\ dev_claimed_interface d = 0 /\
    attach_run 4 {| at_env := env; at_busid := b; at_client := c; at_phase := AP_open (de_loc e) |}
        (with_entry l l1 e l2) u =
      (({| at_env := env; at_busid := b; at_client := c'; at_phase := AP_done ERR_SUCCESS |},
        with_entry l l1 (entry_set_state (entry_set_device e d) DEVICE_STATE_EXPORTED (cl_id c)
          (copy_str (cl_ip_address c) 64) (ae_time env)) l2), u').
Proof.
  intros Henv Hl1 Hb Hi (_ & Hd & _) Hst Ho Hp.
  destruct (usb_open_device (Some (de_device e)) u) as [[err r] u1] eqn:Eo.
  pose proof Hd as (_ & Hcl & _). destruct (Hcl Ho) as (_ & _ & Hc & _).
  destruct (open_closed_spec _ _ _ _ _ Hd Ho Hp Eo) as (-> & d1 & -> & (Hl & Hcd & Hv & _) & Hs1 & Ho1 & _).
  apply open_unclaimed in Eo as Hc1; [|done].
  set (d2 := dev_set_state d1 (dev_handle d1) (dev_interface_handles d1) true true (dev_is_virtual d1) 0).
  set (lo := with_entry l l1 (entry_set_device e d1) l2).
  set (lc := with_entry l l1 (entry_set_device e d2) l2).
  assert (on_device usb_open_device (with_entry l l1 e l2) (de_loc e) u = ((ERR_SUCCESS, lo), u1)) as E1.
  { unfold on_device. rewrite load_focus, (M_bind_run _ _ _ _ _ Eo) by done. by rewrite store_focus. }
  assert (claim_at lo (de_loc e) = (ERR_SUCCESS, lc)) as E2.
  { unfold claim_at, lo. rewrite load_focus by done. cbn [de_device entry_set_device].
    unfold usb_claim_interface. rewrite Ho1, Hc1. cbn [negb]. by rewrite store_focus. }
  destruct (handler_granted env b c (de_loc e) lc d2 u1 Henv) as (c' & Hhas & E3).
  { unfold lc. by rewrite load_focus. }
  exists c', d2, u1. split_and!; try done.
  { unfold d2. by eapply same_device_trans; [|apply same_device_set]. }
  race_next ltac:(rewrite (M_bind_run _ _ _ _ _ E1)). cbn [negb error_code_eqb error_num Z.eqb].
  race_next ltac:(rewrite E2). cbn [negb error_code_eqb error_num Z.eqb].
  rewrite (attach_run_next _ _ _ _ _ _ _ E3).
  destruct Hhas as (h & w & ->). race_next ltac:(unfold lc; cbn [cl_id cl_ip_address cl_set_attachment];
    rewrite export_focus by (done || by rewrite entry_is_device;
      [|unfold d2; eapply same_device_trans; [|apply same_device_set]]); cbn [default from_option]).
  done.
Qed.

(** Importing the device of [e] when it is open already: nothing changes, and the refusal of
    [device_list_export] is not looked at. *)
Lemma import_second env b c l l1 e l2 u :
  env_ok env -> Forall (fun x => entry_at (de_loc e) x = false) l1 ->
  Forall (fun x => entry_is b x = false) l1 -> entry_is b e = true ->
  de_state e = DEVICE_STATE_EXPORTED -> char_at (dev_path (de_device e)) 0 <> 0 ->
  dev_is_open (de_device e) = true -> dev_is_claimed (de_device e) = true ->
  dev_claimed_interface (de_device e) = 0 ->
  exists c', has_device c b (de_loc e) c' /\
    attach_run 4 {| at_env := env; at_busid := b; at_client := c; at_phase := AP_open (de_loc e) |}
        (with_entry l l1 e l2) u =
      (({| at_env := env; at_busid := b; at_client := c'; at_phase := AP_done ERR_SUCCESS |},
        with_entry l l1 e l2), u).
Proof.
  intros Henv Hl1 Hb Hi Hst Hp Ho Hc Hn. apply Z.eqb_neq in Hp.
  assert (entry_set_device e (de_device e) = e) as Ee by by destruct e.
  set (lc := with_entry l l1 e l2).
  assert (on_device usb_open_device lc (de_loc e) u = ((ERR_SUCCESS, lc), u)) as E1.
  { unfold on_device, lc. rewrite load_focus by done. unfold usb_open_device. rewrite Hp, Ho.
    unfold mbind, M_bind, mret, M_ret. rewrite store_focus by done. by rewrite Ee. }
  assert (claim_at lc (de_loc e) = (ERR_SUCCESS, lc)) as E2.
  { unfold claim_at, lc. rewrite load_focus by done. unfold usb_claim_interface. rewrite Ho, Hc, Hn.
    cbn [negb Z.eqb]. rewrite store_focus by done. by rewrite Ee. }
  assert (forall now id ip, exists err, device_list_export now (Some lc) (Some b) id ip = (err, Some lc))
    as E4.
  { intros now id ip. rewrite export_eq. unfold lc. rewrite entries_with_entry.
    rewrite find_first_app, (proj2 (find_first_None _ _) Hb). cbn [find_first]. rewrite Hi, Hst. by eexists. }
  destruct (handler_granted env b c (de_loc e) lc (de_device e) u Henv) as (c' & Hhas & E3).
  { unfold lc. by rewrite load_focus. }
  exists c'. split; [done|].
  race_next ltac:(rewrite (M_bind_run _ _ _ _ _ E1)). cbn [negb error_code_eqb error_num Z.eqb].
  race_next ltac:(rewrite E2). cbn [negb error_code_eqb error_num Z.eqb].
  rewrite (attach_run_next _ _ _ _ _ _ _ E3).
  destruct (E4 (ae_time env) (cl_id c') (Some (cl_ip_address c'))) as [err E5].
  race_next ltac:(rewrite E5; cbn [default from_option]). done.
Qed.

(** Detaching a client that has imported the open device of [e]. *)
Lemma detach_imported m c c' b l1 e l2 u :
  cm_device_list m = with_entry (cm_device_list m) l1 e l2 -> dl_inv (cm_device_list m) ->
  has_device c b (de_loc e) c' -> Forall (fun x => entry_at (de_loc e) x = false) l1 ->
  Forall (fun x => entry_is b x = false) l1 -> entry_is b e = true ->
  dev_is_open (de_device e) = true -> b <> [] -> no_nul b ->
  exists c2 l' u' e', client_detach_device (Some m) (Some c') u =
      ((ERR_SUCCESS, Some (cm_set_list m l'), Some c2), u') /\
    entry_of b l' = Some e' /\ de_loc e' = de_loc e /\ de_state e' = DEVICE_STATE_AVAILABLE /\
    dev_is_open (de_device e') = false.
Proof.
  intros El Hl (h0 & w0 & ->) Hl1 Hb Hi Ho Hne Hnn. rewrite El in Hl.
  pose proof (inv_entries _ Hl) as Hok. rewrite entries_with_entry, Forall_app, Forall_cons in Hok.
  destruct Hok as (_ & Hok & _). pose proof (proj1 (entry_is_true _ _ Hok) Hi) as Hbus.
  set (c1 := cl_set_attachment c _ _ _ _ _).
  destruct (client_detach_device (Some m) (Some c1) u) as [r u2] eqn:Ed.
  assert (cl_attached_busid c1 = busid_of e) as Ec by (by apply copy_busid).
  assert (forall x, entry_is (cl_attached_busid c1) x = entry_is b x) as Hsame.
  { intros x. by apply (copied_finds e). }
  destruct (detach_focus m c1 l1 e l2 u r u2 El eq_refl Ho Hl1) as
    (d' & h & w & Hd' & Hs' & Ho' & _ & -> & _ & _); [| |exact Hok| |exact Ed|].
  { eapply Forall_impl; [exact Hb|]. intros x Hx. by rewrite Hsame. }
  { by rewrite Hsame. }
  { rewrite Ec, Hbus, cstr_id by done. destruct b; [done|]. by apply Forall_cons in Hnn as [? _]. }
  set (e' := entry_set_state _ DEVICE_STATE_AVAILABLE _ _ _).
  assert (busid_of e' = busid_of e) as Eb by (by apply (busid_of_device e d')).
  assert (entry_ok e') as Hok' by (by apply entry_ok_available, entry_ok_device).
  destruct (focus_update _ b e l1 l2 e' Hl Hb Hi Hok' eq_refl Eb) as (_ & Hf & _).
  do 4 eexists. split; [reflexivity|]. split; [exact Hf|]. by split_and!.
Qed.

(** C33: two clients can import the same device, since [client_attach_device] looks at the
    state of the entry and exports it at different times, opening and claiming a device
    that is open and claimed succeed, and the refusal of the second export is not looked
    at.  Both calls return success with the clients attached to the one device, which the
    list shows as exported to the first; when the second client detaches, the device is
    closed and shown as available while the first is still attached to it. *)
Theorem double_import envA envB b cA cB m e u :
  dl_inv (cm_device_list m) -> e ∈ dl_entries (cm_device_list m) -> busid_of e = cstr b ->
  b <> [] -> no_nul b ->
  de_is_shared e = true -> de_state e = DEVICE_STATE_AVAILABLE -> dev_is_open (de_device e) = false ->
  char_at (dev_path (de_device e)) 0 <> 0 -> env_ok envA -> env_ok envB ->
  exists tA tB l u',
    rtc race_step ([attach_call envA cA b; attach_call envB cB b], cm_device_list m, u)
      ([tA; tB], l, u') /\
    at_phase tA = AP_done ERR_SUCCESS /\ at_phase tB = AP_done ERR_SUCCESS /\
    cl_device (at_client tA) = Some (de_loc e) /\ cl_device (at_client tB) = Some (de_loc e) /\
    (exists eA, entry_of b l = Some eA /\ attached_to (at_client tA) eA) /\
    exists cB' l' u'' eB,
      client_detach_device (Some (cm_set_list m l)) (Some (at_client tB)) u' =
        ((ERR_SUCCESS, Some (cm_set_list m l'), Some cB'), u'') /\
      entry_of b l' = Some eB /\ de_loc eB = de_loc e /\ de_state eB = DEVICE_STATE_AVAILABLE /\
      dev_is_open (de_device eB) = false.
Proof.
  intros Hl He Hbus Hne Hnn Hsh Hst Ho Hp HeA HeB.
  pose proof (find_entry _ _ _ Hl He Hbus) as Hf.
  destruct (entry_focus _ b e Hl Hf) as (l1 & l2 & El & Hl1 & Hb & Hi & Hok & Hd).
  cbn [at_busid attach_call] in Hb, Hi.
  destruct (import_first envA b cA (cm_device_list m) l1 e l2 u HeA Hl1 Hb Hi Hok Hst Ho Hp)
    as (cA' & d & u1 & HA & Hdi & Hsd & Hod & Hcd & Hnd & EA).
  set (eA := entry_set_state _ _ _ _ _) in EA.
  assert (busid_of eA = busid_of e) as Eb by (by apply (busid_of_device e d)).
  assert (entry_is b eA = true) as HiA by (unfold entry_is, busid_of in *; by rewrite Eb).
  assert (entry_ok eA) as HokA.
  { apply entry_ok_exported; [auto with usbip|]. by apply entry_ok_device. }
  destruct (import_second envB b cB (cm_device_list m) l1 eA l2 u1 HeB Hl1 Hb HiA eq_refl)
    as (cB' & HB & EB); [simpl; by rewrite Hsd|done..|].
  rewrite El in Hl. destruct (focus_update _ b e l1 l2 eA Hl Hb Hi HokA eq_refl Eb) as (HlA & HfA & _).
  pose proof (race_exec_steps ([0; 1; 0; 0; 0; 0; 1; 1; 1; 1])%nat
    ([attach_call envA cA b; attach_call envB cB b], cm_device_list m, u)) as Hr.
  rewrite (exec_first 1 _ _ _ _ [1; 0; 0; 0; 0; 1; 1; 1; 1]%nat _ _ _ (find_run _ _ _ _ u _ Hf Hsh Hst)),
    (exec_second 1 _ _ _ _ [0; 0; 0; 0; 1; 1; 1; 1]%nat _ _ _ (find_run _ _ _ _ u _ Hf Hsh Hst)) in Hr.
  rewrite El in Hr at 2.
  rewrite (exec_first 4 _ _ _ _ [1; 1; 1; 1]%nat _ _ _ EA), (exec_second 4 _ _ _ _ [] _ _ _ EB) in Hr.
  do 4 eexists. split; [exact Hr|]. split; [done|]. split; [done|].
  destruct HA as (hA & wA & ->), HB as (hB & wB & ->). cbn [at_client cl_device cl_set_attachment].
  split; [done|]. split; [done|]. split.
  { exists eA. split; [exact HfA|]. split_and!; try done. simpl. rewrite Eb. by apply copy_busid. }
  set (mA := cm_set_list m _).
  destruct (detach_imported mA cB _ b l1 eA l2 u1 eq_refl HlA (ex_intro _ hB (ex_intro _ wB eq_refl))
    Hl1 Hb HiA Hod Hne Hnn) as (cB' & l' & u2 & eB & Ed & ? & ? & ? & ?).
  do 4 eexists. split; [exact Ed|]. by split_and!.
Qed.
End double.

(** ** Witnesses *)

(** The second client's handler cannot be allocated. *)
Definition poor_env : attach_env := {|
  ae_calloc := false; ae_mutexes := (0, 0); ae_events := (0, 0); ae_thread := true; ae_time := 0 |}.

Definition example_threads : list attach_thread := [
  attach_call example_env (example_client 8192 1) example_busid;
  attach_call poor_env (example_client 12288 2) (second_busid)].

Definition example_race : list attach_thread * device_list * SimUsb.usb :=
  race_exec [0; 1; 1; 0; 0; 1; 1; 0; 1; 0; 1; 1]%nat (example_threads, two_devices, SimUsb.start []).

Lemma attachments_independent_witness :
  dl_inv example_race.1.2 /\
  map at_phase example_race.1.1 = [AP_done ERR_SUCCESS; AP_done ERR_OUT_OF_MEMORY].
Proof.
  destruct (attachments_independent example_threads two_devices (SimUsb.start [])
    example_race.1.1 example_race.1.2 example_race.2) as (Hl & _).
  - split_and!; [apply two_devices_inv|by repeat constructor; vm_compute|by repeat constructor].
  - apply (bool_decide_unpack _). by vm_compute.
  - apply race_exec_split.
  - split; [exact Hl|]. by vm_compute.
Defined.

Lemma double_import_witness :
  exists tA tB l u',
    rtc race_step ([attach_call example_env (example_client 8192 1) example_busid;
      attach_call example_env (example_client 12288 2) example_busid], example_list, SimUsb.start [])
      ([tA; tB], l, u') /\
    at_phase tA = AP_done ERR_SUCCESS /\ at_phase tB = AP_done ERR_SUCCESS.
Proof.
  edestruct (double_import example_env example_env example_busid (example_client 8192 1)
    (example_client 12288 2) example_manager) as (tA & tB & l & u' & Hr & HA & HB & _);
    [apply example_list_inv|by left|by vm_compute|done|apply example_busid_no_nul
    |by vm_compute|by vm_compute|by vm_compute|by vm_compute|done|done|].
  by exists tA, tB, l, u'.
Defined.
