(* ===== verification/Handover.v ===== *)
(** * Clients that come and go ([client_attach_device], [client_detach_device])

    The handler threads of the graphical server attach a device, serve it and detach it
    when their client goes, at the same time as others do and as the user shares and
    unshares devices.  [AttachRace] has the attachments; here are the detachments, cut
    into steps in the same way ([detach_next], [detach_steps_equivalent]), and threads
    that do both one after the other, that arrive and leave as they like.

    [AttachRace.double_import] says what goes wrong when two clients attach one device at
    the same moment.  [handovers_safe] says that this is all that can go wrong: when no two
    calls of [client_attach_device] for one device overlap, every device has one client at
    most, whoever leaves while others come. *)

From S2P Require Import Prelude CTypes Format Errors Protocol Net ProtocolIO Auth UsbHost DeviceList.
From S2P Require Import UrbQueue UrbHandler ClientManager AttachRace.

(** ** The steps of a detachment *)

(** Where a thread is in [client_detach_device]; [p] is [client->device]. *)
Inductive detach_phase :=
  | DP_stop
  | DP_release (p : Z)
  | DP_close (p : Z)
  | DP_unexport
  | DP_done.

Section steps.
  Context {U : Type} `{WinUsb U}.

(** The next step, on the list as it is then; stopping the handler waits for its thread. *)
Definition detach_next (c : client_connection) (ph : detach_phase) (l : device_list) :
    M U (client_connection * detach_phase * device_list) :=
  match ph with
  | DP_stop =>
      if char_at (cl_attached_busid c) 0 =? 0 then mret (c, DP_done, l) else
      '(h, w) ← match cl_urb_handler c with
                | Some _ =>
                    '(h, w) ← urb_handler_stop (synced l c) (cl_worker c);
                    '(_, _) ← urb_handler_cleanup h w;
                    mret (NULL, W_none)
                | NULL => mret (NULL, cl_worker c)
                end;
      mret (cl_set_handler c h w, match cl_device c with Some p => DP_release p | NULL => DP_unexport end, l)
  | DP_release p => mret (c, DP_close p, release_at l p)
  | DP_close p =>
      l ← close_at l p;
      mret (cl_set_attachment c (cl_attached_busid c) NULL (cl_urb_handler c) (cl_worker c) (cl_state c),
            DP_unexport, l)
  | DP_unexport =>
      let '(_, l') := device_list_unexport (Some l) (Some (cl_attached_busid c)) in
      mret (cl_set_attachment c [] NULL (cl_urb_handler c) (cl_worker c) CLIENT_STATE_CONNECTED, DP_done,
            default l l')
  | DP_done => mret (c, DP_done, l)
  end.

Fixpoint detach_run (n : nat) (c : client_connection) (ph : detach_phase) (l : device_list) :
    M U (client_connection * detach_phase * device_list) :=
  match n with
  | O => mret (c, ph, l)
  | S n => '(c, ph, l) ← detach_next c ph l; detach_run n c ph l
  end.
End steps.

Section alone.
  Context {U : Type} `{WinUsb U}.
  Implicit Types u : U.

Lemma detach_run_next n c ph l u c1 ph1 l1 u1 :
  detach_next c ph l u = ((c1, ph1, l1), u1) -> detach_run (S n) c ph l u = detach_run n c1 ph1 l1 u1.
Proof. intros E. cbn [detach_run]. by rewrite (M_bind_run _ _ _ _ _ E). Qed.

Lemma detach_run_done n c l u : detach_run n c DP_done l u = ((c, DP_done, l), u).
Proof. induction n as [|n IH]; [done|]. by rewrite (detach_run_next _ _ _ _ _ c DP_done l u). Qed.

(** The end of every detachment. *)
Lemma unexport_run n c l u e l' :
  device_list_unexport (Some l) (Some (cl_attached_busid c)) = (e, l') ->
  detach_run (S n) c DP_unexport l u =
    ((cl_set_attachment c [] NULL (cl_urb_handler c) (cl_worker c) CLIENT_STATE_CONNECTED, DP_done,
      default l l'), u).
Proof.
  intros E. erewrite detach_run_next; [apply detach_run_done|]. unfold detach_next. by rewrite E.
Qed.

(** [client_detach_device] is its steps run one after the other, without another thread
    between them: at most four, with the same device list, client and USB host. *)
Theorem detach_steps_equivalent m c u :
  exists c' l' u',
    client_detach_device (Some m) (Some c) u = ((ERR_SUCCESS, Some (cm_set_list m l'), Some c'), u') /\
    detach_run 4 c DP_stop (cm_device_list m) u = ((c', DP_done, l'), u').
Proof.
  assert (cm_set_list m (cm_device_list m) = m) as Em by by destruct m.
  unfold client_detach_device. destruct (char_at (cl_attached_busid c) 0 =? 0) eqn:Ez.
  { exists c, (cm_device_list m), u. rewrite Em. split; [done|].
    rewrite (detach_run_next 3 c DP_stop (cm_device_list m) u c DP_done (cm_device_list m) u);
      [apply detach_run_done|]. unfold detach_next. by rewrite Ez. }
  set (stop := match cl_urb_handler c with Some _ => _ | NULL => _ end).
  destruct (stop u) as [[h w] u1] eqn:Es. rewrite (M_bind_run _ _ _ _ _ Es).
  assert (detach_next c DP_stop (cm_device_list m) u =
    ((cl_set_handler c h w, match cl_device c with Some p => DP_release p | NULL => DP_unexport end,
      cm_device_list m), u1)) as E1.
  { unfold detach_next. rewrite Ez. fold stop. by rewrite (M_bind_run _ _ _ _ _ Es). }
  rewrite (detach_run_next _ _ _ _ _ _ _ _ _ E1). clear E1 Es stop. destruct (cl_device c) as [p|] eqn:Ed.
  - destruct (close_at (release_at (cm_device_list m) p) p u1) as [l2 u2] eqn:Ec.
    rewrite (M_bind_run _ _ _ _ _ Ec).
    destruct (device_list_unexport (Some l2) (Some (cl_attached_busid c))) as [e l3] eqn:E3.
    do 3 eexists. split; [reflexivity|].
    erewrite detach_run_next by reflexivity.
    erewrite detach_run_next by (unfold detach_next; rewrite (M_bind_run _ _ _ _ _ Ec); reflexivity).
    by erewrite unexport_run.
  - unfold mbind, M_bind, mret, M_ret at 1.
    destruct (device_list_unexport (Some (cm_device_list m)) (Some (cl_attached_busid c))) as [e l3] eqn:E3.
    do 3 eexists. split; [reflexivity|]. by erewrite unexport_run.
Qed.
End alone.

(** ** Threads that come and go *)

(** A handler thread in one of the two functions: [busid] is what it attached. *)
Inductive thread :=
  | T_attach (t : attach_thread)
  | T_detach (busid : bytes) (c : client_connection) (ph : detach_phase).

Definition thread_busid (t : thread) : bytes :=
  match t with T_attach t => at_busid t | T_detach b _ _ => b end.

Definition thread_client (t : thread) : client_connection :=
  match t with T_attach t => at_client t | T_detach _ c _ => c end.

(** Between finding its device and returning from [client_attach_device]. *)
Definition in_call (t : thread) : bool :=
  match t with
  | T_attach t => match at_phase t with AP_find | AP_done _ => false | _ => true end
  | T_detach _ _ _ => false
  end.

(** The client is attached, and is not leaving. *)
Definition attached (t : thread) : bool :=
  match t with
  | T_attach t => match at_phase t with AP_done err => error_code_eqb err ERR_SUCCESS | _ => false end
  | T_detach _ _ _ => false
  end.

(** The device is the thread's: from the moment it finds it until its attachment has failed
    or it has given it back. *)
Definition owns_device (t : thread) : bool :=
  match t with
  | T_attach _ => in_call t || attached t
  | T_detach _ _ DP_done => false
  | T_detach _ _ _ => true
  end.

Section threads.
  Context {U : Type} `{WinUsb U}.

Definition handover_state : Type := list thread * device_list * U.

(** A step: of an attachment, where no call for the same device is in progress when one
    begins; an attached client leaves; of a detachment; a client asks for a device; the user
    shares or unshares one; and transfers, of whatever client. *)
Inductive handover_step : handover_state -> handover_state -> Prop :=
  | hs_attach ts1 t ts2 l u t' l' u' :
      (at_phase t = AP_find -> Forall (fun x => in_call x = true -> cstr (thread_busid x) <> cstr (at_busid t))
         (ts1 ++ ts2)) ->
      attach_next t l u = ((t', l'), u') ->
      handover_step (ts1 ++ T_attach t :: ts2, l, u) (ts1 ++ T_attach t' :: ts2, l', u')
  | hs_leave ts1 t ts2 l u :
      attached (T_attach t) = true ->
      handover_step (ts1 ++ T_attach t :: ts2, l, u)
        (ts1 ++ T_detach (at_busid t) (at_client t) DP_stop :: ts2, l, u)
  | hs_detach ts1 b c ph ts2 l u c' ph' l' u' :
      detach_next c ph l u = ((c', ph', l'), u') ->
      handover_step (ts1 ++ T_detach b c ph :: ts2, l, u) (ts1 ++ T_detach b c' ph' :: ts2, l', u')
  | hs_arrive ts l u env c b :
      char_at b 0 <> 0 -> handover_step (ts, l, u) (T_attach (attach_call env c b) :: ts, l, u)
  | hs_share ts l u b shared :
      handover_step (ts, l, u) (ts, default l (device_list_set_shared (Some l) (Some b) shared).2, u)
  | hs_transfer ts l u u' : handover_step (ts, l, u) (ts, l, u').
End threads.

(** ** The invariant *)

(** What a thread that owns a device knows of its entry, and what is left of a client that
    has gone. *)
Definition leaving (b : bytes) (c : client_connection) (l : device_list) (open : bool) : Prop :=
  exists e, entry_of b l = Some e /\ de_state e = DEVICE_STATE_EXPORTED /\
    dev_is_open (de_device e) = open /\ cl_attached_busid c = busid_of e /\
    cl_urb_handler c = NULL /\ (forall p, cl_device c = Some p -> p = de_loc e).

Definition thread_fine (t : thread) (l : device_list) : Prop :=
  match t with
  | T_attach t => owns_device (T_attach t) = true -> thread_ok t l
  | T_detach b c ph =>
      match ph with
      | DP_stop => exists e, entry_of b l = Some e /\ attached_to c e
      | DP_release p | DP_close p => leaving b c l true /\ cl_device c = Some p
      | DP_unexport => leaving b c l false
      | DP_done => cl_device c = NULL /\ cl_urb_handler c = NULL /\ cl_attached_busid c = [] /\
                   cl_state c = CLIENT_STATE_CONNECTED
      end
  end.

(** The devices that are some thread's. *)
Definition owned (ts : list thread) : list bytes :=
  (fun t => cstr (thread_busid t)) <$> filter (fun t => owns_device t = true) ts.

(** Every device has one owner at most, who knows its state; without one it is idle. *)
Record handover_inv (ts : list thread) (l : device_list) : Prop := {
  hi_list : dl_inv l;
  hi_named : Forall (fun t => char_at (thread_busid t) 0 <> 0) ts;
  hi_fine : Forall (fun t => thread_fine t l) ts;
  hi_one : NoDup (owned ts);
  hi_idle b e : entry_of b l = Some e -> cstr b ∉ owned ts -> idle e;
}.

Lemma owned_app ts1 ts2 : owned (ts1 ++ ts2) = owned ts1 ++ owned ts2.
Proof. unfold owned. by rewrite filter_app, fmap_app. Qed.

Lemma owned_cons t ts :
  owned (t :: ts) = if owns_device t then cstr (thread_busid t) :: owned ts else owned ts.
Proof. unfold owned. rewrite filter_cons. destruct (owns_device t) eqn:E; by rewrite ?decide_True, ?decide_False by congruence. Qed.

#[local] Instance owned_permutation : Proper (Permutation ==> Permutation) owned.
Proof. intros ts1 ts2 E. unfold owned. by rewrite E. Qed.

Lemma elem_of_owned b ts :
  b ∈ owned ts <-> exists t, t ∈ ts /\ owns_device t = true /\ cstr (thread_busid t) = b.
Proof.
  unfold owned. rewrite list_elem_of_fmap. setoid_rewrite list_elem_of_filter. naive_solver.
Qed.

(** An owner is at one position. *)
Lemma owned_once ts i j t1 t2 :
  NoDup (owned ts) -> ts !! i = Some t1 -> ts !! j = Some t2 -> owns_device t1 = true -> owns_device t2 = true ->
  cstr (thread_busid t1) = cstr (thread_busid t2) -> i = j.
Proof.
  intros Hn H1 H2 Ho1 Ho2 Ec. apply list_elem_of_split_length in H1 as (ts1 & ts2 & -> & ->).
  rewrite owned_app, owned_cons, Ho1 in Hn. apply NoDup_app in Hn as (_ & Hx & [Hy _]%NoDup_cons).
  assert (forall l, t2 ∈ l -> cstr (thread_busid t1) ∈ owned l) as Hmem.
  { intros l Hl. rewrite elem_of_owned. by exists t2. }
  apply lookup_app_Some in H2 as [H2|[Hle H2]].
  - apply list_elem_of_lookup_2, Hmem in H2. destruct (Hx _ H2). by left.
  - destruct (j - length ts1)%nat as [|k] eqn:Ek; [lia|]. cbn in H2.
    by apply list_elem_of_lookup_2, Hmem in H2.
Qed.

(** A bus id is read up to its NUL. *)
Lemma entry_of_cstr b b' l : cstr b = cstr b' -> entry_of b l = entry_of b' l.
Proof. intros E. unfold entry_of. apply find_first_ext. intros e. unfold entry_is, streq. by rewrite E. Qed.

(** Nothing is known of a device whose owner is another. *)
Lemma fine_frame t l l' :
  (owns_device t = true -> entry_of (thread_busid t) l' = entry_of (thread_busid t) l) ->
  thread_fine t l -> thread_fine t l'.
Proof.
  destruct t as [t|b c ph]; cbn [thread_fine thread_busid].
  - intros E Ht Ho. eapply thread_ok_frame; [by apply E|by apply Ht].
  - unfold leaving. destruct ph; cbn [owns_device]; intros E; try done; by rewrite E.
Qed.

(** A thread goes on: its device is its own, or it leaves the list alone. *)
Lemma inv_replace ts1 t ts2 l t' l' :
  handover_inv (ts1 ++ t :: ts2) l -> thread_busid t' = thread_busid t -> dl_inv l' -> thread_fine t' l' ->
  (forall b, cstr b <> cstr (thread_busid t) -> entry_of b l' = entry_of b l) ->
  (owns_device t = false -> l' = l) ->
  (owns_device t = false -> owns_device t' = true -> cstr (thread_busid t) ∉ owned (ts1 ++ ts2)) ->
  (owns_device t = true -> owns_device t' = false ->
     forall e, entry_of (thread_busid t) l' = Some e -> idle e) ->
  handover_inv (ts1 ++ t' :: ts2) l'.
Proof.
  intros [Hl Hna Hf Hn Hi] Eb Hl' Ht' Hfr Hsame Htake Hgive.
  rewrite Forall_app, Forall_cons in Hna, Hf. destruct Hna as (Hna1 & Hna & Hna2), Hf as (Hf1 & Hf & Hf2).
  rewrite <- Permutation_middle, owned_cons in Hn.
  assert (owns_device t = true -> cstr (thread_busid t) ∉ owned (ts1 ++ ts2)) as Halone.
  { intros Ho. rewrite Ho in Hn. by apply NoDup_cons in Hn as [? _]. }
  assert (forall x, x ∈ ts1 ++ ts2 -> thread_fine x l -> thread_fine x l') as Hothers.
  { intros x Hx. apply fine_frame. intros Hox. destruct (owns_device t) eqn:Ho; [|by rewrite Hsame].
    apply Hfr. intros Ec. apply (Halone eq_refl). rewrite elem_of_owned. by exists x. }
  split; [done| | | |].
  - rewrite Forall_app, Forall_cons, Eb. by split_and!.
  - apply Forall_app; split; [|apply Forall_cons; split; [done|]].
    + eapply Forall_impl_in; [exact Hf1|]. intros x Hx. apply Hothers, elem_of_app. by left.
    + eapply Forall_impl_in; [exact Hf2|]. intros x Hx. apply Hothers, elem_of_app. by right.
  - rewrite <- Permutation_middle, owned_cons, Eb.
    assert (NoDup (owned (ts1 ++ ts2))) as Hn' by (destruct (owns_device t); [by apply NoDup_cons in Hn as [_ ?]|done]).
    destruct (owns_device t') eqn:Ho'; [|done]. apply NoDup_cons. split; [|done].
    destruct (owns_device t) eqn:Ho; [by apply Halone|by apply Htake].
  - intros b e He Hno. rewrite <- Permutation_middle, owned_cons, Eb in Hno.
    assert (forall e, entry_of b l = Some e -> cstr b ∉ owned (t :: ts1 ++ ts2) -> idle e) as Hi0.
    { intros e0. rewrite (Permutation_middle ts1 ts2 t). apply Hi. }
    clear Hi. rename Hi0 into Hi. rewrite owned_cons in Hi.
    destruct (decide (cstr b = cstr (thread_busid t))) as [Ec|Ec].
    + rewrite (entry_of_cstr _ _ _ Ec) in He. destruct (owns_device t') eqn:Ho'; [destruct Hno; rewrite Ec; by left|].
      destruct (owns_device t) eqn:Ho; [by apply Hgive|]. apply Hi; [|done].
      by rewrite (entry_of_cstr _ _ _ Ec), <- Hsame.
    + rewrite Hfr in He by done. apply Hi; [done|].
      destruct (owns_device t), (owns_device t'); rewrite ?elem_of_cons in *; naive_solver.
Qed.

(** ** Every step keeps it *)

Section kept.
  Context {U : Type} `{WinUsbLaws U}.
  Implicit Types (u : U) (l : device_list) (c : client_connection).

(** An owner that is not in a call has its device exported. *)
Lemma owner_exported x l e :
  thread_fine x l -> owns_device x = true -> in_call x = false -> entry_of (thread_busid x) l = Some e ->
  de_state e = DEVICE_STATE_EXPORTED.
Proof.
  destruct x as [t|b c ph]; cbn [thread_fine thread_busid].
  - intros Hf Ho Hc He. specialize (Hf Ho). cbn [owns_device] in Ho. rewrite Hc in Ho. cbn [orb attached] in Ho.
    unfold thread_ok in Hf. destruct (at_phase t); try done. apply error_code_eqb_true in Ho as ->.
    destruct (proj1 Hf eq_refl) as (e' & He' & _ & _ & _ & _ & ? & _). congruence.
  - intros Hf Ho _ He. assert (exists e', entry_of b l = Some e' /\ de_state e' = DEVICE_STATE_EXPORTED)
      as (e' & He' & ?); [|congruence].
    destruct ph; [destruct Hf as (e' & He' & _ & _ & _ & _ & ? & _)
      |destruct Hf as [(e' & He' & ? & _) _]|destruct Hf as [(e' & He' & ? & _) _]
      |destruct Hf as (e' & He' & ? & _)|done]; by exists e'.
Qed.

(** Whoever finds an available device finds it closed, and without an owner. *)
Lemma available_unowned ts1 t ts2 l e :
  handover_inv (ts1 ++ T_attach t :: ts2) l -> at_phase t = AP_find ->
  Forall (fun x => in_call x = true -> cstr (thread_busid x) <> cstr (at_busid t)) (ts1 ++ ts2) ->
  entry_of (at_busid t) l = Some e -> de_state e = DEVICE_STATE_AVAILABLE ->
  cstr (at_busid t) ∉ owned (ts1 ++ ts2) /\ dev_is_open (de_device e) = false.
Proof.
  intros [_ _ Hf _ Hi] Ep Hg He Hst.
  assert (owned (ts1 ++ T_attach t :: ts2) ≡ₚ owned (ts1 ++ ts2)) as Eo.
  { rewrite <- Permutation_middle, owned_cons. cbn [owns_device in_call attached]. by rewrite Ep. }
  assert (cstr (at_busid t) ∉ owned (ts1 ++ ts2)) as Hno.
  { intros (x & Hx & Ho & Ec)%elem_of_owned. rewrite Forall_forall in Hf, Hg.
    assert (de_state e = DEVICE_STATE_EXPORTED); [|congruence].
    apply (owner_exported x l); [apply Hf| done| |by rewrite (entry_of_cstr _ _ _ Ec)].
    - apply elem_of_mid_ne. by right.
    - destruct (in_call x) eqn:Eic; [|done]. by destruct (Hg x Hx Eic). }
  split; [done|]. apply (Hi _ _ He). by rewrite Eo.
Qed.

(** A thread whose attachment fails leaves its device closed. *)
Lemma failure_idle t l u t' l' u' e :
  dl_inv l -> thread_ok t l -> owns_device (T_attach t) = true -> attach_next t l u = ((t', l'), u') ->
  owns_device (T_attach t') = false -> entry_of (at_busid t) l' = Some e -> idle e.
Proof.
  intros Hl Ht Ho E Ho' He. pose proof (attach_next_ok t l u t' l' u' Hl Ht E) as (_ & Hl' & Ht' & _).
  unfold thread_ok in Ht. cbn [owns_device in_call attached] in Ho, Ho'.
  unfold attach_next in E. destruct (at_phase t) as [|p|p|p| |err p|err p|err] eqn:Ep; try done.
  - destruct Ht as (e0 & Ef & <- & Hst & Hop).
    destruct (entry_focus l _ e0 Hl Ef) as (l1 & l2 & El & Hl1 & Hb & Hi & Hok & Hd).
    rewrite El in E. apply M_bind_inv in E as ([err lo] & u1 & E1 & E).
    apply open_focus in E1 as [(Hne & -> & ->)|(-> & d1 & -> & _)]; [| |done..].
    + step_eq E. rewrite <- El in He. rewrite Ef in He. injection He as <-. split; [by rewrite Hst|done].
    + step_eq E. cbn in Ho'. done.
  - destruct (claim_at l p) as [err l1]. step_eq E. cbn in Ho'. by destruct (negb _).
  - destruct (negb _); [by step_eq E|]. destruct (urb_handler_init _ _ _ _) as [err3 h3].
    destruct (negb _); [by step_eq E|]. destruct (urb_handler_start _ _ _) as [[err4 h4] w4].
    destruct (negb _); [|by step_eq E]. apply M_bind_inv in E as (x & u2 & _ & E). by step_eq E.
  - destruct (device_list_export _ _ _ _ _). by step_eq E.
  - by step_eq E.
  - destruct Ht as (Hne & e0 & Ef & <- & Hst & Hop).
    destruct (entry_focus l _ e0 Hl Ef) as (l1 & l2 & El & Hl1 & Hb & Hi & Hok & Hd).
    rewrite El in E. apply M_bind_inv in E as (lx & u1 & E1 & E). step_eq E.
    apply close_focus in E1 as (d' & -> & Hd' & Hs' & Ho2 & _); [|done..]. rewrite El in Hl.
    destruct (focus_update l _ e0 l1 l2 (entry_set_device e0 d') Hl Hb Hi) as (_ & Ef' & _);
      [by apply entry_ok_device|done|by apply busid_of_device|].
    rewrite Ef' in He. injection He as <-. split; [cbn; by rewrite Hst|done].
  - step_eq E. rewrite Ep in Ho'. cbn in Ho, Ho'. congruence.
Qed.

Lemma attach_step_inv ts1 t ts2 l u t' l' u' :
  handover_inv (ts1 ++ T_attach t :: ts2) l ->
  (at_phase t = AP_find ->
     Forall (fun x => in_call x = true -> cstr (thread_busid x) <> cstr (at_busid t)) (ts1 ++ ts2)) ->
  attach_next t l u = ((t', l'), u') -> handover_inv (ts1 ++ T_attach t' :: ts2) l'.
Proof.
  intros Hinv Hg E. pose proof Hinv as [Hl _ Hf _ _].
  destruct (owns_device (T_attach t)) eqn:Ho.
  - assert (thread_ok t l) as Ht.
    { rewrite Forall_app, Forall_cons in Hf. by apply (proj1 (proj2 Hf)). }
    pose proof (attach_next_ok t l u t' l' u' Hl Ht E) as (Eb & Hl' & Ht' & Hfr).
    eapply (inv_replace ts1 (T_attach t)); [done|done|done|by intros _|done|congruence|congruence|].
    intros _ Ho' e. by apply (failure_idle t l u t' l' u').
  - cbn [owns_device] in Ho. apply orb_false_iff in Ho as [Hc Ha]. cbn [in_call attached] in Hc, Ha.
    destruct (at_phase t) as [|p|p|p| |err p|err p|err] eqn:Ep; try done.
    + assert (thread_ok t l) as Ht.
      { unfold thread_ok. rewrite Ep. intros e He Hst. by eapply available_unowned; eauto. }
      pose proof (attach_next_ok t l u t' l' u' Hl Ht E) as (Eb & Hl' & Ht' & Hfr).
      assert (l' = l) as -> by (unfold attach_next in E; rewrite Ep in E; by step_eq E).
      eapply (inv_replace ts1 (T_attach t)); [done|done|done|by intros _|done|done| |].
      * intros _ Ho'. unfold attach_next in E. rewrite Ep in E. unfold mret, M_ret in E. cbv beta in E.
        injection E as <- _. unfold thread_ok in Ht'.
        cbn [at_go at_phase at_busid owns_device in_call attached] in *.
        unfold device_list_find in *. destruct (find_first _ _) as [e|]; [|done].
        destruct (negb _); [done|]. destruct (bool_decide _); [done|].
        destruct Ht' as (e0 & He0 & _ & Hst & _). by eapply available_unowned; eauto.
      * intros Hx. cbn [owns_device in_call attached] in Hx. by rewrite Ep in Hx.
    + unfold attach_next in E. rewrite Ep in E. by step_eq E.
Qed.
(** The list with another entry for the thread's device. *)
Lemma leaving_update b c l (l1 l2 : list device_entry) e e' open :
  dl_inv (with_entry l l1 e l2) -> Forall (fun x => entry_is b x = false) l1 -> entry_is b e = true ->
  entry_ok e' -> de_loc e' = de_loc e -> busid_of e' = busid_of e -> cl_attached_busid c = busid_of e ->
  cl_urb_handler c = NULL -> (forall p, cl_device c = Some p -> p = de_loc e) ->
  de_state e' = DEVICE_STATE_EXPORTED -> dev_is_open (de_device e') = open ->
  dl_inv (with_entry l l1 e' l2) /\ leaving b c (with_entry l l1 e' l2) open /\
  forall b', cstr b' <> cstr b -> entry_of b' (with_entry l l1 e' l2) = entry_of b' (with_entry l l1 e l2).
Proof.
  intros Hl Hb Hi Hok El Eb Ec Eh Ed Hst Ho.
  destruct (focus_update l b e l1 l2 e' Hl Hb Hi Hok El Eb) as (? & ? & ?). split_and!; [done| |done].
  exists e'. rewrite El, Eb. by split_and!.
Qed.

(** A step of a detachment, on the device of the thread. *)
Lemma detach_next_fine b c ph l u c' ph' l' u' :
  dl_inv l -> char_at b 0 <> 0 -> thread_fine (T_detach b c ph) l ->
  detach_next c ph l u = ((c', ph', l'), u') ->
  dl_inv l' /\ thread_fine (T_detach b c' ph') l' /\
  (forall b', cstr b' <> cstr b -> entry_of b' l' = entry_of b' l) /\
  (ph' = DP_done -> ph <> DP_done -> forall e, entry_of b l' = Some e -> idle e) /\
  (ph = DP_done -> l' = l /\ ph' = DP_done).
Proof.
  intros Hl Hb Hf E. destruct ph as [|p|p| |]; cbn [thread_fine] in Hf; unfold detach_next in E.
  - destruct Hf as (e & He & Ha). destruct (entry_of_in b l e Hl He) as [_ Eb].
    pose proof Ha as (_ & Ec & Ed & [h Eh] & Hst & _ & Ho).
    assert ((char_at (cl_attached_busid c) 0 =? 0) = false) as Hz.
    { apply Z.eqb_neq. rewrite Ec, Eb. by rewrite cstr_head. }
    rewrite Hz, Eh, Ed in E. apply M_bind_inv in E as ([h1 w1] & u1 & E1 & E).
    apply M_bind_inv in E1 as ([h2 w2] & u2 & _ & E1). apply M_bind_inv in E1 as ([h3 w3] & u3 & _ & E1).
    unfold mret, M_ret in E1, E. injection E1 as <- <- <-. injection E as <- <- <- <-.
    split_and!; try done. cbn [thread_fine]. split; [|done]. exists e. split_and!; try done.
    intros p Hp. cbn in Hp. congruence.
  - destruct Hf as [(e & He & Hst & Ho & Ec & Eh & Ed) Hp]. apply Ed in Hp as Ep.
    destruct (entry_focus l b e Hl He) as (l1 & l2 & El & Hl1 & Hb1 & Hi & Hok & Hd).
    unfold mret, M_ret in E. injection E as <- <- <- <-. subst p. rewrite El in Hl |- *.
    destruct (release_focus l l1 e l2 Hl1 Hd Ho) as (d' & -> & Hd' & Hs' & Ho' & _).
    destruct (leaving_update b c l l1 l2 e (entry_set_device e d') true Hl Hb1 Hi) as (? & ? & ?);
      [by apply entry_ok_device|done|by apply busid_of_device|done..|]. by split_and!.
  - destruct Hf as [(e & He & Hst & Ho & Ec & Eh & Ed) Hp]. apply Ed in Hp as Ep.
    destruct (entry_focus l b e Hl He) as (l1 & l2 & El & Hl1 & Hb1 & Hi & Hok & Hd).
    apply M_bind_inv in E as (lx & u1 & E1 & E). unfold mret, M_ret in E. injection E as <- <- <- <-.
    subst p. rewrite El in E1. apply close_focus in E1 as (d' & -> & Hd' & Hs' & Ho' & _); [|done..].
    rewrite El in Hl |- *. set (c1 := cl_set_attachment _ _ _ _ _ _).
    destruct (leaving_update b c1 l l1 l2 e (entry_set_device e d') false Hl Hb1 Hi) as (? & ? & ?);
      [by apply entry_ok_device|done|by apply busid_of_device|done..|]. by split_and!.
  - destruct Hf as (e & He & Hst & Ho & Ec & Eh & Ed). destruct (entry_of_in b l e Hl He) as [_ Eb].
    destruct (entry_focus l b e Hl He) as (l1 & l2 & El & Hl1 & Hb1 & Hi & Hok & Hd).
    rewrite El in E. rewrite Ec in E. rewrite unexport_focus in E.
    + cbn [default from_option id] in E. unfold mret, M_ret in E. injection E as <- <- <- <-. rewrite El in Hl.
      set (e' := entry_set_state e DEVICE_STATE_AVAILABLE 0 [] 0).
      destruct (focus_update l b e l1 l2 e' Hl Hb1 Hi) as (? & Hf' & Hfr);
        [by apply entry_ok_available|done|done|].
      split_and!; try done; [intros b' Hne; by rewrite El at 2; apply Hfr|]. intros _ _ e0 He0. rewrite Hf' in He0. injection He0 as <-. by split.
    + eapply Forall_impl; [exact Hb1|]. intros x Hx. unfold entry_is, streq in *. by rewrite Eb, cstr_cstr.
    + unfold entry_is, streq in *. by rewrite Eb, cstr_cstr.
  - unfold mret, M_ret in E. injection E as <- <- <- <-. by split_and!.
Qed.

Lemma detach_step_inv ts1 b c ph ts2 l u c' ph' l' u' :
  handover_inv (ts1 ++ T_detach b c ph :: ts2) l -> detach_next c ph l u = ((c', ph', l'), u') ->
  handover_inv (ts1 ++ T_detach b c' ph' :: ts2) l'.
Proof.
  intros Hinv E. pose proof Hinv as [Hl Hna Hf _ _]. rewrite Forall_app, Forall_cons in Hna, Hf.
  destruct (detach_next_fine b c ph l u c' ph' l' u' Hl) as (Hl' & Hf' & Hfr & Hdone & Hstay);
    [by apply Hna|by apply Hf|done|].
  eapply (inv_replace ts1 (T_detach b c ph)); try done.
  - intros Ho. destruct ph; try done. by apply Hstay.
  - intros Ho Ho'. destruct ph; try done. by rewrite (proj2 (Hstay eq_refl)) in Ho'.
  - intros Ho Ho'. apply Hdone; [by destruct ph'|by intros ->].
Qed.

(** A client that leaves keeps its device for now. *)
Lemma leave_inv ts1 t ts2 l :
  handover_inv (ts1 ++ T_attach t :: ts2) l -> attached (T_attach t) = true ->
  handover_inv (ts1 ++ T_detach (at_busid t) (at_client t) DP_stop :: ts2) l.
Proof.
  intros Hinv Ha. pose proof Hinv as [Hl _ Hf _ _]. rewrite Forall_app, Forall_cons in Hf.
  destruct Hf as (_ & Hf & _). cbn [thread_fine owns_device] in Hf. rewrite Ha, orb_true_r in Hf.
  specialize (Hf eq_refl). eapply (inv_replace ts1 (T_attach t)); try done.
  - cbn [thread_fine]. cbn [attached] in Ha. unfold thread_ok in Hf. destruct (at_phase t); try done.
    apply error_code_eqb_true in Ha as ->. by apply Hf.
  - intros Ho. cbn [owns_device] in Ho. by rewrite Ha, orb_true_r in Ho.
Qed.

Lemma arrive_inv ts l env c b :
  handover_inv ts l -> char_at b 0 <> 0 -> handover_inv (T_attach (attach_call env c b) :: ts) l.
Proof.
  intros [Hl Hna Hf Hn Hi] Hb. split; try done; [by constructor|by constructor].
Qed.

(** Sharing changes one flag of one entry, which no thread looks at once it has its device. *)
Lemma share_entry l b shared b' :
  dl_inv l ->
  let l' := default l (device_list_set_shared (Some l) (Some b) shared).2 in
  dl_inv l' /\
  (entry_of b' l' = entry_of b' l \/
   exists e, entry_of b' l = Some e /\ entry_of b' l' = Some (entry_set_shared e shared)).
Proof.
  intros Hl. rewrite set_shared_eq. cbv zeta. fold (entry_of b l). destruct (entry_of b l) as [e|] eqn:He.
  2: { split; [done|by left]. }
  destruct (entry_focus l b e Hl He) as (l1 & l2 & El & Hl1 & Hb1 & Hi & Hok & Hd). cbn [snd default id].
  assert (set_entries l (update_first (entry_is b) (fun e => entry_set_shared e shared) (dl_entries l)) (dl_count l) =
    with_entry l l1 (entry_set_shared e shared) l2) as ->.
  { unfold with_entry. f_equal. rewrite El at 1. rewrite entries_with_entry. by rewrite update_first_split. }
  rewrite El in Hl. destruct (focus_update l b e l1 l2 (entry_set_shared e shared) Hl Hb1 Hi) as (? & ? & Hfr);
    [done..|]. split; [done|].
  destruct (decide (cstr b' = cstr b)) as [Ec|Ec].
  - right. exists e. by rewrite !(entry_of_cstr _ _ _ Ec).
  - left. rewrite (Hfr b' Ec). by rewrite <- El.
Qed.
Lemma fine_shared t l l' e shared :
  entry_of (thread_busid t) l = Some e -> entry_of (thread_busid t) l' = Some (entry_set_shared e shared) ->
  thread_fine t l -> thread_fine t l'.
Proof.
  intros He He'. destruct t as [t|b c ph]; cbn [thread_fine thread_busid] in *.
  - intros Hf Ho. specialize (Hf Ho). unfold thread_ok in *. rewrite He in Hf. rewrite He'.
    destruct (at_phase t) as [|p|p|p| |err p|err p|err].
    all: try (destruct Hf as (e1 & [= <-] & Hf); by exists (entry_set_shared e shared)).
    + intros e1 [= <-]. exact (Hf e eq_refl).
    + destruct Hf as (Hne & e1 & [= <-] & Hf). split; [done|]. by exists (entry_set_shared e shared).
    + destruct Hf as (Hne & e1 & [= <-] & Hf). split; [done|]. by exists (entry_set_shared e shared).
    + destruct Hf as [Hs Hf]. split.
      * intros Heq. destruct (Hs Heq) as (e1 & [= <-] & Ha). by exists (entry_set_shared e shared).
      * intros Hne e1 [= <-]. exact (Hf Hne e eq_refl).
  - assert (forall open, leaving b c l open -> leaving b c l' open) as Hleave.
    { intros open (e1 & He1 & Hf). rewrite He in He1. injection He1 as <-. by exists (entry_set_shared e shared). }
    destruct ph; [|intros [? ?]; split; auto|intros [? ?]; split; auto|apply Hleave|done].
    intros (e1 & He1 & Hf). rewrite He in He1. injection He1 as <-. by exists (entry_set_shared e shared).
Qed.

Lemma share_inv ts l b shared :
  handover_inv ts l -> handover_inv ts (default l (device_list_set_shared (Some l) (Some b) shared).2).
Proof.
  intros [Hl Hna Hf Hn Hi]. split; [|done| |done|].
  - exact (proj1 (share_entry l b shared b Hl)).
  - eapply Forall_impl; [exact Hf|]. intros t Ht.
    destruct (share_entry l b shared (thread_busid t) Hl) as [_ [E|(e & E & E')]];
      [by apply (fine_frame t l)|exact (fine_shared t l _ e shared E E' Ht)].
  - intros b' e' He' Hno. destruct (share_entry l b shared b' Hl) as [_ [E|(e & E & E')]].
    + rewrite E in He'. by eapply Hi.
    + rewrite E' in He'. injection He' as <-. exact (Hi b' e E Hno).
Qed.

Lemma handover_step_inv (s s' : handover_state) :
  handover_step s s' -> handover_inv s.1.1 s.1.2 -> handover_inv s'.1.1 s'.1.2.
Proof.
  destruct 1 as [ts1 t ts2 l u t' l' u' Hg E|ts1 t ts2 l u Ha|ts1 b c ph ts2 l u c' ph' l' u' E
    |ts l u env c b Hb|ts l u b shared|ts l u u']; cbn [fst snd]; intros Hinv.
  - by eapply attach_step_inv.
  - by apply leave_inv.
  - by eapply detach_step_inv.
  - by apply arrive_inv.
  - by apply share_inv.
  - done.
Qed.

Lemma handover_steps_inv (s s' : handover_state) :
  rtc handover_step s s' -> handover_inv s.1.1 s.1.2 -> handover_inv s'.1.1 s'.1.2.
Proof. induction 1 as [|s s1 s' Hs _ IH]; [done|]. intros Hi. by eapply IH, handover_step_inv. Qed.

(** ** Property *)

(** C32: devices are handed over safely.  Clients arrive, attach, detach and leave in any
    interleaving of the steps of their threads, transfers and changes of what is shared
    included, where only two calls of [client_attach_device] for one device do not overlap:
    the device list stays well formed; an attached client has its device, open and exported
    to it, and no other client that is attached or leaving has the same; who is gone has
    nothing left; and a device that is nobody's is closed and not exported. *)
Theorem handovers_safe l0 (u0 : U) ts l u :
  dl_inv l0 -> Forall idle (dl_entries l0) -> rtc handover_step ([], l0, u0) (ts, l, u) ->
  dl_inv l /\
  (forall t, t ∈ ts -> attached t = true -> exists e, e ∈ dl_entries l /\ attached_to (thread_client t) e) /\
  (forall i j t1 t2, ts !! i = Some t1 -> ts !! j = Some t2 -> owns_device t1 = true -> owns_device t2 = true ->
     cstr (thread_busid t1) = cstr (thread_busid t2) -> i = j) /\
  (forall b c, T_detach b c DP_done ∈ ts ->
     cl_device c = NULL /\ cl_urb_handler c = NULL /\ cl_attached_busid c = [] /\ cl_state c = CLIENT_STATE_CONNECTED) /\
  (forall e, e ∈ dl_entries l ->
     (forall t, t ∈ ts -> owns_device t = true -> cstr (thread_busid t) <> busid_of e) -> idle e).
Proof.
  intros Hl0 Hi0 Hs. apply handover_steps_inv in Hs as [Hl Hna Hf Hn Hi].
  2: { split; simpl; try done; [constructor..|]. intros b e He _. apply (entry_of_in _ _ _ Hl0) in He as [Hin _].
       rewrite Forall_forall in Hi0. by apply Hi0. }
  cbn [fst snd] in *. rewrite Forall_forall in Hf. split_and!; [done| | | |].
  - intros t Hin Ha. pose proof (Hf t Hin) as Ht. destruct t as [t|]; [|done]. cbn [thread_fine owns_device] in Ht.
    rewrite Ha, orb_true_r in Ht. specialize (Ht eq_refl). unfold thread_ok in Ht. cbn [attached] in Ha.
    destruct (at_phase t); try done. apply error_code_eqb_true in Ha as ->.
    destruct (proj1 Ht eq_refl) as (e & He & Hat). exists e. by apply (entry_of_in _ _ _ Hl) in He as [? _].
  - intros i j t1 t2. by apply owned_once.
  - intros b c Hin. exact (Hf _ Hin).
  - intros e He Hno. apply (Hi (busid_of e)).
    + apply find_entry; [done..|]. pose proof (inv_entries _ Hl) as Hok. rewrite Forall_forall in Hok.
      destruct (Hok e He) as (((_ & _ & _) & (Hnn & _) & _) & _). by rewrite (cstr_id (busid_of e)).
    + intros (t & Hin & Ho & Ec)%elem_of_owned. apply (Hno t Hin Ho). rewrite Ec.
      pose proof (inv_entries _ Hl) as Hok. rewrite Forall_forall in Hok.
      destruct (Hok e He) as (((_ & _ & _) & (Hnn & _) & _) & _). by rewrite (cstr_id (busid_of e)).
Qed.
End kept.

(** ** Witness *)

(** A schedule: the thread at a position goes on or leaves, or a client arrives. *)
Inductive turn :=
  | Go (i : nat)
  | Leave (i : nat)
  | Arrive (env : attach_env) (c : client_connection) (b : bytes).

Section schedule.
  Context {U : Type} `{WinUsb U}.

(** Whether a call may begin beside the others. *)
Definition may_begin (t : attach_thread) (others : list thread) : bool :=
  match at_phase t with
  | AP_find => forallb (fun x => negb (in_call x) || negb (bool_decide (cstr (thread_busid x) = cstr (at_busid t)))) others
  | _ => true
  end.

(** A turn that is not possible is left out. *)
Definition take_turn (tn : turn) (s : handover_state (U := U)) : handover_state :=
  let '(ts, l, u) := s in
  match tn with
  | Go i =>
      match ts !! i with
      | Some (T_attach t) =>
          if may_begin t (take i ts ++ drop (S i) ts) then
            let '((t', l'), u') := attach_next t l u in (take i ts ++ T_attach t' :: drop (S i) ts, l', u')
          else s
      | Some (T_detach b c ph) =>
          let '((c', ph', l'), u') := detach_next c ph l u in
          (take i ts ++ T_detach b c' ph' :: drop (S i) ts, l', u')
      | None => s
      end
  | Leave i =>
      match ts !! i with
      | Some (T_attach t) =>
          if attached (T_attach t)
          then (take i ts ++ T_detach (at_busid t) (at_client t) DP_stop :: drop (S i) ts, l, u) else s
      | _ => s
      end
  | Arrive env c b => if char_at b 0 =? 0 then s else (T_attach (attach_call env c b) :: ts, l, u)
  end.

Definition handover_exec (turns : list turn) (s : handover_state (U := U)) : handover_state :=
  fold_left (fun s tn => take_turn tn s) turns s.

Lemma take_turn_step tn s : rtc handover_step s (take_turn tn s).
Proof.
  destruct s as [[ts l] u], tn as [i|i|env c b]; cbn [take_turn].
  - destruct (ts !! i) as [[t|b c ph]|] eqn:Ei; [| |done].
    + destruct (may_begin t _) eqn:Eb; [|done]. destruct (attach_next t l u) as [[t' l'] u'] eqn:E.
      rewrite <- (take_drop_middle ts i _ Ei) at 1. apply rtc_once, hs_attach; [|done].
      intros Ep. unfold may_begin in Eb. rewrite Ep in Eb. apply Forall_forall. intros x Hx Hc Heq.
      rewrite forallb_forall in Eb. apply list_elem_of_In in Hx. specialize (Eb x Hx).
      rewrite Hc, bool_decide_eq_true_2 in Eb by done. done.
    + destruct (detach_next c ph l u) as [[[c' ph'] l'] u'] eqn:E.
      rewrite <- (take_drop_middle ts i _ Ei) at 1. by apply rtc_once, hs_detach.
  - destruct (ts !! i) as [[t|b c ph]|] eqn:Ei; [|done..]. destruct (attached (T_attach t)) eqn:Ea; [|done].
    rewrite <- (take_drop_middle ts i _ Ei) at 1. by apply rtc_once, hs_leave.
  - destruct (Z.eqb_spec (char_at b 0) 0); [done|]. by apply rtc_once, hs_arrive.
Qed.

Lemma handover_exec_steps turns s : rtc handover_step s (handover_exec turns s).
Proof.
  revert s. induction turns as [|tn turns IH]; intros s; [done|].
  etrans; [apply take_turn_step|]. apply IH.
Qed.
End schedule.

(** The first client attaches the device and leaves; the second asks for it while the
    first is leaving, the third when it is gone. *)
Definition example_turns : list turn :=
  Arrive example_env (example_client 8192 1) example_busid :: replicate 5 (Go 0) ++
  [Leave 0; Go 0; Arrive example_env (example_client 12288 2) example_busid; Go 1; Go 0; Go 1; Go 1;
   Arrive example_env (example_client 16384 3) example_busid] ++ replicate 5 (Go 0).

Definition example_handover : handover_state (U := SimUsb.usb) :=
  handover_exec example_turns ([], example_list, SimUsb.start []).

Lemma handovers_safe_witness :
  map (fun t => (cl_id (thread_client t), attached t)) example_handover.1.1 = [(3, true); (2, false); (1, false)] /\
  exists e, e ∈ dl_entries example_handover.1.2 /\ de_client_id e = 3 /\ dev_is_open (de_device e) = true.
Proof.
  split; [by vm_compute|].
  destruct (handovers_safe example_list (SimUsb.start []) example_handover.1.1 example_handover.1.2
    example_handover.2) as (_ & Ha & _).
  - apply example_list_inv.
  - repeat constructor; by vm_compute.
  - rewrite <- !surjective_pairing. apply handover_exec_steps.
  - destruct example_handover as [[ts l] u] eqn:Es. cbn [fst snd] in *.
    assert (map (fun t => (cl_id (thread_client t), attached t)) ts = [(3, true); (2, false); (1, false)]) as Em.
    { apply (f_equal (fun s => map (fun t => (cl_id (thread_client t), attached t)) s.1.1)) in Es.
      cbn [fst] in Es. rewrite <- Es. by vm_compute. }
    clear Es. destruct ts as [|t ts]; [done|]. cbn [map] in Em. injection Em as Eid Eat _.
    destruct (Ha t) as (e & He & _ & _ & _ & _ & _ & Ec & Eo); [by left|exact Eat|].
    exists e. split; [exact He|]. split; [by rewrite Ec|exact Eo].
Defined.
