(* ===== verification/Server.v ===== *)
(** * The server ([server/main.c])

    The command line, the session a client has with the server, the main loop
    that accepts, authenticates and serves clients one after the other, and the
    initialization and cleanup around it.

    What the rest of the world does during an iteration of the session's loop is
    an [iter_env]: whether the server is still running, what the allocator
    answers, and how far the client's worker thread gets.  The worker touches the
    device and the queues only, and the session only the socket and the queues, so
    what an interleaving of the two can show is how far the worker is when the
    session looks at the queues: before a command is handled ([it_waiting]), and
    between a submission and the polling of the completed URBs ([it_worker]). *)

From Stdlib Require Import String.
From S2P Require Import Prelude CTypes Format Errors Log Protocol Net ProtocolIO Auth UsbHost DeviceList.
From S2P Require Import UrbQueue UrbHandler ClientManager.

(** ** Command line *)


Record config := {
  cf_port : Z;
  cf_bind_address : bytes;
  cf_device_filter : bytes;
  cf_auth_token : ptr bytes;
  cf_verbose : bool;
  cf_list_only : bool;
}.

Definition config_default : config := {|
  cf_port := USBIP_PORT; cf_bind_address := str "0.0.0.0"; cf_device_filter := [];
  cf_auth_token := NULL; cf_verbose := false; cf_list_only := false |}.

(** One argument that takes no value; [None] when it is not one. *)
Definition parse_flag (g : config) (a : bytes) : option config :=
  if arg_is a "-l" "--list" then
    Some {| cf_port := cf_port g; cf_bind_address := cf_bind_address g;
            cf_device_filter := cf_device_filter g; cf_auth_token := cf_auth_token g;
            cf_verbose := cf_verbose g; cf_list_only := true |}
  else if arg_is a "-v" "--verbose" then
    Some {| cf_port := cf_port g; cf_bind_address := cf_bind_address g;
            cf_device_filter := cf_device_filter g; cf_auth_token := cf_auth_token g;
            cf_verbose := true; cf_list_only := cf_list_only g |}
  else None.

(** One argument with its value. *)
Definition parse_value (g : config) (a v : bytes) : option config :=
  if arg_is a "-p" "--port" then
    Some {| cf_port := wrap 16 (atoi v); cf_bind_address := cf_bind_address g;
            cf_device_filter := cf_device_filter g; cf_auth_token := cf_auth_token g;
            cf_verbose := cf_verbose g; cf_list_only := cf_list_only g |}
  else if arg_is a "-b" "--bind" then
    Some {| cf_port := cf_port g; cf_bind_address := copy_str v 64;
            cf_device_filter := cf_device_filter g; cf_auth_token := cf_auth_token g;
            cf_verbose := cf_verbose g; cf_list_only := cf_list_only g |}
  else if arg_is a "-d" "--device" then
    Some {| cf_port := cf_port g; cf_bind_address := cf_bind_address g;
            cf_device_filter := copy_str v USBIP_BUSID_MAX; cf_auth_token := cf_auth_token g;
            cf_verbose := cf_verbose g; cf_list_only := cf_list_only g |}
  else if arg_is a "-k" "--auth-token" then
    Some {| cf_port := cf_port g; cf_bind_address := cf_bind_address g;
            cf_device_filter := cf_device_filter g; cf_auth_token := Some v;
            cf_verbose := cf_verbose g; cf_list_only := cf_list_only g |}
  else None.

(** The arguments after the program's name; the result is that of the function
    with the configuration it leaves in [g_server]. *)
Fixpoint parse_args (g : config) (args : list bytes) : Z * config :=
  match args with
  | [] => (0, g)
  | a :: rest =>
      if arg_is a "-h" "--help" then (-1, g) else
      match parse_flag g a with
      | Some g => parse_args g rest
      | None =>
          match rest with
          | v :: rest =>
              match parse_value g a v with
              | Some g => parse_args g rest
              | None => (-1, g)
              end
          | [] => (-1, g)
          end
      end
  end.

(** ** The session *)

Record iter_env := {
  it_running : bool;             (* [g_server.running] *)
  it_attach : attach_env;
  it_malloc : bool;              (* the buffer for OUT data *)
  it_calloc : bool;              (* the URB entry *)
  it_memory : ptr bytes;         (* the URB's buffer *)
  it_now : Z;
  it_waiting : nat;              (* iterations of the worker's loop while the session
                                    waits for a command *)
  it_worker : nat;               (* and between a submission and the answers *)
}.

Section server.
  Context {N U : Type} `{Winsock N} `{WinUsb U}.

(** The worker thread of a client runs for [k] iterations. *)
Definition run_worker (k : nat) (l : device_list) (c : client_connection) : M U client_connection :=
  match synced l c with
  | NULL => mret c
  | Some h => '(h, w) ← worker_join k h (cl_worker c); mret (cl_set_handler c (Some h) w)
  end.

(** The loop that answers the completed URBs. *)
Fixpoint completions_loop (fuel : nat) (c : client_connection) : M N client_connection :=
  match fuel with
  | O => mret c
  | S fuel =>
      match urb_handler_get_completed (cl_urb_handler c) with
      | (NULL, _) => mret c
      | (Some e, h) =>
          let c := cl_set_handler c h (cl_worker c) in
          '(err, r) ← client_send_urb_completion (Some c) (Some e);
          if negb (error_code_eqb err ERR_SUCCESS) then mret (default c r)
          else completions_loop fuel (default c r)
      end
  end.

Definition completed_count (c : client_connection) : nat :=
  match cl_urb_handler c with Some h => length (f_entries (uh_completed h)) | NULL => 0 end.

(** The data that follows a submit command: what [data] and [data_len] are, or
    [None] when the loop is left. *)
Definition session_data (o : iter_env) (c : client_connection) (h : usbip_header) :
    M N (option (ptr bytes * Z * client_connection)) :=
  let len := cs_transfer_buffer_length (h_u h) in
  if (hc_direction (h_common h) =? USBIP_DIR_OUT) && (len >? 0) then
    if negb (it_malloc o) then mret None else
    r ← usbip_recv_urb_data (cl_socket c) len;
    match r with
    | inl _ => mret None
    | inr data =>
        mret (Some (Some data, len,
          cl_set_stats c (cl_bytes_sent c) (wrap 64 (cl_bytes_received c + len)) (cl_urbs_processed c)))
    end
  else mret (Some (NULL, 0, c)).

Definition session_submit (o : iter_env) (m : client_manager) (c : client_connection)
    (h : usbip_header) : M (N * U) (bool * client_manager) :=
  r ← lift_l (session_data o c h);
  match r with
  | None => mret (false, m)
  | Some (data, data_len, c) =>
      let '(_, r) := client_forward_urb (it_calloc o) (it_memory o) (it_now o) (Some c) (Some h)
                       data data_len in
      let c := default c r in
      c ← lift_r (run_worker (it_worker o) (cm_device_list m) c);
      c ← lift_l (completions_loop (S (completed_count c)) c);
      mret (true, store_client m c)
  end.

Definition session_unlink (m : client_manager) (c : client_connection) (h : usbip_header) :
    M (N * U) (bool * client_manager) :=
  let '(_, handler) := urb_handler_unlink (cl_urb_handler c) (cu_seqnum_to_unlink (h_u h)) in
  let c := cl_set_handler c handler (cl_worker c) in
  _ ← lift_l (usbip_send_urb_header (cl_socket c)
       (usbip_create_urb_unlink_ret (hc_seqnum (h_common h)) (hc_devid (h_common h)) 0));
  mret (true, store_client m c).

(** One iteration of the loop of [handle_client_session], on the client at
    address [loc]; whether the loop goes on. *)
Definition session_step (o : iter_env) (m : client_manager) (loc : Z) :
    M (N * U) (bool * client_manager) :=
  match find_first (client_at loc) (cm_clients m) with
  | NULL => mret (false, m)
  | Some c =>
      if negb (it_running o) then mret (false, m) else
      match cl_state c with
      | CLIENT_STATE_DISCONNECTED => mret (false, m)
      | CLIENT_STATE_CONNECTED =>
          '(err, m', c') ← client_handle_request (it_attach o) (Some m) (Some c);
          mret (error_code_eqb err ERR_SUCCESS, store_client (default m m') (default c c'))
      | CLIENT_STATE_ATTACHED =>
          r ← lift_l (usbip_recv_urb_header (cl_socket c));
          c ← lift_r (run_worker (it_waiting o) (cm_device_list m) c);
          let m := store_client m c in
          match r with
          | inl _ => mret (false, m)
          | inr h =>
              if hc_command (h_common h) =? USBIP_CMD_SUBMIT then session_submit o m c h
              else if hc_command (h_common h) =? USBIP_CMD_UNLINK then session_unlink m c h
              else mret (true, m)
          end
      | CLIENT_STATE_DISCONNECTING => mret (true, m)
      end
  end.

(** The loop, one iteration per element of [os]; whether it has ended. *)
Fixpoint handle_client_session (os : list iter_env) (m : client_manager) (loc : Z) :
    M (N * U) (bool * client_manager) :=
  match os with
  | [] => mret (false, m)
  | o :: os =>
      '(go, m) ← session_step o m loc;
      if negb go then mret (true, m) else handle_client_session os m loc
  end.

(** ** The main loop *)

(** One iteration of [server_main_loop]. [alloc]: what [calloc] returns for the
    client. *)
Definition serve_one (server_socket : Z) (token : ptr bytes) (alloc : ptr Z) (now : Z)
    (os : list iter_env) (m : client_manager) : M (N * U) client_manager :=
  '(fd, peer) ← lift_l (tcp_server_accept_timeout server_socket 64 1000);
  if negb (socket_is_valid fd) then mret m else
  let '(ip, port) := default ([], 0) peer in
  auth_err ← (if auth_is_enabled token then lift_l (auth_server_handshake fd token)
              else mret ERR_SUCCESS);
  if negb (error_code_eqb auth_err ERR_SUCCESS) then lift_l (socket_close fd) ;; mret m else
  let '(err, r, client) := client_manager_add alloc now (Some m) fd (Some ip) port in
  let m := default m r in
  match client with
  | NULL => lift_l (socket_close fd) ;; mret m
  | Some c =>
      '(_, m) ← handle_client_session os m (cl_loc c);
      m ← match find_first (client_at (cl_loc c)) (cm_clients m) with
          | Some c =>
              '(_, r1, r2) ← lift_r (client_detach_device (Some m) (Some c));
              mret (store_client (default m r1) (default c r2))
          | NULL => mret m
          end;
      '(_, r) ← client_manager_remove (Some m) (Some (cl_loc c));
      mret (default m r)
  end.

(** What one iteration of the main loop meets. *)
Record accept_env := {
  ac_alloc : ptr Z;
  ac_now : Z;
  ac_session : list iter_env;
}.

(** The main loop, one iteration per element until [running] is cleared. *)
Fixpoint server_main_loop (server_socket : Z) (token : ptr bytes) (its : list accept_env)
    (m : client_manager) : M (N * U) client_manager :=
  match its with
  | [] => mret m
  | i :: its =>
      m ← serve_one server_socket token (ac_alloc i) (ac_now i) (ac_session i) m;
      server_main_loop server_socket token its m
  end.

(** ** Initialization and cleanup *)

Record server_state := {
  ss_network : bool;             (* [g_network.initialized] *)
  ss_usb : bool;                 (* [g_usb_host.initialized] *)
  ss_manager : client_manager;   (* with the device list *)
  ss_socket : Z;
  ss_running : bool;
  ss_auth_token : bytes;
}.

Record init_env := {
  in_log : log_env;
  in_wsa : Z;                    (* the result of [WSAStartup] *)
  in_list_mutex : Z;
  in_manager_mutex : Z;
  in_devices : ptr (list di_entry);
  in_utf8 : list Z -> nat -> option bytes;
  in_allocs : list (ptr Z);
  in_now : Z;
  in_token : ptr bytes;          (* [getenv("USBIP_AUTH_TOKEN")] *)
}.

Definition usb_host_init (initialized : bool) : error_code * bool := (ERR_SUCCESS, true).

Definition usb_host_cleanup (initialized : bool) : bool := false.

Definition list_zero : device_list :=
  {| dl_entries := []; dl_count := 0; dl_lock := 0; dl_initialized := false |}.

Definition manager_zero : client_manager := {|
  cm_clients := []; cm_client_count := 0; cm_next_client_id := 0; cm_device_list := list_zero;
  cm_initialized := false |}.

(** [g_server] before [server_init]. *)
Definition server_zero : server_state := {|
  ss_network := false; ss_usb := false; ss_manager := manager_zero; ss_socket := INVALID_SOCKET_VAL;
  ss_running := false; ss_auth_token := [] |}.

Definition ss_set (net usb : bool) (m : client_manager) : server_state := {|
  ss_network := net; ss_usb := usb; ss_manager := m; ss_socket := INVALID_SOCKET_VAL;
  ss_running := false; ss_auth_token := [] |}.

(** The devices to share, after the first enumeration. *)
Definition apply_filter (g : config) (l : device_list) : device_list :=
  if negb (char_at (cf_device_filter g) 0 =? 0) then
    let l := default l (device_list_unshare_all (Some l)) in
    default l (device_list_set_shared (Some l) (Some (cf_device_filter g)) true).2
  else l.

Definition server_log_config (verbose : bool) : log_config := {|
  lc_level := if verbose then LOG_LEVEL_DEBUG else LOG_LEVEL_INFO; lc_targets := LOG_TARGET_CONSOLE;
  lc_show_timestamp := true; lc_show_level := true; lc_show_location := verbose;
  lc_use_colors := true; lc_log_file := [] |}.

Definition server_init (env : init_env) (g : config) : M (N * U) (error_code * server_state) :=
  let err := start_log (in_log env) (server_log_config (cf_verbose g)) in
  if negb (error_code_eqb err ERR_SUCCESS) then mret (err, server_zero) else
  let '(err, net) := network_init false (in_wsa env) in
  if negb (error_code_eqb err ERR_SUCCESS) then mret (err, ss_set net false manager_zero) else
  let '(err, usb) := usb_host_init false in
  if negb (error_code_eqb err ERR_SUCCESS)
  then mret (err, ss_set (network_cleanup net) usb manager_zero) else
  let '(err, l) := device_list_init (in_list_mutex env) (Some list_zero) in
  if negb (error_code_eqb err ERR_SUCCESS)
  then mret (err, ss_set (network_cleanup net) (usb_host_cleanup usb) manager_zero) else
  '(_, l) ← lift_r (device_list_refresh (in_utf8 env) usb (in_devices env) (in_allocs env)
              (in_now env) l);
  let l := apply_filter g (default list_zero l) in
  let '(err, m) := client_manager_init (in_manager_mutex env) (Some manager_zero) l in
  let m := default manager_zero m in
  if negb (error_code_eqb err ERR_SUCCESS) then
    l ← lift_r (device_list_cleanup (Some l));
    mret (err, ss_set (network_cleanup net) (usb_host_cleanup usb) (cm_set_list m (default list_zero l)))
  else
    fd ← lift_l (tcp_server_create (Some (cf_bind_address g)) (cf_port g));
    if negb (socket_is_valid fd) then
      r ← client_manager_cleanup (Some m);
      let m := default m r in
      l ← lift_r (device_list_cleanup (Some (cm_device_list m)));
      mret (ERR_SOCKET_CREATE,
        ss_set (network_cleanup net) (usb_host_cleanup usb) (cm_set_list m (default list_zero l)))
    else
      mret (ERR_SUCCESS, {|
        ss_network := net; ss_usb := usb; ss_manager := m; ss_socket := fd; ss_running := true;
        ss_auth_token := auth_get_token (in_token env) (cf_auth_token g) |}).

Definition server_cleanup (s : server_state) : M (N * U) server_state :=
  r ← client_manager_disconnect_all (Some (ss_manager s));
  let m := default (ss_manager s) r in
  (if socket_is_valid (ss_socket s) then lift_l (socket_close (ss_socket s)) else mret tt) ;;
  r ← client_manager_cleanup (Some m);
  let m := default m r in
  l ← lift_r (device_list_cleanup (Some (cm_device_list m)));
  mret {| ss_network := network_cleanup (ss_network s); ss_usb := usb_host_cleanup (ss_usb s);
          ss_manager := cm_set_list m (default list_zero l); ss_socket := INVALID_SOCKET_VAL;
          ss_running := false; ss_auth_token := ss_auth_token s |}.
End server.

(** ** Lemmas *)

Lemma update_first_twice {A} (f : A -> bool) (x y : A) l :
  f x = true -> update_first f (fun _ => y) (update_first f (fun _ => x) l) = update_first f (fun _ => y) l.
Proof.
  intros Hx. induction l as [|a l IH]; simpl; [done|].
  destruct (f a) eqn:E; simpl; [by rewrite Hx|]. rewrite E. by f_equal.
Qed.

Lemma store_store m c1 c2 : cl_loc c1 = cl_loc c2 -> store_client (store_client m c1) c2 = store_client m c2.
Proof.
  intros E. unfold store_client, cm_set_clients. simpl. f_equal. rewrite E.
  apply update_first_twice. unfold client_at. by apply Z.eqb_eq.
Qed.

Lemma store_same m loc c : cm_inv m -> find_first (client_at loc) (cm_clients m) = Some c -> store_client m c = m.
Proof.
  intros Hm (cs1 & cs2 & Ecs & _ & _)%find_first_split. unfold store_client.
  rewrite (store_split m cs1 c cs2 c) by (done || apply Hm). rewrite <- Ecs. by destruct m.
Qed.

Lemma store_locs m c : map cl_loc (cm_clients (store_client m c)) = map cl_loc (cm_clients m).
Proof.
  simpl. induction (cm_clients m) as [|x cs IH]; simpl; [done|].
  destruct (client_at (cl_loc c) x) eqn:E; simpl; [|by rewrite IH]. unfold client_at in E. bool_to_prop.
  by rewrite E.
Qed.

(** The client with this address after it was stored. *)
Lemma find_stored m loc c c' :
  find_first (client_at loc) (cm_clients m) = Some c -> cl_loc c' = cl_loc c ->
  find_first (client_at loc) (cm_clients (store_client m c')) = Some c'.
Proof.
  intros Hf El. pose proof (find_first_Some _ _ _ Hf) as [_ Hat].
  unfold client_at in Hat. apply Z.eqb_eq in Hat. simpl.
  assert (client_at (cl_loc c') = client_at loc) as ->.
  { unfold client_at. by rewrite El, Hat. }
  apply find_first_split in Hf as (cs1 & cs2 & -> & H1 & H2). rewrite update_first_split by done.
  rewrite find_first_app, (proj2 (find_first_None _ _) H1). simpl.
  unfold client_at. rewrite El, Hat, Z.eqb_refl. done.
Qed.

(** Two clients that differ in their handler and statistics only. *)
Definition same_client (c c' : client_connection) : Prop :=
  is_Some (cl_urb_handler c) /\ exists h w a b d, c' = cl_set_stats (cl_set_handler c (Some h) w) a b d.

Lemma same_client_refl c : is_Some (cl_urb_handler c) -> same_client c c.
Proof.
  intros [h Hh]. split; [by eexists|]. exists h, (cl_worker c), (cl_bytes_sent c), (cl_bytes_received c),
    (cl_urbs_processed c). destruct c. simpl in *. by rewrite Hh.
Qed.

Lemma same_client_trans c1 c2 c3 : same_client c1 c2 -> same_client c2 c3 -> same_client c1 c3.
Proof.
  intros [H1 (h & w & a & b & d & ->)] [_ (h' & w' & a' & b' & d' & ->)]. split; [done|].
  by exists h', w', a', b', d'.
Qed.

Lemma same_client_stats c a b d : is_Some (cl_urb_handler c) -> same_client c (cl_set_stats c a b d).
Proof.
  intros [h Hh]. split; [by eexists|]. exists h, (cl_worker c), a, b, d. destruct c. simpl in *. by rewrite Hh.
Qed.

Lemma same_client_handler c h w : is_Some (cl_urb_handler c) -> is_Some h -> same_client c (cl_set_handler c h w).
Proof.
  intros Hc [h' ->]. split; [done|].
  exists h', w, (cl_bytes_sent c), (cl_bytes_received c), (cl_urbs_processed c). by destruct c.
Qed.

Lemma same_client_has c c' : same_client c c' -> is_Some (cl_urb_handler c').
Proof. intros [_ (h & w & a & b & d & ->)]. by eexists. Qed.

Lemma same_client_loc c c' : same_client c c' -> cl_loc c' = cl_loc c /\ cl_socket c' = cl_socket c.
Proof. by intros [_ (h & w & a & b & d & ->)]. Qed.

Section session.
  Context {N U : Type} `{WinsockLaws N} `{WinUsbLaws U}.
  Implicit Types (n : N) (u : U).

(** *** Sending leaves the incoming streams and the descriptors alone *)

Definition keeps_rx n n' : Prop := (forall fd, ws_rx n' fd = ws_rx n fd) /\ ws_open n' = ws_open n.

#[export] Instance keeps_rx_preorder : PreOrder keeps_rx.
Proof.
  split; [done|]. intros n1 n2 n3 [E1 O1] [E2 O2]. split; [intros fd; by rewrite E2, E1|congruence].
Qed.

Lemma send_loop_rx fuel fd buf rem len n r n' :
  net_send_all_loop fuel fd buf rem len n = (r, n') -> keeps_rx n n'.
Proof.
  revert buf rem n. induction fuel as [|fuel IH]; intros buf rem n E; cbn [net_send_all_loop] in E;
    [by mret_eq|].
  destruct (rem =? 0); [by mret_eq|]. apply M_bind_inv in E as (x & n1 & E1 & E).
  apply ws_send_frame in E1 as (_ & F & _ & O). assert (keeps_rx n n1) by done.
  etrans; [done|]. destruct x as [k|e].
  - destruct (k =? 0); [by mret_eq|]. by eapply IH.
  - destruct (e =? WSAEWOULDBLOCK); [by eapply IH|by mret_eq].
Qed.

Lemma send_all_rx fd buf len n r n' : net_send_all fd buf len n = (r, n') -> keeps_rx n n'.
Proof.
  unfold net_send_all, run_loop. destruct (net_send_all_loop _ _ _ _ _ _) as [x n1] eqn:E.
  intros. simplify_eq. by eapply send_loop_rx.
Qed.

Lemma send_bytes_rx fd bs n r n' : send_bytes fd bs n = (r, n') -> keeps_rx n n'.
Proof.
  intros E. unfold send_bytes in E. apply M_bind_inv in E as (k & n1 & E1 & E).
  apply send_all_rx in E1. by mret_eq.
Qed.

Lemma send_object_rx {A} `{CStruct A} fd (a : A) n r n' : send_object fd a n = (r, n') -> keeps_rx n n'.
Proof.
  intros E. unfold send_object in E. apply M_bind_inv in E as (k & n1 & E1 & E).
  apply send_all_rx in E1. destruct (negb _) in E; by mret_eq.
Qed.

Lemma send_urb_data_rx fd bs len n r n' : usbip_send_urb_data fd bs len n = (r, n') -> keeps_rx n n'.
Proof.
  intros E. unfold usbip_send_urb_data in E. destruct (len =? 0); [by mret_eq|].
  apply M_bind_inv in E as (k & n1 & E1 & E).
  apply send_all_rx in E1. destruct (negb _) in E; by mret_eq.
Qed.

Lemma send_interfaces_rx fd ifs n r n' : send_interfaces fd ifs n = (r, n') -> keeps_rx n n'.
Proof.
  revert n. induction ifs as [|i ifs IH]; intros n E; cbn [send_interfaces] in E; [by mret_eq|].
  apply M_bind_inv in E as (k & n1 & E1 & E). apply (send_object_rx fd _ n) in E1.
  etrans; [done|]. destruct (negb _) in E; [by mret_eq|by apply IH].
Qed.

Lemma send_devices_rx es d n d' n' :
  foreach_loop de_is_shared es send_device_callback (d, n) = (d', n') -> keeps_rx n n'.
Proof.
  revert d n. induction es as [|e es IH]; intros d n E; cbn [foreach_loop] in E; [by simplify_eq|].
  destruct (de_is_shared e); [|by eapply IH].
  destruct (send_device_callback e (d, n)) as [b [d1 n1]] eqn:E1.
  assert (keeps_rx n n1) as F.
  { unfold send_device_callback in E1. destruct (usbip_send_device _ _ _) as [err n2] eqn:E2.
    apply (send_object_rx (sd_socket d) _ n) in E2. etrans; [done|].
    destruct (negb _) in E1; [by simplify_eq|].
    destruct (send_interfaces _ _ _) as [ok n3] eqn:E3. apply send_interfaces_rx in E3.
    etrans; [done|]. destruct (negb ok); by simplify_eq. }
  etrans; [done|]. destruct b; [by eapply IH|by simplify_eq].
Qed.

Lemma send_device_list_rx m c n e n' : client_send_device_list (Some m) (Some c) n = (e, n') -> keeps_rx n n'.
Proof.
  intros E. unfold client_send_device_list in E. cbv zeta in E.
  apply M_bind_inv in E as (ok1 & n1 & E1 & E). apply send_bytes_rx in E1. etrans; [done|].
  destruct ok1; cbn [negb] in E; [|by mret_eq].
  apply M_bind_inv in E as (ok2 & n2 & E2 & E). apply send_bytes_rx in E2. etrans; [done|].
  destruct ok2; cbn [negb] in E; [|by mret_eq].
  unfold device_list_foreach_shared in E. destruct (foreach_loop _ _ _ _) as [d n3] eqn:E3.
  apply send_devices_rx in E3. by simplify_eq.
Qed.

(** *** Answering completed URBs *)

Lemma send_completion_spec c e n err r n' :
  is_Some (cl_urb_handler c) ->
  client_send_urb_completion (Some c) (Some e) n = ((err, r), n') ->
  keeps_rx n n' /\ same_client c (default c r).
Proof.
  intros Hc E. unfold client_send_urb_completion in E.
  apply M_bind_inv in E as (e1 & n1 & E1 & E). apply (send_object_rx (cl_socket c) _ n) in E1.
  destruct (negb _) in E; [mret_eq; split; [done|by apply same_client_refl]|].
  destruct (_ && _); [|mret_eq; split; [done|by apply same_client_refl]].
  apply M_bind_inv in E as (e2 & n2 & E2 & E). apply send_urb_data_rx in E2.
  destruct (negb _) in E; mret_eq; (split; [by etrans|]);
    [by apply same_client_refl|by apply same_client_stats].
Qed.

Lemma submit_some ok memory now h hd data len e r :
  urb_handler_submit ok memory now (Some h) hd data len = (e, r) -> is_Some r.
Proof. unfold urb_handler_submit. intros E. repeat case_match; simplify_eq; by eexists. Qed.

Lemma unlink_some h k e r : urb_handler_unlink (Some h) k = (e, r) -> is_Some r.
Proof. unfold urb_handler_unlink. intros E. repeat case_match; simplify_eq; by eexists. Qed.

Lemma get_completed_some h e r : urb_handler_get_completed (Some h) = (e, r) -> is_Some r.
Proof.
  unfold urb_handler_get_completed. destruct (negb _); [intros; simplify_eq; by eexists|].
  destruct (fifo_pop _). intros. simplify_eq. by eexists.
Qed.

Lemma completions_spec fuel c n c' n' :
  is_Some (cl_urb_handler c) -> completions_loop fuel c n = (c', n') ->
  keeps_rx n n' /\ same_client c c'.
Proof.
  revert c n. induction fuel as [|fuel IH]; intros c n Hc E; cbn [completions_loop] in E.
  { mret_eq. split; [done|by apply same_client_refl]. }
  destruct (urb_handler_get_completed (cl_urb_handler c)) as [[e|] h] eqn:Eg;
    [|mret_eq; split; [done|by apply same_client_refl]].
  assert (is_Some h) as Hh by (destruct Hc as [h0 Hc]; rewrite Hc in Eg; by eapply get_completed_some).
  pose proof (same_client_handler c h (cl_worker c) Hc Hh) as S1.
  apply M_bind_inv in E as ([err r] & n1 & E1 & E).
  apply send_completion_spec in E1 as [F S2]; [|by eapply same_client_has].
  pose proof (same_client_trans _ _ _ S1 S2) as S3.
  destruct (negb _) in E; [by mret_eq|].
  apply IH in E as [F2 S4]; [|by eapply same_client_has]. split; [by etrans|by eapply same_client_trans].
Qed.

Lemma run_worker_spec k l c u c' u' :
  is_Some (cl_urb_handler c) -> run_worker k l c u = (c', u') -> same_client c c' /\ same_handles u u'.
Proof.
  intros Hc E. unfold run_worker in E. destruct (synced l c) as [h|].
  - apply M_bind_inv in E as ([h' w] & u1 & E1 & E). apply worker_join_handles in E1. mret_eq.
    split; [|done]. apply same_client_handler; [done|by eexists].
  - mret_eq. split; [by apply same_client_refl|done].
Qed.

(** *** Receiving *)

(** Every incoming stream is what is left of it, after bytes that were read, and
    the descriptors are the same. *)
Definition rx_shrinks n n' : Prop :=
  (forall fd, exists bs, ws_rx n fd = bs ++ ws_rx n' fd) /\ ws_open n' = ws_open n.

#[export] Instance rx_shrinks_preorder : PreOrder rx_shrinks.
Proof.
  split; [split; [intros fd; by exists []|done]|]. intros n1 n2 n3 [E1 O1] [E2 O2].
  split; [|congruence]. intros fd.
  destruct (E1 fd) as [b1 R1], (E2 fd) as [b2 R2]. exists (b1 ++ b2). by rewrite R1, R2, app_assoc.
Qed.

Lemma keeps_shrinks n n' : keeps_rx n n' -> rx_shrinks n n'.
Proof. intros [E O]. split; [|done]. intros fd. exists []. by rewrite E. Qed.

Lemma rx_only_shrinks fd n n' bs : rx_only fd n n' -> ws_rx n fd = bs ++ ws_rx n' fd -> rx_shrinks n n'.
Proof.
  intros (F & _ & O) E. split; [|done]. intros fd'. destruct (decide (fd' = fd)) as [->|]; [by exists bs|]. exists []. by rewrite F.
Qed.

Lemma recv_loop_shrinks fuel fd got rem len n r n' :
  net_recv_all_loop fuel fd got rem len n = (r, n') -> rx_shrinks n n'.
Proof.
  revert got rem n. induction fuel as [|fuel IH]; intros got rem n E; cbn [net_recv_all_loop] in E;
    [by mret_eq|].
  destruct (rem =? 0); [by mret_eq|]. apply M_bind_inv in E as (x & n1 & E1 & E).
  pose proof (rx_frame _ _ _ _ _ E1) as [F _].
  assert (rx_shrinks n n1) as S1.
  { destruct x as [bs|e]; [apply ws_recv_stream in E1; by eapply rx_only_shrinks|].
    apply ws_recv_err in E1 as [E1 _]. eapply (rx_only_shrinks fd _ _ []); [done|]. by rewrite E1. }
  etrans; [done|]. destruct x as [bs|e].
  - destruct (_ =? 0); [by mret_eq|by eapply IH].
  - destruct (e =? WSAEWOULDBLOCK); [by eapply IH|by mret_eq].
Qed.

Lemma recv_all_shrinks fd len n r n' : net_recv_all fd len n = (r, n') -> rx_shrinks n n'.
Proof.
  unfold net_recv_all, run_loop. destruct (net_recv_all_loop _ _ _ _ _ _) as [x n1] eqn:E.
  intros. simplify_eq. by eapply recv_loop_shrinks.
Qed.

Lemma recv_urb_data_shrinks fd len n r n' : usbip_recv_urb_data fd len n = (r, n') -> rx_shrinks n n'.
Proof.
  intros E. unfold usbip_recv_urb_data in E. destruct (len =? 0); [by mret_eq|].
  apply M_bind_inv in E as ([k bs] & n1 & E1 & E). apply recv_all_shrinks in E1.
  destruct (negb _) in E; by mret_eq.
Qed.

(** A message of [sz] bytes that was received is no longer on the stream. *)
Lemma received_shrinks {A} fd sz (dec : bytes -> A) r n n' :
  received_post fd sz dec r n n' ->
  rx_shrinks n n' /\
  (forall a, r = inr a -> length (ws_rx n fd) = (sz + length (ws_rx n' fd))%nat).
Proof.
  intros (F & bs & E & Hr). split; [by eapply rx_only_shrinks|]. intros a ->.
  destruct Hr as [Hl _]. by rewrite E, length_app, Hl.
Qed.

(** *** Attaching and detaching touch the device list and the client *)

Definition same_socket (c c' : client_connection) : Prop := cl_loc c' = cl_loc c /\ cl_socket c' = cl_socket c.

Lemma undo_same err l p c u r l' c' u' :
  attach_undo err l p c u = ((r, l', c'), u') -> same_socket c c'.
Proof. intros E. unfold attach_undo in E. apply M_bind_inv in E as (l1 & u1 & _ & E). by mret_eq. Qed.

Lemma attach_entry_same env l c b p u r l' c' u' :
  attach_entry env l c b p u = ((r, l', c'), u') -> same_socket c c'.
Proof.
  intros E. unfold attach_entry in E. apply M_bind_inv in E as ([e1 l1] & u1 & _ & E).
  destruct (negb (error_code_eqb e1 _)); [by mret_eq|]. destruct (claim_at l1 p) as [e2 l2].
  destruct (negb (error_code_eqb e2 _)).
  { apply M_bind_inv in E as (l3 & u2 & _ & E). by mret_eq. }
  destruct (negb (ae_calloc env)); [by eapply undo_same|].
  destruct (urb_handler_init _ _ _ _) as [e3 h].
  destruct (negb (error_code_eqb e3 _)); [by eapply undo_same|].
  destruct (urb_handler_start _ _ _) as [[e4 h'] w].
  destruct (negb (error_code_eqb e4 _)).
  { apply M_bind_inv in E as (l3 & u2 & _ & E). by eapply undo_same. }
  destruct (device_list_export _ _ _ _ _) as [e5 l5]. by mret_eq.
Qed.

Lemma set_list_same m : cm_set_list m (cm_device_list m) = m.
Proof. by destruct m. Qed.

Lemma attach_same env m c b u r r1 r2 u' :
  client_attach_device env (Some m) (Some c) (Some b) u = ((r, r1, r2), u') ->
  exists l c', r1 = Some (cm_set_list m l) /\ r2 = Some c' /\ same_socket c c'.
Proof.
  intros E. unfold client_attach_device in E.
  assert (exists l c', Some m = Some (cm_set_list m l) /\ Some c = Some c' /\ same_socket c c') as Hid.
  { exists (cm_device_list m), c. by rewrite set_list_same. }
  destruct (device_list_find _ _) as [e|]; [|by mret_eq].
  destruct (negb (de_is_shared e)); [by mret_eq|]. case_bool_decide; [by mret_eq|].
  apply M_bind_inv in E as ([[e1 l1] c1] & u1 & E1 & E). apply attach_entry_same in E1. mret_eq.
  by exists l1, c1.
Qed.

Lemma detach_same m c u :
  exists l c' u', same_socket c c' /\
    forall m0, cm_device_list m0 = cm_device_list m ->
      client_detach_device (Some m0) (Some c) u = ((ERR_SUCCESS, Some (cm_set_list m0 l), Some c'), u').
Proof.
  unfold client_detach_device. destruct (char_at (cl_attached_busid c) 0 =? 0) eqn:Eb.
  { exists (cm_device_list m), c, u. split; [done|]. intros m0 <-. by rewrite set_list_same. }
  destruct ((match cl_urb_handler c with
             | Some _ =>
                 '(h, w) ← urb_handler_stop (synced (cm_device_list m) c) (cl_worker c);
                 '(_, _) ← urb_handler_cleanup h w; mret (NULL, W_none)
             | NULL => mret (NULL, cl_worker c)
             end : M U (ptr urb_handler * worker)) u) as [[h w] u1] eqn:E1.
  destruct ((match cl_device c with
             | Some p => close_at (release_at (cm_device_list m) p) p
             | NULL => mret (cm_device_list m)
             end) u1) as [l u2] eqn:E2.
  destruct (device_list_unexport (Some l) (Some (cl_attached_busid c))) as [e3 l3] eqn:E3.
  exists (default l l3), (cl_set_attachment c [] NULL h w CLIENT_STATE_CONNECTED), u2.
  split; [done|]. intros m0 ->. rewrite (M_bind_run _ _ _ _ _ E1). cbv beta iota.
  rewrite (M_bind_run _ _ _ _ _ E2). by rewrite E3.
Qed.

(** *** Steps of a session *)

(** What a session's code does to the manager and the world, as seen from the
    client at [loc]: steps of the manager, with the client still there. *)
Definition session_moves (loc : Z) (x y : client_manager * (N * U)) : Prop :=
  cm_inv x.1 ->
  rtc cm_step x y /\ rx_shrinks x.2.1 y.2.1 /\
  map cl_loc (cm_clients y.1) = map cl_loc (cm_clients x.1) /\
  (forall c, find_first (client_at loc) (cm_clients x.1) = Some c ->
   exists c', find_first (client_at loc) (cm_clients y.1) = Some c' /\ same_socket c c').

Lemma steps_inv x y : rtc cm_step x y -> cm_inv x.1 -> cm_inv y.1.
Proof. induction 1 as [|x y z Hxy _ IH]; [done|]. intros Hx. apply IH. by eapply cm_step_inv. Qed.

#[export] Instance session_moves_preorder loc : PreOrder (session_moves loc).
Proof.
  split; [intros x Hx; split_and!; [done|done|done|]; intros c Hc; by exists c|].
  intros x y z Hxy Hyz Hx. destruct (Hxy Hx) as (R1 & S1 & L1 & F1).
  destruct (Hyz (steps_inv _ _ R1 Hx)) as (R2 & S2 & L2 & F2).
  split_and!; [by etrans|by etrans|by etrans|]. intros c Hc. destruct (F1 c Hc) as (c1 & Hc1 & E1).
  destruct (F2 c1 Hc1) as (c2 & Hc2 & E2). exists c2. split; [done|].
  destruct E1, E2. split; congruence.
Qed.

Lemma moves_io loc m n u n' : rx_shrinks n n' -> session_moves loc (m, (n, u)) (m, (n', u)).
Proof.
  intros Hs Hm. split_and!; [apply rtc_once, cms_io|done|done|]. intros c Hc. by exists c.
Qed.

Lemma moves_store loc m c c' m' n u u' :
  find_first (client_at loc) (cm_clients m) = Some c -> same_socket c c' ->
  cm_clients m' = cm_clients m ->
  (c ∈ cm_clients m -> cm_step (m, (n, u)) (store_client m' c', (n, u'))) ->
  session_moves loc (m, (n, u)) (store_client m' c', (n, u')).
Proof.
  intros Hf Hs Hcs Hstep _. pose proof (find_first_Some _ _ _ Hf) as [Hin _].
  split_and!; [by apply rtc_once, Hstep|done|by cbn [fst]; rewrite store_locs, Hcs|]. intros c0 Hc0. simpl in Hc0.
  assert (c0 = c) as -> by congruence.
  exists c'. split; [|done]. simpl. rewrite Hcs. by apply (find_stored m loc c c'); [|apply Hs].
Qed.

Lemma moves_urb loc m c c' n u u' :
  find_first (client_at loc) (cm_clients m) = Some c -> same_client c c' -> same_handles u u' ->
  session_moves loc (m, (n, u)) (store_client m c', (n, u')).
Proof.
  intros Hf Hs Hu. pose proof (same_client_loc _ _ Hs) as Hl.
  apply (moves_store loc m c); [done..|]. intros Hin. destruct Hs as [Hh (h & w & a & b & d & ->)].
  by apply cms_urb.
Qed.

Lemma moves_attach loc m env c b n u r m' c' u' :
  find_first (client_at loc) (cm_clients m) = Some c -> cl_state c = CLIENT_STATE_CONNECTED ->
  client_attach_device env (Some m) (Some c) (Some b) u = ((r, Some m', Some c'), u') ->
  session_moves loc (m, (n, u)) (store_client m' c', (n, u')).
Proof.
  intros Hf Hst E. pose proof (attach_same _ _ _ _ _ _ _ _ _ E) as (l & c1 & [= Em] & [= Ec] & Hs).
  apply (moves_store loc m c); [done|congruence|by rewrite Em|]. intros Hin. by eapply cms_attach.
Qed.

Lemma moves_detach loc m c n u r m' c' u' :
  find_first (client_at loc) (cm_clients m) = Some c ->
  client_detach_device (Some m) (Some c) u = ((r, Some m', Some c'), u') ->
  session_moves loc (m, (n, u)) (store_client m' c', (n, u')).
Proof.
  intros Hf E. destruct (detach_same m c u) as (l & c1 & u1 & Hs & Hd). specialize (Hd m eq_refl).
  rewrite Hd in E. simplify_eq. apply (moves_store loc m c); [done..|]. intros Hin. by eapply cms_detach.
Qed.

(** A detachment whose client has been changed since it was last stored. *)
Lemma moves_detach_stored loc m c n u r r1 r2 u' :
  find_first (client_at loc) (cm_clients (store_client m c)) = Some c ->
  client_detach_device (Some m) (Some c) u = ((r, r1, r2), u') ->
  exists m' c', r1 = Some m' /\ r2 = Some c' /\
    session_moves loc (store_client m c, (n, u)) (store_client m' c', (n, u')).
Proof.
  intros Hf E. destruct (detach_same m c u) as (l & c1 & u1 & Hs & Hd).
  rewrite (Hd m eq_refl) in E. simplify_eq. eexists _, _. split; [done|]. split; [done|].
  assert (store_client (cm_set_list m l) c1 = store_client (cm_set_list (store_client m c) l) c1) as ->.
  { destruct Hs as [Hl _]. unfold store_client at 1 2, cm_set_clients, cm_set_list. cbn. f_equal.
    rewrite Hl. symmetry. apply update_first_twice. apply Z.eqb_refl. }
  eapply moves_detach; [done|]. apply Hd. done.
Qed.

(** *** One iteration *)

Lemma shrinks_length n n' fd : rx_shrinks n n' -> (length (ws_rx n' fd) <= length (ws_rx n fd))%nat.
Proof. intros [Hs _]. destruct (Hs fd) as [bs ->]. rewrite length_app. lia. Qed.

Lemma import_moves loc env m c b n u err r1 r2 st' :
  find_first (client_at loc) (cm_clients m) = Some c -> cl_state c = CLIENT_STATE_CONNECTED ->
  client_handle_import env (Some m) (Some c) (Some b) (n, u) = ((err, r1, r2), st') ->
  session_moves loc (m, (n, u)) (store_client (default m r1) (default c r2), st').
Proof.
  intros Hf Hs E. unfold client_handle_import in E.
  apply M_bind_inv in E as ([[aerr x1] x2] & st1 & E1 & E). apply lift_r_inv in E1 as (u1 & E1 & ->).
  pose proof (attach_same _ _ _ _ _ _ _ _ _ E1) as (l & c1 & -> & -> & Hsk).
  set (m1 := cm_set_list m l) in *.
  etrans; [by eapply moves_attach|]. cbv zeta in E.
  assert (find_first (client_at loc) (cm_clients (store_client m1 c1)) = Some c1) as Hf1.
  { apply (find_stored m1 loc c c1); [done|apply Hsk]. }
  apply M_bind_inv in E as (ok & st2 & E2 & E). apply lift_l_inv in E2 as (n1 & E2 & ->).
  apply send_bytes_rx, keeps_shrinks in E2. etrans; [by apply moves_io|].
  destruct ok; cbn [negb] in E; [|mret_eq; done].
  destruct (error_code_eqb aerr ERR_SUCCESS); [|mret_eq; done].
  apply M_bind_inv in E as (ok & st3 & E3 & E). apply lift_l_inv in E3 as (n2 & E3 & ->).
  apply send_bytes_rx, keeps_shrinks in E3. etrans; [by apply moves_io|].
  destruct ok; cbn [negb] in E; [mret_eq; done|].
  apply M_bind_inv in E as ([[e4 x4] y4] & st4 & E4 & E). apply lift_r_inv in E4 as (u4 & E4 & ->).
  destruct (moves_detach_stored loc _ _ n2 _ _ _ _ _ Hf1 E4) as (m2 & c2 & -> & -> & Hmv).
  unfold mret, M_ret in E. simplify_eq. exact Hmv.
Qed.

Lemma request_moves loc env m c n u err r1 r2 st' :
  cm_inv m -> find_first (client_at loc) (cm_clients m) = Some c -> cl_state c = CLIENT_STATE_CONNECTED ->
  client_handle_request env (Some m) (Some c) (n, u) = ((err, r1, r2), st') ->
  exists n1, rx_shrinks n n1 /\
    session_moves loc (m, (n1, u)) (store_client (default m r1) (default c r2), st') /\
    (err = ERR_SUCCESS -> length (ws_rx n (cl_socket c)) = (8 + length (ws_rx n1 (cl_socket c)))%nat).
Proof.
  intros Hm Hf Hs E. unfold client_handle_request in E.
  apply M_bind_inv in E as (r & st1 & E1 & E). apply lift_l_inv in E1 as (n1 & E1 & ->).
  pose proof (recv_header_basic_received _ _ _ _ E1) as R. pose proof R as (_ & taken & _ & Hr).
  apply received_shrinks in R as [S1 P1]. exists n1. split; [done|].
  pose proof (store_same m loc c Hm Hf) as Hsame. destruct r as [e|h].
  { destruct Hr as [-> _]. mret_eq. rewrite Hsame. by split. }
  specialize (P1 h eq_refl). split; [|by intros _].
  destruct (_ =? OP_REQ_DEVLIST).
  { apply M_bind_inv in E as (e & st2 & E2 & E). apply lift_l_inv in E2 as (n2 & E2 & ->).
    apply send_device_list_rx, keeps_shrinks in E2. mret_eq. rewrite Hsame. by apply moves_io. }
  destruct (_ =? OP_REQ_IMPORT); [|mret_eq; by rewrite Hsame].
  apply M_bind_inv in E as ([k bs] & st2 & E2 & E). apply lift_l_inv in E2 as (n2 & E2 & ->).
  apply recv_all_shrinks in E2. etrans; [by apply moves_io|].
  destruct (negb _) in E; [mret_eq; by rewrite Hsame|]. by eapply import_moves.
Qed.

Lemma submit_moves loc o m c h n u go m' st' :
  find_first (client_at loc) (cm_clients m) = Some c -> is_Some (cl_urb_handler c) -> cm_inv m ->
  session_submit o m c h (n, u) = ((go, m'), st') ->
  session_moves loc (m, (n, u)) (m', st').
Proof.
  intros Hf Hh Hm E. unfold session_submit in E.
  apply M_bind_inv in E as (r & st1 & E1 & E). apply lift_l_inv in E1 as (n1 & E1 & ->).
  assert (rx_shrinks n n1 /\ match r with Some (_, _, c1) => same_client c c1 | None => True end) as [S1 C1].
  { unfold session_data in E1. destruct (_ && _).
    - destruct (negb _); [by mret_eq|]. apply M_bind_inv in E1 as (x & n2 & E2 & E1).
      apply recv_urb_data_shrinks in E2. destruct x as [e|data]; mret_eq; (split; [done|]); [done|].
      by apply same_client_stats.
    - mret_eq. split; [done|]. by apply same_client_refl. }
  etrans; [by apply moves_io|]. destruct r as [[[data len] c1]|]; [|by mret_eq].
  destruct (client_forward_urb _ _ _ _ _ _ _) as [e r] eqn:Ef.
  assert (same_client c (default c1 r)) as C2.
  { eapply same_client_trans; [done|]. pose proof (same_client_has _ _ C1) as Hh1.
    unfold client_forward_urb in Ef. destruct (cl_urb_handler c1) as [h1|] eqn:Eh; [|by destruct Hh1].
    destruct (urb_handler_submit _ _ _ _ _ _ _) as [e1 h2] eqn:Es. simplify_eq. cbn [default].
    set (c2 := cl_set_stats c1 _ _ _) in *. assert (cl_urb_handler c2 = Some h1) as Eh2 by exact Eh.
    rewrite Eh2 in Es. apply (same_client_trans c1 c2); [apply same_client_stats; by exists h1|].
    apply same_client_handler; [by exists h1|by eapply submit_some]. }
  cbv zeta in E. apply M_bind_inv in E as (c3 & st3 & E3 & E). apply lift_r_inv in E3 as (u3 & E3 & ->).
  apply run_worker_spec in E3 as [C3 U3]; [|by eapply same_client_has].
  pose proof (same_client_trans _ _ _ C2 C3) as C3'.
  apply M_bind_inv in E as (c4 & st4 & E4 & E). apply lift_l_inv in E4 as (n4 & E4 & ->).
  apply completions_spec in E4 as [K4 C4]; [|by eapply same_client_has]. mret_eq.
  etrans; [by apply moves_io, keeps_shrinks|]. eapply moves_urb; [done| |done].
  by eapply same_client_trans.
Qed.

Lemma unlink_moves loc m c h n u go m' st' :
  find_first (client_at loc) (cm_clients m) = Some c -> is_Some (cl_urb_handler c) ->
  session_unlink m c h (n, u) = ((go, m'), st') ->
  session_moves loc (m, (n, u)) (m', st').
Proof.
  intros Hf Hh E. unfold session_unlink in E. destruct (urb_handler_unlink _ _) as [e h1] eqn:Eu.
  apply M_bind_inv in E as (e1 & st1 & E1 & E). apply lift_l_inv in E1 as (n1 & E1 & ->).
  apply (send_object_rx _ _ n), keeps_shrinks in E1. mret_eq. etrans; [by apply moves_io|].
  eapply moves_urb; [done| |done]. apply same_client_handler; [done|].
  destruct Hh as [h0 Hh]. rewrite Hh in Eu. by eapply unlink_some.
Qed.

(** An attached client has its handler. *)
Lemma attached_has m c :
  cm_inv m -> c ∈ cm_clients m -> cl_state c = CLIENT_STATE_ATTACHED -> is_Some (cl_urb_handler c).
Proof.
  intros Hm Hc Hs. pose proof (cmi_clients m Hm) as Hcl. rewrite Forall_forall in Hcl.
  destruct (Hcl c Hc) as [(? & _)|(e & _ & (_ & _ & _ & ? & _))]; [congruence|done].
Qed.

Lemma session_step_moves o m loc c n u go m' st' :
  cm_inv m -> find_first (client_at loc) (cm_clients m) = Some c ->
  session_step o m loc (n, u) = ((go, m'), st') ->
  session_moves loc (m, (n, u)) (m', st') /\
  (go = true -> (8 + length (ws_rx st'.1 (cl_socket c)) <= length (ws_rx n (cl_socket c)))%nat).
Proof.
  intros Hm Hf E. unfold session_step in E. rewrite Hf in E.
  pose proof (find_first_Some _ _ _ Hf) as [Hin _].
  destruct (negb _); [by mret_eq|]. destruct (cl_state c) eqn:Est; cycle 2.
  { pose proof (cmi_clients m Hm) as Hcl. rewrite Forall_forall in Hcl.
    destruct (Hcl c Hin) as [(? & _)|(e & _ & (? & _))]; congruence. }
  { by mret_eq. }
  - apply M_bind_inv in E as ([[e r1] r2] & st1 & E1 & E).
    apply (request_moves loc) in E1 as (n1 & S1 & M1 & P1); [|done..].
    unfold mret, M_ret in E. simplify_eq.
    split; [etrans; [by apply moves_io|done]|]. intros ->%error_code_eqb_true. rewrite (P1 eq_refl).
    destruct (M1 Hm) as (_ & S2 & _ & _). pose proof (shrinks_length _ _ (cl_socket c) S2). simpl in *. lia.
  - pose proof (attached_has m c Hm Hin Est) as Hh.
    apply M_bind_inv in E as (r & st1 & E1 & E). apply lift_l_inv in E1 as (n1 & E1 & ->).
    pose proof (recv_urb_header_received _ _ _ _ E1) as [S1 P1]%received_shrinks.
    apply M_bind_inv in E as (c1 & st2 & E2 & E). apply lift_r_inv in E2 as (u1 & E2 & ->).
    apply run_worker_spec in E2 as [C1 U1]; [|done]. cbv zeta in E.
    pose proof (moves_urb loc m c c1 n1 u u1 Hf C1 U1) as M1.
    pose proof (find_stored m loc c c1 Hf (proj1 (same_client_loc _ _ C1))) as Hf1.
    pose proof (same_client_has _ _ C1) as Hh1. destruct (M1 Hm) as (R1 & _).
    pose proof (steps_inv _ _ R1 Hm) as Hm1. simpl in Hm1.
    assert (session_moves loc (m, (n1, u)) (m', st')) as Hmv.
    { etrans; [exact M1|]. destruct r as [e|h]; [by mret_eq|].
      destruct (_ =? USBIP_CMD_SUBMIT); [by eapply submit_moves|].
      destruct (_ =? USBIP_CMD_UNLINK); [by eapply unlink_moves|]. by mret_eq. }
    destruct r as [e|h].
    { unfold mret, M_ret in E. simplify_eq. split; [etrans; [by apply moves_io|done]|done]. }
    specialize (P1 h eq_refl).
    split; [etrans; [by apply moves_io|done]|]. intros _. destruct (Hmv Hm) as (_ & S2 & _ & _).
    pose proof (shrinks_length _ _ (cl_socket c) S2). simpl in *. lia.
Qed.

Lemma session_run os m loc c n u ended m' st' :
  cm_inv m -> find_first (client_at loc) (cm_clients m) = Some c ->
  handle_client_session os m loc (n, u) = ((ended, m'), st') ->
  session_moves loc (m, (n, u)) (m', st') /\
  ((length (ws_rx n (cl_socket c)) < 8 * length os)%nat -> ended = true).
Proof.
  revert m c n u. induction os as [|o os IH]; intros m c n u Hm Hf E; cbn [handle_client_session] in E.
  { unfold mret, M_ret in E. simplify_eq. split; [done|simpl; lia]. }
  apply M_bind_inv in E as ([go m1] & [n1 u1] & E1 & E).
  destruct (session_step_moves _ _ _ _ _ _ _ _ _ Hm Hf E1) as [M1 P1].
  destruct go; cbn [negb] in E; [|unfold mret, M_ret in E; simplify_eq; by split].
  destruct (M1 Hm) as (R1 & _ & _ & F1). destruct (F1 c Hf) as (c1 & Hf1 & Hs1).
  apply IH with (c := c1) in E as [M2 P2]; [|by apply (steps_inv _ _ R1)|done].
  split; [by etrans|]. intros Hlt. apply P2. specialize (P1 eq_refl). destruct Hs1 as [_ ->].
  simpl in *. lia.
Qed.

(** The manager with no client has every device closed and available to share. *)
Definition at_rest (m : client_manager) : Prop := cm_inv m /\ cm_clients m = [].

Lemma at_rest_idle m : at_rest m -> Forall idle (dl_entries (cm_device_list m)).
Proof.
  intros [Hm Hc]. eapply Forall_impl; [exact (cmi_entries m Hm)|]. intros e [?|(c & Hin & _)]; [done|].
  rewrite Hc in Hin. by apply not_elem_of_nil in Hin.
Qed.

Lemma remove_only m loc st err r st' :
  cm_inv m -> map cl_loc (cm_clients m) = [loc] ->
  client_manager_remove (Some m) (Some loc) st = ((err, r), st') ->
  exists m', r = Some m' /\ at_rest m' /\ cm_step (m, st) (m', st').
Proof.
  intros Hm Hl E. destruct st as [n u]. pose proof E as E'. apply remove_inv in E'; [|done].
  destruct (cm_clients m) as [|c [|? ?]] eqn:Ec; try done. injection Hl as Hl.
  cbn [find_first] in E'. unfold client_at in E'. rewrite Hl, Z.eqb_refl in E'.
  destruct E' as (-> & m' & -> & Hm' & Hcs & _). exists m'. split; [done|].
  split; [|by apply (cms_remove _ _ loc ERR_SUCCESS)].
  split; [done|]. rewrite Hcs. cbn [remove_first]. by rewrite Hl, Z.eqb_refl.
Qed.

(** Removing a client closes its socket. *)
Lemma free_client_socket l c n u r n' u' :
  socket_is_valid (cl_socket c) = true -> free_client l (Some c) (n, u) = (r, (n', u')) ->
  ws_open n' = ws_open n ∖ {[cl_socket c]}.
Proof.
  intros Hv E. unfold free_client in E. rewrite Hv in E.
  apply M_bind_inv in E as ([] & st1 & (n1 & E1 & ->)%lift_l_inv & E). apply close_open in E1; [|done].
  apply M_bind_inv in E as ([] & st2 & E2 & E).
  assert (exists u2, st2 = (n1, u2)) as [u2 ->].
  { destruct (cl_urb_handler c); [apply lift_r_inv in E2 as (u2 & _ & ->); by eexists|mret_eq; by eexists]. }
  destruct (cl_device c); [apply lift_r_inv in E as (u3 & _ & ?); simplify_eq; done|by mret_eq].
Qed.

Lemma remove_socket m loc c n u r n' u' :
  cm_initialized m = true -> find_first (client_at loc) (cm_clients m) = Some c ->
  socket_is_valid (cl_socket c) = true ->
  client_manager_remove (Some m) (Some loc) (n, u) = (r, (n', u')) ->
  ws_open n' = ws_open n ∖ {[cl_socket c]}.
Proof.
  intros Hi Hf Hv E. unfold client_manager_remove in E. rewrite Hi, Hf in E. cbn [negb] in E. cbv zeta in E.
  apply M_bind_inv in E as (l & [n1 u1] & E1 & E). apply free_client_socket in E1; [|done]. mret_eq. done.
Qed.

(** A descriptor that was new and is closed again. *)
Lemma opened_closed (x : Z) (o o1 o2 : gset Z) :
  x ∉ o -> o1 = {[x]} ∪ o -> o2 = o1 ∖ {[x]} -> o2 = o.
Proof. set_solver. Qed.

Lemma serve_one_steps fd token alloc now os m st m' st' :
  at_rest m -> serve_one fd token alloc now os m st = (m', st') ->
  rtc cm_step (m, st) (m', st') /\ at_rest m' /\ ws_open st'.1 = ws_open st.1.
Proof.
  intros [Hm Hcs] E. destruct st as [n u]. unfold serve_one in E.
  apply M_bind_inv in E as ([sock peer] & st1 & E1 & E). apply lift_l_inv in E1 as (n1 & E1 & ->).
  assert (forall n', rtc cm_step (m, (n, u)) (m, (n', u))) as Hio by (intros; apply rtc_once, cms_io).
  apply accept_open in E1 as [[Hv O1]|(Hv & Hnew & O1)]; rewrite Hv in E; cbn [negb] in E; [by mret_eq|].
  destruct (default ([], 0) peer) as [ip port].
  apply M_bind_inv in E as (aerr & st2 & E2 & E).
  assert (exists n2, st2 = (n2, u) /\ ws_open n2 = ws_open n1) as (n2 & -> & O2).
  { destruct (auth_is_enabled token); [|mret_eq; by exists n1].
    apply lift_l_inv in E2 as (n2 & E2%keeps_open_auth_server & ->). by exists n2. }
  rewrite O1 in O2.
  assert (forall r, (lift_l (socket_close sock) ;; mret r) (n2, u) = (m', st') ->
    r = m' /\ (exists n', st' = (n', u)) /\ ws_open st'.1 = ws_open n) as Hrej.
  { intros r Er. apply M_bind_inv in Er as ([] & st3 & E3 & Er).
    apply lift_l_inv in E3 as (n3 & E3%close_open & ->); [|done]. mret_eq.
    split; [done|]. split; [by exists n3|]. by eapply opened_closed. }
  destruct (negb (error_code_eqb aerr ERR_SUCCESS)).
  { apply Hrej in E as (-> & [n' ->] & O). by split. }
  destruct (client_manager_add alloc now (Some m) sock (Some ip) port) as [[e r] cl] eqn:Ea.
  assert (forall loc, alloc = Some loc -> loc ∉ map cl_loc (cm_clients m)) as Hfresh.
  { intros loc _. rewrite Hcs. apply not_elem_of_nil. }
  destruct (cm_inv_add _ _ _ _ _ _ _ _ _ Hm Hfresh Ea) as (m1 & -> & Hm1 & _).
  assert (rtc cm_step (m, (n, u)) (m1, (n2, u))) as R1.
  { eapply rtc_r; [apply Hio|]. by eapply cms_add. }
  unfold client_manager_add in Ea. rewrite (cmi_init m Hm) in Ea. cbn [negb] in Ea.
  destruct (cm_client_count m >=? MAX_CLIENTS) eqn:Emax.
  { pose proof (cmi_count m Hm) as Hn. rewrite Hcs in Hn. rewrite Hn in Emax. done. }
  destruct alloc as [loc|]; cbn [create_client] in Ea; simplify_eq.
  2: { cbn [default] in E. apply Hrej in E as (<- & [n' ->] & O).
       split; [eapply rtc_r; [exact R1|apply cms_io]|]. by split. }
  cbn [default cl_loc] in E. set (m1 := cm_set_clients _ _ _ _) in *.
  assert (map cl_loc (cm_clients m1) = [loc]) as L1 by (simpl; by rewrite Hcs).
  assert (exists c1, find_first (client_at loc) (cm_clients m1) = Some c1 /\ cl_socket c1 = sock)
    as (c1 & F1 & Hsk1).
  { simpl. unfold client_at at 1. simpl. rewrite Z.eqb_refl. by eexists. }
  apply M_bind_inv in E as ([ended m2] & [n3 u3] & E3 & E).
  apply session_run with (c := c1) in E3 as [M3 _]; [|done..].
  destruct (M3 Hm1) as (R3 & [_ O3] & L3 & F3). destruct (F3 c1 F1) as (c2 & F2 & _ & Hsk2). simpl in L3, F2.
  pose proof (steps_inv _ _ R3 Hm1) as Hm2. simpl in Hm2. rewrite F2 in E.
  apply M_bind_inv in E as (m3 & st4 & E4 & E).
  apply M_bind_inv in E4 as ([[e4 r1] r2] & st5 & E5 & E4). apply lift_r_inv in E5 as (u5 & E5 & ->).
  destruct (detach_inv _ _ _ _ _ _ _ Hm2 (proj1 (find_first_Some _ _ _ F2)) E5)
    as (_ & m4 & c4 & -> & -> & _). cbn [default] in E4.
  destruct (moves_detach loc m2 c2 n3 u3 _ _ _ _ F2 E5 Hm2) as (R4 & _ & L4 & F4).
  destruct (F4 c2 F2) as (c6 & F6 & _ & Hsk6). cbn [fst] in F6.
  unfold mret, M_ret in E4. injection E4 as <- <-.
  apply M_bind_inv in E as ([e6 r6] & st6 & E6 & E). destruct st6 as [n6 u6].
  pose proof (remove_socket _ _ _ _ _ _ _ _ (cmi_init _ (steps_inv _ _ R4 Hm2)) F6
    ltac:(by rewrite Hsk6, Hsk2, Hsk1) E6) as O6. cbn [fst snd] in O3.
  rewrite Hsk6, Hsk2, Hsk1 in O6.
  apply (remove_only _ loc) in E6 as (m6 & -> & Hrest & Hstep);
    [|exact (steps_inv _ _ R4 Hm2)|etrans; [exact L4|etrans; [exact L3|exact L1]]].
  unfold mret, M_ret in E. injection E as <- <-. split.
  { etrans; [exact R1|]. etrans; [exact R3|]. etrans; [exact R4|]. by apply rtc_once. }
  split; [done|]. eapply opened_closed; [exact Hnew|exact O2|]. cbn [fst]. by rewrite O6, O3.
Qed.

Lemma main_loop_steps fd token its m st m' st' :
  at_rest m -> server_main_loop fd token its m st = (m', st') ->
  rtc cm_step (m, st) (m', st') /\ at_rest m' /\ ws_open st'.1 = ws_open st.1.
Proof.
  revert m st. induction its as [|i its IH]; intros m st Hr E; cbn [server_main_loop] in E; [by mret_eq|].
  apply M_bind_inv in E as (m1 & st1 & E1 & E). apply serve_one_steps in E1 as (R1 & Hr1 & O1); [|done].
  destruct (IH _ _ Hr1 E) as (R2 & Hr2 & O2). split; [by etrans|]. split; [done|congruence].
Qed.
End session.

(** ** Lemmas: initialization and cleanup *)

Section init.
  Context {N U : Type} `{WinsockLaws N} `{WinUsbLaws U}.
  Implicit Types (n : N) (u : U).

Lemma list_cleanup_run l u r u' :
  dl_initialized l = true -> device_list_cleanup (Some l) u = (r, u') ->
  exists l', r = Some l' /\ dl_entries l' = [].
Proof.
  intros Hi E. unfold device_list_cleanup in E. rewrite Hi in E. cbn [negb] in E.
  destruct (clear_run (device_list_lock l) u) as (u1 & Ec). rewrite (M_bind_run _ _ _ _ _ Ec) in E.
  mret_eq. by eexists.
Qed.

Lemma unexport_initialized l b : dl_initialized (default l (device_list_unexport (Some l) (Some b)).2) = dl_initialized l.
Proof. rewrite unexport_eq. by destruct (find_first _ _). Qed.

Lemma store_initialized l p d : dl_initialized (store_device l p d) = dl_initialized l.
Proof. by destruct d. Qed.

Lemma close_initialized l p u l' u' : close_at l p u = (l', u') -> dl_initialized l' = dl_initialized l.
Proof.
  intros (d & u1 & _ & E)%M_bind_inv. mret_eq. apply store_initialized.
Qed.

Lemma export_initialized t l b id ip :
  dl_initialized (default l (device_list_export t (Some l) (Some b) id ip).2) = dl_initialized l.
Proof. rewrite export_eq. destruct (find_first _ _) as [e|]; [|done]. by case_bool_decide. Qed.

Lemma attach_entry_initialized env l c b p u e l' c' u' :
  attach_entry env l c b p u = ((e, l', c'), u') -> dl_initialized l' = dl_initialized l.
Proof.
  intros E. unfold attach_entry in E. apply M_bind_inv in E as ([e1 l1] & u1 & E1 & E).
  assert (dl_initialized l1 = dl_initialized l) as <-.
  { unfold on_device in E1. apply M_bind_inv in E1 as ([e2 d] & u2 & _ & E1). mret_eq.
    apply store_initialized. }
  assert (forall err x l0 c0 l2 u2 u3, dl_initialized x = dl_initialized l1 ->
    attach_undo err x p c0 u2 = ((l0, l2, c'), u3) -> dl_initialized l2 = dl_initialized l1) as Hundo.
  { intros err x l0 c0 l2 u2 u3 Hx Ex. unfold attach_undo in Ex.
    apply M_bind_inv in Ex as (l3 & u4 & E3%close_initialized & Ex). mret_eq.
    unfold release_at in E3. by rewrite E3, store_initialized. }
  destruct (negb (error_code_eqb e1 _)); [by mret_eq|]. destruct (claim_at l1 p) as [e2 l2] eqn:Ec.
  assert (dl_initialized l2 = dl_initialized l1) as Hl2.
  { unfold claim_at in Ec. destruct (usb_claim_interface _ _). simplify_eq. apply store_initialized. }
  destruct (negb (error_code_eqb e2 _)).
  { apply M_bind_inv in E as (l3 & u2 & E3%close_initialized & E). mret_eq. congruence. }
  destruct (negb (ae_calloc env)); [by eapply Hundo|].
  destruct (urb_handler_init _ _ _ _) as [e3 h].
  destruct (negb (error_code_eqb e3 _)); [by eapply Hundo|].
  destruct (urb_handler_start _ _ _) as [[e4 h'] w].
  destruct (negb (error_code_eqb e4 _)).
  { apply M_bind_inv in E as (l3 & u2 & _ & E). by eapply Hundo. }
  cbv zeta in E. pose proof (export_initialized (ae_time env) l2 b (cl_id c) (Some (cl_ip_address c))) as Hx.
  cbn [cl_id cl_ip_address cl_set_attachment] in E.
  destruct (device_list_export _ _ _ _ _) as [e5 l5]. mret_eq. by rewrite Hx.
Qed.

Lemma attach_initialized env m c b u e m' c' u' :
  client_attach_device env (Some m) (Some c) (Some b) u = ((e, Some m', Some c'), u') ->
  dl_initialized (cm_device_list m') = dl_initialized (cm_device_list m).
Proof.
  intros E. unfold client_attach_device in E. destruct (device_list_find _ _) as [x|]; [|by mret_eq].
  destruct (negb (de_is_shared x)); [by mret_eq|]. case_bool_decide; [by mret_eq|].
  apply M_bind_inv in E as ([[e1 l1] c1] & u1 & E1%attach_entry_initialized & E). by mret_eq.
Qed.

Lemma detach_initialized m c u e m' c' u' :
  client_detach_device (Some m) (Some c) u = ((e, Some m', Some c'), u') ->
  dl_initialized (cm_device_list m') = dl_initialized (cm_device_list m).
Proof.
  intros E. unfold client_detach_device in E. destruct (_ =? 0); [by mret_eq|]. cbv zeta in E.
  apply M_bind_inv in E as ([h w] & u1 & _ & E). apply M_bind_inv in E as (l & u2 & E2 & E).
  assert (dl_initialized l = dl_initialized (cm_device_list m)) as <-.
  { destruct (cl_device c); [|by mret_eq]. apply close_initialized in E2. unfold release_at in E2.
    by rewrite E2, store_initialized. }
  rewrite <- (unexport_initialized l (cl_attached_busid c)).
  destruct (device_list_unexport _ _) as [e3 l3]. by mret_eq.
Qed.

Lemma remove_initialized m loc st e r st' :
  client_manager_remove (Some m) (Some loc) st = ((e, r), st') ->
  dl_initialized (cm_device_list (default m r)) = dl_initialized (cm_device_list m).
Proof.
  intros E. unfold client_manager_remove in E. destruct (negb _); [by mret_eq|].
  destruct (find_first _ _) as [c|]; [|by mret_eq]. cbv zeta in E.
  apply M_bind_inv in E as (l & st1 & E1 & E). unfold mret, M_ret in E. simplify_eq.
  cbn [default cm_set_list cm_device_list id]. cbn [cm_device_list cm_set_clients] in E1.
  match type of E1 with free_client ?x _ _ = _ =>
    assert (dl_initialized x = dl_initialized (cm_device_list m)) as <- end.
  { destruct (negb _); [apply unexport_initialized|done]. }
  unfold free_client in E1. apply M_bind_inv in E1 as (x & st2 & _ & E1).
  apply M_bind_inv in E1 as (y & [n3 u3] & _ & E1). destruct (cl_device c) as [p|]; [|by mret_eq].
  apply lift_r_inv in E1 as (u4 & E1 & _). by eapply close_initialized.
Qed.

Lemma step_initialized x y :
  cm_step x y -> dl_initialized (cm_device_list y.1) = dl_initialized (cm_device_list x.1).
Proof.
  destruct 1 as [m st alloc now sock ip port e m' r _ E| |m n u c e m' c' u' _ E|m st loc e m' st' E| |]; simpl; try done.
  - unfold client_manager_add in E. repeat case_match; by simplify_eq.
  - by eapply attach_initialized.
  - by eapply detach_initialized.
  - by apply remove_initialized in E.
Qed.

Lemma steps_initialized x y :
  rtc cm_step x y -> dl_initialized (cm_device_list y.1) = dl_initialized (cm_device_list x.1).
Proof. induction 1 as [|x y z Hs _ IH]; [done|]. by rewrite IH, (step_initialized _ _ Hs). Qed.

Lemma disconnect_loop_rest k m st m' st' :
  cm_inv m -> (length (cm_clients m) <= k)%nat -> disconnect_loop k m st = (m', st') ->
  at_rest m' /\ rtc cm_step (m, st) (m', st') /\
  dl_initialized (cm_device_list m') = dl_initialized (cm_device_list m).
Proof.
  revert m st. induction k as [|k IH]; intros m st Hm Hl E; cbn [disconnect_loop] in E.
  { mret_eq. split; [|done]. split; [done|]. apply nil_length_inv. lia. }
  destruct (cm_clients m) as [|c cs] eqn:Ec; [mret_eq; by split|].
  apply M_bind_inv in E as ([e r] & st1 & E1 & E). destruct st as [n u].
  pose proof E1 as E2. pose proof (remove_initialized _ _ _ _ _ _ E1) as Hi.
  apply remove_inv in E2; [|done]. rewrite Ec in E2. cbn [find_first] in E2.
  assert (client_at (cl_loc c) c = true) as Hat by apply Z.eqb_refl. rewrite Hat in E2.
  destruct E2 as (-> & m1 & -> & Hm1 & Hc1 & _). cbn [default] in E.
  assert (cm_clients m1 = cs) as Ec1 by (rewrite Hc1; simpl; by rewrite Hat).
  destruct (IH m1 st1 Hm1) as (Hr & Hs & Hi1); [rewrite Ec1; simpl in Hl; lia|done|].
  split; [done|]. split; [|by rewrite Hi1].
  eapply rtc_l; [|done]. by apply (cms_remove _ _ (cl_loc c) ERR_SUCCESS).
Qed.

Lemma disconnect_all_rest m st r st' :
  cm_inv m -> client_manager_disconnect_all (Some m) st = (r, st') ->
  exists m', r = Some m' /\ at_rest m' /\ rtc cm_step (m, st) (m', st') /\
    dl_initialized (cm_device_list m') = dl_initialized (cm_device_list m).
Proof.
  intros Hm E. unfold client_manager_disconnect_all in E. rewrite (cmi_init m Hm) in E. cbn [negb] in E.
  apply M_bind_inv in E as (m1 & st1 & E1 & E). apply disconnect_loop_rest in E1 as (Hr & Hs & Hi); [|done..].
  mret_eq. by eexists.
Qed.

(** Without clients there is nothing to disconnect. *)
Lemma disconnect_all_none m st :
  cm_clients m = [] -> client_manager_disconnect_all (Some m) st = (Some m, st).
Proof.
  intros Hc. unfold client_manager_disconnect_all. destruct (negb _); [done|]. by rewrite Hc.
Qed.

Lemma manager_cleanup_none m st :
  cm_initialized m = true -> cm_clients m = [] ->
  client_manager_cleanup (Some m) st = (Some {|
    cm_clients := []; cm_client_count := cm_client_count m; cm_next_client_id := cm_next_client_id m;
    cm_device_list := cm_device_list m; cm_initialized := false |}, st).
Proof.
  intros Hi Hc. unfold client_manager_cleanup. rewrite Hi. cbn [negb].
  rewrite (M_bind_run _ _ _ _ _ (disconnect_all_none m st Hc)). simpl. by rewrite Hc.
Qed.

Lemma manager_cleanup_rest m st r st' :
  cm_inv m -> client_manager_cleanup (Some m) st = (r, st') ->
  exists m', r = Some m' /\ cm_clients m' = [] /\ dl_inv (cm_device_list m') /\
    Forall idle (dl_entries (cm_device_list m')) /\
    dl_initialized (cm_device_list m') = dl_initialized (cm_device_list m) /\
    cm_initialized m' = false.
Proof.
  intros Hm E. unfold client_manager_cleanup in E. rewrite (cmi_init m Hm) in E. cbn [negb] in E.
  apply M_bind_inv in E as (r1 & st1 & E1 & E).
  apply disconnect_all_rest in E1 as (m1 & -> & Hr & _ & Hi); [|done]. mret_eq. eexists. split; [done|].
  split_and!; simpl; try done; [apply Hr|apply (cmi_list _ (proj1 Hr))|by apply at_rest_idle].
Qed.

Lemma filter_initialized g l : dl_initialized (apply_filter g l) = dl_initialized l.
Proof.
  unfold apply_filter. destruct (negb _); [|done]. unfold device_list_unshare_all.
  autorewrite with usbip. cbn [default id]. rewrite set_shared_eq. by destruct (find_first _ _).
Qed.

(** Sharing what the filter names. *)
Lemma apply_filter_spec g l :
  dl_inv l -> Forall entry_new (dl_entries l) ->
  dl_inv (apply_filter g l) /\
  Forall (fun e => idle e /\ busid_of e <> [] /\
    (de_is_shared e = true <->
     cstr (cf_device_filter g) = [] \/ busid_of e = cstr (cf_device_filter g)))
    (dl_entries (apply_filter g l)).
Proof.
  intros Hl Hn. unfold apply_filter.
  assert (cstr (cf_device_filter g) = [] <-> char_at (cf_device_filter g) 0 = 0) as Hz.
  { unfold char_at. destruct (cf_device_filter g) as [|x xs]; simpl; [done|].
    by destruct (Z.eqb_spec x 0) as [->|]. }
  destruct (Z.eqb_spec (char_at (cf_device_filter g) 0) 0) as [E0|E0]; cbn [negb].
  { split; [done|]. eapply Forall_impl; [exact Hn|]. intros e (Ha & Hs & Ho & Hb).
    split; [split; [by rewrite Ha|done]|]. split; [done|]. split; [|done]. intros _. left. by apply Hz. }
  assert (cstr (cf_device_filter g) <> []) as Hne by (by rewrite Hz).
  set (b := cf_device_filter g) in *. unfold device_list_unshare_all. autorewrite with usbip. cbn [default id].
  set (l1 := set_entries l _ _).
  assert (dl_inv l1) as Hl1 by (apply inv_map; auto with usbip).
  pose proof (inv_entries _ Hl1) as Hok.
  assert (Forall (fun e => idle e /\ busid_of e <> [] /\ de_is_shared e = false) (dl_entries l1)) as Hf1.
  { simpl. apply Forall_fmap. eapply Forall_impl; [exact Hn|]. intros e (Ha & Hs & Ho & Hb).
    split_and!; [|done..]. split; simpl; [by rewrite Ha|done]. }
  rewrite set_shared_eq. destruct (find_first (entry_is b) (dl_entries l1)) as [e0|] eqn:Ef; cbn [snd default id].
  - split; [apply inv_update; auto with usbip|].
    destruct (focus_entry _ _ _ Hl1 Ef) as (l2 & l3 & El & _ & Hb & He).
    pose proof (inv_busids _ Hl1) as Hnd. rewrite El in Hnd, Hf1, Hok. rewrite entries_with_entry in Hnd, Hf1, Hok.
    rewrite El, entries_with_entry. simpl. rewrite update_first_split by done.
    apply Forall_app in Hf1 as [Hf2 Hf3]. apply Forall_cons in Hf3 as [Hf0 Hf3].
    assert (busid_of e0 = cstr b) as Eb.
    { apply entry_is_true; [|done]. rewrite Forall_forall in Hok. apply Hok, elem_of_mid. }
    assert (forall x, x ∈ l2 ++ l3 -> busid_of x <> cstr b) as Hoth.
    { intros x Hx Heq. rewrite <- Eb in Heq. by apply (not_in_locs busid_of l2 e0 l3 x Hnd Hx). }
    assert (forall l', Forall (fun e => idle e /\ busid_of e <> [] /\ de_is_shared e = false) l' ->
      (forall x, x ∈ l' -> x ∈ l2 ++ l3) ->
      Forall (fun e => idle e /\ busid_of e <> [] /\
        (de_is_shared e = true <-> cstr b = [] \/ busid_of e = cstr b)) l') as Hrest.
    { intros l' Hl' Hsub. eapply Forall_impl_in; [exact Hl'|]. intros x Hx (? & ? & Hs).
      split_and!; [done..|]. rewrite Hs. split; [done|]. intros [?|?]; [done|].
      by destruct (Hoth x (Hsub x Hx)). }
    apply Forall_app. split; [apply Hrest; [done|intros; apply elem_of_app; by left]|].
    constructor; [|apply Hrest; [done|intros; apply elem_of_app; by right]].
    destruct Hf0 as (Hi0 & Hb0 & _). split; [exact Hi0|]. split; [exact Hb0|].
    split; [by right|done].
  - split; [done|]. eapply Forall_impl_in; [exact Hf1|]. intros x Hx (? & ? & Hs). split_and!; [done..|].
    rewrite Hs. split; [done|]. intros [?|Heq]; [done|]. apply find_first_None in Ef.
    rewrite Forall_forall in Ef. specialize (Ef x Hx). rewrite Forall_forall in Hok.
    by rewrite (proj2 (entry_is_true b x (Hok x Hx)) Heq) in Ef.
Qed.

Lemma init_ready env g n u err s st' :
  (forall es, in_devices env = Some es -> Forall (fun x => Forall is_byte (di_instance_id x)) es) ->
  NoDup (omap id (in_allocs env)) ->
  server_init env g (n, u) = ((err, s), st') ->
  (err = ERR_SUCCESS -> cm_inv (ss_manager s) /\ cm_clients (ss_manager s) = [] /\
     dl_initialized (cm_device_list (ss_manager s)) = true /\
     ss_running s = true /\ ss_network s = true /\ ss_usb s = true /\
     socket_is_valid (ss_socket s) = true /\ ss_socket s ∉ ws_open n /\
     ws_open st'.1 = {[ss_socket s]} ∪ ws_open n /\
     Forall (fun e => idle e /\ (de_is_shared e = true <->
       cstr (cf_device_filter g) = [] \/ busid_of e = cstr (cf_device_filter g)))
       (dl_entries (cm_device_list (ss_manager s)))) /\
  (err <> ERR_SUCCESS -> ss_running s = false /\ ss_network s = false /\ ss_usb s = false /\
     socket_is_valid (ss_socket s) = false /\ dl_entries (cm_device_list (ss_manager s)) = [] /\
     cm_clients (ss_manager s) = [] /\ ws_open st'.1 = ws_open n).
Proof.
  intros Hb Hnd E. unfold server_init in E. cbv zeta in E.
  destruct (error_code_eqb (start_log _ _) ERR_SUCCESS) eqn:Elog; cbn [negb] in E.
  2: { mret_eq. split; [intros Hl; by rewrite Hl in Elog|done]. }
  unfold network_init in E. destruct (in_wsa env =? 0); cbn in E; [|mret_eq; by split].
  destruct (in_list_mutex env =? 0); cbn [negb] in E; [|mret_eq; by split].
  cbn [error_code_eqb negb] in E. change (error_code_eqb ERR_SUCCESS ERR_SUCCESS) with true in E.
  cbn [negb] in E. set (l0 := {| dl_entries := []; dl_count := 0; dl_lock := 0; dl_initialized := true |}) in *.
  apply M_bind_inv in E as ([e1 r1] & st1 & E1 & E). apply lift_r_inv in E1 as (u1 & E1 & ->).
  apply refresh_fresh in E1 as (l1 & -> & -> & Hl1 & Hn1 & Ei); [|split; simpl; done || constructor|done..].
  cbn [default id] in E. cbv zeta in E.
  destruct (apply_filter_spec g l1 Hl1 Hn1) as [Hl2 Hf2].
  assert (dl_initialized (apply_filter g l1) = true) as Ei2.
  { rewrite filter_initialized. exact Ei. }
  set (l2 := apply_filter g l1) in *. clearbody l2.
  unfold client_manager_init in E. destruct (in_manager_mutex env =? 0); cbn [negb default id] in E; cycle 1.
  { change (error_code_eqb ERR_MUTEX_INIT ERR_SUCCESS) with false in E. cbn [negb] in E.
    apply M_bind_inv in E as (r & st2 & E2 & E). apply lift_r_inv in E2 as (u2 & E2 & ->).
    apply list_cleanup_run in E2 as (l3 & -> & He); [|done]. mret_eq. by split. }
  change (error_code_eqb ERR_SUCCESS ERR_SUCCESS) with true in E. cbn [negb] in E.
  set (m := {| cm_clients := []; cm_client_count := 0; cm_next_client_id := 1;
               cm_device_list := l2; cm_initialized := true |}) in *.
  assert (cm_inv m) as Hm.
  { split; simpl; try done; try constructor.
    - eapply Forall_impl; [exact Hf2|]. by intros e (_ & ? & _).
    - eapply Forall_impl; [exact Hf2|]. intros e (? & _). by left. }
  apply M_bind_inv in E as (fd & st2 & E2 & E). apply lift_l_inv in E2 as (n2 & E2 & ->).
  destruct (socket_is_valid fd) eqn:Efd; cbn [negb] in E.
  - apply create_open in E2 as [[-> _]|(_ & Hnew & O2)]; [done|].
    unfold mret, M_ret in E. simplify_eq. split; [|done]. intros _. simpl.
    split; [exact Hm|]. split_and!; try done. eapply Forall_impl; [exact Hf2|]. by intros e (? & _ & ?).
  - apply M_bind_inv in E as (r & st3 & E3 & E).
    apply create_open in E2 as [[_ O2]|(? & _)]; [|congruence].
    change (client_manager_cleanup (Some m) (n2, u1) = (r, st3)) in E3.
    rewrite manager_cleanup_none in E3 by done. injection E3 as <- <-. cbn [default id] in E.
    apply M_bind_inv in E as (r & st4 & E4 & E). apply lift_r_inv in E4 as (u4 & E4 & ->).
    apply list_cleanup_run in E4 as (l4 & -> & He); [|exact Ei2].
    unfold mret, M_ret in E. simplify_eq. by split.
Qed.
End init.

(** ** Lemmas: the command line *)

(** An option as the user means it. *)
Inductive cli_opt :=
  | O_list
  | O_verbose
  | O_port (v : bytes)
  | O_bind (v : bytes)
  | O_device (v : bytes)
  | O_token (v : bytes).

Definition form (short : bool) (s l : string) : bytes := if short then str s else str l.

(** The arguments that spell it, in its short or its long form. *)
Definition opt_args (short : bool) (o : cli_opt) : list bytes :=
  match o with
  | O_list => [form short "-l" "--list"]
  | O_verbose => [form short "-v" "--verbose"]
  | O_port v => [form short "-p" "--port"; v]
  | O_bind v => [form short "-b" "--bind"; v]
  | O_device v => [form short "-d" "--device"; v]
  | O_token v => [form short "-k" "--auth-token"; v]
  end.

(** What it sets. *)
Definition opt_apply (g : config) (o : cli_opt) : config :=
  {| cf_port := match o with O_port v => atoi v mod 2 ^ 16 | _ => cf_port g end;
     cf_bind_address := match o with O_bind v => take 63 (cstr v) | _ => cf_bind_address g end;
     cf_device_filter := match o with O_device v => take 31 (cstr v) | _ => cf_device_filter g end;
     cf_auth_token := match o with O_token v => Some v | _ => cf_auth_token g end;
     cf_verbose := match o with O_verbose => true | _ => cf_verbose g end;
     cf_list_only := match o with O_list => true | _ => cf_list_only g end |}.

Lemma parse_opt g short o rest :
  parse_args g (opt_args short o ++ rest) = parse_args (opt_apply g o) rest.
Proof. by destruct short, o. Qed.

(** What the buffers of [g_server] can hold. *)
Definition config_ok (g : config) : Prop :=
  is_u 16 (cf_port g) /\ (length (cf_bind_address g) < 64)%nat /\
  (length (cf_device_filter g) < USBIP_BUSID_MAX)%nat.

Lemma parse_flag_ok g a g' : config_ok g -> parse_flag g a = Some g' -> config_ok g'.
Proof. intros Hg. unfold parse_flag. by repeat case_match; intros; simplify_eq. Qed.

Lemma parse_value_ok g a v g' : config_ok g -> parse_value g a v = Some g' -> config_ok g'.
Proof.
  intros (Hp & Hb & Hd). unfold parse_value.
  repeat case_match; intros; simplify_eq; split_and!; simpl; try done;
    first [by apply is_u_wrap | apply copy_str_short; unfold USBIP_BUSID_MAX; lia].
Qed.

Lemma parse_args_ok k args g : (length args <= k)%nat -> config_ok g -> config_ok (parse_args g args).2.
Proof.
  revert args g. induction k as [|k IH]; intros args g Hl Hg; destruct args as [|a rest];
    cbn [parse_args]; simpl in Hl; try done; try lia.
  destruct (arg_is a "-h" "--help"); [done|].
  destruct (parse_flag g a) as [g'|] eqn:Ef; [apply IH; [lia|by eapply parse_flag_ok]|].
  destruct rest as [|v rest]; [done|].
  destruct (parse_value g a v) as [g'|] eqn:Ev; [|done].
  simpl in Hl. apply IH; [lia|by eapply parse_value_ok].
Qed.

(** ** Properties *)

Section properties.
  Context {N U : Type} `{WinsockLaws N} `{WinUsbLaws U}.
  Implicit Types (n : N) (u : U).

(** a session is safe whatever the client sends: from a consistent manager,
    after any number of iterations and whatever fails, the manager is consistent
    again, reached by the manager's own steps, and the client is still in it, on
    the same socket. *)
Theorem session_safe os m loc c n u ended m' st' :
  cm_inv m -> find_first (client_at loc) (cm_clients m) = Some c ->
  handle_client_session os m loc (n, u) = ((ended, m'), st') ->
  cm_inv m' /\ rtc cm_step (m, (n, u)) (m', st') /\
  map cl_loc (cm_clients m') = map cl_loc (cm_clients m) /\
  exists c', find_first (client_at loc) (cm_clients m') = Some c' /\ cl_socket c' = cl_socket c.
Proof.
  intros Hm Hf E. apply session_run with (c := c) in E as [Hmv _]; [|done..].
  destruct (Hmv Hm) as (R & _ & L & F). split; [by apply (steps_inv _ _ R)|]. split_and!; [done..|].
  destruct (F c Hf) as (c' & ? & _ & ?). by exists c'.
Qed.

(** C4: a session ends: every iteration that goes on takes at least the 8 bytes of
    a request off the client's stream, so that a client which sends [k] bytes and
    leaves is served for at most [k / 8 + 1] iterations. *)
Theorem session_terminates os m loc c n u :
  cm_inv m -> find_first (client_at loc) (cm_clients m) = Some c ->
  (length (ws_rx n (cl_socket c)) < 8 * length os)%nat ->
  exists m' st', handle_client_session os m loc (n, u) = ((true, m'), st').
Proof.
  intros Hm Hf Hl. destruct (handle_client_session os m loc (n, u)) as [[ended m'] st'] eqn:E.
  apply session_run with (c := c) in E as [_ P]; [|done..]. rewrite (P Hl). by eexists _, _.
Qed.

(** C3: the main loop leaves nothing behind: starting with no client, after any
    number of connections, whatever each of them sends and whatever fails, there
    is no client, every device is closed and not exported, and every socket that
    was accepted is closed. *)
Theorem main_loop_at_rest fd token its m st m' st' :
  cm_inv m -> cm_clients m = [] -> server_main_loop fd token its m st = (m', st') ->
  rtc cm_step (m, st) (m', st') /\ cm_inv m' /\ cm_clients m' = [] /\
  Forall idle (dl_entries (cm_device_list m')) /\ ws_open st'.1 = ws_open st.1.
Proof.
  intros Hm Hc E. apply main_loop_steps in E as (R & Hr & O); [|done].
  split; [done|]. split_and!; [apply Hr..|by apply at_rest_idle|done].
Qed.

(** C18: with a token set, a connection that changes the manager or touches a device
    began with the handshake: a token of at most 64 bytes that is a prefix of the
    server's. *)
Theorem unauthenticated_rejected fd t alloc now os m n u m' n' u' :
  no_nul t -> Forall is_byte t -> t <> [] ->
  (forall sock peer n1, tcp_server_accept_timeout fd 64 1000 n = ((sock, peer), n1) ->
     Forall is_byte (ws_rx n1 sock)) ->
  serve_one fd (Some t) alloc now os m (n, u) = (m', (n', u')) ->
  (m' = m /\ u' = u) \/
  exists sock peer n1 tok rest,
    tcp_server_accept_timeout fd 64 1000 n = ((sock, peer), n1) /\
    ws_rx n1 sock = handshake_frame tok ++ rest /\
    (1 <= length tok <= 64)%nat /\ Z.of_nat (length t) mod 256 = Z.of_nat (length tok) /\
    tok = take (length tok) t.
Proof.
  intros Hn Hb Hne Hby E. unfold serve_one in E.
  apply M_bind_inv in E as ([sock peer] & st1 & E1 & E). apply lift_l_inv in E1 as (n1 & E1 & ->).
  destruct (negb (socket_is_valid sock)); [mret_eq; by left|].
  destruct (default ([], 0) peer) as [ip port].
  assert (auth_is_enabled (Some t) = true) as Hen.
  { apply auth_enabled_cstr. by rewrite cstr_id. }
  rewrite Hen in E.
  apply M_bind_inv in E as (aerr & st2 & E2 & E). apply lift_l_inv in E2 as (n2 & E2 & ->).
  apply auth_server_cases in E2 as (_ & taken & R & Hr); [|done|by eapply Hby].
  destruct Hr as [(tok & -> & Hl & Ht & ->)|[-> _]].
  - pose proof (auth_compare_zero t tok Hn Hb Ht ltac:(lia)) as Hz.
    destruct (Z.eqb_spec (auth_compare t tok (Z.of_nat (length tok))) 0) as [E0|E0].
    + right. exists sock, peer, n1, tok, (ws_rx n2 sock). apply Hz in E0 as [? ?].
      split; [exact E1|]. split; [exact R|]. by destruct Hl.
    + cbn in E. left. apply M_bind_inv in E as (x & st3 & E3 & E).
      apply lift_l_inv in E3 as (n3 & _ & ->). by mret_eq.
  - cbn in E. left. apply M_bind_inv in E as (x & st3 & E3 & E).
    apply lift_l_inv in E3 as (n3 & _ & ->). by mret_eq.
Qed.

(** an unlink command gets exactly one answer, a [RET_UNLINK] with status 0,
    whether or not the URB was still pending; the cancelled URB is completed with
    [-ECONNRESET] behind the URBs already waiting, and not sent. *)
Theorem unlink_answered m c h hd n u go m' n' u' :
  cl_urb_handler c = Some h -> uh_initialized h = true ->
  is_u 32 (hc_seqnum (h_common hd)) -> is_u 32 (hc_devid (h_common hd)) ->
  session_unlink m c hd (n, u) = ((go, m'), (n', u')) ->
  go = true /\ u' = u /\
  (exists e, sent_post (cl_socket c) (wire_encode (usbip_create_urb_unlink_ret
     (hc_seqnum (h_common hd)) (hc_devid (h_common hd)) 0)) e n n') /\
  exists h', m' = store_client m (cl_set_handler c (Some h') (cl_worker c)) /\
    let '(found, rest) := fifo_find_remove (uh_pending h) (cu_seqnum_to_unlink (h_u hd)) in
    match found with
    | Some e => uh_pending h' = rest /\ uh_completed h' = fifo_push (uh_completed h) (cancel_entry e) /\
        urb_status (ent_urb (cancel_entry e)) = - ECANCELED
    | NULL => h' = h
    end.
Proof.
  intros Hh Hi Hs Hd E. unfold session_unlink in E. rewrite Hh in E.
  destruct (urb_handler_unlink _ _) as [e r] eqn:Eu.
  apply M_bind_inv in E as (e1 & st1 & E1 & E). apply lift_l_inv in E1 as (n1 & E1 & ->).
  apply send_urb_header_sent in E1; [|by apply urb_unlink_ret_ok].
  unfold mret, M_ret in E. simplify_eq. split; [done|]. split; [done|]. split; [by exists e1|].
  unfold urb_handler_unlink in Eu. rewrite Hi in Eu. cbn [negb] in Eu.
  destruct (fifo_find_remove _ _) as [[x|] rest]; simplify_eq; by eexists.
Qed.

(** initialization is all or nothing.  When [server_init] succeeds, the network
    and the USB host are up, the server's socket is new and valid, no client is connected,
    every enumerated device is closed and unexported, and the shared ones are all
    of them without a filter and the one with that bus id with a filter.  When it
    fails, the subsystems are down again, the device list is empty and there is no
    socket: the one that was created, if any, is closed. *)
Theorem server_init_ready env g n u err s st' :
  (forall es, in_devices env = Some es -> Forall (fun x => Forall is_byte (di_instance_id x)) es) ->
  NoDup (omap id (in_allocs env)) ->
  server_init env g (n, u) = ((err, s), st') ->
  (err = ERR_SUCCESS -> cm_inv (ss_manager s) /\ cm_clients (ss_manager s) = [] /\
     dl_initialized (cm_device_list (ss_manager s)) = true /\
     ss_running s = true /\ ss_network s = true /\ ss_usb s = true /\
     socket_is_valid (ss_socket s) = true /\ ss_socket s ∉ ws_open n /\
     ws_open st'.1 = {[ss_socket s]} ∪ ws_open n /\
     Forall (fun e => idle e /\ (de_is_shared e = true <->
       cstr (cf_device_filter g) = [] \/ busid_of e = cstr (cf_device_filter g)))
       (dl_entries (cm_device_list (ss_manager s)))) /\
  (err <> ERR_SUCCESS -> ss_running s = false /\ ss_network s = false /\ ss_usb s = false /\
     socket_is_valid (ss_socket s) = false /\ dl_entries (cm_device_list (ss_manager s)) = [] /\
     cm_clients (ss_manager s) = [] /\ ws_open st'.1 = ws_open n).
Proof. apply init_ready. Qed.

(** shutting down ends everything: however many clients are connected and
    whatever devices they use, [server_cleanup] leaves no client, no device, no
    socket, and the subsystems down; the manager itself is consistent until then. *)
Theorem server_cleanup_releases s st s' st' :
  cm_inv (ss_manager s) -> dl_initialized (cm_device_list (ss_manager s)) = true ->
  server_cleanup s st = (s', st') ->
  cm_clients (ss_manager s') = [] /\ dl_entries (cm_device_list (ss_manager s')) = [] /\
  ss_running s' = false /\ ss_network s' = false /\ ss_usb s' = false /\
  socket_is_valid (ss_socket s') = false /\
  exists m1 st1, rtc cm_step (ss_manager s, st) (m1, st1) /\ cm_inv m1 /\ cm_clients m1 = [] /\
    Forall idle (dl_entries (cm_device_list m1)).
Proof.
  intros Hm Hi E. unfold server_cleanup in E.
  apply M_bind_inv in E as (r1 & st1 & E1 & E).
  apply disconnect_all_rest in E1 as (m1 & -> & Hr & Hs & Hi1); [|done]. cbn [default id] in E. cbv zeta in E.
  apply M_bind_inv in E as (x & st2 & _ & E).
  apply M_bind_inv in E as (r3 & [n3 u3] & E3 & E).
  apply manager_cleanup_rest in E3 as (m3 & -> & Hc3 & _ & _ & Hi3 & _); [|apply Hr]. cbn [default id] in E.
  apply M_bind_inv in E as (r4 & st4 & E4 & E). apply lift_r_inv in E4 as (u4 & E4 & ->).
  apply list_cleanup_run in E4 as (l4 & -> & He); [|by rewrite Hi3, Hi1].
  unfold mret, M_ret in E. simplify_eq. simpl. split_and!; try done.
  exists m1, st1. split; [exact Hs|]. split; [apply Hr|]. split; [apply Hr|by apply at_rest_idle].
Qed.
End properties.

(** every option, in its short or its long form and with any value, is
    understood, in any order and number, the last one winning. *)
Theorem parse_args_roundtrip g opts :
  parse_args g (concat (map (fun o => opt_args o.1 o.2) opts)) =
  (0, fold_left (fun g o => opt_apply g o.2) opts g).
Proof.
  revert g. induction opts as [|[short o] opts IH]; intros g; [done|].
  cbn [map concat fst snd fold_left]. by rewrite parse_opt, IH.
Qed.

(** whatever the arguments, the configuration fits its fields: the port 16
    bits, the address and the filter their buffers with the terminating NUL. *)
Theorem config_bounds args : config_ok (parse_args config_default args).2.
Proof.
  apply (parse_args_ok (length args)); [done|]. split; [by vm_compute|]. unfold USBIP_BUSID_MAX. split; simpl; lia.
Qed.

(** ** Witnesses *)

Definition example_iter : iter_env := {|
  it_running := true; it_attach := example_env; it_malloc := true; it_calloc := true;
  it_memory := Some (replicate 18 0); it_now := 2000; it_waiting := 1; it_worker := 4 |}.

Definition import_request (busid : bytes) : bytes :=
  wire_encode {| hb_version := USBIP_PROTO_VERSION; hb_command := OP_REQ_IMPORT; hb_status := 0 |} ++
  busid ++ replicate (USBIP_BUSID_MAX - length busid) 0.

(** A request for the device descriptor, and an attempt to unlink it. *)
Definition submit_request : bytes :=
  wire_encode (usbip_create_urb_submit 7 0x10002 USBIP_DIR_IN 0 0 18
    (Some [0x80; 6; 0; 1; 0; 0; 18; 0])).

Definition unlink_header : usbip_header := usbip_create_urb_unlink 8 0x10002 7.

(** A client that imports the device, uses it, and leaves. *)
Definition client_stream : bytes :=
  import_request example_busid ++ submit_request ++ wire_encode unlink_header.

Definition example_net : Sim.net := Sim.one 5 client_stream [].

Definition example_session :=
  handle_client_session (replicate 20 example_iter) example_manager 8192
    (example_net, SimUsb.start []).

Lemma example_found : find_first (client_at 8192) (cm_clients example_manager) = Some (example_client 8192 1).
Proof. reflexivity. Qed.

Lemma session_terminates_witness :
  exists m' st', example_session = ((true, m'), st').
Proof.
  refine (session_terminates (replicate 20 example_iter) example_manager 8192 (example_client 8192 1)
    example_net (SimUsb.start []) example_manager_inv example_found _).
  apply Nat.ltb_lt. vm_compute. reflexivity.
Defined.

Lemma session_safe_witness :
  cm_inv example_session.1.2.
Proof.
  destruct example_session as [[ended m'] st'] eqn:E.
  exact (proj1 (session_safe _ _ _ _ _ _ _ _ _ example_manager_inv example_found E)).
Defined.

(** What the client of this session receives: the reply to the import with the
    device, the answer to the URB, and the answer to the unlink.  The answer to
    the URB has no data ([UrbHandler.control_in_not_control]). *)
Example example_session_answers :
  length (ws_tx example_session.2.1 5) = (8 + 312 + 48 + 48)%nat /\
  length (ws_rx example_session.2.1 5) = 0%nat.
Proof. vm_compute. done. Qed.

(** A server with a waiting client, on the listening socket 4. *)
Definition example_waiting : Sim.net := {|
  Sim.n_conns := {[ 4 := {| Sim.c_in := []; Sim.c_pace := [] |} ]}; Sim.n_sent := ∅;
  Sim.n_backlog := [({| Sim.c_in := client_stream; Sim.c_pace := [] |}, (0x0100000A, 40000))];
  Sim.n_peers := []; Sim.n_datagrams := []; Sim.n_next := 5; Sim.n_clock := 0 |}.

Definition example_accept : accept_env := {|
  ac_alloc := Some 8192; ac_now := 0; ac_session := replicate 20 example_iter |}.

Definition example_served := server_main_loop 4 NULL [example_accept; example_accept] empty_manager
  (example_waiting, SimUsb.start []).

Lemma empty_manager_inv : cm_inv empty_manager.
Proof.
  split; try done; try apply example_list_inv; try (by vm_compute).
  - apply (Forall_impl _ _ _ example_list_idle). by intros ? [].
  - apply NoDup_nil_2.
  - apply NoDup_nil_2.
  - apply (Forall_impl _ _ _ example_list_idle). intros ? []. by left.
Qed.

Lemma main_loop_at_rest_witness :
  cm_clients example_served.1 = [] /\ Forall idle (dl_entries (cm_device_list example_served.1)).
Proof.
  destruct example_served as [m' st'] eqn:E.
  destruct (main_loop_at_rest 4 NULL _ empty_manager _ m' st' empty_manager_inv eq_refl E)
    as (_ & _ & Hc & Hi & _). split; [exact Hc|exact Hi].
Defined.

(** The client was served: it has its answers. *)
Example example_served_answers : length (ws_tx example_served.2.1 5) = (8 + 312 + 48 + 48)%nat.
Proof. vm_compute. reflexivity. Qed.

Lemma accepted_stream sock peer n1 :
  tcp_server_accept_timeout 4 64 1000 example_waiting = ((sock, peer), n1) ->
  ws_rx n1 sock = client_stream.
Proof.
  intros E. assert (sock = (tcp_server_accept_timeout 4 64 1000 example_waiting).1.1) as -> by (by rewrite E).
  assert (n1 = (tcp_server_accept_timeout 4 64 1000 example_waiting).2) as -> by (by rewrite E).
  vm_compute. reflexivity.
Qed.

(** With a token set, the same client is turned away: its stream is no handshake. *)
Lemma unauthenticated_rejected_witness :
  let '(m', (n', u')) := serve_one 4 (Some (str "secret")) (Some 8192) 0 (replicate 20 example_iter)
                           empty_manager (example_waiting, SimUsb.start []) in
  m' = empty_manager /\ u' = SimUsb.start [].
Proof.
  destruct (serve_one _ _ _ _ _ _ _) as [m' [n' u']] eqn:E.
  destruct (unauthenticated_rejected 4 (str "secret") (Some 8192) 0 (replicate 20 example_iter)
    empty_manager example_waiting (SimUsb.start []) m' n' u') as [?|(sock & peer & n1 & tok & rest & Ea & Er & _)].
  - apply (bool_decide_unpack _). vm_compute. reflexivity.
  - apply (bool_decide_unpack _). vm_compute. reflexivity.
  - discriminate.
  - intros sock peer n1 Ea. rewrite (accepted_stream _ _ _ Ea).
    apply (bool_decide_unpack _). vm_compute. reflexivity.
  - exact E.
  - assumption.
  - exfalso. rewrite (accepted_stream _ _ _ Ea) in Er. apply (f_equal head) in Er.
    vm_compute in Er. discriminate Er.
Defined.

Lemma unlink_answered_witness :
  (session_unlink example_manager (cl_set_handler (example_client 8192 1) (Some example_handler) W_none)
     unlink_header (example_net, SimUsb.start [])).1.1 = true.
Proof.
  destruct (session_unlink _ _ _ _) as [[go m'] [n' u']] eqn:E.
  exact (proj1 (unlink_answered example_manager
    (cl_set_handler (example_client 8192 1) (Some example_handler) W_none) example_handler unlink_header
    example_net (SimUsb.start []) go m' n' u' eq_refl eq_refl
    ltac:(by vm_compute) ltac:(by vm_compute) E)).
Defined.

Definition example_init : init_env := {|
  in_log := {| le_mutex := 0; le_console := true; le_call := example_call (str "starting") |}; in_wsa := 0; in_list_mutex := 0; in_manager_mutex := 0;
  in_devices := Some [example_entry]; in_utf8 := fun _ _ => None; in_allocs := [Some 4096];
  in_now := 0; in_token := NULL |}.

Definition example_started : error_code * server_state :=
  (server_init example_init config_default (Sim.one 3 [] [], SimUsb.start [])).1.

Lemma server_init_ready_witness :
  example_started.1 = ERR_SUCCESS /\ cm_inv (ss_manager example_started.2).
Proof.
  destruct (server_init example_init config_default (Sim.one 3 [] [], SimUsb.start []))
    as [[err s] st'] eqn:E.
  assert (example_started = (err, s)) as -> by (unfold example_started; by rewrite E).
  assert (err = ERR_SUCCESS) as ->.
  { assert (err = example_started.1) as -> by (unfold example_started; by rewrite E).
    vm_compute. reflexivity. }
  split; [reflexivity|].
  destruct (server_init_ready example_init config_default (Sim.one 3 [] []) (SimUsb.start [])
    ERR_SUCCESS s st') as [Hs _]; [| |exact E|by apply Hs].
  - intros es [= <-]. repeat constructor; by vm_compute.
  - apply NoDup_singleton.
Defined.

(** A running server with an attached client. *)
Definition example_server : server_state := {|
  ss_network := true; ss_usb := true; ss_manager := example_busy; ss_socket := 3; ss_running := true;
  ss_auth_token := [] |}.

Lemma server_cleanup_releases_witness :
  cm_clients (ss_manager (server_cleanup example_server (example_net, example_u1)).1) = [].
Proof.
  destruct (server_cleanup example_server (example_net, example_u1)) as [s' st'] eqn:E.
  destruct (server_cleanup_releases example_server (example_net, example_u1) s' st') as [Hc _];
    [exact (proj1 example_busy_inv)|vm_compute; reflexivity|exact E|exact Hc].
Defined.
