(* ===== verification/ServerMain.v ===== *)
(** * The server's [main] ([server/main.c])

    The listing of [-l], and the whole program: the command line, then either the
    listing or initialization, main loop and cleanup.  The listing's text is built
    as [printf] does; the other messages are not represented. *)

From Stdlib Require Import String.
From S2P Require Import Prelude CTypes Format Errors Log Protocol Net ProtocolIO Auth UsbHost DeviceList.
From S2P Require Import UrbQueue UrbHandler ClientManager Server.

(** ** Names for speeds and classes ([common/usb_defs.h]) *)

Definition USB_SPEED_SUPER_PLUS : Z := 6.

Definition usb_speed_string (speed : Z) : string :=
  if speed =? USB_SPEED_LOW then "Low (1.5 Mbps)"%string else
  if speed =? USB_SPEED_FULL then "Full (12 Mbps)"%string else
  if speed =? USB_SPEED_HIGH then "High (480 Mbps)"%string else
  if speed =? USB_SPEED_SUPER then "Super (5 Gbps)"%string else
  if speed =? USB_SPEED_SUPER_PLUS then "Super+ (10 Gbps)"%string else
  "Unknown"%string.

(** [USB_CLASS_*], in the order of the [switch]. *)
Definition class_names : list (Z * string) :=
  [(0x00, "Per Interface"%string); (0x01, "Audio"%string); (0x02, "Communications"%string); (0x03, "HID"%string);
   (0x05, "Physical"%string); (0x06, "Image"%string); (0x07, "Printer"%string); (0x08, "Mass Storage"%string); (0x09, "Hub"%string);
   (0x0A, "CDC Data"%string); (0x0E, "Video"%string); (0xE0, "Wireless"%string); (0xEF, "Miscellaneous"%string);
   (0xFF, "Vendor Specific"%string)].

Definition usb_class_string (class_code : Z) : string :=
  match find_first (fun x => x.1 =? class_code) class_names with
  | Some (_, name) => name
  | None => "Unknown"%string
  end.

(** ** The listing *)

Definition newline : bytes := [10].

(** A line that is printed only when the field is not empty. *)
Definition print_field (label : string) (field : bytes) : bytes :=
  if negb (char_at field 0 =? 0) then str label ++ cstr field ++ newline else [].

(** [printed]: the text on the console so far. *)
Definition print_device_callback (device : usb_device) (printed : bytes) : bytes :=
  printed ++
  str "  " ++ cstr (dev_busid device) ++ str ": " ++ fmt_0X 4 (dev_vendor_id device) ++ str ":" ++
    fmt_0X 4 (dev_product_id device) ++ newline ++
  str "    Path: " ++ cstr (dev_path device) ++ newline ++
  str "    Class: " ++ str (usb_class_string (dev_class device)) ++ str " (" ++
    fmt_0X 2 (dev_class device) ++ str "/" ++ fmt_0X 2 (dev_subclass device) ++ str "/" ++
    fmt_0X 2 (dev_protocol device) ++ str ")" ++ newline ++
  str "    Speed: " ++ str (usb_speed_string (dev_speed device)) ++ newline ++
  print_field "    Manufacturer: " (dev_manufacturer device) ++
  print_field "    Product: " (dev_product device) ++
  print_field "    Serial: " (dev_serial device) ++ newline.

(** The exit code and the text. *)
Definition list_devices (utf8 : list Z -> nat -> option bytes) (initialized : bool)
    (dev_info : ptr (list di_entry)) : Z * bytes :=
  let printed := str "Available USB devices:" ++ newline ++ newline in
  let '(err, printed) := usb_enumerate_devices utf8 initialized dev_info print_device_callback printed in
  if negb (error_code_eqb err ERR_SUCCESS) then (1, printed) else (0, printed).

(** ** The program *)

Definition with_manager (s : server_state) (m : client_manager) : server_state := {|
  ss_network := ss_network s; ss_usb := ss_usb s; ss_manager := m; ss_socket := ss_socket s;
  ss_running := ss_running s; ss_auth_token := ss_auth_token s |}.

Section main.
  Context {N U : Type} `{Winsock N} `{WinUsb U}.

(** The exit code, the state at the end, and the listing's text.  [its] is what the
    iterations of the main loop meet, until the signal handler clears [running].
    [server_main_loop] always reports success. *)
Definition server_main (env : init_env) (its : list accept_env) (args : list bytes) :
    M (N * U) (Z * server_state * bytes) :=
  let '(r, g) := parse_args config_default args in
  if negb (r =? 0) then mret (1, server_zero, []) else
  if cf_list_only g then
    let '(_, net) := network_init false (in_wsa env) in
    let '(_, usb) := usb_host_init false in
    let '(exit_code, printed) := list_devices (in_utf8 env) usb (in_devices env) in
    mret (exit_code, ss_set (network_cleanup net) (usb_host_cleanup usb) manager_zero, printed)
  else
    '(err, s) ← server_init env g;
    if negb (error_code_eqb err ERR_SUCCESS) then mret (1, s, []) else
    m ← server_main_loop (ss_socket s) (Some (ss_auth_token s)) its (ss_manager s);
    s ← server_cleanup (with_manager s m);
    mret (0, s, []).
End main.

(** ** Lemmas *)

(** The text that is printed for one device. *)
Definition device_text (device : usb_device) : bytes := print_device_callback device [].

Lemma enumerate_text utf8 entries init :
  enumerate_loop utf8 entries print_device_callback init =
  init ++ concat (device_text <$> enumerated utf8 entries).
Proof.
  rewrite enumerate_loop_fold. generalize (enumerated utf8 entries). intros devs. revert init.
  induction devs as [|d devs IH]; intros init; cbn [fold_left]; [by rewrite app_nil_r|].
  rewrite IH, fmap_cons. cbn [concat]. by rewrite app_assoc.
Qed.

Lemma list_devices_code utf8 info code printed :
  list_devices utf8 true info = (code, printed) ->
  (code = 0 \/ code = 1) /\
  forall es, info = Some es -> code = 0 /\
    printed = (str "Available USB devices:" ++ newline ++ newline) ++ concat (device_text <$> enumerated utf8 es).
Proof.
  unfold list_devices. cbv zeta. generalize (str "Available USB devices:" ++ newline ++ newline).
  intros header E. destruct info as [es|]; cbn [usb_enumerate_devices negb] in E; rewrite ?enumerate_text in E.
  - change (error_code_eqb ERR_SUCCESS ERR_SUCCESS) with true in E. cbn [negb] in E. injection E as <- <-.
    split; [by left|]. by intros es' [= <-].
  - change (error_code_eqb ERR_USB_INIT ERR_SUCCESS) with false in E. cbn [negb] in E. injection E as <- <-.
    split; [by right|done].
Qed.

Section laws.
  Context {N U : Type} `{WinsockLaws N} `{WinUsbLaws U}.
  Implicit Types (n : N) (u : U).

(** Shutting down with no client connected closes the server's socket, and no other. *)
Lemma cleanup_at_rest s n u s' st' :
  at_rest (ss_manager s) -> dl_initialized (cm_device_list (ss_manager s)) = true ->
  socket_is_valid (ss_socket s) = true -> server_cleanup s (n, u) = (s', st') ->
  cm_clients (ss_manager s') = [] /\ dl_entries (cm_device_list (ss_manager s')) = [] /\
  ss_running s' = false /\ ss_network s' = false /\ ss_usb s' = false /\
  socket_is_valid (ss_socket s') = false /\ ws_open st'.1 = ws_open n ∖ {[ss_socket s]}.
Proof.
  intros [Hm Hc] Hi Hv E. unfold server_cleanup in E.
  rewrite (M_bind_run _ _ _ _ _ (disconnect_all_none _ (n, u) Hc)) in E. cbn [default id] in E. cbv zeta in E.
  rewrite Hv in E.
  apply M_bind_inv in E as ([] & st2 & E2 & E). apply lift_l_inv in E2 as (n2 & E2 & ->).
  apply close_open in E2; [|done].
  rewrite (M_bind_run _ _ _ _ _ (manager_cleanup_none _ (n2, u) (cmi_init _ Hm) Hc)) in E. cbn [default id] in E.
  apply M_bind_inv in E as (r4 & st4 & E4 & E). apply lift_r_inv in E4 as (u4 & E4 & ->).
  apply list_cleanup_run in E4 as (l4 & -> & He); [|exact Hi].
  unfold mret, M_ret in E. simplify_eq. done.
Qed.

(** ** Properties *)

(** C21: the server leaves nothing behind: whatever the arguments, however many clients
    come and whatever they do, when [main] returns there is no client, no device
    entry, the subsystems are down, and the descriptors that are open are those
    that were open before.  The exit code is 0 or 1, and the listing of [-l]
    touches neither the network nor a device and prints the text of every device
    that the enumeration does not skip. *)
Theorem server_leaves_nothing env its args n u code s printed st' listing :
  (forall es, in_devices env = Some es -> Forall (fun x => Forall is_byte (di_instance_id x)) es) ->
  NoDup (omap id (in_allocs env)) ->
  server_main env its args (n, u) = ((code, s, printed), st') ->
  (code = 0 \/ code = 1) /\
  cm_clients (ss_manager s) = [] /\ dl_entries (cm_device_list (ss_manager s)) = [] /\
  ss_running s = false /\ ss_network s = false /\ ss_usb s = false /\
  socket_is_valid (ss_socket s) = false /\ ws_open st'.1 = ws_open n /\
  (parse_args config_default args = (0, listing) -> cf_list_only listing = true ->
   st' = (n, u) /\ forall es, in_devices env = Some es -> code = 0 /\
     printed = (str "Available USB devices:" ++ newline ++ newline) ++
               concat (device_text <$> enumerated (in_utf8 env) es)).
Proof.
  intros Hb Hd E. unfold server_main in E. destruct (parse_args config_default args) as [r g].
  destruct (Z.eqb_spec r 0) as [->|Hr]; cbn [negb] in E; [|mret_eq; split; [by right|]; split_and!; try done; by intros [= ->]].
  destruct (cf_list_only g) eqn:Eg.
  { unfold usb_host_init in E. destruct (network_init _ _) as [e1 net].
    destruct (list_devices _ _ _) as [exit_code text] eqn:El. apply list_devices_code in El. mret_eq.
    destruct El as [Ec El]. split; [exact Ec|]. split_and!; try done. }
  apply M_bind_inv in E as ([err s1] & [n1 u1] & E1 & E). apply init_ready in E1 as [Hok Hko]; [|done..].
  destruct (error_code_eqb err ERR_SUCCESS) eqn:Ee; cbn [negb] in E; cycle 1.
  { mret_eq. assert (err <> ERR_SUCCESS) as Hne by (intros ->; by vm_compute in Ee). destruct (Hko Hne) as (? & ? & ? & ? & ? & ? & ?).
    split; [by right|]. split_and!; try done. intros [= ->]. congruence. }
  apply error_code_eqb_true in Ee as ->. destruct (Hok eq_refl) as (Hm & Hc & Hi & _ & _ & _ & Hv & Hnew & O1 & _).
  apply M_bind_inv in E as (m2 & [n2 u2] & E2 & E).
  apply main_loop_steps in E2 as (R2 & Hr2 & O2); [|done]. pose proof (steps_initialized _ _ R2) as Hi2.
  apply M_bind_inv in E as (s3 & [n3 u3] & E3 & E).
  apply cleanup_at_rest in E3 as (? & ? & ? & ? & ? & ? & O3); [|done|by simpl in Hi2 |- *; congruence|done].
  mret_eq. split; [by left|]. split_and!; try done; [|intros [= ->]; congruence]. eapply opened_closed; [exact Hnew|exact O1|].
  simpl in *. by rewrite O3, O2.
Qed.
End laws.

(** ** Witness

    A server without arguments, and two iterations of the main loop: a client that
    is served and one that does not come. *)
Definition example_main : Z * server_state * bytes :=
  (server_main example_init [example_accept; example_accept] []
    (Sim.one 3 [] [], SimUsb.start [])).1.

Lemma server_leaves_nothing_witness :
  example_main.1.1 = 0 /\ ss_running example_main.1.2 = false /\
  cm_clients (ss_manager example_main.1.2) = [].
Proof.
  split; [by vm_compute|].
  destruct (server_main example_init [example_accept; example_accept] []
    (Sim.one 3 [] [], SimUsb.start [])) as [[[code s] printed] st'] eqn:E.
  assert (example_main = (code, s, printed)) as -> by (unfold example_main; by rewrite E).
  destruct (server_leaves_nothing example_init [example_accept; example_accept] []
    (Sim.one 3 [] []) (SimUsb.start []) code s printed st' config_default) as (_ & Hc & _ & Hr & _);
    [| |exact E|by split].
  - intros es [= <-]. repeat constructor; by vm_compute.
  - apply NoDup_singleton.
Defined.

(** The listing of one device. *)
Example example_listing :
  (server_main (N := Sim.net) (U := SimUsb.usb) example_init [] [str "-l"]
    (Sim.one 3 [] [], SimUsb.start [])).1.1.1 = 0.
Proof. vm_compute. reflexivity. Qed.
