(* ===== verification/UsbDescriptors.v ===== *)
(** * Descriptors, hotplug and printing ([server/usb_host_win32.c])

    The functions of the USB layer that the rest of the program does not call: reading a
    device's descriptors, the stubs for configurations and asynchronous transfers, the
    hotplug registration and the listing of one device in the log.  Reading is over one
    more WinUSB call, [WinUsb_GetDescriptor]. *)

From Stdlib Require Import String.
From S2P Require Import Prelude CTypes Format Errors Log Protocol Net ProtocolIO Auth UsbHost DeviceList.
From S2P Require Import UrbQueue UrbHandler ClientManager Server ServerMain.

Definition USB_DEVICE_DESCRIPTOR_TYPE : Z := 1.
Definition USB_CONFIGURATION_DESCRIPTOR_TYPE : Z := 2.
Definition USB_STRING_DESCRIPTOR_TYPE : Z := 3.

(** The bytes transferred, when the call succeeds; no more than the buffer's length. *)
Class WinUsbDescriptors (U : Type) := {
  WinUsb_GetDescriptor : ptr Z -> Z -> Z -> Z -> Z -> M U (ptr bytes);
}.

Class WinUsbDescriptorsLaws (U : Type) `{WinUsbDescriptors U} := {
  get_descriptor_len h ty i lang n u bs u' :
    WinUsb_GetDescriptor h ty i lang n u = (Some bs, u') -> 0 <= n ->
    Z.of_nat (length bs) <= n /\ Forall is_byte bs;
}.

(** ** The device descriptor ([common/usb_defs.h]) *)

Record usb_device_descriptor := {
  dd_bLength : Z;
  dd_bDescriptorType : Z;
  dd_bcdUSB : Z;
  dd_bDeviceClass : Z;
  dd_bDeviceSubClass : Z;
  dd_bDeviceProtocol : Z;
  dd_bMaxPacketSize0 : Z;
  dd_idVendor : Z;
  dd_idProduct : Z;
  dd_bcdDevice : Z;
  dd_iManufacturer : Z;
  dd_iProduct : Z;
  dd_iSerialNumber : Z;
  dd_bNumConfigurations : Z;
}.

Definition USB_DEVICE_DESCRIPTOR_SIZE : nat := 18.

(** The packed structure in memory. *)
Definition device_descriptor_mem (d : usb_device_descriptor) : bytes :=
  to_le 1 (dd_bLength d) ++ to_le 1 (dd_bDescriptorType d) ++ to_le 2 (dd_bcdUSB d) ++
  to_le 1 (dd_bDeviceClass d) ++ to_le 1 (dd_bDeviceSubClass d) ++ to_le 1 (dd_bDeviceProtocol d) ++
  to_le 1 (dd_bMaxPacketSize0 d) ++ to_le 2 (dd_idVendor d) ++ to_le 2 (dd_idProduct d) ++
  to_le 2 (dd_bcdDevice d) ++ to_le 1 (dd_iManufacturer d) ++ to_le 1 (dd_iProduct d) ++
  to_le 1 (dd_iSerialNumber d) ++ to_le 1 (dd_bNumConfigurations d).

Definition device_descriptor_of (bs : bytes) : usb_device_descriptor :=
  let byte i := of_le (take 1 (drop i bs)) in let word i := of_le (take 2 (drop i bs)) in {|
  dd_bLength := byte 0%nat; dd_bDescriptorType := byte 1%nat; dd_bcdUSB := word 2%nat;
  dd_bDeviceClass := byte 4%nat; dd_bDeviceSubClass := byte 5%nat; dd_bDeviceProtocol := byte 6%nat;
  dd_bMaxPacketSize0 := byte 7%nat; dd_idVendor := word 8%nat; dd_idProduct := word 10%nat;
  dd_bcdDevice := word 12%nat; dd_iManufacturer := byte 14%nat; dd_iProduct := byte 15%nat;
  dd_iSerialNumber := byte 16%nat; dd_bNumConfigurations := byte 17%nat |}.

(** [bs] stored over the beginning of [mem]. *)
Definition stored (bs mem : bytes) : bytes := bs ++ drop (length bs) mem.

(** ** Strings *)

(** How many characters of a string descriptor are copied: [int] arithmetic, whose
    division rounds towards zero. *)
Definition string_copy_chars (bLength buffer_size : Z) : Z :=
  let chars := Z.quot (bLength - 2) 2 in
  let room := sint 32 buffer_size - 1 in
  if chars <? room then chars else room.

(** The low bytes of the first [n] characters from offset 2. *)
Definition string_chars (str_buffer : bytes) (n : nat) : bytes :=
  (fun i => wrap 8 (of_le (take 2 (drop (2 + 2 * i)%nat str_buffer)))) <$> seq 0 n.

Section descriptors.
  Context {U : Type} `{WinUsbDescriptors U}.

(** The descriptor as it is in the caller's structure afterwards, [desc] being what it
    held before. *)
Definition usb_get_device_descriptor (device : ptr usb_device) (desc : ptr usb_device_descriptor) :
    M U (error_code * ptr usb_device_descriptor) :=
  match device, desc with
  | Some d, Some old =>
      if negb (dev_is_open d) then mret (ERR_INVALID_PARAM, desc) else
      r ← WinUsb_GetDescriptor (interface_handle d 0) USB_DEVICE_DESCRIPTOR_TYPE 0 0
            (Z.of_nat USB_DEVICE_DESCRIPTOR_SIZE);
      match r with
      | NULL => mret (ERR_USB_DESCRIPTOR_ERROR, desc)
      | Some bs => mret (ERR_SUCCESS, Some (device_descriptor_of (stored bs (device_descriptor_mem old))))
      end
  | _, _ => mret (ERR_INVALID_PARAM, desc)
  end.

(** The bytes at the start of the caller's buffer, and [*actual_size]. *)
Definition usb_get_config_descriptor (device : ptr usb_device) (config_index : Z) (buffer : ptr bytes)
    (buffer_size : Z) : M U (error_code * ptr bytes * option Z) :=
  match device, buffer with
  | Some d, Some mem =>
      if negb (dev_is_open d) then mret (ERR_INVALID_PARAM, buffer, None) else
      r ← WinUsb_GetDescriptor (interface_handle d 0) USB_CONFIGURATION_DESCRIPTOR_TYPE config_index 0
            (wrap 32 buffer_size);
      match r with
      | NULL => mret (ERR_USB_DESCRIPTOR_ERROR, buffer, None)
      | Some bs => mret (ERR_SUCCESS, Some (stored bs mem), Some (Z.of_nat (length bs)))
      end
  | _, _ => mret (ERR_INVALID_PARAM, buffer, None)
  end.

(** The characters stored from the start of [buffer], and the index at which the NUL is
    stored.  [stale]: what the 256 bytes of [str_buffer] hold before the call. *)
Definition usb_get_string_descriptor (device : ptr usb_device) (index lang_id : Z) (buffer : bool)
    (buffer_size : Z) (stale : bytes) : M U (error_code * option (bytes * Z)) :=
  match device with
  | Some d =>
      if negb buffer || negb (dev_is_open d) then mret (ERR_INVALID_PARAM, None) else
      r ← WinUsb_GetDescriptor (interface_handle d 0) USB_STRING_DESCRIPTOR_TYPE index lang_id 256;
      match r with
      | NULL => mret (ERR_USB_DESCRIPTOR_ERROR, None)
      | Some bs =>
          let str_buffer := stored bs stale in
          let copy_chars := string_copy_chars (char_at str_buffer 0) buffer_size in
          mret (ERR_SUCCESS, Some (string_chars str_buffer (Z.to_nat copy_chars), copy_chars))
      end
  | NULL => mret (ERR_INVALID_PARAM, None)
  end.
End descriptors.

(** ** Stubs *)

Definition usb_set_configuration (device : ptr usb_device) (configuration : Z) : error_code := ERR_SUCCESS.

Definition usb_reap_urb (device : ptr usb_device) (timeout_ms : Z) : error_code := ERR_NOT_SUPPORTED.

Definition usb_get_speed (win_speed : Z) : Z := get_usb_speed win_speed.

(** ** Hotplug

    The part of [g_usb_host] that the registration sets; nothing calls the callback. *)

Record hotplug (A : Type) := {
  hotplug_callback : ptr (usb_device -> bool -> ptr A -> A);
  hotplug_user_data : ptr A;
}.
Arguments hotplug_callback {A}.
Arguments hotplug_user_data {A}.

Definition usb_register_hotplug {A} (callback : ptr (usb_device -> bool -> ptr A -> A)) (user_data : ptr A)
    (h : hotplug A) : error_code * hotplug A :=
  (ERR_SUCCESS, {| hotplug_callback := callback; hotplug_user_data := user_data |}).

Definition usb_unregister_hotplug {A} (h : hotplug A) : hotplug A :=
  {| hotplug_callback := NULL; hotplug_user_data := NULL |}.

(** ** Printing *)

(** The messages that are logged. *)
Definition usb_print_device_info (d : usb_device) : list bytes := [
  str "USB Device: " ++ cstr (dev_busid d);
  str "  Path: " ++ cstr (dev_path d);
  str "  VID/PID: " ++ fmt_0X 4 (dev_vendor_id d) ++ str ":" ++ fmt_0X 4 (dev_product_id d);
  str "  Class: " ++ fmt_0X 2 (dev_class d) ++ str "/" ++ fmt_0X 2 (dev_subclass d) ++ str "/" ++
    fmt_0X 2 (dev_protocol d);
  str "  Speed: " ++ str (usb_speed_string (dev_speed d));
  str "  Manufacturer: " ++ cstr (dev_manufacturer d);
  str "  Product: " ++ cstr (dev_product d);
  str "  Serial: " ++ cstr (dev_serial d);
  str "  Interfaces: " ++ fmt_u (dev_num_interfaces d)].

(** ** Lemmas *)

Definition descriptor_ok (d : usb_device_descriptor) : Prop :=
  is_u 8 (dd_bLength d) /\ is_u 8 (dd_bDescriptorType d) /\ is_u 16 (dd_bcdUSB d) /\
  is_u 8 (dd_bDeviceClass d) /\ is_u 8 (dd_bDeviceSubClass d) /\ is_u 8 (dd_bDeviceProtocol d) /\
  is_u 8 (dd_bMaxPacketSize0 d) /\ is_u 16 (dd_idVendor d) /\ is_u 16 (dd_idProduct d) /\
  is_u 16 (dd_bcdDevice d) /\ is_u 8 (dd_iManufacturer d) /\ is_u 8 (dd_iProduct d) /\
  is_u 8 (dd_iSerialNumber d) /\ is_u 8 (dd_bNumConfigurations d).

Lemma length_device_descriptor d : length (device_descriptor_mem d) = USB_DEVICE_DESCRIPTOR_SIZE.
Proof. unfold device_descriptor_mem. by rewrite !length_app, !length_to_le. Qed.

(** A field of the layout, read back. *)
Ltac read_field :=
  match goal with
  | |- _ = ?x => first [ transitivity (of_le (to_le 1 x)); [reflexivity|] | transitivity (of_le (to_le 2 x)); [reflexivity|] ];
                 rewrite of_to_le; by apply wrap_small
  end.

Lemma descriptor_of_mem d : descriptor_ok d -> device_descriptor_of (device_descriptor_mem d) = d.
Proof.
  destruct d. unfold descriptor_ok. cbn -[is_u]. intros Hd. destruct_and!.
  unfold device_descriptor_of. cbv zeta. f_equal; read_field.
Qed.

Lemma stored_whole bs mem : length bs = length mem -> stored bs mem = bs.
Proof. intros E. unfold stored. by rewrite E, drop_all, app_nil_r. Qed.

Lemma length_stored bs mem : (length bs <= length mem)%nat -> length (stored bs mem) = length mem.
Proof. intros. unfold stored. rewrite length_app, length_drop. lia. Qed.

(** The number of characters, by the length the descriptor claims. *)
Lemma copy_chars_range bLength size :
  is_byte bLength -> 0 < size < 2 ^ 31 ->
  let n := string_copy_chars bLength size in
  -1 <= n <= 126 /\ n < size /\ (n = -1 <-> bLength = 0) /\ (2 <= bLength -> 2 + 2 * n <= bLength).
Proof.
  unfold is_byte, is_u. intros Hb Hs. unfold string_copy_chars. cbv zeta.
  assert (sint 32 size = size) as ->.
  { rewrite <- (wrap_small 32 size) at 1 by (unfold is_u; lia). apply sint_small; lia. }
  assert (-1 <= Z.quot (bLength - 2) 2 <= 126 /\ (Z.quot (bLength - 2) 2 = -1 <-> bLength = 0) /\
    (2 <= bLength -> 2 + 2 * Z.quot (bLength - 2) 2 <= bLength)) as (Hq & Hz & Hl).
  { destruct (decide (bLength < 2)) as [Hlt|Hge].
    - assert (bLength = 0 \/ bLength = 1) as [-> | ->] by lia; vm_compute; split_and!; intuition congruence.
    - rewrite Z.quot_div_nonneg by lia. pose proof (Z.div_mod (bLength - 2) 2). pose proof (Z.mod_pos_bound (bLength - 2) 2).
      split_and!; lia. }
  destruct (Z.ltb_spec (Z.quot (bLength - 2) 2) (size - 1)); split_and!; lia.
Qed.

(** Characters that were transferred do not depend on what was there before. *)
Lemma chars_transferred bs stale n :
  (2 + 2 * n <= length bs)%nat -> string_chars (stored bs stale) n = string_chars bs n.
Proof.
  intros Hl. unfold string_chars. apply list_fmap_ext. intros k i Hk%list_elem_of_lookup_2.
  apply elem_of_seq in Hk. unfold stored. rewrite drop_app_le by lia. rewrite take_app_le; [done|].
  rewrite length_drop. lia.
Qed.

Section laws.
  Context {U : Type} `{WinUsbDescriptorsLaws U}.

(** reading a device's descriptor gives the one the device has: when the whole
    descriptor arrives, what is in the caller's structure is the structure the device
    sent, whatever was in it before. *)
Theorem device_descriptor_read d old sent u r u' :
  dev_is_open d = true -> descriptor_ok sent ->
  WinUsb_GetDescriptor (interface_handle d 0) USB_DEVICE_DESCRIPTOR_TYPE 0 0 18 u =
    (Some (device_descriptor_mem sent), u') ->
  usb_get_device_descriptor (Some d) (Some old) u = (r, u') -> r = (ERR_SUCCESS, Some sent).
Proof.
  intros Ho Hs E E2. unfold usb_get_device_descriptor in E2. rewrite Ho in E2. cbn [negb] in E2.
  apply M_bind_inv in E2 as (x & u1 & E1 & E2). change (Z.of_nat USB_DEVICE_DESCRIPTOR_SIZE) with 18 in E1.
  rewrite E in E1. simplify_eq. mret_eq.
  by rewrite stored_whole, descriptor_of_mem by (by rewrite ?length_device_descriptor).
Qed.

(** the bounds of [usb_get_string_descriptor].  At most 126 characters are stored and
    the NUL comes right after them, inside a buffer of any size above zero; they are the
    characters the device sent when it sent as many as it claims.  The one exception is
    a descriptor that claims length 0: the NUL is then stored at index -1, before the
    buffer. *)
Theorem string_descriptor_bounds d index lang_id size stale u chars nul u' :
  length stale = 256%nat -> Forall is_byte stale -> 0 < size < 2 ^ 31 ->
  usb_get_string_descriptor (Some d) index lang_id true size stale u =
    ((ERR_SUCCESS, Some (chars, nul)), u') ->
  exists bs, let bLength := char_at (stored bs stale) 0 in
    WinUsb_GetDescriptor (interface_handle d 0) USB_STRING_DESCRIPTOR_TYPE index lang_id 256 u = (Some bs, u') /\
    (length chars <= 126)%nat /\ nul < size /\
    (bLength = 0 /\ nul = -1 /\ chars = [] \/
     0 < bLength /\ nul = Z.of_nat (length chars) /\
     (2 <= bLength <= Z.of_nat (length bs) -> chars = string_chars bs (length chars))).
Proof.
  intros Hl Hb Hs E. unfold usb_get_string_descriptor in E.
  destruct (dev_is_open d); cbn [negb orb] in E; [|mret_eq].
  apply M_bind_inv in E as ([bs|] & u1 & E1 & E); [|mret_eq]. cbv zeta in E.
  unfold mret, M_ret in E. injection E as Ec En <-. exists bs. cbv zeta.
  destruct (get_descriptor_len _ _ _ _ _ _ _ _ E1) as [Hlen Hby]; [lia|].
  set (bLength := char_at (stored bs stale) 0) in *.
  assert (is_byte bLength) as HbL.
  { unfold bLength, char_at. destruct (stored bs stale !! 0%nat) as [x|] eqn:Ex; simpl; [|by vm_compute].
    assert (Forall is_byte (stored bs stale)) as Hst by (apply Forall_app; split; [done|by apply Forall_drop]).
    by eapply Forall_lookup_1 in Hst. }
  destruct (copy_chars_range bLength size HbL Hs) as (Hr & Hsz & Hz & H2).
  set (k := string_copy_chars bLength size) in *.
  assert (length chars = Z.to_nat k) as Hc by (subst chars; unfold string_chars; by rewrite length_fmap, length_seq).
  subst nul. split; [done|]. split; [lia|]. split; [done|]. unfold is_byte, is_u in HbL.
  destruct (decide (bLength = 0)) as [E0|Hne].
  - left. split; [done|]. split; [by apply Hz|]. apply length_zero_iff_nil. rewrite Hc. apply Hz in E0. lia.
  - assert (0 <= k) by (destruct (decide (k = -1)) as [?%Hz|]; lia).
    right. split; [lia|]. split; [lia|]. intros [H2' Hle]. rewrite Hc, <- Ec. apply chars_transferred.
    specialize (H2 H2'). lia.
Qed.
End laws.

(** ** Witnesses *)

(** A device that answers every request with the same descriptor. *)
Module SimDescriptors.
Definition get (n : Z) : M bytes (ptr bytes) := fun s => (Some (SimUsb.clip n s), s).

#[export] Instance descriptors : WinUsbDescriptors bytes := {| WinUsb_GetDescriptor _ _ _ _ n := get n |}.

#[export] Instance descriptors_laws : WinUsbDescriptorsLaws bytes.
  Proof. split. intros h ty i lang n u bs u' E Hn. simpl in E. unfold get in E. simplify_eq. by apply SimUsb.clip_ok. Qed.
End SimDescriptors.
Import SimDescriptors.

Definition example_descriptor : usb_device_descriptor := {|
  dd_bLength := 18; dd_bDescriptorType := 1; dd_bcdUSB := 0x200; dd_bDeviceClass := 0;
  dd_bDeviceSubClass := 0; dd_bDeviceProtocol := 0; dd_bMaxPacketSize0 := 64; dd_idVendor := 0x0781;
  dd_idProduct := 0x5567; dd_bcdDevice := 0x126; dd_iManufacturer := 1; dd_iProduct := 2;
  dd_iSerialNumber := 3; dd_bNumConfigurations := 1 |}.

Definition garbage_descriptor : usb_device_descriptor := device_descriptor_of (replicate 18 0xAA).

Lemma device_descriptor_read_witness :
  (usb_get_device_descriptor (Some example_open) (Some garbage_descriptor)
     (device_descriptor_mem example_descriptor)).1 = (ERR_SUCCESS, Some example_descriptor).
Proof.
  destruct (usb_get_device_descriptor _ _ _) as [r u'] eqn:E.
  apply (device_descriptor_read example_open garbage_descriptor example_descriptor
    (device_descriptor_mem example_descriptor) r u').
  - by vm_compute.
  - unfold descriptor_ok, is_u. cbn. lia.
  - assert (u' = device_descriptor_mem example_descriptor) as ->; [|by vm_compute].
    change u' with (r, u').2. rewrite <- E. by vm_compute.
  - exact E.
Defined.

(** "abc" as a string descriptor, read into a buffer of 3: two characters and the NUL. *)
Definition abc_descriptor : bytes := [8; 3; 97; 0; 98; 0; 99; 0].

Lemma string_descriptor_bounds_witness :
  exists chars nul u', usb_get_string_descriptor (Some example_open) 1 0x409 true 3 (replicate 256 0xCC) abc_descriptor =
      ((ERR_SUCCESS, Some (chars, nul)), u') /\ nul < 3 /\ chars = str "ab".
Proof.
  destruct (usb_get_string_descriptor _ _ _ _ _ _ _) as [[e [[chars nul]|]] u'] eqn:E; [|by vm_compute in E].
  assert (e = ERR_SUCCESS) as -> by (by vm_compute in E; simplify_eq).
  destruct (string_descriptor_bounds example_open 1 0x409 3 (replicate 256 0xCC) abc_descriptor chars nul u')
    as (bs & _ & _ & Hn & _).
  - reflexivity.
  - apply Forall_replicate. by vm_compute.
  - lia.
  - exact E.
  - exists chars, nul, u'. split; [reflexivity|]. split; [exact Hn|]. by vm_compute in E; simplify_eq.
Defined.

(** A device that claims a string of length 0: the NUL goes before the buffer. *)
Example zero_length_string :
  (usb_get_string_descriptor (Some example_open) 1 0x409 true 64 (replicate 256 0xCC) [0; 3]).1 =
  (ERR_SUCCESS, Some ([], -1)).
Proof. by vm_compute. Qed.
