(* ===== verification/Vhci.v ===== *)
(** * The client's virtual host controller ([client/vhci.h], [client/vhci_win32.c])

    The table of ports on which the client exposes remote devices.  The kernel
    driver is not part of the program: [VhciDriver] is the interface of the calls
    made to it, and [VhciDriverLaws] what the documentation of those calls
    promises: which handles are open ([vd_handles]) and which requests the driver
    has been given ([vd_requests]).

    A context is passed and returned as its value, and [g_vhci], the cached
    answer to whether the driver is there, as a [vhci_global]. *)

From Stdlib Require Import String.
From S2P Require Import Prelude CTypes Format Errors Protocol.

(** ** Data *)

Definition VHCI_MAX_PORTS : Z := 8.

Inductive vhci_port_state :=
  | VHCI_PORT_FREE
  | VHCI_PORT_CONNECTING
  | VHCI_PORT_CONNECTED
  | VHCI_PORT_DISCONNECTING
  | VHCI_PORT_ERROR.

#[export] Instance vhci_port_state_eq_dec : EqDecision vhci_port_state.
Proof. solve_decision. Defined.

Record vhci_port_info := {
  vp_port_number : Z;
  vp_state : vhci_port_state;
  vp_busid : bytes;
  vp_server_ip : bytes;
  vp_server_port : Z;
  vp_devid : Z;
  vp_speed : Z;
}.

Record vhci_context := {
  vc_max_ports : Z;
  vc_ports : ptr (list vhci_port_info);
  vc_initialized : bool;
  vc_driver_handle : ptr Z;
}.

Record vhci_global := {
  vg_driver_available : bool;
  vg_checked_driver : bool;
}.

(** [IOCTL_USBIP_VHCI_PLUGIN_HARDWARE] with its [{sock, devid}], and
    [IOCTL_USBIP_VHCI_UNPLUG_HARDWARE] with its [{port}]. *)
Inductive vhci_ioctl :=
  | PLUGIN_HARDWARE (sock devid : Z)
  | UNPLUG_HARDWARE (port : Z).

(** ** The driver *)

Class VhciDriver (D : Type) := {
  vd_CreateFileA : M D (ptr Z);
  vd_CloseHandle : Z -> M D unit;
  vd_DeviceIoControl : Z -> vhci_ioctl -> M D bool;
}.

Class VhciDriverLaws (D : Type) `{VhciDriver D} := {
  vd_handles : D -> gset Z;
  vd_requests : D -> list vhci_ioctl;
  vd_open_law d r d' : vd_CreateFileA d = (r, d') ->
    vd_requests d' = vd_requests d /\
    match r with
    | Some h => vd_handles d' = {[h]} ∪ vd_handles d /\ h ∉ vd_handles d
    | NULL => vd_handles d' = vd_handles d
    end;
  vd_close_law h d d' : vd_CloseHandle h d = (tt, d') ->
    vd_requests d' = vd_requests d /\ vd_handles d' = vd_handles d ∖ {[h]};
  vd_ioctl_law h c d r d' : vd_DeviceIoControl h c d = (r, d') ->
    vd_requests d' = vd_requests d ++ [c] /\ vd_handles d' = vd_handles d;
}.

(** ** Ports *)

(** What [calloc] and the loop of [vhci_init] leave in port [i]. *)
Definition port_free (i : Z) : vhci_port_info := {|
  vp_port_number := i; vp_state := VHCI_PORT_FREE; vp_busid := []; vp_server_ip := [];
  vp_server_port := 0; vp_devid := 0; vp_speed := 0 |}.

Definition port_set_state (p : vhci_port_info) (st : vhci_port_state) : vhci_port_info := {|
  vp_port_number := vp_port_number p; vp_state := st; vp_busid := vp_busid p;
  vp_server_ip := vp_server_ip p; vp_server_port := vp_server_port p; vp_devid := vp_devid p;
  vp_speed := vp_speed p |}.

Definition ctx_set (ctx : vhci_context) (ports : ptr (list vhci_port_info)) (initialized : bool)
    (handle : ptr Z) : vhci_context := {|
  vc_max_ports := vc_max_ports ctx; vc_ports := ports; vc_initialized := initialized;
  vc_driver_handle := handle |}.

(** [ctx->ports[i]]; the callers have checked the index. *)
Definition get_port (ctx : vhci_context) (i : Z) : option vhci_port_info :=
  ps ← vc_ports ctx; ps !! Z.to_nat i.

Definition set_port (ctx : vhci_context) (i : Z) (p : vhci_port_info) : vhci_context :=
  ctx_set ctx (<[Z.to_nat i := p]> <$> vc_ports ctx) (vc_initialized ctx) (vc_driver_handle ctx).

Definition port_is_free (p : vhci_port_info) : bool := bool_decide (vp_state p = VHCI_PORT_FREE).

Definition port_in_state (ctx : vhci_context) (i : Z) (st : vhci_port_state) : bool :=
  match get_port ctx i with Some p => bool_decide (vp_state p = st) | None => false end.

Definition vhci_get_port_count (ctx : ptr vhci_context) : Z :=
  match ctx with
  | Some c => if vc_initialized c then vc_max_ports c else 0
  | NULL => 0
  end.

(** The [for] loop of [vhci_find_free_port] from index [i], [n] iterations left. *)
Fixpoint find_free_loop (n : nat) (ctx : vhci_context) (i : Z) : Z :=
  match n with
  | O => -1
  | S n => if port_in_state ctx i VHCI_PORT_FREE then i else find_free_loop n ctx (i + 1)
  end.

Definition vhci_find_free_port (ctx : ptr vhci_context) : Z :=
  match ctx with
  | NULL => -1
  | Some c =>
      return_if negb (vc_initialized c) with -1 ;;
      find_free_loop (Z.to_nat (vc_max_ports c)) c 0
  end.

Definition port_out_of_range (ctx : vhci_context) (port : Z) : bool :=
  (port <? 0) || (port >=? vc_max_ports ctx).

(** The result and what is stored in the caller's [info]. *)
Definition vhci_get_port_info (ctx : ptr vhci_context) (port : Z) :
    error_code * option vhci_port_info :=
  match ctx with
  | NULL => (ERR_INVALID_PARAM, None)
  | Some c =>
      return_if negb (vc_initialized c) with (ERR_INVALID_PARAM, None) ;;
      return_if port_out_of_range c port with (ERR_VHCI_INVALID_PORT, None) ;;
      (ERR_SUCCESS, get_port c port)
  end.

Definition vhci_get_status (ctx : ptr vhci_context) : error_code :=
  match ctx with
  | NULL => ERR_INVALID_PARAM
  | Some c => if negb (vc_initialized c) then ERR_INVALID_PARAM else ERR_SUCCESS
  end.

Definition vhci_port_state_string (state : vhci_port_state) : string :=
  match state with
  | VHCI_PORT_FREE => "Free"
  | VHCI_PORT_CONNECTING => "Connecting"
  | VHCI_PORT_CONNECTED => "Connected"
  | VHCI_PORT_DISCONNECTING => "Disconnecting"
  | VHCI_PORT_ERROR => "Error"
  end.

Definition vhci_is_port_connected (ctx : ptr vhci_context) (port : Z) : bool :=
  match ctx with
  | NULL => false
  | Some c =>
      return_if negb (vc_initialized c) with false ;;
      return_if port_out_of_range c port with false ;;
      port_in_state c port VHCI_PORT_CONNECTED
  end.

(** The assignments of [vhci_attach] to the port. *)
Definition port_connecting (p : vhci_port_info) (device : usbip_usb_device)
    (server_ip : ptr bytes) (server_port : Z) : vhci_port_info := {|
  vp_port_number := vp_port_number p; vp_state := VHCI_PORT_CONNECTING;
  vp_busid := copy_str (ud_busid device) USBIP_BUSID_MAX;
  vp_server_ip := match server_ip with Some ip => copy_str ip 64 | NULL => vp_server_ip p end;
  vp_server_port := server_port;
  vp_devid := Z.lor (wrap 32 (Z.shiftl (ud_busnum device) 16)) (ud_devnum device);
  vp_speed := ud_speed device |}.

Section vhci.
  Context {D : Type} `{VhciDriver D}.

(** ** Initialization *)

Definition check_vhci_driver (g : vhci_global) : M D (bool * vhci_global) :=
  if vg_checked_driver g then mret (vg_driver_available g, g) else
  handle ← vd_CreateFileA;
  match handle with
  | Some h =>
      vd_CloseHandle h ;;
      mret (true, {| vg_driver_available := true; vg_checked_driver := true |})
  | NULL => mret (false, {| vg_driver_available := false; vg_checked_driver := true |})
  end.

Definition vhci_is_available (g : vhci_global) : M D (bool * vhci_global) := check_vhci_driver g.

Definition vhci_init (calloc_ok : bool) (g : vhci_global) (ctx : ptr vhci_context) :
    M D (error_code * vhci_global * ptr vhci_context) :=
  match ctx with
  | NULL => mret (ERR_INVALID_PARAM, g, NULL)
  | Some _ =>
      '(driver_available, g) ← check_vhci_driver g;
      let c := {| vc_max_ports := VHCI_MAX_PORTS; vc_ports := NULL; vc_initialized := false;
                  vc_driver_handle := NULL |} in
      if negb calloc_ok then mret (ERR_OUT_OF_MEMORY, g, Some c) else
      let ports := Some (port_free <$> seqZ 0 (vc_max_ports c)) in
      handle ← (if (driver_available : bool) then vd_CreateFileA else mret NULL);
      mret (ERR_SUCCESS, g, Some (ctx_set c ports true handle))
  end.

(** ** Attachment *)

Definition vhci_attach (ctx : ptr vhci_context) (port socket : Z) (device : ptr usbip_usb_device)
    (server_ip : ptr bytes) (server_port : Z) : M D (error_code * ptr vhci_context) :=
  match ctx, device with
  | Some c, Some dev =>
      if negb (vc_initialized c) then mret (ERR_INVALID_PARAM, ctx) else
      if port_out_of_range c port then mret (ERR_VHCI_INVALID_PORT, ctx) else
      match get_port c port with
      | None => mret (ERR_INVALID_PARAM, ctx)   (* no such element: the array has [max_ports] *)
      | Some p =>
          if negb (port_is_free p) then mret (ERR_DEVICE_BUSY, ctx) else
          let p := port_connecting p dev server_ip server_port in
          match vc_driver_handle c with
          | NULL =>
              mret (ERR_VHCI_NOT_FOUND, Some (set_port c port (port_set_state p VHCI_PORT_ERROR)))
          | Some h =>
              ok ← vd_DeviceIoControl h (PLUGIN_HARDWARE socket (vp_devid p));
              if negb ok then
                mret (ERR_VHCI_ATTACH_FAILED,
                  Some (set_port c port (port_set_state p VHCI_PORT_ERROR)))
              else
                mret (ERR_SUCCESS, Some (set_port c port (port_set_state p VHCI_PORT_CONNECTED)))
          end
      end
  | _, _ => mret (ERR_INVALID_PARAM, ctx)
  end.

Definition vhci_detach (ctx : ptr vhci_context) (port : Z) : M D (error_code * ptr vhci_context) :=
  match ctx with
  | NULL => mret (ERR_INVALID_PARAM, NULL)
  | Some c =>
      if negb (vc_initialized c) then mret (ERR_INVALID_PARAM, ctx) else
      if port_out_of_range c port then mret (ERR_VHCI_INVALID_PORT, ctx) else
      match get_port c port with
      | None => mret (ERR_INVALID_PARAM, ctx)
      | Some p =>
          if port_is_free p then mret (ERR_SUCCESS, ctx) else
          (match vc_driver_handle c with
           | Some h => vd_DeviceIoControl h (UNPLUG_HARDWARE port)
           | NULL => mret true
           end : M D bool) ;;
          mret (ERR_SUCCESS, Some (set_port c port (port_free (vp_port_number p))))
      end
  end.

(** The [for] loop of [vhci_detach_all] from index [i], [n] iterations left. *)
Fixpoint detach_all_loop (n : nat) (c : vhci_context) (i : Z) : M D vhci_context :=
  match n with
  | O => mret c
  | S n =>
      c ← (if negb (port_in_state c i VHCI_PORT_FREE)
           then '(_, r) ← vhci_detach (Some c) i; mret (default c r)
           else mret c);
      detach_all_loop n c (i + 1)
  end.

Definition vhci_detach_all (ctx : ptr vhci_context) : M D (ptr vhci_context) :=
  match ctx with
  | NULL => mret NULL
  | Some c =>
      if negb (vc_initialized c) then mret ctx else
      c ← detach_all_loop (Z.to_nat (vc_max_ports c)) c 0; mret (Some c)
  end.

Definition vhci_cleanup (ctx : ptr vhci_context) : M D (ptr vhci_context) :=
  match ctx with
  | NULL => mret NULL
  | Some c =>
      if negb (vc_initialized c) then mret ctx else
      r ← vhci_detach_all ctx;
      let c := default c r in
      (match vc_driver_handle c with Some h => vd_CloseHandle h | NULL => mret tt end : M D unit) ;;
      mret (Some (ctx_set c NULL false NULL))
  end.
End vhci.

Arguments vhci_detach : simpl never.
Arguments vhci_attach : simpl never.
Arguments vhci_detach_all : simpl never.

(** ** The invariant *)

(** Between operations a port is free and blank, connected, or in error. *)
Definition port_ok (i : Z) (p : vhci_port_info) : Prop :=
  vp_port_number p = i /\
  (vp_state p = VHCI_PORT_FREE /\ p = port_free i \/
   vp_state p = VHCI_PORT_CONNECTED \/ vp_state p = VHCI_PORT_ERROR) /\
  (length (vp_busid p) < USBIP_BUSID_MAX)%nat /\ (length (vp_server_ip p) < 64)%nat.

Record vhci_inv (c : vhci_context) : Prop := {
  vi_init : vc_initialized c = true;
  vi_max : vc_max_ports c = VHCI_MAX_PORTS;
  vi_ports : exists ps, vc_ports c = Some ps /\ length ps = Z.to_nat VHCI_MAX_PORTS /\
    forall i p, ps !! i = Some p -> port_ok (Z.of_nat i) p;
  vi_driver : vc_driver_handle c = NULL ->
    forall i, port_in_state c i VHCI_PORT_CONNECTED = false;
}.

(** ** Lemmas *)

Definition in_range (i : Z) : Prop := 0 <= i < VHCI_MAX_PORTS.

Lemma port_in_range c i : vhci_inv c -> port_out_of_range c i = false <-> in_range i.
Proof.
  intros Hc. unfold port_out_of_range, in_range. rewrite (vi_max c Hc), Z.geb_leb.
  rewrite orb_false_iff, Z.ltb_ge, Z.leb_gt. done.
Qed.

Lemma get_port_ok c i : vhci_inv c -> in_range i -> exists p, get_port c i = Some p /\ port_ok i p.
Proof.
  intros [_ _ (ps & Eps & Hlen & Hok) _] Hi. unfold get_port, in_range in *. rewrite Eps. simpl.
  destruct (lookup_lt_is_Some_2 ps (Z.to_nat i)) as [p Hp]; [lia|]. exists p. split; [done|].
  apply Hok in Hp. by rewrite Z2Nat.id in Hp by lia.
Qed.

Lemma get_set_port c i j p :
  vhci_inv c -> in_range i -> 0 <= j ->
  get_port (set_port c i p) j = if decide (i = j) then Some p else get_port c j.
Proof.
  intros [_ _ (ps & Eps & Hlen & _) _] Hi Hj. unfold get_port, in_range in *. simpl. rewrite Eps. simpl.
  destruct (decide (i = j)) as [->|Hne]; [apply list_lookup_insert_eq; lia|].
  apply list_lookup_insert_ne. lia.
Qed.

Lemma set_port_inv c i p :
  vhci_inv c -> in_range i -> port_ok i p ->
  (vc_driver_handle c = NULL -> vp_state p <> VHCI_PORT_CONNECTED) ->
  vhci_inv (set_port c i p).
Proof.
  intros Hc Hi Hp Hd. pose proof Hc as [H1 H2 (ps & Eps & Hlen & Hok) H4]. split; [done|done| |].
  - exists (<[Z.to_nat i := p]> ps). simpl. rewrite Eps. split; [done|].
    rewrite length_insert. split; [done|]. intros j q Hq. unfold in_range in Hi.
    apply list_lookup_insert_Some in Hq as [(<- & -> & _)|[_ Hq]]; [|by apply Hok].
    by rewrite Z2Nat.id by lia.
  - intros Hn j. specialize (H4 Hn j). simpl in Hn. unfold port_in_state, get_port in *. simpl.
    rewrite Eps in *. simpl in *.
    destruct (<[Z.to_nat i:=p]> ps !! Z.to_nat j) as [q|] eqn:Eq; [|done].
    apply list_lookup_insert_Some in Eq as [(_ & -> & _)|[_ Hq]]; [|by rewrite Hq in H4].
    apply bool_decide_eq_false. auto.
Qed.

Lemma set_port_twice c i p q : set_port (set_port c i p) i q = set_port c i q.
Proof.
  unfold set_port, ctx_set. simpl. f_equal. destruct (vc_ports c) as [ps|]; simpl; [|done].
  by rewrite list_insert_insert_eq.
Qed.

Lemma set_port_same c i p : get_port c i = Some p -> set_port c i p = c.
Proof.
  unfold get_port, set_port, ctx_set. destruct c as [? ports ? ?]. simpl.
  destruct ports as [ps|]; simpl; [|done]. intros E. by rewrite list_insert_id.
Qed.

Lemma port_free_ok i : port_ok i (port_free i).
Proof. split_and!; [done|by left|simpl; unfold USBIP_BUSID_MAX; lia..]. Qed.

Lemma port_connecting_ok i p dev ip sp st :
  port_ok i p -> st = VHCI_PORT_CONNECTED \/ st = VHCI_PORT_ERROR ->
  port_ok i (port_set_state (port_connecting p dev ip sp) st).
Proof.
  intros (Hn & _ & _ & Hip) Hst. split_and!; [done|right; done|apply copy_str_short; unfold USBIP_BUSID_MAX; lia|].
  simpl. destruct ip; [apply copy_str_short; lia|done].
Qed.

Lemma port_free_true i p : port_ok i p -> port_is_free p = true -> p = port_free i.
Proof.
  unfold port_is_free. rewrite bool_decide_eq_true. by intros (_ & [[_ ?]|[?|?]] & _) Hf; try congruence.
Qed.

Lemma in_state_get c i p st : get_port c i = Some p -> port_in_state c i st = bool_decide (vp_state p = st).
Proof. unfold port_in_state. by intros ->. Qed.

Section laws.
  Context {D : Type} `{VhciDriverLaws D}.
  Implicit Types d : D.

(** The contexts an operation of the program can leave, on the same driver. *)
Definition vhci_kept (c c' : vhci_context) d d' : Prop :=
  vhci_inv c' /\ vc_driver_handle c' = vc_driver_handle c /\ vd_handles d' = vd_handles d.

Lemma vhci_attach_cases c port sock dev ip sp d e r d' :
  vhci_inv c -> vhci_attach (Some c) port sock (Some dev) ip sp d = ((e, r), d') ->
  exists c', r = Some c' /\ vhci_kept c c' d d' /\
  (e = ERR_VHCI_INVALID_PORT /\ ~ in_range port /\ c' = c /\ d' = d \/
   exists p, get_port c port = Some p /\ in_range port /\
    (e = ERR_DEVICE_BUSY /\ vp_state p <> VHCI_PORT_FREE /\ c' = c /\ d' = d \/
     p = port_free port /\
     let q := port_connecting p dev ip sp in
     (e = ERR_VHCI_NOT_FOUND /\ vc_driver_handle c = NULL /\ d' = d /\
        c' = set_port c port (port_set_state q VHCI_PORT_ERROR) \/
      is_Some (vc_driver_handle c) /\
      vd_requests d' = vd_requests d ++ [PLUGIN_HARDWARE sock (vp_devid q)] /\
      (e = ERR_VHCI_ATTACH_FAILED /\ c' = set_port c port (port_set_state q VHCI_PORT_ERROR) \/
       e = ERR_SUCCESS /\ c' = set_port c port (port_set_state q VHCI_PORT_CONNECTED))))).
Proof.
  intros Hc E. unfold vhci_attach in E. rewrite (vi_init c Hc) in E. cbn [negb] in E.
  destruct (port_out_of_range c port) eqn:Er.
  { mret_eq. eexists. split; [done|]. split; [done|]. left. split_and!; try done.
    intros Hi. apply (port_in_range c port Hc) in Hi. congruence. }
  apply (port_in_range c port Hc) in Er. destruct (get_port_ok c port Hc Er) as (p & Ep & Hp).
  rewrite Ep in E. destruct (port_is_free p) eqn:Ef; cbn [negb] in E.
  2: { mret_eq. eexists. split; [done|]. split; [done|]. right. exists p. split; [done|]. split; [done|].
       left. unfold port_is_free in Ef. bool_to_prop. done. }
  pose proof (port_free_true _ _ Hp Ef) as Hpf. cbv zeta in E.
  assert (forall st, st = VHCI_PORT_CONNECTED \/ st = VHCI_PORT_ERROR ->
    port_ok port (port_set_state (port_connecting p dev ip sp) st)) as Hq.
  { intros st. by apply port_connecting_ok. }
  destruct (vc_driver_handle c) as [h|] eqn:Eh.
  - apply M_bind_inv in E as (ok & d1 & E1 & E). apply vd_ioctl_law in E1 as [Hr Hh].
    destruct ok; cbn [negb] in E; mret_eq.
    + eexists. split; [done|]. split; [split; [|done]|].
      { apply set_port_inv; [done|done|by auto|]. intros Hn. simpl. congruence. }
      right. eexists. split; [done|]. split; [done|]. right. split; [done|]. right. split; [done|].
      split; [done|]. by right.
    + eexists. split; [done|]. split; [split; [|done]|].
      { apply set_port_inv; [done|done|by auto|]. intros Hn. simpl. congruence. }
      right. eexists. split; [done|]. split; [done|]. right. split; [done|]. right. split; [done|].
      split; [done|]. by left.
  - mret_eq. eexists. split; [done|]. split; [split; [|done]|].
    { apply set_port_inv; [done|done|by auto|]. intros Hn. simpl. congruence. }
    right. eexists. split; [done|]. split; [done|]. right. split; [done|]. by left.
Qed.

Lemma detach_cases c port d e r d' :
  vhci_inv c -> vhci_detach (Some c) port d = ((e, r), d') ->
  exists c', r = Some c' /\ vhci_kept c c' d d' /\
  (e = ERR_VHCI_INVALID_PORT /\ ~ in_range port /\ c' = c /\ d' = d \/
   e = ERR_SUCCESS /\ in_range port /\ c' = set_port c port (port_free port) /\
   exists p, get_port c port = Some p /\
    vd_requests d' = vd_requests d ++
      (if port_is_free p then [] else
       match vc_driver_handle c with Some _ => [UNPLUG_HARDWARE port] | NULL => [] end)).
Proof.
  intros Hc E. unfold vhci_detach in E. rewrite (vi_init c Hc) in E. cbn [negb] in E.
  destruct (port_out_of_range c port) eqn:Er.
  { mret_eq. eexists. split; [done|]. split; [done|]. left. split_and!; try done.
    intros Hi. apply (port_in_range c port Hc) in Hi. congruence. }
  apply (port_in_range c port Hc) in Er. destruct (get_port_ok c port Hc Er) as (p & Ep & Hp).
  rewrite Ep in E. destruct (port_is_free p) eqn:Ef.
  { mret_eq. eexists. split; [done|]. split; [done|]. right. split; [done|]. split; [done|].
    pose proof (port_free_true _ _ Hp Ef) as Hpf.
    split; [by rewrite set_port_same by (by rewrite Ep, <-Hpf)|]. exists p.
    by rewrite Ef, app_nil_r. }
  apply M_bind_inv in E as (x & d1 & E1 & E). destruct Hp as (Hn & Hp). rewrite Hn in E. clear Hn. mret_eq.
  assert (vhci_inv (set_port c port (port_free port))) as Hinv.
  { apply set_port_inv; [done|done|apply port_free_ok|done]. }
  eexists. split; [done|]. destruct (vc_driver_handle c) as [h|] eqn:Eh.
  - apply vd_ioctl_law in E1 as [Hr Hh]. split; [by split_and!|]. right.
    split; [done|]. split; [done|]. split; [done|]. exists p. rewrite Ef. done.
  - mret_eq. split; [by split_and!|]. right. split; [done|]. split; [done|]. split; [done|].
    exists p. rewrite Ef. by rewrite app_nil_r.
Qed.

Lemma kept_trans c1 c2 c3 d1 d2 d3 :
  vhci_kept c1 c2 d1 d2 -> vhci_kept c2 c3 d2 d3 -> vhci_kept c1 c3 d1 d3.
Proof. intros (_ & E1 & F1) (Hi & E2 & F2). split_and!; [done|congruence..]. Qed.

(** The requests [vhci_detach_all] makes for the ports [i], [i + 1], ... *)
Definition unplugs (c : vhci_context) (i : Z) (n : nat) : list vhci_ioctl :=
  match vc_driver_handle c with
  | NULL => []
  | Some _ => UNPLUG_HARDWARE <$>
      filter (fun j => port_in_state c j VHCI_PORT_FREE = false) (seqZ i (Z.of_nat n))
  end.

Lemma unplugs_cons c i n :
  unplugs c i (S n) =
  (if port_in_state c i VHCI_PORT_FREE then []
   else match vc_driver_handle c with Some _ => [UNPLUG_HARDWARE i] | NULL => [] end) ++
  unplugs c (i + 1) n.
Proof.
  unfold unplugs. rewrite Nat2Z.inj_succ, seqZ_cons by lia. rewrite Z.pred_succ. unfold Z.succ.
  destruct (vc_driver_handle c); [|by destruct (port_in_state _ _ _)].
  rewrite filter_cons. destruct (port_in_state c i VHCI_PORT_FREE); by simplify_option_eq.
Qed.

Lemma unplugs_ext c c' i n :
  vc_driver_handle c' = vc_driver_handle c ->
  (forall j, i <= j -> get_port c' j = get_port c j) -> unplugs c' i n = unplugs c i n.
Proof.
  intros Eh. revert i. induction n as [|n IH]; intros i Hg; [unfold unplugs; by rewrite Eh|].
  rewrite !unplugs_cons, Eh. unfold port_in_state. rewrite Hg by lia. f_equal. apply IH.
  intros j Hj. apply Hg. lia.
Qed.

Lemma detach_all_loop_spec n c i d c' d' :
  vhci_inv c -> 0 <= i -> i + Z.of_nat n <= VHCI_MAX_PORTS ->
  detach_all_loop n c i d = (c', d') ->
  vhci_kept c c' d d' /\ vd_requests d' = vd_requests d ++ unplugs c i n /\
  forall j, 0 <= j -> get_port c' j = if decide (i <= j < i + Z.of_nat n) then Some (port_free j) else get_port c j.
Proof.
  revert c i d. induction n as [|n IH]; intros c i d Hc Hi Hn E; cbn [detach_all_loop] in E.
  { mret_eq. split; [done|]. split; [unfold unplugs; destruct (vc_driver_handle c'); by rewrite app_nil_r|].
    intros j Hj. by rewrite decide_False by lia. }
  assert (in_range i) as Hr by (unfold in_range; lia).
  destruct (get_port_ok c i Hc Hr) as (p & Ep & Hp).
  apply M_bind_inv in E as (c1 & d1 & E1 & E).
  assert (vhci_kept c c1 d d1 /\ c1 = set_port c i (port_free i) /\
    vd_requests d1 = vd_requests d ++ (if port_in_state c i VHCI_PORT_FREE then []
      else match vc_driver_handle c with Some _ => [UNPLUG_HARDWARE i] | NULL => [] end))
    as (K1 & -> & R1).
  { rewrite (in_state_get _ _ _ _ Ep) in *. destruct (negb _) eqn:Ef.
    - apply M_bind_inv in E1 as ([e r] & d2 & E2 & E1). apply detach_cases in E2; [|done].
      destruct E2 as (c2 & -> & K & [(_ & Hne & _)|(-> & _ & -> & q & Eq & R)]); [done|]. mret_eq.
      split; [done|]. split; [done|]. unfold port_is_free in R. rewrite R. done.
    - apply negb_false_iff in Ef. mret_eq. split; [done|]. rewrite Ef, app_nil_r. split; [|done].
      symmetry. apply set_port_same. rewrite Ep. f_equal. by apply port_free_true. }
  apply IH in E as (K2 & R2 & G2); [|apply K1|lia|lia].
  split; [by eapply kept_trans|]. split.
  - rewrite R2, R1, unplugs_cons, app_assoc. f_equal. apply unplugs_ext; [done|].
    intros j Hj. rewrite get_set_port by (done || lia). by rewrite decide_False by lia.
  - intros j Hj. rewrite G2 by done. rewrite get_set_port by done.
    destruct (decide (i = j)) as [->|]; [rewrite decide_False by lia; by rewrite decide_True by lia|].
    destruct (decide (i + 1 <= j < i + 1 + Z.of_nat n)); [by rewrite decide_True by lia|].
    by rewrite decide_False by lia.
Qed.

Lemma detach_all_spec c d r d' :
  vhci_inv c -> vhci_detach_all (Some c) d = (r, d') ->
  exists c', r = Some c' /\ vhci_kept c c' d d' /\
    vd_requests d' = vd_requests d ++ unplugs c 0 (Z.to_nat VHCI_MAX_PORTS) /\
    forall j, in_range j -> get_port c' j = Some (port_free j).
Proof.
  intros Hc E. unfold vhci_detach_all in E. rewrite (vi_init c Hc), (vi_max c Hc) in E. cbn [negb] in E.
  apply M_bind_inv in E as (c1 & d1 & E1 & E). unfold mret, M_ret in E. simplify_eq.
  apply detach_all_loop_spec in E1 as (K & R & G); [|done|lia|by vm_compute].
  exists c1. split_and!; [done|done|done|]. intros j Hj. unfold in_range in Hj. rewrite G by lia.
  rewrite decide_True; [done|]. unfold VHCI_MAX_PORTS in *. lia.
Qed.

Lemma check_spec g d r d' :
  check_vhci_driver g d = (r, d') -> vd_requests d' = vd_requests d /\ vd_handles d' = vd_handles d.
Proof.
  intros E. unfold check_vhci_driver in E. destruct (vg_checked_driver g); [by mret_eq|].
  apply M_bind_inv in E as (h & d2 & E2 & E). apply vd_open_law in E2 as [R2 H2].
  destruct h as [h|]; [|mret_eq; done].
  apply M_bind_inv in E as ([] & d3 & E3 & E). apply vd_close_law in E3 as [R3 H3]. mret_eq.
  split; [congruence|]. destruct H2 as [H2 Hn]. rewrite H3, H2. clear -Hn. set_solver.
Qed.

Lemma init_failed g ctx d e g' r d' :
  vhci_init false g (Some ctx) d = ((e, g', r), d') ->
  e <> ERR_SUCCESS /\ vd_requests d' = vd_requests d /\ vd_handles d' = vd_handles d.
Proof.
  intros E. unfold vhci_init in E. apply M_bind_inv in E as ([ok g1] & d1 & [R1 H1]%check_spec & E).
  cbn [negb] in E. mret_eq. done.
Qed.

Lemma init_spec g ctx d e g' r d' :
  vhci_init true g (Some ctx) d = ((e, g', r), d') ->
  exists c, e = ERR_SUCCESS /\ r = Some c /\ vhci_inv c /\ vd_requests d' = vd_requests d /\
    (forall j, in_range j -> get_port c j = Some (port_free j)) /\
    match vc_driver_handle c with
    | Some h => vd_handles d' = {[h]} ∪ vd_handles d /\ h ∉ vd_handles d
    | NULL => vd_handles d' = vd_handles d
    end.
Proof.
  intros E. unfold vhci_init in E. apply M_bind_inv in E as ([ok g1] & d1 & E1 & E).
  assert (vd_requests d1 = vd_requests d /\ vd_handles d1 = vd_handles d) as [R1 H1].
  { by apply check_spec in E1. }
  cbn [negb] in E. cbv zeta in E. apply M_bind_inv in E as (h & d2 & E2 & E).
  unfold mret, M_ret in E. injection E as <- _ <- <-.
  eexists. split; [done|]. split; [done|].
  assert (vd_requests d2 = vd_requests d /\ match h with
    | Some h => vd_handles d2 = {[h]} ∪ vd_handles d /\ h ∉ vd_handles d
    | NULL => vd_handles d2 = vd_handles d end) as [R2 H2].
  { destruct ok; [|mret_eq; done]. apply vd_open_law in E2 as [R2 H2]. rewrite R2, R1.
    split; [done|]. destruct h; by rewrite <- H1. }
  assert (forall i p, (port_free <$> seqZ 0 VHCI_MAX_PORTS) !! i = Some p -> p = port_free (Z.of_nat i)) as Hp.
  { intros i p Hp. apply list_lookup_fmap_Some in Hp as (j & -> & Hj).
    by apply lookup_seqZ in Hj as [-> _]. }
  split_and!; [|done| |done].
  - split; [done|done| |].
    + eexists. split; [done|]. split; [done|]. intros i p Hi. apply Hp in Hi as ->. apply port_free_ok.
    + intros _ i. unfold port_in_state, get_port, ctx_set. cbn [vc_ports vc_max_ports mbind option_bind].
      destruct (_ !! _) as [p|] eqn:Ep; [|done]. apply Hp in Ep as ->. done.
  - intros j Hj. unfold get_port, in_range, ctx_set in *. cbn [vc_ports vc_max_ports mbind option_bind].
    destruct ((port_free <$> seqZ 0 VHCI_MAX_PORTS) !! Z.to_nat j) as [p|] eqn:Ep.
    + etrans; [exact Ep|]. apply Hp in Ep as ->. by rewrite Z2Nat.id by lia.
    + apply lookup_ge_None in Ep. rewrite length_fmap, length_seqZ in Ep. unfold VHCI_MAX_PORTS in *. lia.
Qed.

(** What a client does with the controller between [vhci_init] and
    [vhci_cleanup]. *)
Inductive vhci_step : vhci_context * D -> vhci_context * D -> Prop :=
  | vs_attach c d port sock dev ip sp e c' d' :
      vhci_attach (Some c) port sock (Some dev) ip sp d = ((e, Some c'), d') -> vhci_step (c, d) (c', d')
  | vs_detach c d port e c' d' :
      vhci_detach (Some c) port d = ((e, Some c'), d') -> vhci_step (c, d) (c', d')
  | vs_detach_all c d c' d' :
      vhci_detach_all (Some c) d = (Some c', d') -> vhci_step (c, d) (c', d').

Lemma step_kept x y : vhci_step x y -> vhci_inv x.1 -> vhci_kept x.1 y.1 x.2 y.2.
Proof.
  intros Hs Hi. destruct Hs as [c d port sock dev ip sp e c' d' E|c d port e c' d' E|c d c' d' E]; simpl in *.
  - by apply vhci_attach_cases in E as (? & [= <-] & ? & _).
  - by apply detach_cases in E as (? & [= <-] & ? & _).
  - by apply detach_all_spec in E as (? & [= <-] & ? & _).
Qed.

Lemma steps_kept x y : rtc vhci_step x y -> vhci_inv x.1 -> vhci_kept x.1 y.1 x.2 y.2.
Proof.
  induction 1 as [x|x y z Hxy _ IH]; intros Hx; [done|]. pose proof (step_kept _ _ Hxy Hx) as K.
  eapply kept_trans; [done|]. apply IH, K.
Qed.

Lemma cleanup_spec c d r d' :
  vhci_inv c -> vhci_cleanup (Some c) d = (r, d') ->
  vd_requests d' = vd_requests d ++ unplugs c 0 (Z.to_nat VHCI_MAX_PORTS) /\
  vd_handles d' = match vc_driver_handle c with
                  | Some h => vd_handles d ∖ {[h]}
                  | NULL => vd_handles d
                  end /\
  exists c', r = Some c' /\ vc_initialized c' = false /\ vc_ports c' = NULL /\ vc_driver_handle c' = NULL.
Proof.
  intros Hc E. unfold vhci_cleanup in E. rewrite (vi_init c Hc) in E. cbn [negb] in E.
  apply M_bind_inv in E as (r1 & d1 & E1 & E).
  apply detach_all_spec in E1 as (c1 & -> & (_ & Eh & Ehs) & R & _); [|done]. cbn [default id] in E.
  cbv zeta in E. apply M_bind_inv in E as ([] & d2 & E2 & E). mret_eq. rewrite Eh in E2.
  destruct (vc_driver_handle c) as [h|].
  - apply vd_close_law in E2 as [R2 H2]. split; [by rewrite R2|]. split; [by rewrite H2, Ehs|by eexists].
  - mret_eq. split; [done|]. split; [done|by eexists].
Qed.

(** With every port free nothing is unplugged. *)
Lemma unplugs_free c :
  (forall j, in_range j -> get_port c j = Some (port_free j)) -> unplugs c 0 (Z.to_nat VHCI_MAX_PORTS) = [].
Proof.
  intros Hf. unfold unplugs. destruct (vc_driver_handle c); [|done].
  assert (forall l : list Z, Forall in_range l ->
    filter (fun j => port_in_state c j VHCI_PORT_FREE = false) l = []) as Hl.
  { intros l Hl. induction Hl as [|j l Hj _ IH]; [done|]. rewrite filter_cons, decide_False; [done|].
    by rewrite (in_state_get _ _ _ _ (Hf j Hj)). }
  rewrite Hl; [done|]. apply Forall_forall. intros j Hj%elem_of_seqZ.
  unfold in_range, VHCI_MAX_PORTS in *. lia.
Qed.

(** ** Properties *)

(** C19: the controller over its life.  After [vhci_init] and any sequence of
    attachments and detachments, whichever of the driver's calls fail, every port
    is free and blank, connected or in error, none is connected without a driver,
    and [vhci_cleanup] asks the driver to unplug exactly the ports that are not
    free, in order, and closes what was opened: the handles are those that were
    open before. *)
Theorem vhci_lifecycle g ctx d0 e g' c d1 c' d2 r d3 :
  vhci_init true g (Some ctx) d0 = ((e, g', Some c), d1) ->
  rtc vhci_step (c, d1) (c', d2) ->
  vhci_cleanup (Some c') d2 = (r, d3) ->
  e = ERR_SUCCESS /\ vhci_inv c' /\
  vd_requests d3 = vd_requests d2 ++ unplugs c' 0 (Z.to_nat VHCI_MAX_PORTS) /\
  vd_handles d3 = vd_handles d0 /\
  exists c3, r = Some c3 /\ vc_initialized c3 = false /\ vc_ports c3 = NULL /\ vc_driver_handle c3 = NULL.
Proof.
  intros Ei Hs Ec. apply init_spec in Ei as (c0 & -> & [= <-] & Hc & _ & _ & Hh).
  pose proof (steps_kept _ _ Hs Hc) as (Hc' & Eh & Ehs). simpl in Hc', Eh, Ehs.
  split; [done|]. split; [done|].
  apply cleanup_spec in Ec as (R & Hcl & c3 & ?); [|done]. split; [done|]. split; [|by exists c3].
  rewrite Hcl, Eh, Ehs. destruct (vc_driver_handle c); [|done]. destruct Hh as [-> Hn]. clear -Hn. set_solver.
Qed.

(** attaching a device to a port: which error is reported when, what the driver
    is asked and what the port shows afterwards; in every case the other ports are
    untouched and detaching the port again restores the context exactly, when the
    port was free. *)
Theorem vhci_attach_detach c port sock dev ip sp d e r d1 :
  vhci_inv c -> vhci_attach (Some c) port sock (Some dev) ip sp d = ((e, r), d1) ->
  exists c1, r = Some c1 /\ vhci_inv c1 /\
  (forall j, 0 <= j -> j <> port -> get_port c1 j = get_port c j) /\
  (e = ERR_SUCCESS <-> vhci_is_port_connected (Some c1) port = true /\
     vhci_is_port_connected (Some c) port = false) /\
  (e = ERR_SUCCESS -> vd_requests d1 = vd_requests d ++ [PLUGIN_HARDWARE sock
     (Z.lor (wrap 32 (Z.shiftl (ud_busnum dev) 16)) (ud_devnum dev))]) /\
  (e = ERR_VHCI_INVALID_PORT <-> ~ in_range port) /\
  (e = ERR_DEVICE_BUSY -> c1 = c /\ d1 = d) /\
  (get_port c port = Some (port_free port) -> in_range port ->
   forall e2 r2 d2, vhci_detach (Some c1) port d1 = ((e2, r2), d2) ->
   e2 = ERR_SUCCESS /\ r2 = Some c).
Proof.
  intros Hc E. apply vhci_attach_cases in E as (c1 & -> & (Hc1 & Eh & Ehs) & E); [|done].
  exists c1. split; [done|]. split; [done|].
  assert (forall c, vhci_inv c -> vhci_is_port_connected (Some c) port =
    negb (port_out_of_range c port) && port_in_state c port VHCI_PORT_CONNECTED) as Hconn.
  { intros x Hx. unfold vhci_is_port_connected. rewrite (vi_init x Hx). simpl.
    by destruct (port_out_of_range x port). }
  rewrite !Hconn by done.
  destruct E as [(-> & Hr & -> & ->)|(p & Ep & Hr & E)].
  { split_and!; [done| |done|done|done|done]. split; [done|]. intros [? ?]. congruence. }
  assert (forall x, vhci_inv x -> port_out_of_range x port = false) as Ho.
  { intros x Hx. by apply port_in_range. }
  rewrite !Ho by done. cbn [negb andb]. rewrite (in_state_get c port p) by done.
  destruct E as [(-> & Hnf & -> & ->)|(-> & E)].
  { split_and!; try done.
    - rewrite (in_state_get c port p) by done. split; [done|]. intros [? ?]. congruence.
    - intros Hf _. rewrite Ep in Hf. simplify_eq. }
  assert (forall st, get_port (set_port c port (port_set_state (port_connecting (port_free port) dev ip sp) st)) port
    = Some (port_set_state (port_connecting (port_free port) dev ip sp) st)) as Hget.
  { intros st. rewrite get_set_port by (done || apply Hr). by rewrite decide_True. }
  assert (exists st, c1 = set_port c port (port_set_state (port_connecting (port_free port) dev ip sp) st) /\
    (e = ERR_SUCCESS <-> st = VHCI_PORT_CONNECTED) /\ e <> ERR_VHCI_INVALID_PORT /\ e <> ERR_DEVICE_BUSY /\
    (e = ERR_SUCCESS -> vd_requests d1 = vd_requests d ++ [PLUGIN_HARDWARE sock
       (Z.lor (wrap 32 (Z.shiftl (ud_busnum dev) 16)) (ud_devnum dev))])) as (st & -> & Hst & He1 & He2 & Hreq).
  { destruct E as [(-> & _ & _ & ->)|(_ & Hreq & [(-> & ->)|(-> & ->)])]; eexists; (split; [done|]); by split_and!. }
  split_and!; try done.
  - intros j Hj Hne. rewrite get_set_port by done. by rewrite decide_False.
  - rewrite (in_state_get _ _ _ _ (Hget st)). simpl. rewrite Hst, bool_decide_eq_true. tauto.
  - intros _ _ e2 r2 d2 E2. apply detach_cases in E2 as (c2 & -> & _ & E2); [|done].
    destruct E2 as [(_ & ? & _)|(-> & _ & -> & _)]; [done|]. split; [done|].
    rewrite set_port_twice. by rewrite set_port_same.
Qed.

Lemma find_free_spec n c i :
  0 <= i -> let r := find_free_loop n c i in
  (r = -1 /\ forall j, i <= j < i + Z.of_nat n -> port_in_state c j VHCI_PORT_FREE = false) \/
  (i <= r < i + Z.of_nat n /\ port_in_state c r VHCI_PORT_FREE = true /\
   forall j, i <= j < r -> port_in_state c j VHCI_PORT_FREE = false).
Proof.
  revert i. induction n as [|n IH]; intros i Hi; cbn [find_free_loop].
  - left. split; [done|lia].
  - destruct (port_in_state c i VHCI_PORT_FREE) eqn:Ef; [right; split_and!; [lia|lia|done|lia]|].
    destruct (IH (i + 1) ltac:(lia)) as [(-> & Hn)|(Hr & Hs & Hn)].
    + left. split; [done|]. intros j Hj. destruct (decide (j = i)) as [->|]; [done|apply Hn; lia].
    + right. split_and!; [lia|lia|done|]. intros j Hj.
      destruct (decide (j = i)) as [->|]; [done|apply Hn; lia].
Qed.

Lemma free_port_zero c :
  vhci_inv c -> (forall j, in_range j -> get_port c j = Some (port_free j)) -> vhci_find_free_port (Some c) = 0.
Proof.
  intros Hc Hf. unfold vhci_find_free_port. rewrite (vi_init c Hc), (vi_max c Hc). cbn [negb].
  assert (port_in_state c 0 VHCI_PORT_FREE = true) as H00.
  { rewrite (in_state_get _ _ _ _ (Hf 0 ltac:(done))). done. }
  change (Z.to_nat VHCI_MAX_PORTS) with 8%nat. cbn [find_free_loop]. by rewrite H00.
Qed.

(** [vhci_find_free_port] returns the lowest free port, and -1 exactly when all
    the ports are in use. *)
Theorem free_port_lowest c :
  vhci_inv c -> let r := vhci_find_free_port (Some c) in
  (r = -1 /\ forall j, in_range j -> port_in_state c j VHCI_PORT_FREE = false) \/
  (in_range r /\ port_in_state c r VHCI_PORT_FREE = true /\
   forall j, 0 <= j < r -> port_in_state c j VHCI_PORT_FREE = false).
Proof.
  intros Hc. unfold vhci_find_free_port. rewrite (vi_init c Hc), (vi_max c Hc). cbn [negb].
  exact (find_free_spec (Z.to_nat VHCI_MAX_PORTS) c 0 ltac:(lia)).
Qed.
End laws.

(** ** A driver that satisfies the laws *)

Module SimVhci.

(** [v_installed]: whether the device can be opened; [v_answers]: the results of
    the requests to come, success when there are none left. *)
Record vhci := {
  v_installed : bool;
  v_open : gset Z;
  v_next : Z;
  v_log : list vhci_ioctl;
  v_answers : list bool;
}.

Definition set_open (s : vhci) (o : gset Z) (next : Z) : vhci := {|
  v_installed := v_installed s; v_open := o; v_next := next; v_log := v_log s;
  v_answers := v_answers s |}.

Definition create_file : M vhci (ptr Z) := fun s =>
  if negb (v_installed s) || bool_decide (v_next s ∈ v_open s) then (NULL, s)
  else (Some (v_next s), set_open s ({[v_next s]} ∪ v_open s) (v_next s + 1)).

Definition control (c : vhci_ioctl) : M vhci bool := fun s =>
  (default true (head (v_answers s)),
   {| v_installed := v_installed s; v_open := v_open s; v_next := v_next s;
      v_log := v_log s ++ [c]; v_answers := tail (v_answers s) |}).

#[global] Instance driver : VhciDriver vhci := {|
  vd_CreateFileA := create_file;
  vd_CloseHandle h s := (tt, set_open s (v_open s ∖ {[h]}) (v_next s));
  vd_DeviceIoControl _ c := control c |}.

#[global] Program Instance driver_laws : VhciDriverLaws vhci := {|
  vd_handles := v_open; vd_requests := v_log |}.
Next Obligation.
  intros d r d' E. simpl in E. unfold create_file in E.
  destruct (negb _ || _) eqn:Eb; simplify_eq; [done|]. bool_to_prop. done.
Qed.
Next Obligation. intros h d d' E. simpl in E. by simplify_eq. Qed.
Next Obligation. intros h c d r d' E. simpl in E. unfold control in E. by simplify_eq. Qed.

Definition start (installed : bool) (answers : list bool) : vhci := {|
  v_installed := installed; v_open := ∅; v_next := 500; v_log := []; v_answers := answers |}.
End SimVhci.

(** ** Witnesses *)

Definition vhci_unchecked : vhci_global := {| vg_driver_available := false; vg_checked_driver := false |}.

Definition vhci_garbage : vhci_context := {|
  vc_max_ports := 0; vc_ports := NULL; vc_initialized := false; vc_driver_handle := NULL |}.

Definition example_remote : usbip_usb_device := {|
  ud_path := replicate USBIP_PATH_MAX 0; ud_busid := str "2-14" ++ replicate 28 0;
  ud_busnum := 2; ud_devnum := 14; ud_speed := 3; ud_idVendor := 0x0781; ud_idProduct := 0x5567;
  ud_bcdDevice := 0; ud_bDeviceClass := 0; ud_bDeviceSubClass := 0; ud_bDeviceProtocol := 0;
  ud_bConfigurationValue := 1; ud_bNumConfigurations := 1; ud_bNumInterfaces := 1 |}.

Definition example_ctx : vhci_context :=
  ctx_set {| vc_max_ports := VHCI_MAX_PORTS; vc_ports := NULL; vc_initialized := false;
             vc_driver_handle := NULL |} (Some (port_free <$> seqZ 0 VHCI_MAX_PORTS)) true (Some 501).

(** The driver after [vhci_init]: it was opened twice. *)
Definition example_driver : SimVhci.vhci :=
  SimVhci.set_open (SimVhci.start true []) {[501]} 502.

Lemma example_init_eq :
  vhci_init true vhci_unchecked (Some vhci_garbage) (SimVhci.start true []) =
  ((ERR_SUCCESS, {| vg_driver_available := true; vg_checked_driver := true |}, Some example_ctx),
   example_driver).
Proof. vm_compute. reflexivity. Qed.

Lemma example_ctx_inv : vhci_inv example_ctx.
Proof.
  destruct (init_spec _ _ _ _ _ _ _ example_init_eq) as (c & _ & [= Ec] & Hc & _). by rewrite Ec.
Qed.

Lemma vhci_attach_detach_witness :
  exists c1, (vhci_attach (Some example_ctx) 0 5 (Some example_remote) (Some (str "10.0.0.1")) 3240
                example_driver).1 = (ERR_SUCCESS, Some c1) /\
  vhci_is_port_connected (Some c1) 0 = true.
Proof.
  destruct (vhci_attach _ _ _ _ _ _ _) as [[e r] d1] eqn:E.
  destruct (vhci_attach_detach example_ctx 0 5 example_remote (Some (str "10.0.0.1")) 3240 example_driver
    e r d1 example_ctx_inv E) as (c1 & -> & _ & _ & Hs & _).
  exists c1. assert (e = ERR_SUCCESS) as ->.
  { change e with (e, Some c1, d1).1.1. rewrite <- E. vm_compute. reflexivity. }
  split; [reflexivity|]. by apply Hs.
Defined.

Lemma free_port_lowest_witness :
  vhci_find_free_port (Some example_ctx) = 0 /\
  (in_range (vhci_find_free_port (Some example_ctx)) \/ vhci_find_free_port (Some example_ctx) = -1).
Proof.
  split; [vm_compute; reflexivity|].
  destruct (free_port_lowest example_ctx example_ctx_inv) as [[? _]|[? _]]; [by right|by left].
Defined.

(** A device on port 0, and then the end: the port is unplugged and nothing stays
    open. *)
Lemma vhci_lifecycle_witness :
  exists c1 d1, vhci_attach (Some example_ctx) 0 5 (Some example_remote) NULL 3240 example_driver =
    ((ERR_SUCCESS, Some c1), d1) /\
  vd_handles (vhci_cleanup (Some c1) d1).2 = ∅ /\
  vd_requests (vhci_cleanup (Some c1) d1).2 =
    [PLUGIN_HARDWARE 5 0x2000E; UNPLUG_HARDWARE 0].
Proof.
  destruct (vhci_attach (Some example_ctx) 0 5 (Some example_remote) NULL 3240 example_driver)
    as [[e r] d1] eqn:E.
  pose proof (vhci_attach_cases _ _ _ _ _ _ _ _ _ _ example_ctx_inv E) as (c1 & -> & _ & _).
  assert (e = ERR_SUCCESS) as ->.
  { change e with (e, Some c1, d1).1.1. rewrite <- E. vm_compute. reflexivity. }
  exists c1, d1. split; [reflexivity|].
  destruct (vhci_cleanup (Some c1) d1) as [r3 d3] eqn:Ec.
  destruct (vhci_lifecycle vhci_unchecked vhci_garbage (SimVhci.start true []) ERR_SUCCESS
    {| vg_driver_available := true; vg_checked_driver := true |} example_ctx example_driver c1 d1 r3 d3
    example_init_eq) as (_ & _ & Hr & Hh & _).
  - apply rtc_once. by eapply vs_attach.
  - exact Ec.
  - split; [exact Hh|]. cbn [snd]. rewrite Hr.
    assert (d1 = (vhci_attach (Some example_ctx) 0 5 (Some example_remote) NULL 3240 example_driver).2)
      as -> by (by rewrite E).
    assert (Some c1 = (vhci_attach (Some example_ctx) 0 5 (Some example_remote) NULL 3240 example_driver).1.2)
      as Ec1 by (by rewrite E).
    vm_compute in Ec1. injection Ec1 as ->. vm_compute. reflexivity.
Defined.

(** The device number is not masked: a number of more than 16 bits changes the bus
    the driver is told. *)
Example devid_not_masked :
  let p := port_connecting (port_free 0) {| ud_path := []; ud_busid := []; ud_busnum := 1;
     ud_devnum := 0x20003; ud_speed := 3; ud_idVendor := 0; ud_idProduct := 0; ud_bcdDevice := 0;
     ud_bDeviceClass := 0; ud_bDeviceSubClass := 0; ud_bDeviceProtocol := 0;
     ud_bConfigurationValue := 0; ud_bNumConfigurations := 0; ud_bNumInterfaces := 0 |} NULL 0 in
  usbip_devid_busnum (vp_devid p) = 3 /\ usbip_devid_busnum (usbip_make_devid 1 0x20003) = 1.
Proof. vm_compute. done. Qed.
