(* ===== verification/Discovery.v ===== *)
(** * Finding servers ([client/discovery.c]) and answering ([gui/server_gui.c])

    The client broadcasts a datagram and collects, until its time is up, the
    answers; the graphical server's listener thread sends them.

    A received datagram is the bytes the receive call stored: the program puts a
    terminator after them, so that what it then reads is their C string.  The loop
    of [discovery_broadcast] has no bound but the clock; it is given [fuel], and
    [discovery_terminates] states when that is enough. *)

From Stdlib Require Import String.
From S2P Require Import Prelude CTypes Format Errors Net NetAddr UsbHost DeviceList.

(** ** Data *)

Definition MAX_DISCOVERED_SERVERS : nat := 32.
Definition DISCOVERY_PORT : Z := 3241.
Definition DISCOVERY_MAGIC : bytes := str "USBIP_DISCOVER".
Definition SERVER_RESPONSE_MAGIC : bytes := str "USBIP_SERVER".
Definition DISCOVERY_MAGIC_LEN : nat := 14.

Record discovered_server := {
  ds_ip_address : bytes;
  ds_port : Z;
  ds_hostname : bytes;
  ds_device_count : Z;
  ds_response_time_ms : Z;
}.

Definition server_zero : discovered_server := {|
  ds_ip_address := []; ds_port := 0; ds_hostname := []; ds_device_count := 0;
  ds_response_time_ms := 0 |}.

(** The result with no servers. *)
Definition discovery_clear_results (result : ptr (list discovered_server)) : ptr (list discovered_server) :=
  (fun _ => []) <$> result.

(** ** Reading an answer *)

(** The text after the magic and the blanks that follow it. *)
Definition response_text (recv_buf : bytes) : option bytes :=
  if strneq recv_buf SERVER_RESPONSE_MAGIC (length SERVER_RESPONSE_MAGIC)
  then Some (drop_while (fun c => c =? 32) (drop (length SERVER_RESPONSE_MAGIC) (cstr recv_buf)))
  else None.

(** [sscanf(ptr, "%127s %d", hostname, &device_count)]: the conversions made, and
    what is stored over [hostname] and [device_count]. *)
Definition scan_server (ptr : bytes) (hostname : bytes) (device_count : Z) : Z * bytes * Z :=
  match scan_s 127 ptr with
  | None => (0, hostname, device_count)
  | Some (w, rest) =>
      match scan_d rest with
      | None => (1, w, device_count)
      | Some (n, _) => (2, w, n)
      end
  end.

Definition server_found (src_ip : bytes) (time : Z) (hostname : bytes) (count : Z) : discovered_server := {|
  ds_ip_address := copy_str src_ip 64; ds_port := USBIP_PORT; ds_hostname := hostname;
  ds_device_count := count; ds_response_time_ms := time |}.

(** [DWORD] arithmetic on tick counts. *)
Definition elapsed_since (start now : Z) : Z := wrap 32 (now - start).

Section discovery.
  Context {S : Type} `{Winsock S}.

(** ** The client *)

(** The loop that collects the answers; [None] is the loop still running when the
    fuel is gone. *)
Fixpoint collect (fuel : nat) (sock start timeout_ms : Z) (servers : list discovered_server) :
    M S (option (list discovered_server)) :=
  match fuel with
  | O => mret None
  | Datatypes.S fuel =>
      if negb (bool_decide (length servers < MAX_DISCOVERED_SERVERS)%nat) then mret (Some servers) else
      now ← ws_GetTickCount;
      let elapsed := elapsed_since start now in
      if elapsed >=? timeout_ms then mret (Some servers) else
      let remaining := timeout_ms - elapsed in
      '(received, bs, src) ← udp_recvfrom_timeout sock 511 64
                               (if remaining >? 500 then 500 else remaining);
      if received <=? 0 then collect fuel sock start timeout_ms servers else
      match response_text bs with
      | None => collect fuel sock start timeout_ms servers
      | Some ptr =>
          now ← ws_GetTickCount;
          let '(n, hostname, count) := scan_server ptr [] 0 in
          let server := server_found (default [] (fst <$> src)) (elapsed_since start now) hostname count in
          collect fuel sock start timeout_ms (if n >=? 1 then servers ++ [server] else servers)
      end
  end.

(** [broadcast_addr]: what [get_broadcast_address] stores. *)
Definition discovery_broadcast (fuel : nat) (broadcast_addr : bytes) (timeout_ms : Z) :
    M S (option (error_code * list discovered_server)) :=
  sock ← udp_socket_create;
  if negb (socket_is_valid sock) then mret (Some (ERR_SOCKET_CREATE, [])) else
  err ← udp_enable_broadcast sock;
  if negb (error_code_eqb err ERR_SUCCESS) then socket_close sock ;; mret (Some (err, [])) else
  err ← udp_socket_bind sock (Some any_addr) 0;
  if negb (error_code_eqb err ERR_SUCCESS) then socket_close sock ;; mret (Some (err, [])) else
  sent ← udp_sendto sock DISCOVERY_MAGIC (strlen DISCOVERY_MAGIC) broadcast_addr DISCOVERY_PORT;
  if sent <? 0 then socket_close sock ;; mret (Some (ERR_SOCKET_SEND, [])) else
  udp_sendto sock DISCOVERY_MAGIC (strlen DISCOVERY_MAGIC) limited_broadcast DISCOVERY_PORT ;;
  start ← ws_GetTickCount;
  r ← collect fuel sock start timeout_ms [];
  match r with
  | None => mret None
  | Some servers => socket_close sock ;; mret (Some (ERR_SUCCESS, servers))
  end.

(** The result and what is stored in the caller's [server]. *)
Definition discovery_query (ip_address : ptr bytes) (timeout_ms : Z) :
    M S (error_code * discovered_server) :=
  match ip_address with
  | NULL => mret (ERR_INVALID_PARAM, server_zero)
  | Some ip =>
      sock ← udp_socket_create;
      if negb (socket_is_valid sock) then mret (ERR_SOCKET_CREATE, server_zero) else
      start ← ws_GetTickCount;
      sent ← udp_sendto sock DISCOVERY_MAGIC (strlen DISCOVERY_MAGIC) ip DISCOVERY_PORT;
      if sent <? 0 then socket_close sock ;; mret (ERR_SOCKET_SEND, server_zero) else
      '(received, bs, src) ← udp_recvfrom_timeout sock 511 64 timeout_ms;
      socket_close sock ;;
      if received <=? 0 then mret (ERR_TIMEOUT, server_zero) else
      match response_text bs with
      | None => mret (ERR_PROTOCOL_INVALID, server_zero)
      | Some ptr =>
          now ← ws_GetTickCount;
          let '(_, hostname, count) := scan_server ptr [] 0 in
          mret (ERR_SUCCESS, server_found (default [] (fst <$> src)) (elapsed_since start now) hostname count)
      end
  end.

Definition discovery_ping (ip_address : ptr bytes) (port timeout_ms : Z) : M S bool :=
  match ip_address with
  | NULL => mret false
  | Some ip =>
      sock ← tcp_client_connect_timeout ip port timeout_ms;
      if negb (socket_is_valid sock) then mret false else
      socket_close sock ;; mret true
  end.

(** ** The server's listener *)

(** The loop that counts the shared devices. *)
Fixpoint count_shared (entries : list device_entry) (shared_count : Z) : Z :=
  match entries with
  | [] => shared_count
  | e :: es => count_shared es (if de_is_shared e then shared_count + 1 else shared_count)
  end.

Definition discovery_response (hostname : bytes) (shared_count : Z) : bytes :=
  snprintf 256 (SERVER_RESPONSE_MAGIC ++ [32] ++ cstr hostname ++ [32] ++ fmt_d shared_count).

(** One iteration of the thread's loop. *)
Definition discovery_listener_step (discovery_socket : Z) (hostname : bytes) (l : device_list) : M S unit :=
  '(received, bs, src) ← udp_recvfrom_timeout discovery_socket 255 64 1000;
  if received <=? 0 then mret tt else
  if strneq bs DISCOVERY_MAGIC DISCOVERY_MAGIC_LEN then
    let response := discovery_response hostname (count_shared (dl_entries l) 0) in
    udp_sendto discovery_socket response (strlen response) (default [] (fst <$> src))
      (default 0 (snd <$> src)) ;; mret tt
  else mret tt.
End discovery.

(** ** Lemmas *)

Section laws.
  Context {S : Type} `{WinsockLaws S}.
  Implicit Types s : S.

Lemma keeps_open_sendto fd buf len a p : keeps_open (udp_sendto fd buf len a p).
Proof.
  apply keeps_open_bind; [by intros s r s' Ho%ws_sendto_open|]. intros []; apply keeps_open_ret.
Qed.

Lemma keeps_open_recvfrom fd len k ms : keeps_open (udp_recvfrom_timeout fd len k ms).
Proof.
  apply keeps_open_bind; [apply keeps_open_select|]. intros [r set].
  destruct (r <=? 0); [apply keeps_open_ret|].
  apply keeps_open_bind; [by intros s x s' Ho%ws_recvfrom_open|].
  intros [[bs [a p]]|e]; apply keeps_open_ret.
Qed.

Lemma keeps_open_bind_udp fd a p : keeps_open (udp_socket_bind fd a p).
Proof. apply keeps_open_bind; [apply keeps_open_bind_call|]. intros. apply keeps_open_ret. Qed.

Lemma keeps_open_broadcast fd : keeps_open (udp_enable_broadcast fd).
Proof. apply keeps_open_bind; [apply keeps_open_setsockopt|]. intros. apply keeps_open_ret. Qed.

Lemma udp_create_open s fd s' :
  udp_socket_create s = (fd, s') ->
  if socket_is_valid fd then fd ∉ ws_open s /\ ws_open s' = {[fd]} ∪ ws_open s else ws_open s' = ws_open s.
Proof.
  intros E. apply ws_socket_open in E. unfold socket_is_valid.
  destruct (fd =? INVALID_SOCKET_VAL); simpl; [done|]. by destruct E.
Qed.

Lemma udp_close s s1 fd : socket_is_valid fd = true -> fd ∉ ws_open s -> ws_open s1 = {[fd]} ∪ ws_open s ->
  exists s2, socket_close fd s1 = (tt, s2) /\ ws_open s2 = ws_open s.
Proof.
  intros Hv Hn Ho. destruct (socket_close fd s1) as [[] s2] eqn:E. exists s2. split; [done|].
  unfold socket_close, socket_is_valid in *. rewrite Hv in E.
  apply M_bind_inv in E as ([] & s3 & E1%ws_shutdown_open & E2%ws_closesocket_open).
  rewrite E2, E1, Ho. clear -Hn. set_solver.
Qed.

(** ** The clock

    [in_time k s]: the time is not up in [s], and at most [k] more readings of the
    clock will be in time; [late s]: the next reading is not. *)
Record clock_runs (sock start timeout_ms : Z) (in_time : nat -> S -> Prop) (late : S -> Prop) : Prop := {
  cr_tick k s now s' : in_time k s -> ws_GetTickCount s = (now, s') ->
    (elapsed_since start now < timeout_ms -> exists k', k = Datatypes.S k' /\ in_time k' s') /\
    (timeout_ms <= elapsed_since start now -> late s');
  cr_late s now s' : late s -> ws_GetTickCount s = (now, s') -> timeout_ms <= elapsed_since start now;
  cr_recv k s ms r s' : in_time k s -> udp_recvfrom_timeout sock 511 64 ms s = (r, s') -> in_time k s';
}.

Lemma collect_ends sock start timeout_ms in_time late (Hc : clock_runs sock start timeout_ms in_time late)
    k fuel servers s :
  (k + 1 < fuel)%nat -> in_time k s \/ late s -> (length servers <= MAX_DISCOVERED_SERVERS)%nat ->
  exists r s', collect fuel sock start timeout_ms servers s = (Some r, s') /\
    (length r <= MAX_DISCOVERED_SERVERS)%nat /\ ws_open s' = ws_open s.
Proof.
  revert fuel servers s. induction k as [k IH] using lt_wf_ind. intros fuel servers s Hf Hs Hl.
  destruct fuel as [|fuel]; [lia|]. cbn [collect].
  destruct (bool_decide _) eqn:El; cbn [negb]; [|by eexists _, s]. bool_to_prop.
  mrun now s1 E1. pose proof (keeps_open_tick _ _ _ E1) as Ho1. cbv zeta.
  destruct (elapsed_since start now >=? timeout_ms) eqn:Et; [by eexists _, s1|].
  rewrite Z.geb_leb in Et. bool_to_prop. destruct Hs as [Hs|Hs].
  2: { pose proof (cr_late _ _ _ _ _ Hc _ _ _ Hs E1). lia. }
  destruct (cr_tick _ _ _ _ _ Hc _ _ _ _ Hs E1) as [Hin _]. destruct (Hin Et) as (k' & -> & Hs1).
  mrun r s2 E2. pose proof (keeps_open_recvfrom _ _ _ _ _ _ _ E2) as Ho2.
  pose proof (cr_recv _ _ _ _ _ Hc _ _ _ _ _ Hs1 E2) as Hs2. destruct r as [[received bs] src].
  assert (forall m srv s3, (m <= k')%nat -> in_time m s3 \/ late s3 -> ws_open s3 = ws_open s ->
    (length srv <= MAX_DISCOVERED_SERVERS)%nat ->
    exists r s', collect fuel sock start timeout_ms srv s3 = (Some r, s') /\
      (length r <= MAX_DISCOVERED_SERVERS)%nat /\ ws_open s' = ws_open s) as Hgo.
  { intros m srv s3 Hm H3 Ho3 Hl3. rewrite <- Ho3. apply (IH m); [lia|lia|done|done]. }
  destruct (received <=? 0); [apply (Hgo k'); [done|by left|congruence|done]|].
  destruct (response_text bs) as [ptr|]; [|apply (Hgo k'); [done|by left|congruence|done]].
  mrun now2 s3 E3. pose proof (keeps_open_tick _ _ _ E3) as Ho3.
  destruct (cr_tick _ _ _ _ _ Hc _ _ _ _ Hs2 E3) as [Hin3 Hlate3].
  destruct (scan_server ptr [] 0) as [[n host] count].
  assert (exists m, (m <= k')%nat /\ (in_time m s3 \/ late s3)) as (m & Hm & Hs3).
  { destruct (decide (timeout_ms <= elapsed_since start now2)) as [Hle|Hgt]; [exists k'; auto|].
    destruct Hin3 as (m & -> & ?); [lia|]. exists m. split; [lia|by left]. }
  apply (Hgo m); [done|done|congruence|]. destruct (n >=? 1); [|done]. rewrite length_app. simpl. lia.
Qed.

(** What happens before the answers are collected does not depend on the fuel. *)
Lemma broadcast_cases addr timeout_ms s :
  (exists e s', (forall fuel, discovery_broadcast fuel addr timeout_ms s = (Some (e, []), s')) /\
     ws_open s' = ws_open s) \/
  (exists sock start s1 s2, socket_is_valid sock = true /\ sock ∉ ws_open s /\
     ws_open s2 = {[sock]} ∪ ws_open s /\ ws_GetTickCount s1 = (start, s2) /\
     forall fuel, discovery_broadcast fuel addr timeout_ms s =
       (collect fuel sock start timeout_ms [] ≫= fun r =>
          match r with
          | None => mret None
          | Some servers => socket_close sock ;; mret (Some (ERR_SUCCESS, servers))
          end) s2).
Proof.
  unfold discovery_broadcast.
  destruct (udp_socket_create s) as [sock s1] eqn:E1. pose proof (udp_create_open _ _ _ E1) as Ho1.
  setoid_rewrite (M_bind_run _ _ _ _ _ E1).
  destruct (socket_is_valid sock) eqn:Ev; cbn [negb]; [|left; by eexists _, _].
  destruct Ho1 as [Hn Ho1].
  assert (forall (e : error_code) k, ws_open k = {[sock]} ∪ ws_open s -> exists e' k',
    (forall _ : nat, (socket_close sock ;; mret (Some (e, []))) k =
       (Some (e', [] : list discovered_server), k')) /\ ws_open k' = ws_open s) as Hstop.
  { intros e k Hk. destruct (udp_close _ _ _ Ev Hn Hk) as (k' & Ek & Hk'). exists e, k'. split; [|done].
    intros _. by rewrite (M_bind_run _ _ _ _ _ Ek). }
  destruct (udp_enable_broadcast sock s1) as [e1 s2] eqn:E2. setoid_rewrite (M_bind_run _ _ _ _ _ E2).
  pose proof (keeps_open_broadcast _ _ _ _ E2) as Ho2.
  destruct (negb (error_code_eqb e1 ERR_SUCCESS)); [left; apply Hstop; congruence|].
  destruct (udp_socket_bind sock (Some any_addr) 0 s2) as [e2 s3] eqn:E3.
  setoid_rewrite (M_bind_run _ _ _ _ _ E3). pose proof (keeps_open_bind_udp _ _ _ _ _ _ E3) as Ho3.
  destruct (negb (error_code_eqb e2 ERR_SUCCESS)); [left; apply Hstop; congruence|].
  destruct (udp_sendto sock DISCOVERY_MAGIC (strlen DISCOVERY_MAGIC) addr DISCOVERY_PORT s3)
    as [sent s4] eqn:E4. setoid_rewrite (M_bind_run _ _ _ _ _ E4).
  pose proof (keeps_open_sendto _ _ _ _ _ _ _ _ E4) as Ho4.
  destruct (sent <? 0); [left; apply Hstop; congruence|].
  destruct (udp_sendto sock DISCOVERY_MAGIC (strlen DISCOVERY_MAGIC) limited_broadcast DISCOVERY_PORT s4)
    as [sent2 s5] eqn:E5. setoid_rewrite (M_bind_run _ _ _ _ _ E5).
  pose proof (keeps_open_sendto _ _ _ _ _ _ _ _ E5) as Ho5.
  destruct (ws_GetTickCount s5) as [start s6] eqn:E6. setoid_rewrite (M_bind_run _ _ _ _ _ E6).
  pose proof (keeps_open_tick _ _ _ E6) as Ho6.
  right. exists sock, start, s5, s6. split_and!; try done. congruence.
Qed.

Lemma collect_open fuel sock start timeout_ms servers s r s' :
  collect fuel sock start timeout_ms servers s = (Some r, s') -> ws_open s' = ws_open s.
Proof.
  revert servers s. induction fuel as [|fuel IH]; intros servers s E; cbn [collect] in E; [by mret_eq|].
  destruct (negb _); [by mret_eq|].
  apply M_bind_inv in E as (now & s1 & E1%keeps_open_tick & E). cbv zeta in E.
  destruct (_ >=? _); [by mret_eq|].
  apply M_bind_inv in E as ([[received bs] src] & s2 & E2%keeps_open_recvfrom & E).
  destruct (received <=? 0); [apply IH in E; congruence|].
  destruct (response_text bs); [|apply IH in E; congruence].
  apply M_bind_inv in E as (now2 & s3 & E3%keeps_open_tick & E).
  destruct (scan_server _ _ _) as [[k host] count]. apply IH in E. congruence.
Qed.

Lemma broadcast_open fuel addr timeout_ms s x s' :
  discovery_broadcast fuel addr timeout_ms s = (Some x, s') -> ws_open s' = ws_open s.
Proof.
  intros E. destruct (broadcast_cases addr timeout_ms s) as
    [(e & s1 & E1 & Ho)|(sock & start & s1 & s2 & Hv & Hn & Ho & Et & E1)]; rewrite E1 in E; [by simplify_eq|].
  apply M_bind_inv in E as ([r|] & s3 & E3 & E); [|mret_eq].
  apply collect_open in E3. destruct (udp_close s s3 sock Hv Hn) as (s4 & E4 & Ho4); [congruence|].
  apply M_bind_inv in E as ([] & s5 & E5 & E). rewrite E4 in E5. simplify_eq. by mret_eq.
Qed.

(** ** Properties *)

Lemma discovery_ends addr timeout_ms s :
  (forall sock s1 start s2, ws_GetTickCount s1 = (start, s2) ->
     exists in_time late k, clock_runs sock start timeout_ms in_time late /\ in_time k s2) ->
  exists fuel0, forall fuel, (fuel0 <= fuel)%nat -> exists e servers s',
    discovery_broadcast fuel addr timeout_ms s = (Some (e, servers), s') /\
    (length servers <= MAX_DISCOVERED_SERVERS)%nat /\ ws_open s' = ws_open s.
Proof.
  intros Hclock.
  destruct (broadcast_cases addr timeout_ms s) as
    [(e & s' & E & Ho)|(sock & start & s1 & s2 & Hv & Hn & Ho & Et & E)].
  { exists 0%nat. intros fuel _. exists e, [], s'. split_and!; [done|simpl; lia|done]. }
  destruct (Hclock sock _ _ _ Et) as (in_time & late & k & Hc & Hk). exists (k + 2)%nat. intros fuel Hf.
  destruct (collect_ends sock start timeout_ms in_time late Hc k fuel [] s2) as (r & s3 & E3 & Hr & Ho3);
    [lia|by left|simpl; lia|].
  destruct (udp_close s s3 sock Hv Hn) as (s4 & E4 & Ho4); [congruence|].
  exists ERR_SUCCESS, r, s4. split; [|done].
  by rewrite E, (M_bind_run _ _ _ _ _ E3), (M_bind_run _ _ _ _ _ E4).
Qed.

(** discovery ends.  If after the clock is first read only so many of its
    readings are in time, whatever arrives in between, then [discovery_broadcast]
    returns, given fuel enough: with at most 32 servers, and with no descriptor
    left open. *)
Theorem discovery_terminates addr timeout_ms s :
  (forall sock s1 start s2, ws_GetTickCount s1 = (start, s2) ->
     exists in_time late k, clock_runs sock start timeout_ms in_time late /\ in_time k s2) ->
  exists fuel0, forall fuel, (fuel0 <= fuel)%nat -> exists e servers s',
    discovery_broadcast fuel addr timeout_ms s = (Some (e, servers), s') /\
    (length servers <= MAX_DISCOVERED_SERVERS)%nat /\ ws_open s' = ws_open s.
Proof. apply discovery_ends. Qed.

(** asking one server, and checking that one can be reached, leave no descriptor
    behind, and the answer is only stored when the result says so. *)
Theorem discovery_sockets_closed ip port timeout_ms s :
  (forall e server s', discovery_query ip timeout_ms s = ((e, server), s') ->
     ws_open s' = ws_open s /\ (e <> ERR_SUCCESS -> server = server_zero)) /\
  (forall ok s', discovery_ping ip port timeout_ms s = (ok, s') -> ws_open s' = ws_open s).
Proof.
  split.
  - intros e server s' E. unfold discovery_query in E. destruct ip as [ip|]; [|by mret_eq].
    apply M_bind_inv in E as (sock & s1 & E1%udp_create_open & E).
    destruct (socket_is_valid sock) eqn:Ev; cbn [negb] in E; [|by mret_eq]. destruct E1 as [Hn Ho1].
    assert (forall k k', ws_open k = ws_open s1 -> socket_close sock k = (tt, k') -> ws_open k' = ws_open s) as Hclose.
    { intros k k' Hk Ek. destruct (udp_close s k sock Ev Hn) as (k2 & Ek2 & ?); [congruence|].
      rewrite Ek in Ek2. by simplify_eq. }
    apply M_bind_inv in E as (start & s2 & E2%keeps_open_tick & E).
    apply M_bind_inv in E as (sent & s3 & E3%keeps_open_sendto & E). destruct (sent <? 0).
    { apply M_bind_inv in E as ([] & s4 & E4 & E). mret_eq. split; [|done].
      apply (Hclose s3); [congruence|done]. }
    apply M_bind_inv in E as ([[received bs] src] & s4 & E4%keeps_open_recvfrom & E).
    apply M_bind_inv in E as ([] & s5 & E5 & E). apply Hclose in E5; [|congruence].
    destruct (received <=? 0); [by mret_eq|]. destruct (response_text bs) as [ptr|]; [|by mret_eq].
    apply M_bind_inv in E as (now & s6 & E6%keeps_open_tick & E).
    destruct (scan_server ptr [] 0) as [[? ?] ?]. mret_eq. split; [congruence|done].
  - intros ok s' E. unfold discovery_ping in E. destruct ip as [ip|]; [|by mret_eq].
    apply M_bind_inv in E as (sock & s1 & E1 & E). apply timeout_connect_open in E1.
    destruct (socket_is_valid sock) eqn:Ev; cbn [negb] in E.
    + destruct E1 as [[-> _]|(_ & Hn & Ho)]; [done|]. apply M_bind_inv in E as ([] & s2 & E2 & E).
      destruct (udp_close s s1 sock Ev Hn Ho) as (s3 & E3 & Ho3). rewrite E2 in E3. by mret_eq.
    + mret_eq. destruct E1 as [[_ ?]|(Hv & _)]; [done|]. unfold socket_is_valid in Ev.
      by apply Z.eqb_neq in Hv; rewrite Hv in Ev.
Qed.
End laws.

(** ** The format of the answer *)

Lemma count_shared_filter es k :
  count_shared es k = k + Z.of_nat (length (filter (fun e => de_is_shared e = true) es)).
Proof.
  revert k. induction es as [|e es IH]; intros k; cbn [count_shared]; [simpl; lia|].
  rewrite IH, filter_cons. destruct (de_is_shared e).
  - rewrite decide_True by done. simpl. lia.
  - by rewrite decide_False.
Qed.

Definition hostname_ok (h : bytes) : Prop :=
  h <> [] /\ (length h <= 127)%nat /\ no_nul h /\ Forall (fun c => is_space c = false) h.

Lemma length_digits_rev f b n : (length (digits_rev f b n) <= f)%nat.
Proof.
  revert n. induction f as [|f IH]; intros n; cbn [digits_rev]; [done|]. simpl.
  destruct (_ =? 0); simpl; [lia|]. specialize (IH (n / b)). lia.
Qed.

Lemma length_fmt_u n : 0 <= n < 2 ^ 31 -> (length (fmt_u n) <= 32)%nat.
Proof.
  intros Hn. unfold fmt_u, fmt_base. rewrite length_reverse.
  pose proof (length_digits_rev (S (Z.to_nat (Z.log2 n))) 10 n). assert (Z.log2 n < 31).
  { destruct (decide (n = 0)) as [->|]; [done|]. apply Z.log2_lt_pow2; lia. }
  pose proof (Z.log2_nonneg n). lia.
Qed.

(** a client understands the listener.  For a host name that is one word of at
    most 127 characters the answer is sent whole, and reading it back gives the
    host name and the number of shared devices. *)
Theorem discovery_answer_understood h l :
  hostname_ok h -> Z.of_nat (length (filter (fun e => de_is_shared e = true) (dl_entries l))) < 2 ^ 31 ->
  let n := Z.of_nat (length (filter (fun e => de_is_shared e = true) (dl_entries l))) in
  let response := discovery_response h (count_shared (dl_entries l) 0) in
  response = SERVER_RESPONSE_MAGIC ++ [32] ++ h ++ [32] ++ fmt_d n /\
  exists ptr, response_text response = Some ptr /\ scan_server ptr [] 0 = (2, h, n).
Proof.
  intros (Hne & Hlen & Hnul & Hsp) Hn n response. unfold response, discovery_response.
  rewrite count_shared_filter, Z.add_0_l, (cstr_id h Hnul). fold n.
  assert (fmt_d n = fmt_u n) as Hfmt by (unfold fmt_d; destruct (Z.ltb_spec n 0); [lia|done]).
  pose proof (length_fmt_u n ltac:(lia)) as Hl.
  assert (snprintf 256 (SERVER_RESPONSE_MAGIC ++ [32] ++ h ++ [32] ++ fmt_d n) =
    SERVER_RESPONSE_MAGIC ++ [32] ++ h ++ [32] ++ fmt_d n) as ->.
  { apply take_ge. rewrite Hfmt, !length_app. simpl. lia. }
  split; [done|]. exists (h ++ [32] ++ fmt_d n). split.
  - unfold response_text, strneq.
    assert (cstr (SERVER_RESPONSE_MAGIC ++ [32] ++ h ++ [32] ++ fmt_d n) =
      SERVER_RESPONSE_MAGIC ++ [32] ++ h ++ [32] ++ fmt_d n) as ->.
    { apply cstr_id. unfold no_nul. rewrite !Forall_app. split_and!; try done.
      - vm_compute. repeat constructor; done.
      - repeat constructor; done.
      - repeat constructor; done.
      - rewrite Hfmt. apply (Forall_impl _ _ _ (fmt_u_digits n ltac:(lia))).
        intros c Hc. by apply is_digit_not_space. }
    assert (cstr SERVER_RESPONSE_MAGIC = SERVER_RESPONSE_MAGIC) as -> by (by vm_compute).
    rewrite take_app_length, take_ge by done. rewrite bool_decide_true by done. f_equal.
    rewrite drop_app_length. destruct h as [|c h]; [done|]. simpl.
    apply Forall_cons in Hsp as [Hc _]. unfold is_space in Hc. bool_to_prop.
    rewrite (proj2 (Z.eqb_neq c 32)); done.
  - unfold scan_server. change (h ++ [32] ++ fmt_d n) with (h ++ 32 :: fmt_d n).
    rewrite scan_s_word by done. rewrite scan_d_fmt by lia. done.
Qed.

(** ** Witnesses *)

(** The clock of [Sim.net] advances by one at every reading. *)
Lemma sim_clock_runs sock (start timeout_ms : Z) :
  0 <= timeout_ms < 2 ^ 31 ->
  clock_runs (S := Sim.net) sock start timeout_ms
    (fun k s => start <= Sim.n_clock s <= start + timeout_ms /\ start + timeout_ms - Sim.n_clock s <= Z.of_nat k)
    (fun s => start + timeout_ms <= Sim.n_clock s <= start + timeout_ms + 1).
Proof.
  intros Ht.
  assert (forall now, start <= now <= start + timeout_ms + 1 -> elapsed_since start now = now - start) as He.
  { intros now Hn. apply wrap_small. unfold is_u. lia. }
  split.
  - intros k s now s' [Hr Hk] E. simpl in E. unfold Sim.tick in E. simplify_eq. rewrite He by lia. cbn [Sim.n_clock].
    split; intros Hlt; [|lia]. destruct k as [|k]; [lia|]. exists k. split; [done|]. lia.
  - intros s now s' Hr E. simpl in E. unfold Sim.tick in E. simplify_eq. rewrite He by lia. lia.
  - intros k s ms r s' Hs E. assert (Sim.n_clock s' = Sim.n_clock s) as ->; [|done].
    unfold udp_recvfrom_timeout in E. apply M_bind_inv in E as ([x set] & s1 & E1 & E).
    assert (s1 = s) as ->. { unfold socket_select in E1. by destruct (_ =? _); simpl in E1; mret_eq. }
    destruct (x <=? 0); [by mret_eq|]. unfold udp_recvfrom in E.
    apply M_bind_inv in E as (y & s2 & E2 & E). simpl in E2. unfold Sim.recvfrom in E2.
    destruct (Sim.n_datagrams s) as [|[bs a] ds]; simplify_eq; [by mret_eq|]. destruct a as [a p].
    by mret_eq.
Qed.

(** A network on which the two datagrams are on their way: one answer, and
    something else. *)
Definition discovery_net : Sim.net := {|
  Sim.n_conns := {[ 5 := {| Sim.c_in := []; Sim.c_pace := [] |} ]}; Sim.n_sent := ∅;
  Sim.n_backlog := []; Sim.n_peers := [];
  Sim.n_datagrams := [(str "HELLO", (1, 2)); (discovery_response (str "office-pc") 3, (3, 4))];
  Sim.n_next := 6; Sim.n_clock := 77 |}.

Lemma discovery_terminates_witness :
  exists fuel0, forall fuel, (fuel0 <= fuel)%nat -> exists e servers s',
    discovery_broadcast fuel (str "192.168.1.255") 3000 discovery_net = (Some (e, servers), s') /\
    (length servers <= MAX_DISCOVERED_SERVERS)%nat /\ ws_open s' = ws_open discovery_net.
Proof.
  apply (discovery_terminates (str "192.168.1.255") 3000 discovery_net).
  intros sock s1 start s2 E. eexists _, _, 3000%nat. split; [apply sim_clock_runs; lia|].
  simpl in E. unfold Sim.tick in E. injection E as <- <-. cbn [Sim.n_clock]. lia.
Defined.

(** The answer is collected and the other datagram is passed over. *)
Example discovery_collects :
  match (discovery_broadcast 100 (str "192.168.1.255") 10 discovery_net).1 with
  | Some (e, [srv]) => e = ERR_SUCCESS /\ ds_hostname srv = str "office-pc" /\ ds_device_count srv = 3
  | _ => False
  end.
Proof. vm_compute. done. Qed.

Lemma discovery_sockets_closed_witness :
  ws_open (discovery_query (Some (str "10.0.0.1")) 1000 discovery_net).2 = {[5]} /\
  (discovery_query (Some (str "10.0.0.1")) 1000 discovery_net).1 = (ERR_PROTOCOL_INVALID, server_zero).
Proof.
  destruct (discovery_query _ _ _) as [[e server] s'] eqn:E.
  destruct (discovery_sockets_closed (Some (str "10.0.0.1")) 3240 1000 discovery_net) as [Hq _].
  destruct (Hq e server s' E) as [Ho Hs].
  assert (e = ERR_PROTOCOL_INVALID) as ->.
  { change e with (e, server, s').1.1. rewrite <- E. vm_compute. reflexivity. }
  split; [exact Ho|]. cbn [fst]. rewrite Hs by discriminate. reflexivity.
Defined.

Lemma discovery_answer_understood_witness :
  exists ptr, response_text (discovery_response (str "office-pc") (count_shared [] 0)) = Some ptr /\
    scan_server ptr [] 0 = (2, str "office-pc", 0).
Proof.
  apply (discovery_answer_understood (str "office-pc")
    {| dl_entries := []; dl_count := 0; dl_lock := 0; dl_initialized := true |}).
  - split; [discriminate|]. split; [vm_compute; lia|]. split; vm_compute; repeat constructor; discriminate.
  - vm_compute. reflexivity.
Defined.
