(* ===== verification/GuiLayout.v ===== *)
(** * The layout of the windows ([gui/server_gui.c], [gui/client_gui.c], [gui/resource.h])

    The rectangles that the two windows give their controls: at creation, in pixels, and
    in [gui_layout_client] and [gui_layout_server], from the size of the window's client
    area and scaled to the screen's resolution.  The controls are the handles of the
    contexts; a handle that was never created is [None], and moving it does nothing.

    The comments promise that nothing overlaps or clips at any size and resolution.
    [client_layout_fits] and [server_layout_fits] say from which size on that is so. *)

From S2P Require Import Prelude.

(** ** Rectangles *)

(** Position and size of a control in its parent. *)
Record rect := { r_x : Z; r_y : Z; r_w : Z; r_h : Z }.

Definition mk_rect (x y w h : Z) : rect := {| r_x := x; r_y := y; r_w := w; r_h := h |}.

(** Inside an area of that size. *)
Definition rect_inside (cw ch : Z) (r : rect) : bool :=
  (0 <=? r_x r) && (0 <=? r_y r) && (r_x r + r_w r <=? cw) && (r_y r + r_h r <=? ch).

(** No point in common. *)
Definition rect_apart (a b : rect) : bool :=
  (r_x a + r_w a <=? r_x b) || (r_x b + r_w b <=? r_x a) ||
  (r_y a + r_h a <=? r_y b) || (r_y b + r_h b <=? r_y a).

Fixpoint all_apart (rs : list rect) : bool :=
  match rs with [] => true | r :: rs => forallb (rect_apart r) rs && all_apart rs end.

(** Nothing overlaps and nothing is clipped. *)
Definition layout_fits (cw ch : Z) (rs : list rect) : bool :=
  forallb (rect_inside cw ch) rs && all_apart rs.

(** ** Controls *)

(** The handles of the two contexts, [gui_context_t] included. *)
Inductive control :=
  | hLabelServer | hEditServer | hBtnDiscover | hBtnConnect
  | hLabelToken | hEditToken | hLabelDevices | hDeviceList
  | hLabelClients | hClientList | hBtnRefresh | hBtnHide | hStatusBar.

#[export] Instance control_eq_dec : EqDecision control.
Proof. solve_decision. Defined.

Definition controls : list control := [
  hLabelServer; hEditServer; hBtnDiscover; hBtnConnect; hLabelToken; hEditToken; hLabelDevices;
  hDeviceList; hLabelClients; hClientList; hBtnRefresh; hBtnHide].

(** A window's controls and where they are; [None]: the handle is [NULL]. *)
Definition window : Type := control -> option rect.

Definition window_zero : window := fun _ => None.

Definition window_set (c : control) (r : rect) (win : window) : window :=
  fun c' => if decide (c' = c) then Some r else win c'.

Definition gui_create (c : control) (x y w h : Z) (win : window) : window :=
  window_set c (mk_rect x y w h) win.

Definition gui_move (c : control) (x y w h : Z) (win : window) : window :=
  match win c with Some _ => window_set c (mk_rect x y w h) win | None => win end.

(** [GetWindowRect]; on [NULL] it fails and leaves the rectangle as it was, [garbage]. *)
Definition window_rect (garbage : rect) (win : window) (c : control) : rect := default garbage (win c).

(** What the user sees, except the status bar. *)
Definition shown (win : window) : list rect := omap win controls.

(** ** Sizes *)

Definition MARGIN : Z := 10.
Definition PADDING : Z := 5.
Definition BUTTON_HEIGHT : Z := 28.
Definition BUTTON_WIDTH : Z := 90.
Definition LABEL_HEIGHT : Z := 18.
Definition EDIT_HEIGHT : Z := 24.
Definition SERVER_WINDOW_WIDTH : Z := 520.
Definition SERVER_WINDOW_HEIGHT : Z := 420.
Definition CLIENT_WINDOW_WIDTH : Z := 480.
Definition CLIENT_WINDOW_HEIGHT : Z := 400.

(** [GetDeviceCaps(dc, LOGPIXELSY)], asked once, and [MulDiv]. *)
Class Screen := {
  LOGPIXELSY : Z;
  MulDiv : Z -> Z -> Z -> Z;
}.

(** [MulDiv] multiplies, divides and rounds to the nearest integer, a half up. *)
Class ScreenLaws `{Screen} := {
  muldiv_rounds a b c : 0 <= a -> 0 <= b -> 0 < c -> MulDiv a b c = (2 * (a * b) + c) / (2 * c);
}.

Section layout.
  Context `{Screen}.

(** The static variable, which the first call sets. *)
Definition system_dpi : Z := if LOGPIXELSY =? 0 then 96 else LOGPIXELSY.

Definition gui_scale_dpi (pixels : Z) : Z := MulDiv pixels system_dpi 96.

(** ** The client's window *)

(** [sb]: the rectangle the status bar gives itself. *)
Definition create_client_controls (sb : rect) : window :=
  let y := MARGIN in
  let editWidth := 200 in
  let btnSmall := 80 in
  let w := gui_create hLabelServer MARGIN (y + 4) 50 LABEL_HEIGHT window_zero in
  let w := gui_create hEditServer (MARGIN + 55) y editWidth EDIT_HEIGHT w in
  let btnX := MARGIN + 55 + editWidth + PADDING in
  let w := gui_create hBtnDiscover btnX y btnSmall BUTTON_HEIGHT w in
  let btnX := btnX + btnSmall + PADDING in
  let w := gui_create hBtnConnect btnX y btnSmall BUTTON_HEIGHT w in
  let y := y + BUTTON_HEIGHT + MARGIN in
  let w := gui_create hLabelToken MARGIN (y + 4) 50 LABEL_HEIGHT w in
  let w := gui_create hEditToken (MARGIN + 55) y editWidth EDIT_HEIGHT w in
  let y := y + EDIT_HEIGHT + MARGIN in
  let w := gui_create hLabelDevices MARGIN y 200 LABEL_HEIGHT w in
  let y := y + LABEL_HEIGHT + PADDING in
  let w := gui_create hDeviceList MARGIN y (CLIENT_WINDOW_WIDTH - 2 * MARGIN - 16) 140 w in
  let y := y + 140 + MARGIN in
  let w := gui_create hBtnRefresh MARGIN y BUTTON_WIDTH BUTTON_HEIGHT w in
  window_set hStatusBar sb w.

(** [cw], [ch]: [gui_get_client_size]. *)
Definition gui_layout_client (cw ch : Z) (garbage : rect) (w : window) : window :=
  let status_h := r_h (window_rect garbage w hStatusBar) in
  let bottom := ch - status_h in
  let margin := gui_scale_dpi MARGIN in
  let pad := gui_scale_dpi PADDING in
  let lblH := gui_scale_dpi LABEL_HEIGHT in
  let editH := gui_scale_dpi EDIT_HEIGHT in
  let btnH := gui_scale_dpi BUTTON_HEIGHT in
  let btnSmall := gui_scale_dpi 80 in
  let editW := gui_scale_dpi 200 in
  let labelW := gui_scale_dpi 50 in
  let y := margin in
  let row1_x := margin + labelW + pad in
  let list_w := cw - 2 * margin - gui_scale_dpi 16 in
  let w := gui_move hLabelServer margin (y + (editH - lblH) ÷ 2) labelW lblH w in
  let w := gui_move hEditServer row1_x y editW editH w in
  let bx := row1_x + editW + pad in
  let w := gui_move hBtnDiscover bx y btnSmall btnH w in
  let bx := bx + btnSmall + pad in
  let w := gui_move hBtnConnect bx y btnSmall btnH w in
  let y := y + editH + margin in
  let w := gui_move hLabelToken margin (y + (editH - lblH) ÷ 2) labelW lblH w in
  let w := gui_move hEditToken row1_x y editW editH w in
  let y := y + editH + margin in
  let w := gui_move hLabelDevices margin y (cw - 2 * margin) lblH w in
  let y := y + lblH + pad in
  let btnY := bottom - pad - btnH in
  let list_h := btnY - pad - y in
  let list_h := if list_h <? gui_scale_dpi 80 then gui_scale_dpi 80 else list_h in
  let w := gui_move hDeviceList margin y list_w list_h w in
  gui_move hBtnRefresh margin btnY (gui_scale_dpi BUTTON_WIDTH) btnH w.

(** ** The server's window *)

(** There is no status bar. *)
Definition create_server_controls : window :=
  let y := MARGIN in
  let w := gui_create hLabelToken MARGIN (y + 4) 80 LABEL_HEIGHT window_zero in
  let w := gui_create hEditToken (MARGIN + 85) y (SERVER_WINDOW_WIDTH - 2 * MARGIN - 101) EDIT_HEIGHT w in
  let y := y + EDIT_HEIGHT + MARGIN in
  let w := gui_create hLabelDevices MARGIN y 300 LABEL_HEIGHT w in
  let y := y + LABEL_HEIGHT + PADDING in
  let w := gui_create hDeviceList MARGIN y (SERVER_WINDOW_WIDTH - 2 * MARGIN - 16) 120 w in
  let y := y + 120 + MARGIN in
  let w := gui_create hLabelClients MARGIN y 200 LABEL_HEIGHT w in
  let y := y + LABEL_HEIGHT + PADDING in
  let w := gui_create hClientList MARGIN y (SERVER_WINDOW_WIDTH - 2 * MARGIN - 16) 80 w in
  let btnX := MARGIN in
  let btnY := SERVER_WINDOW_HEIGHT - BUTTON_HEIGHT - MARGIN - 40 in
  let w := gui_create hBtnRefresh btnX btnY BUTTON_WIDTH BUTTON_HEIGHT w in
  let btnX := btnX + BUTTON_WIDTH + PADDING in
  gui_create hBtnHide btnX btnY (BUTTON_WIDTH + 10) BUTTON_HEIGHT w.

Definition gui_layout_server (cw ch : Z) (garbage : rect) (w : window) : window :=
  let status_h := r_h (window_rect garbage w hStatusBar) in
  let bottom := ch - status_h in
  let margin := gui_scale_dpi MARGIN in
  let pad := gui_scale_dpi PADDING in
  let lblH := gui_scale_dpi LABEL_HEIGHT in
  let editH := gui_scale_dpi EDIT_HEIGHT in
  let btnH := gui_scale_dpi BUTTON_HEIGHT in
  let btnW := gui_scale_dpi BUTTON_WIDTH in
  let y := margin in
  let list_w := cw - 2 * margin - gui_scale_dpi 16 in
  let w := gui_move hLabelToken margin (y + (editH - lblH) ÷ 2) (gui_scale_dpi 80) lblH w in
  let w := gui_move hEditToken (margin + gui_scale_dpi 85) y (cw - 2 * margin - gui_scale_dpi 85) editH w in
  let y := y + editH + margin in
  let w := gui_move hLabelDevices margin y (cw - 2 * margin) lblH w in
  let y := y + lblH + pad in
  let dev_list_h := gui_scale_dpi 120 in
  let w := gui_move hDeviceList margin y list_w dev_list_h w in
  let y := y + dev_list_h + margin in
  let w := gui_move hLabelClients margin y (cw - 2 * margin) lblH w in
  let y := y + lblH + pad in
  let btn_row_h := btnH + pad in
  let cli_list_h := (bottom - pad) - btn_row_h - y in
  let cli_list_h := if cli_list_h <? gui_scale_dpi 60 then gui_scale_dpi 60 else cli_list_h in
  let w := gui_move hClientList margin y list_w cli_list_h w in
  let btnY := bottom - pad - btnH in
  let w := gui_move hBtnRefresh margin btnY btnW btnH w in
  gui_move hBtnHide (margin + btnW + pad) btnY (btnW + gui_scale_dpi 10) btnH w.
End layout.

(** ** Lemmas *)

Lemma rect_inside_true cw ch r :
  rect_inside cw ch r = true <->
  0 <= r_x r /\ 0 <= r_y r /\ r_x r + r_w r <= cw /\ r_y r + r_h r <= ch.
Proof. unfold rect_inside. rewrite !andb_true_iff, !Z.leb_le. tauto. Qed.

Lemma rect_apart_true a b :
  rect_apart a b = true <->
  r_x a + r_w a <= r_x b \/ r_x b + r_w b <= r_x a \/ r_y a + r_h a <= r_y b \/ r_y b + r_h b <= r_y a.
Proof. unfold rect_apart. rewrite !orb_true_iff, !Z.leb_le. tauto. Qed.

Lemma fits_inside cw ch rs i r :
  layout_fits cw ch rs = true -> rs !! i = Some r ->
  0 <= r_x r /\ 0 <= r_y r /\ r_x r + r_w r <= cw /\ r_y r + r_h r <= ch.
Proof.
  intros [Hf _]%andb_true_iff Hi. apply rect_inside_true. rewrite forallb_forall in Hf. apply Hf.
  by apply list_elem_of_In, list_elem_of_lookup_2 with i.
Qed.

Lemma all_apart_lookup rs i j a b :
  all_apart rs = true -> (i < j)%nat -> rs !! i = Some a -> rs !! j = Some b -> rect_apart a b = true.
Proof.
  revert i j. induction rs as [|r rs IH]; intros i j Ha Hlt Hi Hj; [done|].
  apply andb_true_iff in Ha as [Hr Ha]. destruct j as [|j]; [lia|]. destruct i as [|i].
  - injection Hi as <-. rewrite forallb_forall in Hr. apply Hr. by apply list_elem_of_In, list_elem_of_lookup_2 with j.
  - apply (IH i j); [done|lia|done..].
Qed.

Lemma fits_apart cw ch rs i j a b :
  layout_fits cw ch rs = true -> (i < j)%nat -> rs !! i = Some a -> rs !! j = Some b ->
  r_x a + r_w a <= r_x b \/ r_x b + r_w b <= r_x a \/ r_y a + r_h a <= r_y b \/ r_y b + r_h b <= r_y a.
Proof. intros [_ Ha]%andb_true_iff Hlt Hi Hj. apply rect_apart_true. by apply (all_apart_lookup rs i j). Qed.

(** Show that a list of rectangles fits. *)
Ltac fits_solve := unfold layout_fits; cbn [forallb all_apart]; rewrite !andb_true_iff;
  repeat split; (apply rect_inside_true || apply rect_apart_true); cbn [r_x r_y r_w r_h mk_rect]; lia.

(** Where a control is after it, or another, was moved. *)
Lemma gui_move_at c x y w h win c' :
  gui_move c x y w h win c' = if decide (c' = c) then (fun _ => mk_rect x y w h) <$> win c else win c'.
Proof.
  unfold gui_move, window_set. destruct (win c) eqn:E; [done|].
  destruct (decide (c' = c)) as [->|]; [by rewrite E|done].
Qed.

(** The same handles exist. *)
Definition same_controls (w w' : window) : Prop := forall c, is_Some (w c) <-> is_Some (w' c).

Lemma gui_move_same c x y w h win : same_controls (gui_move c x y w h win) win.
Proof.
  intros c'. rewrite gui_move_at. destruct (decide (c' = c)) as [->|]; [|done]. by rewrite fmap_is_Some.
Qed.

#[export] Instance same_controls_equiv : Equivalence same_controls.
Proof.
  split; [done|by intros w w' Hw c|]. intros w1 w2 w3 H12 H23 c. by rewrite (H12 c).
Qed.

Lemma quot2 z : 0 <= z -> z - 1 <= 2 * (z ÷ 2) <= z.
Proof. intros Hz. pose proof (Z.quot_rem' z 2). pose proof (Z.rem_bound_pos z 2). lia. Qed.

Section laws.
  Context `{ScreenLaws}.

(** What [gui_scale_dpi] is, to the nearest pixel. *)
Lemma scale_bounds n :
  0 <= n -> 0 <= system_dpi ->
  192 * gui_scale_dpi n <= 2 * (n * system_dpi) + 96 < 192 * gui_scale_dpi n + 192.
Proof.
  intros Hn Hd. unfold gui_scale_dpi. rewrite muldiv_rounds by lia.
  pose proof (Z.div_mod (2 * (n * system_dpi) + 96) (2 * 96)) as E.
  pose proof (Z.mod_pos_bound (2 * (n * system_dpi) + 96) (2 * 96)). lia.
Qed.

(** The least size of the client's area at which its layout is right. *)
Definition client_min_width : Z :=
  gui_scale_dpi MARGIN + gui_scale_dpi 50 + gui_scale_dpi PADDING + gui_scale_dpi 200 + gui_scale_dpi PADDING
  + gui_scale_dpi 80 + gui_scale_dpi PADDING + gui_scale_dpi 80.

Definition client_min_height : Z :=
  3 * gui_scale_dpi MARGIN + 2 * gui_scale_dpi EDIT_HEIGHT + gui_scale_dpi LABEL_HEIGHT
  + 2 * gui_scale_dpi PADDING + gui_scale_dpi 80 + gui_scale_dpi BUTTON_HEIGHT.

(** And of the server's. *)
Definition server_min_width : Z :=
  gui_scale_dpi MARGIN + gui_scale_dpi BUTTON_WIDTH + gui_scale_dpi PADDING + gui_scale_dpi BUTTON_WIDTH
  + gui_scale_dpi 10.

Definition server_min_height : Z :=
  3 * gui_scale_dpi MARGIN + gui_scale_dpi EDIT_HEIGHT + 2 * gui_scale_dpi LABEL_HEIGHT + gui_scale_dpi 120
  + 3 * gui_scale_dpi PADDING + gui_scale_dpi 60 + gui_scale_dpi BUTTON_HEIGHT.

Hypothesis Hdpi : 96 <= system_dpi.

(** Scaling on a screen of at least 96 dots per inch. *)
Lemma scale_pos n : 1 <= n -> 1 <= gui_scale_dpi n.
Proof using All. intros Hn. pose proof (scale_bounds n). nia. Qed.

Lemma scale_le a b : 0 <= a <= b -> gui_scale_dpi a <= gui_scale_dpi b.
Proof using All. intros Hab. pose proof (scale_bounds a). pose proof (scale_bounds b). nia. Qed.

Lemma scale_lt a b : 0 <= a -> a + 1 < b -> gui_scale_dpi a < gui_scale_dpi b.
Proof using All. intros Ha Hb. pose proof (scale_bounds a). pose proof (scale_bounds b). nia. Qed.

Lemma scale_cross a b c d : 0 <= a -> 0 <= b -> 0 <= c -> 0 <= d -> a + b + 2 < c + d ->
  gui_scale_dpi a + gui_scale_dpi b < gui_scale_dpi c + gui_scale_dpi d.
Proof using All.
  intros. pose proof (scale_bounds a). pose proof (scale_bounds b). pose proof (scale_bounds c).
  pose proof (scale_bounds d). nia.
Qed.

Lemma scale_add a b c : 0 <= a -> 0 <= b -> 0 <= c < a + b ->
  gui_scale_dpi c <= gui_scale_dpi a + gui_scale_dpi b.
Proof using All.
  intros Ha Hb Hc. pose proof (scale_bounds a). pose proof (scale_bounds b). pose proof (scale_bounds c). nia.
Qed.

Lemma scale_sum a b c : 0 <= a -> 0 <= b -> a + b + 1 < c ->
  gui_scale_dpi a + gui_scale_dpi b <= gui_scale_dpi c.
Proof using All.
  intros Ha Hb Hc. pose proof (scale_bounds a). pose proof (scale_bounds b). pose proof (scale_bounds c). nia.
Qed.
End laws.

(** The client's layout from its sizes: margin, padding, heights of a label, an edit field
    and a button, and the least height [lo] of the list. *)
Definition client_rects (cw bottom m p lbl ed btn btnW small editW labelW gap lo : Z) : list rect :=
  let y3 := m + ed + m + ed + m + lbl + p in
  let x1 := m + labelW + p in
  let btnY := bottom - p - btn in
  let list_h := btnY - p - y3 in [
  mk_rect m (m + (ed - lbl) ÷ 2) labelW lbl; mk_rect x1 m editW ed;
  mk_rect (x1 + editW + p) m small btn; mk_rect (x1 + editW + p + small + p) m small btn;
  mk_rect m (m + ed + m + (ed - lbl) ÷ 2) labelW lbl; mk_rect x1 (m + ed + m) editW ed;
  mk_rect m (m + ed + m + ed + m) (cw - 2 * m) lbl;
  mk_rect m y3 (cw - 2 * m - gap) (if list_h <? lo then lo else list_h);
  mk_rect m btnY btnW btn].

Lemma client_rects_fit cw bottom m p lbl ed btn btnW small editW labelW gap lo :
  1 <= m -> 1 <= p < lo -> 1 <= lbl <= ed -> 1 <= btn <= ed + m -> 1 <= btnW <= editW -> 1 <= small ->
  1 <= labelW -> 0 <= gap -> m + gap <= editW ->
  layout_fits cw bottom (client_rects cw bottom m p lbl ed btn btnW small editW labelW gap lo) =
  (m + labelW + p + editW + p + small + p + small <=? cw) &&
  (3 * m + 2 * ed + lbl + 2 * p + lo + btn <=? bottom).
Proof.
  intros Hm Hp Hl Hb Hw Hs Hlw Hg Hgw. pose proof (quot2 (ed - lbl) ltac:(lia)) as Hq.
  apply eq_true_iff_eq. rewrite andb_true_iff, !Z.leb_le. split.
  - intros Hf. pose proof (fits_inside _ _ _ 3 _ Hf eq_refl) as H3.
    pose proof (fits_inside _ _ _ 7 _ Hf eq_refl) as H7. pose proof (fits_inside _ _ _ 8 _ Hf eq_refl) as H8.
    pose proof (fits_apart _ _ _ 7 8 _ _ Hf ltac:(lia) eq_refl eq_refl) as H78. clear Hf.
    cbn [r_x r_y r_w r_h mk_rect] in *. destruct (_ <? lo) eqn:E; bool_to_prop. all: lia.
  - intros [H1 H2]. unfold client_rects. cbv zeta. generalize dependent ((ed - lbl) ÷ 2). intros q Hq.
    destruct (_ <? lo) eqn:E; bool_to_prop; fits_solve.
Qed.

(** The server's. *)
Definition server_rects (cw bottom m p lbl ed btn btnW tok tokx dev ten gap lo : Z) : list rect :=
  let y1 := m + ed + m in
  let y2 := y1 + lbl + p + dev + m in
  let y3 := y2 + lbl + p in
  let btnY := bottom - p - btn in
  let list_h := (bottom - p) - (btn + p) - y3 in [
  mk_rect m (m + (ed - lbl) ÷ 2) tok lbl; mk_rect (m + tokx) m (cw - 2 * m - tokx) ed;
  mk_rect m y1 (cw - 2 * m) lbl; mk_rect m (y1 + lbl + p) (cw - 2 * m - gap) dev;
  mk_rect m y2 (cw - 2 * m) lbl;
  mk_rect m y3 (cw - 2 * m - gap) (if list_h <? lo then lo else list_h);
  mk_rect m btnY btnW btn; mk_rect (m + btnW + p) btnY (btnW + ten) btn].

Lemma server_rects_fit cw ch bottom m p lbl ed btn btnW tok tokx dev ten gap lo :
  1 <= m -> 1 <= p < lo -> 1 <= lbl <= ed -> 1 <= btn -> 1 <= btnW -> 1 <= tok <= tokx -> 1 <= dev ->
  0 <= ten -> 0 <= gap -> m + gap <= btnW -> tokx <= btnW -> gap <= btnW + ten -> m + ed < btn + lbl -> p < btn ->
  layout_fits cw ch (server_rects cw bottom m p lbl ed btn btnW tok tokx dev ten gap lo) =
  (m + btnW + p + btnW + ten <=? cw) &&
  (3 * m + ed + 2 * lbl + dev + 3 * p + lo + btn <=? bottom) && (bottom - p <=? ch).
Proof.
  intros Hm Hp Hl Hb Hw Ht Hd Hten Hg Hgw Htw Hgt Hbl Hpb. pose proof (quot2 (ed - lbl) ltac:(lia)) as Hq.
  apply eq_true_iff_eq. rewrite !andb_true_iff, !Z.leb_le. split.
  - intros Hf. pose proof (fits_inside _ _ _ 7 _ Hf eq_refl) as H7.
    pose proof (fits_inside _ _ _ 5 _ Hf eq_refl) as H5. pose proof (fits_inside _ _ _ 6 _ Hf eq_refl) as H6.
    pose proof (fits_apart _ _ _ 5 6 _ _ Hf ltac:(lia) eq_refl eq_refl) as H56.
    pose proof (fits_apart _ _ _ 0 6 _ _ Hf ltac:(lia) eq_refl eq_refl) as H06.
    pose proof (fits_apart _ _ _ 2 6 _ _ Hf ltac:(lia) eq_refl eq_refl) as H26.
    pose proof (fits_apart _ _ _ 3 6 _ _ Hf ltac:(lia) eq_refl eq_refl) as H36.
    pose proof (fits_apart _ _ _ 4 6 _ _ Hf ltac:(lia) eq_refl eq_refl) as H46. clear Hf.
    cbn [r_x r_y r_w r_h mk_rect] in *. destruct (_ <? lo) eqn:E; bool_to_prop. all: lia.
  - intros [[H1 H2] H3]. unfold server_rects. cbv zeta. generalize dependent ((ed - lbl) ÷ 2). intros q Hq.
    destruct (_ <? lo) eqn:E; bool_to_prop; fits_solve.
Qed.

(** The facts about scaled sizes that a layout needs. *)
Ltac scale_solve := repeat split;
  first [by apply scale_pos|apply scale_le; [done|lia]|apply scale_lt; [done|lia..]|apply scale_add; [done|lia..]
        |apply scale_sum; [done|lia..]|apply scale_cross; [done|lia..]
        |etrans; [|by apply scale_pos]; lia].

Section theorems.
  Context `{ScreenLaws}.

Lemma client_fits cw ch sb garbage :
  96 <= system_dpi ->
  layout_fits cw (ch - r_h sb) (shown (gui_layout_client cw ch garbage (create_client_controls sb))) =
  (client_min_width <=? cw) && (client_min_height <=? ch - r_h sb).
Proof.
  intros Hd. unfold client_min_width, client_min_height.
  rewrite <- (client_rects_fit cw (ch - r_h sb) _ _ _ (gui_scale_dpi EDIT_HEIGHT) _ (gui_scale_dpi BUTTON_WIDTH)
    _ _ _ (gui_scale_dpi 16) _); [reflexivity|..];
  unfold MARGIN, PADDING, BUTTON_HEIGHT, BUTTON_WIDTH, LABEL_HEIGHT, EDIT_HEIGHT.
  all: try scale_solve.
Qed.

(** the client's layout.  On a screen of at least 96 dots per inch, whatever the
    positions before, the controls neither overlap nor are cut off if and only if the
    client area is at least as wide as the row of the server's name and its buttons, and,
    above the status bar, as high as the rows with the shortest list.  The window opens in
    a size that is not scaled, and on a screen of 120 dots per inch or more that is too
    narrow. *)
Theorem client_layout_fits cw ch sb garbage :
  96 <= system_dpi ->
  let fits := layout_fits cw (ch - r_h sb)
    (shown (gui_layout_client cw ch garbage (create_client_controls sb))) in
  fits = (client_min_width <=? cw) && (client_min_height <=? ch - r_h sb) /\
  (120 <= system_dpi -> cw <= CLIENT_WINDOW_WIDTH -> fits = false).
Proof.
  intros Hd fits. subst fits. rewrite client_fits by done. split; [done|]. intros Hd2 Hw.
  apply andb_false_iff. left. apply Z.leb_gt.
  unfold client_min_width, MARGIN, PADDING, CLIENT_WINDOW_WIDTH in *.
  pose proof (scale_bounds 10). pose proof (scale_bounds 50). pose proof (scale_bounds 5).
  pose proof (scale_bounds 200). pose proof (scale_bounds 80). lia.
Qed.

Lemma server_fits cw ch garbage :
  96 <= system_dpi ->
  layout_fits cw ch (shown (gui_layout_server cw ch garbage create_server_controls)) =
  (server_min_width <=? cw) && (server_min_height <=? ch - r_h garbage) &&
  (ch - r_h garbage - gui_scale_dpi PADDING <=? ch).
Proof.
  intros Hd. unfold server_min_width, server_min_height.
  rewrite <- (server_rects_fit cw ch (ch - r_h garbage) _ _ _ (gui_scale_dpi EDIT_HEIGHT) _ _
    (gui_scale_dpi 80) (gui_scale_dpi 85) (gui_scale_dpi 120) _ (gui_scale_dpi 16) _); [reflexivity|..];
  unfold MARGIN, PADDING, BUTTON_HEIGHT, BUTTON_WIDTH, LABEL_HEIGHT, EDIT_HEIGHT.
  all: try scale_solve.
Qed.

(** the server's layout.  The server's window has no status bar, so that the height
    that [gui_layout_server] subtracts is that of a variable it never set: the layout is
    right if and only if the client area is wide enough, high enough for the rows and that
    many pixels more, and the number is not so negative that the buttons are below the
    window; so no size of the window is enough for every value of the variable.  On a
    screen of 144 dots per inch or more the window opens too low, even if it is zero. *)
Theorem server_layout_fits cw ch :
  96 <= system_dpi ->
  let fits garbage := layout_fits cw ch
    (shown (gui_layout_server cw ch garbage create_server_controls)) in
  (forall garbage, fits garbage =
    (server_min_width <=? cw) && (server_min_height <=? ch - r_h garbage) &&
    (ch - r_h garbage - gui_scale_dpi PADDING <=? ch)) /\
  (exists garbage, fits garbage = false) /\
  (144 <= system_dpi -> ch <= SERVER_WINDOW_HEIGHT ->
   forall garbage, 0 <= r_h garbage -> fits garbage = false).
Proof.
  intros Hd fits. assert (1 <= server_min_height) as Hpos.
  { unfold server_min_height. pose proof (scale_pos Hd MARGIN ltac:(done)).
    pose proof (scale_pos Hd EDIT_HEIGHT ltac:(done)). pose proof (scale_pos Hd LABEL_HEIGHT ltac:(done)).
    pose proof (scale_pos Hd 120 ltac:(done)). pose proof (scale_pos Hd PADDING ltac:(done)).
    pose proof (scale_pos Hd 60 ltac:(done)). pose proof (scale_pos Hd BUTTON_HEIGHT ltac:(done)). lia. }
  assert (forall g, ch - r_h g < server_min_height -> fits g = false) as Hlow.
  { intros g Hg. unfold fits. rewrite server_fits by done. apply andb_false_iff. left.
    apply andb_false_iff. right. by apply Z.leb_gt. }
  split; [intros garbage; by apply server_fits|]. split.
  - exists (mk_rect 0 0 0 ch). apply Hlow. simpl. lia.
  - intros Hd2 Hh g Hg. apply Hlow.
    unfold server_min_height, MARGIN, EDIT_HEIGHT, LABEL_HEIGHT, PADDING, BUTTON_HEIGHT, SERVER_WINDOW_HEIGHT in *.
    pose proof (scale_bounds 10). pose proof (scale_bounds 24). pose proof (scale_bounds 18).
    pose proof (scale_bounds 120). pose proof (scale_bounds 5). pose proof (scale_bounds 60).
    pose proof (scale_bounds 28). lia.
Qed.
End theorems.

(** *** Laying out again

    A layout depends on the size alone: every control that exists is moved. *)
Section again.
  Context `{Screen}.

(** An element of a list that is written out. *)
Ltac elem_solve := apply (bool_decide_unpack _); by vm_compute.

Lemma fmap_const_same {A B} (x : B) (a b : option A) :
  (is_Some a <-> is_Some b) -> (fun _ => x) <$> a = (fun _ => x) <$> b.
Proof. destruct a, b; simpl; intros [H1 H2]; [done| | |done]; [by destruct H1|by destruct H2]. Qed.

(** A layout is a list of moves. *)
Definition apply_moves (ms : list (control * Z * Z * Z * Z)) (win : window) : window :=
  fold_left (fun win '(c, x, y, w, h) => gui_move c x y w h win) ms win.

Definition moved (ms : list (control * Z * Z * Z * Z)) : list control := (fun m => m.1.1.1.1) <$> ms.

Lemma moves_agree ms w w' c :
  w c = w' c \/ (c ∈ moved ms /\ (is_Some (w c) <-> is_Some (w' c))) ->
  apply_moves ms w c = apply_moves ms w' c.
Proof.
  revert w w'. induction ms as [|[[[[c0 x] y] wd] h] ms IH]; intros w w' Hc.
  { destruct Hc as [?|[Hin _]]; [done|]. by apply not_elem_of_nil in Hin. }
  apply IH. rewrite !gui_move_at. destruct (decide (c = c0)) as [->|Hne].
  - left. apply fmap_const_same. destruct Hc as [->|[_ ?]]; done.
  - destruct Hc as [?|[Hin ?]]; [by left|right]. split; [|done].
    unfold moved in *. rewrite fmap_cons in Hin. by apply elem_of_cons in Hin as [?|?].
Qed.

(** Every handle that the window has is moved, apart from the status bar. *)
Lemma server_moves cw ch g :
  exists ms, moved ms = [hLabelToken; hEditToken; hLabelDevices; hDeviceList; hLabelClients; hClientList;
      hBtnRefresh; hBtnHide] /\
    forall w, w hStatusBar = None -> gui_layout_server cw ch g w = apply_moves ms w.
Proof.
  eexists [(_, _, _, _, _); (_, _, _, _, _); (_, _, _, _, _); (_, _, _, _, _); (_, _, _, _, _);
           (_, _, _, _, _); (_, _, _, _, _); (_, _, _, _, _)].
  split; [reflexivity|]. intros w Hb. unfold gui_layout_server, window_rect. rewrite Hb. reflexivity.
Qed.

Lemma client_moves cw ch g sb :
  exists ms, moved ms = [hLabelServer; hEditServer; hBtnDiscover; hBtnConnect; hLabelToken; hEditToken;
      hLabelDevices; hDeviceList; hBtnRefresh] /\
    forall w, w hStatusBar = Some sb -> gui_layout_client cw ch g w = apply_moves ms w.
Proof.
  eexists [(_, _, _, _, _); (_, _, _, _, _); (_, _, _, _, _); (_, _, _, _, _); (_, _, _, _, _);
           (_, _, _, _, _); (_, _, _, _, _); (_, _, _, _, _); (_, _, _, _, _)].
  split; [reflexivity|]. intros w Hb. unfold gui_layout_client, window_rect. rewrite Hb. reflexivity.
Qed.

Lemma server_layout_again cw ch g w c :
  same_controls w create_server_controls ->
  gui_layout_server cw ch g w c = gui_layout_server cw ch g create_server_controls c.
Proof.
  intros Hs. assert (w hStatusBar = None) as Hb.
  { pose proof (Hs hStatusBar) as [Hx _]. destruct (w hStatusBar); [|done]. by destruct Hx. }
  destruct (server_moves cw ch g) as (ms & Em & El). rewrite !El by done. apply moves_agree. rewrite Em.
  specialize (Hs c). destruct (decide (c ∈ moved ms)) as [Hin|Hn]; rewrite Em in *; [by right|left].
  assert (create_server_controls c = None) as Hc by (by destruct c; try (destruct Hn; elem_solve)).
  rewrite Hc in *. destruct (w c); [|done]. by destruct (proj1 Hs).
Qed.

Lemma client_layout_again cw ch g sb w c :
  same_controls w (create_client_controls sb) -> w hStatusBar = Some sb ->
  gui_layout_client cw ch g w c = gui_layout_client cw ch g (create_client_controls sb) c.
Proof.
  intros Hs Hb. destruct (client_moves cw ch g sb) as (ms & Em & El). rewrite !El by done.
  apply moves_agree. rewrite Em.
  specialize (Hs c). destruct (decide (c ∈ moved ms)) as [Hin|Hn]; rewrite Em in *; [by right|left].
  destruct (decide (c = hStatusBar)) as [->|Hne]; [by rewrite Hb|].
  assert (create_client_controls sb c = None) as Hc by (by destruct c; try (destruct Hn; elem_solve)).
  rewrite Hc in *. destruct (w c); [|done]. by destruct (proj1 Hs).
Qed.

(** The handles stay the same. *)
Lemma moves_same ms w : same_controls (apply_moves ms w) w.
Proof.
  revert w. induction ms as [|[[[[c x] y] wd] h] ms IH]; intros w; [done|].
  etrans; [apply IH|]. apply gui_move_same.
Qed.

Lemma server_layout_same cw ch g w :
  w hStatusBar = None -> same_controls (gui_layout_server cw ch g w) w.
Proof. intros Hb. destruct (server_moves cw ch g) as (ms & _ & El). rewrite El by done. apply moves_same. Qed.

Lemma client_layout_same cw ch g sb w :
  w hStatusBar = Some sb -> same_controls (gui_layout_client cw ch g w) w /\
  gui_layout_client cw ch g w hStatusBar = Some sb.
Proof.
  intros Hb. destruct (client_moves cw ch g sb) as (ms & Em & El). rewrite El by done.
  split; [apply moves_same|].
  assert (hStatusBar ∉ moved ms) as Hn by (rewrite Em; apply (bool_decide_unpack _); by vm_compute).
  clear El Em. revert w Hb Hn. induction ms as [|[[[[c x] y] wd] h] ms IH]; intros w Hb Hn; [done|].
  unfold moved in *. rewrite fmap_cons in Hn. apply not_elem_of_cons in Hn as [Hne Hn].
  apply IH; [|done]. rewrite gui_move_at. by rewrite decide_False.
Qed.
End again.

(** ** An instance: screens of any resolution *)

Module SimScreen.
Definition screen (dpi : Z) : Screen := {|
  LOGPIXELSY := dpi; MulDiv a b c := (2 * (a * b) + c) / (2 * c) |}.

Lemma screen_laws dpi : @ScreenLaws (screen dpi).
Proof. by split. Qed.
End SimScreen.

(** ** Witnesses *)

(** The client's window as it opens at 96 dots per inch, and at half the height. *)
Lemma client_layout_fits_witness :
  let fits ch := @layout_fits 464 (ch - 23) (shown (@gui_layout_client (SimScreen.screen 96) 464 ch
    (mk_rect 0 0 0 0) (create_client_controls (mk_rect 0 338 464 23)))) in
  fits 361 = true /\ fits 180 = false.
Proof.
  pose proof (fun ch => @client_layout_fits (SimScreen.screen 96) (SimScreen.screen_laws 96) 464 ch
    (mk_rect 0 338 464 23) (mk_rect 0 0 0 0)) as Hf.
  cbv zeta. split; rewrite (proj1 (Hf _ ltac:(by vm_compute))); by vm_compute.
Defined.

Lemma server_layout_fits_witness :
  exists garbage, layout_fits 504 381
    (shown (@gui_layout_server (SimScreen.screen 96) 504 381 garbage create_server_controls)) = false.
Proof.
  apply (@server_layout_fits (SimScreen.screen 96) (SimScreen.screen_laws 96) 504 381). by vm_compute.
Defined.
