(* ===== verification/GuiCommon.v ===== *)
(** * What the two windows share ([gui/gui_common.c])

    The text of the windows is UTF-16, that of the program UTF-8: [WideText] is the
    conversion Windows makes.  A list view is the list of its rows; the program reads
    back a row's first column and its check box. *)

From Stdlib Require Import String.
From S2P Require Import Prelude CTypes.

(** ** Text *)

(** [MultiByteToWideChar] and [WideCharToMultiByte] for UTF-8, with the terminating
    NUL: the text in the destination of that many units, up to its NUL, when the call
    returns. *)
Class WideText := {
  MultiByteToWideChar : bytes -> nat -> list Z;
  WideCharToMultiByte : list Z -> nat -> bytes;
}.

(** A text of characters that are the same in both encodings. *)
Definition ascii_text (s : list Z) : Prop := Forall (fun c => 0 < c < 128) s.

#[export] Instance ascii_text_dec s : Decision (ascii_text s).
Proof. unfold ascii_text. apply _. Defined.

(** ASCII text that fits with its NUL is converted to itself; the text in a destination
    of [n] bytes leaves room for the NUL that ends it. *)
Class WideTextLaws `{WideText} := {
  to_wide_ascii s n : ascii_text s -> (length s < n)%nat -> MultiByteToWideChar s n = s;
  to_utf8_ascii s n : ascii_text s -> (length s < n)%nat -> WideCharToMultiByte s n = s;
  to_utf8_text w n : (0 < n)%nat -> no_nul (WideCharToMultiByte w n) /\ (length (WideCharToMultiByte w n) < n)%nat;
}.

Section text.
  Context `{WideText}.

(** The text in [wide]; [None]: nothing is written. *)
Definition gui_utf8_to_wide (utf8 : ptr bytes) (wideLen : nat) : option (list Z) :=
  match utf8 with
  | NULL => if (0 <? wideLen)%nat then Some [] else None
  | Some s => if (wideLen <=? 0)%nat then None else Some (MultiByteToWideChar s wideLen)
  end.

Definition gui_wide_to_utf8 (wide : ptr (list Z)) (utf8Len : nat) : option bytes :=
  match wide with
  | NULL => if (0 <? utf8Len)%nat then Some [] else None
  | Some w => if (utf8Len <=? 0)%nat then None else Some (WideCharToMultiByte w utf8Len)
  end.

(** The text of a column, and the string read back from it. *)
Definition wide_column (s : bytes) (n : nat) : list Z := default [] (gui_utf8_to_wide (Some s) n).
Definition column_text (w : list Z) (n : nat) : bytes := default [] (gui_wide_to_utf8 (Some w) n).

Lemma column_roundtrip `{!WideTextLaws} s n :
  ascii_text s -> (length s < n)%nat -> column_text (wide_column s n) n = s.
Proof.
  intros Ha Hl. unfold column_text, wide_column, gui_utf8_to_wide, gui_wide_to_utf8.
  destruct n as [|n]; [lia|]. simpl. by rewrite to_wide_ascii, to_utf8_ascii.
Qed.

Lemma column_text_ascii `{!WideTextLaws} s n : ascii_text s -> (length s < n)%nat -> column_text s n = s.
Proof.
  intros Ha Hl. unfold column_text, gui_wide_to_utf8. destruct n as [|n]; [lia|]. by apply to_utf8_ascii.
Qed.

Lemma column_text_short `{!WideTextLaws} w n :
  (0 < n)%nat -> no_nul (column_text w n) /\ (length (column_text w n) < n)%nat.
Proof.
  intros Hn. unfold column_text, gui_wide_to_utf8. destruct n as [|n]; [lia|]. by apply to_utf8_text.
Qed.
End text.

(** ** List views *)

(** A row: its four columns and its check box. *)
Record gui_row := {
  row_busid : list Z;
  row_vidpid : list Z;
  row_desc : list Z;
  row_status : string;
  row_checked : bool;
}.

(** [gui_listview_set_item] on the last column, and [gui_listview_set_checkbox]. *)
Definition row_set_status (r : gui_row) (status : string) : gui_row := {|
  row_busid := row_busid r; row_vidpid := row_vidpid r; row_desc := row_desc r;
  row_status := status; row_checked := row_checked r |}.

Definition row_set_checked (r : gui_row) (checked : bool) : gui_row := {|
  row_busid := row_busid r; row_vidpid := row_vidpid r; row_desc := row_desc r;
  row_status := row_status r; row_checked := checked |}.

(** A row that does not exist is left alone. *)
Definition gui_listview_set_checkbox (rows : list gui_row) (row : nat) (checked : bool) : list gui_row :=
  alter (fun r => row_set_checked r checked) row rows.

Definition set_status_item (rows : list gui_row) (row : nat) (status : string) : list gui_row :=
  alter (fun r => row_set_status r status) row rows.

Definition gui_listview_get_checkbox (rows : list gui_row) (row : nat) : bool :=
  match rows !! row with Some r => row_checked r | None => false end.

(** The text of a row's first column; a row that does not exist has none, and the
    caller's buffer is the one it was, which here starts empty. *)
Definition row_text (rows : list gui_row) (row : nat) : list Z :=
  match rows !! row with Some r => row_busid r | None => [] end.

Lemma alter_nil {A} (f : A -> A) i (l : list A) : l = [] -> alter f i l = [].
Proof. by intros ->. Qed.

Lemma row_text_shown (rows : list gui_row) i checked :
  row_text (gui_listview_set_checkbox rows i checked) i = row_text rows i.
Proof.
  unfold row_text, gui_listview_set_checkbox. rewrite list_lookup_alter_eq. by destruct (rows !! i).
Qed.

Lemma checkbox_shown (rows : list gui_row) i checked :
  is_Some (rows !! i) -> gui_listview_get_checkbox (gui_listview_set_checkbox rows i checked) i = checked.
Proof.
  intros [r Hr]. unfold gui_listview_get_checkbox, gui_listview_set_checkbox. by rewrite list_lookup_alter_eq, Hr.
Qed.

(** Changing a row that exists is replacing it. *)
Lemma alter_row (f : gui_row -> gui_row) (rows : list gui_row) i r :
  rows !! i = Some r -> alter f i rows = <[i := f r]> rows.
Proof.
  intros Hr. apply list_eq. intros j. destruct (decide (i = j)) as [<-|Hne].
  - rewrite list_lookup_alter_eq, Hr, list_lookup_insert_eq; [done|]. by eapply lookup_lt_Some.
  - by rewrite list_lookup_alter_ne, list_lookup_insert_ne.
Qed.

(** ** An instance

    Texts of ASCII characters, cut to the destination's size. *)
Module SimText.
#[export] Instance wide_text : WideText := {|
    MultiByteToWideChar s n := copy_str s n; WideCharToMultiByte w n := copy_str w n |}.
#[export] Instance wide_text_laws : WideTextLaws.
  Proof.
    assert (forall s n, ascii_text s -> (length s < n)%nat -> copy_str s n = s) as Hc.
    { intros s n Ha Hl. apply copy_str_id; [|done]. eapply Forall_impl; [exact Ha|]. simpl. lia. }
    split; [exact Hc..|]. intros w n Hn. split; [|by apply copy_str_short].
    unfold WideCharToMultiByte, wide_text, copy_str. apply Forall_take, cstr_no_nul.
  Qed.
End SimText.
