(* ===== verification/GuiServer.v ===== *)
(** * The graphical server ([gui/server_gui.c])

    The server part of the window: one thread that accepts clients, one handler thread
    per client, the discovery listener, and the shared-device check boxes, all on one
    client manager and one device list.  The threads are interleaved one iteration of
    their loops at a time ([gui_step]); of the window only the rows of the device list, which the
    program reads back, are here: its messages are in [GuiWindows], its layout in
    [GuiLayout]. *)

From Stdlib Require Import String.
From S2P Require Import Prelude CTypes Format Errors Log Protocol Net ProtocolIO Auth UsbHost DeviceList.
From S2P Require Import UrbQueue UrbHandler ClientManager Server Discovery GuiCommon.

(** ** State *)

(** [server_gui_context_t] without the windows; [gs_handlers]: the clients that have
    a handler thread. *)
Record gui_server := {
  gs_manager : client_manager;   (* with the device list *)
  gs_running : bool;
  gs_socket : Z;
  gs_discovery_socket : Z;
  gs_auth_token : bytes;
  gs_rows : list gui_row;
  gs_handlers : list Z;
}.

Definition gs_set_manager (g : gui_server) (m : client_manager) : gui_server := {|
  gs_manager := m; gs_running := gs_running g; gs_socket := gs_socket g;
  gs_discovery_socket := gs_discovery_socket g; gs_auth_token := gs_auth_token g;
  gs_rows := gs_rows g; gs_handlers := gs_handlers g |}.

Definition gs_set_handlers (g : gui_server) (hs : list Z) : gui_server := {|
  gs_manager := gs_manager g; gs_running := gs_running g; gs_socket := gs_socket g;
  gs_discovery_socket := gs_discovery_socket g; gs_auth_token := gs_auth_token g;
  gs_rows := gs_rows g; gs_handlers := hs |}.

Definition gs_set_rows (g : gui_server) (rows : list gui_row) : gui_server := {|
  gs_manager := gs_manager g; gs_running := gs_running g; gs_socket := gs_socket g;
  gs_discovery_socket := gs_discovery_socket g; gs_auth_token := gs_auth_token g;
  gs_rows := rows; gs_handlers := gs_handlers g |}.

Definition gs_set_sockets (g : gui_server) (running : bool) (sock disc : Z) : gui_server := {|
  gs_manager := gs_manager g; gs_running := running; gs_socket := sock;
  gs_discovery_socket := disc; gs_auth_token := gs_auth_token g;
  gs_rows := gs_rows g; gs_handlers := gs_handlers g |}.

Definition gs_list (g : gui_server) : device_list := cm_device_list (gs_manager g).

Definition gs_set_list (g : gui_server) (l : device_list) : gui_server :=
  gs_set_manager g (cm_set_list (gs_manager g) l).

(** ** The list of devices *)

Section rows.
  Context `{WideText}.

Definition share_status (shared : bool) : string := if shared then "Shared"%string else "Local"%string.

(** The row of a device, and the entry that is made for it if it has none. [data]: the
    server and what the allocations return. *)
Definition enum_device_callback (device : usb_device) (data : gui_server * list (ptr Z)) :
    gui_server * list (ptr Z) :=
  let '(g, allocs) := data in
  let dev := device_list_find (Some (gs_list g)) (Some (dev_busid device)) in
  let shared := match dev with Some e => de_is_shared e | NULL => false end in
  let row := {|
    row_busid := wide_column (dev_busid device) 32;
    row_vidpid := fmt_0X 4 (dev_vendor_id device) ++ str ":" ++ fmt_0X 4 (dev_product_id device);
    row_desc := wide_column (if negb (char_at (dev_product device) 0 =? 0) then dev_product device
                             else str "USB Device") 128;
    row_status := share_status shared; row_checked := shared |} in
  let g := gs_set_rows g (gs_rows g ++ [row]) in
  match dev with
  | Some _ => (g, allocs)
  | NULL =>
      (gs_set_list g (default (gs_list g)
         (device_list_add (default NULL (head allocs)) (Some (gs_list g)) (Some device)).2),
       tail allocs)
  end.

Definition populate_device_list (utf8 : list Z -> nat -> option bytes) (host_initialized : bool)
    (dev_info : ptr (list di_entry)) (allocs : list (ptr Z)) (g : gui_server) : gui_server :=
  (usb_enumerate_devices utf8 host_initialized dev_info enum_device_callback
     (gs_set_rows g [], allocs)).2.1.

(** The row whose check box the user changed, with its new value. *)
Definition on_device_checkbox_changed (g_updating_checkbox : bool) (index : nat) (checked : bool)
    (g : gui_server) : gui_server :=
  if g_updating_checkbox then g else
  let g := gs_set_rows g (gui_listview_set_checkbox (gs_rows g) index checked) in
  let busid := column_text (row_text (gs_rows g) index) 32 in
  if char_at busid 0 =? 0 then g else
  let checked := gui_listview_get_checkbox (gs_rows g) index in
  let l := default (gs_list g) (device_list_set_shared (Some (gs_list g)) (Some busid) checked).2 in
  gs_set_rows (gs_set_list g l) (set_status_item (gs_rows g) index (share_status checked)).

(** The loop over the rows. *)
Fixpoint stop_rows (rows : list gui_row) (l : device_list) : device_list :=
  match rows with
  | [] => l
  | row :: rows =>
      let busid := column_text (row_busid row) 32 in
      stop_rows rows (default l (device_list_set_shared (Some l) (Some busid) false).2)
  end.

Definition server_gui_stop_all (g : gui_server) : gui_server :=
  gs_set_rows (gs_set_list g (stop_rows (gs_rows g) (gs_list g)))
    ((fun row => row_set_status (row_set_checked row false) (share_status false)) <$> gs_rows g).
End rows.

Section gui.
  Context {N U : Type} `{Winsock N} `{WinUsb U}.

(** ** The threads *)

(** One iteration of [client_handler_thread]: a request, and the end of the thread when
    it fails. *)
Definition client_handler_step (env : attach_env) (loc : Z) (g : gui_server) : M (N * U) gui_server :=
  let finish g :=
    '(_, r) ← client_manager_remove (Some (gs_manager g)) (Some loc);
    mret (gs_set_handlers (gs_set_manager g (default (gs_manager g) r))
            (remove_first (fun x => x =? loc) (gs_handlers g))) in
  match find_first (client_at loc) (cm_clients (gs_manager g)) with
  | NULL => mret g
  | Some c =>
      if negb (cl_running c && gs_running g) then finish g else
      '(err, r1, r2) ← client_handle_request env (Some (gs_manager g)) (Some c);
      let g := gs_set_manager g (store_client (default (gs_manager g) r1) (default c r2)) in
      if negb (error_code_eqb err ERR_SUCCESS) then finish g else mret g
  end.

(** One iteration of [server_accept_thread].  [alloc], [data]: what the allocations of
    the client and of the thread's data return; [thread]: whether the thread could be
    created. *)
Definition server_accept_step (alloc : ptr Z) (data thread : bool) (now : Z)
    (g : gui_server) : M (N * U) gui_server :=
  '(client_sock, peer) ← lift_l (tcp_server_accept_timeout (gs_socket g) 64 1000);
  if negb (socket_is_valid client_sock) then mret g else
  let '(ip, port) := default ([], 0) peer in
  auth_err ← (if auth_is_enabled (Some (gs_auth_token g))
              then lift_l (auth_server_handshake client_sock (Some (gs_auth_token g)))
              else mret ERR_SUCCESS);
  if negb (error_code_eqb auth_err ERR_SUCCESS) then lift_l (socket_close client_sock) ;; mret g else
  let '(err, r, conn) := client_manager_add alloc now (Some (gs_manager g)) client_sock (Some ip) port in
  let g := gs_set_manager g (default (gs_manager g) r) in
  match conn with
  | NULL => lift_l (socket_close client_sock) ;; mret g
  | Some c =>
      if data then
        let g := gs_set_manager g (store_client (gs_manager g) (cl_set_running c true)) in
        mret (if (thread : bool) then gs_set_handlers g (cl_loc c :: gs_handlers g) else g)
      else mret g
  end.
End gui.

(** ** Starting and stopping *)

Section start.
  Context {N : Type} `{Winsock N}.

(** [token]: the text of the token field.  [thread]: whether the accepting thread could
    be created. *)
Definition server_gui_start_server (token : bytes) (thread : bool) (g : gui_server) :
    M N (bool * gui_server) :=
  let token := copy_str (copy_str token (Z.to_nat AUTH_TOKEN_MAX_LEN)) (Z.to_nat AUTH_TOKEN_MAX_LEN) in
  let g := {| gs_manager := gs_manager g; gs_running := gs_running g; gs_socket := gs_socket g;
    gs_discovery_socket := gs_discovery_socket g; gs_auth_token := token;
    gs_rows := gs_rows g; gs_handlers := gs_handlers g |} in
  sock ← tcp_server_create NULL USBIP_PORT;
  if negb (socket_is_valid sock)
  then mret (false, gs_set_sockets g (gs_running g) sock (gs_discovery_socket g)) else
  disc ← udp_socket_create;
  disc ← (if socket_is_valid disc then
            err ← udp_socket_bind disc (Some any_addr) DISCOVERY_PORT;
            if negb (error_code_eqb err ERR_SUCCESS)
            then socket_close disc ;; mret INVALID_SOCKET_VAL else mret disc
          else mret disc);
  if negb thread then
    socket_close sock ;;
    (if socket_is_valid disc then socket_close disc else mret tt) ;;
    mret (false, gs_set_sockets g false sock disc)
  else mret (true, gs_set_sockets g true sock disc).

Definition server_gui_stop_server (g : gui_server) : M N gui_server :=
  (if socket_is_valid (gs_socket g) then socket_close (gs_socket g) else mret tt) ;;
  (if socket_is_valid (gs_discovery_socket g) then socket_close (gs_discovery_socket g) else mret tt) ;;
  mret (gs_set_sockets g false INVALID_SOCKET_VAL INVALID_SOCKET_VAL).
End start.

Section life.
  Context {N U : Type} `{Winsock N} `{WinUsb U} `{WideText}.

(** [ctx] after [memset]; a zeroed socket is a descriptor like any other. *)
Definition gui_zero : gui_server := {|
  gs_manager := manager_zero; gs_running := false; gs_socket := 0; gs_discovery_socket := 0;
  gs_auth_token := []; gs_rows := []; gs_handlers := [] |}.

(** What [server_gui_init] does once the window is there. *)
Definition server_gui_init (env : init_env) (token : bytes) (thread : bool) : M N gui_server :=
  let l := default list_zero (device_list_init (in_list_mutex env) (Some list_zero)).2 in
  let m := default manager_zero (client_manager_init (in_manager_mutex env) (Some manager_zero) l).2 in
  '(_, g) ← server_gui_start_server token thread (gs_set_manager gui_zero m);
  mret (populate_device_list (in_utf8 env) true (in_devices env) (in_allocs env) g).

Definition server_gui_cleanup (g : gui_server) : M (N * U) gui_server :=
  g ← lift_l (server_gui_stop_server g);
  r ← client_manager_cleanup (Some (gs_manager g));
  let m := default (gs_manager g) r in
  l ← lift_r (device_list_cleanup (Some (cm_device_list m)));
  mret (gs_set_manager g (cm_set_list m (default list_zero l))).
End life.

(** ** Lemmas *)

(** The sockets that are the program's: [fds], apart from the [O] of others. *)
Section owns.
  Context {N : Type} `{WinsockLaws N}.
  Implicit Types (n : N) (O : gset Z).

Definition owns O (fds : list Z) n : Prop :=
  NoDup fds /\ (forall fd, fd ∈ fds -> fd ∉ O) /\ ws_open n = list_to_set fds ∪ O.

Lemma owns_keep O fds n n' : owns O fds n -> ws_open n' = ws_open n -> owns O fds n'.
Proof. intros (Hn & Ho & E) E'. split_and!; [done..|congruence]. Qed.

Lemma owns_perm O fds fds' n : owns O fds n -> Permutation fds fds' -> owns O fds' n.
Proof.
  intros (Hn & Ho & E) Hp. split_and!; [by rewrite <- Hp|intros fd Hfd; apply Ho; by rewrite Hp|].
  rewrite E. f_equal. by rewrite Hp.
Qed.

Lemma owns_opened O fds n fd n' :
  owns O fds n -> fd ∉ ws_open n -> ws_open n' = {[fd]} ∪ ws_open n -> owns O (fd :: fds) n'.
Proof.
  intros (Hn & Ho & E) Hfd E'. rewrite E in Hfd. split_and!.
  - apply NoDup_cons. split; [|done]. intros Hin. apply Hfd. set_solver.
  - intros x [->|Hx]%elem_of_cons; [set_solver|by apply Ho].
  - rewrite E', E. set_solver.
Qed.

Lemma owns_closed O fds n fd n' :
  owns O (fd :: fds) n -> ws_open n' = ws_open n ∖ {[fd]} -> owns O fds n'.
Proof.
  intros (Hn & Ho & E) E'. apply NoDup_cons in Hn as [Hx Hn]. split_and!; [done| |].
  - intros x Hin. apply Ho. by right.
  - rewrite E', E. assert (fd ∉ O) by (apply Ho; by left). set_solver.
Qed.
End owns.

(** An element stays, or its image takes its place. *)
Lemma update_first_image {A} (p : A -> bool) (f : A -> A) l x :
  x ∈ l -> x ∈ update_first p f l \/ f x ∈ update_first p f l.
Proof.
  induction l as [|y l IH]; simpl; [by intros ?%elem_of_nil|].
  intros [->|Hx]%elem_of_cons; destruct (p _); [right; by left|left; by left| |].
  - left. by right.
  - destruct (IH Hx); [left|right]; by right.
Qed.

Lemma remove_first_NoDup (x : Z) l : NoDup l -> NoDup (remove_first (fun y => y =? x) l).
Proof.
  induction 1 as [|y l Hy Hl IH]; simpl; [constructor|]. destruct (y =? x); [done|].
  constructor; [|done]. intros Hin. apply Hy. by eapply elem_of_remove_first.
Qed.

Lemma remove_first_NoDup_in (x y : Z) l :
  NoDup l -> y ∈ remove_first (fun z => z =? x) l -> y ∈ l /\ y <> x.
Proof.
  induction 1 as [|z l Hz Hl IH]; simpl; [by intros ?%elem_of_nil|]. destruct (Z.eqb_spec z x) as [->|Hne].
  - intros Hin. split; [by right|]. by intros ->.
  - intros [->|Hin]%elem_of_cons; [split; [by left|done]|]. destruct (IH Hin). split; [by right|done].
Qed.

(** Replacing the client that was found by one with the same [f]. *)
Lemma map_store {B} (f : client_connection -> B) m loc c c' :
  find_first (client_at loc) (cm_clients m) = Some c -> cl_loc c' = cl_loc c -> f c' = f c ->
  f <$> cm_clients (store_client m c') = f <$> cm_clients m.
Proof.
  intros Hf Hl Ec. unfold store_client. simpl. rewrite Hl.
  pose proof (find_first_Some _ _ _ Hf) as [_ Hat]. apply Z.eqb_eq in Hat. subst loc.
  apply find_first_split in Hf as (cs1 & cs2 & -> & Hcs & Hc).
  rewrite update_first_split by done. by rewrite !fmap_app, !fmap_cons, Ec.
Qed.

Section laws.
  Context {N U : Type} `{WinsockLaws N} `{WinUsbLaws U} `{WideText}.
  Implicit Types (n : N) (u : U) (O : gset Z).

(** A request changes the client that makes it and the device list, not who is
    connected. *)
Lemma request_same env m c st err r1 r2 st' :
  client_handle_request env (Some m) (Some c) st = ((err, r1, r2), st') ->
  exists l c', r1 = Some (cm_set_list m l) /\ r2 = Some c' /\ same_socket c c'.
Proof.
  assert (exists l c', Some m = Some (cm_set_list m l) /\ Some c = Some c' /\ same_socket c c') as Hid.
  { exists (cm_device_list m), c. by rewrite set_list_same. }
  destruct st as [n u]. intros E. unfold client_handle_request in E.
  apply M_bind_inv in E as ([e|h] & st1 & E1 & E); [by mret_eq|]. apply lift_l_inv in E1 as (n1 & _ & ->).
  destruct (_ =? OP_REQ_DEVLIST); [apply M_bind_inv in E as (x & st2 & _ & E); by mret_eq|].
  destruct (_ =? OP_REQ_IMPORT); [|by mret_eq].
  apply M_bind_inv in E as ([k bs] & st2 & E2 & E). apply lift_l_inv in E2 as (n2 & _ & ->).
  destruct (negb _) in E; [by mret_eq|]. unfold client_handle_import in E.
  apply M_bind_inv in E as ([[e1 x1] x2] & st3 & E3 & E). apply lift_r_inv in E3 as (u3 & E3 & ->).
  apply attach_same in E3 as (l & c1 & -> & -> & Hs). cbv zeta in E.
  apply M_bind_inv in E as (ok & [n4 u4] & _ & E). destruct (negb ok); [mret_eq; by exists l, c1|].
  destruct (error_code_eqb e1 ERR_SUCCESS); [|mret_eq; by exists l, c1].
  apply M_bind_inv in E as (ok2 & [n5 u5] & _ & E). destruct (negb ok2); [|mret_eq; by exists l, c1].
  apply M_bind_inv in E as ([[e6 x6] y6] & st6 & E6 & E). apply lift_r_inv in E6 as (u6 & E6 & ->).
  destruct (detach_same (cm_set_list m l) c1 u5) as (l6 & c6 & u7 & [? ?] & Hd).
  rewrite Hd in E6 by done. destruct Hs. mret_eq. exists l6, c6. split_and!; [done..|]. split; congruence.
Qed.

(** Without an import, only the sockets move. *)
Definition no_import c n : Prop :=
  forall h n1, usbip_recv_header_basic (cl_socket c) n = (inr h, n1) -> hb_command h <> OP_REQ_IMPORT.

Lemma request_no_import env m c n u err r1 r2 n' u' :
  no_import c n -> client_handle_request env (Some m) (Some c) (n, u) = ((err, r1, r2), (n', u')) ->
  r1 = Some m /\ r2 = Some c /\ u' = u /\ ws_open n' = ws_open n.
Proof.
  intros Hno E. unfold client_handle_request in E.
  apply M_bind_inv in E as (r & st1 & E1 & E). apply lift_l_inv in E1 as (n1 & E1 & ->).
  pose proof (keeps_open_unpack _ _ (keeps_open_recv_object (cl_socket c)) _ _ _ E1) as O1.
  destruct r as [e|h]; [by mret_eq|]. specialize (Hno _ _ E1). apply Z.eqb_neq in Hno. rewrite Hno in E.
  destruct (_ =? OP_REQ_DEVLIST); [|by mret_eq].
  apply M_bind_inv in E as (e & st2 & E2 & E). apply lift_l_inv in E2 as (n2 & E2 & ->).
  apply send_device_list_rx in E2 as [_ O2]. mret_eq. by rewrite O2, O1.
Qed.

(** *** The consistent states *)

Definition listeners (g : gui_server) : list Z :=
  filter (fun fd => socket_is_valid fd = true) [gs_socket g; gs_discovery_socket g].
Definition client_sockets (g : gui_server) : list Z := cl_socket <$> cm_clients (gs_manager g).
Definition client_locs (g : gui_server) : list Z := cl_loc <$> cm_clients (gs_manager g).

Record gui_inv O (g : gui_server) n : Prop := {
  gi_manager : cm_inv (gs_manager g);
  gi_list : dl_initialized (gs_list g) = true;
  gi_handlers : NoDup (gs_handlers g) /\ forall loc, loc ∈ gs_handlers g -> loc ∈ client_locs g;
  gi_valid : Forall (fun fd => socket_is_valid fd = true) (client_sockets g);
  gi_sockets : owns O (client_sockets g ++ listeners g) n;
}.

(** A change that leaves who is connected, and the sockets, as they are. *)
Lemma gui_inv_keep O g n g' n' :
  gui_inv O g n -> cm_inv (gs_manager g') -> dl_initialized (gs_list g') = dl_initialized (gs_list g) ->
  gs_handlers g' = gs_handlers g -> client_locs g' = client_locs g ->
  client_sockets g' = client_sockets g -> listeners g' = listeners g -> ws_open n' = ws_open n ->
  gui_inv O g' n'.
Proof.
  intros [Hm Hi [Hh1 Hh2] Hv Hs] Hm' Ei Eh El Es Elis Eo. split; [done|congruence|..].
  - rewrite Eh. split; [done|]. intros loc Hl. rewrite El. by apply Hh2.
  - by rewrite Es.
  - rewrite Es, Elis. by eapply owns_keep.
Qed.

(** The end of a handler thread: its client is removed. *)
Definition removed (g : gui_server) (loc : Z) (r : ptr client_manager) : gui_server :=
  gs_set_handlers (gs_set_manager g (default (gs_manager g) r))
    (remove_first (fun x => x =? loc) (gs_handlers g)).

Lemma removed_inv O g n loc c u e r n' u' :
  gui_inv O g n -> find_first (client_at loc) (cm_clients (gs_manager g)) = Some c ->
  client_manager_remove (Some (gs_manager g)) (Some loc) (n, u) = ((e, r), (n', u')) ->
  gui_inv O (removed g loc r) n' /\
  cm_clients (gs_manager (removed g loc r)) = remove_first (client_at loc) (cm_clients (gs_manager g)).
Proof.
  intros [Hm Hi [Hh1 Hh2] Hv Hs] Hf E.
  pose proof (remove_initialized _ _ _ _ _ _ E) as Hi'.
  assert (socket_is_valid (cl_socket c) = true) as Hvc.
  { rewrite Forall_forall in Hv. apply Hv. apply list_elem_of_fmap_2. by apply (find_first_Some _ _ _ Hf). }
  pose proof (remove_socket _ _ _ _ _ _ _ _ (cmi_init _ Hm) Hf Hvc E) as Ho.
  apply remove_inv in E; [|done]. rewrite Hf in E. destruct E as (_ & m' & -> & Hm' & Hcs & _ & _).
  apply find_first_split in Hf as (cs1 & cs2 & Ecs & Hn1 & Hat). pose proof Hat as El. apply Z.eqb_eq in El.
  rewrite Ecs, remove_first_split in Hcs by done.
  assert (Permutation (client_sockets g ++ listeners g)
    (cl_socket c :: (cl_socket <$> cs1 ++ cs2) ++ listeners g)) as Hp.
  { unfold client_sockets. rewrite Ecs, !fmap_app, fmap_cons. solve_Permutation. }
  split; [|simpl; by rewrite Ecs, remove_first_split, Hcs by done].
  pose proof (cmi_locs _ Hm) as Hnd. rewrite Ecs in Hnd.
  split; simpl.
  - exact Hm'.
  - unfold gs_list in *. simpl in *. congruence.
  - split; [by apply remove_first_NoDup|]. intros x Hx. unfold client_locs. simpl. rewrite Hcs.
    apply remove_first_NoDup_in in Hx as [Hx Hne]; [|done].
    specialize (Hh2 x Hx). unfold client_locs in Hh2. rewrite Ecs in Hh2. set_solver.
  - unfold client_sockets in *. simpl. rewrite Hcs. rewrite Ecs in Hv.
    rewrite !fmap_app, Forall_app in *. rewrite fmap_cons, Forall_cons in Hv. tauto.
  - unfold client_sockets at 1, listeners. simpl. rewrite Hcs.
    eapply owns_closed; [|exact Ho]. by eapply owns_perm.
Qed.

Lemma find_locs g loc : find_first (client_at loc) (cm_clients (gs_manager g)) = None -> loc ∉ client_locs g.
Proof.
  intros Hf%find_first_None (c & -> & Hc)%list_elem_of_fmap. rewrite Forall_forall in Hf.
  specialize (Hf c Hc). unfold client_at in Hf. by rewrite Z.eqb_refl in Hf.
Qed.

(** A handler's iteration, for a client that is not attached or does not ask for a
    second device. *)
Definition request_allowed (g : gui_server) (loc : Z) n : Prop :=
  forall c, find_first (client_at loc) (cm_clients (gs_manager g)) = Some c ->
  cl_state c = CLIENT_STATE_CONNECTED \/ no_import c n.

Lemma handler_step_inv O env loc g n u g' n' u' :
  gui_inv O g n -> request_allowed g loc n ->
  client_handler_step env loc g (n, u) = (g', (n', u')) -> gui_inv O g' n'.
Proof.
  intros Hg Ha E. unfold client_handler_step in E.
  destruct (find_first (client_at loc) (cm_clients (gs_manager g))) as [c|] eqn:Ef; [|by mret_eq].
  destruct (negb _) in E.
  { apply M_bind_inv in E as ([e r] & [n1 u1] & E1 & E). mret_eq. by eapply (removed_inv O g). }
  apply M_bind_inv in E as ([[err r1] r2] & [n1 u1] & E1 & E). cbv zeta in E.
  pose proof (request_same _ _ _ _ _ _ _ _ E1) as (l & c' & Er1 & Er2 & [Hl Hsk]).
  set (m1 := store_client (default (gs_manager g) r1) (default c r2)) in *.
  pose proof (gi_manager _ _ _ Hg) as Hm.
  assert (cm_inv m1 /\ ws_open n1 = ws_open n /\
    dl_initialized (cm_device_list m1) = dl_initialized (gs_list g)) as (Hm1 & Ho & Hi).
  { destruct (Ha c Ef) as [Hst|Hno].
    - destruct (request_moves loc env _ _ _ _ _ _ _ _ Hm Ef Hst E1) as (n2 & [_ O2] & Hmv & _).
      destruct (Hmv Hm) as (R & [_ O3] & _). simpl in O3. split; [by apply (steps_inv _ _ R)|].
      split; [congruence|]. by apply (steps_initialized _ _ R).
    - apply request_no_import in E1 as (-> & -> & -> & Ho); [|done]. subst m1. cbn [default id].
      by rewrite (store_same _ loc). }
  assert (gui_inv O (gs_set_manager g m1) n1) as Hg1.
  { apply (gui_inv_keep O g n); try done; unfold client_locs, client_sockets; simpl; subst m1;
      rewrite Er1, Er2; cbn [default id].
    - by apply (map_store cl_loc (cm_set_list (gs_manager g) l) loc c).
    - by apply (map_store cl_socket (cm_set_list (gs_manager g) l) loc c). }
  destruct (negb (error_code_eqb err ERR_SUCCESS)); [|by mret_eq].
  assert (find_first (client_at loc) (cm_clients m1) = Some c') as Ef1.
  { subst m1. rewrite Er1, Er2. cbn [default id].
    apply (find_stored (cm_set_list (gs_manager g) l) loc c c'); done. }
  apply M_bind_inv in E as ([e r] & [n2 u2] & E2 & E). unfold mret, M_ret in E. injection E as <- <- <-.
  by eapply (removed_inv O (gs_set_manager g m1)).
Qed.

(** *** Accepting *)

Lemma same_running c b e :
  (detached (cl_set_running c b) <-> detached c) /\
  (attached_to (cl_set_running c b) e <-> attached_to c e).
Proof. done. Qed.

Lemma running_inv m c cs b :
  cm_inv m -> cm_clients m = c :: cs -> cm_inv (store_client m (cl_set_running c b)).
Proof.
  intros [Hl Hb Hi Hn Hx Hlc Hex Hcl Hen] Ec. unfold store_client. rewrite Ec. cbn [update_first].
  assert (client_at (cl_loc (cl_set_running c b)) c = true) as -> by apply Z.eqb_refl.
  rewrite Ec in Hn, Hlc, Hex, Hcl, Hen. split; try done; simpl in *.
  - inversion_clear Hcl. by constructor.
  - eapply Forall_impl; [exact Hen|]. intros e [?|(x & [->|Hin]%elem_of_cons & Ha)]; [by left| |].
    + right. exists (cl_set_running c b). split; [by left|done].
    + right. exists x. split; [by right|done].
Qed.

Lemma accept_step_inv O alloc data thread now g n u g' n' u' :
  gui_inv O g n -> (forall loc, alloc = Some loc -> loc ∉ client_locs g) ->
  server_accept_step alloc data thread now g (n, u) = (g', (n', u')) -> gui_inv O g' n'.
Proof.
  intros Hg Hfr E. unfold server_accept_step in E.
  apply M_bind_inv in E as ([sock peer] & st1 & E1 & E). apply lift_l_inv in E1 as (n1 & E1 & ->).
  apply accept_open in E1 as [[Hv O1]|(Hv & Hnew & O1)]; rewrite Hv in E; cbn [negb] in E.
  { unfold mret, M_ret in E. injection E as <- <- <-. by apply (gui_inv_keep O g n); try apply Hg. }
  destruct (default ([], 0) peer) as [ip port].
  apply M_bind_inv in E as (aerr & st2 & E2 & E).
  assert (exists n2, st2 = (n2, u) /\ ws_open n2 = ws_open n1) as (n2 & -> & O2).
  { destruct (auth_is_enabled _); [|mret_eq; by exists n1].
    apply lift_l_inv in E2 as (n2 & E2%keeps_open_auth_server & ->). by exists n2. }
  rewrite O1 in O2.
  assert (forall r, gui_inv O r n -> (lift_l (socket_close sock) ;; mret r) (n2, u) = (g', (n', u')) ->
    gui_inv O g' n') as Hrej.
  { intros r Hr Er. apply M_bind_inv in Er as ([] & st3 & E3 & Er).
    apply lift_l_inv in E3 as (n3 & E3%close_open & ->); [|done]. unfold mret, M_ret in Er.
    injection Er as <- <- <-. apply (gui_inv_keep O r n); try done; try apply Hr.
    by eapply opened_closed. }
  destruct (negb (error_code_eqb aerr ERR_SUCCESS)); [by eapply Hrej|].
  pose proof Hg as [Hm Hi [Hh1 Hh2] Hvs Hs].
  destruct (client_manager_add alloc now (Some (gs_manager g)) sock (Some ip) port) as [[e r] cl] eqn:Ea.
  destruct (cm_inv_add _ _ _ _ _ _ _ _ _ Hm Hfr Ea) as (m1 & -> & Hm1 & El1 & _). cbn [default id] in E.
  assert (match cl with
          | Some c => cm_clients m1 = c :: cm_clients (gs_manager g) /\ cl_socket c = sock /\
                      cl_loc c ∉ client_locs g
          | NULL => cm_clients m1 = cm_clients (gs_manager g)
          end) as Hcl.
  { unfold client_manager_add in Ea. rewrite (cmi_init _ Hm) in Ea. cbn [negb] in Ea.
    destruct (_ >=? _); [by simplify_eq|]. destruct alloc as [loc|]; simpl in Ea; simplify_eq; [|done].
    split_and!; [done..|]. by apply Hfr. }
  destruct cl as [c|]; cycle 1.
  { eapply Hrej, E. apply (gui_inv_keep O g n); try done; unfold client_locs, client_sockets, gs_list; simpl.
    all: congruence. }
  destruct Hcl as (Ec & Esk & Hloc).
  set (g1 := gs_set_manager g m1) in *.
  assert (gui_inv O g1 n2) as Hg1.
  { split; simpl; [done|unfold gs_list in *; simpl; congruence|..].
    - split; [done|]. intros x Hx. unfold client_locs. simpl. rewrite Ec, fmap_cons. right. by apply Hh2.
    - unfold client_sockets. simpl. rewrite Ec, fmap_cons, Forall_cons, Esk. done.
    - unfold client_sockets. simpl. rewrite Ec, fmap_cons, Esk.
      apply (owns_opened O _ n sock n2 Hs Hnew O2). }
  destruct data; unfold mret, M_ret in E; injection E as <- <- <-; [|exact Hg1].
  assert (gui_inv O (gs_set_manager g1 (store_client m1 (cl_set_running c true))) n2) as Hg2.
  { assert (find_first (client_at (cl_loc c)) (cm_clients m1) = Some c) as Ef.
    { rewrite Ec. simpl. unfold client_at. by rewrite Z.eqb_refl. }
    apply (gui_inv_keep O g1 n2); try done.
    - by eapply running_inv.
    - by apply (map_store cl_loc m1 (cl_loc c) c).
    - by apply (map_store cl_socket m1 (cl_loc c) c). }
  destruct thread; [|exact Hg2]. destruct Hg2 as [H1' H2' _ H4' H5']. split; try done. simpl.
  split; [apply NoDup_cons; split; [|done]; intros Hin; by apply Hloc, Hh2|].
  assert (client_locs (gs_set_manager g1 (store_client m1 (cl_set_running c true))) =
    cl_loc c :: client_locs g) as El.
  { unfold client_locs. simpl. rewrite Ec. simpl. unfold client_at. simpl. by rewrite Z.eqb_refl. }
  intros x [->|Hx]%elem_of_cons; (unfold client_locs in El |- *; simpl in El |- *; rewrite El);
    [by left|right; by apply Hh2].
Qed.

(** *** The list of devices *)

Lemma shared_cm_inv m b sh :
  cm_inv m ->
  cm_inv (cm_set_list m (default (cm_device_list m)
    (device_list_set_shared (Some (cm_device_list m)) (Some b) sh).2)).
Proof.
  intros Hm. rewrite set_shared_eq. destruct (find_first _ _) as [e0|]; cbn [snd default id];
    [|by rewrite set_list_same].
  pose proof Hm as [Hl Hb Hi Hn Hx Hlc Hex Hcl Hen].
  split; try done; cbn [cm_device_list cm_set_list cm_clients cm_client_count].
  - apply inv_update; auto with usbip.
  - apply Forall_forall. intros e [Hin|(e' & Hin & _ & ->)]%elem_of_update_first;
      rewrite Forall_forall in Hb; [by apply Hb|apply (Hb e' Hin)].
  - eapply Forall_impl; [exact Hcl|]. intros c [?|(e & Hin & Ha)]; [by left|right]. simpl.
    destruct (update_first_image (entry_is b) (fun e => entry_set_shared e sh) _ _ Hin) as [?|?]; by eexists.
  - apply Forall_forall. intros e [Hin|(e' & Hin & _ & ->)]%elem_of_update_first;
      rewrite Forall_forall in Hen; [by apply Hen|]. destruct (Hen e' Hin) as [[? ?]|?]; [by left|by right].
Qed.

Lemma new_entry_cm_inv m alloc d :
  cm_inv m -> dev_wf d -> dev_inv d -> dev_is_open d = false -> dev_busid d <> [] ->
  fresh_alloc (cm_device_list m) alloc ->
  device_list_find (Some (cm_device_list m)) (Some (dev_busid d)) = None ->
  cm_inv (cm_set_list m (default (cm_device_list m)
    (device_list_add alloc (Some (cm_device_list m)) (Some d)).2)).
Proof.
  intros Hm Hw Hd Ho Hb Hf Hnone. pose proof Hm as [Hl Hbs Hi Hn Hx Hlc Hex Hcl Hen].
  destruct (device_list_add alloc (Some (cm_device_list m)) (Some d)) as [err r] eqn:E.
  pose proof E as E'. apply inv_add in E' as (l' & -> & Hl' & _); [|done..]. cbn [snd default id].
  unfold device_list_add in E. rewrite Hnone in E.
  destruct alloc as [loc|]; simpl in E; simplify_eq; [|by rewrite set_list_same].
  split; try done; simpl.
  - by constructor.
  - eapply Forall_impl; [exact Hcl|]. intros c [?|(e & Hin & Ha)]; [by left|right]. exists e. split; [by right|done].
  - constructor; [by left|done].
Qed.

(** What the enumeration says of a device it reports. *)
Definition device_new (d : usb_device) : Prop :=
  dev_wf d /\ dev_inv d /\ dev_is_open d = false /\ dev_busid d <> [].

Definition fresh_allocs (l : device_list) (allocs : list (ptr Z)) : Prop :=
  NoDup (omap id allocs) /\ forall loc, loc ∈ omap id allocs -> loc ∉ map de_loc (dl_entries l).

Lemma fresh_head l allocs : fresh_allocs l allocs -> fresh_alloc l (default NULL (head allocs)).
Proof. intros [_ Hf] loc Hl. destruct allocs as [|[x|] allocs]; simplify_eq/=. apply Hf. by left. Qed.

(** After an entry is made with the first allocation, the others are still fresh. *)
Lemma fresh_tail l allocs d :
  fresh_allocs l allocs -> device_list_find (Some l) (Some (dev_busid d)) = None ->
  fresh_allocs (default l (device_list_add (default NULL (head allocs)) (Some l) (Some d)).2) (tail allocs).
Proof.
  intros [Hnd Hf] Hnone. unfold device_list_add. rewrite Hnone.
  destruct allocs as [|[x|] allocs]; simpl in *; [by split|..].
  - apply NoDup_cons in Hnd as [Hx Hnd]. split; [done|]. simpl. intros loc Hin [->|Hl]%elem_of_cons; [done|].
    apply (Hf loc); [by right|done].
  - by split.
Qed.

Lemma add_initialized alloc l d :
  dl_initialized (default l (device_list_add alloc (Some l) (Some d)).2) = dl_initialized l.
Proof. unfold device_list_add. destruct (device_list_find _ _); [done|]. by destruct alloc. Qed.

Lemma enum_step_inv O n d g allocs g' allocs' :
  gui_inv O g n -> device_new d -> fresh_allocs (gs_list g) allocs ->
  enum_device_callback d (g, allocs) = (g', allocs') ->
  gui_inv O g' n /\ fresh_allocs (gs_list g') allocs'.
Proof.
  intros Hg (Hw & Hd & Ho & Hb) Hf E. unfold enum_device_callback in E.
  set (row := Build_gui_row _ _ _ _ _) in E. clearbody row.
  destruct (device_list_find _ _) as [e|] eqn:Ef; simplify_eq.
  - split; [|done]. by apply (gui_inv_keep O g n); try apply Hg.
  - split; [|by apply fresh_tail]. apply (gui_inv_keep O g n); try done.
    + apply new_entry_cm_inv; try done; [apply Hg|by apply fresh_head].
    + exact (add_initialized _ _ _).
Qed.

Lemma populate_inv O n utf8 info allocs g :
  gui_inv O g n -> fresh_allocs (gs_list g) allocs ->
  (forall es, info = Some es -> Forall (fun x => Forall is_byte (di_instance_id x)) es) ->
  gui_inv O (populate_device_list utf8 true info allocs g) n.
Proof.
  intros Hg Hf Hb. assert (gui_inv O (gs_set_rows g []) n) as Hg0 by (by apply (gui_inv_keep O g n); try apply Hg).
  unfold populate_device_list. destruct info as [es|]; cbn [usb_enumerate_devices negb]; [|exact Hg0].
  rewrite enumerate_loop_fold. cbn [snd]. specialize (Hb es eq_refl). apply (enumerated_ok utf8) in Hb.
  change (gs_list g) with (gs_list (gs_set_rows g [])) in Hf.
  generalize dependent (gs_set_rows g []). intros g0 Hf Hg0. clear Hg. revert allocs g0 Hf Hg0.
  induction Hb as [|d devs Hd _ IH]; intros allocs g0 Hf Hg0; [done|]. cbn [fold_left].
  destruct (enum_device_callback d (g0, allocs)) as [g1 al1] eqn:E.
  apply (enum_step_inv O n) in E as [? ?]; [|done..]. by apply IH.
Qed.

Lemma set_shared_initialized l b sh :
  dl_initialized (default l (device_list_set_shared (Some l) (Some b) sh).2) = dl_initialized l.
Proof. rewrite set_shared_eq. by destruct (find_first _ _). Qed.

Lemma checkbox_inv O n updating index checked g :
  gui_inv O g n -> gui_inv O (on_device_checkbox_changed updating index checked g) n.
Proof.
  intros Hg. unfold on_device_checkbox_changed. destruct updating; [done|].
  destruct (_ =? 0); [by apply (gui_inv_keep O g n); try apply Hg|].
  apply (gui_inv_keep O g n); try done; [by apply shared_cm_inv, Hg|].
  exact (set_shared_initialized _ _ _).
Qed.

Lemma stop_all_inv O n g : gui_inv O g n -> gui_inv O (server_gui_stop_all g) n.
Proof.
  intros Hg. unfold server_gui_stop_all.
  assert (forall rows m, cm_inv m ->
    cm_inv (cm_set_list m (stop_rows rows (cm_device_list m))) /\
    dl_initialized (stop_rows rows (cm_device_list m)) = dl_initialized (cm_device_list m)) as Hr.
  { induction rows as [|row rows IH]; intros m Hm; cbn [stop_rows]; [by rewrite set_list_same|].
    set (b := column_text (row_busid row) 32). pose proof (shared_cm_inv m b false Hm) as Hm1. apply IH in Hm1 as [Hm1 Hi1].
    simpl in Hm1, Hi1. split; [exact Hm1|]. etrans; [exact Hi1|]. apply set_shared_initialized. }
  destruct (Hr (gs_rows g) (gs_manager g) (gi_manager _ _ _ Hg)) as [Hm Hi].
  by apply (gui_inv_keep O g n).
Qed.

(** *** Starting and stopping *)

Lemma close_valid O fds sock n n' :
  owns O (filter (fun fd => socket_is_valid fd = true) [sock] ++ fds) n ->
  (if socket_is_valid sock then socket_close sock else mret tt) n = (tt, n') -> owns O fds n'.
Proof.
  intros Ho E. destruct (socket_is_valid sock) eqn:Hv.
  - rewrite filter_cons_True in Ho by done. apply close_open in E; [|done]. by eapply owns_closed.
  - rewrite filter_cons_False in Ho by congruence. by mret_eq.
Qed.

Lemma gui_start_spec token thread g n ok g' n' :
  server_gui_start_server token thread g n = ((ok, g'), n') ->
  gs_manager g' = gs_manager g /\ gs_handlers g' = gs_handlers g /\
  (ok = true -> gs_running g' = true /\ socket_is_valid (gs_socket g') = true /\
     owns (ws_open n) (listeners g') n') /\
  (ok = false -> ws_open n' = ws_open n /\ (gs_running g' = true -> gs_running g = true)).
Proof.
  intros E. unfold server_gui_start_server in E. cbv zeta in E.
  apply M_bind_inv in E as (sock & n1 & E1 & E). apply create_open in E1 as [[-> O1]|(Hv & Hnew & O1)].
  { unfold mret, M_ret in E. simpl in E. by simplify_eq. }
  rewrite Hv in E. cbn [negb] in E.
  assert (owns (ws_open n) [sock] n1) as Hs1.
  { eapply (owns_opened _ []); [|done|exact O1]. split_and!; [constructor|by intros ? ?%elem_of_nil|set_solver]. }
  apply M_bind_inv in E as (disc0 & n2 & E2 & E). apply udp_create_open in E2.
  apply M_bind_inv in E as (disc & n3 & E3 & E).
  assert (owns (ws_open n) (filter (fun fd => socket_is_valid fd = true) [disc] ++ [sock]) n3) as Hs3.
  { destruct (socket_is_valid disc0) eqn:Hd.
    - destruct E2 as [Hn2 O2]. pose proof (owns_opened _ _ _ _ _ Hs1 Hn2 O2) as Hs2.
      apply M_bind_inv in E3 as (err & n4 & E4%keeps_open_bind_udp & E3).
      pose proof (owns_keep _ _ _ _ Hs2 E4) as Hs4. destruct (negb _) in E3.
      + apply M_bind_inv in E3 as ([] & n5 & E5%close_open & E3); [|done]. mret_eq.
        by eapply owns_closed.
      + mret_eq. by rewrite filter_cons_True.
    - mret_eq. rewrite filter_cons_False by congruence. by eapply owns_keep. }
  destruct thread; cbn [negb] in E.
  - unfold mret, M_ret in E. injection E as <- <- <-. split_and!; try done. intros _. split_and!; try done.
    unfold listeners. simpl. rewrite filter_cons_True by done. eapply owns_perm; [exact Hs3|].
    apply (Permutation_app_comm _ [sock]).
  - apply M_bind_inv in E as ([] & n4 & E4%close_open & E); [|done].
    apply M_bind_inv in E as ([] & n5 & E5 & E). unfold mret, M_ret in E. injection E as <- <- <-.
    split_and!; try done. intros _. eapply owns_perm in Hs3; [|apply (Permutation_app_comm _ [sock])].
    eapply owns_closed in Hs3; [|exact E4].
    rewrite <- (app_nil_r (filter _ _)) in Hs3. apply (close_valid _ _ _ _ _ Hs3) in E5 as (_ & _ & ->).
    split; [set_solver|done].
Qed.

Lemma disconnect_loop_sockets O L k m n u m' n' u' :
  cm_inv m -> (length (cm_clients m) <= k)%nat ->
  Forall (fun fd => socket_is_valid fd = true) (cl_socket <$> cm_clients m) ->
  owns O ((cl_socket <$> cm_clients m) ++ L) n ->
  disconnect_loop k m (n, u) = (m', (n', u')) -> owns O L n'.
Proof.
  revert m n u. induction k as [|k IH]; intros m n u Hm Hk Hv Ho E; cbn [disconnect_loop] in E.
  { mret_eq. apply Nat.le_0_r, nil_length_inv in Hk. by rewrite Hk in Ho. }
  destruct (cm_clients m) as [|c cs] eqn:Ec; [by mret_eq|].
  apply M_bind_inv in E as ([e r] & [n1 u1] & E1 & E).
  assert (find_first (client_at (cl_loc c)) (cm_clients m) = Some c) as Ef.
  { rewrite Ec. simpl. unfold client_at. by rewrite Z.eqb_refl. }
  rewrite fmap_cons in Hv, Ho. apply Forall_cons in Hv as [Hvc Hv].
  pose proof (remove_socket _ _ _ _ _ _ _ _ (cmi_init _ Hm) Ef Hvc E1) as O1.
  apply remove_inv in E1; [|done]. rewrite Ef in E1. destruct E1 as (_ & m1 & -> & Hm1 & Hc1 & _).
  assert (cm_clients m1 = cs) as Ec1.
  { rewrite Hc1, Ec. simpl. unfold client_at. by rewrite Z.eqb_refl. }
  cbn [default id] in E. apply (IH m1 n1 u1); rewrite ?Ec1; try done; [simpl in Hk; lia|].
  by eapply owns_closed.
Qed.

Lemma gui_cleanup_spec O g n u g' n' u' :
  gui_inv O g n -> server_gui_cleanup g (n, u) = (g', (n', u')) ->
  cm_clients (gs_manager g') = [] /\ dl_entries (gs_list g') = [] /\ gs_running g' = false /\
  ws_open n' = O.
Proof.
  intros [Hm Hi _ Hv Hs] E. unfold server_gui_cleanup in E.
  apply M_bind_inv in E as (g1 & st1 & E1 & E). apply lift_l_inv in E1 as (n1 & E1 & ->).
  assert (gs_manager g1 = gs_manager g /\ gs_running g1 = false /\ owns O (client_sockets g) n1) as (Em & Er & Hs1).
  { unfold server_gui_stop_server in E1.
    apply M_bind_inv in E1 as ([] & n2 & E2 & E1). apply M_bind_inv in E1 as ([] & n3 & E3 & E1).
    unfold mret, M_ret in E1. injection E1 as <- <-. split_and!; [done..|].
    eapply close_valid, E3. eapply close_valid, E2. eapply owns_perm; [exact Hs|].
    unfold listeners. rewrite app_assoc, <- filter_app. apply Permutation_app_comm. }
  apply M_bind_inv in E as (r & [n2 u2] & E2 & E). rewrite Em in E2, E.
  unfold client_manager_cleanup, client_manager_disconnect_all in E2. rewrite (cmi_init _ Hm) in E2.
  cbn [negb] in E2. apply M_bind_inv in E2 as (r2 & st3 & E3 & E2).
  apply M_bind_inv in E3 as (m3 & [n3 u3] & E3 & E4). unfold mret, M_ret in E2, E4.
  injection E4 as <- <-. injection E2 as <- <- <-.
  pose proof (disconnect_loop_sockets O [] _ _ n1 u m3 n3 u3 Hm (le_n _) Hv) as Hd.
  rewrite app_nil_r in Hd. specialize (Hd Hs1 E3).
  apply disconnect_loop_rest in E3 as ([Hm3 Hc3] & _ & Hi3); [|done..]. cbn [fmap option_fmap option_map default id] in E.
  apply M_bind_inv in E as (r5 & st5 & E5 & E). apply lift_r_inv in E5 as (u5 & E5 & ->).
  apply list_cleanup_run in E5 as (l5 & -> & He); [|simpl; unfold gs_list in Hi; congruence].
  unfold mret, M_ret in E. injection E as <- <- <-. destruct Hd as (_ & _ & Ho).
  split_and!; [exact Hc3|exact He|exact Er|]. rewrite Ho. set_solver.
Qed.
End laws.

(** *** URB commands *)

(** The first word on the wire is the command, most significant byte first. *)
Lemma header_wire_command h :
  exists rest, wire_encode h = to_be 4 (hc_command (h_common h)) ++ rest.
Proof.
  unfold wire_encode. simpl. unfold header_mem, usbip_pack_header, conv_common. struct_fields.
  unfold htobe32. rewrite to_le_htonl. eexists. reflexivity.
Qed.

(** Read as a request, a URB command has its code in the command field's place, and
    the code is not a request's. *)
Lemma urb_not_request h bs rest :
  hc_command (h_common h) = USBIP_CMD_SUBMIT \/ hc_command (h_common h) = USBIP_CMD_UNLINK ->
  wire_encode h ++ rest = bs ++ drop 8 (wire_encode h ++ rest) -> length bs = 8%nat ->
  let r := wire_decode (A := usbip_header_basic) bs in
  hb_command r <> OP_REQ_DEVLIST /\ hb_command r <> OP_REQ_IMPORT.
Proof.
  intros Hc E Hl. destruct (header_wire_command h) as [t Et].
  assert (take 4 bs = to_be 4 (hc_command (h_common h))) as Hb.
  { apply (f_equal (take 4)) in E. rewrite Et, <- app_assoc in E.
    rewrite (take_app_le bs) in E by lia. rewrite <- E.
    by rewrite take_app_length' by (by rewrite length_to_be). }
  destruct bs as [|b0 [|b1 [|b2 [|b3 bs]]]]; try done.
  destruct Hc as [Hc|Hc]; rewrite Hc in Hb; vm_compute in Hb; injection Hb as -> -> -> ->;
    split; intros Hx; vm_compute in Hx; discriminate Hx.
Qed.

(** ** Interleavings *)

Section steps.
  Context {N U : Type} `{WinsockLaws N} `{WinUsbLaws U} `{WideText}.
  Implicit Types (n : N) (u : U) (O : gset Z).

(** One iteration of one of the threads, or one event of the window.  An attached
    client that asks for a second device is left out: [gui_second_import_leaks] below
    is what happens then. *)
Inductive gui_step : gui_server * (N * U) -> gui_server * (N * U) -> Prop :=
  | gst_accept g st alloc data thread now g' st' :
      gs_running g = true -> (forall loc, alloc = Some loc -> loc ∉ client_locs g) ->
      server_accept_step alloc data thread now g st = (g', st') ->
      gui_step (g, st) (g', st')
  | gst_handler g n u env loc g' st' :
      loc ∈ gs_handlers g -> request_allowed g loc n ->
      client_handler_step env loc g (n, u) = (g', st') ->
      gui_step (g, (n, u)) (g', st')
  | gst_listener g n u hostname n' :
      discovery_listener_step (gs_discovery_socket g) hostname (gs_list g) n = (tt, n') ->
      gui_step (g, (n, u)) (g, (n', u))
  | gst_refresh g st utf8 info allocs :
      fresh_allocs (gs_list g) allocs ->
      (forall es, info = Some es -> Forall (fun x => Forall is_byte (di_instance_id x)) es) ->
      gui_step (g, st) (populate_device_list utf8 true info allocs g, st)
  | gst_checkbox g st updating index checked :
      gui_step (g, st) (on_device_checkbox_changed updating index checked g, st)
  | gst_stop_all g st : gui_step (g, st) (server_gui_stop_all g, st)
  | gst_io g n u n' :
      (* the peers *)
      ws_open n' = ws_open n -> gui_step (g, (n, u)) (g, (n', u)).

Lemma keeps_open_listener sock hostname l : keeps_open (discovery_listener_step sock hostname l).
Proof.
  unfold discovery_listener_step. apply keeps_open_bind; [apply keeps_open_recvfrom|].
  intros [[received bs] src]. destruct (received <=? 0); [apply keeps_open_ret|].
  destruct (strneq _ _ _); [|apply keeps_open_ret]. cbv zeta.
  apply keeps_open_bind; [apply keeps_open_sendto|]. intros. apply keeps_open_ret.
Qed.

Lemma gui_step_inv O x y : gui_step x y -> gui_inv O x.1 x.2.1 -> gui_inv O y.1 y.2.1.
Proof.
  destruct 1 as [g [n u] alloc data thread now g' [n' u'] _ Hf E|g n u env loc g' [n' u'] _ Ha E
                |g n u host n' E|g st utf8 info allocs Hf Hb|g st up i ch|g st|g n u n' E]; simpl; intros Hg.
  - by eapply accept_step_inv.
  - by eapply handler_step_inv.
  - apply keeps_open_listener in E. by apply (gui_inv_keep O g n); try apply Hg.
  - by apply populate_inv.
  - by apply checkbox_inv.
  - by apply stop_all_inv.
  - by apply (gui_inv_keep O g n); try apply Hg.
Qed.

Lemma gui_steps_inv O x y : rtc gui_step x y -> gui_inv O x.1 x.2.1 -> gui_inv O y.1 y.2.1.
Proof. induction 1 as [|x y z Hxy _ IH]; [done|]. intros Hx. apply IH. by eapply gui_step_inv. Qed.

(** The state in which the window opens, when the server could be started. *)
Lemma gui_init_inv env token thread n g n' :
  in_list_mutex env = 0 -> in_manager_mutex env = 0 -> NoDup (omap id (in_allocs env)) ->
  (forall es, in_devices env = Some es -> Forall (fun x => Forall is_byte (di_instance_id x)) es) ->
  server_gui_init env token thread n = (g, n') -> gs_running g = true ->
  gui_inv (ws_open n) g n'.
Proof.
  intros Hlm Hmm Hnd Hb E Hrun. unfold server_gui_init in E. rewrite Hlm, Hmm in E. cbv zeta in E.
  apply M_bind_inv in E as ([ok g1] & n1 & E1 & E). unfold mret, M_ret in E. injection E as <- <-.
  cbn in E1. set (g0 := gs_set_manager gui_zero _) in E1.
  assert (gs_running (populate_device_list (in_utf8 env) true (in_devices env) (in_allocs env) g1) =
    gs_running g1) as Er.
  { unfold populate_device_list. destruct (in_devices env) as [es|]; [|done].
    cbn [usb_enumerate_devices negb]. rewrite enumerate_loop_fold. cbn [snd].
    change (gs_running g1) with (gs_running (gs_set_rows g1 [])). generalize (gs_set_rows g1 []), (in_allocs env).
    induction (enumerated (in_utf8 env) es) as [|d devs IH]; intros g2 al; [done|]. cbn [fold_left].
    destruct (enum_device_callback d (g2, al)) as [g3 al3] eqn:E3. rewrite IH.
    unfold enum_device_callback in E3. destruct (device_list_find _ _); by simplify_eq. }
  rewrite Er in Hrun. apply gui_start_spec in E1 as (Em & Eh & Hok & Hko).
  apply populate_inv; [|split; [done|]; unfold gs_list; rewrite Em; intros ? _; apply not_elem_of_nil|done].
  destruct ok; cycle 1.
  { by destruct (Hko eq_refl) as [_ Hx]; specialize (Hx Hrun). }
  destruct (Hok eq_refl) as (_ & _ & Hs).
  split.
  - rewrite Em. split; simpl; try done; repeat constructor.
  - unfold gs_list. by rewrite Em.
  - unfold client_locs. rewrite Em, Eh. split; [constructor|]. intros ? ?%elem_of_nil. done.
  - unfold client_sockets. by rewrite Em.
  - unfold client_sockets. rewrite Em. exact Hs.
Qed.

(** Removing an attached client: it is gone, with its thread, and its device closed. *)
Lemma removed_attached O g n u loc c e r err n' u' :
  gui_inv O g n -> find_first (client_at loc) (cm_clients (gs_manager g)) = Some c ->
  e ∈ dl_entries (gs_list g) -> attached_to c e ->
  client_manager_remove (Some (gs_manager g)) (Some loc) (n, u) = ((err, r), (n', u')) ->
  loc ∉ client_locs (removed g loc r) /\ loc ∉ gs_handlers (removed g loc r) /\
  gui_inv O (removed g loc r) n' /\
  open_files u' = open_files u ∖ owned_files (de_device e) /\
  open_usb u' = open_usb u ∖ owned_usb (de_device e).
Proof.
  intros Hg Hf He Ha E. pose proof (gi_manager _ _ _ Hg) as Hm.
  destruct (removed_inv O g n loc c _ _ _ _ _ Hg Hf E) as [Hg' Hcs].
  apply remove_inv in E; [|done]. rewrite Hf in E. destruct E as (_ & m' & -> & _ & _ & _ & Hh).
  assert (loc ∉ client_locs (removed g loc (Some m'))) as Hl.
  { unfold client_locs. rewrite Hcs. pose proof (cmi_locs _ Hm) as Hnd. revert Hnd.
    apply find_first_split in Hf as (cs1 & cs2 & -> & Hn1 & Hat). pose proof Hat as El. apply Z.eqb_eq in El.
    rewrite remove_first_split by done. rewrite map_app, map_cons, El, fmap_app. intros Hnd.
    apply NoDup_app in Hnd as (_ & Hd & Hx). apply NoDup_cons in Hx as [Hx _].
    rewrite not_elem_of_app. split; [|done]. intros Hin. apply (Hd loc); [done|by left]. }
  split; [done|]. split; [|split; [done|by apply Hh]]. intros Hin. by apply Hl, (gi_handlers _ _ _ Hg').
Qed.

(** A request that finds a URB command fails, and changes nothing but what is read. *)
Lemma urb_request_fails env m c n u h rest err r1 r2 n' u' :
  hc_command (h_common h) = USBIP_CMD_SUBMIT \/ hc_command (h_common h) = USBIP_CMD_UNLINK ->
  ws_rx n (cl_socket c) = wire_encode h ++ rest ->
  client_handle_request env (Some m) (Some c) (n, u) = ((err, r1, r2), (n', u')) ->
  error_code_eqb err ERR_SUCCESS = false /\ r1 = Some m /\ r2 = Some c /\ u' = u /\ ws_open n' = ws_open n.
Proof.
  intros Hc Hrx E. unfold client_handle_request in E. apply M_bind_inv in E as (r & st1 & E2 & E).
  apply lift_l_inv in E2 as (n2 & E2 & ->).
  pose proof (keeps_open_unpack _ _ (keeps_open_recv_object (cl_socket c)) _ _ _ E2) as O2.
  apply recv_header_basic_received in E2 as (_ & bs & Eb & Hr). destruct r as [e2|hb].
  { destruct Hr as [-> _]. by mret_eq. }
  destruct Hr as [Hl ->]. rewrite Hrx in Eb.
  destruct (urb_not_request h bs rest Hc) as [N1 N2]; [|done|].
  { rewrite Eb at 2. by rewrite drop_app_length', Eb by done. }
  apply Z.eqb_neq in N1, N2. rewrite N1, N2 in E. by mret_eq.
Qed.

(** ** Properties *)


(** the graphical server executes no URB.  Its handler threads read nothing but
    requests, so that the first URB command of an attached client, taken for a request,
    is an unknown one: the session ends, the client is removed and its device closed,
    whatever the command and the state of the connection. *)
Theorem gui_urb_ends_session O env g n u loc c e h rest g' n' u' :
  gui_inv O g n -> find_first (client_at loc) (cm_clients (gs_manager g)) = Some c ->
  e ∈ dl_entries (gs_list g) -> attached_to c e ->
  hc_command (h_common h) = USBIP_CMD_SUBMIT \/ hc_command (h_common h) = USBIP_CMD_UNLINK ->
  ws_rx n (cl_socket c) = wire_encode h ++ rest ->
  client_handler_step env loc g (n, u) = (g', (n', u')) ->
  loc ∉ client_locs g' /\ loc ∉ gs_handlers g' /\ gui_inv O g' n' /\
  open_files u' = open_files u ∖ owned_files (de_device e) /\
  open_usb u' = open_usb u ∖ owned_usb (de_device e).
Proof.
  intros Hg Hf He Ha Hc Hrx E. unfold client_handler_step in E. rewrite Hf in E.
  destruct (negb _) in E.
  { apply M_bind_inv in E as ([e1 r] & [n1 u1] & E1 & E). unfold mret, M_ret in E. injection E as <- <- <-.
    by eapply removed_attached. }
  apply M_bind_inv in E as ([[err r1] r2] & [n1 u1] & E1 & E). cbv zeta in E.
  apply (urb_request_fails _ _ _ _ _ h rest) in E1 as (Ee & -> & -> & -> & O1); [|done..].
  cbn [default id] in E. rewrite (store_same _ loc c (gi_manager _ _ _ Hg) Hf) in E.
  assert (gs_set_manager g (gs_manager g) = g) as Eg by (by destruct g). rewrite Eg, Ee in E. cbn [negb] in E.
  apply M_bind_inv in E as ([e1 r] & [n3 u3] & E3 & E). unfold mret, M_ret in E. injection E as <- <- <-.
  assert (gui_inv O g n1) as Hg1 by (by apply (gui_inv_keep O g n); try apply Hg).
  by eapply removed_attached.
Qed.
End steps.

(** *** What the window shows *)

Section shown.
  Context `{WideText}.

(** The row of a device that is shown as shared or not. *)
Definition row_of (d : usb_device) (shared : bool) : gui_row := {|
  row_busid := wide_column (dev_busid d) 32;
  row_vidpid := fmt_0X 4 (dev_vendor_id d) ++ str ":" ++ fmt_0X 4 (dev_product_id d);
  row_desc := wide_column (if negb (char_at (dev_product d) 0 =? 0) then dev_product d
                           else str "USB Device") 128;
  row_status := share_status shared; row_checked := shared |}.

(** Whether the device with that bus id is shared; [def] when the list has none. *)
Definition shared_in (l : device_list) (def : bool) (d : usb_device) : bool :=
  match device_list_find (Some l) (Some (dev_busid d)) with Some e => de_is_shared e | NULL => def end.

Lemma add_other alloc l d1 d2 def :
  device_new d1 -> device_new d2 -> dev_busid d1 <> dev_busid d2 ->
  device_list_find (Some l) (Some (dev_busid d1)) = None ->
  shared_in (default l (device_list_add alloc (Some l) (Some d1)).2) def d2 = shared_in l def d2.
Proof.
  intros (Hw1 & _) (Hw2 & _) Hne Hnone. unfold device_list_add. rewrite Hnone.
  destruct alloc as [loc|]; [|done]. unfold shared_in. simpl.
  assert (entry_is (dev_busid d2) {| de_loc := loc; de_device := d1; de_state := DEVICE_STATE_AVAILABLE;
    de_client_id := 0; de_client_ip := []; de_export_time := 0; de_is_shared := true |} = false) as ->; [|done].
  apply not_true_is_false. unfold entry_is. simpl. rewrite streq_true.
  destruct Hw1 as (_ & (Hn1 & _) & _), Hw2 as (_ & (Hn2 & _) & _). by rewrite !cstr_id.
Qed.

Lemma add_new alloc l d def :
  is_Some alloc -> device_list_find (Some l) (Some (dev_busid d)) = None ->
  shared_in (default l (device_list_add alloc (Some l) (Some d)).2) def d = true.
Proof.
  intros [loc ->] Hnone. unfold device_list_add. rewrite Hnone. unfold shared_in. simpl.
  unfold entry_is at 1. simpl. by rewrite streq_refl.
Qed.

Lemma enum_rows devs allocs g :
  Forall device_new devs -> NoDup (dev_busid <$> devs) ->
  Forall is_Some allocs -> (length devs <= length allocs)%nat ->
  let g' := (fold_left (fun a d => enum_device_callback d a) devs (g, allocs)).1 in
  gs_rows g' = gs_rows g ++ ((fun d => row_of d (shared_in (gs_list g) false d)) <$> devs) /\
  (forall d, device_new d -> d ∈ devs -> forall def,
     shared_in (gs_list g') def d = shared_in (gs_list g) true d) /\
  (forall d, device_new d -> dev_busid d ∉ dev_busid <$> devs -> forall def,
     shared_in (gs_list g') def d = shared_in (gs_list g) def d).
Proof.
  intros Hd. revert allocs g.
  induction Hd as [|d devs Hd Hds IH]; intros allocs g Hnd Ha Hl; cbn [fold_left].
  { simpl. rewrite app_nil_r. split_and!; [done|by intros ? _ ?%elem_of_nil|done]. }
  rewrite fmap_cons in Hnd. apply NoDup_cons in Hnd as [Hx Hnd].
  destruct (enum_device_callback d (g, allocs)) as [g1 al1] eqn:E.
  assert (gs_rows g1 = gs_rows g ++ [row_of d (shared_in (gs_list g) false d)] /\
    Forall is_Some al1 /\ (length devs <= length al1)%nat /\
    (forall d', device_new d' -> dev_busid d <> dev_busid d' -> forall def,
      shared_in (gs_list g1) def d' = shared_in (gs_list g) def d') /\
    forall def, shared_in (gs_list g1) def d = shared_in (gs_list g) true d) as (Hr & Ha1 & Hl1 & Ho & Hs).
  { unfold enum_device_callback in E. simpl in Hl.
    destruct (device_list_find (Some (gs_list g)) (Some (dev_busid d))) as [e|] eqn:Ef; simplify_eq.
    - split_and!; try done; [by unfold row_of, shared_in; rewrite Ef|lia|].
      intros def. change (gs_list (gs_set_rows g _)) with (gs_list g). unfold shared_in. by rewrite Ef.
    - destruct allocs as [|a allocs]; [simpl in Hl; lia|]. apply Forall_cons in Ha as [Ha0 Ha].
      split_and!; try done; [by unfold row_of, shared_in; rewrite Ef|simpl in Hl |- *; lia| |].
      + intros d' Hd' Hne def. by apply (add_other a (gs_list g) d d' def).
      + intros def. etrans; [by apply (add_new a (gs_list g) d def)|]. unfold shared_in. by rewrite Ef. }
  destruct (IH al1 g1 Hnd Ha1 Hl1) as (Hr2 & Hs2 & Ho2). split_and!.
  - rewrite Hr2, Hr, <- app_assoc, fmap_cons. do 2 f_equal. apply list_fmap_ext. intros i d' Hin.
    apply list_elem_of_lookup_2 in Hin. f_equal. apply Ho; [by eapply Forall_forall in Hds|].
    intros Heq. apply Hx. rewrite Heq. by apply list_elem_of_fmap_2.
  - intros d' Hd' [->|Hin]%elem_of_cons def; [by rewrite Ho2|]. rewrite Hs2 by done. apply Ho; [done|].
    intros Heq. apply Hx. rewrite Heq. by apply list_elem_of_fmap_2.
  - intros d' Hd' [Hne Hnin]%not_elem_of_cons def. rewrite Ho2 by done. by apply Ho.
Qed.

(** what a refresh shows.  There is one row per enumerated device, in order, and the
    row of a device that the list already had shows whether it is shared; but a device
    that is seen for the first time is shown as local and unchecked, while the entry
    that is made for it is shared: clients can import it at once. *)
Theorem gui_new_device_shown_local utf8 es allocs g :
  Forall (fun x => Forall is_byte (di_instance_id x)) es ->
  NoDup (dev_busid <$> enumerated utf8 es) ->
  Forall is_Some allocs -> (length (enumerated utf8 es) <= length allocs)%nat ->
  let g' := populate_device_list utf8 true (Some es) allocs g in
  gs_rows g' = (fun d => row_of d (shared_in (gs_list g) false d)) <$> enumerated utf8 es /\
  forall d, d ∈ enumerated utf8 es -> exists e,
    device_list_find (Some (gs_list g')) (Some (dev_busid d)) = Some e /\
    de_is_shared e = shared_in (gs_list g) true d.
Proof.
  intros Hb%(enumerated_ok utf8) Hnd Ha Hl. unfold populate_device_list. cbn [usb_enumerate_devices negb].
  rewrite enumerate_loop_fold. cbn [snd].
  destruct (enum_rows (enumerated utf8 es) allocs (gs_set_rows g []) Hb Hnd Ha Hl) as (Hr & Hs & _).
  split; [exact Hr|]. intros d Hin.
  assert (device_new d) as Hd by (by eapply Forall_forall in Hb).
  pose proof (Hs d Hd Hin true) as E1. pose proof (Hs d Hd Hin false) as E2.
  change (gs_list (gs_set_rows g [])) with (gs_list g) in E1, E2. unfold shared_in at 1 in E1.
  unfold shared_in at 1 in E2. destruct (device_list_find _ _) as [e|]; [by exists e|congruence].
Qed.

End shown.

(** *** A second import *)

Section second.
  Context {N U : Type} `{WinsockLaws N} `{WinUsbLaws U}.
  Implicit Types (n : N) (u : U).

(** Removing a client changes no entry but the one of its device, whatever the others. *)
Lemma remove_attached_only m cs1 c cs2 l1 e l2 n u err r st :
  cm_initialized m = true -> cm_clients m = cs1 ++ c :: cs2 ->
  Forall (fun x => client_at (cl_loc c) x = false) cs1 ->
  cm_device_list m = with_entry (cm_device_list m) l1 e l2 -> cl_device c = Some (de_loc e) ->
  dev_inv (de_device e) -> Forall (fun x => entry_at (de_loc e) x = false) l1 ->
  Forall (fun x => entry_is (cl_attached_busid c) x = false) l1 ->
  entry_is (cl_attached_busid c) e = true ->
  client_manager_remove (Some m) (Some (cl_loc c)) (n, u) = ((err, r), st) ->
  err = ERR_SUCCESS /\ exists m' e', r = Some m' /\ cm_clients m' = cs1 ++ cs2 /\
    cm_device_list m' = with_entry (cm_device_list m) l1 e' l2.
Proof.
  intros Hinit Ecs Hcs El Hdev Hd Hl1 Hb Hi E. unfold client_manager_remove in E.
  assert (client_at (cl_loc c) c = true) as Hat by apply Z.eqb_refl.
  rewrite Hinit in E. cbn [negb] in E. rewrite Ecs, find_first_app, (proj2 (find_first_None _ _) Hcs) in E.
  cbn [find_first] in E. rewrite Hat, remove_first_split in E by done. cbv zeta in E.
  cbn [cm_device_list cm_set_clients] in E. rewrite El in E. apply M_bind_inv in E as (l' & st1 & E1 & E).
  injection E as <- <- <-. split; [done|].
  destruct (negb _) in E1.
  - rewrite unexport_focus in E1 by done. cbn [snd default] in E1.
    apply (free_client_attached _ l1 (entry_set_state e DEVICE_STATE_AVAILABLE 0 [] 0) l2) in E1
      as (d' & -> & _); [|done..]. by do 2 eexists.
  - apply free_client_attached in E1 as (d' & -> & _); [|done..]. by do 2 eexists.
Qed.

(** an attached client that imports a second device leaks the first.  The handler
    thread accepts the request, and the attachment overwrites the client's device, bus
    id and URB handler: the client is attached to the second device, and the first stays as
    it was, open and exported to the client, with no client that has it; removing the
    client, which closes the second, leaves the first so for good. *)
Theorem gui_second_import_leaks env m c e1 b u m1 c1 u1 :
  cm_inv m -> c ∈ cm_clients m -> e1 ∈ dl_entries (cm_device_list m) -> attached_to c e1 ->
  client_attach_device env (Some m) (Some c) (Some b) u = ((ERR_SUCCESS, Some m1, Some c1), u1) ->
  let m2 := store_client m1 c1 in
  (exists e2, e2 ∈ dl_entries (cm_device_list m2) /\ attached_to c1 e2 /\ de_loc e2 <> de_loc e1) /\
  (e1 ∈ dl_entries (cm_device_list m2) /\ forall x, x ∈ cm_clients m2 -> cl_device x <> Some (de_loc e1)) /\
  forall n err r st, client_manager_remove (Some m2) (Some (cl_loc c)) (n, u1) = ((err, r), st) ->
    err = ERR_SUCCESS /\ exists m3, r = Some m3 /\ e1 ∈ dl_entries (cm_device_list m3) /\
    forall x, x ∈ cm_clients m3 -> cl_device x <> Some (de_loc e1).
Proof.
  intros Hm Hc He1 Ha E m2. pose proof Ha as (_ & _ & Hd1 & _ & Hex & _).
  apply attach_cases in E as [(? & _)|(l1 & e & l2 & l' & c' & El & Hl1 & Hb & Hi & _ & Hst & Er1 & Er2 & Hpost)];
    [done| |done].
  destruct Hpost as [(? & _)|(_ & d' & h & w & Hdi & Hs & Ho & _ & El' & Ec')]; [done|].
  injection Er1 as ->. injection Er2 as ->. set (l := cm_device_list m) in *.
  set (e2 := entry_set_state _ _ _ _ _) in El'.
  pose proof (cmi_list m Hm) as Hl. fold l in Hl. pose proof (inv_locs _ Hl) as Hn.
  pose proof (inv_entries _ Hl) as Hok. rewrite El, entries_with_entry in Hn, Hok.
  rewrite Forall_app, Forall_cons in Hok. destruct Hok as (_ & Hok & _).
  fold l in He1. rewrite El, entries_with_entry in He1.
  apply elem_of_mid_ne in He1 as [->|Hin]; [by rewrite Hst in Hex|].
  pose proof (not_in_locs de_loc l1 e l2 e1 Hn Hin) as Hne.
  assert (forall e', e1 ∈ dl_entries (with_entry l l1 e' l2)) as Hstay.
  { intros e'. rewrite entries_with_entry. rewrite elem_of_app in Hin. rewrite elem_of_app, elem_of_cons. tauto. }
  assert (cl_attached_busid c' = busid_of e) as Hbus by (rewrite Ec'; by apply copy_busid).
  assert (cl_device c' = Some (de_loc e)) as Hdev by (by rewrite Ec').
  assert (cl_loc c' = cl_loc c) as Hloc by (by rewrite Ec').
  assert (forall x, entry_is (cl_attached_busid c') x = entry_is b x) as Hsame.
  { intros x. rewrite Ec'. by apply (copied_finds e). }
  apply list_elem_of_split in Hc as (cs1 & cs2 & Ecs).
  pose proof (cmi_locs m Hm) as Hnl. pose proof (cmi_exclusive m Hm) as Hnx. rewrite Ecs in Hnl, Hnx.
  assert (cm_clients m2 = cs1 ++ c' :: cs2) as Ecs2.
  { unfold m2, store_client. cbn [cm_clients cm_set_list cm_set_clients].
    by apply (store_split m cs1 c cs2 c'); [apply Hm|..]. }
  assert (cm_device_list m2 = with_entry l l1 e2 l2) as El2 by (unfold m2; by rewrite <- El').
  assert (forall x, x ∈ cs1 ++ cs2 -> cl_device x <> Some (de_loc e1)) as Hothers.
  { intros x Hx Hdx. rewrite omap_app in Hnx. cbn [omap list_omap] in Hnx. rewrite Hd1 in Hnx.
    rewrite <- Permutation_middle in Hnx. apply NoDup_cons in Hnx as [Hnx _]. apply Hnx.
    rewrite <- omap_app. apply list_elem_of_omap. by exists x. }
  split; [exists e2; split; [rewrite El2; apply elem_of_mid|split; [|done]]; subst c'; split_and!; try done;
          rewrite Hbus; symmetry; by apply (busid_of_device e d')|].
  split.
  - split; [rewrite El2; apply Hstay|]. rewrite Ecs2. intros x [->|Hx]%elem_of_mid_ne; [|by apply Hothers].
    rewrite Hdev. congruence.
  - intros n err r st Er. rewrite <- Hloc in Er.
    assert (Forall (fun x => client_at (cl_loc c') x = false) cs1) as Hcs.
    { apply Forall_forall. intros x Hx. apply Z.eqb_neq. rewrite Hloc.
      apply (not_in_locs cl_loc cs1 c cs2 x Hnl). apply elem_of_app. by left. }
    apply (remove_attached_only m2 cs1 c' cs2 l1 e2 l2) in Er as (-> & m3 & e3 & -> & Ecs3 & El3); try done.
    + split; [done|]. exists m3. split; [done|]. split; [|by rewrite Ecs3]. rewrite El3, El2. apply Hstay.
    + apply (cmi_init m Hm).
    + by rewrite El2.
    + eapply Forall_impl; [exact Hb|]. intros x Hx. by rewrite Hsame.
    + rewrite Hsame. unfold e2. rewrite <- Hi. by apply (entry_is_device b e d').
Qed.
End second.

(** ** Witnesses *)

Import SimText.

Definition greedy_manager : client_manager := cm_set_list example_manager two_devices.

(** Import a device, and store the client. *)
Definition import_next (b : bytes) (s : client_manager * client_connection * SimUsb.usb) :
    client_manager * client_connection * SimUsb.usb :=
  let '(m, c, u) := s in
  let '((_, r1, r2), u) := client_attach_device example_env (Some m) (Some c) (Some b) u in
  (store_client (default m r1) (default c r2), default c r2, u).

Definition imported_one := import_next example_busid (greedy_manager, example_client 8192 1, SimUsb.start []).

Lemma greedy_manager_inv : cm_inv greedy_manager.
Proof.
  destruct example_manager_inv as [_ _ Hi Hc Hm Hl Hx Hcl _].
  assert (Forall (fun e => (de_state e <> DEVICE_STATE_EXPORTED /\ dev_is_open (de_device e) = false) /\
    busid_of e <> []) (dl_entries two_devices)) as He.
  { apply (bool_decide_unpack _). by vm_compute. }
  split; try done; [apply two_devices_inv|by eapply Forall_impl; [exact He|]; intros x []| |].
  - constructor; [|constructor]. left. by split_and!.
  - eapply Forall_impl; [exact He|]. intros x [? _]. by left.
Qed.

(** After the first import the client has the first device. *)
Lemma imported_one_ok :
  exists m c u e, imported_one = (m, c, u) /\ cm_inv m /\ c ∈ cm_clients m /\
    e ∈ dl_entries (cm_device_list m) /\ attached_to c e.
Proof.
  unfold imported_one, import_next.
  destruct (client_attach_device example_env (Some greedy_manager) (Some (example_client 8192 1))
    (Some example_busid) (SimUsb.start [])) as [[[err r1] r2] u] eqn:E.
  assert (err = ERR_SUCCESS) as -> by (apply (f_equal (fun x => x.1.1.1)) in E; by vm_compute in E).
  pose proof (attach_same _ _ _ _ _ _ _ _ _ E) as (l & c & -> & -> & [Hloc _]).
  apply attach_inv in E as (m' & c' & [= <-] & [= <-] & Hm & _ & Hok);
    [|apply greedy_manager_inv|by left|by split_and!].
  destruct (Hok eq_refl) as (e & He & Ha & _). cbn [default]. do 4 eexists. split; [reflexivity|].
  split; [exact Hm|]. split; [|split; [exact He|exact Ha]].
  pose proof (store_split greedy_manager [] (example_client 8192 1) [] c (cmi_locs _ greedy_manager_inv)
    eq_refl Hloc) as Es.
  change (c ∈ update_first (client_at (cl_loc c)) (fun _ => c) (cm_clients greedy_manager)).
  rewrite Es. by left.
Qed.

(** A window that opens, whose first device is unchecked, and that is closed. *)
Definition example_gui : gui_server * Sim.net := server_gui_init example_init [] true (Sim.one 3 [] []).


(** An attached client that submits a URB. *)
Definition busy_server : gui_server := {|
  gs_manager := example_busy; gs_running := true; gs_socket := INVALID_SOCKET_VAL;
  gs_discovery_socket := INVALID_SOCKET_VAL; gs_auth_token := []; gs_rows := []; gs_handlers := [8192] |}.

Definition urb_net : Sim.net := Sim.one 5 (wire_encode (example_command 7 1)) [].

Lemma busy_server_inv : gui_inv ∅ busy_server urb_net.
Proof.
  split.
  - exact (proj1 example_busy_inv).
  - by vm_compute.
  - split; [apply NoDup_singleton|]. intros loc ->%list_elem_of_singleton. by vm_compute; left.
  - apply (bool_decide_unpack _). by vm_compute.
  - split_and!; [apply (bool_decide_unpack _); by vm_compute|done|].
    apply (bool_decide_unpack _). by vm_compute.
Qed.

Lemma gui_urb_ends_session_witness :
  8192 ∉ client_locs (client_handler_step example_env 8192 busy_server (urb_net, example_u1)).1 /\
  gs_handlers busy_server = [8192].
Proof.
  split; [|reflexivity]. destruct example_busy_inv as (_ & e & He & Ha & _).
  destruct (client_handler_step example_env 8192 busy_server (urb_net, example_u1)) as [g' [n' u']] eqn:E.
  destruct (gui_urb_ends_session ∅ example_env busy_server urb_net example_u1 8192 example_c1 e
    (example_command 7 1) [] g' n' u') as [Hl _].
  - exact busy_server_inv.
  - by vm_compute.
  - exact He.
  - exact Ha.
  - by left.
  - apply (bool_decide_unpack _). by vm_compute.
  - exact E.
  - exact Hl.
Defined.

(** Both devices are new: neither is checked, and both are shared. *)
Lemma gui_new_device_shown_local_witness :
  let g := populate_device_list (fun _ _ => None) true (Some [example_entry; second_entry])
             [Some 4096; Some 4500] gui_zero in
  row_checked <$> gs_rows g = [false; false] /\ de_is_shared <$> dl_entries (gs_list g) = [true; true].
Proof.
  cbv zeta. split; [|by vm_compute].
  destruct (gui_new_device_shown_local (fun _ _ => None) [example_entry; second_entry]
    [Some 4096; Some 4500] gui_zero) as [Hr _].
  - repeat constructor; by vm_compute.
  - apply (bool_decide_unpack _). by vm_compute.
  - repeat constructor; by eexists.
  - by vm_compute.
  - rewrite Hr. by vm_compute.
Defined.

(** Importing the second device after that. *)
Lemma gui_second_import_leaks_witness :
  exists m c e1 m1 c1 u1 u2,
    attached_to c e1 /\
    client_attach_device example_env (Some m) (Some c) (Some second_busid) u1 =
      ((ERR_SUCCESS, Some m1, Some c1), u2) /\
    e1 ∈ dl_entries (cm_device_list m1) /\
    forall x, x ∈ cm_clients (store_client m1 c1) -> cl_device x <> Some (de_loc e1).
Proof.
  destruct imported_one_ok as (m & c & u & e & E & Hm & Hc & He & Ha).
  assert ((client_attach_device example_env (Some imported_one.1.1) (Some imported_one.1.2) (Some second_busid)
    imported_one.2).1.1.1 = ERR_SUCCESS) as Ee by (by vm_compute).
  rewrite E in Ee. cbn [fst snd] in Ee.
  destruct (client_attach_device example_env (Some m) (Some c) (Some second_busid) u) as [[[err r1] r2] u2] eqn:Ea.
  cbn [fst] in Ee. subst err. pose proof (attach_same _ _ _ _ _ _ _ _ _ Ea) as (l & c1 & -> & -> & _).
  destruct (gui_second_import_leaks (N := Sim.net) example_env m c e second_busid u _ c1 u2 Hm Hc He Ha Ea)
    as (_ & [Hin Hno] & _).
  do 7 eexists. split; [exact Ha|]. split; [exact Ea|]. split; [exact Hin|exact Hno].
Defined.
