(* ===== verification/RemoteDevice.v ===== *)
(** * The client's remote devices ([client/remote_device.h], [client/remote_device.c])

    A remote device is a connection to a server that exports the device, with the
    port of the virtual host controller it is attached to.  [rd_loc] is the address
    of its structure, what a [remote_device_t *] of the program is.

    The client has one controller context, so that a device's [vhci] pointer is
    whether it has one ([rd_vhci]), and the context itself is passed and returned.
    Operations that use the network and the controller run in [M (N * D)].  Every
    function that takes the list's mutex gives it back before it returns and calls
    nothing that takes it in between, so the mutex is not part of the model.  The
    module's token, [g_auth_token], is an argument. *)

From Stdlib Require Import String.
From S2P Require Import Prelude CTypes Format Errors Protocol Net ProtocolIO Auth Vhci.

(** ** Data *)

Definition CONNECTION_TIMEOUT_MS : Z := 30000.

Inductive remote_device_state :=
  | REMOTE_DEV_STATE_DISCONNECTED
  | REMOTE_DEV_STATE_CONNECTING
  | REMOTE_DEV_STATE_CONNECTED
  | REMOTE_DEV_STATE_ACTIVE
  | REMOTE_DEV_STATE_ERROR.

Record remote_device := {
  rd_loc : Z;
  rd_server_ip : bytes;
  rd_server_port : Z;
  rd_socket : Z;
  rd_device_info : usbip_usb_device;
  rd_busid : bytes;
  rd_vhci : bool;
  rd_vhci_port : Z;
  rd_state : remote_device_state;
  rd_running : bool;
  rd_seqnum : Z;
}.

Record remote_device_list := {
  rl_devices : list remote_device;
  rl_count : Z;
  rl_initialized : bool;
}.

(** [alloc] is what [calloc] returns. *)
Definition create_remote_device (alloc : ptr Z) : ptr remote_device :=
  (fun loc => {|
    rd_loc := loc; rd_server_ip := []; rd_server_port := 0; rd_socket := INVALID_SOCKET_VAL;
    rd_device_info := usb_device_zero; rd_busid := []; rd_vhci := false; rd_vhci_port := -1;
    rd_state := REMOTE_DEV_STATE_DISCONNECTED; rd_running := false; rd_seqnum := 1 |}) <$> alloc.

(** The assignments [remote_device_connect] makes, up to the connection. *)
Definition rd_connecting (d : remote_device) (ip : bytes) (port : Z) (busid : bytes) (vhci : bool) :
    remote_device := {|
  rd_loc := rd_loc d; rd_server_ip := copy_str ip 64; rd_server_port := port;
  rd_socket := rd_socket d; rd_device_info := rd_device_info d;
  rd_busid := copy_str busid USBIP_BUSID_MAX; rd_vhci := vhci; rd_vhci_port := rd_vhci_port d;
  rd_state := REMOTE_DEV_STATE_CONNECTING; rd_running := rd_running d; rd_seqnum := rd_seqnum d |}.

Definition rd_set (d : remote_device) (sock : Z) (info : usbip_usb_device) (port : Z)
    (st : remote_device_state) (running : bool) : remote_device := {|
  rd_loc := rd_loc d; rd_server_ip := rd_server_ip d; rd_server_port := rd_server_port d;
  rd_socket := sock; rd_device_info := info; rd_busid := rd_busid d; rd_vhci := rd_vhci d;
  rd_vhci_port := port; rd_state := st; rd_running := running; rd_seqnum := rd_seqnum d |}.

Definition remote_device_list_init (mutex_result : Z) (list : ptr remote_device_list) :
    error_code * ptr remote_device_list :=
  match list with
  | NULL => (ERR_INVALID_PARAM, NULL)
  | Some _ =>
      let l ok := Some {| rl_devices := []; rl_count := 0; rl_initialized := ok |} in
      if negb (mutex_result =? 0) then (ERR_MUTEX_INIT, l false) else (ERR_SUCCESS, l true)
  end.

(** ** Lookup *)

(** [device == curr] *)
Definition device_at (loc : Z) (d : remote_device) : bool := rd_loc d =? loc.

Definition remote_device_find_when (f : remote_device -> bool) (list : ptr remote_device_list) :
    ptr remote_device :=
  match list with
  | NULL => NULL
  | Some l => if negb (rl_initialized l) then NULL else find_first f (rl_devices l)
  end.

Definition remote_device_find_by_port (list : ptr remote_device_list) (port : Z) : ptr remote_device :=
  remote_device_find_when (fun d => rd_vhci_port d =? port) list.

Definition remote_device_find_by_busid (list : ptr remote_device_list) (busid : ptr bytes) :
    ptr remote_device :=
  match busid with
  | NULL => NULL
  | Some b => remote_device_find_when (fun d => streq (rd_busid d) b) list
  end.

Definition remote_device_count (list : ptr remote_device_list) : Z :=
  match list with Some l => rl_count l | NULL => 0 end.

Definition remote_device_state_string (state : remote_device_state) : string :=
  match state with
  | REMOTE_DEV_STATE_DISCONNECTED => "Disconnected"
  | REMOTE_DEV_STATE_CONNECTING => "Connecting"
  | REMOTE_DEV_STATE_CONNECTED => "Connected"
  | REMOTE_DEV_STATE_ACTIVE => "Active"
  | REMOTE_DEV_STATE_ERROR => "Error"
  end.

(** ** URB forwarding

    The forwarding thread only announces itself: until [running] is cleared it
    sleeps. *)

Definition forward_thread_enter (d : remote_device) : remote_device :=
  rd_set d (rd_socket d) (rd_device_info d) (rd_vhci_port d) REMOTE_DEV_STATE_ACTIVE (rd_running d).

(** [created]: whether the thread could be created. *)
Definition remote_device_start_forwarding (created : bool) (device : ptr remote_device) :
    error_code * ptr remote_device :=
  match device with
  | NULL => (ERR_INVALID_PARAM, NULL)
  | Some d =>
      return_if rd_running d with (ERR_INVALID_PARAM, device) ;;
      let set r := rd_set d (rd_socket d) (rd_device_info d) (rd_vhci_port d) (rd_state d) r in
      if negb created then (ERR_THREAD_CREATE, Some (set false)) else (ERR_SUCCESS, Some (set true))
  end.

Definition remote_device_stop_forwarding (device : ptr remote_device) : ptr remote_device :=
  (fun d => if negb (rd_running d) then d
            else rd_set d (rd_socket d) (rd_device_info d) (rd_vhci_port d) (rd_state d) false)
  <$> device.

(** ** Connecting and disconnecting *)

Section remote.
  Context {N D : Type} `{Winsock N} `{VhciDriver D}.

(** The controller's context is returned; the device is gone. *)
Definition free_remote_device (vhci : ptr vhci_context) (device : ptr remote_device) :
    M (N * D) (ptr vhci_context) :=
  match remote_device_stop_forwarding device with
  | NULL => mret vhci
  | Some d =>
      (if socket_is_valid (rd_socket d) then lift_l (socket_close (rd_socket d)) else mret tt) ;;
      if rd_vhci d && (rd_vhci_port d >=? 0)
      then '(_, vhci) ← lift_r (vhci_detach vhci (rd_vhci_port d)); mret vhci
      else mret vhci
  end.

(** What [remote_device_connect] does with the socket of [d] before it turns to the
    controller: the error and the device to free, or the device with its
    information. *)
Definition import_device (token : ptr bytes) (busid : bytes) (d : remote_device) :
    M N (error_code + usbip_usb_device) :=
  let sock := rd_socket d in
  auth_err ← (if auth_is_enabled token then auth_client_handshake sock token else mret ERR_SUCCESS);
  if negb (error_code_eqb auth_err ERR_SUCCESS) then socket_close sock ;; mret (inl auth_err) else
  let req := usbip_create_import_request (Some busid) in
  ok ← send_bytes sock (to_mem (usbip_pack_header_basic (ir_header req)));
  if negb ok then mret (inl ERR_SOCKET_SEND) else
  ok ← send_bytes sock (ir_busid req);
  if negb ok then mret (inl ERR_SOCKET_SEND) else
  r ← usbip_recv_header_basic sock;
  match r with
  | inl _ => mret (inl ERR_SOCKET_RECV)
  | inr header =>
      if negb (hb_status header =? USBIP_ST_OK) then
        mret (inl (if hb_status header =? USBIP_ST_DEV_BUSY then ERR_DEVICE_BUSY
                   else ERR_USB_NOT_FOUND))
      else
        r ← usbip_recv_device sock;
        match r with
        | inl _ => mret (inl ERR_SOCKET_RECV)
        | inr info => mret (inr info)
        end
  end.

(** The port the device gets, and the error when there is none or the controller
    refuses; [d] as it is to be freed or used. *)
Definition attach_port (vhci : ptr vhci_context) (d : remote_device) (ip : bytes) (server_port : Z) :
    M D (error_code * ptr vhci_context * remote_device) :=
  match vhci with
  | NULL => mret (ERR_SUCCESS, vhci, d)
  | Some _ =>
      let port := vhci_find_free_port vhci in
      let d := rd_set d (rd_socket d) (rd_device_info d) port (rd_state d) (rd_running d) in
      if port <? 0 then mret (ERR_VHCI_NO_FREE_PORT, vhci, d) else
      '(err, vhci) ← vhci_attach vhci port (rd_socket d) (Some (rd_device_info d)) (Some ip)
                       server_port;
      mret (err, vhci, d)
  end.

(** [*out_device] is the address of the device that is at the head of the list on
    success. *)
Definition remote_device_connect (alloc : ptr Z) (token : ptr bytes)
    (list : ptr remote_device_list) (vhci : ptr vhci_context) (server_ip : ptr bytes)
    (server_port : Z) (busid : ptr bytes) :
    M (N * D) (error_code * ptr remote_device_list * ptr vhci_context * ptr Z) :=
  match list, server_ip, busid with
  | Some l, Some ip, Some b =>
      match create_remote_device alloc with
      | NULL => mret (ERR_OUT_OF_MEMORY, list, vhci, NULL)
      | Some d =>
          let d := rd_connecting d ip server_port b (bool_decide (is_Some vhci)) in
          let fail err vhci (d : remote_device) :=
            vhci ← free_remote_device vhci (Some d); mret (err, list, vhci, NULL) in
          sock ← lift_l (tcp_client_connect_timeout ip server_port CONNECTION_TIMEOUT_MS);
          let d := rd_set d sock (rd_device_info d) (rd_vhci_port d) (rd_state d) (rd_running d) in
          if negb (socket_is_valid sock) then fail ERR_SOCKET_CONNECT vhci d else
          r ← lift_l (import_device token b d);
          match r with
          | inl err => fail err vhci d
          | inr info =>
              let d := rd_set d sock info (rd_vhci_port d) (rd_state d) (rd_running d) in
              '(err, vhci, d) ← lift_r (attach_port vhci d ip server_port);
              if negb (error_code_eqb err ERR_SUCCESS) then fail err vhci d else
              let d := rd_set d sock info (rd_vhci_port d) REMOTE_DEV_STATE_CONNECTED
                         (rd_running d) in
              mret (ERR_SUCCESS,
                Some {| rl_devices := d :: rl_devices l; rl_count := rl_count l + 1;
                        rl_initialized := rl_initialized l |}, vhci, Some (rd_loc d))
          end
      end
  | _, _, _ => mret (ERR_INVALID_PARAM, list, vhci, NULL)
  end.

Definition remote_device_disconnect (list : ptr remote_device_list) (vhci : ptr vhci_context)
    (device : ptr Z) : M (N * D) (error_code * ptr remote_device_list * ptr vhci_context) :=
  match list, device with
  | Some l, Some loc =>
      match find_first (device_at loc) (rl_devices l) with
      | NULL => mret (ERR_NOT_FOUND, list, vhci)
      | Some d =>
          let l := {| rl_devices := remove_first (device_at loc) (rl_devices l);
                      rl_count := rl_count l - 1; rl_initialized := rl_initialized l |} in
          vhci ← free_remote_device vhci (Some d);
          mret (ERR_SUCCESS, Some l, vhci)
      end
  | _, _ => mret (ERR_INVALID_PARAM, list, vhci)
  end.

Definition remote_device_disconnect_port (list : ptr remote_device_list) (vhci : ptr vhci_context)
    (port : Z) : M (N * D) (error_code * ptr remote_device_list * ptr vhci_context) :=
  match remote_device_find_by_port list port with
  | NULL => mret (ERR_NOT_FOUND, list, vhci)
  | Some d => remote_device_disconnect list vhci (Some (rd_loc d))
  end.

(** The [while] loop, one iteration per device. *)
Fixpoint disconnect_all_loop (fuel : nat) (l : remote_device_list) (vhci : ptr vhci_context) :
    M (N * D) (remote_device_list * ptr vhci_context) :=
  match fuel with
  | O => mret (l, vhci)
  | S fuel =>
      match rl_devices l with
      | [] => mret (l, vhci)
      | d :: _ =>
          '(_, r, vhci) ← remote_device_disconnect (Some l) vhci (Some (rd_loc d));
          disconnect_all_loop fuel (default l r) vhci
      end
  end.

Definition remote_device_disconnect_all (list : ptr remote_device_list) (vhci : ptr vhci_context) :
    M (N * D) (ptr remote_device_list * ptr vhci_context) :=
  match list with
  | NULL => mret (NULL, vhci)
  | Some l =>
      if negb (rl_initialized l) then mret (list, vhci) else
      '(l, vhci) ← disconnect_all_loop (length (rl_devices l)) l vhci; mret (Some l, vhci)
  end.

Definition remote_device_list_cleanup (list : ptr remote_device_list) (vhci : ptr vhci_context) :
    M (N * D) (ptr remote_device_list * ptr vhci_context) :=
  match list with
  | NULL => mret (NULL, vhci)
  | Some l =>
      if negb (rl_initialized l) then mret (list, vhci) else
      '(r, vhci) ← remote_device_disconnect_all list vhci;
      mret ((fun l => {| rl_devices := rl_devices l; rl_count := rl_count l;
                         rl_initialized := false |}) <$> r, vhci)
  end.
End remote.

(** ** Listing a server's devices *)

Section list.
  Context {N : Type} `{Winsock N}.

(** The interfaces of one device are read and dropped. *)
Fixpoint skip_interfaces (n : nat) (sock : Z) : M N unit :=
  match n with
  | O => mret tt
  | S n =>
      r ← usbip_recv_interface sock;
      match r with
      | inl _ => mret tt
      | inr _ => skip_interfaces n sock
      end
  end.

(** The loop over the devices: [n] is how many are left to read, the smaller of
    what the server announces and of the room in the caller's array, since both
    counters grow by one in an iteration. *)
Fixpoint recv_devices (n : nat) (sock : Z) : M N (list usbip_usb_device) :=
  match n with
  | O => mret []
  | S n =>
      r ← usbip_recv_device sock;
      match r with
      | inl _ => mret []
      | inr dev =>
          skip_interfaces (Z.to_nat (ud_bNumInterfaces dev)) sock ;;
          devs ← recv_devices n sock; mret (dev :: devs)
      end
  end.

(** From the reply's header on: the result, and the devices stored in the caller's
    array of [max_devices]. *)
Definition recv_device_list (sock max_devices : Z) : M N (error_code * list usbip_usb_device) :=
  r ← usbip_recv_header_basic sock;
  match r with
  | inl _ => socket_close sock ;; mret (ERR_SOCKET_RECV, [])
  | inr header =>
      if negb (hb_status header =? USBIP_ST_OK)
      then socket_close sock ;; mret (ERR_PROTOCOL_INVALID, []) else
      '(received, bs) ← net_recv_all sock 4;
      if negb (received =? 4) then socket_close sock ;; mret (ERR_SOCKET_RECV, []) else
      let ndev := be32toh (of_le bs) in
      devs ← recv_devices (Z.to_nat (Z.min ndev max_devices)) sock;
      socket_close sock ;;
      mret (ERR_SUCCESS, devs)
  end.

Definition remote_server_list_devices (token server_ip : ptr bytes) (server_port max_devices : Z) :
    M N (error_code * list usbip_usb_device) :=
  match server_ip with
  | NULL => mret (ERR_INVALID_PARAM, [])
  | Some ip =>
      sock ← tcp_client_connect_timeout ip server_port CONNECTION_TIMEOUT_MS;
      if negb (socket_is_valid sock) then mret (ERR_SOCKET_CONNECT, []) else
      auth_err ← (if auth_is_enabled token then auth_client_handshake sock token
                  else mret ERR_SUCCESS);
      if negb (error_code_eqb auth_err ERR_SUCCESS) then socket_close sock ;; mret (auth_err, []) else
      ok ← send_bytes sock (to_mem (usbip_pack_header_basic usbip_create_devlist_request));
      if negb ok then socket_close sock ;; mret (ERR_SOCKET_SEND, []) else
      recv_device_list sock max_devices
  end.
End list.

(** ** Lemmas: descriptors *)

#[local] Arguments free_remote_device : simpl never.
#[local] Arguments import_device : simpl never.
#[local] Arguments attach_port : simpl never.
#[local] Arguments vhci_find_free_port : simpl never.

Section descriptors.
  Context {N : Type} `{WinsockLaws N}.
  Implicit Types n : N.

Lemma import_open token b d n r n' :
  socket_is_valid (rd_socket d) = true -> import_device token b d n = (r, n') ->
  ws_open n' = ws_open n \/ (exists e, r = inl e) /\ ws_open n' = ws_open n ∖ {[rd_socket d]}.
Proof.
  intros Hv E. unfold import_device in E. cbv zeta in E.
  apply M_bind_inv in E as (aerr & n1 & E1 & E).
  assert (ws_open n1 = ws_open n) as <-.
  { destruct (auth_is_enabled token); [by eapply keeps_open_auth_client|by mret_eq]. }
  destruct (negb (error_code_eqb aerr ERR_SUCCESS)).
  { apply M_bind_inv in E as ([] & n2 & E2 & E). apply close_open in E2; [|done]. mret_eq. right.
    by split; [eexists|]. }
  left. apply M_bind_inv in E as (ok & n2 & <-%keeps_open_send_bytes & E).
  destruct (negb ok); [by mret_eq|].
  apply M_bind_inv in E as (ok2 & n3 & <-%keeps_open_send_bytes & E).
  destruct (negb ok2); [by mret_eq|].
  apply M_bind_inv in E as (h & n4 & E4 & E).
  apply (keeps_open_unpack _ _ (keeps_open_recv_object _)) in E4 as <-.
  destruct h as [e|h]; [by mret_eq|]. destruct (negb _); [by mret_eq|].
  apply M_bind_inv in E as (x & n5 & E5 & E).
  apply (keeps_open_unpack _ _ (keeps_open_recv_object _)) in E5 as <-.
  destruct x; by mret_eq.
Qed.

Lemma import_error token b d n e n' : import_device token b d n = (inl e, n') -> e <> ERR_SUCCESS.
Proof.
  intros E. unfold import_device in E. cbv zeta in E. apply M_bind_inv in E as (aerr & n1 & _ & E).
  destruct (error_code_eqb aerr ERR_SUCCESS) eqn:Ea; cbn [negb] in E.
  2: { apply M_bind_inv in E as ([] & n2 & _ & E). mret_eq. intros ->. by vm_compute in Ea. }
  apply M_bind_inv in E as (ok & n2 & _ & E). destruct (negb ok); [by mret_eq|].
  apply M_bind_inv in E as (ok2 & n3 & _ & E). destruct (negb ok2); [by mret_eq|].
  apply M_bind_inv in E as (h & n4 & _ & E). destruct h as [?|h]; [by mret_eq|].
  destruct (negb _); [mret_eq; by destruct (_ =? _)|].
  apply M_bind_inv in E as (x & n5 & _ & E). destruct x; by mret_eq.
Qed.
End descriptors.

(** ** Listing *)

Section listing.
  Context {N : Type} `{WinsockLaws N}.
  Implicit Types n : N.

Lemma skip_interfaces_open k sock : keeps_open (skip_interfaces k sock).
Proof.
  induction k as [|k IH]; [apply keeps_open_ret|]. cbn [skip_interfaces].
  apply keeps_open_bind; [apply keeps_open_recv_object|].
  intros [e|i]; [apply keeps_open_ret|done].
Qed.

Lemma recv_devices_open k sock n devs n' :
  recv_devices k sock n = (devs, n') -> ws_open n' = ws_open n /\ (length devs <= k)%nat.
Proof.
  revert n devs n'. induction k as [|k IH]; intros n devs n' E; cbn [recv_devices] in E; [by mret_eq|].
  apply M_bind_inv in E as (r & n1 & E1 & E).
  apply (keeps_open_unpack _ _ (keeps_open_recv_object _)) in E1 as <-.
  destruct r as [e|dev]; [mret_eq; split; [done|lia]|].
  apply M_bind_inv in E as (u & n2 & <-%skip_interfaces_open & E).
  apply M_bind_inv in E as (ds & n3 & [<- Hl]%IH & E). mret_eq. split; [done|lia].
Qed.

Lemma recv_device_list_open sock mx n e devs n' :
  socket_is_valid sock = true -> recv_device_list sock mx n = ((e, devs), n') ->
  ws_open n' = ws_open n ∖ {[sock]} /\ Z.of_nat (length devs) <= Z.max 0 mx /\
  (e <> ERR_SUCCESS -> devs = []).
Proof.
  intros Hv E. unfold recv_device_list in E.
  assert (forall (x : error_code) k k', (socket_close sock ;; mret (x, [])) k = ((e, devs), k') ->
    ws_open k = ws_open n -> ws_open k' = ws_open n ∖ {[sock]} /\ Z.of_nat (length devs) <= Z.max 0 mx /\
    (e <> ERR_SUCCESS -> devs = [])) as Hstop.
  { intros x k k' ([] & k1 & E1 & E2)%M_bind_inv Ho. apply close_open in E1; [|done]. mret_eq.
    split; [congruence|]. split; [lia|done]. }
  apply M_bind_inv in E as (h & n1 & E1 & E).
  apply (keeps_open_unpack _ _ (keeps_open_recv_object _)) in E1.
  destruct h as [x|h]; [by eapply Hstop|]. destruct (negb _); [by eapply Hstop|].
  apply M_bind_inv in E as ([k bs] & n2 & E2 & E). apply keeps_open_recv_all in E2.
  destruct (negb _); [eapply Hstop; [done|congruence]|]. cbv zeta in E.
  apply M_bind_inv in E as (ds & n3 & [E3 Hl]%recv_devices_open & E).
  apply M_bind_inv in E as ([] & n4 & E4%close_open & E); [|done]. mret_eq.
  split; [congruence|]. split; [lia|done].
Qed.

Lemma list_devices_open token ip sp mx n e devs n' :
  remote_server_list_devices token ip sp mx n = ((e, devs), n') ->
  ws_open n' = ws_open n /\ Z.of_nat (length devs) <= Z.max 0 mx /\ (e <> ERR_SUCCESS -> devs = []).
Proof.
  intros E. unfold remote_server_list_devices in E. destruct ip as [ip|]; [|mret_eq; split_and!; [done|lia|done]].
  apply M_bind_inv in E as (sock & n1 & E1 & E). destruct (socket_is_valid sock) eqn:Ev; cbn [negb] in E.
  2: { apply connect_open in E1 as [[_ Ho]|(? & _)]; [|congruence]. mret_eq. split_and!; [done|lia|done]. }
  apply connect_open in E1 as [[-> _]|(_ & Hn & Ho)]; [done|].
  assert (forall k k' : N, ws_open k = {[sock]} ∪ ws_open n -> ws_open k' = ws_open k ∖ {[sock]} ->
    ws_open k' = ws_open n) as Hback.
  { intros k k' -> ->. clear -Hn. set_solver. }
  apply M_bind_inv in E as (aerr & n2 & E2 & E).
  assert (ws_open n2 = ws_open n1) as Ho2.
  { destruct (auth_is_enabled token); [by eapply keeps_open_auth_client|by mret_eq]. }
  rewrite Ho in Ho2. destruct (negb (error_code_eqb _ _)).
  { apply M_bind_inv in E as ([] & n3 & E3%close_open & E); [|done]. mret_eq.
    split; [by apply (Hback n2)|]. split; [lia|done]. }
  apply M_bind_inv in E as (ok & n3 & E3%keeps_open_send_bytes & E). rewrite Ho2 in E3. destruct (negb ok).
  { apply M_bind_inv in E as ([] & n4 & E4%close_open & E); [|done]. mret_eq.
    split; [by apply (Hback n3)|]. split; [lia|done]. }
  apply recv_device_list_open in E as (Ho4 & ? & ?); [|done]. split; [by apply (Hback n3)|done].
Qed.

(** asking a server for its devices stores no more of them than the caller has
    room for, whatever number the server announces, stores none when it reports an
    error, and leaves no descriptor behind on any path. *)
Theorem list_devices_bounded token ip sp mx n e devs n' :
  remote_server_list_devices token ip sp mx n = ((e, devs), n') ->
  ws_open n' = ws_open n /\ Z.of_nat (length devs) <= Z.max 0 mx /\ (e <> ERR_SUCCESS -> devs = []).
Proof. apply list_devices_open. Qed.
End listing.

(** ** The invariant *)

Section invariant.
  Context {N D : Type} `{WinsockLaws N} `{VhciDriverLaws D}.
  Implicit Types (n : N) (dd : D) (O : gset Z).

Definition rd_sockets (l : remote_device_list) : list Z := rd_socket <$> rl_devices l.
Definition rd_ports (l : remote_device_list) : list Z := rd_vhci_port <$> rl_devices l.

(** A device of the list owns an open socket and a connected port. *)
Definition device_ok O (c : vhci_context) (d : remote_device) : Prop :=
  socket_is_valid (rd_socket d) = true /\ rd_socket d ∉ O /\ rd_vhci d = true /\
  in_range (rd_vhci_port d) /\ port_in_state c (rd_vhci_port d) VHCI_PORT_CONNECTED = true.

(** [O]: the descriptors the rest of the program has open. *)
Record rl_inv O (l : remote_device_list) (c : vhci_context) n : Prop := {
  ri_init : rl_initialized l = true;
  ri_vhci : vhci_inv c;
  ri_count : rl_count l = Z.of_nat (length (rl_devices l));
  ri_locs : NoDup (rd_loc <$> rl_devices l);
  ri_socks : NoDup (rd_sockets l);
  ri_ports : NoDup (rd_ports l);
  ri_devices : Forall (device_ok O c) (rl_devices l);
  ri_open : ws_open n = O ∪ list_to_set (rd_sockets l);
  ri_free : forall j, in_range j -> j ∉ rd_ports l -> get_port c j = Some (port_free j);
}.

(** ** Lemmas: one device *)

Lemma attach_port_spec c d ip sp dd e r d1 dd' :
  vhci_inv c -> attach_port (Some c) d ip sp dd = ((e, r, d1), dd') ->
  exists c1 q, r = Some c1 /\ vhci_kept c c1 dd dd' /\ q = vhci_find_free_port (Some c) /\
  d1 = rd_set d (rd_socket d) (rd_device_info d) q (rd_state d) (rd_running d) /\
  (e = ERR_VHCI_NO_FREE_PORT /\ q = -1 /\ c1 = c /\ dd' = dd \/
   in_range q /\ get_port c q = Some (port_free q) /\
   exists st, let p := port_connecting (port_free q) (rd_device_info d) (Some ip) sp in
     c1 = set_port c q (port_set_state p st) /\
     (e = ERR_SUCCESS /\ st = VHCI_PORT_CONNECTED /\
        vd_requests dd' = vd_requests dd ++ [PLUGIN_HARDWARE (rd_socket d) (vp_devid p)] \/
      (e = ERR_VHCI_NOT_FOUND \/ e = ERR_VHCI_ATTACH_FAILED) /\ st = VHCI_PORT_ERROR)).
Proof.
  intros Hc E. unfold attach_port in E. cbv zeta in E.
  pose proof (find_free_spec (Z.to_nat VHCI_MAX_PORTS) c 0 ltac:(lia)) as Hf.
  assert (vhci_find_free_port (Some c) = find_free_loop (Z.to_nat VHCI_MAX_PORTS) c 0) as Eq.
  { unfold vhci_find_free_port. by rewrite (vi_init c Hc), (vi_max c Hc). }
  rewrite <- Eq in Hf. clear Eq. destruct (_ <? 0) eqn:En; bool_to_prop.
  { mret_eq. eexists _, _. split; [done|]. split; [done|]. split; [done|]. split; [done|]. left.
    destruct Hf as [[? _]|[? _]]; [done|lia]. }
  destruct Hf as [[? _]|(Hr & Hs & _)]; [lia|].
  assert (in_range (vhci_find_free_port (Some c))) as Hq.
  { unfold in_range, VHCI_MAX_PORTS in *. simpl in Hr. lia. }
  destruct (get_port_ok c _ Hc Hq) as (p & Ep & Hp). rewrite (in_state_get _ _ _ _ Ep) in Hs.
  pose proof (port_free_true _ _ Hp Hs) as ->.
  apply M_bind_inv in E as ([e1 r1] & d2 & E1 & E). mret_eq.
  apply vhci_attach_cases in E1 as (c1 & -> & K & E1); [|done].
  exists c1, (vhci_find_free_port (Some c)). split; [done|]. split; [done|]. split; [done|]. split; [done|].
  right. split; [done|]. split; [done|].
  destruct E1 as [(_ & ? & _)|(p & Ep' & _ & [(_ & Hne & _)|(-> & E1)])]; [done|by simplify_eq|].
  destruct E1 as [(-> & _ & _ & ->)|(_ & Hreq & [(-> & ->)|(-> & ->)])];
    eexists; (split; [done|]); auto.
Qed.

Lemma free_device_spec c d n dd r n' dd' :
  vhci_inv c -> rd_vhci d = true -> (0 <= rd_vhci_port d -> in_range (rd_vhci_port d)) ->
  free_remote_device (Some c) (Some d) (n, dd) = (r, (n', dd')) ->
  exists c', r = Some c' /\ vhci_kept c c' dd dd' /\
  ws_open n' = (if socket_is_valid (rd_socket d) then ws_open n ∖ {[rd_socket d]} else ws_open n) /\
  c' = (if rd_vhci_port d >=? 0 then set_port c (rd_vhci_port d) (port_free (rd_vhci_port d)) else c) /\
  (forall p, get_port c (rd_vhci_port d) = Some p -> in_range (rd_vhci_port d) ->
     port_is_free p = false -> is_Some (vc_driver_handle c) ->
     vd_requests dd' = vd_requests dd ++ [UNPLUG_HARDWARE (rd_vhci_port d)]).
Proof.
  intros Hc Hv Hr E. unfold free_remote_device in E.
  assert (exists x, remote_device_stop_forwarding (Some d) = Some x /\ rd_socket x = rd_socket d /\
    rd_vhci x = rd_vhci d /\ rd_vhci_port x = rd_vhci_port d) as (x & Ex & Es & Ev & Ep).
  { simpl. eexists. split; [done|]. by destruct (negb _). }
  rewrite Ex, Es, Ev, Ep in E. clear x Ex Es Ev Ep.
  apply M_bind_inv in E as ([] & [n1 dd1] & E1 & E).
  assert (dd1 = dd /\ ws_open n1 =
    if socket_is_valid (rd_socket d) then ws_open n ∖ {[rd_socket d]} else ws_open n) as [-> <-].
  { destruct (socket_is_valid (rd_socket d)) eqn:Es; [|by mret_eq].
    apply lift_l_inv in E1 as (n2 & E1 & ?). simplify_eq. split; [done|]. by eapply close_open. }
  rewrite Hv in E. cbn [andb] in E. destruct (_ >=? 0) eqn:Ep.
  2: { mret_eq. exists c. split; [done|]. split; [done|]. split; [done|]. split; [done|].
       intros p _ Hi. unfold in_range in Hi. rewrite Z.geb_leb in Ep. bool_to_prop. lia. }
  rewrite Z.geb_leb in Ep. bool_to_prop. apply M_bind_inv in E as ([e2 v2] & [n2 dd2] & E2 & E). mret_eq.
  apply lift_r_inv in E2 as (dd3 & E2 & ?). simplify_eq.
  apply detach_cases in E2 as (c1 & -> & K & [(_ & Hn & _)|(-> & _ & -> & q & Eq & Rq)]); [by destruct Hn; auto| |done].
  eexists. split; [done|]. split; [done|]. split; [done|]. split; [done|].
  intros p Epp _ Hnf [h Eh]. rewrite Rq. rewrite Eq in Epp. simplify_eq. by rewrite Hnf, Eh.
Qed.

(** The device that [remote_device_connect] puts at the head of the list. *)
Definition connected_device (loc : Z) (ip : bytes) (sp : Z) (b : bytes) (sock : Z)
    (info : usbip_usb_device) (port : Z) : remote_device := {|
  rd_loc := loc; rd_server_ip := copy_str ip 64; rd_server_port := sp; rd_socket := sock;
  rd_device_info := info; rd_busid := copy_str b USBIP_BUSID_MAX; rd_vhci := true;
  rd_vhci_port := port; rd_state := REMOTE_DEV_STATE_CONNECTED; rd_running := false; rd_seqnum := 1 |}.

Definition add_device (d : remote_device) (l : remote_device_list) : remote_device_list := {|
  rl_devices := d :: rl_devices l; rl_count := rl_count l + 1; rl_initialized := rl_initialized l |}.

(** A failure frees the device: the port it had taken is given back. *)
Lemma connect_failed (err : error_code) (list : ptr remote_device_list) c c1 d n dd x n' dd' q :
  vhci_inv c1 -> rd_vhci d = true -> rd_vhci_port d = q ->
  (q = -1 /\ c1 = c \/
   in_range q /\ get_port c q = Some (port_free q) /\ exists p, c1 = set_port c q p) ->
  (free_remote_device (Some c1) (Some d) ≫= fun v => mret (err, list, v, NULL : ptr Z)) (n, dd) =
    (x, (n', dd')) ->
  x = (err, list, Some c, NULL) /\ vhci_kept c1 c dd dd' /\
  ws_open n' = (if socket_is_valid (rd_socket d) then ws_open n ∖ {[rd_socket d]} else ws_open n).
Proof.
  intros Hc Hv <- Hq E. apply M_bind_inv in E as (v & [n1 dd1] & E1 & E). mret_eq.
  apply free_device_spec in E1 as (c' & -> & K & -> & Ec & _); [|done|done|].
  2: { intros ?. destruct Hq as [[? _]|[? _]]; [lia|done]. }
  assert (c' = c) as ->; [|done]. rewrite Ec. destruct Hq as [[-> ->]|(Hr & Hg & p & ->)]; [done|].
  rewrite (proj2 (Z.geb_le _ _)) by apply Hr. rewrite set_port_twice. by apply set_port_same.
Qed.

Lemma connect_cases alloc token l c ip sp b n dd e r v out n' dd' :
  vhci_inv c ->
  remote_device_connect alloc token (Some l) (Some c) (Some ip) sp (Some b) (n, dd) =
    ((e, r, v, out), (n', dd')) ->
  exists c', v = Some c' /\ vhci_kept c c' dd dd' /\
  (e <> ERR_SUCCESS /\ r = Some l /\ c' = c /\ ws_open n' = ws_open n /\ out = NULL \/
   e = ERR_SUCCESS /\ exists loc sock info q, let dv := connected_device loc ip sp b sock info q in
     let p := port_connecting (port_free q) info (Some ip) sp in
     alloc = Some loc /\ out = Some loc /\ r = Some (add_device dv l) /\
     socket_is_valid sock = true /\ sock ∉ ws_open n /\ ws_open n' = {[sock]} ∪ ws_open n /\
     q = vhci_find_free_port (Some c) /\ in_range q /\ get_port c q = Some (port_free q) /\
     c' = set_port c q (port_set_state p VHCI_PORT_CONNECTED) /\
     vd_requests dd' = vd_requests dd ++ [PLUGIN_HARDWARE sock (vp_devid p)]).
Proof.
  intros Hc E. unfold remote_device_connect in E. destruct alloc as [loc|]; cbn [create_remote_device fmap option_fmap option_map] in E.
  2: { mret_eq. exists c. split; [done|]. split; [done|]. by left. }
  cbv zeta in E. rewrite bool_decide_true in E by done.
  apply M_bind_inv in E as (sock & [n1 dd1] & E1 & E). apply lift_l_inv in E1 as (n2 & E1 & ?). simplify_eq.
  destruct (socket_is_valid sock) eqn:Es; cbn [negb] in E.
  2: { eapply (connect_failed _ _ c) in E as ([= -> -> -> ->] & K & Ho); [|done..|by left]. simpl in Ho.
       rewrite Es in Ho. apply connect_open in E1 as [[_ Ho1]|(? & _)]; [|congruence].
       exists c. split; [done|]. split; [done|]. left. split_and!; [done..| |done]. by rewrite Ho. }
  apply connect_open in E1 as [[-> _]|(_ & Hn & Ho1)]; [done|].
  apply M_bind_inv in E as (res & [n3 dd3] & E2 & E). apply lift_l_inv in E2 as (n4 & E2 & ?). simplify_eq.
  apply import_open in E2 as Ho2; [|done]. simpl in Ho2.
  destruct res as [err|info].
  { eapply (connect_failed _ _ c) in E as ([= -> -> -> ->] & K & Ho); [|done..|by left]. simpl in Ho.
    rewrite Es in Ho. exists c. split; [done|]. split; [done|]. left.
    split; [by eapply import_error|]. split_and!; [done..| |done].
    rewrite Ho. destruct Ho2 as [->|[_ ->]]; rewrite Ho1; clear -Hn; set_solver. }
  destruct Ho2 as [Ho2|[[? [=]] _]]. rewrite Ho1 in Ho2. clear Ho1.
  apply M_bind_inv in E as ([[err v1] d1] & [n5 dd5] & E3 & E). apply lift_r_inv in E3 as (dd6 & E3 & ?). simplify_eq.
  apply attach_port_spec in E3 as (c1 & q & -> & K & Eq & -> & E3); [|done]. subst q. simpl in E3.
  destruct (error_code_eqb err ERR_SUCCESS) eqn:Ee; cbn [negb] in E.
  - apply error_code_eqb_true in Ee as ->. mret_eq.
    destruct E3 as [(? & _)|(Hr & Hg & st & -> & [(_ & -> & Hq)|([?|?] & _)])]; [done| |done|done].
    eexists. split; [done|]. split; [done|]. right. split; [done|].
    exists loc, sock, info, (vhci_find_free_port (Some c)). split_and!; done.
  - eapply (connect_failed _ _ c) in E as ([= -> -> -> ->] & K2 & Ho); [|apply K|done|done|].
    2: { simpl. destruct E3 as [(_ & -> & -> & _)|(Hr & Hg & st & -> & _)]; [by left|right].
         split; [done|]. split; [done|]. by eexists. }
    simpl in Ho. rewrite Es in Ho. exists c. split; [done|]. split; [by eapply kept_trans|]. left.
    split; [intros ->; by vm_compute in Ee|]. split_and!; [done..| |done].
    rewrite Ho, Ho2. clear -Hn. set_solver.
Qed.

Lemma connected_ports_used O l c n : rl_inv O l c n ->
  forall q, q ∈ rd_ports l -> in_range q /\ port_in_state c q VHCI_PORT_CONNECTED = true.
Proof.
  intros Hi q Hq. apply list_elem_of_fmap in Hq as (d & -> & Hd).
  pose proof (proj1 (Forall_forall _ _) (ri_devices _ _ _ _ Hi) d Hd) as (_ & _ & _ & ? & ?). done.
Qed.

Lemma device_ok_set O c d q p :
  vhci_inv c -> in_range q -> rd_vhci_port d <> q -> device_ok O c d -> device_ok O (set_port c q p) d.
Proof.
  intros Hc Hq Hne (? & ? & ? & Hr & Hs). split_and!; [done..|]. unfold port_in_state in *.
  rewrite get_set_port by (done || apply Hr). by rewrite decide_False.
Qed.

Lemma add_device_inv O l c n n' dv q p :
  rl_inv O l c n -> rd_loc dv ∉ (rd_loc <$> rl_devices l) -> rd_vhci dv = true -> rd_vhci_port dv = q ->
  in_range q -> get_port c q = Some (port_free q) -> vp_state p = VHCI_PORT_CONNECTED ->
  vhci_inv (set_port c q p) -> socket_is_valid (rd_socket dv) = true ->
  rd_socket dv ∉ ws_open n -> ws_open n' = {[rd_socket dv]} ∪ ws_open n ->
  rl_inv O (add_device dv l) (set_port c q p) n'.
Proof.
  intros Hi Hloc Hv <- Hr Hg Hp Hc' Hsv Hsn Ho. pose proof (connected_ports_used _ _ _ _ Hi) as Hu.
  pose proof (ri_open _ _ _ _ Hi) as Hon. destruct Hi as [G1 G2 G3 G4 G5 G6 G7 G8 G9].
  assert (rd_vhci_port dv ∉ rd_ports l) as Hnp.
  { intros [_ Hs]%Hu. rewrite (in_state_get _ _ _ _ Hg) in Hs. done. }
  assert (rd_socket dv ∉ rd_sockets l /\ rd_socket dv ∉ O) as [Hns HnO].
  { rewrite Hon in Hsn. clear -Hsn. set_solver. }
  split; simpl; try done.
  - rewrite G3. lia.
  - by apply NoDup_cons.
  - by apply NoDup_cons.
  - by apply NoDup_cons.
  - constructor.
    + split_and!; [done..|]. unfold port_in_state. rewrite get_set_port by (done || apply Hr).
      rewrite decide_True by done. by apply bool_decide_eq_true.
    + apply (Forall_impl_in _ _ _ G7). intros d Hd. apply device_ok_set; [done..|].
      intros E. apply Hnp. rewrite <- E. by apply list_elem_of_fmap_2.
  - rewrite Ho, G8. clear. set_solver.
  - intros j Hj Hn. rewrite get_set_port by (done || apply Hj).
    apply not_elem_of_cons in Hn as [? ?]. rewrite decide_False by done. by apply G9.
Qed.

Lemma remove_device_inv O l c n n' l1 d l2 :
  rl_inv O l c n -> rl_devices l = l1 ++ d :: l2 ->
  let q := rd_vhci_port d in
  vhci_inv (set_port c q (port_free q)) -> ws_open n' = ws_open n ∖ {[rd_socket d]} ->
  rl_inv O {| rl_devices := l1 ++ l2; rl_count := rl_count l - 1; rl_initialized := rl_initialized l |}
    (set_port c q (port_free q)) n'.
Proof.
  intros [G1 G2 G3 G4 G5 G6 G7 G8 G9] El q Hc' Ho.
  unfold rd_sockets, rd_ports in *. rewrite El in *. rewrite !fmap_app, fmap_cons in *.
  apply Forall_app in G7 as [F1 [(? & HO & _ & Hr & _) F2]%Forall_cons].
  pose proof (NoDup_drop _ _ _ G6) as G6'.
  assert (forall x, x ∈ (rd_vhci_port <$> l1) ++ (rd_vhci_port <$> l2) -> x <> q) as Hne.
  { rewrite <- Permutation_middle, NoDup_cons in G6. intros x Hx ->. by destruct G6. }
  split; unfold rd_sockets, rd_ports; simpl; rewrite ?fmap_app; try done.
  - rewrite G3, !length_app. simpl. lia.
  - by eapply NoDup_drop.
  - by eapply NoDup_drop.
  - assert (Forall (device_ok O c) (l1 ++ l2)) as F by (by apply Forall_app).
    apply (Forall_impl_in _ _ _ F). intros x Hx. apply device_ok_set; [done..|]. apply Hne.
    rewrite <- fmap_app. by apply list_elem_of_fmap_2.
  - rewrite Ho, G8. rewrite <- Permutation_middle, NoDup_cons in G5. destruct G5 as [Hn _].
    rewrite !list_to_set_app_L, list_to_set_cons. apply not_elem_of_app in Hn as [Hn1 Hn2].
    clear -Hn1 Hn2 HO. set_solver.
  - intros j Hj Hn. rewrite get_set_port by (done || apply Hj).
    destruct (decide (q = j)) as [->|Hqj]; [done|]. apply G9; [done|].
    rewrite not_elem_of_app in *. rewrite not_elem_of_cons. destruct Hn as [? ?].
    split_and!; [done| |done]. intros ->. by apply Hqj.
Qed.

Lemma disconnect_cases O l c loc n dd e r v n' dd' :
  rl_inv O l c n ->
  remote_device_disconnect (Some l) (Some c) (Some loc) (n, dd) = ((e, r, v), (n', dd')) ->
  exists l' c', r = Some l' /\ v = Some c' /\ rl_inv O l' c' n' /\ vhci_kept c c' dd dd' /\
  (e = ERR_NOT_FOUND /\ loc ∉ (rd_loc <$> rl_devices l) /\ l' = l /\ c' = c /\ n' = n /\ dd' = dd \/
   e = ERR_SUCCESS /\ exists l1 d l2, rl_devices l = l1 ++ d :: l2 /\ rd_loc d = loc /\
     l' = {| rl_devices := l1 ++ l2; rl_count := rl_count l - 1; rl_initialized := rl_initialized l |} /\
     c' = set_port c (rd_vhci_port d) (port_free (rd_vhci_port d)) /\
     ws_open n' = ws_open n ∖ {[rd_socket d]} /\
     vd_requests dd' = vd_requests dd ++ [UNPLUG_HARDWARE (rd_vhci_port d)]).
Proof.
  intros Hi E. unfold remote_device_disconnect in E.
  destruct (find_first (device_at loc) (rl_devices l)) as [d|] eqn:Ef.
  2: { mret_eq. exists l, c. split; [done|]. split; [done|]. split; [done|].
       split; [split_and!; [apply Hi|done..]|]. left. split; [done|]. split; [|done].
       apply find_first_None in Ef. rewrite Forall_forall in Ef.
       intros (d & -> & Hd)%list_elem_of_fmap. apply Ef in Hd. unfold device_at in Hd.
       by rewrite Z.eqb_refl in Hd. }
  apply find_first_split in Ef as (l1 & l2 & El & F1 & Hd).
  cbv zeta in E. rewrite El, remove_first_split in E by done.
  apply Z.eqb_eq in Hd. apply M_bind_inv in E as (w & [n1 dd1] & E1 & E). mret_eq.
  assert (device_ok O c d) as (Hs & HO & Hv & Hr & Hst).
  { pose proof (ri_devices _ _ _ _ Hi) as F. rewrite El in F. rewrite Forall_forall in F. apply F, elem_of_mid. }
  apply free_device_spec in E1 as (c' & -> & K & Ho & -> & Hreq); [|apply Hi|done|done].
  rewrite Hs in Ho. rewrite (proj2 (Z.geb_le _ _)) in * by apply Hr.
  eexists _, _. split; [done|]. split; [done|]. split; [by eapply remove_device_inv; [..|apply K|]|].
  split; [done|]. right. split; [done|]. exists l1, d, l2. split_and!; try done.
  destruct (get_port_ok c _ (ri_vhci _ _ _ _ Hi) Hr) as (p & Ep & _).
  rewrite (in_state_get _ _ _ _ Ep) in Hst. bool_to_prop.
  apply (Hreq p); [done|done|unfold port_is_free; by rewrite Hst|].
  destruct (vc_driver_handle c) eqn:Eh; [done|].
  pose proof (vi_driver _ (ri_vhci _ _ _ _ Hi) Eh (rd_vhci_port d)) as Hno.
  rewrite (in_state_get _ _ _ _ Ep), Hst in Hno. done.
Qed.

Lemma disconnect_all_cases O fuel l c n dd l' v n' dd' :
  rl_inv O l c n -> (length (rl_devices l) <= fuel)%nat ->
  disconnect_all_loop fuel l (Some c) (n, dd) = ((l', v), (n', dd')) ->
  exists c', v = Some c' /\ rl_inv O l' c' n' /\ vhci_kept c c' dd dd' /\ rl_devices l' = [] /\
    vd_requests dd' = vd_requests dd ++ (UNPLUG_HARDWARE <$> rd_ports l).
Proof.
  revert l c n dd. induction fuel as [|fuel IH]; intros l c n dd Hi Hf E; cbn [disconnect_all_loop] in E.
  { mret_eq. destruct (rl_devices l') eqn:El; [|simpl in Hf; lia]. exists c. split; [done|]. split; [done|].
    split; [split_and!; [apply Hi|done..]|]. unfold rd_ports. rewrite El. by rewrite app_nil_r. }
  destruct (rl_devices l) as [|d ds] eqn:El.
  { mret_eq. exists c. split; [done|]. split; [done|].
    split; [split_and!; [apply Hi|done..]|]. unfold rd_ports. rewrite El. by rewrite app_nil_r. }
  apply M_bind_inv in E as ([[e r] v1] & [n1 dd1] & E1 & E).
  apply (disconnect_cases _ _ _ _ _ _ _ _ _ _ _ Hi) in E1 as (l1 & c1 & -> & -> & Hi1 & K1 & E1).
  cbn [default id] in E.
  destruct E1 as [(_ & Hn & _)|(_ & l0 & d0 & l2 & El1 & Hd0 & -> & Hc1 & _ & Hreq)].
  { destruct Hn. rewrite El. by left. }
  pose proof (ri_locs _ _ _ _ Hi) as Hnd. rewrite El in El1, Hnd.
  assert (l0 = []) as ->.
  { destruct l0 as [|y l0]; [done|]. simplify_eq/=. apply NoDup_cons in Hnd as [Hnd _]. destruct Hnd.
    rewrite fmap_app, fmap_cons, Hd0. auto with usbip. }
  simplify_eq/=.
  apply IH in E as (c' & -> & Hi' & K & Hnil & Hreq'); [|done|simpl in *; lia].
  exists c'. split_and!; try done; [by eapply kept_trans|].
  rewrite Hreq', Hreq. unfold rd_ports. rewrite El. simpl. by rewrite <- app_assoc.
Qed.

(** ** What the client does with the list *)

(** What a device's own thread, and those that start and stop it, do to it. *)
Inductive forwards : remote_device -> remote_device -> Prop :=
  | fw_start created d e d' :
      remote_device_start_forwarding created (Some d) = (e, Some d') -> forwards d d'
  | fw_stop d d' : remote_device_stop_forwarding (Some d) = Some d' -> forwards d d'
  | fw_enter d : forwards d (forward_thread_enter d).

Definition remote_state : Type := remote_device_list * vhci_context * (N * D).

(** [rs_network]: traffic on the connections, and the connections made to list a
    server's devices, which are closed again. *)
Inductive remote_step (token : ptr bytes) : remote_state -> remote_state -> Prop :=
  | rs_connect alloc ip sp b l c s e l' c' out s' :
      (forall loc, alloc = Some loc -> loc ∉ (rd_loc <$> rl_devices l)) ->
      remote_device_connect alloc token (Some l) (Some c) (Some ip) sp (Some b) s =
        ((e, Some l', Some c', out), s') ->
      remote_step token (l, c, s) (l', c', s')
  | rs_disconnect loc l c s e l' c' s' :
      remote_device_disconnect (Some l) (Some c) (Some loc) s = ((e, Some l', Some c'), s') ->
      remote_step token (l, c, s) (l', c', s')
  | rs_disconnect_port port l c s e l' c' s' :
      remote_device_disconnect_port (Some l) (Some c) port s = ((e, Some l', Some c'), s') ->
      remote_step token (l, c, s) (l', c', s')
  | rs_disconnect_all l c s l' c' s' :
      remote_device_disconnect_all (Some l) (Some c) s = ((Some l', Some c'), s') ->
      remote_step token (l, c, s) (l', c', s')
  | rs_forward l c s l1 d d' l2 :
      rl_devices l = l1 ++ d :: l2 -> forwards d d' ->
      remote_step token (l, c, s)
        ({| rl_devices := l1 ++ d' :: l2; rl_count := rl_count l; rl_initialized := rl_initialized l |}, c, s)
  | rs_network l c n n' dd :
      ws_open n' = ws_open n -> remote_step token (l, c, (n, dd)) (l, c, (n', dd)).

Definition remote_inv O (s : remote_state) : Prop := rl_inv O s.1.1 s.1.2 s.2.1.

Lemma forwards_same d d' : forwards d d' ->
  rd_loc d' = rd_loc d /\ rd_socket d' = rd_socket d /\ rd_vhci d' = rd_vhci d /\
  rd_vhci_port d' = rd_vhci_port d.
Proof.
  intros [created x e x' E|x x' E|x]; [| |done]; simpl in E.
  - destruct (rd_running x); [by simplify_eq|]. by destruct (negb created); simplify_eq.
  - destruct (negb _); by simplify_eq.
Qed.

(** Every step keeps the invariant, and the controller on its driver. *)
Lemma remote_step_keeps token O x y : remote_step token x y -> remote_inv O x ->
  remote_inv O y /\ vhci_kept x.1.2 y.1.2 x.2.2 y.2.2.
Proof.
  intros Hs. unfold remote_inv. destruct Hs as [alloc ip sp b l c [n dd] e l' c' out [n' dd'] Hfresh E
    |loc l c [n dd] e l' c' [n' dd'] E|port l c [n dd] e l' c' [n' dd'] E|l c [n dd] l' c' [n' dd'] E
    |l c s l1 d d' l2 El Hf|l c n n' dd Ho]; simpl; intros Hi.
  - apply connect_cases in E as (c1 & [= <-] & K & E); [|apply Hi]. split; [|done].
    destruct E as [(_ & [= <-] & <- & Ho & _)|(_ & loc & sock & info & q & Hl & _ & [= ->] & Hs & Hn & Ho & _ & Hr & Hg & -> & _)].
    + destruct Hi. split; try done. by rewrite Ho.
    + eapply add_device_inv; try done; [by apply Hfresh|apply K].
  - by apply (disconnect_cases _ _ _ _ _ _ _ _ _ _ _ Hi) in E as (? & ? & [= ->] & [= ->] & ? & ? & _).
  - unfold remote_device_disconnect_port in E.
    destruct (remote_device_find_by_port _ _); [|mret_eq; split; [done|split; [apply Hi|done]]].
    by apply (disconnect_cases _ _ _ _ _ _ _ _ _ _ _ Hi) in E as (? & ? & [= ->] & [= ->] & ? & ? & _).
  - unfold remote_device_disconnect_all in E. rewrite (ri_init _ _ _ _ Hi) in E. cbn [negb] in E.
    apply M_bind_inv in E as ([l1 c1] & [n1 dd1] & E1 & E). mret_eq.
    by apply (disconnect_all_cases _ _ _ _ _ _ _ _ _ _ Hi) in E1 as (? & [= ->] & ? & ? & _).
  - split; [|split; [apply Hi|done]].
    apply forwards_same in Hf as (F1 & F2 & F3 & F4). destruct Hi as [G1 G2 G3 G4 G5 G6 G7 G8 G9].
    unfold rd_sockets, rd_ports in *. rewrite El in *.
    split; unfold rd_sockets, rd_ports; simpl; rewrite ?fmap_app, ?fmap_cons, ?F1, ?F2, ?F4, <- ?fmap_cons, <- ?fmap_app;
      try done.
    + by rewrite G3, !length_app.
    + apply Forall_app in G7 as [? [? ?]%Forall_cons]. apply Forall_app. split; [done|].
      apply Forall_cons. split; [|done]. unfold device_ok. by rewrite F2, F3, F4.
  - split; [|split; [apply Hi|done]]. destruct Hi. split; try done. by rewrite Ho.
Qed.

Lemma remote_steps_keeps token O x y : rtc (remote_step token) x y -> remote_inv O x ->
  remote_inv O y /\ vhci_kept x.1.2 y.1.2 x.2.2 y.2.2.
Proof.
  induction 1 as [x|x y z Hxy _ IH]; intros Hx; [split; [done|split; [apply Hx|done]]|].
  apply (remote_step_keeps _ O) in Hxy as [Hy K1]; [|done]. destruct (IH Hy) as [Hz K2].
  split; [done|]. by eapply kept_trans.
Qed.

Lemma list_init_inv lx l c n :
  remote_device_list_init 0 (Some lx) = (ERR_SUCCESS, Some l) -> vhci_inv c ->
  (forall j, in_range j -> get_port c j = Some (port_free j)) -> rl_inv (ws_open n) l c n.
Proof.
  intros E Hc Hf. simpl in E. simplify_eq.
  split; unfold rd_sockets, rd_ports; simpl; try done; [apply NoDup_nil_2..| |auto].
  clear. set_solver.
Qed.

(** ** Properties *)

Lemma connect_spec O token loc l c ip sp b n dd e r v out n' dd' :
  rl_inv O l c n -> loc ∉ (rd_loc <$> rl_devices l) ->
  remote_device_connect (Some loc) token (Some l) (Some c) (Some ip) sp (Some b) (n, dd) =
    ((e, r, v, out), (n', dd')) ->
  exists l' c', r = Some l' /\ v = Some c' /\ vhci_kept c c' dd dd' /\ rl_inv O l' c' n' /\
  (e <> ERR_SUCCESS /\ l' = l /\ c' = c /\ ws_open n' = ws_open n /\ out = NULL \/
   e = ERR_SUCCESS /\ exists sock info q,
     l' = add_device (connected_device loc ip sp b sock info q) l /\ out = Some loc /\
     sock ∉ ws_open n /\ ws_open n' = {[sock]} ∪ ws_open n /\
     (exists devid, vd_requests dd' = vd_requests dd ++ [PLUGIN_HARDWARE sock devid]) /\
     q = vhci_find_free_port (Some c) /\ vhci_is_port_connected (Some c') q = true /\
     forall j, 0 <= j -> j <> q -> get_port c' j = get_port c j).
Proof.
  intros Hi Hloc E. apply connect_cases in E as (c' & -> & K & E); [|apply Hi].
  destruct E as [(He & -> & -> & Ho & ->)|(-> & loc' & sock & info & q & [= <-] & -> & -> & Hs & Hn & Ho & Hq & Hr & Hg & -> & Hreq)].
  - exists l, c. split; [done|]. split; [done|]. split; [done|]. split; [|by left].
    destruct Hi. split; try done. by rewrite Ho.
  - eexists _, _. split; [done|]. split; [done|]. split; [done|].
    split; [by eapply add_device_inv; try done; apply K|]. right. split; [done|].
    exists sock, info, q. split_and!; try done.
    + by eexists.
    + destruct K as [K _]. unfold vhci_is_port_connected. rewrite (vi_init _ K). cbn [negb].
      rewrite (proj2 (port_in_range _ _ K) Hr). unfold port_in_state.
      rewrite get_set_port by (apply Hi || apply Hr || done). by rewrite decide_True.
    + intros j Hj Hne. rewrite get_set_port by (apply Hi || done). by rewrite decide_False.
Qed.

(** C12: [remote_device_connect] is all or nothing.  When it fails, at whichever step
    and with whatever error, the list, the controller's ports and the set of open
    descriptors are exactly what they were; when it succeeds the new device is at
    the head of the list, owns one new descriptor and the lowest free port, which
    is connected, and every other port is as it was.  The invariant of the list
    holds either way. *)
Theorem connect_all_or_nothing O token loc l c ip sp b n dd e r v out n' dd' :
  rl_inv O l c n -> loc ∉ (rd_loc <$> rl_devices l) ->
  remote_device_connect (Some loc) token (Some l) (Some c) (Some ip) sp (Some b) (n, dd) =
    ((e, r, v, out), (n', dd')) ->
  exists l' c', r = Some l' /\ v = Some c' /\ rl_inv O l' c' n' /\
  (e <> ERR_SUCCESS /\ l' = l /\ c' = c /\ ws_open n' = ws_open n /\ out = NULL \/
   e = ERR_SUCCESS /\ exists sock info q,
     l' = add_device (connected_device loc ip sp b sock info q) l /\ out = Some loc /\
     sock ∉ ws_open n /\ ws_open n' = {[sock]} ∪ ws_open n /\
     q = vhci_find_free_port (Some c) /\ vhci_is_port_connected (Some c') q = true /\
     forall j, 0 <= j -> j <> q -> get_port c' j = get_port c j).
Proof.
  intros Hi Hl E. destruct (connect_spec _ _ _ _ _ _ _ _ _ _ _ _ _ _ _ _ Hi Hl E)
    as (l' & c' & -> & -> & _ & Hi' & Hc).
  exists l', c'. split_and!; [done..|]. destruct Hc as [?|(-> & sock & info & q & ? & ? & ? & ? & _ & ?)]; [by left|].
  right. split; [done|]. by exists sock, info, q.
Qed.

(** a device that is connected and then disconnected leaves no trace: the list,
    every port and the open descriptors are what they were before, and the driver
    has been asked to plug the device in and to unplug its port. *)
Theorem connect_disconnect_roundtrip O token loc l c ip sp b n dd l1 c1 s1 e r v n' dd' :
  rl_inv O l c n -> loc ∉ (rd_loc <$> rl_devices l) ->
  remote_device_connect (Some loc) token (Some l) (Some c) (Some ip) sp (Some b) (n, dd) =
    ((ERR_SUCCESS, Some l1, Some c1, Some loc), s1) ->
  remote_device_disconnect (Some l1) (Some c1) (Some loc) s1 = ((e, r, v), (n', dd')) ->
  e = ERR_SUCCESS /\ r = Some l /\ v = Some c /\ ws_open n' = ws_open n /\
  exists sock devid, vd_requests dd' = vd_requests dd ++
    [PLUGIN_HARDWARE sock devid; UNPLUG_HARDWARE (vhci_find_free_port (Some c))].
Proof.
  intros Hi Hloc E E2. destruct s1 as [n1 dd1].
  apply connect_cases in E as (c1' & [= <-] & K & E); [|apply Hi].
  destruct E as [(? & _)|(_ & loc' & sock & info & q & [= <-] & _ & [= ->] & Hs & Hn & Ho & Hq & Hr & Hg & -> & Hreq)]; [done|].
  eapply disconnect_cases in E2 as (l' & c' & -> & -> & _ & _ & E2);
    [|by eapply add_device_inv; try done; apply K].
  destruct E2 as [(_ & Hno & _)|(-> & k1 & d & k2 & El & Hd & -> & -> & Ho2 & Hreq2)].
  { destruct Hno. simpl. by left. }
  assert (k1 = []) as ->.
  { destruct k1 as [|y k1]; [done|]. simpl in El. injection El as _ El. destruct Hloc.
    rewrite El, fmap_app, fmap_cons, <- Hd. auto with usbip. }
  simpl in El. injection El as <- <-. simpl in *. subst q. split_and!; [done| |..].
  - f_equal. destruct l. simpl. f_equal. lia.
  - f_equal. rewrite set_port_twice. by apply set_port_same.
  - rewrite Ho2, Ho. clear -Hn. set_solver.
  - eexists _, _. rewrite Hreq2, Hreq. by rewrite <- app_assoc.
Qed.

Lemma list_cleanup_cases O l c n dd r v n' dd' :
  rl_inv O l c n -> remote_device_list_cleanup (Some l) (Some c) (n, dd) = ((r, v), (n', dd')) ->
  exists l' c', r = Some l' /\ v = Some c' /\ vhci_kept c c' dd dd' /\ rl_devices l' = [] /\ rl_count l' = 0 /\
    rl_initialized l' = false /\ ws_open n' = O /\
    (forall j, in_range j -> get_port c' j = Some (port_free j)) /\
    vd_requests dd' = vd_requests dd ++ (UNPLUG_HARDWARE <$> rd_ports l).
Proof.
  intros Hi Ec. unfold remote_device_list_cleanup, remote_device_disconnect_all in Ec.
  rewrite (ri_init _ _ _ _ Hi) in Ec. cbn [negb] in Ec.
  apply M_bind_inv in Ec as ([r1 v1] & [n1 dd1] & E1 & Ec).
  apply M_bind_inv in E1 as ([l1 w1] & [n2 dd2] & E2 & E1).
  apply (disconnect_all_cases _ _ _ _ _ _ _ _ _ _ Hi) in E2 as (c' & -> & Hi' & K & Hnil & Hreq); [|done].
  mret_eq. eexists _, _. split; [done|]. split; [done|]. destruct Hi' as [G1 G2 G3 G4 G5 G6 G7 G8 G9].
  unfold rd_sockets, rd_ports in *. rewrite Hnil in *. simpl.
  split_and!; [apply K..|done|done|done| | |done].
  - rewrite G8. simpl. clear. set_solver.
  - intros j Hj. apply G9; [done|]. apply not_elem_of_nil.
Qed.

(** C13: over the life of a client, whatever is connected and disconnected and
    whichever calls fail: the open descriptors are those of the rest of the program
    and one for each device of the list, no two devices share a descriptor or a
    port, the port of every device is connected and every other port is free; and
    [remote_device_list_cleanup] then unplugs each device once, closes every
    connection and frees every port. *)
Theorem remote_devices_consistent token lx l0 g ctx c0 e g' d0 d1 n0 l c n dd r v n' dd' :
  remote_device_list_init 0 (Some lx) = (ERR_SUCCESS, Some l0) ->
  vhci_init true g (Some ctx) d0 = ((e, g', Some c0), d1) ->
  rtc (remote_step token) (l0, c0, (n0, d1)) (l, c, (n, dd)) ->
  remote_device_list_cleanup (Some l) (Some c) (n, dd) = ((r, v), (n', dd')) ->
  rl_inv (ws_open n0) l c n /\
  exists l' c', r = Some l' /\ v = Some c' /\ rl_devices l' = [] /\ rl_count l' = 0 /\
    rl_initialized l' = false /\ ws_open n' = ws_open n0 /\
    (forall j, in_range j -> get_port c' j = Some (port_free j)) /\
    vd_requests dd' = vd_requests dd ++ (UNPLUG_HARDWARE <$> rd_ports l).
Proof.
  intros El Ev Hs Ec. apply init_spec in Ev as (c0' & _ & [= <-] & Hc & _ & Hf & _).
  assert (remote_inv (ws_open n0) (l, c, (n, dd))) as Hi.
  { assert (remote_inv (ws_open n0) (l0, c0, (n0, d1))) as H00 by (by eapply list_init_inv).
    by apply (remote_steps_keeps _ _ _ _ Hs). }
  unfold remote_inv in Hi. simpl in Hi. split; [done|].
  apply (list_cleanup_cases _ _ _ _ _ _ _ _ _ Hi) in Ec as (l' & c' & ? & ? & _ & ?). by exists l', c'.
Qed.
End invariant.

(** ** Witnesses *)

Definition import_reply : bytes :=
  wire_encode {| hb_version := USBIP_PROTO_VERSION; hb_command := OP_REP_IMPORT; hb_status := USBIP_ST_OK |}
  ++ wire_encode example_remote.

Definition busy_reply : bytes :=
  wire_encode {| hb_version := USBIP_PROTO_VERSION; hb_command := OP_REP_IMPORT;
                 hb_status := USBIP_ST_DEV_BUSY |}.

(** The client has socket 5 open; the servers it connects to send [replies]. *)
Definition example_net (replies : list bytes) : Sim.net := {|
  Sim.n_conns := {[ 5 := {| Sim.c_in := []; Sim.c_pace := [] |} ]}; Sim.n_sent := ∅;
  Sim.n_backlog := []; Sim.n_peers := (fun r => {| Sim.c_in := r; Sim.c_pace := [] |}) <$> replies;
  Sim.n_datagrams := []; Sim.n_next := 6; Sim.n_clock := 0 |}.

Definition empty_list : remote_device_list :=
  {| rl_devices := []; rl_count := 0; rl_initialized := true |}.

Lemma no_device_inv n : rl_inv (ws_open n) empty_list example_ctx n.
Proof.
  apply (list_init_inv empty_list); [done|apply example_ctx_inv|].
  destruct (init_spec _ _ _ _ _ _ _ example_init_eq) as (c & _ & [= <-] & _ & _ & Hf & _). done.
Qed.

Definition example_connect (replies : list bytes) :=
  remote_device_connect (Some 4096) NULL (Some empty_list) (Some example_ctx) (Some (str "server")) 3240
    (Some (str "2-14")) (example_net replies, example_driver).

(** A refused import leaves everything as it was. *)
Lemma connect_all_or_nothing_witness :
  exists v out n' dd', example_connect [busy_reply] = ((ERR_DEVICE_BUSY, Some empty_list, v, out), (n', dd')) /\
    v = Some example_ctx /\ ws_open n' = {[5]}.
Proof.
  destruct (example_connect [busy_reply]) as [[[[e r] v] out] [n' dd']] eqn:E.
  destruct (connect_all_or_nothing {[5]} NULL 4096 empty_list example_ctx (str "server") 3240 (str "2-14")
    (example_net [busy_reply]) example_driver e r v out n' dd' (no_device_inv (example_net [busy_reply]))
    ltac:(apply not_elem_of_nil) E) as (l' & c' & -> & -> & _ & Hc).
  assert (e = ERR_DEVICE_BUSY) as ->.
  { change e with (e, Some l', Some c', out, (n', dd')).1.1.1.1. rewrite <- E. vm_compute. reflexivity. }
  destruct Hc as [(_ & -> & -> & Ho & _)|[? _]]; [|discriminate].
  exists (Some example_ctx), out, n', dd'. split; [reflexivity|]. split; [reflexivity|]. exact Ho.
Defined.

Lemma connect_disconnect_roundtrip_witness :
  exists l1 c1 s1, example_connect [import_reply] = ((ERR_SUCCESS, Some l1, Some c1, Some 4096), s1) /\
  (remote_device_disconnect (Some l1) (Some c1) (Some 4096) s1).1 =
    (ERR_SUCCESS, Some empty_list, Some example_ctx) /\
  ws_open (remote_device_disconnect (Some l1) (Some c1) (Some 4096) s1).2.1 = {[5]}.
Proof.
  destruct (example_connect [import_reply]) as [[[[e r] v] out] [n1 dd1]] eqn:E.
  pose proof (connect_cases _ _ _ _ _ _ _ _ _ _ _ _ _ _ _ example_ctx_inv E) as (c1 & -> & _ & Hc).
  assert (e = ERR_SUCCESS) as ->.
  { change e with (e, r, Some c1, out, (n1, dd1)).1.1.1.1. rewrite <- E. vm_compute. reflexivity. }
  destruct Hc as [[? _]|(_ & loc & sock & info & q & [= <-] & -> & -> & _)]; [done|].
  eexists _, _, _. split; [reflexivity|].
  destruct (remote_device_disconnect _ _ _ _) as [[[e2 r2] v2] [n2 dd2]] eqn:E2.
  destruct (connect_disconnect_roundtrip {[5]} NULL 4096 empty_list example_ctx (str "server") 3240
    (str "2-14") (example_net [import_reply]) example_driver _ _ _ e2 r2 v2 n2 dd2
    (no_device_inv (example_net [import_reply])) ltac:(apply not_elem_of_nil) E E2)
    as (-> & -> & -> & Ho & _).
  split; [reflexivity|]. exact Ho.
Defined.

(** A client connects a device and exits. *)
Lemma remote_devices_consistent_witness :
  exists l c s, rtc (remote_step NULL) (empty_list, example_ctx, (example_net [import_reply], example_driver))
    (l, c, s) /\ length (rl_devices l) = 1%nat /\
  ws_open (remote_device_list_cleanup (Some l) (Some c) s).2.1 = {[5]}.
Proof.
  destruct (example_connect [import_reply]) as [[[[e r] v] out] [n1 dd1]] eqn:E.
  pose proof (connect_cases _ _ _ _ _ _ _ _ _ _ _ _ _ _ _ example_ctx_inv E) as (c1 & -> & _ & Hc).
  assert (e = ERR_SUCCESS) as ->.
  { change e with (e, r, Some c1, out, (n1, dd1)).1.1.1.1. rewrite <- E. vm_compute. reflexivity. }
  destruct Hc as [[? _]|(_ & loc & sock & info & q & [= <-] & -> & -> & _)]; [done|].
  assert (rtc (remote_step NULL) (empty_list, example_ctx, (example_net [import_reply], example_driver))
    (add_device (connected_device 4096 (str "server") 3240 (str "2-14") sock info q) empty_list, c1,
     (n1, dd1))) as Hs.
  { apply rtc_once. eapply rs_connect; [|exact E]. intros loc _. apply not_elem_of_nil. }
  eexists _, _, _. split; [exact Hs|]. split; [reflexivity|].
  destruct (remote_device_list_cleanup _ _ _) as [[r v] [n2 dd2]] eqn:Ec.
  destruct (remote_devices_consistent NULL empty_list empty_list vhci_unchecked vhci_garbage example_ctx
    ERR_SUCCESS _ _ example_driver (example_net [import_reply]) _ _ _ _ _ _ n2 dd2
    eq_refl example_init_eq Hs Ec) as (_ & l' & c' & _ & _ & _ & _ & _ & Ho & _).
  exact Ho.
Defined.

(** A server that announces three devices to a caller with room for one: the
    second record is not read. *)
Definition listing_reply : bytes :=
  wire_encode {| hb_version := USBIP_PROTO_VERSION; hb_command := OP_REP_DEVLIST; hb_status := USBIP_ST_OK |}
  ++ to_be 4 3 ++ wire_encode example_remote
  ++ wire_encode {| ui_bInterfaceClass := 8; ui_bInterfaceSubClass := 6; ui_bInterfaceProtocol := 80;
                    ui_padding := 0 |}
  ++ wire_encode example_remote.

Lemma list_devices_bounded_witness :
  exists devs n', remote_server_list_devices NULL (Some (str "server")) 3240 1 (example_net [listing_reply]) =
    ((ERR_SUCCESS, devs), n') /\ Z.of_nat (length devs) <= 1 /\ ws_open n' = {[5]}.
Proof.
  destruct (remote_server_list_devices _ _ _ _ _) as [[e devs] n'] eqn:E.
  destruct (list_devices_bounded NULL (Some (str "server")) 3240 1 _ e devs n' E) as (Ho & Hl & _).
  exists devs, n'. assert (e = ERR_SUCCESS) as ->.
  { change e with (e, devs, n').1.1. rewrite <- E. vm_compute. reflexivity. }
  split; [reflexivity|]. split; [exact Hl|exact Ho].
Defined.
