(* ===== verification/EndToEnd.v ===== *)
(** * A client and a server together

    The theorems that join the two halves: what a client gets when it reads the
    bytes a server has put on the connection.  The client and the server each have
    a network of their own; a connection that neither side loses is [steady]. *)

From Stdlib Require Import String.
From S2P Require Import Prelude CTypes Format Errors Protocol Net ProtocolIO Auth UsbHost.
From S2P Require Import DeviceList UrbQueue UrbHandler ClientManager Vhci RemoteDevice.

(** ** The request *)

Definition import_header_request : usbip_header_basic :=
  {| hb_version := USBIP_PROTO_VERSION; hb_command := OP_REQ_IMPORT; hb_status := 0 |}.

Definition busid_block (b : bytes) : bytes :=
  strncpy (replicate USBIP_BUSID_MAX 0) b (USBIP_BUSID_MAX - 1).

Definition import_request_wire (b : bytes) : bytes := wire_encode import_header_request ++ busid_block b.

Lemma busid_block_length b : length (busid_block b) = USBIP_BUSID_MAX.
Proof. apply length_strncpy. rewrite length_replicate. unfold USBIP_BUSID_MAX. lia. Qed.

(** The terminator the server writes is there already. *)
Lemma busid_block_terminated b : <[(USBIP_BUSID_MAX - 1)%nat := 0]> (busid_block b) = busid_block b.
Proof.
  apply list_insert_id. unfold busid_block, strncpy. rewrite lookup_app_r.
  - rewrite length_take, length_app, length_replicate, Nat.min_l by lia. by rewrite Nat.sub_diag.
  - rewrite length_take, length_app, length_replicate, Nat.min_l by lia. done.
Qed.

Lemma busid_block_cstr b : cstr (busid_block b) = take (USBIP_BUSID_MAX - 1) (cstr b).
Proof. apply cstr_strncpy; [rewrite length_replicate; unfold USBIP_BUSID_MAX; lia|done]. Qed.

(** ** The server's side *)

Section server.
  Context {N U : Type} `{WinsockLaws N} `{UsbLaws U}.
  Implicit Types n : N.

(** An import request that arrives whole is handed to [client_handle_import]. *)
Lemma request_understood P env m c b n u x st rest :
  steady (cl_socket c) P -> P n -> ws_rx n (cl_socket c) = import_request_wire b ++ rest ->
  client_handle_request env (Some m) (Some c) (n, u) = (x, st) ->
  exists n1, rx_only (cl_socket c) n n1 /\ ws_rx n1 (cl_socket c) = rest /\
    client_handle_import env (Some m) (Some c) (Some (busid_block b)) (n1, u) = (x, st).
Proof.
  intros Hst Hp Hrx E. unfold import_request_wire in Hrx. rewrite <- app_assoc in Hrx.
  destruct (recv_header_basic_steady P (cl_socket c) n import_header_request (busid_block b ++ rest))
    as (n1 & E1 & Hp1 & F1 & Hrx1); [done|done|by vm_compute|done|].
  destruct (net_recv_all_steady P (cl_socket c) (Z.of_nat USBIP_BUSID_MAX) n1 (busid_block b) rest)
    as (n2 & E2 & _ & F2 & Hrx2); [done|done|done|by rewrite busid_block_length|done|].
  exists n2. split; [by etrans|]. split; [done|]. rewrite <- E. unfold client_handle_request.
  rewrite (M_bind_run _ _ _ _ _ (lift_l_run _ _ _ _ _ E1)).
  change (hb_command import_header_request =? OP_REQ_DEVLIST) with false.
  change (hb_command import_header_request =? OP_REQ_IMPORT) with true. cbv iota.
  rewrite (M_bind_run _ _ _ _ _ (lift_l_run _ _ _ _ _ E2)). rewrite Z.eqb_refl. cbn [negb].
  by rewrite busid_block_terminated.
Qed.
End server.

(** ** The client's side *)

Section client.
  Context {N : Type} `{WinsockLaws N}.
  Context (sock : Z) (P : N -> Prop) (Hrecv : steady sock P).
  Implicit Types n : N.

Lemma skip_interfaces_steady ifs n rest :
  Forall (fun i => fields_ok (usb_interface_to_usbip i)) ifs -> P n ->
  ws_rx n sock = ifaces_wire ifs ++ rest ->
  exists n', skip_interfaces (length ifs) sock n = (tt, n') /\ P n' /\ ws_rx n' sock = rest.
Proof.
  intros Hok. revert n. induction Hok as [|i ifs Hi _ IH]; intros n Hp Hrx; [by eexists|].
  unfold ifaces_wire in Hrx. cbn [map concat] in Hrx. rewrite <- app_assoc in Hrx.
  destruct (recv_interface_steady P sock n _ _ Hrecv Hp Hi Hrx) as (n1 & E1 & Hp1 & _ & Hrx1).
  destruct (IH n1 Hp1 Hrx1) as (n2 & E2 & ? & ?). exists n2. split; [|done].
  cbn [length skip_interfaces]. by rewrite (M_bind_run _ _ _ _ _ E1).
Qed.

(** Every interface the record of [e] announces follows it. *)
Definition listable (e : device_entry) : Prop :=
  sendable e /\ Z.of_nat (length (sent_interfaces (de_device e))) = dev_num_interfaces (de_device e).

Definition device_info (e : device_entry) : usbip_usb_device := usb_device_to_usbip (de_device e).

Lemma device_wire_cons e es rest :
  concat (map device_wire (e :: es)) ++ rest =
  wire_encode (device_info e) ++ ifaces_wire (sent_interfaces (de_device e)) ++
    concat (map device_wire es) ++ rest.
Proof.
  assert (forall a b c d : bytes, ((a ++ b) ++ c) ++ d = a ++ b ++ c ++ d) as Ha.
  { intros. by rewrite <- !app_assoc. }
  exact (Ha _ _ _ _).
Qed.

Lemma recv_devices_steady es k n rest :
  Forall listable es -> (k <= length es)%nat -> P n ->
  ws_rx n sock = concat (map device_wire es) ++ rest ->
  exists n', recv_devices k sock n = (map device_info (take k es), n').
Proof.
  intros Hok. revert k n. induction Hok as [|e es [[Hwf Hifs] Hlen] _ IH]; intros k n Hk Hp Hrx.
  { destruct k; [by eexists|simpl in Hk; lia]. }
  destruct k as [|k]; [by eexists|]. rewrite device_wire_cons in Hrx. cbn [take map].
  assert (ud_bNumInterfaces (device_info e) = Z.of_nat (length (sent_interfaces (de_device e)))) as En
    by (symmetry; exact Hlen).
  assert (usb_device_ok (device_info e)) as Hdev by exact (device_to_usbip_ok _ Hwf).
  generalize dependent (device_info e). intros info Hrx En Hdev.
  destruct (recv_device_steady P sock n info _ Hrecv Hp Hdev Hrx)
    as (n1 & E1 & Hp1 & _ & Hrx1).
  destruct (skip_interfaces_steady _ n1 _ Hifs Hp1 Hrx1) as (n2 & E2 & Hp2 & Hrx2).
  destruct (IH k n2 ltac:(simpl in Hk; lia) Hp2 Hrx2) as (n3 & E3). exists n3. cbn [recv_devices].
  rewrite (M_bind_run _ _ _ _ _ E1). rewrite En, Nat2Z.id. rewrite (M_bind_run _ _ _ _ _ E2). by rewrite (M_bind_run _ _ _ _ _ E3).
Qed.

Lemma recv_list_steady es k mx n rest :
  Forall listable es -> (k <= length es)%nat -> Z.of_nat k < 2 ^ 32 -> P n ->
  ws_rx n sock = wire_encode devlist_header ++ to_be 4 (Z.of_nat k) ++ concat (map device_wire es) ++ rest ->
  exists n', recv_device_list sock mx n =
    ((ERR_SUCCESS, map device_info (take (Z.to_nat (Z.min (Z.of_nat k) mx)) es)), n').
Proof.
  intros Hok Hk Hb Hp Hrx.
  destruct (recv_header_basic_steady P sock n devlist_header _ Hrecv Hp ltac:(by vm_compute) Hrx)
    as (n1 & E1 & Hp1 & _ & Hrx1).
  destruct (net_recv_all_steady P sock 4 n1 (to_be 4 (Z.of_nat k)) _ Hrecv Hp1 Hrx1)
    as (n2 & E2 & Hp2 & _ & Hrx2); [by rewrite length_to_be|done|].
  assert (be32toh (of_le (to_be 4 (Z.of_nat k))) = Z.of_nat k) as En.
  { unfold be32toh, ntohl. rewrite to_of_le_n by (apply to_be_bytes || apply length_to_be).
    rewrite of_to_be. apply Z.mod_small. split; [lia|exact Hb]. }
  destruct (recv_devices_steady es (Z.to_nat (Z.min (Z.of_nat k) mx)) n2 rest Hok ltac:(lia) Hp2 Hrx2)
    as (n3 & E3).
  destruct (socket_close sock n3) as [[] n4] eqn:E4. exists n4. unfold recv_device_list.
  rewrite (M_bind_run _ _ _ _ _ E1). change (negb (hb_status devlist_header =? USBIP_ST_OK)) with false.
  cbv iota. rewrite (M_bind_run _ _ _ _ _ E2). change (negb (4 =? 4)) with false. cbv iota zeta.
  rewrite En.
  rewrite (M_bind_run _ _ _ _ _ E3). by rewrite (M_bind_run _ _ _ _ _ E4).
Qed.

(** The import, once the request is on the wire. *)
Lemma import_device_steady token b d n h info rest :
  steady_tx sock P -> auth_is_enabled token = false -> rd_socket d = sock -> P n ->
  header_basic_ok h -> ((hb_status h =? USBIP_ST_OK) = true -> usb_device_ok info) ->
  ws_rx n sock = wire_encode h ++ (if hb_status h =? USBIP_ST_OK then wire_encode info else []) ++ rest ->
  exists n', import_device token b d n =
    (if hb_status h =? USBIP_ST_OK then inr info
     else inl (if hb_status h =? USBIP_ST_DEV_BUSY then ERR_DEVICE_BUSY else ERR_USB_NOT_FOUND), n') /\
    ws_tx n' sock = ws_tx n sock ++ import_request_wire b /\ ws_rx n' sock = rest.
Proof.
  intros Hsend Ht Hs Hp Hh Hi Hrx. unfold import_device. rewrite Ht, Hs.
  assert (length (wire_encode import_header_request) = 8%nat) as Hlh by reflexivity.
  destruct (send_bytes_steady P sock n (wire_encode import_header_request) Hsend Hp ltac:(by rewrite Hlh))
    as (n1 & E1 & Hp1 & (_ & R1 & _) & T1).
  destruct (send_bytes_steady P sock n1 (busid_block b) Hsend Hp1) as (n2 & E2 & Hp2 & (_ & R2 & _) & T2).
  { by rewrite busid_block_length. }
  rewrite <- R1, <- R2 in Hrx.
  destruct (recv_header_basic_steady P sock n2 h _ Hrecv Hp2 Hh Hrx) as (n3 & E3 & Hp3 & (_ & R3 & _) & Hrx3).
  rewrite (M_bind_run (mret ERR_SUCCESS) _ n ERR_SUCCESS n eq_refl).
  change (negb (error_code_eqb ERR_SUCCESS ERR_SUCCESS)) with false. cbv iota zeta.
  rewrite (M_bind_run _ _ _ _ _ E1). cbn [negb]. rewrite (M_bind_run _ _ _ _ _ E2). cbn [negb].
  rewrite (M_bind_run _ _ _ _ _ E3).
  assert (ws_tx n3 sock = ws_tx n sock ++ import_request_wire b) as T3.
  { rewrite R3, T2, T1. by rewrite <- app_assoc. }
  destruct (hb_status h =? USBIP_ST_OK) eqn:Est; cbn [negb].
  - destruct (recv_device_steady P sock n3 info rest Hrecv Hp3 (Hi eq_refl) Hrx3) as (n4 & E4 & _ & (_ & R4 & _) & Hrx4).
    exists n4. rewrite (M_bind_run _ _ _ _ _ E4). split; [done|]. split; [by rewrite R4|done].
  - by exists n3.
Qed.
End client.

(** ** Properties *)

Section together.
  Context {N1 U N2 : Type} `{WinsockLaws N1} `{UsbLaws U} `{WinsockLaws N2}.
  Implicit Types (n : N1) (t : N2).

(** C15: a client that reads the answer to its device list request on a connection
    that stays up gets the shared devices of the server in their order, as many of
    them as the server announced (the shared devices not in use), or as it has
    room for. *)
Theorem list_end_to_end m c n n' :
  Forall (fun e => de_is_shared e = true -> listable e) (dl_entries (cm_device_list m)) ->
  Z.of_nat (length (dl_entries (cm_device_list m))) < 2 ^ 32 ->
  client_send_device_list (Some m) (Some c) n = (ERR_SUCCESS, n') ->
  exists reply, ws_tx n' (cl_socket c) = ws_tx n (cl_socket c) ++ reply /\
  forall sock (P : N2 -> Prop) t rest mx, steady sock P -> P t -> ws_rx t sock = reply ++ rest ->
    let announced := Z.of_nat (length (available_entries (cm_device_list m))) in
    exists t', recv_device_list sock mx t =
      ((ERR_SUCCESS, map device_info (take (Z.to_nat (Z.min announced mx))
                                        (shared_entries (cm_device_list m)))), t').
Proof.
  intros Hok Hb E. apply device_list_sent, sent_success in E.
  2: { apply (Forall_impl _ _ _ Hok). intros e Hl Hs. by apply Hl. }
  eexists. split; [exact E|]. intros sock P t rest mx Hst Hp Hrx.
  assert (length (available_entries (cm_device_list m)) <= length (shared_entries (cm_device_list m)))%nat as Hle.
  { unfold available_entries, shared_entries. induction (dl_entries _) as [|e es IH]; [done|].
    apply Forall_cons in Hok as [_ Hok]. rewrite !filter_cons. specialize (IH Hok ltac:(simpl in Hb; lia)).
    destruct (decide (de_is_shared e = true /\ _)) as [[? _]|_].
    - rewrite decide_True by done. simpl. lia.
    - destruct (decide (de_is_shared e = true)); simpl; lia. }
  eapply (recv_list_steady sock P Hst (shared_entries (cm_device_list m))); [|exact Hle| |exact Hp|].
  - apply Forall_forall. intros e [Hs He]%list_elem_of_filter. rewrite Forall_forall in Hok. by apply Hok.
  - assert (length (shared_entries (cm_device_list m)) <= length (dl_entries (cm_device_list m)))%nat
      by apply length_filter. lia.
  - rewrite Hrx. by rewrite <- !app_assoc.
Qed.

End together.

(** ** Witnesses *)

Lemma up_one fd inp pace : Sim.up fd (Sim.one fd inp pace).
Proof. unfold Sim.up, Sim.one. cbn [Sim.n_conns]. by rewrite lookup_singleton_eq. Qed.

Lemma rx_one fd inp pace : ws_rx (Sim.one fd inp pace) fd = inp.
Proof. simpl. unfold Sim.rx, Sim.one. cbn [Sim.n_conns]. by rewrite lookup_singleton_eq. Qed.

Lemma example_listable :
  Forall (fun e => de_is_shared e = true -> listable e) (dl_entries (cm_device_list example_manager)).
Proof.
  pose proof (plain_sendable _ (cmi_list _ example_manager_inv) example_list_plain) as Hs.
  rewrite Forall_forall in Hs. apply Forall_forall. intros e He Hsh. split; [by apply Hs|]. clear Hsh. revert e He.
  rewrite <- (Forall_forall (fun e => Z.of_nat (length (sent_interfaces (de_device e))) =
    dev_num_interfaces (de_device e))). vm_compute. repeat constructor.
Qed.

(** A server with one device, and the client that lists it. *)
Lemma list_end_to_end_witness :
  exists n' reply t', client_send_device_list (Some example_manager) (Some (example_client 8192 1))
      (Sim.one 5 [] []) = (ERR_SUCCESS, n') /\
  recv_device_list 7 16 (Sim.one 7 reply [3; 0; 5]%nat) = ((ERR_SUCCESS, [usb_device_to_usbip example_device]), t').
Proof.
  destruct (client_send_device_list (Some example_manager) (Some (example_client 8192 1)) (Sim.one 5 [] []))
    as [e n'] eqn:E.
  assert (e = ERR_SUCCESS) as ->.
  { change e with (e, n').1. rewrite <- E. vm_compute. reflexivity. }
  destruct (list_end_to_end (N2 := Sim.net) example_manager (example_client 8192 1) (Sim.one 5 [] []) n'
    example_listable ltac:(reflexivity) E) as (reply & _ & Hr).
  destruct (Hr 7 (Sim.up 7) (Sim.one 7 reply [3; 0; 5]%nat) [] 16 (Sim.up_steady 7) (up_one _ _ _)
    ltac:(rewrite rx_one, app_nil_r; reflexivity)) as (t' & Et).
  exists n', reply, t'. split; [reflexivity|]. exact Et.
Defined.

Definition example_remote_device : remote_device := connected_device 1 [] 3240 example_busid 7 usb_device_zero 0.

