(* ===== verification/ClientMain.v ===== *)
(** * The command-line client ([client/main.c])

    The command line, the five commands, and [main].  The program's global state is
    that of its parts: each command starts from the controller and the list as the
    program's start left them ([vhci_start], [vhci_context_zero], [list_start]),
    since only one command runs.  What is printed is returned with the exit code
    where it carries data; [Console] makes the text of it.

    [Sleep] in the wait of [cmd_attach] lets time pass; it ends when the signal
    handler clears [running]. *)

From Stdlib Require Import String.
From S2P Require Import Prelude CTypes Format Errors Log Protocol Net NetAddr ProtocolIO Auth.
From S2P Require Import Vhci Discovery RemoteDevice.

Definition DISCOVERY_TIMEOUT_MS : Z := 3000.
Definition MAX_DEVICES : Z := 32.

Inductive command_type :=
  | CMD_NONE
  | CMD_DISCOVER
  | CMD_LIST
  | CMD_ATTACH
  | CMD_DETACH
  | CMD_STATUS
  | CMD_HELP.

(** The part of [g_client] that the command line sets. *)
Record client_config := {
  cc_command : command_type;
  cc_server_ip : bytes;
  cc_server_port : Z;
  cc_busid : bytes;
  cc_port : Z;
  cc_verbose : bool;
  cc_auth_token : ptr bytes;
}.

Definition client_default : client_config := {|
  cc_command := CMD_NONE; cc_server_ip := []; cc_server_port := USBIP_PORT; cc_busid := [];
  cc_port := -1; cc_verbose := false; cc_auth_token := NULL |}.

(** ** The command line *)

Definition set_options (g : client_config) (port : Z) (verbose : bool) (token : ptr bytes) : client_config := {|
  cc_command := cc_command g; cc_server_ip := cc_server_ip g; cc_server_port := port;
  cc_busid := cc_busid g; cc_port := cc_port g; cc_verbose := verbose; cc_auth_token := token |}.

Definition set_command (g : client_config) (cmd : command_type) (ip busid : bytes) (port : Z) : client_config := {|
  cc_command := cmd; cc_server_ip := ip; cc_server_port := cc_server_port g; cc_busid := busid;
  cc_port := port; cc_verbose := cc_verbose g; cc_auth_token := cc_auth_token g |}.

(** The [while] loop over the options: what is left of the arguments, or [None] when
    the function returns -1. *)
Fixpoint parse_options (g : client_config) (args : list bytes) : client_config * option (list bytes) :=
  match args with
  | [] => (g, Some [])
  | a :: rest =>
      if negb (char_at a 0 =? 45) then (g, Some args) else
      if arg_is a "-h" "--help" then (g, None) else
      if arg_is a "-v" "--verbose"
      then parse_options (set_options g (cc_server_port g) true (cc_auth_token g)) rest else
      match rest with
      | v :: rest =>
          if arg_is a "-p" "--port"
          then parse_options (set_options g (wrap 16 (atoi v)) (cc_verbose g) (cc_auth_token g)) rest
          else if arg_is a "-k" "--auth-token"
          then parse_options (set_options g (cc_server_port g) (cc_verbose g) (Some v)) rest
          else (g, None)
      | [] => (g, None)
      end
  end.

Definition parse_command (g : client_config) (args : list bytes) : Z * client_config :=
  let set cmd := set_command g cmd in
  match args with
  | [] => (-1, g)
  | cmd :: args =>
      if streq cmd (str "discover") then (0, set CMD_DISCOVER (cc_server_ip g) (cc_busid g) (cc_port g))
      else if streq cmd (str "list") then
        match args with
        | [] => (-1, set CMD_LIST (cc_server_ip g) (cc_busid g) (cc_port g))
        | ip :: _ => (0, set CMD_LIST (copy_str ip 64) (cc_busid g) (cc_port g))
        end
      else if streq cmd (str "attach") then
        match args with
        | ip :: b :: _ => (0, set CMD_ATTACH (copy_str ip 64) (copy_str b USBIP_BUSID_MAX) (cc_port g))
        | _ => (-1, set CMD_ATTACH (cc_server_ip g) (cc_busid g) (cc_port g))
        end
      else if streq cmd (str "detach") then
        match args with
        | [] => (-1, set CMD_DETACH (cc_server_ip g) (cc_busid g) (cc_port g))
        | p :: _ => (0, set CMD_DETACH (cc_server_ip g) (cc_busid g) (atoi p))
        end
      else if streq cmd (str "status") then (0, set CMD_STATUS (cc_server_ip g) (cc_busid g) (cc_port g))
      else (-1, g)
  end.

Definition parse_args (g : client_config) (args : list bytes) : Z * client_config :=
  match parse_options g args with
  | (g, None) => (-1, g)
  | (g, Some rest) => parse_command g rest
  end.

(** ** The commands *)

Record client_env := {
  ce_log : log_env;
  ce_wsa : Z;                      (* the result of [WSAStartup] *)
  ce_token : ptr bytes;            (* [getenv("USBIP_AUTH_TOKEN")] *)
  ce_calloc : bool;                (* the table of ports *)
  ce_list_mutex : Z;
  ce_alloc : ptr Z;                (* the device *)
  ce_adapters : adapters_answer;
  ce_ntop : Z -> nat -> option bytes;
  ce_undef : Z;
}.

Definition vhci_start : vhci_global := {| vg_driver_available := false; vg_checked_driver := false |}.

Definition vhci_context_zero : vhci_context := {|
  vc_max_ports := 0; vc_ports := NULL; vc_initialized := false; vc_driver_handle := NULL |}.

Definition list_start : remote_device_list := {|
  rl_devices := []; rl_count := 0; rl_initialized := false |}.

Section client.
  Context {N D : Type} `{Winsock N} `{VhciDriver D}.

Definition cmd_discover (env : client_env) (fuel : nat) :
    M (N * D) (option (Z * list discovered_server)) :=
  let broadcast_addr := (get_broadcast_address (ce_ntop env) (ce_undef env) (ce_adapters env) 64).2 in
  r ← lift_l (discovery_broadcast fuel broadcast_addr DISCOVERY_TIMEOUT_MS);
  mret (match r with
        | None => None
        | Some (err, servers) =>
            if negb (error_code_eqb err ERR_SUCCESS) then Some (1, []) else Some (0, servers)
        end).

Definition cmd_list (g : client_config) (token : ptr bytes) : M (N * D) (Z * list usbip_usb_device) :=
  '(err, devices) ← lift_l (remote_server_list_devices token (Some (cc_server_ip g)) (cc_server_port g)
                              MAX_DEVICES);
  if negb (error_code_eqb err ERR_SUCCESS) then mret (1, []) else mret (0, devices).

Definition cmd_attach (env : client_env) (g : client_config) (token : ptr bytes) : M (N * D) Z :=
  '(err, _, vhci) ← lift_r (vhci_init (ce_calloc env) vhci_start (Some vhci_context_zero));
  if negb (error_code_eqb err ERR_SUCCESS) then mret 1 else
  let '(err, list) := remote_device_list_init (ce_list_mutex env) (Some list_start) in
  if negb (error_code_eqb err ERR_SUCCESS) then lift_r (vhci_cleanup vhci) ;; mret 1 else
  '(err, list, vhci, device) ← remote_device_connect (ce_alloc env) token list vhci
      (Some (cc_server_ip g)) (cc_server_port g) (Some (cc_busid g));
  if negb (error_code_eqb err ERR_SUCCESS) then
    '(_, vhci) ← remote_device_list_cleanup list vhci;
    lift_r (vhci_cleanup vhci) ;; mret 1
  else
    '(_, list, vhci) ← remote_device_disconnect list vhci device;
    '(_, vhci) ← remote_device_list_cleanup list vhci;
    lift_r (vhci_cleanup vhci) ;; mret 0.

Definition cmd_detach (env : client_env) (g : client_config) : M (N * D) Z :=
  '(err, _, vhci) ← lift_r (vhci_init (ce_calloc env) vhci_start (Some vhci_context_zero));
  if negb (error_code_eqb err ERR_SUCCESS) then mret 1 else
  let max_ports := match vhci with Some c => vc_max_ports c | NULL => 0 end in
  if (cc_port g <? 0) || (cc_port g >=? max_ports) then lift_r (vhci_cleanup vhci) ;; mret 1 else
  '(err, vhci) ← lift_r (vhci_detach vhci (cc_port g));
  if negb (error_code_eqb err ERR_SUCCESS) then lift_r (vhci_cleanup vhci) ;; mret 1 else
  lift_r (vhci_cleanup vhci) ;; mret 0.

(** The exit code, whether the driver is there, and the ports that are printed. *)
Definition cmd_status (env : client_env) : M (N * D) (Z * bool * list vhci_port_info) :=
  '(err, vg, vhci) ← lift_r (vhci_init (ce_calloc env) vhci_start (Some vhci_context_zero));
  if negb (error_code_eqb err ERR_SUCCESS) then mret (1, false, []) else
  '(available, _) ← lift_r (vhci_is_available vg);
  let shown := filter (fun p => port_is_free p = false) (default [] (vhci ≫= vc_ports)) in
  lift_r (vhci_cleanup vhci) ;; mret (0, available, shown).

(** ** Start and end *)

Definition client_log_config (verbose : bool) : log_config := {|
  lc_level := if verbose then LOG_LEVEL_DEBUG else LOG_LEVEL_INFO; lc_targets := LOG_TARGET_CONSOLE;
  lc_show_timestamp := verbose; lc_show_level := verbose; lc_show_location := false;
  lc_use_colors := true; lc_log_file := [] |}.

(** The error, and the token that is handed to the remote devices. *)
Definition client_init (env : client_env) (g : client_config) : error_code * ptr bytes :=
  let err := start_log (ce_log env) (client_log_config (cc_verbose g)) in
  if negb (error_code_eqb err ERR_SUCCESS) then (err, NULL) else
  let '(err, _) := network_init false (ce_wsa env) in
  if negb (error_code_eqb err ERR_SUCCESS) then (err, NULL) else
  (ERR_SUCCESS, Some (auth_get_token (ce_token env) (cc_auth_token g))).

(** [None]: the discovery is still running when the fuel is gone. *)
Definition client_main (env : client_env) (fuel : nat) (args : list bytes) : M (N * D) (option Z) :=
  let '(r, g) := parse_args client_default args in
  if negb (r =? 0) then mret (Some 1) else
  let '(err, token) := client_init env g in
  if negb (error_code_eqb err ERR_SUCCESS) then mret (Some 1) else
  match cc_command g with
  | CMD_DISCOVER => r ← cmd_discover env fuel; mret (fst <$> r)
  | CMD_LIST => r ← cmd_list g token; mret (Some r.1)
  | CMD_ATTACH => code ← cmd_attach env g token; mret (Some code)
  | CMD_DETACH => code ← cmd_detach env g; mret (Some code)
  | CMD_STATUS => r ← cmd_status env; mret (Some r.1.1)
  | CMD_NONE | CMD_HELP => mret (Some 1)
  end.
End client.

(** ** Lemmas *)

Section laws.
  Context {N D : Type} `{WinsockLaws N} `{VhciDriverLaws D}.
  Implicit Types (n : N) (dd : D).

(** What the program has open is what it had open. *)
Definition nothing_left n dd n' dd' : Prop :=
  ws_open n' = ws_open n /\ vd_handles dd' = vd_handles dd.

(** The controller between its start and its end: a context [c] on the driver. *)
Definition controller dd c dd1 : Prop :=
  vhci_inv c /\ (forall j, in_range j -> get_port c j = Some (port_free j)) /\
  match vc_driver_handle c with
  | Some h => vd_handles dd1 = {[h]} ∪ vd_handles dd /\ h ∉ vd_handles dd
  | NULL => vd_handles dd1 = vd_handles dd
  end.

Lemma start_controller ok g ctx n dd e g' v n1 dd1 :
  lift_r (vhci_init ok g (Some ctx)) (n, dd) = ((e, g', v), (n1, dd1)) ->
  n1 = n /\ vd_requests dd1 = vd_requests dd /\
  (e <> ERR_SUCCESS /\ vd_handles dd1 = vd_handles dd \/
   e = ERR_SUCCESS /\ exists c, v = Some c /\ controller dd c dd1).
Proof.
  intros (dd2 & E & ?)%lift_r_inv. simplify_eq. split; [done|]. destruct ok.
  - apply init_spec in E as (c & -> & -> & Hc & Hr & Hf & Hh). split; [done|]. right. split; [done|]. by exists c.
  - apply init_failed in E as (? & ? & ?). split; [done|]. by left.
Qed.

(** Closing the controller after operations that kept its context. *)
Lemma end_controller dd c dd1 c2 n dd2 r n3 dd3 :
  controller dd c dd1 -> vhci_kept c c2 dd1 dd2 ->
  (forall j, in_range j -> get_port c2 j = Some (port_free j)) ->
  lift_r (vhci_cleanup (Some c2)) (n, dd2) = (r, (n3, dd3)) ->
  n3 = n /\ vd_requests dd3 = vd_requests dd2 /\ vd_handles dd3 = vd_handles dd.
Proof.
  intros (_ & _ & Hh) (Hc2 & Eh & Ehs) Hf (dd4 & E & ?)%lift_r_inv. simplify_eq. split; [done|].
  apply cleanup_spec in E as (R & Hcl & _); [|done].
  rewrite unplugs_free, app_nil_r in R by done. split; [done|]. rewrite Hcl, Eh, Ehs.
  destruct (vc_driver_handle c); [|done]. destruct Hh as [-> Hn]. clear -Hn. set_solver.
Qed.

Lemma kept_refl c dd : vhci_inv c -> vhci_kept c c dd dd.
Proof. done. Qed.

Lemma cmd_discover_ends env n dd :
  (forall sock s1 start s2, ws_GetTickCount s1 = (start, s2) ->
     exists in_time late k, clock_runs sock start DISCOVERY_TIMEOUT_MS in_time late /\ in_time k s2) ->
  exists fuel0, forall fuel, (fuel0 <= fuel)%nat -> exists code servers n',
    cmd_discover env fuel (n, dd) = (Some (code, servers), (n', dd)) /\ (code = 0 \/ code = 1) /\
    ws_open n' = ws_open n.
Proof.
  intros Hclock. unfold cmd_discover. set (addr := (get_broadcast_address _ _ _ _).2). clearbody addr.
  destruct (discovery_ends addr DISCOVERY_TIMEOUT_MS n Hclock) as [fuel0 Hf]. exists fuel0. intros fuel Hle.
  destruct (Hf fuel Hle) as (e & servers & n' & E & _ & Ho).
  rewrite (M_bind_run _ _ _ _ _ (lift_l_run _ _ _ _ _ E)). unfold mret, M_ret.
  destruct (negb (error_code_eqb e ERR_SUCCESS)); eexists _, _, n'; (split; [done|]); auto.
Qed.

Lemma cmd_list_run g token n dd code devs n' dd' :
  cmd_list g token (n, dd) = ((code, devs), (n', dd')) ->
  (code = 0 \/ code = 1) /\ dd' = dd /\ ws_open n' = ws_open n /\ Z.of_nat (length devs) <= MAX_DEVICES.
Proof.
  intros E. unfold cmd_list in E. apply M_bind_inv in E as ([e ds] & [n1 dd1] & E1 & E).
  apply lift_l_inv in E1 as (n2 & E1 & ?). simplify_eq. apply list_devices_open in E1 as (Ho & Hl & _).
  destruct (negb _); mret_eq; split_and!; auto; simpl; unfold MAX_DEVICES in *; lia.
Qed.

(** The end of [cmd_attach]: the list is emptied, the controller closed. *)
Lemma finish_attach dd c dd1 O l c2 n2 dd2 (code code' : Z) n' dd' :
  controller dd c dd1 -> vhci_kept c c2 dd1 dd2 -> rl_inv O l c2 n2 ->
  (remote_device_list_cleanup (Some l) (Some c2) ≫= fun x : ptr remote_device_list * ptr vhci_context =>
     let '(_, vhci) := x in lift_r (vhci_cleanup vhci) ;; mret code) (n2, dd2) = (code', (n', dd')) ->
  code' = code /\ ws_open n' = O /\ vd_handles dd' = vd_handles dd /\
  vd_requests dd' = vd_requests dd2 ++ (UNPLUG_HARDWARE <$> rd_ports l).
Proof.
  intros Hc K2 Hi E. apply M_bind_inv in E as ([l3 v3] & [n3 dd3] & E3 & E).
  apply (list_cleanup_cases _ _ _ _ _ _ _ _ _ Hi) in E3
    as (l4 & c4 & -> & -> & K4 & _ & _ & _ & Ho & Hf & R).
  apply M_bind_inv in E as (r & [n5 dd5] & E5 & E).
  apply (end_controller _ _ _ _ _ _ _ _ _ Hc (kept_trans _ _ _ _ _ _ K2 K4) Hf) in E5 as (-> & R5 & H5). mret_eq.
  split_and!; [done|done|done|by rewrite R5].
Qed.

(** A connection, with whatever the allocation returns. *)
Lemma connect_any O alloc token l c ip sp b n dd e r v out n' dd' :
  rl_inv O l c n -> (forall loc, alloc = Some loc -> loc ∉ (rd_loc <$> rl_devices l)) ->
  remote_device_connect alloc token (Some l) (Some c) (Some ip) sp (Some b) (n, dd) =
    ((e, r, v, out), (n', dd')) ->
  exists l' c', r = Some l' /\ v = Some c' /\ vhci_kept c c' dd dd' /\ rl_inv O l' c' n' /\
  (e <> ERR_SUCCESS /\ l' = l /\ ws_open n' = ws_open n \/
   e = ERR_SUCCESS /\ exists dv, l' = add_device dv l /\ out = Some (rd_loc dv) /\
     rd_busid dv = copy_str b USBIP_BUSID_MAX /\
     rd_vhci_port dv = vhci_find_free_port (Some c) /\
     exists sock devid, vd_requests dd' = vd_requests dd ++ [PLUGIN_HARDWARE sock devid]).
Proof.
  intros Hi Hl E. destruct alloc as [loc|].
  - apply (connect_spec O token loc l c) in E as (l4 & c4 & -> & -> & K4 & Hi4 & E); [|done|by apply Hl].
    exists l4, c4. split; [done|]. split; [done|]. split; [done|]. split; [done|].
    destruct E as [(? & -> & _ & ? & _)|(-> & sock & info & q & -> & -> & _ & _ & [devid ?] & ? & _)]; [by left|].
    right. split; [done|]. eexists. split; [done|]. split; [done|]. split; [done|]. split; [done|]. by eexists _, _.
  - simpl in E. mret_eq. exists l, c. split; [done|]. split; [done|].
    split; [by split_and!; [apply Hi|..]|]. split; [done|]. by left.
Qed.

Lemma cmd_attach_run env g token n dd code n' dd' :
  cmd_attach env g token (n, dd) = (code, (n', dd')) ->
  (code = 0 \/ code = 1) /\ nothing_left n dd n' dd' /\
  (code = 0 -> exists sock devid,
     vd_requests dd' = vd_requests dd ++ [PLUGIN_HARDWARE sock devid; UNPLUG_HARDWARE 0]).
Proof.
  intros E. unfold cmd_attach in E. apply M_bind_inv in E as ([[e g1] v] & [n1 dd1] & E1 & E).
  apply start_controller in E1 as (-> & R1 & [[Hne Hh]|(-> & c & -> & Hc)]).
  { rewrite (error_code_eqb_false _ _ Hne) in E. cbn [negb] in E. mret_eq. split; [auto|]. by split. }
  change (error_code_eqb ERR_SUCCESS ERR_SUCCESS) with true in E. cbn [negb] in E.
  pose proof Hc as (Hc1 & Hf1 & _).
  destruct (remote_device_list_init (ce_list_mutex env) (Some list_start)) as [e2 l2] eqn:E2.
  simpl in E2. destruct (ce_list_mutex env =? 0) eqn:Em; cbn [negb] in E2; injection E2 as <- <-; cycle 1.
  { change (error_code_eqb ERR_MUTEX_INIT ERR_SUCCESS) with false in E. cbn [negb] in E.
    apply M_bind_inv in E as (r & [n3 dd3] & E3 & E).
    apply (end_controller _ _ _ _ _ _ _ _ _ Hc (kept_refl _ _ Hc1) Hf1) in E3 as (-> & R3 & H3). mret_eq.
    split; [auto|]. by split. }
  change (error_code_eqb ERR_SUCCESS ERR_SUCCESS) with true in E. cbn [negb] in E.
  set (l0 := {| rl_devices := []; rl_count := 0; rl_initialized := true |}) in *.
  assert (rl_inv (ws_open n) l0 c n) as Hi by (by apply (list_init_inv l0)).
  apply M_bind_inv in E as ([[[e3 l3] v3] dev] & [n3 dd3] & E3 & E).
  eapply connect_any in E3 as (l4 & c4 & -> & -> & K4 & Hi4 & E3);
    [|exact Hi|intros; apply not_elem_of_nil].
  destruct E3 as [(Hne & -> & Ho)|(-> & dv & -> & -> & _ & Hq & sock & devid & Hreq)].
  - rewrite (error_code_eqb_false _ _ Hne) in E. cbn [negb] in E.
    apply (finish_attach _ _ _ _ _ _ _ _ _ _ _ _ Hc K4 Hi4) in E as (-> & ? & ? & _).
    split; [auto|]. split; [by split|done].
  - change (error_code_eqb ERR_SUCCESS ERR_SUCCESS) with true in E. cbn [negb] in E.
    apply M_bind_inv in E as ([[e5 l5] v5] & [n5 dd5] & E5 & E).
    apply (disconnect_cases _ _ _ _ _ _ _ _ _ _ _ Hi4) in E5 as (l6 & c6 & -> & -> & Hi6 & K6 & E5).
    apply (finish_attach _ _ _ _ _ _ _ _ _ _ _ _ Hc (kept_trans _ _ _ _ _ _ K4 K6) Hi6) in E
      as (-> & ? & ? & Hreq7). split; [auto|]. split; [by split|]. intros _. exists sock, devid.
    destruct E5 as [(_ & Hno & _)|(_ & k1 & d & k2 & El & _ & -> & _ & _ & Hreq6)].
    { destruct Hno. simpl. by left. }
    destruct k1 as [|x k1]; [|by destruct k1]. simpl in El. injection El as <- <-.
    rewrite Hreq7, Hreq6, Hreq, Hq, (free_port_zero c Hc1 Hf1), R1. simpl. by rewrite <- !app_assoc.
Qed.

Lemma cmd_detach_run env g n dd code n' dd' :
  cmd_detach env g (n, dd) = (code, (n', dd')) ->
  (code = 0 \/ code = 1) /\ n' = n /\ vd_handles dd' = vd_handles dd /\ vd_requests dd' = vd_requests dd /\
  (code = 0 -> in_range (cc_port g)) /\ (ce_calloc env = true -> in_range (cc_port g) -> code = 0).
Proof.
  intros E. unfold cmd_detach in E. apply M_bind_inv in E as ([[e g1] v] & [n1 dd1] & E1 & E).
  destruct (ce_calloc env) eqn:Ecal; cycle 1.
  { apply lift_r_inv in E1 as (dd2 & (Hne & R & Hh)%init_failed & ?). simplify_eq.
    rewrite (error_code_eqb_false _ _ Hne) in E. cbn [negb] in E. mret_eq. split; [auto|]. done. }
  apply lift_r_inv in E1 as (dd2 & E1 & ?). simplify_eq.
  apply init_spec in E1 as (c & -> & -> & Hc1 & R1 & Hf1 & Hh).
  assert (controller dd c dd2) as Hc by done.
  change (error_code_eqb ERR_SUCCESS ERR_SUCCESS) with true in E. cbn [negb] in E. cbv zeta in E.
  destruct (_ || _) eqn:Er.
  { apply M_bind_inv in E as (r & [n3 dd3] & E3 & E).
    apply (end_controller _ _ _ _ _ _ _ _ _ Hc (kept_refl _ _ Hc1) Hf1) in E3 as (-> & R3 & H3). mret_eq.
    split; [auto|]. split_and!; [done|done|congruence|done|].
    intros _ Hr%(port_in_range c _ Hc1). unfold port_out_of_range in Hr. congruence. }
  assert (in_range (cc_port g)) as Hr by (by apply (port_in_range c)).
  apply M_bind_inv in E as ([e2 v2] & [n2 dd3] & E2 & E). apply lift_r_inv in E2 as (dd4 & E2 & ?). simplify_eq.
  apply detach_cases in E2 as (c2 & -> & K2 & [(_ & ? & _)|(-> & _ & -> & p & Ep & R2)]); [done| |done].
  rewrite (Hf1 _ Hr) in Ep. injection Ep as <-. rewrite app_nil_r in R2.
  rewrite set_port_same in E, K2 by (by apply Hf1).
  change (error_code_eqb ERR_SUCCESS ERR_SUCCESS) with true in E. cbn [negb] in E.
  apply M_bind_inv in E as (r & [n3 dd3] & E3 & E).
  apply (end_controller _ _ _ _ _ _ _ _ _ Hc K2 Hf1) in E3 as (-> & R3 & H3). mret_eq.
  split; [auto|]. split_and!; [done|done|congruence|done|done].
Qed.

Lemma cmd_status_run env n dd code b shown n' dd' :
  cmd_status env (n, dd) = ((code, b, shown), (n', dd')) ->
  (code = 0 \/ code = 1) /\ n' = n /\ vd_handles dd' = vd_handles dd /\ vd_requests dd' = vd_requests dd /\
  shown = [].
Proof.
  intros E. unfold cmd_status in E. apply M_bind_inv in E as ([[e g1] v] & [n1 dd1] & E1 & E).
  apply start_controller in E1 as (-> & R1 & [[Hne Hh]|(-> & c & -> & Hc)]).
  { rewrite (error_code_eqb_false _ _ Hne) in E. cbn [negb] in E. mret_eq. split; [auto|]. done. }
  change (error_code_eqb ERR_SUCCESS ERR_SUCCESS) with true in E. cbn [negb] in E.
  pose proof Hc as (Hc1 & Hf1 & Hh).
  apply M_bind_inv in E as ([a g2] & [n2 dd2] & E2 & E). apply lift_r_inv in E2 as (dd3 & E2 & ?). simplify_eq.
  apply check_spec in E2 as [R2 Hh2]. cbv zeta in E.
  apply M_bind_inv in E as (r & [n3 dd4] & E3 & E).
  assert (vhci_kept c c dd1 dd3) as K by (by split_and!).
  apply (end_controller _ _ _ _ _ _ _ _ _ Hc K Hf1) in E3 as (-> & R3 & H3). mret_eq.
  split; [auto|]. split_and!; [done|done|congruence|].
  destruct (vi_ports c Hc1) as (ps & Eps & Hlen & _). rewrite Eps. simpl.
  assert (forall l, Forall (fun p => port_is_free p = true) l -> filter (fun p => port_is_free p = false) l = []) as Hnil.
  { intros l Hl. induction Hl as [|p l Hp _ IH]; [done|]. rewrite filter_cons, decide_False; [done|congruence]. }
  apply Hnil, Forall_lookup. intros i p Hp.
  assert (get_port c (Z.of_nat i) = Some p) as Hg.
  { unfold get_port. rewrite Eps. simpl. by rewrite Nat2Z.id. }
  apply lookup_lt_Some in Hp. rewrite Hf1 in Hg; [by simplify_eq|]. unfold in_range, VHCI_MAX_PORTS in *. lia.
Qed.

(** ** Properties *)


(** attaching is undone at the end.  When [cmd_attach] reports success the driver
    has been asked to plug in the one device, and then to unplug port 0; in every
    case what was opened is closed. *)
Theorem attach_command_undone env g token n dd code n' dd' :
  cmd_attach env g token (n, dd) = (code, (n', dd')) ->
  (code = 0 \/ code = 1) /\ ws_open n' = ws_open n /\ vd_handles dd' = vd_handles dd /\
  (code = 0 -> exists sock devid,
     vd_requests dd' = vd_requests dd ++ [PLUGIN_HARDWARE sock devid; UNPLUG_HARDWARE 0]).
Proof. intros E. apply cmd_attach_run in E as (? & [? ?] & ?). done. Qed.

(** the commands that look at what is attached look at a table of their own.
    [cmd_detach] says that the device is detached for every port number in range,
    but never asks the driver to unplug anything; [cmd_status] never shows a
    port. *)
Theorem detach_command_no_request env g n dd :
  (forall code n' dd', cmd_detach env g (n, dd) = (code, (n', dd')) ->
     vd_requests dd' = vd_requests dd /\
     (ce_calloc env = true -> (code = 0 <-> in_range (cc_port g)))) /\
  (forall code available shown n' dd', cmd_status env (n, dd) = ((code, available, shown), (n', dd')) ->
     vd_requests dd' = vd_requests dd /\ shown = []).
Proof.
  split.
  - intros code n' dd' E. apply cmd_detach_run in E as (_ & _ & _ & ? & ? & ?). split; [done|].
    intros Hcal. split; [done|by auto].
  - intros code b shown n' dd' E. by apply cmd_status_run in E as (_ & _ & _ & ? & ?).
Qed.
End laws.

(** ** The command line, as the user means it *)

Inductive client_opt :=
  | CO_verbose
  | CO_port (v : bytes)
  | CO_token (v : bytes).

Inductive client_command :=
  | CC_discover
  | CC_list (ip : bytes)
  | CC_attach (ip busid : bytes)
  | CC_detach (port : bytes)
  | CC_status.

Definition spell (short : bool) (s l : string) : bytes := if short then str s else str l.

(** An option in its short or its long form. *)
Definition client_opt_args (o : bool * client_opt) : list bytes :=
  match o with
  | (short, CO_verbose) => [spell short "-v" "--verbose"]
  | (short, CO_port v) => [spell short "-p" "--port"; v]
  | (short, CO_token v) => [spell short "-k" "--auth-token"; v]
  end.

Definition client_opt_apply (g : client_config) (o : bool * client_opt) : client_config :=
  set_options g (match o.2 with CO_port v => atoi v mod 2 ^ 16 | _ => cc_server_port g end)
    (match o.2 with CO_verbose => true | _ => cc_verbose g end)
    (match o.2 with CO_token v => Some v | _ => cc_auth_token g end).

Definition command_args (c : client_command) : list bytes :=
  match c with
  | CC_discover => [str "discover"]
  | CC_list ip => [str "list"; ip]
  | CC_attach ip b => [str "attach"; ip; b]
  | CC_detach p => [str "detach"; p]
  | CC_status => [str "status"]
  end.

Definition command_apply (g : client_config) (c : client_command) : client_config :=
  match c with
  | CC_discover => set_command g CMD_DISCOVER (cc_server_ip g) (cc_busid g) (cc_port g)
  | CC_list ip => set_command g CMD_LIST (take 63 (cstr ip)) (cc_busid g) (cc_port g)
  | CC_attach ip b => set_command g CMD_ATTACH (take 63 (cstr ip)) (take 31 (cstr b)) (cc_port g)
  | CC_detach p => set_command g CMD_DETACH (cc_server_ip g) (cc_busid g) (atoi p)
  | CC_status => set_command g CMD_STATUS (cc_server_ip g) (cc_busid g) (cc_port g)
  end.

Lemma parse_client_opt g o rest :
  parse_options g (client_opt_args o ++ rest) = parse_options (client_opt_apply g o) rest.
Proof. by destruct o as [[] []]. Qed.

(** the command line means what it says: options in any order and number, in
    either form, the last of each kind winning, followed by a command, give the
    configuration they spell; an option after the command is not looked at, and
    without a command nothing is run. *)
Theorem client_args_roundtrip g opts c extra :
  parse_args g (concat (map client_opt_args opts) ++ command_args c ++ extra) =
    (0, command_apply (fold_left client_opt_apply opts g) c) /\
  parse_args g (concat (map client_opt_args opts)) = (-1, fold_left client_opt_apply opts g).
Proof.
  revert g. induction opts as [|o opts IH]; intros g; cbn [map concat fold_left].
  - split; [by destruct c|done].
  - unfold parse_args in *. rewrite <- !app_assoc, !parse_client_opt. apply IH.
Qed.

(** ** Witnesses *)

Definition example_client_env : client_env := {|
  ce_log := {| le_mutex := 0; le_console := true; le_call := example_call (str "starting") |};
  ce_wsa := 0; ce_token := NULL; ce_calloc := true; ce_list_mutex := 0; ce_alloc := Some 4096;
  ce_adapters := example_adapters; ce_ntop := decimal_ntop; ce_undef := 0 |}.

Definition no_driver : SimVhci.vhci := SimVhci.start false [].


Definition attach_config : client_config :=
  (parse_args client_default [str "attach"; str "server"; str "2-14"]).2.

Lemma attach_command_undone_witness :
  exists n' dd', cmd_attach example_client_env attach_config NULL
      (example_net [import_reply], SimVhci.start true []) = (0, (n', dd')) /\ ws_open n' = {[5]} /\
  exists sock devid, vd_requests dd' = [PLUGIN_HARDWARE sock devid; UNPLUG_HARDWARE 0].
Proof.
  destruct (cmd_attach example_client_env attach_config NULL
    (example_net [import_reply], SimVhci.start true [])) as [code [n' dd']] eqn:E.
  destruct (attach_command_undone example_client_env attach_config NULL (example_net [import_reply])
    (SimVhci.start true []) code n' dd' E) as (_ & Ho & _ & Hr).
  assert (code = 0) as ->.
  { change code with (code, (n', dd')).1. rewrite <- E. vm_compute. reflexivity. }
  exists n', dd'. split; [reflexivity|]. split; [exact Ho|]. exact (Hr eq_refl).
Defined.

(** Detaching port 3 of nothing succeeds. *)
Lemma detach_command_no_request_witness :
  (cmd_detach example_client_env (parse_args client_default [str "detach"; str "3"]).2
     (example_net [], SimVhci.start true [])).1 = 0 /\
  vd_requests (cmd_detach example_client_env (parse_args client_default [str "detach"; str "3"]).2
     (example_net [], SimVhci.start true [])).2.2 = [].
Proof.
  destruct (detach_command_no_request example_client_env
    (parse_args client_default [str "detach"; str "3"]).2 (example_net []) (SimVhci.start true [])) as [Hd _].
  destruct (cmd_detach _ _ _) as [code [n' dd']]. destruct (Hd code n' dd' eq_refl) as [Hr Hc].
  split; [|exact Hr]. apply Hc; [reflexivity|]. vm_compute. split; [discriminate|reflexivity].
Defined.

Example attach_command_line :
  parse_args client_default [str "-p"; str "4000"; str "attach"; str "10.0.0.1"; str "1-2"] =
  (0, {| cc_command := CMD_ATTACH; cc_server_ip := str "10.0.0.1"; cc_server_port := 4000;
         cc_busid := str "1-2"; cc_port := -1; cc_verbose := false; cc_auth_token := NULL |}).
Proof. vm_compute. reflexivity. Qed.
