(* ===== verification/GuiClient.v ===== *)
(** * The graphical client ([gui/client_gui.c])

    The window that lists a server's devices and attaches them by their check boxes, on
    the port table and the device list of the client.  The window's messages are
    steps ([client_event]); what the program keeps in controls and reads back, the two
    edit fields and the rows, is state; the window procedure and its buttons are in
    [GuiWindows].

    [on_connect_clicked] hands the module of the remote devices a pointer to an array
    of its own, which is dead when it returns: [cg_token_set] is whether the pointer is
    set, and what the dead array's memory holds when it is read later is an input of the
    operation that reads it ([stale]). *)

From Stdlib Require Import String.
From S2P Require Import Prelude CTypes Format Errors Log Protocol Net ProtocolIO Auth UsbHost DeviceList.
From S2P Require Import UrbQueue UrbHandler ClientManager Server ServerMain NetAddr Vhci Discovery RemoteDevice ClientMain GuiCommon.

(** ** State *)

(** [client_gui_context_t] without the windows, and the texts of its edit fields. *)
Record client_gui := {
  cg_vhci : vhci_context;
  cg_list : remote_device_list;
  cg_current_server : bytes;
  cg_current_port : Z;
  cg_connected : bool;
  cg_discovery : list discovered_server;
  cg_token_set : bool;
  cg_edit_server : bytes;
  cg_edit_token : bytes;
  cg_rows : list gui_row;
}.

Definition cg_set_remote (g : client_gui) (l : remote_device_list) (c : vhci_context) : client_gui := {|
  cg_vhci := c; cg_list := l; cg_current_server := cg_current_server g;
  cg_current_port := cg_current_port g; cg_connected := cg_connected g; cg_discovery := cg_discovery g;
  cg_token_set := cg_token_set g; cg_edit_server := cg_edit_server g; cg_edit_token := cg_edit_token g;
  cg_rows := cg_rows g |}.

Definition cg_set_rows (g : client_gui) (rows : list gui_row) : client_gui := {|
  cg_vhci := cg_vhci g; cg_list := cg_list g; cg_current_server := cg_current_server g;
  cg_current_port := cg_current_port g; cg_connected := cg_connected g; cg_discovery := cg_discovery g;
  cg_token_set := cg_token_set g; cg_edit_server := cg_edit_server g; cg_edit_token := cg_edit_token g;
  cg_rows := rows |}.

Definition cg_set_connected (g : client_gui) (connected : bool) : client_gui := {|
  cg_vhci := cg_vhci g; cg_list := cg_list g; cg_current_server := cg_current_server g;
  cg_current_port := cg_current_port g; cg_connected := connected; cg_discovery := cg_discovery g;
  cg_token_set := cg_token_set g; cg_edit_server := cg_edit_server g; cg_edit_token := cg_edit_token g;
  cg_rows := cg_rows g |}.

Definition cg_set_server (g : client_gui) (server : bytes) (token_set : bool) : client_gui := {|
  cg_vhci := cg_vhci g; cg_list := cg_list g; cg_current_server := server;
  cg_current_port := cg_current_port g; cg_connected := cg_connected g; cg_discovery := cg_discovery g;
  cg_token_set := token_set; cg_edit_server := cg_edit_server g; cg_edit_token := cg_edit_token g;
  cg_rows := cg_rows g |}.

Definition cg_set_edits (g : client_gui) (server token : bytes) (found : list discovered_server) : client_gui := {|
  cg_vhci := cg_vhci g; cg_list := cg_list g; cg_current_server := cg_current_server g;
  cg_current_port := cg_current_port g; cg_connected := cg_connected g; cg_discovery := found;
  cg_token_set := cg_token_set g; cg_edit_server := server; cg_edit_token := token;
  cg_rows := cg_rows g |}.

(** The token that is read through the pointer after [on_connect_clicked]. *)
Definition stale_token (g : client_gui) (stale : bytes) : ptr bytes :=
  if cg_token_set g then Some stale else NULL.

Definition attach_status (attached : bool) : string :=
  if attached then "Attached"%string else "Available"%string.

Section gui.
  Context {N D : Type} `{Winsock N} `{VhciDriver D} `{WideText}.

(** ** The device list *)

Definition is_attached (l : remote_device_list) (busid : bytes) : bool :=
  match remote_device_find_by_busid (Some l) (Some busid) with Some _ => true | NULL => false end.

(** One iteration of the loop over the server's devices. *)
Definition device_row (l : remote_device_list) (dev : usbip_usb_device) : gui_row :=
  let attached := is_attached l (ud_busid dev) in {|
  row_busid := wide_column (ud_busid dev) 32;
  row_vidpid := fmt_0X 4 (ud_idVendor dev) ++ str ":" ++ fmt_0X 4 (ud_idProduct dev);
  row_desc := wide_column (if negb (char_at (ud_path dev) 0 =? 0) then ud_path dev
                           else str (usb_class_string (ud_bDeviceClass dev))) 128;
  row_status := attach_status attached; row_checked := attached |}.

Definition populate_device_list (token : ptr bytes) (g : client_gui) : M (N * D) client_gui :=
  let g := cg_set_rows g [] in
  if negb (cg_connected g) then mret g else
  '(err, devices) ← lift_l (remote_server_list_devices token (Some (cg_current_server g))
                              (cg_current_port g) MAX_DEVICES);
  if negb (error_code_eqb err ERR_SUCCESS) then mret g else
  mret (cg_set_rows g (device_row (cg_list g) <$> devices)).

Definition client_gui_refresh_devices (token : ptr bytes) (g : client_gui) : M (N * D) client_gui :=
  populate_device_list token g.

(** ** Attaching and detaching *)

(** [alloc]: what the allocation of the device returns. *)
Definition client_gui_attach_device (alloc : ptr Z) (token : ptr bytes) (g : client_gui) (busid : bytes) :
    M (N * D) (error_code * client_gui) :=
  if is_attached (cg_list g) busid then mret (ERR_ALREADY_EXISTS, g) else
  '(err, l, v, _) ← remote_device_connect alloc token (Some (cg_list g)) (Some (cg_vhci g))
      (Some (cg_current_server g)) (cg_current_port g) (Some busid);
  mret (err, cg_set_remote g (default (cg_list g) l) (default (cg_vhci g) v)).

Definition client_gui_detach_device (g : client_gui) (busid : bytes) : M (N * D) (error_code * client_gui) :=
  match remote_device_find_by_busid (Some (cg_list g)) (Some busid) with
  | NULL => mret (ERR_NOT_FOUND, g)
  | Some device =>
      '(_, l, v) ← remote_device_disconnect (Some (cg_list g)) (Some (cg_vhci g)) (Some (rd_loc device));
      mret (ERR_SUCCESS, cg_set_remote g (default (cg_list g) l) (default (cg_vhci g) v))
  end.

(** The row whose check box the user changed, with its new value. *)
Definition on_device_checkbox_changed (alloc : ptr Z) (stale : bytes) (g_updating_checkbox : bool)
    (index : nat) (checked : bool) (g : client_gui) : M (N * D) client_gui :=
  if g_updating_checkbox then mret g else
  let g := cg_set_rows g (gui_listview_set_checkbox (cg_rows g) index checked) in
  let busid := column_text (row_text (cg_rows g) index) 32 in
  if char_at busid 0 =? 0 then mret g else
  if gui_listview_get_checkbox (cg_rows g) index then
    '(err, g) ← client_gui_attach_device alloc (stale_token g stale) g busid;
    if error_code_eqb err ERR_SUCCESS
    then mret (cg_set_rows g (set_status_item (cg_rows g) index (attach_status true)))
    else mret (cg_set_rows g (gui_listview_set_checkbox (cg_rows g) index false))
  else
    '(err, g) ← client_gui_detach_device g busid;
    if error_code_eqb err ERR_SUCCESS
    then mret (cg_set_rows g (set_status_item (cg_rows g) index (attach_status false)))
    else mret (cg_set_rows g (gui_listview_set_checkbox (cg_rows g) index true)).

(** [sel]: the selected row. *)
Definition client_gui_attach_selected (alloc : ptr Z) (stale : bytes) (sel : option nat) (g : client_gui) :
    M (N * D) (bool * client_gui) :=
  match sel with
  | None => mret (false, g)
  | Some i =>
      let busid := column_text (row_text (cg_rows g) i) 32 in
      if is_attached (cg_list g) busid then mret (false, g) else
      '(err, l, v, _) ← remote_device_connect alloc (stale_token g stale) (Some (cg_list g))
          (Some (cg_vhci g)) (Some (cg_current_server g)) (cg_current_port g) (Some busid);
      let g := cg_set_remote g (default (cg_list g) l) (default (cg_vhci g) v) in
      if negb (error_code_eqb err ERR_SUCCESS) then mret (false, g) else
      g ← client_gui_refresh_devices (stale_token g stale) g; mret (true, g)
  end.

Definition client_gui_detach_selected (stale : bytes) (sel : option nat) (g : client_gui) :
    M (N * D) client_gui :=
  match sel with
  | None => mret g
  | Some i =>
      let busid := column_text (row_text (cg_rows g) i) 32 in
      match remote_device_find_by_busid (Some (cg_list g)) (Some busid) with
      | NULL => mret g
      | Some device =>
          '(_, l, v) ← remote_device_disconnect (Some (cg_list g)) (Some (cg_vhci g)) (Some (rd_loc device));
          let g := cg_set_remote g (default (cg_list g) l) (default (cg_vhci g) v) in
          client_gui_refresh_devices (stale_token g stale) g
      end
  end.

(** ** Connecting *)

(** The test of the connection asks for one device. *)
Definition client_gui_connect (token : ptr bytes) (g : client_gui) : M (N * D) (bool * client_gui) :=
  '(err, _) ← lift_l (remote_server_list_devices token (Some (cg_current_server g)) (cg_current_port g) 1);
  if negb (error_code_eqb err ERR_SUCCESS) then mret (false, g) else
  g ← client_gui_refresh_devices token (cg_set_connected g true); mret (true, g).

Definition client_gui_disconnect (g : client_gui) : M (N * D) client_gui :=
  '(l, v) ← remote_device_disconnect_all (Some (cg_list g)) (Some (cg_vhci g));
  mret (cg_set_rows (cg_set_connected (cg_set_remote g (default (cg_list g) l) (default (cg_vhci g) v)) false) []).

Definition client_gui_set_server (g : client_gui) (ip : bytes) (token_set : bool) : client_gui :=
  cg_set_server g (copy_str ip 64) token_set.

(** The array [token] is alive until this returns. *)
Definition on_connect_clicked (g : client_gui) : M (N * D) client_gui :=
  if cg_connected g then client_gui_disconnect g else
  let server := copy_str (cg_edit_server g) 64 in
  if char_at server 0 =? 0 then mret g else
  let token := copy_str (cg_edit_token g) (Z.to_nat AUTH_TOKEN_MAX_LEN) in
  let token_set := negb (char_at token 0 =? 0) in
  '(_, g) ← client_gui_connect (if token_set then Some token else NULL) (client_gui_set_server g server token_set);
  mret g.

(** ** Discovery *)

(** The thread, from its start to its message; [broadcast_addr] and [fuel] as in
    [discovery_broadcast]. *)
Definition discovery_thread_func (fuel : nat) (broadcast_addr : bytes) (g : client_gui) :
    M (N * D) (option client_gui) :=
  r ← lift_l (discovery_broadcast fuel broadcast_addr DISCOVERY_TIMEOUT_MS);
  mret ((fun x => cg_set_edits g (cg_edit_server g) (cg_edit_token g) x.2) <$> r).

(** The old results are cleared before the thread starts. *)
Definition on_discover_clicked (g : client_gui) : client_gui :=
  cg_set_edits g (cg_edit_server g) (cg_edit_token g) [].

Definition client_gui_start_discovery (g : client_gui) : client_gui := on_discover_clicked g.

(** The first server found is the one to connect to. *)
Definition show_discovery_results (g : client_gui) : client_gui :=
  match cg_discovery g with
  | [] => g
  | server :: _ => cg_set_edits g (ds_ip_address server) (cg_edit_token g) (cg_discovery g)
  end.

(** ** Start and end *)

Definition client_gui_zero : client_gui := {|
  cg_vhci := vhci_context_zero; cg_list := list_start; cg_current_server := [];
  cg_current_port := USBIP_PORT; cg_connected := false; cg_discovery := []; cg_token_set := false;
  cg_edit_server := str "192.168.1.100"; cg_edit_token := []; cg_rows := [] |}.

(** What [client_gui_init] does once the window is there; a controller that could not
    be set up is only reported. *)
Definition client_gui_init (env : client_env) : M (N * D) client_gui :=
  '(_, _, v) ← lift_r (vhci_init (ce_calloc env) vhci_start (Some vhci_context_zero));
  let l := (remote_device_list_init (ce_list_mutex env) (Some list_start)).2 in
  mret (cg_set_remote client_gui_zero (default list_start l) (default vhci_context_zero v)).

Definition client_gui_cleanup (g : client_gui) : M (N * D) client_gui :=
  '(l, v) ← remote_device_disconnect_all (Some (cg_list g)) (Some (cg_vhci g));
  '(l, v) ← remote_device_list_cleanup l v;
  v ← lift_r (vhci_cleanup v);
  mret (cg_set_remote g (default (cg_list g) l) (default (cg_vhci g) v)).

(** [WM_CLOSE]: whether the window goes; [confirmed]: the user's answer. *)
Definition on_close (confirmed : bool) (g : client_gui) : bool :=
  if rl_count (cg_list g) >? 0 then confirmed else true.
End gui.

(** ** Lemmas *)

(** The bus ids of what is attached. *)
Definition attached_ids (l : remote_device_list) : list bytes := rd_busid <$> rl_devices l.

Lemma is_attached_true l b :
  rl_initialized l = true -> Forall no_nul (attached_ids l) -> no_nul b ->
  is_attached l b = bool_decide (b ∈ attached_ids l).
Proof.
  intros Hi Hd Hb. unfold is_attached, remote_device_find_by_busid, remote_device_find_when. rewrite Hi. simpl.
  unfold attached_ids in *. destruct (find_first _ _) as [d|] eqn:Ef.
  - apply find_first_Some in Ef as [Hin Hs%streq_true]. rewrite Forall_fmap, Forall_forall in Hd.
    rewrite !cstr_id in Hs by (done || by apply Hd). subst b. symmetry. apply bool_decide_eq_true.
    by apply list_elem_of_fmap_2.
  - apply find_first_None in Ef. rewrite Forall_forall in Ef. symmetry. apply bool_decide_eq_false.
    intros (d & -> & Hin)%list_elem_of_fmap. specialize (Ef d Hin). simpl in Ef. by rewrite streq_refl in Ef.
Qed.

Section laws.
  Context {N D : Type} `{WinsockLaws N} `{VhciDriverLaws D} `{WideTextLaws}.
  Implicit Types (n : N) (dd : D) (O : gset Z) (g : client_gui).

Lemma rl_inv_net O l c n n' : rl_inv O l c n -> ws_open n' = ws_open n -> rl_inv O l c n'.
Proof. intros [] Ho. split; try done. by rewrite Ho. Qed.

(** The consistent states: of the list, the port table and the sockets
    ([rl_inv]), on the controller that was opened ([c0], [d0]); no bus id is attached
    twice; and when not connected there is nothing attached and nothing shown. *)
Record client_gui_inv O (c0 : vhci_context) (d0 : D) g n dd : Prop := {
  ci_remote : rl_inv O (cg_list g) (cg_vhci g) n;
  ci_kept : vhci_kept c0 (cg_vhci g) d0 dd;
  ci_busids : NoDup (attached_ids (cg_list g));
  ci_plain : Forall no_nul (attached_ids (cg_list g));
  ci_idle : cg_connected g = false -> cg_rows g = [] /\ rl_devices (cg_list g) = [];
}.

(** A change of the display, and traffic. *)
Lemma inv_display O c0 d0 g n dd g' n' :
  client_gui_inv O c0 d0 g n dd -> cg_list g' = cg_list g -> cg_vhci g' = cg_vhci g ->
  cg_connected g' = cg_connected g -> (cg_rows g = [] -> cg_connected g = false -> cg_rows g' = []) ->
  ws_open n' = ws_open n -> client_gui_inv O c0 d0 g' n' dd.
Proof.
  intros [Hr Hk Hb Hp Hi] El Ev Ec Erows Eo. split; rewrite ?El, ?Ev, ?Ec; try done.
  - by eapply rl_inv_net.
  - intros Hc. destruct (Hi Hc) as [? ?]. split; [by apply Erows|done].
Qed.

Lemma populate_spec token g n dd g' n' dd' :
  populate_device_list token g (n, dd) = (g', (n', dd')) ->
  dd' = dd /\ ws_open n' = ws_open n /\ exists rows, g' = cg_set_rows g rows /\
  (cg_connected g = false -> rows = []) /\
  exists devs, rows = device_row (cg_list g) <$> devs /\ Z.of_nat (length devs) <= MAX_DEVICES.
Proof.
  intros E. unfold populate_device_list in E. cbv zeta in E.
  change (cg_connected (cg_set_rows g [])) with (cg_connected g) in E.
  destruct (cg_connected g); cbn [negb] in E.
  2: { mret_eq. split_and!; [done..|]. exists []. split_and!; [done..|]. exists []. by split. }
  apply M_bind_inv in E as ([err devs] & st1 & E1 & E). apply lift_l_inv in E1 as (n1 & E1 & ->).
  apply list_devices_open in E1 as (Ho & Hl & _).
  destruct (negb _); unfold mret, M_ret in E; injection E as <- <- <-; (split; [done|]); (split; [done|]).
  - exists []. split_and!; [done..|]. exists []. by split.
  - eexists. split; [done|]. split; [done|]. exists devs. split; [done|]. unfold MAX_DEVICES in *. lia.
Qed.

Lemma client_populate_inv O c0 d0 token g n dd g' n' dd' :
  client_gui_inv O c0 d0 g n dd -> populate_device_list token g (n, dd) = (g', (n', dd')) ->
  client_gui_inv O c0 d0 g' n' dd'.
Proof.
  intros Hg (-> & Ho & rows & -> & Hrows & _)%populate_spec.
  by apply (inv_display O c0 d0 g n); try done; intros _ Hc; apply Hrows.
Qed.

(** A device that the list has not is connected, or nothing changes. *)
Lemma connect_inv O c0 d0 alloc token g b n dd e l v out n' dd' :
  client_gui_inv O c0 d0 g n dd -> cg_connected g = true ->
  (forall loc, alloc = Some loc -> loc ∉ (rd_loc <$> rl_devices (cg_list g))) ->
  no_nul b -> (length b < 32)%nat -> is_attached (cg_list g) b = false ->
  remote_device_connect alloc token (Some (cg_list g)) (Some (cg_vhci g)) (Some (cg_current_server g))
    (cg_current_port g) (Some b) (n, dd) = ((e, l, v, out), (n', dd')) ->
  let g' := cg_set_remote g (default (cg_list g) l) (default (cg_vhci g) v) in
  client_gui_inv O c0 d0 g' n' dd' /\
  (e <> ERR_SUCCESS /\ attached_ids (cg_list g') = attached_ids (cg_list g) \/
   e = ERR_SUCCESS /\ attached_ids (cg_list g') = b :: attached_ids (cg_list g)).
Proof.
  intros [Hr Hk Hb Hp Hi] Hc Hf Hn Hl Ha E.
  eapply connect_any in E as (l' & c' & -> & -> & K & Hr' & E); [|done|done]. cbn [default id].
  rewrite is_attached_true in Ha by (done || apply Hr). apply bool_decide_eq_false in Ha.
  destruct E as [(He & -> & _)|(-> & dv & -> & _ & Eb & _)].
  - split; [|by left]. split; try done; by eapply kept_trans.
  - rewrite copy_str_id in Eb by done.
    assert (attached_ids (add_device dv (cg_list g)) = b :: attached_ids (cg_list g)) as Eids.
    { unfold attached_ids. simpl. by rewrite Eb. }
    split; [|by right]. split; simpl; rewrite ?Eids; [done|by eapply kept_trans|by constructor..|congruence].
Qed.

(** A device of the list is disconnected: its bus id is gone. *)
Lemma disconnect_inv O c0 d0 g b device n dd e l v n' dd' :
  client_gui_inv O c0 d0 g n dd ->
  remote_device_find_by_busid (Some (cg_list g)) (Some b) = Some device -> no_nul b ->
  remote_device_disconnect (Some (cg_list g)) (Some (cg_vhci g)) (Some (rd_loc device)) (n, dd) =
    ((e, l, v), (n', dd')) ->
  let g' := cg_set_remote g (default (cg_list g) l) (default (cg_vhci g) v) in
  client_gui_inv O c0 d0 g' n' dd' /\
  exists ids1 ids2, attached_ids (cg_list g) = ids1 ++ b :: ids2 /\ attached_ids (cg_list g') = ids1 ++ ids2.
Proof.
  intros [Hr Hk Hb Hp Hi] Hf Hn E.
  unfold remote_device_find_by_busid, remote_device_find_when in Hf. rewrite (ri_init _ _ _ _ Hr) in Hf.
  apply find_first_Some in Hf as [Hin Hs%streq_true].
  assert (rd_busid device = b) as Eb.
  { rewrite !cstr_id in Hs; [done|done|]. unfold attached_ids in Hp. rewrite Forall_fmap, Forall_forall in Hp. by apply Hp. }
  apply (disconnect_cases _ _ _ _ _ _ _ _ _ _ _ Hr) in E as (l' & c' & -> & -> & Hr' & K & E). cbn [default id].
  destruct E as [(_ & Hno & _)|(_ & l1 & d & l2 & El & Hd & -> & _)].
  { destruct Hno. by apply list_elem_of_fmap_2. }
  assert (d = device) as ->.
  { pose proof (ri_locs _ _ _ _ Hr) as Hnd. rewrite El, fmap_app, fmap_cons in Hnd.
    rewrite El in Hin. apply elem_of_app in Hin as [Hin|[->|Hin]%elem_of_cons]; [|done|].
    - apply NoDup_app in Hnd as (_ & Hx & _). destruct (Hx (rd_loc device)); [by apply list_elem_of_fmap_2|].
      rewrite Hd. by left.
    - apply NoDup_app in Hnd as (_ & _ & [Hx _]%NoDup_cons). destruct Hx. rewrite Hd. by apply list_elem_of_fmap_2. }
  assert (attached_ids (cg_list g) = (rd_busid <$> l1) ++ b :: (rd_busid <$> l2)) as Eids.
  { unfold attached_ids. by rewrite El, fmap_app, fmap_cons, Eb. }
  assert (attached_ids {| rl_devices := l1 ++ l2; rl_count := rl_count (cg_list g) - 1;
    rl_initialized := rl_initialized (cg_list g) |} = (rd_busid <$> l1) ++ (rd_busid <$> l2)) as Eids'.
  { unfold attached_ids. simpl. by rewrite fmap_app. }
  split; [|by exists (rd_busid <$> l1), (rd_busid <$> l2)].
  rewrite Eids in Hb, Hp. split; simpl; rewrite ?Eids'; [done|by eapply kept_trans|..].
  - by eapply NoDup_drop.
  - apply Forall_app in Hp as [? [_ ?]%Forall_cons]. by apply Forall_app.
  - intros Hc. destruct (Hi Hc) as [? Hnil]. rewrite El in Hnil. by destruct l1.
Qed.

(** Rows are shown only when connected. *)
Lemma row_connected O c0 d0 g n dd i :
  client_gui_inv O c0 d0 g n dd -> is_Some (cg_rows g !! i) -> cg_connected g = true.
Proof.
  intros Hg [r Hr]. destruct (cg_connected g) eqn:Ec; [done|].
  destruct (ci_idle _ _ _ _ _ _ Hg Ec) as [Hn _]. by rewrite Hn in Hr.
Qed.

Definition fresh_device g (alloc : ptr Z) : Prop :=
  forall loc, alloc = Some loc -> loc ∉ (rd_loc <$> rl_devices (cg_list g)).

Lemma client_attach_inv O c0 d0 alloc token g b n dd e g' n' dd' :
  client_gui_inv O c0 d0 g n dd -> cg_connected g = true -> fresh_device g alloc ->
  no_nul b -> (length b < 32)%nat ->
  client_gui_attach_device alloc token g b (n, dd) = ((e, g'), (n', dd')) ->
  client_gui_inv O c0 d0 g' n' dd' /\ cg_rows g' = cg_rows g /\ cg_connected g' = true /\
  (e <> ERR_SUCCESS /\ attached_ids (cg_list g') = attached_ids (cg_list g) \/
   e = ERR_SUCCESS /\ attached_ids (cg_list g') = b :: attached_ids (cg_list g)).
Proof.
  intros Hg Hc Hf Hn Hl E. unfold client_gui_attach_device in E.
  destruct (is_attached (cg_list g) b) eqn:Ea.
  { mret_eq. split_and!; [done..|]. by left. }
  apply M_bind_inv in E as ([[[e1 l] v] out] & [n1 dd1] & E1 & E).
  eapply connect_inv in E1 as [Hg' Hids]; [|done..]. unfold mret, M_ret in E. injection E as <- <- <- <-.
  by split_and!.
Qed.

Lemma client_detach_inv O c0 d0 g b n dd e g' n' dd' :
  client_gui_inv O c0 d0 g n dd -> no_nul b ->
  client_gui_detach_device g b (n, dd) = ((e, g'), (n', dd')) ->
  client_gui_inv O c0 d0 g' n' dd' /\ cg_rows g' = cg_rows g /\ cg_connected g' = cg_connected g /\
  (e <> ERR_SUCCESS /\ is_attached (cg_list g) b = false /\ g' = g \/
   e = ERR_SUCCESS /\ exists ids1 ids2, attached_ids (cg_list g) = ids1 ++ b :: ids2 /\
     attached_ids (cg_list g') = ids1 ++ ids2).
Proof.
  intros Hg Hn E. unfold client_gui_detach_device in E.
  destruct (remote_device_find_by_busid _ _) as [device|] eqn:Ef.
  2: { assert (is_attached (cg_list g) b = false) as Ha by (unfold is_attached; by rewrite Ef).
       unfold mret, M_ret in E. injection E as <- <- <- <-. split_and!; [done..|]. by left. }
  apply M_bind_inv in E as ([[e1 l] v] & [n1 dd1] & E1 & E).
  eapply disconnect_inv in E1 as [Hg' Hids]; [|done..]. unfold mret, M_ret in E. injection E as <- <- <- <-.
  split_and!; [done..|]. by right.
Qed.

(** A change of the check boxes and of their column leaves the rest alone. *)
Lemma set_rows_inv O c0 d0 g n dd rows :
  client_gui_inv O c0 d0 g n dd -> (cg_rows g = [] -> rows = []) ->
  client_gui_inv O c0 d0 (cg_set_rows g rows) n dd.
Proof. intros Hg Hr. apply (inv_display O c0 d0 g n); try done; intros ? _; by apply Hr. Qed.

Lemma checkbox_event_inv O c0 d0 alloc stale updating i checked g n dd g' n' dd' :
  client_gui_inv O c0 d0 g n dd -> fresh_device g alloc -> is_Some (cg_rows g !! i) ->
  on_device_checkbox_changed alloc stale updating i checked g (n, dd) = (g', (n', dd')) ->
  client_gui_inv O c0 d0 g' n' dd'.
Proof.
  intros Hg Hf Hi E. pose proof (row_connected _ _ _ _ _ _ _ Hg Hi) as Hc.
  unfold on_device_checkbox_changed in E. destruct updating; [by mret_eq|].
  set (g1 := cg_set_rows g (gui_listview_set_checkbox (cg_rows g) i checked)) in *.
  assert (client_gui_inv O c0 d0 g1 n dd) as Hg1 by (apply set_rows_inv; [done|apply alter_nil]).
  destruct (column_text_short (row_text (cg_rows g1) i) 32) as [Hn Hl]; [lia|].
  set (b := column_text _ _) in *. cbv zeta in E. destruct (_ =? 0); [unfold mret, M_ret in E; by simplify_eq|].
  destruct (gui_listview_get_checkbox _ _) in E;
    apply M_bind_inv in E as ([e g2] & [n2 dd2] & E2 & E).
  - apply (client_attach_inv O c0 d0) in E2 as (Hg2 & _); [|done..].
    destruct (error_code_eqb e ERR_SUCCESS); unfold mret, M_ret in E; injection E as <- <- <-;
      (apply set_rows_inv; [done|apply alter_nil]).
  - apply (client_detach_inv O c0 d0) in E2 as (Hg2 & _); [|done..].
    destruct (error_code_eqb e ERR_SUCCESS); unfold mret, M_ret in E; injection E as <- <- <-;
      (apply set_rows_inv; [done|apply alter_nil]).
Qed.

Lemma attach_selected_inv O c0 d0 alloc stale i g n dd ok g' n' dd' :
  client_gui_inv O c0 d0 g n dd -> fresh_device g alloc -> is_Some (cg_rows g !! i) ->
  client_gui_attach_selected alloc stale (Some i) g (n, dd) = ((ok, g'), (n', dd')) ->
  client_gui_inv O c0 d0 g' n' dd'.
Proof.
  intros Hg Hf Hi E. pose proof (row_connected _ _ _ _ _ _ _ Hg Hi) as Hc.
  unfold client_gui_attach_selected in E. destruct (column_text_short (row_text (cg_rows g) i) 32) as [Hn Hl]; [lia|].
  set (b := column_text _ _) in *. cbv zeta in E. destruct (is_attached (cg_list g) b) eqn:Ea; [by mret_eq|].
  apply M_bind_inv in E as ([[[e l] v] out] & [n1 dd1] & E1 & E).
  eapply connect_inv in E1 as [Hg' _]; [|done..].
  destruct (negb _); [unfold mret, M_ret in E; by injection E as <- <- <- <-|].
  apply M_bind_inv in E as (g2 & [n2 dd2] & E2 & E). eapply client_populate_inv in E2; [|exact Hg'].
  unfold mret, M_ret in E. by injection E as <- <- <- <-.
Qed.

Lemma detach_selected_inv O c0 d0 stale i g n dd g' n' dd' :
  client_gui_inv O c0 d0 g n dd ->
  client_gui_detach_selected stale (Some i) g (n, dd) = (g', (n', dd')) -> client_gui_inv O c0 d0 g' n' dd'.
Proof.
  intros Hg E. unfold client_gui_detach_selected in E.
  destruct (column_text_short (row_text (cg_rows g) i) 32) as [Hn _]; [lia|].
  set (b := column_text _ _) in *. cbv zeta in E.
  destruct (remote_device_find_by_busid _ _) as [device|] eqn:Ef; [|by mret_eq].
  apply M_bind_inv in E as ([[e l] v] & [n1 dd1] & E1 & E).
  eapply disconnect_inv in E1 as [Hg' _]; [|done..]. by eapply client_populate_inv in E.
Qed.

(** Disconnecting empties the list and the window. *)
Lemma disconnect_all_ids O c0 d0 g l v n dd n' dd' :
  client_gui_inv O c0 d0 g n dd ->
  remote_device_disconnect_all (Some (cg_list g)) (Some (cg_vhci g)) (n, dd) = ((l, v), (n', dd')) ->
  exists l' c', l = Some l' /\ v = Some c' /\ rl_inv O l' c' n' /\ vhci_kept (cg_vhci g) c' dd dd' /\
    rl_devices l' = [] /\ vd_requests dd' = vd_requests dd ++ (UNPLUG_HARDWARE <$> rd_ports (cg_list g)).
Proof.
  intros Hg E. unfold remote_device_disconnect_all in E. pose proof (ci_remote _ _ _ _ _ _ Hg) as Hr.
  rewrite (ri_init _ _ _ _ Hr) in E. cbn [negb] in E.
  apply M_bind_inv in E as ([l1 v1] & [n1 dd1] & E1 & E). mret_eq.
  apply (disconnect_all_cases _ _ _ _ _ _ _ _ _ _ Hr) in E1 as (c' & -> & ? & ? & ? & ?); [|done].
  by exists l1, c'.
Qed.

Lemma disconnect_event_inv O c0 d0 g n dd g' n' dd' :
  client_gui_inv O c0 d0 g n dd -> client_gui_disconnect g (n, dd) = (g', (n', dd')) ->
  client_gui_inv O c0 d0 g' n' dd'.
Proof.
  intros Hg E. unfold client_gui_disconnect in E. apply M_bind_inv in E as ([l v] & [n1 dd1] & E1 & E).
  eapply disconnect_all_ids in E1 as (l' & c' & -> & -> & Hr & K & Hnil & _); [|done].
  unfold mret, M_ret in E. injection E as <- <- <-. cbn [default id].
  split; simpl; unfold attached_ids; rewrite ?Hnil; try done; [|constructor].
  eapply kept_trans; [apply Hg|done].
Qed.

Lemma connect_event_inv O c0 d0 g n dd g' n' dd' :
  client_gui_inv O c0 d0 g n dd -> on_connect_clicked g (n, dd) = (g', (n', dd')) ->
  client_gui_inv O c0 d0 g' n' dd'.
Proof.
  intros Hg E. unfold on_connect_clicked in E. destruct (cg_connected g) eqn:Ec; [by eapply disconnect_event_inv|].
  cbv zeta in E. destruct (_ =? 0); [by mret_eq|]. set (token := if negb _ then Some _ else NULL) in E.
  apply M_bind_inv in E as ([ok g1] & [n1 dd1] & E1 & E). unfold mret, M_ret in E. injection E as <- <- <-.
  unfold client_gui_connect in E1. set (g2 := client_gui_set_server _ _ _) in E1.
  assert (client_gui_inv O c0 d0 g2 n dd) as Hg2 by (by apply (inv_display O c0 d0 g n)).
  assert (cg_connected g2 = false) as Ec2 by done.
  apply M_bind_inv in E1 as ([err devs] & st3 & E3 & E1). apply lift_l_inv in E3 as (n3 & E3 & ->).
  apply list_devices_open in E3 as (Ho & _).
  destruct (negb (error_code_eqb err ERR_SUCCESS)).
  { unfold mret, M_ret in E1. injection E1 as <- <- <- <-. by apply (inv_display O c0 d0 g2 n). }
  apply M_bind_inv in E1 as (g4 & [n4 dd4] & E4 & E1). unfold mret, M_ret in E1. injection E1 as <- <- <- <-.
  eapply client_populate_inv in E4; [done|].
  destruct Hg2 as [Hr Hk Hb Hp Hi]. split; try done. by eapply rl_inv_net.
Qed.
End laws.

(** ** The window's life *)

Section events.
  Context {N D : Type} `{WinsockLaws N} `{VhciDriverLaws D} `{WideTextLaws}.
  Implicit Types (n : N) (dd : D) (O : gset Z) (g : client_gui).

(** The messages of the window, and what happens beside it.  The user changes the box
    of a row, or selects a row, that is shown. *)
Inductive client_event : client_gui * (N * D) -> client_gui * (N * D) -> Prop :=
  | ce_connect g st g' st' : on_connect_clicked g st = (g', st') -> client_event (g, st) (g', st')
  | ce_refresh g st stale g' st' :
      client_gui_refresh_devices (stale_token g stale) g st = (g', st') -> client_event (g, st) (g', st')
  | ce_checkbox g st alloc stale updating i checked g' st' :
      fresh_device g alloc -> is_Some (cg_rows g !! i) ->
      on_device_checkbox_changed alloc stale updating i checked g st = (g', st') ->
      client_event (g, st) (g', st')
  | ce_attach_selected g st alloc stale i ok g' st' :
      fresh_device g alloc -> is_Some (cg_rows g !! i) ->
      client_gui_attach_selected alloc stale (Some i) g st = ((ok, g'), st') ->
      client_event (g, st) (g', st')
  | ce_detach_selected g st stale i g' st' :
      client_gui_detach_selected stale (Some i) g st = (g', st') -> client_event (g, st) (g', st')
  | ce_edit g st server token :
      (* the user types *)
      client_event (g, st) (cg_set_edits g server token (cg_discovery g), st)
  | ce_discover_clicked g st : client_event (g, st) (on_discover_clicked g, st)
  | ce_discover g st fuel addr g' st' :
      discovery_thread_func fuel addr g st = (Some g', st') -> client_event (g, st) (g', st')
  | ce_discovered g st : client_event (g, st) (show_discovery_results g, st)
  | ce_network g n n' dd :
      ws_open n' = ws_open n -> client_event (g, (n, dd)) (g, (n', dd)).

Definition event_inv O c0 d0 (s : client_gui * (N * D)) : Prop := client_gui_inv O c0 d0 s.1 s.2.1 s.2.2.

Lemma client_event_inv O c0 d0 x y : client_event x y -> event_inv O c0 d0 x -> event_inv O c0 d0 y.
Proof.
  intros He. unfold event_inv. destruct He as [g [n dd] g' [n' dd'] E|g [n dd] stale g' [n' dd'] E
    |g [n dd] alloc stale up i checked g' [n' dd'] Hf Hi E|g [n dd] alloc stale i ok g' [n' dd'] Hf Hi E
    |g [n dd] stale i g' [n' dd'] E|g [n dd] server token|g [n dd]|g [n dd] fuel addr g' [n' dd'] E|g [n dd]|g n n' dd Ho];
    simpl; intros Hg.
  - by eapply connect_event_inv.
  - by eapply client_populate_inv.
  - by eapply checkbox_event_inv.
  - by eapply attach_selected_inv.
  - by eapply detach_selected_inv.
  - by apply (inv_display O c0 d0 g n).
  - by apply (inv_display O c0 d0 g n).
  - unfold discovery_thread_func in E. apply M_bind_inv in E as ([x|] & [n1 dd1] & E1 & E);
      unfold mret, M_ret in E; [|done]. injection E as <- <- <-. apply lift_l_inv in E1 as (n2 & E1 & ?). simplify_eq.
    apply broadcast_open in E1. by apply (inv_display O c0 d0 g n).
  - unfold show_discovery_results. destruct (cg_discovery g); [done|]. by apply (inv_display O c0 d0 g n).
  - by apply (inv_display O c0 d0 g n).
Qed.

Lemma client_events_inv O c0 d0 x y : rtc client_event x y -> event_inv O c0 d0 x -> event_inv O c0 d0 y.
Proof. induction 1 as [|x y z Hxy _ IH]; [done|]. intros Hx. by eapply IH, client_event_inv. Qed.

Lemma client_init_inv env n dd g n' dd' :
  ce_calloc env = true -> ce_list_mutex env = 0 -> client_gui_init env (n, dd) = (g, (n', dd')) ->
  client_gui_inv (ws_open n) (cg_vhci g) dd' g n' dd' /\ controller dd (cg_vhci g) dd'.
Proof.
  intros Hc Hm E. unfold client_gui_init in E. rewrite Hc, Hm in E.
  apply M_bind_inv in E as ([[e g1] v] & [n1 dd1] & E1 & E).
  apply lift_r_inv in E1 as (dd2 & E1 & ?). simplify_eq.
  apply init_spec in E1 as (c & _ & -> & Hi & _ & Hf & Hh).
  unfold mret, M_ret in E. injection E as <- <- <-. cbn [default id]. split; [|done].
  split; simpl; try done; [by eapply (list_init_inv list_start)|constructor..].
Qed.

(** Closing the window. *)
Lemma client_cleanup_spec O dd c0 d0 g n1 d1 g' n' d' :
  client_gui_inv O c0 d0 g n1 d1 -> controller dd c0 d0 ->
  client_gui_cleanup g (n1, d1) = (g', (n', d')) ->
  ws_open n' = O /\ vd_handles d' = vd_handles dd /\ rl_devices (cg_list g') = [] /\
  vd_requests d' = vd_requests d1 ++ (UNPLUG_HARDWARE <$> rd_ports (cg_list g)).
Proof.
  intros Hg Hc E. unfold client_gui_cleanup in E. apply M_bind_inv in E as ([l v] & [n2 d2] & E1 & E).
  eapply disconnect_all_ids in E1 as (l2 & c2 & -> & -> & Hr2 & K2 & Hnil2 & R2); [|done].
  apply M_bind_inv in E as ([l3 v3] & [n3 d3] & E2 & E).
  apply (list_cleanup_cases _ _ _ _ _ _ _ _ _ Hr2) in E2 as (l4 & c4 & -> & -> & K4 & Hnil4 & _ & _ & Ho & Hf & R4).
  apply M_bind_inv in E as (v5 & [n5 d5] & E5 & E).
  assert (vhci_kept c0 c4 d0 d3) as K.
  { eapply kept_trans; [apply Hg|]. by eapply kept_trans. }
  apply (end_controller _ _ _ _ _ _ _ _ _ Hc K Hf) in E5 as (-> & R5 & H5).
  unfold mret, M_ret in E. injection E as <- <- <-. split; [done|]. split; [done|]. split; [done|].
  rewrite R5, R4, R2. unfold rd_ports at 2. rewrite Hnil2. simpl. by rewrite app_nil_r.
Qed.

(** What happens to a row with a plain bus id: the box takes the value, and keeps it when
    the device could be attached or detached. *)
Lemma checkbox_run alloc stale i checked g r n dd g' n' dd' :
  cg_rows g !! i = Some r -> ascii_text (row_busid r) -> row_busid r <> [] ->
  (length (row_busid r) < 32)%nat ->
  on_device_checkbox_changed alloc stale false i checked g (n, dd) = (g', (n', dd')) ->
  exists g1 e g2, g1 = cg_set_rows g (<[i := row_set_checked r checked]> (cg_rows g)) /\
  (if checked then client_gui_attach_device alloc (stale_token g stale) g1 (row_busid r)
   else client_gui_detach_device g1 (row_busid r)) (n, dd) = ((e, g2), (n', dd')) /\
  (cg_rows g2 = cg_rows g1 -> g' = cg_set_rows g2 (<[i :=
     if error_code_eqb e ERR_SUCCESS then row_set_status (row_set_checked r checked) (attach_status checked)
     else row_set_checked r (negb checked)]> (cg_rows g))).
Proof.
  intros Hr Ha Hne Hl E. unfold on_device_checkbox_changed in E.
  set (g1 := cg_set_rows g (gui_listview_set_checkbox (cg_rows g) i checked)) in *.
  assert (cg_rows g1 = <[i := row_set_checked r checked]> (cg_rows g)) as Hr1 by (by apply (alter_row (fun x => row_set_checked x checked))).
  assert (column_text (row_text (cg_rows g1) i) 32 = row_busid r) as Et.
  { unfold g1. simpl cg_rows. rewrite row_text_shown. unfold row_text. rewrite Hr. by apply column_text_ascii. }
  assert ((char_at (row_busid r) 0 =? 0) = false) as Hz.
  { apply Z.eqb_neq. destruct (row_busid r) as [|x b]; [done|]. apply Forall_cons in Ha as [? _].
    unfold char_at. simpl. lia. }
  assert (gui_listview_get_checkbox (cg_rows g1) i = checked) as Eck by (by apply checkbox_shown).
  cbv zeta in E. rewrite Et, Hz, Eck in E.
  assert (forall f, alter f i (cg_rows g1) = <[i := f (row_set_checked r checked)]> (cg_rows g)) as Hrow.
  { intros f. rewrite Hr1. erewrite alter_row; [apply list_insert_insert_eq|].
    apply list_lookup_insert_eq. by eapply lookup_lt_Some. }
  exists g1. destruct checked; apply M_bind_inv in E as ([e g2] & [n2 dd2] & E2 & E); exists e, g2;
    (split; [unfold g1; f_equal; exact Hr1|]).
  all: destruct (error_code_eqb e ERR_SUCCESS); unfold mret, M_ret in E; injection E as <- <- <-;
    (split; [exact E2|]); intros Erows; unfold set_status_item, gui_listview_set_checkbox; by rewrite Erows, Hrow.
Qed.

(** ** Properties *)


(** a check box shows whether its device is attached.  When the user changes the box
    of a row that showed the truth, the device is attached or detached, or the attempt
    fails and the box goes back: afterwards the box shows the truth, detaching
    always works, the other rows and the other devices are as they were. *)
Theorem client_box_shows_attachment O c0 d0 g n dd alloc stale i r checked g' n' dd' :
  client_gui_inv O c0 d0 g n dd -> fresh_device g alloc -> cg_rows g !! i = Some r ->
  ascii_text (row_busid r) -> row_busid r <> [] -> (length (row_busid r) < 32)%nat ->
  row_checked r = is_attached (cg_list g) (row_busid r) -> checked = negb (row_checked r) ->
  on_device_checkbox_changed alloc stale false i checked g (n, dd) = (g', (n', dd')) ->
  exists r', cg_rows g' = <[i := r']> (cg_rows g) /\ row_busid r' = row_busid r /\
    row_checked r' = is_attached (cg_list g') (row_busid r) /\
    (row_checked r' = checked -> row_status r' = attach_status checked) /\
    (checked = false -> row_checked r' = false) /\
    forall b, b <> row_busid r ->
      (b ∈ attached_ids (cg_list g') <-> b ∈ attached_ids (cg_list g)).
Proof.
  intros Hg Hf Hr Ha Hne Hl Hb -> E.
  pose proof (row_connected _ _ _ _ _ _ _ Hg (mk_is_Some _ _ Hr)) as Hc.
  assert (no_nul (row_busid r)) as Hn by (eapply Forall_impl; [exact Ha|simpl; lia]).
  apply checkbox_run with (1 := Hr) in E as (g1 & e & g2 & -> & E & Hg'); [|done..].
  set (g1 := cg_set_rows _ _) in *.
  assert (client_gui_inv O c0 d0 g1 n dd) as Hg1.
  { apply set_rows_inv; [done|]. intros Hnil. by rewrite Hnil in Hr. }
  assert (forall l, rl_inv O l (cg_vhci g2) n' -> Forall no_nul (attached_ids l) ->
    is_attached l (row_busid r) = bool_decide (row_busid r ∈ attached_ids l)) as Hat.
  { intros l Hrl Hpl. apply is_attached_true; [apply Hrl|done|done]. }
  rewrite is_attached_true in Hb by (done || apply Hg).
  destruct (row_checked r) eqn:Ec; cbn [negb] in *.
  - apply (client_detach_inv O c0 d0) in E as (Hg2 & Erows & _ & E); [|done|done]. rewrite (Hg' Erows). clear Hg'.
    symmetry in Hb. apply bool_decide_eq_true in Hb.
    destruct E as [(_ & Hno & _)|(-> & ids1 & ids2 & Ei & Ei')].
    { rewrite is_attached_true in Hno by (done || apply Hg). by apply bool_decide_eq_false in Hno. }
    pose proof (ci_busids _ _ _ _ _ _ Hg1) as Hnd. change (attached_ids (cg_list g1)) with (attached_ids (cg_list g)) in *.
    rewrite Ei in Hnd. rewrite <- Permutation_middle in Hnd. apply NoDup_cons in Hnd as [Hnin _].
    eexists. split; [done|]. simpl. rewrite Hat by apply Hg2. rewrite Ei', Ei, bool_decide_eq_false_2 by done.
    split_and!; [done..|]. intros b Hbr. set_solver.
  - apply (client_attach_inv O c0 d0) in E as (Hg2 & Erows & _ & E); [|done..]. rewrite (Hg' Erows). clear Hg'.
    symmetry in Hb. apply bool_decide_eq_false in Hb. eexists. split; [done|]. simpl. rewrite Hat by apply Hg2.
    change (attached_ids (cg_list g1)) with (attached_ids (cg_list g)) in E.
    destruct E as [(He & ->)|(-> & ->)].
    + rewrite (error_code_eqb_false _ _ He). simpl. rewrite bool_decide_eq_false_2 by done. by split_and!.
    + simpl. rewrite bool_decide_eq_true_2 by (by left). split_and!; [done..|]. intros b Hbr. set_solver.
Qed.
End events.

(** ** Witnesses *)

Import SimText.

(** A server with one device, that can be asked twice and then exports it. *)
Definition one_device : bytes :=
  wire_encode {| hb_version := USBIP_PROTO_VERSION; hb_command := OP_REP_DEVLIST; hb_status := USBIP_ST_OK |}
  ++ to_be 4 1 ++ wire_encode example_remote
  ++ wire_encode {| ui_bInterfaceClass := 8; ui_bInterfaceSubClass := 6; ui_bInterfaceProtocol := 80;
                    ui_padding := 0 |}.

Definition gui_net : Sim.net := example_net [one_device; one_device; import_reply].
Definition gui_start : client_gui * (Sim.net * SimVhci.vhci) :=
  client_gui_init example_client_env (gui_net, SimVhci.start true []).

(** The user types a token, connects, and checks the first row. *)
Definition gui_typed : client_gui := cg_set_edits gui_start.1 (str "server") (str "secret") [].
Definition gui_connected := on_connect_clicked gui_typed gui_start.2.
Definition gui_attached (stale : bytes) :=
  on_device_checkbox_changed (Some 4096) stale false 0 true gui_connected.1 gui_connected.2.

(** What the client has sent on a connection; the first three are on sockets 6, 7, 8. *)
Definition sent_on (fd : Z) (stale : bytes) : bytes := Sim.tx (gui_attached stale).2.1 fd.

(** the client loses its token.  [on_connect_clicked] gives the remote devices a
    pointer to its own array: the two connections that it makes itself carry the token
    the user typed, but when the user then checks a device, the connection that imports
    it carries whatever the array's memory holds by then. *)
Theorem client_gui_token_lost :
  let stale := str "xyz" in
  take 11 (sent_on 6 stale) = handshake_frame (str "secret") /\
  take 11 (sent_on 7 stale) = handshake_frame (str "secret") /\
  take 8 (sent_on 8 stale) = handshake_frame stale /\
  stale_token (gui_attached stale).1 stale = Some stale.
Proof. vm_compute. done. Qed.

Lemma gui_typed_eq : gui_typed = cg_set_edits gui_start.1 (str "server") (str "secret") (cg_discovery gui_start.1).
Proof. by vm_compute. Qed.

Lemma gui_start_connected : rtc client_event gui_start gui_connected.
Proof.
  apply (rtc_l _ _ (gui_typed, gui_start.2)).
  - rewrite gui_typed_eq. destruct gui_start as [g st]. apply ce_edit.
  - apply rtc_once. unfold gui_connected. destruct (on_connect_clicked gui_typed gui_start.2) eqn:E. by apply ce_connect.
Qed.

(** The row that is shown after connecting. *)
Lemma example_row : exists r, cg_rows gui_connected.1 !! 0%nat = Some r /\ row_busid r = str "2-14" /\
  row_checked r = false /\ cg_list gui_connected.1 = empty_list.
Proof. eexists. split; [vm_compute; reflexivity|]. by vm_compute. Qed.

Lemma gui_init_ok : exists c0 d0, event_inv {[5]} c0 d0 gui_connected.
Proof.
  pose proof gui_start_connected as Hs. destruct gui_start as [g0 [n0 d0]] eqn:Es. exists (cg_vhci g0), d0.
  eapply client_events_inv; [exact Hs|].
  destruct (client_init_inv example_client_env gui_net (SimVhci.start true []) g0 n0 d0 eq_refl eq_refl Es) as [Hi _].
  exact Hi.
Qed.


(** The user checks the box, and the device is attached. *)
Lemma client_box_shows_attachment_witness :
  exists r', cg_rows (gui_attached (str "xyz")).1 !! 0%nat = Some r' /\
    row_checked r' = is_attached (cg_list (gui_attached (str "xyz")).1) (str "2-14") /\
    is_attached (cg_list (gui_attached (str "xyz")).1) (str "2-14") = true.
Proof.
  destruct gui_init_ok as (c0 & d0 & Hi). destruct example_row as (r & Hr & Eb & Ec & El).
  assert (is_attached (cg_list (gui_attached (str "xyz")).1) (str "2-14") = true) as Ha by (by vm_compute).
  unfold gui_attached in *. destruct gui_connected as [g [n dd]]. simpl in Hi, Hr, El.
  cbn [fst snd] in *.
  destruct (on_device_checkbox_changed (Some 4096) (str "xyz") false 0 true g (n, dd)) as [g' [n' dd']] eqn:E.
  destruct (client_box_shows_attachment {[5]} c0 d0 g n dd (Some 4096) (str "xyz") 0 r true g' n' dd')
    as (r' & Hr' & _ & Hc & _).
  - exact Hi.
  - intros loc _. rewrite El. apply not_elem_of_nil.
  - exact Hr.
  - rewrite Eb. apply (bool_decide_unpack _). by vm_compute.
  - rewrite Eb. done.
  - rewrite Eb. simpl. lia.
  - rewrite Ec, El. reflexivity.
  - by rewrite Ec.
  - exact E.
  - exists r'. cbn [fst] in *. rewrite Hr'.
    split; [apply list_lookup_insert_eq; by eapply lookup_lt_Some|]. rewrite Hc, Eb. by split; [|exact Ha].
Defined.
