(* ===== verification/GuiWindows.v ===== *)
(** * The messages of the windows ([gui/server_gui.c], [gui/client_gui.c])

    The window procedures, as functions from a message to the change of the window's
    state: the program's state of [GuiServer] and [GuiClient], the positions of
    [GuiLayout], the list of the clients, and whether the window is visible, alive and
    told to quit.  What Windows and the user answer during a message is its
    environment.

    The window procedures are shown to make only the events that [gui_step] and
    [client_event] allow ([server_window_refines], [client_window_refines]), so that
    what holds there holds of the windows. *)

From Stdlib Require Import String.
From S2P Require Import Prelude CTypes Format Errors Log Protocol Net ProtocolIO Auth UsbHost DeviceList.
From S2P Require Import UrbQueue UrbHandler ClientManager Server Discovery GuiLayout GuiCommon GuiServer.
From S2P Require Import NetAddr Vhci RemoteDevice ClientMain.
From S2P Require GuiClient.

(** ** Windows' constants *)

Definition LVN_ITEMCHANGED : Z := -101.
Definition LVIF_STATE : Z := 8.
Definition LVIS_STATEIMAGEMASK : Z := 0xF000.
Definition SIZE_MINIMIZED : Z := 1.
Definition WM_RBUTTONUP : Z := 0x205.
Definition WM_LBUTTONDBLCLK : Z := 0x203.
Definition IDYES : Z := 6.

Definition LOWORD (w : Z) : Z := wrap 16 w.

(** [ListView_GetCheckState]: the number of the state's image, less one. *)
Definition check_state (state : Z) : bool :=
  negb (wrap 32 (Z.shiftr (Z.land state LVIS_STATEIMAGEMASK) 12 - 1) =? 0).

(** ** Identifiers ([gui/resource.h]) *)

Definition IDC_SERVER_DEVICE_LIST : Z := 1001.
Definition IDC_SERVER_BTN_REFRESH : Z := 1003.
Definition IDC_SERVER_BTN_HIDE : Z := 1006.
Definition IDC_CLIENT_BTN_DISCOVER : Z := 1102.
Definition IDC_CLIENT_BTN_CONNECT : Z := 1103.
Definition IDC_CLIENT_DEVICE_LIST : Z := 1104.
Definition IDC_CLIENT_BTN_REFRESH : Z := 1107.
Definition IDM_TRAY_SHOW : Z := 2001.
Definition IDM_TRAY_EXIT : Z := 2004.
Definition IDT_REFRESH_TIMER : Z := 3001.

(** ** The server's window *)

(** A row of the list of clients. *)
Record client_row := { cr_ip : list Z; cr_device : list Z; cr_time : list Z }.

Record server_window := {
  sw_gui : gui_server;
  sw_controls : window;
  sw_edit_token : bytes;         (* the text of the token field *)
  sw_clients : list client_row;
  sw_label_clients : list Z;
  sw_visible : bool;
  sw_minimizedToTray : bool;
  sw_timer : bool;
  sw_alive : bool;               (* not destroyed *)
  sw_quit : bool;                (* [WM_QUIT] is in the queue *)
}.

Definition sw_set_gui (w : server_window) (g : gui_server) : server_window := {|
  sw_gui := g; sw_controls := sw_controls w; sw_edit_token := sw_edit_token w; sw_clients := sw_clients w;
  sw_label_clients := sw_label_clients w; sw_visible := sw_visible w;
  sw_minimizedToTray := sw_minimizedToTray w; sw_timer := sw_timer w; sw_alive := sw_alive w;
  sw_quit := sw_quit w |}.

Definition sw_set_controls (w : server_window) (c : window) : server_window := {|
  sw_gui := sw_gui w; sw_controls := c; sw_edit_token := sw_edit_token w; sw_clients := sw_clients w;
  sw_label_clients := sw_label_clients w; sw_visible := sw_visible w;
  sw_minimizedToTray := sw_minimizedToTray w; sw_timer := sw_timer w; sw_alive := sw_alive w;
  sw_quit := sw_quit w |}.

Definition sw_set_clients (w : server_window) (rows : list client_row) (label : list Z) : server_window := {|
  sw_gui := sw_gui w; sw_controls := sw_controls w; sw_edit_token := sw_edit_token w; sw_clients := rows;
  sw_label_clients := label; sw_visible := sw_visible w;
  sw_minimizedToTray := sw_minimizedToTray w; sw_timer := sw_timer w; sw_alive := sw_alive w;
  sw_quit := sw_quit w |}.

Definition sw_set_edit (w : server_window) (token : bytes) : server_window := {|
  sw_gui := sw_gui w; sw_controls := sw_controls w; sw_edit_token := token; sw_clients := sw_clients w;
  sw_label_clients := sw_label_clients w; sw_visible := sw_visible w;
  sw_minimizedToTray := sw_minimizedToTray w; sw_timer := sw_timer w; sw_alive := sw_alive w;
  sw_quit := sw_quit w |}.

(** [ShowWindow] and the flag. *)
Definition sw_show (w : server_window) (visible : bool) : server_window := {|
  sw_gui := sw_gui w; sw_controls := sw_controls w; sw_edit_token := sw_edit_token w; sw_clients := sw_clients w;
  sw_label_clients := sw_label_clients w; sw_visible := visible;
  sw_minimizedToTray := negb visible; sw_timer := sw_timer w; sw_alive := sw_alive w;
  sw_quit := sw_quit w |}.

Definition PostQuitMessage (w : server_window) : server_window := {|
  sw_gui := sw_gui w; sw_controls := sw_controls w; sw_edit_token := sw_edit_token w; sw_clients := sw_clients w;
  sw_label_clients := sw_label_clients w; sw_visible := sw_visible w;
  sw_minimizedToTray := sw_minimizedToTray w; sw_timer := sw_timer w; sw_alive := sw_alive w;
  sw_quit := true |}.

(** The end of the window's life: [KillTimer] and [PostQuitMessage] in [WM_DESTROY]. *)
Definition sw_destroy (w : server_window) : server_window := {|
  sw_gui := sw_gui w; sw_controls := sw_controls w; sw_edit_token := sw_edit_token w; sw_clients := sw_clients w;
  sw_label_clients := sw_label_clients w; sw_visible := sw_visible w;
  sw_minimizedToTray := sw_minimizedToTray w; sw_timer := false; sw_alive := false;
  sw_quit := true |}.

(** What Windows answers during a message: the clock, the devices and the allocations of
    a refresh, the size of the client area, and the user's answer to the question. *)
Record message_env := {
  me_now : Z;                    (* [GetTickCount64] *)
  me_utf8 : list Z -> nat -> option bytes;
  me_devices : ptr (list di_entry);
  me_allocs : list (ptr Z);
  me_width : Z;
  me_height : Z;
  me_garbage : rect;             (* the variable [sbrc] before the call *)
  me_answer : Z;                 (* [MessageBoxW] *)
}.

Inductive server_message :=
  | SM_COMMAND (wParam : Z)
  | SM_NOTIFY (idFrom code uChanged uNewState uOldState : Z) (iItem : nat)
  | SM_TIMER (wParam : Z)
  | SM_SIZE (wParam : Z)
  | SM_TRAYICON (lParam : Z)
  | SM_CLIENT_UPDATE
  | SM_CLOSE
  | SM_DESTROY
  | SM_other.

Section server.
  Context `{WideText} `{Screen}.

(** The time a client has been connected. *)
Definition elapsed_text (now connect_time : Z) : list Z :=
  let elapsed_ms := if now >? connect_time then wrap 64 (now - connect_time) else 0 in
  let elapsed_sec := wrap 32 (elapsed_ms / 1000) in
  if elapsed_sec <? 60 then fmt_u elapsed_sec ++ str " sec" else fmt_u (elapsed_sec / 60) ++ str " min".

(** One iteration of the loop over the clients. *)
Definition client_row_of (now : Z) (conn : client_connection) : client_row := {|
  cr_ip := wide_column (cl_ip_address conn) 64;
  cr_device := wide_column (if negb (char_at (cl_attached_busid conn) 0 =? 0)
                            then cl_attached_busid conn else str "-") 32;
  cr_time := elapsed_text now (cl_connect_time conn) |}.

Fixpoint client_rows (now : Z) (conns : list client_connection) (index : Z) (rows : list client_row) :
    Z * list client_row :=
  match conns with
  | [] => (index, rows)
  | conn :: conns => client_rows now conns (index + 1) (rows ++ [client_row_of now conn])
  end.

Definition server_gui_update_clients (now : Z) (w : server_window) : server_window :=
  let '(index, rows) := client_rows now (cm_clients (gs_manager (sw_gui w))) 0 [] in
  sw_set_clients w rows (str "Connected Clients (" ++ fmt_d index ++ str "):").

Definition on_refresh_clicked (env : message_env) (w : server_window) : server_window :=
  sw_set_gui w (populate_device_list (me_utf8 env) true (me_devices env) (me_allocs env) (sw_gui w)).

Definition on_hide_clicked (w : server_window) : server_window := sw_show w false.

(** The tray's menu sends its commands later; a message that the window does not know goes
    to [DefWindowProcW]. *)
Definition ServerWndProc (env : message_env) (msg : server_message) (w : server_window) : server_window :=
  match msg with
  | SM_COMMAND wParam =>
      let id := LOWORD wParam in
      if id =? IDC_SERVER_BTN_REFRESH then on_refresh_clicked env w
      else if id =? IDC_SERVER_BTN_HIDE then on_hide_clicked w
      else if id =? IDM_TRAY_SHOW then sw_show w true
      else if id =? IDM_TRAY_EXIT then PostQuitMessage w
      else w
  | SM_NOTIFY idFrom code uChanged uNewState uOldState iItem =>
      if (idFrom =? IDC_SERVER_DEVICE_LIST) && (code =? LVN_ITEMCHANGED) then
        if negb (Z.land uChanged LVIF_STATE =? 0) &&
           negb (Z.land (Z.lxor uNewState uOldState) LVIS_STATEIMAGEMASK =? 0)
        then sw_set_gui w (on_device_checkbox_changed false iItem (check_state uNewState) (sw_gui w))
        else w
      else w
  | SM_TIMER wParam => if wParam =? IDT_REFRESH_TIMER then server_gui_update_clients (me_now env) w else w
  | SM_SIZE wParam =>
      if negb (wParam =? SIZE_MINIMIZED)
      then sw_set_controls w (gui_layout_server (me_width env) (me_height env) (me_garbage env) (sw_controls w))
      else w
  | SM_TRAYICON lParam =>
      if lParam =? WM_RBUTTONUP then w
      else if lParam =? WM_LBUTTONDBLCLK then sw_show w true
      else w
  | SM_CLIENT_UPDATE => server_gui_update_clients (me_now env) w
  | SM_CLOSE => if me_answer env =? IDYES then sw_destroy w else w
  | SM_DESTROY => sw_destroy w
  | SM_other => w
  end.

(** [server_gui_run] on the messages that come; [WM_QUIT] ends it. *)
Fixpoint server_messages (msgs : list (message_env * server_message)) (w : server_window) : server_window :=
  match msgs with
  | [] => w
  | (env, msg) :: msgs => if sw_quit w then w else server_messages msgs (ServerWndProc env msg w)
  end.

(** The window before [server_gui_init]: [memset]. *)
Definition server_window_zero : server_window := {|
  sw_gui := gui_zero; sw_controls := window_zero; sw_edit_token := []; sw_clients := [];
  sw_label_clients := []; sw_visible := false; sw_minimizedToTray := false; sw_timer := false;
  sw_alive := false; sw_quit := false |}.

(** [create_server_window]: in the middle of the screen. *)
Definition create_server_window (screenW screenH : Z) : rect :=
  mk_rect ((screenW - SERVER_WINDOW_WIDTH) ÷ 2) ((screenH - SERVER_WINDOW_HEIGHT) ÷ 2)
    SERVER_WINDOW_WIDTH SERVER_WINDOW_HEIGHT.

(** [registered], [created]: whether the class and the window could be made.  The token
    that the server is started with is the text of the field that has just been created. *)
Definition server_window_init {N} `{Winsock N} (ie : init_env) (env : message_env)
    (registered created thread : bool) : M N (bool * server_window) :=
  if negb registered then mret (false, server_window_zero) else
  if negb created then mret (false, server_window_zero) else
  let controls := create_server_controls in
  let token := [] in
  let controls := gui_layout_server (me_width env) (me_height env) (me_garbage env) controls in
  g ← server_gui_init ie token thread;
  mret (true, {|
    sw_gui := g; sw_controls := controls; sw_edit_token := token; sw_clients := [];
    sw_label_clients := str "Connected Clients:"; sw_visible := false; sw_minimizedToTray := false;
    sw_timer := true; sw_alive := true; sw_quit := false |}).
End server.

(** *** The window and the threads *)

Section steps.
  Context {N U : Type} `{WinsockLaws N} `{WinUsbLaws U} `{WideText} `{Screen}.

(** The allocations of a refresh are fresh, and Windows' texts are bytes. *)
Definition message_ok (env : message_env) (w : server_window) : Prop :=
  fresh_allocs (gs_list (sw_gui w)) (me_allocs env) /\
  forall es, me_devices env = Some es -> Forall (fun x => Forall is_byte (di_instance_id x)) es.

(** A message is handled, the user types, or a thread does an iteration. *)
Inductive window_step : server_window * (N * U) -> server_window * (N * U) -> Prop :=
  | wst_message w st env msg :
      sw_quit w = false -> message_ok env w -> window_step (w, st) (ServerWndProc env msg w, st)
  | wst_type w st token : window_step (w, st) (sw_set_edit w token, st)
  | wst_thread w st g st' :
      gui_step (sw_gui w, st) (g, st') -> window_step (w, st) (sw_set_gui w g, st').
End steps.

(** ** Lemmas: the server *)

Lemma client_rows_eq `{WideText} now conns index rows :
  client_rows now conns index rows =
  (index + Z.of_nat (length conns), rows ++ (client_row_of now <$> conns)).
Proof.
  revert index rows. induction conns as [|c conns IH]; intros index rows; simpl.
  - by rewrite Z.add_0_r, app_nil_r.
  - rewrite IH, <- app_assoc. f_equal. lia.
Qed.

Section server_laws.
  Context {N U : Type} `{WinsockLaws N} `{WinUsbLaws U} `{WideText} `{Screen}.
  Implicit Types (n : N) (u : U) (w : server_window).

(** What a message does to the program's state. *)
Lemma wnd_proc_gui env msg w (st : N * U) :
  message_ok env w ->
  sw_gui (ServerWndProc env msg w) = sw_gui w \/
  gui_step (sw_gui w, st) (sw_gui (ServerWndProc env msg w), st).
Proof.
  intros [Hf Hb]. destruct msg as [wp|idf code ch new old i|wp|wp|lp| | | |]; cbn [ServerWndProc].
  - destruct (_ =? _); [right; by apply (gst_refresh (sw_gui w))|].
    destruct (_ =? _); [by left|]. destruct (_ =? _); [by left|]. destruct (_ =? _); by left.
  - destruct (_ && _); [|by left]. destruct (_ && _); [|by left]. right. apply (gst_checkbox (sw_gui w)).
  - destruct (_ =? _); [|by left]. unfold server_gui_update_clients. destruct (client_rows _ _ _ _). by left.
  - destruct (negb _); by left.
  - destruct (_ =? _); [by left|]. destruct (_ =? _); by left.
  - unfold server_gui_update_clients. destruct (client_rows _ _ _ _). by left.
  - destruct (_ =? _); by left.
  - by left.
  - by left.
Qed.

Lemma window_step_gui x y :
  window_step x y -> rtc gui_step (sw_gui x.1, x.2) (sw_gui y.1, y.2).
Proof.
  destruct 1 as [w st env msg _ Hok|w st token|w st g st' Hs]; cbn [fst snd]; [|done|by apply rtc_once].
  destruct (wnd_proc_gui env msg w st Hok) as [->|Hs]; [done|by apply rtc_once].
Qed.

Lemma window_steps_gui x y :
  rtc window_step x y -> rtc gui_step (sw_gui x.1, x.2) (sw_gui y.1, y.2).
Proof. induction 1 as [|x y z Hs _ IH]; [done|]. etrans; [by apply window_step_gui|done]. Qed.

(** The layout is that of the last size, and the token is the one of the start. *)
Record window_inv (w : server_window) : Prop := {
  wi_controls : same_controls (sw_controls w) create_server_controls;
  wi_layout : exists cw ch garbage, forall c,
    sw_controls w c = gui_layout_server cw ch garbage create_server_controls c;
  wi_token : gs_auth_token (sw_gui w) = [];
  wi_tray : sw_visible w = true -> sw_minimizedToTray w = false;
}.

Lemma populate_token utf8 init info allocs g :
  gs_auth_token (populate_device_list utf8 init info allocs g) = gs_auth_token g.
Proof.
  unfold populate_device_list, usb_enumerate_devices. destruct init; [|done]. cbn [negb].
  destruct info as [es|]; [|done]. rewrite enumerate_loop_fold. cbn [snd].
  assert (forall devs g0 al, gs_auth_token (fold_left (fun a d => enum_device_callback d a) devs (g0, al)).1 =
    gs_auth_token g0) as Hf; [|by rewrite Hf].
  induction devs as [|d devs IH]; intros g0 al; [done|]. cbn [fold_left].
  destruct (enum_device_callback d (g0, al)) as [g1 al1] eqn:E. rewrite IH.
  unfold enum_device_callback in E. destruct (device_list_find _ _); by simplify_eq.
Qed.

(** No thread and no message changes the token. *)
Lemma gui_step_token (x y : gui_server * (N * U)) :
  gui_step x y -> gs_auth_token y.1 = gs_auth_token x.1.
Proof.
  destruct 1 as [g st alloc data thread now g' st' _ _ E|g n u env loc g' st' _ _ E|g n u host n' _
                |g st utf8 info allocs _ _|g st up i ch|g st|g n u n' _]; cbn [fst]; try done.
  - unfold server_accept_step in E. apply M_bind_inv in E as ([sock peer] & st1 & _ & E).
    destruct (negb _); [by mret_eq|]. destruct (default _ peer) as [ip port].
    apply M_bind_inv in E as (aerr & st2 & _ & E).
    destruct (negb _); [apply M_bind_inv in E as ([] & st3 & _ & E); by mret_eq|].
    destruct (client_manager_add _ _ _ _ _ _) as [[e r] cl].
    destruct cl as [c|]; [|apply M_bind_inv in E as ([] & st3 & _ & E); by mret_eq].
    destruct data; [destruct thread|]; unfold mret, M_ret in E; by injection E as <- <-.
  - unfold client_handler_step in E. destruct (find_first _ _) as [c|]; [|by mret_eq].
    assert (forall g0 st0, ('(_, r) ← client_manager_remove (Some (gs_manager g0)) (Some loc);
        mret (gs_set_handlers (gs_set_manager g0 (default (gs_manager g0) r))
          (remove_first (fun x => x =? loc) (gs_handlers g0)))) st0 = (g', st') ->
      gs_auth_token g' = gs_auth_token g0) as Hfin.
    { intros g0 st0 E0. apply M_bind_inv in E0 as ([e r] & st1 & _ & E0).
      unfold mret, M_ret in E0. by injection E0 as <- <-. }
    destruct (negb _); [by eapply Hfin|]. apply M_bind_inv in E as ([[err r1] r2] & st1 & _ & E). cbv zeta in E.
    destruct (negb _); [by apply Hfin in E as ->|]. unfold mret, M_ret in E. by injection E as <- <-.
  - apply populate_token.
  - unfold on_device_checkbox_changed. destruct up; [done|]. cbv zeta. by destruct (_ =? 0).
Qed.

Lemma window_step_inv x y : window_step x y -> window_inv x.1 -> window_inv y.1.
Proof.
  intros Hs. pose proof (window_step_gui _ _ Hs) as Hg.
  assert (gs_auth_token (sw_gui y.1) = gs_auth_token (sw_gui x.1)) as Ht.
  { clear Hs. remember (sw_gui x.1, x.2) as a eqn:Ea. remember (sw_gui y.1, y.2) as b eqn:Eb.
    change (sw_gui y.1) with (sw_gui y.1, y.2).1. change (sw_gui x.1) with (sw_gui x.1, x.2).1.
    rewrite <- Ea, <- Eb. clear Ea Eb. induction Hg as [|a b c Hab _ IH]; [done|].
    rewrite IH. by apply gui_step_token. }
  intros [Hc Hl Htk Htr]. rewrite <- Ht in Htk. clear Ht Hg.
  destruct Hs as [w st env msg _ Hok|w st token|w st g st' Hs]; cbn [fst snd] in *; [|by split|by split].
  assert (forall w', sw_controls w' = sw_controls w -> sw_gui w' = sw_gui (ServerWndProc env msg w) ->
    (sw_visible w' = true -> sw_minimizedToTray w' = false) -> window_inv w') as Hkeep.
  { intros w' E1 E2 E3. split; rewrite ?E1, ?E2; done. }
  destruct msg as [wp|idf code chg new old i|wp|wp|lp| | | |]; cbn [ServerWndProc] in *.
  - repeat (destruct (_ =? _); [by apply Hkeep|]). by apply Hkeep.
  - destruct (_ && _); [destruct (_ && _)|]; by apply Hkeep.
  - destruct (_ =? _); [|by apply Hkeep]. unfold server_gui_update_clients in *.
    destruct (client_rows _ _ _ _). by apply Hkeep.
  - destruct (negb _); [|by apply Hkeep]. split; try done; simpl.
    + etrans; [apply server_layout_same|done].
      destruct (sw_controls w hStatusBar) eqn:E; [|done]. destruct (proj1 (Hc hStatusBar)); [by rewrite E|done].
    + exists (me_width env), (me_height env), (me_garbage env). intros c. by apply server_layout_again.
  - destruct (_ =? _); [by apply Hkeep|]. destruct (_ =? _); by apply Hkeep.
  - unfold server_gui_update_clients in *. destruct (client_rows _ _ _ _). by apply Hkeep.
  - destruct (_ =? _); by apply Hkeep.
  - by apply Hkeep.
  - by apply Hkeep.
Qed.

Lemma window_steps_inv x y : rtc window_step x y -> window_inv x.1 -> window_inv y.1.
Proof. induction 1 as [|x y z Hs _ IH]; [done|]. intros Hx. by eapply IH, window_step_inv. Qed.

Lemma window_init_inv ie env registered created thread n w n' :
  server_window_init ie env registered created thread n = ((true, w), n') -> window_inv w.
Proof.
  intros E. unfold server_window_init in E. destruct (negb registered); [by mret_eq|].
  destruct (negb created); [by mret_eq|]. apply M_bind_inv in E as (g & n1 & E1 & E).
  unfold mret, M_ret in E. injection E as <- <-. split; simpl; [by apply server_layout_same| | |done].
  - by exists (me_width env), (me_height env), (me_garbage env).
  - apply M_bind_inv in E1 as ([ok g1] & n2 & E1 & E). unfold mret, M_ret in E. injection E as <- <-.
    rewrite populate_token. unfold server_gui_start_server in E1. cbv zeta in E1.
    apply M_bind_inv in E1 as (sock & n3 & _ & E1). destruct (negb _); [by mret_eq|].
    apply M_bind_inv in E1 as (disc & n4 & _ & E1). apply M_bind_inv in E1 as (disc2 & n5 & _ & E1).
    destruct (negb thread); [|by mret_eq]. apply M_bind_inv in E1 as ([] & n6 & _ & E1).
    apply M_bind_inv in E1 as ([] & n7 & _ & E1). by mret_eq.
Qed.
End server_laws.

(** ** Properties: the server's window *)

Section server_properties.
  Context {N U : Type} `{WinsockLaws N} `{WinUsbLaws U} `{WideText} `{Screen}.
  Implicit Types (n : N) (u : U) (w : server_window).


(** C37: the graphical server never authenticates.  It reads its token once, from a field
    that it has just created empty; so whatever the user types there, in every state the
    window can reach, a client that connects while there is room is added without a byte
    being read from it or sent to it. *)
Theorem gui_server_never_authenticates ie env registered created thread n w0 n0 u w n1 u1 :
  server_window_init ie env registered created thread n = ((true, w0), n0) ->
  rtc window_step (w0, (n0, u)) (w, (n1, u1)) ->
  auth_is_enabled (Some (gs_auth_token (sw_gui w))) = false /\
  forall sock peer n2 loc started now,
    tcp_server_accept_timeout (gs_socket (sw_gui w)) 64 1000 n1 = ((sock, peer), n2) ->
    socket_is_valid sock = true -> cm_initialized (gs_manager (sw_gui w)) = true ->
    cm_client_count (gs_manager (sw_gui w)) < MAX_CLIENTS ->
    exists g' c,
      server_accept_step (Some loc) true started now (sw_gui w) (n1, u1) = (g', (n2, u1)) /\
      c ∈ cm_clients (gs_manager g') /\ cl_socket c = sock /\ cl_running c = true.
Proof.
  intros Hi Hs. apply window_steps_inv in Hs as [_ _ Ht _]; [|by eapply window_init_inv].
  cbn [fst] in Ht. split; [by rewrite Ht|]. intros sock peer n2 loc started now Ea Hv Hinit Hlt.
  unfold server_accept_step. rewrite (M_bind_run _ _ _ _ _ (lift_l_run _ _ _ _ _ Ea)), Hv, Ht.
  cbn [negb]. destruct (default ([], 0) peer) as [ip port] eqn:Ep.
  change (auth_is_enabled (Some [])) with false. cbv iota.
  rewrite (M_bind_run (mret ERR_SUCCESS) _ (n2, u1) ERR_SUCCESS (n2, u1) eq_refl). change (error_code_eqb ERR_SUCCESS ERR_SUCCESS) with true.
  cbn [negb]. unfold client_manager_add. rewrite Hinit. cbn [negb].
  assert ((cm_client_count (gs_manager (sw_gui w)) >=? MAX_CLIENTS) = false) as ->.
  { rewrite Z.geb_leb. by apply Z.leb_gt. }
  cbn [create_client default]. set (c := Build_client_connection _ _ _ _ _ _ _ _ _ _ _ _ _ _ _).
  destruct started; eexists _, (cl_set_running c true); (split; [reflexivity|]); (split; [|done]);
    cbn; unfold client_at; cbn; rewrite Z.eqb_refl; by left.
Qed.
End server_properties.

(** ** The client's window *)

Import GuiClient.

Record client_window := {
  cw_gui : client_gui;
  cw_controls : window;
  cw_discover_enabled : bool;    (* the two buttons *)
  cw_refresh_enabled : bool;
  cw_discovery_thread : bool;    (* the handle is set *)
  cw_searching : bool;           (* the thread has not ended *)
  cw_done_posted : bool;         (* [WM_DISCOVERY_DONE] is in the queue *)
  cw_alive : bool;
  cw_quit : bool;
}.

Definition cw_set_gui (w : client_window) (g : client_gui) : client_window := {|
  cw_gui := g; cw_controls := cw_controls w; cw_discover_enabled := cw_discover_enabled w;
  cw_refresh_enabled := cw_refresh_enabled w; cw_discovery_thread := cw_discovery_thread w;
  cw_searching := cw_searching w; cw_done_posted := cw_done_posted w; cw_alive := cw_alive w;
  cw_quit := cw_quit w |}.

Definition cw_set_controls (w : client_window) (c : window) : client_window := {|
  cw_gui := cw_gui w; cw_controls := c; cw_discover_enabled := cw_discover_enabled w;
  cw_refresh_enabled := cw_refresh_enabled w; cw_discovery_thread := cw_discovery_thread w;
  cw_searching := cw_searching w; cw_done_posted := cw_done_posted w; cw_alive := cw_alive w;
  cw_quit := cw_quit w |}.

Definition cw_set_refresh (w : client_window) (enabled : bool) : client_window := {|
  cw_gui := cw_gui w; cw_controls := cw_controls w; cw_discover_enabled := cw_discover_enabled w;
  cw_refresh_enabled := enabled; cw_discovery_thread := cw_discovery_thread w;
  cw_searching := cw_searching w; cw_done_posted := cw_done_posted w; cw_alive := cw_alive w;
  cw_quit := cw_quit w |}.

Definition cw_set_discovery (w : client_window) (enabled thread searching posted : bool) : client_window := {|
  cw_gui := cw_gui w; cw_controls := cw_controls w; cw_discover_enabled := enabled;
  cw_refresh_enabled := cw_refresh_enabled w; cw_discovery_thread := thread;
  cw_searching := searching; cw_done_posted := posted; cw_alive := cw_alive w;
  cw_quit := cw_quit w |}.

(** [DestroyWindow] and [PostQuitMessage]. *)
Definition cw_destroy (w : client_window) : client_window := {|
  cw_gui := cw_gui w; cw_controls := cw_controls w; cw_discover_enabled := cw_discover_enabled w;
  cw_refresh_enabled := cw_refresh_enabled w; cw_discovery_thread := cw_discovery_thread w;
  cw_searching := cw_searching w; cw_done_posted := cw_done_posted w; cw_alive := false;
  cw_quit := true |}.

(** What Windows answers during a message; [ce_stale] as in [GuiClient]. *)
Record client_message_env := {
  cme_alloc : ptr Z;
  cme_stale : bytes;
  cme_thread : bool;             (* whether the thread could be created *)
  cme_width : Z;
  cme_height : Z;
  cme_garbage : rect;
  cme_answer : Z;
}.

Inductive client_message :=
  | CM_COMMAND (wParam : Z)
  | CM_NOTIFY (idFrom code uChanged uNewState uOldState : Z) (iItem : nat)
  | CM_DISCOVERY_DONE
  | CM_SIZE (wParam : Z)
  | CM_CLOSE
  | CM_DESTROY
  | CM_other.

Section client.
  Context {N D : Type} `{Winsock N} `{VhciDriver D} `{WideText} `{Screen}.

(** [on_discover_clicked] with its button and its thread. *)
Definition window_discover (env : client_message_env) (w : client_window) : client_window :=
  cw_set_discovery (cw_set_gui w (on_discover_clicked (cw_gui w))) false (cme_thread env) (cme_thread env)
    (cw_done_posted w).

(** [on_connect_clicked] with the button that [client_gui_connect] enables and
    [client_gui_disconnect] disables. *)
Definition window_connect (w : client_window) : M (N * D) client_window :=
  g ← on_connect_clicked (cw_gui w);
  let w' := cw_set_gui w g in
  mret (if cg_connected (cw_gui w) then cw_set_refresh w' false
        else if cg_connected g then cw_set_refresh w' true else w').

(** The line for one server: the number and the address. *)
Definition discovery_line (i : Z) (server : discovered_server) : list Z :=
  fmt_d (i + 1) ++ str ". " ++ wide_column (ds_ip_address server) 32 ++ [10].

Fixpoint discovery_lines (i : Z) (servers : list discovered_server) : list Z :=
  match servers with
  | [] => []
  | server :: servers => discovery_line i server ++ discovery_lines (i + 1) servers
  end.

(** The size of the array [msg], in characters. *)
Definition DISCOVERY_MSG_SIZE : Z := 512.

(** What [wcscat] puts there, without the NUL that ends it. *)
Definition discovery_message (servers : list discovered_server) : list Z :=
  str "Found servers:" ++ [10; 10] ++ discovery_lines 0 servers ++ [10] ++ str "Using first server.".

Definition ClientWndProc (env : client_message_env) (msg : client_message) (w : client_window) :
    M (N * D) client_window :=
  match msg with
  | CM_COMMAND wParam =>
      let id := LOWORD wParam in
      if id =? IDC_CLIENT_BTN_DISCOVER then mret (window_discover env w)
      else if id =? IDC_CLIENT_BTN_CONNECT then window_connect w
      else if id =? IDC_CLIENT_BTN_REFRESH then
        g ← client_gui_refresh_devices (stale_token (cw_gui w) (cme_stale env)) (cw_gui w);
        mret (cw_set_gui w g)
      else mret w
  | CM_NOTIFY idFrom code uChanged uNewState uOldState iItem =>
      if (idFrom =? IDC_CLIENT_DEVICE_LIST) && (code =? LVN_ITEMCHANGED) then
        if negb (Z.land uChanged LVIF_STATE =? 0) &&
           negb (Z.land uOldState LVIS_STATEIMAGEMASK =? Z.land uNewState LVIS_STATEIMAGEMASK)
        then
          g ← on_device_checkbox_changed (cme_alloc env) (cme_stale env) false iItem (check_state uNewState)
                (cw_gui w);
          mret (cw_set_gui w g)
        else mret w
      else mret w
  | CM_DISCOVERY_DONE =>
      mret (cw_set_discovery (cw_set_gui w (show_discovery_results (cw_gui w))) true false
              (cw_searching w) false)
  | CM_SIZE wParam =>
      if negb (wParam =? SIZE_MINIMIZED)
      then mret (cw_set_controls w (gui_layout_client (cme_width env) (cme_height env) (cme_garbage env)
                                      (cw_controls w)))
      else mret w
  | CM_CLOSE =>
      if rl_count (cg_list (cw_gui w)) >? 0 then
        if negb (cme_answer env =? IDYES) then mret w else mret (cw_destroy w)
      else mret (cw_destroy w)
  | CM_DESTROY => mret (cw_destroy w)
  | CM_other => mret w
  end.

(** [create_client_window]. *)
Definition create_client_window (screenW screenH : Z) : rect :=
  mk_rect ((screenW - CLIENT_WINDOW_WIDTH) ÷ 2) ((screenH - CLIENT_WINDOW_HEIGHT) ÷ 2)
    CLIENT_WINDOW_WIDTH CLIENT_WINDOW_HEIGHT.

Definition client_window_zero : client_window := {|
  cw_gui := client_gui_zero; cw_controls := window_zero; cw_discover_enabled := false;
  cw_refresh_enabled := false; cw_discovery_thread := false; cw_searching := false;
  cw_done_posted := false; cw_alive := false; cw_quit := false |}.

(** [sb]: the rectangle of the status bar. *)
Definition client_window_init (ce : client_env) (env : client_message_env) (sb : rect)
    (registered created : bool) : M (N * D) (bool * client_window) :=
  if negb registered then mret (false, client_window_zero) else
  if negb created then mret (false, client_window_zero) else
  let controls := gui_layout_client (cme_width env) (cme_height env) (cme_garbage env)
                    (create_client_controls sb) in
  g ← client_gui_init ce;
  mret (true, {|
    cw_gui := g; cw_controls := controls; cw_discover_enabled := true; cw_refresh_enabled := false;
    cw_discovery_thread := false; cw_searching := false; cw_done_posted := false; cw_alive := true;
    cw_quit := false |}).
End client.

(** *** The window, the discovery thread and the network *)

Section client_steps.
  Context {N D : Type} `{WinsockLaws N} `{VhciDriverLaws D} `{WideTextLaws} `{Screen}.
  Implicit Types (w : client_window) (st : N * D).

(** A disabled button sends no command, a row that changes exists, and the end of the
    discovery is announced by the thread alone. *)
Definition client_message_ok (env : client_message_env) (msg : client_message) (w : client_window) : Prop :=
  fresh_device (cw_gui w) (cme_alloc env) /\
  match msg with
  | CM_COMMAND wParam =>
      (LOWORD wParam = IDC_CLIENT_BTN_DISCOVER -> cw_discover_enabled w = true) /\
      (LOWORD wParam = IDC_CLIENT_BTN_REFRESH -> cw_refresh_enabled w = true)
  | CM_NOTIFY _ _ _ _ _ iItem => is_Some (cg_rows (cw_gui w) !! iItem)
  | CM_DISCOVERY_DONE => cw_done_posted w = true
  | _ => True
  end.

Inductive client_window_step : client_window * (N * D) -> client_window * (N * D) -> Prop :=
  | cws_message w st env msg w' st' :
      cw_quit w = false -> client_message_ok env msg w -> ClientWndProc env msg w st = (w', st') ->
      client_window_step (w, st) (w', st')
  | cws_type w st server token :
      client_window_step (w, st)
        (cw_set_gui w (cg_set_edits (cw_gui w) server token (cg_discovery (cw_gui w))), st)
  | cws_search w st fuel addr g' st' :
      cw_searching w = true -> discovery_thread_func fuel addr (cw_gui w) st = (Some g', st') ->
      client_window_step (w, st)
        (cw_set_discovery (cw_set_gui w g') (cw_discover_enabled w) (cw_discovery_thread w) false true, st')
  | cws_network w n n' (dd : D) :
      ws_open n' = ws_open n -> client_window_step (w, (n, dd)) (w, (n', dd)).

(** What a message does to the program's state. *)
Lemma client_proc_gui env msg w st w' st' :
  client_message_ok env msg w -> ClientWndProc env msg w st = (w', st') ->
  (cw_gui w', st') = (cw_gui w, st) \/ client_event (cw_gui w, st) (cw_gui w', st').
Proof.
  intros [Hf Hm] E. destruct msg as [wp|idf code ch new old i| |wp| | |]; cbn [ClientWndProc] in E.
  - destruct (_ =? _); [unfold mret, M_ret in E; injection E as <- <-; right; apply (ce_discover_clicked (cw_gui w))|].
    destruct (_ =? _).
    { unfold window_connect in E. apply M_bind_inv in E as (g & st1 & E1 & E). cbv zeta in E.
      unfold mret, M_ret in E. injection E as <- <-. right.
      destruct (cg_connected (cw_gui w)), (cg_connected g); by apply ce_connect. }
    destruct (_ =? _); [|unfold mret, M_ret in E; injection E as <- <-; by left].
    apply M_bind_inv in E as (g & st1 & E1 & E). unfold mret, M_ret in E. injection E as <- <-. right.
    by eapply ce_refresh.
  - destruct (_ && _); [destruct (_ && _)|]; try (unfold mret, M_ret in E; injection E as <- <-; by left).
    apply M_bind_inv in E as (g & st1 & E1 & E). unfold mret, M_ret in E. injection E as <- <-. right.
    by eapply ce_checkbox.
  - unfold mret, M_ret in E. injection E as <- <-. right. apply (ce_discovered (cw_gui w)).
  - destruct (negb _); unfold mret, M_ret in E; injection E as <- <-; by left.
  - destruct (_ >? _); [destruct (negb _)|]; unfold mret, M_ret in E; injection E as <- <-; by left.
  - unfold mret, M_ret in E; injection E as <- <-; by left.
  - unfold mret, M_ret in E; injection E as <- <-; by left.
Qed.

Lemma client_window_step_gui x y :
  client_window_step x y -> rtc client_event (cw_gui x.1, x.2) (cw_gui y.1, y.2).
Proof.
  destruct 1 as [w st env msg w' st' _ Hok E|w st server token|w st fuel addr g' st' _ E|w n n' dd Ho];
    cbn [fst snd].
  - apply client_proc_gui in E as [->|E]; [done|by apply rtc_once|done].
  - apply rtc_once. apply (ce_edit (cw_gui w)).
  - apply rtc_once. by eapply ce_discover.
  - apply rtc_once. by apply ce_network.
Qed.

Lemma client_window_steps_gui x y :
  rtc client_window_step x y -> rtc client_event (cw_gui x.1, x.2) (cw_gui y.1, y.2).
Proof. induction 1 as [|x y z Hs _ IH]; [done|]. etrans; [by apply client_window_step_gui|done]. Qed.

(** Only [on_connect_clicked] connects and disconnects. *)
Lemma checkbox_connected alloc stale up i checked g st g' st' :
  on_device_checkbox_changed alloc stale up i checked g st = (g', st') -> cg_connected g' = cg_connected g.
Proof.
  intros E. unfold on_device_checkbox_changed in E. destruct up; [by mret_eq|]. cbv zeta in E.
  destruct (_ =? 0); [by mret_eq|].
  destruct (gui_listview_get_checkbox _ _); apply M_bind_inv in E as ([e g2] & st2 & E1 & E).
  - unfold client_gui_attach_device in E1. assert (cg_connected g2 = cg_connected g) as <-.
    { destruct (is_attached _ _); [by mret_eq|]. apply M_bind_inv in E1 as ([[[e1 l] v] x] & st3 & _ & E1).
      unfold mret, M_ret in E1. by injection E1 as <- <- <-. }
    destruct (error_code_eqb _ _); unfold mret, M_ret in E; by injection E as <- <-.
  - unfold client_gui_detach_device in E1. assert (cg_connected g2 = cg_connected g) as <-.
    { destruct (remote_device_find_by_busid _ _) as [d|]; [|by mret_eq].
      apply M_bind_inv in E1 as ([[e1 l] v] & st3 & _ & E1). unfold mret, M_ret in E1. by injection E1 as <- <- <-. }
    destruct (error_code_eqb _ _); unfold mret, M_ret in E; by injection E as <- <-.
Qed.

Lemma refresh_connected token g st g' st' :
  client_gui_refresh_devices token g st = (g', st') -> cg_connected g' = cg_connected g.
Proof.
  intros E. destruct st as [n dd], st' as [n' dd'].
  by apply populate_spec in E as (_ & _ & rows & -> & _).
Qed.

Lemma connect_connected g st g' st' :
  on_connect_clicked g st = (g', st') -> cg_connected g = true -> cg_connected g' = false.
Proof.
  intros E Hc. unfold on_connect_clicked in E. rewrite Hc in E. unfold client_gui_disconnect in E.
  apply M_bind_inv in E as ([l v] & st1 & _ & E). unfold mret, M_ret in E. by injection E as <- <-.
Qed.

(** The refresh button, the layout, and the discovery. *)
Record client_window_inv sb w : Prop := {
  cwi_refresh : cw_refresh_enabled w = cg_connected (cw_gui w);
  cwi_controls : same_controls (cw_controls w) (create_client_controls sb) /\
    cw_controls w hStatusBar = Some sb;
  cwi_layout : exists cw ch garbage, forall c,
    cw_controls w c = gui_layout_client cw ch garbage (create_client_controls sb) c;
  cwi_discovery : if cw_discover_enabled w
    then cw_discovery_thread w = false /\ cw_searching w = false /\ cw_done_posted w = false
    else cw_discovery_thread w = xorb (cw_searching w) (cw_done_posted w) /\
         cw_searching w && cw_done_posted w = false;
}.

Lemma client_proc_inv sb env msg w st w' st' :
  client_message_ok env msg w -> ClientWndProc env msg w st = (w', st') ->
  client_window_inv sb w -> client_window_inv sb w'.
Proof.
  intros [Hf Hm] E [Hr [Hc Hb] Hl Hd].
  destruct msg as [wp|idf code ch new old i| |wp| | |]; cbn [ClientWndProc] in E.
  - destruct (LOWORD wp =? IDC_CLIENT_BTN_DISCOVER) eqn:Ed.
    { apply Z.eqb_eq, (proj1 Hm) in Ed. unfold mret, M_ret in E. injection E as <- <-.
      rewrite Ed in Hd. destruct Hd as (_ & _ & Hp). split; try done. simpl. rewrite Hp.
      by destruct (cme_thread env). }
    destruct (LOWORD wp =? IDC_CLIENT_BTN_CONNECT).
    { unfold window_connect in E. apply M_bind_inv in E as (g & st1 & E1 & E). cbv zeta in E.
      unfold mret, M_ret in E. injection E as <- <-. destruct (cg_connected (cw_gui w)) eqn:Ec.
      - apply connect_connected in E1; [|done]. by split.
      - destruct (cg_connected g) eqn:Eg; split; try done. simpl. by rewrite Eg, Hr. }
    destruct (LOWORD wp =? IDC_CLIENT_BTN_REFRESH); [|unfold mret, M_ret in E; by injection E as <- <-].
    apply M_bind_inv in E as (g & st1 & E1 & E). unfold mret, M_ret in E. injection E as <- <-.
    apply refresh_connected in E1. split; try done. simpl. by rewrite E1.
  - destruct (_ && _); [destruct (_ && _)|]; try (unfold mret, M_ret in E; by injection E as <- <-).
    apply M_bind_inv in E as (g & st1 & E1 & E). unfold mret, M_ret in E. injection E as <- <-.
    apply checkbox_connected in E1. split; try done. simpl. by rewrite E1.
  - unfold mret, M_ret in E. injection E as <- <-. split; try done; simpl.
    + unfold show_discovery_results. by destruct (cg_discovery (cw_gui w)).
    + rewrite Hm in Hd. destruct (cw_discover_enabled w); [by destruct Hd as (_ & _ & ?)|].
      destruct Hd as [_ Hx]. rewrite andb_true_r in Hx. by rewrite Hx.
  - destruct (negb _); unfold mret, M_ret in E; injection E as <- <-; [|by split].
    pose proof (client_layout_same (cme_width env) (cme_height env) (cme_garbage env) sb _ Hb) as [Hs' Hb'].
    split; try done; simpl.
    + split; [|done]. by etrans.
    + exists (cme_width env), (cme_height env), (cme_garbage env). intros c. by apply client_layout_again.
  - destruct (_ >? _); [destruct (negb _)|]; unfold mret, M_ret in E; injection E as <- <-; by split.
  - unfold mret, M_ret in E; injection E as <- <-; by split.
  - unfold mret, M_ret in E; injection E as <- <-; by split.
Qed.

Lemma client_window_step_inv sb x y :
  client_window_step x y -> client_window_inv sb x.1 -> client_window_inv sb y.1.
Proof.
  destruct 1 as [w st env msg w' st' _ Hok E|w st server token|w st fuel addr g' st' Hs E|w n n' dd Ho];
    cbn [fst snd]; intros Hi.
  - by eapply client_proc_inv.
  - by destruct Hi as [? ? ? ?].
  - destruct Hi as [Hr Hc Hl Hd]. unfold discovery_thread_func in E.
    apply M_bind_inv in E as ([x|] & st1 & _ & E); unfold mret, M_ret in E; [|done]. injection E as <- <-.
    split; try done. simpl. rewrite Hs in Hd. destruct (cw_discover_enabled w); [by destruct Hd as (_ & ? & _)|].
    destruct (cw_done_posted w); simpl in *; by destruct Hd.
  - done.
Qed.

Lemma client_window_steps_inv sb x y :
  rtc client_window_step x y -> client_window_inv sb x.1 -> client_window_inv sb y.1.
Proof. induction 1 as [|x y z Hs _ IH]; [done|]. intros Hx. by eapply IH, client_window_step_inv. Qed.

(** A search that was announced without a thread. *)
Definition search_stuck w : Prop :=
  cw_discover_enabled w = false /\ cw_searching w = false /\ cw_done_posted w = false.

Lemma stuck_step x y : client_window_step x y -> search_stuck x.1 -> search_stuck y.1.
Proof.
  destruct 1 as [w st env msg w' st' _ Hok E|w st server token|w st fuel addr g' st' Hs E|w n n' dd Ho];
    cbn [fst snd]; intros (He & Hse & Hp); [|done|congruence|done].
  destruct Hok as [_ Hm]. destruct msg as [wp|idf code ch new old i| |wp| | |]; cbn [ClientWndProc] in E.
  - destruct (LOWORD wp =? IDC_CLIENT_BTN_DISCOVER) eqn:Ed.
    { apply Z.eqb_eq, (proj1 Hm) in Ed. congruence. }
    destruct (LOWORD wp =? IDC_CLIENT_BTN_CONNECT).
    { unfold window_connect in E. apply M_bind_inv in E as (g & st1 & _ & E). cbv zeta in E.
      unfold mret, M_ret in E. injection E as <- <-. destruct (cg_connected (cw_gui w)), (cg_connected g); by split_and!. }
    destruct (LOWORD wp =? IDC_CLIENT_BTN_REFRESH); [|unfold mret, M_ret in E; by injection E as <- <-].
    apply M_bind_inv in E as (g & st1 & _ & E). unfold mret, M_ret in E. by injection E as <- <-.
  - destruct (_ && _); [destruct (_ && _)|]; try (unfold mret, M_ret in E; by injection E as <- <-).
    apply M_bind_inv in E as (g & st1 & _ & E). unfold mret, M_ret in E. by injection E as <- <-.
  - congruence.
  - destruct (negb _); unfold mret, M_ret in E; by injection E as <- <-.
  - destruct (_ >? _); [destruct (negb _)|]; unfold mret, M_ret in E; by injection E as <- <-.
  - unfold mret, M_ret in E; by injection E as <- <-.
  - unfold mret, M_ret in E; by injection E as <- <-.
Qed.
End client_steps.

(** ** Properties: the client's window *)

Section client_properties.
  Context {N D : Type} `{WinsockLaws N} `{VhciDriverLaws D} `{WideTextLaws} `{Screen}.
  Implicit Types (w : client_window).


(** *** The box that lists the servers *)

Lemma number_length i : 0 <= i < 32 -> length (fmt_d (i + 1)) = if i <? 9 then 1%nat else 2%nat.
Proof.
  intros Hi.
  assert (Forall (fun k => length (fmt_d (Z.of_nat k + 1)) = if Z.of_nat k <? 9 then 1%nat else 2%nat)
    (seq 0 32)) as Hf by (apply (bool_decide_unpack _); by vm_compute).
  rewrite Forall_forall in Hf. specialize (Hf (Z.to_nat i)). rewrite Z2Nat.id in Hf by lia.
  apply Hf, elem_of_seq. lia.
Qed.

(** The address of a server, as the box shows it. *)
Definition address_length (server : discovered_server) : nat := length (wide_column (ds_ip_address server) 32).

Lemma line_length i server :
  0 <= i < 32 ->
  length (discovery_line i server) = ((if (i <? 9)%Z then 1 else 2) + 3 + address_length server)%nat.
Proof.
  intros Hi. unfold discovery_line, address_length. rewrite !length_app, number_length by done.
  change (length (str ". ")) with 2%nat. change (length [10]) with 1%nat. destruct (i <? 9); lia.
Qed.

(** Lines of at most, or at least, [15] characters of address. *)
Lemma lines_length i servers :
  0 <= i -> i + Z.of_nat (length servers) <= 32 ->
  (Forall (fun s => address_length s <= 15)%nat servers ->
     Z.of_nat (length (discovery_lines i servers)) <=
     20 * Z.of_nat (length servers) - Z.max 0 (Z.min (9 - i) (Z.of_nat (length servers)))) /\
  (Forall (fun s => address_length s = 15)%nat servers ->
     Z.of_nat (length (discovery_lines i servers)) =
     20 * Z.of_nat (length servers) - Z.max 0 (Z.min (9 - i) (Z.of_nat (length servers)))).
Proof.
  revert i. induction servers as [|s servers IH]; intros i Hi Hn; [simpl; lia|].
  cbn [discovery_lines length] in *. rewrite length_app, line_length by lia.
  destruct (IH (i + 1)) as [IH1 IH2]; [lia..|].
  split; intros [Hs Hf]%Forall_cons; [specialize (IH1 Hf)|specialize (IH2 Hf)];
    destruct (Z.ltb_spec i 9); lia.
Qed.

(** C38: the box of the servers found.  The text is put together with [wcscat] in an array
    of 512 characters: up to 24 servers with addresses of at most 15 characters, the
    longest in dotted notation, fit with the NUL; but a discovery reports up to 32, and
    from 25 such addresses on the array is overrun. *)
Theorem discovery_message_bounds servers :
  (length servers <= 32)%nat ->
  (Forall (fun s => address_length s <= 15)%nat servers -> (length servers <= 24)%nat ->
     Z.of_nat (length (discovery_message servers)) < DISCOVERY_MSG_SIZE) /\
  (Forall (fun s => address_length s = 15)%nat servers -> (25 <= length servers)%nat ->
     DISCOVERY_MSG_SIZE <= Z.of_nat (length (discovery_message servers))).
Proof.
  intros Hn. destruct (lines_length 0 servers) as [HL1 HL2]; [lia..|].
  unfold discovery_message, DISCOVERY_MSG_SIZE. rewrite !length_app.
  change (length (str "Found servers:")) with 14%nat. change (length [10; 10]) with 2%nat.
  change (length [10]) with 1%nat. change (length (str "Using first server.")) with 19%nat.
  split; intros Hf Hl; [specialize (HL1 Hf)|specialize (HL2 Hf)]; lia.
Qed.
End client_properties.

(** ** Witnesses *)

Import SimText.

#[local] Existing Instance SimScreen.screen_laws.
#[local] Instance example_screen : Screen := SimScreen.screen 96.

Definition example_message : message_env := {|
  me_now := 65000; me_utf8 := fun _ _ => None; me_devices := None; me_allocs := [];
  me_width := 504; me_height := 381; me_garbage := mk_rect 0 0 0 0; me_answer := IDYES |}.

(** The window that opens, in which the user then types a token, and which is hidden. *)
Definition example_opened : bool * server_window * Sim.net :=
  server_window_init example_init example_message true true true (Sim.one 3 [] []).

Definition example_hidden : server_window :=
  ServerWndProc example_message (SM_COMMAND IDC_SERVER_BTN_HIDE)
    (sw_set_edit example_opened.1.2 (str "secret")).

Lemma example_opened_eq :
  server_window_init example_init example_message true true true (Sim.one 3 [] []) =
  ((true, example_opened.1.2), example_opened.2).
Proof.
  unfold example_opened. destruct (server_window_init _ _ _ _ _ _) as [[ok w] n] eqn:E.
  assert (ok = true) as -> by (apply (f_equal (fun x => x.1.1)) in E; by vm_compute in E). done.
Qed.

Lemma example_window_steps (u : SimUsb.usb) :
  rtc window_step (example_opened.1.2, (example_opened.2, u)) (example_hidden, (example_opened.2, u)).
Proof.
  eapply rtc_l; [apply (wst_type _ _ (str "secret"))|]. apply rtc_once. unfold example_hidden.
  destruct example_opened as [[ok w] n] eqn:E. apply wst_message.
  - apply (f_equal (fun x => sw_quit x.1.2)) in E. simpl in E. simpl. rewrite <- E. by vm_compute.
  - split; [split; [apply NoDup_nil_2|by intros ? ?%elem_of_nil]|done].
Qed.


Lemma gui_server_never_authenticates_witness :
  sw_edit_token example_hidden = str "secret" /\
  auth_is_enabled (Some (gs_auth_token (sw_gui example_hidden))) = false.
Proof.
  split; [by vm_compute|].
  exact (proj1 (gui_server_never_authenticates example_init example_message true true true _ _ _
    (SimUsb.start []) _ _ _ example_opened_eq (example_window_steps _))).
Defined.

Definition example_client_message : client_message_env := {|
  cme_alloc := Some 4096; cme_stale := []; cme_thread := false; cme_width := 464; cme_height := 361;
  cme_garbage := mk_rect 0 0 0 0; cme_answer := IDYES |}.

Definition example_status_bar : rect := mk_rect 0 338 464 23.

Definition example_client_opened : bool * client_window * (Sim.net * SimVhci.vhci) :=
  client_window_init example_client_env example_client_message example_status_bar true true
    (gui_net, SimVhci.start true []).


Definition example_found : list discovered_server := replicate 25 {|
  ds_ip_address := str "192.168.100.100"; ds_port := 3240; ds_hostname := str "host";
  ds_device_count := 1; ds_response_time_ms := 5 |}.

Lemma discovery_message_bounds_witness :
  DISCOVERY_MSG_SIZE <= Z.of_nat (length (discovery_message example_found)).
Proof.
  apply discovery_message_bounds; [by vm_compute; lia| |by vm_compute; lia].
  by apply Forall_replicate.
Defined.
