(* ===== verification/GuiMain.v ===== *)
(** * The graphical programs as a whole ([gui/server_gui.c], [gui/client_gui.c])

    What is left of the two programs around their windows: the columns of the lists, the
    tray icon and its menu ([gui/gui_common.c]), sharing a device by a call, the
    notifications that come while sharing is stopped, and the entry
    points, which set up the network and the USB host, open the window, run its messages
    and take everything down again.

    The run of the messages is an argument of the entry points: what [GetMessage] delivers,
    and what the threads do meanwhile, is any run of the steps of [GuiWindows]. *)

From Stdlib Require Import String.
From S2P Require Import Prelude CTypes Format Errors Log Protocol Net ProtocolIO Auth UsbHost DeviceList.
From S2P Require Import UrbQueue UrbHandler ClientManager Server GuiLayout GuiCommon GuiServer.
From S2P Require Import NetAddr Vhci Discovery RemoteDevice ClientMain.
From S2P Require GuiClient.
From S2P Require Import GuiWindows.

(** ** The columns of the lists: their titles and widths *)

Definition SRV_COL_BUSID : Z := 50.
Definition SRV_COL_VIDPID : Z := 75.
Definition SRV_COL_DESC : Z := 280.
Definition SRV_COL_STATUS : Z := 55.
Definition SRV_COL_IP : Z := 180.
Definition SRV_COL_DEVICE : Z := 150.
Definition SRV_COL_TIME : Z := 154.
Definition CLI_COL_BUSID : Z := 45.
Definition CLI_COL_VIDPID : Z := 70.
Definition CLI_COL_DESC : Z := 250.
Definition CLI_COL_STATUS : Z := 55.

(** [LV_ADDCOLUMN]: the column is inserted at [idx], or at the end. *)
Definition LV_ADDCOLUMN (idx : nat) (text : string) (width : Z) (columns : list (string * Z)) :
    list (string * Z) :=
  take idx columns ++ (text, width) :: drop idx columns.

Definition create_server_device_columns (columns : list (string * Z)) : list (string * Z) :=
  LV_ADDCOLUMN 3 "Status" SRV_COL_STATUS (LV_ADDCOLUMN 2 "Description" SRV_COL_DESC
    (LV_ADDCOLUMN 1 "VID:PID" SRV_COL_VIDPID (LV_ADDCOLUMN 0 "Bus ID" SRV_COL_BUSID columns))).

Definition create_client_columns (columns : list (string * Z)) : list (string * Z) :=
  LV_ADDCOLUMN 2 "Connected" SRV_COL_TIME (LV_ADDCOLUMN 1 "Device" SRV_COL_DEVICE
    (LV_ADDCOLUMN 0 "IP Address" SRV_COL_IP columns)).

Definition create_client_device_columns (columns : list (string * Z)) : list (string * Z) :=
  LV_ADDCOLUMN 3 "Status" CLI_COL_STATUS (LV_ADDCOLUMN 2 "Description" CLI_COL_DESC
    (LV_ADDCOLUMN 1 "VID:PID" CLI_COL_VIDPID (LV_ADDCOLUMN 0 "Bus ID" CLI_COL_BUSID columns))).

(** ** The tray icon *)

(** The array [szTip]. *)
Definition TIP_SIZE : nat := 128.

(** The part of [ctx->nid] that the program sets, and whether the icon is in the tray. *)
Record tray := { ti_uID : Z; ti_szTip : list Z; ti_shown : bool }.

Definition tray_zero : tray := {| ti_uID := 0; ti_szTip := replicate TIP_SIZE 0; ti_shown := false |}.

Definition set_tip (tip : ptr (list Z)) (szTip : list Z) : list Z :=
  match tip with Some t => strncpy szTip t (TIP_SIZE - 1) | NULL => szTip end.

(** [added]: the result of [Shell_NotifyIconW]. *)
Definition gui_tray_add (added : bool) (uID : Z) (tip : ptr (list Z)) (t : tray) : bool * tray :=
  (added, {| ti_uID := uID; ti_szTip := set_tip tip (ti_szTip tray_zero); ti_shown := added |}).

Definition gui_tray_update_tip (tip : ptr (list Z)) (t : tray) : tray :=
  {| ti_uID := ti_uID t; ti_szTip := set_tip tip (ti_szTip t); ti_shown := ti_shown t |}.

Definition gui_tray_remove (t : tray) : tray :=
  {| ti_uID := ti_uID t; ti_szTip := ti_szTip t; ti_shown := false |}.

(** An item of the menu: its command and its text; [None] is a separator. *)
Definition create_tray_menu : list (option (Z * string)) :=
  [Some (IDM_TRAY_SHOW, "Show Window"%string); None; Some (IDM_TRAY_EXIT, "Exit"%string)].

(** ** Sharing a device by a call *)

Section share.
  Context `{WideText}.

(** [ListView_SetCheckState]: when the box changes, the window is told at once, inside
    the call. *)
Definition set_check_state (index : nat) (checked : bool) (g : gui_server) : gui_server :=
  match gs_rows g !! index with
  | Some r => if Bool.eqb (row_checked r) checked then g
              else GuiServer.on_device_checkbox_changed false index checked g
  | None => g
  end.

Definition server_gui_toggle_share (index : nat) (share : bool) (g : gui_server) : gui_server :=
  let g := set_check_state index share g in
  GuiServer.on_device_checkbox_changed false index (gui_listview_get_checkbox (gs_rows g) index) g.

(** One iteration of [server_gui_stop_all], with the message that the change of the check
    box sends to the window inside it. *)
Definition stop_row (i : nat) (g : gui_server) : gui_server :=
  match gs_rows g !! i with
  | Some r =>
      let busid := column_text (row_busid r) 32 in
      let g := gs_set_list g
        (default (gs_list g) (device_list_set_shared (Some (gs_list g)) (Some busid) false).2) in
      let g := set_check_state i false g in
      gs_set_rows g (set_status_item (gs_rows g) i (share_status false))
  | None => g
  end.

(** The loop, for the [count] rows from [i] on. *)
Fixpoint stop_all_told (count i : nat) (g : gui_server) : gui_server :=
  match count with
  | O => g
  | S count => stop_all_told count (S i) (stop_row i g)
  end.
End share.

(** ** The entry points *)

Definition gui_log_config : log_config := {|
  lc_level := LOG_LEVEL_INFO; lc_targets := LOG_TARGET_CONSOLE; lc_show_timestamp := true;
  lc_show_level := true; lc_show_location := false; lc_use_colors := true; lc_log_file := [] |}.

(** Whether the log is there; neither program looks at the result of [log_init]. *)
Definition gui_log (env : log_env) : bool := error_code_eqb (start_log env gui_log_config) ERR_SUCCESS.

(** What the program has set up, apart from its window. *)
Record process := { pr_log : bool; pr_network : bool; pr_usb : bool }.

Section server_main.
  Context {N U : Type} `{Winsock N} `{WinUsb U} `{WideText} `{Screen}.

(** The exit code, what is still set up, and the window.  [registered], [created],
    [thread]: what [server_gui_init] meets; [run]: the messages until [GetMessage] gives
    0. *)
Definition server_gui_main (ie : init_env) (env : message_env) (registered created thread : bool)
    (run : server_window -> M (N * U) server_window) : M (N * U) (Z * process * server_window) :=
  let network := (network_init false (in_wsa ie)).2 in
  let '(err, usb) := usb_host_init false in
  if negb (error_code_eqb err ERR_SUCCESS)
  then mret (1, {| pr_log := gui_log (in_log ie); pr_network := network; pr_usb := usb |}, server_window_zero) else
  '(opened, w) ← lift_l (server_window_init ie env registered created thread);
  if negb opened
  then mret (1, {| pr_log := gui_log (in_log ie); pr_network := network; pr_usb := usb_host_cleanup usb |}, w) else
  w ← run (sw_show w true);
  g ← server_gui_cleanup (sw_gui w);
  mret (0, {| pr_log := false; pr_network := network_cleanup network; pr_usb := usb_host_cleanup usb |},
        sw_set_gui w g).
End server_main.

Section client_main.
  Context {N D : Type} `{Winsock N} `{VhciDriver D} `{WideText} `{Screen}.

Definition client_gui_main (ce : client_env) (env : client_message_env) (sb : rect)
    (registered created : bool) (run : client_window -> M (N * D) client_window) :
    M (N * D) (Z * process * client_window) :=
  let network := (network_init false (ce_wsa ce)).2 in
  '(opened, w) ← client_window_init ce env sb registered created;
  if negb opened
  then mret (1, {| pr_log := gui_log (ce_log ce); pr_network := network; pr_usb := false |}, w) else
  w ← run w;
  g ← GuiClient.client_gui_cleanup (cw_gui w);
  mret (0, {| pr_log := false; pr_network := network_cleanup network; pr_usb := false |},
        cw_set_gui w g).
End client_main.

(** ** Lemmas *)

Lemma update_first_again {A} (f : A -> bool) (g : A -> A) l :
  (forall x, f (g x) = f x) -> (forall x, g (g x) = g x) ->
  update_first f g (update_first f g l) = update_first f g l.
Proof.
  intros Hf Hg. induction l as [|x l IH]; simpl; [done|].
  destruct (f x) eqn:E; simpl; [by rewrite Hf, E, Hg|]. by rewrite E, IH.
Qed.

(** Sharing a device twice is sharing it once. *)
Lemma set_shared_again l b sh :
  let shared l := default l (device_list_set_shared (Some l) (Some b) sh).2 in
  shared (shared l) = shared l.
Proof.
  cbv zeta beta. rewrite (set_shared_eq l). destruct (find_first (entry_is b) (dl_entries l)) eqn:E; cbn [snd default id].
  - rewrite set_shared_eq. cbn [set_entries dl_entries dl_count]. rewrite update_first_again by done.
    destruct (find_first _ (update_first _ _ _)); [by unfold set_entries|done].
  - by rewrite set_shared_eq, E.
Qed.

(** Changing the box of a row with a bus id: the entry and the row take the value. *)
Lemma server_checkbox_run `{WideText} i checked g r :
  gs_rows g !! i = Some r ->
  let b := column_text (row_busid r) 32 in
  GuiServer.on_device_checkbox_changed false i checked g =
  if char_at b 0 =? 0 then gs_set_rows g (<[i := row_set_checked r checked]> (gs_rows g)) else
  gs_set_rows (gs_set_list g
      (default (gs_list g) (device_list_set_shared (Some (gs_list g)) (Some b) checked).2))
    (<[i := row_set_status (row_set_checked r checked) (share_status checked)]> (gs_rows g)).
Proof.
  intros Hr b. unfold GuiServer.on_device_checkbox_changed. cbv zeta. cbn [gs_set_rows gs_rows].
  rewrite row_text_shown, checkbox_shown by done.
  unfold row_text at 1. rewrite Hr. fold b. unfold gui_listview_set_checkbox.
  rewrite (alter_row _ _ _ _ Hr). destruct (_ =? 0); [done|].
  unfold set_status_item. rewrite (alter_row _ _ _ (row_set_checked r checked)).
  - unfold row_text. rewrite Hr. rewrite list_insert_insert_eq. done.
  - apply list_lookup_insert_eq. by eapply lookup_lt_Some.
Qed.

Lemma gs_list_set g l rows : gs_list (gs_set_rows (gs_set_list g l) rows) = l.
Proof. done. Qed.

Lemma gs_set_again g l l' rows rows' :
  gs_set_rows (gs_set_list (gs_set_rows (gs_set_list g l) rows) l') rows' = gs_set_rows (gs_set_list g l') rows'.
Proof. done. Qed.

(** A second message for the same box changes nothing. *)
Lemma server_checkbox_again `{WideText} i checked g r :
  gs_rows g !! i = Some r ->
  let g' := GuiServer.on_device_checkbox_changed false i checked g in
  gui_listview_get_checkbox (gs_rows g') i = checked /\
  GuiServer.on_device_checkbox_changed false i checked g' = g'.
Proof.
  intros Hr. cbv zeta. rewrite (server_checkbox_run _ _ _ _ Hr). cbv zeta.
  assert (i < length (gs_rows g))%nat as Hi by (by eapply lookup_lt_Some).
  destruct (char_at (column_text (row_busid r) 32) 0 =? 0) eqn:Eb; split.
  - unfold gui_listview_get_checkbox. cbn [gs_set_rows gs_rows]. by rewrite list_lookup_insert_eq.
  - erewrite server_checkbox_run by (cbn [gs_set_rows gs_rows]; by apply list_lookup_insert_eq).
    cbn [row_set_checked row_busid]. rewrite Eb. cbn [gs_set_rows gs_rows]. by rewrite list_insert_insert_eq.
  - unfold gui_listview_get_checkbox. cbn [gs_set_rows gs_rows]. by rewrite list_lookup_insert_eq.
  - erewrite server_checkbox_run by (cbn [gs_set_rows gs_rows]; by apply list_lookup_insert_eq).
    cbn [row_set_status row_set_checked row_busid]. rewrite Eb. change (gs_rows (gs_set_rows ?a ?b)) with b.
    rewrite list_insert_insert_eq, gs_list_set, gs_set_again.
    pose proof (set_shared_again (gs_list g) (column_text (row_busid r) 32) checked) as Hs.
    cbv zeta beta in Hs. by rewrite Hs.
Qed.

(** Setting a check box from the program is what the user does; the window's message
    and the call after it take effect once. *)
Lemma toggle_share_once `{WideText} i share g r :
  gs_rows g !! i = Some r ->
  server_gui_toggle_share i share g = GuiServer.on_device_checkbox_changed false i share g.
Proof.
  intros Hr. unfold server_gui_toggle_share, set_check_state. rewrite Hr.
  destruct (Bool.eqb (row_checked r) share) eqn:E; cbv zeta.
  - apply Bool.eqb_prop in E as <-. unfold gui_listview_get_checkbox. by rewrite Hr.
  - by destruct (server_checkbox_again i share g r Hr) as [-> ->].
Qed.

Definition stopped_row (r : gui_row) : gui_row := row_set_status (row_set_checked r false) (share_status false).

Lemma stop_row_once `{WideText} i g r :
  gs_rows g !! i = Some r ->
  stop_row i g = gs_set_rows (gs_set_list g
      (default (gs_list g)
        (device_list_set_shared (Some (gs_list g)) (Some (column_text (row_busid r) 32)) false).2))
    (<[i := stopped_row r]> (gs_rows g)).
Proof.
  intros Hr. unfold stop_row. rewrite Hr. cbv zeta. set (b := column_text _ _).
  set (g1 := gs_set_list g _). change (gs_rows g) with (gs_rows g1). fold b.
  assert (gs_rows g1 !! i = Some r) as Hr1 by exact Hr.
  unfold set_check_state. rewrite Hr1.
  destruct (Bool.eqb (row_checked r) false) eqn:E.
  - apply Bool.eqb_prop in E. unfold set_status_item. rewrite (alter_row _ _ _ _ Hr1).
    unfold stopped_row, row_set_checked. destruct r. simpl in E. by subst.
  - rewrite (server_checkbox_run _ _ _ _ Hr1). fold b.
    assert (i < length (gs_rows g1))%nat as Hi by (by eapply lookup_lt_Some).
    destruct (char_at b 0 =? 0); cbn [gs_set_rows gs_rows]; unfold set_status_item;
      rewrite (alter_row _ _ _ _ (list_lookup_insert_eq _ _ _ Hi)), list_insert_insert_eq; [done|].
    pose proof (set_shared_again (gs_list g) b false) as Hs. cbv zeta beta in Hs.
    change (gs_list g1) with (default (gs_list g) (device_list_set_shared (Some (gs_list g)) (Some b) false).2).
    by rewrite Hs.
Qed.

(** The messages that [server_gui_stop_all] sends to its own window change nothing. *)
Lemma stop_all_messages `{WideText} g :
  stop_all_told (length (gs_rows g)) 0 g = server_gui_stop_all g.
Proof.
  unfold server_gui_stop_all. fold stopped_row.
  assert (forall rows done g0, gs_rows g0 = done ++ rows ->
    stop_all_told (length rows) (length done) g0 =
    gs_set_rows (gs_set_list g0 (stop_rows rows (gs_list g0))) (done ++ (stopped_row <$> rows))) as Hl.
  { induction rows as [|r rows IH]; intros done g0 Hg; cbn [length stop_all_told stop_rows].
    - rewrite app_nil_r in Hg. cbn [fmap list_fmap]. rewrite app_nil_r, <- Hg. by destruct g0 as [[]].
    - rewrite (stop_row_once _ _ r) by (rewrite Hg; apply list_lookup_middle; done).
      rewrite Hg, insert_app_r_alt, Nat.sub_diag by lia. cbn [insert list_insert].
      rewrite cons_middle, (assoc_L (++)).
      replace (S (length done)) with (length (done ++ [stopped_row r])) by (rewrite length_app; simpl; lia).
      rewrite IH by done. cbn [fmap list_fmap].
      by rewrite gs_list_set, gs_set_again, <- (assoc_L (++) done [_]). }
  apply (Hl (gs_rows g) [] g eq_refl).
Qed.

(** The tip is always terminated, and shows the first 127 characters of what was given. *)
Lemma set_tip_spec t szTip :
  length szTip = TIP_SIZE -> char_at szTip (TIP_SIZE - 1) = 0 ->
  length (set_tip (Some t) szTip) = TIP_SIZE /\ char_at (set_tip (Some t) szTip) (TIP_SIZE - 1) = 0 /\
  cstr (set_tip (Some t) szTip) = take (TIP_SIZE - 1) (cstr t).
Proof.
  intros Hl H0. cbn [set_tip]. split; [|split].
  - rewrite length_strncpy; [done|]. unfold TIP_SIZE in *. lia.
  - unfold strncpy, char_at in *. rewrite lookup_app_r; rewrite length_take, length_app, length_replicate, Nat.min_l by lia; [|lia].
    by rewrite lookup_drop, Nat.sub_diag, Nat.add_0_r.
  - apply cstr_strncpy; [|done]. unfold TIP_SIZE in *. lia.
Qed.

(** The columns, in the order of the rows' texts. *)
Lemma columns_in_order :
  create_server_device_columns [] = [("Bus ID", 50); ("VID:PID", 75); ("Description", 280); ("Status", 55)]%string /\
  create_client_columns [] = [("IP Address", 180); ("Device", 150); ("Connected", 154)]%string /\
  create_client_device_columns [] = [("Bus ID", 45); ("VID:PID", 70); ("Description", 250); ("Status", 55)]%string.
Proof. done. Qed.

Section server_laws.
  Context {N U : Type} `{WinsockLaws N} `{WinUsbLaws U} `{WideText} `{Screen}.
  Implicit Types (n : N) (u : U) (w : server_window).

(** The window that opens is the one of [GuiServer.server_gui_init]. *)
Lemma window_init_gui ie env registered created thread n ok w n' :
  server_window_init ie env registered created thread n = ((ok, w), n') ->
  ok = registered && created /\
  (if ok then GuiServer.server_gui_init ie [] thread n = (sw_gui w, n') else n' = n).
Proof.
  intros E. unfold server_window_init in E. destruct registered; cbn [negb andb] in *.
  - destruct created; cbn [negb] in *; [|by mret_eq].
    apply M_bind_inv in E as (g & n1 & E1 & E). unfold mret, M_ret in E. by injection E as <- <- <-.
  - by mret_eq.
Qed.

(** what the graphical server leaves behind.  When its window has been closed or the
    tray's menu has ended it, the program exits with 0, and the network, the USB host
    and the log have been shut down; whatever the messages and the threads did, if the
    server could be started then no client, no device entry and no socket of the program
    is left.  When the window cannot be opened the program exits with 1 and has opened
    no socket, but the network and the log are left initialised. *)
Theorem gui_server_main_leaves_nothing ie env registered created thread run n u code p w n' u' :
  in_list_mutex ie = 0 -> in_manager_mutex ie = 0 -> NoDup (omap id (in_allocs ie)) ->
  (forall es, in_devices ie = Some es -> Forall (fun x => Forall is_byte (di_instance_id x)) es) ->
  (forall w0 st w1 st1, run w0 st = (w1, st1) -> rtc window_step (w0, st) (w1, st1)) ->
  server_gui_main ie env registered created thread run (n, u) = ((code, p, w), (n', u')) ->
  (code = 0 /\ registered && created = true /\ p = {| pr_log := false; pr_network := false; pr_usb := false |} /\
   exists w0 n0, server_window_init ie env registered created thread n = ((true, w0), n0) /\
     (gs_running (sw_gui w0) = true ->
      cm_clients (gs_manager (sw_gui w)) = [] /\ dl_entries (gs_list (sw_gui w)) = [] /\
      gs_running (sw_gui w) = false /\ ws_open n' = ws_open n)) \/
  (code = 1 /\ registered && created = false /\ (n', u') = (n, u) /\
   p = {| pr_log := gui_log (in_log ie); pr_network := in_wsa ie =? 0; pr_usb := false |}).
Proof.
  intros Hlm Hmm Hnd Hb Hrun E. unfold server_gui_main in E. cbv zeta in E.
  cbn [usb_host_init error_code_eqb negb] in E. change (error_code_eqb ERR_SUCCESS ERR_SUCCESS) with true in E.
  cbn [negb] in E. apply M_bind_inv in E as ([ok w0] & st1 & E1 & E). apply lift_l_inv in E1 as (n0 & E1 & ->).
  pose proof (window_init_gui _ _ _ _ _ _ _ _ _ E1) as [Hok Hg]. rewrite <- Hok. destruct ok; cbn [negb] in E.
  - left. apply M_bind_inv in E as (w1 & [n1 u1] & E2 & E). apply M_bind_inv in E as (g & st3 & E3 & E).
    unfold mret, M_ret in E. injection E as <- <- <- ->. split; [done|]. split; [done|]. split; [done|].
    exists w0, n0. split; [done|]. intros Hr. cbn [sw_set_gui sw_gui].
    apply Hrun, window_steps_gui in E2. cbn [fst snd sw_show sw_gui] in E2.
    pose proof (gui_init_inv _ _ _ _ _ _ Hlm Hmm Hnd Hb Hg Hr) as Hg0.
    apply (gui_steps_inv (ws_open n)) in E2; [|exact Hg0]. cbn [fst snd] in E2.
    eapply gui_cleanup_spec; [exact E2|exact E3].
  - right. unfold mret, M_ret in E. injection E as <- <- _ <- <-. rewrite Hg.
    split; [done|]. split; [done|]. split; [done|]. unfold network_init. by destruct (in_wsa ie =? 0).
Qed.
End server_laws.

Section client_laws.
  Context {N D : Type} `{WinsockLaws N} `{VhciDriverLaws D} `{WideTextLaws} `{Screen}.
  Implicit Types (n : N) (dd : D) (w : client_window).

Lemma client_window_init_gui ce env sb registered created (st : N * D) ok w st' :
  client_window_init ce env sb registered created st = ((ok, w), st') ->
  ok = registered && created /\
  (if ok then GuiClient.client_gui_init ce st = (cw_gui w, st') else st' = st).
Proof.
  intros E. unfold client_window_init in E. destruct registered; cbn [negb andb] in *.
  - destruct created; cbn [negb] in *; [|by mret_eq].
    apply M_bind_inv in E as (g & n1 & E1 & E). unfold mret, M_ret in E. by injection E as <- <- <-.
  - by mret_eq.
Qed.

(** what the graphical client leaves behind.  Whatever the user did, when the window
    is closed the program exits with 0 and has shut down the network and the log; every
    attached device is detached, its port unplugged, and no socket and no handle of
    the driver is left.  When the window cannot be opened it exits with 1, having
    touched nothing, but the network and the log are left initialised. *)
Theorem gui_client_main_leaves_nothing ce env sb registered created run n dd code p w n' dd' :
  ce_calloc ce = true -> ce_list_mutex ce = 0 ->
  (forall w0 st w1 st1, run w0 st = (w1, st1) -> rtc client_window_step (w0, st) (w1, st1)) ->
  client_gui_main ce env sb registered created run (n, dd) = ((code, p, w), (n', dd')) ->
  (code = 0 /\ registered && created = true /\ p = {| pr_log := false; pr_network := false; pr_usb := false |} /\
   rl_devices (GuiClient.cg_list (cw_gui w)) = [] /\ ws_open n' = ws_open n /\ vd_handles dd' = vd_handles dd /\
   exists w1 st1 requests, vd_requests dd' = requests ++ (UNPLUG_HARDWARE <$> rd_ports (GuiClient.cg_list (cw_gui w1))) /\
     vd_requests st1.2 = requests /\
     rl_inv (ws_open n) (GuiClient.cg_list (cw_gui w1)) (GuiClient.cg_vhci (cw_gui w1)) st1.1) \/
  (code = 1 /\ registered && created = false /\ (n', dd') = (n, dd) /\
   p = {| pr_log := gui_log (ce_log ce); pr_network := ce_wsa ce =? 0; pr_usb := false |}).
Proof.
  intros Hc Hm Hrun E. unfold client_gui_main in E. cbv zeta in E.
  apply M_bind_inv in E as ([ok w0] & [n0 d0] & E1 & E).
  pose proof (client_window_init_gui _ _ _ _ _ _ _ _ _ E1) as [Hok Hg]. rewrite <- Hok. destruct ok; cbn [negb] in E.
  - left. apply M_bind_inv in E as (w1 & [n1 d1] & E2 & E). apply M_bind_inv in E as (g & st3 & E3 & E).
    unfold mret, M_ret in E. injection E as <- <- <- ->. split; [done|]. split; [done|]. split; [done|].
    cbn [cw_set_gui cw_gui].
    destruct (GuiClient.client_init_inv _ _ _ _ _ _ Hc Hm Hg) as [Hg0 Hctl].
    apply Hrun, client_window_steps_gui in E2. cbn [fst snd] in E2.
    apply (GuiClient.client_events_inv (ws_open n) (GuiClient.cg_vhci (cw_gui w0)) d0) in E2; [|exact Hg0].
    destruct (GuiClient.client_cleanup_spec _ _ _ _ _ _ _ _ _ _ E2 Hctl E3) as (Ho & Hh & Hl & Hr).
    split; [exact Hl|]. split; [exact Ho|]. split; [exact Hh|]. exists w1, (n1, d1), (vd_requests d1).
    split; [exact Hr|]. split; [done|]. apply E2.
  - right. unfold mret, M_ret in E. injection E as <- <- _ <- <-. rewrite Hg.
    split; [done|]. split; [done|]. split; [done|]. unfold network_init. by destruct (ce_wsa ce =? 0).
Qed.
End client_laws.

(** ** Witnesses *)

Import SimText.

#[local] Existing Instance SimScreen.screen_laws.
#[local] Existing Instance example_screen.

(** The user closes the window and confirms. *)
Definition close_server (w : server_window) : M (Sim.net * SimUsb.usb) server_window := fun st =>
  (server_messages [(example_message, SM_CLOSE)] w, st).

Lemma close_server_steps w0 st w1 st1 :
  close_server w0 st = (w1, st1) -> rtc window_step (w0, st) (w1, st1).
Proof.
  unfold close_server. intros [= <- <-]. cbn [server_messages].
  destruct (sw_quit w0) eqn:Eq; [done|]. apply rtc_once.
  refine (wst_message w0 st example_message SM_CLOSE Eq _).
  split; [split; [apply NoDup_nil_2|by intros ? ?%elem_of_nil]|done].
Qed.

Lemma gui_server_main_leaves_nothing_witness :
  exists p w n' u', server_gui_main example_init example_message true true true close_server
      (Sim.one 3 [] [], SimUsb.start []) = ((0, p, w), (n', u')) /\
    pr_network p = false /\ cm_clients (gs_manager (sw_gui w)) = [].
Proof.
  destruct (server_gui_main example_init example_message true true true close_server
    (Sim.one 3 [] [], SimUsb.start [])) as [[[code p] w] [n' u']] eqn:E.
  destruct (gui_server_main_leaves_nothing example_init example_message true true true close_server
    (Sim.one 3 [] []) (SimUsb.start []) code p w n' u') as [(-> & _ & -> & w0 & n0 & E0 & Hl)|(_ & Hx & _)];
    [reflexivity|reflexivity|apply NoDup_singleton| |exact close_server_steps|exact E| |discriminate Hx].
  - intros es [= <-]. repeat constructor; by vm_compute.
  - eexists _, w, n', u'. split; [reflexivity|]. split; [reflexivity|]. apply Hl.
    rewrite example_opened_eq in E0. injection E0 as <- _. by vm_compute.
Defined.

(** The user closes the window at once. *)
Definition closing_message : client_message_env := {|
  cme_alloc := NULL; cme_stale := []; cme_thread := false; cme_width := 464; cme_height := 361;
  cme_garbage := mk_rect 0 0 0 0; cme_answer := IDYES |}.

Definition close_client (w : client_window) : M (Sim.net * SimVhci.vhci) client_window :=
  if cw_quit w then mret w else ClientWndProc closing_message CM_DESTROY w.

Lemma close_client_steps w0 st w1 st1 :
  close_client w0 st = (w1, st1) -> rtc client_window_step (w0, st) (w1, st1).
Proof.
  unfold close_client. destruct (cw_quit w0) eqn:Eq; intros E; [by injection E as <- <-|].
  apply rtc_once. eapply cws_message; [exact Eq| |exact E]. by split.
Qed.

Lemma gui_client_main_leaves_nothing_witness :
  exists p w n' d', client_gui_main example_client_env closing_message example_status_bar true true close_client
      (GuiClient.gui_net, SimVhci.start true []) = ((0, p, w), (n', d')) /\
    pr_network p = false /\ rl_devices (GuiClient.cg_list (cw_gui w)) = [].
Proof.
  destruct (client_gui_main example_client_env closing_message example_status_bar true true close_client
    (GuiClient.gui_net, SimVhci.start true [])) as [[[code p] w] [n' d']] eqn:E.
  destruct (gui_client_main_leaves_nothing example_client_env closing_message example_status_bar true true
    close_client GuiClient.gui_net (SimVhci.start true []) code p w n' d' eq_refl eq_refl close_client_steps E)
    as [(-> & _ & -> & Hl & _)|(_ & Hx & _)]; [|discriminate Hx].
  eexists _, w, n', d'. split; [reflexivity|]. split; [reflexivity|]. exact Hl.
Defined.
