(* ===== verification/ListView.v ===== *)
(** * Rows as the programs fill them ([gui/gui_common.c], [gui/client_gui.c], [gui/server_gui.c])

    [GuiClient] and [GuiServer] give the rows of their lists at once.  The programs make
    them with calls of [gui_common.c], an empty row first and then column by column, at the
    index that the call has returned.  Here are these calls and the two loops, and that
    the rows they leave are those ([client_rows_filled], [server_rows_filled]). *)

From Stdlib Require Import Ascii String.
From S2P Require Import Prelude CTypes Format Protocol UsbHost DeviceList.
From S2P Require Import ServerMain RemoteDevice GuiCommon.
From S2P Require GuiServer GuiClient.

(** ** The calls *)

(** A text of ASCII characters, as the string of a status column. *)
Definition text_string (text : list Z) : string :=
  string_of_list_ascii (map (fun c => ascii_of_N (Z.to_N c)) text).

Lemma text_string_str s : text_string (str s) = s.
Proof.
  unfold text_string, str. rewrite map_map. rewrite <- (string_of_list_ascii_of_string s) at 2. f_equal.
  rewrite <- (map_id (list_ascii_of_string s)) at 2. apply map_ext. intros a. by rewrite N2Z.id, ascii_N_embedding.
Qed.

Definition gui_listview_clear (rows : list gui_row) : list gui_row := [].

(** A row with the first column only. *)
Definition new_row (text : list Z) : gui_row := {|
  row_busid := text; row_vidpid := []; row_desc := []; row_status := EmptyString; row_checked := false |}.

(** [ListView_InsertItem]: before the row at [index], or at the end; the row's index. *)
Definition gui_listview_add_item (rows : list gui_row) (index : nat) (text : list Z) : list gui_row * nat :=
  let row := (index `min` length rows)%nat in (take row rows ++ new_row text :: drop row rows, row).

Definition row_set_item (r : gui_row) (col : nat) (text : list Z) : gui_row :=
  match col with
  | 0%nat => {| row_busid := text; row_vidpid := row_vidpid r; row_desc := row_desc r;
                row_status := row_status r; row_checked := row_checked r |}
  | 1%nat => {| row_busid := row_busid r; row_vidpid := text; row_desc := row_desc r;
                row_status := row_status r; row_checked := row_checked r |}
  | 2%nat => {| row_busid := row_busid r; row_vidpid := row_vidpid r; row_desc := text;
                row_status := row_status r; row_checked := row_checked r |}
  | 3%nat => row_set_status r (text_string text)
  | _ => r
  end.

Definition gui_listview_set_item (rows : list gui_row) (row col : nat) (text : list Z) : list gui_row :=
  alter (fun r => row_set_item r col text) row rows.

(** [selected]: the row that is selected. *)
Definition gui_listview_get_selected (selected : option nat) : Z :=
  match selected with Some i => Z.of_nat i | None => -1 end.

(** The index that was returned for a row added at the end is that row's. *)
Lemma alter_last (f : gui_row -> gui_row) rows r : alter f (length rows) (rows ++ [r]) = rows ++ [f r].
Proof. induction rows as [|x rows IH]; [done|]. cbn. f_equal. apply IH. Qed.

Lemma add_item_last rows text :
  gui_listview_add_item rows (length rows) text = (rows ++ [new_row text], length rows).
Proof. unfold gui_listview_add_item. rewrite Nat.min_id, take_ge, drop_ge by lia. done. Qed.

(** Set the columns of a row that has been added. *)
Ltac fill :=
  rewrite add_item_last; cbn [fst snd];
  unfold gui_listview_set_item, gui_listview_set_checkbox; rewrite !alter_last;
  unfold row_set_item, row_set_status, row_set_checked; cbn [row_busid row_vidpid row_desc row_status row_checked new_row].

(** ** The client's loop *)

Section client.
  Context `{WideText}.

(** One iteration of the loop of [populate_device_list]. *)
Definition fill_device (l : remote_device_list) (i : nat) (dev : usbip_usb_device) (rows : list gui_row) :
    list gui_row :=
  let busidW := wide_column (ud_busid dev) 32 in
  let vidpidW := fmt_0X 4 (ud_idVendor dev) ++ str ":" ++ fmt_0X 4 (ud_idProduct dev) in
  let descW := if negb (char_at (ud_path dev) 0 =? 0) then wide_column (ud_path dev) 128
               else wide_column (str (usb_class_string (ud_bDeviceClass dev))) 128 in
  let attached := GuiClient.is_attached l (ud_busid dev) in
  let statusW := if attached then str "Attached" else str "Available" in
  let '(rows, row) := gui_listview_add_item rows i busidW in
  let rows := gui_listview_set_item rows row 1 vidpidW in
  let rows := gui_listview_set_item rows row 2 descW in
  let rows := gui_listview_set_item rows row 3 statusW in
  if attached then gui_listview_set_checkbox rows row true else rows.

Fixpoint fill_devices (l : remote_device_list) (i : nat) (devices : list usbip_usb_device)
    (rows : list gui_row) : list gui_row :=
  match devices with
  | [] => rows
  | dev :: devices => fill_devices l (S i) devices (fill_device l i dev rows)
  end.

Lemma fill_device_row l dev rows :
  fill_device l (length rows) dev rows = rows ++ [GuiClient.device_row l dev].
Proof.
  unfold fill_device. cbv zeta. fill. unfold GuiClient.device_row, GuiClient.attach_status.
  destruct (GuiClient.is_attached l (ud_busid dev)); rewrite ?alter_last;
    unfold row_set_checked; cbn [row_busid row_vidpid row_desc row_status row_checked];
    rewrite text_string_str; by destruct (negb _).
Qed.

(** The loop leaves one row for each device, in their order. *)
Theorem client_rows_filled l devices rows :
  fill_devices l 0 devices (gui_listview_clear rows) = GuiClient.device_row l <$> devices.
Proof.
  assert (forall rows, fill_devices l (length rows) devices rows =
    rows ++ (GuiClient.device_row l <$> devices)) as Hf; [|exact (Hf [])].
  induction devices as [|dev devices IH]; intros rows0; cbn [fill_devices fmap list_fmap]; [by rewrite app_nil_r|].
  rewrite fill_device_row. replace (S (length rows0)) with (length (rows0 ++ [GuiClient.device_row l dev]))
    by (rewrite length_app; simpl; lia). by rewrite IH, <- app_assoc.
Qed.
End client.

(** ** The server's callback *)

Section server.
  Context `{WideText}.

(** [enum_ctx_t]: the program, with the allocations to come, and the index of the next row. *)
Definition enum_ctx : Type := GuiServer.gui_server * list (ptr Z) * nat.

Definition enum_device_callback (device : usb_device) (ectx : enum_ctx) : enum_ctx :=
  let '(g, allocs, index) := ectx in
  let wBusId := wide_column (dev_busid device) 32 in
  let wVidPid := fmt_0X 4 (dev_vendor_id device) ++ str ":" ++ fmt_0X 4 (dev_product_id device) in
  let wDesc := wide_column (if negb (char_at (dev_product device) 0 =? 0) then dev_product device
                            else str "USB Device") 128 in
  let '(rows, row) := gui_listview_add_item (GuiServer.gs_rows g) index wBusId in
  let rows := gui_listview_set_item rows row 1 wVidPid in
  let rows := gui_listview_set_item rows row 2 wDesc in
  let dev := device_list_find (Some (GuiServer.gs_list g)) (Some (dev_busid device)) in
  let shared := match dev with Some e => de_is_shared e | NULL => false end in
  let rows := gui_listview_set_item rows row 3 (if shared then str "Shared" else str "Local") in
  let rows := gui_listview_set_checkbox rows row shared in
  let g := GuiServer.gs_set_rows g rows in
  match dev with
  | Some _ => (g, allocs, S index)
  | NULL =>
      let l := (device_list_add (default NULL (head allocs)) (Some (GuiServer.gs_list g)) (Some device)).2 in
      (GuiServer.gs_set_list g (default (GuiServer.gs_list g) l), tail allocs, S index)
  end.

(** At the index of the next row it is the callback of [GuiServer]. *)
Theorem server_rows_filled device g allocs :
  enum_device_callback device (g, allocs, length (GuiServer.gs_rows g)) =
  (GuiServer.enum_device_callback device (g, allocs), S (length (GuiServer.gs_rows g))).
Proof.
  unfold enum_device_callback, GuiServer.enum_device_callback, GuiServer.share_status. cbv zeta. fill.
  destruct (device_list_find _ _) as [e|]; [destruct (de_is_shared e)|]; by rewrite text_string_str.
Qed.
End server.
