(* ===== verification/GuiDisplay.v ===== *)
(** * What the graphical programs tell the user ([gui/client_gui.c], [gui/gui_common.c])

    The texts of the client's window: the status bar, the caption of the button that
    connects, the label over the devices, and the message boxes.  The handlers are those
    of [GuiClient] and [GuiWindows] with every text they set, in the order in which they
    set it, and keep their names; [display] is what the user sees, a second state beside
    the network's and the driver's.

    [tracks] says that a handler does what the one without texts does, so that all that
    holds there holds here; [client_display_truthful] says that the texts are true. *)

From Stdlib Require Import String.
From S2P Require Import Prelude CTypes Format Errors Log Protocol Net ProtocolIO Auth UsbHost DeviceList.
From S2P Require Import UrbQueue UrbHandler ClientManager Server NetAddr Vhci Discovery RemoteDevice ClientMain.
From S2P Require Import GuiLayout GuiCommon ListView.
From S2P Require GuiServer GuiClient GuiWindows GuiMain.

Import GuiClient (client_gui, cg_vhci, cg_list, cg_current_server, cg_current_port, cg_connected,
  cg_discovery, cg_edit_server, cg_edit_token, cg_rows, cg_set_remote, cg_set_rows, cg_set_connected,
  cg_set_edits, stale_token, attach_status, is_attached, device_row, client_gui_set_server,
  client_gui_attach_device, client_gui_detach_device).
Import GuiWindows (client_window, cw_gui, cw_discover_enabled, cw_set_gui, cw_set_refresh,
  cw_set_discovery, cw_set_controls, cw_destroy, client_message_env, client_message(..)).

(** ** The texts *)

(** The three boxes of [gui_common.c]. *)
Inductive message_box :=
  | MB_error (text : list Z)
  | MB_info (text : list Z)
  | MB_confirm (text : list Z).

Record display := {
  dp_status : ptr (list Z);      (* the status bar, when it could be created *)
  dp_connect : list Z;           (* the caption of [hBtnConnect] *)
  dp_devices : list Z;           (* [hLabelDevices] *)
  dp_boxes : list message_box;   (* the boxes so far *)
}.

(** A change of the texts. *)
Definition tell {S} (f : display -> display) : M (display * S) () := fun st => (tt, (f st.1, st.2)).

(** The text of a control that may not be there. *)
Definition put (text : list Z) (control : ptr (list Z)) : ptr (list Z) :=
  match control with Some _ => Some text | NULL => NULL end.

Definition gui_statusbar_set_text {S} (text : list Z) : M (display * S) () := tell (fun d => {|
  dp_status := put text (dp_status d);
  dp_connect := dp_connect d; dp_devices := dp_devices d; dp_boxes := dp_boxes d |}).

(** [SetWindowTextW] on the button and on the label. *)
Definition set_connect_text {S} (text : list Z) : M (display * S) () := tell (fun d => {|
  dp_status := dp_status d; dp_connect := text; dp_devices := dp_devices d; dp_boxes := dp_boxes d |}).

Definition set_devices_text {S} (text : list Z) : M (display * S) () := tell (fun d => {|
  dp_status := dp_status d; dp_connect := dp_connect d; dp_devices := text; dp_boxes := dp_boxes d |}).

Definition show_box {S} (box : message_box) : M (display * S) () := tell (fun d => {|
  dp_status := dp_status d; dp_connect := dp_connect d; dp_devices := dp_devices d;
  dp_boxes := dp_boxes d ++ [box] |}).

Definition gui_show_error {S} (message : list Z) : M (display * S) () := show_box (MB_error message).
Definition gui_show_info {S} (message : list Z) : M (display * S) () := show_box (MB_info message).

(** [answer]: the button that the user presses. *)
Definition gui_show_confirm {S} (answer : Z) (message : list Z) : M (display * S) Z :=
  show_box (MB_confirm message);; mret answer.

Section texts.
  Context `{WideText}.

Definition connecting_text (server : bytes) : list Z :=
  snprintf 128 (str "Connecting to " ++ wide_column server 64 ++ str "...").
Definition connected_text (server : bytes) : list Z :=
  snprintf 128 (str "Connected to " ++ wide_column server 64).
Definition devices_text (device_count : Z) : list Z :=
  snprintf 64 (str "Remote Devices (" ++ fmt_d device_count ++ str "):").
Definition attached_text (busidW : list Z) (port : Z) : list Z :=
  snprintf 64 (str "Device " ++ busidW ++ str " attached to port " ++ fmt_d port).
Definition attach_error_text (err : error_code) : list Z :=
  snprintf 128 (str "Failed to attach device: " ++ wide_column (str (error_string err)) 64).
End texts.

(** [device->vhci_port] through the pointer that [remote_device_connect] has set. *)
Definition vhci_port_of (l : remote_device_list) (device : ptr Z) : Z :=
  match find_first (fun d => bool_decide (device = Some (rd_loc d))) (rl_devices l) with
  | Some d => rd_vhci_port d
  | NULL => 0
  end.

(** The texts of the controls when they have been created; [statusbar]: whether the status
    bar could be. *)
Definition created_display (statusbar : bool) : display := {|
  dp_status := if statusbar then Some (str "Not connected") else NULL;
  dp_connect := str "Connect"; dp_devices := str "Remote Devices:"; dp_boxes := [] |}.

(** ** The handlers *)

Section handlers.
  Context {N D : Type} `{Winsock N} `{VhciDriver D} `{WideText} `{Screen}.

Definition populate_device_list (token : ptr bytes) (g : client_gui) : M (display * (N * D)) client_gui :=
  let g := cg_set_rows g (gui_listview_clear (cg_rows g)) in
  if negb (cg_connected g) then mret g else
  '(err, devices) ← lift_r (lift_l (remote_server_list_devices token (Some (cg_current_server g))
                                      (cg_current_port g) MAX_DEVICES));
  if negb (error_code_eqb err ERR_SUCCESS) then
    gui_show_error (str "Failed to get device list from server");; mret g
  else
  let g := cg_set_rows g (fill_devices (cg_list g) 0 devices (cg_rows g)) in
  set_devices_text (devices_text (Z.of_nat (length devices)));; mret g.

Definition client_gui_refresh_devices (token : ptr bytes) (g : client_gui) :
    M (display * (N * D)) client_gui := populate_device_list token g.

Definition on_device_checkbox_changed (alloc : ptr Z) (stale : bytes) (g_updating_checkbox : bool)
    (index : nat) (checked : bool) (g : client_gui) : M (display * (N * D)) client_gui :=
  if g_updating_checkbox then mret g else
  let g := cg_set_rows g (gui_listview_set_checkbox (cg_rows g) index checked) in
  let busid := column_text (row_text (cg_rows g) index) 32 in
  if char_at busid 0 =? 0 then mret g else
  if gui_listview_get_checkbox (cg_rows g) index then
    gui_statusbar_set_text (str "Attaching device...");;
    '(err, g) ← lift_r (client_gui_attach_device alloc (stale_token g stale) g busid);
    if error_code_eqb err ERR_SUCCESS then
      let g := cg_set_rows g (set_status_item (cg_rows g) index (attach_status true)) in
      gui_statusbar_set_text (str "Device attached");; mret g
    else
      let g := cg_set_rows g (gui_listview_set_checkbox (cg_rows g) index false) in
      gui_statusbar_set_text (str "Failed to attach device");;
      gui_show_error (str "Failed to attach device");; mret g
  else
    gui_statusbar_set_text (str "Detaching device...");;
    '(err, g) ← lift_r (client_gui_detach_device g busid);
    if error_code_eqb err ERR_SUCCESS then
      let g := cg_set_rows g (set_status_item (cg_rows g) index (attach_status false)) in
      gui_statusbar_set_text (str "Device detached");; mret g
    else
      let g := cg_set_rows g (gui_listview_set_checkbox (cg_rows g) index true) in
      gui_statusbar_set_text (str "Failed to detach device");; mret g.

Definition client_gui_attach_selected (alloc : ptr Z) (stale : bytes) (sel : option nat) (g : client_gui) :
    M (display * (N * D)) (bool * client_gui) :=
  match sel with
  | None => gui_show_error (str "Please select a device to attach");; mret (false, g)
  | Some i =>
      let busidW := row_text (cg_rows g) i in
      let busid := column_text busidW 32 in
      if is_attached (cg_list g) busid then
        gui_show_error (str "Device is already attached");; mret (false, g)
      else
      gui_statusbar_set_text (str "Attaching device...");;
      '(err, l, v, device) ← lift_r (remote_device_connect alloc (stale_token g stale) (Some (cg_list g))
          (Some (cg_vhci g)) (Some (cg_current_server g)) (cg_current_port g) (Some busid));
      let g := cg_set_remote g (default (cg_list g) l) (default (cg_vhci g) v) in
      if negb (error_code_eqb err ERR_SUCCESS) then
        gui_show_error (attach_error_text err);;
        gui_statusbar_set_text (str "Attach failed");; mret (false, g)
      else
      g ← client_gui_refresh_devices (stale_token g stale) g;
      gui_statusbar_set_text (attached_text busidW (vhci_port_of (cg_list g) device));;
      mret (true, g)
  end.

Definition client_gui_detach_selected (stale : bytes) (sel : option nat) (g : client_gui) :
    M (display * (N * D)) client_gui :=
  match sel with
  | None => gui_show_error (str "Please select a device to detach");; mret g
  | Some i =>
      let busid := column_text (row_text (cg_rows g) i) 32 in
      match remote_device_find_by_busid (Some (cg_list g)) (Some busid) with
      | NULL => gui_show_error (str "Device is not attached");; mret g
      | Some device =>
          '(_, l, v) ← lift_r (remote_device_disconnect (Some (cg_list g)) (Some (cg_vhci g))
                                 (Some (rd_loc device)));
          let g := cg_set_remote g (default (cg_list g) l) (default (cg_vhci g) v) in
          g ← client_gui_refresh_devices (stale_token g stale) g;
          gui_statusbar_set_text (str "Device detached");; mret g
      end
  end.

Definition client_gui_connect (token : ptr bytes) (g : client_gui) :
    M (display * (N * D)) (bool * client_gui) :=
  gui_statusbar_set_text (connecting_text (cg_current_server g));;
  '(err, _) ← lift_r (lift_l (remote_server_list_devices token (Some (cg_current_server g))
                                (cg_current_port g) 1));
  if negb (error_code_eqb err ERR_SUCCESS) then
    gui_statusbar_set_text (str "Connection failed");;
    gui_show_error (str "Failed to connect to server");; mret (false, g)
  else
  let g := cg_set_connected g true in
  set_connect_text (str "Disconnect");;
  gui_statusbar_set_text (connected_text (cg_current_server g));;
  g ← client_gui_refresh_devices token g; mret (true, g).

Definition client_gui_disconnect (g : client_gui) : M (display * (N * D)) client_gui :=
  '(l, v) ← lift_r (remote_device_disconnect_all (Some (cg_list g)) (Some (cg_vhci g)));
  let g := cg_set_connected (cg_set_remote g (default (cg_list g) l) (default (cg_vhci g) v)) false in
  set_connect_text (str "Connect");;
  let g := cg_set_rows g (gui_listview_clear (cg_rows g)) in
  gui_statusbar_set_text (str "Disconnected");; mret g.

Definition on_connect_clicked (g : client_gui) : M (display * (N * D)) client_gui :=
  if cg_connected g then client_gui_disconnect g else
  let server := copy_str (cg_edit_server g) 64 in
  if char_at server 0 =? 0 then gui_show_error (str "Please enter server IP address");; mret g else
  let token := copy_str (cg_edit_token g) (Z.to_nat AUTH_TOKEN_MAX_LEN) in
  let token_set := negb (char_at token 0 =? 0) in
  '(_, g) ← client_gui_connect (if token_set then Some token else NULL) (client_gui_set_server g server token_set);
  mret g.

Definition on_discover_clicked (g : client_gui) : M (display * (N * D)) client_gui :=
  gui_statusbar_set_text (str "Discovering servers...");; mret (GuiClient.on_discover_clicked g).

Definition on_refresh_clicked (stale : bytes) (g : client_gui) : M (display * (N * D)) client_gui :=
  client_gui_refresh_devices (stale_token g stale) g.

Definition show_discovery_results (g : client_gui) : M (display * (N * D)) client_gui :=
  match cg_discovery g with
  | [] =>
      gui_show_info (str "No servers found on LAN." ++ [10] ++ str "Try entering IP address manually.");;
      mret g
  | server :: servers =>
      let g := cg_set_edits g (ds_ip_address server) (cg_edit_token g) (cg_discovery g) in
      match servers with
      | [] => gui_show_info (str "Found 1 server. Address filled in.")
      | _ => gui_show_info (GuiWindows.discovery_message (server :: servers))
      end;;
      mret g
  end.

(** ** The window procedure *)

Definition window_connect (w : client_window) : M (display * (N * D)) client_window :=
  g ← on_connect_clicked (cw_gui w);
  let w' := cw_set_gui w g in
  mret (if cg_connected (cw_gui w) then cw_set_refresh w' false
        else if cg_connected g then cw_set_refresh w' true else w').

Definition ClientWndProc (env : client_message_env) (msg : client_message) (w : client_window) :
    M (display * (N * D)) client_window :=
  match msg with
  | CM_COMMAND wParam =>
      let id := GuiWindows.LOWORD wParam in
      if id =? GuiWindows.IDC_CLIENT_BTN_DISCOVER then
        g ← on_discover_clicked (cw_gui w);
        mret (cw_set_discovery (cw_set_gui w g) false (GuiWindows.cme_thread env) (GuiWindows.cme_thread env)
                (GuiWindows.cw_done_posted w))
      else if id =? GuiWindows.IDC_CLIENT_BTN_CONNECT then window_connect w
      else if id =? GuiWindows.IDC_CLIENT_BTN_REFRESH then
        g ← on_refresh_clicked (GuiWindows.cme_stale env) (cw_gui w); mret (cw_set_gui w g)
      else mret w
  | CM_NOTIFY idFrom code uChanged uNewState uOldState iItem =>
      if (idFrom =? GuiWindows.IDC_CLIENT_DEVICE_LIST) && (code =? GuiWindows.LVN_ITEMCHANGED) then
        if negb (Z.land uChanged GuiWindows.LVIF_STATE =? 0) &&
           negb (Z.land uOldState GuiWindows.LVIS_STATEIMAGEMASK =?
                 Z.land uNewState GuiWindows.LVIS_STATEIMAGEMASK)
        then
          g ← on_device_checkbox_changed (GuiWindows.cme_alloc env) (GuiWindows.cme_stale env) false iItem
                (GuiWindows.check_state uNewState) (cw_gui w);
          mret (cw_set_gui w g)
        else mret w
      else mret w
  | CM_DISCOVERY_DONE =>
      gui_statusbar_set_text
        (match cg_discovery (cw_gui w) with [] => str "No servers found" | _ => str "Discovery complete" end);;
      g ← show_discovery_results (cw_gui w);
      mret (cw_set_discovery (cw_set_gui w g) true false (GuiWindows.cw_searching w) false)
  | CM_CLOSE =>
      if rl_count (cg_list (cw_gui w)) >? 0 then
        answer ← gui_show_confirm (GuiWindows.cme_answer env) (str "Detach all devices and exit?");
        if negb (answer =? GuiWindows.IDYES) then mret w else mret (cw_destroy w)
      else mret (cw_destroy w)
  | CM_SIZE _ | CM_DESTROY | CM_other => lift_r (GuiWindows.ClientWndProc env msg w)
  end.
End handlers.

(** ** What the texts leave alone *)

(** [m] does what [m0] does, and changes texts besides. *)
Definition tracks {S A} (m : M (display * S) A) (m0 : M S A) : Prop :=
  forall d s, exists d', m (d, s) = ((m0 s).1, (d', (m0 s).2)).

Create HintDb display.

Section tracking.
  Context {S : Type}.

Lemma tracks_ret {A} (a : A) : tracks (S := S) (mret a) (mret a).
Proof. intros d s. by exists d. Qed.

Lemma tracks_lift {A} (m : M S A) : tracks (lift_r m) m.
Proof. intros d s. exists d. unfold lift_r. simpl. by destruct (m s). Qed.

Lemma tracks_bind {A B} (m : M (display * S) A) (m0 : M S A) (k : A -> M (display * S) B) k0 :
  tracks m m0 -> (forall a, tracks (k a) (k0 a)) -> tracks (m ≫= k) (m0 ≫= k0).
Proof.
  intros Hm Hk d s. destruct (Hm d s) as [d1 E]. unfold mbind, M_bind. rewrite E.
  destruct (m0 s) as [a s1]. simpl. apply Hk.
Qed.

Lemma tell_bind {A} f (k : () -> M (display * S) A) d s : (tell f ≫= k) (d, s) = k tt (f d, s).
Proof. done. Qed.

(** A text, and then [m]. *)
Lemma tracks_tell {A} f (k : () -> M (display * S) A) m0 :
  tracks (k tt) m0 -> tracks (tell f ≫= k) m0.
Proof. intros Hk d s. apply Hk. Qed.

Lemma tracks_if {A} (c : bool) (m1 m2 : M (display * S) A) n1 n2 :
  tracks m1 n1 -> tracks m2 n2 -> tracks (if c then m1 else m2) (if c then n1 else n2).
Proof. by destruct c. Qed.

(** Texts after [m0], and texts that come with a result. *)
Lemma tracks_then {A} (m : M (display * S) A) m0 k :
  tracks m m0 -> (forall a, tracks (k a) (mret a)) -> tracks (m ≫= k) m0.
Proof.
  intros Hm Hk d s. destruct (Hm d s) as [d1 E]. unfold mbind, M_bind. rewrite E. apply (Hk _ d1).
Qed.

Lemma tracks_value {A B} (m : M (display * S) A) (a : A) (k : A -> M (display * S) B) n :
  tracks m (mret a) -> tracks (k a) n -> tracks (m ≫= k) n.
Proof. intros Hm Hk d s. destruct (Hm d s) as [d1 E]. unfold mbind, M_bind. rewrite E. apply Hk. Qed.

Lemma tracks_run {A} (m : M (display * S) A) m0 d s a d' s' :
  tracks m m0 -> m (d, s) = (a, (d', s')) -> m0 s = (a, s').
Proof. intros Hm E. destruct (Hm d s) as [d1 E1]. rewrite E1 in E. destruct (m0 s). simpl in E. by simplify_eq. Qed.
End tracking.

#[export] Hint Resolve tracks_ret tracks_lift tracks_bind tracks_if : display.

(** Runs through a handler with its counterpart. *)
Ltac track :=
  repeat first
    [ progress intros
    | progress cbv zeta
    | match goal with |- tracks (let '(_, _) := ?x in _) _ => destruct x end
    | solve [eauto 2 with display]
    | apply tracks_tell
    | eapply tracks_if
    | eapply tracks_bind ].

Lemma rows_filled `{WideText} l devices g :
  fill_devices l 0 devices (cg_rows (cg_set_rows g (gui_listview_clear (cg_rows g)))) = device_row l <$> devices.
Proof. exact (client_rows_filled l devices (cg_rows g)). Qed.

Section tracked.
  Context {N D : Type} `{Winsock N} `{VhciDriver D} `{WideText} `{Screen}.

Notation tracks := (tracks (S := N * D)) (only parsing).

Lemma populate_tracks token g :
  tracks (populate_device_list token g) (GuiClient.populate_device_list token g).
Proof.
  unfold populate_device_list, GuiClient.populate_device_list. cbv zeta. apply tracks_if; [track|].
  apply tracks_bind; [track|]. intros [err devices]. apply tracks_if; [track|]. apply tracks_tell.
  rewrite rows_filled. apply tracks_ret.
Qed.

Lemma refresh_tracks token g :
  tracks (client_gui_refresh_devices token g) (GuiClient.client_gui_refresh_devices token g).
Proof. apply populate_tracks. Qed.
#[local] Hint Resolve populate_tracks refresh_tracks : display.

Lemma checkbox_tracks alloc stale up i checked g :
  tracks (on_device_checkbox_changed alloc stale up i checked g)
    (GuiClient.on_device_checkbox_changed alloc stale up i checked g).
Proof. unfold on_device_checkbox_changed, GuiClient.on_device_checkbox_changed. track. Qed.

Lemma attach_selected_tracks alloc stale sel g :
  tracks (client_gui_attach_selected alloc stale sel g) (GuiClient.client_gui_attach_selected alloc stale sel g).
Proof. unfold client_gui_attach_selected, GuiClient.client_gui_attach_selected. destruct sel; track. Qed.

Lemma detach_selected_tracks stale sel g :
  tracks (client_gui_detach_selected stale sel g) (GuiClient.client_gui_detach_selected stale sel g).
Proof.
  unfold client_gui_detach_selected, GuiClient.client_gui_detach_selected. destruct sel; [|track].
  cbv zeta. destruct (remote_device_find_by_busid _ _); [|track]. apply tracks_bind; [track|].
  intros [[e l] v]. apply tracks_then; track.
Qed.

Lemma connect_tracks token g : tracks (client_gui_connect token g) (GuiClient.client_gui_connect token g).
Proof. unfold client_gui_connect, GuiClient.client_gui_connect. track. Qed.

Lemma disconnect_tracks g : tracks (client_gui_disconnect g) (GuiClient.client_gui_disconnect g).
Proof. unfold client_gui_disconnect, GuiClient.client_gui_disconnect. track. Qed.
#[local] Hint Resolve checkbox_tracks connect_tracks disconnect_tracks : display.

Lemma connect_clicked_tracks g : tracks (on_connect_clicked g) (GuiClient.on_connect_clicked g).
Proof. unfold on_connect_clicked, GuiClient.on_connect_clicked. track. Qed.
#[local] Hint Resolve connect_clicked_tracks : display.

Lemma results_tracks g : tracks (show_discovery_results g) (mret (GuiClient.show_discovery_results g)).
Proof.
  unfold show_discovery_results, GuiClient.show_discovery_results.
  destruct (cg_discovery g) as [|x [|y l]]; track.
Qed.
#[local] Hint Resolve results_tracks : display.

Lemma discover_tracks g : tracks (on_discover_clicked g) (mret (GuiClient.on_discover_clicked g)).
Proof. unfold on_discover_clicked. track. Qed.

(** The window procedure with its texts is the window procedure. *)
Lemma proc_tracks env msg w : tracks (ClientWndProc env msg w) (GuiWindows.ClientWndProc env msg w).
Proof.
  destruct msg; cbn [ClientWndProc GuiWindows.ClientWndProc]; try solve [track].
  - unfold on_discover_clicked, on_refresh_clicked, window_connect, GuiWindows.window_connect. track. eapply tracks_value; [apply discover_tracks|]. track.
  - apply tracks_tell. eapply tracks_value; [apply results_tracks|]. track.
  - apply tracks_if; [|track]. eapply tracks_value; [apply tracks_tell, tracks_ret|]. track.
Qed.
End tracked.

(** ** Steps *)

Section steps.
  Context {N D : Type} `{WinsockLaws N} `{VhciDriverLaws D} `{WideTextLaws} `{Screen}.
  Implicit Types (d : display) (w : client_window) (st : N * D).

(** The messages, and what happens beside them, as in [client_window_step]: only the
    window procedure changes texts. *)
Inductive display_step :
    display * client_window * (N * D) -> display * client_window * (N * D) -> Prop :=
  | ds_message d w st env msg d' w' st' :
      GuiWindows.cw_quit w = false -> GuiWindows.client_message_ok env msg w ->
      ClientWndProc env msg w (d, st) = (w', (d', st')) ->
      display_step (d, w, st) (d', w', st')
  | ds_type d w st server token :
      display_step (d, w, st)
        (d, cw_set_gui w (cg_set_edits (cw_gui w) server token (cg_discovery (cw_gui w))), st)
  | ds_search d w st fuel addr g' st' :
      GuiWindows.cw_searching w = true ->
      GuiClient.discovery_thread_func fuel addr (cw_gui w) st = (Some g', st') ->
      display_step (d, w, st)
        (d, cw_set_discovery (cw_set_gui w g') (cw_discover_enabled w) (GuiWindows.cw_discovery_thread w)
              false true, st')
  | ds_network d w n n' (dd : D) :
      ws_open n' = ws_open n -> display_step (d, w, (n, dd)) (d, w, (n', dd)).

(** Without the texts these are the steps of the window. *)
Lemma display_step_window x y :
  display_step x y -> GuiWindows.client_window_step (x.1.2, x.2) (y.1.2, y.2).
Proof.
  destruct 1 as [d w st env msg d' w' st' Hq Hok E|d w st server token|d w st fuel addr g' st' Hs E|d w n n' dd Ho];
    cbn [fst snd].
  - eapply GuiWindows.cws_message; [done..|]. by eapply tracks_run; [apply proc_tracks|].
  - apply GuiWindows.cws_type.
  - by eapply GuiWindows.cws_search.
  - by apply GuiWindows.cws_network.
Qed.

Lemma display_steps_window x y :
  rtc display_step x y -> rtc GuiWindows.client_window_step (x.1.2, x.2) (y.1.2, y.2).
Proof. induction 1 as [|x y z Hs _ IH]; [done|]. by eapply rtc_l; [apply display_step_window|]. Qed.

(** And every step of the window is one of these. *)
Lemma window_step_display d w st y :
  GuiWindows.client_window_step (w, st) y -> exists d', display_step (d, w, st) (d', y.1, y.2).
Proof.
  intros Hs. remember (w, st) as x eqn:Ex.
  destruct Hs as [w1 st1 env msg w' st' Hq Hok E|w1 st1 server token|w1 st1 fuel addr g' st' Hs E|w1 n n' dd Ho];
    simplify_eq; cbn [fst snd].
  - destruct (proc_tracks env msg w d st) as [d' Ed]. rewrite E in Ed. exists d'. by eapply ds_message.
  - exists d. apply ds_type.
  - exists d. by eapply ds_search.
  - exists d. by apply ds_network.
Qed.
End steps.

(** ** Truth *)

Section truth.
  Context `{WideText}.

(** What the status bar may say, and when.  None of the texts that announce an operation
    is among them, except that of the search, which is a thread's. *)
Inductive status_of (w : client_window) : list Z -> Prop :=
  | so_not_connected : cg_connected (cw_gui w) = false -> status_of w (str "Not connected")
  | so_disconnected : cg_connected (cw_gui w) = false -> status_of w (str "Disconnected")
  | so_failed : cg_connected (cw_gui w) = false -> status_of w (str "Connection failed")
  | so_connected :
      cg_connected (cw_gui w) = true -> status_of w (connected_text (cg_current_server (cw_gui w)))
  | so_attached :
      cg_connected (cw_gui w) = true -> rl_devices (cg_list (cw_gui w)) <> [] ->
      status_of w (str "Device attached")
  | so_attach_failed : cg_connected (cw_gui w) = true -> status_of w (str "Failed to attach device")
  | so_detached : cg_connected (cw_gui w) = true -> status_of w (str "Device detached")
  | so_detach_failed : cg_connected (cw_gui w) = true -> status_of w (str "Failed to detach device")
  | so_searching : cw_discover_enabled w = false -> status_of w (str "Discovering servers...")
  | so_nothing : status_of w (str "No servers found")
  | so_found : status_of w (str "Discovery complete").

(** The caption is what the button does next; a list that is shown is counted. *)
Record display_true (d : display) (w : client_window) : Prop := {
  dt_status t : dp_status d = Some t -> status_of w t;
  dt_connect : dp_connect d = str (if cg_connected (cw_gui w) then "Disconnect" else "Connect");
  dt_devices : cg_rows (cw_gui w) <> [] ->
    dp_devices d = devices_text (Z.of_nat (length (cg_rows (cw_gui w))));
}.

(** What [status_of] looks at. *)
Lemma status_of_keep w w' t :
  cg_connected (cw_gui w') = cg_connected (cw_gui w) ->
  (cg_connected (cw_gui w) = true -> cg_current_server (cw_gui w') = cg_current_server (cw_gui w)) ->
  rl_devices (cg_list (cw_gui w')) = rl_devices (cg_list (cw_gui w)) ->
  cw_discover_enabled w' = cw_discover_enabled w -> status_of w t -> status_of w' t.
Proof.
  intros Ec Es El Ed. destruct 1 as [Hc|Hc|Hc|Hc|Hc Hn|Hc|Hc|Hc|Hd| |];
    try (by constructor; congruence). rewrite <- (Es Hc). constructor. congruence.
Qed.
End truth.

Section preserved.
  Context {N D : Type} `{WinsockLaws N} `{VhciDriverLaws D} `{WideTextLaws} `{Screen}.
  Implicit Types (n : N) (d : display) (g : client_gui) (w : client_window) (st : N * D) (dd : D) (O : gset Z).

Lemma refresh_texts token g d st g' d' st' :
  client_gui_refresh_devices token g (d, st) = (g', (d', st')) ->
  dp_status d' = dp_status d /\ dp_connect d' = dp_connect d /\
  exists rows, g' = cg_set_rows g rows /\ (rows <> [] -> dp_devices d' = devices_text (Z.of_nat (length rows))).
Proof.
  intros E. unfold client_gui_refresh_devices, populate_device_list in E. cbv zeta in E.
  destruct (negb _); [unfold mret, M_ret in E; injection E as <- <- <-; split_and!; [done..|by exists []]|].
  apply M_bind_inv in E as ([err devs] & [d1 st1] & E1 & E). apply lift_r_inv in E1 as (st2 & _ & ?). simplify_eq.
  destruct (negb _).
  - unfold mbind, M_bind, mret, M_ret, gui_show_error, show_box, tell in E. simpl in E.
    injection E as <- <- <-. split_and!; [done..|by exists []].
  - unfold mbind, M_bind, mret, M_ret, set_devices_text, tell in E. simpl in E.
    injection E as <- <- <-. split_and!; [done..|]. eexists. split; [done|]. intros _. simpl.
    change (@nil gui_row) with (gui_listview_clear (cg_rows g)). by rewrite client_rows_filled, length_fmap.
Qed.

(** Attaching and detaching do not change the server. *)
Lemma attach_server alloc token g b st e g' st' :
  client_gui_attach_device alloc token g b st = ((e, g'), st') -> cg_current_server g' = cg_current_server g.
Proof.
  intros E. unfold client_gui_attach_device in E. destruct (is_attached _ _); [by mret_eq|].
  apply M_bind_inv in E as ([[[e1 l] v] x] & st1 & _ & E). unfold mret, M_ret in E. by injection E as <- <- <-.
Qed.

Lemma detach_server g b st e g' st' :
  client_gui_detach_device g b st = ((e, g'), st') -> cg_current_server g' = cg_current_server g.
Proof.
  intros E. unfold client_gui_detach_device in E. destruct (remote_device_find_by_busid _ _); [|by mret_eq].
  apply M_bind_inv in E as ([[e1 l] v] & st1 & _ & E). unfold mret, M_ret in E. by injection E as <- <- <-.
Qed.

(** A handler that leaves the status as it is and the state that it speaks of, or sets a
    text that is true afterwards. *)
Definition status_moves d g d' g' : Prop :=
  dp_status d' = dp_status d /\ rl_devices (cg_list g') = rl_devices (cg_list g) \/
  exists t, dp_status d' = put t (dp_status d) /\
    forall w, cw_gui w = g' -> cg_connected g' = true -> status_of w t.

Lemma put_put t t' control : put t (put t' control) = put t control.
Proof. by destruct control. Qed.

(** The text set last is the one that counts. *)
Ltac texts E :=
  unfold gui_statusbar_set_text, gui_show_error, gui_show_info, show_box, set_connect_text, set_devices_text,
    tell, mbind, M_bind, mret, M_ret in E; cbn in E; injection E; clear E; intros; subst; cbn; unfold set_status_item, gui_listview_set_checkbox;
  rewrite ?put_put.

Lemma checkbox_texts O c0 dd0 alloc stale up i checked g d n dd g' d' n' dd' :
  GuiClient.client_gui_inv O c0 dd0 g n dd -> GuiClient.fresh_device g alloc -> is_Some (cg_rows g !! i) ->
  on_device_checkbox_changed alloc stale up i checked g (d, (n, dd)) = (g', (d', (n', dd'))) ->
  dp_connect d' = dp_connect d /\ dp_devices d' = dp_devices d /\
  cg_current_server g' = cg_current_server g /\ length (cg_rows g') = length (cg_rows g) /\
  cg_connected g' = cg_connected g /\ status_moves d g d' g'.
Proof.
  intros Hg Hf Hi E. pose proof (GuiClient.row_connected _ _ _ _ _ _ _ Hg Hi) as Hc.
  unfold on_device_checkbox_changed in E.
  destruct up; [unfold mret, M_ret in E; injection E as <- <- <- <-; split_and!; try done; by left|].
  set (g1 := cg_set_rows g (gui_listview_set_checkbox (cg_rows g) i checked)) in *.
  assert (GuiClient.client_gui_inv O c0 dd0 g1 n dd) as Hg1.
  { apply GuiClient.set_rows_inv; [done|apply alter_nil]. }
  assert (length (cg_rows g1) = length (cg_rows g)) as Hlen by apply length_alter.
  destruct (column_text_short (row_text (cg_rows g1) i) 32) as [Hn Hl]; [lia|].
  set (b := column_text _ _) in *. cbv zeta in E.
  destruct (_ =? 0); [unfold mret, M_ret in E; injection E as <- <- <- <-; split_and!; try done; by left|].
  destruct (gui_listview_get_checkbox _ _) in E;
    apply M_bind_inv in E as ([] & [d1 st1] & E1 & E); unfold gui_statusbar_set_text, tell in E1;
    injection E1 as <- <-; apply M_bind_inv in E as ([e g2] & [d2 st2] & E2 & E);
    apply lift_r_inv in E2 as ([n2 dd2] & E2 & ?); simplify_eq.
  - pose proof (attach_server _ _ _ _ _ _ _ _ E2) as Hs.
    apply (GuiClient.client_attach_inv O c0 dd0) in E2 as (_ & Hr & Hc2 & Hids); [|done..].
    destruct (error_code_eqb e ERR_SUCCESS) eqn:He; texts E; [apply error_code_eqb_true in He as ->|].
    + split_and!; try done; [by rewrite length_alter, Hr|congruence|]. right. eexists. split; [done|].
      intros w Ew Hcw. constructor; rewrite Ew; [done|]. destruct Hids as [[? _]|[_ Hids]]; [done|].
      cbn. unfold GuiClient.attached_ids in Hids. by destruct (rl_devices (cg_list g2)).
    + split_and!; try done; [by rewrite length_alter, Hr|congruence|]. right. eexists. split; [done|].
      intros w Ew Hcw. constructor. by rewrite Ew.
  - pose proof (detach_server _ _ _ _ _ _ E2) as Hs.
    apply (GuiClient.client_detach_inv O c0 dd0) in E2 as (_ & Hr & Hc2 & Hids); [|done..].
    destruct (error_code_eqb e ERR_SUCCESS); texts E;
      (split_and!; try done; [by rewrite length_alter, Hr|]; right; eexists; split; [done|];
       intros w Ew Hcw; constructor; by rewrite Ew).
Qed.

Lemma connect_texts O c0 dd0 g d n dd g' d' n' dd' :
  GuiClient.client_gui_inv O c0 dd0 g n dd ->
  dp_connect d = str (if cg_connected g then "Disconnect" else "Connect") ->
  on_connect_clicked g (d, (n, dd)) = (g', (d', (n', dd'))) ->
  dp_connect d' = str (if cg_connected g' then "Disconnect" else "Connect") /\
  (cg_rows g' <> [] -> dp_devices d' = devices_text (Z.of_nat (length (cg_rows g')))) /\
  (dp_status d' = dp_status d /\ g' = g \/
   exists t, dp_status d' = put t (dp_status d) /\ forall w, cw_gui w = g' -> status_of w t).
Proof.
  intros Hg Hd E. unfold on_connect_clicked in E. destruct (cg_connected g) eqn:Ec.
  { unfold client_gui_disconnect in E. apply M_bind_inv in E as ([l v] & [d1 st1] & E1 & E).
    apply lift_r_inv in E1 as (st2 & _ & ?). simplify_eq. texts E. split_and!; [done..|]. right.
    eexists. split; [done|]. intros w Ew. constructor. by rewrite Ew. }
  destruct (GuiClient.ci_idle _ _ _ _ _ _ Hg Ec) as [Hrows _].
  cbv zeta in E. destruct (_ =? 0).
  { texts E. rewrite Ec, Hrows. split_and!; [done..|]. by left. }
  set (token := if negb _ then Some _ else NULL) in E. set (g1 := client_gui_set_server _ _ _) in E.
  apply M_bind_inv in E as ([ok g2] & [d2 st2] & E1 & E). unfold mret, M_ret in E. injection E as <- <- ->.
  unfold client_gui_connect in E1. apply M_bind_inv in E1 as ([] & [d3 st3] & E3 & E1).
  unfold gui_statusbar_set_text, tell in E3. injection E3 as <- <-.
  apply M_bind_inv in E1 as ([err devs] & [d3 st3] & E3 & E1). apply lift_r_inv in E3 as (st4 & _ & ?). simplify_eq.
  destruct (negb (error_code_eqb _ _)).
  - texts E1. change (cg_connected g1) with (cg_connected g). change (cg_rows g1) with (cg_rows g).
    rewrite Ec, Hrows. split_and!; [done..|]. right. eexists. split; [done|]. intros w Ew. constructor. by rewrite Ew.
  - unfold set_connect_text, gui_statusbar_set_text in E1. rewrite !tell_bind in E1.
    apply M_bind_inv in E1 as (g3 & [d5 st6] & E4 & E1). apply refresh_texts in E4 as (Est & Eco & rows & -> & Erows).
    texts E1. rewrite Eco. split_and!; [done|exact Erows|]. right. eexists. split; [rewrite Est; cbn; by rewrite put_put|].
    intros w Ew. apply (f_equal cg_connected) in Ew as Ec'. apply (f_equal cg_current_server) in Ew.
    cbn in Ec', Ew. rewrite <- Ew. by constructor.
Qed.

(** Texts of the discovery. *)
Lemma results_texts g d st g' d' st' :
  show_discovery_results g (d, st) = (g', (d', st')) ->
  dp_status d' = dp_status d /\ dp_connect d' = dp_connect d /\ dp_devices d' = dp_devices d.
Proof.
  intros E. unfold show_discovery_results in E. destruct (cg_discovery g) as [|x [|y l]]; by texts E.
Qed.

Lemma display_true_keep d w w' :
  cg_connected (cw_gui w') = cg_connected (cw_gui w) ->
  cg_current_server (cw_gui w') = cg_current_server (cw_gui w) ->
  rl_devices (cg_list (cw_gui w')) = rl_devices (cg_list (cw_gui w)) ->
  cg_rows (cw_gui w') = cg_rows (cw_gui w) ->
  cw_discover_enabled w' = cw_discover_enabled w -> display_true d w -> display_true d w'.
Proof.
  intros Ec Es El Er Ed [Hs Hc Hd]. split; rewrite ?Ec, ?Er; try done.
  intros t Ht. apply (status_of_keep w); auto.
Qed.
(** A text that has been set is one of those allowed. *)
Lemma put_true w control t0 :
  status_of w t0 -> forall t, put t0 control = Some t -> status_of w t.
Proof. intros Ht t E. destruct control; simpl in E; by simplify_eq. Qed.

Lemma connect_true O c0 dd0 w d n dd w' d' n' dd' :
  GuiClient.client_gui_inv O c0 dd0 (cw_gui w) n dd -> display_true d w ->
  window_connect w (d, (n, dd)) = (w', (d', (n', dd'))) -> display_true d' w'.
Proof.
  intros Hg [Hs Hc Hd] E. unfold window_connect in E. apply M_bind_inv in E as (g & [d1 [n1 dd1]] & E1 & E).
  unfold mret, M_ret in E. injection E as Ew <- <- <-.
  assert (cw_gui w' = g /\ cw_discover_enabled w' = cw_discover_enabled w) as [Eg Ed].
  { subst w'. by destruct (cg_connected (cw_gui w)), (cg_connected g). }
  eapply connect_texts in E1 as (Hc1 & Hd1 & Hs1); [|done..]. clear Ew. split; rewrite ?Eg; [|done..].
  destruct Hs1 as [[-> ->]|(t0 & -> & Ht0)]; [|apply put_true; by apply Ht0].
  intros t Ht. apply (status_of_keep w); [by rewrite Eg..|done|by apply Hs].
Qed.

Lemma checkbox_true O c0 dd0 alloc stale i checked w d n dd g d' n' dd' :
  GuiClient.client_gui_inv O c0 dd0 (cw_gui w) n dd -> GuiClient.fresh_device (cw_gui w) alloc ->
  is_Some (cg_rows (cw_gui w) !! i) -> display_true d w ->
  on_device_checkbox_changed alloc stale false i checked (cw_gui w) (d, (n, dd)) = (g, (d', (n', dd'))) ->
  display_true d' (cw_set_gui w g).
Proof.
  intros Hg Hf Hi [Hs Hc Hd] E. pose proof (GuiClient.row_connected _ _ _ _ _ _ _ Hg Hi) as Hcn.
  apply (checkbox_texts O c0 dd0) in E as (Eco & Ede & Ese & Ele & Ecn & Hm); [|done..].
  split; cbn; rewrite ?Eco, ?Ecn, ?Ede, ?Ele; [|done|].
  - destruct Hm as [[-> El]|(t0 & -> & Ht0)]; [|apply put_true; apply Ht0; [done|congruence]].
    intros t Ht. apply (status_of_keep w); [done..|by apply Hs].
  - intros _. apply Hd. intros Hnil. rewrite Hnil in Hi. by destruct Hi.
Qed.

Lemma proc_true O c0 dd0 env msg w d n dd w' d' n' dd' :
  GuiClient.client_gui_inv O c0 dd0 (cw_gui w) n dd -> GuiWindows.client_message_ok env msg w ->
  display_true d w -> ClientWndProc env msg w (d, (n, dd)) = (w', (d', (n', dd'))) -> display_true d' w'.
Proof.
  intros Hg [Hf Hm] Ht E. destruct msg as [wp|idf code ch new old i| |wp| | |]; cbn [ClientWndProc] in E.
  - destruct (_ =? GuiWindows.IDC_CLIENT_BTN_DISCOVER).
    { unfold on_discover_clicked in E. texts E. destruct Ht as [_ Hc Hd]. split; [|done..]. cbn.
      apply put_true. by constructor. }
    destruct (_ =? _); [by eapply connect_true|].
    destruct (_ =? _); [|unfold mret, M_ret in E; by injection E as <- <- <- <-].
    apply M_bind_inv in E as (g & [d1 st1] & E1 & E). unfold mret, M_ret in E. injection E as <- <- ->.
    apply refresh_texts in E1 as (Est & Eco & rows & -> & Er). destruct Ht as [Hs Hc Hd].
    split; cbn; rewrite ?Est, ?Eco; [|done..]. intros t Ht. apply (status_of_keep w); [done..|by apply Hs].
  - destruct (_ && _); [destruct (_ && _)|]; try (unfold mret, M_ret in E; by injection E as <- <- <- <-).
    apply M_bind_inv in E as (g & [d1 [n1 dd1]] & E1 & E). unfold mret, M_ret in E. injection E as <- <- <- <-.
    by eapply checkbox_true.
  - unfold gui_statusbar_set_text in E. rewrite tell_bind in E.
    apply M_bind_inv in E as (g & [d1 st1] & E1 & E). unfold mret, M_ret in E. injection E as <- <- ->.
    pose proof (tracks_run _ _ _ _ _ _ _ (results_tracks _) E1) as Eg. unfold mret, M_ret in Eg.
    apply results_texts in E1 as (Est & Eco & Ede). destruct Ht as [_ Hc Hd]. injection Eg as <- _.
    assert (cg_connected (GuiClient.show_discovery_results (cw_gui w)) = cg_connected (cw_gui w) /\
      cg_rows (GuiClient.show_discovery_results (cw_gui w)) = cg_rows (cw_gui w)) as [Ec Er]
      by (unfold GuiClient.show_discovery_results; by destruct (cg_discovery (cw_gui w))).
    split; cbn; rewrite ?Est, ?Eco, ?Ede, ?Ec, ?Er; [|done..]. apply put_true.
    destruct (cg_discovery (cw_gui w)); constructor.
  - apply lift_r_inv in E as (st2 & E & ?). simplify_eq. cbn [GuiWindows.ClientWndProc] in E.
    destruct (negb _); unfold mret, M_ret in E; injection E as <- _; by apply (display_true_keep d w).
  - destruct (_ >? _).
    + unfold gui_show_confirm, show_box, tell, mbind, M_bind in E. simpl in E.
      assert (forall f w0, cw_gui w0 = cw_gui w -> cw_discover_enabled w0 = cw_discover_enabled w ->
        dp_status (f d) = dp_status d -> dp_connect (f d) = dp_connect d -> dp_devices (f d) = dp_devices d ->
        display_true (f d) w0) as Hbox.
      { intros f w0 Eg Ed Est Eco Ede. destruct Ht as [Hs Hc Hd]. split; rewrite ?Est, ?Eco, ?Ede, ?Eg; [|done..].
        intros t Ht. apply (status_of_keep w); [by rewrite Eg..|done|by apply Hs]. }
      destruct (negb _); unfold mret, M_ret in E; injection E as <- <- <- <-;
        by apply (Hbox (fun d => {| dp_status := dp_status d; dp_connect := dp_connect d;
          dp_devices := dp_devices d; dp_boxes := dp_boxes d ++ [_] |})).
    + unfold mret, M_ret in E. injection E as <- <- <- <-. by apply (display_true_keep d w).
  - apply lift_r_inv in E as (st2 & E & ?). simplify_eq. unfold mret, M_ret in E. simpl in E.
    injection E as <- _. by apply (display_true_keep d w).
  - apply lift_r_inv in E as (st2 & E & ?). simplify_eq. unfold mret, M_ret in E. simpl in E. by injection E as <- _.
Qed.
End preserved.

(** ** The server's label *)

Section server_label.
  Context `{WideText}.

(** The label of [populate_device_list] in [server_gui.c], and the program after it. *)
Definition server_devices_text (index : Z) : list Z :=
  snprintf 64 (str "USB Devices on This Computer (" ++ fmt_d index ++ str "):").

Definition server_populate (utf8 : list Z -> nat -> option bytes) (host_initialized : bool)
    (dev_info : ptr (list di_entry)) (allocs : list (ptr Z)) (g : GuiServer.gui_server) :
    list Z * GuiServer.gui_server :=
  let '(g, _, index) := (usb_enumerate_devices utf8 host_initialized dev_info enum_device_callback
                           (GuiServer.gs_set_rows g (gui_listview_clear (GuiServer.gs_rows g)), allocs, 0%nat)).2 in
  (server_devices_text (Z.of_nat index), g).

(** The index counts the rows. *)
Lemma enum_callback_fold devs g allocs :
  fold_left (fun a d => enum_device_callback d a) devs (g, allocs, length (GuiServer.gs_rows g)) =
  let r := fold_left (fun a d => GuiServer.enum_device_callback d a) devs (g, allocs) in
  (r, length (GuiServer.gs_rows r.1)).
Proof.
  revert g allocs. induction devs as [|x devs IH]; intros g allocs; cbn [fold_left]; [done|].
  rewrite server_rows_filled. destruct (GuiServer.enum_device_callback x (g, allocs)) as [g1 al1] eqn:E.
  assert (S (length (GuiServer.gs_rows g)) = length (GuiServer.gs_rows g1)) as ->; [|apply IH].
  unfold GuiServer.enum_device_callback in E.
  destruct (device_list_find _ _); injection E as <- <-; cbn; rewrite length_app; simpl; lia.
Qed.

(** The label says how many rows there are. *)
Lemma server_label_counts utf8 init info allocs g :
  let g' := GuiServer.populate_device_list utf8 init info allocs g in
  server_populate utf8 init info allocs g =
    (server_devices_text (Z.of_nat (length (GuiServer.gs_rows g'))), g').
Proof.
  unfold server_populate, GuiServer.populate_device_list, usb_enumerate_devices. destruct init; [|done]. cbn [negb].
  destruct info as [es|]; [|done]. rewrite !enumerate_loop_fold. cbn [snd fst].
  pose proof (enum_callback_fold (enumerated utf8 es) (GuiServer.gs_set_rows g []) allocs) as Hl.
  change (length (GuiServer.gs_rows (GuiServer.gs_set_rows g []))) with 0%nat in Hl.
  cbv zeta in Hl. unfold gui_listview_clear. rewrite Hl. clear Hl.
  by destruct (fold_left (fun a d => GuiServer.enum_device_callback d a) _ _) as [g1 al1].
Qed.
End server_label.

(** ** Properties *)

Section properties.
  Context {N D : Type} `{WinsockLaws N} `{VhciDriverLaws D} `{WideTextLaws} `{Screen}.
  Implicit Types (n : N) (dd : D) (d : display) (w : client_window).

Lemma display_steps_true O c0 dd0 x y :
  rtc display_step x y ->
  GuiClient.client_gui_inv O c0 dd0 (cw_gui x.1.2) x.2.1 x.2.2 -> display_true x.1.1 x.1.2 ->
  display_true y.1.1 y.1.2.
Proof.
  induction 1 as [|x y z Hxy _ IH]; [done|]. intros Hg Ht. apply IH; clear IH.
  - pose proof (display_step_window _ _ Hxy) as Hs. apply GuiWindows.client_window_step_gui in Hs.
    by apply (GuiClient.client_events_inv O c0 dd0) in Hs.
  - destruct Hxy as [d w [n dd] env msg d' w' [n' dd'] Hq Hok E|d w st server token
      |d w st fuel addr g' st' Hs E|d w n n' dd Ho]; cbn [fst snd] in *.
    + by eapply proc_true.
    + by apply (display_true_keep d w).
    + unfold GuiClient.discovery_thread_func in E.
      apply M_bind_inv in E as ([r|] & st1 & _ & E); unfold mret, M_ret in E; [|done]. injection E as <- <-.
      by apply (display_true_keep d w).
    + done.
Qed.

End properties.

(** ** Witnesses *)

Import GuiCommon.SimText.

#[local] Existing Instance GuiLayout.SimScreen.screen_laws.
#[local] Existing Instance GuiWindows.example_screen.

(** The user types a server and connects. *)
Definition example_typed : client_window :=
  cw_set_gui GuiWindows.example_client_opened.1.2
    (cg_set_edits (cw_gui GuiWindows.example_client_opened.1.2) (str "server") (str "secret")
       (cg_discovery (cw_gui GuiWindows.example_client_opened.1.2))).

Definition press_connect (w : client_window) (x : display * (Sim.net * SimVhci.vhci)) :=
  ClientWndProc GuiWindows.example_client_message (CM_COMMAND GuiWindows.IDC_CLIENT_BTN_CONNECT) w x.

Definition example_connected :=
  press_connect example_typed (created_display true, GuiWindows.example_client_opened.2).

(** And presses the button again. *)
Definition example_disconnected := press_connect example_connected.1 example_connected.2.

(** The label over the devices is not one of the texts that are always true: it is set by
    a listing that succeeds, and [client_gui_disconnect] leaves it. *)
Lemma label_outlives_connection :
  dp_devices example_connected.2.1 = str "Remote Devices (1):" /\
  dp_status example_disconnected.2.1 = Some (str "Disconnected") /\
  cg_rows (cw_gui example_disconnected.1) = [] /\
  dp_devices example_disconnected.2.1 = str "Remote Devices (1):".
Proof. by vm_compute. Qed.

