(* ===== verification/Console.v ===== *)
(** * What the programs print

    The listings of [server/device_list.c], [server/client_manager.c],
    [server/urb_handler.c], [client/remote_device.c], [client/vhci_win32.c] and
    [client/discovery.c], the usage texts of the two [main.c] and the output of the
    client's commands, as the text that [printf] or the log gets.

    Nothing is decided by this text, but the user reads the bus ids and ports of the next
    command from it: the theorems say that the listings show what is there, that they
    agree with each other, and that the names they show are the ones that the command line
    accepts. *)

From Stdlib Require Import String.
From S2P Require Import Prelude CTypes Format Errors Log Protocol Net NetAddr ProtocolIO Auth UsbHost DeviceList.
From S2P Require Import UrbQueue UrbHandler ClientManager Server ServerMain Vhci Discovery RemoteDevice ClientMain.

Definition APP_NAME : string := "USB Over Network".
Definition APP_VERSION : string := "1.0.0".
Definition CLIENT_APP_NAME : string := "USB Over Network - Client".

(** One line of text. *)
Definition line (text : bytes) : bytes := text ++ newline.

(** [%04X:%04X]. *)
Definition fmt_ids (vendor product : Z) : bytes := fmt_0X 4 vendor ++ str ":" ++ fmt_0X 4 product.

(** ** The server's listings, in the log

    One message per line, with its level. *)

Definition log_message : Type := Z * bytes.

Definition LOG_INFO (text : bytes) : log_message := (LOG_LEVEL_INFO, text).
Definition LOG_DEBUG (text : bytes) : log_message := (LOG_LEVEL_DEBUG, text).

Definition separator : log_message := LOG_INFO (str "----------------------------------------").

Definition yes_no (b : bool) : bytes := if b then str "Yes" else str "No".

Definition client_line (e : device_entry) : log_message :=
  LOG_INFO (str "    Client: " ++ fmt_u (de_client_id e) ++ str " (" ++ cstr (de_client_ip e) ++ str ")").

(** The body of the loop. *)
Definition print_entry (index : Z) (e : device_entry) : list log_message :=
  [LOG_INFO (str "[" ++ fmt_d index ++ str "] " ++ cstr (dev_busid (de_device e)) ++ str " - " ++
     fmt_ids (dev_vendor_id (de_device e)) (dev_product_id (de_device e)) ++ str " (" ++
     str (device_state_string (de_state e)) ++ str ")");
   LOG_INFO (str "    Product: " ++ cstr (dev_product (de_device e)));
   LOG_INFO (str "    Shared: " ++ yes_no (de_is_shared e))] ++
  (if bool_decide (de_state e = DEVICE_STATE_EXPORTED) then [client_line e] else []).

Fixpoint print_entries (index : Z) (entries : list device_entry) : list log_message :=
  match entries with
  | [] => []
  | e :: entries => print_entry index e ++ print_entries (index + 1) entries
  end.

Definition device_list_print (devices : ptr device_list) : list log_message :=
  match devices with
  | NULL => []
  | Some l =>
      let l := device_list_lock l in
      [LOG_INFO (str "Device List (" ++ fmt_d (dl_count l) ++ str " devices):"); separator] ++
      print_entries 0 (dl_entries l) ++ [separator]
  end.

Definition client_print_info (client : ptr client_connection) : list log_message :=
  match client with
  | NULL => []
  | Some c =>
      [LOG_INFO (str "Client " ++ fmt_u (cl_id c) ++ str ":");
       LOG_INFO (str "  Address: " ++ cstr (cl_ip_address c) ++ str ":" ++ fmt_u (cl_port c));
       LOG_INFO (str "  State: " ++ str (client_state_string (cl_state c)))] ++
      (if negb (char_at (cl_attached_busid c) 0 =? 0)
       then [LOG_INFO (str "  Device: " ++ cstr (cl_attached_busid c))] else []) ++
      [LOG_INFO (str "  URBs: " ++ fmt_u (cl_urbs_processed c));
       LOG_INFO (str "  Sent: " ++ fmt_u (cl_bytes_sent c) ++ str " bytes");
       LOG_INFO (str "  Received: " ++ fmt_u (cl_bytes_received c) ++ str " bytes")]
  end.

Fixpoint print_clients (clients : list client_connection) : list log_message :=
  match clients with
  | [] => []
  | c :: clients => client_print_info (Some c) ++ print_clients clients
  end.

Definition client_manager_print (manager : ptr client_manager) : list log_message :=
  match manager with
  | NULL => []
  | Some m =>
      return_if negb (cm_initialized m) with [] ;;
      [LOG_INFO (str "Client Manager (" ++ fmt_d (cm_client_count m) ++ str " clients):"); separator] ++
      print_clients (cm_clients m) ++ [separator]
  end.

Definition urb_handler_print_urb (entry : ptr urb_entry) : list log_message :=
  match entry with
  | NULL => []
  | Some e =>
      [LOG_DEBUG (str "URB Entry:");
       LOG_DEBUG (str "  Seqnum: " ++ fmt_u (ent_seqnum e));
       LOG_DEBUG (str "  DevID: 0x" ++ fmt_0X 8 (ent_devid e));
       LOG_DEBUG (str "  Endpoint: 0x" ++ fmt_0X 2 (urb_endpoint (ent_urb e)));
       LOG_DEBUG (str "  Direction: " ++
         (if urb_direction (ent_urb e) =? USBIP_DIR_IN then str "IN" else str "OUT"));
       LOG_DEBUG (str "  Buffer Length: " ++ fmt_u (urb_buffer_length (ent_urb e)));
       LOG_DEBUG (str "  Actual Length: " ++ fmt_u (urb_actual_length (ent_urb e)));
       LOG_DEBUG (str "  Status: " ++ fmt_d (urb_status (ent_urb e)));
       LOG_DEBUG (str "  Completed: " ++ yes_no (ent_completed e))]
  end.

(** ** The client's listings, on the console *)

(** [urbs_sent], [urbs_received]: nothing assigns these two fields after [calloc]. *)
Definition remote_device_print (device : ptr remote_device) : bytes :=
  match device with
  | NULL => []
  | Some d =>
      line (str "  Port " ++ fmt_d (rd_vhci_port d) ++ str ": " ++ cstr (rd_busid d)) ++
      line (str "    VID:PID: " ++ fmt_ids (ud_idVendor (rd_device_info d)) (ud_idProduct (rd_device_info d))) ++
      line (str "    Server: " ++ cstr (rd_server_ip d) ++ str ":" ++ fmt_u (rd_server_port d)) ++
      line (str "    State: " ++ str (remote_device_state_string (rd_state d))) ++
      line (str "    URBs: sent=" ++ fmt_u 0 ++ str " recv=" ++ fmt_u 0)
  end.

Fixpoint print_remote_devices (devices : list remote_device) : bytes :=
  match devices with
  | [] => []
  | d :: devices => remote_device_print (Some d) ++ print_remote_devices devices
  end.

Definition no_devices_line : bytes := line (str "  No devices attached").

Definition remote_device_list_print (devices : ptr remote_device_list) : bytes :=
  match devices with
  | NULL => line (str "Remote device list not initialized")
  | Some l =>
      return_if negb (rl_initialized l) with line (str "Remote device list not initialized") ;;
      newline ++ line (str "Attached Devices (" ++ fmt_d (rl_count l) ++ str "):") ++
      line (str "---------------------") ++
      (if rl_count l =? 0 then no_devices_line else print_remote_devices (rl_devices l)) ++ newline
  end.

(** The strings of a record that was received: they are read from the first byte of their
    field to the first NUL, which may lie in a later field if the server sent none. *)
Definition record_path (dev : usbip_usb_device) : bytes := cstr (usb_device_mem dev).
Definition record_busid (dev : usbip_usb_device) : bytes := cstr (drop USBIP_PATH_MAX (usb_device_mem dev)).

(** The first line of a device, and the rest of its block. *)
Definition device_headline (i : Z) (dev : usbip_usb_device) : bytes :=
  line (str "[" ++ fmt_d (i + 1) ++ str "] " ++ record_busid dev ++ str ": " ++
        fmt_ids (ud_idVendor dev) (ud_idProduct dev)).

Definition device_properties (dev : usbip_usb_device) : bytes :=
  line (str "    Class: " ++ str (usb_class_string (ud_bDeviceClass dev)) ++ str " (" ++
        fmt_0X 2 (ud_bDeviceClass dev) ++ str "/" ++ fmt_0X 2 (ud_bDeviceSubClass dev) ++ str "/" ++
        fmt_0X 2 (ud_bDeviceProtocol dev) ++ str ")") ++
  line (str "    Speed: " ++ str (usb_speed_string (ud_speed dev))) ++
  line (str "    Interfaces: " ++ fmt_u (ud_bNumInterfaces dev)) ++ newline.

Definition device_details (dev : usbip_usb_device) : bytes :=
  line (str "    Path: " ++ record_path dev) ++ device_properties dev.

Fixpoint print_server_devices (i : Z) (devices : list usbip_usb_device) : bytes :=
  match devices with
  | [] => []
  | dev :: devices => device_headline i dev ++ device_details dev ++ print_server_devices (i + 1) devices
  end.

Definition remote_server_print_devices (devices : ptr (list usbip_usb_device)) (device_count : Z) : bytes :=
  match devices with
  | NULL => line (str "No devices available.")
  | Some ds =>
      return_if device_count =? 0 with line (str "No devices available.") ;;
      newline ++ line (str "Available devices on server:") ++ line (str "----------------------------") ++
      print_server_devices 0 (take (Z.to_nat device_count) ds)
  end.

(** One port that is in use. *)
Definition print_port (i : Z) (p : vhci_port_info) : bytes :=
  line (str "  Port " ++ fmt_d i ++ str ": " ++ str (vhci_port_state_string (vp_state p))) ++
  line (str "    Device: " ++ cstr (vp_busid p)) ++
  line (str "    Server: " ++ cstr (vp_server_ip p) ++ str ":" ++ fmt_u (vp_server_port p)).

(** The loop over the ports: whether one is in use, and what was printed. *)
Fixpoint print_ports (i : Z) (ports : list vhci_port_info) (any_connected : bool) : bool * bytes :=
  match ports with
  | [] => (any_connected, [])
  | p :: ports =>
      if negb (port_is_free p) then
        let '(any, text) := print_ports (i + 1) ports true in (any, print_port i p ++ text)
      else print_ports (i + 1) ports any_connected
  end.

Definition vhci_print_status (ctx : ptr vhci_context) : bytes :=
  match ctx with
  | NULL => line (str "VHCI not initialized")
  | Some c =>
      return_if negb (vc_initialized c) with line (str "VHCI not initialized") ;;
      let '(any_connected, text) :=
        print_ports 0 (take (Z.to_nat (vc_max_ports c)) (default [] (vc_ports c))) false in
      newline ++ line (str "VHCI Status:") ++ line (str "------------") ++
      line (str "Max ports: " ++ fmt_d (vc_max_ports c)) ++
      line (str "Driver: " ++ (if bool_decide (vc_driver_handle c <> NULL) then str "Available"
                               else str "Not available")) ++
      newline ++ line (str "Ports:") ++ text ++
      (if negb any_connected then no_devices_line else []) ++ newline
  end.

Definition print_server (i : Z) (server : discovered_server) : bytes :=
  str "[" ++ fmt_d (i + 1) ++ str "] " ++ cstr (ds_ip_address server) ++
  (if negb (char_at (ds_hostname server) 0 =? 0) then str " (" ++ cstr (ds_hostname server) ++ str ")" else []) ++
  str " - " ++ fmt_d (ds_device_count server) ++ str " device(s)" ++
  line (str " [" ++ fmt_u (ds_response_time_ms server) ++ str " ms]").

Fixpoint print_servers (i : Z) (servers : list discovered_server) : bytes :=
  match servers with
  | [] => []
  | server :: servers => print_server i server ++ print_servers (i + 1) servers
  end.

Definition discovery_print_results (result : ptr (list discovered_server)) : bytes :=
  match result with
  | NULL => line (str "No servers found.")
  | Some servers =>
      return_if bool_decide (servers = []) with line (str "No servers found.") ;;
      newline ++ line (str "Discovered servers:") ++ line (str "-------------------") ++
      print_servers 0 servers ++ newline
  end.

(** ** The usage texts *)

Definition server_print_usage (prog_name : bytes) : bytes :=
  line (str APP_NAME ++ str " v" ++ str APP_VERSION ++ str " - USB/IP Server") ++
  newline ++ line (str "Usage: " ++ prog_name ++ str " [OPTIONS]") ++
  newline ++ line (str "Options:") ++
  line (str "  -p, --port PORT       Listen port (default: " ++ fmt_d USBIP_PORT ++ str ")") ++
  line (str "  -b, --bind ADDR       Bind address (default: 0.0.0.0)") ++
  line (str "  -d, --device BUSID    Share only specific device") ++
  line (str "  -k, --auth-token T    Preshared token clients must present") ++
  line (str "                        (default: $USBIP_AUTH_TOKEN env, empty=off)") ++
  line (str "  -l, --list            List available USB devices and exit") ++
  line (str "  -v, --verbose         Verbose output") ++
  line (str "  -h, --help            Show this help") ++
  newline ++ line (str "Examples:") ++
  line (str "  " ++ prog_name ++ str "                    Share all USB devices on port " ++ fmt_d USBIP_PORT) ++
  line (str "  " ++ prog_name ++ str " -d 1-2             Share only device 1-2") ++
  line (str "  " ++ prog_name ++ str " -p 5000 -v         Use port 5000 with verbose logging").

Definition client_print_usage (prog_name : bytes) : bytes :=
  line (str APP_NAME ++ str " v" ++ str APP_VERSION ++ str " - USB/IP Client") ++
  newline ++ line (str "Usage: " ++ prog_name ++ str " [OPTIONS] <command> [args]") ++
  newline ++ line (str "Commands:") ++
  line (str "  discover                    Discover USB/IP servers on LAN") ++
  line (str "  list <server_ip>            List devices on server") ++
  line (str "  attach <server_ip> <busid>  Attach remote device") ++
  line (str "  detach <port>               Detach device from local port") ++
  line (str "  status                      Show attached devices") ++
  newline ++ line (str "Options:") ++
  line (str "  -p, --port PORT       Server port (default: " ++ fmt_d USBIP_PORT ++ str ")") ++
  line (str "  -k, --auth-token T    Preshared token (default: $USBIP_AUTH_TOKEN)") ++
  line (str "  -v, --verbose         Verbose output") ++
  line (str "  -h, --help            Show this help") ++
  newline ++ line (str "Examples:") ++
  line (str "  " ++ prog_name ++ str " discover") ++
  line (str "  " ++ prog_name ++ str " list 192.168.1.100") ++
  line (str "  " ++ prog_name ++ str " attach 192.168.1.100 1-2") ++
  line (str "  " ++ prog_name ++ str " detach 0").

(** ** The output of the commands *)

Section commands.
  Context {N D : Type} `{Winsock N} `{VhciDriver D}.

Definition discover_output (env : client_env) (fuel : nat) : M (N * D) (option bytes) :=
  r ← cmd_discover env fuel;
  mret (match r with
        | None => None
        | Some (code, servers) => Some (
            line (str "Discovering USB/IP servers on LAN...") ++ newline ++
            (if negb (code =? 0) then [] else
             discovery_print_results (Some servers) ++
             (if bool_decide (servers = []) then
                line (str "No servers responded. You can try direct connection with:") ++
                line (str "  " ++ str CLIENT_APP_NAME ++ str " list <server_ip>")
              else [])))
        end).

Definition list_output (g : client_config) (token : ptr bytes) : M (N * D) bytes :=
  '(code, devices) ← cmd_list g token;
  mret (line (str "Listing devices on " ++ cstr (cc_server_ip g) ++ str ":" ++ fmt_u (cc_server_port g) ++ str "...") ++
        newline ++
        (if negb (code =? 0) then [] else
         remote_server_print_devices (Some devices) (Z.of_nat (length devices)) ++
         (if Z.of_nat (length devices) >? 0 then
            line (str "To attach a device, use:") ++
            line (str "  " ++ str CLIENT_APP_NAME ++ str " attach " ++ cstr (cc_server_ip g) ++ str " <busid>")
          else []))).

(** The exit code and what is printed on the console. *)
Definition status_output (env : client_env) : M (N * D) (Z * bytes) :=
  let printed := line (str "USB/IP Client Status") ++ line (str "====================") ++ newline in
  '(err, vg, vhci) ← lift_r (vhci_init (ce_calloc env) vhci_start (Some vhci_context_zero));
  if negb (error_code_eqb err ERR_SUCCESS) then mret (1, printed) else
  '(available, _) ← lift_r (vhci_is_available vg);
  let printed := printed ++
    line (str "VHCI Driver: " ++ (if available : bool then str "Available" else str "Not installed")) ++
    vhci_print_status vhci in
  lift_r (vhci_cleanup vhci) ;; mret (0, printed).
End commands.

(** ** Lemmas *)

Lemma cstr_app_terminated s r : 0 ∈ s -> cstr (s ++ r) = cstr s.
Proof.
  induction s as [|c s IH]; intros Hin; [by apply not_elem_of_nil in Hin|]. simpl.
  destruct (Z.eqb_spec c 0) as [->|Hc]; [done|]. apply elem_of_cons in Hin as [?|Hin]; [by subst|].
  by rewrite IH.
Qed.

Lemma terminated_length s : 0 ∈ s -> (length (cstr s) < length s)%nat.
Proof.
  induction s as [|c s IH]; intros Hin; [by apply not_elem_of_nil in Hin|]. simpl.
  destruct (Z.eqb_spec c 0) as [->|Hc]; [simpl; lia|]. apply elem_of_cons in Hin as [?|Hin]; [by subst|].
  simpl. specialize (IH Hin). lia.
Qed.

Lemma record_strings d :
  usb_device_ok d ->
  (0 ∈ ud_path d -> record_path d = cstr (ud_path d)) /\
  (0 ∈ ud_busid d -> record_busid d = cstr (ud_busid d)).
Proof.
  intros ((_ & Hp) & _). unfold record_path, record_busid, usb_device_mem. split; intros H0.
  - by rewrite cstr_app_terminated.
  - rewrite drop_app_length' by done. by rewrite cstr_app_terminated.
Qed.

Lemma print_server_devices_app i ds1 d ds2 :
  print_server_devices i (ds1 ++ d :: ds2) =
  print_server_devices i ds1 ++ device_headline (i + Z.of_nat (length ds1)) d ++ device_details d ++
  print_server_devices (i + Z.of_nat (length ds1) + 1) ds2.
Proof.
  revert i. induction ds1 as [|x ds1 IH]; intros i; cbn [app print_server_devices length].
  - by rewrite Z.add_0_r.
  - rewrite IH, <- !app_assoc. do 4 f_equal; [f_equal; lia|]. do 2 f_equal. lia.
Qed.

(** The text of a port, empty when it is free. *)
Definition port_text (c : vhci_context) (i : Z) : bytes :=
  match get_port c i with
  | Some p => if port_is_free p then [] else print_port i p
  | None => []
  end.

Definition port_used (c : vhci_context) (i : Z) : bool :=
  match get_port c i with Some p => negb (port_is_free p) | None => false end.

Lemma print_ports_run c ps k any :
  (forall i p, ps !! i = Some p -> get_port c (Z.of_nat (k + i)) = Some p) ->
  print_ports (Z.of_nat k) ps any =
  (any || existsb (port_used c) (seqZ (Z.of_nat k) (Z.of_nat (length ps))),
   concat (port_text c <$> seqZ (Z.of_nat k) (Z.of_nat (length ps)))).
Proof.
  revert k any. induction ps as [|p ps IH]; intros k any Hp; [by rewrite orb_false_r|].
  cbn [length]. rewrite seqZ_cons by lia. rewrite fmap_cons. cbn [concat existsb print_ports].
  pose proof (Hp 0%nat p eq_refl) as H0. rewrite Nat.add_0_r in H0.
  replace (Z.pred (Z.of_nat (S (length ps)))) with (Z.of_nat (length ps)) by lia.
  replace (Z.succ (Z.of_nat k)) with (Z.of_nat (S k)) by lia.
  replace (Z.of_nat k + 1) with (Z.of_nat (S k)) by lia.
  assert (port_used c (Z.of_nat k) = negb (port_is_free p)) as Hu by (unfold port_used; by rewrite H0).
  assert (port_text c (Z.of_nat k) = if port_is_free p then [] else print_port (Z.of_nat k) p) as Ht
    by (unfold port_text; by rewrite H0).
  rewrite Hu, Ht, !IH by (intros i q Hq; rewrite <- (Hp (S i) q Hq); f_equal; lia).
  destruct (port_is_free p); cbn [negb]; [done|]. by rewrite orb_true_r.
Qed.

(** The text before the ports; [driver]: whether the context has a handle. *)
Definition status_head (driver : bool) : bytes :=
  newline ++ line (str "VHCI Status:") ++ line (str "------------") ++
  line (str "Max ports: " ++ fmt_d VHCI_MAX_PORTS) ++
  line (str "Driver: " ++ (if driver then str "Available" else str "Not available")) ++
  newline ++ line (str "Ports:").

Lemma status_text c :
  vhci_inv c ->
  vhci_print_status (Some c) =
  status_head (bool_decide (vc_driver_handle c <> NULL)) ++ concat (port_text c <$> seqZ 0 VHCI_MAX_PORTS) ++
  (if negb (existsb (port_used c) (seqZ 0 VHCI_MAX_PORTS)) then no_devices_line else []) ++ newline.
Proof.
  intros [Hi Hm (ps & Eps & Hlen & _) _]. cbn [vhci_print_status]. rewrite Hi. cbn [negb]. rewrite Hm, Eps.
  cbn [default from_option id].
  assert (take (Z.to_nat VHCI_MAX_PORTS) ps = ps) as -> by (apply take_ge; lia).
  pose proof (print_ports_run c ps 0 false) as Hr. change (Z.of_nat 0) with 0 in Hr. rewrite Hr.
  - rewrite orb_false_l. unfold status_head. rewrite <- !(assoc_L (++)).
    by replace (Z.of_nat (length ps)) with VHCI_MAX_PORTS by (rewrite Hlen; done).
  - intros i p Hp. unfold get_port. rewrite Eps. simpl. by rewrite Nat2Z.id.
Qed.

Lemma remote_devices_text ds : print_remote_devices ds = concat ((fun d => remote_device_print (Some d)) <$> ds).
Proof. induction ds as [|d ds IH]; [done|]. rewrite fmap_cons. cbn [print_remote_devices concat]. by rewrite IH. Qed.

(** A number that the client prints, given back to it as an argument. *)
Lemma atoi_port p : in_range p -> atoi (fmt_d p) = p.
Proof.
  intros Hp. assert (Forall (fun q => atoi (fmt_d q) = q) (seqZ 0 VHCI_MAX_PORTS)) as Hf
    by (apply (bool_decide_unpack _); by vm_compute).
  rewrite Forall_forall in Hf. apply Hf, elem_of_seqZ. unfold in_range in Hp. lia.
Qed.

(** ** Properties *)

Section client_listings.
  Context {N D : Type} `{WinsockLaws N} `{VhciDriverLaws D}.
  Implicit Types (n : N) (dd : D) (O : gset Z).

(** the client's two listings agree.  In every state that connecting and disconnecting
    can reach, the list of devices shows each attached device once, in order, under
    their number; the status shows exactly the ports of these devices, as connected;
    either both or neither say that nothing is attached; and the number of a port, given
    to the detach command as it is printed, names that port. *)
Theorem client_listings_agree O l c n :
  rl_inv O l c n ->
  remote_device_list_print (Some l) =
    newline ++ line (str "Attached Devices (" ++ fmt_d (Z.of_nat (length (rl_devices l))) ++ str "):") ++
    line (str "---------------------") ++
    (if bool_decide (rl_devices l = []) then no_devices_line
     else concat ((fun d => remote_device_print (Some d)) <$> rl_devices l)) ++ newline /\
  (forall i, in_range i ->
     (i ∈ rd_ports l -> exists p, get_port c i = Some p /\ vp_state p = VHCI_PORT_CONNECTED /\
        port_text c i = print_port i p) /\
     (i ∉ rd_ports l -> port_text c i = [])) /\
  vhci_print_status (Some c) =
    status_head (bool_decide (vc_driver_handle c <> NULL)) ++ concat (port_text c <$> seqZ 0 VHCI_MAX_PORTS) ++
    (if bool_decide (rl_devices l = []) then no_devices_line else []) ++ newline /\
  (forall d g, d ∈ rl_devices l -> parse_args g [str "detach"; fmt_d (rd_vhci_port d)] =
     (0, set_command g CMD_DETACH (cc_server_ip g) (cc_busid g) (rd_vhci_port d))).
Proof.
  intros [Hi Hv Hc _ _ Hp Hd _ Hf]. rewrite Forall_forall in Hd.
  assert (forall i, in_range i ->
    (i ∈ rd_ports l -> exists p, get_port c i = Some p /\ vp_state p = VHCI_PORT_CONNECTED /\
       port_text c i = print_port i p) /\ (i ∉ rd_ports l -> port_text c i = [])) as Hports.
  { intros i Hr. split.
    - intros (d & -> & Hin)%list_elem_of_fmap. destruct (Hd d Hin) as (_ & _ & _ & _ & Hs).
      unfold port_in_state in Hs. unfold port_text. destruct (get_port c _) as [p|]; [|done].
      apply bool_decide_eq_true in Hs. exists p. split; [done|]. split; [done|].
      unfold port_is_free. by rewrite Hs.
    - intros Hn. unfold port_text. by rewrite (Hf i Hr Hn). }
  split; [|split; [exact Hports|split]].
  - cbn [remote_device_list_print]. rewrite Hi. cbn [negb]. rewrite Hc, remote_devices_text.
    destruct (rl_devices l) as [|d ds]; [done|]. rewrite bool_decide_eq_false_2 by done.
    destruct (Z.eqb_spec (Z.of_nat (length (d :: ds))) 0) as [E|]; [simpl in E; lia|done].
  - rewrite (status_text c Hv). do 3 f_equal.
    destruct (rl_devices l) as [|d ds] eqn:El.
    + rewrite bool_decide_eq_true_2 by done.
      assert (existsb (port_used c) (seqZ 0 VHCI_MAX_PORTS) = false) as ->; [|done].
      apply not_true_is_false. intros (i & Hin & Hu)%existsb_exists. apply list_elem_of_In, elem_of_seqZ in Hin.
      unfold port_used in Hu. rewrite Hf in Hu; [done|unfold in_range; lia|]. unfold rd_ports. rewrite El. apply not_elem_of_nil.
    + rewrite bool_decide_eq_false_2 by done.
      assert (existsb (port_used c) (seqZ 0 VHCI_MAX_PORTS) = true) as ->; [|done].
      destruct (Hd d ltac:(left)) as (_ & _ & _ & Hr & Hs). apply existsb_exists. exists (rd_vhci_port d).
      split; [apply list_elem_of_In, elem_of_seqZ; unfold in_range in Hr; lia|].
      unfold port_in_state in Hs. unfold port_used. destruct (get_port c _) as [p|]; [|done].
      apply bool_decide_eq_true in Hs. unfold port_is_free. by rewrite Hs.
  - intros d g Hin. destruct (Hd d Hin) as (_ & _ & _ & Hr & _). unfold parse_args. cbn [parse_options].
    change (char_at (str "detach") 0 =? 45) with false. cbn [negb parse_command].
    change (streq (str "detach") (str "discover")) with false. change (streq (str "detach") (str "list")) with false.
    change (streq (str "detach") (str "attach")) with false. change (streq (str "detach") (str "detach")) with true.
    cbv iota. by rewrite atoi_port.
Qed.
End client_listings.

(** what the list of a server's devices shows, the attach command accepts.  The line of
    a device stands at its place, with its number, and the bus id in it, given to the
    command line with the server's address, is the bus id that the import request then
    asks for; a device whose strings are terminated shows the strings of its record. *)
Theorem listed_device_attachable ds1 d ds2 ip g :
  usb_device_ok d -> 0 ∈ ud_path d -> 0 ∈ ud_busid d ->
  (exists before after,
     remote_server_print_devices (Some (ds1 ++ d :: ds2)) (Z.of_nat (length (ds1 ++ d :: ds2))) =
       before ++ line (str "[" ++ fmt_d (Z.of_nat (length ds1) + 1) ++ str "] " ++ cstr (ud_busid d) ++ str ": " ++
                       fmt_ids (ud_idVendor d) (ud_idProduct d)) ++
       line (str "    Path: " ++ cstr (ud_path d)) ++ after) /\
  exists g', parse_args g [str "attach"; ip; cstr (ud_busid d)] = (0, g') /\
    cc_command g' = CMD_ATTACH /\ cc_server_ip g' = take 63 (cstr ip) /\
    cstr (ir_busid (usbip_create_import_request (Some (cc_busid g')))) = cstr (ud_busid d).
Proof.
  intros Hok Hp Hb. destruct (record_strings d Hok) as [Ep Eb]. specialize (Ep Hp). specialize (Eb Hb).
  assert (length (cstr (ud_busid d)) < 32)%nat as Hlen.
  { destruct Hok as (_ & (_ & Hl) & _). unfold USBIP_BUSID_MAX in Hl. rewrite <- Hl. by apply terminated_length. }
  split.
  - cbn [remote_server_print_devices].
    destruct (Z.eqb_spec (Z.of_nat (length (ds1 ++ d :: ds2))) 0) as [E|_]; [rewrite length_app in E; simpl in E; lia|].
    rewrite Nat2Z.id, take_ge by done. rewrite print_server_devices_app.
    unfold device_headline, device_details. rewrite Ep, Eb, Z.add_0_l.
    exists (newline ++ line (str "Available devices on server:") ++ line (str "----------------------------") ++
            print_server_devices 0 ds1),
      (device_properties d ++ print_server_devices (Z.of_nat (length ds1) + 1) ds2).
    by rewrite <- !(assoc_L (++)).
  - eexists. unfold parse_args. cbn [parse_options]. change (char_at (str "attach") 0 =? 45) with false.
    cbn [negb parse_command]. change (streq (str "attach") (str "discover")) with false.
    change (streq (str "attach") (str "list")) with false. change (streq (str "attach") (str "attach")) with true.
    cbv iota. split; [reflexivity|]. cbn [set_command cc_command cc_server_ip cc_busid]. split; [done|]. split; [done|].
    rewrite (copy_str_id (cstr (ud_busid d))); [|auto with usbip|unfold USBIP_BUSID_MAX; lia].
    cbn [usbip_create_import_request ir_busid]. rewrite cstr_strncpy, cstr_cstr, take_ge; [done|..].
    + unfold USBIP_BUSID_MAX. lia.
    + rewrite length_replicate. unfold USBIP_BUSID_MAX. lia.
    + by vm_compute.
Qed.

(** *** The status command *)

Section status.
  Context {N D : Type} `{WinsockLaws N} `{VhciDriverLaws D}.
  Implicit Types (n : N) (dd : D).

(** The status command prints the same table whatever is attached: its own, in which
    every port is free. *)
Theorem status_command_text env n dd code text n' dd' :
  status_output env (n, dd) = ((code, text), (n', dd')) ->
  let heading := line (str "USB/IP Client Status") ++ line (str "====================") ++ newline in
  (code = 1 /\ text = heading) \/
  (code = 0 /\ exists available driver : bool, text = heading ++
     line (str "VHCI Driver: " ++ (if available then str "Available" else str "Not installed")) ++
     status_head driver ++ no_devices_line ++ newline).
Proof.
  intros E. unfold status_output in E. cbv zeta in E |- *.
  apply M_bind_inv in E as ([[e g1] v] & [n1 dd1] & E1 & E).
  apply start_controller in E1 as (-> & _ & [[Hne _]|(-> & c & -> & (Hc & Hf & _))]).
  { rewrite (error_code_eqb_false _ _ Hne) in E. cbn [negb] in E. unfold mret, M_ret in E.
    apply pair_equal_spec in E as [[<- <-]%pair_equal_spec _]. by left. }
  change (error_code_eqb ERR_SUCCESS ERR_SUCCESS) with true in E. cbn [negb] in E.
  apply M_bind_inv in E as ([a g2] & [n2 dd2] & _ & E). apply M_bind_inv in E as (r & [n3 dd3] & _ & E).
  unfold mret, M_ret in E. apply pair_equal_spec in E as [[<- <-]%pair_equal_spec _]. right. split; [done|].
  exists a, (bool_decide (vc_driver_handle c <> NULL)).
  rewrite (status_text c Hc).
  assert (concat (port_text c <$> seqZ 0 VHCI_MAX_PORTS) = []) as ->.
  { apply concat_nil_Forall, Forall_fmap, Forall_forall. intros i Hi%elem_of_seqZ. simpl. unfold port_text.
    rewrite Hf by (unfold in_range; lia). done. }
  assert (existsb (port_used c) (seqZ 0 VHCI_MAX_PORTS) = false) as ->.
  { apply not_true_is_false. intros (i & Hin & Hu)%existsb_exists. apply list_elem_of_In, elem_of_seqZ in Hin.
    unfold port_used in Hu. rewrite Hf in Hu; [done|unfold in_range; lia]. }
  cbn [negb app]. by rewrite <- !(assoc_L (++)).
Qed.
End status.

(** *** The server's two listings *)

Definition device_line (b : bytes) : log_message := LOG_INFO (str "  Device: " ++ cstr b).

Lemma print_entries_at entries k :
  print_entries k entries = concat (imap (fun i e => print_entry (k + Z.of_nat i) e) entries).
Proof.
  revert k. induction entries as [|e entries IH]; intros k; [done|].
  cbn [print_entries imap concat]. rewrite IH. f_equal; [f_equal; simpl; lia|]. f_equal.
  apply imap_ext. intros i x _. simpl. f_equal. lia.
Qed.

Lemma print_clients_at clients :
  print_clients clients = concat ((fun c => client_print_info (Some c)) <$> clients).
Proof. induction clients as [|c cs IH]; [done|]. rewrite fmap_cons. cbn [print_clients concat]. by rewrite IH. Qed.

Lemma client_line_printed i e : client_line e ∈ print_entry i e <-> de_state e = DEVICE_STATE_EXPORTED.
Proof.
  unfold print_entry. rewrite elem_of_app. destruct (bool_decide_reflect (de_state e = DEVICE_STATE_EXPORTED)) as [Hs|Hs].
  - split; [done|]. intros _. right. left.
  - split; [|done]. intros [Hin|Hin]; [|by apply elem_of_nil in Hin]. exfalso.
    repeat (apply elem_of_cons in Hin as [Hin|Hin]; [discriminate Hin|]). by apply elem_of_nil in Hin.
Qed.

Lemma device_line_printed c b :
  device_line b ∈ client_print_info (Some c) <->
  cstr (cl_attached_busid c) <> [] /\ cstr b = cstr (cl_attached_busid c).
Proof.
  assert (char_at (cl_attached_busid c) 0 = 0 <-> cstr (cl_attached_busid c) = []) as Hz.
  { destruct (cl_attached_busid c) as [|x s]; [done|]. cbn. destruct (Z.eqb_spec x 0); by split. }
  cbn [client_print_info]. rewrite !elem_of_app. split.
  - intros [Hin|[Hin|Hin]].
    1, 3: exfalso; repeat (apply elem_of_cons in Hin as [Hin|Hin]; [discriminate Hin|]); by apply elem_of_nil in Hin.
    destruct (Z.eqb_spec (char_at (cl_attached_busid c) 0) 0) as [E|E]; cbn [negb] in Hin; [by apply elem_of_nil in Hin|].
    apply list_elem_of_singleton in Hin. split; [by rewrite <- Hz|].
    unfold device_line, LOG_INFO in Hin. injection Hin as Hin. done.
  - intros [Hne Hb]. unfold device_line. rewrite Hb. right. left. destruct (Z.eqb_spec (char_at (cl_attached_busid c) 0) 0) as [E|E]; cbn [negb].
    + by destruct Hne; apply Hz.
    + left.
Qed.

(** the server's two listings agree.  In every state of the manager, the list of clients
    and the list of devices show each client and each device once, in order, under their
    number; a device is shown with a client exactly when a connected client is attached to
    it, which is then shown with that device; and a client that is shown with a device is
    the one that the device is shown with. *)
Theorem server_listings_agree m :
  cm_inv m ->
  client_manager_print (Some m) =
    [LOG_INFO (str "Client Manager (" ++ fmt_d (Z.of_nat (length (cm_clients m))) ++ str " clients):"); separator] ++
    concat ((fun c => client_print_info (Some c)) <$> cm_clients m) ++ [separator] /\
  device_list_print (Some (cm_device_list m)) =
    [LOG_INFO (str "Device List (" ++ fmt_d (Z.of_nat (length (dl_entries (cm_device_list m)))) ++
               str " devices):"); separator] ++
    concat (imap (fun i e => print_entry (Z.of_nat i) e) (dl_entries (cm_device_list m))) ++ [separator] /\
  (forall i e, e ∈ dl_entries (cm_device_list m) -> client_line e ∈ print_entry i e ->
     exists c, c ∈ cm_clients m /\ cl_id c = de_client_id e /\
       device_line (dev_busid (de_device e)) ∈ client_print_info (Some c)) /\
  (forall i c b, c ∈ cm_clients m -> device_line b ∈ client_print_info (Some c) ->
     exists e, e ∈ dl_entries (cm_device_list m) /\ cstr b = cstr (dev_busid (de_device e)) /\
       client_line e ∈ print_entry i e /\ de_client_id e = cl_id c).
Proof.
  intros [Hl Hb Hi Hc _ _ _ Hcl Hen]. rewrite Forall_forall in Hb. rewrite Forall_forall in Hcl.
  rewrite Forall_forall in Hen.
  pose proof (inv_entries _ Hl) as Hok. rewrite Forall_forall in Hok.
  split; [|split; [|split]].
  - cbn [client_manager_print]. rewrite Hi. cbn [negb]. by rewrite Hc, print_clients_at.
  - cbn [device_list_print]. unfold device_list_lock. destruct (dl_initialized _); cbn [set_lock dl_count dl_entries];
      by rewrite (inv_count _ Hl), print_entries_at.
  - intros i e He Hp%client_line_printed. destruct (Hen e He) as [[Hx _]|(c & Hcin & Ha)]; [done|].
    exists c. split; [done|]. destruct Ha as (_ & Hbid & _ & _ & _ & Hid & _). split; [done|].
    apply device_line_printed. rewrite Hbid. split; [|done].
    destruct (Hok e He) as ((_ & (Hn & _) & _) & _). specialize (Hb e He). unfold busid_of in *. by rewrite cstr_id.
  - intros i c b Hcin [Hne Heq]%device_line_printed. destruct (Hcl c Hcin) as [(_ & Hnil & _)|(e & He & Ha)].
    { by rewrite Hnil in Hne. }
    exists e. destruct Ha as (_ & Hbid & _ & _ & Hs & Hid & _). split; [done|]. split; [by rewrite Heq, Hbid|].
    split; [|done]. by apply client_line_printed.
Qed.

(** ** Witnesses *)

Lemma server_listings_agree_witness :
  exists c e, c ∈ cm_clients example_busy /\ e ∈ dl_entries (cm_device_list example_busy) /\
    client_line e ∈ print_entry 0 e /\ device_line (dev_busid (de_device e)) ∈ client_print_info (Some c).
Proof.
  destruct example_busy_inv as (Hinv & e & He & (_ & _ & _ & _ & Hs & _) & _).
  destruct (server_listings_agree example_busy Hinv) as (_ & _ & Hd & _).
  assert (client_line e ∈ print_entry 0 e) as Hp by (by apply client_line_printed).
  destruct (Hd 0 e He Hp) as (c & Hc & _ & Hl). exists c, e.
  split; [exact Hc|]. split; [exact He|]. split; [exact Hp|exact Hl].
Defined.

(** A client with one device. *)
Lemma client_listings_agree_witness :
  exists l c, length (rl_devices l) = 1%nat /\
    vhci_print_status (Some c) = status_head (bool_decide (vc_driver_handle c <> NULL)) ++ concat (port_text c <$> seqZ 0 VHCI_MAX_PORTS) ++ newline.
Proof.
  destruct (example_connect [import_reply]) as [[[[e r] v] out] [n1 dd1]] eqn:E.
  destruct (connect_spec {[5]} NULL 4096 empty_list example_ctx (str "server") 3240 (str "2-14")
    (example_net [import_reply]) example_driver e r v out n1 dd1 (no_device_inv (example_net [import_reply]))
    ltac:(apply not_elem_of_nil) E) as (l & c & -> & -> & _ & Hi & [(Hne & _)|(_ & sock & info & q & -> & _)]).
  { destruct Hne. change e with (e, Some l, Some c, out, (n1, dd1)).1.1.1.1. rewrite <- E. vm_compute. reflexivity. }
  destruct (client_listings_agree _ _ _ _ Hi) as (_ & _ & Hs & _).
  exists (add_device (connected_device 4096 (str "server") 3240 (str "2-14") sock info q) empty_list), c.
  split; [reflexivity|exact Hs].
Defined.

Lemma listed_device_attachable_witness :
  exists g', parse_args client_default [str "attach"; str "server"; cstr (ud_busid example_remote)] = (0, g') /\
    cstr (ir_busid (usbip_create_import_request (Some (cc_busid g')))) = str "2-14".
Proof.
  destruct (listed_device_attachable [] example_remote [] (str "server") client_default) as (_ & g' & Hp & _ & _ & Hb).
  - split_and!; try by vm_compute. all: repeat constructor; by vm_compute.
  - apply (bool_decide_unpack _). by vm_compute.
  - apply (bool_decide_unpack _). by vm_compute.
  - exists g'. split; [exact Hp|]. rewrite Hb. by vm_compute.
Defined.
